(* ===== verification/_CoqProject ===== *)
-Q . S2P
Prelude.v
GoInt.v
GoString.v
GoText.v
GoFloat.v
GoTime.v
QuotaWindow.v
QuotaPolicy.v
WindowBounds.v
GoDate.v
SubPlan.v
SubStock.v
SubOrder.v
SubGrant.v
StockSafety.v
CatalogSafety.v
ShopSafety.v
OrderRetry.v
SubUsage.v
SubStore.v
SubSafety.v
SubLedger.v
RateLimit.v
Commission.v
Redemption.v
TopUp.v
CreditLedger.v
CreditSafety.v
CreditHistory.v
CreditBonus.v
OrderLock.v
GoMonad.v
Wallet.v
Funding.v
BillingSession.v
BillingSafety.v
BillingOpen.v
BillingChoice.v
Billing.v
TaskBilling.v
TaskSafety.v
ChannelTable.v
ChannelCache.v
ChannelChoice.v
ChannelKeys.v
AbilitySync.v
ChannelSync.v
ChannelHistory.v
ChannelSelect.v
StatusCodes.v
NetAddr.v
SSRF.v
TokenAuth.v
TokenSafety.v
TextPrice.v
PriceSafety.v
ClaudeStream.v
GeminiStream.v
ClaudeProtocol.v
StreamRelay.v
StreamSafety.v
StreamContent.v
ChatConvert.v
ConvertSafety.v
TieredPrice.v
TieredSafety.v
Threads.v
Midjourney.v
MjSafety.v
MjHistory.v
PaymentBill.v
BillMatch.v
BillRun.v
BillSafety.v
CryptoBill.v
RetrySafety.v
HybridCache.v
Affinity.v
AffinitySafety.v
Distribute.v
