(* ===== verification/Prelude.v ===== *)
(** * AllRouter: verification of billing, channels and relayed streams

    AllRouter (Go module [new-api]) is a gateway in front of language-model
    providers.  Each relayed request is billed: an estimate is reserved before
    the upstream call, the real cost is settled afterwards, and a failed call
    is refunded.  The money comes from a wallet or from a subscription, whose
    quota is limited by windows.  A request goes to one of several channels, and
    its answer is relayed in the protocol of the client.  This library models
    that core.

    ** The program's parts and the files that model them

    - Go itself.  [GoInt]: 64-bit integers with wrap-around.  [GoString]: the
      functions of package [strings] in use.  [GoText], [GoFloat], [GoDate]: numbers,
      lists, floats and dates as text.  [NetAddr]: network addresses.  [GoTime]: civil dates, [AddDate],
      [Weekday].  [GoMonad]: state passing with errors, and rules to reason
      about it.
    - The subscription quota engine (src/model/subscription.go).
      [QuotaWindow]: window descriptions and [Normalize].  [QuotaPolicy]: plans,
      subscriptions, [NormalizeQuotaWindows], [quotaPolicyFromPlan],
      [quotaPolicyForSubscription].  [WindowBounds]: [quotaWindowBounds] and the
      aggregate periods.  [SubPlan]: end times, reset times, issuance and the
      lazy reset.  [SubUsage]: records, usage of a window, the settlement check.
      [SubStore]: the operations on the tables.  [SubSafety] and [SubLedger]:
      what every history of those operations guarantees.
    - Selling subscriptions (src/model/subscription_purchase_group.go, the
      orders and grants of src/model/subscription.go, the plan transactions of
      src/controller/subscription.go).  [SubStock]: plans with their stock,
      purchase scopes and limits, creation and update of plans.  [SubOrder]:
      checkout, payment callbacks, the mirrored top-up, provider income, expiry
      of unpaid orders.  [SubGrant]: administrative grants, airdrops, the
      registration gift, invalidation, deletion and expiry of subscriptions.
      [StockSafety], [CatalogSafety] and [ShopSafety]: what every history
      guarantees.  [OrderRetry]: repeated callbacks, overlapping upgrades.
    - Rate limiting.  [RateLimit]: the in-memory limiter
      (src/common/rate-limit.go) and the middlewares on it
      (src/middleware/rate-limit.go, src/middleware/model-rate-limit.go).
    - Balances.  [Wallet]: user rows (src/model/user.go), token rows
      (src/model/token.go), the channel counter (src/model/channel.go) and the
      batch updater (src/model/utils.go).
    - Billing.  [Funding]: the interface [FundingSource] and its wallet and
      subscription implementations (src/service/funding_source.go).
      [BillingSession]: src/service/billing_session.go.  [BillingSafety] and
      [BillingOpen]: the invariant of a session over all interleavings.
      [BillingChoice]: the choice of the funding source, with its fallbacks.
      [Billing]: src/service/billing.go, the path without a session
      (src/service/quota.go, src/service/pre_consume_quota.go).
    - Asynchronous tasks.  [TaskBilling]: src/service/task_billing.go and the
      completion of src/service/task_polling.go.  [TaskSafety]: what every
      history of a task guarantees.
    - Midjourney tasks.  [Midjourney]: their table and its writers
      (src/model/midjourney.go), the charge of a task and its refund
      (src/service/task_billing.go), the poller (src/controller/midjourney.go),
      the callback and the row of a submission (src/relay/mjproxy_handler.go).
      [Threads]: threads of database calls that rely on each other's promises.
      [MjSafety] and [MjHistory]: what pollers guarantee, running at the same time.
    - Streams.  [ClaudeStream] and [GeminiStream]: chunks of a chat completion
      as events of the other two protocols (src/service/convert.go).
      [StreamRelay]: the relay of a stream, from the lines of the upstream to what
      the client is sent and the usage that is billed
      (src/relay/channel/openai/relay-openai.go,
      src/relay/channel/openai/helper.go, src/relay/helper/stream_scanner.go).
      [ClaudeProtocol]: the client's automaton and the simulation of the converter
      by it.  [StreamSafety] and [StreamContent]: what a relayed
      stream guarantees.
    - Requests of other protocols.  [ChatConvert]: Claude and Gemini requests as
      chat completions, and the answer back (src/service/convert.go).
      [ConvertSafety]: what conversions keep.
    - Channels.  [ChannelTable]: the tables of channels and abilities and every
      operation that writes them (src/model/channel.go, src/model/ability.go).
      [ChannelCache]: the memory cache (src/model/channel_cache.go), the choice
      of a channel from it or from the database, status changes, multi-key
      channels.  [ChannelChoice]: the weighted choice.  [ChannelKeys]: polling of
      keys.  [AbilitySync], [ChannelSync] and [ChannelHistory]: what every
      history guarantees.  [ChannelSelect]: automatic groups and retries
      (src/service/channel_select.go, src/service/group.go, the loop of [Relay]
      in src/controller/relay.go).  [RetrySafety]: the loop ends.  [StatusCodes]:
      the rules that say which status codes are retried
      (src/setting/operation_setting/status_code_ranges.go).
    - Affinity and distribution.  [HybridCache]: caches with name spaces, in
      Redis or in memory (src/pkg/cachex).  [Affinity]: the channel that served a
      session before (src/service/channel_affinity.go).  [AffinitySafety]: what the
      cache of sessions remembers.  [Distribute]: the
      middleware that chooses the channel of a request
      (src/middleware/distributor.go), and which channel that is.
    - Admission.  [TokenAuth]: validation of API tokens (src/model/token.go) and
      the middleware every relay request passes (src/middleware/auth.go).
      [TokenSafety]: the writers of the token table and their invariant.
    - Outbound requests.  [SSRF]: the filter on URLs that users supply
      (src/common/ssrf_protection.go, src/common/ip.go).
    - Prices.  [TextPrice]: the invoice of a text request, the provider's price
      on top of it (src/service/text_quota.go, src/types/price_data.go) and the
      prices of tool calls (src/setting/operation_setting/tools.go).
      [PriceSafety]: what the invoice guarantees.  [TieredPrice]: prices written as
      expressions, the cache of compiled expressions and their settlement
      (src/pkg/billingexpr, src/service/tiered_settle.go).  [TieredSafety]: what
      they guarantee.
    - Commissions.  [Commission]: invitation rebates
      (src/model/consume_rebate.go) and provider profits
      (src/model/provider_profit.go) with their ledgers.
    - Credits.  [Redemption]: the tables of credits, redemption codes
      (src/model/redemption.go, src/controller/redemption.go) and the bonus of a
      top-up (src/model/topup_bonus.go).  [TopUp]: completion of an order by
      each gateway (src/model/topup.go), on-chain payments
      (src/model/crypto_transaction.go), check-ins (src/model/checkin.go).
      [CreditLedger], [CreditSafety] and [CreditHistory]: transitions, their
      invariants, what every history guarantees, and what happens without row
      locks.  [CreditBonus]: the bonus
      on every branch.
      [OrderLock]: the lock of an order (src/controller/topup.go) with its
      threads.

    - Payment bills.  [PaymentBill]: the tables of bill rows and results
      (src/model/payment_bill_record.go, src/model/payment_bill_reconcile.go) and
      the services that match bills with orders
      (src/service/wechat_trade_bill_reconcile.go,
      src/service/alipay_trade_bill_reconcile.go,
      src/service/stripe_trade_bill_reconcile.go), instances of one loop with a
      [BillChannel].  [BillMatch]: the loop over a bill, record by record.
      [BillRun]: a run over days as one batch.  [BillSafety]: what a run
      guarantees.  [CryptoBill]: on-chain payments
      (src/service/crypto_trade_bill_reconcile.go).

    A relayed request passes [TokenAuth], is given a channel by [Distribute] and
    calls [PreConsumeBilling], which chooses a funding source
    ([NewBillingSession]) and reserves on the token and on that source; a
    subscription source calls the quota engine, a wallet source the user rows.
    Afterwards [SettleBilling], [Refund] or [RollbackSettledBilling] moves both
    sides to their final amount.

    ** How state and operations correspond

    Structs are records with the source's field names behind a prefix; columns
    no modelled code reads are left out.  Tables are finite maps by id, except
    the pre-consume records, a list in id order.  A database transaction is a
    function to a result and new tables; an error leaves the tables as they
    were.  What the process cannot determine (failing database calls, clocks,
    cache hits) comes from an arbitrary sequence of replies ([reply_at] of class
    [Deployment]).  Code under a mutex is one computation; a goroutine is a
    [task] that makes one move at a time, so that theorems quantify over all
    interleavings ([session_step]).  [DBClock] is the database clock used by the
    fallback of [quotaWindowBounds], [LocalZone] the offset of the server's zone.

    ** What the theorems show

    - Quota safety: over every history of transactions that run one after the
      other and find no record stamped after they read the clock, no
      record-backed window is ever exceeded, at any time; the sliding settlement check decides exactly the
      quantified statement it stands for; cleanup never changes usage.
    - Ledger: request ids are charged once, settlement is idempotent and exact,
      refunds are final.
    - Windows and periods: the checked calendar arithmetic computes the bucket
      of a fixed partition of time; aggregate periods partition the life of a
      subscription; the lazy reset terminates in the current period.
    - Policies: no malformed row is accepted as unlimited; an issued
      subscription keeps the policy it was issued under.
    - Wallets: reward balance is spent first and returned to where it came
      from; deferring token updates does not change what a token is worth.
    - Sessions: money is conserved by every interleaving; a settlement charges
      the exact cost, a completed refund returns everything, a retried progress
      charges once, settling and refunding exclude each other, a refund
      completes; whatever the billing preference, one source pays or none.
    - Selling: over every history of checkouts, callbacks, expiries, grants and
      catalogue edits, stock is never oversold and every subscription bought is
      paid for; per-user limits hold while the catalogue stands; a callback may
      be repeated.
    - Rate limiting: as long as a key keeps its limit and the sweeper does not
      forget within a window, no window holds more than its maximum, and the
      bounded queue decides as the full log would.
    - Tasks: whatever database calls fail, wallet and token plus what a task
      holds are conserved, as long as a recovery pass finds a row that agrees
      with the task; a refunded task has returned everything, and the row
      follows the worker's object while it can be written.
    - Midjourney tasks: whatever pollers run at the same time and whatever
      calls fail, balances and what open tasks hold of them are conserved, a task
      is refunded once, and a failed one gets its money back.
    - Streams: when the upstream numbers its tool calls as the converter
      expects, what a Claude client receives is a run of its protocol; text,
      reasoning and arguments arrive unchanged and in order; an OpenAI client
      gets the items of the upstream as they are, but for a last one with a
      usage nobody asked for and no text.
    - Conversions: tool calls and results keep their order, ids, names and
      contents, and every result follows its call.
    - Commissions: every balance moves by what the ledgers record, every profit
      row accounts for its gross profit, and each kind of commission is paid
      once for a request.
    - Credits: over every history of orders, callbacks, redemptions, bonuses,
      code administration and check-ins, balances move as the top-up rows and
      check-ins do, also when redemptions overlap and used codes are reset, a
      completed order is final, a transfer pays once; a code is redeemed once
      when the transactions on it do not overlap; the bonus is for the highest tier and granted once;
      the order lock excludes, does not deadlock and does not leak.
    - Channels: after every history of the operations that keep the abilities
      in step ([admissible]) the cache offers exactly what the database would; a
      channel known to be disabled is never chosen when channels list their
      groups and models once; each channel wins
      its weight's share of the draws, keys are polled round-robin, the retry
      loop is bounded and walks the automatic groups in order; a retry rule
      matches exactly the codes its text names and survives being printed.
    - Distribution: with the memory cache on, a request goes to a channel that
      the cache holds as enabled (for models looked up in the database, to one
      with an enabled ability) and that is offered for its model in a group it
      may use, whatever the cache of sessions says; that cache answers with the
      channel last recorded under the key of the session that asks, clearing a rule forgets its sessions, and a rule's template fills
      in what a channel leaves open, in any order of its map.
    - Admission: a request is let through exactly when its token, address,
      owner, group and channel allow it, and after every history of the token
      table the requests of a user that it admits are of one tenant.
    - Outbound requests: the test for reserved addresses is membership of the
      listed blocks as numbers, but for the block of mapped addresses, which are
      judged by the IPv4 address they carry; and which URLs are accepted, for
      all settings.
    - Prices: the invoice bills every token of the usage on one line, more
      output never costs less, and a provider's price covers what the platform
      charges for the request; the variables of an expression hold every token
      once where totals include their parts, and the reported counts for
      Claude; the cache of expressions does not show, and no discount means the full price.
    - Payment bills: a run reports every paid order and every bill row without
      an order, a match means that the last row naming the order names no
      other and confirms it, a run can be repeated, and it ends; a matched crypto transaction is
      borne out by its chain, and a printed amount reads back.
    - Settlement: rebates are claimed once, provider charges are split without
      loss, an unmetered subscription request keeps its reservation.
    - Some theorems record behaviour that breaks the intended guarantee: a
      clock read before the transaction ([stale_clock_overspends]), a batch
      write that fails ([failed_flush_drops_charge]), a plan normalised twice
      ([normalization_revives_refused_plan]), overlapping upgrades
      ([renewed_upgrade_is_permanent]), a sweeper that forgets too early
      ([short_expiry_lifts_limit]), failed requests that count as successes
      ([failures_exhaust_success_limit]), a task row that cannot be written
      ([lost_checkpoint_charges_twice]), a token that cannot be read
      ([failed_lookup_skips_token]), reads ignored while the cache is filled
      ([failed_read_breaks_cache]), a model named twice
      ([duplicate_model_survives_disable]), abilities that outlive their channel
      ([orphan_ability_revived]), a weight of 0
      ([zero_weight_skips_abilities]), a biased draw
      ([database_choice_favours_first]), a name only the cache normalises
      ([wildcard_needs_cache]), a row lock that is not taken
      ([unlocked_code_pays_twice], [stale_edit_reopens]), a check-in taken back
      without its quota ([failed_checkin_keeps_quota]), a name with a final dot
      ([trailing_dot_is_not_listed]), a condition without its tenant
      ([delete_ignores_main_site]), a minimum charge the
      provider pays ([small_request_costs_provider]), tool prices that overlap
      ([ambiguous_tool_price]), an order paid twice
      ([double_payment_is_matched]), a refund followed by a payment
      ([refund_is_overwritten]), a day without a bill
      ([silent_day_is_not_checked]), an order completed late
      ([late_order_leaves_record]), currencies of the first run
      ([currency_is_not_refreshed]), edited decimals
      ([changed_decimals_break_match]), a report that leaves the status as it
      was ([same_status_refunds_twice]), a row read before its charge is recorded
      ([early_read_pays_wallet]), a callback that ends a task
      ([callback_failure_is_not_refunded]), a refund for a deleted token
      ([deleted_token_blocks_refund]), an answer nobody asked for
      ([unknown_task_stops_poller]), an end marker without its field name
      ([bare_marker_is_data]), a stream that is cut ([cut_stream_is_not_closed]),
      tool calls after text ([calls_after_text_break_stream]), a chunk without
      choices ([keepalive_ends_message]), usage before the last chunk
      ([usage_before_last_is_ignored]), a finish reason next to a usage nobody
      asked for ([final_reason_is_dropped]), a large tool index
      ([events_follow_the_number]), a call sent in pieces ([streamed_call_is_split]),
      an empty list of calls ([empty_calls_hide_text]), short lists of stop
      sequences ([few_stop_sequences_break]), results in a message of their own
      ([gemini_results_match_no_call]), an image without source
      ([image_without_source_panics]), calls with another finish reason
      ([calls_need_their_reason]), a cache emptied between two looks
      ([flushed_cache_charges_twice]), cache tokens without a variable
      ([cache_without_variable_is_free]), a session name with a colon in front
      ([leading_colon_reads_another_session]) or inside ([colon_joins_sessions]), a
      padded rule name ([padded_rule_is_never_found]), a channel without enabled
      keys ([keyless_channel_reaches_handler]), a bound channel that polls its keys
      ([pinned_channel_repeats_its_key]).

    The contract between sessions and funding sources is the pair of classes
    [FundingLaws] and [ReservationLaws]; sessions are verified against it and
    both sources are instances.  What pollers promise each other is an instance
    of class [Protocol].  What a cache promises is class [CacheContract]: it may
    lose entries and never makes one up; [hybrid_contract] proves it of the code,
    from what Redis and the memory cache document ([RedisLaws], [HotLaws]).

    ** Bounds and fuel

    Times are at most [horizon] (2^61 seconds) and amounts of one request below
    [quota_bound] (2^61); prices are clamped far below that, and the bounds
    leave room for the sums the code does not check.  Pending batch amounts are
    assumed below 2^62 ([room]).  The reset loop runs on binary fuel of 2^65
    steps ([loop_fuel]), more than there are timestamps, and the theorem on it
    shows that it exits.  The settlement check's fuel is the number of records.
    Retries are bounded as in the source (three refunds, three and five token
    rollbacks).  The relay loop's fuel is its bound on attempts plus one, which
    the theorem on it shows to be enough.  A scan of Redis is bounded by the
    replies that fit its time limit ([scan_budget]); beyond it the call fails, as in
    the source.

    ** What is not modelled

    Redis writes (background goroutines whose errors are logged), log lines,
    sleeps, the test hook [tokenQuotaAdjuster]; a nil relay info where the code
    would panic is an error.  The server's zone has a constant offset.
    The calls of settlement into rebates and profits, and notifications, are
    recorded as effects; [Commission] says what such a call does.  [TextPrice]
    computes decimals exactly, as rationals; elsewhere decimal arithmetic is a
    parameter (classes [Accounting], [Commissions] and
    [Credits], the variable [scaled]), and so are the digest of task ids, [lo.Chunk] and the
    order of equal elements in [sort.Slice] and in queries (classes [Lo],
    [SliceSort] and [RowOrder], each with an instance), JSON arrays of keys ([RawJSON]), random draws, and the
    upstream calls of the relay loop, [url.Parse] and the name resolver of the
    outbound filter.  The Redis rate
    limiters and the completion of crypto subscriptions are
    left out, and so are the checkouts at payment providers and the checks of
    callback amounts.  Of the payment bills, the
    download and the parsing of the files and the dashboards are left out; the
    replies of chain nodes and decimal parsing ([CryptoBills]) are parameters.
    Of the prices, audio and task
    prices, the estimate before the call and the floating-point guess of
    OpenRouter's cache tokens (a parameter) are left out; the language of price
    expressions is a library and a parameter ([ExprEngine]), and so is [float64] there
    ([Float64], with what IEEE 754 says of whole numbers).  Of streams and
    conversions, decoding and encoding of JSON ([Decoders], [JsonOps], [MjJson]) and
    the count of tokens of a text are parameters; timers, pings and broken
    connections of the relay, other upstream formats and the Responses
    protocol are left out.  Of Midjourney tasks, the parsing of submitted actions,
    swap-face, the image relay and queries are left out.  Of affinity, regular
    expressions ([Regexps]), gjson and SHA-1 ([Digests]) are parameters and the
    statistics page is left out; of distribution, the parsing of the model name
    from the request is an input.  Outside this library: parameter overrides, provider adaptors, most controllers,
    session login, payment clients and the user interfaces; what they compute is
    mostly input and output, or the formats of third parties.

    A continuation would take, in this order, the parsers of payment bills, the
    model name of each request format, and the Responses protocol. *)

From stdpp Require Import base numbers list strings pretty gmap.
From Stdlib Require Import ZArith Lia.

#[global] Open Scope Z_scope.

(** ** Errors and fallible code *)

(** Go errors.  [gorm.ErrRecordNotFound] is compared by identity
    ([errors.Is]); every other error is only ever read as its message. *)
Inductive error :=
  | ErrRecordNotFound
  | ErrMsg (s : string).

#[export] Instance error_eq_dec : EqDecision error.
Proof. solve_decision. Defined.

(** A Go function returning [(T, error)]. *)
Inductive result (A : Type) :=
  | Ok (a : A)
  | Err (e : error).
Arguments Ok {A} a.
Arguments Err {A} e.

#[export] Instance result_ret : MRet result := @Ok.
#[export] Instance result_bind : MBind result := fun A B f m =>
  match m with Ok a => f a | Err e => Err e end.

Definition is_ok {A} (r : result A) : bool :=
  match r with Ok _ => true | Err _ => false end.

Definition fail_with {A} (s : string) : result A := Err (ErrMsg s).

(** [if cond { return errors.New(s) }] *)
Definition reject_if (cond : bool) (s : string) : result unit :=
  if cond then fail_with s else Ok tt.

Lemma bind_Ok_inv {A B} (m : result A) (f : A -> result B) b :
  (m ≫= f) = Ok b -> exists a, m = Ok a /\ f a = Ok b.
Proof. destruct m as [a|e]; cbn; [eauto | discriminate]. Qed.

Lemma reject_if_Ok c s u : reject_if c s = Ok u -> c = false.
Proof. unfold reject_if. by destruct c. Qed.

(** ** Strings as sets of constants (Go [switch] on strings) *)

Definition str_in (s : string) (l : list string) : bool := existsb (String.eqb s) l.

Lemma str_in_spec s l : str_in s l = true <-> s ∈ l.
Proof.
  unfold str_in. rewrite existsb_exists. setoid_rewrite list_elem_of_In.
  split.
  - intros (x & Hx & He). apply String.eqb_eq in He. by subst.
  - intros H. exists s. by rewrite String.eqb_refl.
Qed.

(** ** Automation *)

Create HintDb router.

(** Turns a successful monadic computation in a hypothesis into its steps. *)
Ltac inv_ok :=
  repeat match goal with
  | H : (_ ≫= _) = Ok _ |- _ =>
      let a := fresh "a" in let H1 := fresh H in
      apply bind_Ok_inv in H as (a & H1 & H); cbn beta in H
  | H : reject_if _ _ = Ok _ |- _ => apply reject_if_Ok in H
  | H : Ok _ = Ok _ |- _ => injection H as H
  | H : Err _ = Ok _ |- _ => discriminate H
  | H : fail_with _ = Ok _ |- _ => discriminate H
  | H : Ok _ = Err _ |- _ => discriminate H
  | H : Ok _ = fail_with _ |- _ => discriminate H
  end.

(** Splits every conjunction and disjunction of boolean tests. *)
Ltac split_bool :=
  repeat match goal with
  | H : (_ && _) = true |- _ => apply andb_true_iff in H as [? ?]
  | H : (_ || _) = false |- _ => apply orb_false_iff in H as [? ?]
  | H : negb _ = true |- _ => apply negb_true_iff in H
  | H : negb _ = false |- _ => apply negb_false_iff in H
  | H : String.eqb _ _ = true |- _ => apply String.eqb_eq in H
  | H : String.eqb _ _ = false |- _ => apply String.eqb_neq in H
  | H : bool_decide _ = true |- _ => apply bool_decide_eq_true_1 in H
  | H : bool_decide _ = false |- _ => apply bool_decide_eq_false_1 in H
  end.

(** Case analysis on every [if] and [match] of the goal, arithmetic closed. *)
Ltac cases := repeat (case_match; split_bool; simplify_eq/=; try done; try lia).
Ltac cases_in H :=
  repeat (match type of H with
          | context [match ?x with _ => _ end] =>
              lazymatch x with
              | context [match _ with _ => _ end] => fail
              | _ => let E := fresh "E" in destruct x eqn:E
              end
          end; split_bool; simplify_eq/=; try done; try lia).

(** Case analysis on the first [if] of the goal only. *)
Ltac goal_if :=
  match goal with |- context [if ?b then _ else _] => let E := fresh "E" in destruct b eqn:E end.

(** ** Lists *)

Lemma forallb_Forall_true {A} (f : A -> bool) l :
  forallb f l = true <-> Forall (fun x => f x = true) l.
Proof.
  induction l as [|x l IH]; cbn.
  - split; auto.
  - rewrite andb_true_iff, Forall_cons, IH. done.
Qed.

(** Sum of a list of integers under a weight. *)
Fixpoint sum_by {A} (f : A -> Z) (l : list A) : Z :=
  match l with [] => 0 | x :: l => f x + sum_by f l end.

Section sum_by.
Context {A : Type}.
Implicit Types (f g : A -> Z) (l : list A).

Lemma sum_by_app f l1 l2 : sum_by f (l1 ++ l2) = sum_by f l1 + sum_by f l2.
Proof. induction l1; cbn in *; lia. Qed.

Lemma sum_by_nonneg f l : (forall x, x ∈ l -> 0 <= f x) -> 0 <= sum_by f l.
Proof.
  induction l as [|x l IH]; cbn; intros H; [lia|].
  pose proof (H x ltac:(left)). pose proof (IH ltac:(intros y Hy; apply H; by right)). lia.
Qed.

Lemma sum_by_ext f g l : (forall x, x ∈ l -> f x = g x) -> sum_by f l = sum_by g l.
Proof.
  induction l as [|x l IH]; cbn; intros H; [done|].
  rewrite (H x) by left. rewrite IH; [done|]. intros y Hy. apply H. by right.
Qed.

Lemma sum_by_le f g l : (forall x, x ∈ l -> f x <= g x) -> sum_by f l <= sum_by g l.
Proof.
  induction l as [|x l IH]; cbn; intros H; [lia|].
  pose proof (H x ltac:(left)). pose proof (IH ltac:(intros y Hy; apply H; by right)). lia.
Qed.

Lemma sum_by_perm f l1 l2 : l1 ≡ₚ l2 -> sum_by f l1 = sum_by f l2.
Proof. induction 1; cbn in *; lia. Qed.

(** Filtering is the same as zeroing the weight of what is dropped. *)
Lemma sum_by_filter f (p : A -> bool) l :
  sum_by f (List.filter p l) = sum_by (fun x => if p x then f x else 0) l.
Proof. induction l as [|x l IH]; cbn; [done|]. destruct (p x); cbn; lia. Qed.

Lemma sum_by_split f (p : A -> bool) l :
  sum_by f l = sum_by f (List.filter p l) + sum_by f (List.filter (fun x => negb (p x)) l).
Proof. induction l as [|x l IH]; cbn; [done|]. destruct (p x); cbn; lia. Qed.
End sum_by.

(** ** Sums over tables *)

Section Tables.
Context {K A : Type} `{Countable K}.
Implicit Types (f : A -> Z) (m : gmap K A).

Definition table_sum f m : Z := sum_by f (map snd (map_to_list m)).

Lemma table_sum_insert_new f m k x : m !! k = None -> table_sum f (<[k := x]> m) = f x + table_sum f m.
Proof. intros Hn. unfold table_sum. rewrite (sum_by_perm f _ (map snd ((k, x) :: map_to_list m))); [done|]. by rewrite map_to_list_insert. Qed.

Lemma table_sum_delete f m k x : m !! k = Some x -> table_sum f m = f x + table_sum f (delete k m).
Proof. intros Hk. rewrite <- (insert_delete_id m k x Hk) at 1. apply table_sum_insert_new, lookup_delete_eq. Qed.

Lemma table_sum_insert f m k x y : m !! k = Some x -> table_sum f (<[k := y]> m) = table_sum f m - f x + f y.
Proof.
  intros Hk. rewrite (table_sum_delete f m k x Hk), <- insert_delete_eq, table_sum_insert_new by apply lookup_delete_eq. lia.
Qed.

Lemma table_sum_ext f g m : (forall k x, m !! k = Some x -> f x = g x) -> table_sum f m = table_sum g m.
Proof. intros E. apply sum_by_ext. intros x Hx. apply list_elem_of_fmap in Hx as ([k y] & -> & Hy%elem_of_map_to_list). by eapply E. Qed.

Lemma table_sum_nonneg f m : (forall k x, m !! k = Some x -> 0 <= f x) -> 0 <= table_sum f m.
Proof. intros E. apply sum_by_nonneg. intros x Hx. apply list_elem_of_fmap in Hx as ([k y] & -> & Hy%elem_of_map_to_list). by eapply E. Qed.

Lemma table_sum_le f g m : (forall k x, m !! k = Some x -> f x <= g x) -> table_sum f m <= table_sum g m.
Proof. intros E. apply sum_by_le. intros x Hx. apply list_elem_of_fmap in Hx as ([k y] & -> & Hy%elem_of_map_to_list). by eapply E. Qed.

Lemma table_forallb (p : A -> bool) m k x : forallb p (map snd (map_to_list m)) = true -> m !! k = Some x -> p x = true.
Proof.
  rewrite forallb_forall. intros Hp Hx. apply Hp, list_elem_of_In, list_elem_of_fmap. exists (k, x). split; [done|]. by apply elem_of_map_to_list.
Qed.
End Tables.

(** ** Loops *)

(** A [for] loop given by its step ([None] when the condition fails), run for
    at most [p] steps.  The fuel is a binary number, so a bound as large as
    2^64 costs nothing when the loop exits early. *)
Section loop.
Context {S : Type} (step : S -> option S).

Fixpoint run_loop (p : positive) (s : S) : S + S :=
  match p with
  | xH => match step s with Some s' => inl s' | None => inr s end
  | xO q => match run_loop q s with inl s' => run_loop q s' | inr r => inr r end
  | xI q =>
      match step s with
      | None => inr s
      | Some s1 => match run_loop q s1 with inl s' => run_loop q s' | inr r => inr r end
      end
  end.

Inductive exits : S -> S -> Prop :=
  | exits_now s : step s = None -> exits s s
  | exits_step s s' r : step s = Some s' -> exits s' r -> exits s r.

(** [steps s s'] : the loop body takes [s] to [s']. *)
Inductive steps : S -> S -> Prop :=
  | steps_refl s : steps s s
  | steps_step s s' r : step s = Some s' -> steps s' r -> steps s r.

Lemma steps_trans s t r : steps s t -> steps t r -> steps s r.
Proof. induction 1; eauto using steps_step. Qed.

Lemma steps_exits s t r : steps s t -> exits t r -> exits s r.
Proof. induction 1; eauto using exits_step. Qed.

Lemma run_loop_sound p : forall s,
  match run_loop p s with inl s' => steps s s' | inr r => exits s r end.
Proof.
  induction p as [p IH|p IH|]; intros s; cbn.
  - destruct (step s) as [s1|] eqn:E; [|by constructor].
    specialize (IH s1) as H1. destruct (run_loop p s1) as [s2|r].
    + specialize (IH s2). destruct (run_loop p s2).
      * eapply steps_step; [done|]. by eapply steps_trans.
      * eapply exits_step; [done|]. by eapply steps_exits.
    + by eapply exits_step.
  - specialize (IH s) as H1. destruct (run_loop p s) as [s2|r]; [|done].
    specialize (IH s2). destruct (run_loop p s2).
    + by eapply steps_trans.
    + by eapply steps_exits.
  - destruct (step s) eqn:E; [|by constructor].
    eapply steps_step; [done | constructor].
Qed.

Lemma exits_det s r r' : exits s r -> exits s r' -> r = r'.
Proof.
  intros H. revert r'. induction H; inversion 1; simplify_eq; eauto.
Qed.

(** Loop invariants and measures. *)
Context (I : S -> Prop) (mu : S -> Z).

Lemma exits_invariant s r :
  (forall a b, I a -> step a = Some b -> I b) -> I s -> exits s r -> I r /\ step r = None.
Proof. intros HI Hs. induction 1; eauto. Qed.

Lemma run_loop_measure p :
  (forall a b, I a -> step a = Some b -> I b /\ 0 <= mu b < mu a) ->
  forall s s', I s -> run_loop p s = inl s' -> I s' /\ mu s' <= mu s - Z.pos p /\ 0 <= mu s'.
Proof.
  intros Hd. induction p as [p IH|p IH|]; intros s s' HI H; cbn in H.
  - destruct (step s) as [s1|] eqn:E; [|done]. destruct (Hd _ _ HI E) as [HI1 ?].
    destruct (run_loop p s1) as [s2|] eqn:E1; [|done].
    destruct (IH _ _ HI1 E1) as (HI2 & ? & ?). destruct (IH _ _ HI2 H) as (? & ? & ?).
    split; [done|lia].
  - destruct (run_loop p s) as [s2|] eqn:E1; [|done].
    destruct (IH _ _ HI E1) as (HI2 & ? & ?). destruct (IH _ _ HI2 H) as (? & ? & ?).
    split; [done|lia].
  - destruct (step s) eqn:E; [|done]. simplify_eq. destruct (Hd _ _ HI E). split; [done|lia].
Qed.

(** A loop whose measure is below the fuel terminates. *)
Lemma run_loop_terminates p s :
  (forall a b, I a -> step a = Some b -> I b /\ 0 <= mu b < mu a) ->
  I s -> mu s < Z.pos p -> exists r, run_loop p s = inr r.
Proof.
  intros Hd HI Hp. destruct (run_loop p s) as [s'|r] eqn:E; [|eauto].
  destruct (run_loop_measure p Hd _ _ HI E) as (? & ? & ?). lia.
Qed.
End loop.

(** Fuel for loops over 64-bit counters. *)
Definition loop_fuel : positive := Eval vm_compute in (2 ^ 65)%positive.
