(* ===== verification/GoInt.v ===== *)
(** * Machine integers

    Go's [int64] arithmetic (values are [Z], every operation that can
    overflow is followed by [wrap64]) and the checked helpers that
    [src/model/subscription.go] builds on it.  [int] is 64 bits wide on the
    platforms the server is built for, so it shares this model. *)

From stdpp Require Import base numbers list strings.
From Stdlib Require Import ZArith Lia.
From S2P Require Import Prelude.

Definition max_i64 : Z := 9223372036854775807.
Definition min_i64 : Z := -9223372036854775808.
Definition is_i64 (z : Z) : Prop := min_i64 <= z <= max_i64.

#[export] Instance is_i64_dec z : Decision (is_i64 z).
Proof. unfold is_i64. apply _. Defined.

(** Two's complement wrap-around. *)
Definition wrap64 (z : Z) : Z := (z + 2 ^ 63) mod 2 ^ 64 - 2 ^ 63.

Definition i64_add (a b : Z) : Z := wrap64 (a + b).
Definition i64_sub (a b : Z) : Z := wrap64 (a - b).
Definition i64_mul (a b : Z) : Z := wrap64 (a * b).
Definition i64_neg (a : Z) : Z := wrap64 (- a).
(** Integer division truncates toward zero; [minInt64 / -1] wraps. *)
Definition i64_div (a b : Z) : Z := wrap64 (Z.quot a b).
Definition i64_rem (a b : Z) : Z := Z.rem a b.

(** ** Checked arithmetic of model/subscription.go *)

Definition subscriptionSafeAddInt64 (a b : Z) : Z * bool :=
  if (0 <? b) && (i64_sub max_i64 b <? a) then (0, false)
  else if (b <? 0) && (a <? i64_sub min_i64 b) then (0, false)
  else (i64_add a b, true).

Definition subscriptionSafeSubInt64 (a b : Z) : Z * bool :=
  if b =? min_i64 then (0, false)
  else subscriptionSafeAddInt64 a (i64_neg b).

Definition subscriptionSafeMulInt64 (a b : Z) : Z * bool :=
  if (a =? 0) || (b =? 0) then (0, true)
  else if a =? -1 then
    if b =? min_i64 then (0, false) else (i64_neg b, true)
  else if b =? -1 then
    if a =? min_i64 then (0, false) else (i64_neg a, true)
  else if 0 <? a then
    if 0 <? b then
      if i64_div max_i64 b <? a then (0, false) else (i64_mul a b, true)
    else if b <? i64_div min_i64 a then (0, false) else (i64_mul a b, true)
  else
    if 0 <? b then
      if a <? i64_div min_i64 b then (0, false) else (i64_mul a b, true)
    else if a <? i64_div max_i64 b then (0, false) else (i64_mul a b, true).

Definition subscriptionSafeWindowEnd (start duration : Z) : Z :=
  match subscriptionSafeAddInt64 start duration with
  | (end_, true) => end_
  | (_, false) => if 0 <=? duration then max_i64 else min_i64
  end.

Definition floorDivInt64 (value divisor : Z) : Z :=
  if divisor <=? 0 then 0
  else
    let quotient := i64_div value divisor in
    if i64_rem value divisor <? 0 then i64_sub quotient 1 else quotient.

Definition maxInt64 (a b : Z) : Z := if b <? a then a else b.

(** ** Basic facts *)

Lemma wrap64_id z : is_i64 z -> wrap64 z = z.
Proof.
  unfold is_i64, wrap64, min_i64, max_i64. intros H.
  rewrite Z.mod_small by lia. lia.
Qed.

Lemma wrap64_range z : is_i64 (wrap64 z).
Proof.
  unfold is_i64, wrap64, min_i64, max_i64.
  pose proof (Z.mod_pos_bound (z + 2 ^ 63) (2 ^ 64) ltac:(lia)). lia.
Qed.

Lemma i64_add_id a b : is_i64 (a + b) -> i64_add a b = a + b.
Proof. apply wrap64_id. Qed.
Lemma i64_sub_id a b : is_i64 (a - b) -> i64_sub a b = a - b.
Proof. apply wrap64_id. Qed.

(** Discharges machine arithmetic that stays in range. *)
Ltac i64 := unfold i64_add, i64_sub, i64_mul, i64_neg, i64_div in *;
  rewrite ?wrap64_id by (unfold is_i64, min_i64, max_i64 in *; lia);
  unfold is_i64, min_i64, max_i64 in *; try done; try lia.

(** The addition guard is exact: it accepts precisely the sums that fit. *)
Lemma safe_add_cases a b :
  is_i64 a -> is_i64 b ->
  subscriptionSafeAddInt64 a b = (if decide (is_i64 (a + b)) then (a + b, true) else (0, false)).
Proof.
  intros Ha Hb. unfold subscriptionSafeAddInt64.
  destruct (Z.ltb_spec 0 b), (Z.ltb_spec b 0); try lia; cbn [andb].
  - replace (i64_sub max_i64 b) with (max_i64 - b) by (i64; unfold max_i64; lia).
    destruct (Z.ltb_spec (max_i64 - b) a); case_decide as Hd; try done; i64.
  - replace (i64_sub min_i64 b) with (min_i64 - b) by (i64; unfold min_i64; lia).
    destruct (Z.ltb_spec a (min_i64 - b)); case_decide as Hd; try done; i64.
  - assert (b = 0) as -> by lia. rewrite Z.add_0_r.
    rewrite decide_True by done. unfold i64_add. rewrite Z.add_0_r, wrap64_id; done.
Qed.

Lemma safe_add_ok a b c :
  is_i64 a -> is_i64 b -> subscriptionSafeAddInt64 a b = (c, true) -> c = a + b /\ is_i64 c.
Proof. intros Ha Hb. rewrite safe_add_cases by done. case_decide; intros; simplify_eq; done. Qed.

Lemma safe_add_in a b :
  is_i64 a -> is_i64 b -> is_i64 (a + b) -> subscriptionSafeAddInt64 a b = (a + b, true).
Proof. intros. rewrite safe_add_cases by done. by rewrite decide_True. Qed.

Lemma safe_sub_cases a b :
  is_i64 a -> is_i64 b ->
  subscriptionSafeSubInt64 a b =
    (if decide (b <> min_i64 /\ is_i64 (a - b)) then (a - b, true) else (0, false)).
Proof.
  intros Ha Hb. unfold subscriptionSafeSubInt64.
  destruct (Z.eqb_spec b min_i64) as [->|Hne].
  - rewrite decide_False; [done|]. by intros [? ?].
  - replace (i64_neg b) with (- b) by i64.
    rewrite safe_add_cases by i64.
    rewrite Z.add_opp_r. by repeat case_decide; try tauto.
Qed.

(** Truncating quotients of the 64-bit extremes bound the products that fit. *)
Lemma quot_guard_pos m k a : 0 <= m -> 0 < k -> (Z.quot m k < a <-> m < a * k).
Proof.
  intros Hm Hk. rewrite Z.quot_div_nonneg by lia.
  pose proof (Z.div_mod m k ltac:(lia)). pose proof (Z.mod_pos_bound m k Hk). nia.
Qed.

Lemma quot_guard_neg m k a : m <= 0 -> 0 < k -> (a < Z.quot m k <-> a * k < m).
Proof.
  intros Hm Hk. pose proof (Z.quot_opp_l m k ltac:(lia)).
  pose proof (quot_guard_pos (- m) k (- a) ltac:(lia) Hk). lia.
Qed.

Lemma quot_i64 m k : is_i64 m -> k <> 0 -> k <> -1 -> is_i64 (Z.quot m k).
Proof.
  intros Hm H0 H1. unfold is_i64, min_i64, max_i64 in *.
  pose proof (Z.quot_rem' m k). pose proof (Z.rem_bound_abs m k H0).
  assert (Z.abs (Z.quot m k) <= Z.abs m).
  { rewrite <- Z.quot_abs by done. rewrite Z.quot_div_nonneg by lia.
    apply Z.div_le_upper_bound; nia. }
  assert (Z.abs m = 9223372036854775808 -> Z.abs k >= 2 \/ k = 1) by lia.
  destruct (decide (k = 1)) as [->|]; [rewrite Z.quot_1_r; lia|].
  assert (Z.abs (Z.quot m k) <= Z.abs m / 2).
  { rewrite <- Z.quot_abs by done. rewrite Z.quot_div_nonneg by lia.
    apply Z.div_le_compat_l; lia. }
  assert (Z.abs m / 2 <= 4611686018427387904) by (apply Z.div_le_upper_bound; lia). lia.
Qed.

(** The multiplication guard is exact in all four sign quadrants. *)
Lemma safe_mul_cases a b :
  is_i64 a -> is_i64 b ->
  subscriptionSafeMulInt64 a b = (if decide (is_i64 (a * b)) then (a * b, true) else (0, false)).
Proof.
  intros Ha Hb. unfold subscriptionSafeMulInt64.
  assert (Hw : forall c, is_i64 c -> wrap64 c = c) by apply wrap64_id.
  destruct (Z.eqb_spec a 0) as [->|Ha0]; [done|].
  destruct (Z.eqb_spec b 0) as [->|Hb0]; [by rewrite Z.mul_0_r|]. cbn [orb].
  destruct (Z.eqb_spec a (-1)) as [->|Ha1].
  { destruct (Z.eqb_spec b min_i64) as [->|]; [done|]. rewrite decide_True by i64.
    f_equal. i64. }
  destruct (Z.eqb_spec b (-1)) as [->|Hb1].
  { destruct (Z.eqb_spec a min_i64) as [->|]; [done|]. rewrite decide_True by i64.
    f_equal. i64. }
  unfold i64_div, i64_mul. 
  assert (is_i64 max_i64 /\ is_i64 min_i64) as [? ?] by i64.
  rewrite (Hw (Z.quot max_i64 b)), (Hw (Z.quot min_i64 a)), (Hw (Z.quot min_i64 b))
    by (by apply quot_i64).
  assert (max_i64 = 9223372036854775807 /\ min_i64 = -9223372036854775808) as [Emax Emin] by done.
  destruct (Z.ltb_spec 0 a), (Z.ltb_spec 0 b).
  - assert (0 < a * b) by nia. pose proof (quot_guard_pos max_i64 b a ltac:(lia) ltac:(lia)).
    destruct (Z.ltb_spec (Z.quot max_i64 b) a); case_decide as Hd; unfold is_i64 in *;
      (by rewrite Hw by lia) || (exfalso; lia) || done.
  - assert (a * b < 0) by nia. pose proof (quot_guard_neg min_i64 a b ltac:(lia) ltac:(lia)) as Hg.
    rewrite (Z.mul_comm b a) in Hg.
    destruct (Z.ltb_spec b (Z.quot min_i64 a)); case_decide as Hd; unfold is_i64 in *;
      (by rewrite Hw by lia) || (exfalso; lia) || done.
  - assert (a * b < 0) by nia. pose proof (quot_guard_neg min_i64 b a ltac:(lia) ltac:(lia)).
    destruct (Z.ltb_spec a (Z.quot min_i64 b)); case_decide as Hd; unfold is_i64 in *;
      (by rewrite Hw by lia) || (exfalso; lia) || done.
  - assert (0 < a * b) by nia.
    pose proof (quot_guard_pos max_i64 (- b) (- a) ltac:(lia) ltac:(lia)) as Hg.
    rewrite Z.mul_opp_opp in Hg. pose proof (Z.quot_opp_r max_i64 b ltac:(lia)).
    destruct (Z.ltb_spec a (Z.quot max_i64 b)); case_decide as Hd; unfold is_i64 in *;
      (by rewrite Hw by lia) || (exfalso; lia) || done.
Qed.

Lemma safe_mul_in a b :
  is_i64 a -> is_i64 b -> is_i64 (a * b) -> subscriptionSafeMulInt64 a b = (a * b, true).
Proof. intros. rewrite safe_mul_cases by done. by rewrite decide_True. Qed.

Lemma safe_mul_ok a b c :
  is_i64 a -> is_i64 b -> subscriptionSafeMulInt64 a b = (c, true) -> c = a * b /\ is_i64 c.
Proof. intros. rewrite safe_mul_cases in * by done. case_decide; simplify_eq; done. Qed.

(** The shifted truncating division is the floor division. *)
Lemma floorDiv_div v d : is_i64 v -> is_i64 d -> 0 < d -> floorDivInt64 v d = v / d.
Proof.
  intros Hv Hd Hpos. unfold floorDivInt64, i64_rem.
  rewrite (proj2 (Z.leb_gt d 0)) by lia.
  assert (Hq : is_i64 (Z.quot v d)).
  { destruct (decide (d = 1)) as [->|]; [by rewrite Z.quot_1_r | apply quot_i64; [done|lia|lia]]. }
  unfold i64_div. rewrite wrap64_id by done.
  pose proof (Z.quot_rem' v d). pose proof (Z.div_mod v d ltac:(lia)).
  pose proof (Z.mod_pos_bound v d ltac:(lia)). pose proof (Z.rem_bound_abs v d ltac:(lia)).
  pose proof (Z.rem_sign_nz v d).
  destruct (Z.ltb_spec (Z.rem v d) 0).
  - assert (Z.quot v d - 1 = v / d) by nia.
    unfold i64_sub. rewrite wrap64_id; [done|].
    unfold is_i64, min_i64, max_i64 in *. nia.
  - nia.
Qed.

Lemma maxInt64_max a b : maxInt64 a b = Z.max a b.
Proof. unfold maxInt64. destruct (Z.ltb_spec b a); lia. Qed.

Lemma safe_window_end s d :
  is_i64 s -> is_i64 d ->
  subscriptionSafeWindowEnd s d = Z.max min_i64 (Z.min max_i64 (s + d)).
Proof.
  intros Hs Hd. unfold subscriptionSafeWindowEnd. rewrite safe_add_cases by done.
  case_decide as Hin; unfold is_i64 in *; [lia|].
  destruct (Z.leb_spec 0 d); lia.
Qed.
