(* ===== verification/GoString.v ===== *)
(** * Strings

    What the modelled code uses of Go's [strings] package.  A Go string is
    its UTF-8 bytes, as a Rocq [string] is.  [TrimSpace] strips the encodings
    of every rune for which [unicode.IsSpace] holds; [ToLower] and
    [ToUpper] map the ASCII letters and the four runes outside ASCII whose
    image is an ASCII letter, and leave other bytes alone (the vocabularies
    the results are compared with are ASCII). *)

From stdpp Require Import base numbers list strings sets.
From Stdlib Require Import ZArith Lia Ascii.
From S2P Require Import Prelude.

Definition bytes (l : list nat) : string :=
  foldr (fun n s => String (ascii_of_nat n) s) EmptyString l.

(** The UTF-8 encodings of Go's white space: tab to carriage return, space,
    U+0085, U+00A0, U+1680, U+2000-U+200A, U+2028, U+2029, U+202F, U+205F, U+3000. *)
Definition spaces : list string :=
  map bytes
   ([[9]; [10]; [11]; [12]; [13]; [32]; [194; 133]; [194; 160]; [225; 154; 128]]
    ++ map (fun n => [226; 128; n]) (seq 128 11)
    ++ [[226; 128; 168]; [226; 128; 169]; [226; 128; 175]; [226; 129; 159]; [227; 128; 128]])%nat.

(** [strip p s] is what follows the prefix [p] of [s], when it is one. *)
Fixpoint strip (p s : string) : option string :=
  match p, s with
  | EmptyString, _ => Some s
  | String a p', String b s' => if Ascii.eqb a b then strip p' s' else None
  | String _ _, EmptyString => None
  end.

Definition strip_any (ps : list string) (s : string) : option string :=
  foldr (fun p r => match strip p s with Some s' => Some s' | None => r end) None ps.

Fixpoint trim_with (ps : list string) (fuel : nat) (s : string) : string :=
  match fuel with
  | O => s
  | S n => match strip_any ps s with Some s' => trim_with ps n s' | None => s end
  end.

Fixpoint str_rev (s : string) : string :=
  match s with EmptyString => EmptyString | String a s' => str_rev s' +:+ String a EmptyString end.

Definition trim_left (s : string) : string := trim_with spaces (String.length s) s.
Definition trim_right (s : string) : string :=
  str_rev (trim_with (map str_rev spaces) (String.length s) (str_rev s)).

(** [strings.TrimSpace] *)
Definition TrimSpace (s : string) : string := trim_right (trim_left s).

Definition lower_ascii (a : ascii) : ascii :=
  let n := nat_of_ascii a in
  if (65 <=? n)%nat && (n <=? 90)%nat then ascii_of_nat (n + 32) else a.

(** [strings.ToLower]; U+0130 and U+212A are the runes outside ASCII with an ASCII image. *)
Fixpoint ToLower (s : string) : string :=
  match s with
  | EmptyString => EmptyString
  | String "196" (String "176" s') => String "i" (ToLower s')
  | String "226" (String "132" (String "170" s')) => String "k" (ToLower s')
  | String a s' => String (lower_ascii a) (ToLower s')
  end%char.

Definition upper_ascii (a : ascii) : ascii :=
  let n := nat_of_ascii a in
  if (97 <=? n)%nat && (n <=? 122)%nat then ascii_of_nat (n - 32) else a.

(** [strings.ToUpper]; likewise U+0131 and U+017F. *)
Fixpoint ToUpper (s : string) : string :=
  match s with
  | EmptyString => EmptyString
  | String "196" (String "177" s') => String "I" (ToUpper s')
  | String "197" (String "191" s') => String "S" (ToUpper s')
  | String a s' => String (upper_ascii a) (ToUpper s')
  end%char.

(** The case folding of [strings.EqualFold]: U+212A folds to k and U+017F to s. *)
Fixpoint fold_case (s : string) : string :=
  match s with
  | EmptyString => EmptyString
  | String "226" (String "132" (String "170" s')) => String "k" (fold_case s')
  | String "197" (String "191" s') => String "s" (fold_case s')
  | String a s' => String (lower_ascii a) (fold_case s')
  end%char.
Definition EqualFold (s t : string) : bool := String.eqb (fold_case s) (fold_case t).

(** [strings.HasPrefix] *)
Definition HasPrefix (s prefix : string) : bool := match strip prefix s with Some _ => true | None => false end.

(** [strings.ToLower(strings.TrimSpace(s))], the normal form of every keyword. *)
Definition norm (s : string) : string := ToLower (TrimSpace s).

(** [strings.Contains] *)
Fixpoint Contains (s sub : string) : bool :=
  match strip sub s with
  | Some _ => true
  | None => match s with EmptyString => false | String _ s' => Contains s' sub end
  end.

(** [strings.Split(s, sep)] for a one-byte separator. *)
Fixpoint Split (s : string) (sep : ascii) : list string :=
  match s with
  | EmptyString => [EmptyString]
  | String a s' =>
      let r := Split s' sep in
      if Ascii.eqb a sep then EmptyString :: r
      else match r with [] => [String a EmptyString] | x :: r' => String a x :: r' end
  end.

(** [strings.Join(l, sep)] *)
Definition Join (l : list string) (sep : string) : string := String.concat sep l.

Lemma Split_nonempty s sep : Split s sep <> [].
Proof. destruct s; cbn; [done|]. destruct (Ascii.eqb _ _), (Split s sep); done. Qed.

(** Joining what was split gives the string back. *)
Lemma Join_Split s sep : Join (Split s sep) (String sep EmptyString) = s.
Proof.
  induction s as [|a s IH]; [done|]. cbn [Split].
  pose proof (Split_nonempty s sep).
  destruct (Ascii.eqb_spec a sep) as [->|Hne]; destruct (Split s sep) as [|x r] eqn:E; try done.
  - change (String sep (Join (x :: r) (String sep EmptyString)) = String sep s). by rewrite IH.
  - rewrite <- IH. unfold Join. by destruct r.
Qed.

(** ** Trimming *)

#[local] Arguments String.append : simpl nomatch.

Lemma str_app_nil_r s : s +:+ "" = s.
Proof. induction s; cbn; congruence. Qed.

Lemma str_app_assoc a b c : (a +:+ b) +:+ c = a +:+ (b +:+ c).
Proof. induction a; cbn; congruence. Qed.

Lemma str_rev_app a b : str_rev (a +:+ b) = str_rev b +:+ str_rev a.
Proof. induction a; cbn; [by rewrite str_app_nil_r|]. by rewrite IHa, str_app_assoc. Qed.

Lemma str_rev_involutive s : str_rev (str_rev s) = s.
Proof. induction s; cbn; [done|]. by rewrite str_rev_app, IHs. Qed.

Lemma strip_Some p s r : strip p s = Some r <-> s = p +:+ r.
Proof.
  revert s. induction p as [|a p IH]; intros s; cbn; [naive_solver|].
  destruct s as [|b s]; [done|]. destruct (Ascii.eqb_spec a b) as [->|Hne].
  - rewrite IH. split; [by intros -> | by intros [= ->]].
  - split; [done | by intros [= ?]].
Qed.

Lemma strip_any_Some ps s r : strip_any ps s = Some r -> exists p, p ∈ ps /\ s = p +:+ r.
Proof.
  induction ps as [|p ps IH]; cbn; [done|].
  destruct (strip p s) eqn:E.
  - intros [= ->]. exists p. split; [left | by apply strip_Some].
  - intros (q & ? & ?)%IH. exists q. split; [by right | done].
Qed.

Lemma strip_any_None ps s : strip_any ps s = None <-> forall p r, p ∈ ps -> s <> p +:+ r.
Proof.
  induction ps as [|p ps IH]; cbn; [set_solver|].
  destruct (strip p s) as [r|] eqn:E.
  - apply strip_Some in E. split; [done|]. intros H. exfalso. apply (H p r); [left | done].
  - rewrite IH. split; [|set_solver]. intros H q r [->|Hq]%elem_of_cons; [|by apply H].
    rewrite <- strip_Some. congruence.
Qed.

Lemma trim_with_id ps n s : strip_any ps s = None -> trim_with ps n s = s.
Proof. intros H. destruct n; cbn; by rewrite ?H. Qed.

Lemma str_length_app a b : String.length (a +:+ b) = (String.length a + String.length b)%nat.
Proof. induction a; cbn; congruence. Qed.

(** Enough fuel: nothing strippable is left. *)
Lemma trim_with_done ps n s :
  "" ∉ ps -> (String.length s <= n)%nat -> strip_any ps (trim_with ps n s) = None.
Proof.
  intros Hne. revert s. induction n as [|n IH]; intros s Hn; cbn.
  - destruct s; [|cbn in Hn; lia]. apply strip_any_None. intros p r Hp Hq.
    destruct p; [done | discriminate].
  - destruct (strip_any ps s) as [s'|] eqn:E; [|done].
    apply IH. apply strip_any_Some in E as (p & Hp & ->).
    rewrite str_length_app in Hn. destruct p; [done|]. cbn in Hn. lia.
Qed.

Lemma trim_with_suffix ps n s : exists p, s = p +:+ trim_with ps n s.
Proof.
  revert s. induction n as [|n IH]; intros s; cbn; [by exists ""|].
  destruct (strip_any ps s) as [s'|] eqn:E; [|by exists ""].
  apply strip_any_Some in E as (p & _ & ->). destruct (IH s') as [q Hq].
  exists (p +:+ q). rewrite str_app_assoc. by rewrite <- Hq.
Qed.

Lemma spaces_nonempty : ("" ∉ spaces) /\ ("" ∉ map str_rev spaces).
Proof.
  split; intros H; apply list_elem_of_In in H; vm_compute in H;
    repeat destruct H as [H|H]; done.
Qed.

Lemma TrimSpace_idemp s : TrimSpace (TrimSpace s) = TrimSpace s.
Proof.
  destruct spaces_nonempty as [Hs1 Hs2].
  set (l := trim_left s). assert (Hl : strip_any spaces l = None) by (by apply trim_with_done).
  assert (Ht : TrimSpace s = trim_right l) by done.
  set (t := trim_right l) in *.
  assert (Hr : strip_any (map str_rev spaces) (str_rev t) = None).
  { unfold t, trim_right. rewrite str_rev_involutive. apply trim_with_done; [done|].
    clear. induction l as [|a l IH]; cbn; [done|]. rewrite str_length_app. cbn. lia. }
  assert (Hp : exists q, l = t +:+ q).
  { destruct (trim_with_suffix (map str_rev spaces) (String.length l) (str_rev l)) as [q Hq].
    exists (str_rev q). unfold t, trim_right. rewrite <- str_rev_app, <- Hq.
    by rewrite str_rev_involutive. }
  assert (Htl : trim_left t = t).
  { apply trim_with_id. apply strip_any_None. intros p r Hin He. destruct Hp as [q Hq].
    rewrite strip_any_None in Hl. apply (Hl p ((r +:+ q)%string) Hin). by rewrite Hq, He, str_app_assoc. }
  rewrite Ht. unfold TrimSpace. rewrite Htl. unfold trim_right at 1.
  rewrite trim_with_id by done. apply str_rev_involutive.
Qed.
