(* ===== verification/GoText.v ===== *)
(** * Reading and writing configuration text

    What the rule parsers of [src/setting/operation_setting] and
    [src/common] use of Go's [strconv] and [strings] beyond [GoString]:
    [strconv.Atoi] with its sign and its 64-bit range, [strconv.Itoa] (the
    decimal notation [pretty]), removal of blanks, suffixes, and the facts
    that splitting undoes joining and that trimming leaves plain text alone. *)

From stdpp Require Import base numbers list strings pretty.
From Stdlib Require Import ZArith Lia Ascii.
From S2P Require Import Prelude GoInt GoString.

(** ** strconv *)

Definition digit_value (a : ascii) : option Z :=
  let n := Z.of_nat (nat_of_ascii a) in
  if (48 <=? n) && (n <=? 57) then Some (n - 48) else None.

Fixpoint read_digits (acc : Z) (s : string) : option Z :=
  match s with
  | EmptyString => Some acc
  | String a s' => match digit_value a with Some d => read_digits (10 * acc + d) s' | None => None end
  end.

(** One or more digits. *)
Definition read_number (s : string) : option Z :=
  match s with EmptyString => None | _ => read_digits 0 s end.

(** [strconv.Atoi]: an optional sign, decimal digits, and the range of [int]. *)
Definition Atoi (s : string) : option Z :=
  let signed :=
    match s with
    | String "+" r => read_number r
    | String "-" r => Z.opp <$> read_number r
    | _ => read_number s
    end%char in
  match signed with
  | Some z => if decide (is_i64 z) then Some z else None
  | None => None
  end.

(** [strconv.Itoa] *)
Definition Itoa (z : Z) : string := pretty z.

Definition digit_char (a : ascii) : bool := match digit_value a with Some _ => true | None => false end.

(** ** strings *)

(** [strings.ReplaceAll(s, c, "")] for a one-byte [c]. *)
Fixpoint drop_char (c : ascii) (s : string) : string :=
  match s with
  | EmptyString => EmptyString
  | String a s' => if Ascii.eqb a c then drop_char c s' else String a (drop_char c s')
  end.

(** [strings.HasSuffix] *)
Definition HasSuffix (s suffix : string) : bool := HasPrefix (str_rev s) (str_rev suffix).

(** [strings.TrimPrefix] *)
Definition TrimPrefix (s prefix : string) : string :=
  default s (strip prefix s).

(** The text before and after the first [c]. *)
Fixpoint cut_at (c : ascii) (s : string) : option (string * string) :=
  match s with
  | EmptyString => None
  | String a s' => if Ascii.eqb a c then Some ("", s')
                   else match cut_at c s' with Some (x, y) => Some (String a x, y) | None => None end
  end.

(** ** Text made of given characters *)

#[local] Arguments String.append : simpl nomatch.

Fixpoint all_chars (p : ascii -> bool) (s : string) : bool :=
  match s with EmptyString => true | String a s' => p a && all_chars p s' end.

Lemma all_chars_app p s t : all_chars p (s +:+ t) = all_chars p s && all_chars p t.
Proof. induction s as [|a s IH]; cbn; [done|]. by rewrite IH, andb_assoc. Qed.

Lemma all_chars_rev p s : all_chars p (str_rev s) = all_chars p s.
Proof.
  induction s as [|a s IH]; cbn; [done|]. rewrite all_chars_app, IH. cbn.
  by rewrite andb_true_r, andb_comm.
Qed.

Lemma all_chars_impl (p q : ascii -> bool) s :
  (forall a, p a = true -> q a = true) -> all_chars p s = true -> all_chars q s = true.
Proof. intros Hpq. induction s as [|a s IH]; cbn; [done|]. intros; split_bool. by rewrite Hpq, IH. Qed.

Lemma Join_cons x y l sep : Join (x :: y :: l) sep = x +:+ sep +:+ Join (y :: l) sep.
Proof. done. Qed.

Lemma all_chars_Join p l sep :
  forallb (all_chars p) l = true -> all_chars p sep = true -> all_chars p (Join l sep) = true.
Proof.
  intros Hl Hs. induction l as [|x l IH]; [done|]. cbn in Hl. split_bool.
  destruct l as [|y l]; [done|].
  rewrite Join_cons, !all_chars_app, IH by done. by rewrite Hs, H.
Qed.

Definition not_char (c a : ascii) : bool := negb (Ascii.eqb a c).

(** Splitting a string at a separator that follows separator-free text. *)
Lemma Split_single s sep : all_chars (not_char sep) s = true -> Split s sep = [s].
Proof.
  induction s as [|a s IH]; cbn; [done|]. unfold not_char at 1. intros; split_bool.
  by rewrite IH, H by done.
Qed.

Lemma Split_app s t sep :
  all_chars (not_char sep) s = true -> Split (s +:+ String sep t) sep = s :: Split t sep.
Proof.
  induction s as [|a s IH]; cbn; [by rewrite Ascii.eqb_refl|].
  unfold not_char at 1. intros; split_bool. change (String.append s (String sep t)) with (s +:+ String sep t).
  by rewrite IH, H by done.
Qed.

(** Splitting what was joined gives the pieces back. *)
Lemma Split_Join l sep :
  l <> [] -> forallb (all_chars (not_char sep)) l = true ->
  Split (Join l (String sep EmptyString)) sep = l.
Proof.
  intros Hne Hl. induction l as [|x l IH]; [done|]. cbn in Hl. split_bool.
  destruct l as [|y l]; [by apply Split_single|].
  rewrite Join_cons. change (String sep EmptyString +:+ ?t) with (String sep t).
  by rewrite Split_app, IH by done.
Qed.

(** The pieces of a split hold no separator. *)
Lemma Split_pieces s sep : forallb (all_chars (not_char sep)) (Split s sep) = true.
Proof.
  induction s as [|a s IH]; [done|]. cbn [Split]. pose proof (Split_nonempty s sep).
  destruct (Ascii.eqb a sep) eqn:E; [done|]. destruct (Split s sep) as [|x r]; [done|].
  cbn in *. split_bool. unfold not_char at 1. by rewrite E, H0, H1.
Qed.

Lemma Contains_char s c : Contains s (String c EmptyString) = negb (all_chars (not_char c) s).
Proof.
  induction s as [|a s IH]; [done|]. cbn [Contains strip all_chars]. unfold not_char at 1.
  rewrite Ascii.eqb_sym. destruct (Ascii.eqb a c); cbn; [done | apply IH].
Qed.

Lemma drop_char_id c s : all_chars (not_char c) s = true -> drop_char c s = s.
Proof.
  induction s as [|a s IH]; cbn; [done|]. unfold not_char at 1. intros; split_bool.
  by rewrite H, IH.
Qed.

(** ** Plain text *)

(** The characters of printed rules. *)
Definition plain_char (a : ascii) : bool :=
  existsb (Ascii.eqb a) ["0"; "1"; "2"; "3"; "4"; "5"; "6"; "7"; "8"; "9"; "-"; ","]%char.

Lemma strip_plain a s :
  plain_char a = true ->
  strip_any spaces (String a s) = None /\ strip_any (map str_rev spaces) (String a s) = None.
Proof.
  intros H. unfold plain_char in H. apply existsb_exists in H as (b & Hb & ->%Ascii.eqb_eq).
  cbn in Hb. repeat (destruct Hb as [<-|Hb]; [split; reflexivity|]). done.
Qed.

Lemma TrimSpace_plain s : all_chars plain_char s = true -> TrimSpace s = s.
Proof.
  intros H. destruct s as [|a s]; [done|].
  assert (trim_left (String a s) = String a s) as E.
  { apply trim_with_id. cbn in H. split_bool. by apply strip_plain. }
  unfold TrimSpace. rewrite E. unfold trim_right. rewrite trim_with_id; [apply str_rev_involutive|].
  rewrite <- all_chars_rev in H. destruct (str_rev (String a s)) as [|b r]; [done|].
  cbn in H. split_bool. by apply strip_plain.
Qed.
