(* ===== verification/GoFloat.v ===== *)
(** * Reading floats

    [strconv.ParseFloat] with its whole grammar (signs, infinities,
    hexadecimal mantissas, underscores between digits), rounded to the nearest
    binary64. *)

From stdpp Require Import base numbers list strings pretty.
From Stdlib Require Import ZArith Lia Ascii SpecFloat.
From S2P Require Import Prelude GoInt GoString GoText.

(** ** strconv.ParseFloat *)

Definition lower_byte (a : ascii) : Z := Z.lor (Z.of_nat (nat_of_ascii a)) 32.

Definition hex_digit (a : ascii) : option Z :=
  match digit_value a with
  | Some d => Some d
  | None => let n := lower_byte a in if (97 <=? n) && (n <=? 102) then Some (n - 87) else None
  end.

Definition mantissa_digit (hex : bool) (a : ascii) : option Z := if hex then hex_digit a else digit_value a.

(** The mantissa of [readFloat]: what is read so far ([sc_exp] counts the
    digits after the point), and the text that is left. *)
Record scan := mkScan { sc_mant : Z; sc_exp : Z; sc_dot : bool; sc_digits : bool; sc_under : bool }.

Fixpoint read_mantissa (hex : bool) (st : scan) (s : string) : scan * string :=
  match s with
  | EmptyString => (st, s)
  | String a s' =>
      if Ascii.eqb a "_" then
        read_mantissa hex (mkScan (sc_mant st) (sc_exp st) (sc_dot st) (sc_digits st) true) s'
      else if Ascii.eqb a "." then
        if sc_dot st then (st, s)
        else read_mantissa hex (mkScan (sc_mant st) (sc_exp st) true (sc_digits st) (sc_under st)) s'
      else match mantissa_digit hex a with
           | Some d => read_mantissa hex (mkScan ((if hex then 16 else 10) * sc_mant st + d)
                         (if sc_dot st then sc_exp st + 1 else sc_exp st) (sc_dot st) true (sc_under st)) s'
           | None => (st, s)
           end
  end.

(** The digits of an exponent: they stop counting at 10000. *)
Fixpoint read_exponent (acc : Z) (under : bool) (s : string) : Z * bool * string :=
  match s with
  | EmptyString => (acc, under, s)
  | String a s' =>
      if Ascii.eqb a "_" then read_exponent acc true s'
      else match digit_value a with
           | Some d => read_exponent (if acc <? 10000 then 10 * acc + d else acc) under s'
           | None => (acc, under, s)
           end
  end.

Definition take_sign (s : string) : bool * string :=
  match s with
  | String "-" r => (true, r)
  | String "+" r => (false, r)
  | _ => (false, s)
  end%char.

Definition hex_prefix (s : string) : option string :=
  match s with
  | String "0"%char (String x r) => if (lower_byte x =? 120) && negb (String.eqb r "") then Some r else None
  | _ => None
  end.

(** [underscoreOK]: the kind of the last character is [^], [0], [_] or [!]. *)
Inductive seen := SeenStart | SeenDigit | SeenUnder | SeenOther.
Definition is_digit_seen (k : seen) : bool := match k with SeenDigit => true | _ => false end.
Definition is_under_seen (k : seen) : bool := match k with SeenUnder => true | _ => false end.

Fixpoint underscores_from (hex : bool) (k : seen) (s : string) : bool :=
  match s with
  | EmptyString => negb (is_under_seen k)
  | String a s' =>
      match mantissa_digit hex a with
      | Some _ => underscores_from hex SeenDigit s'
      | None => if Ascii.eqb a "_" then is_digit_seen k && underscores_from hex SeenUnder s'
                else negb (is_under_seen k) && underscores_from hex SeenOther s'
      end
  end.

Definition underscoreOK (s : string) : bool :=
  let '(_, r) := take_sign s in
  match r with
  | String "0"%char (String x r') =>
      if (lower_byte x =? 98) || (lower_byte x =? 111) || (lower_byte x =? 120)
      then underscores_from (lower_byte x =? 120) SeenDigit r'
      else underscores_from false SeenStart r
  | _ => underscores_from false SeenStart r
  end.

(** The binary64 next to (-1)^neg * m * 10^k or m * 2^k. *)
Definition of_decimal (neg : bool) (m k : Z) : spec_float :=
  match m with
  | Zpos p =>
      if 0 <=? k then SFdiv 53 1024 (S754_finite neg (p * Z.to_pos (10 ^ k)) 0) (S754_finite false 1 0)
      else SFdiv 53 1024 (S754_finite neg p 0) (S754_finite false (Z.to_pos (10 ^ (- k))) 0)
  | _ => S754_zero neg
  end.
Definition of_binary (neg : bool) (m k : Z) : spec_float :=
  match m with Zpos p => binary_round 53 1024 neg p k | _ => S754_zero neg end.

(** [readFloat] followed by the conversion; what is too large becomes an infinity. *)
Definition parse_number (s : string) : option spec_float :=
  let '(neg, r) := take_sign s in
  let '(hex, r) := match hex_prefix r with Some r' => (true, r') | None => (false, r) end in
  let '(st, rest) := read_mantissa hex (mkScan 0 0 false false false) r in
  if negb (sc_digits st) then None else
  let exponent :=
    match rest with
    | EmptyString => if hex then None else Some (0, sc_under st)
    | String c rest' =>
        if lower_byte c =? (if hex then 112 else 101) then
          let '(eneg, digits) := take_sign rest' in
          match digits with
          | String d _ =>
              match digit_value d with
              | Some _ => match read_exponent 0 (sc_under st) digits with
                          | (e, under, EmptyString) => Some (if eneg then - e else e, under)
                          | _ => None
                          end
              | None => None
              end
          | EmptyString => None
          end
        else None
    end in
  match exponent with
  | None => None
  | Some (e, under) =>
      if under && negb (underscoreOK s) then None else
      Some (if hex then of_binary neg (sc_mant st) (e - 4 * sc_exp st) else of_decimal neg (sc_mant st) (e - sc_exp st))
  end.

Fixpoint lower_text (s : string) : string :=
  match s with EmptyString => EmptyString | String a s' => String (lower_ascii a) (lower_text s') end.

Definition special_number (s : string) : option spec_float :=
  let '(neg, r) := take_sign s in
  if str_in (lower_text r) ["inf"; "infinity"] then Some (S754_infinity neg)
  else if String.eqb (lower_text s) "nan" then Some S754_nan else None.

(** [strconv.ParseFloat(s, 64)]; [None] stands for every error, overflow included. *)
Definition ParseFloat (s : string) : option spec_float :=
  match special_number s with
  | Some v => Some v
  | None => match parse_number s with Some (S754_infinity _) => None | v => v end
  end.

(** The number [ParseFloat] returns beside an error: zero, or an infinity. *)
Definition ParseFloat_value (s : string) : spec_float :=
  match special_number s with Some v => v | None => default (S754_zero false) (parse_number s) end.

Example parse_amount : ParseFloat "12.34" = Some (S754_finite false 6946802425218990 (-49)).
Proof. vm_compute. reflexivity. Qed.
Example parse_underscores : ParseFloat "1_23.50_0_0e+1_2" = ParseFloat "123.5e12" /\ ParseFloat "1__0" = None.
Proof. vm_compute. done. Qed.
Example parse_forms :
  map ParseFloat ["0x1p-2"; "-Inf"; ".5"; "1."; "1e400"; ""; "."; "1e"; "0x1"] =
  [Some (S754_finite false 4503599627370496 (-54)); Some (S754_infinity true);
   Some (S754_finite false 4503599627370496 (-53)); Some (S754_finite false 4503599627370496 (-52)); None; None; None; None; None].
Proof. vm_compute. reflexivity. Qed.
