(* ===== verification/GoTime.v ===== *)
(** * Calendar time

    The part of Go's [time] package the subscription code uses: the civil
    (proleptic Gregorian) fields of an instant, [time.Date], [AddDate], [Unix]
    and [Weekday].  An instant is its Unix second together with the offset of
    its location, taken constant (a zone without daylight-saving changes; 0 for
    UTC).  Days are numbered from 0001-01-01 and months from January of year 0.
    [Unix] wraps to 64 bits as Go's does. *)

From stdpp Require Import base numbers list.
From Stdlib Require Import ZArith Lia Sorted.
From S2P Require Import Prelude GoInt.

(** ** Gregorian calendar *)

Definition leap (y : Z) : bool :=
  (y mod 4 =? 0) && (negb (y mod 100 =? 0) || (y mod 400 =? 0)).

(** Days before January 1st of year [y]. *)
Definition days_before_year (y : Z) : Z :=
  let k := y - 1 in 365 * k + k / 4 - k / 100 + k / 400.

(** Day of the year on which each month after January starts. *)
Definition month_starts (l : bool) : list Z :=
  let b := if l then 1 else 0 in
  [31; 59 + b; 90 + b; 120 + b; 151 + b; 181 + b; 212 + b; 243 + b; 273 + b; 304 + b; 334 + b].

Definition days_before_month (l : bool) (m : Z) : Z :=
  if m <=? 0 then 0 else nth (Z.to_nat (m - 1)) (month_starts l) 0.

(** First day of the month with index [i] ([12 * year + month - 1]). *)
Definition first_of_month (i : Z) : Z :=
  days_before_year (i / 12) + days_before_month (leap (i / 12)) (i mod 12).

(** Year containing day [z]: a proportional estimate, corrected by one. *)
Definition year_of_day (z : Z) : Z :=
  let e := z * 400 / 146097 + 1 in
  if z <? days_before_year e then e - 1
  else if z <? days_before_year (e + 1) then e
  else e + 1.

Definition month_in_year (l : bool) (doy : Z) : Z :=
  Z.of_nat (length (List.filter (fun b => b <=? doy) (month_starts l))).

(** Index of the month containing day [z]. *)
Definition month_of_day (z : Z) : Z :=
  let y := year_of_day z in
  12 * y + month_in_year (leap y) (z - days_before_year y).

(** ** Instants *)

Definition secs_per_day : Z := 86400.
(** Days from 0001-01-01 to 1970-01-01. *)
Definition epoch_day : Z := 719162.

Record instant := mkInstant { i_unix : Z; i_loc : Z }.

(** [time.Unix(sec, 0)] in a location. *)
Definition time_Unix (sec loc : Z) : instant := mkInstant sec loc.

Definition local_day (t : instant) : Z := (i_unix t + i_loc t) / secs_per_day + epoch_day.
Definition Year (t : instant) : Z := year_of_day (local_day t).
Definition Month (t : instant) : Z := month_of_day (local_day t) mod 12 + 1.
Definition Day (t : instant) : Z := local_day t - first_of_month (month_of_day (local_day t)) + 1.
(** Sunday is 0; 0001-01-01 was a Monday. *)
Definition Weekday (t : instant) : Z := (local_day t + 1) mod 7.

(** [time.Date(y, m, d, 0, 0, 0, 0, loc)], months and days normalised as Go
    normalises them. *)
Definition Date (y m d loc : Z) : instant :=
  mkInstant (wrap64 ((first_of_month (12 * y + m - 1) + (d - 1) - epoch_day) * secs_per_day - loc)) loc.

(** Seconds since local midnight. *)
Definition Clock (t : instant) : Z := (i_unix t + i_loc t) mod secs_per_day.

(** [t.AddDate(dy, dm, dd)]: the date changes, the clock stays. *)
Definition AddDate (t : instant) (dy dm dd : Z) : instant :=
  let d := Date (Year t + dy) (Month t + dm) (Day t + dd) (i_loc t) in
  mkInstant (wrap64 (i_unix d + Clock t)) (i_loc t).

(** ** The calendar is consistent *)

Ltac divmod := Z.div_mod_to_equations; lia.

Lemma leap_spec y : leap y = true <-> (y mod 4 = 0 /\ (y mod 100 <> 0 \/ y mod 400 = 0)).
Proof. unfold leap. lia. Qed.

Lemma days_before_year_succ y :
  days_before_year (y + 1) = days_before_year y + (if leap y then 366 else 365).
Proof.
  unfold days_before_year. replace (y + 1 - 1) with y by lia.
  destruct (leap y) eqn:E.
  - apply leap_spec in E. divmod.
  - assert (~ (y mod 4 = 0 /\ (y mod 100 <> 0 \/ y mod 400 = 0))) by (rewrite <- leap_spec; by rewrite E).
    divmod.
Qed.

Lemma year_of_day_spec z :
  days_before_year (year_of_day z) <= z < days_before_year (year_of_day z + 1).
Proof.
  unfold year_of_day. set (e := z * 400 / 146097 + 1).
  assert (days_before_year (e - 1) <= z < days_before_year (e + 2)).
  { subst e. unfold days_before_year. divmod. }
  destruct (Z.ltb_spec z (days_before_year e)); [replace (e - 1 + 1) with e by lia; lia|].
  destruct (Z.ltb_spec z (days_before_year (e + 1))); [lia|].
  replace (e + 1 + 1) with (e + 2) by lia. lia.
Qed.

Lemma days_before_month_bounds (l : bool) m :
  0 <= m < 12 ->
  0 <= days_before_month l m <= 335 /\
  28 <= (if m =? 11 then (if l then 366 else 365) else days_before_month l (m + 1))
        - days_before_month l m <= 31.
Proof.
  intros Hm.
  assert (m = 0 \/ m = 1 \/ m = 2 \/ m = 3 \/ m = 4 \/ m = 5 \/ m = 6 \/ m = 7 \/ m = 8
          \/ m = 9 \/ m = 10 \/ m = 11) as Hc by lia.
  destruct l; repeat destruct Hc as [->|Hc]; subst; vm_compute; split; split; discriminate.
Qed.

(** In a sorted list the elements up to [x] come first. *)
Lemma count_sorted (L : list Z) x :
  StronglySorted Z.le L ->
  let k := length (List.filter (fun b => b <=? x) L) in
  (k <= length L)%nat /\
  (forall i, (i < k)%nat -> nth i L 0 <= x) /\
  (forall i, (k <= i < length L)%nat -> x < nth i L 0).
Proof.
  induction 1 as [|a L Hs IH Ha]; cbn; [repeat split; intros; lia|].
  rewrite Forall_forall in Ha.
  destruct (Z.leb_spec a x) as [Hle|Hgt]; cbn; destruct IH as (IH0 & IH1 & IH2).
  - split; [lia|]. split; intros [|i] Hi; try lia; [apply IH1 | apply IH2]; lia.
  - assert (forall i, (i < length L)%nat -> x < nth i L 0) as Hall.
    { intros i Hi. specialize (Ha (nth i L 0)).
      rewrite list_elem_of_In in Ha. specialize (Ha ltac:(by apply nth_In)). lia. }
    destruct (length (List.filter (fun b => b <=? x) L)) as [|n] eqn:E.
    + split; [lia|]. split; intros [|i] Hi; try lia. apply Hall. lia.
    + specialize (IH1 0%nat ltac:(lia)). specialize (Hall 0%nat ltac:(lia)). lia.
Qed.

Lemma month_in_year_spec (l : bool) doy :
  0 <= doy < (if l then 366 else 365) ->
  let m := month_in_year l doy in
  0 <= m < 12 /\ days_before_month l m <= doy /\
  doy < (if m =? 11 then (if l then 366 else 365) else days_before_month l (m + 1)).
Proof.
  intros Hd. unfold month_in_year.
  destruct (count_sorted (month_starts l) doy) as (H0 & H1 & H2).
  { destruct l; repeat constructor; lia. }
  set (k := length (List.filter (fun b => b <=? doy) (month_starts l))) in *.
  change (length (month_starts l)) with 11%nat in *. cbn zeta. unfold days_before_month.
  split; [lia|]. split.
  - destruct (Z.leb_spec (Z.of_nat k) 0); [lia|]. apply H1. lia.
  - destruct (Z.eqb_spec (Z.of_nat k) 11); [lia|].
    destruct (Z.leb_spec (Z.of_nat k + 1) 0); [lia|].
    replace (Z.to_nat (Z.of_nat k + 1 - 1)) with k by lia. apply H2. lia.
Qed.

Lemma first_of_month_succ i :
  28 <= first_of_month (i + 1) - first_of_month i <= 31.
Proof.
  unfold first_of_month.
  pose proof (Z.mod_pos_bound i 12 ltac:(lia)) as Hm.
  pose proof (days_before_month_bounds (leap (i / 12)) (i mod 12) Hm) as [_ Hd].
  destruct (Z.eqb_spec (i mod 12) 11) as [E|E].
  - replace ((i + 1) / 12) with (i / 12 + 1) by divmod.
    replace ((i + 1) mod 12) with 0 by divmod.
    rewrite days_before_year_succ. change (days_before_month _ 0) with 0. lia.
  - replace ((i + 1) / 12) with (i / 12) by divmod.
    replace ((i + 1) mod 12) with (i mod 12 + 1) by divmod. lia.
Qed.

Lemma first_of_month_mono_nat i n :
  28 * Z.of_nat n <= first_of_month (i + Z.of_nat n) - first_of_month i <= 31 * Z.of_nat n.
Proof.
  induction n as [|n IH]; [rewrite Z.add_0_r; lia|].
  pose proof (first_of_month_succ (i + Z.of_nat n)).
  replace (i + Z.of_nat (S n)) with (i + Z.of_nat n + 1) by lia. lia.
Qed.

Lemma first_of_month_diff i j :
  i <= j -> 28 * (j - i) <= first_of_month j - first_of_month i <= 31 * (j - i).
Proof.
  intros H. pose proof (first_of_month_mono_nat i (Z.to_nat (j - i))) as Hn.
  replace (i + Z.of_nat (Z.to_nat (j - i))) with j in Hn by lia. lia.
Qed.

Lemma first_of_month_lt i j : first_of_month i < first_of_month j <-> i < j.
Proof.
  split; intros H.
  - destruct (decide (i < j)); [done|]. pose proof (first_of_month_diff j i). lia.
  - pose proof (first_of_month_diff i j). lia.
Qed.

Lemma first_of_month_le i j : first_of_month i <= first_of_month j <-> i <= j.
Proof. pose proof (first_of_month_lt j i). lia. Qed.

(** Every day lies in exactly one month. *)
Lemma month_of_day_spec z :
  first_of_month (month_of_day z) <= z < first_of_month (month_of_day z + 1).
Proof.
  unfold month_of_day. pose proof (year_of_day_spec z) as Hy.
  set (y := year_of_day z) in *. rewrite days_before_year_succ in Hy.
  pose proof (month_in_year_spec (leap y) (z - days_before_year y) ltac:(destruct (leap y); lia)) as Hm.
  set (m := month_in_year (leap y) (z - days_before_year y)) in *. cbn zeta in Hm.
  destruct Hm as (Hm & Hl & Hu). unfold first_of_month.
  replace ((12 * y + m) / 12) with y by divmod.
  replace ((12 * y + m) mod 12) with m by divmod.
  split; [lia|].
  destruct (Z.eqb_spec m 11) as [E|E].
  - replace ((12 * y + m + 1) / 12) with (y + 1) by divmod.
    replace ((12 * y + m + 1) mod 12) with 0 by divmod.
    rewrite days_before_year_succ. change (days_before_month _ 0) with 0. lia.
  - replace ((12 * y + m + 1) / 12) with y by divmod.
    replace ((12 * y + m + 1) mod 12) with (m + 1) by divmod. lia.
Qed.

Lemma month_of_day_unique z i :
  first_of_month i <= z < first_of_month (i + 1) -> month_of_day z = i.
Proof.
  intros H. pose proof (month_of_day_spec z) as Hs.
  assert (month_of_day z < i + 1) by (apply first_of_month_lt; lia).
  assert (i < month_of_day z + 1) by (apply first_of_month_lt; lia). lia.
Qed.

Lemma month_of_day_first i : month_of_day (first_of_month i) = i.
Proof. apply month_of_day_unique. pose proof (first_of_month_succ i). lia. Qed.

Lemma month_of_day_le z w : z <= w -> month_of_day z <= month_of_day w.
Proof.
  intros H. pose proof (month_of_day_spec z). pose proof (month_of_day_spec w).
  assert (month_of_day z < month_of_day w + 1) by (apply first_of_month_lt; lia). lia.
Qed.

Lemma year_of_day_month z : year_of_day z = month_of_day z / 12.
Proof.
  unfold month_of_day. pose proof (year_of_day_spec z) as Hy.
  set (y := year_of_day z) in *. rewrite days_before_year_succ in Hy.
  pose proof (month_in_year_spec (leap y) (z - days_before_year y) ltac:(destruct (leap y); lia)) as Hm.
  cbn zeta in Hm. divmod.
Qed.

(** [Year], [Month] and [Day] invert [Date]. *)
Lemma date_fields t : 12 * Year t + Month t - 1 = month_of_day (local_day t).
Proof. unfold Year, Month. rewrite year_of_day_month. divmod. Qed.

Lemma first_of_year y : first_of_month (12 * y) = days_before_year y.
Proof.
  unfold first_of_month. rewrite (Z.mul_comm 12 y), Z.div_mul, Z_mod_mult by lia. cbn. lia.
Qed.

Lemma first_of_year_length y :
  365 <= first_of_month (12 * (y + 1)) - first_of_month (12 * y) <= 366.
Proof. rewrite !first_of_year, days_before_year_succ. destruct (leap y); lia. Qed.
