(* ===== verification/QuotaWindow.v ===== *)
(** * Quota window descriptions

    [SubscriptionQuotaWindow] of [src/model/subscription.go]: one independently
    enforced quota condition as an administrator writes it, with its accepted
    aliases, and the normal form the enforcement code reads.  [Normalize] is
    translated branch by branch; the theorems show that its result is canonical
    and that normalising is idempotent, for one window and for a list. *)

From stdpp Require Import base numbers list strings pretty sets.
From Stdlib Require Import ZArith Lia.
From S2P Require Import Prelude GoInt GoString.

(** ** Data *)

Definition MaxSubscriptionQuotaWindowSeconds : Z := 100 * 366 * 24 * 60 * 60.
Definition DefaultFiveHourWindowSeconds : Z := 5 * 60 * 60.

Record SubscriptionQuotaWindow := mkQuotaWindow {
  w_Type : string; w_Period : string; w_Unit : string;
  w_Amount : Z; w_Limit : Z; w_Quota : Z;
  w_Duration : Z; w_DurationValue : Z;
  w_WindowSeconds : Z; w_CustomSeconds : Z; w_DurationSeconds : Z;
  w_ResetMode : string; w_Calendar : bool; w_Rolling : bool;
  w_Name : string
}.

#[export] Instance SubscriptionQuotaWindow_eq_dec : EqDecision SubscriptionQuotaWindow.
Proof. solve_decision. Defined.

(** A composite literal [SubscriptionQuotaWindow{Type: t, Amount: a, WindowSeconds: s}]. *)
Definition candidate_window (t : string) (amount seconds : Z) (resetMode : string)
  : SubscriptionQuotaWindow :=
  mkQuotaWindow t "" "" amount 0 0 0 0 seconds 0 0 resetMode false false "".

(** ** Normalisation *)

Definition five_hour_words : list string := ["5h"; "5hour"; "5_hours"; "five_hour"; "five-hours"].

(** [None] is the code's [("", false)]; the empty word is [Some ""]. *)
Definition normalizeSubscriptionQuotaWindowUnit (raw : string) : option string :=
  let s := norm raw in
  if str_in s [""] then Some ""
  else if str_in s (five_hour_words ++ ["hour"; "hourly"; "hours"]) then Some "hour"
  else if str_in s ["day"; "daily"; "days"] then Some "day"
  else if str_in s ["week"; "weekly"; "weeks"] then Some "week"
  else if str_in s ["month"; "monthly"; "months"] then Some "month"
  else if str_in s ["year"; "yearly"; "years"; "annual"; "annually"] then Some "year"
  else if str_in s ["custom"; "seconds"; "second"; "duration"] then Some "custom"
  else None.

Definition quotaWindowNominalUnitSeconds (unit : string) : Z :=
  if str_in unit ["hour"] then 60 * 60
  else if str_in unit ["day"] then 24 * 60 * 60
  else if str_in unit ["week"] then 7 * 24 * 60 * 60
  else if str_in unit ["month"] then 30 * 24 * 60 * 60
  else if str_in unit ["year"] then 365 * 24 * 60 * 60
  else 0.

(** The unique positive value among aliases; [None] when they disagree or one is negative. *)
Fixpoint pick_positive (selected : Z) (values : list Z) : option Z :=
  match values with
  | [] => Some selected
  | value :: rest =>
      if value <? 0 then None
      else if value =? 0 then pick_positive selected rest
      else if negb (selected =? 0) && negb (selected =? value) then None
      else pick_positive value rest
  end.

Definition pickPositiveQuotaWindowAlias (values : list Z) : option Z := pick_positive 0 values.

(** The loop over [Type], [Period] and [Unit]. *)
Fixpoint fold_units (unit : string) (raws : list string) : option string :=
  match raws with
  | [] => Some unit
  | raw :: rest =>
      match normalizeSubscriptionQuotaWindowUnit raw with
      | None => None
      | Some n =>
          if String.eqb n "" then fold_units unit rest
          else if negb (String.eqb unit "") && negb (String.eqb unit n) then None
          else fold_units n rest
      end
  end.

(** The reset mode after folding the [Calendar]/[Rolling] flags; [None] is invalid. *)
Definition fold_reset_mode (w : SubscriptionQuotaWindow) (unit : string) : option string :=
  if w_Calendar w && w_Rolling w then None
  else
    let r0 := norm (w_ResetMode w) in
    if negb (String.eqb r0 "") && negb (String.eqb r0 "calendar") && negb (String.eqb r0 "rolling")
    then None
    else if w_Calendar w && String.eqb r0 "rolling" then None
    else
      let r1 := if w_Calendar w then "calendar" else r0 in
      if w_Rolling w && String.eqb r1 "calendar" then None
      else
        let r2 := if w_Rolling w then "rolling" else r1 in
        Some (if String.eqb r2 "" then
                if str_in unit ["day"; "week"; "month"; "year"] then "calendar" else "rolling"
              else r2).

(** Unit count and exact length; [None] is invalid. *)
Definition fold_duration (w : SubscriptionQuotaWindow) (unit : string) (count seconds : Z)
  : option (Z * Z) :=
  if String.eqb unit "custom" then
    if (seconds <=? 0) || (1 <? count) || (MaxSubscriptionQuotaWindowSeconds <? seconds)
    then None else Some (1, seconds)
  else
    let base := quotaWindowNominalUnitSeconds unit in
    if base <=? 0 then None
    else if (count <=? 0) && (0 <? seconds) && negb (i64_rem seconds base =? 0) then None
    else
      let c1 := if (count <=? 0) && (0 <? seconds) then i64_div seconds base else count in
      let c2 :=
        if c1 <=? 0 then
          if existsb (fun raw => str_in (norm raw) five_hour_words) [w_Type w; w_Period w; w_Unit w]
          then 5 else 1
        else c1 in
      if i64_div MaxSubscriptionQuotaWindowSeconds base <? c2 then None
      else
        let expected := i64_mul c2 base in
        if (0 <? seconds) && negb (seconds =? expected) then None
        else Some (c2, expected).

Definition Normalize (w : SubscriptionQuotaWindow) : option SubscriptionQuotaWindow :=
  match fold_units "" [w_Type w; w_Period w; w_Unit w] with
  | None => None
  | Some unit =>
    if String.eqb unit "" then None else
    match pickPositiveQuotaWindowAlias [w_Amount w; w_Limit w; w_Quota w] with
    | None => None
    | Some amount =>
      if amount <=? 0 then None else
      match pickPositiveQuotaWindowAlias [w_Duration w; w_DurationValue w] with
      | None => None
      | Some count0 =>
        match pickPositiveQuotaWindowAlias [w_WindowSeconds w; w_CustomSeconds w; w_DurationSeconds w] with
        | None => None
        | Some seconds0 =>
          match fold_reset_mode w unit with
          | None => None
          | Some resetMode =>
            match fold_duration w unit count0 seconds0 with
            | None => None
            | Some (count, seconds) =>
              if (count <=? 0) || (seconds <=? 0) || (MaxSubscriptionQuotaWindowSeconds <? seconds)
              then None
              else Some (mkQuotaWindow unit unit unit amount amount amount count count
                           seconds seconds seconds resetMode
                           (String.eqb resetMode "calendar") (String.eqb resetMode "rolling")
                           (TrimSpace (w_Name w)))
            end
          end
        end
      end
    end
  end.

Definition window_key (w : SubscriptionQuotaWindow) : string :=
  w_Type w +:+ ":" +:+ pretty (w_WindowSeconds w) +:+ ":" +:+ pretty (w_Amount w) +:+ ":" +:+
  w_ResetMode w +:+ ":" +:+ w_Name w.

(** The loop of [NormalizeQuotaWindowList] with its [seen] set. *)
Fixpoint normalize_list (seen : list string) (l : list SubscriptionQuotaWindow)
  : list SubscriptionQuotaWindow :=
  match l with
  | [] => []
  | item :: rest =>
      match Normalize item with
      | None => normalize_list seen rest
      | Some n =>
          let key := window_key n in
          if str_in key seen then normalize_list seen rest
          else n :: normalize_list (key :: seen) rest
      end
  end.

Definition NormalizeQuotaWindowList (l : list SubscriptionQuotaWindow) : list SubscriptionQuotaWindow :=
  normalize_list [] l.

Definition quotaWindowListHasInvalidEntry (l : list SubscriptionQuotaWindow) : bool :=
  existsb (fun item => negb (bool_decide (is_Some (Normalize item)))) l.

(** ** Canonical windows *)

Definition window_units : list string := ["hour"; "day"; "week"; "month"; "year"; "custom"].

(** What enforcement relies on: aliases agree, limits and lengths are positive
    and bounded, the length is a whole number of units, and exactly one reset
    mode is chosen. *)
Record canonical (w : SubscriptionQuotaWindow) : Prop := {
  can_unit : w_Type w ∈ window_units;
  can_units : w_Period w = w_Type w /\ w_Unit w = w_Type w;
  can_amount : 0 < w_Amount w /\ w_Limit w = w_Amount w /\ w_Quota w = w_Amount w;
  can_count : 0 < w_Duration w /\ w_DurationValue w = w_Duration w;
  can_seconds : 0 < w_WindowSeconds w <= MaxSubscriptionQuotaWindowSeconds /\
    w_CustomSeconds w = w_WindowSeconds w /\ w_DurationSeconds w = w_WindowSeconds w;
  can_length : if String.eqb (w_Type w) "custom" then w_Duration w = 1
    else w_WindowSeconds w = w_Duration w * quotaWindowNominalUnitSeconds (w_Type w);
  can_mode : w_ResetMode w = "calendar" \/ w_ResetMode w = "rolling";
  can_flags : w_Calendar w = String.eqb (w_ResetMode w) "calendar" /\
    w_Rolling w = String.eqb (w_ResetMode w) "rolling";
  can_name : TrimSpace (w_Name w) = w_Name w
}.

Lemma unit_word_range raw n :
  normalizeSubscriptionQuotaWindowUnit raw = Some n -> n = "" \/ n ∈ window_units.
Proof.
  unfold normalizeSubscriptionQuotaWindowUnit, window_units.
  intros H. repeat case_match; simplify_eq; set_solver.
Qed.

Lemma fold_units_range raws : forall u r,
  u = "" \/ u ∈ window_units -> fold_units u raws = Some r -> r = "" \/ r ∈ window_units.
Proof.
  induction raws as [|raw raws IH]; intros u r Hu H; cbn in H; [naive_solver|].
  destruct (normalizeSubscriptionQuotaWindowUnit raw) as [n|] eqn:E; [|done].
  apply unit_word_range in E. cases_in H; eauto.
Qed.

Lemma fold_units_canonical u : u ∈ window_units -> fold_units "" [u; u; u] = Some u.
Proof. intros H. unfold window_units in H. set_unfold. by destruct_or?; subst. Qed.

Lemma unit_seconds_bounds u :
  u ∈ window_units -> u <> "custom" ->
  3600 <= quotaWindowNominalUnitSeconds u <= 31536000.
Proof.
  intros H Hc. unfold window_units in H. set_unfold.
  by destruct_or?; subst; (done || (split; vm_compute; discriminate)).
Qed.

Lemma pick_positive_nonneg vs : forall s r, 0 <= s -> pick_positive s vs = Some r -> 0 <= r.
Proof.
  induction vs as [|v vs IH]; intros s r Hs H; cbn in H; [naive_solver|].
  cases_in H; (eapply IH; [|eassumption]; lia).
Qed.

Lemma pick_positive_same a : 0 < a ->
  pickPositiveQuotaWindowAlias [a; a] = Some a /\ pickPositiveQuotaWindowAlias [a; a; a] = Some a.
Proof.
  intros H. unfold pickPositiveQuotaWindowAlias. cbn.
  rewrite (proj2 (Z.ltb_ge a 0)), (proj2 (Z.eqb_neq a 0)), Z.eqb_refl by lia. done.
Qed.

Lemma fold_reset_mode_range w u r :
  fold_reset_mode w u = Some r -> r = "calendar" \/ r = "rolling".
Proof.
  unfold fold_reset_mode. intros H.
  repeat (case_match; split_bool; simplify_eq/=; try done; auto).
  all: destruct (norm (w_ResetMode w) =? "")%string eqn:E1,
       (norm (w_ResetMode w) =? "calendar")%string eqn:E2,
       (norm (w_ResetMode w) =? "rolling")%string eqn:E3; split_bool; auto; done.
Qed.

Lemma nominal_max u : u ∈ window_units -> u <> "custom" ->
  i64_div MaxSubscriptionQuotaWindowSeconds (quotaWindowNominalUnitSeconds u)
    = MaxSubscriptionQuotaWindowSeconds / quotaWindowNominalUnitSeconds u.
Proof.
  intros H Hc. unfold window_units in H. set_unfold. by destruct_or?; subst; done.
Qed.

Lemma fold_duration_canonical w u c s c' s' :
  u ∈ window_units -> 0 <= c -> 0 <= s ->
  fold_duration w u c s = Some (c', s') ->
  0 < c' -> 0 < s' <= MaxSubscriptionQuotaWindowSeconds ->
  if String.eqb u "custom" then c' = 1 else s' = c' * quotaWindowNominalUnitSeconds u.
Proof.
  intros Hu Hc Hs H Hc' Hs'. unfold fold_duration in H.
  destruct (String.eqb_spec u "custom") as [->|Hne]; [by cases_in H|].
  pose proof (unit_seconds_bounds u Hu Hne) as Hb.
  rewrite (nominal_max u Hu Hne) in H. set (base := quotaWindowNominalUnitSeconds u) in *.
  assert (MaxSubscriptionQuotaWindowSeconds / base <= 878400) as Hq.
  { unfold MaxSubscriptionQuotaWindowSeconds. apply Z.div_le_upper_bound; lia. }
  destruct (base <=? 0) eqn:E1; [done|].
  destruct ((c <=? 0) && (0 <? s) && negb (i64_rem s base =? 0)); [done|]. cbn zeta in H.
  match type of H with context [_ <? ?x] => generalize x, H end. clear H. intros c2 H.
  destruct (Z.ltb_spec (MaxSubscriptionQuotaWindowSeconds / base) c2); [done|].
  destruct ((0 <? s) && negb (s =? i64_mul c2 base)); [done|].
  injection H as <- <-. unfold i64_mul. rewrite wrap64_id; [done|].
  unfold is_i64, min_i64, max_i64. nia.
Qed.

Lemma Normalize_canonical w n : Normalize w = Some n -> canonical n.
Proof.
  unfold Normalize. intros H.
  destruct (fold_units _ _) as [u|] eqn:Eu; [|done].
  apply fold_units_range in Eu; [|by left].
  destruct (String.eqb_spec u "") as [|Hu]; [done|]. destruct Eu as [?|Eu]; [done|].
  destruct (pickPositiveQuotaWindowAlias [w_Amount w; _; _]) as [a|]; [|done].
  destruct (Z.leb_spec a 0); [done|].
  destruct (pickPositiveQuotaWindowAlias [w_Duration w; _]) as [c0|] eqn:Ec; [|done].
  destruct (pickPositiveQuotaWindowAlias [w_WindowSeconds w; _; _]) as [s0|] eqn:Es; [|done].
  apply pick_positive_nonneg in Ec, Es; [|done|done].
  destruct (fold_reset_mode w u) as [r|] eqn:Er; [|done]. apply fold_reset_mode_range in Er.
  destruct (fold_duration w u c0 s0) as [[c s]|] eqn:Ed; [|done].
  destruct ((c <=? 0) || (s <=? 0) || (MaxSubscriptionQuotaWindowSeconds <? s)) eqn:Eg; [done|].
  injection H as <-. split_bool.
  constructor; cbn; try done; try lia.
  - eapply (fold_duration_canonical w u c0 s0); eauto; lia.
  - apply TrimSpace_idemp.
Qed.

Lemma fold_reset_mode_canonical w u : canonical w -> fold_reset_mode w u = Some (w_ResetMode w).
Proof.
  intros [_ _ _ _ _ _ Hm [Hc Hr] _]. unfold fold_reset_mode. rewrite Hc, Hr.
  destruct Hm as [->| ->]; reflexivity.
Qed.

Lemma fold_duration_fixed w :
  canonical w ->
  fold_duration w (w_Type w) (w_Duration w) (w_WindowSeconds w)
    = Some (w_Duration w, w_WindowSeconds w).
Proof.
  intros [Hu _ _ [Hd _] [Hs _] Hl _ _ _]. unfold fold_duration.
  destruct (String.eqb_spec (w_Type w) "custom") as [E|Hne].
  - rewrite Hl. destruct (Z.leb_spec (w_WindowSeconds w) 0); [lia|].
    destruct (Z.ltb_spec MaxSubscriptionQuotaWindowSeconds (w_WindowSeconds w)); [lia|]. done.
  - pose proof (unit_seconds_bounds _ Hu Hne) as Hb. rewrite (nominal_max _ Hu Hne).
    set (base := quotaWindowNominalUnitSeconds (w_Type w)) in *. cbn zeta.
    rewrite (proj2 (Z.leb_gt base 0)), (proj2 (Z.leb_gt (w_Duration w) 0)) by lia. cbn [andb].
    rewrite (proj2 (Z.leb_gt (w_Duration w) 0)) by lia.
    rewrite (proj2 (Z.ltb_ge _ _)) by (apply Z.div_le_lower_bound; lia).
    assert (i64_mul (w_Duration w) base = w_WindowSeconds w) as ->.
    { unfold i64_mul. rewrite wrap64_id; [lia|].
      unfold is_i64, min_i64, max_i64, MaxSubscriptionQuotaWindowSeconds in *. lia. }
    by rewrite Z.eqb_refl, andb_false_r.
Qed.

Lemma Normalize_fixed w : canonical w -> Normalize w = Some w.
Proof.
  intros Hw. pose proof (fold_reset_mode_canonical w (w_Type w) Hw) as Hrm.
  pose proof (fold_duration_fixed w Hw) as Hfd.
  destruct Hw as [Hu [H1 H2] (Ha & H3 & H4) [Hd H5] ((Hs & Hs') & H6 & H7) _ _ [H8 H9] H10].
  unfold Normalize. rewrite H1, H2, H3, H4, H5, H6, H7.
  rewrite (fold_units_canonical _ Hu).
  destruct (String.eqb_spec (w_Type w) "") as [E|_].
  { rewrite E in Hu. unfold window_units in Hu. set_solver. }
  rewrite (proj2 (pick_positive_same _ Ha)), (proj1 (pick_positive_same _ Hd)),
    (proj2 (pick_positive_same _ Hs)), Hrm, Hfd.
  rewrite (proj2 (Z.leb_gt (w_Amount w) 0)) by done.
  rewrite (proj2 (Z.leb_gt (w_Duration w) 0)), (proj2 (Z.leb_gt (w_WindowSeconds w) 0)),
    (proj2 (Z.ltb_ge MaxSubscriptionQuotaWindowSeconds (w_WindowSeconds w))) by done.
  cbn [orb]. rewrite <- H8, <- H9, H10. destruct w; cbn in *; congruence.
Qed.

Lemma Normalize_idemp w n : Normalize w = Some n -> Normalize n = Some n.
Proof. intros H. by apply Normalize_fixed, (Normalize_canonical w). Qed.

(** ** Lists of windows *)

Lemma normalize_list_spec l : forall seen,
  Forall canonical (normalize_list seen l) /\
  NoDup (map window_key (normalize_list seen l)) /\
  Forall (fun w => window_key w ∉ seen) (normalize_list seen l).
Proof.
  induction l as [|w l IH]; intros seen; cbn; [repeat constructor|].
  destruct (Normalize w) as [n|] eqn:En; [|apply IH].
  destruct (str_in (window_key n) seen) eqn:Es; [apply IH|].
  destruct (IH (window_key n :: seen)) as (H1 & H2 & H3).
  assert (window_key n ∉ seen) by (intros Hin; apply str_in_spec in Hin; congruence).
  split; [constructor; eauto using Normalize_canonical|]. split.
  - cbn. constructor; [|done]. intros (x & Hx & Hin)%list_elem_of_In%in_map_iff.
    rewrite Forall_forall in H3. apply (H3 x); [by apply list_elem_of_In|]. rewrite Hx. left.
  - constructor; [done|]. eapply Forall_impl; [done|]. set_solver.
Qed.

(** A list of canonical windows with distinct keys is left alone. *)
Lemma normalize_list_fixed l : forall seen,
  Forall canonical l -> NoDup (map window_key l) -> Forall (fun w => window_key w ∉ seen) l ->
  normalize_list seen l = l.
Proof.
  induction l as [|w l IH]; intros seen Hc Hd Hs; [done|]. cbn.
  apply Forall_cons in Hc as [Hw Hc], Hs as [Hws Hs]. cbn in Hd. apply NoDup_cons in Hd as [Hn Hd].
  rewrite (Normalize_fixed w Hw).
  destruct (str_in (window_key w) seen) eqn:E; [apply str_in_spec in E; done|].
  f_equal. apply IH; [done..|]. apply Forall_forall. intros x Hx [He|He]%elem_of_cons.
  - apply Hn. rewrite <- He. apply list_elem_of_In, in_map. by apply list_elem_of_In.
  - rewrite Forall_forall in Hs. by apply (Hs x).
Qed.

Lemma NormalizeQuotaWindowList_idemp l :
  NormalizeQuotaWindowList (NormalizeQuotaWindowList l) = NormalizeQuotaWindowList l.
Proof. destruct (normalize_list_spec l []) as (? & ? & ?). by apply normalize_list_fixed. Qed.

Lemma canonical_list_valid l : Forall canonical l -> quotaWindowListHasInvalidEntry l = false.
Proof.
  intros H. unfold quotaWindowListHasInvalidEntry. induction H as [|w l Hw Hl IH]; cbn; [done|].
  rewrite (Normalize_fixed w Hw), IH. done.
Qed.

(** A non-empty list without malformed entries normalises to a non-empty one. *)
Lemma normalize_list_nonempty l :
  l <> [] -> quotaWindowListHasInvalidEntry l = false -> NormalizeQuotaWindowList l <> [].
Proof.
  destruct l as [|w l]; [done|]. intros _ H. unfold quotaWindowListHasInvalidEntry in H. cbn in H.
  split_bool. destruct H as [n Hn]. unfold NormalizeQuotaWindowList. cbn. by rewrite Hn.
Qed.
