(* ===== verification/QuotaPolicy.v ===== *)
(** * Subscription quota policies

    The catalog plan, the issued subscription, and the policy the enforcement
    code derives from them ([src/model/subscription.go]).  Plans and
    subscriptions are untrusted persisted rows: the theorems show that every
    malformed row yields a policy marked [invalid] (refused at admission), that
    a policy which is not refused carries a positive limit unless it is the
    documented unlimited legacy form, and that an issued, versioned subscription
    does not depend on later edits of its plan.  Display, payment and stock
    columns are not part of the records. *)

From stdpp Require Import base numbers list strings sets.
From Stdlib Require Import ZArith Lia Ascii.
From S2P Require Import Prelude GoInt GoString QuotaWindow.

(** ** Data *)

Record SubscriptionPlan := mkPlan {
  p_Id : Z; p_ProviderId : Z; p_Title : string; p_Enabled : bool; p_AllowPurchase : Z;
  p_DurationUnit : string; p_DurationValue : Z; p_CustomSeconds : Z;
  p_ModelLimits : string;
  p_TotalAmount : Z;
  p_QuotaResetPeriod : string; p_QuotaResetCustomSeconds : Z;
  p_QuotaWindowMode : string;
  p_FiveHourAmount : Z; p_FiveHourWindowSeconds : Z; p_WeeklyAmount : Z;
  p_QuotaWindows : list SubscriptionQuotaWindow;
  p_quotaWindowsInvalid : bool;
  p_FiveHourQuota : Z; p_WeeklyQuota : Z; p_FiveHourLimit : Z; p_WeeklyLimit : Z
}.

Record UserSubscription := mkSub {
  s_Id : Z; s_UserId : Z; s_PlanId : Z; s_ProviderId : Z;
  s_AmountTotal : Z; s_AmountUsed : Z;
  s_StartTime : Z; s_EndTime : Z; s_Status : string;
  s_LastResetTime : Z; s_NextResetTime : Z;
  s_QuotaWindowMode : string; s_QuotaWindowModeSnapshot : string;
  s_FiveHourAmount : Z; s_FiveHourWindowSeconds : Z; s_WeeklyAmount : Z;
  s_QuotaResetPeriodSnapshot : string; s_QuotaResetCustomSecondsSnapshot : Z;
  s_QuotaWindowsSnapshot : list SubscriptionQuotaWindow;
  s_PlanPolicySnapshotVersion : Z;
  s_ModelLimitsSnapshot : string; s_PlanTitleSnapshot : string
}.

Record subscriptionQuotaWindowPolicy := mkWindowPolicy {
  wp_unit : string; wp_amount : Z; wp_duration : Z; wp_windowSeconds : Z;
  wp_resetMode : string; wp_name : string
}.

Record subscriptionQuotaPolicy := mkPolicy {
  po_mode : string;
  po_fiveHourAmount : Z; po_fiveHourWindowSeconds : Z; po_weeklyAmount : Z;
  po_resetPeriod : string; po_resetCustomSeconds : Z;
  po_windows : list subscriptionQuotaWindowPolicy;
  po_invalid : bool
}.

#[export] Instance windowPolicy_eq_dec : EqDecision subscriptionQuotaWindowPolicy.
Proof. solve_decision. Defined.
#[export] Instance policy_eq_dec : EqDecision subscriptionQuotaPolicy.
Proof. solve_decision. Defined.
#[export] Instance plan_eq_dec : EqDecision SubscriptionPlan.
Proof. solve_decision. Defined.
#[export] Instance sub_eq_dec : EqDecision UserSubscription.
Proof. solve_decision. Defined.

(** Go assignments [p.Field = v]. *)
Definition set_mode (m : string) (p : SubscriptionPlan) : SubscriptionPlan :=
  mkPlan (p_Id p) (p_ProviderId p) (p_Title p) (p_Enabled p) (p_AllowPurchase p)
    (p_DurationUnit p) (p_DurationValue p) (p_CustomSeconds p) (p_ModelLimits p)
    (p_TotalAmount p) (p_QuotaResetPeriod p) (p_QuotaResetCustomSeconds p) m
    (p_FiveHourAmount p) (p_FiveHourWindowSeconds p) (p_WeeklyAmount p) (p_QuotaWindows p)
    (p_quotaWindowsInvalid p) (p_FiveHourQuota p) (p_WeeklyQuota p) (p_FiveHourLimit p) (p_WeeklyLimit p).
Definition set_windows (ws : list SubscriptionQuotaWindow) (p : SubscriptionPlan) : SubscriptionPlan :=
  mkPlan (p_Id p) (p_ProviderId p) (p_Title p) (p_Enabled p) (p_AllowPurchase p)
    (p_DurationUnit p) (p_DurationValue p) (p_CustomSeconds p) (p_ModelLimits p)
    (p_TotalAmount p) (p_QuotaResetPeriod p) (p_QuotaResetCustomSeconds p) (p_QuotaWindowMode p)
    (p_FiveHourAmount p) (p_FiveHourWindowSeconds p) (p_WeeklyAmount p) ws
    (p_quotaWindowsInvalid p) (p_FiveHourQuota p) (p_WeeklyQuota p) (p_FiveHourLimit p) (p_WeeklyLimit p).
Definition set_windowsInvalid (b : bool) (p : SubscriptionPlan) : SubscriptionPlan :=
  mkPlan (p_Id p) (p_ProviderId p) (p_Title p) (p_Enabled p) (p_AllowPurchase p)
    (p_DurationUnit p) (p_DurationValue p) (p_CustomSeconds p) (p_ModelLimits p)
    (p_TotalAmount p) (p_QuotaResetPeriod p) (p_QuotaResetCustomSeconds p) (p_QuotaWindowMode p)
    (p_FiveHourAmount p) (p_FiveHourWindowSeconds p) (p_WeeklyAmount p) (p_QuotaWindows p)
    b (p_FiveHourQuota p) (p_WeeklyQuota p) (p_FiveHourLimit p) (p_WeeklyLimit p).
(** [FiveHourAmount], [FiveHourWindowSeconds], [WeeklyAmount], [QuotaResetPeriod]. *)
Definition set_scalars (five five_secs weekly : Z) (reset : string) (p : SubscriptionPlan) : SubscriptionPlan :=
  mkPlan (p_Id p) (p_ProviderId p) (p_Title p) (p_Enabled p) (p_AllowPurchase p)
    (p_DurationUnit p) (p_DurationValue p) (p_CustomSeconds p) (p_ModelLimits p)
    (p_TotalAmount p) reset (p_QuotaResetCustomSeconds p) (p_QuotaWindowMode p)
    five five_secs weekly (p_QuotaWindows p)
    (p_quotaWindowsInvalid p) (p_FiveHourQuota p) (p_WeeklyQuota p) (p_FiveHourLimit p) (p_WeeklyLimit p).
Definition set_fiveHour (v : Z) (p : SubscriptionPlan) : SubscriptionPlan :=
  set_scalars v (p_FiveHourWindowSeconds p) (p_WeeklyAmount p) (p_QuotaResetPeriod p) p.
(** [ProviderId], [ModelLimits] and [Title], overlaid from a snapshot. *)
Definition set_fence (prov : Z) (limits title : string) (p : SubscriptionPlan) : SubscriptionPlan :=
  mkPlan (p_Id p) prov title (p_Enabled p) (p_AllowPurchase p)
    (p_DurationUnit p) (p_DurationValue p) (p_CustomSeconds p) limits
    (p_TotalAmount p) (p_QuotaResetPeriod p) (p_QuotaResetCustomSeconds p) (p_QuotaWindowMode p)
    (p_FiveHourAmount p) (p_FiveHourWindowSeconds p) (p_WeeklyAmount p) (p_QuotaWindows p)
    (p_quotaWindowsInvalid p) (p_FiveHourQuota p) (p_WeeklyQuota p) (p_FiveHourLimit p) (p_WeeklyLimit p).

(** ** Keyword tables *)

Definition hour_modes : list string := ["hour"; "hourly"; "hours"].
Definition five_hour_modes : list string := ["5h"; "5hour"; "5_hours"; "five-hours"].
Definition day_modes : list string := ["day"; "daily"; "days"].
Definition month_modes : list string := ["month"; "monthly"; "months"].
Definition year_modes : list string := ["year"; "yearly"; "years"; "annual"; "annually"].
Definition custom_modes : list string := ["custom"; "seconds"; "second"; "duration"].
(** The modes that describe one window by its period alone. *)
Definition direct_modes : list string :=
  hour_modes ++ five_hour_modes ++ day_modes ++ ["week"] ++ month_modes ++ year_modes ++ custom_modes.

Definition NormalizeQuotaWindowMode (mode : string) : string :=
  let m := norm mode in
  if String.eqb m "five_hour" then "five_hour"
  else if String.eqb m "weekly" then "weekly"
  else if String.eqb m "dual" then "dual"
  else if String.eqb m "generic" then "generic"
  else if str_in m direct_modes then "generic"
  else "legacy".

Definition subscriptionQuotaWindowModeIsKnown (raw : string) : bool :=
  let r := norm raw in
  if String.eqb r "" || String.eqb r "legacy" then true
  else negb (String.eqb (NormalizeQuotaWindowMode r) "legacy").

Definition subscriptionResetPeriodIsKnown (raw : string) : bool :=
  str_in (norm raw) [""; "never"; "daily"; "weekly"; "monthly"; "yearly"; "annual"; "annually"; "custom"].

Definition NormalizeResetPeriod (period : string) : string :=
  let p := norm period in
  if String.eqb p "daily" then "daily"
  else if String.eqb p "weekly" then "weekly"
  else if String.eqb p "monthly" then "monthly"
  else if str_in p ["yearly"; "annual"; "annually"] then "yearly"
  else if String.eqb p "custom" then "custom"
  else "never".

(** ** Policy predicates *)

Definition policyHasGenericWindows (po : subscriptionQuotaPolicy) : bool :=
  match po_windows po with [] => false | _ => true end.

Definition policyHasFiveHour (po : subscriptionQuotaPolicy) : bool :=
  (String.eqb (po_mode po) "five_hour" || String.eqb (po_mode po) "dual") &&
  (0 <? po_fiveHourAmount po) && (0 <? po_fiveHourWindowSeconds po).

Definition policyHasWeekly (po : subscriptionQuotaPolicy) : bool :=
  String.eqb (po_mode po) "weekly" || String.eqb (po_mode po) "dual".

Definition policyTracksAggregate (po : subscriptionQuotaPolicy) : bool :=
  String.eqb (po_mode po) "legacy" || policyHasWeekly po.

(** [0] for a nil subscription. *)
Definition policyWeeklyLimit (po : subscriptionQuotaPolicy) (sub : UserSubscription) : Z :=
  if String.eqb (po_mode po) "legacy" then s_AmountTotal sub
  else if policyHasWeekly po then po_weeklyAmount po
  else 0.

Definition five_hour_window (po : subscriptionQuotaPolicy) : subscriptionQuotaWindowPolicy :=
  mkWindowPolicy "hour" (po_fiveHourAmount po) 5 (po_fiveHourWindowSeconds po) "rolling" "".

Definition policyWindowList (po : subscriptionQuotaPolicy) : list subscriptionQuotaWindowPolicy :=
  if policyHasGenericWindows po then po_windows po
  else
    (if policyHasFiveHour po then [five_hour_window po] else []) ++
    (if policyHasWeekly po then
       if String.eqb (po_resetPeriod po) "custom" && (0 <? po_resetCustomSeconds po)
       then [mkWindowPolicy "week" (po_weeklyAmount po) 1 (po_resetCustomSeconds po) "rolling" ""]
       else [mkWindowPolicy "week" (po_weeklyAmount po) 1 (7 * 24 * 60 * 60) "calendar" ""]
     else []).

Definition quotaRecordBackedWindows (po : subscriptionQuotaPolicy) : list subscriptionQuotaWindowPolicy :=
  if policyHasGenericWindows po then po_windows po
  else if policyHasFiveHour po then [five_hour_window po]
  else [].

Definition subscriptionQuotaPolicyScalarsValid (po : subscriptionQuotaPolicy) : bool :=
  if po_invalid po then false
  else
    let five_ok := (0 <? po_fiveHourAmount po) && (0 <? po_fiveHourWindowSeconds po) &&
                   (po_fiveHourWindowSeconds po <=? MaxSubscriptionQuotaWindowSeconds) in
    let mode_ok :=
      if String.eqb (po_mode po) "legacy" then true
      else if String.eqb (po_mode po) "five_hour" then five_ok
      else if String.eqb (po_mode po) "weekly" then 0 <? po_weeklyAmount po
      else if String.eqb (po_mode po) "dual" then five_ok && (0 <? po_weeklyAmount po)
      else if String.eqb (po_mode po) "generic" then policyHasGenericWindows po
      else false in
    if negb mode_ok then false
    else negb (policyTracksAggregate po && String.eqb (po_resetPeriod po) "custom" &&
               ((po_resetCustomSeconds po <=? 0) ||
                (MaxSubscriptionQuotaWindowSeconds <? po_resetCustomSeconds po))).

(** ** Plan normalisation *)

(** Compatibility aliases folded into the canonical amounts. *)
Definition fold_amount_aliases (p : SubscriptionPlan) : SubscriptionPlan :=
  let five := if p_FiveHourAmount p <=? 0 then
                if 0 <? p_FiveHourQuota p then p_FiveHourQuota p
                else if 0 <? p_FiveHourLimit p then p_FiveHourLimit p
                else p_FiveHourAmount p
              else p_FiveHourAmount p in
  let weekly := if p_WeeklyAmount p <=? 0 then
                  if 0 <? p_WeeklyQuota p then p_WeeklyQuota p
                  else if 0 <? p_WeeklyLimit p then p_WeeklyLimit p
                  else p_WeeklyAmount p
                else p_WeeklyAmount p in
  set_scalars five (p_FiveHourWindowSeconds p) weekly (p_QuotaResetPeriod p) p.

(** The unit a direct mode stands for. *)
Definition direct_unit (rawMode : string) : string :=
  if str_in rawMode (five_hour_modes ++ ["hourly"; "hours"]) then "hour"
  else if str_in rawMode ["daily"; "days"] then "day"
  else if str_in rawMode ["week"] then "week"
  else if str_in rawMode ["monthly"; "months"] then "month"
  else if str_in rawMode ["yearly"; "years"; "annual"; "annually"] then "year"
  else if str_in rawMode ["seconds"; "second"; "duration"] then "custom"
  else rawMode.

(** The plan after the direct-mode branch (a five-hour mode raises the
    five-hour amount) and the window it describes, if that window is valid. *)
Definition direct_window (p : SubscriptionPlan) (rawMode : string)
  : SubscriptionPlan * option SubscriptionQuotaWindow :=
  let unit := direct_unit rawMode in
  let is5 := str_in rawMode five_hour_modes in
  let p1 := if is5 then set_fiveHour (maxInt64 (p_FiveHourAmount p) (p_TotalAmount p)) p else p in
  let d0 := if is5 then DefaultFiveHourWindowSeconds else 0 in
  let a0 := if p_WeeklyAmount p1 <=? 0 then p_TotalAmount p1 else p_WeeklyAmount p1 in
  let amount := if String.eqb unit "hour" && (0 <? p_FiveHourAmount p1)
                then p_FiveHourAmount p1 else a0 in
  let duration :=
    if d0 <=? 0 then
      if String.eqb unit "custom" then
        if p_QuotaResetCustomSeconds p1 <=? 0 then p_CustomSeconds p1 else p_QuotaResetCustomSeconds p1
      else 0
    else d0 in
  (p1, if 0 <? amount then
         Normalize (candidate_window unit amount duration
                      (if String.eqb unit "custom" then "rolling" else ""))
       else None).

(** The window reconstructed for a bare [generic] mode. *)
Definition generic_unit (reset : string) : string :=
  let r := NormalizeResetPeriod reset in
  if String.eqb r "daily" then "day"
  else if String.eqb r "monthly" then "month"
  else if String.eqb r "yearly" then "year"
  else if String.eqb r "custom" then "custom"
  else "week".

Definition generic_window (p : SubscriptionPlan) : option SubscriptionQuotaWindow :=
  let amount := if p_WeeklyAmount p <=? 0 then p_TotalAmount p else p_WeeklyAmount p in
  let seconds := if p_QuotaResetCustomSeconds p <=? 0 then p_CustomSeconds p
                 else p_QuotaResetCustomSeconds p in
  Normalize (candidate_window (generic_unit (p_QuotaResetPeriod p)) amount seconds "").

(** The scalar tail: infer the mode from the amounts, default the lengths. *)
Definition normalize_scalars (p : SubscriptionPlan) : SubscriptionPlan :=
  let m0 := NormalizeQuotaWindowMode (p_QuotaWindowMode p) in
  let m := if String.eqb m0 "legacy" then
             if (0 <? p_FiveHourAmount p) && (0 <? p_WeeklyAmount p) then "dual"
             else if 0 <? p_FiveHourAmount p then "five_hour"
             else if 0 <? p_WeeklyAmount p then "weekly"
             else m0
           else m0 in
  let secs := if (0 <? p_FiveHourAmount p) && (p_FiveHourWindowSeconds p <=? 0)
              then DefaultFiveHourWindowSeconds else p_FiveHourWindowSeconds p in
  let reset := if (String.eqb m "weekly" || String.eqb m "dual") &&
                  String.eqb (NormalizeResetPeriod (p_QuotaResetPeriod p)) "never"
               then "weekly" else p_QuotaResetPeriod p in
  set_scalars (p_FiveHourAmount p) secs (p_WeeklyAmount p) reset (set_mode m p).

(** The part reached by a plan without malformed entries, aliases folded. *)
Definition normalize_body (p : SubscriptionPlan) : SubscriptionPlan :=
  let ws := NormalizeQuotaWindowList (p_QuotaWindows p) in
  let p := set_windows ws p in
  match ws with
  | _ :: _ => set_mode "generic" p
  | [] =>
    let rawMode := norm (p_QuotaWindowMode p) in
    let '(p, direct) :=
      if str_in rawMode direct_modes then direct_window p rawMode else (p, None) in
    match direct with
    | Some n => set_mode "generic" (set_windows [n] p)
    | None =>
      match (if String.eqb rawMode "generic" then generic_window p else None) with
      | Some n => set_mode "generic" (set_windows [n] p)
      | None => normalize_scalars p
      end
    end
  end.

Definition NormalizeQuotaWindows (p0 : SubscriptionPlan) : SubscriptionPlan :=
  let rawInvalid := quotaWindowListHasInvalidEntry (p_QuotaWindows p0) in
  let p := set_windowsInvalid (p_quotaWindowsInvalid p0 || rawInvalid) p0 in
  if rawInvalid then
    if String.eqb (TrimSpace (p_QuotaWindowMode p)) "" ||
       String.eqb (NormalizeQuotaWindowMode (p_QuotaWindowMode p)) "legacy"
    then set_mode "generic" p else p
  else if p_quotaWindowsInvalid p then set_mode "generic" p
  else normalize_body (fold_amount_aliases p).

Definition UsesQuotaWindows (p : SubscriptionPlan) : bool :=
  let p := NormalizeQuotaWindows p in
  negb (String.eqb (p_QuotaWindowMode p) "legacy") ||
  match p_QuotaWindows p with [] => false | _ => true end.

(** ** From plan and subscription to policy *)

Definition to_window_policy (n : SubscriptionQuotaWindow) : subscriptionQuotaWindowPolicy :=
  mkWindowPolicy (w_Type n) (w_Amount n) (w_Duration n) (w_WindowSeconds n) (w_ResetMode n) (w_Name n).

Definition normalizedQuotaWindowPolicies (l : list SubscriptionQuotaWindow)
  : list subscriptionQuotaWindowPolicy :=
  omap (fun item =>
          match Normalize item with
          | Some n => if (w_Amount n <=? 0) || (w_WindowSeconds n <=? 0) then None
                      else Some (to_window_policy n)
          | None => None
          end) (NormalizeQuotaWindowList l).

Definition blank_policy (mode : string) (invalid : bool) : subscriptionQuotaPolicy :=
  mkPolicy mode 0 0 0 "" 0 [] invalid.

Definition set_invalid (po : subscriptionQuotaPolicy) : subscriptionQuotaPolicy :=
  mkPolicy (po_mode po) (po_fiveHourAmount po) (po_fiveHourWindowSeconds po) (po_weeklyAmount po)
    (po_resetPeriod po) (po_resetCustomSeconds po) (po_windows po) true.

Definition quotaPolicyFromPlan (plan : option SubscriptionPlan) : subscriptionQuotaPolicy :=
  match plan with
  | None => blank_policy "legacy" false
  | Some plan =>
    if (p_TotalAmount plan <? 0) || (p_FiveHourAmount plan <? 0) ||
       (p_FiveHourWindowSeconds plan <? 0) || (p_WeeklyAmount plan <? 0) ||
       (p_QuotaResetCustomSeconds plan <? 0)
    then blank_policy (NormalizeQuotaWindowMode (p_QuotaWindowMode plan)) true
    else
    let rawMode := norm (p_QuotaWindowMode plan) in
    if negb (subscriptionQuotaWindowModeIsKnown rawMode) then blank_policy "generic" true
    else if negb (subscriptionResetPeriodIsKnown (p_QuotaResetPeriod plan))
    then blank_policy (NormalizeQuotaWindowMode (p_QuotaWindowMode plan)) true
    else
    let rawInvalid := p_quotaWindowsInvalid plan || quotaWindowListHasInvalidEntry (p_QuotaWindows plan) in
    let cp := NormalizeQuotaWindows plan in
    let windows := normalizedQuotaWindowPolicies (p_QuotaWindows cp) in
    let base := mkPolicy (p_QuotaWindowMode cp) (p_FiveHourAmount cp) (p_FiveHourWindowSeconds cp)
                  (p_WeeklyAmount cp) (NormalizeResetPeriod (p_QuotaResetPeriod cp))
                  (p_QuotaResetCustomSeconds cp) windows false in
    if rawInvalid then set_invalid base
    else match windows with
    | _ :: _ => mkPolicy "generic" (po_fiveHourAmount base) (po_fiveHourWindowSeconds base)
                  (po_weeklyAmount base) (po_resetPeriod base) (po_resetCustomSeconds base) windows false
    | [] =>
      if String.eqb (NormalizeQuotaWindowMode rawMode) "generic" || String.eqb (po_mode base) "generic"
      then mkPolicy "generic" (po_fiveHourAmount base) (po_fiveHourWindowSeconds base)
             (po_weeklyAmount base) (po_resetPeriod base) (po_resetCustomSeconds base) [] true
      else
        let secs := if (0 <? po_fiveHourAmount base) && (po_fiveHourWindowSeconds base <=? 0)
                    then DefaultFiveHourWindowSeconds else po_fiveHourWindowSeconds base in
        let weekly := if (String.eqb (po_mode base) "weekly" || String.eqb (po_mode base) "dual") &&
                         (po_weeklyAmount base <=? 0)
                      then p_TotalAmount cp else po_weeklyAmount base in
        let policy := mkPolicy (po_mode base) (po_fiveHourAmount base) secs weekly
                        (po_resetPeriod base) (po_resetCustomSeconds base) [] false in
        if subscriptionQuotaPolicyScalarsValid policy then policy else set_invalid policy
    end
  end.

(** The scalar part of [quotaPolicyForSubscription], once the snapshot mode is chosen. *)
Definition policy_from_snapshot (sub : UserSubscription) (policy : subscriptionQuotaPolicy)
    (snapshotMode : string) : subscriptionQuotaPolicy :=
  let mode := NormalizeQuotaWindowMode snapshotMode in
  let '(windows, invalid) :=
    if String.eqb mode "generic" then
      let amount := if s_WeeklyAmount sub <=? 0 then s_AmountTotal sub else s_WeeklyAmount sub in
      let unit := if String.eqb (s_QuotaResetPeriodSnapshot sub) "" then "week"
                  else generic_unit (s_QuotaResetPeriodSnapshot sub) in
      match Normalize (candidate_window unit amount (s_QuotaResetCustomSecondsSnapshot sub) "") with
      | Some n => ([to_window_policy n], false)
      | None => ([], true)
      end
    else ([], false) in
  let weekly := if (String.eqb mode "weekly" || String.eqb mode "dual") && (s_WeeklyAmount sub <=? 0)
                then s_AmountTotal sub else s_WeeklyAmount sub in
  let '(reset, resetSecs) :=
    if negb (String.eqb (s_QuotaResetPeriodSnapshot sub) "") then
      (NormalizeResetPeriod (s_QuotaResetPeriodSnapshot sub), s_QuotaResetCustomSecondsSnapshot sub)
    else if 0 <? s_PlanPolicySnapshotVersion sub then ("never", 0)
    else (po_resetPeriod policy, po_resetCustomSeconds policy) in
  let secs := if (0 <? s_FiveHourAmount sub) && (s_FiveHourWindowSeconds sub <=? 0)
              then DefaultFiveHourWindowSeconds else s_FiveHourWindowSeconds sub in
  let result := mkPolicy mode (s_FiveHourAmount sub) secs weekly reset resetSecs windows invalid in
  if subscriptionQuotaPolicyScalarsValid result then result else set_invalid result.

Definition with_windows (mode : string) (ws : list subscriptionQuotaWindowPolicy) (invalid : bool)
    (po : subscriptionQuotaPolicy) : subscriptionQuotaPolicy :=
  mkPolicy mode (po_fiveHourAmount po) (po_fiveHourWindowSeconds po) (po_weeklyAmount po)
    (po_resetPeriod po) (po_resetCustomSeconds po) ws invalid.

Definition snapshot_mode (sub : UserSubscription) : string :=
  let m0 := TrimSpace (s_QuotaWindowMode sub) in
  if String.eqb m0 "" then TrimSpace (s_QuotaWindowModeSnapshot sub) else m0.

Definition quotaPolicyForSubscription (sub : UserSubscription) (plan : option SubscriptionPlan)
  : subscriptionQuotaPolicy :=
  let policy := quotaPolicyFromPlan plan in
  if (s_AmountTotal sub <? 0) || (s_AmountUsed sub <? 0) || (s_FiveHourAmount sub <? 0) ||
     (s_FiveHourWindowSeconds sub <? 0) || (s_WeeklyAmount sub <? 0) ||
     (s_QuotaResetCustomSecondsSnapshot sub <? 0)
  then set_invalid policy
  else
    let snap := s_QuotaWindowsSnapshot sub in
    let windows := normalizedQuotaWindowPolicies snap in
    if negb (bool_decide (snap = [])) && quotaWindowListHasInvalidEntry snap
    then with_windows "generic" [] true policy
    else if negb (bool_decide (snap = [])) && negb (bool_decide (windows = []))
    then with_windows "generic" windows false policy
    else
      let policy := if negb (bool_decide (snap = [])) then
                      with_windows (po_mode policy) windows (po_invalid policy) policy else policy in
      let snapshotMode := snapshot_mode sub in
      if negb (subscriptionQuotaWindowModeIsKnown snapshotMode)
      then with_windows "generic" (po_windows policy) true policy
      else if (0 <? s_PlanPolicySnapshotVersion sub) &&
              negb (subscriptionResetPeriodIsKnown (s_QuotaResetPeriodSnapshot sub))
      then with_windows "generic" (po_windows policy) true policy
      else if (s_PlanPolicySnapshotVersion sub <=? 0) &&
              (String.eqb snapshotMode "" ||
               (String.eqb (NormalizeQuotaWindowMode snapshotMode) "legacy" &&
                (s_FiveHourAmount sub <=? 0) && (s_WeeklyAmount sub <=? 0) &&
                String.eqb (s_QuotaResetPeriodSnapshot sub) ""))
      then policy
      else policy_from_snapshot sub policy
             (if String.eqb snapshotMode "" then "legacy" else snapshotMode).

(** ** Model fence *)

Fixpoint dedup_words (seen : list string) (parts : list string) : list string :=
  match parts with
  | [] => []
  | part :: rest =>
      let modelName := TrimSpace part in
      if String.eqb modelName "" || str_in modelName seen then dedup_words seen rest
      else modelName :: dedup_words (modelName :: seen) rest
  end.

Definition ParseSubscriptionPlanModelLimits (modelLimits : string) : list string :=
  dedup_words [] (Split modelLimits (Ascii.ascii_of_nat 44)).

Definition NormalizeSubscriptionPlanModelLimits (modelLimits : string) : string :=
  Join (ParseSubscriptionPlanModelLimits modelLimits) ",".

Definition AllowsModel (p : SubscriptionPlan) (modelName : string) : bool :=
  match ParseSubscriptionPlanModelLimits (p_ModelLimits p) with
  | [] => true
  | limits =>
      let m := TrimSpace modelName in
      if String.eqb m "" then false else str_in m limits
  end.

(** ** Every policy that is not refused is enforceable *)

(** A window the enforcement code can evaluate and that really limits. *)
Record window_ok (w : subscriptionQuotaWindowPolicy) : Prop := {
  wok_unit : wp_unit w ∈ window_units;
  wok_amount : 0 < wp_amount w;
  wok_duration : 0 < wp_duration w;
  wok_seconds : 0 < wp_windowSeconds w <= MaxSubscriptionQuotaWindowSeconds;
  wok_mode : wp_resetMode w = "calendar" \/ wp_resetMode w = "rolling";
  wok_length : wp_resetMode w = "calendar" -> wp_unit w <> "custom" ->
    wp_windowSeconds w = wp_duration w * quotaWindowNominalUnitSeconds (wp_unit w)
}.

Definition enforceable (po : subscriptionQuotaPolicy) : Prop :=
  Forall window_ok (policyWindowList po) /\ policyWindowList po <> [].

Lemma canonical_window_ok n : canonical n -> window_ok (to_window_policy n).
Proof.
  intros [Hu _ [Ha _] [Hd _] [Hs _] Hl Hm _ _]. constructor; cbn; try done.
  intros _ Hc. by destruct (String.eqb_spec (w_Type n) "custom").
Qed.

Lemma normalized_policies_eq l :
  normalizedQuotaWindowPolicies l = map to_window_policy (NormalizeQuotaWindowList l).
Proof.
  unfold normalizedQuotaWindowPolicies, NormalizeQuotaWindowList.
  destruct (normalize_list_spec l []) as (Hc & _ & _).
  induction Hc as [|n ns Hn _ IH]; [done|]. cbn.
  rewrite (Normalize_fixed n Hn). destruct Hn as [_ _ [Ha _] _ [[Hs _] _] _ _ _ _].
  rewrite (proj2 (Z.leb_gt _ _)), (proj2 (Z.leb_gt (w_WindowSeconds n) 0)) by done. cbn. by f_equal.
Qed.

Lemma normalized_policies_ok l : Forall window_ok (normalizedQuotaWindowPolicies l).
Proof.
  rewrite normalized_policies_eq. destruct (normalize_list_spec l []) as (Hc & _ & _).
  apply Forall_forall. intros x (n & <- & Hn)%list_elem_of_In%in_map_iff.
  rewrite Forall_forall in Hc. apply canonical_window_ok, Hc. by apply list_elem_of_In.
Qed.

Lemma generic_enforceable po :
  Forall window_ok (po_windows po) -> po_windows po <> [] -> enforceable po.
Proof.
  intros Hw Hne. unfold enforceable, policyWindowList, policyHasGenericWindows.
  by destruct (po_windows po).
Qed.

Lemma weekly_window_ok po :
  subscriptionQuotaPolicyScalarsValid po = true -> policyHasWeekly po = true ->
  0 < po_weeklyAmount po ->
  Forall window_ok
    (if String.eqb (po_resetPeriod po) "custom" && (0 <? po_resetCustomSeconds po)
     then [mkWindowPolicy "week" (po_weeklyAmount po) 1 (po_resetCustomSeconds po) "rolling" ""]
     else [mkWindowPolicy "week" (po_weeklyAmount po) 1 (7 * 24 * 60 * 60) "calendar" ""]).
Proof.
  intros Hv Hw Ha. unfold subscriptionQuotaPolicyScalarsValid in Hv.
  destruct (po_invalid po); [done|]. cbn zeta in Hv.
  match type of Hv with (if ?b then _ else _) = _ => destruct b; [done|] end.
  unfold policyTracksAggregate in Hv. rewrite Hw, orb_true_r in Hv. cbn [andb] in Hv.
  destruct (String.eqb (po_resetPeriod po) "custom") eqn:E; cbn [andb] in *.
  - split_bool. rewrite (proj2 (Z.ltb_lt 0 _)) by lia.
    apply Forall_singleton. constructor; cbn; [by apply str_in_spec | lia | lia | lia | by right | done].
  - apply Forall_singleton. constructor; cbn; [by apply str_in_spec | lia | lia | | by left | done].
    unfold MaxSubscriptionQuotaWindowSeconds. lia.
Qed.

Lemma five_hour_window_ok po :
  0 < po_fiveHourAmount po -> 0 < po_fiveHourWindowSeconds po <= MaxSubscriptionQuotaWindowSeconds ->
  window_ok (five_hour_window po).
Proof.
  intros. constructor; cbn; [by apply str_in_spec | lia | lia | lia | by right | done].
Qed.

Lemma scalars_valid_enforceable po :
  subscriptionQuotaPolicyScalarsValid po = true -> Forall window_ok (po_windows po) ->
  po_mode po = "legacy" \/ enforceable po.
Proof.
  intros Hv Hw. destruct (decide (po_windows po = [])) as [Hnil|Hne];
    [|right; by apply generic_enforceable].
  pose proof (weekly_window_ok po Hv) as Hweek.
  unfold subscriptionQuotaPolicyScalarsValid in Hv. destruct (po_invalid po); [done|]. cbn zeta in Hv.
  unfold policyHasGenericWindows, enforceable, policyWindowList, policyHasGenericWindows in *.
  rewrite Hnil in *. unfold policyHasFiveHour. unfold policyHasWeekly in *.
  destruct (String.eqb_spec (po_mode po) "legacy") as [|_]; [by left|]. right.
  destruct (String.eqb_spec (po_mode po) "five_hour") as [E|_].
  { rewrite ?E in Hweek |- *. cbn in *. destruct ((_ && _) && _) eqn:E5 in Hv; [|done]. split_bool.
    rewrite (proj2 (Z.ltb_lt 0 (po_fiveHourAmount po))), (proj2 (Z.ltb_lt 0 (po_fiveHourWindowSeconds po))) by lia.
    split; [|done]. repeat constructor; apply five_hour_window_ok; lia. }
  destruct (String.eqb_spec (po_mode po) "weekly") as [E|_].
  { rewrite ?E in Hweek |- *. cbn in *. destruct (0 <? po_weeklyAmount po) eqn:E5 in Hv; [|done].
    split; [apply Hweek; [done|lia] | by case_match]. }
  destruct (String.eqb_spec (po_mode po) "dual") as [E|_].
  { rewrite ?E in Hweek |- *. cbn in *. destruct ((_ && _) && _) eqn:E5 in Hv; [|done]. split_bool.
    rewrite (proj2 (Z.ltb_lt 0 (po_fiveHourAmount po))), (proj2 (Z.ltb_lt 0 (po_fiveHourWindowSeconds po))) by lia.
    split; [|done]. apply Forall_app. split; [|apply Hweek; [done|lia]].
    repeat constructor; apply five_hour_window_ok; lia. }
  by destruct (String.eqb (po_mode po) "generic").
Qed.

(** Final step shared by both derivations: keep the policy or mark it invalid. *)
Lemma validated_enforceable po :
  Forall window_ok (po_windows po) ->
  let r := if subscriptionQuotaPolicyScalarsValid po then po else set_invalid po in
  po_invalid r = false -> po_mode r = "legacy" \/ enforceable r.
Proof.
  intros Hw r. subst r. destruct (subscriptionQuotaPolicyScalarsValid po) eqn:E; [|done].
  intros _. by apply scalars_valid_enforceable.
Qed.

Lemma quotaPolicyFromPlan_windows plan : Forall window_ok (po_windows (quotaPolicyFromPlan plan)).
Proof.
  unfold quotaPolicyFromPlan. destruct plan as [p|]; [|constructor].
  pose proof (normalized_policies_ok (p_QuotaWindows (NormalizeQuotaWindows p))).
  repeat (case_match; try (constructor; fail); try done); cbn; try constructor; try congruence.
Qed.

Lemma quotaPolicyFromPlan_enforceable plan :
  let po := quotaPolicyFromPlan plan in
  po_invalid po = false -> po_mode po = "legacy" \/ enforceable po.
Proof.
  intros po. subst po. unfold quotaPolicyFromPlan. destruct plan as [p|]; [|by left].
  repeat (case_match; [done|]).
  pose proof (normalized_policies_ok (p_QuotaWindows (NormalizeQuotaWindows p))) as Hw.
  cbn [po_mode po_fiveHourAmount po_fiveHourWindowSeconds po_weeklyAmount po_resetPeriod po_resetCustomSeconds].
  destruct (normalizedQuotaWindowPolicies _) as [|w ws].
  - match goal with |- context [if ?b then _ else _] => destruct b; [done|] end.
    apply validated_enforceable. constructor.
  - intros _. right. by apply generic_enforceable.
Qed.

(** The part of [quotaPolicyForSubscription] reached when no window snapshot exists. *)
Definition scalar_snapshot_policy (sub : UserSubscription) (policy : subscriptionQuotaPolicy)
  : subscriptionQuotaPolicy :=
  let snapshotMode := snapshot_mode sub in
  if negb (subscriptionQuotaWindowModeIsKnown snapshotMode) ||
     ((0 <? s_PlanPolicySnapshotVersion sub) &&
      negb (subscriptionResetPeriodIsKnown (s_QuotaResetPeriodSnapshot sub)))
  then with_windows "generic" (po_windows policy) true policy
  else if (s_PlanPolicySnapshotVersion sub <=? 0) &&
          (String.eqb snapshotMode "" ||
           (String.eqb (NormalizeQuotaWindowMode snapshotMode) "legacy" &&
            (s_FiveHourAmount sub <=? 0) && (s_WeeklyAmount sub <=? 0) &&
            String.eqb (s_QuotaResetPeriodSnapshot sub) ""))
  then policy
  else policy_from_snapshot sub policy (if String.eqb snapshotMode "" then "legacy" else snapshotMode).

Definition sub_scalars_negative (sub : UserSubscription) : bool :=
  (s_AmountTotal sub <? 0) || (s_AmountUsed sub <? 0) || (s_FiveHourAmount sub <? 0) ||
  (s_FiveHourWindowSeconds sub <? 0) || (s_WeeklyAmount sub <? 0) ||
  (s_QuotaResetCustomSecondsSnapshot sub <? 0).

(** The three ways a subscription's policy is decided. *)
Lemma quotaPolicyForSubscription_cases sub plan :
  quotaPolicyForSubscription sub plan =
  let policy := quotaPolicyFromPlan plan in
  let snap := s_QuotaWindowsSnapshot sub in
  if sub_scalars_negative sub then set_invalid policy
  else if quotaWindowListHasInvalidEntry snap then with_windows "generic" [] true policy
  else if bool_decide (snap = []) then scalar_snapshot_policy sub policy
  else with_windows "generic" (normalizedQuotaWindowPolicies snap) false policy.
Proof.
  unfold quotaPolicyForSubscription, sub_scalars_negative, scalar_snapshot_policy. cbn zeta.
  case_match; [done|]. destruct (s_QuotaWindowsSnapshot sub) as [|w ws] eqn:Es.
  - rewrite bool_decide_true by done. cbn [negb andb quotaWindowListHasInvalidEntry existsb].
    repeat case_match; simplify_eq/=; done.
  - rewrite bool_decide_false by done. cbn [negb andb].
    destruct (quotaWindowListHasInvalidEntry (w :: ws)) eqn:Ei; [done|].
    rewrite bool_decide_false; [done|].
    rewrite normalized_policies_eq. pose proof (normalize_list_nonempty (w :: ws) ltac:(done) Ei).
    by destruct (NormalizeQuotaWindowList (w :: ws)).
Qed.

Lemma policy_from_snapshot_enforceable sub policy m :
  let po := policy_from_snapshot sub policy m in
  po_invalid po = false -> po_mode po = "legacy" \/ enforceable po.
Proof.
  unfold policy_from_snapshot. cbn zeta.
  match goal with |- context [let '(_, _) := ?x in _] => assert (Hw : Forall window_ok (fst x)) end.
  { destruct (String.eqb _ "generic"); [|by constructor].
    destruct (Normalize _) as [n|] eqn:En; [|by constructor].
    apply Forall_singleton, canonical_window_ok. by eapply Normalize_canonical. }
  match goal with |- context [let '(_, _) := ?x in _] => destruct x as [ws inv] end.
  match goal with |- context [let '(_, _) := ?x in _] => destruct x as [reset secs] end.
  by apply validated_enforceable.
Qed.

Lemma quotaPolicyForSubscription_enforceable sub plan :
  let po := quotaPolicyForSubscription sub plan in
  po_invalid po = false -> po_mode po = "legacy" \/ enforceable po.
Proof.
  cbn zeta. rewrite quotaPolicyForSubscription_cases. cbn zeta.
  case_match; [done|]. case_match eqn:Ei; [done|]. case_match; split_bool.
  - unfold scalar_snapshot_policy. case_match; [done|].
    case_match; [apply quotaPolicyFromPlan_enforceable | apply policy_from_snapshot_enforceable].
  - intros _. right. apply generic_enforceable; cbn; [apply normalized_policies_ok|].
    rewrite normalized_policies_eq. pose proof (normalize_list_nonempty (s_QuotaWindowsSnapshot sub)).
    destruct (NormalizeQuotaWindowList _); naive_solver.
Qed.

(** ** Issued subscriptions do not follow plan edits *)

(** Everything enforcement reads of a policy. *)
Definition same_enforcement (a b : subscriptionQuotaPolicy) : Prop :=
  po_invalid a = po_invalid b /\
  (po_invalid a = false ->
     po_mode a = po_mode b /\ po_windows a = po_windows b /\
     policyHasFiveHour a = policyHasFiveHour b /\
     policyTracksAggregate a = policyTracksAggregate b /\
     policyWindowList a = policyWindowList b /\
     (forall sub, policyWeeklyLimit a sub = policyWeeklyLimit b sub) /\
     (po_mode a <> "generic" -> a = b)).

Lemma same_enforcement_refl a : same_enforcement a a.
Proof. split; [done|]. intros _. done. Qed.

Lemma with_generic_same ws a b :
  ws <> [] -> same_enforcement (with_windows "generic" ws false a) (with_windows "generic" ws false b).
Proof.
  intros Hne. split; [done|]. intros _. repeat split; done.
Qed.

Lemma policy_from_snapshot_versioned sub a b m :
  0 < s_PlanPolicySnapshotVersion sub ->
  policy_from_snapshot sub a m = policy_from_snapshot sub b m.
Proof.
  intros Hv. unfold policy_from_snapshot. rewrite (proj2 (Z.ltb_lt 0 _)) by done.
  by destruct (negb _).
Qed.

Lemma versioned_same_enforcement sub plan1 plan2 :
  0 < s_PlanPolicySnapshotVersion sub ->
  same_enforcement (quotaPolicyForSubscription sub plan1) (quotaPolicyForSubscription sub plan2).
Proof.
  intros Hv. rewrite !quotaPolicyForSubscription_cases. cbn zeta.
  case_match; [split; done|]. case_match eqn:Ei; [split; done|]. case_match; split_bool.
  - unfold scalar_snapshot_policy. case_match; [split; done|].
    rewrite (proj2 (Z.leb_gt _ 0)) by done. cbn [andb].
    rewrite (policy_from_snapshot_versioned sub _ (quotaPolicyFromPlan plan2)) by done.
    apply same_enforcement_refl.
  - apply with_generic_same. rewrite normalized_policies_eq.
    pose proof (normalize_list_nonempty (s_QuotaWindowsSnapshot sub)).
    destruct (NormalizeQuotaWindowList _); naive_solver.
Qed.

(** A subscription issued with a policy snapshot (version above zero)
    is enforced identically whatever its catalog plan says now, also when the
    plan was deleted: same refusal, mode, window list, aggregate tracking and
    weekly limit. *)
Theorem versioned_subscription_ignores_plan sub plan1 plan2 :
  0 < s_PlanPolicySnapshotVersion sub ->
  same_enforcement (quotaPolicyForSubscription sub plan1) (quotaPolicyForSubscription sub plan2).
Proof. apply versioned_same_enforcement. Qed.

(** ** Repeated normalisation *)

(** A direct period mode (such as [custom]) whose own window is malformed but
    which the bare-[generic] reconstruction would accept. *)
Definition direct_reinterpreted (p : SubscriptionPlan) : bool :=
  let p := fold_amount_aliases p in
  let rawMode := norm (p_QuotaWindowMode p) in
  bool_decide (p_QuotaWindows p = []) && str_in rawMode direct_modes &&
  match direct_window p rawMode with
  | (p1, None) => bool_decide (is_Some (generic_window p1))
  | _ => false
  end.

(** The alias folding has no effect on a plan whose amounts it already set. *)
Definition aliases_folded (p : SubscriptionPlan) : Prop := fold_amount_aliases p = p.

Lemma fold_amount_aliases_idemp p : aliases_folded (fold_amount_aliases p).
Proof.
  destruct p; unfold aliases_folded, fold_amount_aliases, set_scalars; cbn.
  f_equal; repeat case_match; try lia; done.
Qed.

Lemma aliases_folded_five v p :
  aliases_folded p -> p_FiveHourAmount p <= v -> aliases_folded (set_fiveHour v p).
Proof.
  unfold aliases_folded, fold_amount_aliases, set_fiveHour, set_scalars. destruct p; cbn.
  intros H Hv. injection H as H1 H2. f_equal; [|done].
  repeat case_match; lia.
Qed.

Lemma aliases_folded_scalars p : aliases_folded p -> aliases_folded (normalize_scalars p).
Proof.
  unfold aliases_folded, fold_amount_aliases, normalize_scalars, set_scalars, set_mode.
  destruct p; cbn. intros H. injection H as H1 H2. f_equal; done.
Qed.

(** Preconditions under which a second normalisation is [normalize_body]. *)
Definition clean (p : SubscriptionPlan) : Prop :=
  aliases_folded p /\ p_quotaWindowsInvalid p = false /\
  quotaWindowListHasInvalidEntry (p_QuotaWindows p) = false.

Lemma normalize_clean p : clean p -> NormalizeQuotaWindows p = normalize_body p.
Proof.
  intros (Hf & Hm & Hv). unfold NormalizeQuotaWindows. rewrite Hv, Hm. cbn [orb].
  replace (set_windowsInvalid false p) with p by (destruct p; unfold set_windowsInvalid; cbn in *; by subst).
  rewrite Hm. by rewrite Hf.
Qed.

(** A plan in generic form with a canonical list is a fixed point. *)
Lemma normalize_generic_fixed p ws :
  aliases_folded p -> p_quotaWindowsInvalid p = false -> ws <> [] ->
  Forall canonical ws -> NormalizeQuotaWindowList ws = ws ->
  let q := set_mode "generic" (set_windows ws p) in NormalizeQuotaWindows q = q.
Proof.
  intros Hf Hm Hne Hc Hl q.
  assert (Hq : p_QuotaWindows q = ws) by (by destruct p).
  rewrite normalize_clean.
  - unfold normalize_body. rewrite Hq, Hl. destruct ws; [done|]. unfold q. by destruct p.
  - split; [|split].
    + unfold q, aliases_folded in *. destruct p; cbn in *. unfold fold_amount_aliases, set_mode, set_windows, set_scalars in *.
      cbn in *. by injection Hf as -> ->.
    + by destruct p.
    + rewrite Hq. by apply canonical_list_valid.
Qed.

Definition final_modes : list string := ["five_hour"; "weekly"; "dual"; "generic"; "legacy"].

Lemma NormalizeQuotaWindowMode_range m : NormalizeQuotaWindowMode m ∈ final_modes.
Proof. unfold NormalizeQuotaWindowMode. repeat case_match; by apply str_in_spec. Qed.

Lemma final_mode_facts m :
  m ∈ final_modes ->
  norm m = m /\ NormalizeQuotaWindowMode m = m /\ str_in m direct_modes = false.
Proof. unfold final_modes. intros H. set_unfold. by destruct_or?; subst. Qed.

Lemma scalars_mode_range p : p_QuotaWindowMode (normalize_scalars p) ∈ final_modes.
Proof.
  unfold normalize_scalars. destruct p; cbn.
  pose proof (NormalizeQuotaWindowMode_range p_QuotaWindowMode0).
  repeat case_match; try done; by apply str_in_spec.
Qed.

(** A mode inferred from the amounts is inferred again. *)
Lemma scalars_mode_idemp p :
  let q := normalize_scalars p in
  p_QuotaWindowMode (normalize_scalars q) = p_QuotaWindowMode q.
Proof.
  cbn zeta. destruct (final_mode_facts _ (scalars_mode_range p)) as (_ & Hm & _).
  remember (normalize_scalars p) as q eqn:Eq.
  unfold normalize_scalars. cbn. rewrite Hm.
  destruct (String.eqb_spec (p_QuotaWindowMode q) "legacy") as [E|]; [|done].
  assert (Hf : p_FiveHourAmount q = p_FiveHourAmount p) by (by subst q; destruct p).
  assert (Hw : p_WeeklyAmount q = p_WeeklyAmount p) by (by subst q; destruct p).
  rewrite E, Hf, Hw. rewrite Eq in E. unfold normalize_scalars in E. cbn in E.
  destruct (String.eqb_spec (NormalizeQuotaWindowMode (p_QuotaWindowMode p)) "legacy"); [|done].
  by repeat case_match.
Qed.

Lemma scalars_idemp p : normalize_scalars (normalize_scalars p) = normalize_scalars p.
Proof.
  pose proof (scalars_mode_idemp p) as Hm. cbn zeta in Hm.
  remember (normalize_scalars p) as q eqn:Eq.
  remember (p_QuotaWindowMode q) as m eqn:Em.
  unfold normalize_scalars in Hm |- *. unfold set_scalars, set_mode in *. cbn in *. rewrite Hm.
  subst q. unfold normalize_scalars, set_scalars, set_mode in *. destruct p. cbn in *.
  rewrite <- Em. f_equal.
  - destruct ((String.eqb m "weekly" || String.eqb m "dual")) eqn:E1; cbn [andb]; [|done].
    destruct (String.eqb (NormalizeResetPeriod p_QuotaResetPeriod0) "never") eqn:E2; [done|].
    by rewrite E2.
  - destruct (0 <? p_FiveHourAmount0); [|done]. cbn [andb].
    destruct (p_FiveHourWindowSeconds0 <=? 0) eqn:E; [done|]. by rewrite E.
Qed.

Lemma generic_window_scalars p :
  p_QuotaWindowMode (normalize_scalars p) = "generic" ->
  generic_window (normalize_scalars p) = generic_window p.
Proof.
  unfold normalize_scalars. destruct p. cbn. intros ->. done.
Qed.

(** Scalar plans are fixed points unless the generic reconstruction applies. *)
Lemma normalize_scalars_fixed p :
  aliases_folded p -> p_quotaWindowsInvalid p = false -> p_QuotaWindows p = [] ->
  (p_QuotaWindowMode (normalize_scalars p) = "generic" -> generic_window p = None) ->
  NormalizeQuotaWindows (normalize_scalars p) = normalize_scalars p.
Proof.
  intros Hf Hm Hw Hg. set (q := normalize_scalars p).
  assert (Hwq : p_QuotaWindows q = []) by (subst q; by destruct p).
  rewrite normalize_clean.
  2:{ split; [by apply aliases_folded_scalars|]. split; [subst q; by destruct p|].
      by rewrite Hwq. }
  unfold normalize_body. rewrite Hwq. change (NormalizeQuotaWindowList []) with (@nil SubscriptionQuotaWindow).
  replace (set_windows [] q) with q by (subst q; destruct p; cbn in *; by subst).
  destruct (final_mode_facts _ (scalars_mode_range p)) as (Hn & _ & Hd). fold q in Hn, Hd.
  rewrite Hn, Hd. destruct (String.eqb_spec (p_QuotaWindowMode q) "generic") as [E|E].
  - subst q. rewrite generic_window_scalars by done. rewrite Hg by done. apply scalars_idemp.
  - apply scalars_idemp.
Qed.

Lemma direct_window_fst p m :
  aliases_folded p -> let p1 := fst (direct_window p m) in
  aliases_folded p1 /\ p_quotaWindowsInvalid p1 = p_quotaWindowsInvalid p /\
  p_QuotaWindows p1 = p_QuotaWindows p /\ p_QuotaWindowMode p1 = p_QuotaWindowMode p.
Proof.
  intros Hf. unfold direct_window. cbn zeta. cbn [fst].
  destruct (str_in m five_hour_modes); [|by repeat split].
  split; [|by destruct p]. apply aliases_folded_five; [done|]. rewrite maxInt64_max. lia.
Qed.

Lemma singleton_fixed c n : Normalize c = Some n -> NormalizeQuotaWindowList [n] = [n].
Proof.
  intros H%Normalize_canonical. apply normalize_list_fixed.
  - by apply Forall_singleton.
  - apply NoDup_singleton.
  - apply Forall_singleton. set_solver.
Qed.

Lemma direct_window_snd p m p1 n :
  direct_window p m = (p1, Some n) -> exists c, Normalize c = Some n.
Proof. unfold direct_window. cbn zeta. intros H. simplify_eq/=. case_match; [eauto|done]. Qed.

(** The body is a fixed point unless a direct mode is reinterpreted. *)
Lemma normalize_body_fixed p :
  aliases_folded p -> p_quotaWindowsInvalid p = false ->
  quotaWindowListHasInvalidEntry (p_QuotaWindows p) = false ->
  direct_reinterpreted p = false ->
  NormalizeQuotaWindows (normalize_body p) = normalize_body p.
Proof.
  intros Hf Hm Hv Hd. destruct (decide (p_QuotaWindows p = [])) as [Hnil|Hne].
  - unfold direct_reinterpreted in Hd. rewrite Hf, Hnil in Hd. rewrite bool_decide_true in Hd by done.
    unfold normalize_body. rewrite Hnil. change (NormalizeQuotaWindowList []) with (@nil SubscriptionQuotaWindow).
    replace (set_windows [] p) with p by (destruct p; cbn in *; by subst).
    set (raw := norm (p_QuotaWindowMode p)) in *.
    destruct (str_in raw direct_modes) eqn:Er; cbn [andb] in Hd.
    + pose proof (direct_window_fst p raw Hf) as Hp1.
      destruct (direct_window p raw) as [p1 [n|]] eqn:Edw; cbn in Hp1; destruct Hp1 as (Hf1 & Hm1 & Hw1 & Hmo).
      * apply direct_window_snd in Edw as (c & Hc).
        apply normalize_generic_fixed; [done|congruence|done| |by eapply singleton_fixed].
        apply Forall_singleton. by eapply Normalize_canonical.
      * destruct (String.eqb_spec raw "generic") as [E|E]; [by rewrite E in Er|].
        apply normalize_scalars_fixed; [done|congruence|congruence|].
        intros _. split_bool. by destruct (generic_window p1); [exfalso; eauto|].
    + destruct (String.eqb_spec raw "generic") as [E|E].
      * destruct (generic_window p) as [n|] eqn:Eg.
        -- apply normalize_generic_fixed; [done|done|done| |by eapply singleton_fixed].
           apply Forall_singleton. by eapply Normalize_canonical.
        -- by apply normalize_scalars_fixed.
      * apply normalize_scalars_fixed; [done..|]. intros Hg. exfalso.
        unfold normalize_scalars in Hg. cbn in Hg. unfold NormalizeQuotaWindowMode in Hg.
        fold raw in Hg. rewrite Er in Hg. rewrite (proj2 (String.eqb_neq raw "generic") E) in Hg.
        by repeat case_match.
  - unfold normalize_body. pose proof (normalize_list_nonempty _ Hne Hv) as Hne'.
    destruct (NormalizeQuotaWindowList (p_QuotaWindows p)) as [|w ws] eqn:El; [done|].
    rewrite <- El in *. apply normalize_generic_fixed; [done|done|done| |apply NormalizeQuotaWindowList_idemp].
    unfold NormalizeQuotaWindowList. by destruct (normalize_list_spec (p_QuotaWindows p) []).
Qed.

(** A plan already marked malformed is a fixed point. *)
Lemma normalize_marked p :
  p_quotaWindowsInvalid p = true -> quotaWindowListHasInvalidEntry (p_QuotaWindows p) = false ->
  NormalizeQuotaWindows p = set_mode "generic" p.
Proof.
  intros Hm Hv. unfold NormalizeQuotaWindows. rewrite Hv, Hm. by destruct p; cbn in *; subst.
Qed.

Lemma normalize_malformed_fixed p :
  quotaWindowListHasInvalidEntry (p_QuotaWindows p) = true ->
  NormalizeQuotaWindows (NormalizeQuotaWindows p) = NormalizeQuotaWindows p.
Proof.
  intros Hv. unfold NormalizeQuotaWindows at 2 3. rewrite Hv, orb_true_r.
  destruct p; unfold set_windowsInvalid, set_mode in *; cbn in *.
  match goal with |- context [if ?b then _ else _] => destruct b eqn:Eb end.
  - unfold NormalizeQuotaWindows. cbn. rewrite Hv. done.
  - unfold NormalizeQuotaWindows. cbn. rewrite Hv. cbn. by rewrite Eb.
Qed.

Lemma direct_reinterpreted_fold p :
  direct_reinterpreted (fold_amount_aliases p) = direct_reinterpreted p.
Proof. unfold direct_reinterpreted. by rewrite (fold_amount_aliases_idemp p). Qed.

(** Normalising a plan twice is the same as normalising it once, for
    every plan except those whose direct period mode (such as [custom]) has no
    valid window of its own while the bare-generic reconstruction would build
    one: amounts, windows, mode, malformed marker and reset period all stay. *)
Theorem NormalizeQuotaWindows_idempotent p :
  direct_reinterpreted p = false ->
  NormalizeQuotaWindows (NormalizeQuotaWindows p) = NormalizeQuotaWindows p.
Proof.
  intros Hd. destruct (quotaWindowListHasInvalidEntry (p_QuotaWindows p)) eqn:Hv;
    [by apply normalize_malformed_fixed|].
  destruct (p_quotaWindowsInvalid p) eqn:Hm.
  - rewrite (normalize_marked p) by done. rewrite normalize_marked; by destruct p.
  - unfold NormalizeQuotaWindows at 2 3. rewrite Hv, Hm. cbn [orb].
    replace (set_windowsInvalid false p) with p by (destruct p; unfold set_windowsInvalid; cbn in *; by subst).
    rewrite Hm. apply normalize_body_fixed; [apply fold_amount_aliases_idemp|by destruct p|by destruct p|].
    by rewrite direct_reinterpreted_fold.
Qed.

(** ** Concrete rows *)

(** A plan row whose direct mode names no usable window. *)
Definition custom_plan : SubscriptionPlan :=
  mkPlan 1 0 "Custom" true 1 "month" 1 0 "" 100 "never" 0 "custom" 0 0 0 [] false 0 0 0 0.

Definition daily_plan : SubscriptionPlan :=
  mkPlan 2 0 "Daily" true 1 "month" 1 0 "" 100 "never" 0 "daily" 0 0 0 [] false 0 0 0 0.

Definition versioned_sub : UserSubscription :=
  mkSub 1 7 1 0 1000 0 0 2000000000 "active" 0 0 "dual" "dual" 50 18000 500 "weekly" 0 [] 1 "" "Basic".

Lemma NormalizeQuotaWindows_idempotent_witness :
  direct_reinterpreted daily_plan = false /\
  NormalizeQuotaWindows (NormalizeQuotaWindows daily_plan) = NormalizeQuotaWindows daily_plan.
Proof. split; [|apply NormalizeQuotaWindows_idempotent]; vm_compute; reflexivity. Defined.

Lemma versioned_subscription_ignores_plan_witness :
  0 < s_PlanPolicySnapshotVersion versioned_sub /\
  same_enforcement (quotaPolicyForSubscription versioned_sub (Some custom_plan))
                   (quotaPolicyForSubscription versioned_sub None).
Proof. split; [|apply versioned_subscription_ignores_plan]; vm_compute; reflexivity. Defined.

(** C40. No malformed row escapes: a subscription whose policy is not marked
    invalid either runs in the legacy mode or has at least one window, and
    every window it has carries a positive amount, a known unit and a positive
    bounded length.  So a row that enforcement accepts is never unlimited by
    accident. *)
Theorem accepted_policy_is_enforceable sub plan :
  let po := quotaPolicyForSubscription sub plan in
  po_invalid po = false -> po_mode po = "legacy" \/ enforceable po.
Proof. apply quotaPolicyForSubscription_enforceable. Qed.

Lemma accepted_policy_is_enforceable_witness :
  po_invalid (quotaPolicyForSubscription versioned_sub None) = false /\
  (po_mode (quotaPolicyForSubscription versioned_sub None) = "legacy" \/
   enforceable (quotaPolicyForSubscription versioned_sub None)).
Proof. split; [|apply accepted_policy_is_enforceable]; vm_compute; reflexivity. Defined.

(** The normalisation is not safe to call repeatedly on every row: the
    [custom] plan below, whose interval is missing, is refused by the policy
    derivation, but the plan its loader returns (normalised once) is accepted
    with a weekly window. *)
Theorem normalization_revives_refused_plan :
  po_invalid (quotaPolicyFromPlan (Some custom_plan)) = true /\
  let po := quotaPolicyFromPlan (Some (NormalizeQuotaWindows custom_plan)) in
  po_invalid po = false /\ policyWindowList po = [mkWindowPolicy "week" 100 1 604800 "calendar" ""] /\
  NormalizeQuotaWindows (NormalizeQuotaWindows custom_plan) <> NormalizeQuotaWindows custom_plan.
Proof. split; [by vm_compute|]. repeat split; try (vm_compute; reflexivity). by vm_compute. Qed.
