(* ===== verification/WindowBounds.v ===== *)
(** * Bounds of quota windows

    [quotaWindowBounds] of [src/model/subscription.go] and the functions next
    to it: from a window policy and a time, the interval whose usage counts
    against the window.  A rolling window is the half-open interval
    [(now - length, now]]; a calendar window is the bucket [[start, end)] of a
    partition of time that contains [now].  The specification of the calendar
    case is a sequence of boundaries indexed by integers; the theorems show
    that the optimised, overflow-checked code computes the bucket of that
    sequence, that buckets cover and do not overlap, and that the aggregate
    period of the older scalar policies has the same shape. *)

From stdpp Require Import base numbers list strings sets.
From Stdlib Require Import ZArith Lia.
From S2P Require Import Prelude GoInt GoTime GoString QuotaWindow QuotaPolicy.

(** The database clock, read when a caller passes no time. *)
Class DBClock := GetDBTimestamp : Z.

(** ** Definitions *)

Definition isValidSubscriptionQuotaWindowUnit (unit : string) : bool :=
  str_in unit ["hour"; "day"; "week"; "month"; "year"; "custom"].

(** A Go pair [(v, ok)] as an option: the code returns at once when [ok] is false. *)
Definition checked (r : Z * bool) : option Z := if snd r then Some (fst r) else None.

(** The tests on mode, unit and length that make a window malformed. *)
Definition window_malformed (w : subscriptionQuotaWindowPolicy) : bool :=
  let rolling := String.eqb (wp_resetMode w) "rolling" in
  let calendar := String.eqb (wp_resetMode w) "calendar" in
  (negb rolling && negb calendar) ||
  (calendar && negb (isValidSubscriptionQuotaWindowUnit (wp_unit w))) ||
  (rolling && negb (String.eqb (wp_unit w) "") && negb (isValidSubscriptionQuotaWindowUnit (wp_unit w))).

Definition maxCountForUnit (unit : string) : option Z :=
  let base := quotaWindowNominalUnitSeconds unit in
  if base <=? 0 then None else Some (i64_div MaxSubscriptionQuotaWindowSeconds base).

(** [count], unless it exceeds what the unit allows. *)
Definition bounded_count (unit : string) (count : Z) : option Z :=
  maxCount ← maxCountForUnit unit;
  if maxCount <? count then None else Some count.

(** Bucket of [count * unit] seconds counted from [anchor]; the hour and day
    branches have no anchor and skip the two additions. *)
Definition fixed_bucket (period now : Z) (anchor : option Z) : option (instant * instant) :=
  if period <=? 0 then None
  else
    delta ← (match anchor with None => Some now | Some a => checked (subscriptionSafeAddInt64 now (i64_neg a)) end);
    aligned ← checked (subscriptionSafeMulInt64 (floorDivInt64 delta period) period);
    startUnix ← (match anchor with None => Some aligned | Some a => checked (subscriptionSafeAddInt64 a aligned) end);
    Some (time_Unix startUnix 0, time_Unix (subscriptionSafeWindowEnd startUnix period) 0).

Definition month_bucket (t : instant) (count : Z) : option (instant * instant) :=
  yearPart ← checked (subscriptionSafeMulInt64 (Year t) 12);
  monthIndex ← checked (subscriptionSafeAddInt64 yearPart (Month t - 1));
  startIndex ← checked (subscriptionSafeMulInt64 (floorDivInt64 monthIndex count) count);
  let year0 := i64_div startIndex 12 in
  let month0 := i64_rem startIndex 12 in
  '(startYear, startMonthIndex) ←
     (if month0 <? 0 then y ← checked (subscriptionSafeAddInt64 year0 (-1)); Some (y, month0 + 12)
      else Some (year0, month0));
  if (max_i64 <? startYear) || (startYear <? min_i64) then None
  else
    let start := Date startYear (startMonthIndex + 1) 1 0 in
    Some (start, AddDate start 0 count 0).

Definition year_bucket (t : instant) (count : Z) : option (instant * instant) :=
  startYear ← checked (subscriptionSafeMulInt64 (floorDivInt64 (Year t) count) count);
  if (max_i64 <? startYear) || (startYear <? min_i64) then None
  else
    let start := Date startYear 1 1 0 in
    Some (start, AddDate start count 0 0).

Definition monday_anchor : Z := i_unix (Date 1970 1 5 0).

(** The [switch window.unit] of a calendar window. *)
Definition calendar_bucket (w : subscriptionQuotaWindowPolicy) (now anchor : Z) : option (instant * instant) :=
  let t := time_Unix now 0 in
  let count := if wp_duration w <=? 0 then 1 else wp_duration w in
  let unit := wp_unit w in
  if String.eqb unit "hour" then
    count ← bounded_count unit count;
    period ← checked (subscriptionSafeMulInt64 count (60 * 60));
    fixed_bucket period now None
  else if String.eqb unit "day" then
    count ← bounded_count unit count;
    period ← checked (subscriptionSafeMulInt64 count (24 * 60 * 60));
    fixed_bucket period now None
  else if String.eqb unit "week" then
    count ← bounded_count unit count;
    period ← checked (subscriptionSafeMulInt64 count (7 * 24 * 60 * 60));
    fixed_bucket period now (Some monday_anchor)
  else if String.eqb unit "month" then
    count ← bounded_count unit count;
    if max_i64 <? count then None else month_bucket t count
  else if String.eqb unit "year" then
    count ← bounded_count unit count;
    if max_i64 <? count then None else year_bucket t count
  else
    (* custom: the only other valid unit of a calendar window *)
    if (anchor <=? 0) || (now <? anchor) then None
    else fixed_bucket (wp_windowSeconds w) now (Some anchor).

Definition quotaWindowBounds `{DBClock} (w : subscriptionQuotaWindowPolicy) (now anchor : Z) : Z * Z :=
  let now := if now <=? 0 then GetDBTimestamp else now in
  if window_malformed w then (now, now)
  else if (wp_windowSeconds w <=? 0) || (MaxSubscriptionQuotaWindowSeconds <? wp_windowSeconds w)
  then (now, now)
  else if negb (String.eqb (wp_resetMode w) "calendar") then
    match checked (subscriptionSafeAddInt64 now (i64_neg (wp_windowSeconds w))) with
    | Some start => (start, now)
    | None => (min_i64, now)
    end
  else
    match calendar_bucket w now anchor with
    | None => (now, now)
    | Some (start, end_) =>
        if i_unix end_ <=? i_unix start then (now, now) else (i_unix start, i_unix end_)
    end.

Definition quotaWindowEffectiveSeconds `{DBClock} (w : subscriptionQuotaWindowPolicy) (now anchor : Z) : Z :=
  if String.eqb (wp_resetMode w) "calendar" then
    let '(start, end_) := quotaWindowBounds w now anchor in
    if start <? end_ then i64_sub end_ start else wp_windowSeconds w
  else wp_windowSeconds w.

Definition quotaWindowContainsRecord `{DBClock} (w : subscriptionQuotaWindowPolicy)
    (now anchor recordTime : Z) : bool :=
  if (recordTime <=? 0) || (now <? recordTime) then false
  else if window_malformed w || (wp_windowSeconds w <=? 0) ||
          (MaxSubscriptionQuotaWindowSeconds <? wp_windowSeconds w) then false
  else
    let '(start, end_) := quotaWindowBounds w now anchor in
    if String.eqb (wp_resetMode w) "calendar" then (start <=? recordTime) && (recordTime <? end_)
    else (start <? recordTime) && (recordTime <=? end_).

(** ** The aggregate period of legacy and weekly policies *)

Definition aggregateRecordInCurrentPeriod (sub : UserSubscription) (policy : subscriptionQuotaPolicy)
    (recordTime now : Z) : bool :=
  if negb (policyTracksAggregate policy) || (recordTime <=? 0) then false
  else if String.eqb (po_resetPeriod policy) "never" then true
  else if (0 <? s_LastResetTime sub) && (recordTime <? s_LastResetTime sub) then false
  else if (0 <? s_NextResetTime sub) && (s_NextResetTime sub <=? recordTime) && (s_NextResetTime sub <=? now)
  then false
  else recordTime <=? now.

(** The local calendar bucket of [recordTime], for the four calendar periods. *)
Definition aggregate_calendar (period : string) (recordTime loc : Z) : option (instant * instant) :=
  let record := time_Unix recordTime loc in
  let midnight := Date (Year record) (Month record) (Day record) loc in
  if String.eqb period "daily" then Some (midnight, AddDate midnight 0 0 1)
  else if String.eqb period "weekly" then
    let weekday := if Weekday record =? 0 then 7 else Weekday record in
    let start := AddDate midnight 0 0 (- (weekday - 1)) in
    Some (start, AddDate start 0 0 7)
  else if String.eqb period "monthly" then
    let start := Date (Year record) (Month record) 1 loc in Some (start, AddDate start 0 1 0)
  else if String.eqb period "yearly" then
    let start := Date (Year record) 1 1 loc in Some (start, AddDate start 1 0 0)
  else None.

Definition aggregate_custom (anchor seconds recordTime : Z) : result (Z * Z) :=
  if (seconds <=? 0) || (MaxSubscriptionQuotaWindowSeconds <? seconds)
  then fail_with "invalid subscription aggregate reset duration"
  else
    match
      (elapsed ← checked (subscriptionSafeSubInt64 recordTime anchor);
       bucketOffset ← checked (subscriptionSafeMulInt64 (floorDivInt64 elapsed seconds) seconds);
       checked (subscriptionSafeAddInt64 anchor bucketOffset))
    with
    | None => fail_with "subscription aggregate period overflows timestamp"
    | Some start =>
        match checked (subscriptionSafeAddInt64 start seconds) with
        | Some end_ => Ok (start, end_)
        | None => Ok (start, max_i64)
        end
    end.

(** Clipping to the subscription, shared by every period but [never]. *)
Definition clip_period (sub : UserSubscription) (start end_ recordTime : Z) : result (Z * Z) :=
  let start := if (0 <? s_StartTime sub) && (start <? s_StartTime sub) then s_StartTime sub else start in
  let end_ := if (0 <? s_EndTime sub) && ((end_ <=? 0) || (s_EndTime sub <? end_)) then s_EndTime sub else end_ in
  if (0 <? end_) && ((recordTime <? start) || (end_ <=? recordTime))
  then fail_with "subscription aggregate period does not contain record"
  else Ok (start, end_).

(** [loc] is the offset of the process's local time zone. *)
Definition aggregateQuotaPeriodBounds (loc : Z) (sub : UserSubscription) (policy : subscriptionQuotaPolicy)
    (recordTime : Z) : result (Z * Z) :=
  if recordTime <=? 0 then fail_with "invalid subscription aggregate record time"
  else if (0 <? s_StartTime sub) && (recordTime <? s_StartTime sub)
  then fail_with "subscription aggregate record predates subscription"
  else if (0 <? s_EndTime sub) && (s_EndTime sub <=? recordTime)
  then fail_with "subscription aggregate record is outside subscription"
  else
    let period := NormalizeResetPeriod (po_resetPeriod policy) in
    if String.eqb period "never" then Ok (s_StartTime sub, s_EndTime sub)
    else if String.eqb period "custom" then
      '(start, end_) ← aggregate_custom (s_StartTime sub) (po_resetCustomSeconds policy) recordTime;
      clip_period sub start end_ recordTime
    else
      match aggregate_calendar period recordTime loc with
      | None => fail_with "invalid subscription aggregate reset period"
      | Some (start, end_) =>
          if i_unix end_ <=? i_unix start then fail_with "subscription aggregate period overflows timestamp"
          else clip_period sub (i_unix start) (i_unix end_) recordTime
      end.

(** ** Specification of the calendar buckets *)

Definition midnight_of (day : Z) : Z := (day - epoch_day) * secs_per_day.

(** The [k]-th boundary of the partition a calendar window induces. *)
Definition boundary (w : subscriptionQuotaWindowPolicy) (anchor k : Z) : Z :=
  let n := wp_duration w in
  if String.eqb (wp_unit w) "hour" then k * (n * 3600)
  else if String.eqb (wp_unit w) "day" then k * (n * 86400)
  else if String.eqb (wp_unit w) "week" then monday_anchor + k * (n * 604800)
  else if String.eqb (wp_unit w) "month" then midnight_of (first_of_month (k * n))
  else if String.eqb (wp_unit w) "year" then midnight_of (first_of_month (12 * (k * n)))
  else anchor + k * wp_windowSeconds w.

(** Largest instant the theorems cover: 2^61 seconds, about 73 billion years. *)
Definition horizon : Z := 2 ^ 61.

(** [(s, e)] is the bucket of [t] in the partition of [w]. *)
Definition is_bucket (w : subscriptionQuotaWindowPolicy) (anchor t s e : Z) : Prop :=
  exists k, s = boundary w anchor k /\ e = boundary w anchor (k + 1) /\ s <= t < e.

Lemma checked_add a b : is_i64 a -> is_i64 b -> is_i64 (a + b) ->
  checked (subscriptionSafeAddInt64 a b) = Some (a + b).
Proof. intros. by rewrite safe_add_in. Qed.

Lemma checked_mul a b : is_i64 a -> is_i64 b -> is_i64 (a * b) ->
  checked (subscriptionSafeMulInt64 a b) = Some (a * b).
Proof. intros. by rewrite safe_mul_in. Qed.

Lemma neg_i64 a : is_i64 a -> a <> min_i64 -> i64_neg a = - a.
Proof. unfold i64_neg. intros. apply wrap64_id. unfold is_i64, min_i64, max_i64 in *. lia. Qed.

(** Solves 64-bit range side conditions of bounded quantities. *)
Ltac range := unfold is_i64, min_i64, max_i64, horizon, MaxSubscriptionQuotaWindowSeconds, secs_per_day, epoch_day in *; lia.

Lemma div_mul_near x p : 0 < p -> x - p < x / p * p <= x.
Proof. intros. pose proof (Z.div_mod x p). pose proof (Z.mod_pos_bound x p). lia. Qed.

Lemma div_range x p : 0 < p -> - horizon <= x <= horizon -> is_i64 (x / p).
Proof. intros Hp Hx. pose proof (div_mul_near x p Hp). range || (unfold is_i64, min_i64, max_i64, horizon in *; nia). Qed.

Lemma fixed_bucket_spec period now anchor :
  0 < period <= MaxSubscriptionQuotaWindowSeconds -> 0 < now <= horizon ->
  0 <= default 0 anchor <= horizon ->
  let a := default 0 anchor in
  let s := a + (now - a) / period * period in
  fixed_bucket period now anchor = Some (time_Unix s 0, time_Unix (s + period) 0).
Proof.
  intros Hp Hn Ha a s. unfold fixed_bucket. rewrite (proj2 (Z.leb_gt period 0)) by lia.
  pose proof (div_mul_near (now - a) period ltac:(lia)) as Hd.
  pose proof (div_range (now - a) period ltac:(lia)) as Hr.
  destruct anchor as [a'|]; cbn [default] in *; subst a; cbn in *.
  - rewrite neg_i64 by range. rewrite checked_add by range. cbn.
    replace (now + - a') with (now - a') by lia.
    rewrite floorDiv_div by range. rewrite checked_mul by (try apply Hr; range). cbn.
    rewrite checked_add by range. cbn. rewrite safe_window_end by range.
    do 2 f_equal. unfold s, max_i64, min_i64. f_equal. range.
  - replace (now - 0) with now in * by lia. rewrite floorDiv_div by range.
    rewrite checked_mul by (try apply Hr; range). cbn. rewrite safe_window_end by range.
    replace s with (now / period * period) by (subst s; rewrite Z.sub_0_r; lia).
    do 2 f_equal. unfold max_i64, min_i64. f_equal. range.
Qed.

(** Midnights of civil dates, when nothing overflows. *)
Lemma Date_unix y m d loc :
  let z := (first_of_month (12 * y + m - 1) + (d - 1) - epoch_day) * secs_per_day - loc in
  is_i64 z -> Date y m d loc = mkInstant z loc.
Proof. intros z Hz. unfold Date. f_equal. by apply wrap64_id. Qed.

Lemma local_day_midnight day loc : local_day (mkInstant (midnight_of day - loc) loc) = day.
Proof.
  unfold local_day, midnight_of, secs_per_day. cbn.
  replace ((day - epoch_day) * 86400 - loc + loc) with ((day - epoch_day) * 86400) by lia.
  rewrite Z.div_mul by lia. lia.
Qed.

Lemma Clock_midnight day loc : Clock (mkInstant (midnight_of day - loc) loc) = 0.
Proof.
  unfold Clock, midnight_of, secs_per_day. cbn.
  replace ((day - epoch_day) * 86400 - loc + loc) with ((day - epoch_day) * 86400) by lia.
  apply Z_mod_mult.
Qed.

(** [AddDate] by months from the first of month [i]. *)
Lemma AddDate_months i dy dm loc :
  is_i64 (midnight_of (first_of_month (i + 12 * dy + dm)) - loc) ->
  AddDate (mkInstant (midnight_of (first_of_month i) - loc) loc) dy dm 0 =
  mkInstant (midnight_of (first_of_month (i + 12 * dy + dm)) - loc) loc.
Proof.
  intros Hr. unfold AddDate. rewrite Clock_midnight, Z.add_0_r. rewrite wrap64_id by apply wrap64_range.
  set (t := mkInstant (midnight_of (first_of_month i) - loc) loc). pose proof (date_fields t) as Hf. unfold Day, t in Hf |- *. rewrite local_day_midnight in Hf |- *.
  rewrite month_of_day_first in Hf |- *. fold t. fold t in Hf.
  assert (Hx : 12 * (Year t + dy) + (Month t + dm) - 1 = i + 12 * dy + dm) by lia.
  unfold Date. rewrite Hx. cbn [i_loc i_unix t]. f_equal. rewrite <- (wrap64_id _ Hr). f_equal.
  unfold midnight_of. lia.
Qed.

#[local] Opaque month_of_day year_of_day.

(** Months within the horizon keep their midnights far from overflow. *)
Lemma first_of_month_zero : first_of_month 0 = -366.
Proof. reflexivity. Qed.

Lemma midnight_bounds i : 0 <= i -> 28 * i * 86400 - 2 ^ 36 <= midnight_of (first_of_month i) <= 31 * i * 86400.
Proof.
  intros Hi. pose proof (first_of_month_diff 0 i Hi) as Hd. rewrite first_of_month_zero in Hd.
  unfold midnight_of, epoch_day, secs_per_day. lia.
Qed.

(** The month index of a time after the epoch. *)
Lemma month_index_range t loc :
  0 <= t + loc <= 2 * horizon ->
  let i := month_of_day (local_day (time_Unix t loc)) in
  0 <= i <= 2 ^ 41 /\ midnight_of (first_of_month i) <= t + loc < midnight_of (first_of_month (i + 1)).
Proof.
  intros Ht i. subst i. set (z := local_day (time_Unix t loc)).
  assert (Hz : midnight_of z <= t + loc < midnight_of z + 86400).
  { unfold z, local_day, midnight_of, secs_per_day. cbn. divmod. }
  pose proof (month_of_day_spec z) as Hs.
  assert (Hm : 23628 <= month_of_day z).
  { assert (H0 : month_of_day epoch_day = 23640) by (vm_compute; reflexivity).
    assert (epoch_day <= z) by (unfold midnight_of, secs_per_day, epoch_day in *; lia).
    pose proof (month_of_day_le epoch_day z). lia. }
  pose proof (midnight_bounds (month_of_day z) ltac:(lia)).
  unfold midnight_of, horizon, epoch_day, secs_per_day in *. split; lia.
Qed.

#[local] Opaque first_of_month.

Lemma midnight_month_mono i j :
  i <= j -> midnight_of (first_of_month i) <= midnight_of (first_of_month j).
Proof. intros H%first_of_month_le. unfold midnight_of, secs_per_day. lia. Qed.

(** The month buckets of [n] months that contain month [i]. *)
Lemma aligned_month_range i n :
  0 <= i <= 2 ^ 41 -> 0 < n <= 2 ^ 20 ->
  0 <= i / n * n <= i /\ i < i / n * n + n /\ is_i64 (i / n) /\
  is_i64 (midnight_of (first_of_month (i / n * n))) /\
  is_i64 (midnight_of (first_of_month (i / n * n + n))).
Proof.
  intros Hi Hn. pose proof (div_mul_near i n ltac:(lia)) as Hd.
  pose proof (Z.div_pos i n ltac:(lia) ltac:(lia)).
  assert (0 <= i / n * n) by nia.
  pose proof (midnight_bounds (i / n * n) ltac:(lia)).
  pose proof (midnight_bounds (i / n * n + n) ltac:(lia)).
  assert (i / n <= i) by (clear - Hi Hn; divmod || (apply Z.div_le_upper_bound; nia)).
  repeat split; unfold is_i64, min_i64, max_i64 in *; lia.
Qed.

Lemma month_bucket_spec now n :
  0 < now <= horizon -> 0 < n <= 2 ^ 20 ->
  let i := month_of_day (local_day (time_Unix now 0)) in
  month_bucket (time_Unix now 0) n =
  Some (mkInstant (midnight_of (first_of_month (i / n * n))) 0,
        mkInstant (midnight_of (first_of_month (i / n * n + n))) 0).
Proof.
  intros Hn Hc i. pose proof (month_index_range now 0 ltac:(unfold horizon in *; lia)) as [Hi _]. fold i in Hi.
  pose proof (date_fields (time_Unix now 0)) as Hf. fold i in Hf.
  destruct (aligned_month_range i n Hi Hc) as (Ha & Hb & Hq & Hs & He).
  assert (Hmo : 1 <= Month (time_Unix now 0) <= 12).
  { unfold Month. pose proof (Z.mod_pos_bound (month_of_day (local_day (time_Unix now 0))) 12). lia. }
  unfold month_bucket.
  rewrite checked_mul by range. cbn. rewrite checked_add by range. cbn.
  replace (_ + (_ - 1)) with i by lia. rewrite floorDiv_div by range. rewrite checked_mul by (try done; range). cbn.
  unfold i64_div, i64_rem. rewrite Z.quot_div_nonneg, Z.rem_mod_nonneg by lia.
  set (si := i / n * n) in *. pose proof (Z.mod_pos_bound si 12 ltac:(lia)).
  rewrite (proj2 (Z.ltb_ge (si mod 12) 0)) by lia.
  assert (0 <= si / 12 <= si) by divmod. rewrite wrap64_id by range. cbn [mbind option_bind].
  rewrite (proj2 (Z.ltb_ge _ (si / 12))) by range. rewrite (proj2 (Z.ltb_ge (si / 12) _)) by range. cbn [orb].
  assert (Hd : Date (si / 12) (si mod 12 + 1) 1 0 = mkInstant (midnight_of (first_of_month si) - 0) 0).
  { unfold Date. replace (12 * (si / 12) + (si mod 12 + 1) - 1) with si by divmod.
    rewrite wrap64_id; unfold midnight_of in *; [f_equal; lia|]. by rewrite Z.sub_diag, Z.add_0_r, Z.sub_0_r. }
  rewrite Hd. rewrite AddDate_months; replace (si + 12 * 0 + n) with (si + n) by lia; rewrite !Z.sub_0_r; done.
Qed.

Lemma year_bucket_spec now n :
  0 < now <= horizon -> 0 < n <= 2 ^ 16 ->
  let y := month_of_day (local_day (time_Unix now 0)) / 12 in
  year_bucket (time_Unix now 0) n =
  Some (mkInstant (midnight_of (first_of_month (12 * (y / n * n)))) 0,
        mkInstant (midnight_of (first_of_month (12 * (y / n * n + n)))) 0) /\
  y / n * n <= y < y / n * n + n.
Proof.
  intros Hn Hc y. pose proof (month_index_range now 0 ltac:(unfold horizon in *; lia)) as [Hi _].
  assert (Hy : 0 <= y <= 2 ^ 41 /\ 12 * y <= 2 ^ 41) by (subst y; divmod). destruct Hy as [Hy Hy12].
  assert (Hyr : Year (time_Unix now 0) = y) by apply year_of_day_month.
  destruct (aligned_month_range y n Hy ltac:(lia)) as (Ha & Hb & Hq & _ & _).
  split; [|lia]. unfold year_bucket. rewrite Hyr. rewrite floorDiv_div by range.
  rewrite checked_mul by (try done; range). cbn [mbind option_bind]. set (sy := y / n * n) in *.
  rewrite (proj2 (Z.ltb_ge _ sy)) by range. rewrite (proj2 (Z.ltb_ge sy _)) by range. cbn [orb].
  pose proof (midnight_bounds (12 * sy) ltac:(lia)). pose proof (midnight_bounds (12 * (sy + n)) ltac:(lia)).
  assert (Hd : Date sy 1 1 0 = mkInstant (midnight_of (first_of_month (12 * sy)) - 0) 0).
  { unfold Date. replace (12 * sy + 1 - 1) with (12 * sy) by lia.
    rewrite wrap64_id; [f_equal; unfold midnight_of; lia|]. unfold midnight_of in *. range. }
  rewrite Hd. rewrite AddDate_months; replace (12 * sy + 12 * n + 0) with (12 * (sy + n)) by lia;
    rewrite !Z.sub_0_r; [done|]. range.
Qed.

(** ** The code computes the bucket of the partition *)

Lemma bounded_count_ok unit n :
  let base := quotaWindowNominalUnitSeconds unit in
  0 < base -> 0 < n -> n * base <= MaxSubscriptionQuotaWindowSeconds ->
  bounded_count unit n = Some n.
Proof.
  intros base Hb Hn Hm. unfold bounded_count, maxCountForUnit. fold base.
  rewrite (proj2 (Z.leb_gt base 0)) by done. cbn [mbind option_bind].
  unfold i64_div. rewrite Z.quot_div_nonneg by range.
  assert (n <= MaxSubscriptionQuotaWindowSeconds / base) by (apply Z.div_le_lower_bound; lia).
  assert (MaxSubscriptionQuotaWindowSeconds / base <= MaxSubscriptionQuotaWindowSeconds)
    by (apply Z.div_le_upper_bound; range || nia).
  rewrite wrap64_id by range. by rewrite (proj2 (Z.ltb_ge _ n)).
Qed.

Lemma boundary_lt w anchor k j : window_ok w -> k < j -> boundary w anchor k < boundary w anchor j.
Proof.
  intros [_ _ Hd [Hs _] _ _] Hk. unfold boundary.
  repeat case_match; try nia; unfold midnight_of, secs_per_day.
  - assert (first_of_month (k * wp_duration w) < first_of_month (j * wp_duration w))
      by (apply first_of_month_lt; nia). lia.
  - assert (first_of_month (12 * (k * wp_duration w)) < first_of_month (12 * (j * wp_duration w)))
      by (apply first_of_month_lt; nia). lia.
Qed.

Lemma boundary_le w anchor k j : window_ok w -> k <= j -> boundary w anchor k <= boundary w anchor j.
Proof. intros Hw Hk. destruct (decide (k = j)) as [->|]; [done|]. pose proof (boundary_lt w anchor k j Hw). lia. Qed.

(** The boundaries cut time into disjoint buckets. *)
Lemma bucket_unique w anchor t s e t' s' e' :
  window_ok w -> is_bucket w anchor t s e -> is_bucket w anchor t' s' e' -> s <= t' < e -> s = s' /\ e = e'.
Proof.
  intros Hw (k & -> & -> & Ht) (j & -> & -> & Ht') Hin.
  assert (k = j) as ->; [|done].
  destruct (Z.lt_trichotomy k j) as [H|[H|H]]; [|done|].
  - pose proof (boundary_le w anchor (k + 1) j Hw). lia.
  - pose proof (boundary_le w anchor (j + 1) k Hw). lia.
Qed.

(** Custom calendar windows need an anchor not after the time evaluated. *)
Definition anchored (w : subscriptionQuotaWindowPolicy) (anchor now : Z) : Prop :=
  wp_unit w = "custom" -> wp_resetMode w = "calendar" -> 0 < anchor <= now.

Lemma fixed_bucket_member p a t :
  0 < p -> exists k, a + (t - a) / p * p = a + k * p /\
                     a + (t - a) / p * p + p = a + (k + 1) * p /\
                     a + (t - a) / p * p <= t < a + (t - a) / p * p + p.
Proof. intros Hp. pose proof (div_mul_near (t - a) p Hp). exists ((t - a) / p). lia. Qed.

Lemma calendar_bucket_spec w now anchor :
  window_ok w -> wp_resetMode w = "calendar" -> 0 < now <= horizon -> anchored w anchor now ->
  exists s e, calendar_bucket w now anchor = Some (mkInstant s 0, mkInstant e 0) /\ is_bucket w anchor now s e.
Proof.
  intros [Hu _ Hd Hs _ Hl] Hm Hn Ha. specialize (Hl Hm). unfold anchored in Ha. rewrite Hm in Ha.
  unfold calendar_bucket, is_bucket, boundary. rewrite (proj2 (Z.leb_gt (wp_duration w) 0)) by done.
  set (n := wp_duration w) in *. unfold window_units in Hu.
  pose proof (month_index_range now 0 ltac:(unfold horizon in *; lia)) as [Hi Hin]. rewrite Z.add_0_r in Hin.
  set (i := month_of_day (local_day (time_Unix now 0))) in *.
  set_unfold in Hu. destruct_or? Hu; rewrite Hu in *; cbn -[monday_anchor] in *.
  1,2,3: specialize (Hl ltac:(done)); rewrite bounded_count_ok by (cbn; range);
    cbn [mbind option_bind]; rewrite checked_mul by range; cbn [mbind option_bind].
  - rewrite (fixed_bucket_spec _ now None) by (cbn; range). cbn [default]. eexists _, _. split; [done|].
    apply (fixed_bucket_member (n * 3600) 0 now). lia.
  - rewrite (fixed_bucket_spec _ now None) by (cbn; range). cbn [default]. eexists _, _. split; [done|].
    apply (fixed_bucket_member (n * 86400) 0 now). lia.
  - assert (monday_anchor = 345600) as -> by (vm_compute; reflexivity).
    rewrite (fixed_bucket_spec _ now (Some 345600)) by (cbn; range). cbn [default]. eexists _, _. split; [done|].
    apply fixed_bucket_member. lia.
  - specialize (Hl ltac:(done)). rewrite bounded_count_ok by (cbn; range). cbn [mbind option_bind].
    rewrite (proj2 (Z.ltb_ge _ n)) by range. rewrite month_bucket_spec by range. fold i.
    eexists _, _. split; [done|]. exists (i / n). pose proof (div_mul_near i n ltac:(lia)).
    replace ((i / n + 1) * n) with (i / n * n + n) by lia.
    pose proof (midnight_month_mono (i / n * n) i). pose proof (midnight_month_mono (i + 1) (i / n * n + n)). lia.
  - specialize (Hl ltac:(done)). rewrite bounded_count_ok by (cbn; range). cbn [mbind option_bind].
    rewrite (proj2 (Z.ltb_ge _ n)) by range. destruct (year_bucket_spec now n Hn ltac:(range)) as [-> Hy]. fold i in Hy |- *.
    eexists _, _. split; [done|]. exists (i / 12 / n).
    replace ((i / 12 / n + 1) * n) with (i / 12 / n * n + n) by lia.
    set (sy := i / 12 / n * n) in *. assert (12 * sy <= i < 12 * (sy + n)) by (subst sy; divmod).
    pose proof (midnight_month_mono (12 * sy) i). pose proof (midnight_month_mono (i + 1) (12 * (sy + n))). lia.
  - specialize (Ha eq_refl eq_refl). rewrite (proj2 (Z.leb_gt anchor 0)), (proj2 (Z.ltb_ge now anchor)) by lia. cbn [orb].
    rewrite (fixed_bucket_spec _ now (Some anchor)) by (cbn; range). cbn [default]. eexists _, _. split; [done|].
    apply fixed_bucket_member. lia.
Qed.

Lemma window_ok_wellformed w : window_ok w -> window_malformed w = false.
Proof.
  intros [Hu _ _ _ Hm _]. unfold window_malformed.
  assert (isValidSubscriptionQuotaWindowUnit (wp_unit w) = true) as -> by (by apply str_in_spec). cbn [negb]. rewrite !andb_false_r, !orb_false_r.
  by destruct Hm as [-> | ->].
Qed.

Lemma window_ok_length w :
  window_ok w -> (wp_windowSeconds w <=? 0) || (MaxSubscriptionQuotaWindowSeconds <? wp_windowSeconds w) = false.
Proof. intros [_ _ _ Hs _ _]. lia. Qed.

Section Bounds.
Context `{DBClock}.

Lemma bounds_calendar w now anchor :
  window_ok w -> wp_resetMode w = "calendar" -> 0 < now <= horizon -> anchored w anchor now ->
  is_bucket w anchor now (fst (quotaWindowBounds w now anchor)) (snd (quotaWindowBounds w now anchor)).
Proof.
  intros Hw Hm Hn Ha. destruct (calendar_bucket_spec w now anchor Hw Hm Hn Ha) as (s & e & Hb & Hin).
  unfold quotaWindowBounds. rewrite (proj2 (Z.leb_gt now 0)) by lia.
  rewrite window_ok_wellformed, window_ok_length, Hm, Hb by done. cbn.
  destruct Hin as (k & Hs & He & Ht). rewrite (proj2 (Z.leb_gt e s)) by lia. by exists k.
Qed.

Lemma bounds_rolling w now anchor :
  window_ok w -> wp_resetMode w = "rolling" -> 0 < now <= horizon ->
  quotaWindowBounds w now anchor = (now - wp_windowSeconds w, now).
Proof.
  intros Hw Hm Hn. unfold quotaWindowBounds. rewrite (proj2 (Z.leb_gt now 0)) by lia.
  rewrite window_ok_wellformed, window_ok_length, Hm by done. cbn.
  destruct Hw as [_ _ _ Hs _ _]. rewrite neg_i64 by range. rewrite checked_add by range. done.
Qed.

(** Which times share the window of [now]: the reference reading. *)
Definition in_window (w : subscriptionQuotaWindowPolicy) (now anchor t : Z) : Prop :=
  if String.eqb (wp_resetMode w) "calendar"
  then fst (quotaWindowBounds w now anchor) <= t < snd (quotaWindowBounds w now anchor) /\ t <= now
  else now - wp_windowSeconds w < t <= now.

(** A calendar window computed by the overflow-checked code is the
    bucket of a fixed partition of time: it contains the current time, its
    ends are consecutive boundaries of the specification (aligned hours,
    days, Monday weeks, months, years, or periods from the anchor), and
    every time inside it yields the same window. *)
Theorem calendar_window_is_partition_bucket w now now' anchor :
  window_ok w -> wp_resetMode w = "calendar" ->
  0 < now <= horizon -> 0 < now' <= horizon -> anchored w anchor now -> anchored w anchor now' ->
  let '(s, e) := quotaWindowBounds w now anchor in
  is_bucket w anchor now s e /\ (s <= now' < e -> quotaWindowBounds w now' anchor = (s, e)).
Proof.
  intros Hw Hm Hn Hn' Ha Ha'. pose proof (bounds_calendar w now anchor Hw Hm Hn Ha) as Hb.
  pose proof (bounds_calendar w now' anchor Hw Hm Hn' Ha') as Hb'.
  destruct (quotaWindowBounds w now anchor) as [s e], (quotaWindowBounds w now' anchor) as [s' e'].
  cbn in *. split; [done|]. intros Hin. by destruct (bucket_unique _ _ _ _ _ _ _ _ Hw Hb Hb' Hin) as [-> ->].
Qed.

(** A record belongs to a window exactly when it was created at a
    positive time not after now and, for a rolling window, less than the
    window length ago, or, for a calendar window, in the bucket of now. *)
Theorem contains_record_iff w now anchor t :
  window_ok w -> 0 < now <= horizon ->
  quotaWindowContainsRecord w now anchor t = true <-> 0 < t /\ in_window w now anchor t.
Proof.
  intros Hw Hn. unfold quotaWindowContainsRecord, in_window.
  rewrite window_ok_wellformed by done. cbn [orb]. rewrite window_ok_length by done.
  destruct (wok_mode w Hw) as [Hm|Hm]; rewrite Hm; cbn.
  - destruct (quotaWindowBounds w now anchor) as [s e]. cbn. case_match; lia.
  - rewrite bounds_rolling by done. case_match; lia.
Qed.
End Bounds.

Definition example_month : subscriptionQuotaWindowPolicy :=
  mkWindowPolicy "month" 100 3 (3 * 30 * 86400) "calendar" "".

Lemma example_month_ok : window_ok example_month.
Proof.
  constructor; cbn; [by apply str_in_spec | lia | lia | | by left | done].
  unfold MaxSubscriptionQuotaWindowSeconds. lia.
Qed.

Lemma calendar_window_is_partition_bucket_witness :
  let '(s, e) := @quotaWindowBounds 0 example_month 1700000000 0 in
  is_bucket example_month 0 1700000000 s e /\
  (s <= 1702000000 < e -> @quotaWindowBounds 0 example_month 1702000000 0 = (s, e)).
Proof.
  apply (@calendar_window_is_partition_bucket 0 example_month 1700000000 1702000000 0 example_month_ok);
    (done || (unfold horizon; lia)).
Defined.

Lemma contains_record_iff_witness :
  @quotaWindowContainsRecord 0 example_month 1702000000 0 1700000000 = true <->
  0 < 1700000000 /\ @in_window 0 example_month 1702000000 0 1700000000.
Proof. apply contains_record_iff; [exact example_month_ok | unfold horizon; lia]. Defined.

(** ** Aggregate periods *)

(** First day of the local period of [d], and first day after it. *)
Definition period_days (period : string) (d : Z) : Z * Z :=
  if String.eqb period "daily" then (d, d + 1)
  else if String.eqb period "weekly" then (d - d mod 7, d - d mod 7 + 7)
  else if String.eqb period "monthly" then
    (first_of_month (month_of_day d), first_of_month (month_of_day d + 1))
  else let y := month_of_day d / 12 in (first_of_month (12 * y), first_of_month (12 * (y + 1))).

Definition calendar_periods : list string := ["daily"; "weekly"; "monthly"; "yearly"].

Lemma period_days_partition period d d' :
  let '(g, h) := period_days period d in
  g <= d < h /\ h <= d + 366 /\ d - 366 <= g /\ (g <= d' < h -> period_days period d' = (g, h)).
Proof.
  unfold period_days. repeat case_match; simplify_eq.
  - split_and!; try lia. intros. f_equal; lia.
  - split_and!; try divmod. intros. f_equal; divmod.
  - pose proof (month_of_day_spec d). pose proof (first_of_month_succ (month_of_day d)).
    split_and!; try lia. intros Hd. by rewrite (month_of_day_unique d' (month_of_day d)).
  - set (y := month_of_day d / 12). pose proof (month_of_day_spec d) as Hs.
    assert (Hy : 12 * y <= month_of_day d < 12 * (y + 1)) by (subst y; divmod).
    assert (first_of_month (12 * y) <= first_of_month (month_of_day d)) by (apply first_of_month_le; lia).
    assert (first_of_month (month_of_day d + 1) <= first_of_month (12 * (y + 1))) by (apply first_of_month_le; lia).
    pose proof (first_of_year_length y). split_and!; try lia. intros [Hlo Hhi].
    pose proof (month_of_day_spec d') as Hs'.
    assert (12 * y < month_of_day d' + 1) by (apply first_of_month_lt; lia).
    assert (month_of_day d' < 12 * (y + 1)) by (apply first_of_month_lt; lia).
    assert (month_of_day d' / 12 = y) as -> by divmod. done.
Qed.

(** [AddDate] by days from any midnight. *)
Lemma AddDate_days day dd loc :
  is_i64 (midnight_of (day + dd) - loc) ->
  AddDate (mkInstant (midnight_of day - loc) loc) 0 0 dd = mkInstant (midnight_of (day + dd) - loc) loc.
Proof.
  intros Hr. unfold AddDate. rewrite Clock_midnight, Z.add_0_r. rewrite wrap64_id by apply wrap64_range.
  set (t := mkInstant (midnight_of day - loc) loc). pose proof (date_fields t) as Hf. unfold Date. replace (12 * (Year t + 0) + (Month t + 0) - 1) with (month_of_day (local_day t)) by lia.
  unfold Day. cbn [i_loc i_unix t]. f_equal. rewrite <- (wrap64_id _ Hr). f_equal.
  unfold t. rewrite local_day_midnight. unfold midnight_of. lia.
Qed.

Lemma Date_of_day t loc :
  is_i64 (midnight_of (local_day (time_Unix t loc)) - loc) ->
  let r := time_Unix t loc in
  Date (Year r) (Month r) (Day r) loc = mkInstant (midnight_of (local_day r) - loc) loc.
Proof.
  intros Hr r. subst r. pose proof (date_fields (time_Unix t loc)) as Hf. unfold Date. rewrite Hf.
  unfold Day. f_equal. rewrite <- (wrap64_id _ Hr). f_equal. unfold midnight_of. lia.
Qed.

Lemma Date_of_month y m loc :
  is_i64 (midnight_of (first_of_month (12 * y + m - 1)) - loc) ->
  Date y m 1 loc = mkInstant (midnight_of (first_of_month (12 * y + m - 1)) - loc) loc.
Proof. intros Hr. unfold Date. f_equal. rewrite <- (wrap64_id _ Hr). f_equal. unfold midnight_of. lia. Qed.

(** Time zones are less than a day away from UTC. *)
Definition zone_ok (loc : Z) : Prop := -86400 < loc < 86400.

Lemma aggregate_calendar_spec period t loc :
  period ∈ calendar_periods -> zone_ok loc -> 0 < t <= horizon ->
  let '(g, h) := period_days period (local_day (time_Unix t loc)) in
  aggregate_calendar period t loc =
    Some (mkInstant (midnight_of g - loc) loc, mkInstant (midnight_of h - loc) loc) /\
  is_i64 (midnight_of g - loc) /\ is_i64 (midnight_of h - loc).
Proof.
  intros Hp Hz Ht. set (d := local_day (time_Unix t loc)).
  assert (Hd : 0 <= d <= 2 ^ 46) by (unfold d, local_day, horizon, zone_ok, secs_per_day, epoch_day in *; cbn; divmod).
  assert (Hr : forall x, d - 400 <= x <= d + 400 -> is_i64 (midnight_of x - loc))
    by (unfold midnight_of, zone_ok, secs_per_day, epoch_day, is_i64, min_i64, max_i64 in *; lia).
  pose proof (period_days_partition period d d) as Hpd.
  pose proof (Date_of_day t loc ltac:(apply Hr; lia)) as Hmid.
  pose proof (date_fields (time_Unix t loc)) as Hf. fold d in Hf.
  unfold calendar_periods in Hp. unfold aggregate_calendar. set_unfold in Hp.
  destruct_or? Hp; subst period; cbn [String.eqb Ascii.eqb Bool.eqb] in *; unfold period_days in *; cbn in Hpd |- *.
  - rewrite Hmid. fold d. rewrite AddDate_days by (apply Hr; lia). split; [done|]. split; apply Hr; lia.
  - rewrite Hmid. fold d.
    assert (Hw : - ((if Weekday (time_Unix t loc) =? 0 then 7 else Weekday (time_Unix t loc)) - 1) = - (d mod 7)).
    { unfold Weekday. fold d. case_match; divmod. }
    rewrite Hw. rewrite AddDate_days by (apply Hr; lia). replace (d + - (d mod 7)) with (d - d mod 7) by lia.
    rewrite AddDate_days by (apply Hr; lia). split; [done|]. split; apply Hr; lia.
  - rewrite Date_of_month; rewrite Hf; [|apply Hr; lia].
    rewrite AddDate_months; replace (month_of_day d + 12 * 0 + 1) with (month_of_day d + 1) by lia; [|apply Hr; lia].
    split; [done|]. split; apply Hr; lia.
  - assert (Year (time_Unix t loc) = month_of_day d / 12) as -> by apply year_of_day_month.
    set (y := month_of_day d / 12) in *.
    rewrite Date_of_month; replace (12 * y + 1 - 1) with (12 * y) by lia; [|apply Hr; lia].
    rewrite AddDate_months; replace (12 * y + 12 * 1 + 0) with (12 * (y + 1)) by lia; [|apply Hr; lia].
    split; [done|]. split; apply Hr; lia.
Qed.

(** The period of [t] before it is clipped to the subscription. *)
Definition raw_period (loc : Z) (sub : UserSubscription) (po : subscriptionQuotaPolicy) (t : Z) : Z * Z :=
  let period := NormalizeResetPeriod (po_resetPeriod po) in
  if String.eqb period "never" then (s_StartTime sub, s_EndTime sub)
  else if String.eqb period "custom" then
    let secs := po_resetCustomSeconds po in
    let s := s_StartTime sub + (t - s_StartTime sub) / secs * secs in (s, s + secs)
  else
    let '(g, h) := period_days period (local_day (time_Unix t loc)) in
    (midnight_of g - loc, midnight_of h - loc).

Section AggregatePeriod.
Context (loc : Z) (sub : UserSubscription) (po : subscriptionQuotaPolicy).
Hypothesis Hzone : zone_ok loc.
Hypothesis Hstart : 0 < s_StartTime sub.
Hypothesis Hend : s_EndTime sub <= horizon.
Hypothesis Hcustom : NormalizeResetPeriod (po_resetPeriod po) = "custom" ->
  0 < po_resetCustomSeconds po <= MaxSubscriptionQuotaWindowSeconds.

Lemma raw_period_partition t t' :
  s_StartTime sub <= t < s_EndTime sub ->
  let '(s, e) := raw_period loc sub po t in
  s <= t < e /\ (s <= t' < e -> raw_period loc sub po t' = (s, e)).
Proof.
  intros Ht. unfold raw_period.
  destruct (String.eqb_spec (NormalizeResetPeriod (po_resetPeriod po)) "never") as [|_]; [done|].
  destruct (String.eqb_spec (NormalizeResetPeriod (po_resetPeriod po)) "custom") as [Hcu|_].
  - specialize (Hcustom Hcu). set (a := s_StartTime sub) in *. set (p := po_resetCustomSeconds po) in *.
    pose proof (div_mul_near (t - a) p ltac:(lia)). split; [lia|]. intros Hin.
    assert ((t' - a) / p = (t - a) / p) as ->; [|done].
    symmetry. apply Z.div_unique with (r := t' - a - p * ((t - a) / p)); lia.
  - set (d := local_day (time_Unix t loc)). set (d' := local_day (time_Unix t' loc)).
    pose proof (period_days_partition (NormalizeResetPeriod (po_resetPeriod po)) d d') as Hp.
    destruct (period_days _ d) as [g h]. destruct Hp as (Hin & _ & _ & Hst).
    assert (midnight_of d <= t + loc < midnight_of (d + 1))
      by (unfold d, local_day, midnight_of, secs_per_day; cbn; divmod).
    assert (midnight_of d' <= t' + loc < midnight_of (d' + 1))
      by (unfold d', local_day, midnight_of, secs_per_day; cbn; divmod).
    split; [unfold midnight_of, secs_per_day in *; lia|].
    intros Hin'. by rewrite Hst by (unfold midnight_of, secs_per_day in *; lia).
Qed.

Lemma period_bounds_clip t :
  s_StartTime sub <= t < s_EndTime sub ->
  aggregateQuotaPeriodBounds loc sub po t =
  let '(s, e) := raw_period loc sub po t in clip_period sub s e t.
Proof.
  intros Ht. unfold aggregateQuotaPeriodBounds.
  rewrite (proj2 (Z.leb_gt t 0)), (proj2 (Z.ltb_lt 0 _)), (proj2 (Z.ltb_ge t _)) by lia. cbn [andb].
  rewrite (proj2 (Z.leb_gt (s_EndTime sub) t)), andb_false_r by lia.
  unfold raw_period. set (period := NormalizeResetPeriod (po_resetPeriod po)).
  destruct (String.eqb_spec period "never") as [|Hnv].
  { unfold clip_period. rewrite !Z.ltb_irrefl, andb_false_r, orb_false_r.
    repeat (case_match; split_bool); try done; lia. }
  destruct (String.eqb_spec period "custom") as [Hcu|Hcu].
  - specialize (Hcustom Hcu). unfold aggregate_custom. set (a := s_StartTime sub) in *.
    set (p := po_resetCustomSeconds po) in *. pose proof (div_mul_near (t - a) p ltac:(lia)).
    pose proof (div_range (t - a) p ltac:(lia) ltac:(lia)) as Hr.
    rewrite (proj2 (Z.leb_gt p 0)), (proj2 (Z.ltb_ge _ p)) by lia. cbn [orb].
    rewrite safe_sub_cases by range. rewrite decide_True by range. cbn.
    rewrite floorDiv_div by range. rewrite checked_mul by (try done; range). cbn.
    rewrite checked_add by range. rewrite checked_add by range. done.
  - assert (Hp : period ∈ calendar_periods).
    { revert Hnv Hcu. unfold period, NormalizeResetPeriod. repeat case_match; intros; try done; by apply str_in_spec. }
    pose proof (aggregate_calendar_spec period t loc Hp Hzone ltac:(lia)) as Hs.
    pose proof (period_days_partition period (local_day (time_Unix t loc)) 0) as Hpd.
    destruct (period_days _ _) as [g h]. destruct Hs as (-> & _ & _). cbn.
    by rewrite (proj2 (Z.leb_gt _ _)) by (unfold midnight_of, secs_per_day; lia).
Qed.

Lemma aggregate_period_exists t :
  s_StartTime sub <= t < s_EndTime sub ->
  exists s e, aggregateQuotaPeriodBounds loc sub po t = Ok (s, e) /\
    s_StartTime sub <= s <= t /\ t < e <= s_EndTime sub /\
    (forall t', s <= t' < e -> aggregateQuotaPeriodBounds loc sub po t' = Ok (s, e)).
Proof.
  intros Ht. rewrite period_bounds_clip by done. destruct (raw_period loc sub po t) as [s0 e0] eqn:E0.
  pose proof (raw_period_partition t t Ht) as Hp. rewrite E0 in Hp. destruct Hp as [Hin _].
  exists (Z.max s0 (s_StartTime sub)), (Z.min e0 (s_EndTime sub)).
  assert (Hclip : forall u, Z.max s0 (s_StartTime sub) <= u < Z.min e0 (s_EndTime sub) ->
    clip_period sub s0 e0 u = Ok (Z.max s0 (s_StartTime sub), Z.min e0 (s_EndTime sub))).
  { intros u Hu. unfold clip_period. repeat case_match; split_bool; try lia; do 2 f_equal; lia. }
  split; [apply Hclip; lia|]. split; [lia|]. split; [lia|]. intros t' Ht'.
  rewrite period_bounds_clip by lia. pose proof (raw_period_partition t t' Ht) as Hp'.
  rewrite E0 in Hp'. destruct Hp' as [_ ->]; [|lia]. by apply Hclip.
Qed.
(** The aggregate period of a record inside the subscription always
    exists, contains the record, stays inside the subscription, and is
    shared by every other time it contains: the periods partition the
    subscription's life, whatever the reset period. *)
Theorem aggregate_period_partitions_life t :
  s_StartTime sub <= t < s_EndTime sub ->
  exists s e, aggregateQuotaPeriodBounds loc sub po t = Ok (s, e) /\
    s_StartTime sub <= s <= t /\ t < e <= s_EndTime sub /\
    (forall t', s <= t' < e -> aggregateQuotaPeriodBounds loc sub po t' = Ok (s, e)).
Proof. apply aggregate_period_exists. Qed.
End AggregatePeriod.

Definition dual_sub : UserSubscription :=
  mkSub 1 7 1 0 1000 0 1600000000 1900000000 "active" 0 0 "dual" "dual" 50 18000 500 "weekly" 0 [] 1 "" "Basic".

Lemma aggregate_period_partitions_life_witness :
  let po := quotaPolicyForSubscription dual_sub None in
  exists s e, aggregateQuotaPeriodBounds 28800 dual_sub po 1700000000 = Ok (s, e) /\
    s_StartTime dual_sub <= s <= 1700000000 /\ 1700000000 < e <= s_EndTime dual_sub /\
    (forall t', s <= t' < e -> aggregateQuotaPeriodBounds 28800 dual_sub po t' = Ok (s, e)).
Proof.
  cbn zeta. apply (aggregate_period_partitions_life 28800 dual_sub);
    [unfold zone_ok; lia | cbn; lia | cbn; unfold horizon; lia | vm_compute; discriminate | cbn; lia].
Defined.
