(* ===== verification/GoDate.v ===== *)
(** * Dates as text

    The layout 2006-01-02 of Go's [Format], [Parse] and [ParseInLocation],
    that a printed date reads back as the same midnight, and the days a bill
    run walks through. *)

From stdpp Require Import base numbers list strings pretty.
From Stdlib Require Import ZArith Lia Ascii.
From S2P Require Import Prelude GoInt GoString GoText GoTime QuotaWindow QuotaPolicy WindowBounds.

#[local] Arguments String.append : simpl nomatch.

Fixpoint zero_text (n : nat) : string := match n with O => "" | S n' => String "0" (zero_text n') end.

(** [appendInt(b, x, width)] of package [time]. *)
Definition appendInt (x : Z) (width : nat) : string :=
  let digits := Itoa (Z.abs x) in
  (if x <? 0 then "-" else "") +:+ zero_text (width - String.length digits) +:+ digits.

(** [t.Format("2006-01-02")] *)
Definition format_date (t : instant) : string :=
  appendInt (Year t) 4 +:+ "-" +:+ appendInt (Month t) 2 +:+ "-" +:+ appendInt (Day t) 2.

(** Exactly [n] digits. *)
Fixpoint take_digits (n : nat) (acc : Z) (s : string) : option (Z * string) :=
  match n, s with
  | O, _ => Some (acc, s)
  | S n', String a s' => d ← digit_value a; take_digits n' (10 * acc + d) s'
  | S _, EmptyString => None
  end.

Definition daysIn (y m : Z) : Z := first_of_month (12 * y + m) - first_of_month (12 * y + m - 1).

(** [time.ParseInLocation("2006-01-02", s, loc)]; [None] is any error. *)
Definition parse_date (s : string) (loc : Z) : option instant :=
  '(y, s) ← take_digits 4 0 s; s ← strip "-" s;
  '(m, s) ← take_digits 2 0 s; s ← (if (0 <? m) && (m <=? 12) then strip "-" s else None);
  '(d, s) ← take_digits 2 0 s;
  if String.eqb s "" && (1 <=? d) && (d <=? daysIn y m) then Some (Date y m d loc) else None.

(** ** A printed date reads back *)

Lemma take_digits_app n acc s r v t : take_digits n acc s = Some (v, t) -> take_digits n acc (s +:+ r) = Some (v, t +:+ r).
Proof.
  revert acc s. induction n as [|n IH]; intros acc s; cbn; [by intros [= <- <-]|].
  destruct s as [|a s]; [done|]. cbn. destruct (digit_value a) as [d|]; [|done]. apply IH.
Qed.

Lemma take_digits_bounds n acc s v t : 0 <= acc -> take_digits n acc s = Some (v, t) ->
  acc * 10 ^ Z.of_nat n <= v < (acc + 1) * 10 ^ Z.of_nat n.
Proof.
  revert acc s. induction n as [|n IH]; intros acc s Ha; cbn [take_digits].
  - intros [= <- <-]. change (Z.of_nat 0) with 0. lia.
  - destruct s as [|a s]; [done|]. destruct (digit_value a) as [d|] eqn:E; [|done]. cbn.
    assert (0 <= d <= 9) as Hd by (unfold digit_value in E; case_match; [injection E as <-; split_bool; lia | done]).
    intros Hv%IH; [|lia]. rewrite Nat2Z.inj_succ, Z.pow_succ_r by lia. nia.
Qed.

Definition reads_back (width : nat) (z : Z) : bool :=
  bool_decide (take_digits width 0 (appendInt z width) = Some (z, "")).

Lemma two_digits z : 0 <= z < 100 -> take_digits 2 0 (appendInt z 2) = Some (z, "").
Proof.
  intros Hz. assert (forallb (reads_back 2) (seqZ 0 100) = true) as H by (vm_compute; reflexivity).
  rewrite forallb_Forall_true, Forall_forall in H. specialize (H z ltac:(apply elem_of_seqZ; lia)).
  by apply bool_decide_eq_true_1 in H.
Qed.

Lemma four_digits z : 0 <= z < 10000 -> take_digits 4 0 (appendInt z 4) = Some (z, "").
Proof.
  intros Hz. assert (forallb (reads_back 4) (seqZ 0 10000) = true) as H by (vm_compute; reflexivity).
  rewrite forallb_Forall_true, Forall_forall in H. specialize (H z ltac:(apply elem_of_seqZ; lia)).
  by apply bool_decide_eq_true_1 in H.
Qed.

(** Midnight of a day, and the days of the years 0 to 9999. *)
Definition midnight_at (day loc : Z) : instant := mkInstant (midnight_of day - loc) loc.
Definition printable_day (day : Z) : Prop := first_of_month 0 <= day < first_of_month 120000.

Lemma printable_range day loc k : printable_day day -> zone_ok loc -> -1 <= k <= 1 -> is_i64 (midnight_of (day + k) - loc).
Proof.
  unfold printable_day. intros [H1 H2] Hz Hk.
  assert (first_of_month 0 = -366) as E1 by (vm_compute; reflexivity).
  assert (first_of_month 120000 = 3652059) as E2 by (vm_compute; reflexivity). rewrite E1 in H1. rewrite E2 in H2.
  unfold midnight_of, zone_ok, secs_per_day, epoch_day, is_i64, min_i64, max_i64 in *. lia.
Qed.

Lemma Date_midnight y m d loc :
  is_i64 (midnight_of (first_of_month (12 * y + m - 1) + (d - 1)) - loc) ->
  Date y m d loc = midnight_at (first_of_month (12 * y + m - 1) + (d - 1)) loc.
Proof. intros H. unfold Date, midnight_at. f_equal. rewrite <- (wrap64_id _ H). f_equal. Qed.

(** What is read is a midnight of a printable day. *)
Lemma parse_date_midnight s loc t : zone_ok loc -> parse_date s loc = Some t ->
  exists day, printable_day day /\ t = midnight_at day loc.
Proof.
  intros Hz H. unfold parse_date, mbind, option_bind in H.
  destruct (take_digits 4 0 s) as [[y s1]|] eqn:Ey; [|done]. destruct (strip "-" s1) as [s2|]; [|done].
  destruct (take_digits 2 0 s2) as [[m s3]|] eqn:Em; [|done].
  destruct ((0 <? m) && (m <=? 12)) eqn:Hm; [|done]. destruct (strip "-" s3) as [s4|]; [|done].
  destruct (take_digits 2 0 s4) as [[d s5]|] eqn:Ed; [|done].
  destruct (String.eqb s5 "" && (1 <=? d) && (d <=? daysIn y m)) eqn:Hd; [|done]. injection H as <-.
  apply take_digits_bounds in Ey; [|lia]. change (Z.of_nat 4) with 4 in Ey. split_bool. unfold daysIn in *.
  assert (first_of_month 0 <= first_of_month (12 * y + m - 1)) by (apply first_of_month_le; lia).
  assert (first_of_month (12 * y + m) <= first_of_month 120000) by (apply first_of_month_le; lia).
  exists (first_of_month (12 * y + m - 1) + (d - 1)).
  assert (printable_day (first_of_month (12 * y + m - 1) + (d - 1))) as Hp by (unfold printable_day; lia). split; [done|].
  apply Date_midnight. rewrite <- (Z.add_0_r (_ + (d - 1))). by apply printable_range; [..|lia].
Qed.

(** Reading what [Format] printed. *)
Lemma parse_format day loc : printable_day day -> zone_ok loc -> parse_date (format_date (midnight_at day loc)) loc = Some (midnight_at day loc).
Proof.
  intros Hp Hz. set (t := midnight_at day loc). assert (Hday : local_day t = day) by apply local_day_midnight.
  pose proof (date_fields t) as Hf. rewrite Hday in Hf. pose proof (month_of_day_spec day) as Hs.
  unfold printable_day in Hp.
  assert (0 <= month_of_day day) by (enough (0 < month_of_day day + 1) by lia; apply first_of_month_lt; lia).
  assert (month_of_day day < 120000) by (apply first_of_month_lt; lia).
  assert (1 <= Month t <= 12) by (unfold Month; pose proof (Z.mod_pos_bound (month_of_day (local_day t)) 12); lia).
  assert (0 <= Year t < 10000) by lia. pose proof (first_of_month_succ (month_of_day day)) as Hlen.
  assert (Day t = day - first_of_month (month_of_day day) + 1) as Hd by (unfold Day; by rewrite Hday).
  assert (1 <= Day t <= daysIn (Year t) (Month t)) as Hdays.
  { unfold daysIn. rewrite Hf. replace (12 * Year t + Month t) with (month_of_day day + 1) by lia. lia. }
  unfold parse_date, format_date.
  rewrite (take_digits_app _ _ _ _ _ _ (four_digits (Year t) ltac:(lia))). cbn -[take_digits Date daysIn appendInt Year Month Day].
  rewrite (take_digits_app _ _ _ _ _ _ (two_digits (Month t) ltac:(lia))). cbn -[take_digits Date daysIn appendInt Year Month Day].
  rewrite (proj2 (Z.ltb_lt 0 (Month t))), (proj2 (Z.leb_le (Month t) 12)) by lia. cbn -[take_digits Date daysIn appendInt Year Month Day].
  rewrite (two_digits (Day t)) by lia. cbn -[Date daysIn Year Month Day].
  rewrite (proj2 (Z.leb_le 1 (Day t))), (proj2 (Z.leb_le (Day t) _)) by lia. cbn -[Date Year Month Day].
  f_equal. rewrite Date_midnight; rewrite Hf, Hd;
    replace (first_of_month (month_of_day day) + (day - first_of_month (month_of_day day) + 1 - 1)) with (day + 0) by lia.
  - unfold t. by rewrite Z.add_0_r.
  - by apply printable_range; [..|lia].
Qed.

(** ** The characters of numbers and dates *)

Definition number_char (a : ascii) : bool := digit_char a || Ascii.eqb a "-".
(** ASCII without blanks and control characters. *)
Definition graphic_char (a : ascii) : bool := (33 <=? nat_of_ascii a)%nat && (nat_of_ascii a <=? 126)%nat.

Lemma strip_graphic a s : graphic_char a = true ->
  strip_any spaces (String a s) = None /\ strip_any (map str_rev spaces) (String a s) = None.
Proof.
  destruct a as [[] [] [] [] [] [] [] []]; intros H; try discriminate H; split; reflexivity.
Qed.

Lemma TrimSpace_graphic s : all_chars graphic_char s = true -> TrimSpace s = s.
Proof.
  intros H. destruct s as [|a s]; [done|].
  assert (trim_left (String a s) = String a s) as E.
  { apply trim_with_id. cbn [all_chars] in H. split_bool. by apply strip_graphic. }
  unfold TrimSpace. rewrite E. unfold trim_right. rewrite trim_with_id; [apply str_rev_involutive|].
  rewrite <- all_chars_rev in H. destruct (str_rev (String a s)) as [|b r]; [done|].
  cbn [all_chars] in H. split_bool. by apply strip_graphic.
Qed.

Lemma number_char_graphic s : all_chars number_char s = true -> all_chars graphic_char s = true.
Proof. apply all_chars_impl. intros a. destruct a as [[] [] [] [] [] [] [] []]; vm_compute; congruence. Qed.
Lemma number_char_colon s : all_chars number_char s = true -> all_chars (not_char ":") s = true.
Proof. apply all_chars_impl. intros a. destruct a as [[] [] [] [] [] [] [] []]; vm_compute; congruence. Qed.

Lemma pretty_N_go_chars x s : all_chars number_char s = true -> all_chars number_char (pretty_N_go x s) = true.
Proof.
  revert s. induction (N.lt_wf_0 x) as [x _ IH]. intros s Hs. destruct (decide (x = 0)%N) as [->|Hx]; [by rewrite pretty_N_go_0|].
  rewrite pretty_N_go_step by lia. apply IH; [apply N.div_lt; lia|]. cbn [all_chars]. rewrite Hs, andb_true_r.
  unfold pretty_N_char. by repeat case_match.
Qed.

Lemma Itoa_chars z : all_chars number_char (Itoa z) = true.
Proof.
  assert (forall n : N, all_chars number_char (pretty n) = true) as Hn
    by (intros n; unfold pretty, pretty_N; case_decide; [done | by apply pretty_N_go_chars]).
  destruct z as [|p|p]; [done | apply Hn|]. unfold Itoa, pretty, pretty_Z. rewrite all_chars_app. cbn. apply (Hn (Npos p)).
Qed.

Lemma Itoa_inj z w : Itoa z = Itoa w -> z = w.
Proof. apply (inj pretty). Qed.

Lemma appendInt_chars z w : all_chars number_char (appendInt z w) = true.
Proof.
  unfold appendInt. rewrite !all_chars_app, Itoa_chars, andb_true_r, andb_true_iff. split; [by case_match|].
  induction (w - _)%nat as [|n IH]; [done | exact IH].
Qed.

Lemma format_date_chars t : all_chars number_char (format_date t) = true.
Proof. unfold format_date. by rewrite !all_chars_app, !appendInt_chars. Qed.

Lemma format_date_trim t : TrimSpace (format_date t) = format_date t.
Proof. apply TrimSpace_graphic, number_char_graphic, format_date_chars. Qed.

Lemma format_date_inj d d' loc : printable_day d -> printable_day d' -> zone_ok loc ->
  format_date (midnight_at d loc) = format_date (midnight_at d' loc) -> d = d'.
Proof.
  intros Hd Hd' Hz E. assert (midnight_at d loc = midnight_at d' loc) as F.
  { pose proof (parse_format d loc Hd Hz) as H1. rewrite E, (parse_format d' loc Hd' Hz) in H1. congruence. }
  injection F as F. unfold midnight_of, secs_per_day in F. lia.
Qed.

(** A printed number reads back. *)
Lemma read_digits_go x s : read_digits 0 (pretty_N_go x s) = read_digits (Z.of_N x) s.
Proof.
  revert s. induction (N.lt_wf_0 x) as [x _ IH]. intros s. destruct (decide (x = 0)%N) as [->|Hx]; [by rewrite pretty_N_go_0|].
  rewrite pretty_N_go_step by lia. rewrite IH by (apply N.div_lt; lia). cbn [read_digits].
  assert (digit_value (pretty_N_char (x mod 10)) = Some (Z.of_N (x mod 10))) as ->.
  { pose proof (N.mod_lt x 10 ltac:(lia)) as Hm. unfold pretty_N_char.
    destruct (x mod 10)%N as [|p]; [done|]. repeat (destruct p as [p|p|]; try done; try lia). }
  f_equal. pose proof (N.div_mod x 10 ltac:(lia)). lia.
Qed.

Lemma read_Itoa n : 0 <= n -> read_digits 0 (Itoa n) = Some n.
Proof.
  intros Hn. destruct n as [|p|p]; [done | | lia]. unfold Itoa, pretty, pretty_Z, pretty_positive, pretty, pretty_N.
  rewrite decide_False by lia. rewrite read_digits_go. done.
Qed.
