(* ===== verification/SubPlan.v ===== *)
(** * Plans, issuance and the aggregate reset

    From [src/model/subscription.go]: the plan behind a subscription
    ([getSubscriptionPlanOrSnapshotTx]), the end time and the policy snapshot
    written when a subscription is issued, the next reset time, and the lazy
    reset of the aggregate counter ([maybeResetUserSubscriptionWithPlanTx]).
    The theorems show that an issued subscription is enforced as the plan it
    was issued from, that the reset loop terminates and leaves the row in the
    period of the current time, and that the cheap membership test on the
    persisted reset times agrees with the period computed from scratch. *)

From stdpp Require Import base numbers list strings pretty gmap sets.
From Stdlib Require Import ZArith Lia.
From S2P Require Import Prelude GoInt GoTime GoString QuotaWindow QuotaPolicy WindowBounds.

(** Offset of the process's local time zone ([time.Local]). *)
Class LocalZone := local_zone : Z.

(** ** End of a subscription *)

Definition maxDurationSeconds : Z := i64_div max_i64 1000000000.

Definition checkedUnixAdd (base delta : Z) : option Z :=
  if (0 <? delta) && (i64_sub max_i64 delta <? base) then None
  else if (delta <? 0) && (base <? i64_sub min_i64 delta) then None
  else Some (i64_add base delta).

Definition duration_overflow {A} : result A := fail_with "subscription duration overflows timestamp".

Definition positiveCalendarEnd (start end_ : instant) : result Z :=
  match checkedUnixAdd (i_unix start) (i64_sub (i_unix end_) (i_unix start)) with
  | Some endUnix => if endUnix <=? i_unix start then duration_overflow else Ok endUnix
  | None => duration_overflow
  end.

(** [start.Unix() + seconds], or the overflow error. *)
Definition fixed_end (start : instant) (seconds : Z) : result Z :=
  match checkedUnixAdd (i_unix start) seconds with Some e => Ok e | None => duration_overflow end.

Definition calcPlanEndTime (start : instant) (plan : SubscriptionPlan) : result Z :=
  let v := p_DurationValue plan in
  let unit := p_DurationUnit plan in
  if (v <=? 0) && negb (String.eqb unit "custom") then fail_with "duration_value must be > 0"
  else if String.eqb unit "year" then
    if i64_div maxDurationSeconds (366 * 24 * 60 * 60) <? v then fail_with "duration_value is too large"
    else positiveCalendarEnd start (AddDate start v 0 0)
  else if String.eqb unit "month" then
    if i64_div maxDurationSeconds (31 * 24 * 60 * 60) <? v then fail_with "duration_value is too large"
    else positiveCalendarEnd start (AddDate start 0 v 0)
  else if String.eqb unit "day" then
    if i64_div maxDurationSeconds (24 * 60 * 60) <? v then fail_with "duration_value is too large"
    else fixed_end start (i64_mul v (24 * 60 * 60))
  else if String.eqb unit "hour" then
    if i64_div maxDurationSeconds (60 * 60) <? v then fail_with "duration_value is too large"
    else fixed_end start (i64_mul v (60 * 60))
  else if String.eqb unit "custom" then
    if p_CustomSeconds plan <=? 0 then fail_with "custom_seconds must be > 0"
    else if maxDurationSeconds <? p_CustomSeconds plan then fail_with "custom_seconds is too large"
    else fixed_end start (p_CustomSeconds plan)
  else fail_with ("invalid duration_unit: " ++ unit).

(** ** Next reset *)

(** The instant the period after [base] starts; [None] where the code returns 0. *)
Definition next_reset_instant (period : string) (customSeconds : Z) (base : instant) : option instant :=
  let loc := i_loc base in
  let midnight := Date (Year base) (Month base) (Day base) loc in
  if String.eqb period "daily" then Some (AddDate midnight 0 0 1)
  else if String.eqb period "weekly" then
    let weekday := if Weekday base =? 0 then 7 else Weekday base in
    Some (AddDate midnight 0 0 (8 - weekday))
  else if String.eqb period "monthly" then Some (AddDate (Date (Year base) (Month base) 1 loc) 0 1 0)
  else if String.eqb period "yearly" then
    if 9998 <=? Year base then None else Some (Date (Year base + 1) 1 1 loc)
  else if String.eqb period "custom" then
    if (customSeconds <=? 0) || (MaxSubscriptionQuotaWindowSeconds <? customSeconds) then None
    else if i64_sub max_i64 customSeconds <? i_unix base then None
    else Some (time_Unix (i64_add (i_unix base) customSeconds) loc)
  else None.

Definition calcNextResetTime (base : instant) (plan : option SubscriptionPlan) (endUnix : Z) : Z :=
  match plan with
  | None => 0
  | Some plan =>
      let period := NormalizeResetPeriod (p_QuotaResetPeriod plan) in
      if String.eqb period "never" then 0
      else match next_reset_instant period (p_QuotaResetCustomSeconds plan) base with
      | None => 0
      | Some next =>
          if i_unix next <=? i_unix base then 0
          else if (0 <? endUnix) && (endUnix <? i_unix next) then 0
          else i_unix next
      end
  end.

(** [&SubscriptionPlan{QuotaResetPeriod: ..., QuotaResetCustomSeconds: ...}] *)
Definition reset_plan (period : string) (secs : Z) : SubscriptionPlan :=
  mkPlan 0 0 "" false 0 "" 0 0 "" 0 period secs "" 0 0 0 [] false 0 0 0 0.

Definition calcNextResetTimeForPolicy (base : instant) (po : subscriptionQuotaPolicy) (endUnix : Z) : Z :=
  if String.eqb (po_resetPeriod po) "never" then 0
  else calcNextResetTime base (Some (reset_plan (po_resetPeriod po) (po_resetCustomSeconds po))) endUnix.

(** ** The plan behind a subscription *)

Definition getSubscriptionPlanByIdTx (plans : gmap Z SubscriptionPlan) (id : Z) : result SubscriptionPlan :=
  if id <=? 0 then fail_with "invalid plan id"
  else match plans !! id with
  | None => Err ErrRecordNotFound
  | Some plan => Ok (NormalizeQuotaWindows plan)
  end.

Definition subscriptionPlanSnapshotFallback (sub : UserSubscription) : SubscriptionPlan :=
  let mode := if String.eqb (TrimSpace (s_QuotaWindowMode sub)) "" then s_QuotaWindowModeSnapshot sub
              else s_QuotaWindowMode sub in
  let title0 := TrimSpace (s_PlanTitleSnapshot sub) in
  let title := if String.eqb title0 "" then ("已删除套餐 #" ++ pretty (s_PlanId sub))%string else title0 in
  mkPlan (s_PlanId sub) (s_ProviderId sub) title true 0 "" 0 0 (s_ModelLimitsSnapshot sub)
    (s_AmountTotal sub) (s_QuotaResetPeriodSnapshot sub) (s_QuotaResetCustomSecondsSnapshot sub) mode
    (s_FiveHourAmount sub) (s_FiveHourWindowSeconds sub) (s_WeeklyAmount sub)
    (NormalizeQuotaWindowList (s_QuotaWindowsSnapshot sub)) false 0 0 0 0.

(** [Ok None] is the code's [(nil, nil)]. *)
Definition getSubscriptionPlanOrSnapshotTx (plans : gmap Z SubscriptionPlan) (sub : UserSubscription)
  : result (option SubscriptionPlan) :=
  if s_PlanId sub <=? 0 then
    if 0 <? s_PlanPolicySnapshotVersion sub then fail_with "invalid subscription plan snapshot" else Ok None
  else match getSubscriptionPlanByIdTx plans (s_PlanId sub) with
  | Ok plan =>
      if 0 <? s_PlanPolicySnapshotVersion sub then
        let title := if String.eqb (TrimSpace (s_PlanTitleSnapshot sub)) "" then p_Title plan
                     else s_PlanTitleSnapshot sub in
        Ok (Some (set_fence (s_ProviderId sub) (s_ModelLimitsSnapshot sub) title plan))
      else Ok (Some plan)
  | Err ErrRecordNotFound =>
      if s_PlanPolicySnapshotVersion sub <=? 0 then Err ErrRecordNotFound
      else Ok (Some (subscriptionPlanSnapshotFallback sub))
  | Err e => Err e
  end.

(** ** Issuance *)

(** The policy, reset and snapshot fields of a new subscription (the locks,
    provider checks and stock transitions around them are not part of it). *)
Definition issued_subscription `{LocalZone} (id userId providerId nowUnix : Z) (plan : SubscriptionPlan)
  : result UserSubscription :=
  let now := time_Unix nowUnix local_zone in
  endUnix ← calcPlanEndTime now plan;
  let policy := quotaPolicyFromPlan (Some plan) in
  if po_invalid policy then fail_with "invalid subscription quota policy"
  else
    let nextReset := if policyTracksAggregate policy then calcNextResetTimeForPolicy now policy endUnix else 0 in
    let lastReset := if 0 <? nextReset then nowUnix else 0 in
    Ok (mkSub id userId (p_Id plan) providerId (p_TotalAmount plan) 0 nowUnix endUnix "active"
          lastReset nextReset (po_mode policy) (po_mode policy)
          (po_fiveHourAmount policy) (po_fiveHourWindowSeconds policy) (po_weeklyAmount policy)
          (po_resetPeriod policy) (po_resetCustomSeconds policy)
          (NormalizeQuotaWindowList (p_QuotaWindows plan)) 1 (p_ModelLimits plan) (p_Title plan)).

(** ** Lazy reset of the aggregate counter *)

Definition invalidSubscriptionQuotaPolicyError : error := ErrMsg "invalid subscription quota policy".

Definition set_usage (used last next : Z) (s : UserSubscription) : UserSubscription :=
  mkSub (s_Id s) (s_UserId s) (s_PlanId s) (s_ProviderId s) (s_AmountTotal s) used
    (s_StartTime s) (s_EndTime s) (s_Status s) last next
    (s_QuotaWindowMode s) (s_QuotaWindowModeSnapshot s) (s_FiveHourAmount s)
    (s_FiveHourWindowSeconds s) (s_WeeklyAmount s) (s_QuotaResetPeriodSnapshot s)
    (s_QuotaResetCustomSecondsSnapshot s) (s_QuotaWindowsSnapshot s)
    (s_PlanPolicySnapshotVersion s) (s_ModelLimitsSnapshot s) (s_PlanTitleSnapshot s).
Definition set_amount_used (used : Z) (s : UserSubscription) : UserSubscription :=
  set_usage used (s_LastResetTime s) (s_NextResetTime s) s.

Section Reset.
Context `{LocalZone}.

(** The [for next > 0 && next <= now] loop; its state is [(base, next, advanced)]. *)
Definition reset_step (po : subscriptionQuotaPolicy) (endUnix now : Z) (st : Z * Z * bool)
  : option (Z * Z * bool) :=
  let '(base, next, advanced) := st in
  if (0 <? next) && (next <=? now)
  then Some (next, calcNextResetTimeForPolicy (time_Unix next local_zone) po endUnix, true)
  else None.

(** Every branch that changes the row saves it, so the result is the row to store. *)
Definition maybeResetUserSubscriptionWithPlanTx (sub : UserSubscription) (plan : SubscriptionPlan) (now : Z)
  : result UserSubscription :=
  let policy := quotaPolicyForSubscription sub (Some plan) in
  if po_invalid policy then Err invalidSubscriptionQuotaPolicyError
  else if String.eqb (po_resetPeriod policy) "never" then Ok sub
  else if negb (policyTracksAggregate policy) then
    if negb (s_NextResetTime sub =? 0) || negb (s_LastResetTime sub =? 0)
    then Ok (set_usage (s_AmountUsed sub) 0 0 sub) else Ok sub
  else if (0 <? s_NextResetTime sub) && (now <? s_NextResetTime sub) then Ok sub
  else
    let baseUnix := if s_LastResetTime sub <=? 0 then s_StartTime sub else s_LastResetTime sub in
    let next := calcNextResetTimeForPolicy (time_Unix baseUnix local_zone) policy (s_EndTime sub) in
    match run_loop (reset_step policy (s_EndTime sub) now) loop_fuel (baseUnix, next, false) with
    | inl _ => fail_with "loop fuel exhausted"
    | inr (base, next, false) =>
        if (s_NextResetTime sub =? 0) && (0 <? next)
        then Ok (set_usage (s_AmountUsed sub) base next sub) else Ok sub
    | inr (base, next, true) => Ok (set_usage 0 base next sub)
    end.
End Reset.

(** ** Issued subscriptions are enforced as their plan *)

Lemma scalars_valid_mode po : subscriptionQuotaPolicyScalarsValid po = true -> po_mode po ∈ final_modes.
Proof.
  intros Hv. unfold subscriptionQuotaPolicyScalarsValid in Hv. destruct (po_invalid po); [done|].
  cbn zeta in Hv.
  destruct (String.eqb_spec (po_mode po) "legacy") as [->|_]; [by apply str_in_spec|].
  destruct (String.eqb_spec (po_mode po) "five_hour") as [->|_]; [by apply str_in_spec|].
  destruct (String.eqb_spec (po_mode po) "weekly") as [->|_]; [by apply str_in_spec|].
  destruct (String.eqb_spec (po_mode po) "dual") as [->|_]; [by apply str_in_spec|].
  destruct (String.eqb_spec (po_mode po) "generic") as [->|_]; [by apply str_in_spec|done].
Qed.

Lemma NormalizeResetPeriod_idemp r :
  NormalizeResetPeriod (NormalizeResetPeriod r) = NormalizeResetPeriod r /\
  NormalizeResetPeriod r <> "" /\ subscriptionResetPeriodIsKnown (NormalizeResetPeriod r) = true.
Proof. unfold NormalizeResetPeriod at 2 3 4 5. repeat case_match; by vm_compute. Qed.

(** A weekly limit that passed validation is positive. *)
Lemma scalars_valid_weekly po :
  subscriptionQuotaPolicyScalarsValid po = true -> policyHasWeekly po = true -> 0 < po_weeklyAmount po.
Proof.
  unfold subscriptionQuotaPolicyScalarsValid, policyHasWeekly. destruct (po_invalid po); [done|]. cbn zeta.
  intros Hv Hw. destruct (String.eqb_spec (po_mode po) "weekly") as [E|_].
  { rewrite E in Hv. cbn in Hv. destruct (Z.ltb_spec 0 (po_weeklyAmount po)); done. }
  destruct (String.eqb_spec (po_mode po) "dual") as [E|_]; [|done].
  rewrite E in Hv. cbn in Hv. destruct (_ && (0 <? po_weeklyAmount po)) eqn:Ew; [|done]. split_bool. lia.
Qed.

(** The shape of a usable plan policy: generic windows, or validated scalars. *)
Lemma plan_policy_cases plan :
  NormalizeQuotaWindows plan = plan -> po_invalid (quotaPolicyFromPlan (Some plan)) = false ->
  let po := quotaPolicyFromPlan (Some plan) in
  0 <= p_TotalAmount plan /\ 0 <= po_fiveHourAmount po /\ 0 <= po_fiveHourWindowSeconds po /\
  0 <= po_weeklyAmount po /\ 0 <= po_resetCustomSeconds po /\
  (exists r, po_resetPeriod po = NormalizeResetPeriod r) /\
  po_windows po = normalizedQuotaWindowPolicies (p_QuotaWindows plan) /\
  quotaWindowListHasInvalidEntry (p_QuotaWindows plan) = false /\
  ((po_windows po <> [] /\ po_mode po = "generic") \/
   (po_windows po = [] /\ po_mode po <> "generic" /\ subscriptionQuotaPolicyScalarsValid po = true /\
    (0 < po_fiveHourAmount po -> 0 < po_fiveHourWindowSeconds po))).
Proof.
  intros Hfix Hv. unfold quotaPolicyFromPlan in *. cbn zeta in *. rewrite Hfix in *.
  destruct (_ || _) eqn:Eneg in Hv; [done|]. rewrite Eneg. split_bool.
  destruct (negb _) eqn:Ek in Hv; [done|]. rewrite Ek.
  destruct (negb (subscriptionResetPeriodIsKnown _)) eqn:Er; [done|].
  destruct (p_quotaWindowsInvalid plan || _) eqn:Ei; [done|]. split_bool.
  destruct (normalizedQuotaWindowPolicies (p_QuotaWindows plan)) as [|w ws] eqn:Ew; cbn [po_mode po_fiveHourAmount
    po_fiveHourWindowSeconds po_weeklyAmount po_resetPeriod po_resetCustomSeconds] in *.
  - destruct (_ || _) eqn:Eg in Hv; [done|]. rewrite Eg. split_bool.
    set (po := mkPolicy _ _ _ _ _ _ _ _) in *.
    destruct (subscriptionQuotaPolicyScalarsValid po) eqn:Es; [|done].
    split_and!; [lia | cbn; lia | | | cbn; lia | cbn; eauto | by subst po | done | ].
    + subst po. cbn. unfold DefaultFiveHourWindowSeconds. goal_if; split_bool; lia.
    + subst po. cbn. goal_if; lia.
    + right. split_and!; [by subst po | done | done |]. subst po. cbn. unfold DefaultFiveHourWindowSeconds.
      intros. goal_if; lia.
  - cbn in *. split_and!; try lia; eauto.
Qed.

Lemma window_policies_normalized l :
  normalizedQuotaWindowPolicies (NormalizeQuotaWindowList l) = normalizedQuotaWindowPolicies l.
Proof. by rewrite !normalized_policies_eq, NormalizeQuotaWindowList_idemp. Qed.

Lemma generic_same_policy po other :
  po_invalid po = false -> po_mode po = "generic" -> po_windows po <> [] ->
  same_enforcement (with_windows "generic" (po_windows po) false other) po.
Proof.
  intros Hi Hm Hw. destruct po as [m a b c d e ws inv]; cbn in *; subst. split; [done|]. intros _.
  by destruct ws; [|split_and!].
Qed.

Section Issued.
Context `{LocalZone}.

Lemma issued_inv id uid prov now plan sub :
  issued_subscription id uid prov now plan = Ok sub ->
  let po := quotaPolicyFromPlan (Some plan) in
  po_invalid po = false /\
  exists endU last next,
    sub = mkSub id uid (p_Id plan) prov (p_TotalAmount plan) 0 now endU "active" last next
      (po_mode po) (po_mode po) (po_fiveHourAmount po) (po_fiveHourWindowSeconds po) (po_weeklyAmount po)
      (po_resetPeriod po) (po_resetCustomSeconds po)
      (NormalizeQuotaWindowList (p_QuotaWindows plan)) 1 (p_ModelLimits plan) (p_Title plan).
Proof.
  unfold issued_subscription. intros Hi. inv_ok. case_match eqn:E; [done|]. inv_ok. split; [done|].
  eexists _, _, _. by rewrite <- Hi.
Qed.

Lemma snapshot_scalars_roundtrip sub plan po :
  po_windows po = [] -> po_invalid po = false -> po_mode po <> "generic" ->
  subscriptionQuotaPolicyScalarsValid po = true ->
  (0 < po_fiveHourAmount po -> 0 < po_fiveHourWindowSeconds po) ->
  (exists r, po_resetPeriod po = NormalizeResetPeriod r) ->
  s_QuotaWindowMode sub = po_mode po -> s_PlanPolicySnapshotVersion sub = 1 ->
  s_FiveHourAmount sub = po_fiveHourAmount po -> s_FiveHourWindowSeconds sub = po_fiveHourWindowSeconds po ->
  s_WeeklyAmount sub = po_weeklyAmount po -> s_QuotaResetPeriodSnapshot sub = po_resetPeriod po ->
  s_QuotaResetCustomSecondsSnapshot sub = po_resetCustomSeconds po ->
  scalar_snapshot_policy sub plan = po.
Proof.
  intros Hw Hi Hg Hv Hf [r Hr] Hm Hver H5 H5s Hwk Hrp Hrs. destruct (NormalizeResetPeriod_idemp r) as (Hidem & Hne & Hkn).
  pose proof (scalars_valid_mode po Hv) as Hmode. destruct (final_mode_facts _ Hmode) as (_ & Hnm & _).
  pose proof (scalars_valid_weekly po Hv) as Hweek. unfold policyHasWeekly in Hweek.
  assert (Hsm : snapshot_mode sub = po_mode po /\ subscriptionQuotaWindowModeIsKnown (po_mode po) = true /\ po_mode po <> "").
  { unfold snapshot_mode. rewrite Hm. unfold final_modes in Hmode. set_unfold in Hmode.
    destruct_or? Hmode; rewrite Hmode; by vm_compute. }
  destruct Hsm as (Hsm & Hk & Hne').
  unfold scalar_snapshot_policy. rewrite Hsm, Hk, Hver, Hrp, Hr, Hkn. cbn [negb orb andb Z.ltb Z.leb Z.compare].
  rewrite (proj2 (String.eqb_neq _ "") Hne'). unfold policy_from_snapshot.
  rewrite Hnm, (proj2 (String.eqb_neq _ "generic") Hg), Hrp, Hr, (proj2 (String.eqb_neq _ "") Hne).
  rewrite H5, H5s, Hwk, Hrs, Hidem. cbn [negb].
  replace ((0 <? po_fiveHourAmount po) && (po_fiveHourWindowSeconds po <=? 0)) with false by lia.
  replace ((String.eqb (po_mode po) "weekly" || String.eqb (po_mode po) "dual") && (po_weeklyAmount po <=? 0)) with false
    by (destruct (String.eqb (po_mode po) "weekly" || String.eqb (po_mode po) "dual"); [specialize (Hweek eq_refl)|]; cbn [andb]; lia).
  rewrite <- Hr, <- Hw, <- Hi. destruct po; cbn in *. subst. by rewrite Hv.
Qed.

(** Whatever policy a normalised plan had when a subscription was
    issued from it, the subscription is enforced under exactly that policy,
    with any later version of the plan or with none: the snapshot written at
    issuance is a faithful encoding of the policy. *)
Theorem issued_subscription_enforces_plan id uid prov now plan sub later :
  NormalizeQuotaWindows plan = plan ->
  issued_subscription id uid prov now plan = Ok sub ->
  same_enforcement (quotaPolicyForSubscription sub later) (quotaPolicyFromPlan (Some plan)).
Proof.
  intros Hfix Hi. destruct (issued_inv _ _ _ _ _ _ Hi) as (Hinv & endU & last & next & Hsub).
  pose proof (plan_policy_cases plan Hfix Hinv) as (Ht & H5 & H5s & Hw & Hrs & Hr & Hws & Hval & Hc).
  set (po := quotaPolicyFromPlan (Some plan)) in *. clearbody po.
  assert (Hcan : Forall canonical (NormalizeQuotaWindowList (p_QuotaWindows plan))).
  { unfold NormalizeQuotaWindowList. by destruct (normalize_list_spec (p_QuotaWindows plan) []). }
  rewrite quotaPolicyForSubscription_cases. cbn zeta.
  assert (sub_scalars_negative sub = false) as -> by (rewrite Hsub; unfold sub_scalars_negative; cbn; lia).
  replace (s_QuotaWindowsSnapshot sub) with (NormalizeQuotaWindowList (p_QuotaWindows plan)) by (by rewrite Hsub).
  rewrite canonical_list_valid by done. rewrite window_policies_normalized, <- Hws.
  destruct Hc as [[Hne Hm]|(Hnil & Hm & Hv & Hf)].
  - rewrite bool_decide_false.
    + by apply generic_same_policy.
    + intros E. apply Hne. by rewrite Hws, normalized_policies_eq, E.
  - rewrite bool_decide_true by (revert Hnil; rewrite Hws, normalized_policies_eq; by destruct (NormalizeQuotaWindowList _)).
    rewrite (snapshot_scalars_roundtrip sub _ po) by (try done; by rewrite Hsub). apply same_enforcement_refl.
Qed.
End Issued.

Definition normalized_daily_plan : SubscriptionPlan := Eval vm_compute in NormalizeQuotaWindows daily_plan.

Definition daily_sub : UserSubscription := Eval vm_compute in
  match @issued_subscription 28800 1 7 0 1700000000 normalized_daily_plan with
  | Ok s => s | Err _ => versioned_sub end.

Lemma issued_subscription_enforces_plan_witness :
  @issued_subscription 28800 1 7 0 1700000000 normalized_daily_plan = Ok daily_sub /\
  same_enforcement (quotaPolicyForSubscription daily_sub None) (quotaPolicyFromPlan (Some normalized_daily_plan)).
Proof.
  assert (Hi : @issued_subscription 28800 1 7 0 1700000000 normalized_daily_plan = Ok daily_sub)
    by (vm_compute; reflexivity).
  split; [exact Hi|].
  apply (@issued_subscription_enforces_plan 28800 1 7 0 1700000000 normalized_daily_plan daily_sub None);
    [vm_compute; reflexivity | exact Hi].
Defined.

(** ** The next reset is the end of the period *)

Lemma calc_next_range base po endU :
  let n := calcNextResetTimeForPolicy base po endU in
  n = 0 \/ (i_unix base < n /\ (0 < endU -> n <= endU)).
Proof.
  unfold calcNextResetTimeForPolicy, calcNextResetTime. cbn zeta.
  destruct (String.eqb (po_resetPeriod po) "never"); [by left|].
  destruct (String.eqb _ "never"); [by left|].
  destruct (next_reset_instant _ _ base) as [n|]; [|by left].
  destruct (i_unix n <=? i_unix base) eqn:E1; [by left|].
  destruct ((0 <? endU) && (endU <? i_unix n)) eqn:E2; [by left|]. right. lia.
Qed.

(** [next_reset_instant] on a calendar period is the end of [period_days]. *)
Lemma next_instant_calendar period secs t loc :
  period ∈ calendar_periods -> zone_ok loc -> 0 < t <= 2 ^ 37 ->
  next_reset_instant period secs (time_Unix t loc) =
  Some (mkInstant (midnight_of (snd (period_days period (local_day (time_Unix t loc)))) - loc) loc).
Proof.
  intros Hp Hz Ht. set (d := local_day (time_Unix t loc)).
  assert (Hd : 0 <= d <= 2400000) by (unfold d, local_day, zone_ok, secs_per_day, epoch_day in *; cbn; divmod).
  assert (Hr : forall x, d - 400 <= x <= d + 400 -> is_i64 (midnight_of x - loc))
    by (unfold midnight_of, zone_ok, secs_per_day, epoch_day, is_i64, min_i64, max_i64 in *; lia).
  pose proof (period_days_partition period d d) as Hpd.
  pose proof (Date_of_day t loc ltac:(apply Hr; lia)) as Hmid.
  pose proof (date_fields (time_Unix t loc)) as Hf. fold d in Hf.
  unfold calendar_periods in Hp. unfold next_reset_instant. set_unfold in Hp.
  destruct_or? Hp; subst period; cbn [String.eqb Ascii.eqb Bool.eqb i_loc time_Unix] in *;
    unfold period_days in *; cbn in Hpd |- *.
  - cbn in Hmid. rewrite Hmid. fold d. by rewrite AddDate_days by (apply Hr; lia).
  - assert (Hw : 8 - (if Weekday (time_Unix t loc) =? 0 then 7 else Weekday (time_Unix t loc)) = 7 - d mod 7).
    { unfold Weekday. fold d. case_match; divmod. }
    rewrite Hw. cbn in Hmid. rewrite Hmid. fold d. rewrite AddDate_days by (apply Hr; lia). do 4 f_equal. lia.
  - rewrite Date_of_month; rewrite Hf; [|apply Hr; lia].
    rewrite AddDate_months; replace (month_of_day d + 12 * 0 + 1) with (month_of_day d + 1) by lia; [done|apply Hr; lia].
  - assert (Hy : Year (time_Unix t loc) = month_of_day d / 12) by apply year_of_day_month.
    assert (Year (time_Unix t loc) < 9998).
    { unfold Year. fold d. pose proof (year_of_day_spec d). unfold days_before_year in *. divmod. }
    rewrite (proj2 (Z.leb_gt 9998 _)) by lia. rewrite Hy.
    rewrite Date_of_month; replace (12 * (month_of_day d / 12 + 1) + 1 - 1) with (12 * (month_of_day d / 12 + 1)) by lia;
      [done|apply Hr; lia].
Qed.

(** The time at which the current aggregate period started, from the row. *)
Definition reset_base (sub : UserSubscription) : Z :=
  if s_LastResetTime sub <=? 0 then s_StartTime sub else s_LastResetTime sub.

Section ResetPeriods.
Context `{LocalZone} (sub : UserSubscription) (po : subscriptionQuotaPolicy).
Notation raw := (raw_period local_zone sub po).

(** Hypotheses shared by the reset theorems: a real time zone, a
    subscription that starts after the epoch and ends before the year 6325,
    and a policy as [quotaPolicyForSubscription] builds it. *)
Record reset_setting : Prop := {
  rs_zone : zone_ok local_zone;
  rs_start : 0 < s_StartTime sub;
  rs_end : s_EndTime sub <= 2 ^ 37;
  rs_norm : NormalizeResetPeriod (po_resetPeriod po) = po_resetPeriod po;
  rs_never : po_resetPeriod po <> "never";
  rs_custom : po_resetPeriod po = "custom" -> 0 < po_resetCustomSeconds po <= MaxSubscriptionQuotaWindowSeconds
}.

(** [t] starts an aggregate period of the subscription. *)
Definition period_start (t : Z) : Prop := t = Z.max (fst (raw t)) (s_StartTime sub).

Context (Hs : reset_setting).
Local Notation inside t := (s_StartTime sub <= t < s_EndTime sub).

Lemma raw_in t : inside t -> fst (raw t) <= t < snd (raw t).
Proof.
  intros Ht. pose proof (raw_period_partition local_zone sub po) as Hp. destruct Hs as [? ? ? Hn ? ?].
  specialize (Hp ltac:(by rewrite Hn) t t Ht). by destruct (raw t); destruct Hp.
Qed.

Lemma raw_same t t' : inside t -> fst (raw t) <= t' < snd (raw t) -> raw t' = raw t.
Proof.
  intros Ht Ht'. pose proof (raw_period_partition local_zone sub po) as Hp. destruct Hs as [? ? ? Hn ? ?].
  specialize (Hp ltac:(by rewrite Hn) t t' Ht). destruct (raw t); destruct Hp; auto.
Qed.

Lemma calc_next_spec t :
  inside t -> period_start t ->
  calcNextResetTimeForPolicy (time_Unix t local_zone) po (s_EndTime sub) =
  if snd (raw t) <=? s_EndTime sub then snd (raw t) else 0.
Proof.
  intros Ht Hps. pose proof (raw_in t Ht) as Hin. destruct Hs as [Hz Hst He Hn Hnv Hc].
  unfold calcNextResetTimeForPolicy, calcNextResetTime. cbn [reset_plan p_QuotaResetPeriod p_QuotaResetCustomSeconds].
  rewrite Hn. rewrite !(proj2 (String.eqb_neq _ "never") Hnv).
  assert (Hfin : forall n, n = snd (raw t) ->
    (if n <=? t then 0 else if (0 <? s_EndTime sub) && (s_EndTime sub <? n) then 0 else n) =
    if snd (raw t) <=? s_EndTime sub then snd (raw t) else 0).
  { intros n ->. repeat case_match; split_bool; lia. }
  destruct (decide (po_resetPeriod po = "custom")) as [Ecu|Ecu].
  - specialize (Hc Ecu). unfold next_reset_instant. rewrite Ecu. cbn.
    rewrite (proj2 (Z.leb_gt _ 0)), (proj2 (Z.ltb_ge _ (po_resetCustomSeconds po))) by lia. cbn [orb].
    assert (Er : raw t = (t, t + po_resetCustomSeconds po)).
    { unfold period_start in Hps. revert Hps. unfold raw_period. rewrite Hn, Ecu. cbn.
      set (b := s_StartTime sub). intros Hps. rewrite Z.max_l in Hps; [by rewrite <- Hps|].
      assert (0 <= (t - b) / po_resetCustomSeconds po) by (apply Z.div_pos; lia). nia. }
    unfold i64_sub, i64_add. rewrite !wrap64_id by range. rewrite (proj2 (Z.ltb_ge _ t)) by range.
    cbn. apply Hfin. by rewrite Er.
  - assert (Hp : po_resetPeriod po ∈ calendar_periods).
    { revert Hnv Ecu. rewrite <- Hn. unfold NormalizeResetPeriod. repeat case_match; intros; try done; by apply str_in_spec. }
    rewrite next_instant_calendar by (done || lia). cbn. apply Hfin.
    unfold raw_period. rewrite Hn, (proj2 (String.eqb_neq _ "never") Hnv), (proj2 (String.eqb_neq _ "custom") Ecu).
    by destruct (period_days _ _).
Qed.

(** The end of one period starts the next. *)
Lemma next_period_start t :
  inside t -> inside (snd (raw t)) -> period_start (snd (raw t)).
Proof.
  intros Ht He. pose proof (raw_in t Ht). pose proof (raw_in _ He) as Hin.
  set (e := snd (raw t)) in *. unfold period_start.
  destruct (decide (fst (raw e) = e)) as [->|Hlt]; [lia|].
  pose proof (raw_same e (e - 1) He ltac:(lia)) as H1. pose proof (raw_same t (e - 1) Ht ltac:(fold e; lia)) as H2.
  rewrite H1 in H2. assert (snd (raw e) = e) by (by rewrite H2). lia.
Qed.
End ResetPeriods.

(** ** The reset loop *)

Section ResetLoop.
Context `{LocalZone}.

(** Every pass moves [base] forward and never beyond [now]. *)
Lemma reset_loop_exits po endU now base :
  is_i64 base -> is_i64 now ->
  let s0 := (base, calcNextResetTimeForPolicy (time_Unix base local_zone) po endU, false) in
  exists r, run_loop (reset_step po endU now) loop_fuel s0 = inr r /\ exits (reset_step po endU now) s0 r.
Proof.
  intros Hb Hn s0.
  set (I := fun st : Z * Z * bool => let '(b, n, _) := st in
              is_i64 b /\ n = calcNextResetTimeForPolicy (time_Unix b local_zone) po endU).
  set (mu := fun st : Z * Z * bool => let '(b, _, _) := st in now - b).
  destruct (run_loop_terminates (reset_step po endU now) I mu loop_fuel s0) as [r Hr].
  - intros [[b n] adv] st [Hi ->] Hst. unfold reset_step in Hst. case_match; [|done]. simplify_eq.
    pose proof (calc_next_range (time_Unix b local_zone) po endU) as Hc. cbn in Hc.
    split_bool. unfold I, mu. split; [split; [range|done]|]. lia.
  - done.
  - unfold mu, s0, loop_fuel. range.
  - exists r. split; [done|]. pose proof (run_loop_sound (reset_step po endU now) loop_fuel s0) as Hsound.
    by rewrite Hr in Hsound.
Qed.

Context (sub : UserSubscription) (po : subscriptionQuotaPolicy) (now : Z).
Notation raw := (raw_period local_zone sub po).
Context (Hs : reset_setting sub po) (Hnow : s_StartTime sub <= now < s_EndTime sub).

(** From a period start not after [now], the loop stops at the start of the
    period of [now], and it advances exactly when that is another period. *)
Lemma reset_loop_spec b0 base next adv :
  s_StartTime sub <= b0 <= now -> period_start sub po b0 ->
  exits (reset_step po (s_EndTime sub) now)
    (b0, calcNextResetTimeForPolicy (time_Unix b0 local_zone) po (s_EndTime sub), false) (base, next, adv) ->
  s_StartTime sub <= base <= now /\ period_start sub po base /\ raw base = raw now /\
  next = calcNextResetTimeForPolicy (time_Unix base local_zone) po (s_EndTime sub) /\
  (next = 0 \/ now < next) /\
  (adv = false /\ base = b0 \/ adv = true /\ raw b0 <> raw now).
Proof.
  intros Hb0 Hps0 Hex.
  set (I := fun st : Z * Z * bool => let '(b, n, a) := st in
    s_StartTime sub <= b <= now /\ period_start sub po b /\
    n = calcNextResetTimeForPolicy (time_Unix b local_zone) po (s_EndTime sub) /\
    (a = false /\ b = b0 \/ a = true /\ snd (raw b0) <= b)).
  assert (HI : I (base, next, adv) /\ reset_step po (s_EndTime sub) now (base, next, adv) = None).
  { eapply exits_invariant; [| |exact Hex].
    2:{ split_and!; try done; [lia|lia|]. by left. }
    intros [[b n] a] st (Hb & Hps & -> & Ha) Hst. unfold reset_step in Hst. case_match; [|done]. simplify_eq.
    rewrite (calc_next_spec sub po Hs b) in * by (done || lia). destruct (Z.leb_spec (snd (raw b)) (s_EndTime sub)); [|done].
    pose proof (raw_in sub po Hs b ltac:(lia)). split_bool. split_and!; [lia|lia| |done|].
    - apply next_period_start; (done || lia).
    - right. split; [done|]. destruct Ha as [[_ ->]|[_ Ha]]; lia. }
  pose proof (rs_start sub po Hs) as Hpos. destruct HI as ((Hb & Hps & -> & Ha) & Hstop). unfold reset_step in Hstop. case_match eqn:Ecnd; [done|].
  pose proof (raw_in sub po Hs base ltac:(lia)) as Hin.
  rewrite (calc_next_spec sub po Hs base) in * by (done || lia).
  assert (Hraw : raw base = raw now).
  { symmetry. apply (raw_same sub po Hs); [lia|]. destruct (snd (raw base) <=? s_EndTime sub) eqn:El; lia. }
  split_and!; try done; try lia.
  - destruct (snd (raw base) <=? s_EndTime sub) eqn:El; lia.
  - destruct Ha as [?|[? Hadv]]; [by left|right]. split; [done|]. intros E.
    pose proof (raw_in sub po Hs now Hnow). rewrite E in Hadv.
    pose proof (raw_in sub po Hs base ltac:(lia)). destruct (decide (base <= now)); [|lia].
    rewrite <- Hraw in Hadv. lia.
Qed.
End ResetLoop.

(** ** The lazy reset enters the current period *)

(** What the persisted reset times mean between two operations. *)
Definition reset_row_ok `{LocalZone} (sub : UserSubscription) (po : subscriptionQuotaPolicy) (now : Z) : Prop :=
  s_StartTime sub <= reset_base sub <= now /\ period_start sub po (reset_base sub) /\
  (s_NextResetTime sub = 0 \/
   s_NextResetTime sub = calcNextResetTimeForPolicy (time_Unix (reset_base sub) local_zone) po (s_EndTime sub)).

(** The row is up to date at [now]. *)
Definition in_current_period `{LocalZone} (sub : UserSubscription) (po : subscriptionQuotaPolicy) (now : Z) : Prop :=
  raw_period local_zone sub po (reset_base sub) = raw_period local_zone sub po now /\
  (s_NextResetTime sub = 0 \/ now < s_NextResetTime sub).

Lemma raw_period_set_usage `{LocalZone} u l n sub po t :
  raw_period local_zone (set_usage u l n sub) po t = raw_period local_zone sub po t.
Proof. done. Qed.

Lemma policy_set_usage sub plan u l n :
  0 <= s_AmountUsed sub -> 0 <= u ->
  quotaPolicyForSubscription (set_usage u l n sub) plan = quotaPolicyForSubscription sub plan.
Proof.
  intros H0 Hu. rewrite !quotaPolicyForSubscription_cases. cbn zeta.
  assert (sub_scalars_negative (set_usage u l n sub) = sub_scalars_negative sub) as ->; [|reflexivity].
  unfold sub_scalars_negative. cbn. lia.
Qed.

Lemma policy_valid_used sub plan : po_invalid (quotaPolicyForSubscription sub plan) = false -> 0 <= s_AmountUsed sub.
Proof.
  rewrite quotaPolicyForSubscription_cases. unfold sub_scalars_negative. cbn zeta.
  destruct (Z.ltb_spec (s_AmountUsed sub) 0); [|lia]. by rewrite orb_true_r.
Qed.

Section ResetTheorems.
Context `{LocalZone} (sub : UserSubscription) (plan : SubscriptionPlan) (now : Z).
Notation po := (quotaPolicyForSubscription sub (Some plan)).
Notation raw := (raw_period local_zone sub po).

(** A row with consistent reset times, at a time inside its subscription. *)
Record reset_ready : Prop := {
  rr_valid : po_invalid po = false;
  rr_tracks : policyTracksAggregate po = true;
  rr_setting : reset_setting sub po;
  rr_now : s_StartTime sub <= now < s_EndTime sub;
  rr_row : reset_row_ok sub po now
}.

Context (Hr : reset_ready).

Lemma reset_base_set b u n : 0 < b -> reset_base (set_usage u b n sub) = b.
Proof. intros Hb. unfold reset_base, set_usage. cbn. by rewrite (proj2 (Z.leb_gt b 0)). Qed.

(** The outcome of the reset, for a row [sub'] with the same policy. *)
Definition reset_outcome (p : subscriptionQuotaPolicy) (sub' : UserSubscription) : Prop :=
  reset_row_ok sub' p now /\ in_current_period sub' p now /\
  s_AmountUsed sub' = (if decide (raw_period local_zone sub p (reset_base sub) = raw_period local_zone sub p now)
                       then s_AmountUsed sub else 0) /\
  sub' = set_usage (s_AmountUsed sub') (s_LastResetTime sub') (s_NextResetTime sub') sub.

Lemma set_usage_same : set_usage (s_AmountUsed sub) (s_LastResetTime sub) (s_NextResetTime sub) sub = sub.
Proof. by destruct sub. Qed.

Lemma reset_keeps p l n :
  reset_row_ok sub p now -> reset_base sub = reset_base (set_usage (s_AmountUsed sub) l n sub) ->
  raw_period local_zone sub p (reset_base sub) = raw_period local_zone sub p now ->
  (n = 0 \/ n = calcNextResetTimeForPolicy (time_Unix (reset_base sub) local_zone) p (s_EndTime sub)) ->
  (n = 0 \/ now < n) -> reset_outcome p (set_usage (s_AmountUsed sub) l n sub).
Proof.
  intros (Hb & Hps & _) Hbl Hraw Hcalc Hnow. unfold reset_outcome, reset_row_ok, in_current_period.
  rewrite <- Hbl. rewrite decide_True by done.
  split_and!; first [exact Hps | exact Hcalc | exact Hnow | exact Hraw | reflexivity | cbn; lia].
Qed.

Lemma reset_spec :
  exists sub', maybeResetUserSubscriptionWithPlanTx sub plan now = Ok sub' /\ reset_outcome po sub'.
Proof.
  destruct Hr as [Hv Ht Hs Hn Hrow]. unfold maybeResetUserSubscriptionWithPlanTx. cbn zeta.
  remember po as p eqn:Ep. clear Ep Hr.
  pose proof (rs_start _ _ Hs) as Hpos. pose proof (rs_end _ _ Hs) as Hend. pose proof Hrow as (Hb & Hps & Hnx).
  rewrite Hv, (proj2 (String.eqb_neq _ "never") (rs_never _ _ Hs)), Ht. cbn [negb].
  fold (reset_base sub). pose proof (reset_keeps p (s_LastResetTime sub) (s_NextResetTime sub) Hrow) as Hsame.
  rewrite set_usage_same in Hsame. specialize (Hsame eq_refl).
  destruct ((0 <? s_NextResetTime sub) && (now <? s_NextResetTime sub)) eqn:Eearly.
  { exists sub. split; [done|]. apply Hsame; [|done|lia].
    symmetry. apply (raw_same sub p Hs); [lia|]. destruct Hnx as [Hnx|Hnx]; [lia|].
    rewrite (calc_next_spec sub p Hs) in Hnx by (done || lia).
    pose proof (raw_in sub p Hs (reset_base sub) ltac:(lia)).
    destruct (snd (raw_period local_zone sub p (reset_base sub)) <=? s_EndTime sub); lia. }
  destruct (reset_loop_exits p (s_EndTime sub) now (reset_base sub)) as ([[base next] adv] & -> & Hex); [range..|].
  destruct (reset_loop_spec sub p now Hs Hn (reset_base sub) base next adv Hb Hps Hex)
    as (Hb' & Hps' & Hraw & Hnext & Hafter & Hadv).
  destruct adv.
  - destruct Hadv as [[? _]|[_ Hne]]; [done|]. eexists. split; [done|].
    unfold reset_outcome, reset_row_ok, in_current_period. rewrite reset_base_set by lia.
    rewrite decide_False by done.
    split_and!; first [exact Hps' | exact Hraw | exact Hafter | right; exact Hnext | reflexivity | cbn; lia].
  - destruct Hadv as [[_ Hbb]|[? _]]; [|done]. subst base.
    destruct ((s_NextResetTime sub =? 0) && (0 <? next)) eqn:Ez.
    + eexists. split; [done|]. apply reset_keeps; [done | by rewrite reset_base_set by lia | done | by right | lia].
    + exists sub. split; [done|]. apply Hsame; [done | done |].
      destruct Hnx as [Hnx|Hnx]; [by left|]. rewrite Hnext in Hafter. rewrite Hnx. lia.
Qed.

Lemma reset_policy sub' :
  maybeResetUserSubscriptionWithPlanTx sub plan now = Ok sub' -> quotaPolicyForSubscription sub' (Some plan) = po.
Proof.
  intros Hok. destruct reset_spec as (s & Hs & (_ & _ & Hu & Heq)).
  assert (s = sub') as -> by congruence.
  pose proof (policy_valid_used _ _ (rr_valid Hr)). rewrite Heq. apply policy_set_usage; [done|].
  rewrite Hu. case_decide; lia.
Qed.

(** The lazy reset always terminates on a row with consistent reset
    times and brings it into the period of the current time: usage is kept
    when the period has not changed and cleared otherwise, the stored
    boundaries stay consistent, and no other column or policy changes. *)
Theorem reset_enters_current_period :
  exists sub', maybeResetUserSubscriptionWithPlanTx sub plan now = Ok sub' /\
    quotaPolicyForSubscription sub' (Some plan) = po /\
    reset_row_ok sub' po now /\ in_current_period sub' po now /\
    s_AmountUsed sub' = (if decide (raw (reset_base sub) = raw now) then s_AmountUsed sub else 0) /\
    sub' = set_usage (s_AmountUsed sub') (s_LastResetTime sub') (s_NextResetTime sub') sub.
Proof.
  destruct reset_spec as (s & Hok & Hout). exists s. split; [done|]. split; [by apply reset_policy | done].
Qed.
End ResetTheorems.

(** The stored boundaries decide membership in the current period. *)
Lemma current_period_test `{LocalZone} sub po now t :
  reset_setting sub po -> policyTracksAggregate po = true -> s_StartTime sub <= now < s_EndTime sub ->
  reset_row_ok sub po now -> in_current_period sub po now -> s_StartTime sub <= t <= now ->
  aggregateRecordInCurrentPeriod sub po t now = true <->
  raw_period local_zone sub po t = raw_period local_zone sub po now.
Proof.
  intros Hs Ht Hn (Hb & Hps & _) (Hraw & Hnx) Hti. pose proof (rs_start _ _ Hs) as Hpos.
  unfold aggregateRecordInCurrentPeriod. rewrite Ht. cbn [negb orb]. rewrite (proj2 (Z.leb_gt t 0)) by lia.
  rewrite (proj2 (String.eqb_neq _ "never") (rs_never _ _ Hs)).
  replace ((0 <? s_NextResetTime sub) && (s_NextResetTime sub <=? t) && (s_NextResetTime sub <=? now)) with false by lia.
  rewrite (proj2 (Z.leb_le t now)) by lia.
  pose proof (raw_in sub po Hs now Hn) as Hin. pose proof (raw_in sub po Hs t ltac:(lia)) as Hin'.
  unfold period_start in Hps. rewrite Hraw in Hps. unfold reset_base in Hps.
  destruct ((0 <? s_LastResetTime sub) && (t <? s_LastResetTime sub)) eqn:El.
  - rewrite (proj2 (Z.leb_gt (s_LastResetTime sub) 0)) in Hps by lia. split; [done|]. intros E. rewrite E in Hin'. lia.
  - split; [intros _|done]. apply (raw_same sub po Hs); [done|].
    destruct (Z.leb_spec (s_LastResetTime sub) 0); lia.
Qed.

Lemma raw_iff_bounds `{LocalZone} sub po t now :
  reset_setting sub po -> s_StartTime sub <= now < s_EndTime sub -> s_StartTime sub <= t <= now ->
  raw_period local_zone sub po t = raw_period local_zone sub po now <->
  aggregateQuotaPeriodBounds local_zone sub po t = aggregateQuotaPeriodBounds local_zone sub po now.
Proof.
  intros Hs Hn Ht. pose proof Hs as [Hz Hst He Hnm _ Hc].
  assert (Hh : s_EndTime sub <= horizon) by (unfold horizon; lia).
  assert (Hc' : NormalizeResetPeriod (po_resetPeriod po) = "custom" ->
    0 < po_resetCustomSeconds po <= MaxSubscriptionQuotaWindowSeconds) by (by rewrite Hnm).
  pose proof (aggregate_period_exists local_zone sub po Hz Hst Hh Hc' now Hn) as (s & e & Eb & Hlo & Hhi & Hall).
  assert (Hclip := period_bounds_clip local_zone sub po Hz Hst Hh Hc').
  pose proof (raw_in sub po Hs now Hn) as Hin. pose proof (raw_in sub po Hs t ltac:(lia)) as Hin'.
  split.
  - intros E. rewrite Eb. apply Hall. rewrite Hclip in Eb by done.
    destruct (raw_period local_zone sub po now) as [s0 e0]. rewrite E in Hin'. cbn in *.
    unfold clip_period in Eb. cases_in Eb.
  - intros E. rewrite Eb in E.
    pose proof (aggregate_period_exists local_zone sub po Hz Hst Hh Hc' t ltac:(lia)) as (s' & e' & Eb' & Hlo' & Hhi' & _).
    rewrite E in Eb'. simplify_eq.
    apply (raw_same sub po Hs); [done|]. split; [|lia].
    rewrite Hclip in Eb, E by lia.
    destruct (raw_period local_zone sub po now) as [s0 e0], (raw_period local_zone sub po t) as [s1 e1]; cbn in *.
    unfold clip_period in Eb. cases_in Eb.
Qed.

(** After the lazy reset, the cheap test on the stored reset times
    decides exactly whether a request belongs to the aggregate period of the
    current time, as computed from the calendar: late settlements and refunds
    touch the counter only when the request is part of it. *)
Theorem membership_test_agrees_with_calendar `{LocalZone} sub plan now t sub' :
  let po := quotaPolicyForSubscription sub (Some plan) in
  reset_ready sub plan now -> maybeResetUserSubscriptionWithPlanTx sub plan now = Ok sub' ->
  s_StartTime sub <= t <= now ->
  aggregateRecordInCurrentPeriod sub' po t now = true <->
  aggregateQuotaPeriodBounds local_zone sub' po t = aggregateQuotaPeriodBounds local_zone sub' po now.
Proof.
  intros po Hr Hok Ht. destruct (reset_spec sub plan now Hr) as (s & Hs & (Hrow & Hcur & _ & Heq)).
  assert (s = sub') as -> by congruence. fold po in Hrow, Hcur. destruct Hr as [Hv Htr Hset Hn _]. fold po in Htr, Hset.
  assert (Hset' : reset_setting sub' po) by (rewrite Heq; destruct Hset; by constructor).
  rewrite current_period_test; try done; [|by rewrite Heq | by rewrite Heq].
  apply raw_iff_bounds; [done | by rewrite Heq | by rewrite Heq].
Qed.

Definition dual_plan : SubscriptionPlan :=
  mkPlan 1 0 "Basic" true 1 "month" 1 0 "" 1000 "weekly" 0 "dual" 50 18000 500 [] false 0 0 0 0.

Lemma dual_ready : @reset_ready 28800 dual_sub dual_plan 1700000000.
Proof.
  constructor; [by vm_compute | by vm_compute | | cbn; lia |].
  - constructor; [unfold zone_ok, local_zone; lia | cbn; lia | cbn; lia | by vm_compute | by vm_compute | by vm_compute].
  - split; [cbn; lia|]. split; [vm_compute; reflexivity | by left].
Qed.

Lemma reset_enters_current_period_witness :
  let po := quotaPolicyForSubscription dual_sub (Some dual_plan) in
  exists sub', @maybeResetUserSubscriptionWithPlanTx 28800 dual_sub dual_plan 1700000000 = Ok sub' /\
    quotaPolicyForSubscription sub' (Some dual_plan) = po /\
    @reset_row_ok 28800 sub' po 1700000000 /\ @in_current_period 28800 sub' po 1700000000 /\
    s_AmountUsed sub' = (if decide (raw_period 28800 dual_sub po (reset_base dual_sub) = raw_period 28800 dual_sub po 1700000000)
                         then s_AmountUsed dual_sub else 0) /\
    sub' = set_usage (s_AmountUsed sub') (s_LastResetTime sub') (s_NextResetTime sub') dual_sub.
Proof. exact (@reset_enters_current_period 28800 dual_sub dual_plan 1700000000 dual_ready). Defined.

Definition dual_sub_reset : UserSubscription := Eval vm_compute in
  match @maybeResetUserSubscriptionWithPlanTx 28800 dual_sub dual_plan 1700000000 with Ok s => s | Err _ => dual_sub end.

Lemma membership_test_agrees_with_calendar_witness :
  let po := quotaPolicyForSubscription dual_sub (Some dual_plan) in
  aggregateRecordInCurrentPeriod dual_sub_reset po 1699990000 1700000000 = true <->
  aggregateQuotaPeriodBounds 28800 dual_sub_reset po 1699990000 = aggregateQuotaPeriodBounds 28800 dual_sub_reset po 1700000000.
Proof.
  apply (@membership_test_agrees_with_calendar 28800 dual_sub dual_plan 1700000000 1699990000 dual_sub_reset);
    [exact dual_ready | vm_compute; reflexivity | cbn; lia].
Defined.
