(* ===== verification/SubStock.v ===== *)
(** * The subscription shop: catalogue and stock

    [src/model/subscription_purchase_group.go] and the stock transitions of
    [src/model/subscription.go]: the plans on sale, the purchase scope a plan
    shares with its group, and the counters of issued and reserved copies.
    The tables of the shop are [shopDB]; an operation runs in a transaction
    holding the row locks, so it is a function from tables to tables. *)

From stdpp Require Import base numbers list strings sorting gmap sets.
From Stdlib Require Import ZArith Lia Ascii SpecFloat.
From S2P Require Import Prelude GoInt GoString QuotaWindow QuotaPolicy.

(** ** Floats

    Amounts of money are [float64]. *)

Definition float64 : Set := spec_float.
Definition float_zero : float64 := S754_zero false.
Definition is_finite (x : float64) : bool := match x with S754_nan | S754_infinity _ => false | _ => true end.
Definition float_abs_diff (x y : float64) : float64 := SFabs (SFsub 53 1024 x y).
(** 0.0050001 *)
Definition half_cent : float64 := S754_finite false 5764722815184696 (-60).

(** ** Data *)

(** A row of [subscription_plans]: [c_plan] holds the columns that say what is
    issued, the others how it is sold. *)
Record CatalogPlan := mkCat {
  c_plan : SubscriptionPlan;
  c_PriceAmount : float64;
  c_StripePriceId : string; c_StripePriceCnyId : string; c_CreemProductId : string; c_WaffoPancakeProductId : string;
  c_MaxPurchasePerUser : Z; c_PurchaseLimitGroup : string;
  c_TotalPurchaseLimit : Z; c_IssuedCount : Z; c_ReservedCount : Z;
  c_UpgradeGroup : string
}.
Definition c_Id (c : CatalogPlan) : Z := p_Id (c_plan c).
Definition c_ProviderId (c : CatalogPlan) : Z := p_ProviderId (c_plan c).

Definition set_counts (issued reserved : Z) (c : CatalogPlan) : CatalogPlan :=
  mkCat (c_plan c) (c_PriceAmount c) (c_StripePriceId c) (c_StripePriceCnyId c) (c_CreemProductId c)
    (c_WaffoPancakeProductId c) (c_MaxPurchasePerUser c) (c_PurchaseLimitGroup c) (c_TotalPurchaseLimit c)
    issued reserved (c_UpgradeGroup c).
Definition set_group (g : string) (c : CatalogPlan) : CatalogPlan :=
  mkCat (c_plan c) (c_PriceAmount c) (c_StripePriceId c) (c_StripePriceCnyId c) (c_CreemProductId c)
    (c_WaffoPancakeProductId c) (c_MaxPurchasePerUser c) g (c_TotalPurchaseLimit c)
    (c_IssuedCount c) (c_ReservedCount c) (c_UpgradeGroup c).
Definition set_plan_columns (p : SubscriptionPlan) (c : CatalogPlan) : CatalogPlan :=
  mkCat p (c_PriceAmount c) (c_StripePriceId c) (c_StripePriceCnyId c) (c_CreemProductId c)
    (c_WaffoPancakeProductId c) (c_MaxPurchasePerUser c) (c_PurchaseLimitGroup c) (c_TotalPurchaseLimit c)
    (c_IssuedCount c) (c_ReservedCount c) (c_UpgradeGroup c).

Definition set_plan_id (id : Z) (p : SubscriptionPlan) : SubscriptionPlan :=
  mkPlan id (p_ProviderId p) (p_Title p) (p_Enabled p) (p_AllowPurchase p) (p_DurationUnit p) (p_DurationValue p)
    (p_CustomSeconds p) (p_ModelLimits p) (p_TotalAmount p) (p_QuotaResetPeriod p) (p_QuotaResetCustomSeconds p)
    (p_QuotaWindowMode p) (p_FiveHourAmount p) (p_FiveHourWindowSeconds p) (p_WeeklyAmount p) (p_QuotaWindows p)
    (p_quotaWindowsInvalid p) (p_FiveHourQuota p) (p_WeeklyQuota p) (p_FiveHourLimit p) (p_WeeklyLimit p).
Definition set_sale (enabled : bool) (allow : Z) (p : SubscriptionPlan) : SubscriptionPlan :=
  mkPlan (p_Id p) (p_ProviderId p) (p_Title p) enabled allow (p_DurationUnit p) (p_DurationValue p)
    (p_CustomSeconds p) (p_ModelLimits p) (p_TotalAmount p) (p_QuotaResetPeriod p) (p_QuotaResetCustomSeconds p)
    (p_QuotaWindowMode p) (p_FiveHourAmount p) (p_FiveHourWindowSeconds p) (p_WeeklyAmount p) (p_QuotaWindows p)
    (p_quotaWindowsInvalid p) (p_FiveHourQuota p) (p_WeeklyQuota p) (p_FiveHourLimit p) (p_WeeklyLimit p).

(** The entitlement an order carries: the JSON of [PlanSnapshot] as the value
    it decodes to. *)
Inductive plan_snapshot :=
  | SnapshotEmpty
  | SnapshotMalformed
  | SnapshotOf (c : CatalogPlan).

Record SubscriptionOrder := mkOrder {
  o_Id : Z; o_UserId : Z; o_PlanId : Z; o_ProviderId : Z;
  o_Money : float64; o_Currency : string; o_OriginalMoney : float64;
  o_TradeNo : string; o_PaymentMethod : string; o_PaymentProvider : string; o_PaymentProductId : string;
  o_PlanSnapshot : plan_snapshot;
  o_Status : string; o_CreateTime : Z; o_CompleteTime : Z;
  o_StockStatus : string; o_StockExpiresAt : Z; o_ProviderPayload : string
}.

(** A row of [user_subscriptions]: [i_sub] holds the columns of the quota engine. *)
Record IssuedSubscription := mkIssued {
  i_sub : UserSubscription; i_Source : string; i_UpgradeGroup : string; i_PrevUserGroup : string
}.

Record TopUp := mkTopUp {
  tu_ProviderId : Z; tu_UserId : Z; tu_Amount : Z; tu_Money : float64; tu_TradeNo : string;
  tu_PaymentMethod : string; tu_PaymentProvider : string; tu_BizType : string; tu_SourceID : Z;
  tu_CreateTime : Z; tu_CompleteTime : Z; tu_Status : string; tu_Currency : string; tu_OriginalMoney : float64
}.

(** The columns of [users] the shop reads and writes. *)
Record Buyer := mkBuyer { b_ProviderId : Z; b_Group : string; b_Quota : Z; b_UsedQuota : Z }.

(** The tables.  Trade numbers are unique in [subscription_orders] and in
    [top_ups], so they index them. *)
Record shopDB := mkShop {
  sh_plans : gmap Z CatalogPlan;
  sh_subs : gmap Z IssuedSubscription;
  sh_orders : gmap string SubscriptionOrder;
  sh_topups : gmap string TopUp;
  sh_users : gmap Z Buyer;
  sh_owners : gmap Z Z;  (* provider id to owner user id *)
  sh_nextPlan : Z; sh_nextSub : Z; sh_nextOrder : Z
}.

Definition with_plans (x : gmap Z CatalogPlan) (db : shopDB) : shopDB :=
  mkShop x (sh_subs db) (sh_orders db) (sh_topups db) (sh_users db) (sh_owners db) (sh_nextPlan db) (sh_nextSub db) (sh_nextOrder db).
Definition with_issued (x : gmap Z IssuedSubscription) (db : shopDB) : shopDB :=
  mkShop (sh_plans db) x (sh_orders db) (sh_topups db) (sh_users db) (sh_owners db) (sh_nextPlan db) (sh_nextSub db) (sh_nextOrder db).
Definition with_orders (x : gmap string SubscriptionOrder) (db : shopDB) : shopDB :=
  mkShop (sh_plans db) (sh_subs db) x (sh_topups db) (sh_users db) (sh_owners db) (sh_nextPlan db) (sh_nextSub db) (sh_nextOrder db).
Definition with_topups (x : gmap string TopUp) (db : shopDB) : shopDB :=
  mkShop (sh_plans db) (sh_subs db) (sh_orders db) x (sh_users db) (sh_owners db) (sh_nextPlan db) (sh_nextSub db) (sh_nextOrder db).
Definition with_users (x : gmap Z Buyer) (db : shopDB) : shopDB :=
  mkShop (sh_plans db) (sh_subs db) (sh_orders db) (sh_topups db) x (sh_owners db) (sh_nextPlan db) (sh_nextSub db) (sh_nextOrder db).
Definition with_next (p s o : Z) (db : shopDB) : shopDB :=
  mkShop (sh_plans db) (sh_subs db) (sh_orders db) (sh_topups db) (sh_users db) (sh_owners db) p s o.

(** ** Errors *)

Definition ErrSubscriptionPlanSoldOut : error := ErrMsg "该套餐已发放完毕".
Definition ErrSubscriptionPurchaseLimit : error := ErrMsg "已达到该套餐购买上限".
Definition ErrSubscriptionStockInvalid : error := ErrMsg "subscription stock state invalid".
Definition ErrSubscriptionLimitTooSmall : error := ErrMsg "全局发放上限不能小于已发放和预占数量".
Definition ErrSubscriptionPlanHasPendingOrders : error := ErrMsg "subscription plan has pending orders".
Definition errSubscriptionPurchaseScopeChanged : error := ErrMsg "subscription purchase limit group changed concurrently".

Definition TopUpStatusPending : string := "pending".
Definition TopUpStatusSuccess : string := "success".
Definition TopUpStatusExpired : string := "expired".
Definition SubscriptionStockStatusReserved : string := "reserved".
Definition SubscriptionStockStatusIssued : string := "issued".
Definition SubscriptionStockStatusReleased : string := "released".

(** ** Purchase scopes *)

Definition group_char (a : ascii) : bool :=
  let n := nat_of_ascii a in
  ((97 <=? n) && (n <=? 122) || (48 <=? n) && (n <=? 57) || (n =? 45) || (n =? 95) || (n =? 46) || (n =? 58))%nat.

(** [None]: the key is refused. *)
Definition NormalizeSubscriptionPurchaseLimitGroup (raw : string) : option string :=
  let group := norm raw in
  if String.eqb group "" then Some ""
  else if (64 <? String.length group)%nat then None
  else if forallb group_char (String.list_ascii_of_string group) then Some group
  else None.

Definition minPositiveInt64 (current candidate : Z) : Z :=
  if candidate <=? 0 then current
  else if (current <=? 0) || (candidate <? current) then candidate
  else current.
Definition minPositiveInt : Z -> Z -> Z := minPositiveInt64.

Definition addNonNegativeSaturated (left right : Z) : Z :=
  let left := if left <? 0 then 0 else left in
  if right <=? 0 then left
  else if i64_sub max_i64 right <? left then max_i64
  else i64_add left right.

Record subscriptionPurchaseScope := mkScope {
  sc_target : CatalogPlan; sc_plans : list CatalogPlan; sc_planIDs : list Z;
  sc_maxPerUser : Z; sc_totalPurchaseLimit : Z; sc_issuedCount : Z; sc_reservedCount : Z
}.

(** [ORDER BY id ASC] *)
Definition id_le (a b : CatalogPlan) : Prop := c_Id a <= c_Id b.
#[export] Instance id_le_dec : RelDecision id_le.
Proof. intros a b. apply Z_le_dec. Defined.

Definition plans_where (p : CatalogPlan -> bool) (db : shopDB) : list CatalogPlan :=
  merge_sort id_le (List.filter p (map snd (map_to_list (sh_plans db)))).

(** [provider_id = ? AND purchase_limit_group = ?] *)
Definition in_group (provider : Z) (group : string) (c : CatalogPlan) : bool :=
  (c_ProviderId c =? provider) && String.eqb (c_PurchaseLimitGroup c) group.

(** One turn of the loop over the locked plans. *)
Definition scope_step (target : CatalogPlan) (st : subscriptionPurchaseScope * bool) (plan : CatalogPlan)
  : result (subscriptionPurchaseScope * bool) :=
  let '(scope, found) := st in
  if (c_IssuedCount plan <? 0) || (c_ReservedCount plan <? 0) then Err ErrSubscriptionStockInvalid
  else
    let scope' (t : CatalogPlan) := mkScope t (sc_plans scope) (sc_planIDs scope ++ [c_Id plan])
      (minPositiveInt (sc_maxPerUser scope) (c_MaxPurchasePerUser plan))
      (minPositiveInt64 (sc_totalPurchaseLimit scope) (c_TotalPurchaseLimit plan))
      (addNonNegativeSaturated (sc_issuedCount scope) (c_IssuedCount plan))
      (addNonNegativeSaturated (sc_reservedCount scope) (c_ReservedCount plan)) in
    if c_Id plan =? c_Id target then
      match NormalizeSubscriptionPurchaseLimitGroup (c_PurchaseLimitGroup plan) with
      | Some lockedGroup =>
          if (c_ProviderId plan =? c_ProviderId target) && String.eqb lockedGroup (c_PurchaseLimitGroup target)
          then Ok (scope' (set_group lockedGroup plan), true)
          else Err errSubscriptionPurchaseScopeChanged
      | None => Err errSubscriptionPurchaseScopeChanged
      end
    else Ok (scope' (sc_target scope), found).

Fixpoint fold_result {A B} (f : A -> B -> result A) (l : list B) (a : A) : result A :=
  match l with
  | [] => Ok a
  | b :: l => a' ← f a b; fold_result f l a'
  end.

(** The plans that share limits with [target]; [target] carries its normalised group. *)
Definition scope_plans (db : shopDB) (target : CatalogPlan) : list CatalogPlan :=
  if String.eqb (c_PurchaseLimitGroup target) ""
  then plans_where (fun c => c_Id c =? c_Id target) db
  else plans_where (in_group (c_ProviderId target) (c_PurchaseLimitGroup target)) db.

Definition loadSubscriptionPurchaseScopeTx (db : shopDB) (planID : Z) : result subscriptionPurchaseScope :=
  if planID <=? 0 then fail_with "invalid subscription purchase scope"
  else
    match sh_plans db !! planID with
    | None => Err ErrRecordNotFound
    | Some target =>
        match NormalizeSubscriptionPurchaseLimitGroup (c_PurchaseLimitGroup target) with
        | None => fail_with "invalid subscription purchase limit group"
        | Some group =>
            let target := set_group group target in
            let plans := scope_plans db target in
            if (length plans =? 0)%nat then Err ErrRecordNotFound
            else
              match fold_result (scope_step target) plans (mkScope target plans [] 0 0 0 0, false) with
              | Ok (scope, targetFound) => if (targetFound : bool) then Ok scope else Err ErrRecordNotFound
              | Err e => Err e
              end
        end
    end.

(** ** Counting *)

(** [SELECT COUNT] over a table. *)
Definition count_where {K A} `{Countable K} (p : A -> bool) (m : gmap K A) : Z :=
  sum_by (fun a => if p a then 1 else 0) (map snd (map_to_list m)).

Definition pending_reserved (o : SubscriptionOrder) : bool :=
  String.eqb (o_Status o) TopUpStatusPending && String.eqb (o_StockStatus o) SubscriptionStockStatusReserved.

Definition z_in (x : Z) (l : list Z) : bool := existsb (Z.eqb x) l.

Definition countUserSubscriptionsByPurchaseScope (db : shopDB) (userID planID : Z) : result Z :=
  if (userID <=? 0) || (planID <=? 0) then fail_with "invalid userId or planId"
  else
    match sh_plans db !! planID with
    | None => Err ErrRecordNotFound
    | Some plan =>
        match NormalizeSubscriptionPurchaseLimitGroup (c_PurchaseLimitGroup plan) with
        | None => fail_with "invalid subscription purchase limit group for plan"
        | Some group =>
            let planIDs := if String.eqb group "" then [planID]
                           else map c_Id (plans_where (in_group (c_ProviderId plan) group) db) in
            Ok (count_where (fun s => (s_UserId (i_sub s) =? userID) && z_in (s_PlanId (i_sub s)) planIDs) (sh_subs db))
        end
    end.

(** What a user holds of the plans [ids]: issued subscriptions and reserved orders. *)
Definition user_issued (userID : Z) (ids : list Z) (db : shopDB) : Z :=
  count_where (fun s => (s_UserId (i_sub s) =? userID) && z_in (s_PlanId (i_sub s)) ids) (sh_subs db).
Definition user_reserved (userID : Z) (ids : list Z) (db : shopDB) : Z :=
  count_where (fun o => (o_UserId o =? userID) && z_in (o_PlanId o) ids && pending_reserved o) (sh_orders db).

Definition checkUserSubscriptionPurchaseScopeLimitTx (db : shopDB) (userID planID : Z) : result unit :=
  if (userID <=? 0) || (planID <=? 0) then fail_with "invalid subscription purchase limit"
  else
    scope ← loadSubscriptionPurchaseScopeTx db planID;
    if sc_maxPerUser scope <=? 0 then Ok tt
    else if sc_maxPerUser scope <=? addNonNegativeSaturated (user_issued userID (sc_planIDs scope) db)
                                                            (user_reserved userID (sc_planIDs scope) db)
    then Err ErrSubscriptionPurchaseLimit
    else Ok tt.

(** ** Stock transitions *)

Definition incrementSubscriptionPurchaseScopeStockTx (db : shopDB) (planID : Z) (reserve : bool) : result shopDB :=
  scope ← loadSubscriptionPurchaseScopeTx db planID;
  let counter (c : CatalogPlan) := if reserve then c_ReservedCount c else c_IssuedCount c in
  if (counter (sc_target scope) <? 0) || (max_i64 <=? counter (sc_target scope)) then Err ErrSubscriptionStockInvalid
  else if (0 <? sc_totalPurchaseLimit scope) &&
          (sc_totalPurchaseLimit scope <=? addNonNegativeSaturated (sc_issuedCount scope) (sc_reservedCount scope))
  then Err ErrSubscriptionPlanSoldOut
  else
    let id := c_Id (sc_target scope) in
    match sh_plans db !! id with
    | Some c =>
        if (0 <=? counter c) && (counter c <? max_i64)
        then Ok (with_plans (<[id := if reserve then set_counts (c_IssuedCount c) (c_ReservedCount c + 1) c
                                     else set_counts (c_IssuedCount c + 1) (c_ReservedCount c) c]> (sh_plans db)) db)
        else Err ErrRecordNotFound
    | None => Err ErrRecordNotFound
    end.

Definition reserveSubscriptionPlanStockTx (db : shopDB) (planId : Z) : result shopDB :=
  incrementSubscriptionPurchaseScopeStockTx db planId true.
Definition issueSubscriptionPlanStockTx (db : shopDB) (planId : Z) : result shopDB :=
  incrementSubscriptionPurchaseScopeStockTx db planId false.

Definition commitReservedSubscriptionPlanStockTx (db : shopDB) (planId : Z) : result shopDB :=
  match sh_plans db !! planId with
  | Some c =>
      if (0 <? c_ReservedCount c) && (0 <=? c_IssuedCount c) && (c_IssuedCount c <? max_i64)
      then Ok (with_plans (<[planId := set_counts (c_IssuedCount c + 1) (c_ReservedCount c - 1) c]> (sh_plans db)) db)
      else Err ErrSubscriptionStockInvalid
  | None => Err ErrSubscriptionStockInvalid
  end.

Definition releaseReservedSubscriptionPlanStockTx (db : shopDB) (planId : Z) : result shopDB :=
  match sh_plans db !! planId with
  | Some c =>
      if 0 <? c_ReservedCount c
      then Ok (with_plans (<[planId := set_counts (c_IssuedCount c) (c_ReservedCount c - 1) c]> (sh_plans db)) db)
      else Err ErrSubscriptionStockInvalid
  | None => Err ErrSubscriptionStockInvalid
  end.

(** ** Editing the catalogue *)

(** [orders_table] says whether [subscription_orders] exists.  The result is
    the proposed plan with its group normalised. *)
Definition ValidateSubscriptionPlanPurchaseLimitsTx (orders_table : bool) (db : shopDB) (proposed : CatalogPlan)
  : result CatalogPlan :=
  if (c_TotalPurchaseLimit proposed <? 0) || (c_MaxPurchasePerUser proposed <? 0) then Err ErrSubscriptionLimitTooSmall
  else
  match NormalizeSubscriptionPurchaseLimitGroup (c_PurchaseLimitGroup proposed) with
  | None => fail_with "invalid subscription purchase limit group"
  | Some proposedGroup =>
      let proposed := set_group proposedGroup proposed in
      let id := c_Id proposed in
      let current := if 0 <? id then sh_plans db !! id else None in
      currentGroup ← match current with
                     | None => Ok ""
                     | Some cur => match NormalizeSubscriptionPurchaseLimitGroup (c_PurchaseLimitGroup cur) with
                                   | Some g => Ok g
                                   | None => fail_with "invalid existing subscription purchase limit group"
                                   end
                     end;
      let lockedPlans := plans_where (fun c =>
        (0 <? id) && (c_Id c =? id) ||
        match current with
        | Some cur => negb (String.eqb currentGroup "") && in_group (c_ProviderId cur) currentGroup c
        | None => false
        end ||
        negb (String.eqb proposedGroup "") && in_group (c_ProviderId proposed) proposedGroup c) db in
      locked ← (if 0 <? id then
                  match current, List.find (fun c => c_Id c =? id) lockedPlans with
                  | Some cur, Some locked =>
                      match NormalizeSubscriptionPurchaseLimitGroup (c_PurchaseLimitGroup locked) with
                      | Some lockedGroup =>
                          if negb (c_ProviderId locked =? c_ProviderId cur) || negb (String.eqb lockedGroup currentGroup)
                          then Err errSubscriptionPurchaseScopeChanged
                          else Ok (Some (locked, negb (c_ProviderId locked =? c_ProviderId proposed) ||
                                                 negb (String.eqb lockedGroup proposedGroup)))
                      | None => Err errSubscriptionPurchaseScopeChanged
                      end
                  | _, _ => Err ErrRecordNotFound
                  end
                else Ok None);
      let moved := match locked with Some (_, m) => m | None => false end in
      if moved && negb orders_table then Ok proposed
      else if moved && (0 <? count_where (fun o => (o_PlanId o =? id) && String.eqb (o_Status o) TopUpStatusPending) (sh_orders db))
      then Err ErrSubscriptionPlanHasPendingOrders
      else
        let start := match locked with
                     | Some (c, _) => (addNonNegativeSaturated 0 (c_IssuedCount c), addNonNegativeSaturated 0 (c_ReservedCount c))
                     | None => (0, 0)
                     end in
        let member (m : CatalogPlan) := match NormalizeSubscriptionPurchaseLimitGroup (c_PurchaseLimitGroup m) with
                        | Some g => negb (c_Id m =? id) && (c_ProviderId m =? c_ProviderId proposed) && String.eqb g proposedGroup
                        | None => false
                        end in
        let '(issued, reserved, effectiveLimit) :=
          if String.eqb proposedGroup "" then (start.1, start.2, c_TotalPurchaseLimit proposed)
          else fold_left (fun '(issued, reserved, limit) m =>
                 (addNonNegativeSaturated issued (c_IssuedCount m), addNonNegativeSaturated reserved (c_ReservedCount m),
                  minPositiveInt64 limit (c_TotalPurchaseLimit m)))
               (List.filter member lockedPlans) (start.1, start.2, c_TotalPurchaseLimit proposed) in
        if (0 <? effectiveLimit) && (effectiveLimit <? addNonNegativeSaturated issued reserved)
        then Err ErrSubscriptionLimitTooSmall
        else Ok proposed
  end.

(** The transaction of [AdminCreateSubscriptionPlan]: the id and the counters
    of the request were cleared.  A column with a default is written as the
    default when zero, unless the request named it. *)
Definition create_plan_tx (named_allow named_enabled : bool) (db : shopDB) (req : CatalogPlan) : result shopDB :=
  plan ← ValidateSubscriptionPlanPurchaseLimitsTx true db (set_counts 0 0 (set_plan_columns (set_plan_id 0 (c_plan req)) req));
  let id := sh_nextPlan db in
  let p := c_plan plan in
  let allow := if named_allow || negb (p_AllowPurchase p =? 0) then p_AllowPurchase p else 1 in
  let enabled := if named_enabled then p_Enabled p else true in
  Ok (with_next (id + 1) (sh_nextSub db) (sh_nextOrder db)
        (with_plans (<[id := set_plan_columns (set_sale enabled allow (set_plan_id id p)) plan]> (sh_plans db)) db)).

(** The transaction of [AdminUpdateSubscriptionPlan]: every column but the
    key and the counters is overwritten. *)
Definition update_plan_tx (db : shopDB) (id : Z) (req : CatalogPlan) : result shopDB :=
  plan ← ValidateSubscriptionPlanPurchaseLimitsTx true db (set_plan_columns (set_plan_id id (c_plan req)) req);
  match sh_plans db !! id with
  | Some c => Ok (with_plans (<[id := set_counts (c_IssuedCount c) (c_ReservedCount c) plan]> (sh_plans db)) db)
  | None => Err ErrRecordNotFound
  end.
