(* ===== verification/SubOrder.v ===== *)
(** * Subscription orders

    The order state machine of [src/model/subscription.go]: checkout with a
    stock reservation, completion by a payment callback, expiry, and the
    issuance of subscriptions by orders, administrators, airdrops and
    registration gifts.  Every function with a [Tx] suffix runs inside a
    database transaction: its result holds the new tables, an error rolls
    back ([shop_tx]). *)

From stdpp Require Import base numbers list strings pretty sorting gmap sets.
From Stdlib Require Import ZArith Lia SpecFloat.
From S2P Require Import Prelude GoInt GoString GoTime QuotaWindow QuotaPolicy WindowBounds SubPlan SubStock.

(** The arithmetic of github.com/shopspring/decimal: [Round(6)] in millionths,
    and the integer part of the product with [common.QuotaPerUnit]. *)
Class Accounting := { round6 : float64 -> Z; quota_of : float64 -> Z }.

(** What one call reads from the clocks: [getDBTimestampTx], then
    [common.GetTimestamp] where a deadline is checked, where the completion is
    stamped, and where the mirror row is written. *)
Record clock := mkClock { ck_db : Z; ck_check : Z; ck_done : Z; ck_mirror : Z }.

Definition shop_tx {A} (db : shopDB) (f : shopDB -> result (A * shopDB)) : result A * shopDB :=
  match f db with
  | Ok (a, db') => (Ok a, db')
  | Err e => (Err e, db)
  end.

Definition ErrSubscriptionOrderNotFound : error := ErrMsg "subscription order not found".
Definition ErrSubscriptionOrderStatusInvalid : error := ErrMsg "subscription order status invalid".
Definition ErrSubscriptionCheckoutChanged : error := ErrMsg "subscription checkout configuration changed; retry checkout".
Definition ErrSubscriptionPlanSnapshotInvalid : error := ErrMsg "invalid subscription plan snapshot".
Definition ErrSubscriptionTopUpMismatch : error := ErrMsg "subscription topup identity mismatch".
Definition ErrPaymentMethodMismatch : error := ErrMsg "payment method mismatch".

Definition DefaultSubscriptionStockReservationSeconds : Z := 45 * 60.
Definition TopUpBizTypePayment : string := "payment".
Definition TopUpBizTypeSubscription : string := "subscription".
Definition TopUpPaymentMethodProviderSubscription : string := "provider_subscription".
Definition PaymentMethodCrypto : string := "crypto".
Definition PaymentProviderCrypto : string := "crypto".

(** ** Assigning to an order *)

Definition set_money (money original : float64) (o : SubscriptionOrder) : SubscriptionOrder :=
  mkOrder (o_Id o) (o_UserId o) (o_PlanId o) (o_ProviderId o) money (o_Currency o) original (o_TradeNo o)
    (o_PaymentMethod o) (o_PaymentProvider o) (o_PaymentProductId o) (o_PlanSnapshot o) (o_Status o)
    (o_CreateTime o) (o_CompleteTime o) (o_StockStatus o) (o_StockExpiresAt o) (o_ProviderPayload o).
Definition set_checkout (id : Z) (snapshot : plan_snapshot) (status : string) (created : Z) (stock : string) (expires : Z)
    (o : SubscriptionOrder) : SubscriptionOrder :=
  mkOrder id (o_UserId o) (o_PlanId o) (o_ProviderId o) (o_Money o) (o_Currency o) (o_OriginalMoney o) (o_TradeNo o)
    (o_PaymentMethod o) (o_PaymentProvider o) (o_PaymentProductId o) snapshot status
    created (o_CompleteTime o) stock expires (o_ProviderPayload o).
Definition set_outcome (status stock : string) (completed : Z) (payload : string) (o : SubscriptionOrder) : SubscriptionOrder :=
  mkOrder (o_Id o) (o_UserId o) (o_PlanId o) (o_ProviderId o) (o_Money o) (o_Currency o) (o_OriginalMoney o) (o_TradeNo o)
    (o_PaymentMethod o) (o_PaymentProvider o) (o_PaymentProductId o) (o_PlanSnapshot o) status
    (o_CreateTime o) completed stock (o_StockExpiresAt o) payload.

(** [tx.Save(&order)] *)
Definition save_order (o : SubscriptionOrder) (db : shopDB) : shopDB := with_orders (<[o_TradeNo o := o]> (sh_orders db)) db.

(** ** Prices *)

(** The yuan sign, half and full width, and the euro sign, in UTF-8. *)
Definition normalizeSubscriptionOrderCurrency (currency : string) : string :=
  let c := ToUpper (TrimSpace currency) in
  if str_in c [""; "$"; "USD"] then "USD"
  else if str_in c ["€"; "EUR"] then "EUR"
  else if str_in c ["￥"; "¥"; "CNY"; "RMB"] then "CNY"
  else c.

Definition expectedSubscriptionPaymentProductID (order : SubscriptionOrder) (plan : CatalogPlan) : string :=
  let provider := norm (o_PaymentProvider order) in
  if String.eqb provider "stripe" then
    if String.eqb (normalizeSubscriptionOrderCurrency (o_Currency order)) "CNY"
    then TrimSpace (c_StripePriceCnyId plan) else TrimSpace (c_StripePriceId plan)
  else if String.eqb provider "creem" then TrimSpace (c_CreemProductId plan)
  else if String.eqb provider "waffo_pancake" then TrimSpace (c_WaffoPancakeProductId plan)
  else TrimSpace (o_PaymentProductId order).

Section Prices.
Context `{Accounting}.

Definition subscriptionAccountingMoneyMatches (quoted authoritative : float64) : bool :=
  is_finite quoted && is_finite authoritative && (round6 quoted =? round6 authoritative).

Definition normalizeSubscriptionOrderPaymentSnapshot (order : SubscriptionOrder) (plan : CatalogPlan) : result SubscriptionOrder :=
  let price := c_PriceAmount plan in
  if SFleb price float_zero || negb (is_finite price) then Err ErrSubscriptionCheckoutChanged
  else if String.eqb (o_PaymentMethod order) PaymentMethodCrypto ||
          EqualFold (TrimSpace (o_PaymentProvider order)) PaymentProviderCrypto
  then Ok (set_money price price order)
  else if negb (subscriptionAccountingMoneyMatches (o_Money order) price) then Err ErrSubscriptionCheckoutChanged
  else if negb (String.eqb (TrimSpace (o_PaymentProductId order)) (expectedSubscriptionPaymentProductID order plan))
  then Err ErrSubscriptionCheckoutChanged
  else if negb (is_finite (o_OriginalMoney order)) || SFltb (o_OriginalMoney order) float_zero
  then Err ErrSubscriptionCheckoutChanged
  else
    let currency := normalizeSubscriptionOrderCurrency (o_Currency order) in
    let usd := String.eqb currency "USD" in
    let unset := SFeqb (o_OriginalMoney order) float_zero in
    if unset && negb usd then Err ErrSubscriptionCheckoutChanged
    else
      let original := if unset then price else o_OriginalMoney order in
      if usd && SFltb half_cent (float_abs_diff original price) then Err ErrSubscriptionCheckoutChanged
      else Ok (set_money price original order).
End Prices.

(** ** Entitlement snapshots *)

Definition snapshotSubscriptionPlan (plan : CatalogPlan) : result plan_snapshot :=
  if c_Id plan <=? 0 then Err ErrSubscriptionPlanSnapshotInvalid
  else
    let copyPlan := set_counts 0 0 (set_plan_columns (NormalizeQuotaWindows (c_plan plan)) plan) in
    if po_invalid (quotaPolicyFromPlan (Some (c_plan copyPlan))) then Err invalidSubscriptionQuotaPolicyError
    else Ok (SnapshotOf copyPlan).

Section Orders.
Context `{LocalZone}.

Definition decodeSubscriptionPlanSnapshot (raw : plan_snapshot) (planID providerID : Z) : result (option CatalogPlan) :=
  match raw with
  | SnapshotEmpty => Ok None
  | SnapshotMalformed => Err ErrSubscriptionPlanSnapshotInvalid
  | SnapshotOf c =>
      if (c_Id c <=? 0) || negb (c_Id c =? planID) then Err ErrSubscriptionPlanSnapshotInvalid
      else if negb (c_ProviderId c =? providerID) then Err ErrSubscriptionPlanSnapshotInvalid
      else
        let snapshot := set_plan_columns (NormalizeQuotaWindows (c_plan c)) c in
        match calcPlanEndTime (time_Unix 0 local_zone) (c_plan snapshot) with
        | Err _ => Err ErrSubscriptionPlanSnapshotInvalid
        | Ok _ => if po_invalid (quotaPolicyFromPlan (Some (c_plan snapshot))) then Err ErrSubscriptionPlanSnapshotInvalid
                  else Ok (Some snapshot)
        end
  end.

(** [getSubscriptionPlanByIdTx] inside a transaction reads the table. *)
Definition shop_plan_by_id (db : shopDB) (id : Z) : result CatalogPlan :=
  if id <=? 0 then fail_with "invalid plan id"
  else match sh_plans db !! id with
       | None => Err ErrRecordNotFound
       | Some c => Ok (set_plan_columns (NormalizeQuotaWindows (c_plan c)) c)
       end.

(** ** Checkout *)

Definition CreateSubscriptionOrderTx `{Accounting} (ck : clock) (order : SubscriptionOrder) (db : shopDB)
  : result (SubscriptionOrder * shopDB) :=
  if (o_UserId order <=? 0) || (o_PlanId order <=? 0) || String.eqb (TrimSpace (o_TradeNo order)) ""
  then fail_with "invalid subscription order"
  else
    let created := if o_CreateTime order =? 0 then ck_check ck else o_CreateTime order in
    if negb (String.eqb (o_Status order) "") && negb (String.eqb (o_Status order) TopUpStatusPending)
    then Err ErrSubscriptionOrderStatusInvalid
    else if negb (String.eqb (o_StockStatus order) "") && negb (String.eqb (o_StockStatus order) SubscriptionStockStatusReserved)
    then Err ErrSubscriptionStockInvalid
    else
      match sh_users db !! o_UserId order with
      | None => Err ErrRecordNotFound
      | Some user =>
          if negb (b_ProviderId user =? o_ProviderId order) then fail_with "subscription provider does not match user provider"
          else
            scope ← loadSubscriptionPurchaseScopeTx db (o_PlanId order);
            let plan := sc_target scope in
            if negb (c_ProviderId plan =? o_ProviderId order) then fail_with "subscription plan does not belong to user provider"
            else if negb (p_Enabled (c_plan plan)) || negb (p_AllowPurchase (c_plan plan) =? 1) then fail_with "该套餐暂不允许订阅"
            else
              _ ← checkUserSubscriptionPurchaseScopeLimitTx db (o_UserId order) (o_PlanId order);
              order ← normalizeSubscriptionOrderPaymentSnapshot order plan;
              planSnapshot ← snapshotSubscriptionPlan plan;
              db ← reserveSubscriptionPlanStockTx db (o_PlanId order);
              let expires := if o_StockExpiresAt order <=? 0
                             then i64_add created DefaultSubscriptionStockReservationSeconds else o_StockExpiresAt order in
              (* [tx.Create]: a new id, unless the trade number is taken *)
              let order := set_checkout (sh_nextOrder db) planSnapshot TopUpStatusPending created
                             SubscriptionStockStatusReserved expires order in
              match sh_orders db !! o_TradeNo order with
              | Some _ => fail_with "duplicate trade_no"
              | None => Ok (order, with_next (sh_nextPlan db) (sh_nextSub db) (sh_nextOrder db + 1) (save_order order db))
              end
      end.

(** ** Issuing *)

(** [plan] gives the key; [entitlement] overrides what is issued; without
    [providerId] the user's provider is taken. *)
Definition createUserSubscriptionFromPlanTxWithSnapshot (ck : clock) (db : shopDB) (userId planId : Z)
    (entitlement : option CatalogPlan) (source : string) (stockReserved : bool) (providerId : option Z)
  : result (IssuedSubscription * shopDB) :=
  if planId =? 0 then fail_with "invalid plan"
  else if userId <=? 0 then fail_with "invalid user id"
  else
    match sh_users db !! userId with
    | None => Err ErrRecordNotFound
    | Some lockedUser =>
        scope ← loadSubscriptionPurchaseScopeTx db planId;
        let authoritativePlan := set_plan_columns (NormalizeQuotaWindows (c_plan (sc_target scope))) (sc_target scope) in
        plan ← match entitlement with
               | None => Ok authoritativePlan
               | Some e =>
                   let snapshot := set_plan_columns (NormalizeQuotaWindows (c_plan e)) e in
                   if negb (c_Id snapshot =? c_Id authoritativePlan) || negb (c_ProviderId snapshot =? c_ProviderId authoritativePlan)
                   then Err ErrSubscriptionPlanSnapshotInvalid
                   else
                     match NormalizeSubscriptionPurchaseLimitGroup (c_PurchaseLimitGroup authoritativePlan),
                           NormalizeSubscriptionPurchaseLimitGroup (c_PurchaseLimitGroup snapshot) with
                     | Some currentGroup, Some snapshotGroup =>
                         if String.eqb currentGroup snapshotGroup then Ok snapshot else Err ErrSubscriptionPlanSnapshotInvalid
                     | _, _ => Err ErrSubscriptionPlanSnapshotInvalid
                     end
               end;
        let provider := default (b_ProviderId lockedUser) providerId in
        sub ← issued_subscription (sh_nextSub db) userId provider (ck_db ck) (c_plan plan);
        if negb (provider =? b_ProviderId lockedUser) then fail_with "subscription provider does not match user provider"
        else if negb (c_ProviderId plan =? provider) then fail_with "subscription plan does not belong to user provider"
        else
          db ← (if stockReserved then commitReservedSubscriptionPlanStockTx db (c_Id plan)
                else
                  _ ← checkUserSubscriptionPurchaseScopeLimitTx db userId (c_Id plan);
                  issueSubscriptionPlanStockTx db (c_Id plan));
          let upgradeGroup := TrimSpace (c_UpgradeGroup plan) in
          let upgrades := negb (String.eqb upgradeGroup "") && negb (String.eqb (b_Group lockedUser) upgradeGroup) in
          let db := if upgrades
                    then with_users (alter (fun u => mkBuyer (b_ProviderId u) upgradeGroup (b_Quota u) (b_UsedQuota u)) userId (sh_users db)) db
                    else db in
          let issued := mkIssued sub source upgradeGroup (if upgrades then b_Group lockedUser else "") in
          Ok (issued, with_next (sh_nextPlan db) (sh_nextSub db + 1) (sh_nextOrder db)
                        (with_issued (<[sh_nextSub db := issued]> (sh_subs db)) db))
    end.

Definition CreateUserSubscriptionFromPlanTx (ck : clock) (db : shopDB) (userId planId : Z) (source : string) (providerId : option Z)
  : result (IssuedSubscription * shopDB) :=
  createUserSubscriptionFromPlanTxWithSnapshot ck db userId planId None source false providerId.

(** ** The mirror in [top_ups] *)

Section Completion.
Context `{Accounting}.

(** The row created for an order without one. *)
Definition mirror_row (order : SubscriptionOrder) (status : string) (completeTime : Z) : TopUp :=
  mkTopUp (o_ProviderId order) (o_UserId order) 0 (o_Money order) (o_TradeNo order) (o_PaymentMethod order)
    (o_PaymentProvider order) TopUpBizTypeSubscription (o_Id order) (o_CreateTime order) completeTime status
    (o_Currency order) (o_OriginalMoney order).

Definition is_zero (x : float64) : bool := SFeqb x float_zero.

(** Zero amount, no source, a [sub*] trade number. *)
Definition legacySubscriptionShape (t : TopUp) : bool :=
  (tu_Amount t =? 0) && (tu_SourceID t =? 0) && HasPrefix (norm (tu_TradeNo t)) "sub".

(** The row belongs to another payment. *)
Definition topup_conflict (t : TopUp) (order : SubscriptionOrder) : bool :=
  negb (tu_UserId t =? 0) && negb (tu_UserId t =? o_UserId order) ||
  negb (tu_ProviderId t =? 0) && negb (tu_ProviderId t =? o_ProviderId order) ||
  negb (String.eqb (TrimSpace (tu_PaymentMethod t)) "") &&
    negb (EqualFold (TrimSpace (tu_PaymentMethod t)) (TrimSpace (o_PaymentMethod order))) ||
  negb (String.eqb (TrimSpace (tu_PaymentProvider t)) "") &&
    (String.eqb (TrimSpace (o_PaymentProvider order)) "" ||
     negb (EqualFold (TrimSpace (tu_PaymentProvider t)) (TrimSpace (o_PaymentProvider order)))) ||
  negb (String.eqb (TrimSpace (tu_BizType t)) "") && negb (String.eqb (TrimSpace (tu_BizType t)) TopUpBizTypeSubscription) &&
    negb (legacySubscriptionShape t) ||
  negb (tu_SourceID t =? 0) && negb (tu_SourceID t =? o_Id order) ||
  negb (tu_Amount t =? 0) ||
  negb (is_zero (tu_Money t)) && negb (subscriptionAccountingMoneyMatches (tu_Money t) (o_Money order)) ||
  negb (is_zero (tu_OriginalMoney t)) && negb (is_zero (o_OriginalMoney order)) &&
    negb (subscriptionAccountingMoneyMatches (tu_OriginalMoney t) (o_OriginalMoney order)) ||
  negb (String.eqb (TrimSpace (tu_Currency t)) "") &&
    negb (String.eqb (normalizeSubscriptionOrderCurrency (tu_Currency t)) (normalizeSubscriptionOrderCurrency (o_Currency order))).

(** The row brought up to date with its order. *)
Definition mirror_update (t : TopUp) (order : SubscriptionOrder) (status : string) (completeTime : Z) : TopUp :=
  let str (x y : string) := if String.eqb x "" then y else x in
  let num (x y : Z) := if x =? 0 then y else x in
  mkTopUp (num (tu_ProviderId t) (o_ProviderId order)) (num (tu_UserId t) (o_UserId order)) (tu_Amount t) (o_Money order)
    (tu_TradeNo t) (str (tu_PaymentMethod t) (o_PaymentMethod order)) (str (tu_PaymentProvider t) (o_PaymentProvider order))
    (if String.eqb (tu_BizType t) "" || legacySubscriptionShape t then TopUpBizTypeSubscription else tu_BizType t)
    (num (tu_SourceID t) (o_Id order)) (num (tu_CreateTime t) (o_CreateTime order)) completeTime status
    (str (tu_Currency t) (o_Currency order))
    (if is_zero (tu_OriginalMoney t) then o_OriginalMoney order else tu_OriginalMoney t).

Definition upsertSubscriptionTopUpTx (ck : clock) (order : SubscriptionOrder) (db : shopDB) : result shopDB :=
  let status := if String.eqb (o_Status order) "" then TopUpStatusPending else o_Status order in
  let completeTime := if String.eqb status TopUpStatusSuccess && (o_CompleteTime order =? 0) then ck_mirror ck else o_CompleteTime order in
  match sh_topups db !! o_TradeNo order with
  | None => Ok (with_topups (<[o_TradeNo order := mirror_row order status completeTime]> (sh_topups db)) db)
  | Some topup =>
      if topup_conflict topup order then Err ErrSubscriptionTopUpMismatch
      else Ok (with_topups (<[o_TradeNo order := mirror_update topup order status completeTime]> (sh_topups db)) db)
  end.

(** ** The provider's income *)

Definition income_trade_no (order : SubscriptionOrder) : string := "PROVIDER-SUBSCRIPTION-" +:+ pretty (o_Id order).

(** The row with the income's trade number is not this income. *)
Definition income_conflict (existing : TopUp) (owner : Z) (order : SubscriptionOrder) : bool :=
  negb (tu_UserId existing =? owner) ||
  negb (tu_ProviderId existing =? 0) && negb (tu_ProviderId existing =? o_ProviderId order) ||
  negb (String.eqb (TrimSpace (tu_PaymentMethod existing)) "") &&
    negb (String.eqb (tu_PaymentMethod existing) TopUpPaymentMethodProviderSubscription) ||
  negb (String.eqb (TrimSpace (tu_PaymentProvider existing)) "") && negb (String.eqb (TrimSpace (o_PaymentProvider order)) "") &&
    negb (EqualFold (tu_PaymentProvider existing) (o_PaymentProvider order)) ||
  negb (String.eqb (TrimSpace (tu_BizType existing)) "") && negb (String.eqb (tu_BizType existing) TopUpBizTypePayment) ||
  negb (tu_SourceID existing =? 0) && negb (tu_SourceID existing =? o_Id order) ||
  negb (String.eqb (tu_Status existing) TopUpStatusSuccess).

Definition income_row (ck : clock) (owner incomeQuota : Z) (order : SubscriptionOrder) : TopUp :=
  mkTopUp (o_ProviderId order) owner incomeQuota (o_Money order) (income_trade_no order)
    TopUpPaymentMethodProviderSubscription (o_PaymentProvider order) TopUpBizTypePayment (o_Id order)
    (ck_mirror ck) (ck_mirror ck) TopUpStatusSuccess
    (if String.eqb (o_Currency order) "" then "USD" else o_Currency order)
    (if is_zero (o_OriginalMoney order) then o_Money order else o_OriginalMoney order).

Definition credit_quota (id amount : Z) (db : shopDB) : shopDB :=
  with_users (alter (fun u => mkBuyer (b_ProviderId u) (b_Group u) (b_Quota u + amount) (b_UsedQuota u)) id (sh_users db)) db.
Definition add_used_quota (id amount : Z) (db : shopDB) : shopDB :=
  with_users (alter (fun u => mkBuyer (b_ProviderId u) (b_Group u) (b_Quota u) (b_UsedQuota u + amount)) id (sh_users db)) db.

(** The owner, the amount credited and whether it was credited now. *)
Definition applyProviderSubscriptionIncomeTx (ck : clock) (order : SubscriptionOrder) (db : shopDB)
  : result (Z * Z * bool * shopDB) :=
  if (o_ProviderId order <=? 0) || (o_Id order <=? 0) then Ok (0, 0, false, db)
  else
    let incomeQuota := quota_of (o_Money order) in
    if incomeQuota <=? 0 then Ok (0, 0, false, db)
    else
      let tradeNo := income_trade_no order in
      match sh_owners db !! o_ProviderId order with
      | None => Err ErrRecordNotFound
      | Some owner =>
          if owner <=? 0 then fail_with "provider owner user id is empty"
          else
            match sh_topups db !! tradeNo with
            | Some existing =>
                if income_conflict existing owner order then Err ErrSubscriptionTopUpMismatch
                else Ok (tu_UserId existing, 0, false, db)
            | None =>
                let db := credit_quota owner incomeQuota db in
                Ok (owner, incomeQuota, true, with_topups (<[tradeNo := income_row ck owner incomeQuota order]> (sh_topups db)) db)
            end
      end.

(** ** Completion *)

Record subscriptionCompletionResult := mkCompletion {
  cr_logUserID : Z; cr_logPlanTitle : string; cr_logMoney : float64; cr_logPaymentMethod : string; cr_upgradeGroup : string;
  cr_providerIncomeOwnerID : Z; cr_providerIncomeQuota : Z; cr_providerIncomeCreated : bool
}.

(** The subscription of an order: the reserved copy, or a fresh one for an
    order from before reservations. *)
Definition issue_for_order (ck : clock) (db : shopDB) (order : SubscriptionOrder) (snapshot : option CatalogPlan)
  : result (IssuedSubscription * shopDB) :=
  let issue reserved :=
    createUserSubscriptionFromPlanTxWithSnapshot ck db (o_UserId order)
      (match snapshot with Some s => c_Id s | None => o_PlanId order end) snapshot "order" reserved (Some (o_ProviderId order)) in
  if String.eqb (o_StockStatus order) SubscriptionStockStatusReserved then issue true
  else if String.eqb (o_StockStatus order) "" then issue false
  else Err ErrSubscriptionStockInvalid.

Definition completeSubscriptionOrderTx (ck : clock) (tradeNo providerPayload expectedMethod : string) (expectedProvider : option string)
    (db : shopDB) : result (subscriptionCompletionResult * shopDB) :=
  if String.eqb (TrimSpace tradeNo) "" then fail_with "tradeNo is empty"
  else
    match sh_orders db !! tradeNo with
    | None => Err ErrSubscriptionOrderNotFound
    | Some order =>
        if negb (String.eqb expectedMethod "") && negb (String.eqb (o_PaymentMethod order) expectedMethod)
        then Err ErrPaymentMethodMismatch
        else if match expectedProvider with
                | Some p => negb (String.eqb p "") && negb (String.eqb (o_PaymentProvider order) p) &&
                            negb (String.eqb (TrimSpace (o_PaymentProvider order)) "")
                | None => false
                end
        then Err ErrPaymentMethodMismatch
        else if String.eqb (o_Status order) TopUpStatusSuccess then
          db ← upsertSubscriptionTopUpTx ck order db;
          '(owner, quota, created, db) ← applyProviderSubscriptionIncomeTx ck order db;
          Ok (mkCompletion 0 "" float_zero "" "" owner quota created, db)
        else if negb (String.eqb (o_Status order) TopUpStatusPending) then Err ErrSubscriptionOrderStatusInvalid
        else if String.eqb (o_StockStatus order) SubscriptionStockStatusReserved &&
                (0 <? o_StockExpiresAt order) && (o_StockExpiresAt order <=? ck_check ck)
        then Err ErrSubscriptionStockInvalid
        else
          plan ← shop_plan_by_id db (o_PlanId order);
          snapshot ← decodeSubscriptionPlanSnapshot (o_PlanSnapshot order) (o_PlanId order) (o_ProviderId order);
          '(issued, db) ← issue_for_order ck db order snapshot;
          let paidQuota := quota_of (o_Money order) in
          let db := if 0 <? paidQuota then add_used_quota (o_UserId order) paidQuota db else db in
          let order := set_outcome TopUpStatusSuccess SubscriptionStockStatusIssued (ck_done ck)
                         (if String.eqb providerPayload "" then o_ProviderPayload order else providerPayload) order in
          db ← upsertSubscriptionTopUpTx ck order (save_order order db);
          '(owner, quota, created, db) ← applyProviderSubscriptionIncomeTx ck order db;
          let title := s_PlanTitleSnapshot (i_sub issued) in
          Ok (mkCompletion (o_UserId order) (if String.eqb title "" then p_Title (c_plan plan) else title) (o_Money order)
                (o_PaymentMethod order) (TrimSpace (i_UpgradeGroup issued)) owner quota created, db)
    end.

(** Without the log lines and the cache refresh that follow the commit. *)
Definition CompleteSubscriptionOrder (ck : clock) (tradeNo providerPayload expectedMethod : string) (expectedProvider : option string)
    (db : shopDB) : result unit * shopDB :=
  if String.eqb (TrimSpace tradeNo) "" then (fail_with "tradeNo is empty", db)
  else match shop_tx db (completeSubscriptionOrderTx ck tradeNo providerPayload expectedMethod expectedProvider) with
       | (Ok _, db') => (Ok tt, db')
       | (Err e, db') => (Err e, db')
       end.

(** The order's id, trade number and mirror are written together. *)
Definition CreateSubscriptionOrderWithTopUp (ck : clock) (order : SubscriptionOrder) (db : shopDB) : result unit * shopDB :=
  shop_tx db (fun db =>
    '(order, db) ← CreateSubscriptionOrderTx ck order db;
    db ← upsertSubscriptionTopUpTx ck order db;
    Ok (tt, db)).

Definition SubscriptionOrder_Insert (ck : clock) (order : SubscriptionOrder) (db : shopDB) : result unit * shopDB :=
  shop_tx db (fun db => '(_, db) ← CreateSubscriptionOrderTx ck order db; Ok (tt, db)).

(** ** Expiry *)

Definition expireSubscriptionOrderTx (ck : clock) (tradeNo expectedMethod : string) (db : shopDB) : result (bool * shopDB) :=
  if String.eqb tradeNo "" then fail_with "tradeNo is empty"
  else
    match sh_orders db !! tradeNo with
    | None => Err ErrSubscriptionOrderNotFound
    | Some order =>
        if negb (String.eqb expectedMethod "") && negb (String.eqb (o_PaymentMethod order) expectedMethod)
        then Err ErrPaymentMethodMismatch
        else if negb (String.eqb (o_Status order) TopUpStatusPending) then Ok (false, db)
        else
          let reserved := String.eqb (o_StockStatus order) SubscriptionStockStatusReserved in
          db ← (if reserved then releaseReservedSubscriptionPlanStockTx db (o_PlanId order) else Ok db);
          let order := set_outcome TopUpStatusExpired (if reserved then SubscriptionStockStatusReleased else o_StockStatus order)
                         (ck_done ck) (o_ProviderPayload order) order in
          db ← upsertSubscriptionTopUpTx ck order (save_order order db);
          Ok (true, db)
    end.

Definition ExpireSubscriptionOrder (ck : clock) (tradeNo expectedMethod : string) (db : shopDB) : result unit * shopDB :=
  shop_tx db (fun db => '(_, db) ← expireSubscriptionOrderTx ck tradeNo expectedMethod db; Ok (tt, db)).

(** One transaction per order; the first error stops the sweep. *)
Fixpoint expire_orders (ck : string -> clock) (trades : list string) (expired : Z) (db : shopDB) : result Z * shopDB :=
  match trades with
  | [] => (Ok expired, db)
  | t :: trades =>
      match shop_tx db (expireSubscriptionOrderTx (ck t) t "") with
      | (Ok transitioned, db') => expire_orders ck trades (if transitioned then expired + 1 else expired) db'
      | (Err e, db') => (Err e, db')
      end
  end.

(** [ORDER BY stock_expires_at ASC, id ASC] *)
Definition expires_le (a b : SubscriptionOrder) : Prop :=
  o_StockExpiresAt a < o_StockExpiresAt b \/ o_StockExpiresAt a = o_StockExpiresAt b /\ o_Id a <= o_Id b.
#[export] Instance expires_le_dec : RelDecision expires_le.
Proof. intros a b. unfold expires_le. apply _. Defined.

Definition due_reservation (now : Z) (o : SubscriptionOrder) : bool :=
  pending_reserved o && (0 <? o_StockExpiresAt o) && (o_StockExpiresAt o <=? now).

Definition ExpireReservedSubscriptionOrders (now : Z) (ck : string -> clock) (limit : Z) (db : shopDB) : result Z * shopDB :=
  let limit := if limit <=? 0 then 100 else limit in
  let due := merge_sort expires_le (List.filter (due_reservation now) (map snd (map_to_list (sh_orders db)))) in
  expire_orders ck (map o_TradeNo (take (Z.to_nat limit) due)) 0 db.

(** [SubscriptionOrder.Update] can change the provider payload only. *)
Definition SubscriptionOrder_Update (o : SubscriptionOrder) (db : shopDB) : result unit * shopDB :=
  if o_Id o <=? 0 then (fail_with "invalid subscription order", db)
  else shop_tx db (fun db =>
    match List.find (fun c => o_Id c =? o_Id o) (map snd (map_to_list (sh_orders db))) with
    | None => Err ErrSubscriptionOrderNotFound
    | Some current =>
        if negb (String.eqb (o_Status o) (o_Status current)) then Err ErrSubscriptionOrderStatusInvalid
        else if negb (String.eqb (o_StockStatus o) (o_StockStatus current)) then Err ErrSubscriptionStockInvalid
        else if negb (o_StockExpiresAt o =? o_StockExpiresAt current) then Err ErrSubscriptionStockInvalid
        else Ok (tt, save_order (set_outcome (o_Status current) (o_StockStatus current) (o_CompleteTime current)
                                   (o_ProviderPayload o) current) db)
    end).
End Completion.
End Orders.
