(* ===== verification/SubGrant.v ===== *)
(** * Grants, cancellations and user groups

    The operations of [src/model/subscription.go] and [src/model/user.go] that
    issue a subscription without payment, and those that end one: they move
    the user in and out of the plan's upgrade group. *)

From stdpp Require Import base numbers list strings sorting gmap sets.
From Stdlib Require Import ZArith Lia.
From S2P Require Import Prelude GoInt GoString GoTime QuotaWindow QuotaPolicy WindowBounds SubPlan SubStock SubOrder.

(** The reward plans: of the main site, and of a provider as (registration, airdrop). *)
Record rewardConfig := mkRewards { rc_register : Z; rc_airdrop : Z; rc_providers : gmap Z (Z * Z) }.

(** A provider never inherits the main site's plans. *)
Definition getSubscriptionRewardPlanIdTx (cfg : rewardConfig) (providerId : Z) (registerGift : bool) : Z :=
  if providerId <=? 0 then (if registerGift then rc_register cfg else rc_airdrop cfg)
  else match rc_providers cfg !! providerId with
       | None => 0
       | Some (register, airdrop) => if registerGift then register else airdrop
       end.

Definition user_group (db : shopDB) (userId : Z) : string := default "" (b_Group <$> sh_users db !! userId).
Definition user_provider (db : shopDB) (userId : Z) : Z := default 0 (b_ProviderId <$> sh_users db !! userId).
Definition set_user_group (userId : Z) (g : string) (db : shopDB) : shopDB :=
  with_users (alter (fun u => mkBuyer (b_ProviderId u) g (b_Quota u) (b_UsedQuota u)) userId (sh_users db)) db.

Definition set_sub_end (status : string) (endTime : Z) (s : UserSubscription) : UserSubscription :=
  mkSub (s_Id s) (s_UserId s) (s_PlanId s) (s_ProviderId s) (s_AmountTotal s) (s_AmountUsed s)
    (s_StartTime s) endTime status (s_LastResetTime s) (s_NextResetTime s)
    (s_QuotaWindowMode s) (s_QuotaWindowModeSnapshot s) (s_FiveHourAmount s)
    (s_FiveHourWindowSeconds s) (s_WeeklyAmount s) (s_QuotaResetPeriodSnapshot s)
    (s_QuotaResetCustomSecondsSnapshot s) (s_QuotaWindowsSnapshot s)
    (s_PlanPolicySnapshotVersion s) (s_ModelLimitsSnapshot s) (s_PlanTitleSnapshot s).
Definition set_issued_end (status : string) (endTime : Z) (i : IssuedSubscription) : IssuedSubscription :=
  mkIssued (set_sub_end status endTime (i_sub i)) (i_Source i) (i_UpgradeGroup i) (i_PrevUserGroup i).

Section Grants.
Context `{LocalZone}.

Definition AdminBindSubscription (ck : clock) (userId planId : Z) (db : shopDB) : result string * shopDB :=
  if (userId <=? 0) || (planId <=? 0) then (fail_with "invalid userId or planId", db)
  else
    match shop_tx db (fun db => CreateUserSubscriptionFromPlanTx ck db userId planId "admin" None) with
    | (Err e, db) => (Err e, db)
    | (Ok issued, db) =>
        let upgradeGroup := TrimSpace (i_UpgradeGroup issued) in
        (Ok (if String.eqb upgradeGroup "" then "" else "用户分组将升级到 " +:+ upgradeGroup), db)
    end.

(** The title of the granted plan, empty when nothing is granted. *)
Definition GrantAirdropSubscription (cfg : rewardConfig) (ck : clock) (userId : Z) (db : shopDB) : result string * shopDB :=
  if userId <=? 0 then (fail_with "invalid user id", db)
  else shop_tx db (fun db =>
    let providerId := user_provider db userId in
    let planId := getSubscriptionRewardPlanIdTx cfg providerId false in
    if planId <=? 0 then Ok ("", db)
    else match shop_plan_by_id db planId with
         | Err ErrRecordNotFound => Ok ("", db)
         | Err e => Err e
         | Ok plan =>
             if negb (p_Enabled (c_plan plan)) then Ok ("", db)
             else if negb (c_ProviderId plan =? providerId) then Ok ("", db)
             else '(issued, db) ← CreateUserSubscriptionFromPlanTx ck db userId (c_Id plan) "airdrop" None;
                  Ok (s_PlanTitleSnapshot (i_sub issued), db)
         end).

(** Inside the registration transaction; a sold-out gift is skipped. *)
Definition grantRegisterGiftSubscriptionTx (cfg : rewardConfig) (ck : clock) (userId providerId : Z) (db : shopDB)
  : result (string * shopDB) :=
  if userId <=? 0 then Ok ("", db)
  else
    let planId := getSubscriptionRewardPlanIdTx cfg providerId true in
    if planId <=? 0 then Ok ("", db)
    else match shop_plan_by_id db planId with
         | Err ErrRecordNotFound => Ok ("", db)
         | Err e => Err e
         | Ok plan =>
             if negb (p_Enabled (c_plan plan)) then Ok ("", db)
             else if negb (c_ProviderId plan =? providerId) then Ok ("", db)
             else match CreateUserSubscriptionFromPlanTx ck db userId (c_Id plan) "register_reward" None with
                  | Ok (_, db) => Ok (p_Title (c_plan plan), db)
                  | Err e => if decide (e = ErrSubscriptionPlanSoldOut) then Ok ("", db) else Err e
                  end
         end.

(** ** Leaving the upgrade group *)

(** An active subscription of the user with an upgrade group. *)
Definition upgrades_now (userId now : Z) (s : IssuedSubscription) : bool :=
  (s_UserId (i_sub s) =? userId) && String.eqb (s_Status (i_sub s)) "active" && (s_StartTime (i_sub s) <=? now) &&
  (now <? s_EndTime (i_sub s)) && negb (String.eqb (i_UpgradeGroup s) "").

Definition downgradeUserGroupForSubscriptionTx (sub : IssuedSubscription) (now : Z) (db : shopDB) : string * shopDB :=
  let upgradeGroup := TrimSpace (i_UpgradeGroup sub) in
  if String.eqb upgradeGroup "" then ("", db)
  else
    let userId := s_UserId (i_sub sub) in
    let currentGroup := user_group db userId in
    if negb (String.eqb currentGroup upgradeGroup) then ("", db)
    else if existsb (fun s => upgrades_now userId now s && negb (s_Id (i_sub s) =? s_Id (i_sub sub))) (map snd (map_to_list (sh_subs db)))
    then ("", db)
    else
      let prevGroup := TrimSpace (i_PrevUserGroup sub) in
      if String.eqb prevGroup "" || String.eqb prevGroup currentGroup then ("", db)
      else (prevGroup, set_user_group userId prevGroup db).

Definition rollback_message (target : string) : string :=
  if String.eqb target "" then "" else "用户分组将回退到 " +:+ target.

Definition AdminInvalidateUserSubscription (now userSubscriptionId : Z) (db : shopDB) : result string * shopDB :=
  if userSubscriptionId <=? 0 then (fail_with "invalid userSubscriptionId", db)
  else shop_tx db (fun db =>
    match sh_subs db !! userSubscriptionId with
    | None => Err ErrRecordNotFound
    | Some sub =>
        let db := with_issued (<[userSubscriptionId := set_issued_end "cancelled" now sub]> (sh_subs db)) db in
        let '(target, db) := downgradeUserGroupForSubscriptionTx sub now db in
        Ok (rollback_message target, db)
    end).

Definition AdminDeleteUserSubscription (now userSubscriptionId : Z) (db : shopDB) : result string * shopDB :=
  if userSubscriptionId <=? 0 then (fail_with "invalid userSubscriptionId", db)
  else shop_tx db (fun db =>
    match sh_subs db !! userSubscriptionId with
    | None => Err ErrRecordNotFound
    | Some sub =>
        let '(target, db) := downgradeUserGroupForSubscriptionTx sub now db in
        Ok (rollback_message target, with_issued (delete userSubscriptionId (sh_subs db)) db)
    end).

(** ** Expiry of due subscriptions *)

Definition due_sub (now : Z) (s : IssuedSubscription) : bool :=
  String.eqb (s_Status (i_sub s)) "active" && (0 <? s_EndTime (i_sub s)) && (s_EndTime (i_sub s) <=? now).

(** [ORDER BY end_time DESC, id DESC LIMIT 1] *)
Definition later (a b : IssuedSubscription) : bool :=
  (s_EndTime (i_sub b) <? s_EndTime (i_sub a)) ||
  (s_EndTime (i_sub a) =? s_EndTime (i_sub b)) && (s_Id (i_sub b) <=? s_Id (i_sub a)).
Definition latest (l : list IssuedSubscription) : option IssuedSubscription :=
  foldr (fun s r => match r with Some x => if later s x then Some s else Some x | None => Some s end) None l.

(** The transaction of one user: the number of rows expired. *)
Definition expire_user (now userId : Z) (db : shopDB) : Z * shopDB :=
  let mine s := (s_UserId (i_sub s) =? userId) && due_sub now s in
  let expired := count_where mine (sh_subs db) in
  let db := with_issued ((fun s => if mine s then set_issued_end "expired" (s_EndTime (i_sub s)) s else s) <$> sh_subs db) db in
  let rows := map snd (map_to_list (sh_subs db)) in
  if existsb (upgrades_now userId now) rows then (expired, db)
  else
    match latest (List.filter (fun s => (s_UserId (i_sub s) =? userId) && String.eqb (s_Status (i_sub s)) "expired" &&
                                        negb (String.eqb (i_UpgradeGroup s) "")) rows) with
    | None => (expired, db)
    | Some lastExpired =>
        let upgradeGroup := TrimSpace (i_UpgradeGroup lastExpired) in
        let prevGroup := TrimSpace (i_PrevUserGroup lastExpired) in
        if String.eqb upgradeGroup "" || String.eqb prevGroup "" then (expired, db)
        else
          let currentGroup := user_group db userId in
          if negb (String.eqb currentGroup upgradeGroup) || String.eqb currentGroup prevGroup then (expired, db)
          else (expired, set_user_group userId prevGroup db)
    end.

(** [ORDER BY end_time ASC, id ASC] *)
Definition end_le (a b : IssuedSubscription) : Prop :=
  s_EndTime (i_sub a) < s_EndTime (i_sub b) \/ s_EndTime (i_sub a) = s_EndTime (i_sub b) /\ s_Id (i_sub a) <= s_Id (i_sub b).
#[export] Instance end_le_dec : RelDecision end_le.
Proof. intros a b. unfold end_le. apply _. Defined.

(** Go visits the users in an unspecified order; each visit concerns its user only. *)
Definition ExpireDueSubscriptions (now limit : Z) (db : shopDB) : Z * shopDB :=
  let limit := if limit <=? 0 then 200 else limit in
  let due := take (Z.to_nat limit) (merge_sort end_le (List.filter (due_sub now) (map snd (map_to_list (sh_subs db))))) in
  let userIds := remove_dups (List.filter (fun u => 0 <? u) (map (fun s => s_UserId (i_sub s)) due)) in
  fold_left (fun '(n, db) userId => let '(k, db') := expire_user now userId db in (n + k, db')) userIds (0, db).
End Grants.
