(* ===== verification/StockSafety.v ===== *)
(** * The stock is never oversold

    The invariant of the shop's tables ([shop_ok]), kept by every operation on
    orders, issuance and the catalogue: the reserved counter of a plan is the
    number of its pending reserved orders, every order is in a state of the
    order state machine, and the copies issued and reserved across a purchase
    scope stay within every positive limit of the scope. *)

From stdpp Require Import base numbers list strings pretty sorting gmap sets.
From Stdlib Require Import ZArith Lia Ascii SpecFloat.
From S2P Require Import Prelude GoInt GoString GoTime QuotaWindow QuotaPolicy WindowBounds SubPlan SubStock SubOrder.

Lemma count_where_sum {K A} `{Countable K} (p : A -> bool) (m : gmap K A) : count_where p m = table_sum (fun a => if p a then 1 else 0) m.
Proof. done. Qed.

(** ** Purchase scopes *)

Definition counts_ok (c : CatalogPlan) : Prop := 0 <= c_IssuedCount c <= max_i64 /\ 0 <= c_ReservedCount c <= max_i64.

(** [x] is in the purchase scope of [c]. *)
Definition same_scope (c x : CatalogPlan) : bool :=
  if String.eqb (c_PurchaseLimitGroup c) "" then c_Id x =? c_Id c
  else in_group (c_ProviderId c) (c_PurchaseLimitGroup c) x.

Lemma addSat_spec l r : 0 <= l <= max_i64 -> 0 <= r <= max_i64 -> addNonNegativeSaturated l r = Z.min max_i64 (l + r).
Proof.
  intros Hl Hr. unfold addNonNegativeSaturated. rewrite (proj2 (Z.ltb_ge l 0)) by lia. destruct (Z.leb_spec r 0); [lia|].
  unfold i64_sub, i64_add. rewrite wrap64_id by (unfold is_i64, min_i64, max_i64 in *; lia).
  destruct (Z.ltb_spec (max_i64 - r) l); [lia|]. rewrite wrap64_id; [lia|]. unfold is_i64, min_i64, max_i64 in *. lia.
Qed.

Lemma minPositive_le a b : 0 <= a -> 0 <= minPositiveInt64 a b /\ (0 < a -> 0 < minPositiveInt64 a b <= a) /\ (0 < b -> 0 < minPositiveInt64 a b <= b).
Proof. intros Ha. unfold minPositiveInt64. cases. Qed.

(** The smallest positive element, or zero. *)
Lemma minPositive_fold l : forall a, 0 <= a ->
  let r := fold_left minPositiveInt64 l a in 0 <= r /\ (0 < a -> 0 < r <= a) /\ (forall x, x ∈ l -> 0 < x -> 0 < r <= x).
Proof.
  induction l as [|y l IH]; intros a Ha; cbn.
  - split_and!; [lia | lia |]. intros x Hx. by apply not_elem_of_nil in Hx.
  - destruct (minPositive_le a y Ha) as (H0 & H1 & H2). destruct (IH _ H0) as (I0 & I1 & I2). split_and!; [lia | lia |].
    intros x [->|Hx]%elem_of_cons Hp; [lia | by apply I2].
Qed.

Lemma scope_fold target l : forall s f s' f',
  fold_result (scope_step target) l (s, f) = Ok (s', f') ->
  0 <= sc_issuedCount s <= max_i64 -> 0 <= sc_reservedCount s <= max_i64 -> Forall counts_ok l ->
  sc_issuedCount s' = Z.min max_i64 (sc_issuedCount s + sum_by c_IssuedCount l) /\
  sc_reservedCount s' = Z.min max_i64 (sc_reservedCount s + sum_by c_ReservedCount l) /\
  sc_totalPurchaseLimit s' = fold_left minPositiveInt64 (map c_TotalPurchaseLimit l) (sc_totalPurchaseLimit s) /\
  sc_maxPerUser s' = fold_left minPositiveInt64 (map c_MaxPurchasePerUser l) (sc_maxPerUser s) /\
  sc_planIDs s' = sc_planIDs s ++ map c_Id l /\
  (f' = true -> (f = true /\ sc_target s' = sc_target s) \/
     exists c, c ∈ l /\ c_Id c = c_Id target /\ sc_target s' = set_group (c_PurchaseLimitGroup target) c).
Proof.
  induction l as [|c l IH]; intros s f s' f' Hok Hi Hr Hc; cbn [fold_result] in Hok.
  { simplify_eq. cbn. rewrite app_nil_r. split_and!; [lia | lia | done | done | done | auto]. }
  apply Forall_cons in Hc as [[Hc1 Hc2] Hc]. apply bind_Ok_inv in Hok as ([s1 f1] & Hs & Hok). unfold scope_step in Hs.
  rewrite (proj2 (Z.ltb_ge _ _) (proj1 Hc1)), (proj2 (Z.ltb_ge _ _) (proj1 Hc2)) in Hs. cbn [orb] in Hs. cbn zeta in Hs.
  assert (Hs1 : sc_issuedCount s1 = Z.min max_i64 (sc_issuedCount s + c_IssuedCount c) /\
    sc_reservedCount s1 = Z.min max_i64 (sc_reservedCount s + c_ReservedCount c) /\
    sc_totalPurchaseLimit s1 = minPositiveInt64 (sc_totalPurchaseLimit s) (c_TotalPurchaseLimit c) /\
    sc_maxPerUser s1 = minPositiveInt64 (sc_maxPerUser s) (c_MaxPurchasePerUser c) /\
    sc_planIDs s1 = sc_planIDs s ++ [c_Id c] /\
    ((f1 = f /\ sc_target s1 = sc_target s) \/ (c_Id c = c_Id target /\ sc_target s1 = set_group (c_PurchaseLimitGroup target) c))).
  { rewrite <- !addSat_spec by lia. destruct (Z.eqb_spec (c_Id c) (c_Id target)) as [Eid|].
    - destruct (NormalizeSubscriptionPurchaseLimitGroup _) as [g|]; [|done]. destruct (_ && _) eqn:Eg; [|done].
      apply andb_true_iff in Eg as [_ ->%String.eqb_eq]. simplify_eq. cbn. auto 10.
    - simplify_eq. cbn. auto 10. }
  destruct Hs1 as (E1 & E2 & E3 & E4 & E5 & E6). apply IH in Hok; [| lia | lia | done].
  pose proof (sum_by_nonneg c_IssuedCount l) as Hn1. pose proof (sum_by_nonneg c_ReservedCount l) as Hn2.
  rewrite Forall_forall in Hc.
  specialize (Hn1 ltac:(intros x Hx; apply Hc; done)). specialize (Hn2 ltac:(intros x Hx; apply Hc; done)).
  destruct Hok as (O1 & O2 & O3 & O4 & O5 & O6). cbn. split_and!; [lia | lia | congruence | congruence | |].
  - by rewrite O5, E5, <- app_assoc.
  - intros Hf. destruct (O6 Hf) as [[Hf1 Ht]|(x & Hx & Hid & Ht)].
    + destruct E6 as [[-> Ht1]|[Hid Ht1]]; [left; by rewrite Ht, Ht1 | right; exists c; rewrite Ht, Ht1; split_and!; try done; left].
    + right. exists x. split_and!; try done. by right.
Qed.

(** ** Group keys are stable *)

Lemma group_char_first a s : group_char a = true -> strip_any spaces (String a s) = None /\ strip_any (map str_rev spaces) (String a s) = None.
Proof. destruct a as [[] [] [] [] [] [] [] []]; intros Hg; vm_compute in Hg; try discriminate Hg; split; vm_compute; reflexivity. Qed.

Lemma group_char_lower a s : group_char a = true -> ToLower (String a s) = String a (ToLower s).
Proof. destruct a as [[] [] [] [] [] [] [] []]; intros Hg; vm_compute in Hg; try discriminate Hg; reflexivity. Qed.

Lemma trim_with_stop ps n a s : strip_any ps (String a s) = None -> trim_with ps n (String a s) = String a s.
Proof. intros E. destruct n; [done|]. cbn [trim_with]. by rewrite E. Qed.

Definition group_key (s : string) : bool := forallb group_char (String.list_ascii_of_string s).

Lemma group_key_rev s : group_key s = true -> group_key (str_rev s) = true.
Proof.
  unfold group_key. induction s as [|a s IH]; [done|]. cbn [str_rev String.list_ascii_of_string forallb]. rewrite andb_true_iff. intros [Ha Hs].
  assert (Happ : forall x y, String.list_ascii_of_string (x +:+ y) = String.list_ascii_of_string x ++ String.list_ascii_of_string y).
  { intros x y. induction x as [|b x IHx]; [done|]. change (b :: String.list_ascii_of_string (x +:+ y) = b :: (String.list_ascii_of_string x ++ String.list_ascii_of_string y)). by rewrite IHx. }
  rewrite Happ, forallb_app, IH by done. cbn. by rewrite Ha.
Qed.

Lemma group_key_norm s : group_key s = true -> norm s = s.
Proof.
  intros Hk. assert (Ht : forall x, group_key x = true -> trim_left x = x).
  { intros [|a x] Hx; [done|]. apply andb_true_iff in Hx as [Ha _]. apply trim_with_stop, (proj1 (group_char_first a x Ha)). }
  assert (Hr : forall x, group_key x = true -> trim_right x = x).
  { intros x Hx. unfold trim_right. pose proof (group_key_rev x Hx) as Hv. rewrite <- (str_rev_involutive x) at 3. f_equal.
    destruct (str_rev x) as [|a y]; [by destruct (String.length x)|]. apply andb_true_iff in Hv as [Ha _].
    apply trim_with_stop, (proj2 (group_char_first a y Ha)). }
  unfold norm, TrimSpace. rewrite Ht, Hr by done. clear Ht Hr. induction s as [|a s IH]; [done|].
  apply andb_true_iff in Hk as [Ha Hs]. rewrite group_char_lower by done. f_equal. by apply IH.
Qed.

Lemma normalize_group_stable raw g :
  NormalizeSubscriptionPurchaseLimitGroup raw = Some g -> NormalizeSubscriptionPurchaseLimitGroup g = Some g.
Proof.
  unfold NormalizeSubscriptionPurchaseLimitGroup. intros Hn. destruct (String.eqb_spec (norm raw) ""); [by simplify_eq|].
  destruct (64 <? _)%nat eqn:El; [done|]. destruct (forallb _ _) eqn:Ek; [|done]. simplify_eq.
  rewrite (group_key_norm _ Ek). rewrite El, Ek. by rewrite (proj2 (String.eqb_neq _ _)).
Qed.

(** ** The invariant *)

(** The states of an order: the payment status and the stock status. *)
Definition order_state (o : SubscriptionOrder) : Prop :=
  (o_Status o = TopUpStatusPending /\ (o_StockStatus o = SubscriptionStockStatusReserved \/ o_StockStatus o = "")) \/
  (o_Status o = TopUpStatusSuccess /\ o_StockStatus o = SubscriptionStockStatusIssued) \/
  (o_Status o = TopUpStatusExpired /\ (o_StockStatus o = SubscriptionStockStatusReleased \/ o_StockStatus o = "")).

(** Copies issued and reserved across the purchase scope of [c]. *)
Definition weight (c x : CatalogPlan) : Z := if same_scope c x then c_IssuedCount x + c_ReservedCount x else 0.
Definition allocated (c : CatalogPlan) (plans : gmap Z CatalogPlan) : Z := table_sum (weight c) plans.

Definition reserved_orders (id : Z) (db : shopDB) : Z :=
  count_where (fun o => (o_PlanId o =? id) && pending_reserved o) (sh_orders db).

(** A row of the catalogue. *)
Record plan_ok (id : Z) (c : CatalogPlan) : Prop := {
  pl_id : c_Id c = id /\ 0 < id;
  pl_group : NormalizeSubscriptionPurchaseLimitGroup (c_PurchaseLimitGroup c) = Some (c_PurchaseLimitGroup c);
  pl_counts : counts_ok c;
  pl_limit : c_TotalPurchaseLimit c < max_i64
}.

Record shop_ok (db : shopDB) : Prop := {
  so_plans : forall id c, sh_plans db !! id = Some c -> plan_ok id c /\ id < sh_nextPlan db;
  so_reserved : forall id c, sh_plans db !! id = Some c -> c_ReservedCount c = reserved_orders id db;
  so_orders : forall t o, sh_orders db !! t = Some o -> o_TradeNo o = t /\ order_state o /\ o_PlanId o < sh_nextPlan db;
  so_limit : forall id c, sh_plans db !! id = Some c -> 0 < c_TotalPurchaseLimit c -> allocated c (sh_plans db) <= c_TotalPurchaseLimit c;
  so_next : 0 < sh_nextPlan db
}.

Lemma set_group_same c : set_group (c_PurchaseLimitGroup c) c = c.
Proof. by destruct c. Qed.

Lemma plans_where_elem p db c : c ∈ plans_where p db <-> p c = true /\ exists id, sh_plans db !! id = Some c.
Proof.
  unfold plans_where. rewrite merge_sort_Permutation, list_elem_of_In, filter_In, <- list_elem_of_In. split.
  - intros [Hc Hp]. apply list_elem_of_fmap in Hc as ([id y] & -> & Hy%elem_of_map_to_list). eauto.
  - intros [Hp [id Hid]]. split; [|done]. apply list_elem_of_fmap. exists (id, c). split; [done|]. by apply elem_of_map_to_list.
Qed.

Lemma plans_where_sum f p db : sum_by f (plans_where p db) = table_sum (fun c => if p c then f c else 0) (sh_plans db).
Proof. unfold plans_where. rewrite (sum_by_perm f _ _ (merge_sort_Permutation _ _)). apply sum_by_filter. Qed.

Lemma scope_plans_eq db c : scope_plans db c = plans_where (same_scope c) db.
Proof. unfold scope_plans, same_scope. by destruct (String.eqb _ _). Qed.

(** Two plans of one scope have the same scope. *)
Lemma same_scope_sym db id c id' x :
  shop_ok db -> sh_plans db !! id = Some c -> sh_plans db !! id' = Some x -> same_scope c x = true ->
  forall y, same_scope x y = same_scope c y.
Proof.
  intros Hok Hc Hx Hs y. unfold same_scope in *. destruct (String.eqb_spec (c_PurchaseLimitGroup c) "") as [Ec|Ec].
  - apply Z.eqb_eq in Hs. destruct (so_plans _ Hok _ _ Hc) as [[[E1 _] _ _ _] _]. destruct (so_plans _ Hok _ _ Hx) as [[[E2 _] _ _ _] _].
    assert (id' = id) as -> by congruence. simplify_eq. by rewrite (proj2 (String.eqb_eq _ _) Ec).
  - unfold in_group in Hs. apply andb_true_iff in Hs as [Hp%Z.eqb_eq Hg%String.eqb_eq]. rewrite Hg.
    by rewrite (proj2 (String.eqb_neq _ _) Ec), Hp.
Qed.

Lemma same_scope_refl c : same_scope c c = true.
Proof. unfold same_scope, in_group. goal_if; [apply Z.eqb_refl|]. by rewrite Z.eqb_refl, String.eqb_refl. Qed.

(** What a loaded scope holds. *)
Lemma load_scope_inv db pid scope :
  shop_ok db -> loadSubscriptionPurchaseScopeTx db pid = Ok scope ->
  exists c, sh_plans db !! pid = Some c /\ sc_target scope = c /\
    sc_issuedCount scope = Z.min max_i64 (table_sum (fun x => if same_scope c x then c_IssuedCount x else 0) (sh_plans db)) /\
    sc_reservedCount scope = Z.min max_i64 (table_sum (fun x => if same_scope c x then c_ReservedCount x else 0) (sh_plans db)) /\
    (forall id x, sh_plans db !! id = Some x -> same_scope c x = true ->
       (0 < c_TotalPurchaseLimit x -> 0 < sc_totalPurchaseLimit scope <= c_TotalPurchaseLimit x) /\
       (0 < c_MaxPurchasePerUser x -> 0 < sc_maxPerUser scope <= c_MaxPurchasePerUser x)) /\
    (forall i, i ∈ sc_planIDs scope <-> exists x, sh_plans db !! i = Some x /\ same_scope c x = true).
Proof.
  intros Hok Hl. unfold loadSubscriptionPurchaseScopeTx in Hl. destruct (_ <=? 0); [done|].
  destruct (sh_plans db !! pid) as [c|] eqn:Ec; [|done]. destruct (so_plans _ Hok _ _ Ec) as [[[Eid _] Hg _ _] _].
  rewrite Hg, set_group_same in Hl. rewrite scope_plans_eq in Hl. destruct (_ =? 0)%nat; [done|].
  destruct (fold_result _ _ _) as [[s f]|] eqn:Ef; [|done]. destruct f; [|done]. simplify_eq.
  assert (Hcs : Forall counts_ok (plans_where (same_scope c) db)).
  { apply Forall_forall. intros x [_ [id Hx]]%plans_where_elem. apply (so_plans _ Hok _ _ Hx). }
  apply scope_fold in Ef; [| cbn; unfold max_i64; lia | cbn; unfold max_i64; lia | done].
  destruct Ef as (E1 & E2 & E3 & E4 & E5 & E6). cbn in E1, E2, E3, E4, E5. rewrite plans_where_sum in E1, E2.
  exists c. split_and!; [done | | done | done | |].
  - destruct (E6 eq_refl) as [[? _]|(x & Hx & Hid & ->)]; [done|]. apply plans_where_elem in Hx as [_ [id Hx]].
    destruct (so_plans _ Hok _ _ Hx) as [[[E7 _] _ _ _] _]. assert (id = c_Id c) as -> by congruence. rewrite Ec in Hx. simplify_eq.
    apply set_group_same.
  - intros id x Hx Hs. assert (Hin : x ∈ plans_where (same_scope c) db) by (apply plans_where_elem; eauto).
    destruct (minPositive_fold (map c_TotalPurchaseLimit (plans_where (same_scope c) db)) 0 ltac:(lia)) as (_ & _ & H1).
    destruct (minPositive_fold (map c_MaxPurchasePerUser (plans_where (same_scope c) db)) 0 ltac:(lia)) as (_ & _ & H2).
    rewrite E3, E4. split; [apply H1 | apply H2]; by apply list_elem_of_fmap_2.
  - intros i. rewrite E5. split.
    + intros (x & -> & [Hs [id Hx]]%plans_where_elem)%list_elem_of_fmap. destruct (so_plans _ Hok _ _ Hx) as [[[<- _] _ _ _] _]. eauto.
    + intros (x & Hx & Hs). apply list_elem_of_fmap. exists x. destruct (so_plans _ Hok _ _ Hx) as [[[E7 _] _ _ _] _].
      split; [done|]. apply plans_where_elem. eauto.
Qed.

(** ** Stock transitions *)

(** Everything an order and its plan's counters change together. *)
Lemma restock db db' pid c i r :
  shop_ok db -> sh_plans db !! pid = Some c -> 0 <= i <= max_i64 -> 0 <= r <= max_i64 ->
  (forall id x, sh_plans db !! id = Some x -> same_scope x c = true -> 0 < c_TotalPurchaseLimit x ->
     allocated x (sh_plans db) + (i + r - c_IssuedCount c - c_ReservedCount c) <= c_TotalPurchaseLimit x) ->
  sh_plans db' = <[pid := set_counts i r c]> (sh_plans db) -> sh_nextPlan db' = sh_nextPlan db ->
  (forall t o, sh_orders db' !! t = Some o -> o_TradeNo o = t /\ order_state o /\ o_PlanId o < sh_nextPlan db) ->
  (forall id, reserved_orders id db' = reserved_orders id db + if id =? pid then r - c_ReservedCount c else 0) ->
  shop_ok db'.
Proof.
  intros Hok Hc Hi Hr Hal Ep En Hord Hres. destruct (so_plans _ Hok _ _ Hc) as [[E1 E2 E3 E4] E5].
  assert (Hal' : forall x, allocated x (sh_plans db') = allocated x (sh_plans db) +
    if same_scope x c then i + r - c_IssuedCount c - c_ReservedCount c else 0).
  { intros x. unfold allocated. rewrite Ep, (table_sum_insert _ _ _ c) by done. unfold weight.
    change (same_scope x (set_counts i r c)) with (same_scope x c). destruct (same_scope x c); cbn; lia. }
  split.
  - rewrite En, Ep. intros id x [[<- <-]|[? Hx]]%lookup_insert_Some; [|by apply (so_plans _ Hok)]. by split.
  - rewrite Ep. intros id x [[<- <-]|[Hne Hx]]%lookup_insert_Some; rewrite Hres.
    + rewrite Z.eqb_refl, <- (so_reserved _ Hok _ _ Hc). cbn. lia.
    + rewrite (proj2 (Z.eqb_neq id pid)), (so_reserved _ Hok _ _ Hx) by done. lia.
  - rewrite En. exact Hord.
  - intros id x Hx Hl. rewrite Hal'. rewrite Ep in Hx. apply lookup_insert_Some in Hx as [[<- <-]|[Hne Hx]].
    + change (same_scope (set_counts i r c) c) with (same_scope c c). rewrite same_scope_refl.
      apply (Hal pid c Hc (same_scope_refl c) Hl).
    + pose proof (so_limit _ Hok _ _ Hx Hl). destruct (same_scope x c) eqn:Es; [by eapply Hal | lia].
  - rewrite En. apply Hok.
Qed.

(** An increment found room in every limit of the scope. *)
Lemma increment_inv db pid reserve db' :
  shop_ok db -> incrementSubscriptionPurchaseScopeStockTx db pid reserve = Ok db' ->
  exists c, sh_plans db !! pid = Some c /\ (if reserve then c_ReservedCount c else c_IssuedCount c) < max_i64 /\
    db' = with_plans (<[pid := if reserve then set_counts (c_IssuedCount c) (c_ReservedCount c + 1) c
                               else set_counts (c_IssuedCount c + 1) (c_ReservedCount c) c]> (sh_plans db)) db /\
    forall id x, sh_plans db !! id = Some x -> same_scope x c = true -> 0 < c_TotalPurchaseLimit x ->
      allocated x (sh_plans db) + 1 <= c_TotalPurchaseLimit x.
Proof.
  intros Hok Hi. unfold incrementSubscriptionPurchaseScopeStockTx in Hi. apply bind_Ok_inv in Hi as (scope & Hl & Hi).
  destruct (load_scope_inv db pid scope Hok Hl) as (c & Hc & Et & Ei & Er & Hlim & _).
  destruct (so_plans _ Hok _ _ Hc) as [[[Eid _] _ Hcnt _] _]. cbn zeta in Hi. rewrite Et in Hi. clear Et. destruct (_ || _) eqn:E1 in Hi; [done|].
  destruct (_ && _) eqn:E2 in Hi; [done|]. rewrite Eid, Hc in Hi. destruct (_ && _) eqn:E3 in Hi; [|done]. simplify_eq.
  exists c. apply orb_false_iff in E1 as [_ E1%Z.leb_gt]. split_and!; try done.
  intros id x Hx Hs Hp. rewrite Ei, Er in E2. pose proof (same_scope_sym db id x (c_Id c) c Hok Hx Hc Hs) as Hsym.
  assert (Hs' : same_scope c x = true) by (rewrite Hsym; apply same_scope_refl).
  destruct (Hlim id x Hx Hs') as [Hlim' _]. specialize (Hlim' Hp). apply andb_false_iff in E2 as [E2%Z.ltb_ge|E2%Z.leb_gt]; [lia|].
  set (si := table_sum _ _) in E2. set (sr := table_sum (fun x => if same_scope c x then c_ReservedCount x else 0) (sh_plans db)) in E2.
  assert (Hsi : 0 <= si /\ 0 <= sr).
  { split; apply table_sum_nonneg; intros k y Hy; destruct (so_plans _ Hok _ _ Hy) as [[_ _ [? ?] _] _]; destruct (same_scope c y); lia. }
  destruct (so_plans _ Hok _ _ Hx) as [[_ _ _ Hmax] _]. rewrite addSat_spec in E2 by lia.
  assert (Eal : allocated x (sh_plans db) = si + sr); [|lia].
  unfold allocated, si, sr, table_sum. induction (map snd (map_to_list (sh_plans db))) as [|y l IH]; [done|]. cbn [sum_by].
  rewrite IH. unfold weight at 1. rewrite <- Hsym. destruct (same_scope c y); lia.
Qed.

Lemma reserved_orders_nonneg id db : 0 <= reserved_orders id db.
Proof. unfold reserved_orders. rewrite count_where_sum. apply table_sum_nonneg. intros k x _. goal_if; lia. Qed.

(** Inserting or replacing an order changes the count of its plan only. *)
Lemma reserved_save_new o db : sh_orders db !! o_TradeNo o = None ->
  forall id, reserved_orders id (save_order o db) = reserved_orders id db + if (o_PlanId o =? id) && pending_reserved o then 1 else 0.
Proof. intros Hn id. unfold reserved_orders. rewrite !count_where_sum. cbn. rewrite table_sum_insert_new by done. lia. Qed.

Lemma reserved_save o o' db : sh_orders db !! o_TradeNo o = Some o -> o_TradeNo o' = o_TradeNo o -> o_PlanId o' = o_PlanId o ->
  forall id, reserved_orders id (save_order o' db) = reserved_orders id db +
    if o_PlanId o =? id then (if pending_reserved o' then 1 else 0) - (if pending_reserved o then 1 else 0) else 0.
Proof.
  intros Hn Et Ep id. unfold reserved_orders. rewrite !count_where_sum. cbn. rewrite Et, (table_sum_insert _ _ _ o) by done.
  rewrite Ep. destruct (o_PlanId o =? id); cbn; lia.
Qed.

(** ** Operations on orders keep the invariant *)

(** The catalogue, the orders and the subscriptions are as before. *)
Definition shop_frame (db db' : shopDB) : Prop :=
  sh_plans db' = sh_plans db /\ sh_orders db' = sh_orders db /\ sh_subs db' = sh_subs db /\
  sh_nextPlan db' = sh_nextPlan db /\ sh_nextSub db' = sh_nextSub db.

(** Only the counters of one plan changed. *)
Definition recounted (pid : Z) (db db' : shopDB) : Prop :=
  exists c i r, sh_plans db !! pid = Some c /\ sh_plans db' = <[pid := set_counts i r c]> (sh_plans db).

Lemma shop_ok_same db db' :
  shop_ok db -> sh_plans db' = sh_plans db -> sh_orders db' = sh_orders db -> sh_nextPlan db' = sh_nextPlan db -> shop_ok db'.
Proof.
  intros [H1 H2 H3 H4 H5] E1 E2 E3. split; rewrite ?E1, ?E2, ?E3; try done. unfold reserved_orders. by rewrite E2.
Qed.

Definition same_keys_plan (p q : SubscriptionPlan) : Prop := p_Id q = p_Id p /\ p_ProviderId q = p_ProviderId p.

Lemma direct_window_keys p m : same_keys_plan p (fst (direct_window p m)).
Proof. unfold direct_window, same_keys_plan. cbn zeta. cbn [fst]. by destruct (str_in m five_hour_modes). Qed.

Lemma normalize_body_keys p : same_keys_plan p (normalize_body p).
Proof.
  unfold normalize_body. cbn zeta. destruct (NormalizeQuotaWindowList _); [|done].
  set (q := set_windows [] p). pose proof (direct_window_keys q (norm (p_QuotaWindowMode q))) as Hd. destruct (str_in _ direct_modes).
  - destruct (direct_window q _) as [q' [w|]]; [done|]. cbn in Hd. destruct (if String.eqb _ _ then _ else _); done.
  - destruct (if String.eqb _ _ then _ else _); done.
Qed.

Lemma NormalizeQuotaWindows_keys p : same_keys_plan p (NormalizeQuotaWindows p).
Proof.
  unfold NormalizeQuotaWindows. cbn zeta. goal_if; [goal_if; done|]. goal_if; [done|].
  match goal with |- same_keys_plan _ (normalize_body ?q) => by destruct (normalize_body_keys q) end.
Qed.

Lemma payment_snapshot_keeps `{Accounting} o c o' :
  normalizeSubscriptionOrderPaymentSnapshot o c = Ok o' -> exists m1 m2, o' = set_money m1 m2 o.
Proof. unfold normalizeSubscriptionOrderPaymentSnapshot. intros Hn. repeat (case_match; simplify_eq/=); eauto. Qed.

Section Operations.
Context `{LocalZone} `{Accounting}.

Lemma create_order_inv ck o db o' db' :
  shop_ok db -> CreateSubscriptionOrderTx ck o db = Ok (o', db') ->
  shop_ok db' /\ pending_reserved o' = true /\ o_UserId o' = o_UserId o /\ o_PlanId o' = o_PlanId o /\
  sh_orders db !! o_TradeNo o = None /\ sh_orders db' = <[o_TradeNo o := o']> (sh_orders db) /\
  sh_subs db' = sh_subs db /\ sh_nextSub db' = sh_nextSub db /\
  checkUserSubscriptionPurchaseScopeLimitTx db (o_UserId o) (o_PlanId o) = Ok tt /\
  exists c, sh_plans db !! o_PlanId o = Some c /\
    sh_plans db' = <[o_PlanId o := set_counts (c_IssuedCount c) (c_ReservedCount c + 1) c]> (sh_plans db).
Proof.
  intros Hok Hc. unfold CreateSubscriptionOrderTx in Hc. destruct (_ || _) in Hc; [done|]. cbn zeta in Hc.
  destruct (_ && _) in Hc; [done|]. destruct (_ && _) in Hc; [done|]. destruct (sh_users db !! o_UserId o); [|done].
  destruct (negb _) in Hc; [done|]. apply bind_Ok_inv in Hc as (scope & Hl & Hc).
  destruct (negb _) in Hc; [done|]. destruct (_ || _) in Hc; [done|]. apply bind_Ok_inv in Hc as ([] & Hlim & Hc).
  apply bind_Ok_inv in Hc as (o1 & Hp & Hc). apply payment_snapshot_keeps in Hp as (m1 & m2 & ->).
  apply bind_Ok_inv in Hc as (snap & _ & Hc). apply bind_Ok_inv in Hc as (db1 & Hr & Hc).
  apply (increment_inv _ _ true) in Hr as (c & Hc0 & Hmax & -> & Hroom); [|done]. cbn in Hc. cbn in Hc0.
  destruct (sh_orders db !! o_TradeNo o) eqn:Et; [done|]. injection Hc as <- <-. cbn.
  split_and!; try done; [| by exists c].
  destruct (so_plans _ Hok _ _ Hc0) as [[_ _ [Hcs1 Hcs2] _] Hnext].
  eapply (restock db _ (o_PlanId o) c (c_IssuedCount c) (c_ReservedCount c + 1)); try done; [lia | | |].
  - intros id x Hx Hs Hp. specialize (Hroom id x Hx Hs Hp). lia.
  - cbn. intros t x [[<- <-]|[Hne Hx]]%lookup_insert_Some; [|by apply (so_orders _ Hok)].
    split_and!; [done | left; split; [done | by left] | done].
  - intros id. cbn [reserved_orders]. unfold reserved_orders. rewrite !count_where_sum. cbn. rewrite table_sum_insert_new by done.
    cbn. unfold pending_reserved. cbn. rewrite andb_true_r, (Z.eqb_sym id). destruct (_ =? id); lia.
Qed.

Lemma upsert_frame ck o db db' : upsertSubscriptionTopUpTx ck o db = Ok db' -> shop_frame db db' /\ sh_users db' = sh_users db /\ sh_owners db' = sh_owners db.
Proof. unfold upsertSubscriptionTopUpTx. cbn zeta. intros Hu. repeat (case_match; simplify_eq); done. Qed.

Lemma income_frame ck o db a b c db' : applyProviderSubscriptionIncomeTx ck o db = Ok (a, b, c, db') -> shop_frame db db'.
Proof. unfold applyProviderSubscriptionIncomeTx. cbn zeta. intros Hu. repeat (case_match; simplify_eq); done. Qed.

Lemma shop_frame_ok db db' : shop_ok db -> shop_frame db db' -> shop_ok db'.
Proof. intros Hok (E1 & E2 & _ & E3 & _). by eapply shop_ok_same. Qed.

Lemma Ok_pair_inj {A B} (a a' : A) (b b' : B) : Ok (a, b) = Ok (a', b') -> a' = a /\ b' = b.
Proof. by intros [= -> ->]. Qed.

(** What issuing a subscription does to the stock. *)
Lemma issue_inv ck db uid pid ent src reserved prov iss db' :
  shop_ok db -> createUserSubscriptionFromPlanTxWithSnapshot ck db uid pid ent src reserved prov = Ok (iss, db') ->
  exists c, sh_plans db !! pid = Some c /\ c_IssuedCount c < max_i64 /\
    (if reserved then 0 < c_ReservedCount c
     else checkUserSubscriptionPurchaseScopeLimitTx db uid pid = Ok tt /\
          forall id x, sh_plans db !! id = Some x -> same_scope x c = true -> 0 < c_TotalPurchaseLimit x ->
            allocated x (sh_plans db) + 1 <= c_TotalPurchaseLimit x) /\
    sh_plans db' = <[pid := set_counts (c_IssuedCount c + 1) (c_ReservedCount c - if reserved then 1 else 0) c]> (sh_plans db) /\
    sh_orders db' = sh_orders db /\ sh_nextPlan db' = sh_nextPlan db /\ sh_topups db' = sh_topups db /\
    sh_subs db' = <[sh_nextSub db := iss]> (sh_subs db) /\ sh_nextSub db' = sh_nextSub db + 1 /\
    s_UserId (i_sub iss) = uid /\ s_PlanId (i_sub iss) = pid /\ i_Source iss = src.
Proof.
  intros Hok Hc. unfold createUserSubscriptionFromPlanTxWithSnapshot in Hc. destruct (_ =? 0) in Hc; [done|].
  destruct (_ <=? 0) in Hc; [done|]. destruct (sh_users db !! uid) as [lu|]; [|done].
  apply bind_Ok_inv in Hc as (scope & Hl & Hc). cbn zeta in Hc. apply bind_Ok_inv in Hc as (plan & Hp & Hc).
  destruct (load_scope_inv db pid scope Hok Hl) as (c & Hc0 & Et & _). destruct (so_plans _ Hok _ _ Hc0) as [[[Eid _] _ [Hcs1 Hcs2] _] _].
  assert (Epid : c_Id plan = pid).
  { rewrite <- Eid. destruct ent as [e|]; [|simplify_eq; apply NormalizeQuotaWindows_keys].
    destruct (_ || _) eqn:Ek in Hp; [done|]. apply orb_false_iff in Ek as [Ek%negb_false_iff%Z.eqb_eq _].
    destruct (NormalizeSubscriptionPurchaseLimitGroup _); [|done]. destruct (NormalizeSubscriptionPurchaseLimitGroup _); [|done].
    destruct (String.eqb _ _); [|done]. simplify_eq. etrans; [exact Ek|]. apply NormalizeQuotaWindows_keys. }
  clear Hp Et. apply bind_Ok_inv in Hc as (sub & Hsub & Hc). apply issued_inv in Hsub as (_ & eu & la & ne & ->).
  destruct (negb _) in Hc; [done|]. destruct (negb _) in Hc; [done|]. apply bind_Ok_inv in Hc as (db1 & Hst & Hc).
  apply Ok_pair_inj in Hc as [-> ->]. rewrite Epid in Hst. exists c.
  assert (Hdb1 : c_IssuedCount c < max_i64 /\ (if reserved then 0 < c_ReservedCount c
     else checkUserSubscriptionPurchaseScopeLimitTx db uid pid = Ok tt /\
          forall id x, sh_plans db !! id = Some x -> same_scope x c = true -> 0 < c_TotalPurchaseLimit x ->
            allocated x (sh_plans db) + 1 <= c_TotalPurchaseLimit x) /\
     db1 = with_plans (<[pid := set_counts (c_IssuedCount c + 1) (c_ReservedCount c - if reserved then 1 else 0) c]> (sh_plans db)) db).
  { destruct reserved.
    - unfold commitReservedSubscriptionPlanStockTx in Hst. rewrite Hc0 in Hst. destruct (_ && _) eqn:Eg in Hst; [|done]. simplify_eq.
      split_bool. split_and!; [lia | lia | done].
    - apply bind_Ok_inv in Hst as ([] & Hlim & Hst). apply (increment_inv _ _ false) in Hst as (c1 & Hc1 & Hm & -> & Hroom); [|done].
      simplify_eq. split; [done|]. split; [done | by rewrite Z.sub_0_r]. }
  destruct Hdb1 as (Hm & Hr & ->). cbn. set (up := negb _ && negb _). split_and!; try done; destruct up; done.
Qed.

(** The order a payment was taken for: its state moved from pending to
    success and one subscription was issued for it. *)
Definition completed (t : string) (o : SubscriptionOrder) (db db' : shopDB) : Prop :=
  o_Status o = TopUpStatusPending /\
  exists iss o', sh_orders db' = <[t := o']> (sh_orders db) /\ o_TradeNo o' = t /\
    o_Status o' = TopUpStatusSuccess /\ o_StockStatus o' = SubscriptionStockStatusIssued /\
    o_UserId o' = o_UserId o /\ o_PlanId o' = o_PlanId o /\
    sh_subs db' = <[sh_nextSub db := iss]> (sh_subs db) /\ sh_nextSub db' = sh_nextSub db + 1 /\
    s_UserId (i_sub iss) = o_UserId o /\ s_PlanId (i_sub iss) = o_PlanId o /\ i_Source iss = "order" /\
    recounted (o_PlanId o) db db' /\
    (pending_reserved o = true \/ checkUserSubscriptionPurchaseScopeLimitTx db (o_UserId o) (o_PlanId o) = Ok tt).

Lemma decode_snapshot_id raw pid prov s : decodeSubscriptionPlanSnapshot raw pid prov = Ok (Some s) -> c_Id s = pid.
Proof.
  unfold decodeSubscriptionPlanSnapshot. intros Hd. destruct raw as [| |c]; try done.
  destruct (Z.leb_spec (c_Id c) 0); cbn [orb] in Hd; [done|]. destruct (Z.eqb_spec (c_Id c) pid) as [E|]; [|done]. cbn [negb] in Hd.
  destruct (negb _) in Hd; [done|]. cbn zeta in Hd. destruct (calcPlanEndTime _ _); [|done]. destruct (po_invalid _); [done|].
  injection Hd as <-. rewrite <- E. apply NormalizeQuotaWindows_keys.
Qed.

(** The whole of a first completion: the counters move with the order. *)
Lemma issue_for_order_ok ck db t o snap iss db1 db2 o' :
  shop_ok db -> sh_orders db !! t = Some o -> o_Status o = TopUpStatusPending ->
  (forall s, snap = Some s -> c_Id s = o_PlanId o) -> issue_for_order ck db o snap = Ok (iss, db1) ->
  o_TradeNo o' = o_TradeNo o -> o_PlanId o' = o_PlanId o -> o_UserId o' = o_UserId o ->
  o_Status o' = TopUpStatusSuccess -> o_StockStatus o' = SubscriptionStockStatusIssued ->
  sh_plans db2 = sh_plans db1 -> sh_orders db2 = <[t := o']> (sh_orders db1) -> sh_nextPlan db2 = sh_nextPlan db1 ->
  sh_subs db2 = sh_subs db1 -> sh_nextSub db2 = sh_nextSub db1 ->
  shop_ok db2 /\ completed t o db db2.
Proof.
  intros Hok Ho Hst Hsnap Hi E1 E2 E3 E4 E5 F1 F2 F3 F4 F5. destruct (so_orders _ Hok _ _ Ho) as (Et & _ & Hlt).
  unfold issue_for_order in Hi. cbn zeta in Hi.
  assert (Hpid : (match snap with Some s => c_Id s | None => o_PlanId o end) = o_PlanId o) by (destruct snap; [by apply Hsnap | done]).
  rewrite Hpid in Hi. assert (Hi' : exists reserved, pending_reserved o = reserved /\
    createUserSubscriptionFromPlanTxWithSnapshot ck db (o_UserId o) (o_PlanId o) snap "order" reserved (Some (o_ProviderId o)) = Ok (iss, db1)).
  { unfold pending_reserved. rewrite Hst. destruct (String.eqb _ SubscriptionStockStatusReserved); [by exists true|].
    destruct (String.eqb _ ""); [by exists false | done]. }
  clear Hi. destruct Hi' as (reserved & Hpr & Hi). apply issue_inv in Hi as (c & Hc & Hmax & Hres & G1 & G2 & G3 & _ & G4 & G5 & G6 & G7 & G8); [|done].
  assert (Hpr' : pending_reserved o' = false) by (unfold pending_reserved; by rewrite E4).
  destruct (so_plans _ Hok _ _ Hc) as [[_ _ [Hcs1 Hcs2] _] _]. split.
  - eapply (restock db db2 (o_PlanId o) c (c_IssuedCount c + 1) (c_ReservedCount c - if reserved then 1 else 0)); try done;
      try congruence; [lia | destruct reserved; lia | | |].
    + intros id x Hx Hs Hp. pose proof (so_limit _ Hok _ _ Hx Hp). destruct reserved; [lia|]. destruct Hres as [_ Hroom].
      specialize (Hroom id x Hx Hs Hp). lia.
    + rewrite F2, G2. intros t' x [[<- <-]|[? Hx]]%lookup_insert_Some; [|by apply (so_orders _ Hok)].
      split_and!; [congruence | right; left; done | congruence].
    + intros id. unfold reserved_orders. rewrite !count_where_sum, F2, G2, (table_sum_insert _ _ _ o) by done.
      rewrite E2, Hpr, Hpr', (Z.eqb_sym id). destruct (_ =? id), reserved; cbn; lia.
  - split; [done|]. exists iss, o'. rewrite F2, F4, F5, G2, G4, G5. split_and!; try done; [congruence | |].
    + eexists c, _, _. by rewrite F1, G1.
    + destruct reserved; [by left | right; apply Hres].
Qed.

Lemma complete_inv ck t payload em ep db res db' :
  shop_ok db -> completeSubscriptionOrderTx ck t payload em ep db = Ok (res, db') ->
  shop_ok db' /\ exists o, sh_orders db !! t = Some o /\ ((o_Status o = TopUpStatusSuccess /\ shop_frame db db') \/ completed t o db db').
Proof.
  intros Hok Hc. unfold completeSubscriptionOrderTx in Hc. destruct (String.eqb _ "") in Hc; [done|].
  destruct (sh_orders db !! t) as [o|] eqn:Ho; [|done]. destruct (_ && _) in Hc; [done|].
  destruct (match ep with Some _ => _ | None => _ end) in Hc; [done|]. destruct (String.eqb_spec (o_Status o) TopUpStatusSuccess) as [Es|Es].
  { apply bind_Ok_inv in Hc as (d1 & Hu & Hc). apply bind_Ok_inv in Hc as ([[[a b] cr] d2] & Hi & Hc). simplify_eq.
    apply upsert_frame in Hu as [(U1 & U2 & U3 & U4 & U5) _]. apply income_frame in Hi as (I1 & I2 & I3 & I4 & I5).
    assert (Hf : shop_frame db db') by (split_and!; congruence). split; [by eapply shop_frame_ok|]. eauto. }
  destruct (negb _) eqn:Ep in Hc; [done|]. apply negb_false_iff, String.eqb_eq in Ep. destruct (_ && _ && _) in Hc; [done|].
  apply bind_Ok_inv in Hc as (plan & _ & Hc). apply bind_Ok_inv in Hc as (snap & Hsnap & Hc).
  apply bind_Ok_inv in Hc as ([iss d1] & Hi & Hc). cbn zeta in Hc. set (o' := set_outcome _ _ _ _ o) in Hc.
  set (d2 := if 0 <? _ then _ else d1) in Hc. apply bind_Ok_inv in Hc as (d3 & Hu & Hc). apply bind_Ok_inv in Hc as ([[[a b] cr] d4] & Hin & Hc). simplify_eq.
  destruct (so_orders _ Hok _ _ Ho) as (Et & _ & _).
  apply upsert_frame in Hu as [(U1 & U2 & U3 & U4 & U5) _]. apply income_frame in Hin as (I1 & I2 & I3 & I4 & I5). cbn in U1, U2, U3, U4, U5.
  assert (Hd : sh_plans d2 = sh_plans d1 /\ sh_orders d2 = sh_orders d1 /\ sh_subs d2 = sh_subs d1 /\ sh_nextPlan d2 = sh_nextPlan d1 /\ sh_nextSub d2 = sh_nextSub d1)
    by (subst d2; destruct (0 <? _); done).
  destruct Hd as (D1 & D2 & D3 & D4 & D5).
  destruct (issue_for_order_ok ck db t o snap iss d1 db' o' Hok Ho Ep) as [Hok' Hcomp]; try done; try congruence.
  - intros s ->. by eapply decode_snapshot_id.
  - split; [done|]. eauto.
Qed.

Lemma expire_inv ck t em db b db' :
  shop_ok db -> expireSubscriptionOrderTx ck t em db = Ok (b, db') ->
  shop_ok db' /\ sh_subs db' = sh_subs db /\ sh_nextSub db' = sh_nextSub db /\ exists o, sh_orders db !! t = Some o /\
    (sh_plans db' = sh_plans db \/ recounted (o_PlanId o) db db') /\
    if b then o_Status o = TopUpStatusPending /\ exists o', sh_orders db' = <[t := o']> (sh_orders db) /\
      o_Status o' = TopUpStatusExpired /\ pending_reserved o' = false /\ o_UserId o' = o_UserId o /\ o_PlanId o' = o_PlanId o /\
      reserved_orders (o_PlanId o) db' = reserved_orders (o_PlanId o) db - (if pending_reserved o then 1 else 0)
    else db' = db /\ o_Status o <> TopUpStatusPending.
Proof.
  intros Hok Hc. unfold expireSubscriptionOrderTx in Hc. destruct (String.eqb _ "") in Hc; [done|].
  destruct (sh_orders db !! t) as [o|] eqn:Ho; [|done]. destruct (_ && _) in Hc; [done|].
  destruct (negb _) eqn:Ep in Hc.
  { simplify_eq. split_and!; try done. exists o. split_and!; try done; [by left|]. intros E. by rewrite E in Ep. }
  apply negb_false_iff, String.eqb_eq in Ep. destruct (so_orders _ Hok _ _ Ho) as (Et & Hstate & Hlt).
  cbn zeta in Hc. set (reserved := String.eqb (o_StockStatus o) _) in Hc.
  assert (Hpr : pending_reserved o = reserved) by (unfold pending_reserved; by rewrite Ep).
  apply bind_Ok_inv in Hc as (d1 & Hr & Hc). set (o' := set_outcome _ _ _ _ o) in Hc. apply bind_Ok_inv in Hc as (d2 & Hu & Hc). injection Hc as <- <-.
  apply upsert_frame in Hu as [(U1 & U2 & U3 & U4 & U5) _]. cbn in U1, U2, U3, U4, U5.
  assert (Hpr' : pending_reserved o' = false) by done.
  assert (Hst' : order_state o').
  { right. right. split; [done|]. subst o' reserved. cbn. destruct (String.eqb_spec (o_StockStatus o) SubscriptionStockStatusReserved); [by left|].
    destruct Hstate as [[_ [?|?]]|[[Hx _]|[Hx _]]]; [done | by right | by rewrite Ep in Hx | by rewrite Ep in Hx]. }
  assert (Hd1 : sh_orders d1 = sh_orders db /\ sh_nextPlan d1 = sh_nextPlan db /\ sh_subs d1 = sh_subs db /\
    sh_nextSub d1 = sh_nextSub db /\ (sh_plans d1 = sh_plans db \/ recounted (o_PlanId o) db d1)).
  { destruct reserved; [|simplify_eq; auto 6]. unfold releaseReservedSubscriptionPlanStockTx in Hr.
    destruct (sh_plans db !! o_PlanId o) as [c|] eqn:Hc; [|done]. destruct (0 <? _); [|done]. injection Hr as <-.
    split_and!; try done. right. eexists c, _, _. done. }
  destruct Hd1 as (D1 & D2 & D3 & D4 & D5). change (o_TradeNo o') with (o_TradeNo o) in U2. rewrite D1, Et in U2.
  assert (Hcnt : forall id, reserved_orders id d2 = reserved_orders id db + if id =? o_PlanId o then - (if reserved then 1 else 0) else 0).
  { intros id. unfold reserved_orders. rewrite !count_where_sum, U2, (table_sum_insert _ _ _ o) by done.
    rewrite Hpr, Hpr', (Z.eqb_sym id). change (o_PlanId o') with (o_PlanId o). destruct (_ =? id), reserved; cbn; lia. }
  assert (Hords : forall t' x, sh_orders d2 !! t' = Some x -> o_TradeNo x = t' /\ order_state x /\ o_PlanId x < sh_nextPlan db).
  { rewrite U2. intros t' x [[<- <-]|[? Hx]]%lookup_insert_Some; [|by apply (so_orders _ Hok)]. split_and!; try done. }
  assert (Hrc : sh_plans d2 = sh_plans db \/ recounted (o_PlanId o) db d2) by (unfold recounted in *; rewrite U1; exact D5).
  split_and!; [|congruence | congruence | exists o; split_and!; try done; exists o'; rewrite U2, Hcnt, Z.eqb_refl, Hpr; split_and!; try done; lia].
  destruct reserved eqn:Er.
  - unfold releaseReservedSubscriptionPlanStockTx in Hr. destruct (sh_plans db !! o_PlanId o) as [c|] eqn:Hc; [|done].
    destruct (Z.ltb_spec 0 (c_ReservedCount c)); [|done]. simplify_eq. destruct (so_plans _ Hok _ _ Hc) as [[_ _ [Hcs1 Hcs2] _] _].
    eapply (restock db d2 (o_PlanId o) c (c_IssuedCount c) (c_ReservedCount c - 1)); try done; try lia.
    + intros id x Hx Hs Hp. pose proof (so_limit _ Hok _ _ Hx Hp). lia.
    + intros id. rewrite Hcnt. destruct (_ =? _); lia.
  - simplify_eq. destruct Hok as [H1 H2 H3 H4 H5]. split; rewrite ?U1, ?U4; try done.
    intros id c Hc. rewrite Hcnt. specialize (H2 _ _ Hc). destruct (_ =? _); lia.
Qed.
End Operations.
