(* ===== verification/CatalogSafety.v ===== *)
(** * Editing the catalogue keeps the stock within its limits

    [ValidateSubscriptionPlanPurchaseLimitsTx] of
    [src/model/subscription_purchase_group.go] guards every change of a plan:
    the new limit, and the limits of the group the plan joins, cover what is
    already issued and reserved. *)

From stdpp Require Import base numbers list strings sorting gmap sets.
From Stdlib Require Import ZArith Lia SpecFloat.
From S2P Require Import Prelude GoInt GoString QuotaWindow QuotaPolicy SubStock SubOrder StockSafety.

Lemma scope_comm x y : c_Id x <> c_Id y -> same_scope x y = same_scope y x.
Proof.
  intros Hne. unfold same_scope, in_group. destruct (String.eqb_spec (c_PurchaseLimitGroup x) "") as [Ex|Ex],
    (String.eqb_spec (c_PurchaseLimitGroup y) "") as [Ey|Ey].
  - rewrite Z.eqb_sym. done.
  - rewrite (proj2 (Z.eqb_neq _ _)) by congruence. rewrite (proj2 (String.eqb_neq (c_PurchaseLimitGroup x) _)) by congruence. by rewrite andb_false_r.
  - rewrite (proj2 (Z.eqb_neq (c_Id x) _)) by congruence. rewrite (proj2 (String.eqb_neq (c_PurchaseLimitGroup y) _)) by congruence. by rewrite andb_false_r.
  - by rewrite Z.eqb_sym, String.eqb_sym.
Qed.

Lemma scope_trans x y z : c_Id x <> c_Id y -> same_scope x y = true -> same_scope x z = same_scope y z.
Proof.
  intros Hne. unfold same_scope, in_group. destruct (String.eqb_spec (c_PurchaseLimitGroup x) "") as [Ex|Ex].
  - intros E%Z.eqb_eq. congruence.
  - intros [E1%Z.eqb_eq E2%String.eqb_eq]%andb_true_iff. rewrite E2, E1. by rewrite (proj2 (String.eqb_neq _ _) Ex).
Qed.

(** The loop over the other members of the destination group. *)
Lemma members_fold l : forall i r lim, Forall counts_ok l -> 0 <= i <= max_i64 -> 0 <= r <= max_i64 ->
  fold_left (fun '(issued, reserved, limit) m =>
    (addNonNegativeSaturated issued (c_IssuedCount m), addNonNegativeSaturated reserved (c_ReservedCount m),
     minPositiveInt64 limit (c_TotalPurchaseLimit m))) l (i, r, lim) =
  (Z.min max_i64 (i + sum_by c_IssuedCount l), Z.min max_i64 (r + sum_by c_ReservedCount l),
   fold_left minPositiveInt64 (map c_TotalPurchaseLimit l) lim).
Proof.
  induction l as [|m l IH]; intros i r lim Hc Hi Hr; cbn [fold_left sum_by map]; [repeat f_equal; lia|].
  apply Forall_cons in Hc as [[Hm1 Hm2] Hc]. rewrite !addSat_spec, IH by (done || lia).
  pose proof (sum_by_nonneg c_IssuedCount l) as Hn1. pose proof (sum_by_nonneg c_ReservedCount l) as Hn2. rewrite Forall_forall in Hc.
  specialize (Hn1 ltac:(intros x Hx; apply Hc; done)). specialize (Hn2 ltac:(intros x Hx; apply Hc; done)).
  f_equal. f_equal; lia.
Qed.

(** Copies of the other plans in the scope of [plan]. *)
Definition other (id : Z) (plan x : CatalogPlan) : bool := negb (c_Id x =? id) && same_scope plan x.
Definition others (id : Z) (plan : CatalogPlan) (plans : gmap Z CatalogPlan) : Z :=
  table_sum (fun x => if other id plan x then c_IssuedCount x + c_ReservedCount x else 0) plans.
Definition own (id : Z) (plans : gmap Z CatalogPlan) : Z :=
  match plans !! id with Some c => c_IssuedCount c + c_ReservedCount c | None => 0 end.

Section Edit.
Context (db : shopDB) (Hok : shop_ok db).

Lemma table_sum_plus f g (m : gmap Z CatalogPlan) : table_sum (fun x => f x + g x) m = table_sum f m + table_sum g m.
Proof. unfold table_sum. induction (map snd (map_to_list m)) as [|x l IH]; cbn; lia. Qed.

Lemma locked_find id p c : sh_plans db !! id = Some c -> (forall x, c_Id x = id -> p x = true) ->
  List.find (fun x => c_Id x =? id) (plans_where p db) = Some c.
Proof.
  intros Hc Hp. destruct (List.find _ _) as [x|] eqn:E.
  - apply find_some in E as [Hx%list_elem_of_In E%Z.eqb_eq]. apply plans_where_elem in Hx as [_ [id' Hx]].
    destruct (so_plans _ Hok _ _ Hx) as [[[E' _] _ _ _] _]. congruence.
  - destruct (so_plans _ Hok _ _ Hc) as [[[E' _] _ _ _] _].
    assert (Hin : c ∈ plans_where p db) by (apply plans_where_elem; split; [by apply Hp | by exists id]).
    apply list_elem_of_In in Hin. pose proof (find_none _ _ E c Hin) as Hn. cbn in Hn. lia.
Qed.

Lemma filter_sum f (p q : CatalogPlan -> bool) (r : CatalogPlan -> bool) :
  (forall id c, sh_plans db !! id = Some c -> p c && q c = r c) ->
  sum_by f (List.filter q (plans_where p db)) = table_sum (fun c => if r c then f c else 0) (sh_plans db).
Proof.
  intros E. rewrite sum_by_filter, plans_where_sum. apply table_sum_ext. intros k c Hc. rewrite <- (E k c Hc). by destruct (p c), (q c).
Qed.

(** An accepted plan fits its own limit and those of the group it joins. *)
Lemma validate_room proposed plan :
  c_TotalPurchaseLimit proposed < max_i64 ->
  ValidateSubscriptionPlanPurchaseLimitsTx true db proposed = Ok plan ->
  let id := c_Id proposed in
  (exists g, NormalizeSubscriptionPurchaseLimitGroup g = Some g /\ plan = set_group g proposed) /\
  (0 < id -> is_Some (sh_plans db !! id)) /\
  (forall x, x = plan \/ (exists id', sh_plans db !! id' = Some x /\ other id plan x = true) -> 0 < c_TotalPurchaseLimit x ->
     (if 0 <? id then own id (sh_plans db) else 0) + others id plan (sh_plans db) <= c_TotalPurchaseLimit x).
Proof.
  intros Hmax Hv id. unfold ValidateSubscriptionPlanPurchaseLimitsTx in Hv. destruct (_ || _) eqn:Eneg in Hv; [done|].
  destruct (NormalizeSubscriptionPurchaseLimitGroup (c_PurchaseLimitGroup proposed)) as [g|] eqn:Eg; [|done].
  pose proof (normalize_group_stable _ _ Eg) as Hg. cbn zeta in Hv. change (c_Id (set_group g proposed)) with id in Hv.
  change (c_TotalPurchaseLimit (set_group g proposed)) with (c_TotalPurchaseLimit proposed) in Hv.
  change (c_ProviderId (set_group g proposed)) with (c_ProviderId proposed) in Hv.
  apply bind_Ok_inv in Hv as (cg & _ & Hv). set (locked := plans_where _ db) in Hv.
  apply bind_Ok_inv in Hv as (lk & Hlk & Hv).
  assert (Hstart : exists i r, 0 <= i <= max_i64 /\ 0 <= r <= max_i64 /\
    (i, r) = match lk with Some (c, _) => (addNonNegativeSaturated 0 (c_IssuedCount c), addNonNegativeSaturated 0 (c_ReservedCount c)) | None => (0, 0) end /\
    i + r = (if 0 <? id then own id (sh_plans db) else 0) /\ (0 < id -> is_Some (sh_plans db !! id))).
  { destruct (Z.ltb_spec 0 id) as [Hid|Hid].
    - destruct (sh_plans db !! id) as [c|] eqn:Hc; [|done]. unfold locked in Hlk. rewrite (locked_find id _ c Hc) in Hlk.
      2: { intros x ->. cbn. by rewrite Z.eqb_refl. }
      destruct (NormalizeSubscriptionPurchaseLimitGroup (c_PurchaseLimitGroup c)) as [lg|] in Hlk; [|done].
      destruct (negb (c_ProviderId c =? c_ProviderId c) || _) in Hlk; [done|]. injection Hlk as <-.
      destruct (so_plans _ Hok _ _ Hc) as [[_ _ [H1 H2] _] _]. exists (c_IssuedCount c), (c_ReservedCount c).
      rewrite !addSat_spec by (unfold max_i64 in *; lia). unfold own. rewrite Hc. split_and!; try done; try lia. f_equal; lia.
    - injection Hlk as <-. exists 0, 0. unfold max_i64. split_and!; try done; try lia. }
  destruct Hstart as (i & r & Hi & Hr & Est & Eown & Hsome). rewrite <- Est in Hv. cbn [fst snd] in Hv. rewrite <- Eown.
  change (negb true) with false in Hv. rewrite andb_false_r in Hv. destruct (_ && (0 <? _)) in Hv; [done|].
  set (mem := fun m : CatalogPlan => _) in Hv.
  set (ms := if String.eqb g "" then [] else List.filter mem locked).
  assert (Hmem : forall k c, sh_plans db !! k = Some c -> mem c = negb (c_Id c =? id) && in_group (c_ProviderId proposed) g c).
  { intros k c Hc. destruct (so_plans _ Hok _ _ Hc) as [[_ Hgc _ _] _]. unfold mem, in_group. rewrite Hgc. by rewrite andb_assoc. }
  assert (Hms : Forall counts_ok ms).
  { unfold ms. destruct (String.eqb g ""); [done|]. apply Forall_forall. intros x [Hx _]%list_elem_of_In%filter_In.
    apply list_elem_of_In, plans_where_elem in Hx as [_ [k Hx]]. apply (so_plans _ Hok _ _ Hx). }
  assert (Hsum : forall f, sum_by f ms = table_sum (fun c => if other id (set_group g proposed) c then f c else 0) (sh_plans db)).
  { intros f. unfold ms. destruct (String.eqb_spec g "") as [->|Hne].
    - cbn. symmetry. transitivity (table_sum (fun _ => 0) (sh_plans db)); [|unfold table_sum; induction (map snd (map_to_list (sh_plans db))) as [|y l IH]; [done | exact IH]].
      apply table_sum_ext. intros k c _. unfold other, same_scope.
      change (c_PurchaseLimitGroup (set_group "" proposed)) with "". change (c_Id (set_group "" proposed)) with id. by destruct (c_Id c =? id).
    - unfold locked. apply filter_sum. intros k c Hc. rewrite (Hmem k c Hc). unfold other, same_scope.
      change (c_PurchaseLimitGroup (set_group g proposed)) with g. change (c_ProviderId (set_group g proposed)) with (c_ProviderId proposed).
      rewrite (proj2 (String.eqb_neq _ _) Hne). cbn [negb andb]. destruct (in_group _ _ _), (c_Id c =? id); rewrite ?orb_true_r, ?andb_false_r; done. }
  assert (Hv' : (let '(issued, reserved, limit) := fold_left (fun '(issued, reserved, limit) m =>
      (addNonNegativeSaturated issued (c_IssuedCount m), addNonNegativeSaturated reserved (c_ReservedCount m),
       minPositiveInt64 limit (c_TotalPurchaseLimit m))) ms (i, r, c_TotalPurchaseLimit proposed) in
    if (0 <? limit) && (limit <? addNonNegativeSaturated issued reserved) then Err ErrSubscriptionLimitTooSmall
    else Ok (set_group g proposed)) = Ok plan).
  { unfold ms. destruct (String.eqb g ""); exact Hv. }
  clear Hv. rewrite members_fold in Hv' by done. destruct (_ && _) eqn:El in Hv'; [done|]. injection Hv' as <-.
  split_and!; [by exists g | done |]. apply orb_false_iff in Eneg as [Eneg%Z.ltb_ge _].
  destruct (minPositive_fold (map c_TotalPurchaseLimit ms) _ Eneg) as (L0 & L1 & L2). set (lim := fold_left _ _ _) in *.
  rewrite !Hsum in El. set (si := table_sum _ _) in El. set (sr := table_sum _ _) in El.
  assert (Hothers : others id (set_group g proposed) (sh_plans db) = si + sr).
  { unfold others, si, sr. rewrite <- table_sum_plus. apply table_sum_ext. intros k c _. destruct (other _ _ _); lia. }
  assert (Hpos : 0 <= si /\ 0 <= sr).
  { split; apply table_sum_nonneg; intros k c Hc; destruct (so_plans _ Hok _ _ Hc) as [[_ _ [? ?] _] _]; destruct (other _ _ _); lia. }
  rewrite addSat_spec in El by lia. rewrite Hothers.
  intros x Hx Hp. assert (Hlim : 0 < lim <= c_TotalPurchaseLimit x).
  { destruct Hx as [->|(k & Hx & Ho)]; [by apply L1|]. apply L2; [|done]. apply list_elem_of_fmap_2. unfold ms.
    unfold other, same_scope in Ho.
    change (c_PurchaseLimitGroup (set_group g proposed)) with g in Ho. change (c_ProviderId (set_group g proposed)) with (c_ProviderId proposed) in Ho.
    change (c_Id (set_group g proposed)) with id in Ho. apply andb_true_iff in Ho as [Ho1 Ho2]. destruct (String.eqb_spec g "").
    - by rewrite Ho2 in Ho1.
    - apply list_elem_of_In, filter_In. rewrite (Hmem k x Hx), Ho1, Ho2. split; [|done].
      apply list_elem_of_In. unfold locked. apply plans_where_elem. split; [|by exists k].
      rewrite Ho2. cbn [negb andb]. by rewrite orb_true_r. }
  assert (Hxmax : c_TotalPurchaseLimit x < max_i64) by (destruct Hx as [->|(k & Hx & _)]; [done | apply (so_plans _ Hok _ _ Hx)]).
  apply andb_false_iff in El as [El%Z.ltb_ge|El%Z.ltb_ge]; lia.
Qed.
End Edit.

(** ** Writing an accepted row *)

Section Write.
Context (db : shopDB) (Hok : shop_ok db) (id : Z) (row : CatalogPlan).
Hypothesis Hrow : plan_ok id row.

(** The other rows of the table. *)
Definition other_rows : gmap Z CatalogPlan := delete id (sh_plans db).

Lemma rest_id k x : other_rows !! k = Some x -> c_Id x <> id /\ sh_plans db !! k = Some x.
Proof. unfold other_rows. intros [Hne Hx]%lookup_delete_Some. destruct (so_plans _ Hok _ _ Hx) as [[[E _] _ _ _] _]. split; [congruence | done]. Qed.

Lemma rest_others : table_sum (weight row) other_rows = others id row (sh_plans db).
Proof.
  unfold others. transitivity (table_sum (fun x => if other id row x then c_IssuedCount x + c_ReservedCount x else 0) other_rows).
  - apply table_sum_ext. intros k x [Hne _]%rest_id. unfold weight, other. by rewrite (proj2 (Z.eqb_neq _ _) Hne).
  - unfold other_rows. destruct (sh_plans db !! id) as [c|] eqn:Hc; [|by rewrite delete_id].
    rewrite (table_sum_delete _ (sh_plans db) id c Hc). destruct (so_plans _ Hok _ _ Hc) as [[[E _] _ _ _] _].
    unfold other at 2. rewrite E, Z.eqb_refl. cbn. lia.
Qed.

Lemma weight_nonneg c k x : sh_plans db !! k = Some x -> 0 <= weight c x.
Proof. intros Hx. destruct (so_plans _ Hok _ _ Hx) as [[_ _ [? ?] _] _]. unfold weight. destruct (same_scope c x); lia. Qed.

Lemma rest_allocated c : table_sum (weight c) other_rows <= allocated c (sh_plans db).
Proof.
  unfold allocated, other_rows. destruct (sh_plans db !! id) as [x|] eqn:Hx; [|by rewrite delete_id].
  rewrite (table_sum_delete _ (sh_plans db) id x Hx). pose proof (weight_nonneg c id x Hx). lia.
Qed.

Lemma put_plan_ok next :
  id < next -> sh_nextPlan db <= next -> c_ReservedCount row = reserved_orders id db ->
  (forall x, x = row \/ (exists k, sh_plans db !! k = Some x /\ other id row x = true) -> 0 < c_TotalPurchaseLimit x ->
     c_IssuedCount row + c_ReservedCount row + others id row (sh_plans db) <= c_TotalPurchaseLimit x) ->
  shop_ok (with_next next (sh_nextSub db) (sh_nextOrder db) (with_plans (<[id := row]> (sh_plans db)) db)).
Proof.
  intros Hid Hnext Hres Hroom.
  assert (Hal : forall c, allocated c (<[id := row]> (sh_plans db)) = weight c row + table_sum (weight c) other_rows).
  { intros c. unfold allocated, other_rows. rewrite <- insert_delete_eq. apply table_sum_insert_new, lookup_delete_eq. }
  destruct Hrow as [[Erow _] _ _ _]. split; cbn.
  - intros k c [[<- <-]|[? Hc]]%lookup_insert_Some; [done|]. destruct (so_plans _ Hok _ _ Hc). split; [done | lia].
  - intros k c [[<- <-]|[? Hc]]%lookup_insert_Some; [done | by apply (so_reserved _ Hok)].
  - intros t o Ho. destruct (so_orders _ Hok _ _ Ho) as (? & ? & ?). split_and!; try done; lia.
  - intros k x [[<- <-]|[Hne Hx]]%lookup_insert_Some Hp; rewrite Hal.
    + unfold weight at 1. rewrite same_scope_refl, rest_others. apply Hroom; auto.
    + destruct (so_plans _ Hok _ _ Hx) as [[[Ex _] _ _ _] _]. assert (Hdiff : c_Id x <> c_Id row) by congruence.
      destruct (same_scope x row) eqn:Es.
      * unfold weight at 1. rewrite Es. rewrite (table_sum_ext (weight x) (weight row)).
        2: { intros k' y _. unfold weight. by rewrite (scope_trans x row y Hdiff Es). }
        rewrite rest_others. apply Hroom; [|done]. right. exists k. split; [done|]. unfold other.
        rewrite (proj2 (Z.eqb_neq _ _)) by congruence. by rewrite <- scope_comm.
      * unfold weight at 1. rewrite Es. pose proof (rest_allocated x). pose proof (so_limit _ Hok _ _ Hx Hp). lia.
  - pose proof (so_next _ Hok). lia.
Qed.
End Write.

(** ** The two edits *)

Lemma update_plan_ok db id req db' :
  shop_ok db -> c_TotalPurchaseLimit req < max_i64 -> 0 < id -> update_plan_tx db id req = Ok db' -> shop_ok db'.
Proof.
  intros Hok Hmax Hid Hu. unfold update_plan_tx in Hu. apply bind_Ok_inv in Hu as (plan & Hv & Hu).
  destruct (sh_plans db !! id) as [c|] eqn:Hc; [|done]. injection Hu as <-.
  apply (validate_room db Hok) in Hv as ((g & Hg & Eplan) & _ & Hroom); [|exact Hmax].
  change (c_Id (set_plan_columns (set_plan_id id (c_plan req)) req)) with id in Hroom.
  rewrite (proj2 (Z.ltb_lt 0 id) Hid) in Hroom. unfold own in Hroom. rewrite Hc in Hroom.
  destruct (so_plans _ Hok _ _ Hc) as [[_ _ Hcs _] Hn].
  assert (Hid' : c_Id plan = id) by (by rewrite Eplan). assert (Hgr : c_PurchaseLimitGroup plan = g) by (by rewrite Eplan).
  assert (Hlim : c_TotalPurchaseLimit plan < max_i64) by (by rewrite Eplan).
  set (row := set_counts (c_IssuedCount c) (c_ReservedCount c) plan).
  assert (Hrow : plan_ok id row) by (split; [done | cbn; by rewrite Hgr | done | done]).
  assert (Hput := put_plan_ok db Hok id row Hrow (sh_nextPlan db) Hn (Z.le_refl _) (so_reserved _ Hok _ _ Hc)).
  destruct db. apply Hput. intros x Hx Hp. destruct Hx as [->|Hx].
  - apply (Hroom plan (or_introl eq_refl) Hp).
  - apply (Hroom x (or_intror Hx) Hp).
Qed.

Lemma create_plan_ok named1 named2 db req db' :
  shop_ok db -> c_TotalPurchaseLimit req < max_i64 -> create_plan_tx named1 named2 db req = Ok db' -> shop_ok db'.
Proof.
  intros Hok Hmax Hu. unfold create_plan_tx in Hu. apply bind_Ok_inv in Hu as (plan & Hv & Hu). cbn zeta in Hu. injection Hu as <-.
  apply (validate_room db Hok) in Hv as ((g & Hg & Eplan) & _ & Hroom); [|exact Hmax]. set (id := sh_nextPlan db).
  set (row := set_plan_columns _ plan).
  assert (Hids : forall k x, sh_plans db !! k = Some x -> 0 < c_Id x < id).
  { intros k x Hx. destruct (so_plans _ Hok _ _ Hx) as [[[-> ?] _ _ _] ?]. done. }
  assert (Hres : reserved_orders id db = 0).
  { unfold reserved_orders. rewrite count_where_sum. transitivity (table_sum (fun _ => 0) (sh_orders db)).
    - apply table_sum_ext. intros t o Ho. destruct (so_orders _ Hok _ _ Ho) as (_ & _ & ?). by rewrite (proj2 (Z.eqb_neq _ _)) by lia.
    - unfold table_sum. induction (map snd (map_to_list (sh_orders db))) as [|y l IH]; [done | exact IH]. }
  assert (Hrow : plan_ok id row).
  { unfold row. rewrite Eplan. split; [split; [done | apply Hok] | cbn; by rewrite Hg | split; cbn; unfold max_i64; lia | done]. }
  assert (Hscope : forall k x, sh_plans db !! k = Some x -> other id row x = other 0 plan x).
  { intros k x Hx. pose proof (Hids k x Hx). unfold other, same_scope. subst row. rewrite Eplan. cbn.
    rewrite !(proj2 (Z.eqb_neq (p_Id (c_plan x)) _)) by (unfold c_Id in *; cbn; lia). done. }
  apply (put_plan_ok db Hok id row Hrow (id + 1)); [lia | lia | rewrite Hres; subst row; by rewrite Eplan |].
  intros x Hx Hp. assert (Hz : c_IssuedCount row + c_ReservedCount row = 0) by (subst row; by rewrite Eplan). rewrite Hz.
  replace (others id row (sh_plans db)) with (others 0 plan (sh_plans db)).
  2: { unfold others. apply table_sum_ext. intros k y Hy. by rewrite (Hscope k y Hy). }
  destruct Hx as [->|(k & Hx & Ho)].
  - apply (Hroom plan (or_introl eq_refl)). done.
  - apply (Hroom x); [|done]. right. exists k. split; [done|]. etrans; [symmetry; exact (Hscope k x Hx) | exact Ho].
Qed.
