(* ===== verification/ShopSafety.v ===== *)
(** * The shop over time

    Histories of the shop: any sequence of checkouts, payment callbacks,
    expiries, sweeps, grants, cancellations and catalogue edits, each failing
    or not.  The theorems hold at every point of every history. *)

From stdpp Require Import base numbers list strings pretty sorting gmap sets.
From Stdlib Require Import ZArith Lia SpecFloat.
From S2P Require Import Prelude GoInt GoString GoTime QuotaWindow QuotaPolicy WindowBounds SubPlan SubStock SubOrder SubGrant StockSafety CatalogSafety.

(** ** Histories *)

Inductive shop_op :=
  | OpCheckout (ck : clock) (o : SubscriptionOrder) (mirror : bool)
  | OpComplete (ck : clock) (tradeNo payload method : string) (provider : option string)
  | OpExpire (ck : clock) (tradeNo method : string)
  | OpSweepOrders (now : Z) (ck : string -> clock) (limit : Z)
  | OpUpdateOrder (o : SubscriptionOrder)
  | OpBind (ck : clock) (userId planId : Z)
  | OpAirdrop (cfg : rewardConfig) (ck : clock) (userId : Z)
  | OpRegister (cfg : rewardConfig) (ck : clock) (userId providerId : Z)
  | OpInvalidate (now id : Z)
  | OpDelete (now id : Z)
  | OpExpireDue (now limit : Z)
  | OpCreatePlan (named_allow named_enabled : bool) (req : CatalogPlan)
  | OpUpdatePlan (id : Z) (req : CatalogPlan).

Definition keep {A} (db : shopDB) (r : result (A * shopDB)) : shopDB := match r with Ok (_, db') => db' | Err _ => db end.

Section Run.
Context `{LocalZone} `{Accounting}.

(** The tables after the operation, whatever it returned. *)
Definition run_shop_op (op : shop_op) (db : shopDB) : shopDB :=
  match op with
  | OpCheckout ck o true => snd (CreateSubscriptionOrderWithTopUp ck o db)
  | OpCheckout ck o false => snd (SubscriptionOrder_Insert ck o db)
  | OpComplete ck t payload m p => snd (CompleteSubscriptionOrder ck t payload m p db)
  | OpExpire ck t m => snd (ExpireSubscriptionOrder ck t m db)
  | OpSweepOrders now ck limit => snd (ExpireReservedSubscriptionOrders now ck limit db)
  | OpUpdateOrder o => snd (SubscriptionOrder_Update o db)
  | OpBind ck u p => snd (AdminBindSubscription ck u p db)
  | OpAirdrop cfg ck u => snd (GrantAirdropSubscription cfg ck u db)
  | OpRegister cfg ck u p => keep db (grantRegisterGiftSubscriptionTx cfg ck u p db)
  | OpInvalidate now id => snd (AdminInvalidateUserSubscription now id db)
  | OpDelete now id => snd (AdminDeleteUserSubscription now id db)
  | OpExpireDue now limit => snd (ExpireDueSubscriptions now limit db)
  | OpCreatePlan n1 n2 req => match create_plan_tx n1 n2 db req with Ok db' => db' | Err _ => db end
  | OpUpdatePlan id req => match update_plan_tx db id req with Ok db' => db' | Err _ => db end
  end.

(** Requests the controllers let through: a positive id, a limit below 2^63-1. *)
Definition op_ok (op : shop_op) : Prop :=
  match op with
  | OpCreatePlan _ _ req => c_TotalPurchaseLimit req < max_i64
  | OpUpdatePlan id req => 0 < id /\ c_TotalPurchaseLimit req < max_i64
  | _ => True
  end.
Definition catalog_op (op : shop_op) : bool := match op with OpCreatePlan _ _ _ | OpUpdatePlan _ _ => true | _ => false end.

Inductive shop_history : list shop_op -> shopDB -> shopDB -> Prop :=
  | shop_start db : shop_history [] db db
  | shop_next ops op db db' : shop_history ops db db' -> op_ok op -> shop_history (ops ++ [op]) db (run_shop_op op db').

(** ** What an operation does to orders and subscriptions

    Every operation on orders and subscriptions is a sequence of moves. *)

(** Rows were removed, or changed in status and end time only. *)
Definition freed (m m' : gmap Z IssuedSubscription) : Prop :=
  forall k s', m' !! k = Some s' -> exists s, m !! k = Some s /\ s_UserId (i_sub s') = s_UserId (i_sub s) /\
    s_PlanId (i_sub s') = s_PlanId (i_sub s) /\ i_Source s' = i_Source s.

Inductive move (db db' : shopDB) : Prop :=
  | move_checkout o :
      sh_orders db !! o_TradeNo o = None -> sh_orders db' = <[o_TradeNo o := o]> (sh_orders db) -> pending_reserved o = true ->
      checkUserSubscriptionPurchaseScopeLimitTx db (o_UserId o) (o_PlanId o) = Ok tt -> recounted (o_PlanId o) db db' ->
      sh_subs db' = sh_subs db -> sh_nextSub db' = sh_nextSub db -> move db db'
  | move_complete t o : sh_orders db !! t = Some o -> completed t o db db' -> move db db'
  | move_grant iss :
      sh_orders db' = sh_orders db -> sh_subs db' = <[sh_nextSub db := iss]> (sh_subs db) -> sh_nextSub db' = sh_nextSub db + 1 ->
      checkUserSubscriptionPurchaseScopeLimitTx db (s_UserId (i_sub iss)) (s_PlanId (i_sub iss)) = Ok tt ->
      recounted (s_PlanId (i_sub iss)) db db' -> i_Source iss <> "order" -> move db db'
  | move_order t o o' :
      sh_orders db !! t = Some o -> sh_orders db' = <[t := o']> (sh_orders db) ->
      o_UserId o' = o_UserId o -> o_PlanId o' = o_PlanId o ->
      (o_Status o' = o_Status o \/ o_Status o = TopUpStatusPending /\ o_Status o' = TopUpStatusExpired) ->
      (pending_reserved o' = true -> pending_reserved o = true) ->
      (sh_plans db' = sh_plans db \/ recounted (o_PlanId o) db db') ->
      sh_subs db' = sh_subs db -> sh_nextSub db' = sh_nextSub db -> move db db'
  | move_free : sh_plans db' = sh_plans db -> sh_orders db' = sh_orders db -> sh_nextSub db' = sh_nextSub db ->
      freed (sh_subs db) (sh_subs db') -> move db db'.

Inductive moves : shopDB -> shopDB -> Prop :=
  | moves_refl db : moves db db
  | moves_step db1 db2 db3 : moves db1 db2 -> shop_ok db2 -> move db2 db3 -> shop_ok db3 -> moves db1 db3.

Definition moves_ok (db db' : shopDB) : Prop := moves db db' /\ shop_ok db'.

Lemma moves_one db db' : shop_ok db -> move db db' -> shop_ok db' -> moves_ok db db'.
Proof. intros. split; [|done]. by eapply moves_step; [apply moves_refl|..]. Qed.
Lemma moves_none db : shop_ok db -> moves_ok db db.
Proof. split; [apply moves_refl | done]. Qed.
Lemma moves_trans db1 db2 db3 : moves_ok db1 db2 -> moves_ok db2 db3 -> moves_ok db1 db3.
Proof.
  intros [H1 O1] [H2 O2]. split; [|done]. clear O2. induction H2 as [|d1 d2 d3 H2 IH Hk Hm Hk']; [done|].
  eapply moves_step; [by apply IH | done..].
Qed.

Lemma freed_refl m : freed m m.
Proof. intros k s Hs. eauto. Qed.
Lemma moves_frame db db' : shop_ok db -> shop_frame db db' -> moves_ok db db'.
Proof.
  intros Hok Hf. pose proof (shop_frame_ok _ _ Hok Hf) as Hok'. destruct Hf as (E1 & E2 & E3 & E4 & E5).
  apply moves_one; try done. apply move_free; try done. rewrite E3. apply freed_refl.
Qed.

(** A transaction is its body's moves, or none. *)
Lemma shop_tx_moves {A} db (f : shopDB -> result (A * shopDB)) :
  shop_ok db -> (forall a db', f db = Ok (a, db') -> moves_ok db db') -> moves_ok db (snd (shop_tx db f)).
Proof. intros Hok Hf. unfold shop_tx. destruct (f db) as [[a db']|e] eqn:E; [by eapply Hf | by apply moves_none]. Qed.

Lemma checkout_moves ck o db o' db' : shop_ok db -> CreateSubscriptionOrderTx ck o db = Ok (o', db') -> moves_ok db db'.
Proof.
  intros Hok Hc. destruct (create_order_inv ck o db o' db' Hok Hc) as (Hok' & Hpr & Eu & Ep & Hn & Eo & Es & En & Hlim & c & Hcp & Epl).
  assert (Et : o_TradeNo o' = o_TradeNo o).
  { destruct (so_orders _ Hok' (o_TradeNo o) o') as [-> _]; [rewrite Eo; apply lookup_insert_eq | done]. }
  apply moves_one; try done. apply (move_checkout db db' o'); rewrite ?Et, ?Eu, ?Ep; try done. by eexists c, _, _.
Qed.

Lemma complete_moves ck t payload m p db res db' :
  shop_ok db -> completeSubscriptionOrderTx ck t payload m p db = Ok (res, db') -> moves_ok db db'.
Proof.
  intros Hok Hc. destruct (complete_inv ck t payload m p db res db' Hok Hc) as (Hok' & o & Ho & [[_ Hf]|Hcomp]).
  - by apply moves_frame.
  - apply moves_one; try done. by eapply move_complete.
Qed.

Lemma expire_moves ck t m db b db' : shop_ok db -> expireSubscriptionOrderTx ck t m db = Ok (b, db') -> moves_ok db db'.
Proof.
  intros Hok Hc. destruct (expire_inv ck t m db b db' Hok Hc) as (Hok' & Es & En & o & Ho & Hp & Hb). destruct b.
  - destruct Hb as (Hpend & o' & Eo & Est & Hpr & Eu & Epl & _). apply moves_one; try done.
    eapply (move_order db db' t o o'); try done; [by right | by rewrite Hpr].
  - destruct Hb as [-> _]. by apply moves_none.
Qed.

Lemma expire_orders_moves ck l : forall n db, shop_ok db -> moves_ok db (snd (expire_orders ck l n db)).
Proof.
  induction l as [|t l IH]; intros n db Hok; cbn [expire_orders]; [by apply moves_none|].
  pose proof (shop_tx_moves db (expireSubscriptionOrderTx (ck t) t "") Hok (fun b db' Hb => expire_moves _ _ _ _ _ _ Hok Hb)) as Hm.
  destruct (shop_tx _ _) as [[b|e] db']; cbn in Hm; [|done]. eapply moves_trans; [exact Hm|]. apply IH, Hm.
Qed.

Lemma grant_moves ck db u p src prov iss db' :
  shop_ok db -> src <> "order" -> CreateUserSubscriptionFromPlanTx ck db u p src prov = Ok (iss, db') -> moves_ok db db'.
Proof.
  intros Hok Hsrc Hc. destruct (issue_inv ck db u p None src false prov iss db' Hok Hc) as
    (c & Hcp & Hmax & [Hlim Hroom] & G1 & G2 & G3 & _ & G4 & G5 & G6 & G7 & G8).
  destruct (so_plans _ Hok _ _ Hcp) as [[_ _ [Hc1 Hc2] _] _]. apply moves_one; [done | |].
  - apply (move_grant db db' iss); rewrite ?G6, ?G7, ?G8; try done. by eexists c, _, _.
  - eapply (restock db db' p c (c_IssuedCount c + 1) (c_ReservedCount c - 0)); try done; try lia.
    + intros id x Hx Hs Hp. specialize (Hroom id x Hx Hs Hp). lia.
    + rewrite G2. apply Hok.
    + intros id. unfold reserved_orders. rewrite G2. destruct (_ =? _); lia.
Qed.

Lemma update_order_moves o db : shop_ok db -> moves_ok db (snd (SubscriptionOrder_Update o db)).
Proof.
  intros Hok. unfold SubscriptionOrder_Update. destruct (_ <=? 0); [by apply moves_none|]. apply shop_tx_moves; [done|].
  intros [] db' Hu. destruct (List.find _ _) as [cur|] eqn:Ef; [|done]. repeat (case_match; [done|]). injection Hu as <-.
  apply find_some in Ef as [Hin _]. apply list_elem_of_In, list_elem_of_fmap in Hin as ([t x] & E & Ho%elem_of_map_to_list). cbn in E. subst x.
  destruct (so_orders _ Hok _ _ Ho) as (Et & Hst & Hlt). set (o' := set_outcome _ _ _ _ cur).
  assert (Hpr : pending_reserved o' = pending_reserved cur) by done.
  apply moves_one; [done | |].
  - eapply (move_order _ _ t cur o'); try done; [cbn; by rewrite Et | by left | by left].
  - destruct Hok as [K1 K2 K3 K4 K5]. split; try done.
    + intros id c Hc. rewrite (K2 id c Hc). symmetry. rewrite (reserved_save cur o' db); try done; [|by rewrite Et].
      rewrite Hpr. destruct (_ =? id); lia.
    + cbn. rewrite Et. intros t' x [[<- <-]|[? Hx]]%lookup_insert_Some; [done | by apply K3].
Qed.

(** ** Ending subscriptions *)

Lemma free_ok db db' : shop_ok db -> sh_plans db' = sh_plans db -> sh_orders db' = sh_orders db -> sh_nextPlan db' = sh_nextPlan db ->
  sh_nextSub db' = sh_nextSub db -> freed (sh_subs db) (sh_subs db') -> moves_ok db db'.
Proof. intros Hok E1 E2 E3 E4 Hf. apply moves_one; [done | by apply move_free | by eapply shop_ok_same]. Qed.

Lemma downgrade_frame s now db : shop_frame db (snd (downgradeUserGroupForSubscriptionTx s now db)).
Proof. unfold downgradeUserGroupForSubscriptionTx. cbn zeta. repeat case_match; done. Qed.

Lemma freed_insert m k s st e : m !! k = Some s -> freed m (<[k := set_issued_end st e s]> m).
Proof. intros Hs j x [[<- <-]|[? Hx]]%lookup_insert_Some; eauto. Qed.
Lemma freed_delete m k : freed m (delete k m).
Proof. intros j x [? Hx]%lookup_delete_Some. eauto. Qed.
Lemma freed_trans m1 m2 m3 : freed m1 m2 -> freed m2 m3 -> freed m1 m3.
Proof.
  intros F1 F2 k s Hs. destruct (F2 k s Hs) as (s2 & Hs2 & ? & ? & ?). destruct (F1 k s2 Hs2) as (s1 & Hs1 & ? & ? & ?).
  exists s1. split_and!; congruence.
Qed.

Lemma expire_user_frame now u db : let db' := snd (expire_user now u db) in
  sh_plans db' = sh_plans db /\ sh_orders db' = sh_orders db /\ sh_nextPlan db' = sh_nextPlan db /\
  sh_nextSub db' = sh_nextSub db /\ freed (sh_subs db) (sh_subs db').
Proof.
  assert (Hf : forall f : IssuedSubscription -> bool,
    freed (sh_subs db) ((fun s => if f s then set_issued_end "expired" (s_EndTime (i_sub s)) s else s) <$> sh_subs db)).
  { intros f k s. rewrite lookup_fmap. intros (s0 & Hs0 & ->)%fmap_Some. exists s0. split; [done|]. by destruct (f s0). }
  unfold expire_user. cbn zeta. repeat case_match; split_and!; try done; apply Hf.
Qed.

Lemma expire_users_moves now l : forall n db, shop_ok db ->
  moves_ok db (snd (fold_left (fun '(n, db) userId => let '(k, db') := expire_user now userId db in (n + k, db')) l (n, db))).
Proof.
  induction l as [|u l IH]; intros n db Hok; cbn [fold_left]; [by apply moves_none|].
  pose proof (expire_user_frame now u db) as (E1 & E2 & E3 & E4 & Hf). destruct (expire_user now u db) as [k db']. cbn in E1, E2, E3, E4, Hf.
  pose proof (free_ok db db' Hok E1 E2 E3 E4 Hf) as Hm. eapply moves_trans; [exact Hm|]. apply IH, Hm.
Qed.

(** Every operation but a catalogue edit is a sequence of moves. *)
Lemma run_moves op db : shop_ok db -> catalog_op op = false -> moves_ok db (run_shop_op op db).
Proof.
  intros Hok Hcat. destruct op as [ck o mirror|ck t payload m p|ck t m|now ck limit|o|ck u p|cfg ck u|cfg ck u p|now id|now id|now limit| |]; try done; cbn.
  - destruct mirror; apply shop_tx_moves; try done; intros [] db' Hc.
    + apply bind_Ok_inv in Hc as ([o' d1] & H1' & Hc). apply bind_Ok_inv in Hc as (d2 & Hu & Hc). simplify_eq.
      pose proof (checkout_moves _ _ _ _ _ Hok H1') as Hm. eapply moves_trans; [exact Hm|]. apply moves_frame; [apply Hm|]. by eapply upsert_frame.
    + apply bind_Ok_inv in Hc as ([o' d1] & H1' & Hc). simplify_eq. by eapply checkout_moves.
  - unfold CompleteSubscriptionOrder. destruct (String.eqb _ _); [by apply moves_none|].
    pose proof (shop_tx_moves db _ Hok (fun r db' Hc => complete_moves ck t payload m p db r db' Hok Hc)) as Hm.
    by destruct (shop_tx _ _) as [[r|e] db'].
  - apply shop_tx_moves; [done|]. intros [] db' Hc. apply bind_Ok_inv in Hc as ([b d1] & He & Hc). simplify_eq. by eapply expire_moves.
  - by apply expire_orders_moves.
  - by apply update_order_moves.
  - unfold AdminBindSubscription. destruct (_ || _); [by apply moves_none|].
    pose proof (shop_tx_moves db (fun db => CreateUserSubscriptionFromPlanTx ck db u p "admin" None) Hok
      (fun iss db' Hc => grant_moves ck db u p "admin" None iss db' Hok ltac:(done) Hc)) as Hm.
    by destruct (shop_tx _ _) as [[r|e] db'].
  - unfold GrantAirdropSubscription. destruct (_ <=? 0); [by apply moves_none|]. apply shop_tx_moves; [done|]. intros title db' Hc. cbn zeta in Hc.
    destruct (_ <=? 0); [simplify_eq; by apply moves_none|]. destruct (shop_plan_by_id _ _) as [plan|[|]];
      [|simplify_eq; by apply moves_none | done].
    destruct (negb _); [simplify_eq; by apply moves_none|]. destruct (negb _); [simplify_eq; by apply moves_none|].
    apply bind_Ok_inv in Hc as ([iss d1] & Hi & Hc). simplify_eq. by eapply grant_moves; [| |exact Hi].
  - unfold grantRegisterGiftSubscriptionTx. destruct (_ <=? 0); [by apply moves_none|]. cbn zeta.
    destruct (_ <=? 0); [by apply moves_none|]. destruct (shop_plan_by_id _ _) as [plan|[|]]; [|by apply moves_none..].
    destruct (negb _); [by apply moves_none|]. destruct (negb _); [by apply moves_none|].
    destruct (CreateUserSubscriptionFromPlanTx _ _ _ _ _ _) as [[iss d1]|e] eqn:Hi; [by eapply grant_moves; [| |exact Hi]|].
    destruct (decide _); by apply moves_none.
  - unfold AdminInvalidateUserSubscription. destruct (_ <=? 0); [by apply moves_none|]. apply shop_tx_moves; [done|]. intros msg db' Hc.
    destruct (sh_subs db !! id) as [s|] eqn:Hs; [|done]. cbn zeta in Hc. set (d1 := with_issued _ db) in Hc.
    pose proof (downgrade_frame s now d1) as (E1 & E2 & E3 & E4 & E5). destruct (downgradeUserGroupForSubscriptionTx s now d1) as [g d2].
    simplify_eq. cbn in *. apply free_ok; try done. rewrite E3. by apply freed_insert.
  - unfold AdminDeleteUserSubscription. destruct (_ <=? 0); [by apply moves_none|]. apply shop_tx_moves; [done|]. intros msg db' Hc.
    destruct (sh_subs db !! id) as [s|] eqn:Hs; [|done]. cbn zeta in Hc.
    pose proof (downgrade_frame s now db) as (E1 & E2 & E3 & E4 & E5). destruct (downgradeUserGroupForSubscriptionTx s now db) as [g d2].
    simplify_eq. cbn in *. apply free_ok; try done. rewrite E3. apply freed_delete.
  - by apply expire_users_moves.
Qed.

Lemma run_op_ok op db : shop_ok db -> op_ok op -> shop_ok (run_shop_op op db).
Proof.
  intros Hok Hop. destruct (catalog_op op) eqn:Ec; [|by apply run_moves]. destruct op; try done; cbn [run_shop_op].
  - destruct (create_plan_tx _ _ _ _) eqn:E; [by eapply create_plan_ok; [| |exact E] | done].
  - destruct (update_plan_tx _ _ _) eqn:E; [destruct Hop; by eapply update_plan_ok; [| | |exact E] | done].
Qed.

Lemma history_ok ops db db' : shop_history ops db db' -> shop_ok db -> shop_ok db'.
Proof. induction 1; intros Hok; [done|]. apply run_op_ok; auto. Qed.
End Run.

(** ** Counting along moves *)

Lemma table_sum_dom {K A} `{Countable K} (f : A -> Z) (m' : gmap K A) : forall m,
  (forall k x', m' !! k = Some x' -> exists x, m !! k = Some x /\ f x' <= f x) -> (forall k x, m !! k = Some x -> 0 <= f x) ->
  table_sum f m' <= table_sum f m.
Proof.
  induction m' as [|k x' m' Hk IH] using map_ind; intros m Hd Hp; [by apply table_sum_nonneg|].
  rewrite table_sum_insert_new by done. destruct (Hd k x') as (x & Hx & Hle); [apply lookup_insert_eq|].
  rewrite (table_sum_delete f m k x Hx). assert (table_sum f m' <= table_sum f (delete k m)); [|lia]. apply IH.
  - intros j y Hy. assert (j <> k) by congruence. destruct (Hd j y) as (z & Hz & ?); [by rewrite lookup_insert_ne|].
    exists z. by rewrite lookup_delete_ne.
  - intros j y [_ Hy]%lookup_delete_Some. by eapply Hp.
Qed.

Definition sold (s : IssuedSubscription) : bool := String.eqb (i_Source s) "order".
Definition paid (o : SubscriptionOrder) : bool := String.eqb (o_Status o) TopUpStatusSuccess.
Definition order_subs (db : shopDB) : Z := count_where sold (sh_subs db).
Definition paid_orders (db : shopDB) : Z := count_where paid (sh_orders db).
(** The next id is unused. *)
Definition subs_ok (db : shopDB) : Prop := forall k s, sh_subs db !! k = Some s -> k < sh_nextSub db.

Lemma subs_fresh db : subs_ok db -> sh_subs db !! sh_nextSub db = None.
Proof. intros Hs. destruct (sh_subs db !! sh_nextSub db) eqn:E; [|done]. specialize (Hs _ _ E). lia. Qed.
Lemma subs_ok_insert db db' iss : subs_ok db -> sh_subs db' = <[sh_nextSub db := iss]> (sh_subs db) -> sh_nextSub db' = sh_nextSub db + 1 -> subs_ok db'.
Proof. intros Hs E1 E2 k s. rewrite E1, E2. intros [[<- _]|[_ Hk]]%lookup_insert_Some; [lia | specialize (Hs _ _ Hk); lia]. Qed.

Lemma freed_count p (m m' : gmap Z IssuedSubscription) :
  (forall s s', s_UserId (i_sub s') = s_UserId (i_sub s) -> s_PlanId (i_sub s') = s_PlanId (i_sub s) -> i_Source s' = i_Source s -> p s' = p s) ->
  freed m m' -> count_where p m' <= count_where p m.
Proof.
  intros Hp Hf. rewrite !count_where_sum. apply table_sum_dom; [|intros; goal_if; lia]. intros k s' Hs'.
  destruct (Hf k s' Hs') as (s & Hs & E1 & E2 & E3). exists s. rewrite (Hp s s') by done. split; [done | lia].
Qed.

(** A move issues at most as many order subscriptions as it completes orders. *)
Lemma move_paid db db' : move db db' -> subs_ok db -> subs_ok db' /\ order_subs db' - order_subs db <= paid_orders db' - paid_orders db.
Proof.
  intros Hm Hs. unfold order_subs, paid_orders. destruct Hm as
    [o Hn Eo Hpr _ _ Es En | t o Ho (Hst & iss & o' & Eo & _ & Est & _ & _ & _ & Es & En & _ & _ & Esrc & _)
    | iss Eo Es En _ _ Hsrc | t o o' Ho Eo _ _ Hst _ _ Es En | _ Eo En Hf].
  - split; [intros k s; rewrite Es, En; apply Hs|]. rewrite !count_where_sum, Es, Eo, table_sum_insert_new by done. destruct (paid o); lia.
  - split; [by eapply subs_ok_insert|]. rewrite !count_where_sum, Es, Eo, table_sum_insert_new by (by apply subs_fresh).
    rewrite (table_sum_insert _ _ _ o) by done. unfold sold, paid. rewrite Esrc, Est, Hst. cbn. lia.
  - split; [by eapply subs_ok_insert|]. rewrite !count_where_sum, Es, Eo, table_sum_insert_new by (by apply subs_fresh).
    unfold sold at 1. rewrite (proj2 (String.eqb_neq _ _) Hsrc). lia.
  - split; [intros k s; rewrite Es, En; apply Hs|]. rewrite !count_where_sum, Es, Eo, (table_sum_insert _ _ _ o) by done.
    assert (paid o' = paid o); [|destruct (paid o), (paid o'); lia || done]. unfold paid. destruct Hst as [->|[-> ->]]; done.
  - split; [intros k s'; rewrite En; intros Hs'; destruct (Hf k s' Hs') as (s & Hk & _); by eapply Hs|].
    rewrite Eo. assert (count_where sold (sh_subs db') <= count_where sold (sh_subs db)); [|lia].
    apply freed_count; [|done]. unfold sold. by intros s s' _ _ ->.
Qed.

Lemma moves_paid db db' : moves db db' -> subs_ok db -> subs_ok db' /\ order_subs db' - order_subs db <= paid_orders db' - paid_orders db.
Proof.
  induction 1 as [|d1 d2 d3 _ IH _ Hm _]; intros Hs; [split; [done | lia]|]. destruct (IH Hs) as [Hs2 Hle].
  destruct (move_paid _ _ Hm Hs2). split; [done | lia].
Qed.

(** ** Holdings of a user *)

Definition in_scope_id (plans : gmap Z CatalogPlan) (c : CatalogPlan) (pid : Z) : bool :=
  match plans !! pid with Some x => same_scope c x | None => false end.
Definition holds_sub (u : Z) (scope : Z -> bool) (s : IssuedSubscription) : bool := (s_UserId (i_sub s) =? u) && scope (s_PlanId (i_sub s)).
Definition holds_order (u : Z) (scope : Z -> bool) (o : SubscriptionOrder) : bool := (o_UserId o =? u) && scope (o_PlanId o) && pending_reserved o.
Definition hold (u : Z) (scope : Z -> bool) (db : shopDB) : Z :=
  count_where (holds_sub u scope) (sh_subs db) + count_where (holds_order u scope) (sh_orders db).
(** Subscriptions and reserved orders of user [u] across the scope of [c]. *)
Definition holdings (u : Z) (c : CatalogPlan) (db : shopDB) : Z := hold u (in_scope_id (sh_plans db) c) db.

Definition users_ok (db : shopDB) : Prop := forall u id c, sh_plans db !! id = Some c -> 0 < c_MaxPurchasePerUser c ->
  holdings u c db <= c_MaxPurchasePerUser c <= max_i64.

Lemma count_where_ext {K A} `{Countable K} (p q : A -> bool) (m : gmap K A) : (forall x, p x = q x) -> count_where p m = count_where q m.
Proof. intros E. rewrite !count_where_sum. apply table_sum_ext. intros k x _. by rewrite E. Qed.
Lemma count_where_nonneg {K A} `{Countable K} (p : A -> bool) (m : gmap K A) : 0 <= count_where p m.
Proof. rewrite count_where_sum. apply table_sum_nonneg. intros k x _. goal_if; lia. Qed.

(** Scopes do not depend on the counters. *)
Lemma recounted_scope pid db db' id c' :
  sh_plans db' = sh_plans db \/ recounted pid db db' -> sh_plans db' !! id = Some c' ->
  exists c, sh_plans db !! id = Some c /\ c_MaxPurchasePerUser c' = c_MaxPurchasePerUser c /\
    forall p, in_scope_id (sh_plans db') c' p = in_scope_id (sh_plans db) c p.
Proof.
  intros [->|(c & i & r & Hc & ->)] Hc'; [eauto|].
  assert (Hsc : forall c0 p, in_scope_id (<[pid := set_counts i r c]> (sh_plans db)) c0 p = in_scope_id (sh_plans db) c0 p).
  { intros c0 p. unfold in_scope_id. destruct (decide (p = pid)) as [->|]; [|by rewrite lookup_insert_ne]. by rewrite lookup_insert_eq, Hc. }
  apply lookup_insert_Some in Hc' as [[<- <-]|[_ Hc']].
  - exists c. split_and!; try done. intros p. rewrite Hsc. done.
  - exists c'. split_and!; try done.
Qed.

(** An accepted limit check leaves room for one more. *)
Lemma check_room db u pid :
  shop_ok db -> users_ok db -> checkUserSubscriptionPurchaseScopeLimitTx db u pid = Ok tt ->
  forall id x, sh_plans db !! id = Some x -> 0 < c_MaxPurchasePerUser x -> in_scope_id (sh_plans db) x pid = true ->
  holdings u x db + 1 <= c_MaxPurchasePerUser x.
Proof.
  intros Hok Hus Hc id x Hx Hp Hin. unfold checkUserSubscriptionPurchaseScopeLimitTx in Hc. destruct (_ || _) in Hc; [done|].
  apply bind_Ok_inv in Hc as (scope & Hl & Hc). destruct (load_scope_inv db pid scope Hok Hl) as (c & Hcp & _ & _ & _ & Hlim & Hids).
  unfold in_scope_id in Hin. rewrite Hcp in Hin. pose proof (same_scope_sym db id x pid c Hok Hx Hcp Hin) as Hsym.
  assert (Hs : same_scope c x = true) by (rewrite Hsym; apply same_scope_refl). destruct (proj2 (Hlim id x Hx Hs) Hp) as [L1 L2].
  rewrite (proj2 (Z.leb_gt _ _) L1) in Hc. destruct (Z.leb_spec (sc_maxPerUser scope) (addNonNegativeSaturated
    (user_issued u (sc_planIDs scope) db) (user_reserved u (sc_planIDs scope) db))) as [|Hlt]; [done|]. clear Hc.
  assert (Hz : forall p, z_in p (sc_planIDs scope) = in_scope_id (sh_plans db) x p).
  { intros p. apply eq_true_iff_eq. unfold z_in, in_scope_id. rewrite existsb_exists. split.
    - intros (i & Hi%list_elem_of_In & ->%Z.eqb_eq). apply Hids in Hi as (y & -> & Hy). by rewrite <- Hsym.
    - destruct (sh_plans db !! p) as [y|] eqn:Ey; [|done]. intros Hy. exists p. rewrite Z.eqb_refl. split; [|done].
      apply list_elem_of_In, Hids. exists y. by rewrite Hsym. }
  pose proof (Hus u id x Hx Hp) as [Hh Hm]. unfold holdings, hold in *.
  set (a := count_where (holds_sub _ _) _) in *. set (b := count_where (holds_order _ _) _) in *.
  assert (Ea : user_issued u (sc_planIDs scope) db = a) by (apply count_where_ext; intros s; unfold holds_sub; by rewrite Hz).
  assert (Eb : user_reserved u (sc_planIDs scope) db = b) by (apply count_where_ext; intros o; unfold holds_order; by rewrite Hz).
  pose proof (count_where_nonneg (holds_sub u (in_scope_id (sh_plans db) x)) (sh_subs db)) as Ha. fold a in Ha.
  pose proof (count_where_nonneg (holds_order u (in_scope_id (sh_plans db) x)) (sh_orders db)) as Hb. fold b in Hb.
  rewrite Ea, Eb, addSat_spec in Hlt by lia. lia.
Qed.

Lemma hold_ext u sc sc' db : (forall p, sc p = sc' p) -> hold u sc db = hold u sc' db.
Proof.
  intros E. unfold hold. f_equal; apply count_where_ext; intros x; [unfold holds_sub | unfold holds_order]; by rewrite E.
Qed.

(** A move adds at most one to a user's holdings, after a check. *)
Lemma move_hold db db' u sc : move db db' -> subs_ok db ->
  hold u sc db' <= hold u sc db \/
  exists pid, checkUserSubscriptionPurchaseScopeLimitTx db u pid = Ok tt /\ sc pid = true /\ hold u sc db' <= hold u sc db + 1.
Proof.
  intros Hm Hs. unfold hold. destruct Hm as
    [o Hn Eo Hpr Hck _ Es _ | t o Ho (Hst & iss & o' & Eo & _ & Est & _ & Eu & Ep & Es & _ & Eiu & Eip & _ & _ & Hck)
    | iss Eo Es _ Hck _ _ | t o o' Ho Eo Eu Ep _ Hpr _ Es _ | _ Eo _ Hf]; rewrite Eo; rewrite ?Es.
  - assert (Hv : holds_order u sc o = (o_UserId o =? u) && sc (o_PlanId o)) by (unfold holds_order; by rewrite Hpr, andb_true_r).
    rewrite !count_where_sum, table_sum_insert_new, Hv by done.
    destruct (Z.eqb_spec (o_UserId o) u) as [<-|]; cbn [andb]; [|left; lia]. destruct (sc (o_PlanId o)) eqn:Ei; [right; exists (o_PlanId o) | left; lia].
    split_and!; try done; lia.
  - rewrite !count_where_sum, table_sum_insert_new, (table_sum_insert _ _ _ o) by (done || by apply subs_fresh).
    assert (Hpr' : holds_order u sc o' = false) by (unfold holds_order, pending_reserved; rewrite Est; apply andb_false_r).
    assert (Hv : holds_order u sc o = (o_UserId o =? u) && sc (o_PlanId o) && pending_reserved o) by done.
    assert (Hv' : holds_sub u sc iss = (o_UserId o =? u) && sc (o_PlanId o)) by (unfold holds_sub; by rewrite Eiu, Eip).
    rewrite Hpr', Hv, Hv'.
    destruct (Z.eqb_spec (o_UserId o) u) as [<-|]; cbn [andb]; [|left; lia]. destruct (sc (o_PlanId o)) eqn:Ei; cbn [andb]; [|left; lia].
    destruct (pending_reserved o); [left; lia|]. destruct Hck as [|Hck]; [done|]. right. exists (o_PlanId o). split_and!; try done; lia.
  - rewrite !count_where_sum, table_sum_insert_new by (by apply subs_fresh).
    assert (Hv : holds_sub u sc iss = (s_UserId (i_sub iss) =? u) && sc (s_PlanId (i_sub iss))) by done. rewrite Hv.
    destruct (Z.eqb_spec (s_UserId (i_sub iss)) u) as [<-|]; cbn [andb]; [|left; lia].
    destruct (sc (s_PlanId (i_sub iss))) eqn:Ei; [right; exists (s_PlanId (i_sub iss)) | left; lia]. split_and!; try done; lia.
  - left. rewrite !count_where_sum, (table_sum_insert _ _ _ o) by done.
    assert (Hv : holds_order u sc o = (o_UserId o =? u) && sc (o_PlanId o) && pending_reserved o) by done.
    assert (Hv' : holds_order u sc o' = (o_UserId o =? u) && sc (o_PlanId o) && pending_reserved o') by (unfold holds_order; by rewrite Eu, Ep).
    rewrite Hv, Hv'. destruct ((o_UserId o =? u) && _); cbn [andb]; [|lia]. destruct (pending_reserved o'); [rewrite Hpr by done|]; destruct (pending_reserved o); lia.
  - left. assert (count_where (holds_sub u sc) (sh_subs db') <= count_where (holds_sub u sc) (sh_subs db)); [|lia].
    apply freed_count; [|done]. unfold holds_sub. by intros s s' -> -> _.
Qed.

Lemma move_recount db db' : move db db' -> exists pid, sh_plans db' = sh_plans db \/ recounted pid db db'.
Proof. intros [? ? ? ? ? Hr|? ? ? (_ & ? & ? & _ & _ & _ & _ & _ & _ & _ & _ & _ & _ & _ & Hr & _)|? ? ? ? ? Hr|? ? ? ? ? ? ? ? ? Hr|? ?]; [eauto | eauto | eauto | eauto | exists 0; by left]. Qed.

Lemma move_users db db' : shop_ok db -> move db db' -> subs_ok db -> users_ok db -> users_ok db'.
Proof.
  intros Hok Hm Hs Hus u id c' Hc' Hp. destruct (move_recount _ _ Hm) as [pid Hr].
  destruct (recounted_scope pid db db' id c' Hr Hc') as (c & Hc & EM & Hsc). rewrite EM in *. unfold holdings. rewrite (hold_ext _ _ _ _ Hsc).
  pose proof (Hus u id c Hc Hp) as [Hh Hmx]. split; [|done]. unfold holdings in Hh.
  destruct (move_hold db db' u (in_scope_id (sh_plans db) c) Hm Hs) as [Hle|(p & Hck & Hin & Hle)]; [lia|].
  pose proof (check_room db u p Hok Hus Hck id c Hc Hp Hin) as Hroom. unfold holdings in Hroom. lia.
Qed.

Lemma moves_users db db' : moves db db' -> subs_ok db -> users_ok db -> users_ok db'.
Proof.
  induction 1 as [|d1 d2 d3 Hms IH Hok Hm _]; intros Hs Hus; [done|]. eapply move_users; eauto. by apply (moves_paid d1).
Qed.

(** ** Theorems *)

Section Theorems.
Context `{LocalZone} `{Accounting}.

Lemma catalog_frame op db : catalog_op op = true ->
  sh_orders (run_shop_op op db) = sh_orders db /\ sh_subs (run_shop_op op db) = sh_subs db /\ sh_nextSub (run_shop_op op db) = sh_nextSub db.
Proof.
  intros Hc. destruct op as [| | | | | | | | | | |n1 n2 req|id req]; try done; cbn [run_shop_op].
  - destruct (create_plan_tx n1 n2 db req) as [db'|] eqn:E; [|done]. unfold create_plan_tx in E. apply bind_Ok_inv in E as (p & _ & E). by simplify_eq.
  - destruct (update_plan_tx db id req) as [db'|] eqn:E; [|done]. unfold update_plan_tx in E. apply bind_Ok_inv in E as (p & _ & E). repeat case_match; by simplify_eq.
Qed.

Lemma run_paid op db : shop_ok db -> subs_ok db ->
  subs_ok (run_shop_op op db) /\ order_subs (run_shop_op op db) - order_subs db <= paid_orders (run_shop_op op db) - paid_orders db.
Proof.
  intros Hok Hs. destruct (catalog_op op) eqn:Ec; [|by apply moves_paid; [apply run_moves|]].
  destruct (catalog_frame op db Ec) as (E1 & E2 & E3). unfold subs_ok, order_subs, paid_orders. rewrite E1, E2, E3. split; [done | lia].
Qed.

(** C10. The stock is never oversold.  From a consistent shop, after any
    sequence of checkouts, payment callbacks, expiries, grants, cancellations
    and catalogue edits (limits raised or lowered, plans moved between
    groups), the copies issued and reserved across a purchase group are within
    every positive limit of the group, and the reserved counter of each plan
    is exactly the number of its pending reserved orders. *)
Theorem stock_never_oversold ops db0 db id c :
  shop_ok db0 -> shop_history ops db0 db -> sh_plans db !! id = Some c ->
  (0 < c_TotalPurchaseLimit c -> allocated c (sh_plans db) <= c_TotalPurchaseLimit c) /\
  0 <= c_IssuedCount c /\ c_ReservedCount c = reserved_orders id db.
Proof.
  intros Hok Hh Hc. pose proof (history_ok ops db0 db Hh Hok) as Hok'. split_and!.
  - apply (so_limit _ Hok' _ _ Hc).
  - apply (so_plans _ Hok' _ _ Hc).
  - apply (so_reserved _ Hok' _ _ Hc).
Qed.

(** Every subscription bought is paid for once.  However often and in
    whatever order callbacks, retries and expiries arrive, the subscriptions
    issued for orders never outnumber the orders paid. *)
Theorem order_subscriptions_are_paid ops db0 db :
  shop_ok db0 -> subs_ok db0 -> order_subs db0 <= paid_orders db0 -> shop_history ops db0 db -> order_subs db <= paid_orders db.
Proof.
  intros Hok Hs Hle Hh. assert (subs_ok db /\ order_subs db <= paid_orders db); [|tauto].
  induction Hh as [|ops op db0 db Hh IH Hop]; [done|]. destruct (IH Hok Hs Hle) as [Hs' Hle'].
  destruct (run_paid op db (history_ok _ _ _ Hh Hok) Hs'). split; [done | lia].
Qed.

(** The per-user limit holds.  While the catalogue is not edited, no
    user ever has more subscriptions and reserved orders across a purchase
    group than the group's smallest per-user limit, whether they buy, are
    granted, or pay for an order from before reservations. *)
Theorem per_user_limit_holds ops db0 db u id c :
  shop_ok db0 -> subs_ok db0 -> users_ok db0 -> shop_history ops db0 db -> Forall (fun op => catalog_op op = false) ops ->
  sh_plans db !! id = Some c -> 0 < c_MaxPurchasePerUser c -> holdings u c db <= c_MaxPurchasePerUser c.
Proof.
  intros Hok Hs Hu Hh Hops Hc Hp. assert (Hus : subs_ok db /\ users_ok db).
  { clear Hc. induction Hh as [|ops op db0 db Hh IH Hop]; [done|]. apply Forall_app in Hops as [Hops Hcat]. rewrite Forall_singleton in Hcat.
    destruct (IH Hok Hs Hu Hops) as [Hs' Hu']. pose proof (history_ok _ _ _ Hh Hok) as Hok'.
    destruct (run_moves op db Hok' Hcat) as [Hm _]. split; [by apply (moves_paid db) | by apply (moves_users db)]. }
  by apply (proj2 Hus u id c Hc Hp).
Qed.
End Theorems.

(** ** A concrete shop

    One plan with a single copy; a first buyer reserves it and pays twice, a
    second buyer is refused. *)

(** Exact decimal arithmetic on finite floats, 500000 quota units to the dollar. *)
Definition scaled_float (k : Z) (x : float64) : Z :=
  match x with
  | S754_finite s m e => let v := if 0 <=? e then Z.pos m * k * 2 ^ e else Z.pos m * k / 2 ^ (- e) in if s then - v else v
  | _ => 0
  end.
Definition demo_accounting : Accounting := {| round6 := scaled_float 1000000; quota_of := scaled_float 500000 |}.
Definition five_dollars : float64 := S754_finite false 5629499534213120 (-50).
Definition shop_zone : LocalZone := 0.
#[local] Existing Instance demo_accounting.
#[local] Existing Instance shop_zone.

Definition demo_plan : CatalogPlan := mkCat daily_plan five_dollars "" "" "" "" 1 "starter" 1 0 0 "vip".
Definition demo_shop : shopDB :=
  mkShop ∅ ∅ ∅ ∅ {[1 := mkBuyer 0 "default" 0 0; 2 := mkBuyer 0 "default" 0 0]} ∅ 1 1 1.
Definition demo_order (u : Z) (t : string) : SubscriptionOrder :=
  mkOrder 0 u 1 0 five_dollars "USD" five_dollars t "epay" "epay" "" SnapshotEmpty "" 0 0 "" 0 "".
Definition demo_time (t : Z) : clock := mkClock t t t t.
Definition demo_ops : list shop_op :=
  [OpCreatePlan true true (set_plan_columns (set_sale true 1 (c_plan demo_plan)) demo_plan);
   OpCheckout (demo_time 1000) (demo_order 1 "sub-1") true; OpCheckout (demo_time 1001) (demo_order 2 "sub-2") true;
   OpComplete (demo_time 1100) "sub-1" "paid" "epay" (Some "epay"); OpComplete (demo_time 1200) "sub-1" "paid" "epay" (Some "epay")].
Definition demo_run (ops : list shop_op) (db : shopDB) : shopDB := fold_left (fun db op => run_shop_op op db) ops db.
Definition demo_sold : shopDB := demo_run demo_ops demo_shop.

Lemma demo_shop_ok : shop_ok demo_shop /\ subs_ok demo_shop /\ users_ok demo_shop.
Proof. split_and!; [split; try done | done | done]. Qed.

Lemma run_history ops : forall db, Forall op_ok ops -> shop_history ops db (demo_run ops db).
Proof.
  induction ops as [|op ops IH] using rev_ind; intros db Hf; [apply shop_start|]. apply Forall_app in Hf as [Hf Hop]. rewrite Forall_singleton in Hop.
  unfold demo_run. rewrite fold_left_app. cbn. apply shop_next; [by apply IH | done].
Qed.

Lemma demo_ops_ok : Forall op_ok demo_ops.
Proof. repeat constructor. Qed.

Lemma demo_sold_plan : exists c, sh_plans demo_sold !! 1 = Some c /\ c_IssuedCount c = 1 /\ c_ReservedCount c = 0 /\ c_TotalPurchaseLimit c = 1.
Proof. eexists. split; [vm_compute; reflexivity | done]. Qed.

Lemma stock_never_oversold_witness : exists c, sh_plans demo_sold !! 1 = Some c /\ allocated c (sh_plans demo_sold) <= 1 /\ order_subs demo_sold = 1.
Proof.
  destruct demo_sold_plan as (c & Hc & _ & _ & Hl). exists c.
  destruct (stock_never_oversold demo_ops demo_shop demo_sold 1 c (proj1 demo_shop_ok) (run_history _ _ demo_ops_ok) Hc) as [Ha _].
  rewrite Hl in Ha. split; [exact Hc | split; [apply Ha; lia | vm_compute; reflexivity]].
Defined.

Lemma order_subscriptions_are_paid_witness : order_subs demo_sold <= paid_orders demo_sold.
Proof.
  apply (order_subscriptions_are_paid demo_ops demo_shop demo_sold (proj1 demo_shop_ok) (proj1 (proj2 demo_shop_ok)));
    [vm_compute; discriminate | apply run_history, demo_ops_ok].
Defined.

(** The shop with its plan on sale. *)
Definition demo_stocked : shopDB := demo_run (take 1 demo_ops) demo_shop.
Definition demo_row : CatalogPlan := set_plan_columns (set_sale true 1 (set_plan_id 1 (c_plan demo_plan))) demo_plan.

Lemma demo_stocked_ok : shop_ok demo_stocked /\ subs_ok demo_stocked /\ users_ok demo_stocked.
Proof.
  assert (Ep : sh_plans demo_stocked = {[1 := demo_row]}) by (vm_compute; reflexivity).
  assert (Es : sh_subs demo_stocked = ∅) by (vm_compute; reflexivity).
  assert (Eo : sh_orders demo_stocked = ∅) by (vm_compute; reflexivity).
  split_and!; [eapply history_ok; [apply run_history, Forall_take, demo_ops_ok | apply demo_shop_ok] | intros k s; by rewrite Es, lookup_empty |].
  intros u id c Hc _. rewrite Ep in Hc. apply lookup_singleton_Some in Hc as [_ <-].
  unfold holdings, hold. rewrite Es, Eo. vm_compute. split; discriminate.
Qed.

Lemma per_user_limit_holds_witness : exists c, sh_plans demo_sold !! 1 = Some c /\ holdings 1 c demo_sold <= 1 /\ 0 < holdings 1 c demo_sold.
Proof.
  destruct demo_sold_plan as (c & Hc & _). exists c.
  assert (Hm : c_MaxPurchasePerUser c = 1 /\ 0 < holdings 1 c demo_sold).
  { vm_compute in Hc. injection Hc as <-. split; vm_compute; reflexivity. }
  split; [exact Hc|]. split; [|apply Hm]. apply (Z.le_trans _ (c_MaxPurchasePerUser c)); [|lia].
  apply (per_user_limit_holds (drop 1 demo_ops) demo_stocked demo_sold 1 1 c).
  - apply demo_stocked_ok.
  - apply demo_stocked_ok.
  - apply demo_stocked_ok.
  - assert (E : demo_sold = demo_run (drop 1 demo_ops) demo_stocked) by (vm_compute; reflexivity).
    rewrite E. apply run_history, Forall_drop, demo_ops_ok.
  - repeat constructor.
  - exact Hc.
  - rewrite (proj1 Hm). lia.
Defined.
