(* ===== verification/OrderRetry.v ===== *)
(** * Payment callbacks may be repeated

    Gateways retry their callbacks.  A completed order can be completed again
    with no effect: no second subscription, no second income for the
    provider, and the mirror row in [top_ups] stays as it is.  The file also
    records how user groups behave when upgrades overlap. *)

From stdpp Require Import base numbers list strings pretty sorting gmap sets.
From Stdlib Require Import ZArith Lia SpecFloat.
From S2P Require Import Prelude GoInt GoString GoTime QuotaWindow QuotaPolicy WindowBounds SubPlan SubStock SubOrder SubGrant StockSafety ShopSafety.

(** ** The mirror row is a fixed point *)

Lemma eqb_refl_str s : String.eqb s s = true.
Proof. apply String.eqb_refl. Qed.
Lemma EqualFold_refl s : EqualFold s s = true.
Proof. apply String.eqb_refl. Qed.

(** Projections only: the string functions stay folded. *)
Ltac tu := cbn [tu_ProviderId tu_UserId tu_Amount tu_Money tu_TradeNo tu_PaymentMethod tu_PaymentProvider tu_BizType tu_SourceID
  tu_CreateTime tu_CompleteTime tu_Status tu_Currency tu_OriginalMoney].

(** Both branches agree. *)
Ltac top_if := match goal with |- (if ?b then _ else _) = _ => by destruct b end.

(** A guard of the form "set and different". *)
Lemma guard_id_num x y : negb (x =? 0) && negb (x =? y) = false ->
  let z := if x =? 0 then y else x in negb (z =? 0) && negb (z =? y) = false /\ (if z =? 0 then y else z) = z.
Proof. intros Hg. cbn zeta. destruct (Z.eqb_spec x 0) as [->|]; cbn in *; [|by rewrite (proj2 (Z.eqb_neq x 0))].
  rewrite Z.eqb_refl, andb_false_r. split; [done|]. by destruct (Z.eqb_spec y 0). Qed.

Section Mirror.
Context `{Accounting}.

Lemma money_matches_refl x : is_finite x = true -> subscriptionAccountingMoneyMatches x x = true.
Proof. intros Hf. unfold subscriptionAccountingMoneyMatches. by rewrite Hf, Z.eqb_refl. Qed.

(** The pieces of [topup_conflict]. *)
Record agrees (t : TopUp) (o : SubscriptionOrder) : Prop := {
  ag_user : negb (tu_UserId t =? 0) && negb (tu_UserId t =? o_UserId o) = false;
  ag_provider : negb (tu_ProviderId t =? 0) && negb (tu_ProviderId t =? o_ProviderId o) = false;
  ag_method : negb (String.eqb (TrimSpace (tu_PaymentMethod t)) "") &&
    negb (EqualFold (TrimSpace (tu_PaymentMethod t)) (TrimSpace (o_PaymentMethod o))) = false;
  ag_gateway : negb (String.eqb (TrimSpace (tu_PaymentProvider t)) "") &&
    (String.eqb (TrimSpace (o_PaymentProvider o)) "" ||
     negb (EqualFold (TrimSpace (tu_PaymentProvider t)) (TrimSpace (o_PaymentProvider o)))) = false;
  ag_biz : negb (String.eqb (TrimSpace (tu_BizType t)) "") && negb (String.eqb (TrimSpace (tu_BizType t)) TopUpBizTypeSubscription) &&
    negb (legacySubscriptionShape t) = false;
  ag_source : negb (tu_SourceID t =? 0) && negb (tu_SourceID t =? o_Id o) = false;
  ag_amount : negb (tu_Amount t =? 0) = false;
  ag_money : negb (is_zero (tu_Money t)) && negb (subscriptionAccountingMoneyMatches (tu_Money t) (o_Money o)) = false;
  ag_original : negb (is_zero (tu_OriginalMoney t)) && negb (is_zero (o_OriginalMoney o)) &&
    negb (subscriptionAccountingMoneyMatches (tu_OriginalMoney t) (o_OriginalMoney o)) = false;
  ag_currency : negb (String.eqb (TrimSpace (tu_Currency t)) "") &&
    negb (String.eqb (normalizeSubscriptionOrderCurrency (tu_Currency t)) (normalizeSubscriptionOrderCurrency (o_Currency o))) = false
}.

Lemma topup_conflict_agrees t o : topup_conflict t o = false <-> agrees t o.
Proof. unfold topup_conflict. rewrite !orb_false_iff. split; [intros; destruct_and?; by split | intros [? ? ? ? ? ? ? ? ? ?]; by split_and!]. Qed.

Definition finite_order (o : SubscriptionOrder) : Prop := is_finite (o_Money o) = true /\ is_finite (o_OriginalMoney o) = true.

Lemma mirror_row_fixed o st ct : finite_order o ->
  agrees (mirror_row o st ct) o /\ mirror_update (mirror_row o st ct) o st ct = mirror_row o st ct.
Proof.
  intros [Hm Ho]. split.
  - split; unfold mirror_row; tu; rewrite ?Z.eqb_refl, ?EqualFold_refl, ?eqb_refl_str, ?money_matches_refl, ?andb_false_r by done; try done.
    rewrite orb_false_r. by destruct (String.eqb (TrimSpace (o_PaymentProvider o)) "").
  - unfold mirror_update, mirror_row. tu.
    f_equal; try (by destruct (_ =? 0)); try (by destruct (String.eqb _ "")); try (by destruct (is_zero _)).
    by destruct (legacySubscriptionShape _).
Qed.

Lemma mirror_update_fixed t o st ct : finite_order o -> agrees t o ->
  agrees (mirror_update t o st ct) o /\ mirror_update (mirror_update t o st ct) o st ct = mirror_update t o st ct.
Proof.
  intros [Hm Ho] [A1 A2 A3 A4 A5 A6 A7 A8 A9 A10].
  destruct (guard_id_num _ _ A1) as [U1 U2]. destruct (guard_id_num _ _ A2) as [P1 P2]. destruct (guard_id_num _ _ A6) as [S1 S2].
  assert (Hleg : legacySubscriptionShape (mirror_update t o st ct) = true -> legacySubscriptionShape t = true).
  { unfold legacySubscriptionShape, mirror_update. tu. destruct (Z.eqb_spec (tu_SourceID t) 0) as [->|Hn]; cbn; [|by rewrite (proj2 (Z.eqb_neq _ _) Hn)].
    rewrite !andb_true_iff. tauto. }
  split.
  - split; unfold mirror_update; tu; try done.
    + destruct (String.eqb_spec (tu_PaymentMethod t) "") as [_|_]; [|done]. by rewrite EqualFold_refl, andb_false_r.
    + destruct (String.eqb_spec (tu_PaymentProvider t) "") as [_|_]; [|done]. rewrite EqualFold_refl. by destruct (String.eqb (TrimSpace (o_PaymentProvider o)) "").
    + destruct (String.eqb_spec (tu_BizType t) "") as [_|_]; cbn [orb]; [done|]. destruct (legacySubscriptionShape t) eqn:El; [done|].
      cbn [negb] in A5. rewrite andb_true_r in A5. by rewrite A5.
    + by rewrite money_matches_refl, andb_false_r.
    + destruct (is_zero (tu_OriginalMoney t)) eqn:Ez; [|rewrite Ez; exact A9]. by rewrite money_matches_refl, andb_false_r.
    + destruct (String.eqb_spec (tu_Currency t) "") as [_|_]; [|done]. by rewrite eqb_refl_str, andb_false_r.
  - unfold mirror_update in *. tu. f_equal; try done.
    + destruct (String.eqb_spec (tu_PaymentMethod t) "") as [_|Hn]; [top_if | by rewrite (proj2 (String.eqb_neq _ _) Hn)].
    + destruct (String.eqb_spec (tu_PaymentProvider t) "") as [_|Hn]; [top_if | by rewrite (proj2 (String.eqb_neq _ _) Hn)].
    + destruct (String.eqb_spec (tu_BizType t) "") as [_|Hn]; cbn [orb]; [top_if|]. destruct (legacySubscriptionShape t) eqn:El; [top_if|].
      rewrite (proj2 (String.eqb_neq _ _) Hn). cbn [orb]. match goal with |- (if ?b then _ else _) = _ => destruct b eqn:E2; [|done] end. specialize (Hleg E2). congruence.
    + destruct (Z.eqb_spec (tu_CreateTime t) 0) as [_|Hn]; [top_if | by rewrite (proj2 (Z.eqb_neq _ _) Hn)].
    + destruct (String.eqb_spec (tu_Currency t) "") as [_|Hn]; [top_if | by rewrite (proj2 (String.eqb_neq _ _) Hn)].
    + destruct (is_zero (tu_OriginalMoney t)) eqn:Ez; [by destruct (is_zero (o_OriginalMoney o)) | by rewrite Ez].
Qed.
End Mirror.

(** ** Running the bookkeeping twice *)

Section Retry.
Context `{LocalZone} `{Accounting}.

Lemma with_topups_id t x db : sh_topups db !! t = Some x -> with_topups (<[t := x]> (sh_topups db)) db = db.
Proof. intros Ht. rewrite insert_id by done. by destruct db. Qed.

(** The row of the order after an update: a further update finds it as it leaves it. *)
Lemma upsert_row ck o db d1 : finite_order o -> (o_Status o = TopUpStatusSuccess -> o_CompleteTime o <> 0) ->
  upsertSubscriptionTopUpTx ck o db = Ok d1 ->
  exists r, sh_topups d1 !! o_TradeNo o = Some r /\
    forall ck' d2, sh_topups d2 !! o_TradeNo o = Some r -> upsertSubscriptionTopUpTx ck' o d2 = Ok d2.
Proof.
  intros Hfin Hct Hu. unfold upsertSubscriptionTopUpTx in *. cbn zeta in *. set (st := if String.eqb (o_Status o) "" then _ else _) in *.
  assert (Ect : forall ck, (if String.eqb st TopUpStatusSuccess && (o_CompleteTime o =? 0) then ck_mirror ck else o_CompleteTime o) = o_CompleteTime o).
  { intros ck0. destruct (String.eqb_spec st TopUpStatusSuccess) as [Es|]; [|done]. cbn [andb]. rewrite (proj2 (Z.eqb_neq _ _)); [done|].
    apply Hct. subst st. destruct (String.eqb (o_Status o) ""); done. }
  rewrite Ect in Hu. destruct (sh_topups db !! o_TradeNo o) as [t|] eqn:Et.
  - destruct (topup_conflict t o) eqn:Ec; [done|]. injection Hu as <-. apply topup_conflict_agrees in Ec.
    destruct (mirror_update_fixed t o st (o_CompleteTime o) Hfin Ec) as [Ha Hf].
    eexists. split; [apply lookup_insert_eq|]. intros ck' d2 Hd. rewrite Hd, Ect, (proj2 (topup_conflict_agrees _ _) Ha), Hf. f_equal. by apply with_topups_id.
  - injection Hu as <-. destruct (mirror_row_fixed o st (o_CompleteTime o) Hfin) as [Ha Hf].
    eexists. split; [apply lookup_insert_eq|]. intros ck' d2 Hd. rewrite Hd, Ect, (proj2 (topup_conflict_agrees _ _) Ha), Hf. f_equal. by apply with_topups_id.
Qed.

Lemma income_row_settled ck owner q o : income_conflict (income_row ck owner q o) owner o = false.
Proof.
  unfold income_conflict, income_row. tu. rewrite !Z.eqb_refl, EqualFold_refl, ?andb_false_r. cbn [negb orb andb].
  by destruct (String.eqb (TrimSpace TopUpPaymentMethodProviderSubscription) "").
Qed.

(** An income is credited once: the second time nothing changes. *)
Lemma income_twice ck o db a b c d1 : applyProviderSubscriptionIncomeTx ck o db = Ok (a, b, c, d1) ->
  (forall t r, sh_topups db !! t = Some r -> sh_topups d1 !! t = Some r) /\
  forall ck', exists a', applyProviderSubscriptionIncomeTx ck' o d1 = Ok (a', 0, false, d1).
Proof.
  unfold applyProviderSubscriptionIncomeTx. cbn zeta. destruct (_ || _); [intros [= <- <- <- <-]; split; eauto|].
  destruct (_ <=? 0); [intros [= <- <- <- <-]; split; eauto|]. destruct (sh_owners db !! o_ProviderId o) as [owner|] eqn:Eo; [|done].
  destruct (owner <=? 0) eqn:Ew; [done|]. destruct (sh_topups db !! income_trade_no o) as [x|] eqn:Et.
  - destruct (income_conflict x owner o) eqn:Ec; [done|]. intros [= <- <- <- <-]. split; [done|]. intros ck'. rewrite Eo, Ew, Et, Ec. eauto.
  - intros [= <- <- <- <-]. split.
    + intros t r Hr. cbn. rewrite lookup_insert_ne; [done | congruence].
    + intros ck'. cbn. rewrite Eo, Ew, lookup_insert_eq, income_row_settled. eauto.
Qed.

(** After the bookkeeping of a paid order, repeating it changes nothing. *)
Lemma bookkeeping_twice ck o db d1 a b c d2 :
  finite_order o -> (o_Status o = TopUpStatusSuccess -> o_CompleteTime o <> 0) ->
  upsertSubscriptionTopUpTx ck o db = Ok d1 -> applyProviderSubscriptionIncomeTx ck o d1 = Ok (a, b, c, d2) ->
  forall ck', upsertSubscriptionTopUpTx ck' o d2 = Ok d2 /\ exists a', applyProviderSubscriptionIncomeTx ck' o d2 = Ok (a', 0, false, d2).
Proof.
  intros Hfin Hct Hu Hi ck'. destruct (upsert_row ck o db d1 Hfin Hct Hu) as (r & Hr & Hfix).
  destruct (income_twice ck o d1 a b c d2 Hi) as [Hkeep Htwice]. split; [apply Hfix, Hkeep, Hr | apply Htwice].
Qed.

(** A payment callback may be repeated.  Once a callback for an order
    has succeeded, every later callback for the same order, whatever its
    payload and whenever it arrives, succeeds and leaves every table exactly
    as it is: no second subscription, stock movement, usage or provider
    income, and no change to the mirror row. *)
Theorem completion_is_idempotent ck ck' t payload payload' m p db db' :
  shop_ok db -> (forall o, sh_orders db !! t = Some o -> finite_order o /\ (o_Status o = TopUpStatusSuccess -> o_CompleteTime o <> 0)) ->
  ck_done ck <> 0 ->
  CompleteSubscriptionOrder ck t payload m p db = (Ok tt, db') ->
  CompleteSubscriptionOrder ck' t payload' m p db' = (Ok tt, db').
Proof.
  intros Hok Hwf Hdone Hc. unfold CompleteSubscriptionOrder in *. destruct (String.eqb (TrimSpace t) "") eqn:Et0; [done|].
  unfold shop_tx in *. destruct (completeSubscriptionOrderTx ck t payload m p db) as [[res d]|e] eqn:Hf; [|done].
  injection Hc as ->. unfold completeSubscriptionOrderTx in Hf. rewrite Et0 in Hf.
  destruct (sh_orders db !! t) as [o|] eqn:Ho; [|done]. destruct (Hwf o eq_refl) as [Hfin Hct]. destruct (so_orders _ Hok _ _ Ho) as (Etr & _ & _).
  destruct (_ && _) eqn:Em in Hf; [done|]. destruct (match p with Some _ => _ | None => _ end) eqn:Ep in Hf; [done|].
  assert (Hsuff : forall o', o_PaymentMethod o' = o_PaymentMethod o -> o_PaymentProvider o' = o_PaymentProvider o ->
    sh_orders db' !! t = Some o' -> o_Status o' = TopUpStatusSuccess -> upsertSubscriptionTopUpTx ck' o' db' = Ok db' ->
    (exists a, applyProviderSubscriptionIncomeTx ck' o' db' = Ok (a, 0, false, db')) ->
    exists r, completeSubscriptionOrderTx ck' t payload' m p db' = Ok (r, db')).
  { intros o' E1 E2 E3 E4 Hu (a & Hi). unfold completeSubscriptionOrderTx. rewrite Et0, E3, E1, Em. rewrite E2, Ep, E4. cbn [String.eqb].
    change (String.eqb TopUpStatusSuccess TopUpStatusSuccess) with true. cbv iota. rewrite Hu. cbn [mbind result_bind]. rewrite Hi. eexists. reflexivity. }
  assert (Hend : exists r, completeSubscriptionOrderTx ck' t payload' m p db' = Ok (r, db')); [|destruct Hend as [r ->]; done].
  destruct (String.eqb_spec (o_Status o) TopUpStatusSuccess) as [Es|Es].
  - apply bind_Ok_inv in Hf as (d1 & Hu & Hf). apply bind_Ok_inv in Hf as ([[[a b] c] d2] & Hi & Hf). injection Hf as _ ->.
    destruct (bookkeeping_twice ck o db d1 a b c db' Hfin Hct Hu Hi ck') as [Hu' Hi'].
    apply upsert_frame in Hu as [(_ & U2 & _) _]. apply income_frame in Hi as (_ & I2 & _). apply (Hsuff o); try done. congruence.
  - destruct (negb _) in Hf; [done|]. destruct (_ && _ && _) in Hf; [done|]. apply bind_Ok_inv in Hf as (plan & _ & Hf).
    apply bind_Ok_inv in Hf as (snap & _ & Hf). apply bind_Ok_inv in Hf as ([iss d0] & _ & Hf). cbn zeta in Hf. set (o' := set_outcome _ _ _ _ o) in Hf.
    apply bind_Ok_inv in Hf as (d1 & Hu & Hf). apply bind_Ok_inv in Hf as ([[[a b] c] d2] & Hi & Hf). injection Hf as _ ->.
    destruct (bookkeeping_twice ck o' _ d1 a b c db' Hfin ltac:(done) Hu Hi ck') as [Hu' Hi'].
    apply upsert_frame in Hu as [(_ & U2 & _) _]. apply income_frame in Hi as (_ & I2 & _). apply (Hsuff o'); try done.
    rewrite I2, U2. cbn. rewrite Etr. apply lookup_insert_eq.
Qed.
End Retry.

(** ** The concrete shop again *)

#[local] Existing Instance demo_accounting.
#[local] Existing Instance shop_zone.

(** The copy is reserved, not yet paid for. *)
Definition demo_reserved : shopDB := demo_run (take 3 demo_ops) demo_shop.
Definition demo_paid : shopDB := snd (CompleteSubscriptionOrder (demo_time 1100) "sub-1" "paid" "epay" (Some "epay") demo_reserved).

Lemma completion_is_idempotent_witness :
  order_subs demo_paid = 1 /\
  CompleteSubscriptionOrder (demo_time 5000) "sub-1" "again" "epay" (Some "epay") demo_paid = (Ok tt, demo_paid).
Proof.
  split; [vm_compute; reflexivity|].
  apply (completion_is_idempotent (demo_time 1100) (demo_time 5000) "sub-1" "paid" "again" "epay" (Some "epay") demo_reserved demo_paid).
  - exact (history_ok (take 3 demo_ops) demo_shop demo_reserved (run_history (take 3 demo_ops) demo_shop (Forall_take op_ok 3 demo_ops demo_ops_ok)) (proj1 demo_shop_ok)).
  - intros o Ho. vm_compute in Ho. injection Ho as <-. repeat split. intros Hs. discriminate Hs.
  - discriminate.
  - unfold demo_paid.
    assert (E : fst (CompleteSubscriptionOrder (demo_time 1100) "sub-1" "paid" "epay" (Some "epay") demo_reserved) = Ok tt) by (vm_compute; reflexivity).
    rewrite <- E. apply surjective_pairing.
Defined.

(** ** Overlapping upgrades

    [PrevUserGroup] is recorded by the subscription that changes the group.  A
    second one bought while the first is active records none, and when it is
    the last to expire the sweep finds no group to return to. *)

Definition vip_plan : CatalogPlan := mkCat (set_sale true 1 (set_plan_id 1 daily_plan)) five_dollars "" "" "" "" 0 "" 0 0 0 "vip".
Definition vip_shop : shopDB := mkShop {[1 := vip_plan]} ∅ ∅ ∅ {[1 := mkBuyer 0 "default" 0 0]} ∅ 2 1 1.
Definition day : Z := 86400.

(** One upgrade, expired at [t]. *)
Definition one_upgrade (t : Z) : shopDB :=
  snd (ExpireDueSubscriptions t 0 (snd (AdminBindSubscription (demo_time day) 1 1 vip_shop))).
(** Two overlapping upgrades, both expired at [t]. *)
Definition two_upgrades (t : Z) : shopDB :=
  snd (ExpireDueSubscriptions t 0 (snd (AdminBindSubscription (demo_time (2 * day)) 1 1 (snd (AdminBindSubscription (demo_time day) 1 1 vip_shop))))).

(** An overlapping upgrade is never undone.  A user who holds one
    subscription with an upgrade group returns to the previous group when it
    expires; a user who renews before the first one ends stays in the
    upgraded group after both have expired, with no active subscription. *)
Theorem renewed_upgrade_is_permanent :
  let later := 400 * day in
  user_group (one_upgrade later) 1 = "default" /\
  user_group (two_upgrades later) 1 = "vip" /\
  forall k s, sh_subs (two_upgrades later) !! k = Some s -> s_Status (i_sub s) = "expired".
Proof.
  cbn zeta. split_and!; [vm_compute; reflexivity | vm_compute; reflexivity |].
  assert (E : forallb (fun s => String.eqb (s_Status (i_sub s)) "expired") (map snd (map_to_list (sh_subs (two_upgrades (400 * day))))) = true)
    by (vm_compute; reflexivity).
  intros k s Hs. apply String.eqb_eq. exact (table_forallb (fun s => String.eqb (s_Status (i_sub s)) "expired") _ k s E Hs).
Qed.
