(* ===== verification/SubUsage.v ===== *)
(** * Usage of a subscription's windows

    The pre-consume records of a subscription and what the code computes from
    them ([src/model/subscription.go]): the usage of a window
    ([recentSubscriptionWindowUsageExcludingTx]), admission against the generic
    windows, and the settlement check [quotaWindowTargetAllowedTx], whose
    rolling case slides two pointers over the records of both neighbouring
    windows.  The theorems show that the sliding check decides exactly the
    quantified statement it stands for: no window the request ever belonged to
    exceeds its limit.

    A table is a list of rows in the order of their ids.  Amounts are sums of
    non-negative 64-bit amounts compared before they are added, so they are
    plain integers where the code guards the addition. *)

From stdpp Require Import base numbers list strings sorting sets.
From Stdlib Require Import ZArith Lia.
From S2P Require Import Prelude GoInt GoTime GoString QuotaWindow QuotaPolicy WindowBounds SubPlan.

(** ** Records *)

Record SubscriptionPreConsumeRecord := mkRecord {
  r_Id : Z; r_RequestId : string; r_UserId : Z; r_UserSubscriptionId : Z;
  r_ModelName : string; r_QuotaType : Z;
  r_PreConsumed : Z; r_SettledAmount : option Z; r_SettledAt : Z;
  r_Status : string; r_CreatedAt : Z; r_UpdatedAt : Z
}.

#[export] Instance record_eq_dec : EqDecision SubscriptionPreConsumeRecord.
Proof. solve_decision. Defined.

Definition effectivePreConsumeAmount (r : SubscriptionPreConsumeRecord) : Z :=
  match r_SettledAmount r with
  | Some a => if a <? 0 then 0 else a
  | None => if r_PreConsumed r <? 0 then 0 else r_PreConsumed r
  end.

(** [WHERE user_subscription_id = ? AND status <> 'refunded'] *)
Definition live_records (records : list SubscriptionPreConsumeRecord) (subscriptionID : Z)
  : list SubscriptionPreConsumeRecord :=
  List.filter (fun r => (r_UserSubscriptionId r =? subscriptionID) && negb (String.eqb (r_Status r) "refunded")) records.

(** [... AND request_id <> ?] *)
Definition other_records (records : list SubscriptionPreConsumeRecord) (subscriptionID : Z) (requestId : string)
  : list SubscriptionPreConsumeRecord :=
  List.filter (fun r => negb (String.eqb (r_RequestId r) requestId)) (live_records records subscriptionID).

(** ** Usage of a window *)

(** One pass of the loop over the queried records: [used] saturates, [resetAt]
    is the earliest expiry in a rolling window. *)
Definition usage_step (w : subscriptionQuotaWindowPolicy) (acc : Z * Z) (r : SubscriptionPreConsumeRecord) : Z * Z :=
  let '(used, resetAt) := acc in
  let amount := effectivePreConsumeAmount r in
  if amount <=? 0 then acc
  else
    let used := if i64_sub max_i64 amount <? used then max_i64 else i64_add used amount in
    let resetAt :=
      if String.eqb (wp_resetMode w) "calendar" then resetAt
      else
        let expires := match subscriptionSafeAddInt64 (r_CreatedAt r) (wp_windowSeconds w) with
                       | (e, true) => e | (_, false) => max_i64 end in
        if (resetAt =? 0) || (expires <? resetAt) then expires else resetAt in
    (used, resetAt).

Section Usage.
Context `{DBClock}.

Definition recentSubscriptionWindowUsageExcludingTx (records : list SubscriptionPreConsumeRecord)
    (subscriptionID now : Z) (w : subscriptionQuotaWindowPolicy) (anchor : Z) (excludeRequestID : string)
  : result (Z * Z) :=
  if subscriptionID <=? 0 then Ok (0, 0)
  else if (wp_windowSeconds w <=? 0) || (MaxSubscriptionQuotaWindowSeconds <? wp_windowSeconds w)
  then fail_with "invalid subscription quota window duration"
  else
    let rolling := String.eqb (wp_resetMode w) "rolling" in
    let calendar := String.eqb (wp_resetMode w) "calendar" in
    if (calendar && negb (isValidSubscriptionQuotaWindowUnit (wp_unit w))) ||
       (rolling && negb (String.eqb (wp_unit w) "") && negb (isValidSubscriptionQuotaWindowUnit (wp_unit w)))
    then fail_with "invalid subscription quota window unit"
    else if negb rolling && negb calendar then fail_with "invalid subscription quota window reset mode"
    else if String.eqb (wp_unit w) "custom" && calendar && ((anchor <=? 0) || (now <? anchor))
    then fail_with "invalid subscription quota window anchor"
    else
      let '(start, end_) := quotaWindowBounds w now anchor in
      let q := live_records records subscriptionID in
      let q := if calendar
               then List.filter (fun r => (start <=? r_CreatedAt r) && (r_CreatedAt r <? end_) && (r_CreatedAt r <=? now)) q
               else List.filter (fun r => (start <? r_CreatedAt r) && (r_CreatedAt r <=? now)) q in
      let q := if String.eqb (TrimSpace excludeRequestID) "" then q
               else List.filter (fun r => negb (String.eqb (r_RequestId r) excludeRequestID)) q in
      Ok (fold_left (usage_step w) q (0, if calendar then end_ else 0)).

Definition recentSubscriptionWindowUsageTx (records : list SubscriptionPreConsumeRecord)
    (subscriptionID now : Z) (w : subscriptionQuotaWindowPolicy) (anchor : Z) : result (Z * Z) :=
  recentSubscriptionWindowUsageExcludingTx records subscriptionID now w anchor "".

Definition recentSubscriptionUsageTx (records : list SubscriptionPreConsumeRecord)
    (subscriptionID now windowSeconds : Z) : result (Z * Z) :=
  recentSubscriptionWindowUsageTx records subscriptionID now
    (mkWindowPolicy "hour" 0 5 windowSeconds "rolling" "") 0.

(** The loop over [policy.windows]. *)
Fixpoint windows_available (records : list SubscriptionPreConsumeRecord) (sub : UserSubscription)
    (now amount : Z) (ws : list subscriptionQuotaWindowPolicy) : result bool :=
  match ws with
  | [] => Ok true
  | w :: rest =>
      if wp_amount w <=? 0 then windows_available records sub now amount rest
      else
        '(used, _) ← recentSubscriptionWindowUsageTx records (s_Id sub) now w (s_StartTime sub);
        if (wp_amount w <? used) || (i64_sub (wp_amount w) used <? amount) then Ok false
        else windows_available records sub now amount rest
  end.

Definition genericQuotaAvailableTx (records : list SubscriptionPreConsumeRecord) (sub : UserSubscription)
    (policy : subscriptionQuotaPolicy) (now amount : Z) : result bool :=
  if negb (policyHasGenericWindows policy) then Ok true
  else if amount <=? 0 then fail_with "amount must be > 0"
  else windows_available records sub now amount (po_windows policy).
End Usage.

(** ** Settlement: the final amount of an existing request *)

(** The check shared by both window kinds: every amount must still fit. *)
Fixpoint fits_all (remaining used : Z) (records : list SubscriptionPreConsumeRecord) : bool :=
  match records with
  | [] => true
  | r :: rest =>
      let amount := effectivePreConsumeAmount r in
      if amount <=? 0 then fits_all remaining used rest
      else if (remaining <? used) || (remaining - used <? amount) then false
      else fits_all remaining (used + amount) rest
  end.

(** [addUntil]: [win] is [records[left:right]], [rest] is [records[right:]];
    [None] is the code's [false]. *)
Fixpoint addUntil (remaining timestamp : Z) (win : list SubscriptionPreConsumeRecord) (used : Z)
    (rest : list SubscriptionPreConsumeRecord)
  : option (list SubscriptionPreConsumeRecord * Z * list SubscriptionPreConsumeRecord) :=
  match rest with
  | [] => Some (win, used, [])
  | r :: rest' =>
      if r_CreatedAt r <=? timestamp then
        let amount := effectivePreConsumeAmount r in
        if 0 <? amount then
          if (remaining <? used) || (remaining - used <? amount) then None
          else addUntil remaining timestamp (win ++ [r]) (used + amount) rest'
        else addUntil remaining timestamp (win ++ [r]) used rest'
      else Some (win, used, rest)
  end.

(** The inner loop that advances [left]. *)
Fixpoint evict (windowStart : Z) (win : list SubscriptionPreConsumeRecord) (used : Z)
  : list SubscriptionPreConsumeRecord * Z :=
  match win with
  | [] => ([], used)
  | r :: win' =>
      if r_CreatedAt r <=? windowStart then
        let amount := effectivePreConsumeAmount r in
        let used := if 0 <? amount then (if used - amount <? 0 then 0 else used - amount) else used in
        evict windowStart win' used
      else (win, used)
  end.

Definition saturating (bound : Z) (r : Z * bool) : Z := if snd r then fst r else bound.

(** The [for right < len(records)] loop; each pass consumes a record, so
    [length rest] passes are enough. *)
Fixpoint slide (fuel : nat) (remaining windowSeconds : Z) (win : list SubscriptionPreConsumeRecord) (used : Z)
    (rest : list SubscriptionPreConsumeRecord) : option bool :=
  match rest with
  | [] => Some true
  | r :: _ =>
      match fuel with
      | O => None
      | S fuel =>
          let criticalTime := r_CreatedAt r in
          let windowStart := saturating min_i64 (subscriptionSafeSubInt64 criticalTime windowSeconds) in
          let '(win, used) := evict windowStart win used in
          match addUntil remaining criticalTime win used rest with
          | None => Some false
          | Some (win, used, rest) => slide fuel remaining windowSeconds win used rest
          end
      end
  end.

(** [ORDER BY created_at ASC, id ASC] *)
Definition record_le (a b : SubscriptionPreConsumeRecord) : Prop :=
  r_CreatedAt a < r_CreatedAt b \/ (r_CreatedAt a = r_CreatedAt b /\ r_Id a <= r_Id b).
#[export] Instance record_le_dec : RelDecision record_le.
Proof. intros a b. unfold record_le. apply _. Defined.

Definition rolling_target_allowed (others : list SubscriptionPreConsumeRecord) (w : subscriptionQuotaWindowPolicy)
    (recordTime remaining now : Z) : option bool :=
  let lower := saturating min_i64 (subscriptionSafeSubInt64 recordTime (wp_windowSeconds w)) in
  let upper := saturating max_i64 (subscriptionSafeAddInt64 recordTime (wp_windowSeconds w)) in
  let records := merge_sort record_le
    (List.filter (fun r => (lower <? r_CreatedAt r) && (r_CreatedAt r <? upper) && (r_CreatedAt r <=? now)) others) in
  match addUntil remaining recordTime [] 0 records with
  | None => Some false
  | Some (win, used, rest) => slide (length rest) remaining (wp_windowSeconds w) win used rest
  end.

Section Settlement.
Context `{DBClock} `{LocalZone}.

Definition quotaWindowTargetAllowedTx (records : list SubscriptionPreConsumeRecord) (subscriptionID : Z)
    (w : subscriptionQuotaWindowPolicy) (anchor : Z) (record : SubscriptionPreConsumeRecord) (target now : Z)
  : result bool :=
  let rolling := String.eqb (wp_resetMode w) "rolling" in
  let calendar := String.eqb (wp_resetMode w) "calendar" in
  if subscriptionID <=? 0 then fail_with "invalid subscription quota settlement window"
  else if target <? 0 then fail_with "actual amount must be >= 0"
  else if wp_amount w <=? 0 then Ok true
  else if (wp_windowSeconds w <=? 0) || (MaxSubscriptionQuotaWindowSeconds <? wp_windowSeconds w)
  then fail_with "invalid subscription quota window duration"
  else if negb rolling && negb calendar then fail_with "invalid subscription quota window reset mode"
  else if (calendar && negb (isValidSubscriptionQuotaWindowUnit (wp_unit w))) ||
          (rolling && negb (String.eqb (wp_unit w) "") && negb (isValidSubscriptionQuotaWindowUnit (wp_unit w)))
  then fail_with "invalid subscription quota window unit"
  else if (r_CreatedAt record <=? 0) || (now <? r_CreatedAt record)
  then fail_with "invalid subscription quota record time"
  else if String.eqb (wp_unit w) "custom" && calendar && ((anchor <=? 0) || (r_CreatedAt record <? anchor))
  then fail_with "invalid subscription quota window anchor"
  else if wp_amount w <? target then Ok false
  else
    let remainingForOthers := wp_amount w - target in
    let others := other_records records subscriptionID (r_RequestId record) in
    if calendar then
      let '(start, end_) := quotaWindowBounds w (r_CreatedAt record) anchor in
      Ok (fits_all remainingForOthers 0
            (List.filter (fun r => (start <=? r_CreatedAt r) && (r_CreatedAt r <? end_) && (r_CreatedAt r <=? now)) others))
    else
      match rolling_target_allowed others w (r_CreatedAt record) remainingForOthers now with
      | Some b => Ok b
      | None => fail_with "loop fuel exhausted"
      end.

Fixpoint windows_target_allowed (records : list SubscriptionPreConsumeRecord) (sub : UserSubscription)
    (record : SubscriptionPreConsumeRecord) (target now : Z) (ws : list subscriptionQuotaWindowPolicy)
  : result bool :=
  match ws with
  | [] => Ok true
  | w :: rest =>
      if wp_amount w <=? 0 then windows_target_allowed records sub record target now rest
      else
        allowed ← quotaWindowTargetAllowedTx records (s_Id sub) w (s_StartTime sub) record target now;
        if negb allowed then Ok false
        else windows_target_allowed records sub record target now rest
  end.

Definition genericQuotaTargetAllowedTx (records : list SubscriptionPreConsumeRecord) (sub : UserSubscription)
    (policy : subscriptionQuotaPolicy) (record : SubscriptionPreConsumeRecord) (target now : Z) : result bool :=
  if negb (policyHasGenericWindows policy) then Ok true
  else if target <? 0 then fail_with "actual amount must be >= 0"
  else windows_target_allowed records sub record target now (po_windows policy).

Definition aggregateQuotaHistoricalTargetAllowedTx (records : list SubscriptionPreConsumeRecord)
    (sub : UserSubscription) (policy : subscriptionQuotaPolicy) (record : SubscriptionPreConsumeRecord)
    (target now : Z) : result bool :=
  let limit := policyWeeklyLimit policy sub in
  if limit <=? 0 then Ok true
  else if target <? 0 then fail_with "actual amount must be >= 0"
  else if limit <? target then Ok false
  else
    '(start, end_) ← aggregateQuotaPeriodBounds local_zone sub policy (r_CreatedAt record);
    let q := List.filter (fun r => (start <=? r_CreatedAt r) && (r_CreatedAt r <=? now))
               (other_records records (s_Id sub) (r_RequestId record)) in
    let q := if 0 <? end_ then List.filter (fun r => r_CreatedAt r <? end_) q else q in
    Ok (fits_all (limit - target) 0 q).
End Settlement.

(** ** Reference usage *)

Notation eff := effectivePreConsumeAmount.

(** Usage of the rolling window of length [W] ending at [t]. *)
Definition usage_at (l : list SubscriptionPreConsumeRecord) (W t : Z) : Z :=
  sum_by (fun r => if (t - W <? r_CreatedAt r) && (r_CreatedAt r <=? t) then eff r else 0) l.

(** Usage of an interval [[s, e)] up to [now]. *)
Definition usage_between (l : list SubscriptionPreConsumeRecord) (s e now : Z) : Z :=
  sum_by (fun r => if (s <=? r_CreatedAt r) && (r_CreatedAt r <? e) && (r_CreatedAt r <=? now) then eff r else 0) l.

Lemma eff_nonneg r : 0 <= eff r.
Proof. unfold eff. repeat case_match; lia. Qed.
#[export] Hint Resolve eff_nonneg : router.

Lemma sum_eff_nonneg l : 0 <= sum_by eff l.
Proof. apply sum_by_nonneg. auto with router. Qed.

Lemma usage_at_app l1 l2 W t : usage_at (l1 ++ l2) W t = usage_at l1 W t + usage_at l2 W t.
Proof. apply sum_by_app. Qed.

Lemma usage_at_perm l1 l2 W t : l1 ≡ₚ l2 -> usage_at l1 W t = usage_at l2 W t.
Proof. apply sum_by_perm. Qed.

Lemma usage_at_none l W t :
  (forall r, r ∈ l -> r_CreatedAt r <= t - W \/ t < r_CreatedAt r) -> usage_at l W t = 0.
Proof.
  intros Hl. unfold usage_at. induction l as [|r l IH]; cbn; [done|].
  rewrite IH by (intros x Hx; apply Hl; by right). pose proof (Hl r ltac:(left)). case_match; lia.
Qed.

Lemma usage_at_all l W t :
  (forall r, r ∈ l -> t - W < r_CreatedAt r <= t) -> usage_at l W t = sum_by eff l.
Proof. intros Hl. apply sum_by_ext. intros r Hr. specialize (Hl r Hr). case_match; lia. Qed.

(** Between two creations usage can only expire. *)
Lemma usage_at_mono l W t t' :
  t <= t' -> (forall r, r ∈ l -> r_CreatedAt r <= t \/ t' < r_CreatedAt r) -> usage_at l W t' <= usage_at l W t.
Proof.
  intros Ht Hl. apply sum_by_le. intros r Hr. specialize (Hl r Hr). pose proof (eff_nonneg r). repeat case_match; lia.
Qed.

Lemma usage_at_nonneg l W t : 0 <= usage_at l W t.
Proof. apply sum_by_nonneg. intros r _. pose proof (eff_nonneg r). case_match; lia. Qed.

(** ** The loops *)

(** Closes the parts of a split record list: arithmetic and memberships. *)
Ltac close_parts :=
  solve [ done | cbn; lia | intros ? Hx; by apply not_elem_of_nil in Hx
        | intros ? [->|Hx]%elem_of_cons; [done | first [by apply not_elem_of_nil in Hx | auto]] ].

Lemma fits_all_spec remaining l : forall used,
  used <= remaining -> fits_all remaining used l = true <-> used + sum_by eff l <= remaining.
Proof.
  induction l as [|r l IH]; intros used Hu; cbn; [lia|].
  pose proof (eff_nonneg r). pose proof (sum_eff_nonneg l). destruct (Z.leb_spec (eff r) 0).
  - rewrite IH by done. lia.
  - case_match; split_bool; [split; [done|lia]|]. rewrite IH by lia. lia.
Qed.

Lemma addUntil_spec remaining ts rest : forall win used,
  used <= remaining ->
  match addUntil remaining ts win used rest with
  | Some (win', used', rest') =>
      exists taken, rest = taken ++ rest' /\ win' = win ++ taken /\ used' = used + sum_by eff taken /\
        used' <= remaining /\ (forall r, r ∈ taken -> r_CreatedAt r <= ts) /\
        match rest' with [] => True | r :: _ => ts < r_CreatedAt r end
  | None =>
      exists taken rest', rest = taken ++ rest' /\ (forall r, r ∈ taken -> r_CreatedAt r <= ts) /\
        remaining < used + sum_by eff taken
  end.
Proof.
  induction rest as [|r rest IH]; intros win used Hu; cbn.
  - exists []. rewrite (app_nil_r win). split_and!; close_parts.
  - pose proof (eff_nonneg r) as Hnn. destruct (Z.leb_spec (r_CreatedAt r) ts) as [Hts|Hts].
    2:{ exists []. rewrite (app_nil_r win). split_and!; close_parts. }
    assert (Hstep : forall used', used' = used + eff r -> used' <= remaining ->
      match addUntil remaining ts (win ++ [r]) used' rest with
      | Some (win', used'', rest') =>
          exists taken, r :: rest = taken ++ rest' /\ win' = win ++ taken /\ used'' = used + sum_by eff taken /\
            used'' <= remaining /\ (forall x, x ∈ taken -> r_CreatedAt x <= ts) /\
            match rest' with [] => True | x :: _ => ts < r_CreatedAt x end
      | None => exists taken rest', r :: rest = taken ++ rest' /\ (forall x, x ∈ taken -> r_CreatedAt x <= ts) /\
            remaining < used + sum_by eff taken
      end).
    { intros used' -> Hle. specialize (IH (win ++ [r]) (used + eff r) Hle).
      destruct (addUntil remaining ts (win ++ [r]) (used + eff r) rest) as [[[win' used''] rest']|].
      - destruct IH as (taken & -> & -> & -> & Hle' & Hall & Hhd). exists (r :: taken). rewrite <- app_assoc.
        split_and!; close_parts.
      - destruct IH as (taken & rest' & -> & Hall & Hlt). exists (r :: taken), rest'.
        split_and!; close_parts. }
    destruct (Z.ltb_spec 0 (eff r)).
    + goal_if; split_bool; [|exact (Hstep (used + eff r) eq_refl ltac:(lia))].
      exists [r], rest. split_and!; close_parts.
    + exact (Hstep used ltac:(lia) Hu).
Qed.

Lemma evict_spec ws win : forall used,
  used = sum_by eff win ->
  exists dropped win', win = dropped ++ win' /\ evict ws win used = (win', sum_by eff win') /\
    (forall r, r ∈ dropped -> r_CreatedAt r <= ws) /\
    match win' with [] => True | r :: _ => ws < r_CreatedAt r end.
Proof.
  induction win as [|r win IH]; intros used ->; cbn.
  - exists [], []. split_and!; close_parts.
  - pose proof (eff_nonneg r). pose proof (sum_eff_nonneg win). destruct (Z.leb_spec (r_CreatedAt r) ws).
    + replace (if 0 <? eff r then _ else _) with (sum_by eff win) by (repeat case_match; lia).
      destruct (IH _ eq_refl) as (dropped & win' & -> & -> & Hd & Hw). exists (r :: dropped), win'.
      split_and!; close_parts.
    + exists [], (r :: win). split_and!; close_parts.
Qed.

(** ** Sliding over a sorted list *)

Definition by_time (l : list SubscriptionPreConsumeRecord) : Prop :=
  StronglySorted (fun a b => r_CreatedAt a <= r_CreatedAt b) l.

#[export] Instance record_le_total : Total record_le.
Proof. intros a b. unfold record_le. lia. Qed.
#[export] Instance record_le_trans : Transitive record_le.
Proof. intros a b c. unfold record_le. lia. Qed.

Lemma merge_sort_by_time l : by_time (merge_sort record_le l).
Proof.
  unfold by_time. pose proof (StronglySorted_merge_sort record_le l) as Hs.
  induction Hs as [|a l' Hs IH Hf]; constructor; [done|].
  eapply Forall_impl; [exact Hf|]. unfold record_le. lia.
Qed.

Lemma by_time_app_inv l1 l2 a b : by_time (l1 ++ l2) -> a ∈ l1 -> b ∈ l2 -> r_CreatedAt a <= r_CreatedAt b.
Proof. intros Hs Ha Hb. exact (StronglySorted_app_1_elem_of _ _ _ _ _ Hs Ha Hb). Qed.

Lemma by_time_app_l l1 l2 : by_time (l1 ++ l2) -> by_time l1.
Proof. apply StronglySorted_app_1_l. Qed.

Lemma by_time_app_r l1 l2 : by_time (l1 ++ l2) -> by_time l2.
Proof. apply StronglySorted_app_1_r. Qed.

(** A sorted list whose head is late is entirely late. *)
Lemma by_time_head ts l :
  by_time l -> match l with [] => True | r :: _ => ts < r_CreatedAt r end -> forall r, r ∈ l -> ts < r_CreatedAt r.
Proof.
  destruct l as [|x l]; intros Hs Hh r Hr; [by apply not_elem_of_nil in Hr|].
  apply elem_of_cons in Hr as [->|Hr]; [done|]. pose proof (by_time_app_inv [x] l x r Hs ltac:(left) Hr). lia.
Qed.

(** Records live after the epoch and before the horizon. *)
Definition times_ok (l : list SubscriptionPreConsumeRecord) : Prop :=
  forall r, r ∈ l -> 0 < r_CreatedAt r <= horizon.

Lemma saturating_sub t W : 0 < t <= horizon -> 0 < W <= MaxSubscriptionQuotaWindowSeconds ->
  saturating min_i64 (subscriptionSafeSubInt64 t W) = t - W.
Proof. intros. rewrite safe_sub_cases by range. by rewrite decide_True by range. Qed.

Lemma saturating_add t W : 0 < t <= horizon -> 0 < W <= MaxSubscriptionQuotaWindowSeconds ->
  saturating max_i64 (subscriptionSafeAddInt64 t W) = t + W.
Proof. intros. rewrite safe_add_cases by range. by rewrite decide_True by range. Qed.

Section Slide.
Context (remaining W : Z) (HW : 0 < W <= MaxSubscriptionQuotaWindowSeconds).

Lemma slide_spec fuel : forall pre win rest T used,
  by_time (pre ++ win ++ rest) -> times_ok (pre ++ win ++ rest) -> (length rest <= fuel)%nat ->
  (forall r, r ∈ pre -> r_CreatedAt r <= T - W) -> (forall r, r ∈ win -> r_CreatedAt r <= T) ->
  (forall r, r ∈ rest -> T < r_CreatedAt r) ->
  used = sum_by eff win -> used <= remaining ->
  exists b, slide fuel remaining W win used rest = Some b /\
    (b = true <-> forall r, r ∈ rest -> usage_at (pre ++ win ++ rest) W (r_CreatedAt r) <= remaining).
Proof.
  induction fuel as [|fuel IH]; intros pre win rest T used Hsort Htimes Hlen Hpre Hwin Hrest -> Hle.
  - destruct rest; [|cbn in Hlen; lia]. exists true. split; [done|]. split; [|done].
    intros _ r Hr. by apply not_elem_of_nil in Hr.
  - destruct rest as [|r rest]; cbn [slide].
    { exists true. split; [done|]. split; [|done]. intros _ r Hr. by apply not_elem_of_nil in Hr. }
    set (ct := r_CreatedAt r).
    assert (Hct : 0 < ct <= horizon) by (apply Htimes; set_solver).
    rewrite saturating_sub by done.
    destruct (evict_spec (ct - W) win _ eq_refl) as (dropped & win' & -> & -> & Hdrop & Hhd).
    assert (HTct : T < ct) by (apply Hrest; left).
    rewrite <- !app_assoc in Hsort, Htimes |- *.
    set (L := pre ++ dropped ++ win' ++ r :: rest) in *.
    assert (Hwin' : forall x, x ∈ win' -> ct - W < r_CreatedAt x).
    { apply by_time_head; [|done]. by apply by_time_app_r, by_time_app_r, by_time_app_l in Hsort. }
    assert (Hge : forall x, x ∈ r :: rest -> ct <= r_CreatedAt x).
    { intros x [->|Hx]%elem_of_cons; [done|]. apply by_time_app_r, by_time_app_r, by_time_app_r in Hsort.
      apply (by_time_app_inv [r] rest); [done | left | done]. }
    assert (HL : forall taken rest', r :: rest = taken ++ rest' -> (forall x, x ∈ taken -> r_CreatedAt x <= ct) ->
      sum_by eff win' + sum_by eff taken <= usage_at L W ct /\
      ((forall x, x ∈ rest' -> ct < r_CreatedAt x) -> usage_at L W ct = sum_by eff win' + sum_by eff taken)).
    { intros taken rest' Hr Htk. subst L. rewrite Hr, !usage_at_app.
      rewrite (usage_at_none pre), (usage_at_none dropped), (usage_at_all win'), (usage_at_all taken).
      - pose proof (usage_at_nonneg rest' W ct). split; [lia|]. intros Hr'.
        rewrite (usage_at_none rest'); [lia|]. intros x Hx. right. by apply Hr'.
      - intros x Hx. specialize (Hge x ltac:(rewrite Hr; set_solver)). specialize (Htk x Hx). lia.
      - intros x Hx. specialize (Hwin' x Hx). specialize (Hwin x ltac:(set_solver)). lia.
      - intros x Hx. left. by apply Hdrop.
      - intros x Hx. left. specialize (Hpre x Hx). lia. }
    pose proof (sum_eff_nonneg dropped). rewrite sum_by_app in Hle.
    pose proof (addUntil_spec remaining ct (r :: rest) win' (sum_by eff win') ltac:(lia)) as Ha.
    destruct (addUntil remaining ct win' (sum_by eff win') (r :: rest)) as [[[win'' used''] rest']|].
    + destruct Ha as (taken & Hr & -> & -> & Hle' & Htk & Hhd').
      assert (Hr' : forall x, x ∈ rest' -> ct < r_CreatedAt x).
      { apply by_time_head; [|done]. apply by_time_app_r, by_time_app_r, by_time_app_r in Hsort.
        rewrite Hr in Hsort. by apply by_time_app_r in Hsort. }
      destruct (HL taken rest' Hr Htk) as [_ Hus]. specialize (Hus Hr').
      assert (HLeq : L = (pre ++ dropped) ++ (win' ++ taken) ++ rest') by (subst L; rewrite Hr, <- !app_assoc; done).
      destruct taken as [|x taken]; [cbn in Hr; subst rest'; specialize (Hr' r ltac:(left)); fold ct in Hr'; lia|].
      destruct (IH (pre ++ dropped) (win' ++ x :: taken) rest' ct (sum_by eff win' + sum_by eff (x :: taken))) as (b & Hb & Hiff).
      * by rewrite <- HLeq.
      * by rewrite <- HLeq.
      * apply (f_equal length) in Hr. rewrite length_app in Hr. cbn in *. lia.
      * intros y [Hy|Hy]%elem_of_app; [specialize (Hpre y Hy); lia | by apply Hdrop].
      * intros y [Hy|Hy]%elem_of_app; [|by apply Htk]. specialize (Hwin y ltac:(set_solver)). lia.
      * done.
      * by rewrite sum_by_app.
      * done.
      * exists b. split; [done|]. rewrite Hiff, <- HLeq, Hr. split; intros Hall y Hy; [|apply Hall; set_solver].
        apply elem_of_app in Hy as [Hy|Hy]; [|by apply Hall].
        assert (r_CreatedAt y = ct) as ->; [|lia].
        specialize (Htk y Hy). specialize (Hge y ltac:(rewrite Hr; set_solver)). lia.
    + destruct Ha as (taken & rest' & Hr & Htk & Hlt). exists false. split; [done|]. split; [done|].
      intros Hall. exfalso. specialize (Hall r ltac:(left)). fold ct in Hall.
      destruct (HL taken rest' Hr Htk) as [Hlo _]. lia.
Qed.
End Slide.

(** ** The settlement check decides the quantified limit *)

(** The last creation time not after [t]. *)
Lemma last_creation (l : list SubscriptionPreConsumeRecord) t0 t :
  t0 <= t ->
  exists T, (T = t0 \/ exists r, r ∈ l /\ r_CreatedAt r = T) /\ t0 <= T <= t /\
    (forall r, r ∈ l -> r_CreatedAt r <= T \/ t < r_CreatedAt r).
Proof.
  intros Ht. induction l as [|x l (T & Hsrc & HT & Hall)].
  - exists t0. split; [by left|]. split; [lia|]. intros r Hr. by apply not_elem_of_nil in Hr.
  - destruct (decide (T < r_CreatedAt x <= t)) as [Hx|Hx].
    + exists (r_CreatedAt x). split; [right; exists x; split; [left | done]|]. split; [lia|].
      intros r [->|Hr]%elem_of_cons; [lia|]. specialize (Hall r Hr). lia.
    + exists T. split; [destruct Hsrc as [?|(r & Hr & ?)]; [by left | right; exists r; split; [by right | done]]|].
      split; [done|]. intros r [->|Hr]%elem_of_cons; [lia|]. by apply Hall.
Qed.

Lemma usage_at_filter (p : SubscriptionPreConsumeRecord -> bool) l W t :
  (forall r, r ∈ l -> t - W < r_CreatedAt r <= t -> p r = true) ->
  usage_at (List.filter p l) W t = usage_at l W t.
Proof.
  intros Hp. unfold usage_at. rewrite sum_by_filter. apply sum_by_ext. intros r Hr. specialize (Hp r Hr).
  destruct (p r); [done|]. case_match; [|done]. split_bool. discriminate Hp. lia.
Qed.

Lemma rolling_target_allowed_spec others w rt remaining now :
  0 < wp_windowSeconds w <= MaxSubscriptionQuotaWindowSeconds -> 0 < rt <= now -> now <= horizon ->
  times_ok others -> 0 <= remaining ->
  let W := wp_windowSeconds w in
  exists b, rolling_target_allowed others w rt remaining now = Some b /\
    (b = true <-> forall t, rt <= t < rt + W -> t <= now -> usage_at others W t <= remaining).
Proof.
  intros HW Hrt Hnow Hok Hrem W. unfold rolling_target_allowed.
  rewrite saturating_sub, saturating_add by (fold W; range). fold W.
  set (q := List.filter _ others). set (L := merge_sort record_le q).
  assert (Hperm : L ≡ₚ q) by apply merge_sort_Permutation.
  assert (HLin : forall r, r ∈ L -> r ∈ others /\ rt - W < r_CreatedAt r < rt + W /\ r_CreatedAt r <= now).
  { intros r Hr. rewrite Hperm in Hr. apply list_elem_of_In, filter_In in Hr as [Hr Hp].
    split; [by apply list_elem_of_In|]. split_bool. lia. }
  assert (Hus : forall t, rt <= t < rt + W -> t <= now -> usage_at others W t = usage_at L W t).
  { intros t Ht Htn. rewrite (usage_at_perm L q) by done. symmetry. apply usage_at_filter. intros r _ Hr. lia. }
  pose proof (addUntil_spec remaining rt L [] 0 ltac:(lia)) as Ha.
  pose proof (merge_sort_by_time q) as Hsort. fold L in Hsort.
  destruct (addUntil remaining rt [] 0 L) as [[[win used] rest]|].
  - destruct Ha as (taken & HL & -> & -> & Hle & Htk & Hhd). cbn [app] in *. rewrite Z.add_0_l in *.
    assert (Hrest : forall r, r ∈ rest -> rt < r_CreatedAt r).
    { apply by_time_head; [|done]. rewrite HL in Hsort. by eapply by_time_app_r. }
    destruct (slide_spec remaining W HW (length rest) [] taken rest rt (sum_by eff taken)) as (b & Hb & Hiff).
    all: cbn [app]; rewrite <- ?HL; try done.
    { intros r Hr. apply Hok, HLin, Hr. }
    { intros r Hr. by apply not_elem_of_nil in Hr. }
    assert (Hat : usage_at L W rt = sum_by eff taken).
    { rewrite HL, usage_at_app, (usage_at_none rest), (usage_at_all taken); [lia| |].
      - intros r Hr. specialize (Htk r Hr). destruct (HLin r ltac:(rewrite HL; set_solver)) as (_ & ? & _). lia.
      - intros r Hr. right. by apply Hrest. }
    cbn [app] in *. exists b. split; [done|]. rewrite Hiff, <- HL. split.
    + intros Hall t Ht Htn. rewrite Hus by done.
      destruct (last_creation L rt t ltac:(lia)) as (T & Hsrc & HT & Hlast).
      transitivity (usage_at L W T); [by apply usage_at_mono; [lia|]|].
      destruct Hsrc as [->|(r & Hr & <-)]; [lia|].
      rewrite HL in Hr. apply elem_of_app in Hr as [Hr|Hr]; [|by apply Hall].
      assert (r_CreatedAt r = rt) as -> by (specialize (Htk r Hr); lia). lia.
    + intros Hall r Hr. destruct (HLin r ltac:(rewrite HL; set_solver)) as (_ & ? & ?). specialize (Hrest r Hr).
      rewrite <- Hus by lia. apply Hall; lia.
  - destruct Ha as (taken & rest & HL & Htk & Hlt). exists false. split; [done|]. split; [done|].
    intros Hall. exfalso. specialize (Hall rt ltac:(lia) ltac:(lia)). rewrite Hus in Hall by lia.
    rewrite HL, usage_at_app, (usage_at_all taken) in Hall.
    + pose proof (usage_at_nonneg rest W rt). lia.
    + intros r Hr. specialize (Htk r Hr). destruct (HLin r ltac:(rewrite HL; set_solver)) as (_ & ? & _). lia.
Qed.

(** The limit a settlement must respect, stated over every time at which the
    request counts: others' usage plus the target stays within the amount. *)
Definition target_within_limit `{DBClock} (records : list SubscriptionPreConsumeRecord) (subscriptionID : Z)
    (w : subscriptionQuotaWindowPolicy) (anchor : Z) (record : SubscriptionPreConsumeRecord) (target now : Z) : Prop :=
  let others := other_records records subscriptionID (r_RequestId record) in
  let rt := r_CreatedAt record in
  target <= wp_amount w /\
  if String.eqb (wp_resetMode w) "calendar"
  then let '(s, e) := quotaWindowBounds w rt anchor in usage_between others s e now + target <= wp_amount w
  else forall t, rt <= t < rt + wp_windowSeconds w -> t <= now ->
         usage_at others (wp_windowSeconds w) t + target <= wp_amount w.

Lemma live_in records subID r : r ∈ live_records records subID -> r ∈ records /\ r_UserSubscriptionId r = subID /\ r_Status r <> "refunded".
Proof.
  intros Hr. apply list_elem_of_In, filter_In in Hr as [Hr Hp]. split; [by apply list_elem_of_In|].
  split_bool. split; [lia|done].
Qed.

Lemma other_in records subID id r : r ∈ other_records records subID id -> r ∈ live_records records subID /\ r_RequestId r <> id.
Proof.
  intros Hr. apply list_elem_of_In, filter_In in Hr as [Hr Hp]. split; [by apply list_elem_of_In|]. by split_bool.
Qed.

Section TargetAllowed.
Context `{DBClock} `{LocalZone}.

Lemma target_allowed_spec records subID w anchor record target now :
  window_ok w -> 0 < subID -> 0 <= target -> 0 < r_CreatedAt record <= now -> now <= horizon ->
  times_ok records -> anchored w anchor (r_CreatedAt record) ->
  exists b, quotaWindowTargetAllowedTx records subID w anchor record target now = Ok b /\
    (b = true <-> target_within_limit records subID w anchor record target now).
Proof.
  intros Hw Hid Ht Hr Hn Hok Ha. unfold quotaWindowTargetAllowedTx, target_within_limit. cbn zeta.
  rewrite (proj2 (Z.leb_gt subID 0)), (proj2 (Z.ltb_ge target 0)) by lia.
  pose proof (wok_amount w Hw) as Hamt. rewrite (proj2 (Z.leb_gt (wp_amount w) 0)) by lia.
  rewrite window_ok_length by done. pose proof (window_ok_wellformed w Hw) as Hwf. unfold window_malformed in Hwf.
  apply orb_false_iff in Hwf as [Hwf H3]. apply orb_false_iff in Hwf as [H1 H2]. rewrite H1, H2, H3. cbn [orb].
  rewrite (proj2 (Z.leb_gt (r_CreatedAt record) 0)), (proj2 (Z.ltb_ge now _)) by lia. cbn [orb].
  assert (Hac : String.eqb (wp_unit w) "custom" && String.eqb (wp_resetMode w) "calendar" &&
                ((anchor <=? 0) || (r_CreatedAt record <? anchor)) = false).
  { destruct (String.eqb_spec (wp_unit w) "custom") as [E|]; [|done].
    destruct (String.eqb_spec (wp_resetMode w) "calendar") as [E'|]; [|done]. specialize (Ha E E'). lia. }
  rewrite Hac. destruct (Z.ltb_spec (wp_amount w) target) as [Hlt|Hge].
  { exists false. split; [done|]. split; [done|]. lia. }
  set (others := other_records records subID (r_RequestId record)).
  assert (Hoth : times_ok others).
  { intros r Hx. apply Hok. apply other_in in Hx as [Hx _]. by apply live_in in Hx as [? _]. }
  destruct (String.eqb (wp_resetMode w) "calendar").
  - destruct (quotaWindowBounds w (r_CreatedAt record) anchor) as [s e]. eexists. split; [done|].
    rewrite fits_all_spec by lia. rewrite sum_by_filter. unfold usage_between. lia.
  - destruct (rolling_target_allowed_spec others w (r_CreatedAt record) (wp_amount w - target) now) as (b & -> & Hb);
      [by destruct Hw | lia | lia | done | lia |].
    exists b. split; [done|]. rewrite Hb. split.
    + intros Hall. split; [lia|]. intros t Hx Htn. specialize (Hall t Hx Htn). lia.
    + intros [_ Hall] t Hx Htn. specialize (Hall t Hx Htn). lia.
Qed.

(** C3. The settlement check, which slides two pointers over the records
    sorted by creation time, returns true exactly when the final amount fits
    in every interval the request ever belonged to: for a rolling window, at
    every instant from its creation until it expires (or now); for a
    calendar window, in the bucket of its creation.  It always returns. *)
Theorem settlement_check_exact records subID w anchor record target now :
  window_ok w -> 0 < subID -> 0 <= target -> 0 < r_CreatedAt record <= now -> now <= horizon ->
  times_ok records -> anchored w anchor (r_CreatedAt record) ->
  exists b, quotaWindowTargetAllowedTx records subID w anchor record target now = Ok b /\
    (b = true <-> target_within_limit records subID w anchor record target now).
Proof. apply target_allowed_spec. Qed.
End TargetAllowed.

Definition example_records : list SubscriptionPreConsumeRecord :=
  [mkRecord 1 "a" 7 1 "m" 0 30 (Some 30) 1 "consumed" 1700000000 1700000000;
   mkRecord 2 "b" 7 1 "m" 0 20 (Some 20) 1 "consumed" 1700003600 1700003600;
   mkRecord 3 "c" 7 1 "m" 0 40 (Some 40) 1 "consumed" 1700018500 1700018500].

Definition five_hours : subscriptionQuotaWindowPolicy := mkWindowPolicy "hour" 60 5 18000 "rolling" "".

Lemma five_hours_ok : window_ok five_hours.
Proof.
  constructor; cbn; [by apply str_in_spec | lia | lia | unfold MaxSubscriptionQuotaWindowSeconds; lia | by right | done].
Qed.

Lemma example_times : times_ok example_records.
Proof. intros r Hr. unfold example_records in Hr. set_unfold in Hr. destruct_or? Hr; subst; cbn; unfold horizon; lia. Qed.

Lemma settlement_check_exact_witness :
  let record := mkRecord 2 "b" 7 1 "m" 0 20 (Some 20) 1 "consumed" 1700003600 1700003600 in
  exists b, @quotaWindowTargetAllowedTx 0 example_records 1 five_hours 1 record 25 1700020000 = Ok b /\
    (b = true <-> @target_within_limit 0 example_records 1 five_hours 1 record 25 1700020000).
Proof.
  cbn zeta. apply settlement_check_exact;
    [exact five_hours_ok | lia | lia | cbn; lia | unfold horizon; lia | exact example_times | done].
Defined.

(** ** Admission reads the reference usage *)

(** Usage the enforcement compares with the limit of [w] at [now]. *)
Definition window_usage `{DBClock} (live : list SubscriptionPreConsumeRecord) (w : subscriptionQuotaWindowPolicy)
    (now anchor : Z) : Z :=
  if String.eqb (wp_resetMode w) "calendar"
  then let '(s, e) := quotaWindowBounds w now anchor in usage_between live s e now
  else usage_at live (wp_windowSeconds w) now.

Lemma usage_step_fold w l : forall used resetAt,
  0 <= used <= max_i64 -> (forall r, r ∈ l -> eff r <= max_i64) ->
  fst (fold_left (usage_step w) l (used, resetAt)) = Z.min max_i64 (used + sum_by eff l).
Proof.
  induction l as [|r l IH]; intros used resetAt Hu Hl; cbn [fold_left sum_by].
  { cbn. lia. }
  pose proof (eff_nonneg r). pose proof (sum_eff_nonneg l). pose proof (Hl r ltac:(left)) as Hr.
  assert (Hl' : forall x, x ∈ l -> eff x <= max_i64) by (intros x Hx; apply Hl; by right).
  unfold usage_step at 2. destruct (Z.leb_spec (eff r) 0).
  { rewrite IH by done. f_equal. lia. }
  unfold i64_sub. rewrite wrap64_id by range. destruct (Z.ltb_spec (max_i64 - eff r) used).
  - rewrite IH by (done || range). lia.
  - unfold i64_add. rewrite wrap64_id by range. rewrite IH by (done || range). f_equal. lia.
Qed.

Definition amounts_ok (l : list SubscriptionPreConsumeRecord) : Prop := forall r, r ∈ l -> eff r <= max_i64.

Section RecentUsage.
Context `{DBClock}.

Lemma recent_usage_spec records subID now w anchor :
  window_ok w -> 0 < subID -> 0 < now <= horizon -> anchored w anchor now -> amounts_ok records ->
  exists resetAt, recentSubscriptionWindowUsageTx records subID now w anchor =
    Ok (Z.min max_i64 (window_usage (live_records records subID) w now anchor), resetAt).
Proof.
  intros Hw Hid Hn Ha Hok. unfold recentSubscriptionWindowUsageTx, recentSubscriptionWindowUsageExcludingTx. cbn zeta.
  rewrite (proj2 (Z.leb_gt subID 0)) by lia. rewrite window_ok_length by done.
  pose proof (window_ok_wellformed w Hw) as Hwf. unfold window_malformed in Hwf.
  apply orb_false_iff in Hwf as [Hwf H3]. apply orb_false_iff in Hwf as [H1 H2]. rewrite H1, H2, H3. cbn [orb].
  assert (Hac : String.eqb (wp_unit w) "custom" && String.eqb (wp_resetMode w) "calendar" &&
                ((anchor <=? 0) || (now <? anchor)) = false).
  { destruct (String.eqb_spec (wp_unit w) "custom") as [E|]; [|done].
    destruct (String.eqb_spec (wp_resetMode w) "calendar") as [E'|]; [|done]. specialize (Ha E E'). lia. }
  rewrite Hac. cbn [TrimSpace]. unfold window_usage.
  assert (Hfold : forall q (z : Z), (forall r, r ∈ q -> r ∈ live_records records subID) ->
    exists ra, fold_left (usage_step w) q (0, z) = (Z.min max_i64 (sum_by eff q), ra)).
  { intros q z Hq. destruct (fold_left (usage_step w) q (0, z)) as [u ra] eqn:Ef. exists ra. f_equal.
    change u with (fst (u, ra)). rewrite <- Ef. rewrite usage_step_fold; [f_equal; lia | range |].
    intros r Hr. apply Hok. by apply Hq, live_in in Hr as [? _]. }
  assert (Hsub : forall p r, r ∈ List.filter p (live_records records subID) -> r ∈ live_records records subID).
  { intros p r Hr. apply list_elem_of_In, filter_In in Hr as [Hr _]. by apply list_elem_of_In. }
  destruct (wok_mode w Hw) as [Hm|Hm]; rewrite Hm; cbn.
  - destruct (quotaWindowBounds w now anchor) as [s e].
    match goal with |- context [fold_left _ ?q (0, ?z)] => destruct (Hfold q z) as [ra ->] end; [apply Hsub|].
    exists ra. by rewrite sum_by_filter.
  - rewrite bounds_rolling by done.
    match goal with |- context [fold_left _ ?q (0, ?z)] => destruct (Hfold q z) as [ra ->] end; [apply Hsub|].
    exists ra. by rewrite sum_by_filter.
Qed.

(** A request of [amount] fits in the window at [now]. *)
Definition fits_window (records : list SubscriptionPreConsumeRecord) (sub : UserSubscription) (now amount : Z)
    (w : subscriptionQuotaWindowPolicy) : Prop :=
  window_usage (live_records records (s_Id sub)) w now (s_StartTime sub) + amount <= wp_amount w.

Lemma usage_test w used amount :
  0 < wp_amount w -> wp_amount w <= max_i64 -> 0 <= used -> 0 < amount <= max_i64 ->
  (wp_amount w <? Z.min max_i64 used) || (i64_sub (wp_amount w) (Z.min max_i64 used) <? amount) = false <->
  used + amount <= wp_amount w.
Proof.
  intros Hw Hm Hu Ha. unfold i64_sub. destruct (Z.ltb_spec (wp_amount w) (Z.min max_i64 used)); cbn [orb].
  - split; [done|]. lia.
  - rewrite wrap64_id by range. lia.
Qed.

Lemma window_usage_nonneg live w now anchor : 0 <= window_usage live w now anchor.
Proof.
  unfold window_usage. case_match; [|apply usage_at_nonneg]. destruct (quotaWindowBounds w now anchor).
  apply sum_by_nonneg. intros r _. pose proof (eff_nonneg r). case_match; lia.
Qed.

(** Windows of an enforceable policy evaluated for [sub] at [now]. *)
Definition windows_evaluable (sub : UserSubscription) (now : Z) (ws : list subscriptionQuotaWindowPolicy) : Prop :=
  Forall (fun w => window_ok w /\ wp_amount w <= max_i64 /\ anchored w (s_StartTime sub) now) ws.

Lemma windows_available_spec records sub now amount ws :
  windows_evaluable sub now ws -> 0 < s_Id sub -> 0 < now <= horizon -> 0 < amount <= max_i64 -> amounts_ok records ->
  exists b, windows_available records sub now amount ws = Ok b /\
    (b = true <-> Forall (fits_window records sub now amount) ws).
Proof.
  intros Hws Hid Hn Ha Hok. induction Hws as [|w ws (Hw & Hm & Hanc) _ (b & IH & Hiff)]; cbn.
  { exists true. split; [done|]. split; [by constructor | done]. }
  rewrite (proj2 (Z.leb_gt (wp_amount w) 0)) by (by apply wok_amount).
  destruct (recent_usage_spec records (s_Id sub) now w (s_StartTime sub) Hw Hid Hn Hanc Hok) as [ra ->]. cbn.
  pose proof (usage_test w _ amount (wok_amount w Hw) Hm (window_usage_nonneg (live_records records (s_Id sub)) w now (s_StartTime sub)) Ha) as Ht.
  goal_if.
  - exists false. split; [done|]. split; [done|]. intros Hall%Forall_cons. destruct Hall as [Hf _]. by apply Ht in Hf.
  - exists b. split; [done|]. rewrite Hiff, Forall_cons. unfold fits_window at 2. rewrite <- Ht. naive_solver.
Qed.
End RecentUsage.
