(* ===== verification/SubStore.v ===== *)
(** * The subscription store

    The operations of [src/model/subscription.go] that change pre-consume
    records and aggregate counters: pre-consume, settle, adjust, refund, the
    reset sweep, record cleanup and the legacy delta.  Each is a function from
    the tables to the tables; a database transaction that returns an error
    leaves the tables as they were ([transaction]).

    The database clock is an explicit argument, read once before the
    transaction ([now]) and, for the [BeforeCreate]/[BeforeUpdate] hooks, again
    inside it ([txnow]). *)

From stdpp Require Import base numbers list strings pretty sorting gmap sets.
From Stdlib Require Import ZArith Lia.
From S2P Require Import Prelude GoInt GoTime GoString QuotaWindow QuotaPolicy WindowBounds SubPlan SubUsage.

(** ** Tables *)

Record subDB := mkDB {
  db_plans : gmap Z SubscriptionPlan;
  db_subs : gmap Z UserSubscription;
  db_records : list SubscriptionPreConsumeRecord;
  db_users : gmap Z Z;  (* user id to provider id *)
  db_nextRecord : Z
}.

Definition with_subs (subs : gmap Z UserSubscription) (db : subDB) : subDB :=
  mkDB (db_plans db) subs (db_records db) (db_users db) (db_nextRecord db).
Definition with_records (rs : list SubscriptionPreConsumeRecord) (db : subDB) : subDB :=
  mkDB (db_plans db) (db_subs db) rs (db_users db) (db_nextRecord db).

(** [tx.Save(sub)] *)
Definition save_sub (sub : UserSubscription) (db : subDB) : subDB := with_subs (<[s_Id sub := sub]> (db_subs db)) db.

(** [WHERE request_id = ?] (a unique index). *)
Definition find_record (db : subDB) (requestId : string) : option SubscriptionPreConsumeRecord :=
  List.find (fun r => String.eqb (r_RequestId r) requestId) (db_records db).

(** [tx.Create(record)] with its [BeforeCreate] hook. *)
Definition create_record (db : subDB) (txnow : Z) (requestId : string) (userId subId : Z) (model : string)
    (quotaType pre : Z) (settled : option Z) (settledAt : Z) (status : string) : subDB :=
  let r := mkRecord (db_nextRecord db) requestId userId subId model quotaType pre settled settledAt status txnow txnow in
  mkDB (db_plans db) (db_subs db) (db_records db ++ [r]) (db_users db) (db_nextRecord db + 1).

(** The three fields a settlement or refund assigns. *)
Definition set_settled (amount settledAt : Z) (status : string) (r : SubscriptionPreConsumeRecord)
  : SubscriptionPreConsumeRecord :=
  mkRecord (r_Id r) (r_RequestId r) (r_UserId r) (r_UserSubscriptionId r) (r_ModelName r) (r_QuotaType r)
    (r_PreConsumed r) (Some amount) settledAt status (r_CreatedAt r) (r_UpdatedAt r).
Definition set_updated (t : Z) (r : SubscriptionPreConsumeRecord) : SubscriptionPreConsumeRecord :=
  mkRecord (r_Id r) (r_RequestId r) (r_UserId r) (r_UserSubscriptionId r) (r_ModelName r) (r_QuotaType r)
    (r_PreConsumed r) (r_SettledAmount r) (r_SettledAt r) (r_Status r) (r_CreatedAt r) t.

(** [tx.Save(record)] with its [BeforeUpdate] hook. *)
Definition save_record (txnow : Z) (rec : SubscriptionPreConsumeRecord) (db : subDB) : subDB :=
  with_records (map (fun r => if r_Id r =? r_Id rec then set_updated txnow rec else r) (db_records db)) db.

(** [DB.Transaction(f)]: an error rolls back. *)
Definition transaction {A} (db : subDB) (f : subDB -> result (A * subDB)) : result A * subDB :=
  match f db with
  | Ok (a, db') => (Ok a, db')
  | Err e => (Err e, db)
  end.

(** ** Result of a pre-consume *)

(** Without [UsedPercent], a float for display. *)
Record SubscriptionQuotaWindowSnapshot := mkSnapshot {
  sn_Type : string; sn_Period : string; sn_Duration : Z; sn_ResetMode : string; sn_Name : string;
  sn_Limit : Z; sn_Used : Z; sn_Remaining : Z; sn_ResetAt : Z; sn_WindowSeconds : Z
}.

Record SubscriptionPreConsumeResult := mkPCR {
  pc_UserSubscriptionId : Z; pc_PreConsumed : Z; pc_AmountTotal : Z;
  pc_AmountUsedBefore : Z; pc_AmountUsedAfter : Z; pc_QuotaWindowMode : string;
  pc_WeeklyLimit : Z; pc_WeeklyUsed : Z; pc_FiveHourLimit : Z; pc_FiveHourUsed : Z;
  pc_QuotaWindows : list SubscriptionQuotaWindowSnapshot
}.

Section Store.
Context `{DBClock} `{LocalZone}.

Fixpoint window_snapshots (records : list SubscriptionPreConsumeRecord) (sub : UserSubscription) (now : Z)
    (ws : list subscriptionQuotaWindowPolicy) : result (list SubscriptionQuotaWindowSnapshot) :=
  match ws with
  | [] => Ok []
  | w :: rest =>
      '(used, resetAt) ←
        (if 0 <? s_Id sub then recentSubscriptionWindowUsageTx records (s_Id sub) now w (s_StartTime sub)
         else Ok (0, snd (quotaWindowBounds w now (s_StartTime sub))));
      snaps ← window_snapshots records sub now rest;
      Ok (mkSnapshot (wp_unit w) (wp_unit w) (wp_duration w) (wp_resetMode w) (wp_name w) (wp_amount w) used
            (maxInt64 0 (i64_sub (wp_amount w) used)) resetAt
            (quotaWindowEffectiveSeconds w now (s_StartTime sub)) :: snaps)
  end.

Definition populatePreConsumeResultTx (db : subDB) (txnow : Z) (subId pre total before after : Z)
    (sub : UserSubscription) (policy : subscriptionQuotaPolicy) (now : Z) : result SubscriptionPreConsumeResult :=
  let now := if now <=? 0 then txnow else now in
  five ← (if policyHasFiveHour policy && (0 <? s_Id sub) then
            '(used, _) ← recentSubscriptionUsageTx (db_records db) (s_Id sub) now (po_fiveHourWindowSeconds policy);
            Ok used
          else Ok 0);
  snaps ← (if policyHasGenericWindows policy then window_snapshots (db_records db) sub now (po_windows policy) else Ok []);
  Ok (mkPCR subId pre total before after (po_mode policy) (policyWeeklyLimit policy sub) (s_AmountUsed sub)
        (po_fiveHourAmount policy) five snaps).

(** ** Pre-consume *)

Definition validateSubscriptionPreConsumeRetry (r : SubscriptionPreConsumeRecord) (userID : Z) (modelName : string)
    (quotaType amount : Z) : result unit :=
  let legacyShape := String.eqb (r_ModelName r) "" && (r_QuotaType r =? 0) && (r_SettledAt r =? 0) in
  if negb (r_UserId r =? userID) then fail_with "subscription request id belongs to another user"
  else if negb legacyShape && negb (String.eqb (r_ModelName r) modelName)
  then fail_with "subscription request id belongs to another model"
  else if negb legacyShape && negb (r_QuotaType r =? quotaType)
  then fail_with "subscription request id belongs to another quota type"
  else if negb (r_PreConsumed r =? amount)
  then fail_with ("subscription request amount mismatch, existing=" ++ pretty (r_PreConsumed r) ++
                  " requested=" ++ pretty amount)
  else if String.eqb (r_Status r) "consumed" then Ok tt
  else if String.eqb (r_Status r) "refunded" then fail_with "subscription pre-consume already refunded"
  else fail_with ("subscription pre-consume status invalid: " ++ r_Status r).

Definition blank_result (subId pre total used : Z) : SubscriptionPreConsumeResult :=
  mkPCR subId pre total used used "" 0 0 0 0 [].

(** The plan lookup error is ignored here; the usage error is not. *)
Definition populateIdempotentPreConsumeResultTx (db : subDB) (txnow : Z) (r : SubscriptionPreConsumeRecord)
  : result SubscriptionPreConsumeResult :=
  match db_subs db !! r_UserSubscriptionId r with
  | None => Err ErrRecordNotFound
  | Some sub =>
      let pre := effectivePreConsumeAmount r in
      match getSubscriptionPlanOrSnapshotTx (db_plans db) sub with
      | Err _ => Ok (blank_result (s_Id sub) pre (s_AmountTotal sub) (s_AmountUsed sub))
      | Ok plan =>
          populatePreConsumeResultTx db txnow (s_Id sub) pre (s_AmountTotal sub) (s_AmountUsed sub) (s_AmountUsed sub)
            sub (quotaPolicyForSubscription sub plan) txnow
      end
  end.

Definition getUserProviderIdByIdTx (db : subDB) (userId : Z) : result Z :=
  if userId <=? 0 then fail_with "invalid userId" else Ok (default 0 (db_users db !! userId)).

(** [ORDER BY end_time ASC, id ASC] *)
Definition sub_le (a b : UserSubscription) : Prop :=
  s_EndTime a < s_EndTime b \/ (s_EndTime a = s_EndTime b /\ s_Id a <= s_Id b).
#[export] Instance sub_le_dec : RelDecision sub_le.
Proof. intros a b. unfold sub_le. apply _. Defined.

Definition active_subs (db : subDB) (userId providerId now : Z) : list UserSubscription :=
  merge_sort sub_le
    (List.filter (fun s => (s_UserId s =? userId) && (s_ProviderId s =? providerId) &&
                           String.eqb (s_Status s) "active" && (s_StartTime s <=? now) && (now <? s_EndTime s))
       (map snd (map_to_list (db_subs db)))).

(** What one pass of the loop over the subscriptions decides. *)
Inductive attempt :=
  | Skip (db : subDB)
  | Done (res : SubscriptionPreConsumeResult) (db : subDB).

Definition over_limit (limit used amount : Z) : bool := (limit <? used) || (i64_sub limit used <? amount).

(** The body of the loop once the plan is known. *)
Definition try_subscription (db : subDB) (now txnow : Z) (requestId : string) (userId : Z) (modelName : string)
    (quotaType amount : Z) (sub : UserSubscription) (plan : SubscriptionPlan) : result attempt :=
  sub ← maybeResetUserSubscriptionWithPlanTx sub plan now;
  let db := save_sub sub db in
  let policy := quotaPolicyForSubscription sub (Some plan) in
  if po_invalid policy then Err invalidSubscriptionQuotaPolicyError
  else
  let weeklyLimit := policyWeeklyLimit policy sub in
  let tracks := policyTracksAggregate policy in
  if tracks && (s_AmountUsed sub <? 0) then fail_with "invalid subscription aggregate usage"
  else
  let sub := if tracks && (0 <? weeklyLimit) && (weeklyLimit <? s_AmountUsed sub)
             then set_amount_used weeklyLimit sub else sub in
  if tracks && (0 <? weeklyLimit) && over_limit weeklyLimit (s_AmountUsed sub) amount then Ok (Skip db)
  else
  available ← (if policyHasGenericWindows policy
               then genericQuotaAvailableTx (db_records db) sub policy now amount else Ok true);
  if negb available then Ok (Skip db)
  else
  fiveOK ← (if policyHasFiveHour policy then
              '(fiveUsed, _) ← recentSubscriptionUsageTx (db_records db) (s_Id sub) now (po_fiveHourWindowSeconds policy);
              Ok (negb (over_limit (po_fiveHourAmount policy) fiveUsed amount))
            else Ok true);
  if negb fiveOK then Ok (Skip db)
  else
  match find_record db requestId with
  | Some duplicate =>
      _ ← validateSubscriptionPreConsumeRetry duplicate userId modelName quotaType amount;
      res ← populateIdempotentPreConsumeResultTx db txnow duplicate;
      Ok (Done res db)
  | None =>
      let usedBefore := s_AmountUsed sub in
      let db := create_record db txnow requestId userId (s_Id sub) modelName quotaType amount (Some amount) now "consumed" in
      '(sub, db) ←
        (if tracks then
           match subscriptionSafeAddInt64 (s_AmountUsed sub) amount with
           | (nextUsed, true) => let sub := set_amount_used nextUsed sub in Ok (sub, save_sub sub db)
           | (_, false) => fail_with "subscription aggregate usage overflows int64"
           end
         else Ok (sub, db));
      res ← populatePreConsumeResultTx db txnow (s_Id sub) amount (s_AmountTotal sub) usedBefore (s_AmountUsed sub)
              sub policy now;
      Ok (Done res db)
  end.

Fixpoint try_subscriptions (db : subDB) (now txnow : Z) (requestId : string) (userId : Z) (modelName : string)
    (quotaType amount : Z) (subs : list UserSubscription) : result (SubscriptionPreConsumeResult * subDB) :=
  match subs with
  | [] => fail_with ("subscription quota insufficient, need=" ++ pretty amount)
  | sub :: rest =>
      match getSubscriptionPlanOrSnapshotTx (db_plans db) sub with
      | Err ErrRecordNotFound => try_subscriptions db now txnow requestId userId modelName quotaType amount rest
      | Err e => Err e
      | Ok None => try_subscriptions db now txnow requestId userId modelName quotaType amount rest
      | Ok (Some plan) =>
          if negb (p_ProviderId plan =? s_ProviderId sub) || negb (AllowsModel plan modelName)
          then try_subscriptions db now txnow requestId userId modelName quotaType amount rest
          else
            att ← try_subscription db now txnow requestId userId modelName quotaType amount sub plan;
            match att with
            | Skip db => try_subscriptions db now txnow requestId userId modelName quotaType amount rest
            | Done res db => Ok (res, db)
            end
      end
  end.

(** The transaction body. *)
Definition pre_consume_tx (now txnow : Z) (requestId : string) (userId : Z) (modelName : string)
    (quotaType amount : Z) (db : subDB) : result (SubscriptionPreConsumeResult * subDB) :=
  match find_record db requestId with
  | Some existing =>
      _ ← validateSubscriptionPreConsumeRetry existing userId modelName quotaType amount;
      res ← populateIdempotentPreConsumeResultTx db txnow existing;
      Ok (res, db)
  | None =>
      userProviderId ← getUserProviderIdByIdTx db userId;
      match active_subs db userId userProviderId now with
      | [] => fail_with "no active subscription"
      | subs => try_subscriptions db now txnow requestId userId modelName quotaType amount subs
      end
  end.

Definition PreConsumeUserSubscription (db : subDB) (now txnow : Z) (requestId : string) (userId : Z)
    (modelName : string) (quotaType amount : Z) : result SubscriptionPreConsumeResult * subDB :=
  if userId <=? 0 then (fail_with "invalid userId", db)
  else if String.eqb (TrimSpace requestId) "" then (fail_with "requestId is empty", db)
  else if amount <=? 0 then (fail_with "amount must be > 0", db)
  else transaction db (pre_consume_tx now txnow requestId userId (TrimSpace modelName) quotaType amount).

(** ** Settlement *)

(** The plan for settlement and refund: a missing one is tolerated. *)
Definition plan_or_nil (db : subDB) (sub : UserSubscription) : result (option SubscriptionPlan) :=
  match getSubscriptionPlanOrSnapshotTx (db_plans db) sub with
  | Err ErrRecordNotFound => Ok None
  | r => r
  end.

Definition reset_if_plan (sub : UserSubscription) (plan : option SubscriptionPlan) (now : Z) : result UserSubscription :=
  match plan with
  | Some plan => maybeResetUserSubscriptionWithPlanTx sub plan now
  | None => Ok sub
  end.

(** The aggregate test of an increase, current period or historical. *)
Definition aggregate_increase_ok (db : subDB) (sub : UserSubscription) (policy : subscriptionQuotaPolicy)
    (record : SubscriptionPreConsumeRecord) (delta target now : Z) (inPeriod : bool) : result unit :=
  if inPeriod then
    let limit := policyWeeklyLimit policy sub in
    if (0 <? limit) && over_limit limit (s_AmountUsed sub) delta
    then fail_with ("subscription aggregate quota insufficient, need=" ++ pretty delta ++
                    " remaining=" ++ pretty (maxInt64 0 (i64_sub limit (s_AmountUsed sub))))
    else Ok tt
  else
    allowed ← aggregateQuotaHistoricalTargetAllowedTx (db_records db) sub policy record target now;
    if negb allowed then fail_with ("subscription historical aggregate quota insufficient, need=" ++ pretty delta)
    else Ok tt.

(** The settlement once the subscription is loaded and its amount changes. *)
Definition settle_changed (db : subDB) (record : SubscriptionPreConsumeRecord) (sub : UserSubscription)
    (target now txnow : Z) : result (unit * subDB) :=
  let current := effectivePreConsumeAmount record in
  plan ← plan_or_nil db sub;
  sub ← reset_if_plan sub plan now;
  let db := save_sub sub db in
  let policy := quotaPolicyForSubscription sub plan in
  if po_invalid policy then Err invalidSubscriptionQuotaPolicyError
  else if policyTracksAggregate policy && (s_AmountUsed sub <? 0)
  then fail_with "invalid subscription aggregate usage"
  else
  let delta := i64_sub target current in
  let tracksPolicy := policyTracksAggregate policy in
  let tracks := tracksPolicy && aggregateRecordInCurrentPeriod sub policy (r_CreatedAt record) now in
  _ ← (if (0 <? delta) && tracksPolicy then aggregate_increase_ok db sub policy record delta target now tracks else Ok tt);
  _ ← (if (0 <? delta) && policyHasFiveHour policy then
         allowed ← quotaWindowTargetAllowedTx (db_records db) (s_Id sub) (five_hour_window policy) (s_StartTime sub)
                     record target now;
         if negb allowed then fail_with ("subscription five-hour quota insufficient, need=" ++ pretty delta) else Ok tt
       else Ok tt);
  _ ← (if (0 <? delta) && policyHasGenericWindows policy then
         allowed ← genericQuotaTargetAllowedTx (db_records db) sub policy record target now;
         if negb allowed
         then fail_with ("subscription quota insufficient, window limit reached, need=" ++ pretty delta) else Ok tt
       else Ok tt);
  let record := set_settled target now (r_Status record) record in
  if tracks then
    match subscriptionSafeAddInt64 (s_AmountUsed sub) delta with
    | (_, false) => fail_with "subscription aggregate usage overflows int64"
    | (nextUsed, true) =>
        let sub := set_amount_used (if nextUsed <? 0 then 0 else nextUsed) sub in
        Ok (tt, save_sub sub (save_record txnow record db))
    end
  else Ok (tt, save_record txnow record db).

Definition settleSubscriptionPreConsumeTx (record : SubscriptionPreConsumeRecord) (target now txnow : Z) (db : subDB)
  : result (unit * subDB) :=
  if target <? 0 then fail_with "actual amount must be >= 0"
  else if effectivePreConsumeAmount record =? target then
    match r_SettledAmount record with
    | Some _ => if r_SettledAt record =? 0
                then Ok (tt, save_record txnow (set_settled target now (r_Status record) record) db) else Ok (tt, db)
    | None => Ok (tt, save_record txnow (set_settled target now (r_Status record) record) db)
    end
  else
    match db_subs db !! r_UserSubscriptionId record with
    | None => Err ErrRecordNotFound
    | Some sub => settle_changed db record sub target now txnow
    end.

Definition already_refunded {A} : result A := fail_with "subscription pre-consume already refunded".

Definition settle_tx (requestID : string) (actualAmount now txnow : Z) (db : subDB) : result (unit * subDB) :=
  match find_record db requestID with
  | None => Err ErrRecordNotFound
  | Some record => if String.eqb (r_Status record) "refunded" then already_refunded
                   else settleSubscriptionPreConsumeTx record actualAmount now txnow db
  end.

Definition SettleSubscriptionPreConsume (db : subDB) (now txnow : Z) (requestID : string) (actualAmount : Z)
  : result unit * subDB :=
  if String.eqb (TrimSpace requestID) "" then (fail_with "requestId is empty", db)
  else if actualAmount <? 0 then (fail_with "actual amount must be >= 0", db)
  else transaction db (settle_tx requestID actualAmount now txnow).

Definition adjust_tx (requestID : string) (delta now txnow : Z) (db : subDB) : result (unit * subDB) :=
  match find_record db requestID with
  | None => Err ErrRecordNotFound
  | Some record =>
      if String.eqb (r_Status record) "refunded" then already_refunded
      else match subscriptionSafeAddInt64 (effectivePreConsumeAmount record) delta with
      | (_, false) => fail_with "subscription adjustment overflows int64"
      | (target, true) => settleSubscriptionPreConsumeTx record (if target <? 0 then 0 else target) now txnow db
      end
  end.

Definition AdjustSubscriptionPreConsume (db : subDB) (now txnow : Z) (requestID : string) (delta : Z)
  : result unit * subDB :=
  if String.eqb (TrimSpace requestID) "" then (fail_with "requestId is empty", db)
  else if delta =? 0 then (Ok tt, db)
  else transaction db (adjust_tx requestID delta now txnow).

(** ** Refund *)

Definition refundSubscriptionPreConsumeTx (requestID : string) (now txnow : Z) (db : subDB) : result (unit * subDB) :=
  if String.eqb (TrimSpace requestID) "" then fail_with "requestId is empty"
  else match find_record db requestID with
  | None => Err ErrRecordNotFound
  | Some record =>
      if String.eqb (r_Status record) "refunded" then Ok (tt, db)
      else
      let refunded := set_settled 0 now "refunded" record in
      match db_subs db !! r_UserSubscriptionId record with
      | None => Ok (tt, save_record txnow refunded db)
      | Some sub =>
          let amount := effectivePreConsumeAmount record in
          plan ← plan_or_nil db sub;
          sub ← reset_if_plan sub plan now;
          let db := save_sub sub db in
          let policy := quotaPolicyForSubscription sub plan in
          if policyTracksAggregate policy && (s_AmountUsed sub <? 0)
          then fail_with "invalid subscription aggregate usage"
          else if (0 <? amount) && policyTracksAggregate policy &&
                  aggregateRecordInCurrentPeriod sub policy (r_CreatedAt record) now
          then match subscriptionSafeAddInt64 (s_AmountUsed sub) (i64_neg amount) with
               | (_, false) => fail_with "subscription aggregate usage overflows int64"
               | (nextUsed, true) =>
                   let db := save_sub (set_amount_used (maxInt64 0 nextUsed) sub) db in
                   Ok (tt, save_record txnow refunded db)
               end
          else Ok (tt, save_record txnow refunded db)
      end
  end.

Definition RefundSubscriptionPreConsume (db : subDB) (now txnow : Z) (requestID : string) : result unit * subDB :=
  if String.eqb (TrimSpace requestID) "" then (fail_with "requestId is empty", db)
  else transaction db (refundSubscriptionPreConsumeTx requestID now txnow).

(** ** Reset sweep *)

Definition due_for_reset (now : Z) (s : UserSubscription) : bool :=
  (0 <? s_NextResetTime s) && (s_NextResetTime s <=? now) && String.eqb (s_Status s) "active" && (s_StartTime s <=? now).

Definition next_reset_le (a b : UserSubscription) : Prop := s_NextResetTime a <= s_NextResetTime b.
#[export] Instance next_reset_le_dec : RelDecision next_reset_le.
Proof. intros a b. unfold next_reset_le. apply _. Defined.

Definition reset_one (now : Z) (subID : Z) (db : subDB) : result (bool * subDB) :=
  match db_subs db !! subID with
  | None => Ok (false, db)
  | Some locked =>
      if negb (due_for_reset now locked) then Ok (false, db)
      else match getSubscriptionPlanOrSnapshotTx (db_plans db) locked with
      | Ok (Some plan) =>
          sub ← maybeResetUserSubscriptionWithPlanTx locked plan now;
          Ok (negb (s_AmountUsed sub =? s_AmountUsed locked) || negb (s_LastResetTime sub =? s_LastResetTime locked) ||
              negb (s_NextResetTime sub =? s_NextResetTime locked), save_sub sub db)
      | _ => Ok (false, db)
      end
  end.

(** Each row in a transaction of its own; the first error stops the sweep. *)
Fixpoint reset_all (now : Z) (ids : list Z) (count : Z) (db : subDB) : (Z * option error) * subDB :=
  match ids with
  | [] => ((count, None), db)
  | id :: rest =>
      match transaction db (reset_one now id) with
      | (Ok changed, db) => reset_all now rest (if changed then count + 1 else count) db
      | (Err e, db) => ((count, Some e), db)
      end
  end.

Definition ResetDueSubscriptions (db : subDB) (now limit : Z) : (Z * option error) * subDB :=
  let limit := if limit <=? 0 then 200 else limit in
  let due := merge_sort next_reset_le (List.filter (due_for_reset now) (map snd (map_to_list (db_subs db)))) in
  reset_all now (map s_Id (take (Z.to_nat limit) due)) 0 db.

(** ** Cleanup of records *)

Fixpoint earliest_start (sub : UserSubscription) (now safeBefore : Z) (ws : list subscriptionQuotaWindowPolicy) : Z :=
  match ws with
  | [] => safeBefore
  | w :: rest =>
      if (wp_windowSeconds w <=? 0) || (MaxSubscriptionQuotaWindowSeconds <? wp_windowSeconds w)
      then earliest_start sub now safeBefore rest
      else
        let start := fst (quotaWindowBounds w now (s_StartTime sub)) in
        earliest_start sub now (if start <? safeBefore then start else safeBefore) rest
  end.

Definition subscriptionRecordSafeBefore (sub : UserSubscription) (plan : option SubscriptionPlan) (now : Z) : Z :=
  if negb (String.eqb (s_Status sub) "active") || ((0 <? s_EndTime sub) && (s_EndTime sub <=? now)) then now
  else earliest_start sub now now (quotaRecordBackedWindows (quotaPolicyForSubscription sub plan)).

Definition defaultSubscriptionPreConsumeRetentionSeconds : Z := 7 * 24 * 60 * 60.

Definition cleanup_plan (db : subDB) (sub : UserSubscription) : option SubscriptionPlan :=
  let plan := if s_PlanId sub <=? 0 then None else NormalizeQuotaWindows <$> db_plans db !! s_PlanId sub in
  match plan with
  | Some p => Some p
  | None => if 0 <? s_PlanPolicySnapshotVersion sub then Some (subscriptionPlanSnapshotFallback sub) else None
  end.

(** The records of one subscription that the sweep deletes. *)
Definition cleanup_deletes (cutoff safeBefore subID : Z) (r : SubscriptionPreConsumeRecord) : bool :=
  (r_UserSubscriptionId r =? subID) && (r_UpdatedAt r <? cutoff) && (r_CreatedAt r <? safeBefore).

Fixpoint cleanup_subs (db : subDB) (now cutoff : Z) (subs : list UserSubscription)
    (rs : list SubscriptionPreConsumeRecord) : list SubscriptionPreConsumeRecord :=
  match subs with
  | [] => rs
  | sub :: rest =>
      let safeBefore := subscriptionRecordSafeBefore sub (cleanup_plan db sub) now in
      cleanup_subs db now cutoff rest (List.filter (fun r => negb (cleanup_deletes cutoff safeBefore (s_Id sub) r)) rs)
  end.

(** The new tables and the number of deleted rows. *)
Definition CleanupSubscriptionPreConsumeRecords (db : subDB) (now olderThanSeconds : Z) : Z * subDB :=
  let older := if olderThanSeconds <=? 0 then defaultSubscriptionPreConsumeRetentionSeconds else olderThanSeconds in
  let cutoff := saturating min_i64 (subscriptionSafeSubInt64 now older) in
  let rs := cleanup_subs db now cutoff (map snd (map_to_list (db_subs db))) (db_records db) in
  let rs := List.filter (fun r => negb ((r_UpdatedAt r <? cutoff) &&
                                        bool_decide (db_subs db !! r_UserSubscriptionId r = None))) rs in
  (Z.of_nat (length (db_records db)) - Z.of_nat (length rs), with_records rs db).

(** ** Legacy delta *)

Definition post_consume_delta_tx (subId delta : Z) (db : subDB) : result (unit * subDB) :=
  match db_subs db !! subId with
  | None => Err ErrRecordNotFound
  | Some sub =>
      plan ← plan_or_nil db sub;
      let policy := quotaPolicyForSubscription sub plan in
      if po_invalid policy then Err invalidSubscriptionQuotaPolicyError
      else if policyHasGenericWindows policy && negb (delta =? 0)
      then fail_with "request-aware subscription settlement required for quota windows"
      else if (0 <? delta) && policyHasFiveHour policy
      then fail_with "request-aware subscription settlement required for five-hour window"
      else if String.eqb (po_mode policy) "legacy" || policyHasWeekly policy then
        match subscriptionSafeAddInt64 (s_AmountUsed sub) delta with
        | (_, false) => fail_with "subscription aggregate usage overflows int64"
        | (newUsed, true) =>
            let newUsed := if newUsed <? 0 then 0 else newUsed in
            let limit := policyWeeklyLimit policy sub in
            if (0 <? limit) && (limit <? newUsed)
            then fail_with ("subscription used exceeds weekly limit, used=" ++ pretty newUsed ++ " limit=" ++ pretty limit)
            else Ok (tt, save_sub (set_amount_used newUsed sub) db)
        end
      else Ok (tt, save_sub sub db)
  end.

Definition PostConsumeUserSubscriptionDelta (db : subDB) (subId delta : Z) : result unit * subDB :=
  if subId <=? 0 then (fail_with "invalid userSubscriptionId", db)
  else if delta =? 0 then (Ok tt, db)
  else transaction db (post_consume_delta_tx subId delta).

(** [providerIds...] is a variadic argument: none, or one non-negative id. *)
Definition parseOptionalSubscriptionProvider (providerIds : list Z) : result (option Z) :=
  match providerIds with
  | [] => Ok None
  | [p] => if p <? 0 then fail_with "invalid providerId" else Ok (Some p)
  | _ => fail_with "multiple providerIds are not supported"
  end.

Definition HasActiveUserSubscription (db : subDB) (now userId : Z) (providerIds : list Z) : result bool :=
  if userId <=? 0 then fail_with "invalid userId"
  else
    scope ← parseOptionalSubscriptionProvider providerIds;
    Ok (existsb (fun s => (s_UserId s =? userId) && String.eqb (s_Status s) "active" && (s_StartTime s <=? now) &&
                          (now <? s_EndTime s) &&
                          match scope with None => true | Some p => s_ProviderId s =? p end)
          (map snd (map_to_list (db_subs db)))).
End Store.
