(* ===== verification/SubSafety.v ===== *)
(** * Quota windows are never exceeded

    Safety of the store: in every state reached by any sequence of
    pre-consume, settle, adjust, refund, reset, cleanup and delta operations,
    none of which finds a record newer than its first clock reading, no
    record-backed window of any subscription exceeds its limit, at any time
    and not only at the times the code looks.
    The operations are those of [SubStore], each with its transaction. *)

From stdpp Require Import base numbers list strings sorting gmap sets.
From Stdlib Require Import ZArith Lia.
From S2P Require Import Prelude GoInt GoTime GoString QuotaWindow QuotaPolicy WindowBounds SubPlan SubUsage SubStore.

(** ** A window within its limit at every time *)

Section WindowSafe.
Context `{DBClock}.

Definition window_safe (live : list SubscriptionPreConsumeRecord) (anchor : Z) (w : subscriptionQuotaWindowPolicy) : Prop :=
  if String.eqb (wp_resetMode w) "calendar"
  then forall t, 0 < t <= horizon -> anchored w anchor t ->
         let '(s, e) := quotaWindowBounds w t anchor in usage_between live s e horizon <= wp_amount w
  else forall t, usage_at live (wp_windowSeconds w) t <= wp_amount w.

Lemma usage_between_app l1 l2 s e n : usage_between (l1 ++ l2) s e n = usage_between l1 s e n + usage_between l2 s e n.
Proof. apply sum_by_app. Qed.

(** A list with pointwise smaller usage is as safe. *)
Definition dominated (l l' : list SubscriptionPreConsumeRecord) : Prop :=
  (forall W t, usage_at l' W t <= usage_at l W t) /\ (forall s e n, usage_between l' s e n <= usage_between l s e n).

Lemma window_safe_dominated l l' anchor w : dominated l l' -> window_safe l anchor w -> window_safe l' anchor w.
Proof.
  intros [Ha Hb] Hs. unfold window_safe in *. case_match.
  - intros t Ht Hanc. specialize (Hs t Ht Hanc). destruct (quotaWindowBounds w t anchor) as [s e].
    specialize (Hb s e horizon). lia.
  - intros t. specialize (Hs t). specialize (Ha (wp_windowSeconds w) t). lia.
Qed.

Lemma dominated_refl l : dominated l l.
Proof. split; done. Qed.

Lemma dominated_filter p l : dominated l (List.filter p l).
Proof.
  split; intros; unfold usage_at, usage_between; rewrite sum_by_filter; apply sum_by_le;
    intros r _; pose proof (eff_nonneg r); repeat case_match; lia.
Qed.

Lemma dominated_app l1 l1' l2 l2' : dominated l1 l1' -> dominated l2 l2' -> dominated (l1 ++ l2) (l1' ++ l2').
Proof.
  intros [A1 B1] [A2 B2]. split; intros.
  - rewrite !usage_at_app. specialize (A1 W t). specialize (A2 W t). lia.
  - rewrite !usage_between_app. specialize (B1 s e n). specialize (B2 s e n). lia.
Qed.

Lemma dominated_nil l : dominated l [].
Proof.
  split; intros; [apply usage_at_nonneg|]. apply sum_by_nonneg. intros r _.
  pose proof (eff_nonneg r). case_match; lia.
Qed.

Lemma dominated_record r r' :
  r_CreatedAt r' = r_CreatedAt r -> eff r' <= eff r -> dominated [r] [r'].
Proof.
  intros Hc He. split; intros; unfold usage_at, usage_between; cbn; rewrite Hc; repeat case_match; lia.
Qed.

Lemma usage_between_cut l s e n n' :
  (forall r, r ∈ l -> r_CreatedAt r <= n) -> n <= n' -> usage_between l s e n' = usage_between l s e n.
Proof.
  intros Hl Hn. apply sum_by_ext. intros r Hr. specialize (Hl r Hr).
  rewrite (proj2 (Z.leb_le (r_CreatedAt r) n)), (proj2 (Z.leb_le (r_CreatedAt r) n')) by lia. done.
Qed.

(** The bucket of any time that shares a record's bucket is that of the record. *)
Lemma bucket_of_record w anchor t c :
  window_ok w -> wp_resetMode w = "calendar" -> 0 < t <= horizon -> anchored w anchor t ->
  0 < c <= horizon -> anchored w anchor c ->
  fst (quotaWindowBounds w t anchor) <= c < snd (quotaWindowBounds w t anchor) ->
  quotaWindowBounds w t anchor = quotaWindowBounds w c anchor.
Proof.
  intros Hw Hm Ht Hat Hc Hac Hin.
  pose proof (bounds_calendar w t anchor Hw Hm Ht Hat) as Hb. pose proof (bounds_calendar w c anchor Hw Hm Hc Hac) as Hb'.
  destruct (bucket_unique _ _ _ _ _ _ _ _ Hw Hb Hb' Hin) as [E1 E2].
  destruct (quotaWindowBounds w t anchor), (quotaWindowBounds w c anchor). cbn in *. congruence.
Qed.

Lemma anchored_later w anchor t t' : anchored w anchor t -> t <= t' -> anchored w anchor t'.
Proof. intros Ha Ht Hu Hm. specialize (Ha Hu Hm). lia. Qed.

(** Admission reads the clock at [now] and stamps the record later.  No
    record is newer than [now], so the bucket of the stamp is that of [now]
    or is still empty. *)
Lemma stamp_bucket_fits live anchor w r now :
  window_ok w -> wp_resetMode w = "calendar" -> 0 < now <= r_CreatedAt r -> r_CreatedAt r <= horizon ->
  anchored w anchor now -> (forall x, x ∈ live -> r_CreatedAt x <= now) ->
  window_usage live w now anchor + eff r <= wp_amount w ->
  let '(s, e) := quotaWindowBounds w (r_CreatedAt r) anchor in
  usage_between live s e horizon + eff r <= wp_amount w.
Proof.
  intros Hw Hm Hc Hh Ha Hlast Hfit. pose proof (window_usage_nonneg live w now anchor) as Hnn.
  pose proof (anchored_later _ _ _ _ Ha (proj2 Hc)) as Hac.
  pose proof (bounds_calendar w (r_CreatedAt r) anchor Hw Hm ltac:(lia) Hac) as Hb.
  destruct (decide (fst (quotaWindowBounds w (r_CreatedAt r) anchor) <= now)) as [Hin|Hout].
  - destruct Hb as (k & _ & _ & Hmem).
    rewrite (bucket_of_record w anchor (r_CreatedAt r) now) by (done || lia).
    unfold window_usage in Hfit. rewrite Hm in Hfit. cbn in Hfit.
    destruct (quotaWindowBounds w now anchor) as [s e]. by rewrite (usage_between_cut live s e now) by (done || lia).
  - destruct (quotaWindowBounds w (r_CreatedAt r) anchor) as [s e]. cbn in Hout.
    assert (usage_between live s e horizon <= 0); [|lia].
    transitivity (sum_by (fun _ => 0) live); [apply sum_by_le|clear; induction live; cbn; lia]. intros x Hx.
    specialize (Hlast x Hx). goal_if; lia.
Qed.

(** A record appended at the latest time, that fits at the time of the check. *)
Lemma window_safe_append live anchor w r now :
  window_ok w -> 0 < now <= r_CreatedAt r -> r_CreatedAt r <= horizon -> anchored w anchor now ->
  (forall x, x ∈ live -> r_CreatedAt x <= now) ->
  window_usage live w now anchor + eff r <= wp_amount w ->
  window_safe live anchor w -> window_safe (live ++ [r]) anchor w.
Proof.
  intros Hw Hc Hh Ha Hlast Hfit Hs. pose proof (stamp_bucket_fits live anchor w r now Hw) as Hstamp.
  unfold window_safe. unfold window_safe in Hs.
  destruct (String.eqb_spec (wp_resetMode w) "calendar") as [Hm|Hm].
  - specialize (Hstamp Hm Hc Hh Ha Hlast Hfit). intros t Ht Hat. specialize (Hs t Ht Hat).
    destruct (decide (fst (quotaWindowBounds w t anchor) <= r_CreatedAt r < snd (quotaWindowBounds w t anchor))) as [Hin|Hout].
    + pose proof (anchored_later _ _ _ (r_CreatedAt r) Ha (proj2 Hc)) as Hac.
      rewrite (bucket_of_record w anchor t (r_CreatedAt r)) by (done || lia).
      destruct (quotaWindowBounds w (r_CreatedAt r) anchor) as [s e]. rewrite usage_between_app.
      assert (usage_between [r] s e horizon <= eff r); [|lia].
      unfold usage_between. cbn. pose proof (eff_nonneg r). goal_if; lia.
    + destruct (quotaWindowBounds w t anchor) as [s e]. cbn in Hout. rewrite usage_between_app.
      assert (usage_between [r] s e horizon = 0) as ->; [|lia]. unfold usage_between. cbn. goal_if; lia.
  - clear Hstamp. unfold window_usage in Hfit. rewrite (proj2 (String.eqb_neq _ _) Hm) in Hfit.
    intros t. rewrite usage_at_app. specialize (Hs t).
    destruct (decide (r_CreatedAt r <= t)) as [Hle|Hgt].
    + pose proof (usage_at_mono live (wp_windowSeconds w) now t ltac:(lia)) as Hmono.
      specialize (Hmono ltac:(intros x Hx; left; by apply Hlast)).
      assert (usage_at [r] (wp_windowSeconds w) t <= eff r); [|lia].
      unfold usage_at. cbn. pose proof (eff_nonneg r). goal_if; lia.
    + assert (usage_at [r] (wp_windowSeconds w) t = 0) as ->; [|lia]. unfold usage_at. cbn. goal_if; lia.
Qed.

(** Settlement: a record's amount changes to [eff r'], others as checked. *)
Lemma window_safe_settle l1 l2 anchor w r r' now :
  window_ok w -> 0 < r_CreatedAt r <= now -> now <= horizon -> anchored w anchor (r_CreatedAt r) ->
  r_CreatedAt r' = r_CreatedAt r ->
  (forall x, x ∈ l1 ++ l2 -> r_CreatedAt x <= now) ->
  (if String.eqb (wp_resetMode w) "calendar"
   then let '(s, e) := quotaWindowBounds w (r_CreatedAt r) anchor in usage_between (l1 ++ l2) s e now + eff r' <= wp_amount w
   else forall t, r_CreatedAt r <= t < r_CreatedAt r + wp_windowSeconds w -> t <= now ->
          usage_at (l1 ++ l2) (wp_windowSeconds w) t + eff r' <= wp_amount w) ->
  window_safe (l1 ++ r :: l2) anchor w -> window_safe (l1 ++ r' :: l2) anchor w.
Proof.
  intros Hw Hc Hn Hac Hc' Hlast Hfit Hs. unfold window_safe in *.
  assert (Hat : forall x W t, usage_at (l1 ++ x :: l2) W t = usage_at (l1 ++ l2) W t + usage_at [x] W t)
    by (intros; rewrite !usage_at_app; change (x :: l2) with ([x] ++ l2); rewrite usage_at_app; lia).
  assert (Hbt : forall x s e n, usage_between (l1 ++ x :: l2) s e n = usage_between (l1 ++ l2) s e n + usage_between [x] s e n)
    by (intros; rewrite !usage_between_app; change (x :: l2) with ([x] ++ l2); rewrite usage_between_app; lia).
  pose proof (eff_nonneg r') as Hnn.
  destruct (String.eqb_spec (wp_resetMode w) "calendar") as [Hm|Hm].
  - intros t Ht Hat'. specialize (Hs t Ht Hat').
    destruct (decide (fst (quotaWindowBounds w t anchor) <= r_CreatedAt r < snd (quotaWindowBounds w t anchor))) as [Hin|Hout].
    + rewrite (bucket_of_record w anchor t (r_CreatedAt r)) in Hs |- * by (done || lia).
      destruct (quotaWindowBounds w (r_CreatedAt r) anchor) as [s e]. rewrite Hbt.
      rewrite (usage_between_cut (l1 ++ l2) s e now) by (done || lia).
      assert (usage_between [r'] s e horizon <= eff r'); [|lia]. unfold usage_between. cbn. goal_if; lia.
    + destruct (quotaWindowBounds w t anchor) as [s e]. cbn in Hout. rewrite Hbt in Hs |- *.
      assert (usage_between [r'] s e horizon = 0) as ->; [unfold usage_between; cbn; goal_if; lia|].
      assert (0 <= usage_between [r] s e horizon); [unfold usage_between; cbn; pose proof (eff_nonneg r); goal_if; lia|]. lia.
  - intros t. specialize (Hs t). rewrite Hat in Hs |- *. set (W := wp_windowSeconds w) in *.
    pose proof (usage_at_nonneg [r] W t).
    destruct (decide (r_CreatedAt r <= t < r_CreatedAt r + W)) as [Hin|Hout].
    + assert (usage_at [r'] W t <= eff r') by (unfold usage_at; cbn; goal_if; lia).
      destruct (decide (t <= now)) as [Hle|Hgt]; [specialize (Hfit t Hin Hle); lia|].
      pose proof (usage_at_mono (l1 ++ l2) W now t ltac:(lia) ltac:(intros x Hx; left; by apply Hlast)).
      specialize (Hfit now ltac:(lia) ltac:(lia)). lia.
    + assert (usage_at [r'] W t = 0); [unfold usage_at; cbn; goal_if; lia|]. lia.
Qed.
End WindowSafe.

(** ** The store invariant *)

(** The record-backed windows of a row, under its current policy; none when
    enforcement refuses the row. *)
Definition sub_windows (plans : gmap Z SubscriptionPlan) (sub : UserSubscription) : list subscriptionQuotaWindowPolicy :=
  match getSubscriptionPlanOrSnapshotTx plans sub with
  | Ok plan => let po := quotaPolicyForSubscription sub plan in if po_invalid po then [] else quotaRecordBackedWindows po
  | Err ErrRecordNotFound =>
      let po := quotaPolicyForSubscription sub None in if po_invalid po then [] else quotaRecordBackedWindows po
  | Err _ => []
  end.

Record row_inv `{DBClock} (plans : gmap Z SubscriptionPlan) (rs : list SubscriptionPreConsumeRecord)
    (id : Z) (sub : UserSubscription) : Prop := {
  ri_id : s_Id sub = id;
  ri_pos : 0 < id;
  ri_start : 0 < s_StartTime sub;
  ri_amounts : Forall (fun w => wp_amount w <= max_i64) (sub_windows plans sub);
  ri_safe : Forall (window_safe (live_records rs id) (s_StartTime sub)) (sub_windows plans sub)
}.

Record store_inv `{DBClock} (db : subDB) (now : Z) : Prop := {
  si_ids : NoDup (map r_Id (db_records db));
  si_next : forall r, r ∈ db_records db -> r_Id r < db_nextRecord db;
  si_reqs : NoDup (map r_RequestId (db_records db));
  si_times : forall r, r ∈ db_records db -> 0 < r_CreatedAt r <= now;
  si_amounts : amounts_ok (db_records db);
  si_rows : forall id sub, db_subs db !! id = Some sub -> row_inv (db_plans db) (db_records db) id sub
}.

(** ** Changes of a row *)

Definition row_ok (sub sub' : UserSubscription) : Prop :=
  sub' = sub \/ (0 <= s_AmountUsed sub /\ 0 <= s_AmountUsed sub' /\ exists u l n, sub' = set_usage u l n sub).

Lemma row_ok_refl sub : row_ok sub sub.
Proof. by left. Qed.

Lemma row_ok_trans a b c : row_ok a b -> row_ok b c -> row_ok a c.
Proof.
  intros [->|(Ha & Hb & u & l & n & E)] [Hc|(Hb' & Hc & u' & l' & n' & E')]; subst; unfold row_ok; eauto 10.
Qed.

Lemma row_ok_usage sub u l n : 0 <= s_AmountUsed sub -> 0 <= u -> row_ok sub (set_usage u l n sub).
Proof. intros. right. split; [done|]. split; [done|]. by exists u, l, n. Qed.
#[export] Hint Resolve row_ok_refl row_ok_usage : router.

Lemma row_ok_fields sub sub' :
  row_ok sub sub' -> s_Id sub' = s_Id sub /\ s_StartTime sub' = s_StartTime sub /\
    forall plans, sub_windows plans sub' = sub_windows plans sub /\
      getSubscriptionPlanOrSnapshotTx plans sub' = getSubscriptionPlanOrSnapshotTx plans sub.
Proof.
  intros [->|(Ha & Hb & u & l & n & ->)]; [done|]. split; [done|]. split; [done|]. intros plans.
  assert (E : getSubscriptionPlanOrSnapshotTx plans (set_usage u l n sub) = getSubscriptionPlanOrSnapshotTx plans sub) by done.
  split; [|done]. unfold sub_windows. rewrite E.
  destruct (getSubscriptionPlanOrSnapshotTx plans sub) as [p|[|]]; [| |done]; by rewrite policy_set_usage.
Qed.

Lemma row_ok_policy sub sub' plan :
  row_ok sub sub' -> quotaPolicyForSubscription sub' plan = quotaPolicyForSubscription sub plan.
Proof. intros [->|(Ha & Hb & u & l & n & ->)]; [done|]. by apply policy_set_usage. Qed.

Lemma reset_row `{LocalZone} sub plan now sub' :
  maybeResetUserSubscriptionWithPlanTx sub plan now = Ok sub' -> row_ok sub sub'.
Proof.
  unfold maybeResetUserSubscriptionWithPlanTx. cbn zeta. intros Hr.
  destruct (po_invalid _) eqn:Hv in Hr; [done|]. apply policy_valid_used in Hv.
  repeat first [ case_match | progress simplify_eq ]; eauto with router; by apply row_ok_usage.
Qed.

(** ** Policies that are not refused have evaluable windows *)

Lemma policy_from_snapshot_windows sub policy m : Forall window_ok (po_windows (policy_from_snapshot sub policy m)).
Proof.
  unfold policy_from_snapshot. cbn zeta.
  match goal with |- context [let '(_, _) := ?x in _] => assert (Hw : Forall window_ok (fst x)) end.
  { destruct (String.eqb _ "generic"); [|by constructor].
    destruct (Normalize _) as [n|] eqn:En; [|by constructor].
    apply Forall_singleton, canonical_window_ok. by eapply Normalize_canonical. }
  match goal with |- context [let '(_, _) := ?x in _] => destruct x as [ws inv] end.
  match goal with |- context [let '(_, _) := ?x in _] => destruct x as [reset secs] end.
  by goal_if.
Qed.

Lemma policy_windows_ok sub plan : Forall window_ok (po_windows (quotaPolicyForSubscription sub plan)).
Proof.
  rewrite quotaPolicyForSubscription_cases. cbn zeta. pose proof (quotaPolicyFromPlan_windows plan) as Hp.
  destruct (sub_scalars_negative sub); [done|].
  destruct (quotaWindowListHasInvalidEntry _); [by constructor|].
  destruct (bool_decide _); [|apply normalized_policies_ok].
  unfold scalar_snapshot_policy. cbn zeta. destruct (_ || _); [done|]. destruct (_ && _); [done|].
  apply policy_from_snapshot_windows.
Qed.

Lemma record_windows_ok sub plan :
  let po := quotaPolicyForSubscription sub plan in
  po_invalid po = false -> Forall window_ok (quotaRecordBackedWindows po).
Proof.
  intros po Hv. pose proof (policy_windows_ok sub plan) as Hw. fold po in Hw.
  pose proof (quotaPolicyForSubscription_enforceable sub plan Hv) as He. fold po in He. clearbody po.
  unfold quotaRecordBackedWindows. destruct (policyHasGenericWindows po) eqn:Eg; [done|].
  destruct (policyHasFiveHour po) eqn:E5; [|by constructor].
  destruct He as [Hm|[He _]].
  - unfold policyHasFiveHour in E5. by rewrite Hm in E5.
  - unfold policyWindowList in He. rewrite Eg, E5 in He. by apply Forall_app in He as [He _].
Qed.

Lemma sub_windows_ok plans sub : Forall window_ok (sub_windows plans sub).
Proof.
  unfold sub_windows. destruct (getSubscriptionPlanOrSnapshotTx plans sub) as [p|[|]]; [| |by constructor];
    cbn zeta; goal_if; [by constructor | by apply record_windows_ok | by constructor | by apply record_windows_ok].
Qed.

Lemma row_ok_sym a b : row_ok a b -> row_ok b a.
Proof.
  intros [->|(Ha & Hb & u & l & n & ->)]; [by left|]. right. split; [done|]. split; [done|].
  exists (s_AmountUsed a), (s_LastResetTime a), (s_NextResetTime a). by destruct a.
Qed.

(** ** Preservation by table changes *)

Section Preservation.
Context `{DBClock}.

(** [sub] is the row with its id, up to usage columns. *)
Definition stored (db : subDB) (sub : UserSubscription) : Prop :=
  exists sub0, db_subs db !! s_Id sub = Some sub0 /\ row_ok sub0 sub.

Lemma row_inv_sim plans rs id sub sub' :
  row_ok sub sub' -> row_inv plans rs id sub -> row_inv plans rs id sub'.
Proof.
  intros Hr [Hid Hp Hs Ha Hw]. destruct (row_ok_fields _ _ Hr) as (E1 & E2 & E3). destruct (E3 plans) as [E4 _].
  constructor; rewrite ?E1, ?E2, ?E4; done.
Qed.

Lemma store_inv_later db t t' : store_inv db t -> t <= t' -> store_inv db t'.
Proof.
  intros [H1 H2 H3 H4 H5 H6] Ht. constructor; try done. intros r Hr. specialize (H4 r Hr). lia.
Qed.

(** The invariant holds at any time no record is newer than. *)
Lemma store_inv_at db t now :
  store_inv db t -> (forall r, r ∈ db_records db -> r_CreatedAt r <= now) -> store_inv db now.
Proof.
  intros [H1 H2 H3 H4 H5 H6] Hnow. constructor; try done. intros r Hr. specialize (H4 r Hr). specialize (Hnow r Hr). lia.
Qed.

Lemma save_sub_inv db now sub : store_inv db now -> stored db sub -> store_inv (save_sub sub db) now.
Proof.
  intros Hi (sub0 & Hl & Hr). destruct Hi as [H1 H2 H3 H4 H5 H6]. constructor; try done.
  intros id s. cbn. rewrite lookup_insert_Some. intros [[<- <-]|[Hne Hs]]; [|by apply H6].
  eapply row_inv_sim; [exact Hr|]. by apply H6.
Qed.

Lemma stored_save db sub s : row_ok s sub -> stored db s -> stored (save_sub sub db) s.
Proof.
  intros Hr (s0 & Hl & Hr0). destruct (row_ok_fields _ _ Hr) as (E & _). exists sub. cbn. rewrite E.
  rewrite lookup_insert_eq. split; [done|]. by apply row_ok_sym.
Qed.

Lemma stored_save_other db sub s : stored db sub -> stored db s -> stored (save_sub sub db) s.
Proof.
  intros (t0 & Ht & Hrt) (s0 & Hl & Hr0). unfold stored. cbn.
  destruct (decide (s_Id sub = s_Id s)) as [E|E].
  - rewrite E in Ht |- *. rewrite lookup_insert_eq. exists sub. split; [done|].
    assert (t0 = s0) as -> by congruence. eapply row_ok_trans; [by apply row_ok_sym | done].
  - rewrite lookup_insert_ne by done. by exists s0.
Qed.

Lemma stored_sim db s s' : row_ok s s' -> stored db s -> stored db s'.
Proof.
  intros Hr (s0 & Hl & Hr0). destruct (row_ok_fields _ _ Hr) as (E & _). exists s0. rewrite E.
  split; [done|]. by eapply row_ok_trans.
Qed.

Lemma live_app a b id : live_records (a ++ b) id = live_records a id ++ live_records b id.
Proof. apply List.filter_app. Qed.

(** Replacing the records keeps the rows when live usage is dominated. *)
Lemma records_inv db now rs :
  store_inv db now -> NoDup (map r_Id rs) -> NoDup (map r_RequestId rs) ->
  (forall r, r ∈ rs -> r_Id r < db_nextRecord db /\ 0 < r_CreatedAt r <= now /\ eff r <= max_i64) ->
  (forall id, dominated (live_records (db_records db) id) (live_records rs id)) ->
  store_inv (with_records rs db) now.
Proof.
  intros [H1 H2 H3 H4 H5 H6] Hid Hreq Hall Hdom. constructor; cbn; try done.
  - intros r Hr. by apply Hall.
  - intros r Hr. by apply Hall.
  - intros r Hr. by apply Hall.
  - intros id sub Hs. destruct (H6 id sub Hs) as [E1 E2 E3 E4 E5]. constructor; try done.
    eapply Forall_impl; [exact E5|]. intros w Hw. by eapply window_safe_dominated.
Qed.

(** A new record that fits in every window of its subscription. *)
Lemma create_record_inv db now txnow requestId userId sub model qt amount st :
  store_inv db now -> stored db sub -> 0 < now <= txnow -> txnow <= horizon -> s_StartTime sub <= now -> 0 < amount <= max_i64 ->
  find_record db requestId = None ->
  Forall (fits_window (db_records db) sub now amount) (sub_windows (db_plans db) sub) ->
  store_inv (create_record db txnow requestId userId (s_Id sub) model qt amount (Some amount) st "consumed") txnow.
Proof.
  intros [H1 H2 H3 H4 H5 H6] (sub0 & Hl & Hr) Hn Hh Hst Ha Hf Hfit.
  set (r := mkRecord (db_nextRecord db) requestId userId (s_Id sub) model qt amount (Some amount) st "consumed" txnow txnow).
  assert (Heff : eff r = amount) by (unfold eff; cbn; case_match; lia).
  constructor; cbn; fold r.
  - rewrite map_app. apply NoDup_app. split; [done|]. split; [|apply NoDup_singleton].
    intros x (y & -> & Hy)%list_elem_of_fmap Hx%list_elem_of_singleton. specialize (H2 y Hy). cbn in Hx. lia.
  - intros x [Hx| ->%list_elem_of_singleton]%elem_of_app; [specialize (H2 x Hx)|cbn]; lia.
  - rewrite map_app. apply NoDup_app. split; [done|]. split; [|apply NoDup_singleton].
    intros x (y & -> & Hy)%list_elem_of_fmap Hx%list_elem_of_singleton. cbn in Hx.
    unfold find_record in Hf. apply list_elem_of_In in Hy. pose proof (List.find_none _ _ Hf y Hy) as E. cbn in E.
    by rewrite Hx, String.eqb_refl in E.
  - intros x [Hx| ->%list_elem_of_singleton]%elem_of_app; [specialize (H4 x Hx); lia|cbn; lia].
  - intros x [Hx| ->%list_elem_of_singleton]%elem_of_app; [by apply H5|lia].
  - intros id s Hs. destruct (H6 id s Hs) as [E1 E2 E3 E4 E5]. constructor; try done.
    rewrite live_app. destruct (decide (s_Id sub = id)) as [E|E].
    + assert (s = sub0) as -> by congruence. destruct (row_ok_fields _ _ Hr) as (F1 & F2 & F3).
      destruct (F3 (db_plans db)) as [F4 _]. rewrite F4 in Hfit. unfold live_records at 2. cbn. rewrite E, Z.eqb_refl. cbn.
      pose proof (sub_windows_ok (db_plans db) sub0) as Hok.
      rewrite Forall_forall in *. intros w Hw. apply (window_safe_append _ _ _ _ now); try done.
      * by apply Hok.
      * intros _ _. cbn. rewrite <- F2. split; [by rewrite F2 | done].
      * intros x Hx. apply live_in in Hx as [Hx _]. by apply H4.
      * specialize (Hfit w Hw). unfold fits_window in Hfit. rewrite Heff. cbn. by rewrite <- F2, <- E.
      * by apply E5.
    + unfold live_records at 2. cbn. rewrite (proj2 (Z.eqb_neq _ _) E). cbn. by rewrite app_nil_r.
Qed.
End Preservation.

Section RecordChanges.
Context `{DBClock}.

Lemma find_record_split db id r :
  find_record db id = Some r -> r_RequestId r = id /\ exists a b, db_records db = a ++ r :: b.
Proof.
  unfold find_record. intros [Hin Heq]%List.find_some. split; [by apply String.eqb_eq in Heq|].
  by apply in_split in Hin.
Qed.

Lemma save_record_split db txnow rec r a b :
  NoDup (map r_Id (db_records db)) -> db_records db = a ++ r :: b -> r_Id rec = r_Id r ->
  db_records (save_record txnow rec db) = a ++ set_updated txnow rec :: b.
Proof.
  intros Hnd Hs Hid. cbn. rewrite Hs in Hnd |- *. rewrite map_app in Hnd. cbn in Hnd.
  apply NoDup_app in Hnd as (_ & Hab & Hb). apply NoDup_cons in Hb as [Hb _].
  rewrite map_app. cbn. rewrite Hid, Z.eqb_refl.
  assert (Hother : forall l, (forall x, x ∈ l -> r_Id x <> r_Id r) ->
    map (fun x => if r_Id x =? r_Id r then set_updated txnow rec else x) l = l).
  { intros l Hl. transitivity (map (fun x => x) l); [|apply map_id]. apply List.map_ext_in. intros x Hx.
    rewrite (proj2 (Z.eqb_neq _ _)); [done|]. apply Hl. by apply list_elem_of_In. }
  rewrite !Hother; [done | |].
  - intros x Hx E. apply Hb. rewrite <- E. by apply list_elem_of_fmap_2.
  - intros x Hx E. apply (Hab (r_Id r)); [rewrite <- E; by apply list_elem_of_fmap_2 | left].
Qed.

Lemma live_cons r l id :
  live_records (r :: l) id =
  (if (r_UserSubscriptionId r =? id) && negb (String.eqb (r_Status r) "refunded") then [r] else []) ++ live_records l id.
Proof. unfold live_records. cbn. by destruct (_ && _). Qed.

(** The records other than [r], when request ids are unique. *)
Lemma other_records_split a r b id :
  NoDup (map r_RequestId (a ++ r :: b)) ->
  other_records (a ++ r :: b) id (r_RequestId r) = live_records a id ++ live_records b id.
Proof.
  intros Hnd. rewrite map_app in Hnd. cbn in Hnd. apply NoDup_app in Hnd as (_ & Hab & Hb).
  apply NoDup_cons in Hb as [Hb _]. unfold other_records. rewrite live_app, live_cons, !List.filter_app.
  assert (Hkeep : forall l, (forall x, x ∈ l -> r_RequestId x <> r_RequestId r) ->
    List.filter (fun x => negb (String.eqb (r_RequestId x) (r_RequestId r))) (live_records l id) = live_records l id).
  { intros l Hl. apply List.forallb_filter_id. apply forallb_Forall_true, Forall_forall. intros x Hx.
    apply live_in in Hx as [Hx _]. apply negb_true_iff, String.eqb_neq. by apply Hl. }
  rewrite !Hkeep.
  - destruct (_ && _); cbn; [|done]. by rewrite String.eqb_refl.
  - intros x Hx E. apply Hb. rewrite <- E. by apply list_elem_of_fmap_2.
  - intros x Hx E. apply (Hab (r_RequestId r)); [rewrite <- E; by apply list_elem_of_fmap_2 | left].
Qed.

Section Replace.
Context (db : subDB) (now txnow : Z) (r : SubscriptionPreConsumeRecord) (target st : Z) (status : string).
Context (Hi : store_inv db now) (Hn : now <= horizon) (Ht : 0 <= target <= max_i64).
Context (a b : list SubscriptionPreConsumeRecord) (Hsplit : db_records db = a ++ r :: b).
Let r' := set_updated txnow (set_settled target st status r).
Let db' := save_record txnow (set_settled target st status r) db.

Lemma replaced_records : db_records db' = a ++ r' :: b.
Proof. by apply (save_record_split db txnow _ r); [apply Hi | |]. Qed.

Lemma replaced_basic :
  (forall id sub, db_subs db !! id = Some sub -> row_inv (db_plans db) (a ++ r' :: b) id sub) -> store_inv db' now.
Proof.
  pose proof replaced_records as Hr. destruct Hi as [H1 H2 H3 H4 H5 H6]. intros Hrows.
  assert (Hin : forall x, x ∈ a ++ r' :: b -> x = r' \/ x ∈ db_records db).
  { intros x Hx. rewrite Hsplit. set_solver. }
  assert (Hr0 : r ∈ db_records db) by (rewrite Hsplit; set_solver).
  constructor; rewrite ?Hr; cbn.
  - rewrite Hsplit in H1. by rewrite map_app in H1 |- *.
  - intros x [->|Hx]%Hin; [exact (H2 r Hr0) | by apply H2].
  - rewrite Hsplit in H3. by rewrite map_app in H3 |- *.
  - intros x [->|Hx]%Hin; [exact (H4 r Hr0) | by apply H4].
  - intros x [->|Hx]%Hin; [|by apply H5]. unfold eff. cbn. case_match; lia.
  - done.
Qed.

(** Lowering an amount, or refunding, keeps every window. *)
Lemma lower_record_inv : status = "refunded" \/ (status = r_Status r /\ target <= eff r) -> store_inv db' now.
Proof.
  intros Hcase. apply replaced_basic. intros id sub Hs. destruct (si_rows db now Hi id sub Hs) as [E1 E2 E3 E4 E5].
  constructor; try done. eapply Forall_impl; [exact E5|]. intros w Hw. eapply window_safe_dominated; [|exact Hw].
  rewrite Hsplit, !live_app, !live_cons. apply dominated_app; [apply dominated_refl|].
  apply dominated_app; [|apply dominated_refl]. cbn. destruct Hcase as [->|[-> Hle]].
  - cbn. rewrite andb_false_r. apply dominated_nil.
  - destruct (_ && _); [|apply dominated_refl]. apply dominated_record; [done|].
    unfold eff at 1. cbn. case_match; [apply eff_nonneg | done].
Qed.

(** Raising it keeps them when the settlement check passed. *)
Lemma raise_record_inv :
  status = r_Status r -> r_Status r <> "refunded" ->
  (forall sub, db_subs db !! r_UserSubscriptionId r = Some sub ->
    Forall (fun w => anchored w (s_StartTime sub) (r_CreatedAt r) /\
              target_within_limit (db_records db) (r_UserSubscriptionId r) w (s_StartTime sub) r target now)
      (sub_windows (db_plans db) sub)) ->
  store_inv db' now.
Proof.
  intros Hst Hnr Hok. apply replaced_basic. intros id sub Hs.
  destruct (si_rows db now Hi id sub Hs) as [E1 E2 E3 E4 E5]. constructor; try done.
  rewrite Hsplit, live_app, live_cons in E5. rewrite live_app, live_cons. cbn. rewrite Hst.
  destruct (Z.eqb_spec (r_UserSubscriptionId r) id) as [E|E]; [|done].
  rewrite (proj2 (String.eqb_neq _ _) Hnr) in E5 |- *. cbn in *. rewrite E in Hok.
  specialize (Hok sub Hs). pose proof (sub_windows_ok (db_plans db) sub) as Hwok.
  assert (Hall : forall x, x ∈ db_records db -> 0 < r_CreatedAt x <= now) by apply (si_times db now Hi).
  rewrite Forall_forall in *. intros w Hw. destruct (Hok w Hw) as [Hanc Hlim].
  unfold target_within_limit in Hlim. rewrite Hsplit, other_records_split in Hlim by (rewrite <- Hsplit; apply Hi).
  destruct Hlim as [_ Hlim]. assert (Heff : eff r' = target) by (unfold eff; cbn; goal_if; lia).
  eapply window_safe_settle with (r := r) (now := now); try done.
  - by apply Hwok.
  - apply Hall. rewrite Hsplit. set_solver.
  - intros x Hx. apply Hall. rewrite Hsplit. apply elem_of_app in Hx as [Hx|Hx]; apply live_in in Hx as [Hx _]; set_solver.
  - by rewrite Heff.
  - by apply E5.
Qed.
End Replace.
End RecordChanges.

(** ** Preservation by the operations *)

Section Operations.
Context `{DBClock} `{LocalZone}.

Lemma stored_row db now id sub : store_inv db now -> db_subs db !! id = Some sub -> stored db sub.
Proof.
  intros Hi Hs. destruct (si_rows db now Hi id sub Hs) as [E _ _ _ _]. exists sub. rewrite E. split; [done|by left].
Qed.

Lemma inv_times db now : store_inv db now -> now <= horizon -> times_ok (db_records db).
Proof. intros Hi Hn r Hr. pose proof (si_times db now Hi r Hr). lia. Qed.

Lemma target_allowed_true records subID w anchor record target now :
  window_ok w -> 0 < subID -> 0 <= target -> now <= horizon -> times_ok records ->
  quotaWindowTargetAllowedTx records subID w anchor record target now = Ok true ->
  anchored w anchor (r_CreatedAt record) /\ target_within_limit records subID w anchor record target now.
Proof.
  intros Hw Hid Ht Hn Hok Htrue.
  assert (Hg : 0 < r_CreatedAt record <= now /\ anchored w anchor (r_CreatedAt record)).
  { unfold quotaWindowTargetAllowedTx in Htrue. cbn zeta in Htrue.
    rewrite (proj2 (Z.leb_gt subID 0)), (proj2 (Z.ltb_ge target 0)) in Htrue by lia.
    rewrite (proj2 (Z.leb_gt (wp_amount w) 0)) in Htrue by (by apply wok_amount).
    rewrite window_ok_length in Htrue by done.
    destruct (_ && _) in Htrue; [done|]. destruct (_ || _) in Htrue; [done|].
    destruct ((r_CreatedAt record <=? 0) || _) eqn:Ec in Htrue; [done|]. split_bool. split; [lia|].
    intros Hu Hm. rewrite Hu, Hm in Htrue. cbn in Htrue. destruct (_ || _) eqn:Ea in Htrue; [done|]. lia. }
  destruct Hg as [Hc Ha]. split; [done|].
  destruct (target_allowed_spec records subID w anchor record target now Hw Hid Ht Hc Hn Hok Ha) as (b & Hb & Hiff).
  apply Hiff. congruence.
Qed.

Lemma windows_target_allowed_true records sub record target now ws :
  Forall window_ok ws -> 0 < s_Id sub -> 0 <= target -> now <= horizon -> times_ok records ->
  windows_target_allowed records sub record target now ws = Ok true ->
  Forall (fun w => anchored w (s_StartTime sub) (r_CreatedAt record) /\
                   target_within_limit records (s_Id sub) w (s_StartTime sub) record target now) ws.
Proof.
  intros Hws Hid Ht Hn Hok. induction Hws as [|w ws Hw _ IH]; cbn; [by constructor|].
  rewrite (proj2 (Z.leb_gt (wp_amount w) 0)) by (by apply wok_amount). intros Htrue. inv_ok.
  destruct a; cbn in Htrue; [|done]. constructor; [by apply target_allowed_true | by apply IH].
Qed.

(** The row's windows, from the plan the operation loaded. *)
Lemma sub_windows_plan db sub plan :
  plan_or_nil db sub = Ok plan -> po_invalid (quotaPolicyForSubscription sub plan) = false ->
  sub_windows (db_plans db) sub = quotaRecordBackedWindows (quotaPolicyForSubscription sub plan).
Proof.
  unfold plan_or_nil, sub_windows. intros Hp Hv.
  destruct (getSubscriptionPlanOrSnapshotTx (db_plans db) sub) as [p|[|]]; simplify_eq; by rewrite Hv.
Qed.

Lemma reset_if_plan_row sub plan now sub' : reset_if_plan sub plan now = Ok sub' -> row_ok sub sub'.
Proof. destruct plan; cbn; [apply reset_row|]. intros ?. simplify_eq. by left. Qed.

(** Both record-backed checks of a settlement. *)
Lemma settlement_checks db sub plan record target now policy :
  policy = quotaPolicyForSubscription sub plan -> po_invalid policy = false ->
  0 < s_Id sub -> 0 <= target -> now <= horizon -> times_ok (db_records db) ->
  (policyHasFiveHour policy = true ->
   quotaWindowTargetAllowedTx (db_records db) (s_Id sub) (five_hour_window policy) (s_StartTime sub) record target now = Ok true) ->
  (policyHasGenericWindows policy = true ->
   genericQuotaTargetAllowedTx (db_records db) sub policy record target now = Ok true) ->
  Forall (fun w => anchored w (s_StartTime sub) (r_CreatedAt record) /\
                   target_within_limit (db_records db) (s_Id sub) w (s_StartTime sub) record target now)
    (quotaRecordBackedWindows policy).
Proof.
  intros Hpo Hv Hid Ht Hn Hok H5 Hg. pose proof (record_windows_ok sub plan ltac:(by rewrite <- Hpo)) as Hw.
  cbn zeta in Hw. rewrite <- Hpo in Hw. unfold quotaRecordBackedWindows in *.
  destruct (policyHasGenericWindows policy) eqn:Eg.
  - specialize (Hg eq_refl). unfold genericQuotaTargetAllowedTx in Hg. rewrite Eg in Hg. cbn [negb] in Hg.
    rewrite (proj2 (Z.ltb_ge target 0)) in Hg by lia. by apply windows_target_allowed_true.
  - destruct (policyHasFiveHour policy); [|by constructor]. apply Forall_singleton.
    rewrite Forall_singleton in Hw. apply target_allowed_true; first [done | lia | by apply H5].
Qed.

Lemma settle_changed_inv db record sub target now txnow db' :
  store_inv db now -> now <= horizon -> 0 <= target <= max_i64 ->
  record ∈ db_records db -> r_Status record <> "refunded" ->
  db_subs db !! r_UserSubscriptionId record = Some sub ->
  settle_changed db record sub target now txnow = Ok (tt, db') -> store_inv db' now.
Proof.
  intros Hi Hn Ht Hin Hnr Hl Hok. unfold settle_changed in Hok.
  apply bind_Ok_inv in Hok as (plan & Hplan & Hok). apply bind_Ok_inv in Hok as (sub' & Hreset & Hok).
  apply reset_if_plan_row in Hreset as Hrow. cbn zeta in Hok.
  pose proof (stored_sim db sub sub' Hrow (stored_row db now _ sub Hi Hl)) as Hst.
  pose proof (save_sub_inv db now sub' Hi Hst) as Hi1. set (db1 := save_sub sub' db) in *.
  destruct (si_rows db now Hi _ sub Hl) as [Hid Hpos _ _ _].
  destruct (row_ok_fields _ _ Hrow) as (Eid & Estart & Ew). destruct (Ew (db_plans db)) as [Ew1 Eplan].
  set (policy := quotaPolicyForSubscription sub' plan) in *.
  destruct (po_invalid policy) eqn:Hv; [done|]. apply policy_valid_used in Hv as Hused.
  destruct (_ && _) eqn:Eneg in Hok; [done|].
  pose proof (si_amounts db now Hi record Hin) as Hcur. pose proof (eff_nonneg record) as Hcur0.
  assert (Hdelta : i64_sub target (eff record) = target - eff record) by (unfold i64_sub; apply wrap64_id; range).
  rewrite Hdelta in Hok.
  apply bind_Ok_inv in Hok as ([] & _ & Hok). apply bind_Ok_inv in Hok as ([] & H5 & Hok).
  apply bind_Ok_inv in Hok as ([] & Hg & Hok).
  assert (Hrec : store_inv (save_record txnow (set_settled target now (r_Status record) record) db1) now).
  { destruct (list_elem_of_split _ _ Hin) as (a & b & Hsplit).
    destruct (Z.ltb_spec 0 (target - eff record)) as [Hup|Hdown].
    - apply (raise_record_inv db1 now txnow record target now (r_Status record) Hi1 Hn Ht a b Hsplit eq_refl Hnr).
      intros s Hs. cbn in Hs. assert (s = sub') as ->.
      { rewrite <- Hid, <- Eid, lookup_insert_eq in Hs. by simplify_eq. }
      cbn [db_plans db1 save_sub with_subs]. rewrite Ew1.
      rewrite (sub_windows_plan db sub plan Hplan) by (by rewrite <- (row_ok_policy sub sub')).
      rewrite <- (row_ok_policy sub sub') by done. fold policy. rewrite <- Hid, <- Eid.
      eapply (settlement_checks db1 sub' plan record target now policy); try done; [lia|lia|by apply (inv_times db now)| |].
      + intros E5. rewrite E5 in H5. cbn in H5. apply bind_Ok_inv in H5 as ([] & H5 & ?); done.
      + intros Eg. rewrite Eg in Hg. cbn in Hg. apply bind_Ok_inv in Hg as ([] & Hg & ?); done.
    - apply (lower_record_inv db1 now txnow record target now (r_Status record) Hi1 Hn Ht a b Hsplit).
      right. split; [done|]. lia. }
  destruct (_ && _) in Hok; [|by simplify_eq].
  destruct (subscriptionSafeAddInt64 _ _) as [nu []]; [|done]. simplify_eq.
  apply save_sub_inv; [done|]. apply (stored_sim _ sub').
  - apply row_ok_usage; [done|]. goal_if; lia.
  - exists sub'. cbn. rewrite lookup_insert_eq. split; [done|by left].
Qed.

Lemma settle_record_inv db record target now txnow db' :
  store_inv db now -> now <= horizon -> target <= max_i64 ->
  record ∈ db_records db -> r_Status record <> "refunded" ->
  settleSubscriptionPreConsumeTx record target now txnow db = Ok (tt, db') -> store_inv db' now.
Proof.
  intros Hi Hn Ht Hin Hnr Hok. unfold settleSubscriptionPreConsumeTx in Hok.
  destruct (Z.ltb_spec target 0); [done|]. destruct (Z.eqb_spec (eff record) target) as [E|E].
  - assert (Hsame : store_inv (save_record txnow (set_settled target now (r_Status record) record) db) now).
    { destruct (list_elem_of_split _ _ Hin) as (a & b & Hsplit).
      apply (lower_record_inv db now txnow record target now (r_Status record) Hi Hn ltac:(lia) a b Hsplit).
      right. split; [done|lia]. }
    destruct (r_SettledAmount record); [|by simplify_eq]. destruct (_ =? 0); by simplify_eq.
  - destruct (db_subs db !! r_UserSubscriptionId record) as [sub|] eqn:Hs; [|done].
    by eapply settle_changed_inv.
Qed.

Lemma find_record_in db id r : find_record db id = Some r -> r ∈ db_records db.
Proof. intros (_ & a & b & ->)%find_record_split. set_solver. Qed.

Lemma settle_tx_inv db requestID target now txnow db' :
  store_inv db now -> now <= horizon -> target <= max_i64 ->
  settle_tx requestID target now txnow db = Ok (tt, db') -> store_inv db' now.
Proof.
  intros Hi Hn Ht Hok. unfold settle_tx in Hok. destruct (find_record db requestID) as [r|] eqn:Hf; [|done].
  destruct (String.eqb_spec (r_Status r) "refunded"); [done|]. eapply settle_record_inv; try done. by eapply find_record_in.
Qed.

Lemma adjust_tx_inv db requestID delta now txnow db' :
  store_inv db now -> now <= horizon -> is_i64 delta ->
  adjust_tx requestID delta now txnow db = Ok (tt, db') -> store_inv db' now.
Proof.
  intros Hi Hn Ht Hok. unfold adjust_tx in Hok. destruct (find_record db requestID) as [r|] eqn:Hf; [|done].
  destruct (String.eqb_spec (r_Status r) "refunded"); [done|]. pose proof (find_record_in _ _ _ Hf) as Hin.
  destruct (subscriptionSafeAddInt64 (eff r) delta) as [target []] eqn:Ha; [|done].
  pose proof (eff_nonneg r). pose proof (si_amounts db now Hi r Hin).
  apply safe_add_ok in Ha as [_ Ha]; [|range|done]. apply (settle_record_inv db r _ now txnow db' Hi Hn) in Hok; [done | | done | done]. destruct (target <? 0); range.
Qed.

Lemma refund_tx_inv db requestID now txnow db' :
  store_inv db now -> now <= horizon ->
  refundSubscriptionPreConsumeTx requestID now txnow db = Ok (tt, db') -> store_inv db' now.
Proof.
  intros Hi Hn Hok. unfold refundSubscriptionPreConsumeTx in Hok. destruct (String.eqb _ "") in Hok; [done|].
  destruct (find_record db requestID) as [r|] eqn:Hf; [|done].
  destruct (String.eqb (r_Status r) "refunded"); [by simplify_eq|].
  pose proof (find_record_in _ _ _ Hf) as Hin. destruct (list_elem_of_split _ _ Hin) as (a & b & Hsplit).
  assert (Hrefund : forall d, store_inv d now -> db_records d = db_records db ->
    store_inv (save_record txnow (set_settled 0 now "refunded" r) d) now).
  { intros d Hd Hr. rewrite <- Hr in Hsplit.
    apply (lower_record_inv d now txnow r 0 now "refunded" Hd Hn ltac:(range) a b Hsplit). by left. }
  destruct (db_subs db !! r_UserSubscriptionId r) as [sub|] eqn:Hl; [|simplify_eq; by apply Hrefund].
  apply bind_Ok_inv in Hok as (plan & Hplan & Hok). apply bind_Ok_inv in Hok as (sub' & Hreset & Hok).
  apply reset_if_plan_row in Hreset as Hrow. cbn zeta in Hok.
  pose proof (stored_sim db sub sub' Hrow (stored_row db now _ sub Hi Hl)) as Hst.
  pose proof (save_sub_inv db now sub' Hi Hst) as Hi1.
  destruct (policyTracksAggregate (quotaPolicyForSubscription sub' plan)) eqn:Etr; cbn [andb] in Hok.
  2:{ rewrite andb_false_r in Hok. cbn in Hok. simplify_eq. by apply Hrefund. }
  destruct (Z.ltb_spec (s_AmountUsed sub') 0) as [|Hused]; [done|].
  destruct (_ && _) in Hok; [|simplify_eq; by apply Hrefund].
  destruct (subscriptionSafeAddInt64 _ _) as [nu []]; [|done]. simplify_eq. apply Hrefund; [|done].
  apply save_sub_inv; [done|]. apply (stored_sim _ sub').
  - apply row_ok_usage; [done|]. rewrite maxInt64_max. lia.
  - exists sub'. cbn. rewrite lookup_insert_eq. split; [done|by left].
Qed.

Lemma delta_tx_inv db now subId delta db' :
  store_inv db now -> post_consume_delta_tx subId delta db = Ok (tt, db') -> store_inv db' now.
Proof.
  intros Hi Hok. unfold post_consume_delta_tx in Hok. destruct (db_subs db !! subId) as [sub|] eqn:Hl; [|done].
  apply bind_Ok_inv in Hok as (plan & _ & Hok). cbn zeta in Hok.
  destruct (po_invalid _) eqn:Hv in Hok; [done|]. apply policy_valid_used in Hv.
  pose proof (stored_row db now _ sub Hi Hl) as Hst.
  destruct (_ && _) in Hok; [done|]. destruct (_ && _) in Hok; [done|].
  destruct (_ || _) in Hok; [|simplify_eq; by apply save_sub_inv].
  destruct (subscriptionSafeAddInt64 _ _) as [nu []]; [|done]. destruct (_ && _) in Hok; [done|]. simplify_eq.
  apply save_sub_inv; [done|]. eapply stored_sim; [|exact Hst]. apply row_ok_usage; [done|]. goal_if; lia.
Qed.

Lemma reset_one_inv db now id c db' : store_inv db now -> reset_one now id db = Ok (c, db') -> store_inv db' now.
Proof.
  intros Hi Hok. unfold reset_one in Hok. destruct (db_subs db !! id) as [sub|] eqn:Hl; [|by simplify_eq].
  destruct (negb _); [by simplify_eq|].
  destruct (getSubscriptionPlanOrSnapshotTx (db_plans db) sub) as [[plan|]|]; [|by simplify_eq|by simplify_eq].
  apply bind_Ok_inv in Hok as (sub' & Hr%reset_row & Hok). simplify_eq. apply save_sub_inv; [done|].
  eapply stored_sim; [exact Hr|]. by eapply stored_row.
Qed.

Lemma reset_all_inv now ids : forall db count,
  store_inv db now -> store_inv (snd (reset_all now ids count db)) now.
Proof.
  induction ids as [|id ids IH]; intros db count Hi; cbn; [done|]. unfold transaction.
  destruct (reset_one now id db) as [[c db']|e] eqn:Hr; [|done]. apply IH. by eapply reset_one_inv.
Qed.

Lemma live_filter p rs id : live_records (List.filter p rs) id = List.filter p (live_records rs id).
Proof.
  unfold live_records. induction rs as [|r rs IH]; cbn; [done|].
  destruct (p r) eqn:Ep; cbn; destruct (_ && _) eqn:Eq; cbn; rewrite ?Ep; by rewrite IH.
Qed.

Lemma NoDup_map_filter {B} (f : SubscriptionPreConsumeRecord -> B) p rs : NoDup (map f rs) -> NoDup (map f (List.filter p rs)).
Proof.
  induction rs as [|r rs IH]; cbn; [done|]. intros [Hr Hn]%NoDup_cons. destruct (p r); cbn; [|by apply IH].
  apply NoDup_cons. split; [|by apply IH]. intros (x & Hx & Hin)%list_elem_of_fmap. apply Hr. rewrite Hx.
  apply list_elem_of_fmap_2. apply list_elem_of_In, filter_In in Hin as [Hin _]. by apply list_elem_of_In.
Qed.

Lemma filter_records_inv db now p : store_inv db now -> store_inv (with_records (List.filter p (db_records db)) db) now.
Proof.
  intros Hi. apply records_inv; [done | | | |].
  - apply NoDup_map_filter, Hi.
  - apply NoDup_map_filter, Hi.
  - intros r Hr. apply list_elem_of_In, filter_In in Hr as [Hr _]. apply list_elem_of_In in Hr.
    split; [by apply Hi|]. split; by apply Hi.
  - intros id. rewrite live_filter. apply dominated_filter.
Qed.

(** The records every per-subscription pass keeps. *)
Definition cleanup_keeps (db : subDB) (now cutoff : Z) (subs : list UserSubscription) (r : SubscriptionPreConsumeRecord) : bool :=
  forallb (fun s => negb (cleanup_deletes cutoff (subscriptionRecordSafeBefore s (cleanup_plan db s) now) (s_Id s) r)) subs.

Lemma cleanup_is_filter db now cutoff subs : forall rs,
  cleanup_subs db now cutoff subs rs = List.filter (cleanup_keeps db now cutoff subs) rs.
Proof.
  induction subs as [|s subs IH]; intros rs; cbn.
  - symmetry. apply List.forallb_filter_id. by apply forallb_forall.
  - rewrite IH. clear IH. induction rs as [|r rs IHr]; cbn; [done|].
    unfold cleanup_keeps in *. cbn [forallb]. destruct (negb _); cbn; [|done].
    destruct (forallb _ subs); by rewrite IHr.
Qed.

Lemma cleanup_inv db now older : store_inv db now -> store_inv (snd (CleanupSubscriptionPreConsumeRecords db now older)) now.
Proof.
  intros Hi. unfold CleanupSubscriptionPreConsumeRecords. cbn.
  rewrite cleanup_is_filter. exact (filter_records_inv _ now _ (filter_records_inv db now _ Hi)).
Qed.

(** The two availability checks of a pre-consume cover every record-backed window. *)
Lemma admission_checks db sub plan now amount policy :
  policy = quotaPolicyForSubscription sub plan -> po_invalid policy = false ->
  0 < s_Id sub -> 0 < now <= horizon -> 0 < s_StartTime sub <= now -> 0 < amount <= max_i64 ->
  amounts_ok (db_records db) -> Forall (fun w => wp_amount w <= max_i64) (quotaRecordBackedWindows policy) ->
  (policyHasGenericWindows policy = true -> genericQuotaAvailableTx (db_records db) sub policy now amount = Ok true) ->
  (policyHasFiveHour policy = true ->
   exists used ra, recentSubscriptionUsageTx (db_records db) (s_Id sub) now (po_fiveHourWindowSeconds policy) = Ok (used, ra) /\
     over_limit (po_fiveHourAmount policy) used amount = false) ->
  Forall (fits_window (db_records db) sub now amount) (quotaRecordBackedWindows policy).
Proof.
  intros Hpo Hv Hid Hn Hst Ha Hok Hmax Hg H5. pose proof (record_windows_ok sub plan ltac:(by rewrite <- Hpo)) as Hw.
  cbn zeta in Hw. rewrite <- Hpo in Hw. unfold quotaRecordBackedWindows in *.
  assert (Hev : forall ws, Forall window_ok ws -> Forall (fun w => wp_amount w <= max_i64) ws -> windows_evaluable sub now ws).
  { intros ws H1 H2. unfold windows_evaluable. rewrite Forall_forall in *. intros w Hw'. split_and!; auto. intros _ _. done. }
  destruct (policyHasGenericWindows policy) eqn:Eg.
  - specialize (Hg eq_refl). unfold genericQuotaAvailableTx in Hg. rewrite Eg in Hg. cbn [negb] in Hg.
    rewrite (proj2 (Z.leb_gt amount 0)) in Hg by lia.
    destruct (windows_available_spec (db_records db) sub now amount _ (Hev _ Hw Hmax) Hid Hn Ha Hok) as (b & Hb & Hiff).
    apply Hiff. congruence.
  - destruct (policyHasFiveHour policy); [|by constructor]. rewrite Forall_singleton in Hw, Hmax |- *.
    destruct (H5 eq_refl) as (used & ra & Hr & Hover).
    destruct (recent_usage_spec (db_records db) (s_Id sub) now (five_hour_window policy) 0 Hw Hid Hn ltac:(done) Hok) as [ra' Hr'].
    change (recentSubscriptionWindowUsageTx (db_records db) (s_Id sub) now (five_hour_window policy) 0)
      with (recentSubscriptionUsageTx (db_records db) (s_Id sub) now (po_fiveHourWindowSeconds policy)) in Hr'.
    rewrite Hr in Hr'. injection Hr' as -> ->. unfold fits_window.
    apply (usage_test (five_hour_window policy) _ amount (wok_amount _ Hw) Hmax (window_usage_nonneg _ _ _ _) Ha). exact Hover.
Qed.

Lemma safe_add_nonneg x y z : 0 <= x -> 0 < y <= max_i64 -> subscriptionSafeAddInt64 x y = (z, true) -> z = x + y.
Proof.
  intros Hx Hy Hz. unfold subscriptionSafeAddInt64, i64_sub in Hz. rewrite (wrap64_id (max_i64 - y)) in Hz by range.
  rewrite (proj2 (Z.ltb_lt 0 y)), (proj2 (Z.ltb_ge y 0)) in Hz by lia. cbn [andb] in Hz.
  destruct (Z.ltb_spec (max_i64 - y) x); [done|]. injection Hz as <-. apply wrap64_id. range.
Qed.

Lemma try_subscription_inv db now txnow requestId userId model qt amount sub plan att :
  store_inv db now -> stored db sub -> 0 < now <= txnow -> txnow <= horizon -> s_StartTime sub <= now -> 0 < amount <= max_i64 ->
  find_record db requestId = None ->
  getSubscriptionPlanOrSnapshotTx (db_plans db) sub = Ok (Some plan) ->
  try_subscription db now txnow requestId userId model qt amount sub plan = Ok att ->
  match att with
  | Skip db' => exists sub', row_ok sub sub' /\ db' = save_sub sub' db
  | Done _ db' => store_inv db' txnow
  end.
Proof.
  intros Hi Hst Hn Hh Hstart Ha Hf Hplan Hok. unfold try_subscription in Hok.
  apply bind_Ok_inv in Hok as (sub1 & Hr%reset_row & Hok). cbn zeta in Hok.
  pose proof (stored_sim _ _ _ Hr Hst) as Hst1. pose proof (save_sub_inv _ _ _ Hi Hst1) as Hi1.
  set (db1 := save_sub sub1 db) in *. set (policy := quotaPolicyForSubscription sub1 (Some plan)) in *.
  destruct (po_invalid policy) eqn:Hv; [done|]. apply policy_valid_used in Hv as Hused.
  destruct (_ && _) in Hok; [done|].
  set (sub2 := if policyTracksAggregate policy && (0 <? policyWeeklyLimit policy sub1) && _ then _ else sub1) in Hok.
  assert (Hr2 : row_ok sub1 sub2) by (subst sub2; goal_if; [apply row_ok_usage; [done|]; lia | by left]).
  clearbody sub2. assert (Hskip : exists sub', row_ok sub sub' /\ db1 = save_sub sub' db) by eauto.
  destruct (_ && _) in Hok; [by simplify_eq|].
  apply bind_Ok_inv in Hok as (avail & Hg & Hok). destruct avail; cbn [negb] in Hok; [|by simplify_eq].
  apply bind_Ok_inv in Hok as (five & H5 & Hok). destruct five; cbn [negb] in Hok; [|by simplify_eq].
  assert (find_record db1 requestId = None) as Hf1 by exact Hf. rewrite Hf1 in Hok. clear Hskip.
  destruct (row_ok_fields _ _ (row_ok_trans _ _ _ Hr Hr2)) as (Eid & Est & Ew). destruct (Ew (db_plans db)) as [Ew2 _].
  pose proof (row_ok_policy _ _ (Some plan) Hr2) as Epol. fold policy in Epol.
  assert (Hst2 : stored db1 sub2).
  { apply (stored_sim _ sub1); [done|]. exists sub1. cbn. rewrite lookup_insert_eq. split; [done|by left]. }
  assert (Hwin : sub_windows (db_plans db1) sub2 = quotaRecordBackedWindows policy).
  { rewrite <- Epol. apply sub_windows_plan; [|by rewrite Epol]. unfold plan_or_nil.
    destruct (row_ok_fields _ _ (row_ok_trans _ _ _ Hr Hr2)) as (_ & _ & Ep). cbn. destruct (Ep (db_plans db)) as [_ ->].
    by rewrite Hplan. }
  destruct Hst2 as (s0 & Hs0 & Hr0). destruct (si_rows _ _ Hi1 _ _ Hs0) as [F1 F2 F3 F4 _].
  destruct (row_ok_fields _ _ Hr0) as (_ & G2 & G3). destruct (G3 (db_plans db1)) as [G4 _].
  assert (Hfit : Forall (fits_window (db_records db1) sub2 now amount) (sub_windows (db_plans db1) sub2)).
  { rewrite Hwin. apply (admission_checks db1 sub2 (Some plan)).
    - by symmetry.
    - done.
    - done.
    - lia.
    - lia.
    - done.
    - by apply (si_amounts db now).
    - by rewrite <- Hwin, G4.
    - intros Eg. rewrite Eg in Hg. done.
    - intros E5. rewrite E5 in H5. apply bind_Ok_inv in H5 as ([used ra] & Hu & Hov). exists used, ra.
      split; [done|]. injection Hov as Hov. by apply negb_true_iff in Hov. }
  pose proof (create_record_inv db1 now txnow requestId userId sub2 model qt amount now Hi1
    (ex_intro _ s0 (conj Hs0 Hr0)) Hn Hh ltac:(lia) Ha Hf1 Hfit) as Hi2.
  apply bind_Ok_inv in Hok as ([sub3 db3] & Hagg & Hok).
  assert (Hi3 : store_inv db3 txnow).
  { destruct (policyTracksAggregate policy); [|by simplify_eq].
    destruct (subscriptionSafeAddInt64 (s_AmountUsed sub2) amount) as [nu []] eqn:Hadd; [|done]. simplify_eq.
    apply save_sub_inv; [done|]. apply (stored_sim _ sub2).
    - assert (0 <= s_AmountUsed sub2) by (destruct Hr2 as [->|(_ & ? & _)]; lia).
      apply row_ok_usage; [done|]. rewrite (safe_add_nonneg _ _ _ ltac:(done) Ha Hadd). lia.
    - exists s0. by split. }
  apply bind_Ok_inv in Hok as (res & _ & Hok). by simplify_eq.
Qed.

Lemma try_subscriptions_inv now txnow requestId userId model qt amount subs : forall db res db',
  store_inv db now -> 0 < now <= txnow -> txnow <= horizon -> 0 < amount <= max_i64 -> find_record db requestId = None ->
  (forall s, s ∈ subs -> stored db s /\ s_StartTime s <= now) ->
  try_subscriptions db now txnow requestId userId model qt amount subs = Ok (res, db') -> store_inv db' txnow.
Proof.
  induction subs as [|sub subs IH]; intros db res db' Hi Hn Hh Ha Hf Hsubs Hok; cbn in Hok; [done|].
  destruct (Hsubs sub ltac:(left)) as [Hst Hstart].
  assert (Hrest : forall s, s ∈ subs -> stored db s /\ s_StartTime s <= now) by (intros s Hs; apply Hsubs; by right).
  destruct (getSubscriptionPlanOrSnapshotTx (db_plans db) sub) as [[plan|]|[|m]] eqn:Hplan;
    [| by eapply IH | by eapply IH | done].
  destruct (_ || _) in Hok; [by eapply IH|].
  apply bind_Ok_inv in Hok as (att & Hatt & Hok).
  pose proof (try_subscription_inv db now txnow requestId userId model qt amount sub plan att Hi Hst Hn Hh Hstart Ha Hf Hplan Hatt) as Hinv.
  destruct att as [db1|r db1]; [|by simplify_eq]. destruct Hinv as (sub' & Hr & ->).
  pose proof (stored_sim _ _ _ Hr Hst) as Hst'. eapply IH; [by apply save_sub_inv | done | done | done | done | | exact Hok].
  intros s Hs. destruct (Hrest s Hs). split; [by apply stored_save_other | done].
Qed.

Lemma active_subs_in db userId prov now s :
  s ∈ active_subs db userId prov now -> (exists id, db_subs db !! id = Some s) /\ s_StartTime s <= now.
Proof.
  unfold active_subs. rewrite merge_sort_Permutation. intros Hs. apply list_elem_of_In, filter_In in Hs as [Hs Hp].
  split; [|split_bool; lia]. apply in_map_iff in Hs as ([id x] & <- & Hx). exists id.
  by apply elem_of_map_to_list, list_elem_of_In.
Qed.

Lemma pre_consume_tx_inv db now txnow requestId userId model qt amount res db' :
  store_inv db now -> 0 < now <= txnow -> txnow <= horizon -> 0 < amount <= max_i64 ->
  pre_consume_tx now txnow requestId userId model qt amount db = Ok (res, db') -> store_inv db' txnow.
Proof.
  intros Hi Hn Hh Ha Hok. unfold pre_consume_tx in Hok. destruct (find_record db requestId) as [r|] eqn:Hf.
  - apply bind_Ok_inv in Hok as (? & _ & Hok). apply bind_Ok_inv in Hok as (? & _ & Hok). simplify_eq. apply (store_inv_later _ now); [done|lia].
  - apply bind_Ok_inv in Hok as (prov & _ & Hok).
    pose proof (active_subs_in db userId prov now) as Hact. destruct (active_subs db userId prov now) as [|s0 subs]; [done|].
    eapply try_subscriptions_inv; try done. intros s Hs. destruct (Hact s Hs) as [[id Hid] Hst].
    split; [by eapply stored_row | done].
Qed.
End Operations.

(** ** Histories *)

(** One call to the store; [amount] and [delta] are 64-bit arguments. *)
Inductive sub_op :=
  | OpPreConsume (requestId : string) (userId : Z) (model : string) (quotaType amount : Z)
  | OpSettle (requestId : string) (actual : Z)
  | OpAdjust (requestId : string) (delta : Z)
  | OpRefund (requestId : string)
  | OpResetDue (limit : Z)
  | OpCleanup (olderThan : Z)
  | OpDelta (subId delta : Z).

Definition op_args_ok (o : sub_op) : Prop :=
  match o with
  | OpPreConsume _ _ _ _ a => is_i64 a
  | OpSettle _ a => is_i64 a
  | OpAdjust _ d => is_i64 d
  | _ => True
  end.

(** The tables after the call.  A call reads the database clock twice:
    [now] before its transaction, for the windows it checks, and [txnow]
    inside it, for the stamps of the rows it writes (the [BeforeCreate] and
    [BeforeUpdate] hooks). *)
Definition run_sub_op `{DBClock} `{LocalZone} (now txnow : Z) (o : sub_op) (db : subDB) : subDB :=
  match o with
  | OpPreConsume rid uid m qt a => snd (PreConsumeUserSubscription db now txnow rid uid m qt a)
  | OpSettle rid a => snd (SettleSubscriptionPreConsume db now txnow rid a)
  | OpAdjust rid d => snd (AdjustSubscriptionPreConsume db now txnow rid d)
  | OpRefund rid => snd (RefundSubscriptionPreConsume db now txnow rid)
  | OpResetDue l => snd (ResetDueSubscriptions db now l)
  | OpCleanup s => snd (CleanupSubscriptionPreConsumeRecords db now s)
  | OpDelta id d => snd (PostConsumeUserSubscriptionDelta db id d)
  end.

(** No record of the tables is newer than the reading [now]: no other call
    stamped a record between this call's reading and its transaction. *)
Definition reading_current (now : Z) (db : subDB) : Prop := forall r, r ∈ db_records db -> r_CreatedAt r <= now.

(** [history db db'] : calls, one transaction after the other, lead from [db]
    to [db'].  The two readings of a call are in order and the first is
    current; readings of different calls are otherwise unrelated. *)
Inductive history `{DBClock} `{LocalZone} : subDB -> subDB -> Prop :=
  | history_nil db : history db db
  | history_step db db' now txnow o :
      history db db' -> reading_current now db' -> 0 < now <= txnow -> txnow <= horizon -> op_args_ok o ->
      history db (run_sub_op now txnow o db').

Section Histories.
Context `{DBClock} `{LocalZone}.

Lemma transaction_inv {A} db now (f : subDB -> result (A * subDB)) :
  store_inv db now -> (forall a db', f db = Ok (a, db') -> store_inv db' now) -> store_inv (snd (transaction db f)) now.
Proof. intros Hi Hf. unfold transaction. destruct (f db) as [[a db']|] eqn:E; [by eapply Hf | done]. Qed.

Lemma run_sub_op_inv db now txnow o :
  store_inv db now -> 0 < now <= txnow -> txnow <= horizon -> op_args_ok o ->
  store_inv (run_sub_op now txnow o db) txnow.
Proof.
  intros Hi Hn Hh Ho. pose proof (store_inv_later db now txnow Hi ltac:(lia)) as Hi'. assert (now <= horizon) by lia.
  assert (Hl : forall d, store_inv d now -> store_inv d txnow) by (intros d Hd; apply (store_inv_later d now); [done|lia]).
  destruct o as [rid uid m qt a|rid a|rid d|rid|l|s|id d]; cbn in Ho |- *.
  - unfold PreConsumeUserSubscription. goal_if; [done|]. goal_if; [done|]. goal_if; [done|].
    apply transaction_inv; [done|]. intros res db' Hok. eapply pre_consume_tx_inv in Hok; try done. range.
  - unfold SettleSubscriptionPreConsume. goal_if; [done|]. goal_if; [done|]. apply Hl.
    apply transaction_inv; [done|]. intros [] db' Hok. eapply settle_tx_inv in Hok; try done; range.
  - unfold AdjustSubscriptionPreConsume. goal_if; [done|]. goal_if; [done|]. apply Hl.
    apply transaction_inv; [done|]. intros [] db' Hok. eapply adjust_tx_inv in Hok; try done; range.
  - unfold RefundSubscriptionPreConsume. goal_if; [done|]. apply Hl.
    apply transaction_inv; [done|]. intros [] db' Hok. eapply refund_tx_inv in Hok; try done; range.
  - by apply Hl, reset_all_inv.
  - by apply Hl, cleanup_inv.
  - unfold PostConsumeUserSubscriptionDelta. goal_if; [done|]. goal_if; [done|]. apply Hl.
    apply transaction_inv; [done|]. intros [] db' Hok. by eapply delta_tx_inv in Hok.
Qed.

Lemma history_inv db db' : store_inv db horizon -> history db db' -> store_inv db' horizon.
Proof.
  intros Hi Hh. induction Hh as [|db db' now txnow o Hh IH Hcur Hle Hn Ho]; [done|].
  apply (store_inv_later _ txnow); [|done]. apply run_sub_op_inv; [|done..]. by apply (store_inv_at _ horizon), Hcur; auto.
Qed.

(** C1. Quota safety.  Start from tables in which no window is exceeded (such as
    tables without records) and run pre-consumes, settlements, adjustments,
    refunds, reset sweeps, cleanups and deltas in any order, one transaction
    after the other.  Each call reads the database clock before its transaction
    and again when it stamps a record, the second reading not before the first,
    and no record it finds was stamped after its first reading.  Then the usage
    of every record-backed window (rolling or calendar) that the current policy
    of a subscription has is within its limit at every positive time up to 2^61
    seconds (for an anchored calendar window, from the start of the subscription
    on).  Without the proviso on the records found it fails
    ([stale_clock_overspends]). *)
Theorem windows_never_exceeded db db' id sub w time :
  store_inv db horizon -> history db db' ->
  db_subs db' !! id = Some sub -> w ∈ sub_windows (db_plans db') sub ->
  0 < time <= horizon -> anchored w (s_StartTime sub) time ->
  window_usage (live_records (db_records db') id) w time (s_StartTime sub) <= wp_amount w.
Proof.
  intros Hi Hh Hs Hw Htime Hanc. pose proof (history_inv db db' Hi Hh) as Hi'.
  destruct (si_rows db' horizon Hi' id sub Hs) as [_ _ _ _ Hsafe]. rewrite Forall_forall in Hsafe.
  specialize (Hsafe w Hw). unfold window_safe, window_usage in *. destruct (String.eqb _ "calendar"); [|done].
  specialize (Hsafe time Htime Hanc). destruct (quotaWindowBounds w time (s_StartTime sub)) as [s e].
  transitivity (usage_between (live_records (db_records db') id) s e horizon); [|done].
  apply sum_by_le. intros r _. pose proof (eff_nonneg r). repeat goal_if; lia.
Qed.
End Histories.

(** ** A concrete history *)

Lemma window_safe_nil `{DBClock} anchor w : window_ok w -> window_safe [] anchor w.
Proof.
  intros Hw. pose proof (wok_amount w Hw). unfold window_safe. goal_if.
  - intros t _ _. destruct (quotaWindowBounds w t anchor). cbn. lia.
  - intros t. cbn. lia.
Qed.

(** Tables without records are a valid start. *)
Lemma store_inv_fresh `{DBClock} plans subs users next now :
  (forall id sub, subs !! id = Some sub -> s_Id sub = id /\ 0 < id /\ 0 < s_StartTime sub /\
     Forall (fun w => wp_amount w <= max_i64) (sub_windows plans sub)) ->
  store_inv (mkDB plans subs [] users next) now.
Proof.
  intros Hsubs. constructor; cbn; try (by constructor); try (intros r Hr; by apply not_elem_of_nil in Hr).
  intros id sub Hs. destruct (Hsubs id sub Hs) as (H1 & H2 & H3 & H4). constructor; try done.
  eapply Forall_impl; [exact (sub_windows_ok plans sub)|]. intros w. apply window_safe_nil.
Qed.

Definition daily_window : subscriptionQuotaWindowPolicy := mkWindowPolicy "day" 100 1 86400 "calendar" "".
Definition daily_db : subDB := mkDB ∅ {[1 := daily_sub]} [] ∅ 1.

Lemma daily_windows : sub_windows ∅ daily_sub = [daily_window].
Proof. vm_compute. reflexivity. Qed.

Lemma daily_db_inv : @store_inv 0 daily_db horizon.
Proof.
  apply store_inv_fresh. intros id sub. rewrite lookup_singleton_Some. intros [<- <-].
  rewrite daily_windows. split_and!; [done | lia | cbn; lia | repeat constructor; cbn; unfold max_i64; lia].
Qed.

(** Seventy of a hundred are reserved, raised to ninety, and a second request
    is refused.  Every transaction stamps three seconds after its reading. *)
Definition daily_ops : list (Z * sub_op) :=
  [(1700000100, OpPreConsume "a" 7 "gpt" 0 70); (1700000200, OpSettle "a" 90); (1700000300, OpPreConsume "b" 7 "gpt" 0 20)].

Definition daily_end : subDB := Eval vm_compute in
  fold_left (fun db '(now, o) => @run_sub_op 0 28800 now (now + 3) o db) daily_ops daily_db.

Lemma reading_current_check now db :
  forallb (fun r => r_CreatedAt r <=? now) (db_records db) = true -> reading_current now db.
Proof. intros Hb r Hr. apply list_elem_of_In in Hr. rewrite forallb_forall in Hb. specialize (Hb r Hr). lia. Qed.

Lemma daily_history : @history 0 28800 daily_db daily_end.
Proof.
  change daily_end with (fold_left (fun db '(now, o) => @run_sub_op 0 28800 now (now + 3) o db) daily_ops daily_db).
  cbn [fold_left daily_ops]. repeat (eapply history_step;
    [ | apply reading_current_check; vm_compute; reflexivity | lia | unfold horizon; lia | cbn; range]). apply history_nil.
Qed.

Lemma windows_never_exceeded_witness :
  @window_usage 0 (live_records (db_records daily_end) 1) daily_window 1700000303 1700000000 <= 100 /\
  sum_by eff (db_records daily_end) = 90 /\ map r_CreatedAt (db_records daily_end) = [1700000103].
Proof.
  split; [|split; vm_compute; reflexivity].
  apply (@windows_never_exceeded 0 28800 daily_db daily_end 1 daily_sub daily_window 1700000303).
  - exact daily_db_inv.
  - exact daily_history.
  - vm_compute. reflexivity.
  - vm_compute. left.
  - unfold horizon. lia.
  - done.
Defined.

(** ** The clock is read before the lock *)

(** The guarantee needs current readings.  The code reads
    [now] before the transaction and counts only records created up to it,
    while a concurrent transaction stamps its record with a later reading.
    Two calls that both read [t] and are admitted one after the other at
    [t + 1] overspend a hundred by forty: the second does not count the first. *)
Theorem stale_clock_overspends :
  let t := 1700000100 in
  let '(r1, db1) := @PreConsumeUserSubscription 0 28800 daily_db t (t + 1) "a" 7 "gpt" 0 70 in
  let '(r2, db2) := @PreConsumeUserSubscription 0 28800 db1 t (t + 1) "b" 7 "gpt" 0 70 in
  is_ok r1 = true /\ is_ok r2 = true /\
  @window_usage 0 (live_records (db_records db2) 1) daily_window (t + 1) 1700000000 = 140 /\
  wp_amount daily_window = 100.
Proof. vm_compute. repeat split. Qed.
