(* ===== verification/SubLedger.v ===== *)
(** * Idempotence and retention

    Retries of the subscription operations ([src/model/subscription.go]): a
    request id is charged once however often it is replayed, a settlement or
    refund applied twice is applied once, a refunded request cannot be charged
    again; and the record cleanup never changes what enforcement will read. *)

From stdpp Require Import base numbers list strings sorting gmap sets.
From Stdlib Require Import ZArith Lia.
From S2P Require Import Prelude GoInt GoTime GoString QuotaWindow QuotaPolicy WindowBounds SubPlan SubUsage SubStore SubSafety.

(** ** Looking up a record after it was saved *)

(** Unique keys of the record table. *)
Definition unique_records (db : subDB) : Prop :=
  NoDup (map r_Id (db_records db)) /\ NoDup (map r_RequestId (db_records db)).

Lemma find_unique l r :
  NoDup (map r_RequestId l) -> r ∈ l -> List.find (fun x => String.eqb (r_RequestId x) (r_RequestId r)) l = Some r.
Proof.
  induction l as [|x l IH]; cbn; intros Hn Hr; [by apply not_elem_of_nil in Hr|].
  apply NoDup_cons in Hn as [Hx Hn]. destruct (String.eqb_spec (r_RequestId x) (r_RequestId r)) as [E|E].
  - apply elem_of_cons in Hr as [->|Hr]; [done|]. exfalso. apply Hx. rewrite E. by apply list_elem_of_fmap_2.
  - apply elem_of_cons in Hr as [->|Hr]; [done|]. by apply IH.
Qed.

(** Saving a changed copy of a found record: the copy is found, keys stay unique. *)
Lemma save_found db rid r txnow rec :
  unique_records db -> find_record db rid = Some r -> r_Id rec = r_Id r -> r_RequestId rec = r_RequestId r ->
  find_record (save_record txnow rec db) rid = Some (set_updated txnow rec) /\ unique_records (save_record txnow rec db).
Proof.
  intros [Hid Hreq] Hf Ei Er. apply find_record_split in Hf as [<- (a & b & Hs)].
  pose proof (save_record_split db txnow rec r a b Hid Hs Ei) as Hs'. unfold unique_records. unfold find_record. rewrite Hs'.
  assert (Hreq' : NoDup (map r_RequestId (a ++ set_updated txnow rec :: b))).
  { rewrite Hs in Hreq. rewrite map_app in Hreq |- *. cbn in *. by rewrite Er. }
  split.
  - rewrite <- Er. change (r_RequestId rec) with (r_RequestId (set_updated txnow rec)).
    apply find_unique; [done|]. set_solver.
  - split; [|done]. rewrite Hs in Hid. rewrite map_app in Hid |- *. cbn in *. by rewrite Ei.
Qed.

Lemma find_save_sub sub db rid : find_record (save_sub sub db) rid = find_record db rid.
Proof. done. Qed.

Section Idempotence.
Context `{DBClock} `{LocalZone}.

(** ** Pre-consume *)

Lemma replay_keeps_tables db now txnow rid uid m qt a r :
  find_record db rid = Some r -> snd (PreConsumeUserSubscription db now txnow rid uid m qt a) = db.
Proof.
  intros Hf. unfold PreConsumeUserSubscription. repeat (goal_if; [done|]).
  unfold transaction, pre_consume_tx. rewrite Hf.
  destruct (validateSubscriptionPreConsumeRetry _ _ _ _ _); cbn; [|done].
  by destruct (populateIdempotentPreConsumeResultTx db txnow r).
Qed.

Lemma idempotent_result db txnow r res :
  populateIdempotentPreConsumeResultTx db txnow r = Ok res -> pc_PreConsumed res = eff r.
Proof.
  unfold populateIdempotentPreConsumeResultTx. destruct (db_subs db !! _) as [sub|]; [|done].
  destruct (getSubscriptionPlanOrSnapshotTx _ _) as [plan|e]; [|intros; by simplify_eq].
  unfold populatePreConsumeResultTx. intros Hr. apply bind_Ok_inv in Hr as (? & _ & Hr).
  apply bind_Ok_inv in Hr as (? & _ & Hr). by simplify_eq.
Qed.

Lemma retry_valid r uid m qt a u :
  validateSubscriptionPreConsumeRetry r uid m qt a = Ok u ->
  r_UserId r = uid /\ r_PreConsumed r = a /\ r_Status r = "consumed".
Proof.
  unfold validateSubscriptionPreConsumeRetry. cbn zeta. intros Hv.
  destruct (negb _) eqn:E1 in Hv; [done|]. destruct (_ && _) in Hv; [done|]. destruct (_ && _) in Hv; [done|].
  destruct (negb (r_PreConsumed r =? a)) eqn:E2; [done|]. destruct (String.eqb_spec (r_Status r) "consumed"); [|by destruct (String.eqb _ _)].
  split_bool. split_and!; [lia | lia | done].
Qed.

(** A request id is charged once.  Replaying a pre-consume with a
    known request id never changes the tables, whatever the arguments; it
    succeeds only for the same user and amount on a request that was not
    refunded, and then reports the amount currently charged. *)
Theorem replay_charges_nothing db now txnow rid uid m qt a r :
  find_record db rid = Some r ->
  let '(res, db') := PreConsumeUserSubscription db now txnow rid uid m qt a in
  db' = db /\
  match res with
  | Ok res => r_UserId r = uid /\ r_PreConsumed r = a /\ r_Status r = "consumed" /\ pc_PreConsumed res = eff r
  | Err _ => True
  end.
Proof.
  intros Hf. pose proof (replay_keeps_tables db now txnow rid uid m qt a r Hf) as Hdb.
  destruct (PreConsumeUserSubscription db now txnow rid uid m qt a) as [res db'] eqn:E. cbn in Hdb. split; [done|].
  destruct res as [res|]; [|done]. revert E. unfold PreConsumeUserSubscription. repeat (goal_if; [done|]).
  unfold transaction, pre_consume_tx. rewrite Hf.
  destruct (validateSubscriptionPreConsumeRetry r uid (TrimSpace m) qt a) as [u|] eqn:Hv; cbn; [|done].
  apply retry_valid in Hv as (? & ? & ?).
  destruct (populateIdempotentPreConsumeResultTx db txnow r) as [x|] eqn:Hp; cbn; [|done].
  intros ?. simplify_eq. apply idempotent_result in Hp. done.
Qed.

(** ** Settlement *)

(** The record a successful settlement leaves. *)
Lemma settled_record db now txnow rid a db' :
  unique_records db -> now <> 0 -> 0 <= a -> settle_tx rid a now txnow db = Ok (tt, db') ->
  exists r', find_record db' rid = Some r' /\ eff r' = a /\ r_SettledAmount r' <> None /\
    r_SettledAt r' <> 0 /\ r_Status r' <> "refunded" /\ unique_records db'.
Proof.
  intros Hu Hn Ha Hok. unfold settle_tx in Hok. destruct (find_record db rid) as [r|] eqn:Hf; [|done].
  destruct (String.eqb_spec (r_Status r) "refunded") as [|Hnr]; [done|].
  set (rec := set_settled a now (r_Status r) r) in *.
  assert (Hsaved : forall d, db_records d = db_records db ->
    exists r', find_record (save_record txnow rec d) rid = Some r' /\ eff r' = a /\ r_SettledAmount r' <> None /\
      r_SettledAt r' <> 0 /\ r_Status r' <> "refunded" /\ unique_records (save_record txnow rec d)).
  { intros d Hd. destruct (save_found d rid r txnow rec) as [Hf' Hu'].
    - unfold unique_records. by rewrite Hd.
    - unfold find_record. by rewrite Hd.
    - done.
    - done.
    - exists (set_updated txnow rec). split_and!; try done. unfold eff. cbn. goal_if; lia. }
  unfold settleSubscriptionPreConsumeTx in Hok. rewrite (proj2 (Z.ltb_ge a 0)) in Hok by lia.
  destruct (Z.eqb_spec (eff r) a) as [E|E].
  - destruct (r_SettledAmount r) as [v|] eqn:Es; [|simplify_eq; by apply Hsaved].
    destruct (Z.eqb_spec (r_SettledAt r) 0); simplify_eq; [by apply Hsaved|].
    exists r. split_and!; try done. by rewrite Es.
  - destruct (db_subs db !! r_UserSubscriptionId r) as [sub|]; [|done]. unfold settle_changed in Hok.
    apply bind_Ok_inv in Hok as (plan & _ & Hok). apply bind_Ok_inv in Hok as (sub' & _ & Hok). cbn zeta in Hok.
    destruct (po_invalid _) in Hok; [done|]. destruct (_ && _) in Hok; [done|].
    apply bind_Ok_inv in Hok as ([] & _ & Hok). apply bind_Ok_inv in Hok as ([] & _ & Hok).
    apply bind_Ok_inv in Hok as ([] & _ & Hok). fold rec in Hok.
    destruct (_ && _) in Hok; [|simplify_eq; by apply Hsaved].
    destruct (subscriptionSafeAddInt64 _ _) as [nu []]; [|done]. simplify_eq.
    destruct (Hsaved (save_sub sub' db) eq_refl) as (r' & ? & ? & ? & ? & ? & ?). by exists r'.
Qed.

(** Settling a record at its own amount once it is settled changes nothing. *)
Lemma settle_settled db now txnow rid a r :
  find_record db rid = Some r -> eff r = a -> 0 <= a -> r_SettledAmount r <> None -> r_SettledAt r <> 0 ->
  r_Status r <> "refunded" -> settle_tx rid a now txnow db = Ok (tt, db).
Proof.
  intros Hf He Ha Hs Ht Hnr. unfold settle_tx, settleSubscriptionPreConsumeTx. rewrite Hf.
  rewrite (proj2 (String.eqb_neq _ _) Hnr), (proj2 (Z.ltb_ge a 0)), He, Z.eqb_refl by lia.
  destruct (r_SettledAmount r); [|done]. by rewrite (proj2 (Z.eqb_neq _ 0) Ht).
Qed.

(** Settling is idempotent: once a settlement at an amount has
    succeeded, repeating it (at any time, as a retry does) succeeds and
    changes nothing, and the request is charged exactly that amount. *)
Theorem settle_twice_is_settle_once db now txnow rid a db' :
  unique_records db -> now <> 0 ->
  SettleSubscriptionPreConsume db now txnow rid a = (Ok tt, db') ->
  (exists r, find_record db' rid = Some r /\ eff r = a) /\
  forall now2 txnow2, SettleSubscriptionPreConsume db' now2 txnow2 rid a = (Ok tt, db').
Proof.
  intros Hu Hn Hok. unfold SettleSubscriptionPreConsume in *. destruct (String.eqb (TrimSpace rid) ""); [done|].
  destruct (Z.ltb_spec a 0); [done|]. unfold transaction in *.
  destruct (settle_tx rid a now txnow db) as [[[] d]|] eqn:Es; [|done]. simplify_eq.
  destruct (settled_record _ _ _ _ _ _ Hu Hn ltac:(done) Es) as (r & Hf & He & Hs & Ht & Hnr & _).
  split; [by exists r|]. intros now2 tx2. by rewrite (settle_settled _ _ _ _ _ r).
Qed.

(** ** Refund *)

Lemma refunded_record db now txnow rid db' :
  unique_records db -> refundSubscriptionPreConsumeTx rid now txnow db = Ok (tt, db') ->
  exists r, find_record db' rid = Some r /\ r_Status r = "refunded" /\ (db' = db \/ eff r = 0).
Proof.
  intros Hu Hok. unfold refundSubscriptionPreConsumeTx in Hok. destruct (String.eqb _ "") in Hok; [done|].
  destruct (find_record db rid) as [r|] eqn:Hf; [|done].
  destruct (String.eqb_spec (r_Status r) "refunded") as [Es|_]; [simplify_eq; eauto|].
  set (rec := set_settled 0 now "refunded" r) in *. cbn zeta in Hok.
  assert (Hsaved : forall d, db_records d = db_records db ->
    exists x, find_record (save_record txnow rec d) rid = Some x /\ r_Status x = "refunded" /\
      (save_record txnow rec d = db \/ eff x = 0)).
  { intros d Hd. destruct (save_found d rid r txnow rec) as [Hf' _]; try done.
    - unfold unique_records. by rewrite Hd.
    - unfold find_record. by rewrite Hd.
    - exists (set_updated txnow rec). split_and!; try done. by right. }
  destruct (db_subs db !! r_UserSubscriptionId r) as [sub|]; [|simplify_eq; by apply Hsaved].
  apply bind_Ok_inv in Hok as (plan & _ & Hok). apply bind_Ok_inv in Hok as (sub' & _ & Hok).
  destruct (_ && _) in Hok; [done|]. destruct (_ && _) in Hok; [|simplify_eq; by apply Hsaved].
  destruct (subscriptionSafeAddInt64 _ _) as [nu []]; [|done]. simplify_eq. by apply Hsaved.
Qed.

(** A refund is final.  After a successful refund, refunding again
    succeeds without effect, and no settlement, adjustment or replayed
    pre-consume of that request id succeeds or changes the tables. *)
Theorem refund_is_final db now txnow rid db' :
  unique_records db -> RefundSubscriptionPreConsume db now txnow rid = (Ok tt, db') ->
  forall now2 txnow2,
    RefundSubscriptionPreConsume db' now2 txnow2 rid = (Ok tt, db') /\
    (forall a, is_ok (fst (SettleSubscriptionPreConsume db' now2 txnow2 rid a)) = false /\
               snd (SettleSubscriptionPreConsume db' now2 txnow2 rid a) = db') /\
    (forall d, d <> 0 -> is_ok (fst (AdjustSubscriptionPreConsume db' now2 txnow2 rid d)) = false /\
               snd (AdjustSubscriptionPreConsume db' now2 txnow2 rid d) = db') /\
    (forall uid m qt a, is_ok (fst (PreConsumeUserSubscription db' now2 txnow2 rid uid m qt a)) = false /\
               snd (PreConsumeUserSubscription db' now2 txnow2 rid uid m qt a) = db').
Proof.
  intros Hu Hok now2 tx2. unfold RefundSubscriptionPreConsume in *. destruct (String.eqb (TrimSpace rid) "") eqn:Er; [done|].
  unfold transaction in Hok. destruct (refundSubscriptionPreConsumeTx rid now txnow db) as [[[] d]|] eqn:E; [|done].
  simplify_eq. destruct (refunded_record _ _ _ _ _ Hu E) as (r & Hf & Hs & _). split_and!.
  - unfold transaction, refundSubscriptionPreConsumeTx. by rewrite Er, Hf, Hs.
  - intros a. unfold SettleSubscriptionPreConsume. rewrite Er. goal_if; [done|]. unfold transaction, settle_tx. by rewrite Hf, Hs.
  - intros dl Hd. unfold AdjustSubscriptionPreConsume. rewrite Er, (proj2 (Z.eqb_neq dl 0) Hd).
    unfold transaction, adjust_tx. by rewrite Hf, Hs.
  - intros uid m qt a. split; [|by eapply replay_keeps_tables]. unfold PreConsumeUserSubscription.
    repeat (goal_if; [done|]). unfold transaction, pre_consume_tx. rewrite Hf.
    destruct (validateSubscriptionPreConsumeRetry _ _ _ _ _) as [u|] eqn:Hv; [|done].
    apply retry_valid in Hv as (_ & _ & Hc). congruence.
Qed.
End Idempotence.

(** ** Cleanup *)

(** Policies with the same enforcement have the same record-backed windows. *)
Lemma same_enforcement_windows a b :
  same_enforcement a b ->
  (if po_invalid a then [] else quotaRecordBackedWindows a) = (if po_invalid b then [] else quotaRecordBackedWindows b).
Proof.
  intros [Hi Heq]. rewrite <- Hi. destruct (po_invalid a); [done|].
  destruct (Heq eq_refl) as (_ & Hw & H5 & _ & _ & _ & Hgen). unfold quotaRecordBackedWindows, policyHasGenericWindows.
  rewrite <- Hw, <- H5. destruct (po_windows a); [|done]. destruct (policyHasFiveHour a) eqn:E; [|done].
  rewrite Hgen; [done|]. intros Hm. unfold policyHasFiveHour in E. by rewrite Hm in E.
Qed.

Section Cleanup.
Context `{DBClock} `{LocalZone}.

(** The sweep reads the windows enforcement reads. *)
Lemma cleanup_windows db sub :
  Forall (fun w => w ∈ quotaRecordBackedWindows (quotaPolicyForSubscription sub (cleanup_plan db sub)))
    (sub_windows (db_plans db) sub).
Proof.
  apply Forall_forall. intros w Hw.
  assert (Hsame : forall p, 0 < s_PlanPolicySnapshotVersion sub ->
    w ∈ (if po_invalid (quotaPolicyForSubscription sub p) then [] else quotaRecordBackedWindows (quotaPolicyForSubscription sub p)) ->
    w ∈ quotaRecordBackedWindows (quotaPolicyForSubscription sub (cleanup_plan db sub))).
  { intros p Hv. rewrite (same_enforcement_windows _ _ (versioned_same_enforcement sub p (cleanup_plan db sub) Hv)).
    destruct (po_invalid _); [by intros ?%not_elem_of_nil | done]. }
  assert (Hdrop : forall po, w ∈ (if po_invalid po then [] else quotaRecordBackedWindows po) -> w ∈ quotaRecordBackedWindows po)
    by (intros po; destruct (po_invalid po); [by intros ?%not_elem_of_nil | done]).
  unfold sub_windows, getSubscriptionPlanOrSnapshotTx, getSubscriptionPlanByIdTx in Hw. unfold cleanup_plan in *.
  destruct (s_PlanId sub <=? 0).
  - destruct (0 <? s_PlanPolicySnapshotVersion sub); [by apply not_elem_of_nil in Hw | by apply Hdrop].
  - destruct (db_plans db !! s_PlanId sub) as [p|]; cbn in *.
    + destruct (Z.ltb_spec 0 (s_PlanPolicySnapshotVersion sub)); [by eapply Hsame | by apply Hdrop].
    + destruct (Z.leb_spec (s_PlanPolicySnapshotVersion sub) 0) as [Hv|Hv].
      * rewrite (proj2 (Z.ltb_ge 0 _)) by lia. by apply Hdrop.
      * rewrite (proj2 (Z.ltb_lt 0 _)) by lia. by apply Hdrop.
Qed.

Lemma earliest_start_le sub now ws : forall b,
  earliest_start sub now b ws <= b /\
  Forall (fun w => window_ok w -> earliest_start sub now b ws <= fst (quotaWindowBounds w now (s_StartTime sub))) ws.
Proof.
  induction ws as [|w ws IH]; intros b; cbn; [split; [lia | constructor]|].
  destruct (_ || _) eqn:El.
  - destruct (IH b) as [H1 H2]. split; [done|]. constructor; [|done]. intros Hw. by rewrite window_ok_length in El.
  - destruct (IH (if fst (quotaWindowBounds w now (s_StartTime sub)) <? b then fst (quotaWindowBounds w now (s_StartTime sub)) else b)) as [H1 H2].
    split; [goal_if; lia|]. constructor; [|done]. intros _. goal_if; lia.
Qed.

(** The start of a window never moves back. *)
Lemma window_start_mono w anchor now time :
  window_ok w -> 0 < now <= time -> time <= horizon -> anchored w anchor now ->
  fst (quotaWindowBounds w now anchor) <= fst (quotaWindowBounds w time anchor).
Proof.
  intros Hw Hn Ht Ha. destruct (wok_mode w Hw) as [Hm|Hm].
  - assert (Ha' : anchored w anchor time) by (intros E1 E2; specialize (Ha E1 E2); lia).
    destruct (bounds_calendar w now anchor Hw Hm ltac:(lia) Ha) as (k & E1 & E2 & E3).
    destruct (bounds_calendar w time anchor Hw Hm ltac:(lia) Ha') as (j & F1 & F2 & F3).
    rewrite E1, F1. apply boundary_le; [done|]. destruct (decide (k <= j)); [done|].
    pose proof (boundary_le w anchor (j + 1) k Hw). lia.
  - rewrite !bounds_rolling by (done || lia). cbn. lia.
Qed.

(** Records before the start of the window at [now] never count later. *)
Lemma expired_never_counts live w anchor now time (keep : SubscriptionPreConsumeRecord -> bool) :
  window_ok w -> 0 < now <= time -> time <= horizon -> anchored w anchor now ->
  (forall r, r ∈ live -> keep r = false -> r_CreatedAt r < fst (quotaWindowBounds w now anchor)) ->
  window_usage (List.filter keep live) w time anchor = window_usage live w time anchor.
Proof.
  intros Hw Hn Ht Ha Hold. pose proof (window_start_mono w anchor now time Hw Hn Ht Ha) as Hmono.
  unfold window_usage. destruct (wok_mode w Hw) as [Hm|Hm]; rewrite Hm; cbn.
  - destruct (quotaWindowBounds w time anchor) as [s e]. cbn in Hmono. unfold usage_between.
    rewrite sum_by_filter. apply sum_by_ext. intros r Hr. specialize (Hold r Hr).
    destruct (keep r); [done|]. goal_if; [|done]. specialize (Hold eq_refl). lia.
  - rewrite bounds_rolling in Hmono, Hold by (done || lia). rewrite bounds_rolling in Hmono by (done || lia). cbn in *.
    unfold usage_at. rewrite sum_by_filter. apply sum_by_ext. intros r Hr. specialize (Hold r Hr).
    destruct (keep r); [done|]. goal_if; [|done]. specialize (Hold eq_refl). lia.
Qed.

(** What the sweep drops of one active subscription is older than all its windows. *)
Lemma cleanup_drops_old db now older id sub w r :
  store_inv db now -> 0 < now <= horizon -> db_subs db !! id = Some sub ->
  w ∈ sub_windows (db_plans db) sub ->
  r ∈ live_records (db_records db) id ->
  cleanup_keeps db now older (map snd (map_to_list (db_subs db))) r = false ->
  String.eqb (s_Status sub) "active" = true -> now < s_EndTime sub ->
  r_CreatedAt r < fst (quotaWindowBounds w now (s_StartTime sub)).
Proof.
  intros Hi Hn Hs Hw Hr Hk Hact Hend. apply live_in in Hr as (_ & Hid & _).
  unfold cleanup_keeps in Hk. apply not_true_iff_false in Hk. rewrite forallb_forall in Hk.
  assert (Hex : exists s, In s (map snd (map_to_list (db_subs db))) /\
    cleanup_deletes older (subscriptionRecordSafeBefore s (cleanup_plan db s) now) (s_Id s) r = true).
  { destruct (existsb (fun s => cleanup_deletes older (subscriptionRecordSafeBefore s (cleanup_plan db s) now) (s_Id s) r)
      (map snd (map_to_list (db_subs db)))) eqn:Ex; [by apply existsb_exists in Ex|].
    exfalso. apply Hk. intros s Hs'. apply negb_true_iff. destruct (cleanup_deletes _ _ _ r) eqn:Ec; [|done].
    assert (existsb (fun s => cleanup_deletes older (subscriptionRecordSafeBefore s (cleanup_plan db s) now) (s_Id s) r)
      (map snd (map_to_list (db_subs db))) = true) by (apply existsb_exists; by exists s). congruence. }
  destruct Hex as (s & Hin & Hdel). unfold cleanup_deletes in Hdel. apply andb_true_iff in Hdel as [Hdel Hcr]. split_bool.
  assert (s = sub) as ->.
  { apply in_map_iff in Hin as ([id' x] & <- & Hx). apply list_elem_of_In, elem_of_map_to_list in Hx. cbn in *.
    destruct (si_rows db now Hi id' x Hx) as [E _ _ _ _]. assert (id' = id) as -> by lia. congruence. }
  unfold subscriptionRecordSafeBefore in Hcr. rewrite Hact, String.eqb_refl in Hcr. cbn [negb orb] in Hcr.
  rewrite (proj2 (Z.leb_gt (s_EndTime sub) now)), andb_false_r in Hcr by lia.
  pose proof (cleanup_windows db sub) as Hcw. rewrite Forall_forall in Hcw. specialize (Hcw w Hw).
  pose proof (sub_windows_ok (db_plans db) sub) as Hok. rewrite Forall_forall in Hok. specialize (Hok w Hw).
  destruct (earliest_start_le sub now (quotaRecordBackedWindows (quotaPolicyForSubscription sub (cleanup_plan db sub))) now)
    as [_ Hall]. rewrite Forall_forall in Hall. specialize (Hall w Hcw Hok). lia.
Qed.

(** Cleanup is invisible to enforcement.  Whatever retention is
    asked for, the usage of every window of every active subscription, at
    the time of the sweep and at every later time, is the same before and
    after records are deleted; this holds with the catalog plan deleted too. *)
Theorem cleanup_preserves_usage db now older id sub w time :
  store_inv db now -> 0 < now <= time -> time <= horizon ->
  db_subs db !! id = Some sub -> s_Status sub = "active" -> s_StartTime sub <= now < s_EndTime sub ->
  w ∈ sub_windows (db_plans db) sub ->
  let db' := snd (CleanupSubscriptionPreConsumeRecords db now older) in
  window_usage (live_records (db_records db') id) w time (s_StartTime sub) =
  window_usage (live_records (db_records db) id) w time (s_StartTime sub).
Proof.
  intros Hi Hn Ht Hs Hact Hrange Hw db'. subst db'. unfold CleanupSubscriptionPreConsumeRecords.
  cbn [snd db_records with_records]. rewrite cleanup_is_filter, !live_filter.
  destruct (si_rows db now Hi id sub Hs) as [_ _ Hst _ _].
  pose proof (sub_windows_ok (db_plans db) sub) as Hok. rewrite Forall_forall in Hok. specialize (Hok w Hw).
  assert (Hanc : anchored w (s_StartTime sub) now) by (intros _ _; lia).
  rewrite (expired_never_counts _ w _ now time) by
    (try done; intros r Hr Hk; exfalso; apply list_elem_of_In, filter_In in Hr as [Hr _]; apply list_elem_of_In, live_in in Hr as (_ & Hid & _);
     apply negb_false_iff, andb_true_iff in Hk as [_ Hk]; apply bool_decide_eq_true_1 in Hk; congruence).
  apply (expired_never_counts _ w _ now time); try done.
  intros r Hr Hk. eapply cleanup_drops_old; try done; [lia | by apply String.eqb_eq | lia].
Qed.
End Cleanup.

(** ** Concrete instances *)

Definition record_a : SubscriptionPreConsumeRecord := Eval vm_compute in
  match find_record daily_end "a" with Some r => r | None => mkRecord 0 "" 0 0 "" 0 0 None 0 "" 0 0 end.
Definition after_settle : subDB := Eval vm_compute in
  snd (@SettleSubscriptionPreConsume 0 28800 daily_end 1700000400 1700000400 "a" 80).
Definition after_refund : subDB := Eval vm_compute in
  snd (@RefundSubscriptionPreConsume 28800 daily_end 1700000400 1700000400 "a").

Lemma daily_end_unique : unique_records daily_end.
Proof. split; vm_compute; apply NoDup_singleton. Qed.

Lemma daily_end_inv : @store_inv 0 daily_end 1700000300.
Proof.
  apply (store_inv_at _ horizon); [exact (@history_inv 0 28800 daily_db daily_end daily_db_inv daily_history)|].
  apply reading_current_check. vm_compute. reflexivity.
Qed.

Lemma replay_charges_nothing_witness :
  let '(res, db') := @PreConsumeUserSubscription 0 28800 daily_end 1700000400 1700000400 "a" 7 "gpt" 0 70 in
  db' = daily_end /\ exists res', res = Ok res' /\ pc_PreConsumed res' = 90.
Proof.
  pose proof (@replay_charges_nothing 0 28800 daily_end 1700000400 1700000400 "a" 7 "gpt" 0 70 record_a
    ltac:(vm_compute; reflexivity)) as Hr.
  destruct (@PreConsumeUserSubscription 0 28800 daily_end 1700000400 1700000400 "a" 7 "gpt" 0 70) as [res db'] eqn:E.
  destruct Hr as [Hdb Hr]. split; [exact Hdb|]. destruct res as [res'|e].
  - exists res'. split; [reflexivity|]. destruct Hr as (_ & _ & _ & ->). vm_compute. reflexivity.
  - exfalso. apply (f_equal (fun x => is_ok (fst x))) in E. vm_compute in E. discriminate E.
Defined.

Lemma settle_twice_is_settle_once_witness :
  (exists r, find_record after_settle "a" = Some r /\ eff r = 80) /\
  forall now2 txnow2, @SettleSubscriptionPreConsume 0 28800 after_settle now2 txnow2 "a" 80 = (Ok tt, after_settle).
Proof.
  apply (@settle_twice_is_settle_once 0 28800 daily_end 1700000400 1700000400 "a" 80 after_settle);
    [exact daily_end_unique | lia | vm_compute; reflexivity].
Defined.

Lemma refund_is_final_witness :
  @RefundSubscriptionPreConsume 28800 after_refund 1700000500 1700000500 "a" = (Ok tt, after_refund) /\
  is_ok (fst (@SettleSubscriptionPreConsume 0 28800 after_refund 1700000500 1700000500 "a" 5)) = false.
Proof.
  destruct (@refund_is_final 0 28800 daily_end 1700000400 1700000400 "a" after_refund daily_end_unique
    ltac:(vm_compute; reflexivity) 1700000500 1700000500) as (H1 & H2 & _). split; [exact H1 | apply H2].
Defined.

Lemma cleanup_preserves_usage_witness :
  let db' := snd (@CleanupSubscriptionPreConsumeRecords 0 daily_end 1700000300 1) in
  @window_usage 0 (live_records (db_records db') 1) daily_window 1700000500 1700000000 =
  @window_usage 0 (live_records (db_records daily_end) 1) daily_window 1700000500 1700000000.
Proof.
  apply (@cleanup_preserves_usage 0 daily_end 1700000300 1 1 daily_sub daily_window 1700000500);
    [exact daily_end_inv | lia | unfold horizon; lia | vm_compute; reflexivity | reflexivity | cbn; lia |].
  vm_compute. left.
Defined.
