(* ===== verification/RateLimit.v ===== *)
(** * The in-memory rate limiter

    [src/common/rate-limit.go] keeps, for every key, the times of the requests
    it let through; [src/middleware/rate-limit.go] and
    [src/middleware/model-rate-limit.go] decide with it.  Times are Unix
    seconds.  The mutex makes each call atomic. *)

From stdpp Require Import base numbers list strings gmap sorting.
From Stdlib Require Import ZArith Lia.
From S2P Require Import Prelude.

(** ** State and operations *)

(** [store] is nil until [Init]. *)
Record InMemoryRateLimiter := mkLimiter { l_store : option (gmap string (list Z)); l_expirationDuration : Z }.

(** Only the first call counts; it also starts the sweeper. *)
Definition Init (expirationDuration : Z) (l : InMemoryRateLimiter) : InMemoryRateLimiter :=
  match l_store l with
  | None => mkLimiter (Some ∅) expirationDuration
  | Some _ => l
  end.

(** One turn of [clearExpiredItems]. *)
Definition expired_queue (now exp : Z) (queue : list Z) : bool :=
  match last queue with None => true | Some t => exp <? now - t end.
Definition clearExpiredItems (now exp : Z) (store : gmap string (list Z)) : gmap string (list Z) :=
  filter (fun kv => expired_queue now exp (snd kv) = false) store.

(** The answer, or [None] for a run-time panic: an empty queue has no first
    entry, and [make] refuses a negative capacity. *)
Definition Request (now : Z) (key : string) (maxRequestNum duration : Z) (store : gmap string (list Z))
  : option bool * gmap string (list Z) :=
  match store !! key with
  | Some queue =>
      if Z.of_nat (length queue) <? maxRequestNum then (Some true, <[key := queue ++ [now]]> store)
      else match queue with
           | oldest :: rest => if duration <=? now - oldest then (Some true, <[key := rest ++ [now]]> store) else (Some false, store)
           | [] => (None, store)
           end
  | None => if maxRequestNum <? 0 then (None, store) else (Some true, <[key := [now]]> store)
  end.

(** How a request leaves the middleware. *)
Inductive verdict := Passed (status : Z) | TooManyRequests | Panicked.

(** [memoryRateLimiter] in front of handlers that answer [status]. *)
Definition memoryRateLimiter (now : Z) (maxRequestNum duration : Z) (mark clientIP : string) (status : Z) (store : gmap string (list Z))
  : verdict * gmap string (list Z) :=
  let '(ok, store) := Request now (mark +:+ clientIP) maxRequestNum duration store in
  (match ok with Some true => Passed status | Some false => TooManyRequests | None => Panicked end, store).

(** [memoryRateLimitHandler] around a request of [userId] whose own handlers
    answer [status]; [now1], [now2] and [now3] are the times of the three calls. *)
Definition memoryRateLimitHandler (now1 now2 now3 : Z) (duration totalMaxCount successMaxCount : Z) (userId : string) (status : Z)
    (store : gmap string (list Z)) : verdict * gmap string (list Z) :=
  let totalKey := "MRRL" +:+ userId in
  let successKey := "MRRLS" +:+ userId in
  let '(total_ok, store) := if 0 <? totalMaxCount then Request now1 totalKey totalMaxCount duration store else (Some true, store) in
  match total_ok with
  | None => (Panicked, store)
  | Some false => (TooManyRequests, store)
  | Some true =>
      let '(ok, store) := Request now2 (successKey +:+ "_check") successMaxCount duration store in
      match ok with
      | None => (Panicked, store)
      | Some false => (TooManyRequests, store)
      | Some true =>
          if status <? 400 then
            let '(recorded, store) := Request now3 successKey successMaxCount duration store in
            (match recorded with None => Panicked | Some _ => Passed status end, store)
          else (Passed status, store)
      end
  end.

(** ** Histories of one limiter *)

Inductive event :=
  | Ask (key : string) (maxRequestNum duration : Z)
  | Sweep.

(** The store and the accepted requests, in order. *)
Record trace := mkTrace { tr_store : gmap string (list Z); tr_log : list (string * Z) }.

Definition run_event (exp now : Z) (e : event) (s : trace) : trace :=
  match e with
  | Ask key max dur =>
      let '(ok, store) := Request now key max dur (tr_store s) in
      mkTrace store (match ok with Some true => tr_log s ++ [(key, now)] | _ => tr_log s end)
  | Sweep => mkTrace (clearExpiredItems now exp (tr_store s)) (tr_log s)
  end.

(** Events at non-decreasing times from a fresh limiter; [clock] is the time of the last one. *)
Inductive limited (exp : Z) : list event -> Z -> trace -> Prop :=
  | limited_start clock : limited exp [] clock (mkTrace ∅ [])
  | limited_event es clock s now e : limited exp es clock s -> clock <= now -> limited exp (es ++ [e]) now (run_event exp now e s).

Definition accepted (key : string) (s : trace) : list Z := map snd (List.filter (fun kv => String.eqb (fst kv) key) (tr_log s)).
Definition within (t d x : Z) : bool := (t <=? x) && (x <? t + d).
Definition hits (t d : Z) (l : list Z) : Z := Z.of_nat (length (List.filter (within t d) l)).

(** ** Spaced logs *)

(** Entries [n] apart are at least [d] apart in time. *)
Definition spaced (n : nat) (d : Z) (l : list Z) : Prop :=
  forall i a b, l !! i = Some a -> l !! (i + n)%nat = Some b -> d <= b - a.
(** Non-decreasing, and not after [clock]. *)
Definition ordered (clock : Z) (l : list Z) : Prop := StronglySorted Z.le l /\ Forall (fun x => x <= clock) l.

Lemma ordered_snoc clock now l : ordered clock l -> clock <= now -> ordered now (l ++ [now]).
Proof.
  intros [Hs Hf] Hle. split.
  - induction Hs as [|x l Hs IH Hx]; cbn; [by repeat constructor|]. apply Forall_cons in Hf as [Hxc Hf]. constructor; [by apply IH|].
    apply Forall_app. split; [done|]. constructor; [lia | constructor].
  - apply Forall_app. split; [|by repeat constructor]. eapply Forall_impl; [exact Hf|]. cbn. lia.
Qed.

Lemma spaced_snoc n d l now :
  (0 < n)%nat -> spaced n d l -> (forall a, (n <= length l)%nat -> l !! (length l - n)%nat = Some a -> d <= now - a) -> spaced n d (l ++ [now]).
Proof.
  intros Hn Hs Ha i a b Hi Hb. apply lookup_app_Some in Hi as [Hi|[Hge Hi]].
  - apply lookup_app_Some in Hb as [Hb|[Hge Hb]]; [by eapply Hs|]. apply list_lookup_singleton_Some in Hb as [E <-].
    apply (Ha a); [lia|]. by replace (length l - n)%nat with i by lia.
  - apply list_lookup_singleton_Some in Hi as [E _]. pose proof (lookup_lt_Some _ _ _ Hb) as Hlt. rewrite length_app in Hlt. cbn in Hlt. lia.
Qed.

(** The entries of an interval are consecutive. *)
Lemma window_segment t d l : StronglySorted Z.le l ->
  exists pre post, l = pre ++ List.filter (within t d) l ++ post /\ Forall (fun x => x < t) pre.
Proof.
  induction 1 as [|x l Hs (pre & post & E & Hpre) Hx]; [by exists [], []|]. cbn. unfold within at 1.
  destruct (Z.leb_spec t x) as [Hle|Hlt]; cbn [andb].
  - destruct (Z.ltb_spec x (t + d)).
    + exists [], post. split; [|done]. cbn. f_equal. rewrite E at 1. destruct pre as [|y pre]; [done|]. apply Forall_cons in Hpre as [Hy _].
      rewrite Forall_forall in Hx. specialize (Hx y). rewrite E in Hx. specialize (Hx ltac:(by left)). lia.
    + exists [], (x :: l). split; [|done]. assert (List.filter (within t d) l = []) as ->; [|done].
      clear E. induction l as [|y l IH]; [done|]. cbn. apply Forall_cons in Hx as [Hy Hx]. unfold within at 1.
      rewrite (proj2 (Z.ltb_ge y (t + d))), andb_false_r by lia. apply IH; [by inversion Hs | done].
  - exists (x :: pre), post. split; [cbn; by f_equal | by constructor].
Qed.

Lemma spaced_hits n d t clock l : ordered clock l -> (0 < n)%nat -> spaced n d l -> hits t d l <= Z.of_nat n.
Proof.
  intros [Hs _] Hn Hsp. destruct (window_segment t d l Hs) as (pre & post & E & _). unfold hits.
  set (seg := List.filter (within t d) l) in *. destruct (decide (length seg <= n)%nat) as [|Hgt]; [lia|].
  destruct (lookup_lt_is_Some_2 seg 0 ltac:(lia)) as [a Ha]. destruct (lookup_lt_is_Some_2 seg n ltac:(lia)) as [b Hb].
  assert (Hin : forall x i, seg !! i = Some x -> t <= x < t + d).
  { intros x i Hx. apply list_elem_of_lookup_2, list_elem_of_In in Hx. apply filter_In in Hx as [_ Hw]. unfold within in Hw. lia. }
  pose proof (Hin a 0%nat Ha). pose proof (Hin b n Hb).
  assert (d <= b - a); [|lia]. apply (Hsp (length pre) a b).
  - rewrite E, lookup_app_r by lia. rewrite Nat.sub_diag. by apply lookup_app_l_Some.
  - rewrite E, lookup_app_r by lia. replace (length pre + n - length pre)%nat with n by lia. by apply lookup_app_l_Some.
Qed.

(** ** The invariant of one key *)

(** The length of a full queue: a limit of zero still lets one request through. *)
Definition depth (max : Z) : nat := Z.to_nat (Z.max 1 max).

Section Key.
Context (exp d max : Z) (key : string).
Hypothesis Hd : d <= exp.
Notation n := (depth max).

(** The queue is the end of the log; what was dropped from a queue that is
    not full is older than the window. *)
Definition tracked (clock : Z) (s : trace) : Prop :=
  ordered clock (accepted key s) /\ spaced n d (accepted key s) /\
  exists old q, accepted key s = old ++ q /\ tr_store s !! key = (match q with [] => None | _ => Some q end) /\ (length q <= n)%nat /\
    ((length q < n)%nat -> Forall (fun x => d <= clock - x) old).

Lemma accepted_snoc s k now store :
  accepted key (mkTrace store (tr_log s ++ [(k, now)])) = accepted key s ++ (if String.eqb k key then [now] else []).
Proof. unfold accepted. cbn. rewrite List.filter_app, map_app. cbn. by destruct (String.eqb k key). Qed.

Lemma tracked_later clock now s store :
  tracked clock s -> clock <= now -> store !! key = tr_store s !! key -> tracked now (mkTrace store (tr_log s)).
Proof.
  intros ([Hs Hf] & Hsp & old & q & E & Hq & Hl & Ho) Hle Hst. split_and!; [split; [done|] | done |].
  - eapply Forall_impl; [exact Hf|]. cbn. lia.
  - exists old, q. cbn. rewrite Hst. split_and!; try done. intros Hlt. eapply Forall_impl; [by apply Ho|]. cbn. lia.
Qed.

Lemma tracked_other clock now s k m d' :
  tracked clock s -> clock <= now -> k <> key -> tracked now (run_event exp now (Ask k m d') s).
Proof.
  intros Ht Hle Hne. cbn. unfold Request. destruct (tr_store s !! k) as [q|] eqn:Ek.
  - destruct (_ <? m); [|destruct q as [|o q]; [by apply (tracked_later clock)|]; destruct (d' <=? _); [|by apply (tracked_later clock)]].
    all: eapply (tracked_later clock now (mkTrace _ _)); [|done|by apply lookup_insert_ne].
    all: destruct Ht as (H1 & H2 & H3); split_and!; unfold accepted in *; cbn; rewrite List.filter_app, map_app; cbn;
      rewrite (proj2 (String.eqb_neq k key) Hne), app_nil_r; done.
  - destruct (m <? 0); [by apply (tracked_later clock)|]. eapply (tracked_later clock now (mkTrace _ _)); [|done|by apply lookup_insert_ne].
    destruct Ht as (H1 & H2 & H3); split_and!; unfold accepted in *; cbn; rewrite List.filter_app, map_app; cbn;
      rewrite (proj2 (String.eqb_neq k key) Hne), app_nil_r; done.
Qed.

(** A request that is let through is entered at the end of log and queue. *)
Lemma tracked_push clock now s old q old' q' :
  tracked clock s -> clock <= now -> accepted key s = old ++ q -> old ++ q = old' ++ q' -> (length q' < n)%nat ->
  ((n <= length (old ++ q))%nat -> forall a, (old ++ q) !! (length (old ++ q) - n)%nat = Some a -> d <= now - a) ->
  ((length q' + 1 < n)%nat -> Forall (fun x => d <= now - x) old') ->
  tracked now (mkTrace (<[key := q' ++ [now]]> (tr_store s)) (tr_log s ++ [(key, now)])).
Proof.
  intros (Hor & Hsp & _) Hle E E' Hl Hfar Hold. unfold tracked. rewrite !accepted_snoc, String.eqb_refl. split_and!.
  - by apply (ordered_snoc clock).
  - rewrite E in *. apply spaced_snoc; [unfold depth in *; lia | done |]. intros a Hn Ha. by apply Hfar.
  - exists old', (q' ++ [now]). rewrite E, E', <- app_assoc. split_and!; [done | cbn; rewrite lookup_insert_eq; by destruct q' | rewrite length_app; cbn; lia |].
    rewrite length_app. cbn. intros ?. apply Hold. lia.
Qed.

Lemma tracked_request clock now s :
  tracked clock s -> clock <= now -> tracked now (run_event exp now (Ask key max d) s).
Proof.
  intros Ht Hle. pose proof Ht as (Hor & Hsp & old & q & E & Hq & Hl & Ho). cbn. unfold Request. rewrite Hq.
  assert (Hn : (0 < n)%nat) by (unfold depth in *; lia).
  assert (Hearly : (length q < n)%nat -> Forall (fun x => d <= now - x) old).
  { intros Hlt. eapply Forall_impl; [by apply Ho|]. cbn. lia. }
  assert (Hroom : (length q < n)%nat -> (n <= length (old ++ q))%nat -> forall a, (old ++ q) !! (length (old ++ q) - n)%nat = Some a -> d <= now - a).
  { intros Hlt Hge a Ha. rewrite length_app in *. rewrite lookup_app_l in Ha by lia. specialize (Hearly Hlt). rewrite Forall_forall in Hearly.
    apply Hearly. by eapply list_elem_of_lookup_2. }
  destruct q as [|o q].
  - destruct (max <? 0); [by apply (tracked_later clock)|]. apply (tracked_push clock now s old [] old []); try done; [by apply Hroom | intros _; by apply Hearly].
  - destruct (Z.ltb_spec (Z.of_nat (length (o :: q))) max) as [Hlt|Hge].
    + assert (Hlt' : (length (o :: q) < n)%nat) by (unfold depth in *; lia).
      apply (tracked_push clock now s old (o :: q) old (o :: q)); try done; [by apply Hroom | intros _; by apply Hearly].
    + assert (Hfull : length (o :: q) = n) by (unfold depth in *; cbn in *; lia).
      destruct (Z.leb_spec d (now - o)); [|by apply (tracked_later clock)].
      apply (tracked_push clock now s old (o :: q) (old ++ [o]) q); try done.
      * by rewrite <- app_assoc.
      * intros _ a Ha. rewrite length_app, Hfull, lookup_app_r in Ha by lia. replace (length old + n - n - length old)%nat with 0%nat in Ha by lia.
        cbn in Ha. by simplify_eq.
      * intros Hlt. rewrite length_cons in Hfull. lia.
Qed.

Lemma last_le clock l t x : ordered clock l -> last l = Some t -> x ∈ l -> x <= t.
Proof.
  intros [Hs _]. induction Hs as [|y l Hs IH Hy]; [done|]. destruct l as [|z l].
  - cbn. intros [= <-] ->%list_elem_of_singleton. lia.
  - change (last (y :: z :: l)) with (last (z :: l)). intros Hl [->|Hx]%elem_of_cons; [|by apply IH].
    rewrite Forall_forall in Hy. apply Hy. apply last_Some_elem_of in Hl. done.
Qed.

Lemma tracked_sweep clock now s : tracked clock s -> clock <= now -> tracked now (run_event exp now Sweep s).
Proof.
  intros Ht Hle. pose proof Ht as (Hor & Hsp & old & q & E & Hq & Hl & Ho). cbn.
  destruct (decide (clearExpiredItems now exp (tr_store s) !! key = tr_store s !! key)) as [Es|Hn]; [by apply (tracked_later clock)|].
  assert (Hgone : exists t, last q = Some t /\ exp < now - t /\ clearExpiredItems now exp (tr_store s) !! key = None).
  { unfold clearExpiredItems in *. destruct q as [|o q]; rewrite Hq in Hn.
    { destruct Hn. by apply map_lookup_filter_None_2; left. }
    destruct (filter _ (tr_store s) !! key) as [x|] eqn:Ef.
    { apply map_lookup_filter_Some in Ef as [Ef _]. congruence. }
    apply map_lookup_filter_None in Ef as [Ef|Ef]; [congruence|]. specialize (Ef (o :: q) Hq). cbn [snd] in Ef. unfold expired_queue in Ef.
    destruct (last (o :: q)) as [t|] eqn:El; [|by apply last_None in El]. exists t. destruct (Z.ltb_spec exp (now - t)); done. }
  destruct Hgone as (t & Hlast & Hexp & Hnone). destruct (tracked_later clock now s (tr_store s) Ht Hle eq_refl) as ([Hs Hf] & _ & _).
  split_and!; [done | done |]. exists (old ++ q), []. rewrite app_nil_r. cbn. split_and!; [done | done | lia |].
  intros _. apply Forall_forall. intros x Hx. assert (Hlt : last (old ++ q) = Some t) by (rewrite last_app, Hlast; done).
  change (accepted key (mkTrace (tr_store s) (tr_log s))) with (accepted key s) in *. rewrite E in *.
  pose proof (last_le clock (old ++ q) t x Hor Hlt Hx). lia.
Qed.

(** Every request on the key asks for the same limit. *)
Definition same_limit (e : event) : Prop := match e with Ask k m d' => k = key -> m = max /\ d' = d | Sweep => True end.

Lemma limited_tracked es clock s : limited exp es clock s -> Forall same_limit es -> tracked clock s.
Proof.
  induction 1 as [clock|es clock s now e Hl IH Hle]; intros Hf.
  - split_and!; [split; cbn; [apply SSorted_nil | by apply Forall_nil] | intros i a b Hi; by destruct i |]. exists [], []. cbn. rewrite lookup_empty. split_and!; try done. lia.
  - apply Forall_app in Hf as [Hf He]. rewrite Forall_singleton in He. specialize (IH Hf). destruct e as [k m d'|].
    + destruct (decide (k = key)) as [->|Hne]; [|by apply (tracked_other clock)]. destruct (He eq_refl) as [-> ->]. by apply (tracked_request clock).
    + by apply (tracked_sweep clock).
Qed.

Lemma hits_app t l l' : hits t d (l ++ l') = hits t d l + hits t d l'.
Proof. unfold hits. rewrite List.filter_app, length_app. lia. Qed.

Lemma hits_none t l : Forall (fun x => x < t) l -> hits t d l = 0.
Proof.
  unfold hits. induction 1 as [|x l Hx _ IH]; [done|]. cbn. unfold within at 1. by rewrite (proj2 (Z.leb_gt t x) Hx).
Qed.

Lemma hits_all t l : Forall (fun x => t <= x < t + d) l -> hits t d l = Z.of_nat (length l).
Proof.
  unfold hits. induction 1 as [|x l Hx _ IH]; [done|]. cbn. unfold within at 1.
  rewrite (proj2 (Z.leb_le t x)), (proj2 (Z.ltb_lt x (t + d))) by lia. cbn. lia.
Qed.

Lemma hits_le t l : hits t d l <= Z.of_nat (length l).
Proof. unfold hits. pose proof (List.filter_length_le (within t d) l). lia. Qed.

(** The entries before and after one of an ordered log. *)
Lemma ordered_around clock l x l' : ordered clock (l ++ x :: l') -> Forall (fun y => y <= x) l /\ Forall (fun y => x <= y <= clock) (x :: l').
Proof.
  intros [Hs Hf]. apply Forall_app in Hf as [_ Hf]. induction l as [|y l IH]; cbn in Hs.
  - split; [constructor|]. apply StronglySorted_inv in Hs as [_ Hx]. rewrite Forall_cons in Hf. destruct Hf as [Hxc Hf].
    constructor; [lia|]. rewrite Forall_forall in Hx, Hf |- *. intros z Hz. specialize (Hx z Hz). specialize (Hf z Hz). cbn in *. lia.
  - apply StronglySorted_inv in Hs as [Hs Hy]. destruct (IH Hs) as [Hl Hr]. split; [|done]. constructor; [|done].
    apply Forall_app in Hy as [_ Hy]. by apply Forall_inv in Hy.
Qed.

(** What a request on the key is answered: the log of the last [d] seconds is counted. *)
Lemma tracked_answer clock now s :
  tracked clock s -> clock <= now -> 0 <= max ->
  fst (Request now key max d (tr_store s)) = Some (hits (now + 1 - d) d (accepted key s) <? Z.max 1 max).
Proof.
  intros (Hor & Hsp & old & q & E & Hq & Hl & Ho) Hle Hmax. unfold Request. rewrite Hq, E, hits_app.
  assert (Hn : Z.of_nat n = Z.max 1 max) by (unfold depth; lia). rewrite <- Hn in *.
  assert (Hroom : (length q < n)%nat -> hits (now + 1 - d) d old + hits (now + 1 - d) d q < Z.of_nat n).
  { intros Hlt. rewrite hits_none; [pose proof (hits_le (now + 1 - d) q); lia|]. eapply Forall_impl; [by apply Ho|]. cbn. lia. }
  destruct q as [|o q].
  - rewrite (proj2 (Z.ltb_ge max 0) Hmax). cbn [fst]. by rewrite (proj2 (Z.ltb_lt _ _) (Hroom ltac:(cbn; lia))).
  - destruct (Z.ltb_spec (Z.of_nat (length (o :: q))) max) as [Hlt|Hge].
    + cbn [fst]. by rewrite (proj2 (Z.ltb_lt _ _) (Hroom ltac:(lia))).
    + assert (Hfull : length (o :: q) = n) by (unfold depth in *; cbn in *; lia). rewrite E in Hor.
      destruct (ordered_around clock old o q Hor) as [Hold Hnew]. destruct (Z.leb_spec d (now - o)); cbn [fst]; do 2 f_equal.
      * symmetry. apply Z.ltb_lt. change (o :: q) with ([o] ++ q) in *. rewrite hits_app, (hits_none _ old), (hits_none _ [o]).
        -- pose proof (hits_le (now + 1 - d) q). rewrite length_app in Hfull. cbn in Hfull. lia.
        -- constructor; [lia | constructor].
        -- eapply Forall_impl; [exact Hold|]. cbn. lia.
      * symmetry. apply Z.ltb_ge. rewrite (hits_all _ (o :: q)); [pose proof (Zle_0_nat (length (List.filter (within (now + 1 - d) d) old))); unfold hits; lia|].
        eapply Forall_impl; [exact Hnew|]. cbn. lia.
Qed.
End Key.

(** ** Claims *)

(** The in-memory limiter never lets more than its maximum through in any
    window of the configured length, whatever requests on other keys and
    sweeps are interleaved: provided every request on the key asks for the
    same maximum [max] and window [d] and the sweeper's expiry is at least
    [d], every interval of [d] seconds holds at most [max] (and, for a maximum
    of zero, one) accepted requests. *)
Theorem window_limit_holds (exp d max : Z) (key : string) es clock s :
  limited exp es clock s -> Forall (same_limit d max key) es -> d <= exp ->
  forall t, hits t d (accepted key s) <= Z.max 1 max.
Proof.
  intros Hl Hf Hd t. destruct (limited_tracked exp d max key Hd es clock s Hl Hf) as (Hor & Hsp & _).
  replace (Z.max 1 max) with (Z.of_nat (depth max)) by (unfold depth; lia). apply (spaced_hits _ _ _ clock); [done | unfold depth; lia | done].
Qed.

(** Three requests, a sweep and a fourth on the key, one on another. *)
Definition busy_minute : list event := [Ask "GA1" 2 60; Ask "GA1" 2 60; Ask "GA2" 2 60; Ask "GA1" 2 60; Sweep; Ask "GA1" 2 60].

Definition busy_trace : trace :=
  run_event 1200 61 (Ask "GA1" 2 60) (run_event 1200 60 Sweep (run_event 1200 5 (Ask "GA1" 2 60)
    (run_event 1200 3 (Ask "GA2" 2 60) (run_event 1200 2 (Ask "GA1" 2 60) (run_event 1200 0 (Ask "GA1" 2 60) (mkTrace ∅ [])))))).

Lemma busy_limited : limited 1200 busy_minute 61 busy_trace.
Proof.
  unfold busy_minute, busy_trace. pose proof (limited_start 1200 0) as Hs.
  pose proof (limited_event _ _ _ _ 0 (Ask "GA1" 2 60) Hs ltac:(lia)) as Hs1.
  pose proof (limited_event _ _ _ _ 2 (Ask "GA1" 2 60) Hs1 ltac:(lia)) as Hs2.
  pose proof (limited_event _ _ _ _ 3 (Ask "GA2" 2 60) Hs2 ltac:(lia)) as Hs3.
  pose proof (limited_event _ _ _ _ 5 (Ask "GA1" 2 60) Hs3 ltac:(lia)) as Hs4.
  pose proof (limited_event _ _ _ _ 60 Sweep Hs4 ltac:(lia)) as Hs5.
  exact (limited_event _ _ _ _ 61 (Ask "GA1" 2 60) Hs5 ltac:(lia)).
Qed.

Lemma busy_same_limit : Forall (same_limit 60 2 "GA1") busy_minute.
Proof. repeat constructor; done. Qed.

Lemma window_limit_holds_witness :
  accepted "GA1" busy_trace = [0; 2; 61] /\ (forall t, hits t 60 (accepted "GA1" busy_trace) <= Z.max 1 2).
Proof.
  split; [by vm_compute|]. apply (window_limit_holds 1200 60 2 "GA1" busy_minute 61 busy_trace); [exact busy_limited | exact busy_same_limit | lia].
Defined.

(** C19. The queue the limiter keeps is as good as the full log.  After any
    history of requests on any keys and sweeps at non-decreasing times, in which
    every request on the key asked for the same maximum and window, with a
    window no longer than the expiry of the sweeper ([short_expiry_lifts_limit]
    without that) and a maximum that is not negative, a request on the key is
    let through exactly when fewer than the maximum (fewer than one, for a
    maximum of zero) were accepted on it in the last window of seconds, and it
    never panics. *)
Theorem limiter_is_sliding_log (exp d max : Z) (key : string) es clock s now :
  limited exp es clock s -> Forall (same_limit d max key) es -> d <= exp -> clock <= now -> 0 <= max ->
  fst (Request now key max d (tr_store s)) = Some (hits (now + 1 - d) d (accepted key s) <? Z.max 1 max).
Proof. intros Hl Hf Hd Hle Hmax. by apply (tracked_answer d max key clock), Hmax; [apply (limited_tracked exp d max key Hd es)|]. Qed.

Lemma limiter_is_sliding_log_witness :
  fst (Request 61 "GA1" 2 60 (tr_store busy_trace)) = Some (hits (61 + 1 - 60) 60 (accepted "GA1" busy_trace) <? Z.max 1 2).
Proof.
  apply (limiter_is_sliding_log 1200 60 2 "GA1" busy_minute 61 busy_trace 61); [exact busy_limited | exact busy_same_limit | lia | lia | lia].
Defined.

(** The proviso on the expiry is needed.  All middlewares share one
    limiter and the first [Init] decides its expiry: with the 20 minutes of
    [RateLimitKeyExpirationDuration] in place, the later [Init] of a model
    limit of one request per hour changes nothing, the sweeper forgets the
    request after twenty minutes, and a second one of the same hour passes. *)
Theorem short_expiry_lifts_limit :
  let l := Init 3600 (Init 1200 (mkLimiter None 0)) in
  let exp := l_expirationDuration l in
  exp = 1200 /\
  let t0 := 1700000000 in
    let '(v1, st1) := memoryRateLimitHandler t0 t0 t0 3600 0 1 "7" 200 ∅ in
    let '(v2, _) := memoryRateLimitHandler (t0 + 1300) (t0 + 1300) (t0 + 1300) 3600 0 1 "7" 200 st1 in
    let '(v3, _) := memoryRateLimitHandler (t0 + 1300) (t0 + 1300) (t0 + 1300) 3600 0 1 "7" 200 (clearExpiredItems (t0 + 1250) exp st1) in
    v1 = Passed 200 /\ v2 = TooManyRequests /\ v3 = Passed 200.
Proof. vm_compute. by repeat split. Qed.

(** Failed requests use up the success limit.  The check of the
    success count enters the request under its own key, whatever its outcome,
    so one failed request of a user allowed one success per minute makes the
    next be refused although nothing has succeeded. *)
Theorem failures_exhaust_success_limit :
  let t0 := 1700000000 in
  let '(v1, st1) := memoryRateLimitHandler t0 t0 t0 60 0 1 "7" 500 ∅ in
  let '(v2, _) := memoryRateLimitHandler (t0 + 1) (t0 + 1) (t0 + 1) 60 0 1 "7" 200 st1 in
  v1 = Passed 500 /\ st1 !! "MRRLS7" = None /\ v2 = TooManyRequests.
Proof. vm_compute. by repeat split. Qed.
