(* ===== verification/Commission.v ===== *)
(** * Invitation rebates and provider profits

    [ApplyInviteConsumeRebate] (src/model/consume_rebate.go) and
    [ApplyProviderProfit] (src/model/provider_profit.go) credit third parties
    when a request has been paid for.  Each is one transaction: an error
    leaves the tables as they were.  The cache updates and log lines that
    follow a commit are left out, error texts are abbreviated, and one clock
    reading [now] stands for all of a call.  Column arithmetic is the database's. *)

From stdpp Require Import base numbers list strings pretty gmap.
From Stdlib Require Import ZArith Lia SpecFloat.
From S2P Require Import Prelude GoInt GoString QuotaPolicy SubStock SubOrder.

(** ** Data *)

Record ConsumeRebateContext := mkRebateContext {
  rc_ProviderId : Z; rc_ProviderPricingId : Z; rc_PublicModelName : string; rc_BaseModelName : string
}.

(** The columns of [users] read and written here. *)
Record Account := mkAccount {
  ac_InviterId : Z; ac_ProviderId : Z; ac_InviteConsumeRebateEnabled : Z; ac_Quota : Z; ac_RewardQuota : Z
}.

Record ProviderModelPricing := mkPricing {
  mp_Id : Z; mp_ProviderId : Z; mp_PublicModelName : string; mp_BaseModelName : string; mp_Enabled : bool;
  mp_ConsumeRebateRatioLevel1 : float64
}.

Record ConsumeRebate := mkRebate {
  cb_Id : Z; cb_ProviderId : Z; cb_InviterId : Z; cb_InviteeId : Z; cb_RequestId : string; cb_Level : Z;
  cb_SourceQuota : Z; cb_RebateRatio : float64; cb_RebateQuota : Z;
  cb_ProviderPricingId : Z; cb_PublicModelName : string; cb_BaseModelName : string; cb_CreatedAt : Z
}.

Record RewardRecord := mkReward {
  rr_ProviderId : Z; rr_UserId : Z; rr_SourceType : string; rr_SourceId : Z; rr_Quota : Z; rr_Description : string; rr_CreatedAt : Z
}.

Record ProviderProfit := mkProfit {
  pp_Id : Z; pp_ProviderId : Z; pp_OwnerUserId : Z; pp_ProviderUserId : Z; pp_RequestId : string;
  pp_PublicModelName : string; pp_BaseModelName : string;
  pp_ProviderUserQuota : Z; pp_BaseCostQuota : Z; pp_PaidQuota : Z;
  pp_CoveredCostQuota : Z; pp_OwnerCostQuota : Z; pp_ProfitQuota : Z;
  pp_GrossProfitQuota : Z; pp_RebateQuota : Z; pp_ProfitSettled : bool; pp_OwnerCostSettled : bool; pp_CreatedAt : Z
}.

Record ProviderProfitApplyResult := mkApplied { pr_Applied : bool; pr_GrossProfitQuota : Z; pr_RebateQuota : Z }.

(** The tables.  The unique indexes ([request_id, level] of the rebates,
    [request_id] of the profits, [trade_no] of the top-ups) are their keys;
    pricings are in id order, which is the order of [First]. *)
Record commDB := mkComm {
  cm_users : gmap Z Account;
  cm_pricings : list ProviderModelPricing;
  cm_rebates : gmap (string * Z) ConsumeRebate;
  cm_rewards : list RewardRecord;
  cm_profits : gmap string ProviderProfit;
  cm_topups : gmap string TopUp;
  cm_nextRebate : Z; cm_nextProfit : Z
}.

Definition credit_account (id quota reward : Z) (db : commDB) : commDB :=
  mkComm (alter (fun a => mkAccount (ac_InviterId a) (ac_ProviderId a) (ac_InviteConsumeRebateEnabled a) (ac_Quota a + quota)
                            (ac_RewardQuota a + reward)) id (cm_users db))
    (cm_pricings db) (cm_rebates db) (cm_rewards db) (cm_profits db) (cm_topups db) (cm_nextRebate db) (cm_nextProfit db).
(** [tx.Create(rebate)] where no row has its key. *)
Definition insert_rebate (r : ConsumeRebate) (db : commDB) : commDB :=
  mkComm (cm_users db) (cm_pricings db) (<[(cb_RequestId r, cb_Level r) := r]> (cm_rebates db)) (cm_rewards db) (cm_profits db)
    (cm_topups db) (cm_nextRebate db + 1) (cm_nextProfit db).
Definition insert_reward (r : RewardRecord) (db : commDB) : commDB :=
  mkComm (cm_users db) (cm_pricings db) (cm_rebates db) (cm_rewards db ++ [r]) (cm_profits db) (cm_topups db) (cm_nextRebate db) (cm_nextProfit db).
Definition insert_profit (r : ProviderProfit) (db : commDB) : commDB :=
  mkComm (cm_users db) (cm_pricings db) (cm_rebates db) (cm_rewards db) (<[pp_RequestId r := r]> (cm_profits db)) (cm_topups db)
    (cm_nextRebate db) (cm_nextProfit db + 1).
Definition insert_topup (t : TopUp) (db : commDB) : commDB :=
  mkComm (cm_users db) (cm_pricings db) (cm_rebates db) (cm_rewards db) (cm_profits db) (<[tu_TradeNo t := t]> (cm_topups db))
    (cm_nextRebate db) (cm_nextProfit db).

(** The arithmetic of github.com/shopspring/decimal and the global option it
    is applied to: the integer part of [quota * ratio / 100], the money worth
    of a quota, [common.InviteTopupRebateRatio]. *)
Class Commissions := {
  percent : Z -> float64 -> Z;
  money_of : Z -> float64;
  InviteTopupRebateRatio : float64
}.

(** [ratio <= 0] *)
Definition no_ratio (ratio : float64) : bool := SFleb ratio float_zero.

Definition TopUpPaymentMethodProviderProfit : string := "provider_profit".

Definition comm_tx {A} (db : commDB) (f : commDB -> result (A * commDB)) : result A * commDB :=
  match f db with Ok (a, db') => (Ok a, db') | Err e => (Err e, db) end.

(** ** Rewards *)

(** The hook [RewardRecord.BeforeCreate]. *)
Definition reward_BeforeCreate (now : Z) (r : RewardRecord) : result RewardRecord :=
  if (rr_ProviderId r <=? 0) || (rr_UserId r <=? 0) || String.eqb (rr_SourceType r) "" || (rr_Quota r =? 0)
  then fail_with "invalid reward record"
  else Ok (if rr_CreatedAt r =? 0
           then mkReward (rr_ProviderId r) (rr_UserId r) (rr_SourceType r) (rr_SourceId r) (rr_Quota r) (rr_Description r) now
           else r).

Definition CreateRewardRecordTx (now : Z) (r : RewardRecord) (db : commDB) : result commDB :=
  r ← reward_BeforeCreate now r; Ok (insert_reward r db).

(** The reward record of a rebate credited to a user of a provider site. *)
Definition record_reward (now provider receiver source quota : Z) (description : string) (db : commDB) : result commDB :=
  if 0 <? provider
  then CreateRewardRecordTx now (mkReward provider receiver "consume_rebate" source quota description 0) db
  else Ok db.

(** A new rebate row, the credit to its receiver and the reward record. *)
Definition book_rebate (now : Z) (description : string) (rebate : ConsumeRebate) (db : commDB) : result commDB :=
  let db := credit_account (cb_InviterId rebate) (cb_RebateQuota rebate) (cb_RebateQuota rebate) (insert_rebate rebate db) in
  record_reward now (cb_ProviderId rebate) (cb_InviterId rebate) (cb_Id rebate) (cb_RebateQuota rebate) description db.

Section Commission.
Context `{Commissions}.

(** ** ApplyInviteConsumeRebate *)

(** The ratio and names of the applicable pricing. *)
Record rebate_terms := mkTerms { rt_ratio : float64; rt_pricing : Z; rt_public : string; rt_base : string }.

(** [None]: no enabled pricing applies. *)
Definition terms_of (site : Z) (ctx : option ConsumeRebateContext) (db : commDB) : option rebate_terms :=
  match ctx with
  | Some c =>
      if site <=? 0 then Some (mkTerms InviteTopupRebateRatio 0 (rc_PublicModelName c) (rc_BaseModelName c))
      else
        let applies (p : ProviderModelPricing) :=
          (mp_ProviderId p =? site) && mp_Enabled p &&
          (if 0 <? rc_ProviderPricingId c then mp_Id p =? rc_ProviderPricingId c
           else String.eqb (mp_PublicModelName p) (rc_PublicModelName c)) in
        match List.find applies (cm_pricings db) with
        | Some p => Some (mkTerms (mp_ConsumeRebateRatioLevel1 p) (mp_Id p) (mp_PublicModelName p) (mp_BaseModelName p))
        | None => None
        end
  | None => Some (mkTerms InviteTopupRebateRatio 0 "" "")
  end.

(** [applyLevel] of [ApplyInviteConsumeRebate]: the amount credited. *)
Definition invite_level (now : Z) (requestId : string) (inviteeId paidQuota site : Z) (t : rebate_terms)
    (level receiverId : Z) (ratio : float64) (db : commDB) : result (Z * commDB) :=
  if (receiverId <=? 0) || no_ratio ratio then Ok (0, db)
  else
    let rebateQuota := percent paidQuota ratio in
    if rebateQuota <=? 0 then Ok (0, db)
    else
      match cm_users db !! receiverId with
      | None => Err ErrRecordNotFound
      | Some receiver =>
          if negb (ac_ProviderId receiver =? site) then Ok (0, db)
          else
            match cm_rebates db !! (requestId, level) with
            | Some _ => Ok (0, db)
            | None =>
                let rebate := mkRebate (cm_nextRebate db) (ac_ProviderId receiver) receiverId inviteeId requestId level paidQuota ratio
                                rebateQuota (rt_pricing t) (rt_public t) (rt_base t) now in
                db ← book_rebate now "invite consume rebate" rebate db;
                Ok (rebateQuota, db)
            end
      end.

(** Whether an inviter of the site may receive: the main site asks for no qualification. *)
Definition qualified (site : Z) (a : Account) : bool :=
  (ac_ProviderId a =? site) && ((site <=? 0) || (ac_InviteConsumeRebateEnabled a =? 1)).

(** The transaction: the level-1 inviter credited (0 when none) and the total. *)
Definition invite_tx (now : Z) (requestId : string) (inviteeId paidQuota site : Z) (ctx : option ConsumeRebateContext) (db : commDB)
  : result (Z * Z * commDB) :=
  match cm_users db !! inviteeId with
  | None => Ok (0, 0, db)
  | Some invitee =>
      if negb (ac_ProviderId invitee =? site) || (ac_InviterId invitee <=? 0) then Ok (0, 0, db)
      else
        match terms_of site ctx db with
        | None => Ok (0, 0, db)
        | Some t =>
            let level1Ratio := rt_ratio t in
            let level2Ratio := float_zero in
            if no_ratio level1Ratio && no_ratio level2Ratio then Ok (0, 0, db)
            else
              match cm_users db !! ac_InviterId invitee with
              | None => Ok (0, 0, db)
              | Some level1Inviter =>
                  if negb (qualified site level1Inviter) then Ok (0, 0, db)
                  else
                    '(q1, db) ← invite_level now requestId inviteeId paidQuota site t 1 (ac_InviterId invitee) level1Ratio db;
                    let inviterId := if 0 <? q1 then ac_InviterId invitee else 0 in
                    if (0 <? ac_InviterId level1Inviter) && negb (no_ratio level2Ratio) then
                      match cm_users db !! ac_InviterId level1Inviter with
                      | None => Ok (inviterId, q1, db)
                      | Some level2Inviter =>
                          if negb (qualified site level2Inviter) then Ok (inviterId, q1, db)
                          else
                            '(q2, db) ← invite_level now requestId inviteeId paidQuota site t 2 (ac_InviterId level1Inviter) level2Ratio db;
                            Ok (inviterId, q1 + q2, db)
                      end
                    else Ok (inviterId, q1, db)
              end
        end
  end.

(** [random] is [common.GetRandomString(8)]. *)
Definition ApplyInviteConsumeRebate (now : Z) (random : string) (inviteeId : Z) (requestId : string) (paidQuota : Z)
    (rebateCtx : option ConsumeRebateContext) (db : commDB) : result (Z * Z) * commDB :=
  if (inviteeId <=? 0) || (paidQuota <=? 0) then (Ok (0, 0), db)
  else
    let requestId := if String.eqb requestId ""
                     then "consume-rebate-" +:+ pretty inviteeId +:+ "-" +:+ pretty now +:+ "-" +:+ random
                     else requestId in
    let site := match rebateCtx with Some c => if rc_ProviderId c <=? 0 then 0 else rc_ProviderId c | None => 0 end in
    comm_tx db (invite_tx now requestId inviteeId paidQuota site rebateCtx).

(** ** ApplyProviderProfit *)

(** [applyLevel] of [applyProviderProfitRebatesTx]; [total] is what earlier levels received. *)
Definition profit_level (now : Z) (record : ProviderProfit) (pricing : ProviderModelPricing) (grossProfitQuota total : Z)
    (level receiverId : Z) (ratio : float64) (db : commDB) : result (Z * commDB) :=
  if (receiverId <=? 0) || no_ratio ratio then Ok (0, db)
  else
    let remainingProfit := i64_sub grossProfitQuota total in
    if remainingProfit <=? 0 then Ok (0, db)
    else
      let rebateQuota := percent grossProfitQuota ratio in
      if rebateQuota <=? 0 then Ok (0, db)
      else
        let rebateQuota := if remainingProfit <? rebateQuota then remainingProfit else rebateQuota in
        match cm_users db !! receiverId with
        | None => Err ErrRecordNotFound
        | Some receiver =>
            match cm_rebates db !! (pp_RequestId record, level) with
            | Some _ => fail_with "UNIQUE constraint failed: consume_rebates.request_id, consume_rebates.level"
            | None =>
                let rebate := mkRebate (cm_nextRebate db) (ac_ProviderId receiver) receiverId (pp_ProviderUserId record) (pp_RequestId record)
                                level grossProfitQuota ratio rebateQuota (mp_Id pricing) (mp_PublicModelName pricing)
                                (mp_BaseModelName pricing) now in
                db ← book_rebate now "provider profit rebate" rebate db;
                Ok (rebateQuota, db)
            end
        end.

Definition applyProviderProfitRebatesTx (now : Z) (record : ProviderProfit) (grossProfitQuota : Z) (db : commDB) : result (Z * commDB) :=
  if (grossProfitQuota <=? 0) || (pp_ProviderId record <=? 0) || (pp_ProviderUserId record <=? 0) || String.eqb (pp_RequestId record) ""
  then Ok (0, db)
  else
    match cm_users db !! pp_ProviderUserId record with
    | None => Ok (0, db)
    | Some invitee =>
        if ac_InviterId invitee <=? 0 then Ok (0, db)
        else
          let applies (p : ProviderModelPricing) :=
            (mp_ProviderId p =? pp_ProviderId record) && String.eqb (mp_PublicModelName p) (pp_PublicModelName record) && mp_Enabled p in
          match List.find applies (cm_pricings db) with
          | None => Ok (0, db)
          | Some pricing =>
              let level1Ratio := mp_ConsumeRebateRatioLevel1 pricing in
              let level2Ratio := float_zero in
              if no_ratio level1Ratio && no_ratio level2Ratio then Ok (0, db)
              else
                match cm_users db !! ac_InviterId invitee with
                | None => Ok (0, db)
                | Some level1Inviter =>
                    if negb (ac_InviteConsumeRebateEnabled level1Inviter =? 1) then Ok (0, db)
                    else
                      '(q1, db) ← profit_level now record pricing grossProfitQuota 0 1 (ac_InviterId invitee) level1Ratio db;
                      if (0 <? ac_InviterId level1Inviter) && negb (no_ratio level2Ratio) then
                        match cm_users db !! ac_InviterId level1Inviter with
                        | None => Ok (q1, db)
                        | Some level2Inviter =>
                            if negb (ac_InviteConsumeRebateEnabled level2Inviter =? 1) then Ok (q1, db)
                            else
                              '(q2, db) ← profit_level now record pricing grossProfitQuota q1 2 (ac_InviterId level1Inviter) level2Ratio db;
                              Ok (q1 + q2, db)
                        end
                      else Ok (q1, db)
                end
          end
    end.

(** The row [tx.Create(record)] writes. *)
Definition settled_profit (id now gross rebate net : Z) (record : ProviderProfit) : ProviderProfit :=
  mkProfit id (pp_ProviderId record) (pp_OwnerUserId record) (pp_ProviderUserId record) (pp_RequestId record)
    (pp_PublicModelName record) (pp_BaseModelName record) (pp_ProviderUserQuota record) (pp_BaseCostQuota record)
    (pp_PaidQuota record) (pp_CoveredCostQuota record) (pp_OwnerCostQuota record) net gross rebate (0 <? net)
    (0 <? pp_OwnerCostQuota record) (if pp_CreatedAt record =? 0 then now else pp_CreatedAt record).

(** The owner pays the cost, reward balance first. *)
Definition charge_owner (record : ProviderProfit) (db : commDB) : result commDB :=
  let cost := pp_OwnerCostQuota record in
  if 0 <? cost then
    match cm_users db !! pp_OwnerUserId record with
    | None => Err ErrRecordNotFound
    | Some owner =>
        if ac_Quota owner <? cost then fail_with "provider owner quota is not enough"
        else
          let rewardUsed := if ac_Quota owner <? ac_RewardQuota owner then ac_Quota owner else ac_RewardQuota owner in
          let rewardUsed := if rewardUsed <? 0 then 0 else rewardUsed in
          let rewardUsed := if cost <? rewardUsed then cost else rewardUsed in
          Ok (credit_account (pp_OwnerUserId record) (- cost) (- rewardUsed) db)
    end
  else Ok db.

Definition profit_trade_no (record : ProviderProfit) : string := "PROVIDER-PROFIT-" +:+ pretty (pp_Id record).
Definition profit_topup (record : ProviderProfit) : TopUp :=
  let money := money_of (pp_ProfitQuota record) in
  mkTopUp (pp_ProviderId record) (pp_OwnerUserId record) (pp_ProfitQuota record) money (profit_trade_no record)
    TopUpPaymentMethodProviderProfit "" TopUpBizTypePayment (pp_Id record) (pp_CreatedAt record) (pp_CreatedAt record)
    TopUpStatusSuccess "USD" money.

(** The owner receives the net profit. *)
Definition credit_owner (record : ProviderProfit) (db : commDB) : result commDB :=
  if 0 <? pp_ProfitQuota record then
    let db := credit_account (pp_OwnerUserId record) (pp_ProfitQuota record) 0 db in
    match cm_topups db !! profit_trade_no record with
    | Some _ => fail_with "UNIQUE constraint failed: top_ups.trade_no"
    | None => Ok (insert_topup (profit_topup record) db)
    end
  else Ok db.

Definition profit_tx (now : Z) (record : ProviderProfit) (db : commDB) : result (ProviderProfitApplyResult * commDB) :=
  match cm_profits db !! pp_RequestId record with
  | Some _ => Ok (mkApplied false 0 0, db)
  | None =>
      let gross := pp_ProfitQuota record in
      '(rebateQuota, db) ← applyProviderProfitRebatesTx now record gross db;
      let net := i64_sub gross rebateQuota in
      let net := if net <? 0 then 0 else net in
      let record := settled_profit (cm_nextProfit db) now gross rebateQuota net record in
      db ← charge_owner record (insert_profit record db);
      db ← credit_owner record db;
      Ok (mkApplied true gross rebateQuota, db)
  end.

Definition ApplyProviderProfit (now : Z) (record : ProviderProfit) (db : commDB) : result ProviderProfitApplyResult * commDB :=
  if (pp_ProviderId record <=? 0) || (pp_OwnerUserId record <=? 0) || (pp_ProviderUserId record <=? 0) || String.eqb (pp_RequestId record) ""
  then (Ok (mkApplied false 0 0), db)
  else if (pp_ProfitQuota record <=? 0) && (pp_OwnerCostQuota record <=? 0) then (Ok (mkApplied false 0 0), db)
  else comm_tx db (profit_tx now record).
End Commission.

(** ** Reconciliation *)

Definition balance (u : Z) (db : commDB) : option Z := ac_Quota <$> cm_users db !! u.
(** What the two ledgers say a user has been paid, net of the owner's costs. *)
Definition rebates_to (u : Z) (db : commDB) : Z := table_sum (fun r => if cb_InviterId r =? u then cb_RebateQuota r else 0) (cm_rebates db).
Definition profits_of (u : Z) (db : commDB) : Z :=
  table_sum (fun p => if pp_OwnerUserId p =? u then pp_ProfitQuota p - Z.max 0 (pp_OwnerCostQuota p) else 0) (cm_profits db).
Definition ledger (u : Z) (db : commDB) : Z := rebates_to u db + profits_of u db.
(** Reward records against the rebates of provider sites. *)
Definition rewards_of (u : Z) (db : commDB) : Z := sum_by (fun r => if rr_UserId r =? u then rr_Quota r else 0) (cm_rewards db).
Definition site_rebates_to (u : Z) (db : commDB) : Z :=
  table_sum (fun r => if (cb_InviterId r =? u) && (0 <? cb_ProviderId r) then cb_RebateQuota r else 0) (cm_rebates db).
(** A profit row accounts for all of the gross profit. *)
Definition adds_up (p : ProviderProfit) : Prop :=
  0 <= pp_RebateQuota p /\ 0 <= pp_ProfitQuota p /\ pp_ProfitQuota p + pp_RebateQuota p = Z.max 0 (pp_GrossProfitQuota p).

(** From [db] to [db'] balances moved as the ledgers did, and the ledgers only grew. *)
Record reconciled (db db' : commDB) : Prop := {
  rec_balance u : balance u db' = (fun b => b + (ledger u db' - ledger u db)) <$> balance u db;
  rec_rewards u : rewards_of u db' - rewards_of u db = site_rebates_to u db' - site_rebates_to u db;
  rec_rebates : cm_rebates db ⊆ cm_rebates db';
  rec_profits : cm_profits db ⊆ cm_profits db';
  rec_rows k p : cm_profits db' !! k = Some p -> cm_profits db !! k = Some p \/ adds_up p
}.

#[export] Instance reconciled_preorder : PreOrder reconciled.
Proof.
  split.
  - intros db. split; try done; [|lia|auto]. intros u. destruct (balance u db); [|done]. cbn. f_equal. lia.
  - intros d1 d2 d3 H12 H23. split.
    + intros u. rewrite (rec_balance _ _ H23), (rec_balance _ _ H12). destruct (balance u d1); [|done]. cbn. f_equal. lia.
    + intros u. pose proof (rec_rewards _ _ H12 u). pose proof (rec_rewards _ _ H23 u). lia.
    + etrans; [apply (rec_rebates _ _ H12) | apply (rec_rebates _ _ H23)].
    + etrans; [apply (rec_profits _ _ H12) | apply (rec_profits _ _ H23)].
    + intros k p Hp. destruct (rec_rows _ _ H23 k p Hp) as [Hp2|]; [|by right]. by apply (rec_rows _ _ H12 k).
Qed.

Lemma balance_credit u id q r db : balance u (credit_account id q r db) = (fun b => b + if id =? u then q else 0) <$> balance u db.
Proof.
  unfold balance, credit_account. cbn. destruct (Z.eqb_spec id u) as [->|Hne].
  - rewrite lookup_alter_eq. by destruct (cm_users db !! u).
  - rewrite lookup_alter_ne by done. destruct (cm_users db !! u); [|done]. cbn. f_equal. lia.
Qed.

Lemma record_reward_spec now p u src q d db db' : 0 < u -> 0 < q -> record_reward now p u src q d db = Ok db' ->
  cm_users db' = cm_users db /\ cm_rebates db' = cm_rebates db /\ cm_profits db' = cm_profits db /\
  forall v, rewards_of v db' = rewards_of v db + if (u =? v) && (0 <? p) then q else 0.
Proof.
  intros Hu Hq. unfold record_reward, CreateRewardRecordTx, reward_BeforeCreate. destruct (0 <? p).
  - cbn -[Z.eqb]. destruct (_ || _); [done|]. intros [= <-]. split_and!; [done..|]. intros v. unfold rewards_of. cbn.
    rewrite sum_by_app. cbn. rewrite andb_true_r. lia.
  - intros [= <-]. split_and!; [done..|]. intros v. rewrite andb_false_r. lia.
Qed.

Lemma book_rebate_reconciled now d r db db' : 0 < cb_InviterId r -> 0 < cb_RebateQuota r -> cm_rebates db !! (cb_RequestId r, cb_Level r) = None ->
  book_rebate now d r db = Ok db' ->
  reconciled db db' /\ cm_rebates db' = <[(cb_RequestId r, cb_Level r) := r]> (cm_rebates db) /\ cm_profits db' = cm_profits db.
Proof.
  intros Hi Hq Hnew Hb. apply record_reward_spec in Hb as (Eu & Er & Ep & Ew); [|done..]. cbn in Er, Ep. split; [|done]. split.
  - intros u. unfold balance at 1. rewrite Eu. change (ac_Quota <$> cm_users ?x !! u) with (balance u x). rewrite balance_credit.
    change (balance u (insert_rebate r db)) with (balance u db). destruct (balance u db) as [b|]; [|done]. cbn. f_equal. f_equal.
    unfold ledger, rebates_to, profits_of. rewrite Er, Ep, table_sum_insert_new by done. lia.
  - intros u. rewrite Ew. unfold site_rebates_to. rewrite Er, table_sum_insert_new by done. unfold rewards_of. cbn. lia.
  - rewrite Er. by apply insert_subseteq.
  - by rewrite Ep.
  - rewrite Ep. auto.
Qed.

Section Reconcile.
Context `{Commissions}.

(** *** Rebates *)

Definition rebate_booked (key : string * Z) (q : Z) (db db' : commDB) : Prop :=
  (q = 0 /\ db' = db) \/
  (0 < q /\ cm_rebates db !! key = None /\ is_Some (cm_rebates db' !! key) /\ cm_profits db' = cm_profits db /\ reconciled db db').

Lemma book_rebate_booked now d r db db' : 0 < cb_InviterId r -> 0 < cb_RebateQuota r -> cm_rebates db !! (cb_RequestId r, cb_Level r) = None ->
  book_rebate now d r db = Ok db' -> rebate_booked (cb_RequestId r, cb_Level r) (cb_RebateQuota r) db db'.
Proof.
  intros Hi Hq Hnew Hb. destruct (book_rebate_reconciled _ _ _ _ _ Hi Hq Hnew Hb) as (Hr & Er & Ep). right.
  split_and!; try done. rewrite Er, lookup_insert_eq. eauto.
Qed.

Lemma invite_level_spec now req invitee paid site t level receiver ratio db q db' :
  invite_level now req invitee paid site t level receiver ratio db = Ok (q, db') -> rebate_booked (req, level) q db db'.
Proof.
  unfold invite_level. intros Hl. destruct (Z.leb_spec receiver 0); cbn [orb] in Hl; [simplify_eq; by left|].
  destruct (no_ratio ratio); [simplify_eq; by left|]. destruct (Z.leb_spec (percent paid ratio) 0); [simplify_eq; by left|].
  destruct (cm_users db !! receiver) as [a|]; [|done]. destruct (negb _); [simplify_eq; by left|].
  destruct (cm_rebates db !! (req, level)) eqn:En; [simplify_eq; by left|]. apply bind_Ok_inv in Hl as (db1 & Hb & Hl). simplify_eq.
  refine (book_rebate_booked _ _ _ _ _ _ _ _ Hb); [cbn; lia | done | exact En].
Qed.

(** Only the first level is ever paid. *)
Lemma invite_tx_spec now req invitee paid site ctx db i q db' :
  invite_tx now req invitee paid site ctx db = Ok (i, q, db') -> rebate_booked (req, 1) q db db'.
Proof.
  unfold invite_tx. intros Hx. destruct (cm_users db !! invitee) as [a|]; [|simplify_eq; by left].
  destruct (_ || _) in Hx; [simplify_eq; by left|]. destruct (terms_of site ctx db) as [t|]; [|simplify_eq; by left].
  destruct (_ && _) in Hx; [simplify_eq; by left|]. destruct (cm_users db !! ac_InviterId a) as [b|]; [|simplify_eq; by left].
  destruct (negb _) in Hx; [simplify_eq; by left|]. apply bind_Ok_inv in Hx as ([q1 d1] & Hl & Hx).
  change (no_ratio float_zero) with true in Hx. rewrite andb_false_r in Hx. simplify_eq. by eapply invite_level_spec.
Qed.

(** What a call on a non-empty request id does. *)
Lemma ApplyInviteConsumeRebate_spec now random invitee req paid ctx db :
  match ApplyInviteConsumeRebate now random invitee req paid ctx db with
  | (Ok (_, q), db') => exists key, (req <> "" -> key = req) /\ rebate_booked (key, 1) q db db'
  | (Err _, db') => db' = db
  end.
Proof.
  unfold ApplyInviteConsumeRebate, comm_tx. destruct (_ || _); [exists req; split; [done | by left]|].
  set (key := if String.eqb req "" then _ else req). destruct (invite_tx _ key _ _ _ _ db) as [[[i q] db']|] eqn:E; [|done].
  exists key. split; [|by eapply invite_tx_spec]. intros Hne. unfold key. by rewrite (proj2 (String.eqb_neq req "") Hne).
Qed.

(** *** Profits *)

Lemma profit_level_spec now rec pricing gross level receiver ratio db q db' :
  is_i64 gross -> profit_level now rec pricing gross 0 level receiver ratio db = Ok (q, db') ->
  rebate_booked (pp_RequestId rec, level) q db db' /\ q <= Z.max 0 gross.
Proof.
  intros Hg. unfold profit_level. intros Hl. destruct (Z.leb_spec receiver 0); cbn [orb] in Hl; [simplify_eq; split; [by left | lia]|].
  destruct (no_ratio ratio); [simplify_eq; split; [by left | lia]|].
  destruct (Z.leb_spec (i64_sub gross 0) 0) as [|Hrem]; [simplify_eq; split; [by left | lia]|].
  destruct (Z.leb_spec (percent gross ratio) 0); [simplify_eq; split; [by left | lia]|].
  destruct (cm_users db !! receiver) as [a|]; [|done]. destruct (cm_rebates db !! (_, level)) eqn:En; [done|].
  apply bind_Ok_inv in Hl as (db1 & Hb & Hl). injection Hl as <- <-. set (q := if _ <? _ then _ else _) in *.
  assert (Hq : 0 < q <= i64_sub gross 0) by (unfold q; destruct (Z.ltb_spec (i64_sub gross 0) (percent gross ratio)); lia).
  split; [refine (book_rebate_booked _ _ _ _ _ _ _ _ Hb); [cbn; lia | apply Hq | exact En]|].
  revert Hq. rewrite i64_sub_id by i64. lia.
Qed.

Lemma profit_rebates_spec now rec gross db q db' :
  is_i64 gross -> applyProviderProfitRebatesTx now rec gross db = Ok (q, db') ->
  rebate_booked (pp_RequestId rec, 1) q db db' /\ q <= Z.max 0 gross.
Proof.
  intros Hg. unfold applyProviderProfitRebatesTx. assert (Hno : rebate_booked (pp_RequestId rec, 1) 0 db db /\ 0 <= Z.max 0 gross) by (split; [by left | lia]).
  intros Hx. destruct (_ || _) in Hx; [by simplify_eq|]. destruct (cm_users db !! pp_ProviderUserId rec) as [a|]; [|by simplify_eq].
  destruct (_ <=? 0) in Hx; [by simplify_eq|]. destruct (List.find _ _) as [p|]; [|by simplify_eq].
  destruct (_ && _) in Hx; [by simplify_eq|]. destruct (cm_users db !! ac_InviterId a) as [b|]; [|by simplify_eq].
  destruct (negb _) in Hx; [by simplify_eq|]. apply bind_Ok_inv in Hx as ([q1 d1] & Hl & Hx).
  change (no_ratio float_zero) with true in Hx. rewrite andb_false_r in Hx. simplify_eq. by eapply profit_level_spec.
Qed.

(** Charging and crediting the owner moves the balance by what the row says. *)
Lemma owner_moves rec db d1 d2 : 0 <= pp_ProfitQuota rec -> charge_owner rec db = Ok d1 -> credit_owner rec d1 = Ok d2 ->
  cm_rebates d2 = cm_rebates db /\ cm_profits d2 = cm_profits db /\ cm_rewards d2 = cm_rewards db /\
  forall u, balance u d2 = (fun b => b + if pp_OwnerUserId rec =? u then pp_ProfitQuota rec - Z.max 0 (pp_OwnerCostQuota rec) else 0) <$> balance u db.
Proof.
  intros Hp Hc Hd.
  assert (H1 : cm_rebates d1 = cm_rebates db /\ cm_profits d1 = cm_profits db /\ cm_rewards d1 = cm_rewards db /\
    forall u, balance u d1 = (fun b => b - if pp_OwnerUserId rec =? u then Z.max 0 (pp_OwnerCostQuota rec) else 0) <$> balance u db).
  { unfold charge_owner in Hc. destruct (Z.ltb_spec 0 (pp_OwnerCostQuota rec)).
    - destruct (cm_users db !! _); [|done]. destruct (_ <? _) in Hc; [done|]. injection Hc as <-. split_and!; [done..|]. intros u.
      rewrite balance_credit. destruct (balance u db); [|done]. cbn. f_equal. destruct (_ =? u); lia.
    - injection Hc as <-. split_and!; [done..|]. intros u. destruct (balance u db); [|done]. cbn. f_equal. destruct (_ =? u); lia. }
  destruct H1 as (E1 & E2 & E3 & E4). unfold credit_owner in Hd. destruct (Z.ltb_spec 0 (pp_ProfitQuota rec)).
  - destruct (cm_topups _ !! _); [done|]. injection Hd as <-. split_and!; [done..|]. intros u.
    change (balance u (insert_topup ?t ?d)) with (balance u d). rewrite balance_credit, E4. destruct (balance u db); [|done].
    cbn. f_equal. destruct (_ =? u); lia.
  - injection Hd as <-. split_and!; [done..|]. intros u. rewrite E4. destruct (balance u db); [|done]. cbn. f_equal. destruct (_ =? u); lia.
Qed.

Lemma profit_tx_spec now rec db res db' : is_i64 (pp_ProfitQuota rec) -> profit_tx now rec db = Ok (res, db') ->
  reconciled db db' /\ is_Some (cm_profits db' !! pp_RequestId rec) /\ (is_Some (cm_profits db !! pp_RequestId rec) -> db' = db).
Proof.
  intros Hg. unfold profit_tx. destruct (cm_profits db !! pp_RequestId rec) as [p|] eqn:Enew.
  { intros [= <- <-]. split_and!; [done | by rewrite Enew | done]. }
  intros Hx. apply bind_Ok_inv in Hx as ([q d1] & Hr & Hx). destruct (profit_rebates_spec _ _ _ _ _ _ Hg Hr) as [Hbook Hle].
  set (net := if _ <? 0 then _ else _) in Hx. set (row := settled_profit _ _ _ _ _ _) in Hx.
  apply bind_Ok_inv in Hx as (d2 & Hc & Hx). apply bind_Ok_inv in Hx as (d3 & Hd & Hx). injection Hx as _ <-.
  assert (Hrec : reconciled db d1 /\ cm_profits d1 = cm_profits db /\ 0 <= q).
  { destruct Hbook as [[-> ->]|(? & _ & _ & ? & ?)]; split_and!; try done; lia. }
  destruct Hrec as (Hrec & Ep & Hq). assert (Hrow : adds_up row).
  { unfold adds_up, row, settled_profit, net. cbn. rewrite i64_sub_id by i64. case_match; lia. }
  destruct (owner_moves row _ d2 d3 ltac:(apply Hrow) Hc Hd) as (E1 & E2 & E3 & E4). cbn in E1, E2, E3. rewrite Ep in E2.
  split_and!; [etrans; [exact Hrec|] | rewrite E2, lookup_insert_eq; eauto | by intros [? ?]].
  split.
  - intros u. rewrite E4. change (balance u (insert_profit row d1)) with (balance u d1). destruct (balance u d1); [|done]. cbn. f_equal. f_equal.
    unfold ledger, rebates_to, profits_of. rewrite E1, E2, Ep, table_sum_insert_new by done. change (pp_OwnerUserId row) with (pp_OwnerUserId rec).
    change (pp_ProfitQuota row) with net. change (pp_OwnerCostQuota row) with (pp_OwnerCostQuota rec). lia.
  - intros u. unfold rewards_of, site_rebates_to. rewrite E1, E3. lia.
  - by rewrite E1.
  - rewrite E2, Ep. by apply insert_subseteq.
  - intros k p. rewrite E2, Ep. intros [[<- <-]|[_ Hk]]%lookup_insert_Some; auto.
Qed.

Lemma ApplyProviderProfit_spec now rec db : is_i64 (pp_ProfitQuota rec) ->
  match ApplyProviderProfit now rec db with
  | (Ok res, db') => reconciled db db' /\ (is_Some (cm_profits db !! pp_RequestId rec) -> db' = db) /\
                     (pr_Applied res = true -> is_Some (cm_profits db' !! pp_RequestId rec))
  | (Err _, db') => db' = db
  end.
Proof.
  intros Hg. unfold ApplyProviderProfit, comm_tx. destruct (_ || _); [done|]. destruct (_ && _); [done|].
  destruct (profit_tx now rec db) as [[res db']|] eqn:E; [|done]. destruct (profit_tx_spec _ _ _ _ _ Hg E) as (? & ? & ?). auto.
Qed.

(** *** Histories *)

Inductive comm_call :=
  | RebateCall (now : Z) (random : string) (inviteeId : Z) (requestId : string) (paidQuota : Z) (ctx : option ConsumeRebateContext)
  | ProfitCall (now : Z) (record : ProviderProfit).

(** Amounts are Go integers. *)
Definition call_ok (c : comm_call) : Prop := match c with ProfitCall _ r => is_i64 (pp_ProfitQuota r) | _ => True end.

Definition run_call (c : comm_call) (db : commDB) : commDB :=
  match c with
  | RebateCall now random invitee req paid ctx => snd (ApplyInviteConsumeRebate now random invitee req paid ctx db)
  | ProfitCall now record => snd (ApplyProviderProfit now record db)
  end.
Definition run_calls (calls : list comm_call) (db : commDB) : commDB := fold_left (fun db c => run_call c db) calls db.

Lemma run_call_reconciled c db : call_ok c -> reconciled db (run_call c db).
Proof.
  destruct c as [now random invitee req paid ctx|now rec]; cbn [run_call call_ok].
  - intros _. pose proof (ApplyInviteConsumeRebate_spec now random invitee req paid ctx db) as Hs.
    destruct (ApplyInviteConsumeRebate _ _ _ _ _ _ db) as [[[i q]|e] db']; [|by rewrite Hs].
    destruct Hs as (key & _ & [[_ ->]|(_ & _ & _ & _ & Hr)]); done.
  - intros Hg. pose proof (ApplyProviderProfit_spec now rec db Hg) as Hs. destruct (ApplyProviderProfit now rec db) as [[res|e] db']; [apply Hs | by rewrite Hs].
Qed.

Lemma run_calls_reconciled calls : forall db, Forall call_ok calls -> reconciled db (run_calls calls db).
Proof.
  induction calls as [|c calls IH]; intros db Hf; [done|]. apply Forall_cons in Hf as [Hc Hf].
  cbn. etrans; [by apply run_call_reconciled | by apply IH].
Qed.


(** ** Claims *)

(** C16. Balances reconcile with the ledgers.  After any sequence of rebate
    and profit settlements, successful or refused, in any order and with
    repetitions, every account's balance has moved by exactly what the rebate
    and profit tables say it was paid, less the owner costs they record; the
    reward ledger has grown by the rebates of provider sites; and every new
    profit row splits its gross profit into the owner's net profit and the
    rebate without loss. *)
Theorem balances_reconcile_with_ledgers calls db u b :
  Forall call_ok calls -> balance u db = Some b ->
  let db' := run_calls calls db in
  balance u db' = Some (b + (ledger u db' - ledger u db)) /\
  rewards_of u db' - rewards_of u db = site_rebates_to u db' - site_rebates_to u db /\
  forall k p, cm_profits db' !! k = Some p -> cm_profits db !! k = None -> adds_up p.
Proof.
  intros Hf Hb db'. pose proof (run_calls_reconciled calls db Hf) as Hr. fold db' in Hr. split_and!.
  - by rewrite (rec_balance _ _ Hr), Hb.
  - apply (rec_rewards _ _ Hr).
  - intros k p Hp Hn. destruct (rec_rows _ _ Hr k p Hp); [congruence | done].
Qed.

End Reconcile.

(** ** A concrete site

    User 3 of provider 5 was invited by user 2; user 1 owns the provider. *)

Definition ten_percent : float64 := S754_finite false 5629499534213120 (-49).
Definition demo_commissions : Commissions :=
  {| percent := fun q _ => q * 10 / 100; money_of := fun _ => float_zero; InviteTopupRebateRatio := ten_percent |}.
#[local] Existing Instance demo_commissions.

Definition demo_comm : commDB :=
  mkComm {[1 := mkAccount 0 5 0 1000 300; 2 := mkAccount 0 5 1 0 0; 3 := mkAccount 2 5 0 50 0]}
    [mkPricing 9 5 "fast" "gpt" true ten_percent] ∅ [] ∅ ∅ 1 1.
Definition demo_profit : ProviderProfit :=
  mkProfit 0 5 1 3 "req-1" "fast" "gpt" 600 200 600 150 50 400 0 0 false false 0.
Definition demo_calls : list comm_call :=
  [ProfitCall 100 demo_profit; RebateCall 101 "" 3 "req-2" 500 (Some (mkRebateContext 5 9 "fast" "gpt")); ProfitCall 102 demo_profit].

Lemma demo_calls_ok : Forall call_ok demo_calls.
Proof. repeat constructor; cbn; unfold is_i64, min_i64, max_i64; lia. Qed.

Lemma balances_reconcile_with_ledgers_witness :
  balance 1 (run_calls demo_calls demo_comm) = Some 1310 /\ ledger 1 (run_calls demo_calls demo_comm) = 310 /\
  balance 2 (run_calls demo_calls demo_comm) = Some (0 + (ledger 2 (run_calls demo_calls demo_comm) - 0)).
Proof.
  split; [vm_compute; reflexivity|]. split; [vm_compute; reflexivity|].
  exact (proj1 (balances_reconcile_with_ledgers demo_calls demo_comm 2 0 demo_calls_ok eq_refl)).
Defined.

