(* ===== verification/Redemption.v ===== *)
(** * Redemption codes and top-up bonuses

    The tables of everything that is credited to a user other than by
    consumption (src/model/topup.go, redemption.go, topup_bonus.go, checkin.go,
    crypto_transaction.go), the redemption of a code, its administration, and
    the bonus of a top-up, which is a code issued and redeemed at once.

    A transaction is a function to a result: an error leaves the tables as they
    were.  Each transaction is split where it has read its rows, because nothing
    holds those rows until it writes (see [CreditHistory]).  Log lines and cache
    updates are left out, error texts are in English, one clock reading [now]
    stands for a call, and random strings are arguments. *)

From stdpp Require Import base numbers list strings pretty gmap.
From Stdlib Require Import ZArith QArith Lia SpecFloat Ascii.
From S2P Require Import Prelude GoInt GoString SubStock SubOrder Commission.
#[local] Open Scope Z_scope.

(** ** Tables *)

(** The columns of [users] read and written here. *)
Record Holder := mkHolder {
  h_ProviderId : Z; h_Timezone : string; h_Email : string; h_StripeCustomer : string; h_Quota : Z; h_RewardQuota : Z
}.

(** A row of [top_ups]: the primary key and the other columns. *)
Record TopUpRow := mkRow { w_Id : Z; w_TopUp : TopUp }.

(** [rd_Deleted] is whether [deleted_at] is set. *)
Record Redemption := mkRedemption {
  rd_Id : Z; rd_ProviderId : Z; rd_UserId : Z; rd_Key : string; rd_Status : Z; rd_Name : string; rd_Quota : Z;
  rd_CreatedTime : Z; rd_RedeemedTime : Z; rd_UsedUserId : Z; rd_Deleted : bool; rd_ExpiredTime : Z; rd_SentTime : Z
}.

Record TopUpBonusGrant := mkGrant {
  bg_UserId : Z; bg_RuleId : string; bg_TradeNo : string; bg_Quota : Z; bg_Amount : float64; bg_Currency : string; bg_CreatedTime : Z
}.

Record CryptoTransaction := mkCrypto {
  ct_TopUpId : Z; ct_SubscriptionOrderId : Z; ct_UserId : Z; ct_TradeNo : string; ct_TxHash : option string; ct_ChainId : Z;
  ct_TokenSymbol : string; ct_TokenContract : string; ct_TokenDecimals : Z; ct_ReceiverAddress : string; ct_PayerAddress : string;
  ct_UsdtAmount : string; ct_BlockNumber : Z; ct_Confirmations : Z; ct_Status : string; ct_CreateTime : Z; ct_CompleteTime : Z
}.

Record Checkin := mkCheckin {
  ci_Id : Z; ci_ProviderId : Z; ci_UserId : Z; ci_CheckinDate : string; ci_QuotaAwarded : Z; ci_CreatedAt : Z
}.

(** The unique indexes are the keys: [trade_no] of the top-ups and the crypto
    transactions, [provider_id, key] of the codes (deleted rows included),
    [user_id, rule_id] of the bonus grants, [provider_id, user_id,
    checkin_date] of the check-ins. *)
Record creditDB := mkCredit {
  cd_users : gmap Z Holder;
  cd_topups : gmap string TopUpRow;
  cd_codes : gmap (Z * string) Redemption;
  cd_grants : gmap (Z * string) TopUpBonusGrant;
  cd_crypto : gmap string CryptoTransaction;
  cd_checkins : gmap (Z * Z * string) Checkin;
  cd_rewards : list RewardRecord;
  cd_nextTopUp : Z; cd_nextCode : Z; cd_nextCheckin : Z
}.

Definition with_holders (x : gmap Z Holder) (db : creditDB) : creditDB :=
  mkCredit x (cd_topups db) (cd_codes db) (cd_grants db) (cd_crypto db) (cd_checkins db) (cd_rewards db)
    (cd_nextTopUp db) (cd_nextCode db) (cd_nextCheckin db).
Definition with_rows (x : gmap string TopUpRow) (next : Z) (db : creditDB) : creditDB :=
  mkCredit (cd_users db) x (cd_codes db) (cd_grants db) (cd_crypto db) (cd_checkins db) (cd_rewards db)
    next (cd_nextCode db) (cd_nextCheckin db).
Definition with_codes (x : gmap (Z * string) Redemption) (next : Z) (db : creditDB) : creditDB :=
  mkCredit (cd_users db) (cd_topups db) x (cd_grants db) (cd_crypto db) (cd_checkins db) (cd_rewards db)
    (cd_nextTopUp db) next (cd_nextCheckin db).
Definition with_grants (x : gmap (Z * string) TopUpBonusGrant) (db : creditDB) : creditDB :=
  mkCredit (cd_users db) (cd_topups db) (cd_codes db) x (cd_crypto db) (cd_checkins db) (cd_rewards db)
    (cd_nextTopUp db) (cd_nextCode db) (cd_nextCheckin db).
Definition with_crypto (x : gmap string CryptoTransaction) (db : creditDB) : creditDB :=
  mkCredit (cd_users db) (cd_topups db) (cd_codes db) (cd_grants db) x (cd_checkins db) (cd_rewards db)
    (cd_nextTopUp db) (cd_nextCode db) (cd_nextCheckin db).
Definition with_checkins (x : gmap (Z * Z * string) Checkin) (next : Z) (db : creditDB) : creditDB :=
  mkCredit (cd_users db) (cd_topups db) (cd_codes db) (cd_grants db) (cd_crypto db) x (cd_rewards db)
    (cd_nextTopUp db) (cd_nextCode db) next.
Definition with_rewards (x : list RewardRecord) (db : creditDB) : creditDB :=
  mkCredit (cd_users db) (cd_topups db) (cd_codes db) (cd_grants db) (cd_crypto db) (cd_checkins db) x
    (cd_nextTopUp db) (cd_nextCode db) (cd_nextCheckin db).

Definition credit_tx {A} (db : creditDB) (f : creditDB -> result (A * creditDB)) : result A * creditDB :=
  match f db with Ok (a, db') => (Ok a, db') | Err e => (Err e, db) end.

(** [UPDATE users SET quota = quota + q, reward_quota = reward_quota + r WHERE id = id]. *)
Definition add_quota (id q r : Z) (db : creditDB) : creditDB :=
  with_holders (alter (fun h => mkHolder (h_ProviderId h) (h_Timezone h) (h_Email h) (h_StripeCustomer h) (h_Quota h + q) (h_RewardQuota h + r))
                    id (cd_users db)) db.

Definition CreateRewardRecord (now : Z) (r : RewardRecord) (db : creditDB) : result creditDB :=
  r ← reward_BeforeCreate now r; Ok (with_rewards (cd_rewards db ++ [r]) db).

(** ** Top-up rows *)

Definition TopUpBizTypeRedemption : string := "redemption".

Definition normalizeTopUpBizType (bizType : string) : string := if String.eqb bizType "" then TopUpBizTypePayment else bizType.

Definition GetBizType (t : TopUp) : string :=
  if String.eqb (tu_BizType t) "" then
    if (tu_Amount t =? 0) && HasPrefix (ToLower (tu_TradeNo t)) "sub" then TopUpBizTypeSubscription else TopUpBizTypePayment
  else normalizeTopUpBizType (tu_BizType t).

Definition with_BizType (biz : string) (t : TopUp) : TopUp :=
  mkTopUp (tu_ProviderId t) (tu_UserId t) (tu_Amount t) (tu_Money t) (tu_TradeNo t) (tu_PaymentMethod t) (tu_PaymentProvider t) biz
    (tu_SourceID t) (tu_CreateTime t) (tu_CompleteTime t) (tu_Status t) (tu_Currency t) (tu_OriginalMoney t).

Definition applyDefaults (t : TopUp) : TopUp := with_BizType (normalizeTopUpBizType (tu_BizType t)) t.

(** [topUp.InsertTx(tx)], and [topUp.Insert()] outside of a transaction. *)
Definition InsertTx (t : TopUp) (db : creditDB) : result (Z * creditDB) :=
  let t := applyDefaults t in
  match cd_topups db !! tu_TradeNo t with
  | Some _ => fail_with "duplicate trade_no"
  | None => Ok (cd_nextTopUp db, with_rows (<[tu_TradeNo t := mkRow (cd_nextTopUp db) t]> (cd_topups db)) (cd_nextTopUp db + 1) db)
  end.

(** [Save] of a row that was read. *)
Definition save_row (row : TopUpRow) (db : creditDB) : creditDB :=
  with_rows (<[tu_TradeNo (w_TopUp row) := row]> (cd_topups db)) (cd_nextTopUp db) db.

(** ** Codes *)

Definition RedemptionCodeStatusEnabled : Z := 1.
Definition RedemptionCodeStatusDisabled : Z := 2.
Definition RedemptionCodeStatusUsed : Z := 3.

Record redemptionOriginalValue := mkOriginal { ov_Amount : float64; ov_Currency : string }.

Definition normalizeRedemptionCurrency (currency : string) : result string :=
  let c := ToUpper (TrimSpace currency) in
  if str_in c ["USD"; "$"] then Ok "USD" else if str_in c ["CNY"; "¥"; "￥"] then Ok "CNY"
  else fail_with "unsupported redemption currency".

(** Columns with a default are inserted with it when they are zero. *)
Definition code_defaults (id : Z) (r : Redemption) : Redemption :=
  mkRedemption id (rd_ProviderId r) (rd_UserId r) (rd_Key r) (if rd_Status r =? 0 then RedemptionCodeStatusEnabled else rd_Status r) (rd_Name r)
    (if rd_Quota r =? 0 then 100 else rd_Quota r) (rd_CreatedTime r) (rd_RedeemedTime r) (rd_UsedUserId r) (rd_Deleted r)
    (rd_ExpiredTime r) (rd_SentTime r).
Definition Redemption_Insert (r : Redemption) (db : creditDB) : result creditDB :=
  match cd_codes db !! (rd_ProviderId r, rd_Key r) with
  | Some _ => fail_with "duplicate key"
  | None => Ok (with_codes (<[(rd_ProviderId r, rd_Key r) := code_defaults (cd_nextCode db) r]> (cd_codes db)) (cd_nextCode db + 1) db)
  end.

(** An [UPDATE] of the rows that are not deleted and satisfy [p]. *)
Definition update_codes (p : Redemption -> bool) (f : Redemption -> Redemption) (db : creditDB) : creditDB :=
  with_codes ((fun r => if negb (rd_Deleted r) && p r then f r else r) <$> cd_codes db) (cd_nextCode db) db.

Definition code_edit (r new : Redemption) : Redemption :=
  mkRedemption (rd_Id r) (rd_ProviderId r) (rd_UserId r) (rd_Key r) (rd_Status new) (rd_Name new) (rd_Quota new) (rd_CreatedTime r)
    (rd_RedeemedTime new) (rd_UsedUserId r) (rd_Deleted r) (rd_ExpiredTime new) (rd_SentTime r).
Definition code_delete (r : Redemption) : Redemption :=
  mkRedemption (rd_Id r) (rd_ProviderId r) (rd_UserId r) (rd_Key r) (rd_Status r) (rd_Name r) (rd_Quota r) (rd_CreatedTime r)
    (rd_RedeemedTime r) (rd_UsedUserId r) true (rd_ExpiredTime r) (rd_SentTime r).
Definition code_sent (at_ : Z) (r : Redemption) : Redemption :=
  mkRedemption (rd_Id r) (rd_ProviderId r) (rd_UserId r) (rd_Key r) (rd_Status r) (rd_Name r) (rd_Quota r) (rd_CreatedTime r)
    (rd_RedeemedTime r) (rd_UsedUserId r) (rd_Deleted r) (rd_ExpiredTime r) at_.

(** [redemption.Update()]: the selected columns, by primary key. *)
Definition Redemption_Update (r : Redemption) (db : creditDB) : creditDB :=
  update_codes (fun c => rd_Id c =? rd_Id r) (fun c => code_edit c r) db.

Definition live_code (p : Redemption -> bool) (db : creditDB) : option Redemption :=
  find (fun r => negb (rd_Deleted r) && p r) (map snd (map_to_list (cd_codes db))).

Definition GetRedemptionById (id : Z) (db : creditDB) : result Redemption :=
  if id =? 0 then fail_with "id is empty"
  else match live_code (fun r => rd_Id r =? id) db with Some r => Ok r | None => fail_with "record not found" end.

Definition DeleteRedemptionById (id : Z) (db : creditDB) : result unit * creditDB :=
  if id =? 0 then (fail_with "id is empty", db)
  else match live_code (fun r => rd_Id r =? id) db with
       | Some r => (Ok tt, update_codes (fun c => rd_Id c =? rd_Id r) code_delete db)
       | None => (fail_with "record not found", db)
       end.
Definition DeleteRedemptionByIdInProvider (id providerId : Z) (db : creditDB) : result unit * creditDB :=
  if id =? 0 then (fail_with "id is empty", db)
  else match live_code (fun r => (rd_Id r =? id) && (rd_ProviderId r =? providerId)) db with
       | Some r => (Ok tt, update_codes (fun c => rd_Id c =? rd_Id r) code_delete db)
       | None => (fail_with "record not found", db)
       end.

(** Used, disabled and expired codes of a site. *)
Definition invalid_code (now providerId : Z) (r : Redemption) : bool :=
  (rd_ProviderId r =? providerId) &&
  ((rd_Status r =? RedemptionCodeStatusUsed) || (rd_Status r =? RedemptionCodeStatusDisabled) ||
   (rd_Status r =? RedemptionCodeStatusEnabled) && negb (rd_ExpiredTime r =? 0) && (rd_ExpiredTime r <? now)).
Definition DeleteInvalidRedemptionsByProvider (now providerId : Z) (db : creditDB) : creditDB :=
  update_codes (invalid_code now providerId) code_delete db.

Definition BatchUpdateRedemptionSent (now providerId : Z) (ids : list Z) (sent : bool) (db : creditDB) : creditDB :=
  let sentTime := if sent then now else 0 in
  update_codes (fun r => existsb (Z.eqb (rd_Id r)) ids && (negb (0 <? providerId) || (rd_ProviderId r =? providerId)))
    (code_sent sentTime) db.

(** *** Administration *)

(** [utf8.RuneCountInString] of text that is valid UTF-8, as the JSON decoder leaves it. *)
Definition RuneCountInString (s : string) : Z :=
  Z.of_nat (length (filter (fun a => negb ((128 <=? nat_of_ascii a)%nat && (nat_of_ascii a <? 192)%nat)) (String.list_ascii_of_string s))).

Definition validateExpiredTime (now expired : Z) : bool := negb (negb (expired =? 0) && (expired <? now)).

(** The loop that inserts the codes: whether it finished, and the keys made so far. *)
Fixpoint insert_codes (make : string -> Redemption) (uuids : list string) (keys : list string) (db : creditDB) : (bool * list string) * creditDB :=
  match uuids with
  | [] => ((true, keys), db)
  | key :: rest =>
      match Redemption_Insert (make key) db with
      | Err _ => ((false, keys), db)
      | Ok db => insert_codes make rest (keys ++ [key]) db
      end
  end.

(** [AddRedemption] and [AddProviderRedemption], [providerId] being the site;
    [uuid i] is the i-th key drawn. *)
Definition AddRedemption (now providerId userId count : Z) (uuid : nat -> string) (req : Redemption) (db : creditDB)
  : result (bool * list string) * creditDB :=
  if (RuneCountInString (rd_Name req) =? 0) || (20 <? RuneCountInString (rd_Name req)) then (fail_with "name length", db)
  else if count <=? 0 then (fail_with "count must be positive", db)
  else if 100 <? count then (fail_with "count too large", db)
  else if negb (validateExpiredTime now (rd_ExpiredTime req)) then (fail_with "expiry in the past", db)
  else
    let make key := mkRedemption 0 providerId userId key 0 (rd_Name req) (rd_Quota req) now 0 0 false (rd_ExpiredTime req) 0 in
    let '(r, db) := insert_codes make (uuid <$> seq 0 (Z.to_nat count)) [] db in (Ok r, db).

Definition edited (statusOnly : bool) (req r : Redemption) : Redemption :=
  if statusOnly
  then mkRedemption (rd_Id r) (rd_ProviderId r) (rd_UserId r) (rd_Key r) (rd_Status req) (rd_Name r) (rd_Quota r) (rd_CreatedTime r)
         (rd_RedeemedTime r) (rd_UsedUserId r) (rd_Deleted r) (rd_ExpiredTime r) (rd_SentTime r)
  else mkRedemption (rd_Id r) (rd_ProviderId r) (rd_UserId r) (rd_Key r) (rd_Status r) (rd_Name req) (rd_Quota req) (rd_CreatedTime r)
         (rd_RedeemedTime r) (rd_UsedUserId r) (rd_Deleted r) (rd_ExpiredTime req) (rd_SentTime r).

(** The row an edit reads, with the requested changes. *)
Definition edit_read (now : Z) (statusOnly : bool) (req : Redemption) (db : creditDB) : result Redemption :=
  r ← GetRedemptionById (rd_Id req) db;
  if negb statusOnly && negb (validateExpiredTime now (rd_ExpiredTime req)) then fail_with "expiry in the past"
  else Ok (edited statusOnly req r).

Definition UpdateRedemption (now : Z) (statusOnly : bool) (req : Redemption) (db : creditDB) : result unit * creditDB :=
  match edit_read now statusOnly req db with
  | Err e => (Err e, db)
  | Ok r => (Ok tt, Redemption_Update r db)
  end.

Definition used_code (now userId : Z) (r : Redemption) : Redemption :=
  mkRedemption (rd_Id r) (rd_ProviderId r) (rd_UserId r) (rd_Key r) RedemptionCodeStatusUsed (rd_Name r) (rd_Quota r) (rd_CreatedTime r)
    now userId (rd_Deleted r) (rd_ExpiredTime r) (rd_SentTime r).

Definition save_code (r : Redemption) (db : creditDB) : creditDB :=
  with_codes (<[(rd_ProviderId r, rd_Key r) := r]> (cd_codes db)) (cd_nextCode db) db.

Definition redemption_trade_no (r : Redemption) (userId : Z) (random : string) : string :=
  "RDM-" +:+ pretty (rd_Id r) +:+ "-" +:+ pretty userId +:+ "-" +:+ random.

Definition ErrRedeemFailed : error := ErrMsg "redeem failed".

(** ** Settings and arithmetic *)

Record TopUpGiftRule := mkGiftRule { gr_Id : string; gr_Threshold : float64; gr_Bonus : float64 }.
Record TopUpGiftConfig := mkGiftConfig { gc_Enabled : bool; gc_Rules : list TopUpGiftRule }.
(** [CurrencyStripeConfig], as far as it is used. *)
Record CurrencyConfig := mkCurrency { cc_UnitPrice : float64; cc_Symbol : string }.
Record DisplayCurrencyInfo := mkDisplay { di_Currency : string; di_Symbol : string; di_Rate : float64 }.
Record RewardConfig := mkRewardConfig { rw_CheckinEnabled : bool; rw_CheckinMinQuota : Z; rw_CheckinMaxQuota : Z }.

(** What is configured, and the code outside of the repository.
    [units_quota] and [usd_value] are products and quotients with
    [common.QuotaPerUnit] in github.com/shopspring/decimal, [round_amount] its
    rounding to six places, [bonus_value] the exact decimal a bonus is worth in
    quota (at an exchange rate for a user paying in CNY); [decode_rules] is the
    JSON decoder; [like_prefix] the database's [LIKE] with a trailing percent
    sign; tables of settings are read in the order the queries ask for. *)
Class Credits := {
  units_quota : Z -> Z;
  usd_value : Z -> float64;
  round_amount : float64 -> float64;
  bonus_value : float64 -> option float64 -> Q;
  decode_rules : string -> result (list TopUpGiftRule);
  like_prefix : string -> string -> bool;
  currency_config : string -> option CurrencyConfig;
  timezone_currencies : list (string * string);
  option_TopUpGiftRules : string;
  option_TopUpGiftEnabled : bool;
  GetProviderOptions : Z -> result (list (string * string));
  GetProviderRewardConfig : Z -> result RewardConfig
}.

Definition MaxQuota : Z := 2147483647.
Definition MinQuota : Z := -2147483648.

(** [Round(0)] of a decimal: to the nearest integer, halves away from zero. *)
Definition round_half_away (v : Q) : Z := Z.sgn (Qnum v) * ((2 * Z.abs (Qnum v) + QDen v) / (2 * QDen v)).

Definition QuotaFromDecimal (v : Q) : Z :=
  if Qle_bool (inject_Z MaxQuota) v then MaxQuota else if Qle_bool v (inject_Z MinQuota) then MinQuota else round_half_away v.

Definition f64_mul (x y : float64) : float64 := SFmul 53 1024 x y.
Definition f64_add (x y : float64) : float64 := SFadd 53 1024 x y.
Definition f64_div (x y : float64) : float64 := SFdiv 53 1024 x y.
(** The double nearest to 0.001. *)
Definition f64_milli : float64 := S754_finite false 4611686018427388 (-62).
Definition f64_one : float64 := S754_finite false 4503599627370496 (-52).

Section Bonus.
Context `{Credits}.

(** *** Redeeming *)

(** What the transaction of [redeem] reads and checks. *)
Definition redeem_read (now : Z) (key : string) (userId : Z) (db : creditDB) : result (Z * Redemption) :=
  match cd_users db !! userId with
  | None => fail_with "record not found"
  | Some user =>
      match cd_codes db !! (h_ProviderId user, key) with
      | None => fail_with "invalid redemption code"
      | Some redemption =>
          if rd_Deleted redemption then fail_with "invalid redemption code"
          else if negb (rd_Status redemption =? RedemptionCodeStatusEnabled) then fail_with "redemption code already used"
          else if negb (rd_ExpiredTime redemption =? 0) && (rd_ExpiredTime redemption <? now) then fail_with "redemption code expired"
          else Ok (h_ProviderId user, redemption)
      end
  end.

Definition redemption_row (now userId provider : Z) (random : string) (redemption : Redemption) (currency : string) (original : float64) : TopUp :=
  mkTopUp provider userId (rd_Quota redemption) (usd_value (rd_Quota redemption)) (redemption_trade_no redemption userId random)
    "redemptionCode" "" TopUpBizTypeRedemption (rd_Id redemption) now now TopUpStatusSuccess currency original.

(** What it then writes. *)
Definition redeem_write (now userId provider : Z) (random : string) (originalValue : option redemptionOriginalValue)
    (redemption : Redemption) (db : creditDB) : result creditDB :=
  let db := add_quota userId (rd_Quota redemption) (rd_Quota redemption) db in
  db ← (if 0 <? provider
        then CreateRewardRecord now (mkReward provider userId "redemption" (rd_Id redemption) (rd_Quota redemption) "redemption reward" 0) db
        else Ok db);
  shown ← match originalValue with
          | None => Ok ("USD", usd_value (rd_Quota redemption))
          | Some v =>
              if SFleb (ov_Amount v) float_zero then fail_with "invalid redemption original amount"
              else currency ← normalizeRedemptionCurrency (ov_Currency v); Ok (currency, round_amount (ov_Amount v))
          end;
  inserted ← InsertTx (redemption_row now userId provider random redemption shown.1 shown.2) db;
  Ok (save_code (used_code now userId redemption) inserted.2).

Definition redeem (now : Z) (random key : string) (userId : Z) (originalValue : option redemptionOriginalValue) (db : creditDB)
  : result Z * creditDB :=
  if String.eqb key "" then (fail_with "missing redemption code", db)
  else if userId =? 0 then (fail_with "invalid user id", db)
  else match (found ← redeem_read now key userId db;
              db' ← redeem_write now userId found.1 random originalValue found.2 db;
              Ok (rd_Quota found.2, db')) with
       | Ok (quota, db') => (Ok quota, db')
       | Err _ => (Err ErrRedeemFailed, db)
       end.

Definition Redeem (now : Z) (random key : string) (userId : Z) (db : creditDB) : result Z * creditDB :=
  redeem now random key userId None db.

(** *** The currency of a user *)

(** The text before the first slash. *)
Definition region_of (timezone : string) : string := match Split timezone (ascii_of_nat 47) with r :: _ :: _ => r | _ => "" end.

Definition GetCurrencyByTimezoneWithFallback (timezone defaultCurrency : string) : string :=
  if String.eqb timezone "" then defaultCurrency
  else match find (fun e => String.eqb e.1 timezone) timezone_currencies with
       | Some e => e.2
       | None =>
           let region := region_of timezone in
           if String.eqb region "" then defaultCurrency
           else match find (fun e => like_prefix (region +:+ "/") e.1) timezone_currencies with
                | Some e => e.2
                | None => defaultCurrency
                end
       end.

Definition GetDisplayCurrencyInfoByTimezone (timezone : string) : DisplayCurrencyInfo :=
  let info := mkDisplay "USD" "$" f64_one in
  if negb (EqualFold (GetCurrencyByTimezoneWithFallback timezone "USD") "CNY") then info
  else match currency_config "CNY" with
       | None => info
       | Some config =>
           if SFleb (cc_UnitPrice config) float_zero then info
           else let symbol := TrimSpace (cc_Symbol config) in
                mkDisplay "CNY" (if String.eqb symbol "" then "¥" else symbol) (cc_UnitPrice config)
       end.

(** *** The bonus *)

Definition parseTopUpGiftRulesFrom (str : string) : result (list TopUpGiftRule) :=
  if String.eqb (TrimSpace str) "" then Ok [] else decode_rules str.

(** The last value of each key counts. *)
Definition gift_options (options : list (string * string)) : string * bool :=
  fold_left (fun acc o => if String.eqb o.1 "topup_gift.rules" then (o.2, acc.2)
                          else if String.eqb o.1 "topup_gift.enabled" then (acc.1, String.eqb o.2 "true") else acc) options ("", false).

Definition LoadTopUpGiftConfig (providerId : Z) : result TopUpGiftConfig :=
  config ← (if providerId =? 0 then Ok (option_TopUpGiftRules, option_TopUpGiftEnabled)
            else options ← GetProviderOptions providerId; Ok (gift_options options));
  rules ← parseTopUpGiftRulesFrom config.1;
  Ok (mkGiftConfig config.2 rules).

Definition eligible (userValue : float64) (r : TopUpGiftRule) : bool :=
  negb (String.eqb (gr_Id r) "" || SFleb (gr_Threshold r) float_zero || SFltb (gr_Bonus r) float_zero) &&
  SFleb (gr_Threshold r) (f64_add userValue f64_milli).

(** The loop over the rules. *)
Definition match_rule (userValue : float64) (rules : list TopUpGiftRule) : option TopUpGiftRule :=
  fold_left (fun matched r =>
    if eligible userValue r then
      match matched with
      | None => Some r
      | Some m => if SFltb (gr_Threshold m) (gr_Threshold r) then Some r else matched
      end
    else matched) rules None.

Definition claimTopUpBonusGrant (now userId : Z) (ruleId tradeNo : string) (quota : Z) (amount : float64) (currency : string) (db : creditDB)
  : bool * creditDB :=
  match cd_grants db !! (userId, ruleId) with
  | Some _ => (false, db)
  | None => (true, with_grants (<[(userId, ruleId) := mkGrant userId ruleId tradeNo quota amount currency now]> (cd_grants db)) db)
  end.

Definition releaseTopUpBonusGrant (userId : Z) (ruleId : string) (db : creditDB) : creditDB :=
  with_grants (delete (userId, ruleId) (cd_grants db)) db.

(** The rule a payment earns and its bonus: the currency and the rate of the
    user, the amount rounded to six places, the quota. *)
Record bonus_offer := mkOffer { of_rule : TopUpGiftRule; of_currency : string; of_amount : float64; of_quota : Z }.

(** The payment in the currency of the user. *)
Definition user_value (info : DisplayCurrencyInfo) (moneyUSD : float64) : float64 :=
  if String.eqb (di_Currency info) "CNY" then f64_mul moneyUSD (di_Rate info) else moneyUSD.

Definition offer_for (userId providerId : Z) (moneyUSD : float64) (db : creditDB) : option (Holder * bonus_offer) :=
  if (userId <=? 0) || SFleb moneyUSD float_zero then None
  else match LoadTopUpGiftConfig providerId with
  | Err _ => None
  | Ok config =>
      if negb (gc_Enabled config) then None
      else if bool_decide (gc_Rules config = []) then None
      else match cd_users db !! userId with
      | None => None
      | Some user =>
          let info := GetDisplayCurrencyInfoByTimezone (h_Timezone user) in
          let cny := String.eqb (di_Currency info) "CNY" in
          if cny && SFleb (di_Rate info) float_zero then None
          else
            match match_rule (user_value info moneyUSD) (gc_Rules config) with
            | None => None
            | Some rule =>
                if SFeqb (gr_Bonus rule) float_zero then None
                else
                  let bonusQuota := QuotaFromDecimal (bonus_value (gr_Bonus rule) (if cny then Some (di_Rate info) else None)) in
                  if bonusQuota <=? 0 then None
                  else Some (user, mkOffer rule (di_Currency info) (round_amount (gr_Bonus rule)) bonusQuota)
            end
      end
  end.

Definition bonus_code (now provider : Z) (uuid : string) (quota : Z) : Redemption :=
  mkRedemption 0 provider 0 uuid RedemptionCodeStatusEnabled "top-up bonus" quota now 0 0 false 0 0.

Definition GrantTopUpBonus (now : Z) (uuid random : string) (userId providerId : Z) (moneyUSD : float64) (tradeNo : string) (db : creditDB)
  : creditDB :=
  match offer_for userId providerId moneyUSD db with
  | None => db
  | Some (user, o) =>
      let ruleId := gr_Id (of_rule o) in
      let '(claimed, db) := claimTopUpBonusGrant now userId ruleId tradeNo (of_quota o) (of_amount o) (of_currency o) db in
      if negb claimed then db
      else match Redemption_Insert (bonus_code now (h_ProviderId user) uuid (of_quota o)) db with
           | Err _ => releaseTopUpBonusGrant userId ruleId db
           | Ok db =>
               match redeem now random uuid userId (Some (mkOriginal (of_amount o) (of_currency o))) db with
               | (Err _, db) => releaseTopUpBonusGrant userId ruleId db
               | (Ok _, db) => db
               end
           end
  end.

End Bonus.
