(* ===== verification/TopUp.v ===== *)
(** * Top-ups

    The completion of a payment order by each gateway and by hand
    (src/model/topup.go), the orders that fail or expire
    (src/controller/topup_stripe.go, topup_waffo.go), on-chain payments
    (src/model/crypto_transaction.go) and daily check-ins (src/model/checkin.go).
    As in [Redemption], a completion is split into the row it reads and the
    transaction on that row. *)

From stdpp Require Import base numbers list strings pretty gmap.
From Stdlib Require Import ZArith Lia SpecFloat.
From S2P Require Import Prelude GoInt GoString SubStock SubOrder Commission Redemption.

Definition PaymentProviderEpay : string := "epay".
Definition PaymentProviderLakala : string := "lakala".
Definition PaymentProviderStripe : string := "stripe".
Definition PaymentProviderWaffoPancake : string := "waffo_pancake".
Definition TopUpStatusFailed : string := "failed".

Definition ErrTopUpNotFound : error := ErrMsg "topup not found".
Definition ErrTopUpStatusInvalid : error := ErrMsg "topup status invalid".
Definition ErrTopUpFailed : error := ErrMsg "top-up failed, try again later".

Definition with_Status (status : string) (t : TopUp) : TopUp :=
  mkTopUp (tu_ProviderId t) (tu_UserId t) (tu_Amount t) (tu_Money t) (tu_TradeNo t) (tu_PaymentMethod t) (tu_PaymentProvider t) (tu_BizType t)
    (tu_SourceID t) (tu_CreateTime t) (tu_CompleteTime t) status (tu_Currency t) (tu_OriginalMoney t).
(** [CompleteTime = now; Status = success]. *)
Definition with_success (now : Z) (t : TopUp) : TopUp :=
  mkTopUp (tu_ProviderId t) (tu_UserId t) (tu_Amount t) (tu_Money t) (tu_TradeNo t) (tu_PaymentMethod t) (tu_PaymentProvider t) (tu_BizType t)
    (tu_SourceID t) (tu_CreateTime t) now TopUpStatusSuccess (tu_Currency t) (tu_OriginalMoney t).
Definition map_row (f : TopUp -> TopUp) (row : TopUpRow) : TopUpRow := mkRow (w_Id row) (f (w_TopUp row)).

(** [topUp.BizType = topUp.GetBizType()] *)
Definition fix_biz (row : TopUpRow) : TopUpRow := map_row (fun t => with_BizType (GetBizType t) t) row.

Definition status_is (row : TopUpRow) (s : string) : bool := String.eqb (tu_Status (w_TopUp row)) s.
Definition method_is (row : TopUpRow) (s : string) : bool := String.eqb (tu_PaymentMethod (w_TopUp row)) s.
Definition biz_is (row : TopUpRow) (s : string) : bool := String.eqb (GetBizType (w_TopUp row)) s.

Definition CanManualComplete (t : TopUp) : bool := String.eqb (GetBizType t) TopUpBizTypePayment.

(** Top-up rebates are retired: the function returns at once. *)
Definition applyInviteTopupRebateTx (t : TopUp) (quotaToAdd : Z) : result (Z * Z) := Ok (0, 0).

(** The random strings one completion may draw for its bonus. *)
Record draw := mkDraw { dr_uuid : string; dr_random : string }.

Section TopUps.
Context `{Accounting, Credits}.

(** ** The quota of an order *)

Definition positive_amount (t : TopUp) (e : string) : result Z := if tu_Amount t <=? 0 then fail_with e else Ok (tu_Amount t).

Definition GetQuotaToAdd (t : TopUp) : result Z :=
  let biz := GetBizType t in
  let method := tu_PaymentMethod t in
  if String.eqb biz TopUpBizTypeRedemption then positive_amount t "invalid redemption quota"
  else if String.eqb biz TopUpBizTypeSubscription then fail_with "a subscription bill cannot be completed by hand"
  else if String.eqb biz TopUpBizTypePayment then
    if str_in method [TopUpPaymentMethodProviderProfit; TopUpPaymentMethodProviderSubscription] then positive_amount t "invalid provider share"
    else if str_in method ["stripe"; "wxpay"; "alipay"; PaymentProviderLakala] then Ok (quota_of (tu_Money t))
    else if String.eqb method "crypto" then
      let money := tu_OriginalMoney t in
      let money := if String.eqb (tu_Currency t) "¥" then
                     match currency_config "CNY" with
                     | Some config => if SFltb float_zero (cc_UnitPrice config) then f64_div money (cc_UnitPrice config) else money
                     | None => money
                     end
                   else money in
      Ok (quota_of money)
    else if String.eqb method "creem" then positive_amount t "invalid quota"
    else if String.eqb method "" then fail_with "payment method missing"
    else Ok (units_quota (tu_Amount t))
  else fail_with "unsupported bill type".

(** ** Completion *)

(** The transaction saves the completed row and credits its user. *)
Definition credit_row (now quotaToAdd : Z) (row : TopUpRow) (db : creditDB) : creditDB :=
  add_quota (tu_UserId (w_TopUp row)) quotaToAdd 0 (save_row (map_row (with_success now) row) db).

(** What a transaction reports: the order and its quota when it was completed now. *)
Definition completion : Type := option (TopUp * Z).

(** What follows a commit. *)
Definition after_commit (now : Z) (d : draw) (done : completion) (db : creditDB) : creditDB :=
  match done with
  | None => db
  | Some (t, _) => GrantTopUpBonus now (dr_uuid d) (dr_random d) (tu_UserId t) (tu_ProviderId t) (tu_Money t) (tu_TradeNo t) db
  end.

Definition concluded (now : Z) (d : draw) (report : error -> error) (r : result (completion * creditDB)) (db : creditDB) : result unit * creditDB :=
  match r with
  | Err e => (Err (report e), db)
  | Ok (done, db') => (Ok tt, after_commit now d done db')
  end.
Definition masked (e : error) : error := ErrTopUpFailed.

(** *** Stripe *)

Definition set_stripe_customer (userId : Z) (customerId : string) (db : creditDB) : creditDB :=
  with_holders (alter (fun h => mkHolder (h_ProviderId h) (h_Timezone h) (h_Email h) customerId (h_Quota h) (h_RewardQuota h))
                      userId (cd_users db)) db.

Definition Recharge_tx (now : Z) (customerId : string) (found : option TopUpRow) (db : creditDB) : result (completion * creditDB) :=
  match found with
  | None => fail_with "order not found"
  | Some row =>
      let row := fix_biz row in
      if status_is row TopUpStatusSuccess then Ok (None, db)
      else if negb (method_is row "stripe") then Err ErrPaymentMethodMismatch
      else if negb (status_is row TopUpStatusPending) then fail_with "wrong order status"
      else if negb (biz_is row TopUpBizTypePayment) then fail_with "wrong bill type"
      else
        let row := map_row (with_success now) row in
        let db := save_row row db in
        quotaToAdd ← GetQuotaToAdd (w_TopUp row);
        let userId := tu_UserId (w_TopUp row) in
        let db := add_quota userId quotaToAdd 0 (set_stripe_customer userId customerId db) in
        _ ← applyInviteTopupRebateTx (w_TopUp row) quotaToAdd;
        Ok (Some (w_TopUp row, quotaToAdd), db)
  end.

Definition Recharge (now : Z) (d : draw) (referenceId customerId : string) (db : creditDB) : result unit * creditDB :=
  if String.eqb referenceId "" then (fail_with "no order number", db)
  else concluded now d masked (Recharge_tx now customerId (cd_topups db !! referenceId) db) db.

(** *** E-pay and Lakala *)

Definition provider_mismatch (expectedProvider : string) (t : TopUp) : bool :=
  negb (String.eqb expectedProvider "") && negb (String.eqb (tu_PaymentProvider t) expectedProvider) &&
  negb (String.eqb expectedProvider PaymentProviderEpay && String.eqb (tu_PaymentProvider t) "").

Definition RechargeWechatTopUp_tx (now : Z) (expectedPaymentMethod expectedProvider : string) (found : option TopUpRow) (db : creditDB)
  : result (completion * creditDB) :=
  match found with
  | None => fail_with "order not found"
  | Some row =>
      let row := fix_biz row in
      if String.eqb expectedPaymentMethod "" || negb (method_is row expectedPaymentMethod) then Err ErrPaymentMethodMismatch
      else if provider_mismatch expectedProvider (w_TopUp row) then Err ErrPaymentMethodMismatch
      else if status_is row TopUpStatusSuccess then Ok (None, db)
      else if negb (status_is row TopUpStatusPending) then fail_with "wrong order status"
      else if negb (biz_is row TopUpBizTypePayment) then fail_with "wrong bill type"
      else
        quotaToAdd ← GetQuotaToAdd (w_TopUp row);
        let db := credit_row now quotaToAdd row db in
        _ ← applyInviteTopupRebateTx (w_TopUp row) quotaToAdd;
        Ok (Some (w_TopUp row, quotaToAdd), db)
  end.

Definition RechargeWechatTopUp (now : Z) (d : draw) (referenceId expectedPaymentMethod expectedProvider : string) (db : creditDB)
  : result unit * creditDB :=
  if String.eqb referenceId "" then (fail_with "no order number", db)
  else concluded now d (fun e => if decide (e = ErrPaymentMethodMismatch) then e else ErrTopUpFailed)
         (RechargeWechatTopUp_tx now expectedPaymentMethod expectedProvider (cd_topups db !! referenceId) db) db.

Definition RechargeEpay (now : Z) (d : draw) (referenceId expectedPaymentMethod : string) (db : creditDB) : result unit * creditDB :=
  RechargeWechatTopUp now d referenceId expectedPaymentMethod PaymentProviderEpay db.

(** *** By hand *)

Definition ManualCompleteTopUp_tx (now : Z) (found : option TopUpRow) (db : creditDB) : result (completion * creditDB) :=
  match found with
  | None => fail_with "order not found"
  | Some row =>
      let row := fix_biz row in
      if status_is row TopUpStatusSuccess then Ok (None, db)
      else if negb (CanManualComplete (w_TopUp row)) then fail_with "bill type cannot be completed by hand"
      else if negb (status_is row TopUpStatusPending) then fail_with "order is not pending"
      else
        quotaToAdd ← GetQuotaToAdd (w_TopUp row);
        if quotaToAdd <=? 0 then fail_with "invalid quota"
        else
          let db := credit_row now quotaToAdd row db in
          _ ← applyInviteTopupRebateTx (w_TopUp row) quotaToAdd;
          Ok (Some (w_TopUp row, quotaToAdd), db)
  end.

Definition ManualCompleteTopUp (now : Z) (d : draw) (tradeNo : string) (db : creditDB) : result unit * creditDB :=
  if String.eqb tradeNo "" then (fail_with "no order number", db)
  else concluded now d id (ManualCompleteTopUp_tx now (cd_topups db !! tradeNo) db) db.

(** *** Creem *)

Definition set_email (userId : Z) (email : string) (db : creditDB) : creditDB :=
  with_holders (alter (fun h => mkHolder (h_ProviderId h) (h_Timezone h) email (h_StripeCustomer h) (h_Quota h) (h_RewardQuota h))
                      userId (cd_users db)) db.

(** The e-mail address of a payer is taken over when the user has none. *)
Definition sync_email (userId : Z) (customerEmail : string) (db : creditDB) : result creditDB :=
  if String.eqb customerEmail "" then Ok db
  else match cd_users db !! userId with
       | None => fail_with "record not found"
       | Some user => Ok (if String.eqb (h_Email user) "" then set_email userId customerEmail db else db)
       end.

Definition RechargeCreem_tx (now : Z) (customerEmail : string) (found : option TopUpRow) (db : creditDB) : result (completion * creditDB) :=
  match found with
  | None => fail_with "order not found"
  | Some row =>
      let row := fix_biz row in
      if status_is row TopUpStatusSuccess then Ok (None, db)
      else if negb (method_is row "creem") then Err ErrPaymentMethodMismatch
      else if negb (status_is row TopUpStatusPending) then fail_with "wrong order status"
      else if negb (biz_is row TopUpBizTypePayment) then fail_with "wrong bill type"
      else
        let row := map_row (with_success now) row in
        let db := save_row row db in
        quotaToAdd ← GetQuotaToAdd (w_TopUp row);
        let userId := tu_UserId (w_TopUp row) in
        db ← sync_email userId customerEmail db;
        let db := add_quota userId quotaToAdd 0 db in
        _ ← applyInviteTopupRebateTx (w_TopUp row) quotaToAdd;
        Ok (Some (w_TopUp row, quotaToAdd), db)
  end.

Definition RechargeCreem (now : Z) (d : draw) (referenceId customerEmail : string) (db : creditDB) : result unit * creditDB :=
  if String.eqb referenceId "" then (fail_with "no order number", db)
  else concluded now d masked (RechargeCreem_tx now customerEmail (cd_topups db !! referenceId) db) db.

(** *** Waffo: the bonus is granted when the quota of the call is positive *)

Definition waffo_outcome (t : TopUp) (quotaToAdd : Z) : completion := if 0 <? quotaToAdd then Some (t, quotaToAdd) else None.

Definition RechargeWaffo_tx (now : Z) (found : option TopUpRow) (db : creditDB) : result (completion * creditDB) :=
  match found with
  | None => fail_with "order not found"
  | Some row =>
      if negb (method_is row "waffo") then Err ErrPaymentMethodMismatch
      else if status_is row TopUpStatusSuccess then Ok (waffo_outcome (w_TopUp row) 0, db)
      else if negb (status_is row TopUpStatusPending) then fail_with "wrong order status"
      else
        let quotaToAdd := units_quota (tu_Amount (w_TopUp row)) in
        if quotaToAdd <=? 0 then fail_with "invalid quota"
        else
          let db := credit_row now quotaToAdd row db in
          _ ← applyInviteTopupRebateTx (w_TopUp row) quotaToAdd;
          Ok (waffo_outcome (w_TopUp row) quotaToAdd, db)
  end.

Definition RechargeWaffo (now : Z) (d : draw) (tradeNo : string) (db : creditDB) : result unit * creditDB :=
  if String.eqb tradeNo "" then (fail_with "no order number", db)
  else concluded now d masked (RechargeWaffo_tx now (cd_topups db !! tradeNo) db) db.

Definition RechargeWaffoPancake_tx (now : Z) (found : option TopUpRow) (db : creditDB) : result (completion * creditDB) :=
  match found with
  | None => fail_with "order not found"
  | Some row =>
      if negb (String.eqb (tu_PaymentProvider (w_TopUp row)) PaymentProviderWaffoPancake) then Err ErrPaymentMethodMismatch
      else if status_is row TopUpStatusSuccess then Ok (waffo_outcome (w_TopUp row) 0, db)
      else if negb (status_is row TopUpStatusPending) then fail_with "wrong order status"
      else
        quotaToAdd ← GetQuotaToAdd (w_TopUp row);
        if quotaToAdd <=? 0 then fail_with "invalid quota"
        else Ok (waffo_outcome (w_TopUp row) quotaToAdd, credit_row now quotaToAdd row db)
  end.

Definition RechargeWaffoPancake (now : Z) (d : draw) (tradeNo : string) (db : creditDB) : result unit * creditDB :=
  if String.eqb tradeNo "" then (fail_with "no order number", db)
  else concluded now d masked (RechargeWaffoPancake_tx now (cd_topups db !! tradeNo) db) db.

(** *** On-chain payments *)

Definition CryptoTransactionStatusPending : string := "pending".
Definition CryptoTransactionStatusSuccess : string := "success".
Definition ErrCryptoTransactionStatusInvalid : error := ErrMsg "crypto transaction status invalid".
Definition ErrCryptoTransactionHashUsed : error := ErrMsg "crypto transaction hash already used".

Definition normalizeTxHash (txHash : string) : string := ToLower (TrimSpace txHash).

(** Rows of other orders with this hash, whatever its case. *)
Definition hash_taken (txHash tradeNo : string) (db : creditDB) : bool :=
  existsb (fun c => match ct_TxHash c with Some h => String.eqb (ToLower h) (ToLower txHash) | None => false end &&
                    negb (String.eqb (ct_TradeNo c) tradeNo)) (map snd (map_to_list (cd_crypto db))).
(** The unique index on [tx_hash]. *)
Definition hash_clash (c : CryptoTransaction) (db : creditDB) : bool :=
  existsb (fun c' => negb (String.eqb (ct_TradeNo c') (ct_TradeNo c)) && bool_decide (is_Some (ct_TxHash c) /\ ct_TxHash c' = ct_TxHash c))
    (map snd (map_to_list (cd_crypto db))).

Definition settled_crypto (now : Z) (txHash payerAddress : string) (blockNumber confirmations : Z) (c : CryptoTransaction) : CryptoTransaction :=
  mkCrypto (ct_TopUpId c) (ct_SubscriptionOrderId c) (ct_UserId c) (ct_TradeNo c) (Some txHash) (ct_ChainId c) (ct_TokenSymbol c)
    (ct_TokenContract c) (ct_TokenDecimals c) (ct_ReceiverAddress c) payerAddress (ct_UsdtAmount c) blockNumber confirmations
    CryptoTransactionStatusSuccess (ct_CreateTime c) now.

Definition save_crypto (c : CryptoTransaction) (db : creditDB) : result creditDB :=
  if hash_clash c db then Err ErrCryptoTransactionHashUsed
  else Ok (with_crypto (<[ct_TradeNo c := c]> (cd_crypto db)) db).

(** Whether the record lets the order be completed: [Ok false] for a repeated
    confirmation with the hash it was settled with. *)
Definition crypto_check (txHash tradeNo : string) (row : TopUpRow) (c : CryptoTransaction) (db : creditDB) : result bool :=
  if negb (ct_TopUpId c =? w_Id row) then fail_with "crypto transaction mismatch"
  else if String.eqb (ct_Status c) CryptoTransactionStatusSuccess then
    match ct_TxHash c with
    | Some h => if String.eqb (normalizeTxHash h) txHash then Ok false else Err ErrCryptoTransactionStatusInvalid
    | None => Err ErrCryptoTransactionStatusInvalid
    end
  else if negb (String.eqb (ct_Status c) CryptoTransactionStatusPending) then Err ErrCryptoTransactionStatusInvalid
  else if hash_taken txHash tradeNo db then Err ErrCryptoTransactionHashUsed
  else Ok true.

Definition RechargeCrypto_tx (now : Z) (tradeNo txHash payerAddress : string) (blockNumber confirmations : Z)
    (found : option TopUpRow) (crypto : option CryptoTransaction) (db : creditDB) : result (completion * creditDB) :=
  match found with
  | None => fail_with "order not found"
  | Some row =>
      if negb (method_is row "crypto") then Err ErrPaymentMethodMismatch
      else if status_is row TopUpStatusSuccess then Ok (None, db)
      else if negb (status_is row TopUpStatusPending) then fail_with "wrong order status"
      else if negb (biz_is row TopUpBizTypePayment) then fail_with "wrong bill type"
      else match crypto with
      | None => fail_with "crypto transaction not found"
      | Some c =>
          go ← crypto_check txHash tradeNo row c db;
          if negb go then Ok (None, db)
          else
            quotaToAdd ← GetQuotaToAdd (w_TopUp row);
            let db := save_row (map_row (with_success now) row) db in
            db ← save_crypto (settled_crypto now txHash payerAddress blockNumber confirmations c) db;
            let db := add_quota (tu_UserId (w_TopUp row)) quotaToAdd 0 db in
            _ ← applyInviteTopupRebateTx (w_TopUp row) quotaToAdd;
            Ok (Some (w_TopUp row, quotaToAdd), db)
      end
  end.

Definition RechargeCrypto (now : Z) (d : draw) (tradeNo txHash payerAddress : string) (blockNumber confirmations : Z) (db : creditDB)
  : result unit * creditDB :=
  if String.eqb tradeNo "" then (fail_with "no order number", db)
  else
    let txHash := normalizeTxHash txHash in
    if String.eqb txHash "" then (fail_with "no transaction hash", db)
    else concluded now d masked
           (RechargeCrypto_tx now tradeNo txHash payerAddress blockNumber confirmations (cd_topups db !! tradeNo) (cd_crypto db !! tradeNo) db) db.

(** [CompleteCryptoTransaction], for subscription payments. *)
Definition CompleteCryptoTransaction (now : Z) (tradeNo txHash payerAddress : string) (blockNumber confirmations : Z) (db : creditDB)
  : result unit * creditDB :=
  let tradeNo := TrimSpace tradeNo in
  let txHash := normalizeTxHash txHash in
  if String.eqb tradeNo "" then (fail_with "trade no is empty", db)
  else if String.eqb txHash "" then (fail_with "tx hash is empty", db)
  else match cd_crypto db !! tradeNo with
       | None => (fail_with "crypto transaction not found", db)
       | Some c =>
           match save_crypto (settled_crypto now txHash (ToLower (TrimSpace payerAddress)) blockNumber confirmations c) db with
           | Ok db' => (Ok tt, db')
           | Err e => (Err e, db)
           end
       end.

(** ** Orders *)

(** A gateway creates its order with [Insert]; an on-chain payment creates the
    order and its record in one transaction. *)
Definition TopUp_Insert (t : TopUp) (db : creditDB) : result unit * creditDB :=
  match InsertTx t db with Ok (_, db') => (Ok tt, db') | Err e => (Err e, db) end.

(** The transaction of [RequestCryptoPay]: the order has its bill type already,
    the record takes its number. *)
Definition create_crypto_order (t : TopUp) (c : CryptoTransaction) (db : creditDB) : result unit * creditDB :=
  credit_tx db (fun db =>
    '(id, db) ← InsertTx t db;
    let c := mkCrypto id (ct_SubscriptionOrderId c) (ct_UserId c) (tu_TradeNo t) None (ct_ChainId c) (ct_TokenSymbol c) (ct_TokenContract c)
               (ct_TokenDecimals c) (ct_ReceiverAddress c) "" (ct_UsdtAmount c) 0 0 CryptoTransactionStatusPending (ct_CreateTime c) 0 in
    match cd_crypto db !! tu_TradeNo t with
    | Some _ => fail_with "duplicate trade_no"
    | None => Ok (tt, with_crypto (<[tu_TradeNo t := c]> (cd_crypto db)) db)
    end).

Definition UpdatePendingTopUpStatus (tradeNo expectedPaymentProvider targetStatus : string) (db : creditDB) : result unit * creditDB :=
  if String.eqb tradeNo "" then (fail_with "no order number", db)
  else match cd_topups db !! tradeNo with
       | None => (Err ErrTopUpNotFound, db)
       | Some row =>
           if negb (String.eqb expectedPaymentProvider "") && negb (String.eqb (tu_PaymentProvider (w_TopUp row)) expectedPaymentProvider)
           then (Err ErrPaymentMethodMismatch, db)
           else if negb (status_is row TopUpStatusPending) then (Err ErrTopUpStatusInvalid, db)
           else (Ok tt, save_row (map_row (with_Status targetStatus) row) db)
       end.

(** [topUp.Update()] of a row with its bill type normalised. *)
Definition close_order (status : string) (row : TopUpRow) (db : creditDB) : creditDB :=
  save_row (map_row (fun t => applyDefaults (with_Status status t)) (fix_biz row)) db.

(** The top-up part of [sessionAsyncPaymentFailed]. *)
Definition stripe_payment_failed (referenceId : string) (db : creditDB) : creditDB :=
  match cd_topups db !! referenceId with
  | None => db
  | Some row => if negb (method_is row "stripe") then db
                else if negb (status_is row TopUpStatusPending) then db else close_order TopUpStatusFailed row db
  end.
(** The top-up part of [sessionExpired]. *)
Definition stripe_session_expired (referenceId : string) (db : creditDB) : creditDB :=
  match cd_topups db !! referenceId with
  | None => db
  | Some row =>
      if negb (method_is row "stripe") then db
      else if negb (String.eqb (TrimSpace (tu_PaymentProvider (w_TopUp row))) "") &&
              negb (String.eqb (tu_PaymentProvider (w_TopUp row)) PaymentProviderStripe) then db
      else if status_is row TopUpStatusExpired then db
      else if negb (status_is row TopUpStatusPending) then db else close_order TopUpStatusExpired row db
  end.
(** The branch of [handleWaffoPayment] for a payment that did not succeed. *)
Definition waffo_payment_failed (merchantOrderId : string) (db : creditDB) : creditDB :=
  if String.eqb merchantOrderId "" then db
  else match cd_topups db !! merchantOrderId with
       | None => db
       | Some row => if status_is row TopUpStatusPending then close_order TopUpStatusFailed row db else db
       end.

(** ** Check-ins *)

Definition insert_checkin (c : Checkin) (db : creditDB) : result (Z * creditDB) :=
  let key := (ci_ProviderId c, ci_UserId c, ci_CheckinDate c) in
  match cd_checkins db !! key with
  | Some _ => fail_with "check-in failed, please try again later"
  | None =>
      let id := cd_nextCheckin db in
      Ok (id, with_checkins (<[key := mkCheckin id (ci_ProviderId c) (ci_UserId c) (ci_CheckinDate c) (ci_QuotaAwarded c) (ci_CreatedAt c)]>
                             (cd_checkins db)) (id + 1) db)
  end.
Definition delete_checkin (c : Checkin) (db : creditDB) : creditDB :=
  with_checkins (delete (ci_ProviderId c, ci_UserId c, ci_CheckinDate c) (cd_checkins db)) (cd_nextCheckin db) db.

Definition checkin_reward (c : Checkin) (id : Z) : RewardRecord :=
  mkReward (ci_ProviderId c) (ci_UserId c) "checkin" id (ci_QuotaAwarded c) "checkin reward" 0.

Definition userCheckinWithTransaction (now : Z) (c : Checkin) (db : creditDB) : result unit * creditDB :=
  credit_tx db (fun db =>
    '(id, db) ← insert_checkin c db;
    let db := add_quota (ci_UserId c) (ci_QuotaAwarded c) (ci_QuotaAwarded c) db in
    db ← (if 0 <? ci_ProviderId c then CreateRewardRecord now (checkin_reward c id) db else Ok db);
    Ok (tt, db)).

(** Without a transaction (SQLite); [stored] is whether the database accepts
    the reward record. *)
Definition userCheckinWithoutTransaction (now : Z) (stored : bool) (c : Checkin) (db : creditDB) : result unit * creditDB :=
  match insert_checkin c db with
  | Err e => (Err e, db)
  | Ok (id, db) =>
      if ci_QuotaAwarded c <? 0 then (fail_with "check-in failed: quota update error", delete_checkin c db)
      else
        let db := add_quota (ci_UserId c) (ci_QuotaAwarded c) (ci_QuotaAwarded c) db in
        if 0 <? ci_ProviderId c then
          match (if stored then CreateRewardRecord now (checkin_reward c id) db else fail_with "database error") with
          | Ok db => (Ok tt, db)
          | Err e => (Err e, delete_checkin c db)
          end
        else (Ok tt, db)
  end.

(** [date] is the day the check is made on and [date'] the day the row is
    written for; [roll] is the random draw of the award. *)
Definition UserCheckin (sqlite : bool) (now : Z) (date date' : string) (roll : Z) (stored : bool) (userId : Z) (db : creditDB)
  : result unit * creditDB :=
  match cd_users db !! userId with
  | None => (fail_with "record not found", db)
  | Some user =>
      match GetProviderRewardConfig (h_ProviderId user) with
      | Err e => (Err e, db)
      | Ok setting =>
          if negb (rw_CheckinEnabled setting) then (fail_with "check-in is disabled", db)
          else if bool_decide (is_Some (cd_checkins db !! (h_ProviderId user, userId, date))) then (fail_with "already checked in today", db)
          else
            let quotaAwarded := if rw_CheckinMinQuota setting <? rw_CheckinMaxQuota setting
                                then rw_CheckinMinQuota setting + roll else rw_CheckinMinQuota setting in
            let c := mkCheckin 0 (h_ProviderId user) userId date' quotaAwarded now in
            if sqlite then userCheckinWithoutTransaction now stored c db else userCheckinWithTransaction now c db
      end
  end.

End TopUps.
