(* ===== verification/CreditLedger.v ===== *)
(** * The ledger of credits

    Every credit of [TopUp] and [Redemption] leaves a row behind: a top-up row
    that is a success, or a check-in.  Over any sequence of calls the balances
    move exactly as those rows do, so an order, a code or a day is never
    credited without its row, nor twice. *)

From stdpp Require Import base numbers list strings pretty gmap.
From Stdlib Require Import ZArith Lia SpecFloat.
From S2P Require Import Prelude GoInt GoString SubStock SubOrder Commission Redemption TopUp.

Definition quota_held (u : Z) (db : creditDB) : option Z := h_Quota <$> cd_users db !! u.
Definition reward_held (u : Z) (db : creditDB) : option Z := h_RewardQuota <$> cd_users db !! u.

Section Ledger.
Context `{Accounting, Credits}.

(** What a successful row has credited: a redemption its amount, a payment what
    [GetQuotaToAdd] makes of it, a subscription bill nothing. *)
Definition row_credit (t : TopUp) : Z :=
  if String.eqb (GetBizType t) TopUpBizTypeRedemption then tu_Amount t else match GetQuotaToAdd t with Ok q => q | Err _ => 0 end.
Definition succeeded (t : TopUp) : bool := String.eqb (tu_Status t) TopUpStatusSuccess.
Definition credited_to (u : Z) (row : TopUpRow) : Z :=
  let t := w_TopUp row in if (tu_UserId t =? u) && succeeded t then row_credit t else 0.
Definition redeemed_by (u : Z) (row : TopUpRow) : Z :=
  let t := w_TopUp row in
  if (tu_UserId t =? u) && succeeded t && String.eqb (GetBizType t) TopUpBizTypeRedemption then tu_Amount t else 0.
Definition awarded_to (u : Z) (c : Checkin) : Z := if ci_UserId c =? u then ci_QuotaAwarded c else 0.

Definition credits_of (u : Z) (db : creditDB) : Z := table_sum (credited_to u) (cd_topups db) + table_sum (awarded_to u) (cd_checkins db).
Definition reward_credits_of (u : Z) (db : creditDB) : Z := table_sum (redeemed_by u) (cd_topups db) + table_sum (awarded_to u) (cd_checkins db).

(** Rows are stored under their trade number; a Waffo order is a payment (its
    completion does not ask), and the row of a redemption is a success. *)
Definition topup_row_ok (k : string) (row : TopUpRow) : Prop :=
  tu_TradeNo (w_TopUp row) = k /\
  (tu_PaymentMethod (w_TopUp row) = "waffo" -> GetBizType (w_TopUp row) = TopUpBizTypePayment) /\
  (GetBizType (w_TopUp row) = TopUpBizTypeRedemption -> succeeded (w_TopUp row) = true).
Definition rows_ok (db : creditDB) : Prop := map_Forall topup_row_ok (cd_topups db).

(** From [db] to [db'] the balances moved as the ledgers did, and successful
    rows and check-ins stayed. *)
Record credits_moved (db db' : creditDB) : Prop := {
  mv_rows : rows_ok db';
  mv_quota u : quota_held u db' = (fun b => b + (credits_of u db' - credits_of u db)) <$> quota_held u db;
  mv_reward u : reward_held u db' = (fun b => b + (reward_credits_of u db' - reward_credits_of u db)) <$> reward_held u db;
  mv_final k row : cd_topups db !! k = Some row -> succeeded (w_TopUp row) = true -> cd_topups db' !! k = Some row;
  mv_days k c : cd_checkins db !! k = Some c -> cd_checkins db' !! k = Some c
}.

Lemma shift_zero (o : option Z) x : x = 0 -> o = (fun b => b + x) <$> o.
Proof. intros ->. destruct o; [|done]. cbn. f_equal. lia. Qed.

Lemma moved_refl db : rows_ok db -> credits_moved db db.
Proof. intros Hr. split; try done; intros u; apply shift_zero; lia. Qed.

Lemma shift_shift (o o1 o2 : option Z) a b c : o1 = (fun z => z + a) <$> o -> o2 = (fun z => z + b) <$> o1 -> a + b = c -> o2 = (fun z => z + c) <$> o.
Proof. intros -> -> <-. destruct o; [|done]. cbn. f_equal. lia. Qed.

Lemma moved_trans d1 d2 d3 : credits_moved d1 d2 -> credits_moved d2 d3 -> credits_moved d1 d3.
Proof.
  intros M N. split.
  - apply N.
  - intros u. eapply shift_shift; [apply (mv_quota _ _ M) | apply (mv_quota _ _ N) | lia].
  - intros u. eapply shift_shift; [apply (mv_reward _ _ M) | apply (mv_reward _ _ N) | lia].
  - intros k row Hk Hs. apply (mv_final _ _ N); [|done]. by apply (mv_final _ _ M).
  - intros k c Hk. apply (mv_days _ _ N), (mv_days _ _ M), Hk.
Qed.

(** A change outside of balances, rows and check-ins. *)
Lemma moved_aside db db' : rows_ok db -> cd_topups db' = cd_topups db -> cd_checkins db' = cd_checkins db ->
  (forall u, quota_held u db' = quota_held u db) -> (forall u, reward_held u db' = reward_held u db) -> credits_moved db db'.
Proof.
  intros Hr Et Ec Eq Er. split.
  - unfold rows_ok. by rewrite Et.
  - intros u. rewrite Eq. apply shift_zero. unfold credits_of. rewrite Et, Ec. lia.
  - intros u. rewrite Er. apply shift_zero. unfold reward_credits_of. rewrite Et, Ec. lia.
  - by rewrite Et.
  - by rewrite Ec.
Qed.

(** ** Balances *)

Lemma quota_held_add u id q r db : quota_held u (add_quota id q r db) = (fun b => b + if id =? u then q else 0) <$> quota_held u db.
Proof.
  unfold quota_held, add_quota. cbn. destruct (Z.eqb_spec id u) as [->|Hne].
  - rewrite lookup_alter_eq. by destruct (cd_users db !! u).
  - rewrite lookup_alter_ne by done. by apply shift_zero.
Qed.
Lemma reward_held_add u id q r db : reward_held u (add_quota id q r db) = (fun b => b + if id =? u then r else 0) <$> reward_held u db.
Proof.
  unfold reward_held, add_quota. cbn. destruct (Z.eqb_spec id u) as [->|Hne].
  - rewrite lookup_alter_eq. by destruct (cd_users db !! u).
  - rewrite lookup_alter_ne by done. by apply shift_zero.
Qed.

(** [alter] of the other columns of a user. *)
Lemma held_alter f id db u : (forall h, h_Quota (f h) = h_Quota h) -> (forall h, h_RewardQuota (f h) = h_RewardQuota h) ->
  quota_held u (with_holders (alter f id (cd_users db)) db) = quota_held u db /\
  reward_held u (with_holders (alter f id (cd_users db)) db) = reward_held u db.
Proof.
  intros Hq Hr. unfold quota_held, reward_held. cbn. destruct (decide (id = u)) as [->|Hne].
  - rewrite lookup_alter_eq. destruct (cd_users db !! u); cbn; [|done]. by rewrite Hq, Hr.
  - by rewrite lookup_alter_ne.
Qed.

Lemma held_customer u id c db :
  quota_held u (set_stripe_customer id c db) = quota_held u db /\ reward_held u (set_stripe_customer id c db) = reward_held u db.
Proof. by apply held_alter. Qed.

Lemma sync_email_spec id email db db' : sync_email id email db = Ok db' ->
  exists users, db' = with_holders users db /\ forall u, quota_held u db' = quota_held u db /\ reward_held u db' = reward_held u db.
Proof.
  unfold sync_email. destruct (String.eqb email ""); [intros [= <-]; exists (cd_users db); by destruct db|].
  destruct (cd_users db !! id) as [h|]; [|done]. intros [= <-]. destruct (String.eqb _ _).
  - eexists. split; [reflexivity|]. intros u. by apply held_alter.
  - exists (cd_users db). by destruct db.
Qed.

(** ** Rows *)

Lemma GetBizType_fix t : GetBizType (with_BizType (GetBizType t) t) = GetBizType t.
Proof.
  unfold GetBizType at 1. cbn. destruct (String.eqb_spec (GetBizType t) "") as [E|E].
  - exfalso. revert E. unfold GetBizType, normalizeTopUpBizType. destruct (String.eqb_spec (tu_BizType t) ""); [by destruct (_ && _)|done].
  - unfold normalizeTopUpBizType. by rewrite (proj2 (String.eqb_neq _ _) E).
Qed.

Lemma GetBizType_success now t : GetBizType (with_success now t) = GetBizType t.
Proof. done. Qed.

Lemma GetQuotaToAdd_fix t : GetQuotaToAdd (with_BizType (GetBizType t) t) = GetQuotaToAdd t.
Proof. unfold GetQuotaToAdd. by rewrite GetBizType_fix. Qed.

Lemma row_credit_payment t q : GetQuotaToAdd t = Ok q -> GetBizType t <> TopUpBizTypeRedemption -> row_credit t = q.
Proof. intros Hq Hb. unfold row_credit. by rewrite (proj2 (String.eqb_neq _ _) Hb), Hq. Qed.

Lemma row_credit_redemption t q : GetQuotaToAdd t = Ok q -> GetBizType t = TopUpBizTypeRedemption -> row_credit t = q.
Proof.
  intros Hq Hb. unfold row_credit. rewrite Hb. cbn. revert Hq. unfold GetQuotaToAdd, positive_amount. rewrite Hb. cbn. destruct (tu_Amount t <=? 0); [done | by intros [= <-]].
Qed.

Lemma row_credit_quota t q : GetQuotaToAdd t = Ok q -> row_credit t = q.
Proof. intros Hq. destruct (decide (GetBizType t = TopUpBizTypeRedemption)); eauto using row_credit_redemption, row_credit_payment. Qed.

Lemma row_credit_waffo t : tu_PaymentMethod t = "waffo" -> GetBizType t = TopUpBizTypePayment -> row_credit t = units_quota (tu_Amount t).
Proof. intros Hm Hb. unfold row_credit, GetQuotaToAdd. by rewrite Hb, Hm. Qed.

(** ** Completions *)

(** The record of an on-chain payment is settled with a hash no other has. *)
Definition settles (c c' : CryptoTransaction) (db : creditDB) : Prop :=
  cd_crypto db !! ct_TradeNo c' = Some c /\ is_Some (ct_TxHash c') /\ hash_clash c' db = false.
Definition crypto_moves (db db' : creditDB) : Prop :=
  cd_crypto db' = cd_crypto db \/ exists c c', settles c c' db /\ cd_crypto db' = <[ct_TradeNo c' := c']> (cd_crypto db).

(** A pending order has been completed: its row is a success, its user has its
    quota, and nothing but columns of that user and the record of an on-chain
    payment changed. *)
Record completes (row : TopUpRow) (t : TopUp) (q : Z) (db db' : creditDB) : Prop := {
  cp_pending : tu_Status (w_TopUp row) = TopUpStatusPending;
  cp_order : tu_UserId t = tu_UserId (w_TopUp row) /\ tu_TradeNo t = tu_TradeNo (w_TopUp row);
  cp_row : exists row', cd_topups db' = <[tu_TradeNo (w_TopUp row) := row']> (cd_topups db) /\
             topup_row_ok (tu_TradeNo (w_TopUp row)) row' /\ tu_UserId (w_TopUp row') = tu_UserId (w_TopUp row) /\
             succeeded (w_TopUp row') = true /\ row_credit (w_TopUp row') = q /\ GetBizType (w_TopUp row') = GetBizType (w_TopUp row);
  cp_quota u : quota_held u db' = (fun b => b + if tu_UserId (w_TopUp row) =? u then q else 0) <$> quota_held u db;
  cp_reward u : reward_held u db' = reward_held u db;
  cp_rest : cd_checkins db' = cd_checkins db /\ cd_codes db' = cd_codes db /\ cd_grants db' = cd_grants db /\ cd_nextCode db' = cd_nextCode db;
  cp_crypto : crypto_moves db db'
}.

Lemma pending_not_succeeded t : tu_Status t = TopUpStatusPending -> succeeded t = false.
Proof. unfold succeeded. by intros ->. Qed.

(** A pending row is not that of a redemption. *)
Lemma pending_biz k row : topup_row_ok k row -> tu_Status (w_TopUp row) = TopUpStatusPending -> GetBizType (w_TopUp row) <> TopUpBizTypeRedemption.
Proof. intros (_ & _ & Hb) Hp Hr. apply Hb in Hr. by rewrite pending_not_succeeded in Hr. Qed.

Lemma completes_moved row t q db db' : rows_ok db -> cd_topups db !! tu_TradeNo (w_TopUp row) = Some row -> completes row t q db db' -> credits_moved db db'.
Proof.
  intros Hr Hk C. destruct (cp_row _ _ _ _ _ C) as (row' & Et & Hok' & Eu & Hs & Eq & Eb). destruct (cp_rest _ _ _ _ _ C) as (Ec & _).
  pose proof (cp_pending _ _ _ _ _ C) as Hp. pose proof (pending_biz _ _ (Hr _ _ Hk) Hp) as Hb. apply pending_not_succeeded in Hp. split.
  - unfold rows_ok. rewrite Et. by apply map_Forall_insert_2.
  - intros u. rewrite (cp_quota _ _ _ _ _ C). destruct (quota_held u db); [|done]. cbn. f_equal. f_equal. unfold credits_of.
    rewrite Et, Ec, (table_sum_insert _ _ _ _ _ Hk). unfold credited_to. rewrite Eu, Hs, Hp, Eq, andb_false_r, andb_true_r. lia.
  - intros u. rewrite (cp_reward _ _ _ _ _ C). apply shift_zero. unfold reward_credits_of.
    rewrite Et, Ec, (table_sum_insert _ _ _ _ _ Hk). unfold redeemed_by. rewrite Eb, (proj2 (String.eqb_neq _ _) Hb), !andb_false_r. lia.
  - intros k r Hkr Hsr. rewrite Et. destruct (decide (k = tu_TradeNo (w_TopUp row))) as [->|Hne]; [|by rewrite lookup_insert_ne].
    simplify_eq. congruence.
  - by rewrite Ec.
Qed.

(** Saving a row as a success and crediting its user completes the order. *)
Lemma completes_intro now k row row1 q db db' : topup_row_ok k row -> tu_Status (w_TopUp row) = TopUpStatusPending ->
  tu_UserId (w_TopUp row1) = tu_UserId (w_TopUp row) -> tu_TradeNo (w_TopUp row1) = tu_TradeNo (w_TopUp row) ->
  tu_PaymentMethod (w_TopUp row1) = tu_PaymentMethod (w_TopUp row) -> GetBizType (w_TopUp row1) = GetBizType (w_TopUp row) ->
  row_credit (with_success now (w_TopUp row1)) = q ->
  cd_topups db' = <[tu_TradeNo (w_TopUp row) := map_row (with_success now) row1]> (cd_topups db) ->
  (forall u, quota_held u db' = (fun b => b + if tu_UserId (w_TopUp row) =? u then q else 0) <$> quota_held u db) ->
  (forall u, reward_held u db' = reward_held u db) ->
  cd_checkins db' = cd_checkins db /\ cd_codes db' = cd_codes db /\ cd_grants db' = cd_grants db /\ cd_nextCode db' = cd_nextCode db ->
  crypto_moves db db' -> completes row (w_TopUp row1) q db db'.
Proof.
  intros (Hk & Hw & Hb) Hp Eu Et Em Eb Hq Etop Hquota Hrew Hrest Hcr. split; try done.
  exists (map_row (with_success now) row1). split_and!; try done. cbn. split_and!; try done.
  intros Hm. change (GetBizType (w_TopUp row1) = TopUpBizTypePayment). rewrite Eb. apply Hw. by rewrite <- Em.
Qed.

Lemma credit_row_completes now k row row1 q db : topup_row_ok k row -> tu_Status (w_TopUp row) = TopUpStatusPending ->
  tu_UserId (w_TopUp row1) = tu_UserId (w_TopUp row) -> tu_TradeNo (w_TopUp row1) = tu_TradeNo (w_TopUp row) ->
  tu_PaymentMethod (w_TopUp row1) = tu_PaymentMethod (w_TopUp row) -> GetBizType (w_TopUp row1) = GetBizType (w_TopUp row) ->
  row_credit (with_success now (w_TopUp row1)) = q -> completes row (w_TopUp row1) q db (credit_row now q row1 db).
Proof.
  intros Hok Hp Eu Et Em Eb Hq. apply (completes_intro now k _ row1); try done.
  - cbn. by rewrite Et.
  - intros u. unfold credit_row. by rewrite quota_held_add, Eu.
  - intros u. unfold credit_row. rewrite reward_held_add. symmetry. apply shift_zero. by case_match.
  - by left.
Qed.

(** What a gateway's transaction does with the row it found. *)
Definition tx_ok (found : option TopUpRow) (db : creditDB) (r : result (completion * creditDB)) : Prop :=
  match r with
  | Err _ => True
  | Ok (None, db') => db' = db
  | Ok (Some (t, q), db') => exists row, found = Some row /\ completes row t q db db'
  end.

Lemma tx_ok_bind {A} found db (m : result A) (f : A -> result (completion * creditDB)) :
  (forall a, m = Ok a -> tx_ok found db (f a)) -> tx_ok found db (m ≫= f).
Proof. destruct m as [a|e]; [|done]. intros Hf. by apply Hf. Qed.

Lemma status_pending row : negb (status_is row TopUpStatusPending) = false -> tu_Status (w_TopUp row) = TopUpStatusPending.
Proof. unfold status_is. intros Hn. by apply negb_false_iff, String.eqb_eq in Hn. Qed.

(** Walks through the guards of a transaction up to its next computation. *)
Ltac tx_guards := repeat match goal with
  | |- tx_ok _ _ (let _ := _ in _) => cbv zeta
  | |- tx_ok _ _ (if ?b then _ else _) => destruct b eqn:?; [try done|]
  end.

Section Gateways.
Variables (now : Z) (row : TopUpRow) (db : creditDB) (k : string).
Hypothesis Hrow : topup_row_ok k row.

Lemma fix_biz_credit q : GetQuotaToAdd (w_TopUp (fix_biz row)) = Ok q -> row_credit (with_success now (w_TopUp (fix_biz row))) = q.
Proof. intros Hq. by apply row_credit_quota. Qed.

Lemma fixed_completes q : negb (status_is (fix_biz row) TopUpStatusPending) = false -> GetQuotaToAdd (w_TopUp (fix_biz row)) = Ok q ->
  completes row (w_TopUp (fix_biz row)) q db (credit_row now q (fix_biz row) db).
Proof.
  intros Hp Hq. apply status_pending in Hp. apply (credit_row_completes now k); try done; [apply GetBizType_fix | by apply fix_biz_credit].
Qed.

Lemma RechargeWechatTopUp_tx_ok m p : tx_ok (Some row) db (RechargeWechatTopUp_tx now m p (Some row) db).
Proof. cbn [RechargeWechatTopUp_tx]. tx_guards. apply tx_ok_bind. intros q Hq. cbn. exists row. split; [done|]. by apply fixed_completes. Qed.

Lemma ManualCompleteTopUp_tx_ok : tx_ok (Some row) db (ManualCompleteTopUp_tx now (Some row) db).
Proof.
  cbn [ManualCompleteTopUp_tx]. tx_guards. apply tx_ok_bind. intros q Hq. tx_guards. cbn. exists row. split; [done|]. by apply fixed_completes.
Qed.

Lemma Recharge_tx_ok customer : tx_ok (Some row) db (Recharge_tx now customer (Some row) db).
Proof.
  cbn [Recharge_tx]. tx_guards. apply tx_ok_bind. intros q Hq. cbn. exists row. split; [done|].
  assert (Hp : tu_Status (w_TopUp row) = TopUpStatusPending) by (by apply (status_pending (fix_biz row))).
  assert (Hf : GetQuotaToAdd (w_TopUp (fix_biz row)) = Ok q) by done. apply fix_biz_credit in Hf.
  destruct (completes_intro now k row (fix_biz row) q db (add_quota (tu_UserId (w_TopUp row)) q 0
    (set_stripe_customer (tu_UserId (w_TopUp row)) customer (save_row (map_row (with_success now) (fix_biz row)) db)))
    ltac:(done) ltac:(done) eq_refl eq_refl eq_refl (GetBizType_fix _) Hf eq_refl); try done.
  - intros u. rewrite quota_held_add. by rewrite (proj1 (held_customer _ _ _ _)).
  - intros u. rewrite reward_held_add. rewrite (proj2 (held_customer _ _ _ _)). symmetry. apply shift_zero. by case_match.
  - by left.
Qed.

Lemma RechargeCreem_tx_ok email : tx_ok (Some row) db (RechargeCreem_tx now email (Some row) db).
Proof.
  cbn [RechargeCreem_tx]. tx_guards. apply tx_ok_bind. intros q Hq. tx_guards. apply tx_ok_bind. intros db1 Hs. cbn. exists row. split; [done|].
  assert (Hp : tu_Status (w_TopUp row) = TopUpStatusPending) by (by apply (status_pending (fix_biz row))).
  assert (Hf : GetQuotaToAdd (w_TopUp (fix_biz row)) = Ok q) by done. apply fix_biz_credit in Hf.
  apply sync_email_spec in Hs as (us & -> & Hheld).
  destruct (completes_intro now k row (fix_biz row) q db (add_quota (tu_UserId (w_TopUp row)) q 0
    (with_holders us (save_row (map_row (with_success now) (fix_biz row)) db)))
    ltac:(done) ltac:(done) eq_refl eq_refl eq_refl (GetBizType_fix _) Hf eq_refl); try done.
  - intros u. rewrite quota_held_add. by rewrite (proj1 (Hheld u)).
  - intros u. rewrite reward_held_add. rewrite (proj2 (Hheld u)). symmetry. apply shift_zero. by case_match.
  - by left.
Qed.

Lemma waffo_outcome_ok t q db' : 0 < q -> completes row t q db db' -> tx_ok (Some row) db (Ok (waffo_outcome t q, db')).
Proof. intros Hq C. unfold waffo_outcome. rewrite (proj2 (Z.ltb_lt _ _) Hq). cbn. eauto. Qed.

Lemma RechargeWaffo_tx_ok : tx_ok (Some row) db (RechargeWaffo_tx now (Some row) db).
Proof.
  cbn [RechargeWaffo_tx]. tx_guards. apply Z.leb_gt in Heqb2. cbn. apply waffo_outcome_ok; [done|]. apply status_pending in Heqb1.
  apply negb_false_iff, String.eqb_eq in Heqb. apply (credit_row_completes now k); try done.
  apply (row_credit_waffo (with_success now (w_TopUp row))); [done|]. by apply (proj1 (proj2 Hrow)).
Qed.

Lemma RechargeWaffoPancake_tx_ok : tx_ok (Some row) db (RechargeWaffoPancake_tx now (Some row) db).
Proof.
  cbn [RechargeWaffoPancake_tx]. tx_guards. apply tx_ok_bind. intros q Hq. tx_guards. apply Z.leb_gt in Heqb2.
  apply waffo_outcome_ok; [done|]. apply status_pending in Heqb1. apply (credit_row_completes now k); try done. by apply row_credit_quota.
Qed.

Lemma RechargeCrypto_tx_ok tradeNo hash payer block conf c : (forall c', c = Some c' -> cd_crypto db !! ct_TradeNo c' = Some c') ->
  tx_ok (Some row) db (RechargeCrypto_tx now tradeNo hash payer block conf (Some row) c db).
Proof.
  intros Hc. cbn [RechargeCrypto_tx]. tx_guards. destruct c as [c|]; [|done]. apply tx_ok_bind. intros go _. tx_guards.
  apply tx_ok_bind. intros q Hq. tx_guards. apply tx_ok_bind. intros db1 Hs. cbn. exists row. split; [done|].
  apply status_pending in Heqb1. unfold save_crypto in Hs. destruct (hash_clash _ _) eqn:Hclash; [done|]. injection Hs as <-.
  apply (completes_intro now k row row); try done; [by apply row_credit_quota|..].
  - intros u. by rewrite quota_held_add.
  - intros u. rewrite reward_held_add. symmetry. apply shift_zero. by case_match.
  - right. exists c, (settled_crypto now hash payer block conf c). split; [split_and!; [exact (Hc c eq_refl) | by eexists | exact Hclash] | done].
Qed.

End Gateways.

End Ledger.
