(* ===== verification/CreditSafety.v ===== *)
(** * Histories of credits

    Any sequence of calls on the tables of [Redemption] and [TopUp], each run
    to its end before the next begins. *)

From stdpp Require Import base numbers list strings pretty gmap.
From Stdlib Require Import ZArith Lia SpecFloat QArith.
From S2P Require Import Prelude GoInt GoString SubStock SubOrder Commission Redemption TopUp CreditLedger.
#[local] Open Scope Z_scope.

Section Safety.
Context `{Accounting, Credits}.

(** ** Redemptions *)

(** A code has been redeemed: the user has its quota, a row of its own records
    it, and the code is used. *)
Record redeems (now u : Z) (r : Redemption) (db db' : creditDB) : Prop := {
  rs_row : exists k t, cd_topups db !! k = None /\ cd_topups db' = <[k := mkRow (cd_nextTopUp db) t]> (cd_topups db) /\
             tu_TradeNo t = k /\ tu_UserId t = u /\ tu_Amount t = rd_Quota r /\ tu_BizType t = TopUpBizTypeRedemption /\
             tu_PaymentMethod t = "redemptionCode" /\ tu_SourceID t = rd_Id r /\ succeeded t = true;
  rs_quota v : quota_held v db' = (fun b => b + if u =? v then rd_Quota r else 0) <$> quota_held v db;
  rs_reward v : reward_held v db' = (fun b => b + if u =? v then rd_Quota r else 0) <$> reward_held v db;
  rs_code : cd_codes db' = <[(rd_ProviderId r, rd_Key r) := used_code now u r]> (cd_codes db);
  rs_rest : cd_checkins db' = cd_checkins db /\ cd_grants db' = cd_grants db /\ cd_crypto db' = cd_crypto db /\ cd_nextCode db' = cd_nextCode db
}.

Lemma CreateRewardRecord_spec now w db db' : CreateRewardRecord now w db = Ok db' -> exists l, db' = with_rewards l db.
Proof. unfold CreateRewardRecord. destruct (reward_BeforeCreate now w); [|done]. intros [= <-]. eauto. Qed.

Lemma optional_reward (b : bool) now w db db' :
  (if b then CreateRewardRecord now w db else Ok db) = Ok db' -> exists l, db' = with_rewards l db.
Proof. destruct b; [apply CreateRewardRecord_spec | intros [= <-]; exists (cd_rewards db); by destruct db]. Qed.

Lemma InsertTx_spec t db id db' : InsertTx t db = Ok (id, db') ->
  cd_topups db !! tu_TradeNo t = None /\ id = cd_nextTopUp db /\
  db' = with_rows (<[tu_TradeNo t := mkRow id (applyDefaults t)]> (cd_topups db)) (cd_nextTopUp db + 1) db.
Proof.
  unfold InsertTx. change (tu_TradeNo (applyDefaults t)) with (tu_TradeNo t).
  destruct (cd_topups db !! tu_TradeNo t); [done|]. by intros [= <- <-].
Qed.

Lemma redeem_write_spec now u p random o r db db' : redeem_write now u p random o r db = Ok db' -> redeems now u r db db'.
Proof.
  unfold redeem_write. intros Hw. apply bind_Ok_inv in Hw as (db1 & Hr & Hw). apply optional_reward in Hr as [l ->].
  apply bind_Ok_inv in Hw as ([c m] & _ & Hw). apply bind_Ok_inv in Hw as ([id db2] & Hi & Hw). injection Hw as <-.
  apply InsertTx_spec in Hi as (Hnone & -> & ->). cbn [fst snd] in *.
  split; try done.
  - eexists _, _. split; [exact Hnone|]. split; [reflexivity|]. done.
  - intros v. by apply (quota_held_add v u).
  - intros v. by apply (reward_held_add v u).
Qed.

Lemma redeem_read_spec now key u db p r : redeem_read now key u db = Ok (p, r) ->
  cd_codes db !! (p, key) = Some r /\ rd_Deleted r = false /\ rd_Status r = RedemptionCodeStatusEnabled /\
  (exists h, cd_users db !! u = Some h /\ h_ProviderId h = p).
Proof.
  unfold redeem_read. destruct (cd_users db !! u) as [h|]; [|done]. destruct (cd_codes db !! _) as [c|] eqn:Ec; [|done].
  destruct (rd_Deleted c) eqn:Ed; [done|]. destruct (Z.eqb_spec (rd_Status c) RedemptionCodeStatusEnabled); [|done]. cbn [negb].
  destruct (_ && _); [done|]. intros [= <- <-]. eauto 10.
Qed.

(** A redemption either credits or leaves the tables alone. *)
Lemma redeem_spec now random key u o db :
  match redeem now random key u o db with
  | (Ok q, db') => exists p r, redeem_read now key u db = Ok (p, r) /\ q = rd_Quota r /\ redeems now u r db db'
  | (Err _, db') => db' = db
  end.
Proof.
  unfold redeem. destruct (String.eqb key ""); [done|]. destruct (u =? 0); [done|].
  destruct (redeem_read now key u db) as [[p r]|] eqn:Er; [|done]. cbn [mbind result_bind fst snd].
  destruct (redeem_write now u p random o r db) as [db'|] eqn:Ew; [|done]. exists p, r. by split_and!; [| |eapply redeem_write_spec].
Qed.

Lemma redeems_moved now u r db db' : rows_ok db -> redeems now u r db db' -> credits_moved db db'.
Proof.
  intros Hr R. destruct (rs_row _ _ _ _ _ R) as (k & t & Hn & Et & Ek & Eu & Ea & Eb & Em & Es & Hs). destruct (rs_rest _ _ _ _ _ R) as (Ec & _).
  assert (Hb : GetBizType t = TopUpBizTypeRedemption) by (unfold GetBizType; by rewrite Eb). split.
  - unfold rows_ok. rewrite Et. apply map_Forall_insert_2; [|done]. split_and!; cbn; [done | by rewrite Em | done].
  - intros v. rewrite (rs_quota _ _ _ _ _ R). destruct (quota_held v db); [|done]. cbn. f_equal. f_equal. unfold credits_of.
    rewrite Et, Ec, table_sum_insert_new by done. unfold credited_to, row_credit. cbn. rewrite Eu, Hs, Hb, Ea, andb_true_r. cbn. lia.
  - intros v. rewrite (rs_reward _ _ _ _ _ R). destruct (reward_held v db); [|done]. cbn. f_equal. f_equal. unfold reward_credits_of.
    rewrite Et, Ec, table_sum_insert_new by done. unfold redeemed_by. cbn. rewrite Eu, Hs, Hb, Ea, !andb_true_r. cbn. lia.
  - intros k' row Hk _. rewrite Et. rewrite lookup_insert_ne; [done|]. intros <-. by rewrite Hn in Hk.
  - by rewrite Ec.
Qed.

Lemma redeem_moved now random key u o db : rows_ok db -> credits_moved db (redeem now random key u o db).2.
Proof.
  intros Hr. pose proof (redeem_spec now random key u o db) as Hs. destruct (redeem now random key u o db) as [[q|e] db'].
  - destruct Hs as (p & r & _ & _ & R). by eapply redeems_moved.
  - subst. by apply moved_refl.
Qed.

(** ** Transitions *)

(** The kinds of change a call can make to the tables. *)

(** Everything a credit depends on is as before. *)
Record aside (db db' : creditDB) : Prop := {
  as_topups : cd_topups db' = cd_topups db; as_checkins : cd_checkins db' = cd_checkins db; as_codes : cd_codes db' = cd_codes db;
  as_crypto : cd_crypto db' = cd_crypto db; as_next : cd_nextCode db' = cd_nextCode db;
  as_quota u : quota_held u db' = quota_held u db; as_reward u : reward_held u db' = reward_held u db
}.

(** An order as a gateway creates it. *)
Definition order_ok (t : TopUp) : Prop :=
  succeeded t = false /\ normalizeTopUpBizType (tu_BizType t) <> TopUpBizTypeRedemption /\
  (tu_PaymentMethod t = "waffo" -> normalizeTopUpBizType (tu_BizType t) = TopUpBizTypePayment).

(** An edit keeps a code's identity, and does not make a used code usable. *)
Definition edit_ok (f : Redemption -> Redemption) (c : Redemption) : Prop :=
  rd_Id (f c) = rd_Id c /\ rd_ProviderId (f c) = rd_ProviderId c /\ rd_Key (f c) = rd_Key c /\
  (rd_Status c = RedemptionCodeStatusUsed -> rd_Status (f c) = RedemptionCodeStatusUsed).

(** With [serial] a redemption pays the code as it stands in the table and an
    edit keeps used codes used; without, a redemption pays a row it read some
    time ago and an edit may do anything to the codes. *)
Inductive step (serial : bool) (db : creditDB) : creditDB -> Prop :=
  | st_aside db' : aside db db' -> step serial db db'
  | st_complete row t q db' : cd_topups db !! tu_TradeNo (w_TopUp row) = Some row -> completes row t q db db' -> step serial db db'
  | st_redeem now u key r db' : (serial = true -> cd_codes db !! key = Some r /\ rd_Status r = RedemptionCodeStatusEnabled) -> redeems now u r db db' -> step serial db db'
  | st_order t id n : cd_topups db !! tu_TradeNo t = None -> order_ok t ->
      step serial db (with_rows (<[tu_TradeNo t := mkRow id (applyDefaults t)]> (cd_topups db)) n db)
  | st_close row row' : cd_topups db !! tu_TradeNo (w_TopUp row) = Some row -> tu_Status (w_TopUp row) = TopUpStatusPending ->
      tu_TradeNo (w_TopUp row') = tu_TradeNo (w_TopUp row) -> tu_PaymentMethod (w_TopUp row') = tu_PaymentMethod (w_TopUp row) ->
      GetBizType (w_TopUp row') = GetBizType (w_TopUp row) -> succeeded (w_TopUp row') = false -> step serial db (save_row row' db)
  | st_code r : cd_codes db !! (rd_ProviderId r, rd_Key r) = None ->
      step serial db (with_codes (<[(rd_ProviderId r, rd_Key r) := code_defaults (cd_nextCode db) r]> (cd_codes db)) (cd_nextCode db + 1) db)
  | st_codes f : (serial = true -> map_Forall (fun _ => edit_ok f) (cd_codes db)) -> step serial db (with_codes (f <$> cd_codes db) (cd_nextCode db) db)
  | st_crypto c : cd_crypto db !! ct_TradeNo c = None -> ct_TxHash c = None -> step serial db (with_crypto (<[ct_TradeNo c := c]> (cd_crypto db)) db)
  | st_settle c c' : settles c c' db -> step serial db (with_crypto (<[ct_TradeNo c' := c']> (cd_crypto db)) db)
  | st_checkin c n l : cd_checkins db !! (ci_ProviderId c, ci_UserId c, ci_CheckinDate c) = None ->
      step serial db (with_rewards l (add_quota (ci_UserId c) (ci_QuotaAwarded c) (ci_QuotaAwarded c)
        (with_checkins (<[(ci_ProviderId c, ci_UserId c, ci_CheckinDate c) := c]> (cd_checkins db)) n db))).

(** ** Invariants *)

(** How often the code of an id has been paid out. *)
Definition pays_out (id : Z) (row : TopUpRow) : Z :=
  if String.eqb (GetBizType (w_TopUp row)) TopUpBizTypeRedemption && (tu_SourceID (w_TopUp row) =? id) then 1 else 0.
Definition times_redeemed (id : Z) (db : creditDB) : Z := table_sum (pays_out id) (cd_topups db).

Record codes_ok (db : creditDB) : Prop := {
  co_key k c : cd_codes db !! k = Some c -> k = (rd_ProviderId c, rd_Key c);
  co_id k c : cd_codes db !! k = Some c -> rd_Id c < cd_nextCode db;
  co_inj k1 k2 c1 c2 : cd_codes db !! k1 = Some c1 -> cd_codes db !! k2 = Some c2 -> rd_Id c1 = rd_Id c2 -> k1 = k2;
  co_once id : times_redeemed id db <= 1;
  co_used k c : cd_codes db !! k = Some c -> times_redeemed (rd_Id c) db <> 0 -> rd_Status c = RedemptionCodeStatusUsed;
  co_fresh id : cd_nextCode db <= id -> times_redeemed id db = 0
}.

(** Records are stored under their trade number, and no hash is on two of them. *)
Definition hashes_ok (db : creditDB) : Prop :=
  (forall k c, cd_crypto db !! k = Some c -> ct_TradeNo c = k) /\
  forall k1 k2 c1 c2 h, cd_crypto db !! k1 = Some c1 -> cd_crypto db !! k2 = Some c2 -> ct_TxHash c1 = Some h -> ct_TxHash c2 = Some h -> k1 = k2.

Record inv (serial : bool) (db : creditDB) : Prop :=
  { inv_rows : rows_ok db; inv_codes : serial = true -> codes_ok db; inv_hashes : hashes_ok db }.

(** *** Balances *)

Lemma GetBizType_defaults t : GetBizType (applyDefaults t) = normalizeTopUpBizType (tu_BizType t).
Proof.
  unfold GetBizType. cbn. unfold normalizeTopUpBizType. destruct (String.eqb_spec (tu_BizType t) "") as [|Hne]; [done|].
  by rewrite (proj2 (String.eqb_neq _ _) Hne).
Qed.

Lemma order_moved t id n db : rows_ok db -> cd_topups db !! tu_TradeNo t = None -> order_ok t ->
  credits_moved db (with_rows (<[tu_TradeNo t := mkRow id (applyDefaults t)]> (cd_topups db)) n db).
Proof.
  intros Hr Hn (Hs & Hb & Hw). split.
  - apply map_Forall_insert_2; [|done]. by split_and!; cbn [w_TopUp]; rewrite ?GetBizType_defaults.
  - intros u. apply shift_zero. unfold credits_of. cbn. rewrite table_sum_insert_new by done. unfold credited_to at 1. cbn [w_TopUp].
    change (succeeded (applyDefaults t)) with (succeeded t). rewrite Hs, andb_false_r. lia.
  - intros u. apply shift_zero. unfold reward_credits_of. cbn. rewrite table_sum_insert_new by done. unfold redeemed_by at 1. cbn [w_TopUp].
    change (succeeded (applyDefaults t)) with (succeeded t). rewrite Hs, andb_false_r. cbn. lia.
  - intros k row Hk _. cbn. rewrite lookup_insert_ne; [done|]. intros <-. by rewrite Hn in Hk.
  - done.
Qed.

Lemma close_moved row row' db : rows_ok db -> cd_topups db !! tu_TradeNo (w_TopUp row) = Some row -> tu_Status (w_TopUp row) = TopUpStatusPending ->
  tu_TradeNo (w_TopUp row') = tu_TradeNo (w_TopUp row) -> tu_PaymentMethod (w_TopUp row') = tu_PaymentMethod (w_TopUp row) ->
  GetBizType (w_TopUp row') = GetBizType (w_TopUp row) -> succeeded (w_TopUp row') = false -> credits_moved db (save_row row' db).
Proof.
  intros Hr Hk Hp Et Em Eb Hs. pose proof (Hr _ _ Hk) as (_ & Hw & Hb). apply pending_not_succeeded in Hp. split.
  - apply map_Forall_insert_2; [|done]. split_and!; [done | by rewrite Em, Eb |]. rewrite Eb. intros Hb'. apply Hb in Hb'. congruence.
  - intros u. apply shift_zero. unfold credits_of. cbn. rewrite Et, (table_sum_insert _ _ _ _ _ Hk). unfold credited_to.
    rewrite Hp, Hs, !andb_false_r. lia.
  - intros u. apply shift_zero. unfold reward_credits_of. cbn. rewrite Et, (table_sum_insert _ _ _ _ _ Hk). unfold redeemed_by.
    rewrite Hp, Hs, !andb_false_r. cbn. lia.
  - intros k r Hkr Hsr. cbn. rewrite Et. destruct (decide (k = tu_TradeNo (w_TopUp row))) as [->|Hne]; [simplify_eq; congruence|].
    by rewrite lookup_insert_ne.
  - done.
Qed.

Lemma checkin_moved c n l db : rows_ok db -> cd_checkins db !! (ci_ProviderId c, ci_UserId c, ci_CheckinDate c) = None ->
  credits_moved db (with_rewards l (add_quota (ci_UserId c) (ci_QuotaAwarded c) (ci_QuotaAwarded c)
    (with_checkins (<[(ci_ProviderId c, ci_UserId c, ci_CheckinDate c) := c]> (cd_checkins db)) n db))).
Proof.
  intros Hr Hn. split; try done.
  - intros u. change (quota_held u (with_rewards l ?x)) with (quota_held u x). rewrite quota_held_add.
    change (quota_held u (with_checkins ?a ?b ?x)) with (quota_held u x). destruct (quota_held u db); [|done]. cbn. f_equal. f_equal.
    unfold credits_of. cbn. rewrite table_sum_insert_new by done. unfold awarded_to at 1. lia.
  - intros u. change (reward_held u (with_rewards l ?x)) with (reward_held u x). rewrite reward_held_add.
    change (reward_held u (with_checkins ?a ?b ?x)) with (reward_held u x). destruct (reward_held u db); [|done]. cbn. f_equal. f_equal.
    unfold reward_credits_of. cbn. rewrite table_sum_insert_new by done. unfold awarded_to at 1. lia.
  - intros k c' Hk. cbn. rewrite lookup_insert_ne; [done|]. intros <-. by rewrite Hn in Hk.
Qed.

Lemma step_moved serial db db' : rows_ok db -> step serial db db' -> credits_moved db db'.
Proof.
  intros Hr S. destruct S as [db' A| | | | | | | | | ]; try by apply moved_aside.
  - destruct A. by apply moved_aside.
  - by eapply completes_moved.
  - by eapply redeems_moved.
  - by apply order_moved.
  - by eapply close_moved.
  - by apply checkin_moved.
Qed.

(** *** Codes *)

Lemma pays_out_other id row : GetBizType (w_TopUp row) <> TopUpBizTypeRedemption -> pays_out id row = 0.
Proof. intros Hb. unfold pays_out. by rewrite (proj2 (String.eqb_neq _ _) Hb). Qed.

Lemma times_replace id k row row' db : rows_ok db -> cd_topups db !! k = Some row -> tu_Status (w_TopUp row) = TopUpStatusPending ->
  GetBizType (w_TopUp row') = GetBizType (w_TopUp row) -> table_sum (pays_out id) (<[k := row']> (cd_topups db)) = times_redeemed id db.
Proof.
  intros Hr Hk Hp Eb. pose proof (pending_biz _ _ (Hr _ _ Hk) Hp) as Hb. unfold times_redeemed. rewrite (table_sum_insert _ _ _ _ _ Hk).
  rewrite !pays_out_other by congruence. lia.
Qed.

Lemma times_redeems now u r db db' id : redeems now u r db db' -> times_redeemed id db' = times_redeemed id db + if rd_Id r =? id then 1 else 0.
Proof.
  intros R. destruct (rs_row _ _ _ _ _ R) as (k & t & Hn & Et & _ & _ & _ & Eb & _ & Es & _). unfold times_redeemed.
  rewrite Et, table_sum_insert_new by done. unfold pays_out at 1, GetBizType. cbn. rewrite Eb, Es. cbn. lia.
Qed.

(** Where neither the codes nor their redemptions change. *)
Lemma codes_ok_same db db' : codes_ok db -> cd_codes db' = cd_codes db -> cd_nextCode db' = cd_nextCode db ->
  (forall id, times_redeemed id db' = times_redeemed id db) -> codes_ok db'.
Proof.
  intros [] Ec En Et. split; rewrite ?Ec, ?En; try done.
  - intros id. by rewrite Et.
  - intros k c. rewrite Et. eauto.
  - intros id. rewrite Et. eauto.
Qed.

Lemma redeems_codes now u key r db db' : codes_ok db -> cd_codes db !! key = Some r -> rd_Status r = RedemptionCodeStatusEnabled ->
  redeems now u r db db' -> codes_ok db'.
Proof.
  intros C Hk Hst R. pose proof (co_key _ C _ _ Hk) as ->. set (k := (rd_ProviderId r, rd_Key r)) in *.
  assert (Hz : times_redeemed (rd_Id r) db = 0).
  { destruct (decide (times_redeemed (rd_Id r) db = 0)) as [|Hne]; [done|]. by rewrite (co_used _ C _ _ Hk Hne) in Hst. }
  destruct (rs_rest _ _ _ _ _ R) as (_ & _ & _ & En).
  assert (Hl : forall k' c, cd_codes db' !! k' = Some c -> exists c0, cd_codes db !! k' = Some c0 /\ rd_Id c = rd_Id c0 /\
                 (rd_ProviderId c, rd_Key c) = (rd_ProviderId c0, rd_Key c0) /\ (k' = k -> rd_Status c = RedemptionCodeStatusUsed) /\ (k' <> k -> c = c0)).
  { intros k' c. rewrite (rs_code _ _ _ _ _ R). fold k. destruct (decide (k = k')) as [<-|Hne].
    - rewrite lookup_insert_eq. intros [= <-]. exists r. by split_and!.
    - rewrite lookup_insert_ne by done. intros Hc. exists c. split_and!; try done. }
  split.
  - intros k' c Hc. destruct (Hl _ _ Hc) as (c0 & Hc0 & _ & -> & _). by apply (co_key _ C).
  - intros k' c Hc. destruct (Hl _ _ Hc) as (c0 & Hc0 & -> & _). rewrite En. exact (co_id _ C _ _ Hc0).
  - intros k1 k2 c1 c2 H1 H2. destruct (Hl _ _ H1) as (d1 & Hd1 & -> & _). destruct (Hl _ _ H2) as (d2 & Hd2 & -> & _). by apply (co_inj _ C).
  - intros id. rewrite (times_redeems _ _ _ _ _ _ R). pose proof (co_once _ C id). destruct (Z.eqb_spec (rd_Id r) id) as [<-|]; lia.
  - intros k' c Hc Ht. destruct (Hl _ _ Hc) as (c0 & Hc0 & Ei & _ & Hu & Heq). destruct (decide (k' = k)) as [Ek|Hne]; [by apply Hu|].
    rewrite (Heq Hne). apply (co_used _ C _ _ Hc0). rewrite Ei, (times_redeems _ _ _ _ _ _ R) in Ht.
    destruct (Z.eqb_spec (rd_Id r) (rd_Id c0)) as [E|]; [|lia]. exfalso. apply Hne. by eapply (co_inj _ C).
  - intros id Hid. rewrite (times_redeems _ _ _ _ _ _ R). rewrite En in Hid. rewrite (co_fresh _ C id Hid).
    destruct (Z.eqb_spec (rd_Id r) id) as [E|]; [|lia]. pose proof (co_id _ C _ _ Hk). lia.
Qed.

Lemma code_codes r db : codes_ok db -> cd_codes db !! (rd_ProviderId r, rd_Key r) = None ->
  codes_ok (with_codes (<[(rd_ProviderId r, rd_Key r) := code_defaults (cd_nextCode db) r]> (cd_codes db)) (cd_nextCode db + 1) db).
Proof.
  intros C Hn. set (k := (rd_ProviderId r, rd_Key r)) in *.
  assert (Hl : forall k' c, <[k := code_defaults (cd_nextCode db) r]> (cd_codes db) !! k' = Some c ->
                 (k' = k /\ c = code_defaults (cd_nextCode db) r) \/ cd_codes db !! k' = Some c).
  { intros k' c. destruct (decide (k = k')) as [<-|Hne]; [rewrite lookup_insert_eq; intros [= <-]; by left|].
    rewrite lookup_insert_ne by done. by right. }
  assert (Ht : forall id, times_redeemed id (with_codes (<[k := code_defaults (cd_nextCode db) r]> (cd_codes db)) (cd_nextCode db + 1) db)
                          = times_redeemed id db) by done.
  split; cbn.
  - intros k' c [[-> ->]|Hc]%Hl; [done | by apply (co_key _ C)].
  - intros k' c [[-> ->]|Hc]%Hl; [cbn; lia|]. pose proof (co_id _ C _ _ Hc). lia.
  - intros k1 k2 c1 c2 [[-> ->]|Hc1]%Hl [[-> ->]|Hc2]%Hl Hid; [done|..]; [| |by eapply (co_inj _ C)]; cbn in Hid.
    + pose proof (co_id _ C _ _ Hc2). lia.
    + pose proof (co_id _ C _ _ Hc1). lia.
  - apply C.
  - intros k' c [[-> ->]|Hc]%Hl; rewrite Ht; [|exact (co_used _ C _ _ Hc)]. cbn. by rewrite (co_fresh _ C) by lia.
  - intros id Hid. rewrite Ht. apply (co_fresh _ C). lia.
Qed.

Lemma edit_codes f db : codes_ok db -> map_Forall (fun _ => edit_ok f) (cd_codes db) ->
  codes_ok (with_codes (f <$> cd_codes db) (cd_nextCode db) db).
Proof.
  intros C Hf.
  assert (Hl : forall k c, (f <$> cd_codes db) !! k = Some c -> exists c0, cd_codes db !! k = Some c0 /\ c = f c0 /\ edit_ok f c0).
  { intros k c. rewrite lookup_fmap. destruct (cd_codes db !! k) as [c0|] eqn:E; [|done]. intros [= <-]. exists c0. split_and!; try done. by apply (Hf k). }
  split; cbn; try apply C.
  - intros k c (c0 & Hc & -> & _ & -> & -> & _)%Hl. by apply (co_key _ C).
  - intros k c (c0 & Hc & -> & -> & _)%Hl. exact (co_id _ C _ _ Hc).
  - intros k1 k2 c1 c2 (d1 & Hd1 & -> & -> & _)%Hl (d2 & Hd2 & -> & -> & _)%Hl. by apply (co_inj _ C).
  - intros k c (c0 & Hc & -> & Ei & _ & _ & Hu)%Hl Ht. apply Hu, (co_used _ C _ _ Hc). by rewrite <- Ei.
Qed.

Lemma step_codes db db' : rows_ok db -> codes_ok db -> step true db db' -> codes_ok db'.
Proof.
  intros Hr C S. destruct S as [db' A|row t q db' Hk Cp|now u key r db' Hrd R|t id n Hn Ho|row row' Hk Hp Et _ Eb _| | |c| |];
    try by apply (codes_ok_same db).
  - destruct A as [At _ Ac _ An _ _]. apply (codes_ok_same db); try done. intros id. unfold times_redeemed. by rewrite At.
  - destruct (cp_row _ _ _ _ _ Cp) as (row' & Et & _ & _ & _ & _ & Eb). destruct (cp_rest _ _ _ _ _ Cp) as (_ & Ec & _ & En).
    apply (codes_ok_same db); try done. intros id. unfold times_redeemed at 1. rewrite Et. eapply times_replace; [done.. | apply Cp | done].
  - destruct (Hrd eq_refl). by eapply redeems_codes.
  - apply (codes_ok_same db); try done. intros id'. unfold times_redeemed at 1. cbn. rewrite table_sum_insert_new by done.
    rewrite pays_out_other; [done|]. cbn. rewrite GetBizType_defaults. apply Ho.
  - apply (codes_ok_same db); try done. intros id. unfold times_redeemed at 1. cbn. rewrite Et. by eapply times_replace.
  - by apply code_codes.
  - apply edit_codes; auto.
Qed.

(** *** Hashes *)

Lemma hash_clash_false c db k c' h : hash_clash c db = false -> cd_crypto db !! k = Some c' -> ct_TxHash c = Some h -> ct_TxHash c' = Some h ->
  ct_TradeNo c' = ct_TradeNo c.
Proof.
  unfold hash_clash. intros Hc Hk Eh Eh'. destruct (String.eqb_spec (ct_TradeNo c') (ct_TradeNo c)) as [|Hne]; [done|].
  exfalso. enough (existsb (fun c'0 => negb (String.eqb (ct_TradeNo c'0) (ct_TradeNo c)) && bool_decide (is_Some (ct_TxHash c) /\ ct_TxHash c'0 = ct_TxHash c))
    (map snd (map_to_list (cd_crypto db))) = true) by congruence.
  apply existsb_exists. exists c'. split.
  - apply in_map_iff. exists (k, c'). split; [done|]. by apply list_elem_of_In, elem_of_map_to_list.
  - rewrite (proj2 (String.eqb_neq _ _) Hne). cbn. apply bool_decide_eq_true. rewrite Eh, Eh'. eauto.
Qed.

Lemma hashes_settle c c' db : hashes_ok db -> settles c c' db -> hashes_ok (with_crypto (<[ct_TradeNo c' := c']> (cd_crypto db)) db).
Proof.
  intros [Hk Hd] (Hc & Hs & Hclash). split; cbn.
  - intros k d. destruct (decide (ct_TradeNo c' = k)) as [<-|Hne]; [rewrite lookup_insert_eq; by intros [= <-]|]. rewrite lookup_insert_ne by done. apply Hk.
  - intros k1 k2 c1 c2 h H1 H2 E1 E2.
    destruct (decide (ct_TradeNo c' = k1)) as [<-|N1]; [rewrite lookup_insert_eq in H1; injection H1 as <- | rewrite lookup_insert_ne in H1 by done];
    (destruct (decide (ct_TradeNo c' = k2)) as [<-|N2]; [rewrite lookup_insert_eq in H2; injection H2 as <- | rewrite lookup_insert_ne in H2 by done]);
      [done| | |by eapply Hd].
    + pose proof (hash_clash_false _ _ _ _ _ Hclash H2 E1 E2) as Ht. by rewrite (Hk _ _ H2) in Ht.
    + pose proof (hash_clash_false _ _ _ _ _ Hclash H1 E2 E1) as Ht. by rewrite (Hk _ _ H1) in Ht.
Qed.

Lemma hashes_new c db : hashes_ok db -> cd_crypto db !! ct_TradeNo c = None -> ct_TxHash c = None ->
  hashes_ok (with_crypto (<[ct_TradeNo c := c]> (cd_crypto db)) db).
Proof.
  intros [Hk Hd] Hn Hh. split; cbn.
  - intros k d. destruct (decide (ct_TradeNo c = k)) as [<-|Hne]; [rewrite lookup_insert_eq; by intros [= <-]|]. rewrite lookup_insert_ne by done. apply Hk.
  - intros k1 k2 c1 c2 h H1 H2 E1 E2.
    destruct (decide (ct_TradeNo c = k1)) as [<-|N1]; [rewrite lookup_insert_eq in H1; simplify_eq; congruence|].
    destruct (decide (ct_TradeNo c = k2)) as [<-|N2]; [rewrite lookup_insert_eq in H2; simplify_eq; congruence|].
    rewrite !lookup_insert_ne in H1, H2 by done. by eapply Hd.
Qed.

Lemma hashes_same db db' : hashes_ok db -> cd_crypto db' = cd_crypto db -> hashes_ok db'.
Proof. unfold hashes_ok. by intros Hh ->. Qed.

Lemma step_hashes serial db db' : hashes_ok db -> step serial db db' -> hashes_ok db'.
Proof.
  intros Hh S. destruct S as [db' A|row t q db' Hk Cp|now u key r db' Hrd R| | | | |c| |]; try by apply (hashes_same db).
  - by eapply hashes_same; [|apply A].
  - destruct (cp_crypto _ _ _ _ _ Cp) as [E|(c & c' & Hs & E)]; [by apply (hashes_same db)|].
    apply (hashes_same (with_crypto (<[ct_TradeNo c' := c']> (cd_crypto db)) db)); [by eapply hashes_settle | done].
  - eapply hashes_same; [done|]. apply R.
  - by apply hashes_new.
  - by eapply hashes_settle.
Qed.

Lemma credit_step_inv serial db db' : inv serial db -> step serial db db' -> inv serial db'.
Proof.
  intros [] S. split; [by eapply mv_rows, step_moved | intros ->; by eapply step_codes; [| |exact S]; auto | by eapply step_hashes].
Qed.

End Safety.
