(* ===== verification/CreditHistory.v ===== *)
(** * What the history of credits guarantees

    Every call is a sequence of the transitions of [CreditSafety]; the ledger,
    the codes and the hashes of on-chain payments follow for any history. *)

From stdpp Require Import base numbers list strings pretty gmap relations.
From Stdlib Require Import ZArith Lia SpecFloat QArith.
From S2P Require Import Prelude GoInt GoString SubStock SubOrder Commission Redemption TopUp CreditLedger CreditSafety.
#[local] Open Scope Z_scope.

(** A call with what it reads from clocks and random sources. *)
Inductive credit_call :=
  | OpenOrder (t : TopUp)
  | OpenCryptoOrder (t : TopUp) (c : CryptoTransaction)
  | StripeFailed (k : string) | StripeExpired (k : string) | WaffoFailed (k : string)
  | PendingTo (k provider status : string)
  | StripePaid (now : Z) (d : draw) (k customer : string)
  | WechatPaid (now : Z) (d : draw) (k method provider : string)
  | EpayPaid (now : Z) (d : draw) (k method : string)
  | CompletedByHand (now : Z) (d : draw) (k : string)
  | CreemPaid (now : Z) (d : draw) (k email : string)
  | WaffoPaid (now : Z) (d : draw) (k : string)
  | PancakePaid (now : Z) (d : draw) (k : string)
  | CryptoPaid (now : Z) (d : draw) (k hash payer : string) (block confirmations : Z)
  | CryptoSettled (now : Z) (k hash payer : string) (block confirmations : Z)
  | CodeRedeemed (now : Z) (random key : string) (u : Z)
  | CodesAdded (now provider u count : Z) (uuid : nat -> string) (req : Redemption)
  | CodeEdited (now : Z) (statusOnly : bool) (req : Redemption)
  | CodeDeleted (id : Z) | CodeDeletedIn (id provider : Z) | InvalidDeleted (now provider : Z)
  | CodesSent (now provider : Z) (ids : list Z) (sent : bool)
  (** The second half of a redemption that read the code [r] of [provider] some time ago. *)
  | CodePaid (now : Z) (random : string) (provider : Z) (o : option redemptionOriginalValue) (r : Redemption) (u : Z)
  (** The second half of an edit that read the code, and changed it to [r], some time ago. *)
  | CodeSaved (r : Redemption)
  (** [stored] says whether the reward record of a check-in on SQLite could be stored. *)
  | CheckedIn (sqlite stored : bool) (now : Z) (date date' : string) (roll u : Z).

Section History.
Context `{Accounting, Credits}.

Definition run_credit (c : credit_call) (db : creditDB) : creditDB :=
  match c with
  | OpenOrder t => (TopUp_Insert t db).2
  | OpenCryptoOrder t c => (create_crypto_order t c db).2
  | StripeFailed k => stripe_payment_failed k db
  | StripeExpired k => stripe_session_expired k db
  | WaffoFailed k => waffo_payment_failed k db
  | PendingTo k p s => (UpdatePendingTopUpStatus k p s db).2
  | StripePaid now d k customer => (Recharge now d k customer db).2
  | WechatPaid now d k m p => (RechargeWechatTopUp now d k m p db).2
  | EpayPaid now d k m => (RechargeEpay now d k m db).2
  | CompletedByHand now d k => (ManualCompleteTopUp now d k db).2
  | CreemPaid now d k email => (RechargeCreem now d k email db).2
  | WaffoPaid now d k => (RechargeWaffo now d k db).2
  | PancakePaid now d k => (RechargeWaffoPancake now d k db).2
  | CryptoPaid now d k h p b c => (RechargeCrypto now d k h p b c db).2
  | CryptoSettled now k h p b c => (CompleteCryptoTransaction now k h p b c db).2
  | CodeRedeemed now random key u => (Redeem now random key u db).2
  | CodesAdded now p u n uuid req => (AddRedemption now p u n uuid req db).2
  | CodeEdited now so req => (UpdateRedemption now so req db).2
  | CodeDeleted id => (DeleteRedemptionById id db).2
  | CodeDeletedIn id p => (DeleteRedemptionByIdInProvider id p db).2
  | InvalidDeleted now p => DeleteInvalidRedemptionsByProvider now p db
  | CodesSent now p ids sent => BatchUpdateRedemptionSent now p ids sent db
  | CodePaid now random p o r u => match redeem_write now u p random o r db with Ok db' => db' | Err _ => db end
  | CodeSaved r => Redemption_Update r db
  | CheckedIn sqlite stored now d d' roll u => (UserCheckin sqlite now d d' roll stored u db).2
  end.

(** With [serial], the transactions on codes run one after the other and no
    administrator makes a used code usable. *)
Section Steps.
Context (serial : bool).

(** What the callers keep to: gateways open orders as [order_ok] says, a pending
    order is not declared a success without being credited, and on SQLite the
    reward record of a check-in is stored. *)
Definition legal (c : credit_call) (db : creditDB) : Prop :=
  match c with
  | OpenOrder t | OpenCryptoOrder t _ => order_ok t
  | PendingTo _ _ s => s <> TopUpStatusSuccess
  | CheckedIn sqlite stored _ _ _ _ u => 0 < u /\ (sqlite = true -> stored = true)
  | CodeEdited _ true req => serial = true ->
      forall k r, cd_codes db !! k = Some r -> rd_Id r = rd_Id req -> rd_Status r = RedemptionCodeStatusUsed -> rd_Status req = RedemptionCodeStatusUsed
  | CodePaid _ _ _ _ _ _ | CodeSaved _ => serial = false
  | _ => True
  end.

(** ** Calls as transitions *)

#[local] Notation steps := (rtc (step serial)).

Lemma one_step db db' : step serial db db' -> steps db db'.
Proof. apply rtc_once. Qed.

Lemma aside_steps db db' : aside db db' -> steps db db'.
Proof. intros A. by apply one_step, st_aside. Qed.

Lemma redeem_steps now random key u o db : steps db (redeem now random key u o db).2.
Proof.
  pose proof (redeem_spec now random key u o db) as Hs. destruct (redeem now random key u o db) as [[q|e] db'].
  - destruct Hs as (p & r & Hr & _ & R). apply redeem_read_spec in Hr as (Hk & _ & Hst & _). eapply one_step, st_redeem; [by intros _|done].
  - by subst.
Qed.

(** A redemption of whatever row it read. *)
Lemma paid_steps now u p random o r db db' : serial = false -> redeem_write now u p random o r db = Ok db' -> steps db db'.
Proof. intros Hs R%redeem_write_spec. eapply one_step, (st_redeem _ _ now u (0, "") r); [by rewrite Hs | done]. Qed.

Lemma Redemption_Insert_steps r db db' : Redemption_Insert r db = Ok db' -> steps db db'.
Proof. unfold Redemption_Insert. destruct (cd_codes db !! _) eqn:En; [done|]. intros [= <-]. by apply one_step, st_code. Qed.

Lemma GrantTopUpBonus_steps now uuid random u p money k db : steps db (GrantTopUpBonus now uuid random u p money k db).
Proof.
  unfold GrantTopUpBonus. destruct (offer_for u p money db) as [[h o]|]; [|done]. unfold claimTopUpBonusGrant.
  destruct (cd_grants db !! _); [done|]. cbn [negb]. set (db1 := with_grants _ db).
  assert (S1 : steps db db1) by (by apply aside_steps). destruct (Redemption_Insert _ db1) as [db2|] eqn:Ei.
  - pose proof (Redemption_Insert_steps _ _ _ Ei) as S2. pose proof (redeem_steps now random uuid u (Some (mkOriginal (of_amount o) (of_currency o))) db2) as S3.
    destruct (redeem _ _ _ _ _ db2) as [[q|e] db3]; cbn [snd] in S3; [by do 2 (etrans; [eassumption|])|].
    do 3 (etrans; [eassumption|]). by apply aside_steps.
  - etrans; [exact S1|]. by apply aside_steps.
Qed.

Lemma concluded_steps now d report k db r : rows_ok db -> tx_ok (cd_topups db !! k) db r -> steps db (concluded now d report r db).2.
Proof.
  intros Hr Hx. destruct r as [[[[t q]|] db']|e]; cbn in Hx |- *; [|by subst|done].
  destruct Hx as (row & Hk & C). etrans; [|apply GrantTopUpBonus_steps].
  eapply one_step, st_complete; [|exact C]. pose proof (Hr _ _ Hk) as (-> & _). done.
Qed.

(** A gateway's call, from what its transaction does with any row. *)
Lemma gateway_steps now d report k (msg : string) (tx : option TopUpRow -> creditDB -> result (completion * creditDB)) db : rows_ok db ->
  tx_ok None db (tx None db) -> (forall row, topup_row_ok k row -> tx_ok (Some row) db (tx (Some row) db)) ->
  steps db (if String.eqb k "" then (fail_with msg, db) else concluded now d report (tx (cd_topups db !! k) db) db).2.
Proof.
  intros Hr Hn Hs. destruct (String.eqb k ""); [done|]. apply (concluded_steps _ _ _ k); [done|].
  destruct (cd_topups db !! k) as [row|] eqn:Ek; [|done]. apply Hs, (Hr _ _ Ek).
Qed.

Lemma crypto_steps now d k h p b c db : rows_ok db -> hashes_ok db -> steps db (RechargeCrypto now d k h p b c db).2.
Proof.
  intros Hr [Hh _]. unfold RechargeCrypto. destruct (String.eqb k ""); [done|]. cbv zeta. destruct (String.eqb (normalizeTxHash h) ""); [done|].
  apply (concluded_steps _ _ _ k); [done|]. destruct (cd_topups db !! k) as [row|] eqn:Ek; [|done].
  eapply RechargeCrypto_tx_ok; [apply (Hr _ _ Ek)|]. intros c' Hc'. by rewrite (Hh _ _ Hc').
Qed.

Lemma settled_steps now k h p b c db : hashes_ok db -> steps db (CompleteCryptoTransaction now k h p b c db).2.
Proof.
  intros [Hh _]. unfold CompleteCryptoTransaction. cbv zeta. destruct (String.eqb _ ""); [done|]. destruct (String.eqb _ ""); [done|].
  destruct (cd_crypto db !! TrimSpace k) as [ct|] eqn:Ek; [|done]. unfold save_crypto. destruct (hash_clash _ db) eqn:Ec; [done|].
  eapply one_step, (st_settle _ db ct). split_and!; [|by eexists|done]. cbn. by rewrite (Hh _ _ Ek).
Qed.

Lemma insert_steps t db : order_ok t -> steps db (TopUp_Insert t db).2.
Proof.
  intros Ho. unfold TopUp_Insert. destruct (InsertTx t db) as [[id db']|] eqn:Ei; [|done]. cbn.
  apply InsertTx_spec in Ei as (Hn & -> & ->). by apply one_step, st_order.
Qed.

Lemma create_crypto_steps t c db : order_ok t -> steps db (create_crypto_order t c db).2.
Proof.
  intros Ho. unfold create_crypto_order, credit_tx. destruct (InsertTx t db) as [[id db']|] eqn:Ei; [|done].
  apply InsertTx_spec in Ei as (Hn & -> & ->). cbn. destruct (cd_crypto db !! tu_TradeNo t) eqn:Ec; [done|]. cbn.
  eapply rtc_l; [by apply (st_order _ db t (cd_nextTopUp db) (cd_nextTopUp db + 1))|]. apply one_step.
  set (c' := mkCrypto _ _ _ (tu_TradeNo t) _ _ _ _ _ _ _ _ _ _ _ _ _). by apply (st_crypto _ (with_rows _ _ db) c').
Qed.

Lemma close_order_steps k row s db : rows_ok db -> cd_topups db !! k = Some row -> status_is row TopUpStatusPending = true ->
  String.eqb s TopUpStatusSuccess = false -> steps db (close_order s row db).
Proof.
  intros Hr Hk Hp Hs. pose proof (Hr _ _ Hk) as (<- & _). apply String.eqb_eq in Hp. apply one_step, (st_close _ _ row); try done.
  cbn. rewrite GetBizType_defaults. cbn. rewrite <- (GetBizType_fix (w_TopUp row)) at 2. unfold GetBizType at 2. cbn.
  destruct (String.eqb_spec (GetBizType (w_TopUp row)) "") as [E|E]; [|done]. exfalso. rewrite <- GetBizType_fix in E. revert E.
  unfold GetBizType at 1. cbn. unfold normalizeTopUpBizType. destruct (String.eqb_spec (GetBizType (w_TopUp row)) ""); [by destruct (_ && _)|done].
Qed.

Lemma update_codes_steps p f db :
  (serial = true -> map_Forall (fun _ c => negb (rd_Deleted c) && p c = true -> edit_ok f c) (cd_codes db)) -> steps db (update_codes p f db).
Proof.
  intros Hf. apply one_step, st_codes. intros Hs k c Hc. unfold edit_ok. destruct (negb (rd_Deleted c) && p c) eqn:E; [by apply (Hf Hs _ _ Hc) | done].
Qed.

Lemma live_code_spec p db r : live_code p db = Some r -> (exists k, cd_codes db !! k = Some r) /\ p r = true.
Proof.
  unfold live_code. intros Hf. apply find_some in Hf as [Hin Hp]. apply andb_true_iff in Hp as [_ Hp]. split; [|done].
  apply in_map_iff in Hin as ([k c] & <- & Hin). exists k. by apply list_elem_of_In, elem_of_map_to_list in Hin.
Qed.

Lemma delete_steps p db : steps db (update_codes p code_delete db).
Proof. apply update_codes_steps. by intros _ k c _ _. Qed.

Lemma edit_steps now so req db : (serial = true -> codes_ok db) -> legal (CodeEdited now so req) db -> steps db (UpdateRedemption now so req db).2.
Proof.
  intros C Hl. unfold UpdateRedemption, edit_read, GetRedemptionById. destruct (rd_Id req =? 0); [done|].
  destruct (live_code _ db) as [r|] eqn:El; [|done]. apply live_code_spec in El as ((k & Hk) & Hid). apply Z.eqb_eq in Hid. cbn [mbind result_bind].
  destruct (_ && _); [done|]. cbn. apply update_codes_steps. intros Hs k' c Hc Hm. specialize (C Hs). apply andb_true_iff in Hm as [_ Hm]. apply Z.eqb_eq in Hm.
  assert (Hi : rd_Id (edited so req r) = rd_Id r) by (by destruct so). rewrite Hi in Hm.
  assert (k' = k) as -> by (by eapply (co_inj _ C)). simplify_eq. split_and!; try done. cbn. intros Hu.
  destruct so; cbn; [|done]. by apply (Hl Hs k r).
Qed.

Lemma insert_codes_steps make uuids keys db : steps db (insert_codes make uuids keys db).2.
Proof.
  revert keys db. induction uuids as [|key rest IH]; intros keys db; cbn; [done|].
  destruct (Redemption_Insert (make key) db) as [db1|] eqn:Ei; [|done]. etrans; [by eapply Redemption_Insert_steps | apply IH].
Qed.

Lemma add_steps now p u n uuid req db : steps db (AddRedemption now p u n uuid req db).2.
Proof.
  unfold AddRedemption. destruct (_ || _); [done|]. destruct (n <=? 0); [done|]. destruct (100 <? n); [done|]. destruct (negb _); [done|]. cbv zeta.
  pose proof (insert_codes_steps (fun key => mkRedemption 0 p u key 0 (rd_Name req) (rd_Quota req) now 0 0 false (rd_ExpiredTime req) 0)
    (uuid <$> seq 0 (Z.to_nat n)) [] db) as S. destruct (insert_codes _ _ _ db). exact S.
Qed.

Lemma insert_checkin_spec c db id db' : insert_checkin c db = Ok (id, db') ->
  cd_checkins db !! (ci_ProviderId c, ci_UserId c, ci_CheckinDate c) = None /\ id = cd_nextCheckin db /\
  db' = with_checkins (<[(ci_ProviderId c, ci_UserId c, ci_CheckinDate c) :=
          mkCheckin id (ci_ProviderId c) (ci_UserId c) (ci_CheckinDate c) (ci_QuotaAwarded c) (ci_CreatedAt c)]> (cd_checkins db)) (id + 1) db.
Proof. unfold insert_checkin. cbv zeta. destruct (cd_checkins db !! _); [done|]. by intros [= <- <-]. Qed.

Lemma checkin_credit_steps c id n db db' (w : RewardRecord) now :
  cd_checkins db !! (ci_ProviderId c, ci_UserId c, ci_CheckinDate c) = None ->
  (if 0 <? ci_ProviderId c then CreateRewardRecord now w (add_quota (ci_UserId c) (ci_QuotaAwarded c) (ci_QuotaAwarded c)
      (with_checkins (<[(ci_ProviderId c, ci_UserId c, ci_CheckinDate c) :=
         mkCheckin id (ci_ProviderId c) (ci_UserId c) (ci_CheckinDate c) (ci_QuotaAwarded c) (ci_CreatedAt c)]> (cd_checkins db)) n db))
   else Ok (add_quota (ci_UserId c) (ci_QuotaAwarded c) (ci_QuotaAwarded c)
      (with_checkins (<[(ci_ProviderId c, ci_UserId c, ci_CheckinDate c) :=
         mkCheckin id (ci_ProviderId c) (ci_UserId c) (ci_CheckinDate c) (ci_QuotaAwarded c) (ci_CreatedAt c)]> (cd_checkins db)) n db))) = Ok db' ->
  steps db db'.
Proof.
  intros Hn Hw. apply optional_reward in Hw as [l ->]. apply one_step.
  apply (st_checkin _ db (mkCheckin id (ci_ProviderId c) (ci_UserId c) (ci_CheckinDate c) (ci_QuotaAwarded c) (ci_CreatedAt c)) n l Hn).
Qed.

Lemma checkin_tx_steps now c db : steps db (userCheckinWithTransaction now c db).2.
Proof.
  unfold userCheckinWithTransaction, credit_tx. destruct (insert_checkin c db) as [[id db1]|] eqn:Ei; [|done].
  apply insert_checkin_spec in Ei as (Hn & -> & ->). cbn [mbind result_bind].
  destruct (if 0 <? ci_ProviderId c then _ else _) as [db2|] eqn:Ew; [|done]. cbn. by eapply checkin_credit_steps.
Qed.

(** Taking a check-in back right after it was made leaves the rows as they were. *)
Lemma take_back_aside c id n db : cd_checkins db !! (ci_ProviderId c, ci_UserId c, ci_CheckinDate c) = None ->
  aside db (delete_checkin c (with_checkins (<[(ci_ProviderId c, ci_UserId c, ci_CheckinDate c) :=
    mkCheckin id (ci_ProviderId c) (ci_UserId c) (ci_CheckinDate c) (ci_QuotaAwarded c) (ci_CreatedAt c)]> (cd_checkins db)) n db)).
Proof. intros Hn. split; try done. cbn. by rewrite delete_insert_id. Qed.

Lemma nothing_added u m c db : m = 0 -> aside (delete_checkin c db) (delete_checkin c (add_quota u m m db)).
Proof.
  intros ->. split; try done.
  - intros v. rewrite (quota_held_add v u 0 0 db : quota_held v (delete_checkin c (add_quota u 0 0 db)) = _). symmetry. apply shift_zero. by case_match.
  - intros v. rewrite (reward_held_add v u 0 0 db : reward_held v (delete_checkin c (add_quota u 0 0 db)) = _). symmetry. apply shift_zero. by case_match.
Qed.

(** The reward record of a check-in is refused only when nothing was awarded. *)
Lemma checkin_reward_refused now c id db e : 0 < ci_ProviderId c -> 0 < ci_UserId c ->
  CreateRewardRecord now (checkin_reward c id) db = Err e -> ci_QuotaAwarded c = 0.
Proof.
  intros Hp Hu. unfold CreateRewardRecord, reward_BeforeCreate. cbn. rewrite (proj2 (Z.leb_gt _ _) Hp), (proj2 (Z.leb_gt _ _) Hu). cbn.
  by destruct (Z.eqb_spec (ci_QuotaAwarded c) 0).
Qed.

Lemma checkin_plain_steps now c db : 0 < ci_UserId c -> steps db (userCheckinWithoutTransaction now true c db).2.
Proof.
  intros Hu. unfold userCheckinWithoutTransaction. destruct (insert_checkin c db) as [[id db1]|] eqn:Ei; [|done].
  apply insert_checkin_spec in Ei as (Hn & -> & ->). destruct (ci_QuotaAwarded c <? 0); [by apply aside_steps, take_back_aside|]. cbv zeta.
  pose proof (checkin_credit_steps c (cd_nextCheckin db) (cd_nextCheckin db + 1) db) as Hs. destruct (Z.ltb_spec 0 (ci_ProviderId c)) as [Hp|Hp].
  - destruct (CreateRewardRecord now _ _) as [db2|e] eqn:Ew; [by eapply Hs|]. apply checkin_reward_refused in Ew; [|done..].
    etrans; [by eapply aside_steps, take_back_aside|]. by apply aside_steps, nothing_added.
  - by eapply (Hs _ (checkin_reward c 0) 0).
Qed.

Lemma checkin_steps sqlite stored now d d' roll u db : 0 < u -> (sqlite = true -> stored = true) ->
  steps db (UserCheckin sqlite now d d' roll stored u db).2.
Proof.
  intros Hu Hst. unfold UserCheckin. destruct (cd_users db !! u) as [h|]; [|done]. destruct (GetProviderRewardConfig _) as [st|]; [|done].
  destruct (negb _); [done|]. destruct (bool_decide _); [done|]. cbv zeta. destruct sqlite; [rewrite (Hst eq_refl); by apply checkin_plain_steps | apply checkin_tx_steps].
Qed.

(** Every call is a sequence of transitions. *)
Lemma call_steps c db : inv serial db -> legal c db -> steps db (run_credit c db).
Proof.
  intros [Hr C Hh] Hl. destruct c; cbn [run_credit]; cbn in Hl.
  - by apply insert_steps.
  - by apply create_crypto_steps.
  - unfold stripe_payment_failed. destruct (cd_topups db !! k) as [row|] eqn:Ek; [|done]. destruct (negb (method_is _ _)); [done|].
    destruct (status_is row _) eqn:Es; [|done]. by eapply close_order_steps.
  - unfold stripe_session_expired. destruct (cd_topups db !! k) as [row|] eqn:Ek; [|done]. destruct (negb (method_is _ _)); [done|].
    destruct (_ && _); [done|]. destruct (status_is row TopUpStatusExpired); [done|]. destruct (status_is row _) eqn:Es; [|done].
    by eapply close_order_steps.
  - unfold waffo_payment_failed. destruct (String.eqb k ""); [done|]. destruct (cd_topups db !! k) as [row|] eqn:Ek; [|done].
    destruct (status_is row _) eqn:Es; [|done]. by eapply close_order_steps.
  - unfold UpdatePendingTopUpStatus. destruct (String.eqb k ""); [done|]. destruct (cd_topups db !! k) as [row|] eqn:Ek; [|done].
    destruct (_ && _); [done|]. destruct (status_is row _) eqn:Es; [|done]. pose proof (Hr _ _ Ek) as (<- & _). apply String.eqb_eq in Es.
    apply one_step, (st_close _ _ row); try done. by apply String.eqb_neq.
  - apply (gateway_steps _ _ _ _ _ (Recharge_tx now customer)); [done..|]. intros row Hrow. by eapply Recharge_tx_ok.
  - apply (gateway_steps _ _ _ _ _ (RechargeWechatTopUp_tx now method provider)); [done..|]. intros row Hrow. by eapply RechargeWechatTopUp_tx_ok.
  - apply (gateway_steps _ _ _ _ _ (RechargeWechatTopUp_tx now method PaymentProviderEpay)); [done..|]. intros row Hrow. by eapply RechargeWechatTopUp_tx_ok.
  - apply (gateway_steps _ _ _ _ _ (ManualCompleteTopUp_tx now)); [done..|]. intros row Hrow. by eapply ManualCompleteTopUp_tx_ok.
  - apply (gateway_steps _ _ _ _ _ (RechargeCreem_tx now email)); [done..|]. intros row Hrow. by eapply RechargeCreem_tx_ok.
  - apply (gateway_steps _ _ _ _ _ (RechargeWaffo_tx now)); [done..|]. intros row Hrow. by eapply RechargeWaffo_tx_ok.
  - apply (gateway_steps _ _ _ _ _ (RechargeWaffoPancake_tx now)); [done..|]. intros row Hrow. by eapply RechargeWaffoPancake_tx_ok.
  - by apply crypto_steps.
  - by apply settled_steps.
  - apply redeem_steps.
  - apply add_steps.
  - by apply edit_steps.
  - unfold DeleteRedemptionById. destruct (id =? 0); [done|]. destruct (live_code _ db); [apply delete_steps | done].
  - unfold DeleteRedemptionByIdInProvider. destruct (id =? 0); [done|]. destruct (live_code _ db); [apply delete_steps | done].
  - apply delete_steps.
  - by apply update_codes_steps.
  - destruct (redeem_write _ _ _ _ _ _ _) eqn:Ew; [by eapply paid_steps | done].
  - apply update_codes_steps. by rewrite Hl.
  - destruct Hl. by apply checkin_steps.
Qed.

(** ** Histories *)

Definition run_credits (calls : list credit_call) (db : creditDB) : creditDB := fold_left (fun db c => run_credit c db) calls db.
Fixpoint legal_run (calls : list credit_call) (db : creditDB) : Prop :=
  match calls with [] => True | c :: rest => legal c db /\ legal_run rest (run_credit c db) end.

(** The tables before any credit. *)
Definition no_credits (users : gmap Z Holder) : creditDB := mkCredit users ∅ ∅ ∅ ∅ ∅ [] 1 1 1.

Lemma no_credits_inv users : inv serial (no_credits users).
Proof. split; [by apply map_Forall_empty | by intros _; split | by split]. Qed.

Lemma credit_steps_inv db db' : steps db db' -> inv serial db -> inv serial db'.
Proof. induction 1; eauto using credit_step_inv. Qed.

Lemma steps_moved db db' : steps db db' -> inv serial db -> credits_moved db db'.
Proof.
  induction 1 as [db|d1 d2 d3 S _ IH]; intros I; [apply moved_refl, I|]. eapply moved_trans; [by apply (step_moved serial); [apply I|]|].
  apply IH. by eapply credit_step_inv.
Qed.

Lemma run_steps calls db : inv serial db -> legal_run calls db -> steps db (run_credits calls db) /\ inv serial (run_credits calls db).
Proof.
  revert db. induction calls as [|c rest IH]; intros db I L; [done|]. destruct L as [Lc L]. pose proof (call_steps c db I Lc) as S.
  destruct (IH (run_credit c db)) as [S' I']; [by eapply credit_steps_inv|done|]. split; [by etrans | done].
Qed.

Lemma run_credits_app l1 l2 db : run_credits (l1 ++ l2) db = run_credits l2 (run_credits l1 db).
Proof. apply fold_left_app. Qed.

(** *** Completed orders *)

(** A call that may complete the order [k]. *)
Definition completion_of (k : string) (c : credit_call) : bool :=
  match c with
  | StripePaid _ _ k' _ | WechatPaid _ _ k' _ _ | EpayPaid _ _ k' _ | CompletedByHand _ _ k' | CreemPaid _ _ k' _ | WaffoPaid _ _ k'
  | PancakePaid _ _ k' | CryptoPaid _ _ k' _ _ _ _ => String.eqb k k'
  | _ => false
  end.

Lemma success_is_none found db r t q db' row : tx_ok found db r -> found = Some row -> succeeded (w_TopUp row) = true -> r = Ok (Some (t, q), db') -> False.
Proof.
  intros Hx -> Hs ->. destruct Hx as (row' & [= <-] & C). pose proof (pending_not_succeeded _ (cp_pending _ _ _ _ _ C)). congruence.
Qed.

Lemma concluded_done now d report found db r row : tx_ok found db r -> found = Some row -> succeeded (w_TopUp row) = true ->
  (concluded now d report r db).2 = db.
Proof.
  intros Hx Hf Hs. destruct r as [[[[t q]|] db']|e]; cbn in *; [|done|done]. exfalso.
  by eapply (success_is_none found db (Ok (Some (t, q), db')) t q db' row).
Qed.

Lemma gateway_done now d report k (msg : string) (tx : option TopUpRow -> creditDB -> result (completion * creditDB)) db row : rows_ok db ->
  cd_topups db !! k = Some row -> succeeded (w_TopUp row) = true -> (forall row, topup_row_ok k row -> tx_ok (Some row) db (tx (Some row) db)) ->
  (if String.eqb k "" then (fail_with msg, db) else concluded now d report (tx (cd_topups db !! k) db) db).2 = db.
Proof.
  intros Hr Hk Hs Hx. destruct (String.eqb k ""); [done|]. rewrite Hk. eapply concluded_done; [apply Hx, (Hr _ _ Hk) | done | done].
Qed.

Lemma completion_done k row c db : inv serial db -> cd_topups db !! k = Some row -> succeeded (w_TopUp row) = true -> completion_of k c = true ->
  run_credit c db = db.
Proof.
  intros [Hr _ Hh] Hk Hs Hc. destruct c; try discriminate; cbn in Hc; apply String.eqb_eq in Hc as <-; cbn [run_credit].
  - eapply (gateway_done _ _ _ _ _ (Recharge_tx now customer)); [done..|]. intros r Hrow. by eapply Recharge_tx_ok.
  - eapply (gateway_done _ _ _ _ _ (RechargeWechatTopUp_tx now method provider)); [done..|]. intros r Hrow. by eapply RechargeWechatTopUp_tx_ok.
  - eapply (gateway_done _ _ _ _ _ (RechargeWechatTopUp_tx now method PaymentProviderEpay)); [done..|]. intros r Hrow. by eapply RechargeWechatTopUp_tx_ok.
  - eapply (gateway_done _ _ _ _ _ (ManualCompleteTopUp_tx now)); [done..|]. intros r Hrow. by eapply ManualCompleteTopUp_tx_ok.
  - eapply (gateway_done _ _ _ _ _ (RechargeCreem_tx now email)); [done..|]. intros r Hrow. by eapply RechargeCreem_tx_ok.
  - eapply (gateway_done _ _ _ _ _ (RechargeWaffo_tx now)); [done..|]. intros r Hrow. by eapply RechargeWaffo_tx_ok.
  - eapply (gateway_done _ _ _ _ _ (RechargeWaffoPancake_tx now)); [done..|]. intros r Hrow. by eapply RechargeWaffoPancake_tx_ok.
  - unfold RechargeCrypto. destruct (String.eqb k ""); [done|]. cbv zeta. destruct (String.eqb (normalizeTxHash hash) ""); [done|].
    eapply concluded_done; [|exact Hk|done]. rewrite Hk. eapply RechargeCrypto_tx_ok; [apply (Hr _ _ Hk)|]. intros c Hc. by rewrite (proj1 Hh _ _ Hc).
Qed.

Lemma legal_run_app l1 l2 db : legal_run (l1 ++ l2) db -> legal_run l1 db /\ legal_run l2 (run_credits l1 db).
Proof. revert db. induction l1 as [|c rest IH]; intros db L; [done|]. destruct L as [Lc L]. destruct (IH _ L). done. Qed.

Lemma legal_run_join l1 l2 db : legal_run l1 db -> legal_run l2 (run_credits l1 db) -> legal_run (l1 ++ l2) db.
Proof. revert db. induction l1 as [|c rest IH]; intros db L1 L2; [done|]. destruct L1 as [Lc L1]. split; [done|]. by apply IH. Qed.

End Steps.

(** ** Guarantees *)

(** C24. Credits reconcile.  Start from tables that hold users only, and run any
    history of order openings, payment callbacks of every gateway, manual
    completions, failures, redemptions (also ones that pay a code they read
    before another transaction changed it), bonuses, code administration (resets
    of used codes included) and check-ins, in which orders are opened pending
    and not as redemptions, no status update declares a pending order a success,
    and on SQLite the reward record of a check-in is stored
    ([failed_checkin_keeps_quota] otherwise).  Then each user's balance is the
    initial balance plus the quota of the successful top-up rows and the
    check-ins recorded for that user, and the reward balance is the initial one
    plus redemptions and check-ins. *)
Theorem credits_reconcile users calls u : legal_run false calls (no_credits users) ->
  let db := run_credits calls (no_credits users) in
  quota_held u db = (fun b => b + credits_of u db) <$> quota_held u (no_credits users) /\
  reward_held u db = (fun b => b + reward_credits_of u db) <$> reward_held u (no_credits users).
Proof.
  intros L. destruct (run_steps _ _ _ (no_credits_inv _ users) L) as [S _]. pose proof (steps_moved _ _ _ S (no_credits_inv _ users)) as M. cbv zeta. split.
  - rewrite (mv_quota _ _ M). assert (credits_of u (no_credits users) = 0) as -> by done. by destruct (quota_held u (no_credits users)); [rewrite Z.sub_0_r|].
  - rewrite (mv_reward _ _ M). assert (reward_credits_of u (no_credits users) = 0) as -> by done. by destruct (reward_held u (no_credits users)); [rewrite Z.sub_0_r|].
Qed.

(** C25. A completed order is final: once the row of an order is a success, no
    call of any later history changes that row, and no later callback of any
    gateway, nor a manual completion, for that order changes anything at all
    (no quota, no bonus). *)
Theorem completed_order_is_final users before after k row : legal_run false (before ++ after) (no_credits users) ->
  cd_topups (run_credits before (no_credits users)) !! k = Some row -> succeeded (w_TopUp row) = true ->
  let db := run_credits (before ++ after) (no_credits users) in
  cd_topups db !! k = Some row /\ forall c, completion_of k c = true -> run_credit c db = db.
Proof.
  intros [L1 L2]%legal_run_app Hk Hs. destruct (run_steps _ _ _ (no_credits_inv _ users) L1) as [_ I]. destruct (run_steps _ _ _ I L2) as [S I']. cbv zeta.
  rewrite run_credits_app. pose proof (mv_final _ _ (steps_moved _ _ _ S I) _ _ Hk Hs) as Hk'. split; [done|]. intros c Hc. by eapply completion_done.
Qed.

(** C26. A code is paid out once, as long as timing keeps its transactions
    apart: from tables that hold users only, over any history of openings,
    callbacks, redemptions, bonuses, code administration and check-ins whose
    transactions on codes run one after the other and in which no administrator
    resets a used code (orders and check-ins as for the reconciliation of
    credits), at most one redemption row exists for each code, and a code that
    has such a row is refused to everyone afterwards, without effect.  The code
    asks for a row lock that gorm does not take, so that nothing else keeps two
    transactions on a code apart: [unlocked_code_pays_twice] and
    [stale_edit_reopens] show what happens when they overlap. *)
Theorem code_is_redeemed_once users calls id : legal_run true calls (no_credits users) ->
  let db := run_credits calls (no_credits users) in
  times_redeemed id db <= 1 /\
  forall key u h r, cd_users db !! u = Some h -> cd_codes db !! (h_ProviderId h, key) = Some r -> rd_Id r = id -> times_redeemed id db <> 0 ->
    forall now random o, snd (redeem now random key u o db) = db /\ is_ok (fst (redeem now random key u o db)) = false.
Proof.
  intros L. destruct (run_steps _ _ _ (no_credits_inv _ users) L) as [_ [_ C _]]. specialize (C eq_refl). cbv zeta. split; [apply C|].
  intros key u h r Hu Hr <- Ht now random o. pose proof (co_used _ C _ _ Hr Ht) as Hst.
  pose proof (redeem_spec now random key u o (run_credits calls (no_credits users))) as Hs. destruct (redeem _ _ _ _ _ _) as [[q|e] db']; [|by subst].
  destruct Hs as (p & r' & Hread & _). apply redeem_read_spec in Hread as (Hk & _ & Hen & h' & Hu' & <-). simplify_eq. by rewrite Hst in Hen.
Qed.

(** An on-chain transfer pays once: over any history no two crypto
    payments, of top-ups or of subscriptions, are settled with the same hash. *)
Theorem transfer_pays_once users calls k1 k2 c1 c2 h : legal_run false calls (no_credits users) ->
  let db := run_credits calls (no_credits users) in
  cd_crypto db !! k1 = Some c1 -> cd_crypto db !! k2 = Some c2 -> ct_TxHash c1 = Some h -> ct_TxHash c2 = Some h -> k1 = k2.
Proof. intros L. destruct (run_steps _ _ _ (no_credits_inv _ users) L) as [_ [_ _ [_ Hd]]]. cbv zeta. apply Hd. Qed.

End History.

(** ** A history *)

(** One unit of money is worth 500,000 of quota. *)
Definition demo_quota (x : float64) : Z := match x with S754_finite false m e => Z.shiftl (Zpos m * 500000) e | _ => 0 end.
Definition demo_topup_accounting : Accounting := {| round6 := fun _ => 0; quota_of := demo_quota |}.
Definition f64_half : float64 := S754_finite false 4503599627370496 (-53).
Definition demo_credits : Credits := {|
  units_quota := fun n => n * 500000; usd_value := fun _ => f64_one; round_amount := fun x => x;
  bonus_value := fun x _ => inject_Z (demo_quota x); decode_rules := fun _ => Ok [mkGiftRule "tier-1" f64_one f64_half];
  like_prefix := fun _ _ => false; currency_config := fun _ => None; timezone_currencies := [];
  option_TopUpGiftRules := "rules"; option_TopUpGiftEnabled := true; GetProviderOptions := fun _ => Ok [];
  GetProviderRewardConfig := fun _ => Ok (mkRewardConfig true 100 200) |}.
Definition demo_users : gmap Z Holder := list_to_map [(1, mkHolder 0 "" "" "" 7 0); (2, mkHolder 5 "" "" "" 0 0)].
Definition demo_topup_order (k method : string) : TopUp :=
  mkTopUp 0 1 3 f64_one k method "" "" 0 10 0 TopUpStatusPending "" f64_one.
Definition demo_draw (n : string) : draw := mkDraw ("uuid-" +:+ n) ("random-" +:+ n).
Definition demo_code : Redemption := mkRedemption 0 0 0 "" 0 "gift" 1000 0 0 0 false 0 0.
Definition demo_crypto : CryptoTransaction := mkCrypto 0 0 1 "" None 56 "USDT" "" 6 "" "" "1" 0 0 "" 10 0.

Definition demo_before : list credit_call :=
  [OpenOrder (demo_topup_order "s1" "stripe"); OpenOrder (demo_topup_order "w1" "waffo"); OpenCryptoOrder (demo_topup_order "c1" "crypto") demo_crypto;
   OpenCryptoOrder (demo_topup_order "c2" "crypto") demo_crypto; StripePaid 20 (demo_draw "a") "s1" "customer"].
Definition demo_after : list credit_call :=
  [StripePaid 21 (demo_draw "b") "s1" "customer"; CompletedByHand 22 (demo_draw "c") "s1"; WaffoPaid 23 (demo_draw "d") "w1";
   WaffoFailed "w1"; CryptoPaid 24 (demo_draw "e") "c1" "0xA" "payer" 1 3; CryptoPaid 25 (demo_draw "f") "c2" " 0xa" "payer" 1 3;
   CodesAdded 26 5 1 2 (fun i => if Nat.eqb i 0 then "key-0" else "key-1") demo_code; CodeRedeemed 27 "r1" "key-0" 2; CodeRedeemed 28 "r2" "key-0" 2;
   CheckedIn false true 29 "2024-05-01" "2024-05-01" 7 2; CheckedIn false true 30 "2024-05-01" "2024-05-01" 7 2].
Definition demo_credit_calls : list credit_call := demo_before ++ demo_after.
#[local] Notation demo_db := (@run_credits demo_topup_accounting demo_credits demo_credit_calls (no_credits demo_users)).

Lemma demo_credits_legal serial : @legal_run demo_topup_accounting demo_credits serial demo_credit_calls (no_credits demo_users).
Proof. by repeat split. Qed.

(** User 2's code is reset and paid again, and a third time by a transaction that read it before. *)
Definition demo_reset_calls : list credit_call :=
  demo_credit_calls ++ [CodeEdited 31 true (mkRedemption 2 0 0 "" RedemptionCodeStatusEnabled "" 0 0 0 0 false 0 0);
    CodeRedeemed 32 "r3" "key-0" 2; CodePaid 33 "r4" 5 None (mkRedemption 2 5 1 "key-0" 1 "gift" 1000 0 0 0 false 0 0) 2].
#[local] Notation reset_db := (@run_credits demo_topup_accounting demo_credits demo_reset_calls (no_credits demo_users)).

Lemma demo_reset_legal : @legal_run demo_topup_accounting demo_credits false demo_reset_calls (no_credits demo_users).
Proof.
  apply legal_run_join; [apply demo_credits_legal|]. split; [intros [=]|]. split; [exact I|]. split; [reflexivity | exact I].
Qed.

(** User 1 is paid 1, 3 and 1 units and one bonus of half a unit, user 2 the code three times and the check-in. *)
Lemma credits_reconcile_witness : quota_held 1 reset_db = Some 2750007 /\ quota_held 2 reset_db = Some 3107.
Proof.
  rewrite (proj1 (@credits_reconcile demo_topup_accounting demo_credits demo_users demo_reset_calls 1 demo_reset_legal)).
  rewrite (proj1 (@credits_reconcile demo_topup_accounting demo_credits demo_users demo_reset_calls 2 demo_reset_legal)).
  split; vm_compute; reflexivity.
Defined.

Lemma completed_order_is_final_witness : exists row : TopUpRow, cd_topups demo_db !! "s1" = Some row /\
  @run_credit demo_topup_accounting demo_credits (CompletedByHand 40 (demo_draw "z") "s1") demo_db = demo_db.
Proof.
  destruct (cd_topups (@run_credits demo_topup_accounting demo_credits demo_before (no_credits demo_users)) !! "s1") as [row|] eqn:Ek;
    [|exfalso; vm_compute in Ek; discriminate].
  assert (Hs : succeeded (w_TopUp row) = true) by (vm_compute in Ek; injection Ek as <-; reflexivity).
  destruct (@completed_order_is_final demo_topup_accounting demo_credits demo_users demo_before demo_after "s1" row (demo_credits_legal false) Ek Hs) as [Hk Hc].
  exists row. split; [exact Hk | apply Hc; reflexivity].
Defined.

Lemma code_is_redeemed_once_witness : times_redeemed 2 demo_db = 1 /\ times_redeemed 2 demo_db <= 1.
Proof.
  split; [vm_compute; reflexivity|].
  exact (proj1 (@code_is_redeemed_once demo_topup_accounting demo_credits demo_users demo_credit_calls 2 (demo_credits_legal true))).
Defined.

Lemma transfer_pays_once_witness : exists c, cd_crypto demo_db !! "c1" = Some c /\ ct_TxHash c = Some "0xa" /\
  forall k c', cd_crypto demo_db !! k = Some c' -> ct_TxHash c' = Some "0xa" -> k = "c1".
Proof.
  destruct (cd_crypto demo_db !! "c1") as [c|] eqn:Ec; [|exfalso; vm_compute in Ec; discriminate]. exists c.
  assert (Hh : ct_TxHash c = Some "0xa") by (vm_compute in Ec; injection Ec as <-; reflexivity). split_and!; [done|done|].
  intros k c' Hk Hh'. exact (@transfer_pays_once demo_topup_accounting demo_credits demo_users demo_credit_calls k "c1" c' c "0xa" (demo_credits_legal false) Hk Ec Hh' Hh).
Defined.

(** ** Credits without row locks

    The transactions of [Redemption] and [TopUp] ask for a row lock with the
    option [gorm:query_option], which the gorm version in use does not read: no
    lock is taken.  Two transactions may then both read a row before either
    writes it.  Callbacks of a gateway are kept apart by [LockOrder] (see
    [OrderLock]) within one process; redemptions of one code by two users, and
    an administrator's edit, are not. *)

Section Race.
Context `{Credits}.

(** Both transactions read, then both write. *)
Definition both_redeem (now : Z) (key : string) (u v : Z) (ru rv : string) (db : creditDB) : result creditDB :=
  x ← redeem_read now key u db;
  y ← redeem_read now key v db;
  db ← redeem_write now u x.1 ru None x.2 db;
  redeem_write now v y.1 rv None y.2 db.

(** A code pays twice without its lock: when two users of a site redeem the
    same code and both transactions read it before either writes, both are
    credited its full quota and two redemption rows exist for it. *)
Theorem unlocked_code_pays_twice now key u v ru rv db db' : u <> v -> both_redeem now key u v ru rv db = Ok db' ->
  exists r, redeem_read now key u db = Ok r /\
    quota_held u db' = (fun b => b + rd_Quota r.2) <$> quota_held u db /\
    (redeem_read now key v db = Ok r -> quota_held v db' = (fun b => b + rd_Quota r.2) <$> quota_held v db /\
       times_redeemed (rd_Id r.2) db' = times_redeemed (rd_Id r.2) db + 2).
Proof.
  intros Hne Hb. unfold both_redeem in Hb. apply bind_Ok_inv in Hb as (x & Hx & Hb). apply bind_Ok_inv in Hb as (y & Hy & Hb).
  apply bind_Ok_inv in Hb as (db1 & R1%redeem_write_spec & R2%redeem_write_spec). exists x. split; [done|]. split.
  - rewrite (rs_quota _ _ _ _ _ R2), (rs_quota _ _ _ _ _ R1), Z.eqb_refl, (proj2 (Z.eqb_neq v u)) by done.
    destruct (quota_held u db); [|done]. cbn. f_equal. lia.
  - intros Hy'. rewrite Hy in Hy'. injection Hy' as ->. split.
    + rewrite (rs_quota _ _ _ _ _ R2), (rs_quota _ _ _ _ _ R1), Z.eqb_refl, (proj2 (Z.eqb_neq u v)) by done.
      destruct (quota_held v db); [|done]. cbn. f_equal. lia.
    + rewrite (times_redeems _ _ _ _ _ _ R2), (times_redeems _ _ _ _ _ _ R1), Z.eqb_refl. lia.
Qed.

(** An edit that read the code before it was redeemed writes its old status
    back: the code can be redeemed again. *)
Lemma stale_edit_reopens now req r c u h random o db q db' : codes_ok db -> edit_read now false req db = Ok r ->
  cd_codes db !! (rd_ProviderId r, rd_Key r) = Some c -> rd_Id c = rd_Id r -> rd_Status r = rd_Status c ->
  cd_users db !! u = Some h -> h_ProviderId h = rd_ProviderId r -> redeem now random (rd_Key r) u o db = (Ok q, db') ->
  exists c', cd_codes (Redemption_Update r db') !! (rd_ProviderId r, rd_Key r) = Some c' /\ rd_Status c' = RedemptionCodeStatusEnabled /\ rd_UsedUserId c' = u.
Proof.
  intros C He Hk Hid Hst Hu Hp Hr. pose proof (redeem_spec now random (rd_Key r) u o db) as Hs. rewrite Hr in Hs.
  destruct Hs as (p & r' & Hread & _ & R). apply redeem_read_spec in Hread as (Hk' & Hdel & Hen & h' & Hu' & Hp').
  assert (h' = h) as -> by congruence. assert (r' = c) as -> by congruence.
  pose proof (co_key _ C _ _ Hk) as Ek. injection Ek as E1 E2. exists (code_edit (used_code now u c) r). split_and!; [|cbn; congruence|done].
  unfold Redemption_Update, update_codes. cbn. rewrite lookup_fmap, (rs_code _ _ _ _ _ R), <- E1, <- E2, lookup_insert_eq. cbn.
  by rewrite Hdel, Hid, Z.eqb_refl.
Qed.

(** On SQLite a check-in whose reward record cannot be stored is taken back, but
    its quota is not: the same day can be claimed again. *)
Lemma failed_checkin_keeps_quota now c db : cd_checkins db !! (ci_ProviderId c, ci_UserId c, ci_CheckinDate c) = None ->
  0 < ci_ProviderId c -> 0 <= ci_QuotaAwarded c ->
  let '(r, db') := userCheckinWithoutTransaction now false c db in
  is_ok r = false /\ cd_checkins db' = cd_checkins db /\ quota_held (ci_UserId c) db' = (fun b => b + ci_QuotaAwarded c) <$> quota_held (ci_UserId c) db.
Proof.
  intros Hn Hp Hq. unfold userCheckinWithoutTransaction, insert_checkin. cbv zeta. rewrite Hn, (proj2 (Z.ltb_ge _ _) Hq), (proj2 (Z.ltb_lt _ _) Hp).
  cbn. split_and!; [done | by rewrite delete_insert_id |].
  etrans; [exact (quota_held_add (ci_UserId c) (ci_UserId c) (ci_QuotaAwarded c) (ci_QuotaAwarded c) db)|]. by rewrite Z.eqb_refl.
Qed.

End Race.

(** Users 1 and 3 of the main site and a code of 1000. *)
Definition race_users : gmap Z Holder := list_to_map [(1, mkHolder 0 "" "" "" 0 0); (3, mkHolder 0 "" "" "" 5 0)].
Definition race_db : creditDB :=
  with_codes {[(0, "gift-key") := mkRedemption 1 0 9 "gift-key" 1 "gift" 1000 0 0 0 false 0 0]} 2 (no_credits race_users).

Lemma unlocked_code_pays_twice_witness :
  exists db', @both_redeem demo_credits 50 "gift-key" 1 3 "r1" "r3" race_db = Ok db' /\ quota_held 1 db' = Some 1000 /\ quota_held 3 db' = Some 1005.
Proof.
  destruct (@both_redeem demo_credits 50 "gift-key" 1 3 "r1" "r3" race_db) as [db'|] eqn:E; [|exfalso; vm_compute in E; discriminate].
  destruct (@unlocked_code_pays_twice demo_credits 50 "gift-key" 1 3 "r1" "r3" race_db db' ltac:(lia) E) as (r & Hr & Hu & Hv).
  assert (Hr' : redeem_read 50 "gift-key" 3 race_db = Ok r) by (rewrite <- Hr; vm_compute; reflexivity).
  apply Hv in Hr' as [Hv' _]. exists db'. vm_compute in Hr. injection Hr as <-. split_and!; [done | by rewrite Hu | by rewrite Hv'].
Defined.
