(* ===== verification/CreditBonus.v ===== *)
(** * The bonus of a top-up

    [GrantTopUpBonus] on every branch: the tier it picks, when it pays, and that
    a tier is paid once to a user. *)

From stdpp Require Import base numbers list strings pretty gmap.
From Stdlib Require Import ZArith Lia SpecFloat QArith.
From S2P Require Import Prelude GoInt GoString SubStock SubOrder Commission Redemption TopUp CreditLedger CreditSafety CreditHistory.
#[local] Open Scope Z_scope.

(** ** The order of floating-point numbers *)

Lemma pcompare_trans m1 m2 m3 : Pos.compare_cont Eq m1 m2 = Lt -> Pos.compare_cont Eq m2 m3 = Lt -> Pos.compare_cont Eq m1 m3 = Lt.
Proof. change (Pos.compare_cont Eq) with Pos.compare. rewrite !Pos.compare_lt_iff. lia. Qed.

Lemma SFltb_trans x y z : SFltb x y = true -> SFltb y z = true -> SFltb x z = true.
Proof.
  unfold SFltb, SFcompare. change (Pos.compare_cont Eq) with Pos.compare.
  destruct x as [[]|[]| |[] m1 e1], y as [[]|[]| |[] m2 e2]; try done; destruct z as [[]|[]| |[] m3 e3]; try done;
    destruct (Z.compare_spec e1 e2), (Z.compare_spec e2 e3), (Z.compare_spec e1 e3); try done; try lia; cbn;
    destruct (Pos.compare_spec m1 m2), (Pos.compare_spec m2 m3), (Pos.compare_spec m1 m3); done || lia.
Qed.

Lemma SFltb_irrefl x : SFltb x x = false.
Proof.
  unfold SFltb, SFcompare. change (Pos.compare_cont Eq) with Pos.compare.
  destruct x as [[]|[]| |[] m e]; try done; by rewrite Z.compare_refl, Pos.compare_refl.
Qed.

(** ** Quotas of decimals *)

Lemma QuotaFromDecimal_bounds v : MinQuota <= QuotaFromDecimal v <= MaxQuota.
Proof.
  unfold QuotaFromDecimal. destruct (Qle_bool (inject_Z MaxQuota) v) eqn:E1; [done|]. destruct (Qle_bool v (inject_Z MinQuota)) eqn:E2; [done|].
  assert (H1 : Qnum v < MaxQuota * QDen v).
  { destruct (Z.lt_ge_cases (Qnum v) (MaxQuota * QDen v)) as [|Hge]; [done|]. rewrite <- not_true_iff_false in E1. exfalso. apply E1, Qle_bool_iff.
    unfold Qle. cbn. lia. }
  assert (H2 : MinQuota * QDen v < Qnum v).
  { destruct (Z.lt_ge_cases (MinQuota * QDen v) (Qnum v)) as [|Hge]; [done|]. rewrite <- not_true_iff_false in E2. exfalso. apply E2, Qle_bool_iff.
    unfold Qle. cbn. lia. }
  unfold round_half_away. destruct v as [n d]. cbn [Qnum Qden] in *. set (D := Z.pos d) in *. assert (0 < D) by done.
  set (q := (2 * Z.abs n + D) / (2 * D)).
  assert (Hq : 2 * D * q <= 2 * Z.abs n + D) by (apply Z.mul_div_le; lia). assert (0 <= q) by (apply Z.div_pos; lia).
  unfold MaxQuota, MinQuota in *. destruct (Z.sgn_spec n) as [[Hn ->]|[[Hn ->]|[Hn ->]]]; [rewrite Z.abs_eq in Hq by lia|lia|rewrite Z.abs_neq in Hq by lia]; nia.
Qed.

Section Bonus.
Context `{Credits}.

(** ** The tier *)

Definition is_highest (v : float64) (rules : list TopUpGiftRule) (m : TopUpGiftRule) : Prop :=
  m ∈ rules /\ eligible v m = true /\ forall r, r ∈ rules -> eligible v r = true -> SFltb (gr_Threshold m) (gr_Threshold r) = false.

Definition tier_spec (v : float64) (rules : list TopUpGiftRule) (m : option TopUpGiftRule) : Prop :=
  match m with Some m => is_highest v rules m | None => forall r, r ∈ rules -> eligible v r = false end.

Lemma match_rule_spec v rules : tier_spec v rules (match_rule v rules).
Proof.
  unfold match_rule. set (f := fun matched r => _). enough (Hg : forall seen m, tier_spec v seen m -> tier_spec v (seen ++ rules) (fold_left f rules m)).
  { apply (Hg [] None). by intros r Hr%elem_of_nil. }
  induction rules as [|r rules IH]; intros seen m Hm; [by rewrite app_nil_r|]. cbn [fold_left].
  replace (seen ++ r :: rules) with ((seen ++ [r]) ++ rules) by (by rewrite <- app_assoc). apply IH. unfold f.
  assert (Hsnoc : forall x, x ∈ seen ++ [r] -> x ∈ seen \/ x = r) by (intros x; rewrite elem_of_app, list_elem_of_singleton; done).
  destruct (eligible v r) eqn:Er.
  - destruct m as [m|].
    + destruct Hm as (Hin & He & Hmax). destruct (SFltb (gr_Threshold m) (gr_Threshold r)) eqn:El.
      * split_and!; [set_solver | done |]. intros x [Hx| ->]%Hsnoc Hex.
        -- destruct (SFltb (gr_Threshold r) (gr_Threshold x)) eqn:E; [|done]. rewrite <- (Hmax x Hx Hex). symmetry. by eapply SFltb_trans.
        -- apply SFltb_irrefl.
      * split_and!; [set_solver | done |]. intros x [Hx| ->]%Hsnoc Hex; auto.
    + split_and!; [set_solver | done |]. intros x [Hx| ->]%Hsnoc Hex; [by rewrite (Hm x Hx) in Hex | apply SFltb_irrefl].
  - destruct m as [m|].
    + destruct Hm as (Hin & He & Hmax). split_and!; [set_solver | done |]. intros x [Hx| ->]%Hsnoc Hex; [by apply Hmax | congruence].
    + intros x [Hx| ->]%Hsnoc; auto.
Qed.

(** ** The offer *)

Lemma offer_for_spec u p money db h o : offer_for u p money db = Some (h, o) ->
  0 < u /\ cd_users db !! u = Some h /\
  (exists config, LoadTopUpGiftConfig p = Ok config /\ gc_Enabled config = true /\
     is_highest (user_value (GetDisplayCurrencyInfoByTimezone (h_Timezone h)) money) (gc_Rules config) (of_rule o)) /\
  0 < of_quota o <= MaxQuota /\ (of_currency o = "USD" \/ of_currency o = "CNY").
Proof.
  unfold offer_for. destruct (Z.leb_spec u 0); [done|]. cbn [orb]. destruct (SFleb money float_zero); [done|].
  destruct (LoadTopUpGiftConfig p) as [config|]; [|done]. destruct (gc_Enabled config) eqn:Ee; [|done]. cbn [negb].
  destruct (bool_decide _); [done|]. destruct (cd_users db !! u) as [user|]; [|done]. cbv zeta.
  destruct (_ && _); [done|]. destruct (match_rule _ _) as [rule|] eqn:Em; [|done]. destruct (SFeqb _ _); [done|].
  destruct (Z.leb_spec (QuotaFromDecimal (bonus_value (gr_Bonus rule)
    (if String.eqb (di_Currency (GetDisplayCurrencyInfoByTimezone (h_Timezone user))) "CNY"
     then Some (di_Rate (GetDisplayCurrencyInfoByTimezone (h_Timezone user))) else None))) 0); [done|].
  intros [= <- <-]. split_and!; try done.
  - exists config. split_and!; try done.
    all: pose proof (match_rule_spec (user_value (GetDisplayCurrencyInfoByTimezone (h_Timezone user)) money) (gc_Rules config)) as Hm;
      rewrite Em in Hm; apply Hm.
  - apply QuotaFromDecimal_bounds.
  - cbn. unfold GetDisplayCurrencyInfoByTimezone. destruct (negb _); [by left|]. destruct (currency_config "CNY"); [|by left].
    destruct (SFleb _ _); [by left | by right].
Qed.

(** What a granted bonus does, and what one that could not be paid out does. *)
Record granted (u : Z) (o : bonus_offer) (db db' : creditDB) : Prop := {
  gt_quota v : quota_held v db' = (fun b => b + if u =? v then of_quota o else 0) <$> quota_held v db;
  gt_reward v : reward_held v db' = (fun b => b + if u =? v then of_quota o else 0) <$> reward_held v db;
  gt_grant : exists g, cd_grants db' = <[(u, gr_Id (of_rule o)) := g]> (cd_grants db)
}.
Record not_granted (db db' : creditDB) : Prop := {
  ng_users : cd_users db' = cd_users db; ng_rows : cd_topups db' = cd_topups db; ng_grants : cd_grants db' = cd_grants db
}.

Lemma redeem_write_paid now u p random amount currency r db : 0 < u -> 0 < rd_Quota r -> SFleb amount float_zero = false ->
  currency = "USD" \/ currency = "CNY" -> cd_topups db !! redemption_trade_no r u random = None ->
  is_ok (redeem_write now u p random (Some (mkOriginal amount currency)) r db) = true.
Proof.
  intros Hu Hq Ha Hc Ht. unfold redeem_write. cbv zeta. destruct (Z.ltb_spec 0 p) as [Hp|Hp].
  - unfold CreateRewardRecord, reward_BeforeCreate. cbn [rr_ProviderId rr_UserId rr_SourceType rr_Quota].
    rewrite (proj2 (Z.leb_gt _ _) Hp), (proj2 (Z.leb_gt _ _) Hu), (proj2 (Z.eqb_neq (rd_Quota r) 0)) by lia. cbn. rewrite Ha.
    unfold InsertTx. destruct Hc as [-> | ->]; cbn; by rewrite Ht.
  - cbn. rewrite Ha. unfold InsertTx. destruct Hc as [-> | ->]; cbn; by rewrite Ht.
Qed.

(** The bonus of a top-up is exact: without an offer nothing happens;
    an offer is for the highest tier the payment reaches, is positive and fits
    32 bits; a tier already granted to the user is not paid again; otherwise
    either the user gets exactly the offered quota, as reward, and the grant is
    recorded, or nothing is credited and the grant is free again; and it is paid
    when the drawn keys are new. *)
Theorem bonus_is_exact now uuid random u p money k db :
  let db' := GrantTopUpBonus now uuid random u p money k db in
  match offer_for u p money db with
  | None => db' = db
  | Some (h, o) =>
      (exists config, LoadTopUpGiftConfig p = Ok config /\
         is_highest (user_value (GetDisplayCurrencyInfoByTimezone (h_Timezone h)) money) (gc_Rules config) (of_rule o)) /\
      0 < of_quota o <= MaxQuota /\
      match cd_grants db !! (u, gr_Id (of_rule o)) with
      | Some _ => db' = db
      | None =>
          (granted u o db db' \/ not_granted db db') /\
          (uuid <> "" -> cd_codes db !! (h_ProviderId h, uuid) = None -> SFleb (of_amount o) float_zero = false ->
           (forall r, rd_Id r = cd_nextCode db -> cd_topups db !! redemption_trade_no r u random = None) -> granted u o db db')
      end
  end.
Proof.
  cbv zeta. unfold GrantTopUpBonus. destruct (offer_for u p money db) as [[h o]|] eqn:Eo; [|done].
  apply offer_for_spec in Eo as (Hu & Hh & (config & Hl & _ & Hr) & Hq & Hc). split; [eauto|]. split; [done|].
  unfold claimTopUpBonusGrant. destruct (cd_grants db !! _) eqn:Eg; [done|]. cbn [negb]. set (g := mkGrant _ _ _ _ _ _ _).
  set (db1 := with_grants _ db). unfold Redemption_Insert. cbn [rd_ProviderId rd_Key bonus_code].
  destruct (cd_codes db1 !! (h_ProviderId h, uuid)) eqn:Ec.
  { split; [right | cbn in Ec; congruence]. split; try done. cbn. by rewrite delete_insert_id. }
  set (code := code_defaults _ _). set (db2 := with_codes _ _ db1).
  assert (Hcode : rd_Quota code = of_quota o /\ rd_Id code = cd_nextCode db) by (cbn; by rewrite (proj2 (Z.eqb_neq (of_quota o) 0)) by lia).
  pose proof (redeem_spec now random uuid u (Some (mkOriginal (of_amount o) (of_currency o))) db2) as Hs.
  assert (Hread : redeem_read now uuid u db2 = Ok (h_ProviderId h, code)).
  { unfold redeem_read, db2. cbn. rewrite Hh. cbn. rewrite lookup_insert_eq. done. }
  destruct (redeem now random uuid u _ db2) as [[q|e] db3] eqn:Er.
  - destruct Hs as (p' & r & Hread' & _ & R). rewrite Hread in Hread'. injection Hread' as <- <-.
    assert (G : granted u o db db3); [|by split; [left|]]. destruct Hcode as [Eq _]. split.
    + intros v. rewrite (rs_quota _ _ _ _ _ R), Eq. done.
    + intros v. rewrite (rs_reward _ _ _ _ _ R), Eq. done.
    + destruct (rs_rest _ _ _ _ _ R) as (_ & -> & _). by exists g.
  - subst db3. split.
    + right. split; try done. cbn. by rewrite delete_insert_id.
    + intros Hne _ Ha Ht. exfalso. revert Er. unfold redeem. rewrite (proj2 (String.eqb_neq _ _) Hne), (proj2 (Z.eqb_neq u 0)) by lia.
      rewrite Hread. cbn [mbind result_bind fst snd].
      pose proof (redeem_write_paid now u (h_ProviderId h) random (of_amount o) (of_currency o) code db2 Hu ltac:(lia) Ha Hc (Ht code (proj2 Hcode))) as Hok.
      by destruct (redeem_write _ _ _ _ _ _ _).
Qed.

End Bonus.

(** User 1 pays one unit and is offered half a unit, once. *)
Lemma bonus_is_exact_witness :
  let db := no_credits demo_users in
  let db' := @GrantTopUpBonus demo_credits 20 "uuid" "random" 1 0 f64_one "s1" db in
  quota_held 1 db = Some 7 /\ quota_held 1 db' = Some 250007 /\ @GrantTopUpBonus demo_credits 21 "uuid2" "random2" 1 0 f64_one "s2" db' = db'.
Proof.
  cbv zeta. pose proof (@bonus_is_exact demo_credits 20 "uuid" "random" 1 0 f64_one "s1" (no_credits demo_users)) as B.
  pose proof (@bonus_is_exact demo_credits 21 "uuid2" "random2" 1 0 f64_one "s2"
    (@GrantTopUpBonus demo_credits 20 "uuid" "random" 1 0 f64_one "s1" (no_credits demo_users))) as B'.
  split_and!; [vm_compute; reflexivity | vm_compute; reflexivity |].
  cbv zeta in B'. destruct (@offer_for demo_credits 1 0 f64_one _) as [[h o]|] eqn:Eo in B'; [|exact B']. destruct B' as (_ & _ & B').
  assert (Ho : gr_Id (of_rule o) = "tier-1") by (vm_compute in Eo; injection Eo as _ <-; reflexivity). rewrite Ho in B'.
  destruct (cd_grants _ !! (1, "tier-1")) eqn:Eg in B'; [exact B'|]. exfalso. vm_compute in Eg. discriminate.
Defined.
