(* ===== verification/OrderLock.v ===== *)
(** * The order lock

    [LockOrder] and [UnlockOrder] (src/controller/topup.go) serialise the
    callbacks of an order within one process: a map from trade numbers to
    reference-counted mutexes, whose entries are made and removed under a global
    mutex.  Threads interleave between any two accesses to shared memory. *)

From stdpp Require Import base numbers list strings gmap.
From Stdlib Require Import ZArith Lia.
From S2P Require Import Prelude.
#[local] Open Scope Z_scope.

(** ** State *)

Record refCountedMutex := mkMutex { rm_mu : bool; rm_refCount : Z }.

(** Where a request handling an order is, with its trade number and, once it
    has looked it up, the address of the mutex. *)
Inductive pc :=
  | Calling (t : string)                 (* before createLock.Lock() *)
  | Searching (t : string)               (* before orderLocks.Load *)
  | Creating (t : string)                (* before orderLocks.Store *)
  | Found (t : string) (l : nat)         (* before rcm.refCount++ *)
  | Counted (t : string) (l : nat)       (* before createLock.Unlock() *)
  | Waiting (t : string) (l : nat)       (* before rcm.mu.Lock() *)
  | Critical (t : string) (l : nat)      (* LockOrder has returned *)
  | Reloaded (t : string) (l : nat)      (* UnlockOrder: before rcm.mu.Unlock() *)
  | Released (t : string) (l : nat)      (* before createLock.Lock() *)
  | Retiring (t : string) (l : nat)      (* before rcm.refCount-- *)
  | Retired (t : string) (l : nat)       (* before the test of refCount *)
  | Removing (t : string) (l : nat)      (* before orderLocks.Delete *)
  | Leaving (t : string)                 (* before createLock.Unlock() *)
  | Finished
  | Unmatched (t : string) (l : nat).    (* UnlockOrder found no entry and returned *)

Record lockState := mkLocks {
  ls_createLock : bool; ls_orderLocks : gmap string nat; ls_heap : gmap nat refCountedMutex; ls_threads : gmap Z pc
}.

Definition goto (i : Z) (p : pc) (s : lockState) : lockState :=
  mkLocks (ls_createLock s) (ls_orderLocks s) (ls_heap s) (<[i := p]> (ls_threads s)).
Definition set_create (b : bool) (s : lockState) : lockState := mkLocks b (ls_orderLocks s) (ls_heap s) (ls_threads s).
Definition set_mutex (l : nat) (m : refCountedMutex) (s : lockState) : lockState :=
  mkLocks (ls_createLock s) (ls_orderLocks s) (<[l := m]> (ls_heap s)) (ls_threads s).
Definition set_entry (x : gmap string nat) (s : lockState) : lockState := mkLocks (ls_createLock s) x (ls_heap s) (ls_threads s).

(** The next action of thread [i]; [None] when it is blocked or has none. *)
Definition advance (i : Z) (s : lockState) : option lockState :=
  match ls_threads s !! i with
  | None => None
  | Some p =>
      match p with
      (* LockOrder *)
      | Calling t => if ls_createLock s then None else Some (goto i (Searching t) (set_create true s))
      | Searching t =>
          match ls_orderLocks s !! t with
          | Some l => Some (goto i (Found t l) s)
          | None => Some (goto i (Creating t) s)
          end
      | Creating t =>
          let l := fresh (dom (ls_heap s)) in
          Some (goto i (Found t l) (set_entry (<[t := l]> (ls_orderLocks s)) (set_mutex l (mkMutex false 0) s)))
      | Found t l =>
          match ls_heap s !! l with
          | Some m => Some (goto i (Counted t l) (set_mutex l (mkMutex (rm_mu m) (rm_refCount m + 1)) s))
          | None => None
          end
      | Counted t l => Some (goto i (Waiting t l) (set_create false s))
      | Waiting t l =>
          match ls_heap s !! l with
          | Some m => if rm_mu m then None else Some (goto i (Critical t l) (set_mutex l (mkMutex true (rm_refCount m)) s))
          | None => None
          end
      (* UnlockOrder *)
      | Critical t l =>
          match ls_orderLocks s !! t with
          | Some l' => Some (goto i (Reloaded t l') s)
          | None => Some (goto i (Unmatched t l) s)
          end
      | Reloaded t l =>
          match ls_heap s !! l with
          | Some m => Some (goto i (Released t l) (set_mutex l (mkMutex false (rm_refCount m)) s))
          | None => None
          end
      | Released t l => if ls_createLock s then None else Some (goto i (Retiring t l) (set_create true s))
      | Retiring t l =>
          match ls_heap s !! l with
          | Some m => Some (goto i (Retired t l) (set_mutex l (mkMutex (rm_mu m) (rm_refCount m - 1)) s))
          | None => None
          end
      | Retired t l =>
          match ls_heap s !! l with
          | Some m => Some (goto i (if rm_refCount m =? 0 then Removing t l else Leaving t) s)
          | None => None
          end
      | Removing t l => Some (goto i (Leaving t) (set_entry (delete t (ls_orderLocks s)) s))
      | Leaving t => Some (goto i Finished (set_create false s))
      | Finished | Unmatched _ _ => None
      end
  end.

(** A schedule: requests arrive, and threads run. *)
Inductive lock_event := Arrive (i : Z) (t : string) | Run (i : Z).
Definition lock_exec (e : lock_event) (s : lockState) : lockState :=
  match e with
  | Arrive i t => match ls_threads s !! i with None => goto i (Calling t) s | Some _ => s end
  | Run i => match advance i s with Some s' => s' | None => s end
  end.
Definition run_schedule (es : list lock_event) (s : lockState) : lockState := fold_left (fun s e => lock_exec e s) es s.
Definition unlocked : lockState := mkLocks false ∅ ∅ ∅.

(** ** Counting threads *)

Definition one (b : bool) : Z := if b then 1 else 0.

(** Holds [createLock]. *)
Definition in_create (p : pc) : bool :=
  match p with Searching _ | Creating _ | Found _ _ | Counted _ _ | Retiring _ _ | Retired _ _ | Removing _ _ | Leaving _ => true | _ => false end.
(** Is counted in the mutex [l]. *)
Definition counts (l : nat) (p : pc) : bool :=
  match p with Counted _ l' | Waiting _ l' | Critical _ l' | Reloaded _ l' | Released _ l' | Retiring _ l' => Nat.eqb l l' | _ => false end.
(** Holds the mutex [l]. *)
Definition holds (l : nat) (p : pc) : bool := match p with Critical _ l' | Reloaded _ l' => Nat.eqb l l' | _ => false end.
(** Refers to the mutex [l] of the order [t], whose entry must be there. *)
Definition refers (p : pc) : option (string * nat) :=
  match p with
  | Found t l | Counted t l | Waiting t l | Critical t l | Reloaded t l | Released t l | Retiring t l | Retired t l | Removing t l => Some (t, l)
  | _ => None
  end.

Definition total (f : pc -> bool) (s : lockState) : Z := table_sum (fun p => one (f p)) (ls_threads s).

Record locks_ok (s : lockState) : Prop := {
  lk_create : total in_create s = one (ls_createLock s);
  lk_entry t l : ls_orderLocks s !! t = Some l -> exists m, ls_heap s !! l = Some m /\ rm_refCount m = total (counts l) s /\
                   one (rm_mu m) = total (holds l) s;
  lk_inj t1 t2 l : ls_orderLocks s !! t1 = Some l -> ls_orderLocks s !! t2 = Some l -> t1 = t2;
  lk_refers i p t l : ls_threads s !! i = Some p -> refers p = Some (t, l) -> ls_orderLocks s !! t = Some l;
  lk_used t l : ls_orderLocks s !! t = Some l -> total (counts l) s <> 0 \/ exists i p, ls_threads s !! i = Some p /\ in_create p = true /\ refers p = Some (t, l);
  lk_creating i t : ls_threads s !! i = Some (Creating t) -> ls_orderLocks s !! t = None;
  lk_removing i t l : ls_threads s !! i = Some (Removing t l) -> total (counts l) s = 0;
  lk_matched i t l : ls_threads s !! i <> Some (Unmatched t l)
}.

Lemma one_range b : 0 <= one b <= 1.
Proof. destruct b; cbn; lia. Qed.

Lemma total_nonneg f s : 0 <= total f s.
Proof. apply table_sum_nonneg. intros k x _. pose proof (one_range (f x)). lia. Qed.

Lemma total_ge f s i p : ls_threads s !! i = Some p -> one (f p) <= total f s.
Proof.
  intros Hi. unfold total. rewrite (table_sum_delete _ _ _ _ Hi). enough (0 <= table_sum (fun p => one (f p)) (delete i (ls_threads s))) by lia.
  apply table_sum_nonneg. intros k x _. pose proof (one_range (f x)). lia.
Qed.

Lemma total_two f s i j p q : i <> j -> ls_threads s !! i = Some p -> ls_threads s !! j = Some q -> one (f p) + one (f q) <= total f s.
Proof.
  intros Hne Hi Hj. unfold total. rewrite (table_sum_delete _ _ _ _ Hi), (table_sum_delete _ (delete i _) j q) by (by rewrite lookup_delete_ne).
  enough (0 <= table_sum (fun p => one (f p)) (delete j (delete i (ls_threads s)))) by lia.
  apply table_sum_nonneg. intros k x _. pose proof (one_range (f x)). lia.
Qed.

(** A thread's move, with the locks it leaves behind. *)
Definition thread_move (i : Z) (p : pc) (b : bool) (h : gmap nat refCountedMutex) (s : lockState) : lockState :=
  mkLocks b (ls_orderLocks s) h (<[i := p]> (ls_threads s)).

Lemma total_move f i p p' b h s : ls_threads s !! i = Some p -> total f (thread_move i p' b h s) = total f s - one (f p) + one (f p').
Proof. intros Hi. unfold total. cbn. by rewrite (table_sum_insert _ _ _ _ _ Hi). Qed.

Lemma counts_refers l p : counts l p = true -> exists t, refers p = Some (t, l).
Proof. destruct p; cbn; try done; intros E; apply Nat.eqb_eq in E as <-; eauto. Qed.

Lemma create_exclusive s i j p q : locks_ok s -> ls_threads s !! i = Some p -> ls_threads s !! j = Some q -> in_create p = true -> in_create q = true -> i = j.
Proof.
  intros I Hi Hj Hp Hq. destruct (decide (i = j)) as [|Hne]; [done|]. pose proof (total_two in_create s i j p q Hne Hi Hj) as Ht.
  rewrite (lk_create _ I), Hp, Hq in Ht. pose proof (one_range (ls_createLock s)). cbn in Ht. lia.
Qed.

Section Move.
Variables (s : lockState) (i : Z) (p p' : pc) (b : bool) (h : gmap nat refCountedMutex).
Hypothesis I : locks_ok s.
Hypothesis Hi : ls_threads s !! i = Some p.
Hypothesis Hcreate : one b = one (ls_createLock s) - one (in_create p) + one (in_create p').
Hypothesis Hheap : forall l m, ls_heap s !! l = Some m -> exists m', h !! l = Some m' /\
  rm_refCount m' = rm_refCount m - one (counts l p) + one (counts l p') /\ one (rm_mu m') = one (rm_mu m) - one (holds l p) + one (holds l p').
Hypothesis Hrefers : forall t l, refers p' = Some (t, l) -> ls_orderLocks s !! t = Some l.
Hypothesis Hused : forall t l, refers p = Some (t, l) -> counts l p = true \/ in_create p = true ->
  counts l p' = true \/ (in_create p' = true /\ refers p' = Some (t, l)) \/ (counts l p = false /\ total (counts l) s <> 0).
Hypothesis Hcreating : forall t, p' = Creating t -> ls_orderLocks s !! t = None.
Hypothesis Hremoving : forall t l, p' = Removing t l -> counts l p = false /\ total (counts l) s = 0.
Hypothesis Hmatched : forall t l, p' <> Unmatched t l.
Hypothesis Hsteady : (forall l, counts l p' = counts l p) \/ in_create p = true.

Lemma move_used t l : ls_orderLocks s !! t = Some l ->
  total (counts l) (thread_move i p' b h s) <> 0 \/
  exists j q, ls_threads (thread_move i p' b h s) !! j = Some q /\ in_create q = true /\ refers q = Some (t, l).
Proof.
  intros Et. rewrite (total_move _ _ _ _ _ _ _ Hi). pose proof (total_ge (counts l) s i p Hi) as Hge. pose proof (one_range (counts l p')) as Hr.
  assert (Hmine : refers p = Some (t, l) -> counts l p = true \/ in_create p = true -> total (counts l) s - one (counts l p) + one (counts l p') <> 0 \/
            exists j q, ls_threads (thread_move i p' b h s) !! j = Some q /\ in_create q = true /\ refers q = Some (t, l)).
  { intros Hr' Hc. destruct (Hused t l Hr' Hc) as [Hc'|[[Hc' Hr'']|[Hc' Ht]]].
    - left. rewrite Hc' in *. cbn in *. lia.
    - right. exists i, p'. cbn. by rewrite lookup_insert_eq.
    - left. rewrite Hc' in *. cbn in *. lia. }
  destruct (lk_used _ I t l Et) as [Ht|(j & q & Hj & Hc & Hq)].
  - destruct (counts l p) eqn:Ec; [|left; cbn in *; lia]. apply Hmine; [|by left]. destruct (counts_refers _ _ Ec) as [t' Hr'].
    rewrite Hr'. by rewrite (lk_inj _ I _ _ _ (lk_refers _ I _ _ _ _ Hi Hr') Et).
  - destruct (decide (j = i)) as [->|Hne]; [simplify_eq; apply Hmine; [done | by right]|]. right. exists j, q. cbn. by rewrite lookup_insert_ne.
Qed.

Lemma move_ok : locks_ok (thread_move i p' b h s).
Proof.
  assert (Hth : forall j q, ls_threads (thread_move i p' b h s) !! j = Some q -> (j = i /\ q = p') \/ (j <> i /\ ls_threads s !! j = Some q)).
  { intros j q. cbn. destruct (decide (j = i)) as [->|Hne]; [rewrite lookup_insert_eq; intros [= <-]; by left|].
    rewrite lookup_insert_ne by done. by right. }
  split.
  - rewrite (total_move _ _ _ _ _ _ _ Hi), (lk_create _ I), <- Hcreate. done.
  - intros t l Et. destruct (lk_entry _ I t l Et) as (m & Hm & Erc & Emu). destruct (Hheap l m Hm) as (m' & Hm' & E1 & E2). exists m'.
    rewrite !(total_move _ _ _ _ _ _ _ Hi), <- Erc, <- Emu. done.
  - intros t1 t2 l. apply (lk_inj _ I).
  - intros j q t l [[-> ->]|[_ Hj]]%Hth Hr; [by apply Hrefers | by eapply (lk_refers _ I)].
  - apply move_used.
  - intros j t [[-> E]|[_ Hj]]%Hth; [by apply Hcreating | by eapply (lk_creating _ I)].
  - intros j t l [[-> E]|[Hne Hj]]%Hth; rewrite (total_move _ _ _ _ _ _ _ Hi).
    + destruct (Hremoving t l (eq_sym E)) as [-> ->]. by rewrite <- E.
    + rewrite (lk_removing _ I _ _ _ Hj). destruct Hsteady as [->|Hc]; [lia|]. by destruct Hne, (create_exclusive s i j p (Removing t l)).
  - intros j t l Hj. destruct (Hth j (Unmatched t l) Hj) as [[_ E]|[_ Hj']]; [by eapply Hmatched | by eapply (lk_matched _ I)].
Qed.
End Move.

(** The mutexes after a move that leaves them alone, and after one that writes the thread's own. *)
Lemma heap_same (h : gmap nat refCountedMutex) p p' : (forall l, counts l p' = counts l p) -> (forall l, holds l p' = holds l p) ->
  forall l m, h !! l = Some m -> exists m', h !! l = Some m' /\
    rm_refCount m' = rm_refCount m - one (counts l p) + one (counts l p') /\ one (rm_mu m') = one (rm_mu m) - one (holds l p) + one (holds l p').
Proof. intros Hc Hh l m Hm. exists m. rewrite Hc, Hh. split_and!; [done | lia | lia]. Qed.

Lemma heap_set (h : gmap nat refCountedMutex) p p' l0 m0 m1 : h !! l0 = Some m0 ->
  rm_refCount m1 = rm_refCount m0 - one (counts l0 p) + one (counts l0 p') -> one (rm_mu m1) = one (rm_mu m0) - one (holds l0 p) + one (holds l0 p') ->
  (forall l, l <> l0 -> counts l p' = counts l p) -> (forall l, l <> l0 -> holds l p' = holds l p) ->
  forall l m, h !! l = Some m -> exists m', <[l0 := m1]> h !! l = Some m' /\
    rm_refCount m' = rm_refCount m - one (counts l p) + one (counts l p') /\ one (rm_mu m') = one (rm_mu m) - one (holds l p) + one (holds l p').
Proof.
  intros H0 Hrc Hmu Hc Hh l m Hm. destruct (decide (l0 = l)) as [<-|Hne]; [rewrite lookup_insert_eq; exists m1; by simplify_eq|].
  rewrite lookup_insert_ne by done. exists m. rewrite Hc, Hh by done. split_and!; [done | lia | lia].
Qed.

(** A thread that refers to a mutex finds it. *)
Lemma found_mutex s i p t l : locks_ok s -> ls_threads s !! i = Some p -> refers p = Some (t, l) ->
  ls_orderLocks s !! t = Some l /\ exists m, ls_heap s !! l = Some m /\ rm_refCount m = total (counts l) s /\ one (rm_mu m) = total (holds l) s.
Proof. intros I Hi Hr. pose proof (lk_refers _ I _ _ _ _ Hi Hr) as Et. split; [done | by apply (lk_entry _ I t)]. Qed.

Lemma create_held s i p : locks_ok s -> ls_threads s !! i = Some p -> in_create p = true -> ls_createLock s = true.
Proof.
  intros I Hi Hp. pose proof (total_ge in_create s i p Hi) as Hge. rewrite (lk_create _ I), Hp in Hge. by destruct (ls_createLock s).
Qed.

Ltac neq_eqb := intros ? ?; cbn; (apply Nat.eqb_neq || (symmetry; apply Nat.eqb_neq)); done.
(** The side conditions of [move_ok] that only depend on the kinds of the two positions. *)
Ltac by_kind := try done; try (intros; cbn in *; simplify_eq; done);
  try (intros; cbn in *; simplify_eq; rewrite ?Nat.eqb_refl; naive_solver);
  try solve [by apply heap_same | by left | by right | cbn; lia
            | match goal with Ec : ls_createLock _ = _ |- _ => by rewrite Ec end].

(** *** Moves that change the map of locks *)

Lemma creating_ok s i t l : locks_ok s -> ls_threads s !! i = Some (Creating t) -> ls_heap s !! l = None ->
  locks_ok (goto i (Found t l) (set_entry (<[t := l]> (ls_orderLocks s)) (set_mutex l (mkMutex false 0) s))).
Proof.
  intros I Hi Hl. pose proof (lk_creating _ I _ _ Hi) as Hn.
  assert (Hnew : forall f, (forall p, f p = true -> exists t', refers p = Some (t', l)) -> total f s = 0).
  { intros f Hf. unfold total. rewrite (table_sum_ext _ (fun _ => 0)).
    - unfold table_sum. generalize (map snd (map_to_list (ls_threads s))). intros q. induction q; cbn; lia.
    - intros j q Hj. destruct (f q) eqn:E; [|done]. destruct (Hf q E) as [t' Hr]. destruct (found_mutex _ _ _ _ _ I Hj Hr) as (_ & m & Hm & _). congruence. }
  assert (Htot : forall f, f (Creating t) = f (Found t l) -> total f (goto i (Found t l) (set_entry (<[t := l]> (ls_orderLocks s)) (set_mutex l (mkMutex false 0) s))) = total f s).
  { intros f Hf. etrans; [exact (total_move f i (Creating t) (Found t l) (ls_createLock s) (ls_heap s) s Hi)|]. rewrite Hf. lia. }
  assert (Hlk : forall t' l', <[t := l]> (ls_orderLocks s) !! t' = Some l' -> (t' = t /\ l' = l) \/ (t' <> t /\ ls_orderLocks s !! t' = Some l')).
  { intros t' l'. destruct (decide (t' = t)) as [->|Hne]; [rewrite lookup_insert_eq; intros [= <-]; by left|]. rewrite lookup_insert_ne by done. by right. }
  assert (Hold : forall t' l', ls_orderLocks s !! t' = Some l' -> l' <> l) by (intros t' l' Et ->; destruct (lk_entry _ I _ _ Et) as (m & Hm & _); congruence).
  assert (Hth : forall j q, ls_threads (goto i (Found t l) s) !! j = Some q -> (j = i /\ q = Found t l) \/ (j <> i /\ ls_threads s !! j = Some q)).
  { intros j q. cbn. destruct (decide (j = i)) as [->|Hne]; [rewrite lookup_insert_eq; intros [= <-]; by left|]. rewrite lookup_insert_ne by done. by right. }
  split; cbn -[total].
  - rewrite Htot by done. apply I.
  - intros t' l' [[-> ->]|[_ Et]]%Hlk.
    + rewrite lookup_insert_eq. eexists. split; [done|]. rewrite !Htot by done.
      rewrite (Hnew (counts l)), (Hnew (holds l)); [done| |apply counts_refers]. intros p. destruct p; cbn; try done; intros E%Nat.eqb_eq; subst; eauto.
    + destruct (lk_entry _ I _ _ Et) as (m & Hm & Hrest). exists m. rewrite lookup_insert_ne by (by apply not_eq_sym, (Hold t')). by rewrite !Htot by done.
  - intros t1 t2 l' [[-> ->]|[_ E1]]%Hlk [[-> E]|[_ E2]]%Hlk; [done|by destruct (Hold _ _ E2)|subst; by destruct (Hold _ _ E1)|by eapply (lk_inj _ I)].
  - intros j q t' l' [[-> ->]|[Hne Hj]]%Hth Hr; [cbn in Hr; simplify_eq; apply lookup_insert_eq|].
    pose proof (lk_refers _ I _ _ _ _ Hj Hr) as Et. rewrite lookup_insert_ne; [done|]. intros <-. congruence.
  - intros t' l' [[-> ->]|[_ Et]]%Hlk; [right; exists i, (Found t l); by rewrite lookup_insert_eq|]. rewrite Htot by done.
    destruct (lk_used _ I _ _ Et) as [|(j & q & Hj & Hc & Hr)]; [by left|]. exfalso.
    assert (j = i) as -> by (by eapply create_exclusive). rewrite Hi in Hj. by injection Hj as <-.
  - intros j t' [[-> E]|[Hne Hj]]%Hth; [done|]. by destruct Hne, (create_exclusive s j i (Creating t') (Creating t)).
  - intros j t' l' [[-> E]|[Hne Hj]]%Hth; [done|]. by destruct Hne, (create_exclusive s j i (Removing t' l') (Creating t)).
  - intros j t' l' [[_ E]|[_ Hj]]%Hth; [done | by eapply (lk_matched _ I)].
Qed.

Lemma refers_kind p t l : refers p = Some (t, l) -> counts l p = true \/ in_create p = true.
Proof. destruct p; cbn; intros E; simplify_eq; rewrite ?Nat.eqb_refl; auto. Qed.

Lemma removing_ok s i t l : locks_ok s -> ls_threads s !! i = Some (Removing t l) ->
  locks_ok (goto i (Leaving t) (set_entry (delete t (ls_orderLocks s)) s)).
Proof.
  intros I Hi. pose proof (lk_removing _ I _ _ _ Hi) as Hz. pose proof (lk_refers _ I _ _ _ _ Hi eq_refl) as Et.
  assert (Htot : forall f, f (Removing t l) = f (Leaving t) -> total f (goto i (Leaving t) (set_entry (delete t (ls_orderLocks s)) s)) = total f s).
  { intros f Hf. etrans; [exact (total_move f i (Removing t l) (Leaving t) (ls_createLock s) (ls_heap s) s Hi)|]. rewrite Hf. lia. }
  assert (Hlk : forall t' l', delete t (ls_orderLocks s) !! t' = Some l' -> t' <> t /\ ls_orderLocks s !! t' = Some l') by (intros t' l'; rewrite lookup_delete_Some; intros [? ?]; done).
  assert (Hth : forall j q, ls_threads (goto i (Leaving t) s) !! j = Some q -> (j = i /\ q = Leaving t) \/ (j <> i /\ ls_threads s !! j = Some q)).
  { intros j q. cbn. destruct (decide (j = i)) as [->|Hne]; [rewrite lookup_insert_eq; intros [= <-]; by left|]. rewrite lookup_insert_ne by done. by right. }
  split; cbn -[total].
  - rewrite Htot by done. apply I.
  - intros t' l' [_ Et']%Hlk. destruct (lk_entry _ I _ _ Et') as (m & Hm & Hrest). exists m. by rewrite !Htot by done.
  - intros t1 t2 l' [_ E1]%Hlk [_ E2]%Hlk. by eapply (lk_inj _ I).
  - intros j q t' l' [[-> ->]|[Hne Hj]]%Hth Hr; [done|]. pose proof (lk_refers _ I _ _ _ _ Hj Hr) as Et'.
    apply lookup_delete_Some. split; [|done]. intros <-. rewrite Et in Et'. injection Et' as <-.
    destruct (refers_kind _ _ _ Hr) as [Hc|Hc]; [pose proof (total_ge (counts l) s j q Hj) as Hge; rewrite Hc, Hz in Hge; cbn in Hge; lia|].
    by destruct Hne, (create_exclusive s j i q (Removing t l)).
  - intros t' l' [Hne Et']%Hlk. rewrite Htot by done. destruct (lk_used _ I _ _ Et') as [|(j & q & Hj & Hc & Hr)]; [by left|]. exfalso.
    assert (j = i) as -> by (by eapply create_exclusive). rewrite Hi in Hj. injection Hj as <-. cbn in Hr. simplify_eq.
  - intros j t' [[-> E]|[Hne Hj]]%Hth; [done|]. by destruct Hne, (create_exclusive s j i (Creating t') (Removing t l)).
  - intros j t' l' [[-> E]|[Hne Hj]]%Hth; [done|]. by destruct Hne, (create_exclusive s j i (Removing t' l') (Removing t l)).
  - intros j t' l' [[_ E]|[_ Hj]]%Hth; [done | by eapply (lk_matched _ I)].
Qed.

(** *** Every move *)

Lemma advance_ok s i s' : locks_ok s -> advance i s = Some s' -> locks_ok s'.
Proof.
  intros I. unfold advance. destruct (ls_threads s !! i) as [p|] eqn:Hi; [|done]. destruct p; intros Ha.
  - destruct (ls_createLock s) eqn:Ec; [done|]. injection Ha as <-. apply (move_ok s i (Calling t)); by_kind.
  - pose proof (create_held _ _ _ I Hi eq_refl) as Ec. destruct (ls_orderLocks s !! t) as [l|] eqn:El; injection Ha as <-.
    + apply (move_ok s i (Searching t)); by_kind.
    + apply (move_ok s i (Searching t)); by_kind.
  - injection Ha as <-. apply creating_ok; [done..|]. apply not_elem_of_dom, is_fresh.
  - pose proof (create_held _ _ _ I Hi eq_refl) as Ec. destruct (found_mutex _ _ _ _ _ I Hi eq_refl) as (Et & m & Hm & _). rewrite Hm in Ha. injection Ha as <-.
    apply (move_ok s i (Found t l)); by_kind.
    eapply heap_set; [done | cbn; rewrite Nat.eqb_refl; cbn; lia | cbn; lia | neq_eqb | done].
  - pose proof (create_held _ _ _ I Hi eq_refl) as Ec. destruct (found_mutex _ _ _ _ _ I Hi eq_refl) as (Et & _). injection Ha as <-.
    apply (move_ok s i (Counted t l)); by_kind.
  - destruct (found_mutex _ _ _ _ _ I Hi eq_refl) as (Et & m & Hm & _). rewrite Hm in Ha. destruct (rm_mu m) eqn:Em; [done|]. injection Ha as <-.
    apply (move_ok s i (Waiting t l)); by_kind.
    eapply heap_set; [done | cbn; rewrite Nat.eqb_refl; cbn; lia | cbn; rewrite Nat.eqb_refl, Em; cbn; lia | done | neq_eqb].
  - destruct (found_mutex _ _ _ _ _ I Hi eq_refl) as (Et & _). rewrite Et in Ha. injection Ha as <-.
    apply (move_ok s i (Critical t l)); by_kind.
  - destruct (found_mutex _ _ _ _ _ I Hi eq_refl) as (Et & m & Hm & _ & Emu). rewrite Hm in Ha. injection Ha as <-.
    assert (rm_mu m = true). { pose proof (total_ge (holds l) s i _ Hi) as Hge. cbn in Hge. rewrite Nat.eqb_refl in Hge. destruct (rm_mu m); [done|]. cbn in *. lia. }
    apply (move_ok s i (Reloaded t l)); by_kind.
    eapply heap_set; [done | cbn; rewrite Nat.eqb_refl; cbn; lia | cbn; rewrite Nat.eqb_refl, H; cbn; lia | done | neq_eqb].
  - destruct (found_mutex _ _ _ _ _ I Hi eq_refl) as (Et & _). destruct (ls_createLock s) eqn:Ec; [done|]. injection Ha as <-.
    apply (move_ok s i (Released t l)); by_kind.
  - pose proof (create_held _ _ _ I Hi eq_refl) as Ec. destruct (found_mutex _ _ _ _ _ I Hi eq_refl) as (Et & m & Hm & _). rewrite Hm in Ha. injection Ha as <-.
    apply (move_ok s i (Retiring t l)); by_kind.
    eapply heap_set; [done | cbn; rewrite Nat.eqb_refl; cbn; lia | cbn; lia | neq_eqb | done].
  - pose proof (create_held _ _ _ I Hi eq_refl) as Ec. destruct (found_mutex _ _ _ _ _ I Hi eq_refl) as (Et & m & Hm & Erc & _). rewrite Hm in Ha. injection Ha as <-.
    destruct (Z.eqb_spec (rm_refCount m) 0) as [E0|E0].
    + apply (move_ok s i (Retired t l)); by_kind. intros t' l' [= <- <-]. split; [done|]. by rewrite <- Erc.
    + apply (move_ok s i (Retired t l)); by_kind. intros t' l' [= <- <-] _. right. right. split; [done|].
      by rewrite <- Erc.
  - injection Ha as <-. by apply removing_ok with (l := l).
  - pose proof (create_held _ _ _ I Hi eq_refl) as Ec. injection Ha as <-.
    apply (move_ok s i (Leaving t)); by_kind.
  - done.
  - by destruct (lk_matched _ I i t l).
Qed.

(** ** Every schedule *)

Lemma unlocked_ok : locks_ok unlocked.
Proof. by split. Qed.

Lemma arrive_ok s i t : locks_ok s -> ls_threads s !! i = None -> locks_ok (goto i (Calling t) s).
Proof.
  intros I Hn. assert (Htot : forall f, f (Calling t) = false -> total f (goto i (Calling t) s) = total f s).
  { intros f Hf. unfold total. cbn. rewrite table_sum_insert_new by done. by rewrite Hf. }
  assert (Hth : forall j q, <[i := Calling t]> (ls_threads s) !! j = Some q -> q = Calling t \/ ls_threads s !! j = Some q).
  { intros j q. destruct (decide (j = i)) as [->|Hne]; [rewrite lookup_insert_eq; intros [= <-]; by left|]. rewrite lookup_insert_ne by done. by right. }
  split; cbn -[total].
  - rewrite Htot by done. apply I.
  - intros t' l Et. destruct (lk_entry _ I _ _ Et) as (m & Hm & Hrest). exists m. by rewrite !Htot by done.
  - apply I.
  - intros j q t' l [->|Hj]%Hth Hr; [done | by eapply (lk_refers _ I)].
  - intros t' l Et. rewrite Htot by done. destruct (lk_used _ I _ _ Et) as [|(j & q & Hj & Hrest)]; [by left|]. right. exists j, q.
    split; [|done]. rewrite lookup_insert_ne; [done|]. intros <-. congruence.
  - intros j t' [E|Hj]%Hth; [done | by eapply (lk_creating _ I)].
  - intros j t' l [E|Hj]%Hth; [done|]. rewrite Htot by done. by eapply (lk_removing _ I).
  - intros j t' l [E|Hj]%Hth; [done | by eapply (lk_matched _ I)].
Qed.

Lemma schedule_ok es s : locks_ok s -> locks_ok (run_schedule es s).
Proof.
  revert s. induction es as [|e es IH]; intros s I; [done|]. apply IH. destruct e as [i t|i]; cbn.
  - destruct (ls_threads s !! i) eqn:Hi; [done | by apply arrive_ok].
  - destruct (advance i s) as [s'|] eqn:Ha; [by eapply advance_ok | done].
Qed.

Lemma total_some f s : total f s <> 0 -> exists i p, ls_threads s !! i = Some p /\ f p = true.
Proof.
  intros Ht. destruct (decide (map_Forall (fun _ p => f p = false) (ls_threads s))) as [Ha|Hn].
  - exfalso. apply Ht. unfold total. rewrite (table_sum_ext _ (fun _ => 0)).
    + unfold table_sum. generalize (map snd (map_to_list (ls_threads s))). intros q. induction q; cbn; lia.
    + intros k p Hk. by rewrite (Ha k p Hk).
  - apply map_not_Forall in Hn as (i & p & Hi & Hp); [|solve_decision]. exists i, p. by destruct (f p).
Qed.

(** A thread inside the critical section of the order [t]. *)
Definition inside (t : string) (p : pc) : bool :=
  match p with Critical t' _ | Reloaded t' _ => String.eqb t t' | _ => false end.

Lemma inside_holds s i p t : locks_ok s -> ls_threads s !! i = Some p -> inside t p = true -> exists l, ls_orderLocks s !! t = Some l /\ holds l p = true.
Proof.
  intros I Hi Hp. destruct p; try done; apply String.eqb_eq in Hp as <-; destruct (found_mutex _ _ _ _ _ I Hi eq_refl) as (Et & _);
    exists l; cbn; by rewrite Nat.eqb_refl.
Qed.

Lemma inside_unique s i j p q t : locks_ok s -> ls_threads s !! i = Some p -> ls_threads s !! j = Some q -> inside t p = true -> inside t q = true -> i = j.
Proof.
  intros I Hi Hj Hp Hq. destruct (inside_holds _ _ _ _ I Hi Hp) as (l & Et & Hhp). destruct (inside_holds _ _ _ _ I Hj Hq) as (l' & Et' & Hhq). simplify_eq.
  destruct (decide (i = j)) as [|Hne]; [done|]. pose proof (total_two (holds l) s i j p q Hne Hi Hj) as Ht. rewrite Hhp, Hhq in Ht.
  destruct (lk_entry _ I _ _ Et) as (m & _ & _ & Emu). pose proof (one_range (rm_mu m)). cbn in Ht. lia.
Qed.

(** A thread that holds [createLock], or the mutex of an order, can always go on. *)
Lemma holder_advances s i p : locks_ok s -> ls_threads s !! i = Some p -> in_create p = true \/ (exists l, holds l p = true) -> is_Some (advance i s).
Proof.
  intros I Hi Hp. unfold advance. rewrite Hi. destruct p; try (by destruct Hp as [|[]]); try done.
  - by destruct (ls_orderLocks s !! t).
  - destruct (found_mutex _ _ _ _ _ I Hi eq_refl) as (_ & m & -> & _). done.
  - by destruct (ls_orderLocks s !! t).
  - destruct (found_mutex _ _ _ _ _ I Hi eq_refl) as (_ & m & -> & _). done.
  - destruct (found_mutex _ _ _ _ _ I Hi eq_refl) as (_ & m & -> & _). done.
  - destruct (found_mutex _ _ _ _ _ I Hi eq_refl) as (_ & m & -> & _). done.
Qed.

Lemma someone_advances s i p : locks_ok s -> ls_threads s !! i = Some p -> p <> Finished -> exists j, is_Some (advance j s).
Proof.
  intros I Hi Hp. destruct (ls_createLock s) eqn:Ec.
  - destruct (total_some in_create s) as (j & q & Hj & Hq); [rewrite (lk_create _ I), Ec; done|]. exists j. by eapply holder_advances; [..|left].
  - assert (Hfree : in_create p = false). { destruct (in_create p) eqn:E; [|done]. by rewrite (create_held _ _ _ I Hi E) in Ec. }
    destruct p; try done; try (exists i; eapply holder_advances; [done | done | right; eexists; cbn; apply Nat.eqb_refl]).
    + exists i. unfold advance. rewrite Hi, Ec. done.
    + destruct (found_mutex _ _ _ _ _ I Hi eq_refl) as (_ & m & Hm & _ & Emu). destruct (rm_mu m) eqn:Em.
      * destruct (total_some (holds l) s) as (j & q & Hj & Hq); [by rewrite <- Emu|]. exists j. eapply holder_advances; [done..|]. eauto.
      * exists i. unfold advance. by rewrite Hi, Hm, Em.
    + exists i. unfold advance. rewrite Hi, Ec. done.
    + by destruct (lk_matched _ I i t l).
Qed.

(** C28. The order lock serialises the requests of an order: whatever the
    schedule, no two threads are inside the critical section of the same trade
    number, [UnlockOrder] always finds the mutex it has to release, while some
    request is unfinished some thread can go on (no deadlock), and when all
    requests are finished the map of locks is empty (no leak). *)
Theorem order_lock_serialises es :
  let s := run_schedule es unlocked in
  (forall i j p q t, ls_threads s !! i = Some p -> ls_threads s !! j = Some q -> inside t p = true -> inside t q = true -> i = j) /\
  (forall i t l, ls_threads s !! i <> Some (Unmatched t l)) /\
  (forall i p, ls_threads s !! i = Some p -> p <> Finished -> exists j, is_Some (advance j s)) /\
  (map_Forall (fun _ p => p = Finished) (ls_threads s) -> ls_orderLocks s = ∅).
Proof.
  cbv zeta. pose proof (schedule_ok es _ unlocked_ok) as I. split_and!.
  - intros i j p q t. by apply inside_unique.
  - apply I.
  - intros i p. by apply someone_advances.
  - intros Ha. apply map_empty. intros t. destruct (ls_orderLocks _ !! t) as [l|] eqn:Et; [|done]. exfalso.
    destruct (lk_used _ I _ _ Et) as [(i & p & Hi & Hp)%total_some|(i & p & Hi & Hp & _)]; by rewrite (Ha i p Hi) in Hp.
Qed.

(** Request 2 waits while request 1 is inside; afterwards it gets in, on the same mutex. *)
Example waits_for_its_turn :
  let s := run_schedule ([Arrive 1 "k"; Arrive 2 "k"] ++ repeat (Run 1) 6 ++ repeat (Run 2) 6) unlocked in
  ls_threads s !! 1 = Some (Critical "k" 0) /\ ls_threads s !! 2 = Some (Waiting "k" 0) /\
  ls_threads (run_schedule (repeat (Run 1) 7 ++ repeat (Run 2) 1) s) !! 2 = Some (Critical "k" 0).
Proof. vm_compute. done. Qed.
