(* ===== verification/GoMonad.v ===== *)
(** * Stateful fallible code

    A Go function that reads and writes shared state and may return an error is
    a computation [GM S A]: from a state to a result and a state.  An error
    does not undo what was written before it; only a database transaction does.
    [wp] is the weakest-precondition reading of such a computation, over its
    success and its error outcomes alike. *)

From stdpp Require Import base list.
From S2P Require Import Prelude.

Definition GM (S A : Type) : Type := S -> result A * S.

#[export] Instance GM_ret S : MRet (GM S) := fun A a s => (Ok a, s).
#[export] Instance GM_bind S : MBind (GM S) := fun A B f m s =>
  match m s with
  | (Ok a, s') => f a s'
  | (Err e, s') => (Err e, s')
  end.

Section Operations.
Context {S T A : Type}.

Definition gets (f : S -> A) : GM S A := fun s => (Ok (f s), s).
Definition modify (f : S -> S) : GM S unit := fun s => (Ok tt, f s).
Definition throw (e : error) : GM S A := fun s => (Err e, s).
(** [if err := m(); err != nil { ... }]: the error as a value. *)
Definition attempting (m : GM S A) : GM S (result A) := fun s => let '(r, s') := m s in (Ok r, s').
Definition lift (r : result A) : GM S A := fun s => (r, s).
(** Running on a part of the state. *)
Definition zoom (get : S -> T) (put : T -> S -> S) (m : GM T A) : GM S A := fun s =>
  let '(r, t) := m (get s) in (r, put t s).
End Operations.

Definition wp {S A} (m : GM S A) (s : S) (Q : result A -> S -> Prop) : Prop := Q (fst (m s)) (snd (m s)).
#[global] Arguments wp : simpl never.

Section Rules.
Context {S T A B : Type}.
Implicit Types (s : S) (Q : result B -> S -> Prop).

Lemma wp_ret (b : B) s Q : Q (Ok b) s -> wp (mret b) s Q.
Proof. done. Qed.

Lemma wp_bind (m : GM S A) (f : A -> GM S B) s Q :
  wp m s (fun r s' => match r with Ok a => wp (f a) s' Q | Err e => Q (Err e) s' end) -> wp (m ≫= f) s Q.
Proof. unfold wp, mbind, GM_bind. destruct (m s) as [[a|e] s']; done. Qed.

Lemma wp_mono (m : GM S B) s Q Q' : wp m s Q -> (forall r s', Q r s' -> Q' r s') -> wp m s Q'.
Proof. unfold wp. auto. Qed.

Lemma wp_gets (f : S -> B) s Q : Q (Ok (f s)) s -> wp (gets f) s Q.
Proof. done. Qed.

Lemma wp_throw e s Q : Q (Err e) s -> wp (throw e) s Q.
Proof. done. Qed.

Lemma wp_modify f s (Q : result unit -> S -> Prop) : Q (Ok tt) (f s) -> wp (modify f) s Q.
Proof. done. Qed.

Lemma wp_attempting (m : GM S A) s (Q : result (result A) -> S -> Prop) :
  wp m s (fun r s' => Q (Ok r) s') -> wp (attempting m) s Q.
Proof. unfold wp, attempting. by destruct (m s). Qed.

Lemma wp_zoom (get : S -> T) put (m : GM T B) s Q :
  wp m (get s) (fun r t => Q r (put t s)) -> wp (zoom get put m) s Q.
Proof. unfold wp, zoom. by destruct (m (get s)). Qed.

Lemma wp_elim (m : GM S B) s Q r s' : wp m s Q -> m s = (r, s') -> Q r s'.
Proof. unfold wp. intros H E. by rewrite E in H. Qed.

End Rules.

Section Retry.
Context {S B : Type}.

(** The loop [for i := 0; i < n; i++ { if f() == nil { return nil } }]: the
    first success ends it, otherwise the last error is returned. *)
Fixpoint retry (n : nat) (m : GM S B) (last : error) : GM S B :=
  match n with
  | O => throw last
  | Datatypes.S n => r ← attempting m; match r with Ok b => mret b | Err e => retry n m e end
  end.

(** A retry of a computation whose failures preserve [P] succeeds at most once. *)
Lemma wp_retry n (m : GM S B) last (P : S -> Prop) (Q : B -> S -> Prop) :
  (forall s, P s -> wp m s (fun r s' => match r with Ok b => Q b s' | Err _ => P s' end)) ->
  forall s, P s -> wp (retry n m last) s (fun r s' => match r with Ok b => Q b s' | Err _ => P s' end).
Proof.
  intros Hm. revert last. induction n as [|n IH]; intros last s Hs; [done|]. cbn [retry]. apply wp_bind, wp_attempting.
  eapply wp_mono; [by apply Hm|]. intros [b|e] s' H; [done|]. by apply IH.
Qed.
End Retry.

Create HintDb wp.
#[export] Hint Resolve wp_ret wp_gets wp_throw wp_modify : wp.
