(* ===== verification/Wallet.v ===== *)
(** * Wallets, tokens and the batch updater

    User balances ([src/model/user.go]), API-token balances
    ([src/model/token.go]) and the batch updater that defers their updates
    ([src/model/utils.go]).

    What the process cannot control is answered by a [reply]: whether the
    database call fails, the clocks it reads, and what Redis returns.  The
    sequence of replies ([reply_at]) is arbitrary.  A failing call leaves the
    tables as they were.  Redis is only written by background goroutines whose
    errors are logged; those writes are not modelled, so a cached value is
    whatever the reply says. *)

From stdpp Require Import base numbers list strings pretty gmap.
From Stdlib Require Import ZArith Lia.
From S2P Require Import Prelude GoInt GoMonad SubStore.

(** ** Rows *)

Record User := mkUser {
  u_Quota : Z; u_RewardQuota : Z; u_UsedQuota : Z; u_RequestCount : Z; u_TotalTokenUsed : Z
}.

Record Token := mkToken {
  t_Id : Z; t_ProviderId : Z; t_UserId : Z; t_Key : string; t_Status : Z; t_AccessedTime : Z; t_ExpiredTime : Z;
  t_RemainQuota : Z; t_UnlimitedQuota : bool; t_UsedQuota : Z; t_TotalTokenUsed : Z
}.

(** [gorm.Expr("quota + ?", dq)] and [gorm.Expr("reward_quota + ?", dr)] *)
Definition credit (dq dr : Z) (u : User) : User :=
  mkUser (u_Quota u + dq) (u_RewardQuota u + dr) (u_UsedQuota u) (u_RequestCount u) (u_TotalTokenUsed u).
Definition bump_used (d : Z) (u : User) : User :=
  mkUser (u_Quota u) (u_RewardQuota u) (u_UsedQuota u + d) (u_RequestCount u) (u_TotalTokenUsed u).
Definition bump_count (d : Z) (u : User) : User :=
  mkUser (u_Quota u) (u_RewardQuota u) (u_UsedQuota u) (u_RequestCount u + d) (u_TotalTokenUsed u).
Definition bump_total (d : Z) (u : User) : User :=
  mkUser (u_Quota u) (u_RewardQuota u) (u_UsedQuota u) (u_RequestCount u) (u_TotalTokenUsed u + d).

Definition credit_token (clock d : Z) (t : Token) : Token :=
  mkToken (t_Id t) (t_ProviderId t) (t_UserId t) (t_Key t) (t_Status t) clock (t_ExpiredTime t)
    (t_RemainQuota t + d) (t_UnlimitedQuota t) (t_UsedQuota t - d) (t_TotalTokenUsed t).
Definition bump_token_total (d : Z) (t : Token) : Token :=
  mkToken (t_Id t) (t_ProviderId t) (t_UserId t) (t_Key t) (t_Status t) (t_AccessedTime t) (t_ExpiredTime t)
    (t_RemainQuota t) (t_UnlimitedQuota t) (t_UsedQuota t) (t_TotalTokenUsed t + d).

(** ** The outside world *)

Record reply := mkReply {
  re_fault : option error;      (* the database call fails with this error *)
  re_clock : Z;                 (* common.GetTimestamp() *)
  re_now : Z; re_txnow : Z;     (* database clock before and inside a transaction *)
  re_userQuota : option Z;      (* a hit in the user quota cache *)
  re_token : option Token;      (* a hit in the token cache *)
  re_planInfo : option (Z * string)  (* a hit in the subscription plan info cache *)
}.

(** Settings of the process, and the sequence of replies it gets. *)
Class Deployment := {
  RedisEnabled : bool;
  BatchUpdateEnabled : bool;
  GetTrustQuota : Z;
  FormatQuota : Z -> string;
  reply_at : nat -> reply
}.

(** Tables, pending batch updates (one map per type) and the number of calls made. *)
Record world := mkWorld {
  w_users : gmap Z User;
  w_tokens : gmap Z Token;
  w_channels : gmap Z Z;  (* channel id to used_quota *)
  w_subdb : subDB;
  w_batch : list (gmap Z Z);
  w_calls : nat
}.

Definition set_users (us : gmap Z User) (w : world) : world :=
  mkWorld us (w_tokens w) (w_channels w) (w_subdb w) (w_batch w) (w_calls w).
Definition set_tokens (ts : gmap Z Token) (w : world) : world :=
  mkWorld (w_users w) ts (w_channels w) (w_subdb w) (w_batch w) (w_calls w).
Definition set_channels (cs : gmap Z Z) (w : world) : world :=
  mkWorld (w_users w) (w_tokens w) cs (w_subdb w) (w_batch w) (w_calls w).
Definition set_subdb (db : subDB) (w : world) : world :=
  mkWorld (w_users w) (w_tokens w) (w_channels w) db (w_batch w) (w_calls w).
Definition set_batch (b : list (gmap Z Z)) (w : world) : world :=
  mkWorld (w_users w) (w_tokens w) (w_channels w) (w_subdb w) b (w_calls w).
Definition set_calls (n : nat) (w : world) : world :=
  mkWorld (w_users w) (w_tokens w) (w_channels w) (w_subdb w) (w_batch w) n.

Definition update_user (id : Z) (f : User -> User) (w : world) : world := set_users (alter f id (w_users w)) w.
Definition update_token (id : Z) (f : Token -> Token) (w : world) : world := set_tokens (alter f id (w_tokens w)) w.

(** ** Batch update types *)

Definition BatchUpdateTypeUserQuota : nat := 0.
Definition BatchUpdateTypeTokenQuota : nat := 1.
Definition BatchUpdateTypeUsedQuota : nat := 2.
Definition BatchUpdateTypeChannelUsedQuota : nat := 3.
Definition BatchUpdateTypeRequestCount : nat := 4.
Definition BatchUpdateTypeUserTotalTokenUsed : nat := 5.
Definition BatchUpdateTypeTokenTotalTokenUsed : nat := 6.
Definition BatchUpdateTypeCount : nat := 7.

Definition negative_quota : error := ErrMsg "quota 不能为负数！".

Section Operations.
Context `{Deployment}.

(** The reply to the next outside call. *)
Definition ask : GM world reply := fun w => (Ok (reply_at (w_calls w)), set_calls (Datatypes.S (w_calls w)) w).

(** One database call: an error and no change, or its effect. *)
Definition db_call {A} (f : reply -> GM world A) : GM world A :=
  r ← ask; match re_fault r with Some e => throw e | None => f r end.

Definition addNewRecord (type_ : nat) (id value : Z) : GM world unit :=
  modify (fun w => set_batch (alter (fun store : gmap Z Z =>
    match store !! id with
    | None => <[id := value]> store
    | Some v => <[id := i64_add v value]> store
    end) type_ (w_batch w)) w).

(** ** Users *)

Definition GetUserQuota (id : Z) (fromDB : bool) : GM world Z :=
  r ← ask;
  match (if negb fromDB && RedisEnabled then re_userQuota r else None) with
  | Some quota => mret quota
  | None =>
      match re_fault r with
      | Some e => throw e
      | None => gets (fun w => default 0 (u_Quota <$> w_users w !! id))
      end
  end.

Definition increaseUserQuota (id quota : Z) : GM world unit :=
  db_call (fun _ => modify (update_user id (credit quota 0))).

Definition decreaseUserQuota (id quota : Z) : GM world unit :=
  db_call (fun _ => modify (update_user id (credit (- quota) 0))).

Definition IncreaseUserQuota (id quota : Z) (db : bool) : GM world unit :=
  if quota <? 0 then throw negative_quota
  else if negb db && BatchUpdateEnabled then addNewRecord BatchUpdateTypeUserQuota id quota
  else increaseUserQuota id quota.

Definition DecreaseUserQuota (id quota : Z) (db : bool) : GM world unit :=
  if quota <? 0 then throw negative_quota
  else if negb db && BatchUpdateEnabled then addNewRecord BatchUpdateTypeUserQuota id (i64_neg quota)
  else decreaseUserQuota id quota.

Definition increaseUserRewardQuota (id quota : Z) : GM world unit :=
  db_call (fun _ => modify (update_user id (credit quota quota))).

(** [db] only selects a path that no longer exists. *)
Definition IncreaseUserRewardQuota (id quota : Z) (db : bool) : GM world unit :=
  if quota <? 0 then throw negative_quota else increaseUserRewardQuota id quota.

Definition DeltaUpdateUserQuota (id delta : Z) : GM world unit :=
  if delta =? 0 then mret tt
  else if 0 <? delta then IncreaseUserQuota id delta false
  else DecreaseUserQuota id (i64_neg delta) false.

Record UserQuotaBreakdown := mkBreakdown { bd_Total : Z; bd_RewardUsed : Z; bd_PaidUsed : Z }.

(** How a debit splits between reward and paid balance. *)
Definition reward_first (user : User) (quota : Z) : UserQuotaBreakdown :=
  let rewardAvailable := if u_Quota user <? u_RewardQuota user then u_Quota user else u_RewardQuota user in
  let rewardAvailable := if rewardAvailable <? 0 then 0 else rewardAvailable in
  let rewardUsed := if quota <? rewardAvailable then quota else rewardAvailable in
  mkBreakdown quota rewardUsed (i64_sub quota rewardUsed).

Definition DecreaseUserQuotaPreferReward (id quota : Z) : GM world UserQuotaBreakdown :=
  if quota <? 0 then throw negative_quota
  else if quota =? 0 then mret (mkBreakdown 0 0 0)
  else db_call (fun _ =>
    users ← gets w_users;
    match users !! id with
    | None => throw ErrRecordNotFound
    | Some user =>
        if u_Quota user <? quota
        then throw (ErrMsg ("user quota is not enough, user quota: " ++ FormatQuota (u_Quota user) ++
                            ", need quota: " ++ FormatQuota quota))
        else
          let breakdown := reward_first user quota in
          _ ← modify (update_user id (credit (- quota) (- bd_RewardUsed breakdown)));
          mret breakdown
    end).

Definition IncreaseUserQuotaByBreakdown (id total reward : Z) : GM world unit :=
  if (total <? 0) || (reward <? 0) then throw negative_quota
  else if total <? reward then throw (ErrMsg "reward quota cannot exceed total quota")
  else if total =? 0 then mret tt
  else db_call (fun _ => modify (update_user id (credit total reward))).

Definition updateUserUsedQuota (id quota : Z) : GM world unit :=
  db_call (fun _ => modify (update_user id (bump_used quota))).
Definition updateUserRequestCount (id count : Z) : GM world unit :=
  db_call (fun _ => modify (update_user id (bump_count count))).
Definition updateUserTotalTokenUsed (id tokenUsed : Z) : GM world unit :=
  db_call (fun _ => modify (update_user id (bump_total tokenUsed))).
Definition updateUserUsedQuotaAndRequestCount (id quota count : Z) : GM world unit :=
  db_call (fun _ => modify (update_user id (fun u => bump_count count (bump_used quota u)))).

(** ** Tokens *)

(** [WHERE key = ?], a unique index. *)
Definition token_by_key (w : world) (key : string) : option Token :=
  List.find (fun t => String.eqb (t_Key t) key) (map snd (map_to_list (w_tokens w))).

Definition GetTokenByKey (key : string) (fromDB : bool) : GM world Token :=
  r ← ask;
  match (if negb fromDB && RedisEnabled then re_token r else None) with
  | Some token => mret token
  | None =>
      match re_fault r with
      | Some e => throw e
      | None =>
          found ← gets (fun w => token_by_key w key);
          match found with Some token => mret token | None => throw ErrRecordNotFound end
      end
  end.

Definition increaseTokenQuota (id quota : Z) : GM world unit :=
  db_call (fun r => modify (update_token id (credit_token (re_clock r) quota))).
Definition decreaseTokenQuota (id quota : Z) : GM world unit :=
  db_call (fun r => modify (update_token id (credit_token (re_clock r) (- quota)))).

Definition IncreaseTokenQuota (tokenId : Z) (key : string) (quota : Z) : GM world unit :=
  if quota <? 0 then throw negative_quota
  else if BatchUpdateEnabled then addNewRecord BatchUpdateTypeTokenQuota tokenId quota
  else increaseTokenQuota tokenId quota.

Definition DecreaseTokenQuota (id : Z) (key : string) (quota : Z) : GM world unit :=
  if quota <? 0 then throw negative_quota
  else if BatchUpdateEnabled then addNewRecord BatchUpdateTypeTokenQuota id (i64_neg quota)
  else decreaseTokenQuota id quota.

Definition updateTokenTotalTokenUsed (id tokenUsed : Z) : GM world unit :=
  db_call (fun _ => modify (update_token id (bump_token_total tokenUsed))).

Definition updateChannelUsedQuota (id quota : Z) : GM world unit :=
  db_call (fun _ => modify (fun w => set_channels (alter (Z.add quota) id (w_channels w)) w)).

(** ** Statistics counters *)

(** These functions return nothing: an error is only logged. *)
Definition logged (m : GM world unit) : GM world unit := _ ← attempting m; mret tt.

Definition UpdateUserUsedQuotaAndRequestCount (id quota : Z) : GM world unit :=
  if BatchUpdateEnabled then
    _ ← addNewRecord BatchUpdateTypeUsedQuota id quota;
    addNewRecord BatchUpdateTypeRequestCount id 1
  else logged (updateUserUsedQuotaAndRequestCount id quota 1).

Definition UpdateUserRequestCount (id count : Z) : GM world unit :=
  if count =? 0 then mret tt
  else if BatchUpdateEnabled then addNewRecord BatchUpdateTypeRequestCount id count
  else logged (updateUserRequestCount id count).

Definition UpdateUserTotalTokenUsed (id tokenUsed : Z) : GM world unit :=
  if (id <=? 0) || (tokenUsed <=? 0) then mret tt
  else if BatchUpdateEnabled then addNewRecord BatchUpdateTypeUserTotalTokenUsed id tokenUsed
  else logged (updateUserTotalTokenUsed id tokenUsed).

Definition UpdateTokenTotalTokenUsed (id tokenUsed : Z) : GM world unit :=
  if (id <=? 0) || (tokenUsed <=? 0) then mret tt
  else if BatchUpdateEnabled then addNewRecord BatchUpdateTypeTokenTotalTokenUsed id tokenUsed
  else logged (updateTokenTotalTokenUsed id tokenUsed).

Definition UpdateUserAndTokenTotalTokenUsed (userId tokenId tokenUsed : Z) : GM world unit :=
  if tokenUsed <=? 0 then mret tt
  else
    _ ← UpdateUserTotalTokenUsed userId tokenUsed;
    if 0 <? tokenId then UpdateTokenTotalTokenUsed tokenId tokenUsed else mret tt.

Definition UpdateChannelUsedQuota (id quota : Z) : GM world unit :=
  if BatchUpdateEnabled then addNewRecord BatchUpdateTypeChannelUsedQuota id quota
  else logged (updateChannelUsedQuota id quota).

(** ** The batch updater *)

Definition flush_entry (type_ : nat) (entry : Z * Z) : GM world unit :=
  let '(key, value) := entry in
  logged
    match type_ with
    | 0%nat => increaseUserQuota key value
    | 1%nat => increaseTokenQuota key value
    | 2%nat => updateUserUsedQuota key value
    | 3%nat => updateChannelUsedQuota key value
    | 4%nat => updateUserRequestCount key value
    | 5%nat => updateUserTotalTokenUsed key value
    | _ => updateTokenTotalTokenUsed key value
    end.

Fixpoint flush_entries (type_ : nat) (entries : list (Z * Z)) : GM world unit :=
  match entries with
  | [] => mret tt
  | e :: rest => _ ← flush_entry type_ e; flush_entries type_ rest
  end.

(** Swaps the store of a type for an empty one, then applies its entries. *)
Definition flush_store (type_ : nat) : GM world unit :=
  store ← gets (fun w => default ∅ (w_batch w !! type_));
  _ ← modify (fun w => set_batch (<[type_ := ∅]> (w_batch w)) w);
  flush_entries type_ (map_to_list store).

Fixpoint flush_stores (types : list nat) : GM world unit :=
  match types with
  | [] => mret tt
  | t :: rest => _ ← flush_store t; flush_stores rest
  end.

Definition batchUpdate : GM world unit :=
  hasData ← gets (fun w => existsb (fun store => negb (bool_decide (store = ∅))) (take BatchUpdateTypeCount (w_batch w)));
  if hasData : bool then flush_stores (seq 0 BatchUpdateTypeCount) else mret tt.
End Operations.

(** ** Balances

    What a row is worth: its column plus what the batch updater has not yet
    written. *)

Definition pending (w : world) (type_ : nat) (id : Z) : Z :=
  default 0 (default ∅ (w_batch w !! type_) !! id).
Definition user_balance (w : world) (id : Z) : Z :=
  default 0 (u_Quota <$> w_users w !! id) + pending w BatchUpdateTypeUserQuota id.
Definition token_balance (w : world) (id : Z) : Z :=
  default 0 (t_RemainQuota <$> w_tokens w !! id) + pending w BatchUpdateTypeTokenQuota id.

(** The stores exist ([init]). *)
Definition batch_ok (w : world) : Prop := length (w_batch w) = BatchUpdateTypeCount.

(** A world that differs at most in the number of calls made. *)
Definition same_tables (w w' : world) : Prop := exists n, w' = set_calls n w.

Lemma same_tables_refl w : same_tables w w.
Proof. exists (w_calls w). by destruct w. Qed.
#[export] Hint Resolve same_tables_refl : router.

(** The subscription tables and the stores' number are untouched. *)
Definition keeps_subs (w w' : world) : Prop := w_subdb w' = w_subdb w /\ length (w_batch w') = length (w_batch w).

Definition add_pending (id value : Z) (store : gmap Z Z) : gmap Z Z :=
  match store !! id with None => <[id := value]> store | Some v => <[id := i64_add v value]> store end.

Lemma add_pending_lookup id value store k :
  is_i64 (default 0 (store !! id) + value) ->
  default 0 (add_pending id value store !! k) = default 0 (store !! k) + (if bool_decide (k = id) then value else 0).
Proof.
  intros Hb. unfold add_pending. case_bool_decide as E; [subst k|].
  - destruct (store !! id) as [v|] eqn:Ev; cbn in *; rewrite lookup_insert_eq; cbn; [|done].
    unfold i64_add. by rewrite wrap64_id.
  - destruct (store !! id); rewrite lookup_insert_ne by done; lia.
Qed.

Section Balances.
Context `{Deployment}.

Lemma addNewRecord_run type_ id value w :
  addNewRecord type_ id value w = (Ok tt, set_batch (alter (add_pending id value) type_ (w_batch w)) w).
Proof. done. Qed.

Lemma pending_add w type_ id value t k :
  (type_ < length (w_batch w))%nat -> is_i64 (pending w type_ id + value) ->
  pending (snd (addNewRecord type_ id value w)) t k =
  pending w t k + (if bool_decide (t = type_ /\ k = id) then value else 0).
Proof.
  intros Hl Hb. rewrite addNewRecord_run. cbn [snd]. unfold pending in *. cbn [w_batch set_batch].
  destruct (lookup_lt_is_Some_2 (w_batch w) type_ Hl) as [store Hs].
  destruct (decide (t = type_)) as [->|Ht].
  - rewrite list_lookup_alter_eq, Hs in *. cbn in *. rewrite add_pending_lookup by done.
    repeat case_bool_decide; naive_solver lia.
  - rewrite list_lookup_alter_ne by done. rewrite bool_decide_eq_false_2 by naive_solver. lia.
Qed.

(** A database call either fails without effect or runs. *)
Lemma wp_db_call {A} (f : reply -> GM world A) w Q :
  (forall e w', same_tables w w' -> Q (Err e) w') ->
  (forall r w', same_tables w w' -> re_fault r = None -> wp (f r) w' Q) -> wp (db_call f) w Q.
Proof.
  intros He Ho. unfold db_call. apply wp_bind. unfold ask, wp. cbn.
  assert (same_tables w (set_calls (Datatypes.S (w_calls w)) w)) by by eexists.
  destruct (re_fault (reply_at (w_calls w))) eqn:Ef; [by apply He | by apply Ho].
Qed.

(** *** Tokens *)

(** Effect of crediting [d] to one token: only its balance moves. *)
Definition token_moved (id d : Z) (w w' : world) : Prop :=
  token_balance w' id = token_balance w id + d /\ w_users w' = w_users w /\ keeps_subs w w' /\
  (forall k, is_Some (w_tokens w !! k) -> is_Some (w_tokens w' !! k)) /\
  (forall k, k <> id -> token_balance w' k = token_balance w k) /\
  (forall k, pending w' BatchUpdateTypeUserQuota k = pending w BatchUpdateTypeUserQuota k) /\
  (pending w' BatchUpdateTypeTokenQuota id = pending w BatchUpdateTypeTokenQuota id \/
   pending w' BatchUpdateTypeTokenQuota id = pending w BatchUpdateTypeTokenQuota id + d).

Lemma token_moved_zero id w : token_moved id 0 w w.
Proof. unfold token_moved, keeps_subs. split_and!; try done; [lia | by left]. Qed.

Lemma token_column_moved id d c w w' :
  same_tables w w' -> is_Some (w_tokens w !! id) -> token_moved id d w (update_token id (credit_token c d) w').
Proof.
  intros [n ->] [t Ht]. unfold token_moved, token_balance, update_token, pending, keeps_subs. cbn. split_and!; try done.
  - rewrite lookup_alter_eq, Ht. cbn. lia.
  - intros k [t' Hk]. destruct (decide (k = id)) as [->|].
    + rewrite lookup_alter_eq, Hk. by eexists.
    + rewrite lookup_alter_ne by done. by eexists.
  - intros k Hk. by rewrite lookup_alter_ne by done.
  - by left.
Qed.

Lemma token_batch_moved id d w :
  batch_ok w -> is_i64 (pending w BatchUpdateTypeTokenQuota id + d) ->
  token_moved id d w (snd (addNewRecord BatchUpdateTypeTokenQuota id d w)).
Proof.
  intros Hb Hp. assert (Hl : (BatchUpdateTypeTokenQuota < length (w_batch w))%nat)
    by (rewrite Hb; unfold BatchUpdateTypeTokenQuota, BatchUpdateTypeCount; lia).
  unfold token_moved, token_balance, keeps_subs. split_and!.
  - rewrite pending_add by done. rewrite bool_decide_eq_true_2 by done. cbn. lia.
  - done.
  - done.
  - cbn. by rewrite length_alter.
  - done.
  - intros k Hk. rewrite pending_add by done. rewrite bool_decide_eq_false_2 by naive_solver. cbn. lia.
  - intros k. rewrite pending_add by done. by rewrite bool_decide_eq_false_2, Z.add_0_r by (intros [? _]; done).
  - right. rewrite pending_add by done. by rewrite bool_decide_eq_true_2.
Qed.

(** Both token operations, immediate or deferred: they move exactly the
    amount, or fail without effect. *)
Definition moves_token (id d : Z) (w : world) (r : result unit) (w' : world) : Prop :=
  match r with Ok _ => token_moved id d w w' | Err _ => same_tables w w' end.

Lemma IncreaseTokenQuota_spec id key q w :
  batch_ok w -> is_Some (w_tokens w !! id) -> is_i64 (pending w BatchUpdateTypeTokenQuota id + q) ->
  wp (IncreaseTokenQuota id key q) w (moves_token id q w).
Proof.
  intros Hb Ht Hp. unfold IncreaseTokenQuota. goal_if; [apply wp_throw; cbn; auto with router|].
  goal_if; [by apply token_batch_moved|]. apply wp_db_call; [done|]. intros r w' Hs _. by apply token_column_moved.
Qed.

Lemma DecreaseTokenQuota_spec id key q w :
  batch_ok w -> is_Some (w_tokens w !! id) -> is_i64 q -> is_i64 (pending w BatchUpdateTypeTokenQuota id - q) ->
  wp (DecreaseTokenQuota id key q) w (moves_token id (- q) w).
Proof.
  intros Hb Ht Hq Hp. unfold DecreaseTokenQuota. destruct (Z.ltb_spec q 0); [apply wp_throw; cbn; auto with router|].
  goal_if.
  - unfold i64_neg. rewrite wrap64_id by (unfold is_i64, min_i64, max_i64 in *; lia). by apply token_batch_moved.
  - apply wp_db_call; [done|]. intros r w' Hs _. by apply token_column_moved.
Qed.

(** *** Wallets *)

(** The balance of which the reward is a part. *)
Definition wallet_ok (u : User) : Prop := 0 <= u_RewardQuota u <= u_Quota u.

(** The row of one user changes by [dq]/[dr]; nothing else does. *)
Definition wallet_moved (id dq dr : Z) (w w' : world) : Prop :=
  exists n, w' = set_calls n (update_user id (credit dq dr) w).

Lemma reward_first_split u q :
  wallet_ok u -> is_i64 q -> 0 <= q ->
  reward_first u q = mkBreakdown q (Z.min (u_RewardQuota u) q) (q - Z.min (u_RewardQuota u) q).
Proof.
  unfold wallet_ok, reward_first, i64_sub. cbn. intros Hw Hq H0. rewrite (proj2 (Z.ltb_ge (u_Quota u) (u_RewardQuota u))) by lia.
  rewrite (proj2 (Z.ltb_ge (u_RewardQuota u) 0)) by lia.
  assert ((if q <? u_RewardQuota u then q else u_RewardQuota u) = Z.min (u_RewardQuota u) q) as -> by (goal_if; lia).
  rewrite wrap64_id; [done|]. unfold is_i64, min_i64, max_i64 in *. lia.
Qed.

(** A debit: on success both columns move by the reported split. *)
Lemma DecreasePreferReward_spec id q w :
  wp (DecreaseUserQuotaPreferReward id q) w (fun r w' =>
    match r with
    | Ok b => 0 <= q /\
        ((q = 0 /\ b = mkBreakdown 0 0 0 /\ w' = w) \/
         exists u, 0 < q /\ w_users w !! id = Some u /\ q <= u_Quota u /\ b = reward_first u q /\
                   wallet_moved id (- q) (- bd_RewardUsed b) w w')
    | Err _ => same_tables w w'
    end).
Proof.
  unfold DecreaseUserQuotaPreferReward. destruct (Z.ltb_spec q 0); [apply wp_throw; auto with router|].
  destruct (Z.eqb_spec q 0); [apply wp_ret; auto|]. apply wp_db_call; [done|]. intros r w' [k ->] _.
  apply wp_bind, wp_gets. cbn. destruct (w_users w !! id) as [u|] eqn:Eu; [|apply wp_throw; by exists k].
  destruct (Z.ltb_spec (u_Quota u) q); [apply wp_throw; by exists k|].
  apply wp_bind, wp_modify, wp_ret. split; [lia|]. right. exists u. split_and!; try done; [lia|]. by exists k.
Qed.

(** A credit by breakdown. *)
Lemma IncreaseByBreakdown_spec id total reward w :
  wp (IncreaseUserQuotaByBreakdown id total reward) w (fun r w' =>
    match r with
    | Ok _ => 0 <= reward <= total /\ ((total = 0 /\ w' = w) \/ (0 < total /\ wallet_moved id total reward w w'))
    | Err _ => same_tables w w'
    end).
Proof.
  unfold IncreaseUserQuotaByBreakdown. destruct (Z.ltb_spec total 0); [apply wp_throw; auto with router|].
  destruct (Z.ltb_spec reward 0); [apply wp_throw; auto with router|]. cbn.
  destruct (Z.ltb_spec total reward); [apply wp_throw; auto with router|].
  destruct (Z.eqb_spec total 0); [apply wp_ret; split; [lia | by left]|].
  apply wp_db_call; [done|]. intros r w' [k ->] _. apply wp_modify. split; [lia|]. right. split; [lia|]. by exists k.
Qed.
End Balances.

(** ** The batch updater *)

(** What a list of pending entries adds to one key. *)
Definition entries_for (id : Z) (entries : list (Z * Z)) : Z :=
  sum_by (fun e => if fst e =? id then snd e else 0) entries.

Lemma entries_for_store (store : gmap Z Z) id : entries_for id (map_to_list store) = default 0 (store !! id).
Proof.
  induction store as [|k v store Hk IH] using map_ind.
  - by rewrite map_to_list_empty, lookup_empty.
  - unfold entries_for in *. rewrite (sum_by_perm _ _ _ (map_to_list_insert store k v Hk)). cbn. rewrite IH.
    destruct (Z.eqb_spec k id) as [->|].
    + rewrite lookup_insert_eq, Hk. cbn. lia.
    + by rewrite lookup_insert_ne by done.
Qed.

Section Flush.
Context `{Deployment}.
(** A user and a token whose rows exist. *)
Variables (uid tid : Z).

Definition rows_exist (w : world) : Prop := is_Some (w_users w !! uid) /\ is_Some (w_tokens w !! tid).
Definition columns (w : world) : Z * Z :=
  (default 0 (u_Quota <$> w_users w !! uid), default 0 (t_RemainQuota <$> w_tokens w !! tid)).

(** [du]/[dt] were added to the two columns. *)
Definition flushed (du dt : Z) (w w' : world) : Prop :=
  rows_exist w' /\ columns w' = (fst (columns w) + du, snd (columns w) + dt) /\ w_batch w' = w_batch w.

Lemma flushed_refl w : rows_exist w -> flushed 0 0 w w.
Proof. intros Hr. unfold flushed. split_and!; [done | unfold columns; cbn; f_equal; lia | done]. Qed.

Lemma flushed_trans a b c d w1 w2 w3 : flushed a b w1 w2 -> flushed c d w2 w3 -> flushed (a + c) (b + d) w1 w3.
Proof.
  intros (_ & E1 & B1) (R & E2 & B2). unfold flushed. split_and!; [done | | congruence]. rewrite E2, E1. cbn. f_equal; lia.
Qed.

Lemma same_tables_flushed w w' : rows_exist w -> same_tables w w' -> flushed 0 0 w w'.
Proof. intros Hr [n ->]. by apply flushed_refl in Hr. Qed.

Lemma user_update_flushed k f d w w' :
  rows_exist w -> same_tables w w' -> (forall u, u_Quota (f u) = u_Quota u + d) ->
  flushed (if k =? uid then d else 0) 0 w (update_user k f w').
Proof.
  intros [[u Hu] Ht] [n ->] Hf. unfold flushed, rows_exist, columns, update_user. cbn. destruct (Z.eqb_spec k uid) as [->|].
  - rewrite lookup_alter_eq, Hu. cbn. rewrite Hf, Z.add_0_r. naive_solver.
  - rewrite lookup_alter_ne, Hu by done. cbn. rewrite !Z.add_0_r. naive_solver.
Qed.

Lemma token_update_flushed k f d w w' :
  rows_exist w -> same_tables w w' -> (forall t, t_RemainQuota (f t) = t_RemainQuota t + d) ->
  flushed 0 (if k =? tid then d else 0) w (update_token k f w').
Proof.
  intros [Hu [t Ht]] [n ->] Hf. unfold flushed, rows_exist, columns, update_token. cbn. destruct (Z.eqb_spec k tid) as [->|].
  - rewrite lookup_alter_eq, Ht. cbn. rewrite Hf, Z.add_0_r. naive_solver.
  - rewrite lookup_alter_ne, Ht by done. cbn. rewrite !Z.add_0_r. naive_solver.
Qed.

Hypothesis no_fault : forall n, re_fault (reply_at n) = None.

Lemma logged_db_call f w (Q : world -> Prop) :
  (forall r w', same_tables w w' -> wp (f r) w' (fun _ w'' => Q w'')) ->
  wp (logged (db_call f)) w (fun r w' => r = Ok tt /\ Q w').
Proof.
  intros Hf. unfold logged. apply wp_bind, wp_attempting. unfold db_call. apply wp_bind. unfold ask, wp at 1. cbn.
  rewrite no_fault. eapply wp_mono; [apply (Hf (reply_at (w_calls w))); by eexists|]. intros r w' HQ. by apply wp_ret.
Qed.

(** What one entry adds to the two columns. *)
Definition entry_user (type_ : nat) (e : Z * Z) : Z :=
  if (type_ =? BatchUpdateTypeUserQuota)%nat then (if fst e =? uid then snd e else 0) else 0.
Definition entry_token (type_ : nat) (e : Z * Z) : Z :=
  if (type_ =? BatchUpdateTypeTokenQuota)%nat then (if fst e =? tid then snd e else 0) else 0.

Lemma flush_entry_spec type_ e w :
  (type_ < BatchUpdateTypeCount)%nat -> rows_exist w ->
  wp (flush_entry type_ e) w (fun r w' => r = Ok tt /\ flushed (entry_user type_ e) (entry_token type_ e) w w').
Proof.
  intros Ht Hr. destruct e as [k v]. unfold BatchUpdateTypeCount in Ht.
  assert (Hother : forall f, (forall u, u_Quota (f u) = u_Quota u + 0) -> forall (r : reply) w', same_tables w w' ->
    wp (modify (update_user k f)) w' (fun _ w'' => flushed 0 0 w w'')).
  { intros f Hf r w' Hs. apply wp_modify. pose proof (user_update_flushed k f 0 w w' Hr Hs Hf) as Hx. by destruct (k =? uid). }
  destruct type_ as [|[|[|[|[|[|[|]]]]]]]; [..|lia]; apply logged_db_call; intros r w' Hs;
    try (refine (Hother _ _ r w' Hs); intros u; cbn; lia); apply wp_modify.
  - apply (user_update_flushed k (credit v 0) v w w' Hr Hs). intros; cbn; lia.
  - apply (token_update_flushed k (credit_token (re_clock r) v) v w w' Hr Hs). intros; cbn; lia.
  - destruct Hs as [n ->]. by apply flushed_refl in Hr.
  - pose proof (token_update_flushed k (bump_token_total v) 0 w w' Hr Hs ltac:(intros; cbn; lia)) as Hx. by destruct (k =? tid).
Qed.

Lemma flush_entries_spec type_ es : forall w,
  (type_ < BatchUpdateTypeCount)%nat -> rows_exist w ->
  wp (flush_entries type_ es) w (fun r w' =>
    r = Ok tt /\ flushed (sum_by (entry_user type_) es) (sum_by (entry_token type_) es) w w').
Proof.
  induction es as [|e es IH]; intros w Ht Hr; [apply wp_ret; split; [done | by apply flushed_refl]|].
  cbn [flush_entries]. apply wp_bind. eapply wp_mono; [by apply flush_entry_spec|]. intros r w1 [-> H1].
  eapply wp_mono; [apply IH; [done | apply H1]|]. intros r w2 [-> H2]. split; [done|]. eapply flushed_trans; eauto.
Qed.

Lemma sum_by_zero {A} (l : list A) : sum_by (fun _ => 0) l = 0.
Proof. induction l; cbn; lia. Qed.

(** Emptying one store leaves both balances. *)
Lemma flush_store_spec type_ w :
  (type_ < BatchUpdateTypeCount)%nat -> batch_ok w -> rows_exist w ->
  wp (flush_store type_) w (fun r w' =>
    r = Ok tt /\ rows_exist w' /\ w_batch w' = <[type_ := ∅]> (w_batch w) /\
    user_balance w' uid = user_balance w uid /\ token_balance w' tid = token_balance w tid).
Proof.
  intros Ht Hb Hr. unfold flush_store. apply wp_bind, wp_gets, wp_bind, wp_modify.
  assert (Hl : (type_ < length (w_batch w))%nat) by by rewrite Hb.
  destruct (lookup_lt_is_Some_2 (w_batch w) type_ Hl) as [store Hs]. rewrite Hs. cbn [from_option].
  eapply wp_mono; [by apply (flush_entries_spec type_ (map_to_list store) (set_batch (<[type_:=∅]> (w_batch w)) w))|].
  intros r w' (-> & Hr' & Hc & Hw'). cbn in Hw'. split_and!; try done.
  all: unfold columns in Hc; injection Hc as Hu Hk; cbn in Hu, Hk; unfold user_balance, token_balance, pending; rewrite Hw', ?Hu, ?Hk.
  - destruct (decide (type_ = BatchUpdateTypeUserQuota)) as [->|Hn].
    + rewrite list_lookup_insert_eq, Hs by done. cbn [from_option]. unfold id. rewrite lookup_empty. cbn [from_option].
      pose proof (entries_for_store store uid) as E. unfold entries_for in E.
      unfold entry_user. cbn in *. unfold id in *. lia.
    + rewrite list_lookup_insert_ne by done. unfold entry_user. rewrite (proj2 (Nat.eqb_neq _ _) Hn), sum_by_zero. lia.
  - destruct (decide (type_ = BatchUpdateTypeTokenQuota)) as [->|Hn].
    + rewrite list_lookup_insert_eq, Hs by done. cbn [from_option]. unfold id. rewrite lookup_empty. cbn [from_option].
      pose proof (entries_for_store store tid) as E. unfold entries_for in E.
      unfold entry_token. cbn in *. unfold id in *. lia.
    + rewrite list_lookup_insert_ne by done. unfold entry_token. rewrite (proj2 (Nat.eqb_neq _ _) Hn), sum_by_zero. lia.
Qed.

Lemma flush_stores_spec types : forall w,
  Forall (fun t => (t < BatchUpdateTypeCount)%nat) types -> batch_ok w -> rows_exist w ->
  wp (flush_stores types) w (fun r w' =>
    r = Ok tt /\ batch_ok w' /\ (forall t, t ∈ types \/ w_batch w !! t = Some ∅ -> (t < BatchUpdateTypeCount)%nat -> w_batch w' !! t = Some ∅) /\
    user_balance w' uid = user_balance w uid /\ token_balance w' tid = token_balance w tid).
Proof.
  induction types as [|t types IH]; intros w Hts Hb Hr; cbn [flush_stores].
  - apply wp_ret. split_and!; try done. intros t [Ht%not_elem_of_nil|Ht]; done.
  - apply Forall_cons in Hts as [Ht Hts]. apply wp_bind. eapply wp_mono; [by apply flush_store_spec|].
    intros r w1 (-> & Hr1 & Hw1 & Hu1 & Hk1). assert (Hb1 : batch_ok w1) by (unfold batch_ok; by rewrite Hw1, length_insert).
    eapply wp_mono; [by apply IH|]. intros r w2 (-> & Hb2 & He & Hu2 & Hk2). split_and!; try done; [|congruence..].
    intros k Hk Hlt. apply He; [|done]. destruct (decide (k = t)) as [->|Hne].
    + right. rewrite Hw1. apply list_lookup_insert_eq. by rewrite Hb.
    + destruct Hk as [[->|Hk]%elem_of_cons|Hk]; [done | by left |]. right. by rewrite Hw1, list_lookup_insert_ne.
Qed.

Lemma batchUpdate_spec w :
  batch_ok w -> rows_exist w ->
  wp batchUpdate w (fun r w' =>
    r = Ok tt /\ (forall t, (t < BatchUpdateTypeCount)%nat -> w_batch w' !! t = Some ∅) /\
    user_balance w' uid = user_balance w uid /\ token_balance w' tid = token_balance w tid).
Proof.
  intros Hb Hr. unfold batchUpdate. apply wp_bind, wp_gets. rewrite take_ge by (by rewrite Hb). goal_if.
  - eapply wp_mono; [apply flush_stores_spec; [|done..]|].
    + apply Forall_forall. intros t Ht%elem_of_seq. unfold BatchUpdateTypeCount in *. lia.
    + intros r w' (-> & _ & He & ? & ?). split_and!; try done. intros t Ht. apply He; [|done]. left. apply elem_of_seq. lia.
  - apply wp_ret. split_and!; try done. intros t Ht.
    destruct (lookup_lt_is_Some_2 (w_batch w) t) as [store Hs]; [by rewrite Hb|]. rewrite Hs. f_equal.
    rewrite <- not_true_iff_false, existsb_exists in E. destruct (decide (store = ∅)) as [->|Hne]; [done|]. exfalso. apply E.
    exists store. split; [apply list_elem_of_In; by eapply list_elem_of_lookup_2|]. by rewrite bool_decide_eq_false_2.
Qed.
End Flush.

(** ** Theorems *)

Lemma alter_known {A} (f : A -> A) (m : gmap Z A) k a : m !! k = Some a -> alter f k m = <[k := f a]> m.
Proof.
  intros Hk. apply map_eq. intros j. destruct (decide (j = k)) as [->|].
  - by rewrite lookup_alter_eq, lookup_insert_eq, Hk.
  - by rewrite lookup_alter_ne, lookup_insert_ne.
Qed.

Section Theorems.
Context `{Deployment}.

(** A wallet debit spends reward balance before paid balance.  It
    succeeds only within the balance; the reported split is exactly what the
    two columns lose, the reward stays a part of the balance, and no other
    row changes.  When it fails, either the balance was short or the database
    call failed, and no row changed. *)
Theorem reward_is_spent_first id q w u :
  w_users w !! id = Some u -> wallet_ok u -> is_i64 q -> 0 < q ->
  match DecreaseUserQuotaPreferReward id q w with
  | (Ok b, w') =>
      q <= u_Quota u /\ b = mkBreakdown q (Z.min (u_RewardQuota u) q) (q - Z.min (u_RewardQuota u) q) /\
      w_users w' = <[id := credit (- q) (- bd_RewardUsed b) u]> (w_users w) /\
      wallet_ok (credit (- q) (- bd_RewardUsed b) u)
  | (Err e, w') => (u_Quota u < q \/ re_fault (reply_at (w_calls w)) = Some e) /\ w_users w' = w_users w
  end.
Proof.
  intros Hu Hw Hq H0. pose proof (DecreasePreferReward_spec id q w) as Hs.
  destruct (DecreaseUserQuotaPreferReward id q w) as [[b|e] w'] eqn:E; unfold wp in Hs; rewrite E in Hs; cbn in Hs.
  - destruct Hs as [_ [[? _]|(u' & _ & Hu' & Hle & -> & n & ->)]]; [lia|]. simplify_eq.
    rewrite reward_first_split by (done || lia). unfold wallet_ok in *. cbn. split_and!; try done; try lia.
    by apply alter_known.
  - destruct Hs as [n ->]. split; [|done]. revert E. unfold DecreaseUserQuotaPreferReward.
    rewrite (proj2 (Z.ltb_ge q 0)), (proj2 (Z.eqb_neq q 0)) by lia. unfold db_call, mbind, GM_bind, ask.
    destruct (re_fault _); [unfold throw; intros; simplify_eq; by right|]. cbn. rewrite Hu.
    destruct (Z.ltb_spec (u_Quota u) q); [by left | done].
Qed.

(** Returning a debit by its breakdown undoes it: a successful debit
    followed by a successful credit of the reported total and reward part
    leaves every user row as it was before. *)
Theorem breakdown_refund_restores id q w b w1 w2 :
  0 < q -> is_i64 q -> (forall u, w_users w !! id = Some u -> wallet_ok u) ->
  DecreaseUserQuotaPreferReward id q w = (Ok b, w1) ->
  IncreaseUserQuotaByBreakdown id (bd_Total b) (bd_RewardUsed b) w1 = (Ok tt, w2) ->
  w_users w2 = w_users w.
Proof.
  intros H0 Hq Hw E1 E2. pose proof (wp_elim _ _ _ _ _ (DecreasePreferReward_spec id q w) E1) as H1.
  pose proof (wp_elim _ _ _ _ _ (IncreaseByBreakdown_spec id _ _ w1) E2) as H2. cbn in H1, H2.
  destruct H1 as [_ [[? _]|(u & _ & Hu & Hle & -> & n & ->)]]; [lia|].
  destruct H2 as [_ [[Ht _]|[_ [m ->]]]]; [cbn in Ht; lia|].
  cbn. apply map_eq. intros k. destruct (decide (k = id)) as [->|Hk].
  - rewrite !lookup_alter_eq, Hu. cbn. f_equal. unfold credit. destruct u. cbn. f_equal; lia.
  - by rewrite !lookup_alter_ne.
Qed.

(** Deferring token updates to the batch updater does not change what
    a token is worth: with batching on or off, a decrease takes exactly its
    amount from that token's balance (column plus pending) and touches no
    other token, no wallet and no subscription; a failed one changes nothing. *)
Theorem token_charge_exact id key q w :
  batch_ok w -> is_Some (w_tokens w !! id) -> 0 <= q < 2 ^ 62 -> Z.abs (pending w BatchUpdateTypeTokenQuota id) < 2 ^ 62 ->
  match DecreaseTokenQuota id key q w with
  | (Ok _, w') =>
      token_balance w' id = token_balance w id - q /\ (forall k, k <> id -> token_balance w' k = token_balance w k) /\
      w_users w' = w_users w /\ w_subdb w' = w_subdb w
  | (Err _, w') => same_tables w w'
  end.
Proof.
  intros Hb Ht Hq Hp. assert (is_i64 q /\ is_i64 (pending w BatchUpdateTypeTokenQuota id - q)) as [? ?]
    by (unfold is_i64, min_i64, max_i64; lia).
  pose proof (DecreaseTokenQuota_spec id key q w Hb Ht ltac:(done) ltac:(done)) as Hs.
  destruct (DecreaseTokenQuota id key q w) as [[[]|e] w'] eqn:E; apply (wp_elim _ _ _ _ _ Hs) in E; [|done].
  destruct E as (Hbal & Hus & [Hsub _] & _ & Hother & _). split_and!; done.
Qed.

(** A flush of the batch updater that meets no database error
    writes exactly what was pending: afterwards every store is empty and the
    balance of every user and token whose row exists is what it was. *)
Theorem flush_preserves_balances w uid tid :
  (forall n, re_fault (reply_at n) = None) -> batch_ok w -> is_Some (w_users w !! uid) -> is_Some (w_tokens w !! tid) ->
  let w' := snd (batchUpdate w) in
  (forall t, (t < BatchUpdateTypeCount)%nat -> w_batch w' !! t = Some ∅) /\
  user_balance w' uid = user_balance w uid /\ token_balance w' tid = token_balance w tid.
Proof.
  intros Hf Hb Hu Ht. pose proof (batchUpdate_spec uid tid Hf w Hb (conj Hu Ht)) as (_ & ? & ? & ?). done.
Qed.
End Theorems.

(** ** Concrete worlds *)

Definition ok_reply : reply := mkReply None 1000 1000 1000 None None None.
(** A process without Redis; calls from number [n] to [m - 1] fail. *)
Definition local_process (batch : bool) (n m : nat) : Deployment :=
  {| RedisEnabled := false; BatchUpdateEnabled := batch; GetTrustQuota := 5000000; FormatQuota := pretty;
     reply_at := fun k => if (n <=? k)%nat && (k <? m)%nat
                          then mkReply (Some (ErrMsg "database is locked")) 1000 1000 1000 None None None else ok_reply |}.

Definition empty_subs : subDB := mkDB ∅ ∅ [] ∅ 1.
Definition one_user (quota reward : Z) (token : Z) (batch : list (gmap Z Z)) : world :=
  mkWorld {[1 := mkUser quota reward 0 0 0]} {[7 := mkToken 7 0 1 "sk" 1 0 (-1) token false 0 0]} ∅ empty_subs batch 0.
Definition no_batch : list (gmap Z Z) := replicate 7 ∅.

Lemma reward_is_spent_first_witness :
  fst (@DecreaseUserQuotaPreferReward (local_process false 0 0) 1 700 (one_user 1000 300 500 no_batch)) = Ok (mkBreakdown 700 300 400) /\
  wallet_ok (credit (-700) (-300) (mkUser 1000 300 0 0 0)).
Proof.
  pose proof (@reward_is_spent_first (local_process false 0 0) 1 700 (one_user 1000 300 500 no_batch)
                (mkUser 1000 300 0 0 0) eq_refl ltac:(unfold wallet_ok; cbn; lia)
                ltac:(unfold is_i64, min_i64, max_i64; lia) ltac:(lia)) as Ht.
  split; [vm_compute; reflexivity|]. destruct Ht as (_ & _ & _ & Ht). exact Ht.
Defined.

Lemma breakdown_refund_restores_witness :
  let D := local_process false 0 0 in let w := one_user 1000 300 500 no_batch in
  w_users (snd (@IncreaseUserQuotaByBreakdown D 1 700 300 (snd (@DecreaseUserQuotaPreferReward D 1 700 w)))) = w_users w.
Proof.
  cbn zeta. eapply (@breakdown_refund_restores (local_process false 0 0) 1 700 _ (mkBreakdown 700 300 400)).
  - lia.
  - unfold is_i64, min_i64, max_i64; lia.
  - intros u Hu. vm_compute in Hu. injection Hu as <-. unfold wallet_ok. cbn. lia.
  - vm_compute. reflexivity.
  - vm_compute. reflexivity.
Defined.

Lemma token_charge_exact_witness :
  token_balance (snd (@DecreaseTokenQuota (local_process true 0 0) 7 "sk" 200 (one_user 1000 300 500 no_batch))) 7 = 300.
Proof.
  pose proof (@token_charge_exact (local_process true 0 0) 7 "sk" 200 (one_user 1000 300 500 no_batch)) as Ht.
  destruct Ht as [Ht _]; [reflexivity | eexists; reflexivity | lia | reflexivity | exact Ht].
Defined.

Lemma flush_preserves_balances_witness :
  let w := snd (@DecreaseTokenQuota (local_process true 0 0) 7 "sk" 200 (one_user 1000 300 500 no_batch)) in
  token_balance (snd (@batchUpdate (local_process true 0 0) w)) 7 = 300.
Proof.
  cbn zeta. destruct (@flush_preserves_balances (local_process true 0 0)
    (snd (@DecreaseTokenQuota (local_process true 0 0) 7 "sk" 200 (one_user 1000 300 500 no_batch))) 1 7) as (_ & _ & Ht).
  - reflexivity.
  - reflexivity.
  - eexists; reflexivity.
  - eexists; reflexivity.
  - rewrite Ht. reflexivity.
Defined.

(** A flush that meets a database error loses what was pending: the
    store was already swapped out, the error is only logged, and nothing
    re-adds the entry.  A token charged 200 through the batch updater gets its
    200 back when the write fails. *)
Theorem failed_flush_drops_charge :
  let D := local_process true 0 1 in
  let w := one_user 1000 300 500 no_batch in
  let charged := snd (@DecreaseTokenQuota D 7 "sk" 200 w) in
  let after := snd (@batchUpdate D charged) in
  fst (@batchUpdate D charged) = Ok tt /\ token_balance charged 7 = 300 /\ token_balance after 7 = 500 /\
  pending after BatchUpdateTypeTokenQuota 7 = 0.
Proof. vm_compute. done. Qed.
