(* ===== verification/Funding.v ===== *)
(** * Funding sources

    [src/service/funding_source.go]: the interface a billing session charges
    against, and its two implementations, the wallet and the subscription.
    [FundingSource] is the interface; [FundingLaws] states what the session
    relies on, and each implementation proves it. *)

From stdpp Require Import base numbers list strings gmap.
From Stdlib Require Import ZArith Lia.
From S2P Require Import Prelude GoInt GoMonad GoString QuotaPolicy WindowBounds SubPlan SubUsage SubStore SubLedger Wallet.

Definition BillingSourceWallet : string := "wallet".
Definition BillingSourceSubscription : string := "subscription".

(** ** The interface *)

(** The source mutates itself and the world. *)
Class FundingSource (F : Type) := {
  Source : F -> string;
  PreConsume : Z -> GM (F * world) unit;
  Settle : Z -> GM (F * world) unit;
  Refund : GM (F * world) unit
}.

Definition on_world {F A} (m : GM world A) : GM (F * world) A := zoom snd (fun w s => (fst s, w)) m.
Definition set_funding {F} (f : F -> F) : GM (F * world) unit := modify (fun s => (f (fst s), snd s)).
Definition this {F} : GM (F * world) F := gets fst.

(** ** Wallet *)

Record WalletFunding := mkWF { wf_userId : Z; wf_consumed : Z; wf_rewardConsumed : Z; wf_paidConsumed : Z }.

Definition PaidConsumed (w : WalletFunding) : Z := wf_paidConsumed w.
Definition RewardConsumed (w : WalletFunding) : Z := wf_rewardConsumed w.

(** ** Subscription *)

Record SubscriptionFunding := mkSF {
  sf_requestId : string; sf_userId : Z; sf_modelName : string; sf_amount : Z;
  sf_subscriptionId : Z; sf_preConsumed : Z; sf_currentAmount : Z; sf_currentAmountInitialized : bool;
  sf_AmountTotal : Z; sf_AmountUsedAfter : Z; sf_PlanId : Z; sf_PlanTitle : string
}.

Definition set_current (a : Z) (s : SubscriptionFunding) : SubscriptionFunding :=
  mkSF (sf_requestId s) (sf_userId s) (sf_modelName s) (sf_amount s) (sf_subscriptionId s) (sf_preConsumed s)
    a true (sf_AmountTotal s) (sf_AmountUsedAfter s) (sf_PlanId s) (sf_PlanTitle s).
Definition set_reservation (res : SubscriptionPreConsumeResult) (s : SubscriptionFunding) : SubscriptionFunding :=
  mkSF (sf_requestId s) (sf_userId s) (sf_modelName s) (sf_amount s) (pc_UserSubscriptionId res) (pc_PreConsumed res)
    (pc_PreConsumed res) true (pc_AmountTotal res) (pc_AmountUsedAfter res) (sf_PlanId s) (sf_PlanTitle s).
Definition set_plan (id : Z) (title : string) (s : SubscriptionFunding) : SubscriptionFunding :=
  mkSF (sf_requestId s) (sf_userId s) (sf_modelName s) (sf_amount s) (sf_subscriptionId s) (sf_preConsumed s)
    (sf_currentAmount s) (sf_currentAmountInitialized s) (sf_AmountTotal s) (sf_AmountUsedAfter s) id title.

Section Sources.
Context `{Deployment} `{DBClock} `{LocalZone}.

(** A call of the subscription store, at the clocks of the reply. *)
Definition sub_call {A} (f : subDB -> Z -> Z -> result A * subDB) : GM world A :=
  db_call (fun r w => let '(a, db) := f (w_subdb w) (re_now r) (re_txnow r) in (a, set_subdb db w)).

Definition refundWithRetry (fn : GM world unit) : GM world unit := retry 3 fn (ErrMsg "").

(** *** Wallet methods *)

Definition wallet_charge (amount : Z) (assign : bool) : GM (WalletFunding * world) unit :=
  w ← this;
  b ← on_world (DecreaseUserQuotaPreferReward (wf_userId w) amount);
  set_funding (fun w => mkWF (wf_userId w) (if assign then amount else i64_add (wf_consumed w) amount)
                          (i64_add (wf_rewardConsumed w) (bd_RewardUsed b)) (i64_add (wf_paidConsumed w) (bd_PaidUsed b))).

Definition WalletFunding_PreConsume (amount : Z) : GM (WalletFunding * world) unit :=
  if amount <=? 0 then mret tt else wallet_charge amount true.

Definition WalletFunding_Settle (delta : Z) : GM (WalletFunding * world) unit :=
  if delta =? 0 then mret tt
  else if 0 <? delta then wallet_charge delta false
  else
    w ← this;
    let refundTotal := i64_neg delta in
    let paidRefund := if wf_paidConsumed w <? refundTotal then wf_paidConsumed w else refundTotal in
    let remainingRefund := i64_sub refundTotal paidRefund in
    let rewardRefund := if 0 <? remainingRefund
                        then if wf_rewardConsumed w <? remainingRefund then wf_rewardConsumed w else remainingRefund
                        else 0 in
    _ ← on_world (IncreaseUserQuotaByBreakdown (wf_userId w) (i64_add paidRefund rewardRefund) rewardRefund);
    set_funding (fun w => mkWF (wf_userId w) (i64_sub (wf_consumed w) (i64_add paidRefund rewardRefund))
                            (i64_sub (wf_rewardConsumed w) rewardRefund) (i64_sub (wf_paidConsumed w) paidRefund)).

Definition WalletFunding_Refund : GM (WalletFunding * world) unit :=
  w ← this;
  if wf_consumed w <=? 0 then mret tt
  else on_world (IncreaseUserQuotaByBreakdown (wf_userId w) (wf_consumed w) (wf_rewardConsumed w)).

#[export] Instance wallet_source : FundingSource WalletFunding := {|
  Source := fun _ => BillingSourceWallet;
  PreConsume := WalletFunding_PreConsume;
  Settle := WalletFunding_Settle;
  Refund := WalletFunding_Refund
|}.

(** *** Subscription methods *)

Definition GetSubscriptionPlanInfoByUserSubscriptionId (userSubscriptionId : Z) : GM world (Z * string) :=
  if userSubscriptionId <=? 0 then throw (ErrMsg "invalid userSubscriptionId")
  else
    r ← ask;
    match re_planInfo r, re_fault r with
    | Some cached, _ => mret cached
    | None, Some e => throw e
    | None, None =>
        db ← gets w_subdb;
        match db_subs db !! userSubscriptionId with
        | None => throw ErrRecordNotFound
        | Some sub =>
            plan ← lift (getSubscriptionPlanOrSnapshotTx (db_plans db) sub);
            match plan with
            | None => throw (ErrMsg "subscription plan is unavailable")
            | Some plan => mret (s_PlanId sub, p_Title plan)
            end
        end
    end.

(** The argument is ignored: the amount was fixed at construction. *)
Definition SubscriptionFunding_PreConsume (_ : Z) : GM (SubscriptionFunding * world) unit :=
  s ← this;
  res ← on_world (sub_call (fun db now txnow =>
          PreConsumeUserSubscription db now txnow (sf_requestId s) (sf_userId s) (sf_modelName s) 0 (sf_amount s)));
  _ ← set_funding (set_reservation res);
  info ← attempting (on_world (GetSubscriptionPlanInfoByUserSubscriptionId (pc_UserSubscriptionId res)));
  match info with
  | Ok (planId, planTitle) => set_funding (set_plan planId planTitle)
  | Err _ => mret tt
  end.

Definition SubscriptionFunding_Settle (delta : Z) : GM (SubscriptionFunding * world) unit :=
  s ← this;
  if negb (String.eqb (TrimSpace (sf_requestId s)) "") && (0 <? sf_preConsumed s) then
    _ ← (if sf_currentAmountInitialized s then mret tt else set_funding (fun s => set_current (sf_preConsumed s) s));
    s ← this;
    let actual := i64_add (sf_currentAmount s) delta in
    let actual := if actual <? 0 then 0 else actual in
    _ ← on_world (sub_call (fun db now txnow => SettleSubscriptionPreConsume db now txnow (sf_requestId s) actual));
    set_funding (set_current actual)
  else if delta =? 0 then mret tt
  else
    _ ← on_world (sub_call (fun db _ _ => PostConsumeUserSubscriptionDelta db (sf_subscriptionId s) delta));
    set_funding (fun s => let a := i64_add (sf_currentAmount s) delta in set_current (if a <? 0 then 0 else a) s).

Definition SubscriptionFunding_Refund : GM (SubscriptionFunding * world) unit :=
  s ← this;
  if sf_preConsumed s <=? 0 then mret tt
  else on_world (refundWithRetry (sub_call (fun db now txnow => RefundSubscriptionPreConsume db now txnow (sf_requestId s)))).

#[export] Instance subscription_source : FundingSource SubscriptionFunding := {|
  Source := fun _ => BillingSourceSubscription;
  PreConsume := SubscriptionFunding_PreConsume;
  Settle := SubscriptionFunding_Settle;
  Refund := SubscriptionFunding_Refund
|}.

(** *** A value of the interface: one of the two implementations *)

Inductive funding :=
  | FWallet (f : WalletFunding)
  | FSubscription (f : SubscriptionFunding).

Definition dispatch {A} (mw : GM (WalletFunding * world) A) (ms : GM (SubscriptionFunding * world) A)
  : GM (funding * world) A := fun '(f, w) =>
  match f with
  | FWallet f => let '(r, (f', w')) := mw (f, w) in (r, (FWallet f', w'))
  | FSubscription f => let '(r, (f', w')) := ms (f, w) in (r, (FSubscription f', w'))
  end.

#[export] Instance any_source : FundingSource funding := {|
  Source := fun f => match f with FWallet f => Source f | FSubscription f => Source f end;
  PreConsume := fun a => dispatch (PreConsume a) (PreConsume a);
  Settle := fun d => dispatch (Settle d) (Settle d);
  Refund := dispatch Refund Refund
|}.
End Sources.

(** ** What a session relies on

    Money is a pair: the total and, within it, the reward part. *)

Definition money : Type := Z * Z.
Definition madd (a b : money) : money := (fst a + fst b, snd a + snd b).

Lemma madd_assoc a b c : madd a (madd b c) = madd (madd a b) c.
Proof. unfold madd. cbn. f_equal; lia. Qed.
Lemma madd_comm a b : madd a b = madd b a.
Proof. unfold madd. f_equal; lia. Qed.
Lemma madd_zero a : madd a (0, 0) = a.
Proof. destruct a. unfold madd. cbn. f_equal; lia. Qed.

(** The tables of funding sources are as before: a token operation. *)
Definition funding_frame (w w' : world) : Prop :=
  w_users w' = w_users w /\ w_subdb w' = w_subdb w /\
  forall k, pending w' BatchUpdateTypeUserQuota k = pending w BatchUpdateTypeUserQuota k.

Lemma same_tables_frame w w' : same_tables w w' -> funding_frame w w'.
Proof. by intros [n ->]. Qed.
Lemma funding_frame_refl w : funding_frame w w.
Proof. done. Qed.
Lemma funding_frame_trans w1 w2 w3 : funding_frame w1 w2 -> funding_frame w2 w3 -> funding_frame w1 w3.
Proof. intros (E1 & E2 & E3) (F1 & F2 & F3). split_and!; [congruence | congruence |]. intros k. by rewrite F3. Qed.
Lemma token_moved_frame id d w w' : token_moved id d w w' -> funding_frame w w'.
Proof. by intros (_ & ? & [? _] & _ & _ & ? & _). Qed.
(** The tables of tokens are as before: a funding operation. *)
Definition token_frame (w w' : world) : Prop := w_tokens w' = w_tokens w /\ w_batch w' = w_batch w.

Class FundingLaws (F : Type) `{FundingSource F} := {
  account : F -> world -> money;         (* what is left where the source draws from *)
  reserved : F -> money;                 (* what it holds for this request *)
  funding_ok : F -> world -> Prop;
  law_reserved : forall f w, funding_ok f w -> 0 <= fst (reserved f) <= max_i64;
  law_frame : forall f w w', funding_frame w w' -> account f w' = account f w /\ (funding_ok f w -> funding_ok f w');
  (** A settlement moves exactly its delta between account and reservation, or fails without effect. *)
  law_settle : forall f w d, funding_ok f w -> is_i64 d -> 0 <= fst (reserved f) + d <= max_i64 ->
    wp (Settle d) (f, w) (fun r '(f', w') =>
      token_frame w w' /\ Source f' = Source f /\ funding_ok f' w' /\
      madd (account f' w') (reserved f') = madd (account f w) (reserved f) /\
      match r with Ok _ => fst (reserved f') = fst (reserved f) + d | Err _ => reserved f' = reserved f end);
  (** A refund returns exactly the reservation, or fails without effect. *)
  law_refund : forall f w, funding_ok f w ->
    wp Refund (f, w) (fun r '(f', w') =>
      token_frame w w' /\ f' = f /\
      match r with
      | Ok _ => account f w' = madd (account f w) (reserved f)
      | Err _ => account f w' = account f w /\ funding_ok f w'
      end)
}.

(** ** The wallet keeps the laws *)

Definition wallet_account (f : WalletFunding) (w : world) : money :=
  (user_balance w (wf_userId f), default 0 (u_RewardQuota <$> w_users w !! wf_userId f)).
Definition wallet_reserved (f : WalletFunding) : money := (wf_consumed f, wf_rewardConsumed f).
Definition wallet_funding_ok (f : WalletFunding) (w : world) : Prop :=
  is_Some (w_users w !! wf_userId f) /\ wf_consumed f = wf_rewardConsumed f + wf_paidConsumed f /\
  0 <= wf_rewardConsumed f /\ 0 <= wf_paidConsumed f /\ wf_consumed f <= max_i64.

Lemma wallet_moved_account f w w' dq dr :
  is_Some (w_users w !! wf_userId f) -> wallet_moved (wf_userId f) dq dr w w' ->
  wallet_account f w' = madd (wallet_account f w) (dq, dr) /\ is_Some (w_users w' !! wf_userId f) /\ token_frame w w'.
Proof.
  intros [u Hu] [n ->]. unfold wallet_account, user_balance, pending, madd, token_frame. cbn.
  rewrite lookup_alter_eq, Hu. cbn. split_and!; try done. f_equal; lia.
Qed.

Lemma wallet_account_user f f' w : wf_userId f = wf_userId f' -> wallet_account f w = wallet_account f' w.
Proof. unfold wallet_account. by intros ->. Qed.

Lemma same_tables_wallet f w w' :
  same_tables w w' -> wallet_account f w' = wallet_account f w /\ token_frame w w' /\ (wallet_funding_ok f w -> wallet_funding_ok f w').
Proof. by intros [n ->]. Qed.

(** Whatever the row, the reward part of a debit is within it. *)
Lemma reward_first_bounds u q :
  0 <= q -> is_i64 q ->
  0 <= bd_RewardUsed (reward_first u q) <= q /\ bd_PaidUsed (reward_first u q) = q - bd_RewardUsed (reward_first u q).
Proof.
  intros H0 Hq. unfold reward_first. cbn.
  set (r := if q <? _ then q else _). assert (0 <= r <= q).
  { subst r. repeat match goal with |- context [?a <? ?b] => destruct (Z.ltb_spec a b) end; lia. }
  split; [done|]. unfold i64_sub. rewrite wrap64_id; [done|]. unfold is_i64, min_i64, max_i64 in *. lia.
Qed.

Lemma i64_neg_id a : is_i64 (- a) -> i64_neg a = - a.
Proof. apply wrap64_id. Qed.

(** Integer goals about [int64] ranges. *)
Ltac i64 := unfold is_i64, min_i64, max_i64 in *; lia.

Section WalletLaws.
Context `{Deployment}.

Lemma wallet_charge_spec f w a assign :
  wallet_funding_ok f w -> 0 < a -> wf_consumed f + a <= max_i64 -> (assign = true -> wf_consumed f = 0) ->
  wp (wallet_charge a assign) (f, w) (fun r '(f', w') =>
    token_frame w w' /\ wallet_funding_ok f' w' /\
    madd (wallet_account f' w') (wallet_reserved f') = madd (wallet_account f w) (wallet_reserved f) /\
    match r with
    | Ok _ => wf_consumed f' = wf_consumed f + a /\ w_subdb w' = w_subdb w /\ wf_userId f' = wf_userId f
    | Err _ => f' = f /\ same_tables w w'
    end).
Proof.
  intros (Hu & Hc & Hr & Hp & Hm) Ha Hle Has. unfold wallet_charge. apply wp_bind, wp_gets, wp_bind, wp_zoom.
  eapply wp_mono; [apply DecreasePreferReward_spec|]. cbn. intros [b|e] w' Hs.
  - destruct Hs as [_ [[? _]|(u & _ & Hu' & Hq & -> & Hmv)]]; [lia|]. apply wp_modify. cbn [fst snd].
    destruct (reward_first_bounds u a) as [Hb1 Hb2]; [lia | i64|].
    destruct (wallet_moved_account f w w' _ _ Hu Hmv) as (Hacc & Hu2 & Hfr). rewrite Hb2, !i64_add_id by i64.
    replace (if assign then a else wf_consumed f + a) with (wf_consumed f + a) by (destruct assign; [rewrite Has by done|]; lia).
    assert (Hsub : w_subdb w' = w_subdb w) by (by destruct Hmv as [n ->]).
    clear Hb2 Hmv. remember (bd_RewardUsed (reward_first u a)) as ru eqn:Eru. clear Eru.
    split_and!; [done | unfold wallet_funding_ok; cbn; split_and!; try done; lia | | cbn; lia | done | done].
    rewrite (wallet_account_user _ f), Hacc by done. unfold madd, wallet_reserved. cbn. f_equal; lia.
  - destruct (same_tables_wallet f w w' Hs) as (Hacc & Hfr & Hok). rewrite Hacc. split_and!; try done. apply Hok. done.
Qed.

Lemma wallet_settle_spec f w d :
  wallet_funding_ok f w -> is_i64 d -> 0 <= wf_consumed f + d <= max_i64 ->
  wp (WalletFunding_Settle d) (f, w) (fun r '(f', w') =>
    token_frame w w' /\ wallet_funding_ok f' w' /\
    madd (wallet_account f' w') (wallet_reserved f') = madd (wallet_account f w) (wallet_reserved f) /\
    match r with Ok _ => wf_consumed f' = wf_consumed f + d | Err _ => f' = f end).
Proof.
  intros Hok Hd Hb. unfold WalletFunding_Settle. destruct (Z.eqb_spec d 0) as [->|Hn].
  { apply wp_ret. split_and!; try done. lia. }
  destruct (Z.ltb_spec 0 d).
  { eapply wp_mono; [apply wallet_charge_spec; [done | lia | lia | done]|]. intros [r|e] [f' w'] (? & ? & ? & ? & _); by split_and!. }
  destruct Hok as (Hu & Hc & Hr & Hp & Hm). apply wp_bind, wp_gets. cbn [fst]. rewrite i64_neg_id by i64.
  set (paid := if wf_paidConsumed f <? - d then wf_paidConsumed f else - d).
  assert (Hpd : paid = Z.min (wf_paidConsumed f) (- d)) by (subst paid; goal_if; lia). clearbody paid.
  rewrite (i64_sub_id (- d)) by i64. set (rew := if 0 <? - d - paid then _ else 0).
  assert (Hrw : rew = - d - paid).
  { subst rew. destruct (Z.ltb_spec 0 (- d - paid)); [destruct (Z.ltb_spec (wf_rewardConsumed f) (- d - paid))|]; lia. }
  clearbody rew. rewrite (i64_add_id paid) by i64. apply wp_bind, wp_zoom.
  eapply wp_mono; [apply IncreaseByBreakdown_spec|]. cbn. intros [[]|e] w' Hs.
  - destruct Hs as [_ [[? _]|[_ Hmv]]]; [lia|]. apply wp_modify. cbn [fst snd].
    destruct (wallet_moved_account f w w' _ _ Hu Hmv) as (Hacc & Hu2 & Hfr). rewrite !i64_sub_id by i64.
    split_and!; [done | unfold wallet_funding_ok; cbn; split_and!; try done; lia | | cbn; lia].
    rewrite (wallet_account_user _ f), Hacc by done. unfold madd, wallet_reserved. cbn. f_equal; lia.
  - destruct (same_tables_wallet f w w' Hs) as (Hacc & Hfr & Hok). rewrite Hacc. split_and!; try done. by apply Hok.
Qed.

Lemma wallet_refund_spec f w :
  wallet_funding_ok f w ->
  wp WalletFunding_Refund (f, w) (fun r '(f', w') =>
    token_frame w w' /\ f' = f /\
    match r with
    | Ok _ => wallet_account f w' = madd (wallet_account f w) (wallet_reserved f)
    | Err _ => wallet_account f w' = wallet_account f w /\ wallet_funding_ok f w'
    end).
Proof.
  intros Hok. pose proof Hok as (Hu & Hc & Hr & Hp & Hm). unfold WalletFunding_Refund. apply wp_bind, wp_gets. cbn [fst].
  destruct (Z.leb_spec (wf_consumed f) 0).
  { apply wp_ret. split_and!; try done. unfold wallet_reserved. assert (wf_consumed f = 0) as -> by lia.
    assert (wf_rewardConsumed f = 0) as -> by lia. by rewrite madd_zero. }
  apply wp_zoom. eapply wp_mono; [apply IncreaseByBreakdown_spec|]. cbn. intros [[]|e] w' Hs.
  - destruct Hs as [_ [[? _]|[_ Hmv]]]; [lia|]. by destruct (wallet_moved_account f w w' _ _ Hu Hmv) as (Hacc & _ & Hfr).
  - destruct (same_tables_wallet f w w' Hs) as (Hacc & Hfr & Hk). auto 6.
Qed.

#[export] Instance wallet_laws `{DBClock} `{LocalZone} : FundingLaws WalletFunding.
Proof.
  refine (Build_FundingLaws _ _ wallet_account wallet_reserved wallet_funding_ok _ _ _ _).
  - intros f w (Hu & Hc & Hr & Hp & Hm). unfold wallet_reserved. cbn. lia.
  - intros f w w' (Hu & _ & Hp). unfold wallet_account, user_balance, wallet_funding_ok. by rewrite Hu, Hp.
  - intros f w d Hok Hd Hb. eapply wp_mono; [by apply wallet_settle_spec|]. intros r [f' w'] (? & ? & ? & ?).
    split_and!; try done. destruct r; [done | by subst].
  - apply wallet_refund_spec.
Defined.
End WalletLaws.

(** ** The subscription keeps the laws *)

(** The database clock never reads zero. *)
Class ClockOk `{Deployment} : Prop := clock_nonzero : forall n, re_now (reply_at n) <> 0.

Definition sub_account (f : SubscriptionFunding) (w : world) : money :=
  (default 0 (Z.opp ∘ eff <$> find_record (w_subdb w) (sf_requestId f)), 0).
Definition sub_reserved (f : SubscriptionFunding) : money := (sf_currentAmount f, 0).
Definition sub_funding_ok (f : SubscriptionFunding) (w : world) : Prop :=
  TrimSpace (sf_requestId f) <> "" /\ 0 < sf_preConsumed f /\ sf_currentAmountInitialized f = true /\
  0 <= sf_currentAmount f <= max_i64 /\ unique_records (w_subdb w) /\
  exists r, find_record (w_subdb w) (sf_requestId f) = Some r /\ r_Status r <> "refunded" /\ eff r = sf_currentAmount f.

Section SubscriptionLaws.
Context `{Deployment} `{DBClock} `{LocalZone} `{!ClockOk}.

Lemma wp_sub_call {A} (f : subDB -> Z -> Z -> result A * subDB) w Q :
  (forall e w', same_tables w w' -> Q (Err e) w') ->
  (forall now txnow w', now <> 0 -> same_tables w w' ->
     Q (fst (f (w_subdb w) now txnow)) (set_subdb (snd (f (w_subdb w) now txnow)) w')) ->
  wp (sub_call f) w Q.
Proof.
  intros He Ho. unfold sub_call, db_call. apply wp_bind. unfold ask, wp at 1. cbn.
  assert (Hs : same_tables w (set_calls (Datatypes.S (w_calls w)) w)) by by eexists.
  destruct (re_fault (reply_at (w_calls w))) eqn:Ef; [by apply He|].
  pose proof (Ho (re_now (reply_at (w_calls w))) (re_txnow (reply_at (w_calls w))) _ (clock_nonzero _) Hs) as Hq.
  unfold wp. cbn. by destruct (f (w_subdb w) _ _).
Qed.

(** The outcome of a transaction that settles to [a], as the funding sees it. *)
Lemma settle_outcome f w w' a now txnow :
  sub_funding_ok f w -> same_tables w w' -> now <> 0 -> 0 <= a <= max_i64 ->
  let '(r, db) := SettleSubscriptionPreConsume (w_subdb w) now txnow (sf_requestId f) a in
  match r with
  | Ok _ => sub_funding_ok (set_current a f) (set_subdb db w') /\ sub_account f (set_subdb db w') = (- a, 0)
  | Err _ => db = w_subdb w
  end.
Proof.
  intros (Hrid & Hpre & _ & _ & Hu & _) [n ->] Hn Ha.
  destruct (SettleSubscriptionPreConsume _ _ _ _ _) as [[[]|e] db] eqn:E; unfold SettleSubscriptionPreConsume in E.
  - rewrite (proj2 (String.eqb_neq _ _) Hrid), (proj2 (Z.ltb_ge a 0)) in E by lia. unfold transaction in E.
    destruct (settle_tx _ _ _ _ _) as [[[] d]|] eqn:Es; [|done]. simplify_eq.
    destruct (settled_record _ _ _ _ _ _ Hu Hn (proj1 Ha) Es) as (r & Hf & He & _ & _ & Hnr & Hu').
    unfold sub_account. cbn. rewrite Hf. cbn. rewrite He. split; [|done]. unfold sub_funding_ok. cbn.
    split_and!; try done; try lia. by exists r.
  - destruct (String.eqb _ _) in E; [by simplify_eq|]. destruct (a <? 0) in E; [by simplify_eq|]. unfold transaction in E.
    destruct (settle_tx _ _ _ _ _) as [[? ?]|]; by simplify_eq.
Qed.

Lemma same_tables_sub f w w' :
  same_tables w w' -> sub_account f w' = sub_account f w /\ token_frame w w' /\ (sub_funding_ok f w -> sub_funding_ok f w').
Proof. by intros [n ->]. Qed.

Lemma set_subdb_same w w' : same_tables w w' -> same_tables w (set_subdb (w_subdb w) w').
Proof. intros [n ->]. exists n. done. Qed.

Lemma sub_account_ok f w : sub_funding_ok f w -> sub_account f w = (- sf_currentAmount f, 0).
Proof. intros (_ & _ & _ & _ & _ & r & Hf & _ & He). unfold sub_account. rewrite Hf. cbn. by rewrite He. Qed.

Lemma sub_settle_spec f w d :
  sub_funding_ok f w -> is_i64 d -> 0 <= sf_currentAmount f + d <= max_i64 ->
  wp (SubscriptionFunding_Settle d) (f, w) (fun r '(f', w') =>
    token_frame w w' /\ sub_funding_ok f' w' /\
    madd (sub_account f' w') (sub_reserved f') = madd (sub_account f w) (sub_reserved f) /\
    match r with Ok _ => f' = set_current (sf_currentAmount f + d) f | Err _ => f' = f end).
Proof.
  intros Hok Hd Hb. pose proof Hok as (Hrid & Hpre & Hi & Hc & Hu & Hrec). unfold SubscriptionFunding_Settle.
  apply wp_bind, wp_gets. cbn [fst]. rewrite (proj2 (String.eqb_neq _ _) Hrid), (proj2 (Z.ltb_lt _ _) Hpre). cbn [negb andb].
  apply wp_bind. rewrite Hi. apply wp_ret, wp_bind, wp_gets. cbn [fst]. rewrite i64_add_id by i64.
  rewrite (proj2 (Z.ltb_ge _ 0)) by lia. set (a := sf_currentAmount f + d) in *.
  apply wp_bind, wp_zoom. cbn [snd fst]. apply wp_sub_call.
  - intros e w' Hs. destruct (same_tables_sub f w w' Hs) as (-> & ? & Hk). auto.
  - intros now txnow w' Hn Hs. pose proof (settle_outcome f w w' a now txnow Hok Hs Hn Hb) as Ho.
    destruct (SettleSubscriptionPreConsume _ _ _ _ _) as [[[]|e] db]; cbn [fst snd].
    + destruct Ho as [Hok' Hacc]. apply wp_modify. cbn [fst snd]. split_and!; [by destruct Hs as [n ->] | done | | done].
      rewrite (sub_account_ok f w Hok). change (sub_account (set_current a f) (set_subdb db w')) with (sub_account f (set_subdb db w')).
      rewrite Hacc. unfold madd, sub_reserved. cbn. f_equal; lia.
    + rewrite Ho. destruct (same_tables_sub f w _ (set_subdb_same w w' Hs)) as (-> & ? & Hk). auto.
Qed.

Lemma sub_refund_spec f w :
  sub_funding_ok f w ->
  wp SubscriptionFunding_Refund (f, w) (fun r '(f', w') =>
    token_frame w w' /\ f' = f /\
    match r with
    | Ok _ => sub_account f w' = madd (sub_account f w) (sub_reserved f)
    | Err _ => sub_account f w' = sub_account f w /\ sub_funding_ok f w'
    end).
Proof.
  intros Hok. pose proof Hok as (Hrid & Hpre & Hi & Hc & Hu & r0 & Hr0 & Hnr & He0). unfold SubscriptionFunding_Refund.
  apply wp_bind, wp_gets. cbn [fst]. rewrite (proj2 (Z.leb_gt _ _) Hpre). apply wp_zoom. cbn [snd].
  eapply wp_mono; [unfold refundWithRetry; apply (wp_retry _ _ _ (same_tables w)
    (fun _ w' => token_frame w w' /\ sub_account f w' = (0, 0)))|].
  - intros w1 Hs1. apply wp_sub_call; [intros e w' [n ->]; destruct Hs1 as [m ->]; by exists n|].
    assert (Hdb : w_subdb w1 = w_subdb w) by by destruct Hs1 as [m ->]. rewrite Hdb. intros now txnow w' Hn Hs.
    assert (Hs' : same_tables w w') by (destruct Hs as [n ->]; destruct Hs1 as [m ->]; by exists n).
    unfold RefundSubscriptionPreConsume. rewrite (proj2 (String.eqb_neq _ _) Hrid). unfold transaction.
    destruct (refundSubscriptionPreConsumeTx _ _ _ _) as [[[] db]|e] eqn:E; cbn [fst snd]; [|by apply set_subdb_same].
    destruct (refunded_record _ _ _ _ _ Hu E) as (r & Hf & Hst & [->|He]); [congruence|].
    split; [by destruct Hs' as [n ->]|]. unfold sub_account. cbn. rewrite Hf. cbn. by rewrite He.
  - apply same_tables_refl.
  - intros [[]|e] w'; cbn [fst].
    + intros [? ->]. rewrite (sub_account_ok f w Hok). unfold madd, sub_reserved. cbn. split_and!; [done | done | f_equal; lia].
    + intros Hs. destruct (same_tables_sub f w w' Hs) as (-> & ? & Hk). auto 6.
Qed.

#[export] Instance subscription_laws : FundingLaws SubscriptionFunding.
Proof.
  refine (Build_FundingLaws _ _ sub_account sub_reserved sub_funding_ok _ _ _ _).
  - intros f w (_ & _ & _ & Hc & _). done.
  - intros f w w' (_ & Hs & _). unfold sub_account, sub_funding_ok. by rewrite Hs.
  - intros f w d Hok Hd Hb. eapply wp_mono; [by apply sub_settle_spec|]. intros r [f' w'] (? & ? & ? & ?).
    split_and!; try done. destruct r; by subst.
  - apply sub_refund_spec.
Defined.

(** ** The interface value keeps them too *)

Lemma wp_dispatch {A} (mw : GM (WalletFunding * world) A) ms f w (Q : result A -> funding * world -> Prop) :
  match f with
  | FWallet x => wp mw (x, w) (fun r '(x', w') => Q r (FWallet x', w'))
  | FSubscription x => wp ms (x, w) (fun r '(x', w') => Q r (FSubscription x', w'))
  end -> wp (dispatch mw ms) (f, w) Q.
Proof.
  unfold wp. destruct f as [x|x]; cbn; [destruct (mw (x, w)) as [r [x' w']] | destruct (ms (x, w)) as [r [x' w']]]; done.
Qed.

Definition any_account (f : funding) : world -> money :=
  match f with FWallet x => account x | FSubscription x => account x end.
Definition any_reserved (f : funding) : money :=
  match f with FWallet x => reserved x | FSubscription x => reserved x end.
Definition any_ok (f : funding) : world -> Prop :=
  match f with FWallet x => funding_ok x | FSubscription x => funding_ok x end.

#[export] Instance any_laws : FundingLaws funding.
Proof.
  refine (Build_FundingLaws _ _ any_account any_reserved any_ok _ _ _ _).
  - intros [x|x] w; apply law_reserved.
  - intros [x|x] w w'; apply (law_frame x).
  - intros [x|x] w d Hok Hd Hb; apply wp_dispatch; (eapply wp_mono; [by apply law_settle|]); intros r [x' w']; done.
  - intros [x|x] w Hok; apply wp_dispatch; (eapply wp_mono; [by apply law_refund|]); intros r [x' w'] (? & -> & ?); done.
Defined.
End SubscriptionLaws.

(** ** Reserving

    What the session relies on when it opens: a fresh source reserves exactly
    the amount, or fails without effect. *)

Class ReservationLaws (F : Type) `{FundingLaws F} := {
  fresh : F -> Z -> world -> Prop;
  elsewhere : F -> world -> world -> Prop;   (* the tables of the other sources are the same *)
  law_elsewhere : forall f w0 w w' w'', funding_frame w0 w -> elsewhere f w w' -> funding_frame w' w'' -> elsewhere f w0 w'';
  law_fresh_frame : forall f a w w', funding_frame w w' -> fresh f a w -> fresh f a w';
  law_reserve : forall f a w, fresh f a w ->
    wp (PreConsume a) (f, w) (fun r '(f', w') =>
      token_frame w w' /\ Source f' = Source f /\
      match r with
      | Ok _ => funding_ok f' w' /\ fst (reserved f') = a /\ madd (account f' w') (reserved f') = account f w /\
          elsewhere f w w' /\ (forall w0, account f' w0 = account f w0)
      | Err _ => f' = f /\ same_tables w w'
      end)
}.

Definition wallet_fresh (f : WalletFunding) (a : Z) (w : world) : Prop :=
  is_Some (w_users w !! wf_userId f) /\ wf_consumed f = 0 /\ wf_rewardConsumed f = 0 /\ wf_paidConsumed f = 0 /\ 0 <= a <= max_i64.

(** The next record id is unused. *)
Definition ids_below (db : subDB) : Prop := Forall (fun r => r_Id r < db_nextRecord db) (db_records db).

Definition sub_fresh (f : SubscriptionFunding) (a : Z) (w : world) : Prop :=
  TrimSpace (sf_requestId f) <> "" /\ sf_amount f = a /\ 0 < a <= max_i64 /\
  unique_records (w_subdb w) /\ ids_below (w_subdb w) /\ find_record (w_subdb w) (sf_requestId f) = None.

Section Reserving.
Context `{Deployment} `{DBClock} `{LocalZone} `{!ClockOk}.

Lemma wallet_reserve_spec f a w :
  wallet_fresh f a w ->
  wp (WalletFunding_PreConsume a) (f, w) (fun r '(f', w') =>
    token_frame w w' /\
    match r with
    | Ok _ => wallet_funding_ok f' w' /\ wf_consumed f' = a /\
        madd (wallet_account f' w') (wallet_reserved f') = wallet_account f w /\ w_subdb w' = w_subdb w /\ wf_userId f' = wf_userId f
    | Err _ => f' = f /\ same_tables w w'
    end).
Proof.
  intros (Hu & Ec & Er & Ep & Ha). unfold WalletFunding_PreConsume.
  assert (Hok : wallet_funding_ok f w) by (unfold wallet_funding_ok; rewrite Ec, Er, Ep; split_and!; try done; i64).
  assert (Hz : madd (wallet_account f w) (wallet_reserved f) = wallet_account f w)
    by (unfold wallet_reserved; rewrite Ec, Er; apply madd_zero).
  destruct (Z.leb_spec a 0); [apply wp_ret; split_and!; try done; lia|].
  eapply wp_mono; [apply wallet_charge_spec; [done | lia | lia | done]|]. cbn zeta.
  intros r [f' w'] (Hfr & Hok' & Hcons & Hr). split; [done|]. rewrite Hz in Hcons. destruct r; [|done].
  destruct Hr as (? & ? & ?). split_and!; [done | lia | done | done | done].
Qed.

(** *** A new record *)

Section NewRecord.
Variables (now txnow userId quotaType amount : Z) (rid model : string).

(** The table after the reservation. *)
Definition extended (db db' : subDB) : Prop := exists subId,
  db_records db' = db_records db ++
    [mkRecord (db_nextRecord db) rid userId subId model quotaType amount (Some amount) now "consumed" txnow txnow].

Lemma populate_amount db subId pre total before after sub policy t res :
  populatePreConsumeResultTx db txnow subId pre total before after sub policy t = Ok res -> pc_PreConsumed res = pre.
Proof.
  unfold populatePreConsumeResultTx. intros Hr. apply bind_Ok_inv in Hr as (? & _ & Hr).
  apply bind_Ok_inv in Hr as (? & _ & Hr). by simplify_eq.
Qed.

Lemma try_subscription_fresh db sub plan att :
  find_record db rid = None -> try_subscription db now txnow rid userId model quotaType amount sub plan = Ok att ->
  match att with
  | Skip db' => db_records db' = db_records db /\ db_nextRecord db' = db_nextRecord db
  | Done res db' => pc_PreConsumed res = amount /\ extended db db'
  end.
Proof.
  intros Hf Hok. unfold try_subscription in Hok. apply bind_Ok_inv in Hok as (sub' & _ & Hok). cbn zeta in Hok.
  destruct (po_invalid _) in Hok; [done|]. destruct (_ && _) in Hok; [done|].
  match type of Hok with context [if ?b then set_amount_used ?x ?y else ?z] =>
    set (s2 := if b then set_amount_used x y else z) in Hok end. clearbody s2.
  destruct (_ && _) in Hok; [by simplify_eq|]. apply bind_Ok_inv in Hok as (av & _ & Hok).
  destruct (negb av) in Hok; [by simplify_eq|]. apply bind_Ok_inv in Hok as (fo & _ & Hok).
  destruct (negb fo) in Hok; [by simplify_eq|]. rewrite find_save_sub, Hf in Hok.
  apply bind_Ok_inv in Hok as ([s3 db3] & H3 & Hok). apply bind_Ok_inv in Hok as (res & Hres & Hok). simplify_eq.
  split; [by eapply populate_amount|]. exists (s_Id s2).
  destruct (policyTracksAggregate _) in H3; [destruct (subscriptionSafeAddInt64 _ _) as [nu []]; [|done]|]; by simplify_eq.
Qed.

Lemma try_subscriptions_fresh subs : forall db res db',
  find_record db rid = None -> try_subscriptions db now txnow rid userId model quotaType amount subs = Ok (res, db') ->
  pc_PreConsumed res = amount /\ extended db db'.
Proof.
  induction subs as [|sub subs IH]; intros db res db' Hf Hok; cbn [try_subscriptions] in Hok; [done|].
  destruct (getSubscriptionPlanOrSnapshotTx _ _) as [[plan|]|[|]]; [|by apply IH|by apply IH|done].
  destruct (_ || _) in Hok; [by apply IH|]. apply bind_Ok_inv in Hok as (att & Ha & Hok).
  apply try_subscription_fresh in Ha; [|done]. destruct att as [d|r d]; [|by simplify_eq].
  destruct Ha as [Er En]. apply IH in Hok as [E1 (subId & E2)]; [|unfold find_record in *; by rewrite Er].
  split; [done|]. exists subId. by rewrite E2, Er, En.
Qed.
End NewRecord.

Lemma find_app_new l r rid :
  List.find (fun x => String.eqb (r_RequestId x) rid) l = None -> r_RequestId r = rid ->
  List.find (fun x => String.eqb (r_RequestId x) rid) (l ++ [r]) = Some r.
Proof.
  induction l as [|x l IH]; cbn; intros Hn Hr; [by rewrite Hr, String.eqb_refl|].
  destruct (String.eqb _ _); [done | by apply IH].
Qed.

Lemma find_none_request l rid :
  List.find (fun x => String.eqb (r_RequestId x) rid) l = None -> rid ∉ map r_RequestId l.
Proof.
  intros Hn [r [-> Hr]]%list_elem_of_fmap. apply list_elem_of_In in Hr. pose proof (List.find_none _ _ Hn r Hr) as Hx. cbn in Hx.
  by rewrite String.eqb_refl in Hx.
Qed.

Lemma extended_record db db' now txnow uid qt a rid m :
  unique_records db -> ids_below db -> find_record db rid = None -> extended now txnow uid qt a rid m db db' ->
  unique_records db' /\ exists r, find_record db' rid = Some r /\ r_Status r = "consumed" /\ eff r = (if a <? 0 then 0 else a).
Proof.
  intros [Hid Hreq] Hb Hf (subId & E). unfold unique_records, find_record in *. rewrite E. split.
  - rewrite !map_app. cbn. split; apply NoDup_app; (split; [done|split; [|apply NoDup_singleton]]).
    + intros x [r [-> Hr]]%list_elem_of_fmap Hx%list_elem_of_singleton. unfold ids_below in Hb. rewrite Forall_forall in Hb.
      specialize (Hb r Hr). lia.
    + intros x Hx Hy%list_elem_of_singleton. subst x. by apply find_none_request in Hf.
  - eexists. split; [by apply find_app_new|]. split; [done|]. unfold eff. cbn. done.
Qed.

Lemma pre_consume_outcome f a w now txnow :
  sub_fresh f a w ->
  let '(r, db) := PreConsumeUserSubscription (w_subdb w) now txnow (sf_requestId f) (sf_userId f) (sf_modelName f) 0 (sf_amount f) in
  match r with
  | Ok res => pc_PreConsumed res = a /\ unique_records db /\
      exists r, find_record db (sf_requestId f) = Some r /\ r_Status r <> "refunded" /\ eff r = a
  | Err _ => db = w_subdb w
  end.
Proof.
  intros (Hrid & Hamt & Ha & Hu & Hb & Hf). unfold PreConsumeUserSubscription. goal_if; [done|]. goal_if; [done|].
  goal_if; [done|]. unfold transaction, pre_consume_tx. rewrite Hf. unfold getUserProviderIdByIdTx. rewrite E. cbn [mbind result_bind].
  destruct (active_subs _ _ _ _) as [|s0 subs]; [done|].
  destruct (try_subscriptions _ _ _ _ _ _ _ _ _) as [[res db]|e] eqn:Et; [|done].
  destruct (try_subscriptions_fresh _ _ _ _ _ _ _ _ _ _ _ Hf Et) as [Hp Hx]. split; [congruence|].
  destruct (extended_record _ _ _ _ _ _ _ _ _ Hu Hb Hf Hx) as (Hu' & r & Hr & Hs & He). split; [done|]. exists r.
  rewrite Hs, He, Hamt. split_and!; [done | done | goal_if; lia].
Qed.

Lemma plan_info_same id w : wp (GetSubscriptionPlanInfoByUserSubscriptionId id) w (fun _ w' => same_tables w w').
Proof.
  unfold GetSubscriptionPlanInfoByUserSubscriptionId. goal_if; [apply wp_throw, same_tables_refl|].
  apply wp_bind. unfold ask, wp at 1. cbn. set (w1 := set_calls _ w). assert (Hs : same_tables w w1) by by eexists.
  destruct (re_planInfo _); [by apply wp_ret|]. destruct (re_fault _); [by apply wp_throw|]. apply wp_bind, wp_gets.
  destruct (db_subs _ !! id); [|by apply wp_throw]. apply wp_bind. unfold lift, wp at 1. cbn.
  destruct (getSubscriptionPlanOrSnapshotTx _ _) as [[plan|]|]; cbn; [by apply wp_ret | by apply wp_throw | done].
Qed.

Lemma sub_reserve_spec f a w :
  sub_fresh f a w ->
  wp (SubscriptionFunding_PreConsume a) (f, w) (fun r '(f', w') =>
    token_frame w w' /\
    match r with
    | Ok _ => sub_funding_ok f' w' /\ sf_currentAmount f' = a /\
        madd (sub_account f' w') (sub_reserved f') = sub_account f w /\ w_users w' = w_users w /\ sf_requestId f' = sf_requestId f
    | Err _ => f' = f /\ same_tables w w'
    end).
Proof.
  intros Hfr. pose proof Hfr as (Hrid & Hamt & Ha & Hu & Hb & Hf). unfold SubscriptionFunding_PreConsume.
  apply wp_bind, wp_gets, wp_bind, wp_zoom. cbn [fst snd]. apply wp_sub_call.
  { intros e w' Hs. destruct (same_tables_sub f w w' Hs) as (_ & ? & _). done. }
  intros now txnow w' Hn Hs. pose proof (pre_consume_outcome f a w now txnow Hfr) as Ho.
  destruct (PreConsumeUserSubscription _ _ _ _ _ _ _ _) as [[res|e] db]; cbn [fst snd].
  2: { rewrite Ho. pose proof (set_subdb_same w w' Hs) as Hs2. destruct (same_tables_sub f w _ Hs2) as (_ & ? & _). done. }
  destruct Ho as (Hpre & Hu' & r & Hr & Hst & He). apply wp_bind, wp_modify. cbn [fst snd].
  apply wp_bind, wp_attempting, wp_zoom. cbn [snd fst]. eapply wp_mono; [apply plan_info_same|]. intros info w2 [n ->].
  assert (Hdone : forall f', sf_requestId f' = sf_requestId f -> sf_preConsumed f' = a -> sf_currentAmount f' = a ->
    sf_currentAmountInitialized f' = true ->
    token_frame w (set_calls n (set_subdb db w')) /\ sub_funding_ok f' (set_calls n (set_subdb db w')) /\
    sf_currentAmount f' = a /\ madd (sub_account f' (set_calls n (set_subdb db w'))) (sub_reserved f') = sub_account f w /\
    w_users (set_calls n (set_subdb db w')) = w_users w /\ sf_requestId f' = sf_requestId f).
  { intros f' E1 E2 E3 E4. destruct Hs as [m ->]. unfold sub_funding_ok, sub_account, sub_reserved, madd. cbn. rewrite E1, E2, E3, E4, Hr, Hf.
    cbn. rewrite He. split_and!; try done; try lia; [by exists r | f_equal; lia]. }
  destruct info as [[pid title]|e]; [apply wp_modify | apply wp_ret]; apply Hdone; cbn; try done.
Qed.

#[export] Instance wallet_reserving : ReservationLaws WalletFunding.
Proof.
  refine (Build_ReservationLaws _ _ _ wallet_fresh (fun _ w w' => w_subdb w' = w_subdb w) _ _ _).
  - intros f w0 w w' w'' (_ & E1 & _) E (_ & E2 & _). congruence.
  - intros f a w w' (Hu & _ & _). unfold wallet_fresh. by rewrite Hu.
  - intros f a w Hf. eapply wp_mono; [by apply wallet_reserve_spec|]. intros [r|e] [f' w'] (? & Hr); [|done].
    destruct Hr as (? & ? & ? & ? & Hid). split_and!; try done. intros w0. cbn. unfold wallet_account. by rewrite Hid.
Defined.

#[export] Instance subscription_reserving : ReservationLaws SubscriptionFunding.
Proof.
  refine (Build_ReservationLaws _ _ _ sub_fresh (fun _ w w' => w_users w' = w_users w) _ _ _).
  - intros f w0 w w' w'' (E1 & _) E (E2 & _). congruence.
  - intros f a w w' (_ & Hs & _). unfold sub_fresh. by rewrite Hs.
  - intros f a w Hf. eapply wp_mono; [by apply sub_reserve_spec|]. intros [r|e] [f' w'] (? & Hr); [|done].
    destruct Hr as (? & ? & ? & ? & Hid). split_and!; try done. intros w0. cbn. unfold sub_account. by rewrite Hid.
Defined.

Definition any_elsewhere (f : funding) : world -> world -> Prop :=
  match f with FWallet x => elsewhere x | FSubscription x => elsewhere x end.
Definition any_fresh (f : funding) : Z -> world -> Prop :=
  match f with FWallet x => fresh x | FSubscription x => fresh x end.

#[export] Instance any_reserving : ReservationLaws funding.
Proof.
  refine (Build_ReservationLaws _ _ _ any_fresh any_elsewhere _ _ _).
  - intros [x|x] w0 w w' w''; apply (law_elsewhere x).
  - intros [x|x] a w w'; apply (law_fresh_frame x).
  - intros [x|x] a w Hf; apply wp_dispatch; (eapply wp_mono; [by apply law_reserve|]); intros [r|e] [x' w'] (? & ? & Hr);
      [done | by destruct Hr as [-> ?] | done | by destruct Hr as [-> ?]].
Defined.

(** Both funding sources keep money exact.  A settlement by a delta,
    positive or negative, moves exactly that amount between the account and
    the reservation; a refund returns exactly the reservation, its reward
    part to the reward balance; and when either fails, account and
    reservation are as before, so that it can be retried. *)
Theorem funding_is_exact (f : funding) w d :
  funding_ok f w -> is_i64 d -> 0 <= fst (reserved f) + d <= max_i64 ->
  (let '(r, (f', w')) := Settle d (f, w) in
   madd (account f' w') (reserved f') = madd (account f w) (reserved f) /\
   match r with Ok _ => fst (reserved f') = fst (reserved f) + d | Err _ => reserved f' = reserved f end) /\
  (let '(r, (f', w')) := Refund (f, w) in
   account f w' = match r with Ok _ => madd (account f w) (reserved f) | Err _ => account f w end).
Proof.
  intros Hok Hd Hb. pose proof (law_settle f w d Hok Hd Hb) as Hs. pose proof (law_refund f w Hok) as Hr.
  unfold wp in Hs, Hr. destruct (Settle d (f, w)) as [r1 [f1 w1]]. destruct (Refund (f, w)) as [r2 [f2 w2]].
  cbn [fst snd] in Hs, Hr. destruct Hs as (_ & _ & _ & Hc & Hr1). destruct Hr as (_ & -> & Hr2).
  split; [done|]. destruct r2; [done | apply Hr2].
Qed.
End Reserving.

(** ** A concrete source *)

#[export] Instance local_clock b n m : @ClockOk (local_process b n m).
Proof. intros k. cbn. by destruct (_ && _). Defined.

(** 400 of 1000 is reserved, 300 of it reward; 150 of it is given back. *)
Lemma funding_is_exact_witness :
  let D := local_process false 0 0 in
  let f := FWallet (mkWF 1 400 300 100) in let w := one_user 600 0 100 no_batch in
  fst (snd (@Settle _ (@any_source D 0 0) (-150) (f, w))) = FWallet (mkWF 1 250 250 0) /\
  @account _ _ (@any_laws D 0 0 _) f (snd (snd (@Refund _ (@any_source D 0 0) (f, w)))) = (1000, 300).
Proof.
  destruct (@funding_is_exact (local_process false 0 0) 0 0 _ (FWallet (mkWF 1 400 300 100)) (one_user 600 0 100 no_batch) (-150)) as [_ Ht].
  - cbn. unfold wallet_funding_ok. cbn. split; [by eexists|]. i64.
  - i64.
  - cbn. i64.
  - split; [vm_compute; reflexivity|]. vm_compute in Ht. vm_compute. exact Ht.
Defined.
