(* ===== verification/BillingSession.v ===== *)
(** * Billing session

    [src/service/billing_session.go]: the life of one request's charge.  A
    session reserves an estimate ([preConsume]), may be advanced
    ([SettleProgress]), is settled to the real cost ([Settle]), or is returned
    ([Refund], [RollbackSettlement]).

    A session's methods run on a [request]: the session, the relay info it
    shares with its caller, the world, and the goroutines it started.  What
    runs under the session's mutex is one computation; a refund or rollback
    releases the mutex between its parts, so its remainder is a [task] that
    makes one move at a time, interleaved with everything else.

    Not modelled: the test hook [tokenQuotaAdjuster] (nil in production
    sessions), log lines, and the delays between retries. *)

From stdpp Require Import base numbers list strings pretty gmap.
From Stdlib Require Import ZArith Lia.
From S2P Require Import Prelude GoInt GoMonad GoString WindowBounds SubPlan SubUsage SubStore Wallet Funding.

(** ** Data *)

(** The fields of [relaycommon.RelayInfo] that billing reads or writes. *)
Record RelayInfo := mkRI {
  ri_UserId : Z;
  ri_TokenId : Z;
  ri_TokenKey : string;
  ri_TokenUnlimited : bool;
  ri_IsPlayground : bool;
  ri_ForcePreConsume : bool;
  ri_DisableConsumeRebate : bool;
  ri_RequestId : string;
  ri_OriginModelName : string;
  ri_ProviderId : Z;
  ri_ProviderPricingId : Z;
  ri_ProviderPublicModel : string;
  ri_ProviderBaseModel : string;
  ri_BillingPreference : string;
  ri_UserQuota : Z;
  ri_FinalPreConsumedQuota : Z;
  ri_BillingSource : string;
  ri_SubscriptionId : Z;
  ri_SubscriptionPreConsumed : Z;
  ri_SubscriptionPostDelta : Z;
  ri_SubscriptionAmountTotal : Z;
  ri_SubscriptionAmountUsedAfterPreConsume : Z;
  ri_SubscriptionPlanId : Z;
  ri_SubscriptionPlanTitle : string;
  ri_WalletRewardConsumed : Z;
  ri_WalletPaidConsumed : Z
}.

Definition assign_UserQuota (v : Z) (s : RelayInfo) : RelayInfo := mkRI (ri_UserId s) (ri_TokenId s) (ri_TokenKey s)
  (ri_TokenUnlimited s) (ri_IsPlayground s) (ri_ForcePreConsume s) (ri_DisableConsumeRebate s) (ri_RequestId s)
  (ri_OriginModelName s) (ri_ProviderId s) (ri_ProviderPricingId s) (ri_ProviderPublicModel s) (ri_ProviderBaseModel
  s) (ri_BillingPreference s) v (ri_FinalPreConsumedQuota s) (ri_BillingSource s) (ri_SubscriptionId s)
  (ri_SubscriptionPreConsumed s) (ri_SubscriptionPostDelta s) (ri_SubscriptionAmountTotal s)
  (ri_SubscriptionAmountUsedAfterPreConsume s) (ri_SubscriptionPlanId s) (ri_SubscriptionPlanTitle s)
  (ri_WalletRewardConsumed s) (ri_WalletPaidConsumed s).
Definition assign_FinalPreConsumedQuota (v : Z) (s : RelayInfo) : RelayInfo := mkRI (ri_UserId s) (ri_TokenId s)
  (ri_TokenKey s) (ri_TokenUnlimited s) (ri_IsPlayground s) (ri_ForcePreConsume s) (ri_DisableConsumeRebate s)
  (ri_RequestId s) (ri_OriginModelName s) (ri_ProviderId s) (ri_ProviderPricingId s) (ri_ProviderPublicModel s)
  (ri_ProviderBaseModel s) (ri_BillingPreference s) (ri_UserQuota s) v (ri_BillingSource s) (ri_SubscriptionId s)
  (ri_SubscriptionPreConsumed s) (ri_SubscriptionPostDelta s) (ri_SubscriptionAmountTotal s)
  (ri_SubscriptionAmountUsedAfterPreConsume s) (ri_SubscriptionPlanId s) (ri_SubscriptionPlanTitle s)
  (ri_WalletRewardConsumed s) (ri_WalletPaidConsumed s).
Definition assign_BillingSource (v : string) (s : RelayInfo) : RelayInfo := mkRI (ri_UserId s) (ri_TokenId s)
  (ri_TokenKey s) (ri_TokenUnlimited s) (ri_IsPlayground s) (ri_ForcePreConsume s) (ri_DisableConsumeRebate s)
  (ri_RequestId s) (ri_OriginModelName s) (ri_ProviderId s) (ri_ProviderPricingId s) (ri_ProviderPublicModel s)
  (ri_ProviderBaseModel s) (ri_BillingPreference s) (ri_UserQuota s) (ri_FinalPreConsumedQuota s) v (ri_SubscriptionId
  s) (ri_SubscriptionPreConsumed s) (ri_SubscriptionPostDelta s) (ri_SubscriptionAmountTotal s)
  (ri_SubscriptionAmountUsedAfterPreConsume s) (ri_SubscriptionPlanId s) (ri_SubscriptionPlanTitle s)
  (ri_WalletRewardConsumed s) (ri_WalletPaidConsumed s).
Definition assign_SubscriptionId (v : Z) (s : RelayInfo) : RelayInfo := mkRI (ri_UserId s) (ri_TokenId s) (ri_TokenKey
  s) (ri_TokenUnlimited s) (ri_IsPlayground s) (ri_ForcePreConsume s) (ri_DisableConsumeRebate s) (ri_RequestId s)
  (ri_OriginModelName s) (ri_ProviderId s) (ri_ProviderPricingId s) (ri_ProviderPublicModel s) (ri_ProviderBaseModel
  s) (ri_BillingPreference s) (ri_UserQuota s) (ri_FinalPreConsumedQuota s) (ri_BillingSource s) v
  (ri_SubscriptionPreConsumed s) (ri_SubscriptionPostDelta s) (ri_SubscriptionAmountTotal s)
  (ri_SubscriptionAmountUsedAfterPreConsume s) (ri_SubscriptionPlanId s) (ri_SubscriptionPlanTitle s)
  (ri_WalletRewardConsumed s) (ri_WalletPaidConsumed s).
Definition assign_SubscriptionPreConsumed (v : Z) (s : RelayInfo) : RelayInfo := mkRI (ri_UserId s) (ri_TokenId s)
  (ri_TokenKey s) (ri_TokenUnlimited s) (ri_IsPlayground s) (ri_ForcePreConsume s) (ri_DisableConsumeRebate s)
  (ri_RequestId s) (ri_OriginModelName s) (ri_ProviderId s) (ri_ProviderPricingId s) (ri_ProviderPublicModel s)
  (ri_ProviderBaseModel s) (ri_BillingPreference s) (ri_UserQuota s) (ri_FinalPreConsumedQuota s) (ri_BillingSource s)
  (ri_SubscriptionId s) v (ri_SubscriptionPostDelta s) (ri_SubscriptionAmountTotal s)
  (ri_SubscriptionAmountUsedAfterPreConsume s) (ri_SubscriptionPlanId s) (ri_SubscriptionPlanTitle s)
  (ri_WalletRewardConsumed s) (ri_WalletPaidConsumed s).
Definition assign_SubscriptionPostDelta (v : Z) (s : RelayInfo) : RelayInfo := mkRI (ri_UserId s) (ri_TokenId s)
  (ri_TokenKey s) (ri_TokenUnlimited s) (ri_IsPlayground s) (ri_ForcePreConsume s) (ri_DisableConsumeRebate s)
  (ri_RequestId s) (ri_OriginModelName s) (ri_ProviderId s) (ri_ProviderPricingId s) (ri_ProviderPublicModel s)
  (ri_ProviderBaseModel s) (ri_BillingPreference s) (ri_UserQuota s) (ri_FinalPreConsumedQuota s) (ri_BillingSource s)
  (ri_SubscriptionId s) (ri_SubscriptionPreConsumed s) v (ri_SubscriptionAmountTotal s)
  (ri_SubscriptionAmountUsedAfterPreConsume s) (ri_SubscriptionPlanId s) (ri_SubscriptionPlanTitle s)
  (ri_WalletRewardConsumed s) (ri_WalletPaidConsumed s).
Definition assign_SubscriptionAmountTotal (v : Z) (s : RelayInfo) : RelayInfo := mkRI (ri_UserId s) (ri_TokenId s)
  (ri_TokenKey s) (ri_TokenUnlimited s) (ri_IsPlayground s) (ri_ForcePreConsume s) (ri_DisableConsumeRebate s)
  (ri_RequestId s) (ri_OriginModelName s) (ri_ProviderId s) (ri_ProviderPricingId s) (ri_ProviderPublicModel s)
  (ri_ProviderBaseModel s) (ri_BillingPreference s) (ri_UserQuota s) (ri_FinalPreConsumedQuota s) (ri_BillingSource s)
  (ri_SubscriptionId s) (ri_SubscriptionPreConsumed s) (ri_SubscriptionPostDelta s) v
  (ri_SubscriptionAmountUsedAfterPreConsume s) (ri_SubscriptionPlanId s) (ri_SubscriptionPlanTitle s)
  (ri_WalletRewardConsumed s) (ri_WalletPaidConsumed s).
Definition assign_SubscriptionAmountUsedAfterPreConsume (v : Z) (s : RelayInfo) : RelayInfo := mkRI (ri_UserId s)
  (ri_TokenId s) (ri_TokenKey s) (ri_TokenUnlimited s) (ri_IsPlayground s) (ri_ForcePreConsume s)
  (ri_DisableConsumeRebate s) (ri_RequestId s) (ri_OriginModelName s) (ri_ProviderId s) (ri_ProviderPricingId s)
  (ri_ProviderPublicModel s) (ri_ProviderBaseModel s) (ri_BillingPreference s) (ri_UserQuota s)
  (ri_FinalPreConsumedQuota s) (ri_BillingSource s) (ri_SubscriptionId s) (ri_SubscriptionPreConsumed s)
  (ri_SubscriptionPostDelta s) (ri_SubscriptionAmountTotal s) v (ri_SubscriptionPlanId s) (ri_SubscriptionPlanTitle s)
  (ri_WalletRewardConsumed s) (ri_WalletPaidConsumed s).
Definition assign_SubscriptionPlanId (v : Z) (s : RelayInfo) : RelayInfo := mkRI (ri_UserId s) (ri_TokenId s)
  (ri_TokenKey s) (ri_TokenUnlimited s) (ri_IsPlayground s) (ri_ForcePreConsume s) (ri_DisableConsumeRebate s)
  (ri_RequestId s) (ri_OriginModelName s) (ri_ProviderId s) (ri_ProviderPricingId s) (ri_ProviderPublicModel s)
  (ri_ProviderBaseModel s) (ri_BillingPreference s) (ri_UserQuota s) (ri_FinalPreConsumedQuota s) (ri_BillingSource s)
  (ri_SubscriptionId s) (ri_SubscriptionPreConsumed s) (ri_SubscriptionPostDelta s) (ri_SubscriptionAmountTotal s)
  (ri_SubscriptionAmountUsedAfterPreConsume s) v (ri_SubscriptionPlanTitle s) (ri_WalletRewardConsumed s)
  (ri_WalletPaidConsumed s).
Definition assign_SubscriptionPlanTitle (v : string) (s : RelayInfo) : RelayInfo := mkRI (ri_UserId s) (ri_TokenId s)
  (ri_TokenKey s) (ri_TokenUnlimited s) (ri_IsPlayground s) (ri_ForcePreConsume s) (ri_DisableConsumeRebate s)
  (ri_RequestId s) (ri_OriginModelName s) (ri_ProviderId s) (ri_ProviderPricingId s) (ri_ProviderPublicModel s)
  (ri_ProviderBaseModel s) (ri_BillingPreference s) (ri_UserQuota s) (ri_FinalPreConsumedQuota s) (ri_BillingSource s)
  (ri_SubscriptionId s) (ri_SubscriptionPreConsumed s) (ri_SubscriptionPostDelta s) (ri_SubscriptionAmountTotal s)
  (ri_SubscriptionAmountUsedAfterPreConsume s) (ri_SubscriptionPlanId s) v (ri_WalletRewardConsumed s)
  (ri_WalletPaidConsumed s).
Definition assign_WalletRewardConsumed (v : Z) (s : RelayInfo) : RelayInfo := mkRI (ri_UserId s) (ri_TokenId s)
  (ri_TokenKey s) (ri_TokenUnlimited s) (ri_IsPlayground s) (ri_ForcePreConsume s) (ri_DisableConsumeRebate s)
  (ri_RequestId s) (ri_OriginModelName s) (ri_ProviderId s) (ri_ProviderPricingId s) (ri_ProviderPublicModel s)
  (ri_ProviderBaseModel s) (ri_BillingPreference s) (ri_UserQuota s) (ri_FinalPreConsumedQuota s) (ri_BillingSource s)
  (ri_SubscriptionId s) (ri_SubscriptionPreConsumed s) (ri_SubscriptionPostDelta s) (ri_SubscriptionAmountTotal s)
  (ri_SubscriptionAmountUsedAfterPreConsume s) (ri_SubscriptionPlanId s) (ri_SubscriptionPlanTitle s) v
  (ri_WalletPaidConsumed s).
Definition assign_WalletPaidConsumed (v : Z) (s : RelayInfo) : RelayInfo := mkRI (ri_UserId s) (ri_TokenId s)
  (ri_TokenKey s) (ri_TokenUnlimited s) (ri_IsPlayground s) (ri_ForcePreConsume s) (ri_DisableConsumeRebate s)
  (ri_RequestId s) (ri_OriginModelName s) (ri_ProviderId s) (ri_ProviderPricingId s) (ri_ProviderPublicModel s)
  (ri_ProviderBaseModel s) (ri_BillingPreference s) (ri_UserQuota s) (ri_FinalPreConsumedQuota s) (ri_BillingSource s)
  (ri_SubscriptionId s) (ri_SubscriptionPreConsumed s) (ri_SubscriptionPostDelta s) (ri_SubscriptionAmountTotal s)
  (ri_SubscriptionAmountUsedAfterPreConsume s) (ri_SubscriptionPlanId s) (ri_SubscriptionPlanTitle s)
  (ri_WalletRewardConsumed s) v.

(** The keys of the request context that billing reads. *)
Record ginContext := mkContext {
  cx_token_quota : Z;
  cx_ProviderId : Z; cx_ProviderPricingId : Z; cx_ProviderPublicModel : string; cx_ProviderBaseModel : string;
  cx_ProviderOwnerUserId : Z; cx_ProviderBaseQuota : Z; cx_ProviderUserQuota : Z
}.

Record BillingSession := mkBS {
  bs_funding : option funding;
  bs_preConsumedQuota : Z;
  bs_tokenConsumed : Z;
  bs_fundingSettled : bool;
  bs_fundingQuota : Z;
  bs_tokenQuota : Z;
  bs_quotaStateInitialized : bool;
  bs_settled : bool;
  bs_refunded : bool;
  bs_refundStarted : bool;
  bs_refundInFlight : bool;
  bs_refundFundingDone : bool;
  bs_refundTokenDone : bool;
  bs_settlementRolledBack : bool;
  bs_rollbackInFlight : bool;
  bs_rollbackFundingDone : bool;
  bs_rollbackTokenDone : bool;
  bs_rebateApplied : bool;
  bs_progressPending : bool;
  bs_pendingProgressDelta : Z;
  bs_pendingProgressTarget : Z
}.

Definition put_funding (v : option funding) (s : BillingSession) : BillingSession := mkBS v (bs_preConsumedQuota s)
  (bs_tokenConsumed s) (bs_fundingSettled s) (bs_fundingQuota s) (bs_tokenQuota s) (bs_quotaStateInitialized s)
  (bs_settled s) (bs_refunded s) (bs_refundStarted s) (bs_refundInFlight s) (bs_refundFundingDone s)
  (bs_refundTokenDone s) (bs_settlementRolledBack s) (bs_rollbackInFlight s) (bs_rollbackFundingDone s)
  (bs_rollbackTokenDone s) (bs_rebateApplied s) (bs_progressPending s) (bs_pendingProgressDelta s)
  (bs_pendingProgressTarget s).
Definition put_preConsumedQuota (v : Z) (s : BillingSession) : BillingSession := mkBS (bs_funding s) v
  (bs_tokenConsumed s) (bs_fundingSettled s) (bs_fundingQuota s) (bs_tokenQuota s) (bs_quotaStateInitialized s)
  (bs_settled s) (bs_refunded s) (bs_refundStarted s) (bs_refundInFlight s) (bs_refundFundingDone s)
  (bs_refundTokenDone s) (bs_settlementRolledBack s) (bs_rollbackInFlight s) (bs_rollbackFundingDone s)
  (bs_rollbackTokenDone s) (bs_rebateApplied s) (bs_progressPending s) (bs_pendingProgressDelta s)
  (bs_pendingProgressTarget s).
Definition put_tokenConsumed (v : Z) (s : BillingSession) : BillingSession := mkBS (bs_funding s) (bs_preConsumedQuota
  s) v (bs_fundingSettled s) (bs_fundingQuota s) (bs_tokenQuota s) (bs_quotaStateInitialized s) (bs_settled s)
  (bs_refunded s) (bs_refundStarted s) (bs_refundInFlight s) (bs_refundFundingDone s) (bs_refundTokenDone s)
  (bs_settlementRolledBack s) (bs_rollbackInFlight s) (bs_rollbackFundingDone s) (bs_rollbackTokenDone s)
  (bs_rebateApplied s) (bs_progressPending s) (bs_pendingProgressDelta s) (bs_pendingProgressTarget s).
Definition put_fundingSettled (v : bool) (s : BillingSession) : BillingSession := mkBS (bs_funding s)
  (bs_preConsumedQuota s) (bs_tokenConsumed s) v (bs_fundingQuota s) (bs_tokenQuota s) (bs_quotaStateInitialized s)
  (bs_settled s) (bs_refunded s) (bs_refundStarted s) (bs_refundInFlight s) (bs_refundFundingDone s)
  (bs_refundTokenDone s) (bs_settlementRolledBack s) (bs_rollbackInFlight s) (bs_rollbackFundingDone s)
  (bs_rollbackTokenDone s) (bs_rebateApplied s) (bs_progressPending s) (bs_pendingProgressDelta s)
  (bs_pendingProgressTarget s).
Definition put_fundingQuota (v : Z) (s : BillingSession) : BillingSession := mkBS (bs_funding s) (bs_preConsumedQuota
  s) (bs_tokenConsumed s) (bs_fundingSettled s) v (bs_tokenQuota s) (bs_quotaStateInitialized s) (bs_settled s)
  (bs_refunded s) (bs_refundStarted s) (bs_refundInFlight s) (bs_refundFundingDone s) (bs_refundTokenDone s)
  (bs_settlementRolledBack s) (bs_rollbackInFlight s) (bs_rollbackFundingDone s) (bs_rollbackTokenDone s)
  (bs_rebateApplied s) (bs_progressPending s) (bs_pendingProgressDelta s) (bs_pendingProgressTarget s).
Definition put_tokenQuota (v : Z) (s : BillingSession) : BillingSession := mkBS (bs_funding s) (bs_preConsumedQuota s)
  (bs_tokenConsumed s) (bs_fundingSettled s) (bs_fundingQuota s) v (bs_quotaStateInitialized s) (bs_settled s)
  (bs_refunded s) (bs_refundStarted s) (bs_refundInFlight s) (bs_refundFundingDone s) (bs_refundTokenDone s)
  (bs_settlementRolledBack s) (bs_rollbackInFlight s) (bs_rollbackFundingDone s) (bs_rollbackTokenDone s)
  (bs_rebateApplied s) (bs_progressPending s) (bs_pendingProgressDelta s) (bs_pendingProgressTarget s).
Definition put_quotaStateInitialized (v : bool) (s : BillingSession) : BillingSession := mkBS (bs_funding s)
  (bs_preConsumedQuota s) (bs_tokenConsumed s) (bs_fundingSettled s) (bs_fundingQuota s) (bs_tokenQuota s) v
  (bs_settled s) (bs_refunded s) (bs_refundStarted s) (bs_refundInFlight s) (bs_refundFundingDone s)
  (bs_refundTokenDone s) (bs_settlementRolledBack s) (bs_rollbackInFlight s) (bs_rollbackFundingDone s)
  (bs_rollbackTokenDone s) (bs_rebateApplied s) (bs_progressPending s) (bs_pendingProgressDelta s)
  (bs_pendingProgressTarget s).
Definition put_settled (v : bool) (s : BillingSession) : BillingSession := mkBS (bs_funding s) (bs_preConsumedQuota s)
  (bs_tokenConsumed s) (bs_fundingSettled s) (bs_fundingQuota s) (bs_tokenQuota s) (bs_quotaStateInitialized s) v
  (bs_refunded s) (bs_refundStarted s) (bs_refundInFlight s) (bs_refundFundingDone s) (bs_refundTokenDone s)
  (bs_settlementRolledBack s) (bs_rollbackInFlight s) (bs_rollbackFundingDone s) (bs_rollbackTokenDone s)
  (bs_rebateApplied s) (bs_progressPending s) (bs_pendingProgressDelta s) (bs_pendingProgressTarget s).
Definition put_refunded (v : bool) (s : BillingSession) : BillingSession := mkBS (bs_funding s) (bs_preConsumedQuota
  s) (bs_tokenConsumed s) (bs_fundingSettled s) (bs_fundingQuota s) (bs_tokenQuota s) (bs_quotaStateInitialized s)
  (bs_settled s) v (bs_refundStarted s) (bs_refundInFlight s) (bs_refundFundingDone s) (bs_refundTokenDone s)
  (bs_settlementRolledBack s) (bs_rollbackInFlight s) (bs_rollbackFundingDone s) (bs_rollbackTokenDone s)
  (bs_rebateApplied s) (bs_progressPending s) (bs_pendingProgressDelta s) (bs_pendingProgressTarget s).
Definition put_refundStarted (v : bool) (s : BillingSession) : BillingSession := mkBS (bs_funding s)
  (bs_preConsumedQuota s) (bs_tokenConsumed s) (bs_fundingSettled s) (bs_fundingQuota s) (bs_tokenQuota s)
  (bs_quotaStateInitialized s) (bs_settled s) (bs_refunded s) v (bs_refundInFlight s) (bs_refundFundingDone s)
  (bs_refundTokenDone s) (bs_settlementRolledBack s) (bs_rollbackInFlight s) (bs_rollbackFundingDone s)
  (bs_rollbackTokenDone s) (bs_rebateApplied s) (bs_progressPending s) (bs_pendingProgressDelta s)
  (bs_pendingProgressTarget s).
Definition put_refundInFlight (v : bool) (s : BillingSession) : BillingSession := mkBS (bs_funding s)
  (bs_preConsumedQuota s) (bs_tokenConsumed s) (bs_fundingSettled s) (bs_fundingQuota s) (bs_tokenQuota s)
  (bs_quotaStateInitialized s) (bs_settled s) (bs_refunded s) (bs_refundStarted s) v (bs_refundFundingDone s)
  (bs_refundTokenDone s) (bs_settlementRolledBack s) (bs_rollbackInFlight s) (bs_rollbackFundingDone s)
  (bs_rollbackTokenDone s) (bs_rebateApplied s) (bs_progressPending s) (bs_pendingProgressDelta s)
  (bs_pendingProgressTarget s).
Definition put_refundFundingDone (v : bool) (s : BillingSession) : BillingSession := mkBS (bs_funding s)
  (bs_preConsumedQuota s) (bs_tokenConsumed s) (bs_fundingSettled s) (bs_fundingQuota s) (bs_tokenQuota s)
  (bs_quotaStateInitialized s) (bs_settled s) (bs_refunded s) (bs_refundStarted s) (bs_refundInFlight s) v
  (bs_refundTokenDone s) (bs_settlementRolledBack s) (bs_rollbackInFlight s) (bs_rollbackFundingDone s)
  (bs_rollbackTokenDone s) (bs_rebateApplied s) (bs_progressPending s) (bs_pendingProgressDelta s)
  (bs_pendingProgressTarget s).
Definition put_refundTokenDone (v : bool) (s : BillingSession) : BillingSession := mkBS (bs_funding s)
  (bs_preConsumedQuota s) (bs_tokenConsumed s) (bs_fundingSettled s) (bs_fundingQuota s) (bs_tokenQuota s)
  (bs_quotaStateInitialized s) (bs_settled s) (bs_refunded s) (bs_refundStarted s) (bs_refundInFlight s)
  (bs_refundFundingDone s) v (bs_settlementRolledBack s) (bs_rollbackInFlight s) (bs_rollbackFundingDone s)
  (bs_rollbackTokenDone s) (bs_rebateApplied s) (bs_progressPending s) (bs_pendingProgressDelta s)
  (bs_pendingProgressTarget s).
Definition put_settlementRolledBack (v : bool) (s : BillingSession) : BillingSession := mkBS (bs_funding s)
  (bs_preConsumedQuota s) (bs_tokenConsumed s) (bs_fundingSettled s) (bs_fundingQuota s) (bs_tokenQuota s)
  (bs_quotaStateInitialized s) (bs_settled s) (bs_refunded s) (bs_refundStarted s) (bs_refundInFlight s)
  (bs_refundFundingDone s) (bs_refundTokenDone s) v (bs_rollbackInFlight s) (bs_rollbackFundingDone s)
  (bs_rollbackTokenDone s) (bs_rebateApplied s) (bs_progressPending s) (bs_pendingProgressDelta s)
  (bs_pendingProgressTarget s).
Definition put_rollbackInFlight (v : bool) (s : BillingSession) : BillingSession := mkBS (bs_funding s)
  (bs_preConsumedQuota s) (bs_tokenConsumed s) (bs_fundingSettled s) (bs_fundingQuota s) (bs_tokenQuota s)
  (bs_quotaStateInitialized s) (bs_settled s) (bs_refunded s) (bs_refundStarted s) (bs_refundInFlight s)
  (bs_refundFundingDone s) (bs_refundTokenDone s) (bs_settlementRolledBack s) v (bs_rollbackFundingDone s)
  (bs_rollbackTokenDone s) (bs_rebateApplied s) (bs_progressPending s) (bs_pendingProgressDelta s)
  (bs_pendingProgressTarget s).
Definition put_rollbackFundingDone (v : bool) (s : BillingSession) : BillingSession := mkBS (bs_funding s)
  (bs_preConsumedQuota s) (bs_tokenConsumed s) (bs_fundingSettled s) (bs_fundingQuota s) (bs_tokenQuota s)
  (bs_quotaStateInitialized s) (bs_settled s) (bs_refunded s) (bs_refundStarted s) (bs_refundInFlight s)
  (bs_refundFundingDone s) (bs_refundTokenDone s) (bs_settlementRolledBack s) (bs_rollbackInFlight s) v
  (bs_rollbackTokenDone s) (bs_rebateApplied s) (bs_progressPending s) (bs_pendingProgressDelta s)
  (bs_pendingProgressTarget s).
Definition put_rollbackTokenDone (v : bool) (s : BillingSession) : BillingSession := mkBS (bs_funding s)
  (bs_preConsumedQuota s) (bs_tokenConsumed s) (bs_fundingSettled s) (bs_fundingQuota s) (bs_tokenQuota s)
  (bs_quotaStateInitialized s) (bs_settled s) (bs_refunded s) (bs_refundStarted s) (bs_refundInFlight s)
  (bs_refundFundingDone s) (bs_refundTokenDone s) (bs_settlementRolledBack s) (bs_rollbackInFlight s)
  (bs_rollbackFundingDone s) v (bs_rebateApplied s) (bs_progressPending s) (bs_pendingProgressDelta s)
  (bs_pendingProgressTarget s).
Definition put_rebateApplied (v : bool) (s : BillingSession) : BillingSession := mkBS (bs_funding s)
  (bs_preConsumedQuota s) (bs_tokenConsumed s) (bs_fundingSettled s) (bs_fundingQuota s) (bs_tokenQuota s)
  (bs_quotaStateInitialized s) (bs_settled s) (bs_refunded s) (bs_refundStarted s) (bs_refundInFlight s)
  (bs_refundFundingDone s) (bs_refundTokenDone s) (bs_settlementRolledBack s) (bs_rollbackInFlight s)
  (bs_rollbackFundingDone s) (bs_rollbackTokenDone s) v (bs_progressPending s) (bs_pendingProgressDelta s)
  (bs_pendingProgressTarget s).
Definition put_progressPending (v : bool) (s : BillingSession) : BillingSession := mkBS (bs_funding s)
  (bs_preConsumedQuota s) (bs_tokenConsumed s) (bs_fundingSettled s) (bs_fundingQuota s) (bs_tokenQuota s)
  (bs_quotaStateInitialized s) (bs_settled s) (bs_refunded s) (bs_refundStarted s) (bs_refundInFlight s)
  (bs_refundFundingDone s) (bs_refundTokenDone s) (bs_settlementRolledBack s) (bs_rollbackInFlight s)
  (bs_rollbackFundingDone s) (bs_rollbackTokenDone s) (bs_rebateApplied s) v (bs_pendingProgressDelta s)
  (bs_pendingProgressTarget s).
Definition put_pendingProgressDelta (v : Z) (s : BillingSession) : BillingSession := mkBS (bs_funding s)
  (bs_preConsumedQuota s) (bs_tokenConsumed s) (bs_fundingSettled s) (bs_fundingQuota s) (bs_tokenQuota s)
  (bs_quotaStateInitialized s) (bs_settled s) (bs_refunded s) (bs_refundStarted s) (bs_refundInFlight s)
  (bs_refundFundingDone s) (bs_refundTokenDone s) (bs_settlementRolledBack s) (bs_rollbackInFlight s)
  (bs_rollbackFundingDone s) (bs_rollbackTokenDone s) (bs_rebateApplied s) (bs_progressPending s) v
  (bs_pendingProgressTarget s).
Definition put_pendingProgressTarget (v : Z) (s : BillingSession) : BillingSession := mkBS (bs_funding s)
  (bs_preConsumedQuota s) (bs_tokenConsumed s) (bs_fundingSettled s) (bs_fundingQuota s) (bs_tokenQuota s)
  (bs_quotaStateInitialized s) (bs_settled s) (bs_refunded s) (bs_refundStarted s) (bs_refundInFlight s)
  (bs_refundFundingDone s) (bs_refundTokenDone s) (bs_settlementRolledBack s) (bs_rollbackInFlight s)
  (bs_rollbackFundingDone s) (bs_rollbackTokenDone s) (bs_rebateApplied s) (bs_progressPending s)
  (bs_pendingProgressDelta s) v.

Definition new_session (f : funding) : BillingSession :=
  mkBS (Some f) 0 0 false 0 0 false false false false false false false false false false false false false 0 0.

(** API errors: message, code and the two options billing sets. *)
Record NewAPIError := mkAPIError {
  ae_Err : string; ae_errorCode : string; ae_StatusCode : Z; ae_skipRetry : bool; ae_recordErrorLog : bool
}.

Definition ErrorCodeInvalidRequest : string := "invalid_request".
Definition ErrorCodeQueryDataError : string := "query_data_error".
Definition ErrorCodeUpdateDataError : string := "update_data_error".
Definition ErrorCodeInsufficientUserQuota : string := "insufficient_user_quota".
Definition ErrorCodePreConsumeTokenQuotaFailed : string := "pre_consume_token_quota_failed".

(** [err.Error()] *)
Definition err_message (e : error) : string :=
  match e with ErrRecordNotFound => "record not found" | ErrMsg s => s end.

(** [types.NewError(err, code, ErrOptionWithSkipRetry())]; [err] is never a [NewAPIError] here. *)
Definition NewError (msg code : string) : NewAPIError := mkAPIError msg code 500 true true.
(** [types.NewErrorWithStatusCode(..., ErrOptionWithSkipRetry(), ErrOptionWithNoRecordErrorLog())] *)
Definition NewErrorWithStatusCode (msg code : string) (status : Z) : NewAPIError := mkAPIError msg code status true false.

(** Goroutines.  A refund or rollback remembers what it captured under the
    mutex and where it stands. *)
Inductive stage := StFunding | StFundingDone | StToken | StTokenDone | StFinal.

Record captured := mkCaptured {
  ca_fundingDone : bool; ca_tokenDone : bool; ca_tokenAmount : Z;
  ca_tokenId : Z; ca_tokenKey : string; ca_isPlayground : bool; ca_userId : Z
}.

Inductive task :=
  | TRefund (c : captured) (at_ : stage)
  | TRollback (c : captured) (at_ : stage) (firstErr : option error)
  | TTokenRollback (tokenId : Z) (tokenKey : string) (reserved_ : Z) (attempts : nat).

Record request := mkRequest {
  rq_session : BillingSession; rq_info : option RelayInfo; rq_world : world; rq_tasks : list task
}.

Definition put_session (s : BillingSession) (q : request) : request := mkRequest s (rq_info q) (rq_world q) (rq_tasks q).
Definition put_info (i : option RelayInfo) (q : request) : request := mkRequest (rq_session q) i (rq_world q) (rq_tasks q).
Definition put_world (w : world) (q : request) : request := mkRequest (rq_session q) (rq_info q) w (rq_tasks q).
Definition put_tasks (ts : list task) (q : request) : request := mkRequest (rq_session q) (rq_info q) (rq_world q) ts.

Definition sess {A} (f : BillingSession -> A) : GM request A := gets (fun q => f (rq_session q)).
Definition set_sess (f : BillingSession -> BillingSession) : GM request unit := modify (fun q => put_session (f (rq_session q)) q).
Definition set_info (f : RelayInfo -> RelayInfo) : GM request unit := modify (fun q => put_info (f <$> rq_info q) q).
Definition in_world {A} (m : GM world A) : GM request A := zoom rq_world put_world m.
(** [go func() { ... }] *)
Definition go (t : task) : GM request unit := modify (fun q => put_tasks (rq_tasks q ++ [t]) q).
(** A method call on [s.funding], which must not be nil. *)
Definition call_funding {A} (m : GM (funding * world) A) : GM request A := fun q =>
  match bs_funding (rq_session q) with
  | None => (Err (ErrMsg "nil funding"), q)
  | Some f => let '(r, (f', w')) := m (f, rq_world q) in
              (r, put_world w' (put_session (put_funding (Some f') (rq_session q)) q))
  end.

Section Session.
Context `{Deployment} `{DBClock} `{LocalZone}.

Definition tokenQuotaRequired (q : request) : bool :=
  match rq_info q with
  | None => false
  | Some info =>
      negb (ri_IsPlayground info) &&
      match bs_funding (rq_session q) with
      | None => true
      | Some f => negb (String.eqb (Source f) BillingSourceSubscription)
      end
  end.

Definition initializeQuotaStateLocked (s : BillingSession) : BillingSession :=
  if bs_quotaStateInitialized s then s
  else put_quotaStateInitialized true (put_tokenQuota (bs_tokenConsumed s) (put_fundingQuota (bs_preConsumedQuota s) s)).

Definition adjustTokenQuotaLocked (delta : Z) : GM request unit :=
  if delta =? 0 then mret tt
  else
    info ← gets rq_info;
    match info with
    | None => throw (ErrMsg "nil relay info")
    | Some info =>
        if 0 <? delta then in_world (DecreaseTokenQuota (ri_TokenId info) (ri_TokenKey info) delta)
        else in_world (IncreaseTokenQuota (ri_TokenId info) (ri_TokenKey info) (i64_neg delta))
    end.

Definition applyTargetLocked (target : Z) : GM request unit :=
  if target <? 0 then throw (ErrMsg "actual quota must be >= 0")
  else
  q ← gets id;
  match bs_funding (rq_session q), rq_info q with
  | Some _, Some _ =>
      _ ← set_sess initializeQuotaStateLocked;
      fundingQuota ← sess bs_fundingQuota;
      let fundingDelta := i64_sub target fundingQuota in
      _ ← (if fundingDelta =? 0 then mret tt
           else
             _ ← call_funding (Settle fundingDelta);
             set_sess (fun s => put_fundingSettled true (put_fundingQuota target s)));
      tokenQuota ← sess bs_tokenQuota;
      let tokenDelta := i64_sub target tokenQuota in
      required ← gets tokenQuotaRequired;
      _ ← (if negb (tokenDelta =? 0) && required then adjustTokenQuotaLocked tokenDelta else mret tt);
      _ ← (if required : bool then set_sess (fun s => put_tokenConsumed target (put_tokenQuota target s))
           else set_sess (fun s => put_tokenConsumed 0 (put_tokenQuota 0 s)));
      s ← gets rq_session;
      match bs_funding s with
      | Some f =>
          if String.eqb (Source f) BillingSourceSubscription
          then set_info (assign_SubscriptionPostDelta (i64_sub target (bs_preConsumedQuota s))) else mret tt
      | None => mret tt
      end
  | _, _ => throw (ErrMsg "billing session is not initialized")
  end.

Definition rollbackPreConsumedTokenQuota (amount : Z) : GM request unit :=
  info ← gets rq_info;
  match info with
  | None => mret tt
  | Some info =>
      if (amount <=? 0) || ri_IsPlayground info then mret tt
      else in_world (retry 3 (IncreaseTokenQuota (ri_TokenId info) (ri_TokenKey info) amount) (ErrMsg ""))
  end.

Definition BillingSession_Settle (actualQuota : Z) : GM request unit :=
  s ← gets rq_session;
  if bs_refundStarted s then throw (ErrMsg "billing session refund already started")
  else if bs_settled s || bs_settlementRolledBack s || bs_refunded s then mret tt
  else
    _ ← set_sess (put_progressPending false);
    _ ← applyTargetLocked actualQuota;
    set_sess (put_settled true).

Definition progress_target (s : BillingSession) (delta : Z) : Z :=
  let target :=
    if bs_progressPending s then
      if delta =? bs_pendingProgressDelta s then bs_pendingProgressTarget s
      else i64_add (bs_pendingProgressTarget s) delta
    else i64_add (bs_fundingQuota s) delta in
  if target <? 0 then 0 else target.

Definition SettleProgress (delta : Z) : GM request unit :=
  s ← gets rq_session;
  if bs_refundStarted s then throw (ErrMsg "billing session refund already started")
  else if bs_settled s then mret tt
  else
    _ ← set_sess initializeQuotaStateLocked;
    s ← gets rq_session;
    let target := progress_target s delta in
    _ ← set_sess (fun s => put_pendingProgressTarget target (put_pendingProgressDelta delta (put_progressPending true s)));
    _ ← applyTargetLocked target;
    set_sess (put_progressPending false).

Definition needsRefundLocked (s : BillingSession) : bool :=
  if bs_settled s || bs_refunded s then false
  else if negb (bs_refundTokenDone s) && (0 <? bs_tokenConsumed s) then true
  else if negb (bs_refundFundingDone s) then
    match bs_funding s with
    | Some (FWallet wallet) => 0 <? wf_consumed wallet
    | Some (FSubscription sub) => 0 <? sf_preConsumed sub
    | None => false
    end
  else false.

(** *** Refund *)

Definition capture (fundingDone tokenDone : bool) (tokenAmount : Z) (info : option RelayInfo) : captured :=
  match info with
  | None => mkCaptured fundingDone tokenDone tokenAmount 0 "" false 0
  | Some i => mkCaptured fundingDone tokenDone tokenAmount (ri_TokenId i) (ri_TokenKey i) (ri_IsPlayground i) (ri_UserId i)
  end.

(** What runs under the mutex; the rest is a goroutine. *)
Definition BillingSession_Refund : GM request unit :=
  q ← gets id;
  let s := rq_session q in
  if bs_settled s || bs_refunded s || bs_refundInFlight s || negb (needsRefundLocked s) then mret tt
  else
    let playground := match rq_info q with None => true | Some i => ri_IsPlayground i end in
    _ ← set_sess (fun s =>
          let s := put_refundInFlight true (put_refundStarted true (initializeQuotaStateLocked s)) in
          let s := match bs_funding s with None => put_refundFundingDone true s | Some _ => s end in
          if playground || (bs_tokenConsumed s <=? 0) then put_refundTokenDone true s else s);
    s ← gets rq_session;
    go (TRefund (capture (bs_refundFundingDone s) (bs_refundTokenDone s) (bs_tokenConsumed s) (rq_info q)) StFunding).

(** One move of the refund goroutine: its next stage, or [None] at its end. *)
Definition refund_move (c : captured) (at_ : stage) : GM request (option stage) :=
  match at_ with
  | StFunding =>
      hasFunding ← sess (fun s => negb (bool_decide (bs_funding s = None)));
      if negb (ca_fundingDone c) && hasFunding then
        r ← attempting (call_funding Refund);
        mret (Some (if is_ok r then StFundingDone else StToken))
      else mret (Some StToken)
  | StFundingDone => _ ← set_sess (put_refundFundingDone true); mret (Some StToken)
  | StToken =>
      if negb (ca_tokenDone c) && (0 <? ca_tokenAmount c) && negb (ca_isPlayground c) then
        r ← attempting (in_world (IncreaseTokenQuota (ca_tokenId c) (ca_tokenKey c) (ca_tokenAmount c)));
        mret (Some (if is_ok r then StTokenDone else StFinal))
      else mret (Some StFinal)
  | StTokenDone =>
      _ ← set_sess (fun s => put_tokenConsumed 0 (put_refundTokenDone true s)); mret (Some StFinal)
  | StFinal =>
      _ ← set_sess (fun s =>
            let s := put_refundInFlight false s in
            if bs_refundFundingDone s && bs_refundTokenDone s then put_refunded true s else s);
      mret None
  end.

(** *** Rollback of a settlement *)

(** What runs under the mutex.  The remainder, on the same goroutine, is a
    task; the method returns the task's [firstErr] when that ends. *)
Definition RollbackSettlement : GM request unit :=
  q ← gets id;
  let s := rq_session q in
  if bs_settlementRolledBack s || bs_refunded s then mret tt
  else if negb (bs_settled s) then
    if needsRefundLocked s then BillingSession_Refund else mret tt
  else if bs_rollbackInFlight s then throw (ErrMsg "billing settlement rollback already in progress")
  else
    _ ← set_sess (fun s => put_rollbackInFlight true (initializeQuotaStateLocked s));
    s ← gets rq_session;
    go (TRollback (capture (bs_rollbackFundingDone s) (bs_rollbackTokenDone s) (bs_tokenQuota s) (rq_info q)) StFunding None).

Definition rollback_move (c : captured) (at_ : stage) (firstErr : option error)
  : GM request (option (stage * option error)) :=
  match at_ with
  | StFunding =>
      hasFunding ← sess (fun s => negb (bool_decide (bs_funding s = None)));
      if negb (ca_fundingDone c) && hasFunding then
        r ← attempting (call_funding Refund);
        match r with
        | Ok _ => mret (Some (StFundingDone, firstErr))
        | Err e => mret (Some (StToken, Some (ErrMsg ("rollback billing funding: " ++ err_message e))))
        end
      else if negb hasFunding then mret (Some (StFundingDone, firstErr))
      else mret (Some (StToken, firstErr))
  | StFundingDone => _ ← set_sess (put_rollbackFundingDone true); mret (Some (StToken, firstErr))
  | StToken =>
      if negb (ca_tokenDone c) && (0 <? ca_tokenAmount c) && negb (ca_isPlayground c) then
        r ← attempting (in_world (IncreaseTokenQuota (ca_tokenId c) (ca_tokenKey c) (ca_tokenAmount c)));
        match r with
        | Ok _ => mret (Some (StTokenDone, firstErr))
        | Err e => mret (Some (StFinal, match firstErr with
                                       | Some _ => firstErr
                                       | None => Some (ErrMsg ("rollback token quota (userId=" ++ pretty (ca_userId c) ++ ", tokenId=" ++
                                           pretty (ca_tokenId c) ++ "): " ++ err_message e))
                                       end))
        end
      else mret (Some (StTokenDone, firstErr))
  | StTokenDone => _ ← set_sess (put_rollbackTokenDone true); mret (Some (StFinal, firstErr))
  | StFinal =>
      _ ← set_sess (fun s =>
            let s := put_rollbackInFlight false s in
            if bs_rollbackFundingDone s && bs_rollbackTokenDone s
            then put_refunded true (put_settlementRolledBack true s) else s);
      mret None
  end.

(** The background retry of a failed token rollback, one attempt at a time. *)
Definition token_rollback_move (tokenId : Z) (tokenKey : string) (reserved_ : Z) (attempts : nat)
  : GM request (option nat) :=
  match attempts with
  | O => mret None
  | S n => r ← attempting (in_world (IncreaseTokenQuota tokenId tokenKey reserved_));
           mret (if is_ok r then None else Some n)
  end.

(** One move of a task. *)
Definition task_move (t : task) : GM request (option task) :=
  match t with
  | TRefund c at_ => next ← refund_move c at_; mret (TRefund c <$> next)
  | TRollback c at_ e => next ← rollback_move c at_ e; mret ((fun '(a, e) => TRollback c a e) <$> next)
  | TTokenRollback i k r n => next ← token_rollback_move i k r n; mret (TTokenRollback i k r <$> next)
  end.

(** The [n]-th goroutine makes a move. *)
Definition run_task (n : nat) : GM request unit :=
  ts ← gets rq_tasks;
  match ts !! n with
  | None => mret tt
  | Some t =>
      next ← task_move t;
      modify (fun q => put_tasks (match next with
                                  | Some t' => <[n := t']> (rq_tasks q)
                                  | None => delete n (rq_tasks q)
                                  end) q)
  end.

(** *** Rebate *)

Definition ClaimWalletConsumedForRebate : GM request (Z * Z) :=
  s ← gets rq_session;
  if bs_rebateApplied s || negb (bs_settled s) then mret (0, 0)
  else match bs_funding s with
  | Some (FWallet wallet) => _ ← set_sess (put_rebateApplied true); mret (RewardConsumed wallet, PaidConsumed wallet)
  | _ => mret (0, 0)
  end.

Definition ClaimPaidConsumedForRebate : GM request Z := rp ← ClaimWalletConsumedForRebate; mret (snd rp).

(** *** Pre-consume *)

Definition shouldTrust (c : ginContext) (q : request) : bool :=
  match rq_info q, bs_funding (rq_session q) with
  | Some info, Some f =>
      if ri_ForcePreConsume info then false
      else if GetTrustQuota <=? 0 then false
      else
        let tokenTrusted := ri_TokenUnlimited info || (GetTrustQuota <? cx_token_quota c) in
        if negb tokenTrusted then false
        else if String.eqb (Source f) BillingSourceWallet then GetTrustQuota <? ri_UserQuota info
        else false
  | _, _ => false
  end.

Definition isSubscriptionQuotaUnavailable (message : string) : bool :=
  let message := norm message in
  if String.eqb message "" then false
  else if Contains message "no active subscription" then true
  else Contains message "subscription" && Contains message "quota insufficient".

Definition subscriptionQuotaUnavailableMessage (message : string) : string :=
  let normalized := norm message in
  if Contains normalized "no active subscription" then "未配置有效订阅: " ++ message
  else if Contains normalized "subscription" && Contains normalized "quota insufficient" then "订阅窗口额度不足: " ++ message
  else "订阅不可用: " ++ message.

(** [service.PreConsumeTokenQuota] (src/service/quota.go) *)
Definition PreConsumeTokenQuota (info : RelayInfo) (quota : Z) : GM world unit :=
  if quota <? 0 then throw negative_quota
  else if ri_IsPlayground info then mret tt
  else if String.eqb (ri_BillingSource info) BillingSourceSubscription then mret tt
  else
    token ← GetTokenByKey (ri_TokenKey info) false;
    if negb (ri_TokenUnlimited info) && (t_RemainQuota token <? quota)
    then throw (ErrMsg ("token quota is not enough, token remain quota: " ++ FormatQuota (t_RemainQuota token) ++
                        ", need quota: " ++ FormatQuota quota))
    else DecreaseTokenQuota (ri_TokenId info) (ri_TokenKey info) quota.

Definition syncRelayInfo (s : BillingSession) (info : RelayInfo) : RelayInfo :=
  let info := assign_FinalPreConsumedQuota (bs_preConsumedQuota s) info in
  match bs_funding s with
  | Some (FSubscription sub) =>
      let info := assign_BillingSource BillingSourceSubscription info in
      let info := assign_SubscriptionId (sf_subscriptionId sub) info in
      let info := assign_SubscriptionPreConsumed (sf_preConsumed sub) info in
      let info := assign_SubscriptionPostDelta 0 info in
      let info := assign_SubscriptionAmountTotal (sf_AmountTotal sub) info in
      let info := assign_SubscriptionAmountUsedAfterPreConsume (sf_AmountUsedAfter sub) info in
      assign_SubscriptionPlanTitle (sf_PlanTitle sub) (assign_SubscriptionPlanId (sf_PlanId sub) info)
  | Some (FWallet _) =>
      assign_SubscriptionPreConsumed 0 (assign_SubscriptionId 0 (assign_BillingSource BillingSourceWallet info))
  | None => info
  end.

(** How a failed reservation of the funding source is reported. *)
Definition funding_error (err : error) : NewAPIError :=
  let errMsg := err_message err in
  if isSubscriptionQuotaUnavailable errMsg
  then NewErrorWithStatusCode (subscriptionQuotaUnavailableMessage errMsg) ErrorCodeInsufficientUserQuota 403
  else NewError errMsg ErrorCodeUpdateDataError.

(** The token side is returned before the error is reported. *)
Definition undo_token_reservation (info : RelayInfo) (err : error) : GM request (option NewAPIError) :=
  tokenConsumed ← sess bs_tokenConsumed;
  if (0 <? tokenConsumed) && negb (ri_IsPlayground info) then
    r ← attempting (rollbackPreConsumedTokenQuota tokenConsumed);
    match r with
    | Err rollbackErr =>
        _ ← go (TTokenRollback (ri_TokenId info) (ri_TokenKey info) tokenConsumed 5);
        mret (Some (mkAPIError ("资金预扣失败且令牌额度回退失败: " ++ err_message rollbackErr) ErrorCodeUpdateDataError 500 true true))
    | Ok _ =>
        _ ← set_sess (fun s => put_tokenQuota 0 (put_tokenConsumed 0 s));
        mret (Some (funding_error err))
    end
  else mret (Some (funding_error err)).

Definition preConsume (c : ginContext) (quota : Z) : GM request (option NewAPIError) :=
  q ← gets id;
  match rq_info q with
  | None => throw (ErrMsg "nil relay info")
  | Some info =>
      let effectiveQuota := if shouldTrust c q then 0 else quota in
      reserved_ ← (if (0 <? effectiveQuota) && tokenQuotaRequired q then
                     r ← attempting (in_world (PreConsumeTokenQuota info effectiveQuota));
                     match r with
                     | Ok _ => _ ← set_sess (put_tokenConsumed effectiveQuota); mret None
                     | Err e => mret (Some (NewErrorWithStatusCode (err_message e) ErrorCodePreConsumeTokenQuotaFailed 403))
                     end
                   else mret None);
      match reserved_ with
      | Some apiErr => mret (Some apiErr)
      | None =>
          r ← attempting (call_funding (PreConsume effectiveQuota));
          match r with
          | Err err => undo_token_reservation info err
          | Ok _ =>
              _ ← set_sess (fun s => put_quotaStateInitialized true (put_tokenQuota (bs_tokenConsumed s)
                    (put_fundingQuota effectiveQuota (put_preConsumedQuota effectiveQuota s))));
              s ← gets rq_session;
              _ ← set_info (syncRelayInfo s);
              mret None
          end
      end
  end.

(** *** Choosing the funding source *)

(** [common.NormalizeBillingPreference] (src/common/str.go) *)
Definition NormalizeBillingPreference (pref : string) : string :=
  if str_in (TrimSpace pref) ["subscription_first"; "wallet_first"; "subscription_only"; "wallet_only"]
  then TrimSpace pref else "subscription_first".

Definition billingUnavailableReason (source : string) (err : option NewAPIError) : string :=
  match err with None => "" | Some e => source ++ "不可用：" ++ ae_Err e end.

Definition newBillingUnavailableError (reasons : list string) : NewAPIError :=
  let parts := List.filter (fun r => negb (String.eqb r "")) (map TrimSpace reasons) in
  let parts := match parts with [] => ["订阅或钱包额度不足"] | _ => parts end in
  NewErrorWithStatusCode ("可用额度不足：" ++ Join parts "；") ErrorCodeInsufficientUserQuota 403.

(** A session that could not be created is discarded; its error is the answer. *)
Definition tryWallet (c : ginContext) (info : RelayInfo) (preConsumedQuota : Z) : GM request (option NewAPIError) :=
  r ← attempting (in_world (GetUserQuota (ri_UserId info) false));
  match r with
  | Err e => mret (Some (NewError (err_message e) ErrorCodeQueryDataError))
  | Ok userQuota =>
      if userQuota <=? 0
      then mret (Some (NewErrorWithStatusCode ("用户额度不足, 剩余额度: " ++ FormatQuota userQuota)
                         ErrorCodeInsufficientUserQuota 403))
      else if i64_sub userQuota preConsumedQuota <? 0
      then mret (Some (NewErrorWithStatusCode ("预扣费额度失败, 用户剩余额度: " ++ FormatQuota userQuota ++
                         ", 需要预扣费额度: " ++ FormatQuota preConsumedQuota) ErrorCodeInsufficientUserQuota 403))
      else
        _ ← set_info (assign_UserQuota userQuota);
        _ ← set_sess (fun _ => new_session (FWallet (mkWF (ri_UserId info) 0 0 0)));
        preConsume c preConsumedQuota
  end.

Definition trySubscription (c : ginContext) (info : RelayInfo) (preConsumedQuota : Z) : GM request (option NewAPIError) :=
  let subConsume := if preConsumedQuota <=? 0 then 1 else preConsumedQuota in
  let modelName := if String.eqb (cx_ProviderPublicModel c) "" then ri_OriginModelName info else cx_ProviderPublicModel c in
  _ ← set_sess (fun _ => new_session (FSubscription
        (mkSF (ri_RequestId info) (ri_UserId info) modelName subConsume 0 0 0 false 0 0 0 "")));
  preConsume c subConsume.

Definition insufficient (err : option NewAPIError) : bool :=
  match err with Some e => String.eqb (ae_errorCode e) ErrorCodeInsufficientUserQuota | None => false end.

(** [None]: the session of the state is the result. *)
Definition NewBillingSession (c : ginContext) (preConsumedQuota : Z) : GM request (option NewAPIError) :=
  i ← gets rq_info;
  match i with
  | None => mret (Some (NewError "relayInfo is nil" ErrorCodeInvalidRequest))
  | Some info =>
      let pref := NormalizeBillingPreference (ri_BillingPreference info) in
      if String.eqb pref "subscription_only" then trySubscription c info preConsumedQuota
      else if String.eqb pref "wallet_only" then tryWallet c info preConsumedQuota
      else if String.eqb pref "wallet_first" then
        walletErr ← tryWallet c info preConsumedQuota;
        if insufficient walletErr then
          subErr ← trySubscription c info preConsumedQuota;
          mret (if insufficient subErr
                then Some (newBillingUnavailableError [billingUnavailableReason "钱包" walletErr;
                                                       billingUnavailableReason "订阅" subErr])
                else subErr)
        else mret walletErr
      else
        r ← attempting (in_world (sub_call (fun db now _ =>
              (HasActiveUserSubscription db now (ri_UserId info) [ri_ProviderId info], db))));
        match r with
        | Err e => mret (Some (NewError (err_message e) ErrorCodeQueryDataError))
        | Ok false =>
            walletErr ← tryWallet c info preConsumedQuota;
            mret (if insufficient walletErr
                  then Some (newBillingUnavailableError ["订阅不可用：no active subscription";
                                                         billingUnavailableReason "钱包" walletErr])
                  else walletErr)
        | Ok true =>
            apiErr ← trySubscription c info preConsumedQuota;
            if insufficient apiErr then
              walletErr ← tryWallet c info preConsumedQuota;
              mret (if insufficient walletErr
                    then Some (newBillingUnavailableError [billingUnavailableReason "订阅" apiErr;
                                                           billingUnavailableReason "钱包" walletErr])
                    else walletErr)
            else mret apiErr
        end
  end.
End Session.
