(* ===== verification/BillingSafety.v ===== *)
(** * Money is conserved by a billing session

    The session of [src/service/billing_session.go] under every interleaving of
    its methods, its refund and rollback goroutines, other requests and
    database failures: what the funding account and the token lost is exactly
    what the session still holds; a refunded session holds nothing; a settled
    one holds exactly the settled cost on both sides. *)

From stdpp Require Import base numbers list strings pretty gmap.
From Stdlib Require Import ZArith Lia.
From S2P Require Import Prelude GoInt GoMonad GoString WindowBounds SubPlan SubUsage SubStore SubLedger Wallet Funding BillingSession.

(** The session is proved against the interface only. *)
#[local] Arguments account : simpl never.
#[local] Arguments reserved : simpl never.
#[local] Arguments funding_ok : simpl never.
#[local] Arguments Source : simpl never.
#[local] Arguments Settle : simpl never.
#[local] Arguments Refund : simpl never.

(** ** What a session holds *)

(** Amounts of one request stay below this bound (quota conversions clamp to 2^31). *)
Definition quota_bound : Z := 2 ^ 61.

(** The refund goroutine or the rollback returned the funding, and has not yet said so. *)
Definition at_funding_done (t : task) : bool :=
  match t with TRefund _ StFundingDone | TRollback _ StFundingDone _ => true | _ => false end.
Definition at_token_done (t : task) : bool :=
  match t with TRefund _ StTokenDone | TRollback _ StTokenDone _ => true | _ => false end.

Definition funding_returned (q : request) : bool :=
  bs_refundFundingDone (rq_session q) || bs_rollbackFundingDone (rq_session q) || existsb at_funding_done (rq_tasks q).
Definition token_returned (q : request) : bool :=
  bs_rollbackTokenDone (rq_session q) || existsb at_token_done (rq_tasks q).

Definition held_token (q : request) : Z := if token_returned q then 0 else bs_tokenConsumed (rq_session q).

(** The identity of the token, fixed for the request. *)
Definition same_keys (i i' : RelayInfo) : Prop :=
  ri_TokenId i' = ri_TokenId i /\ ri_TokenKey i' = ri_TokenKey i /\ ri_IsPlayground i' = ri_IsPlayground i.

(** The life-cycle flags. *)
Definition same_flags (s s' : BillingSession) : Prop :=
  bs_settled s' = bs_settled s /\ bs_refunded s' = bs_refunded s /\ bs_refundStarted s' = bs_refundStarted s /\
  bs_refundInFlight s' = bs_refundInFlight s /\ bs_refundFundingDone s' = bs_refundFundingDone s /\
  bs_refundTokenDone s' = bs_refundTokenDone s /\ bs_settlementRolledBack s' = bs_settlementRolledBack s /\
  bs_rollbackInFlight s' = bs_rollbackInFlight s /\ bs_rollbackFundingDone s' = bs_rollbackFundingDone s /\
  bs_rollbackTokenDone s' = bs_rollbackTokenDone s /\ bs_rebateApplied s' = bs_rebateApplied s /\
  bs_progressPending s' = bs_progressPending s /\ bs_pendingProgressDelta s' = bs_pendingProgressDelta s /\
  bs_pendingProgressTarget s' = bs_pendingProgressTarget s /\ bs_preConsumedQuota s' = bs_preConsumedQuota s.

Section Conservation.
Context `{Deployment} `{DBClock} `{LocalZone} `{!ClockOk}.

Definition held_funding (q : request) : money :=
  if funding_returned q then (0, 0)
  else match bs_funding (rq_session q) with Some f => reserved f | None => (0, 0) end.

(** What is left on the accounts plus what the session holds. *)
Definition funding_total (q : request) : money :=
  match bs_funding (rq_session q) with
  | Some f => madd (account f (rq_world q)) (held_funding q)
  | None => (0, 0)
  end.
Definition token_total (q : request) : Z :=
  match rq_info q with Some i => token_balance (rq_world q) (ri_TokenId i) + held_token q | None => 0 end.

(** No batch sum is near the machine range. *)
Definition room (q : request) : Prop :=
  match rq_info q with
  | Some i => Z.abs (pending (rq_world q) BatchUpdateTypeTokenQuota (ri_TokenId i)) < 2 ^ 62
  | None => True
  end.

(** The amounts of a session agree with its funding source. *)
Record core (f : funding) (i : RelayInfo) (q : request) : Prop := {
  core_funding : bs_funding (rq_session q) = Some f;
  core_info : rq_info q = Some i;
  core_batch : batch_ok (rq_world q);
  core_row : is_Some (w_tokens (rq_world q) !! ri_TokenId i);
  core_init : bs_quotaStateInitialized (rq_session q) = true;
  core_reserved : fst (reserved f) = bs_fundingQuota (rq_session q);
  core_fq : 0 <= bs_fundingQuota (rq_session q) < quota_bound;
  core_tc : 0 <= bs_tokenConsumed (rq_session q) < quota_bound;
  core_free : tokenQuotaRequired q = false -> bs_tokenConsumed (rq_session q) = 0
}.

Lemma wp_call_funding {A} (m : GM (funding * world) A) q f Q :
  bs_funding (rq_session q) = Some f ->
  wp m (f, rq_world q) (fun r '(f', w') => Q r (put_world w' (put_session (put_funding (Some f') (rq_session q)) q))) ->
  wp (call_funding m) q Q.
Proof. intros Hf Hm. unfold wp, call_funding in *. rewrite Hf. by destruct (m (f, rq_world q)) as [r [f' w']]. Qed.

Lemma required_eq q q' f f' i i' :
  bs_funding (rq_session q) = Some f -> bs_funding (rq_session q') = Some f' -> Source f' = Source f ->
  rq_info q = Some i -> rq_info q' = Some i' -> ri_IsPlayground i' = ri_IsPlayground i ->
  tokenQuotaRequired q' = tokenQuotaRequired q.
Proof. intros Ef Ef' Es Ei Ei' Ep. unfold tokenQuotaRequired. by rewrite Ef, Ef', Es, Ei, Ei', Ep. Qed.

(** The token side of one adjustment. *)
Lemma adjust_spec q i d :
  rq_info q = Some i -> batch_ok (rq_world q) -> is_Some (w_tokens (rq_world q) !! ri_TokenId i) -> room q ->
  - quota_bound < d < quota_bound ->
  wp (adjustTokenQuotaLocked d) q (fun r q' =>
    exists w', q' = put_world w' q /\ moves_token (ri_TokenId i) (- d) (rq_world q) r w').
Proof.
  intros Hi Hb Ht Hr Hd. unfold room in Hr. rewrite Hi in Hr. unfold quota_bound in Hd.
  assert (Hsame : moves_token (ri_TokenId i) (- 0) (rq_world q) (Ok tt) (rq_world q)).
  { apply token_moved_zero. }
  unfold adjustTokenQuotaLocked. destruct (Z.eqb_spec d 0) as [->|Hn].
  { apply wp_ret. exists (rq_world q). split; [by destruct q | done]. }
  apply wp_bind, wp_gets. rewrite Hi. destruct (Z.ltb_spec 0 d); apply wp_zoom; eapply wp_mono.
  - apply DecreaseTokenQuota_spec; [done | done | i64 | i64].
  - intros r w' Hm. by exists w'.
  - rewrite i64_neg_id by i64. apply IncreaseTokenQuota_spec; [done | done | i64].
  - intros r w' Hm. by exists w'.
Qed.

Lemma token_frame_balance w w' id : token_frame w w' -> token_balance w' id = token_balance w id.
Proof. intros [Ht Hb]. unfold token_balance, pending. by rewrite Ht, Hb. Qed.

(** The state in which a session may be adjusted. *)
Record live (f : funding) (i : RelayInfo) (q : request) : Prop := {
  live_core : core f i q;
  live_token : bs_tokenQuota (rq_session q) = bs_tokenConsumed (rq_session q);
  live_ok : funding_ok f (rq_world q)
}.

(** From [q] to [q'] money only moved between the accounts and the session. *)
Record adjusted (f : funding) (i : RelayInfo) (q : request) (f' : funding) (i' : RelayInfo) (q' : request) : Prop := {
  adj_live : live f' i' q';
  adj_flags : same_flags (rq_session q) (rq_session q');
  adj_tasks : rq_tasks q' = rq_tasks q;
  adj_source : Source f' = Source f;
  adj_keys : same_keys i i';
  adj_funding : madd (account f' (rq_world q')) (reserved f') = madd (account f (rq_world q)) (reserved f);
  adj_token : token_balance (rq_world q') (ri_TokenId i) + bs_tokenConsumed (rq_session q') =
              token_balance (rq_world q) (ri_TokenId i) + bs_tokenConsumed (rq_session q)
}.

(** The funding step of [applyTargetLocked]. *)
Definition fund_target (target fundingDelta : Z) : GM request unit :=
  if fundingDelta =? 0 then mret tt
  else
    _ ← call_funding (Settle fundingDelta);
    set_sess (fun s => put_fundingSettled true (put_fundingQuota target s)).

Lemma same_flags_refl s : same_flags s s.
Proof. unfold same_flags. by split_and!. Qed.
Lemma same_flags_trans s1 s2 s3 : same_flags s1 s2 -> same_flags s2 s3 -> same_flags s1 s3.
Proof. unfold same_flags. intros. destruct_and!. split_and!; congruence. Qed.
Lemma same_keys_refl i : same_keys i i.
Proof. by split_and!. Qed.

Lemma live_adjusted f i q : live f i q -> adjusted f i q f i q.
Proof. intros Hl. split; auto using same_flags_refl, same_keys_refl. Qed.

Lemma core_required f i q f' q' i' : core f i q -> bs_funding (rq_session q') = Some f' -> rq_info q' = Some i' ->
  Source f' = Source f -> same_keys i i' -> tokenQuotaRequired q' = tokenQuotaRequired q.
Proof. intros [] Hf' Hi' Hs (_ & _ & Hp). eapply required_eq; eauto. Qed.

Lemma fund_target_spec f i q target :
  live f i q -> 0 <= target < quota_bound ->
  wp (fund_target target (i64_sub target (bs_fundingQuota (rq_session q)))) q (fun r q' =>
    exists f', adjusted f i q f' i q' /\ bs_tokenConsumed (rq_session q') = bs_tokenConsumed (rq_session q) /\
               pending (rq_world q') BatchUpdateTypeTokenQuota = pending (rq_world q) BatchUpdateTypeTokenQuota /\
               match r with Ok _ => bs_fundingQuota (rq_session q') = target | Err _ => True end).
Proof.
  intros Hl Ht. pose proof Hl as [Hc Htq Hok]. pose proof Hc as [Hf Hi Hb Hrow Hin Hres Hfq Htc Hfree].
  unfold quota_bound in *. unfold fund_target. rewrite i64_sub_id by i64.
  destruct (Z.eqb_spec (target - bs_fundingQuota (rq_session q)) 0) as [E|E].
  { apply wp_ret. exists f. split_and!; [by apply live_adjusted | done | done | lia]. }
  apply wp_bind. eapply wp_call_funding; [done|]. eapply wp_mono; [apply law_settle; [done | i64 | rewrite Hres; i64]|].
  intros r [f' w'] (Hfr & Hsrc & Hok' & Hcons & Hr).
  assert (Hpend : pending w' BatchUpdateTypeTokenQuota = pending (rq_world q) BatchUpdateTypeTokenQuota)
    by (unfold pending; by rewrite (proj2 Hfr)).
  assert (Hreq : forall q', bs_funding (rq_session q') = Some f' -> rq_info q' = Some i ->
    tokenQuotaRequired q' = tokenQuotaRequired q) by (intros; eapply core_required; eauto using same_keys_refl).
  destruct r as [[]|e].
  - apply wp_modify. exists f'. split_and!; [|done..]. split; cbn; try done.
    + split; cbn; try done. split; cbn; try done.
      * unfold batch_ok. by rewrite (proj2 Hfr).
      * by rewrite (proj1 Hfr).
      * lia.
      * intros Hq. apply Hfree. by rewrite <- Hq; symmetry; apply Hreq.
    + by rewrite (token_frame_balance _ _ _ Hfr).
  - exists f'. split_and!; [|done..]. split; cbn; try done.
    + split; cbn; try done. split; cbn; try done.
      * unfold batch_ok. by rewrite (proj2 Hfr).
      * by rewrite (proj1 Hfr).
      * by rewrite Hr.
      * intros Hq. apply Hfree. by rewrite <- Hq; symmetry; apply Hreq.
    + by rewrite (token_frame_balance _ _ _ Hfr).
Qed.

Lemma same_keys_trans i1 i2 i3 : same_keys i1 i2 -> same_keys i2 i3 -> same_keys i1 i3.
Proof. unfold same_keys. intros. destruct_and!. split_and!; congruence. Qed.

Lemma adjusted_trans f1 i1 q1 f2 i2 q2 f3 i3 q3 :
  adjusted f1 i1 q1 f2 i2 q2 -> adjusted f2 i2 q2 f3 i3 q3 -> adjusted f1 i1 q1 f3 i3 q3.
Proof.
  intros [_ Hfl1 Hts1 Hs1 Hk1 Hf1 Ht1] [Hl Hfl2 Hts2 Hs2 Hk2 Hf2 Ht2]. split; try congruence; try done.
  - eauto using same_flags_trans.
  - eauto using same_keys_trans.
  - destruct Hk1 as [Hid _]. rewrite Hid in Ht2. lia.
Qed.

Lemma initialized_id s : bs_quotaStateInitialized s = true -> initializeQuotaStateLocked s = s.
Proof. unfold initializeQuotaStateLocked. by intros ->. Qed.

(** Only the token side changes: the balance moved by what the session now holds less. *)
Lemma token_side f i q w' amount :
  live f i q -> 0 <= amount < quota_bound -> (tokenQuotaRequired q = false -> amount = 0) ->
  token_moved (ri_TokenId i) (bs_tokenConsumed (rq_session q) - amount) (rq_world q) w' ->
  adjusted f i q f i (put_session (put_tokenConsumed amount (put_tokenQuota amount (rq_session q))) (put_world w' q)).
Proof.
  intros [[Hf Hi Hb Hrow Hin Hres Hfq Htc Hfree] Htq Hok] Ha Hreq Hm. pose proof (token_moved_frame _ _ _ _ Hm) as Hfr.
  destruct (law_frame f _ _ Hfr) as [Hacc Hok']. destruct Hm as (Hbal & _ & [_ Hlen] & Hrows & _ & _).
  split; cbn; try done.
  - split; cbn; try done; [|auto]. split; cbn; try done. unfold batch_ok. by rewrite Hlen. by apply Hrows.
  - by rewrite Hacc.
  - lia.
Qed.

Lemma info_side f i q d :
  live f i q -> adjusted f i q f (assign_SubscriptionPostDelta d i) (put_info (Some (assign_SubscriptionPostDelta d i)) q).
Proof.
  intros [[Hf Hi Hb Hrow Hin Hres Hfq Htc Hfree] Htq Hok]. split; cbn; try done. split; cbn; try done.
  split; cbn; try done. unfold tokenQuotaRequired in *. cbn. rewrite Hi in Hfree. done.
Qed.

(** What an adjustment to [target] achieves. *)
Definition reached (target : Z) (q : request) : Prop :=
  bs_fundingQuota (rq_session q) = target /\ bs_tokenConsumed (rq_session q) = if tokenQuotaRequired q then target else 0.

Lemma reached_info target q i d :
  rq_info q = Some i -> reached target q -> reached target (put_info (assign_SubscriptionPostDelta d <$> rq_info q) q).
Proof. intros Hi [Ha Hb]. split; [done|]. cbn. rewrite Hb. unfold tokenQuotaRequired. cbn. by rewrite Hi. Qed.

Lemma applyTarget_spec f i q target :
  live f i q -> room q -> 0 <= target < quota_bound ->
  wp (applyTargetLocked target) q (fun r q' =>
    exists f' i', adjusted f i q f' i' q' /\ match r with Ok _ => reached target q' | Err _ => True end).
Proof.
  intros Hl Hroom Ht. pose proof Hl as [Hc _ _]. pose proof Hc as [Hf Hi _ _ Hin _ _ _ _].
  unfold applyTargetLocked. rewrite (proj2 (Z.ltb_ge target 0)) by lia. apply wp_bind, wp_gets. cbn [id]. rewrite Hf, Hi.
  apply wp_bind, wp_modify. rewrite (initialized_id _ Hin).
  replace (put_session (rq_session q) q) with q by by destruct q. apply wp_bind, wp_gets, wp_bind.
  eapply wp_mono; [apply (fund_target_spec f i q target Hl Ht)|].
  intros [[]|e] q1 (f1 & Had1 & Htc1 & Hp1 & Hfq1); [|by exists f1, i].
  pose proof (adj_live _ _ _ _ _ _ Had1) as Hl1. pose proof Hl1 as [Hc1 Htq1 Hok1].
  pose proof Hc1 as [Hf1 Hi1 Hb1 Hrow1 Hin1 Hres1 Hfqb1 Htcb1 Hfree1].
  assert (Hroom1 : room q1) by (unfold room in *; rewrite Hi1; rewrite Hi in Hroom; by rewrite Hp1).
  apply wp_bind, wp_gets, wp_bind, wp_gets. unfold quota_bound in *. rewrite i64_sub_id by i64. apply wp_bind.
  set (amount := if tokenQuotaRequired q1 then target else 0).
  eapply (wp_mono _ _ (fun r q2 => exists w2, q2 = put_world w2 q1 /\
    moves_token (ri_TokenId i) (bs_tokenConsumed (rq_session q1) - amount) (rq_world q1) r w2)).
  { destruct (tokenQuotaRequired q1) eqn:Hreq.
    - destruct (Z.eqb_spec (target - bs_tokenQuota (rq_session q1)) 0) as [E0|E0]; cbn [negb andb].
      + apply wp_ret. exists (rq_world q1). split; [by destruct q1|]. subst amount.
        replace (_ - _) with 0 by lia. apply token_moved_zero.
      + eapply wp_mono; [apply (adjust_spec q1 i); [done..| unfold quota_bound; lia]|]. intros r q2 (w2 & -> & Hm).
        exists w2. split; [done|]. subst amount. replace (bs_tokenConsumed (rq_session q1) - target) with
          (- (target - bs_tokenQuota (rq_session q1))) by lia. done.
    - rewrite andb_false_r. apply wp_ret. exists (rq_world q1). split; [by destruct q1|].
      subst amount. rewrite (Hfree1 eq_refl). apply token_moved_zero. }
  intros [[]|e] q2 (w2 & -> & Hm).
  - assert (Had2 : adjusted f1 i q1 f1 i (put_session (put_tokenConsumed amount (put_tokenQuota amount (rq_session q1))) (put_world w2 q1))).
    { apply token_side; [done | subst amount; unfold quota_bound; destruct (tokenQuotaRequired q1); lia | | done].
      subst amount. by intros ->. }
    set (q2 := put_session _ _) in Had2. apply wp_bind.
    apply (wp_mono _ _ (fun r q' => r = Ok tt /\ q' = q2)).
    { subst q2 amount. destruct (tokenQuotaRequired q1); by apply wp_modify. }
    intros r q' [-> ->]. apply wp_bind, wp_gets. pose proof (adj_live _ _ _ _ _ _ Had2) as Hl2.
    assert (Hr2 : reached target q2).
    { split; [done|]. by rewrite (core_required f1 i q1 f1 q2 i Hc1 Hf1 Hi1 eq_refl (same_keys_refl i)). }
    assert (Hf2 : bs_funding (rq_session q2) = Some f1) by done. rewrite Hf2. goal_if.
    + apply wp_modify. exists f1. eexists. split.
      * eapply adjusted_trans; [exact Had1|]. eapply adjusted_trans; [exact Had2|].
        assert (Hi2 : rq_info q2 = Some i) by done. rewrite Hi2. cbn [fmap option_fmap option_map]. by apply info_side.
      * by apply (reached_info target q2 i).
    + apply wp_ret. exists f1, i. split; [eapply adjusted_trans; eauto | done].
  - exists f1, i. split; [|done]. eapply adjusted_trans; [exact Had1|].
    destruct Hm as [n ->]. destruct (law_frame f1 (rq_world q1) (set_calls n (rq_world q1)) ltac:(by split_and!)) as [Hacc Hk].
    split; cbn; auto using same_flags_refl, same_keys_refl.
    + split; cbn; [by split | done | auto].
    + by rewrite Hacc.
Qed.

(** ** The life of a session *)

(** settled, refunded, (refund: started, in flight, funding done, token done),
    (rollback: complete, in flight, funding done, token done) *)
Definition flags_of (s : BillingSession) : bool * bool * (bool * bool * bool * bool) * (bool * bool * bool * bool) :=
  (bs_settled s, bs_refunded s,
   (bs_refundStarted s, bs_refundInFlight s, bs_refundFundingDone s, bs_refundTokenDone s),
   (bs_settlementRolledBack s, bs_rollbackInFlight s, bs_rollbackFundingDone s, bs_rollbackTokenDone s)).

Definition unset : bool * bool * bool * bool := (false, false, false, false).

(** What a refund or rollback captured agrees with the flags it works on. *)
Definition captured_ok (c : captured) (at_ : stage) (fd td : bool) (amount : Z) (i : RelayInfo) : Prop :=
  ca_tokenId c = ri_TokenId i /\ ca_isPlayground c = ri_IsPlayground i /\
  match at_ with
  | StFunding => ca_fundingDone c = fd /\ ca_tokenDone c = td /\ ca_tokenAmount c = amount
  | StFundingDone => fd = false /\ ca_tokenDone c = td /\ ca_tokenAmount c = amount
  | StToken => ca_tokenDone c = td /\ ca_tokenAmount c = amount
  | StTokenDone | StFinal => True
  end.

Definition not_at_funding_done (at_ : stage) : bool := match at_ with StFundingDone => false | _ => true end.

Inductive phase (f : funding) (i : RelayInfo) (q : request) : Prop :=
  | PhaseOpen :
      live f i q -> flags_of (rq_session q) = (false, false, unset, unset) -> rq_tasks q = [] ->
      (bs_progressPending (rq_session q) = true -> 0 <= bs_pendingProgressTarget (rq_session q) < quota_bound) ->
      phase f i q
  | PhaseSettled fd td :
      core f i q -> reached (bs_fundingQuota (rq_session q)) q ->
      bs_tokenQuota (rq_session q) = bs_tokenConsumed (rq_session q) -> (fd = false -> funding_ok f (rq_world q)) ->
      flags_of (rq_session q) = (true, fd && td, unset, (fd && td, false, fd, td)) -> rq_tasks q = [] -> phase f i q
  | PhaseRollback fd td c at_ e :
      core f i q -> reached (bs_fundingQuota (rq_session q)) q ->
      bs_tokenQuota (rq_session q) = bs_tokenConsumed (rq_session q) ->
      (fd = false -> not_at_funding_done at_ = true -> funding_ok f (rq_world q)) ->
      flags_of (rq_session q) = (true, false, unset, (false, true, fd, td)) ->
      captured_ok c at_ fd td (bs_tokenConsumed (rq_session q)) i -> rq_tasks q = [TRollback c at_ e] -> phase f i q
  | PhaseRefundIdle fd td :
      core f i q -> (td = true -> bs_tokenConsumed (rq_session q) = 0) -> (fd = false -> funding_ok f (rq_world q)) ->
      flags_of (rq_session q) = (false, fd && td, (true, false, fd, td), unset) -> rq_tasks q = [] -> phase f i q
  | PhaseRefund fd td c at_ :
      core f i q -> (td = true -> bs_tokenConsumed (rq_session q) = 0) ->
      (fd = false -> not_at_funding_done at_ = true -> funding_ok f (rq_world q)) ->
      flags_of (rq_session q) = (false, false, (true, true, fd, td), unset) ->
      captured_ok c at_ fd td (bs_tokenConsumed (rq_session q)) i -> rq_tasks q = [TRefund c at_] -> phase f i q.

Definition conserves (q q' : request) : Prop := funding_total q' = funding_total q /\ token_total q' = token_total q.

(** An operation keeps the session in one of its phases and loses no money. *)
Definition keeps (q q' : request) : Prop := (exists f i, phase f i q') /\ conserves q q'.

Lemma keeps_refl f i q : phase f i q -> keeps q q.
Proof. intros Hp. split; [by exists f, i | done]. Qed.

(** The totals in terms of the flags. *)
Lemma totals_of f i q :
  bs_funding (rq_session q) = Some f -> rq_info q = Some i ->
  funding_total q = madd (account f (rq_world q)) (if funding_returned q then (0, 0) else reserved f) /\
  token_total q = token_balance (rq_world q) (ri_TokenId i) + held_token q.
Proof. intros Hf Hi. unfold funding_total, token_total, held_funding. by rewrite Hf, Hi. Qed.

Lemma flags_eq s s' : same_flags s s' -> flags_of s' = flags_of s.
Proof. unfold same_flags, flags_of. intros. destruct_and!. congruence. Qed.

Lemma returned_false q b : flags_of (rq_session q) = (b, false, unset, unset) -> rq_tasks q = [] ->
  funding_returned q = false /\ token_returned q = false.
Proof.
  unfold flags_of, unset, funding_returned, token_returned. intros Hf Ht. injection Hf as _ _ _ _ E1 _ _ _ E3 E4.
  by rewrite E1, E3, E4, Ht.
Qed.

(** An adjustment of an open session conserves. *)
Lemma adjusted_conserves f i q f' i' q' :
  live f i q -> adjusted f i q f' i' q' -> flags_of (rq_session q) = (false, false, unset, unset) -> rq_tasks q = [] ->
  conserves q q'.
Proof.
  intros [[Hf Hi _ _ _ _ _ _ _] _ _] [[[Hf' Hi' _ _ _ _ _ _ _] _ _] Hfl Hts Hsrc (Hid & _) Hfund Htok] Hflags Htasks.
  unfold conserves. destruct (totals_of f i q Hf Hi) as [-> ->]. destruct (totals_of f' i' q' Hf' Hi') as [-> ->].
  destruct (returned_false q _ Hflags Htasks) as [E1 E2].
  assert (funding_returned q' = false /\ token_returned q' = false) as [E3 E4].
  { apply (returned_false _ false); [|congruence]. by rewrite <- Hflags; apply flags_eq. }
  unfold held_token. rewrite E1, E2, E3, E4, Hid. done.
Qed.

Lemma keeps_open f i q f' i' q' :
  live f i q -> adjusted f i q f' i' q' -> flags_of (rq_session q) = (false, false, unset, unset) -> rq_tasks q = [] ->
  (bs_progressPending (rq_session q) = true -> 0 <= bs_pendingProgressTarget (rq_session q) < quota_bound) -> keeps q q'.
Proof.
  intros Hl Had Hfl Hts Hp. pose proof Had as [Hl' Hsf Hts' _ _ _ _]. split.
  - exists f', i'. apply PhaseOpen; [done | by rewrite (flags_eq _ _ Hsf) | congruence|].
    destruct Hsf as (_ & _ & _ & _ & _ & _ & _ & _ & _ & _ & _ & -> & _ & -> & _). done.
  - eapply adjusted_conserves; eauto.
Qed.

Ltac flags H := unfold flags_of, unset in H; injection H as ? ? ? ? ? ? ? ? ? ?.
Ltac use_flags :=
  repeat match goal with E : ?p (rq_session ?x) = _ |- context [?p (rq_session ?x)] => rewrite E end.
(** Rebuilds [core] for a state that agrees on the fields [core] reads. *)
Ltac same_core H := destruct H; split; assumption.

(** *** Settle *)

Lemma settle_keeps f i q a :
  phase f i q -> room q -> 0 <= a < quota_bound ->
  wp (BillingSession_Settle a) q (fun r q' =>
    keeps q q' /\ (r = Ok tt -> bs_settled (rq_session q) = false ->  bs_refunded (rq_session q) = false ->
                   bs_settled (rq_session q') = true /\ bs_rollbackFundingDone (rq_session q') = false /\
                   bs_rollbackTokenDone (rq_session q') = false /\ rq_tasks q' = [] /\ reached a q')).
Proof.
  intros Hp Hroom Ha. pose proof Hp as Hp0. unfold BillingSession_Settle. apply wp_bind, wp_gets.
  destruct Hp as [Hl Hfl Hts Hpp|fd td Hc Hre Htq Hok Hfl Hts|fd td c at_ e Hc Hre Htq Hok Hfl Hca Hts|fd td Hc Htd Hok Hfl Hts|fd td c at_ Hc Htd Hok Hfl Hca Hts];
    pose proof Hfl as Hfl'; flags Hfl'; use_flags; cbn [orb andb];
    [| solve [apply wp_ret; split; [by eapply keeps_refl | done]] ..
     | solve [apply wp_throw; split; [by eapply keeps_refl | done]] | solve [apply wp_throw; split; [by eapply keeps_refl | done]]].
  apply wp_bind, wp_modify. set (q1 := put_session _ q).
  assert (Hl1 : live f i q1) by (destruct Hl as [[] ? ?]; split; [split|..]; assumption).
  apply wp_bind. eapply wp_mono; [by apply (applyTarget_spec f i q1 a Hl1)|].
  intros [[]|e] q2 (f' & i' & Had & Hre).
  - apply wp_modify. pose proof (adj_live _ _ _ _ _ _ Had) as [Hc2 Htq2 Hok2].
    assert (Hfl2 : flags_of (rq_session q2) = (false, false, unset, unset))
      by (by rewrite (flags_eq _ _ (adj_flags _ _ _ _ _ _ Had))).
    assert (Hts2 : rq_tasks q2 = []) by (rewrite (adj_tasks _ _ _ _ _ _ Had); done).
    assert (Hcons : conserves q1 q2) by (eapply adjusted_conserves; [exact Hl1 | exact Had | exact Hfl | exact Hts]).
    split.
    + split; [|exact Hcons]. exists f', i'. apply (PhaseSettled _ _ _ false false); auto.
      * same_core Hc2.
      * destruct Hre as [E1 E2]. split; [done|]. cbn. rewrite E1. exact E2.
      * flags Hfl2. unfold flags_of, unset. cbn. use_flags. done.
    + intros _ _ _. flags Hfl2. split_and!; try done.
  - split; [|done]. eapply (keeps_open f i q1); eauto; done.
Qed.

(** *** SettleProgress *)

Lemma progress_keeps f i q d :
  phase f i q -> room q -> progress_target (rq_session q) d < quota_bound ->
  wp (SettleProgress d) q (fun r q' =>
    keeps q q' /\
    (bs_settled (rq_session q) = false -> bs_refundStarted (rq_session q) = false ->
     match r with
     | Ok _ => reached (progress_target (rq_session q) d) q' /\ bs_progressPending (rq_session q') = false
     | Err _ => bs_progressPending (rq_session q') = true /\ bs_pendingProgressDelta (rq_session q') = d /\
                bs_pendingProgressTarget (rq_session q') = progress_target (rq_session q) d /\
                bs_settled (rq_session q') = false /\ bs_refundStarted (rq_session q') = false
     end)).
Proof.
  intros Hp Hroom Ha. pose proof Hp as Hp0. unfold SettleProgress. apply wp_bind, wp_gets.
  destruct Hp as [Hl Hfl Hts Hpp|fd td Hc Hre Htq Hok Hfl Hts|fd td c at_ e Hc Hre Htq Hok Hfl Hca Hts|fd td Hc Htd Hok Hfl Hts|fd td c at_ Hc Htd Hok Hfl Hca Hts];
    pose proof Hfl as Hfl'; flags Hfl'; use_flags; cbn [orb andb];
    [| solve [apply wp_ret; split; [by eapply keeps_refl | done]] ..
     | solve [apply wp_throw; split; [by eapply keeps_refl | done]] | solve [apply wp_throw; split; [by eapply keeps_refl | done]]].
  apply wp_bind, wp_modify. rewrite (initialized_id _ (core_init _ _ _ (live_core _ _ _ Hl))).
  replace (put_session (rq_session q) q) with q by by destruct q. apply wp_bind, wp_gets, wp_bind, wp_modify.
  set (t := progress_target (rq_session q) d) in *. set (q1 := put_session _ q).
  assert (Ht : 0 <= t < quota_bound) by (split; [subst t; unfold progress_target; cbn; goal_if; lia | done]).
  assert (Hl1 : live f i q1) by (destruct Hl as [[] ? ?]; split; [split|..]; assumption).
  apply wp_bind. eapply wp_mono; [by apply (applyTarget_spec f i q1 t Hl1)|].
  intros r q2 (f' & i' & Had & Hre).
  assert (Hk : keeps q1 q2) by (eapply (keeps_open f i q1); eauto; done). destruct r as [[]|e].
  - apply wp_modify. split; [|done]. destruct Hk as [_ Hcons]. split; [|exact Hcons]. exists f', i'.
    destruct (adj_live _ _ _ _ _ _ Had) as [Hc2 Htq2 Hok2]. apply PhaseOpen; [| | | done].
    + split; [same_core Hc2 | done | done].
    + change (flags_of (rq_session q2) = (false, false, unset, unset)). by rewrite (flags_eq _ _ (adj_flags _ _ _ _ _ _ Had)).
    + cbn. rewrite (adj_tasks _ _ _ _ _ _ Had). done.
  - split; [exact Hk|]. intros _ _. destruct (adj_flags _ _ _ _ _ _ Had) as (E4 & _ & E5 & _ & _ & _ & _ & _ & _ & _ & _ & E1 & E2 & E3 & _).
    rewrite E1, E2, E3, E4, E5. cbn. by use_flags.
Qed.

(** *** Refund *)

Lemma needs_false_settled s : bs_settled s = true -> needsRefundLocked s = false.
Proof. unfold needsRefundLocked. by intros ->. Qed.

Lemma playground_free f i q : core f i q -> ri_IsPlayground i = true -> bs_tokenConsumed (rq_session q) = 0.
Proof. intros [] Hp. apply core_free0. unfold tokenQuotaRequired. by rewrite core_info0, Hp. Qed.

(** Starting the refund goroutine from a session that holds no task. *)
Lemma refund_start f i q fd td b :
  core f i q -> (td = true -> bs_tokenConsumed (rq_session q) = 0) -> (fd = false -> funding_ok f (rq_world q)) ->
  flags_of (rq_session q) = (false, false, (b, false, fd, td), unset) -> rq_tasks q = [] ->
  wp BillingSession_Refund q (fun _ q' => keeps q q' \/ q' = q).
Proof.
  intros Hc Htd Hok Hfl Hts. unfold BillingSession_Refund. apply wp_bind, wp_gets. cbn [id].
  pose proof Hfl as Hfl'. flags Hfl'. use_flags. cbn [orb]. destruct (negb (needsRefundLocked _)); [apply wp_ret; by right|].
  pose proof Hc as [Hf Hi _ _ Hin _ _ Htc _]. rewrite Hi. apply wp_bind, wp_modify, wp_bind, wp_gets, wp_modify. left.
  rewrite (initialized_id _ Hin). cbn [rq_session put_session bs_funding put_refundInFlight put_refundStarted]. rewrite Hf.
  set (cond := ri_IsPlayground i || _).
  assert (Hcond : cond = true -> bs_tokenConsumed (rq_session q) = 0).
  { subst cond. cbn. intros [Hpg|Hle]%orb_true_iff; [by eapply playground_free | apply Z.leb_le in Hle; lia]. }
  clearbody cond. set (q1 := put_tasks _ _).
  assert (Hq1 : core f i q1 /\ flags_of (rq_session q1) = (false, false, (true, true, fd, cond || td), unset) /\
                rq_world q1 = rq_world q /\ bs_tokenConsumed (rq_session q1) = bs_tokenConsumed (rq_session q) /\
                exists c, rq_tasks q1 = [TRefund c StFunding] /\
                          captured_ok c StFunding fd (cond || td) (bs_tokenConsumed (rq_session q)) i).
  { subst q1. unfold flags_of, unset. destruct cond; cbn; use_flags; rewrite Hts; cbn; (split; [same_core Hc|]); split_and!; try done; by eexists. }
  destruct Hq1 as (Hc1 & Hfl1 & Hw1 & Htc1 & c & Hts1 & Hca). clearbody q1. split.
  - exists f, i. apply (PhaseRefund f i q1 fd (cond || td) c StFunding); rewrite ?Hw1, ?Htc1; auto.
    intros [?|?]%orb_true_iff; auto.
  - pose proof Hc1 as [Hf1 Hi1 _ _ _ _ _ _ _]. unfold conserves.
    destruct (totals_of f i q Hf Hi) as [-> ->]. destruct (totals_of f i q1 Hf1 Hi1) as [-> ->].
    flags Hfl1. unfold held_token, funding_returned, token_returned. use_flags. by rewrite Hw1, Hts, Hts1.
Qed.

Lemma refund_keeps f i q : phase f i q -> wp BillingSession_Refund q (fun _ q' => keeps q q').
Proof.
  intros Hp. pose proof (keeps_refl _ _ _ Hp) as Hk.
  assert (Hstart : forall fd td b, core f i q -> (td = true -> bs_tokenConsumed (rq_session q) = 0) ->
    (fd = false -> funding_ok f (rq_world q)) -> flags_of (rq_session q) = (false, false, (b, false, fd, td), unset) ->
    rq_tasks q = [] -> wp BillingSession_Refund q (fun _ q' => keeps q q')).
  { intros. eapply wp_mono; [by eapply refund_start|]. intros r q' [?| ->]; done. }
  assert (Hstop : bs_settled (rq_session q) || bs_refunded (rq_session q) || bs_refundInFlight (rq_session q) = true ->
    wp BillingSession_Refund q (fun _ q' => keeps q q')).
  { intros E. unfold BillingSession_Refund. apply wp_bind, wp_gets. cbn [id]. rewrite E. by apply wp_ret. }
  destruct Hp as [Hl Hfl Hts Hpp|fd td Hc Hre Htq Hok Hfl Hts|fd td c at_ e Hc Hre Htq Hok Hfl Hca Hts|fd td Hc Htd Hok Hfl Hts|fd td c at_ Hc Htd Hok Hfl Hca Hts].
  - destruct Hl as [Hc Htq Hok]. by apply (Hstart false false false).
  - apply Hstop. flags Hfl. by use_flags.
  - apply Hstop. flags Hfl. by use_flags.
  - destruct (fd && td) eqn:E; [apply Hstop; flags Hfl; by use_flags|]. by apply (Hstart fd td true).
  - apply Hstop. flags Hfl. use_flags. by rewrite orb_true_r.
Qed.

(** *** RollbackSettlement *)

Lemma conserves_by f i q q' :
  core f i q -> core f i q' ->
  madd (account f (rq_world q')) (if funding_returned q' then (0, 0) else reserved f) =
  madd (account f (rq_world q)) (if funding_returned q then (0, 0) else reserved f) ->
  token_balance (rq_world q') (ri_TokenId i) + held_token q' = token_balance (rq_world q) (ri_TokenId i) + held_token q ->
  conserves q q'.
Proof.
  intros [Hf Hi _ _ _ _ _ _ _] [Hf' Hi' _ _ _ _ _ _ _]. unfold conserves.
  destruct (totals_of f i q Hf Hi) as [-> ->]. by destruct (totals_of f i q' Hf' Hi') as [-> ->].
Qed.

Lemma rollback_start f i q fd td :
  core f i q -> reached (bs_fundingQuota (rq_session q)) q ->
  bs_tokenQuota (rq_session q) = bs_tokenConsumed (rq_session q) -> (fd = false -> funding_ok f (rq_world q)) ->
  flags_of (rq_session q) = (true, false, unset, (false, false, fd, td)) -> rq_tasks q = [] ->
  wp RollbackSettlement q (fun _ q' => keeps q q').
Proof.
  intros Hc Hre Htq Hok Hfl Hts. unfold RollbackSettlement. apply wp_bind, wp_gets. cbn [id].
  pose proof Hfl as Hfl'. flags Hfl'. use_flags. cbn [orb negb]. pose proof Hc as [Hf Hi _ _ Hin _ _ _ _].
  apply wp_bind, wp_modify, wp_bind, wp_gets, wp_modify. rewrite (initialized_id _ Hin), Hi. cbn [rq_session put_session].
  set (q1 := put_tasks _ _).
  assert (Hc1 : core f i q1) by (subst q1; same_core Hc).
  assert (Hts1 : exists c, rq_tasks q1 = [TRollback c StFunding None] /\
    captured_ok c StFunding fd td (bs_tokenConsumed (rq_session q1)) i).
  { subst q1. cbn. rewrite Hts. eexists. split; [done|]. unfold captured_ok. cbn. by use_flags. }
  assert (Hfl1 : flags_of (rq_session q1) = (true, false, unset, (false, true, fd, td)))
    by (subst q1; unfold flags_of, unset; cbn; by use_flags).
  destruct Hts1 as (c & Hts1 & Hca). split.
  - exists f, i. apply (PhaseRollback f i q1 fd td c StFunding None); try assumption. intros E _. exact (Hok E).
  - apply (conserves_by f i); [done..| |]; subst q1; unfold held_token, funding_returned, token_returned;
      cbn in *; use_flags; by rewrite Hts.
Qed.

Lemma rollback_keeps f i q : phase f i q -> wp RollbackSettlement q (fun _ q' => keeps q q').
Proof.
  intros Hp. pose proof (keeps_refl _ _ _ Hp) as Hk.
  assert (Hopen : bs_settled (rq_session q) = false -> wp RollbackSettlement q (fun _ q' => keeps q q')).
  { intros E. unfold RollbackSettlement. apply wp_bind, wp_gets. cbn [id]. rewrite E. cbn [negb].
    destruct (_ || _); [by apply wp_ret|]. destruct (needsRefundLocked _); [by eapply refund_keeps | by apply wp_ret]. }
  destruct Hp as [Hl Hfl Hts Hpp|fd td Hc Hre Htq Hok Hfl Hts|fd td c at_ e Hc Hre Htq Hok Hfl Hca Hts|fd td Hc Htd Hok Hfl Hts|fd td c at_ Hc Htd Hok Hfl Hca Hts].
  - apply Hopen. flags Hfl. by use_flags.
  - destruct (fd && td) eqn:E; [|by eapply rollback_start].
    unfold RollbackSettlement. apply wp_bind, wp_gets. cbn [id]. flags Hfl. use_flags. by apply wp_ret.
  - unfold RollbackSettlement. apply wp_bind, wp_gets. cbn [id]. flags Hfl. use_flags. by apply wp_throw.
  - apply Hopen. flags Hfl. by use_flags.
  - apply Hopen. flags Hfl. by use_flags.
Qed.

(** *** Goroutines *)

Lemma core_frame f i q w' ts :
  core f i q -> token_frame (rq_world q) w' ->
  core f i (put_tasks ts (put_world w' (put_session (put_funding (Some f) (rq_session q)) q))).
Proof.
  intros [Hf Hi Hb Hrow Hin Hres Hfq Htc Hfree] [Ht Hbt]. split; cbn; try done.
  - unfold batch_ok. by rewrite Hbt.
  - by rewrite Ht.
  - intros E. apply Hfree. unfold tokenQuotaRequired in *. cbn in E. by rewrite Hf.
Qed.

Lemma core_moved f i q w' d ts :
  core f i q -> moves_token (ri_TokenId i) d (rq_world q) (Ok tt) w' -> core f i (put_tasks ts (put_world w' q)).
Proof.
  intros [Hf Hi Hb Hrow Hin Hres Hfq Htc Hfree] (_ & _ & [_ Hl] & Hrows & _). split; cbn; try done.
  - unfold batch_ok. by rewrite Hl.
  - by apply Hrows.
Qed.

(** A captured refund of the token side runs or is skipped. *)
Definition token_due (c : captured) : bool := negb (ca_tokenDone c) && (0 <? ca_tokenAmount c) && negb (ca_isPlayground c).

Lemma token_credit f i q c key :
  core f i q -> room q -> ca_tokenId c = ri_TokenId i -> 0 <= ca_tokenAmount c < quota_bound ->
  wp (in_world (IncreaseTokenQuota (ca_tokenId c) key (ca_tokenAmount c))) q (fun r q' =>
    exists w', q' = put_world w' q /\ moves_token (ri_TokenId i) (ca_tokenAmount c) (rq_world q) r w').
Proof.
  intros [Hf Hi Hb Hrow _ _ _ _ _] Hr Hid Ha. unfold room in Hr. rewrite Hi in Hr. unfold quota_bound in Ha.
  apply wp_zoom. rewrite Hid. eapply wp_mono; [apply IncreaseTokenQuota_spec; [done | done | i64]|].
  intros r w' Hm. by exists w'.
Qed.

(** Unfolds what the session holds, at known flags and tasks. *)
Ltac held Hts := unfold held_token, funding_returned, token_returned; cbn in *; use_flags; rewrite ?Hts; cbn.
Ltac flags_goal := unfold flags_of, unset; cbn; use_flags.

Lemma call_refund f i q :
  core f i q -> funding_ok f (rq_world q) ->
  wp (call_funding Refund) q (fun r q' => exists w',
    q' = put_world w' (put_session (put_funding (Some f) (rq_session q)) q) /\ token_frame (rq_world q) w' /\
    match r with
    | Ok _ => account f w' = madd (account f (rq_world q)) (reserved f)
    | Err _ => account f w' = account f (rq_world q) /\ funding_ok f w'
    end).
Proof.
  intros [Hf _ _ _ _ _ _ _ _] Hok. eapply wp_call_funding; [done|]. eapply wp_mono; [by apply law_refund|].
  intros r [f' w'] (Hfr & -> & Hr). exists w'. done.
Qed.

Section Move.
Variables (f : funding) (i : RelayInfo) (q : request) (fd td : bool) (c : captured).
Hypothesis Hc : core f i q.
Hypothesis Hroom : room q.

(** The state after a move, with the task advanced. *)
Definition moved (mk : stage -> task) (r : result (option stage)) (q' : request) : Prop :=
  exists next, r = Ok next /\
    keeps q (put_tasks (match next with Some a => [mk a] | None => [] end) q').

Lemma has_funding : negb (bool_decide (bs_funding (rq_session q) = None)) = true.
Proof. destruct Hc as [Hf _ _ _ _ _ _ _ _]. rewrite Hf. by rewrite bool_decide_eq_false_2. Qed.

Section Refunding.
Hypothesis Htd : td = true -> bs_tokenConsumed (rq_session q) = 0.
Hypothesis Hfl : flags_of (rq_session q) = (false, false, (true, true, fd, td), unset).

Lemma refund_funding :
  (fd = false -> funding_ok f (rq_world q)) -> captured_ok c StFunding fd td (bs_tokenConsumed (rq_session q)) i ->
  rq_tasks q = [TRefund c StFunding] -> wp (refund_move c StFunding) q (moved (TRefund c)).
Proof.
  intros Hok Hca Hts. pose proof Hca as (Hid & Hpg & Hcf & Hct & Hcn). cbn [refund_move]. apply wp_bind, wp_gets.
  rewrite has_funding, andb_true_r, Hcf. pose proof Hfl as Hfl'. flags Hfl'. destruct fd; cbn [negb].
  - apply wp_ret. exists (Some StToken). split; [done|]. split.
    + exists f, i. apply (PhaseRefund f i _ true td c StToken); try done. same_core Hc.
    + apply (conserves_by f i); [done | same_core Hc | |]; by held Hts.
  - apply wp_bind, wp_attempting. eapply wp_mono; [by apply (call_refund f i q Hc), Hok|].
    intros r q' (w' & -> & Hfr & Hr). apply wp_ret. eexists. split; [done|].
    pose proof (token_frame_balance _ _ (ri_TokenId i) Hfr) as Hbal. destruct r as [[]|e]; cbn [is_ok]; split.
    + exists f, i. apply (PhaseRefund f i _ false td c StFundingDone); try done. by apply core_frame.
    + apply (conserves_by f i); [done | by apply core_frame | held Hts; by rewrite Hr, madd_zero | held Hts; by rewrite Hbal].
    + exists f, i. destruct Hr as [_ Hr]. apply (PhaseRefund f i _ false td c StToken); try done. by apply core_frame.
    + destruct Hr as [Hr _]. apply (conserves_by f i); [done | by apply core_frame | held Hts; by rewrite Hr | held Hts; by rewrite Hbal].
Qed.

Lemma refund_funding_done :
  captured_ok c StFundingDone fd td (bs_tokenConsumed (rq_session q)) i ->
  rq_tasks q = [TRefund c StFundingDone] -> wp (refund_move c StFundingDone) q (moved (TRefund c)).
Proof.
  intros (Hid & Hpg & -> & Hct & Hcn) Hts. cbn [refund_move]. apply wp_bind, wp_modify, wp_ret. eexists. split; [done|].
  pose proof Hfl as Hfl'. flags Hfl'. split.
  - exists f, i. apply (PhaseRefund f i _ true td c StToken); try done; [same_core Hc | by flags_goal].
  - apply (conserves_by f i); [done | same_core Hc | |]; by held Hts.
Qed.

Lemma refund_token :
  (fd = false -> funding_ok f (rq_world q)) -> captured_ok c StToken fd td (bs_tokenConsumed (rq_session q)) i ->
  rq_tasks q = [TRefund c StToken] -> wp (refund_move c StToken) q (moved (TRefund c)).
Proof.
  intros Hok Hca Hts. pose proof Hca as (Hid & Hpg & Hct & Hcn). cbn [refund_move]. fold (token_due c).
  pose proof Hfl as Hfl'. flags Hfl'.
  assert (Hskip : forall w', same_tables (rq_world q) w' -> keeps q (put_tasks [TRefund c StFinal] (put_world w' q))).
  { intros w' Hs. destruct (law_frame f _ _ (same_tables_frame _ _ Hs)) as [Hacc Hk]. destruct Hs as [n ->].
    split; [exists f, i; apply (PhaseRefund f i _ fd td c StFinal); try done; [same_core Hc | auto]|].
    apply (conserves_by f i); [done | same_core Hc | |]; held Hts; by rewrite ?Hacc. }
  destruct (token_due c) eqn:Edue.
  2: { apply wp_ret. exists (Some StFinal). split; [done|]. destruct q. apply (Hskip _ (same_tables_refl _)). }
  pose proof (core_tc _ _ _ Hc) as Htc. apply wp_bind, wp_attempting.
  eapply wp_mono; [apply (token_credit f i q c _ Hc Hroom Hid); by rewrite Hcn|].
  intros r q' (w' & -> & Hm). apply wp_ret. eexists. split; [done|]. destruct r as [[]|e]; cbn [is_ok].
  - pose proof (token_moved_frame _ _ _ _ Hm) as Hfr. destruct (law_frame f _ _ Hfr) as [Hacc Hk].
    pose proof (core_moved f i q w' _ [TRefund c StTokenDone] Hc Hm) as Hc'. split.
    + exists f, i. apply (PhaseRefund f i _ fd td c StTokenDone); try done. auto.
    + destruct Hm as [Hbal _]. apply (conserves_by f i); [done | done | held Hts; by rewrite Hacc | held Hts].
      rewrite Hbal, Hcn. lia.
  - by apply Hskip.
Qed.

Lemma refund_token_done :
  (fd = false -> funding_ok f (rq_world q)) -> captured_ok c StTokenDone fd td (bs_tokenConsumed (rq_session q)) i ->
  rq_tasks q = [TRefund c StTokenDone] -> wp (refund_move c StTokenDone) q (moved (TRefund c)).
Proof.
  intros Hok Hca Hts. cbn [refund_move]. apply wp_bind, wp_modify, wp_ret. eexists. split; [done|].
  pose proof Hfl as Hfl'. flags Hfl'.
  assert (Hc' : core f i (put_tasks [TRefund c StFinal] (put_session (put_tokenConsumed 0 (put_refundTokenDone true (rq_session q))) q)))
    by (destruct Hc; split; try assumption; done). split.
  - exists f, i. apply (PhaseRefund f i _ fd true c StFinal); try done; [auto | by flags_goal].
  - apply (conserves_by f i); [done | done | |]; by held Hts.
Qed.

Lemma refund_final :
  (fd = false -> funding_ok f (rq_world q)) -> rq_tasks q = [TRefund c StFinal] ->
  wp (refund_move c StFinal) q (moved (TRefund c)).
Proof.
  intros Hok Hts. cbn [refund_move]. apply wp_bind, wp_modify, wp_ret. eexists. split; [done|].
  pose proof Hfl as Hfl'. flags Hfl'. set (q1 := put_tasks _ _).
  assert (Hq1 : core f i q1 /\ flags_of (rq_session q1) = (false, fd && td, (true, false, fd, td), unset) /\
    rq_world q1 = rq_world q /\ bs_tokenConsumed (rq_session q1) = bs_tokenConsumed (rq_session q) /\ rq_tasks q1 = []).
  { subst q1. flags_goal. destruct fd, td; cbn; use_flags; (split; [same_core Hc | done]). }
  destruct Hq1 as (Hc1 & Hfl1 & Hw & Htc & Hts1). clearbody q1. split.
  - exists f, i. apply (PhaseRefundIdle f i q1 fd td); rewrite ?Hw, ?Htc; auto.
  - flags Hfl1. apply (conserves_by f i); [done | done | |]; held Hts; by rewrite Hw, Hts1.
Qed.
End Refunding.

(** The state after a move of a rollback. *)
Definition rolled (r : result (option (stage * option error))) (q' : request) : Prop :=
  exists next, r = Ok next /\
    keeps q (put_tasks (match next with Some (a, e) => [TRollback c a e] | None => [] end) q').

Section RollingBack.
Variable e : option error.
Hypothesis Hre : reached (bs_fundingQuota (rq_session q)) q.
Hypothesis Htq : bs_tokenQuota (rq_session q) = bs_tokenConsumed (rq_session q).
Hypothesis Hfl : flags_of (rq_session q) = (true, false, unset, (false, true, fd, td)).

Lemma reached_frame w' ts :
  reached (bs_fundingQuota (rq_session q)) (put_tasks ts (put_world w' (put_session (put_funding (Some f) (rq_session q)) q))).
Proof.
  destruct Hc as [Hf _ _ _ _ _ _ _ _]. destruct Hre as [E1 E2]. split; [done|]. cbn. rewrite E2.
  unfold tokenQuotaRequired. cbn. by rewrite Hf.
Qed.

Lemma rollback_funding :
  (fd = false -> funding_ok f (rq_world q)) -> captured_ok c StFunding fd td (bs_tokenConsumed (rq_session q)) i ->
  rq_tasks q = [TRollback c StFunding e] -> wp (rollback_move c StFunding e) q rolled.
Proof.
  intros Hok Hca Hts. pose proof Hca as (Hid & Hpg & Hcf & Hct & Hcn). cbn [rollback_move]. apply wp_bind, wp_gets.
  rewrite has_funding, andb_true_r, Hcf. pose proof Hfl as Hfl'. flags Hfl'. destruct fd; cbn [negb].
  - apply wp_ret. exists (Some (StToken, e)). split; [done|]. split.
    + exists f, i. apply (PhaseRollback f i _ true td c StToken e); try done. same_core Hc.
    + apply (conserves_by f i); [done | same_core Hc | |]; by held Hts.
  - apply wp_bind, wp_attempting. eapply wp_mono; [by apply (call_refund f i q Hc), Hok|].
    intros r q' (w' & -> & Hfr & Hr). pose proof (token_frame_balance _ _ (ri_TokenId i) Hfr) as Hbal.
    destruct r as [[]|err]; apply wp_ret; (eexists; split; [done|]); split.
    + exists f, i. apply (PhaseRollback f i _ false td c StFundingDone e); try done; [by apply core_frame | apply reached_frame].
    + apply (conserves_by f i); [done | by apply core_frame | held Hts; by rewrite Hr, madd_zero | held Hts; by rewrite Hbal].
    + exists f, i. destruct Hr as [_ Hr]. eapply (PhaseRollback f i _ false td c StToken); try done; [by apply core_frame | apply reached_frame].
    + destruct Hr as [Hr _]. apply (conserves_by f i); [done | by apply core_frame | held Hts; by rewrite Hr | held Hts; by rewrite Hbal].
Qed.

Lemma rollback_funding_done :
  captured_ok c StFundingDone fd td (bs_tokenConsumed (rq_session q)) i ->
  rq_tasks q = [TRollback c StFundingDone e] -> wp (rollback_move c StFundingDone e) q rolled.
Proof.
  intros (Hid & Hpg & -> & Hct & Hcn) Hts. cbn [rollback_move]. apply wp_bind, wp_modify, wp_ret. eexists. split; [done|].
  pose proof Hfl as Hfl'. flags Hfl'. split.
  - exists f, i. apply (PhaseRollback f i _ true td c StToken e); try done; [same_core Hc | by flags_goal].
  - apply (conserves_by f i); [done | same_core Hc | |]; by held Hts.
Qed.

Lemma rollback_token :
  (fd = false -> funding_ok f (rq_world q)) -> captured_ok c StToken fd td (bs_tokenConsumed (rq_session q)) i ->
  rq_tasks q = [TRollback c StToken e] -> wp (rollback_move c StToken e) q rolled.
Proof.
  intros Hok Hca Hts. pose proof Hca as (Hid & Hpg & Hct & Hcn). cbn [rollback_move]. fold (token_due c).
  pose proof Hfl as Hfl'. flags Hfl'. pose proof (core_tc _ _ _ Hc) as Htc. destruct (token_due c) eqn:Edue.
  - apply wp_bind, wp_attempting. eapply wp_mono; [apply (token_credit f i q c _ Hc Hroom Hid); by rewrite Hcn|].
    intros r q' (w' & -> & Hm). destruct r as [[]|err]; apply wp_ret; (eexists; split; [done|]).
    + pose proof (token_moved_frame _ _ _ _ Hm) as Hfr. destruct (law_frame f _ _ Hfr) as [Hacc Hk].
      pose proof (core_moved f i q w' _ [TRollback c StTokenDone e] Hc Hm) as Hc'. split.
      * exists f, i. apply (PhaseRollback f i _ fd td c StTokenDone e); try done. auto.
      * destruct Hm as [Hbal _]. unfold token_due in Edue. rewrite Hct in Edue. destruct td; [done|].
        apply (conserves_by f i); [done | done | held Hts; by rewrite Hacc | held Hts]. rewrite Hbal, Hcn. lia.
    + destruct (law_frame f _ _ (same_tables_frame _ _ Hm)) as [Hacc Hk]. destruct Hm as [n ->]. split.
      * exists f, i. eapply (PhaseRollback f i _ fd td c StFinal); try done; [same_core Hc | auto].
      * apply (conserves_by f i); [done | same_core Hc | |]; held Hts; by rewrite ?Hacc.
  - apply wp_ret. eexists. split; [done|]. split.
    + exists f, i. apply (PhaseRollback f i _ fd td c StTokenDone e); try done; [same_core Hc | auto].
    + apply (conserves_by f i); [done | same_core Hc | by held Hts | held Hts].
      unfold token_due in Edue. rewrite Hct, Hcn, Hpg in Edue. destruct td; [done|]. cbn in Edue.
      destruct (ri_IsPlayground i) eqn:Epg; [by rewrite (playground_free f i q Hc Epg)|].
      rewrite andb_true_r in Edue. apply Z.ltb_ge in Edue. replace (bs_tokenConsumed (rq_session q)) with 0 by lia. done.
Qed.

Lemma rollback_token_done :
  (fd = false -> funding_ok f (rq_world q)) -> rq_tasks q = [TRollback c StTokenDone e] ->
  captured_ok c StTokenDone fd td (bs_tokenConsumed (rq_session q)) i -> wp (rollback_move c StTokenDone e) q rolled.
Proof.
  intros Hok Hts Hca. cbn [rollback_move]. apply wp_bind, wp_modify, wp_ret. eexists. split; [done|].
  pose proof Hfl as Hfl'. flags Hfl'. split.
  - exists f, i. apply (PhaseRollback f i _ fd true c StFinal e); try done; [same_core Hc | auto | by flags_goal].
  - apply (conserves_by f i); [done | same_core Hc | |]; held Hts; by rewrite ?orb_true_r.
Qed.

Lemma rollback_final :
  (fd = false -> funding_ok f (rq_world q)) -> rq_tasks q = [TRollback c StFinal e] ->
  wp (rollback_move c StFinal e) q rolled.
Proof.
  intros Hok Hts. cbn [rollback_move]. apply wp_bind, wp_modify, wp_ret. eexists. split; [done|].
  pose proof Hfl as Hfl'. flags Hfl'. set (q1 := put_tasks _ _).
  assert (Hq1 : core f i q1 /\ flags_of (rq_session q1) = (true, fd && td, unset, (fd && td, false, fd, td)) /\
    rq_world q1 = rq_world q /\ rq_info q1 = rq_info q /\ bs_funding (rq_session q1) = bs_funding (rq_session q) /\
    bs_tokenConsumed (rq_session q1) = bs_tokenConsumed (rq_session q) /\
    bs_tokenQuota (rq_session q1) = bs_tokenQuota (rq_session q) /\
    bs_fundingQuota (rq_session q1) = bs_fundingQuota (rq_session q) /\ rq_tasks q1 = []).
  { subst q1. flags_goal. destruct fd, td; cbn; use_flags; (split; [same_core Hc | done]). }
  destruct Hq1 as (Hc1 & Hfl1 & Hw & Hi & Hf & Htc & Htq1 & Hfq & Hts1). clearbody q1. split.
  - exists f, i. apply (PhaseSettled f i q1 fd td); rewrite ?Hw, ?Htc, ?Htq1; auto.
    destruct Hre as [_ E2]. split; [done|]. unfold tokenQuotaRequired in *. by rewrite Htc, Hfq, Hi, Hf.
  - flags Hfl1. apply (conserves_by f i); [done | done | |]; held Hts; by rewrite Hw, Hts1.
Qed.
End RollingBack.
End Move.

(** The session's only task makes a move. *)
Lemma run_single q t n (Q : request -> Prop) :
  rq_tasks q = [t] -> Q q ->
  wp (task_move t) q (fun r q' => exists next, r = Ok next /\ rq_tasks q' = [t] /\
    Q (put_tasks (match next with Some t' => [t'] | None => [] end) q')) ->
  wp (run_task n) q (fun _ q' => Q q').
Proof.
  intros Hts HQ Hm. unfold run_task. apply wp_bind, wp_gets. rewrite Hts. destruct n as [|n]; [|apply wp_ret; done]. cbn [lookup list_lookup].
  apply wp_bind. eapply wp_mono; [exact Hm|]. intros r q' (next & -> & Ht & Hq). apply wp_modify. rewrite Ht. by destruct next.
Qed.

Lemma move_tasks_refund c at_ q : wp (refund_move c at_) q (fun _ q' => rq_tasks q' = rq_tasks q).
Proof.
  unfold refund_move. destruct at_; repeat (apply wp_bind || apply wp_gets || apply wp_modify || apply wp_ret || done).
  - goal_if; [|by apply wp_ret]. apply wp_bind, wp_attempting. unfold call_funding, wp.
    destruct (bs_funding _); cbn; [|done]. by destruct (Refund _) as [? [? ?]].
  - goal_if; [|by apply wp_ret]. apply wp_bind, wp_attempting, wp_zoom. by apply wp_ret.
Qed.

Lemma move_tasks_rollback c at_ e q : wp (rollback_move c at_ e) q (fun _ q' => rq_tasks q' = rq_tasks q).
Proof.
  unfold rollback_move. destruct at_; repeat (apply wp_bind || apply wp_gets || apply wp_modify || apply wp_ret || done).
  - goal_if; [|goal_if; by apply wp_ret]. apply wp_bind, wp_attempting. unfold call_funding, wp.
    destruct (bs_funding _); cbn; [|done]. destruct (Refund _) as [[?|?] [? ?]]; done.
  - goal_if; [|by apply wp_ret]. apply wp_bind, wp_attempting, wp_zoom. unfold wp at 1. destruct (fst _); by apply wp_ret.
Qed.

Lemma task_keeps f i q n : phase f i q -> room q -> wp (run_task n) q (fun _ q' => keeps q q').
Proof.
  intros Hp Hroom. pose proof (keeps_refl _ _ _ Hp) as Hk.
  assert (Hnone : rq_tasks q = [] -> wp (run_task n) q (fun _ q' => keeps q q')).
  { intros Hts. unfold run_task. apply wp_bind, wp_gets. rewrite Hts. by apply wp_ret. }
  destruct Hp as [Hl Hfl Hts Hpp|fd td Hc Hre Htq Hok Hfl Hts|fd td c at_ e Hc Hre Htq Hok Hfl Hca Hts|fd td Hc Htd Hok Hfl Hts|fd td c at_ Hc Htd Hok Hfl Hca Hts];
    try (by apply Hnone).
  - apply (run_single q _ n (keeps q) Hts Hk). cbn [task_move]. apply wp_bind.
    assert (Hm : wp (rollback_move c at_ e) q (rolled q c)).
    { destruct at_.
      - eapply rollback_funding; eauto.
      - eapply rollback_funding_done; eauto.
      - eapply rollback_token; eauto.
      - eapply rollback_token_done; eauto.
      - eapply rollback_final; eauto. }
    pose proof (move_tasks_rollback c at_ e q) as Ht. unfold wp in *. destruct (rollback_move c at_ e q) as [r q'].
    destruct Hm as (next & -> & Hkeep). cbn in *. eexists. split; [done|]. split; [congruence|]. by destruct next as [[a e']|].
  - apply (run_single q _ n (keeps q) Hts Hk). cbn [task_move]. apply wp_bind.
    assert (Hm : wp (refund_move c at_) q (moved q (TRefund c))).
    { destruct at_.
      - eapply refund_funding; eauto.
      - eapply refund_funding_done; eauto.
      - eapply refund_token; eauto.
      - eapply refund_token_done; eauto.
      - eapply refund_final; eauto. }
    pose proof (move_tasks_refund c at_ q) as Ht. unfold wp in *. destruct (refund_move c at_ q) as [r q'].
    destruct Hm as (next & -> & Hkeep). cbn in *. eexists. split; [done|]. split; [congruence|]. by destruct next.
Qed.

Lemma claim_keeps f i q : phase f i q -> wp ClaimWalletConsumedForRebate q (fun _ q' => keeps q q').
Proof.
  intros Hp. pose proof (keeps_refl _ _ _ Hp) as Hk. unfold ClaimWalletConsumedForRebate. apply wp_bind, wp_gets.
  goal_if; [by apply wp_ret|]. destruct (bs_funding (rq_session q)) as [[wf|sf]|] eqn:Ef; [|by apply wp_ret..].
  apply wp_bind, wp_modify, wp_ret. split; [|done]. exists f, i. set (q1 := put_session _ q).
  assert (Hcore : core f i q -> core f i q1) by (intros Hc; same_core Hc).
  destruct Hp as [[Hc Htq Hok] Hfl Hts Hpp|fd td Hc Hre Htq Hok Hfl Hts|fd td c at_ e Hc Hre Htq Hok Hfl Hca Hts|fd td Hc Htd Hok Hfl Hts|fd td c at_ Hc Htd Hok Hfl Hca Hts].
  - apply PhaseOpen; try assumption. split; auto.
  - apply (PhaseSettled f i q1 fd td); auto.
  - apply (PhaseRollback f i q1 fd td c at_ e); auto.
  - apply (PhaseRefundIdle f i q1 fd td); auto.
  - apply (PhaseRefund f i q1 fd td c at_); auto.
Qed.

(** ** Every interleaving *)

(** Other requests, the batch updater, other goroutines: they keep the rows,
    and leave this request's reservation alone while it is held. *)
Definition others_ok (q : request) (w' : world) : Prop :=
  batch_ok w' /\
  (forall i, rq_info q = Some i -> is_Some (w_tokens w' !! ri_TokenId i)) /\
  (forall f, bs_funding (rq_session q) = Some f -> funding_returned q = false -> funding_ok f w').

(** One step, with what others moved on the two accounts meanwhile. *)
Inductive session_step (q : request) : money -> Z -> request -> Prop :=
  | step_settle a : 0 <= a < quota_bound -> room q -> session_step q (0, 0) 0 (snd (BillingSession_Settle a q))
  | step_progress d : progress_target (rq_session q) d < quota_bound -> room q -> session_step q (0, 0) 0 (snd (SettleProgress d q))
  | step_refund : session_step q (0, 0) 0 (snd (BillingSession_Refund q))
  | step_rollback : session_step q (0, 0) 0 (snd (RollbackSettlement q))
  | step_claim : session_step q (0, 0) 0 (snd (ClaimWalletConsumedForRebate q))
  | step_task n : room q -> session_step q (0, 0) 0 (snd (run_task n q))
  | step_others w' dm dt :
      others_ok q w' -> funding_total (put_world w' q) = madd (funding_total q) dm ->
      token_total (put_world w' q) = token_total q + dt -> session_step q dm dt (put_world w' q).

(** A history, with the sum of what others moved. *)
Inductive session_steps : request -> money -> Z -> request -> Prop :=
  | session_refl q : session_steps q (0, 0) 0 q
  | session_more q1 q2 q3 dm dt dm' dt' :
      session_steps q1 dm dt q2 -> session_step q2 dm' dt' q3 -> session_steps q1 (madd dm dm') (dt + dt') q3.

Lemma others_phase f i q w' : phase f i q -> others_ok q w' -> phase f i (put_world w' q).
Proof.
  intros Hp (Hb & Hrow & Hok').
  assert (Hcore : core f i q -> core f i (put_world w' q)) by (intros []; split; cbn; auto).
  assert (Hret : funding_returned (put_world w' q) = funding_returned q) by done.
  assert (Hfund : core f i q -> funding_returned q = false -> funding_ok f w') by (intros []; auto).
  destruct Hp as [[Hc Htq Hok] Hfl Hts Hpp|fd td Hc Hre Htq Hok Hfl Hts|fd td c at_ e Hc Hre Htq Hok Hfl Hca Hts|fd td Hc Htd Hok Hfl Hts|fd td c at_ Hc Htd Hok Hfl Hca Hts].
  - apply PhaseOpen; try assumption. split; auto. apply Hfund; [done|]. by apply (returned_false q false Hfl Hts).
  - apply (PhaseSettled f i _ fd td); auto. intros ->. apply Hfund; [done|]. flags Hfl. unfold funding_returned. use_flags. by rewrite Hts.
  - apply (PhaseRollback f i _ fd td c at_ e); auto. intros -> Hat. apply Hfund; [done|]. flags Hfl. unfold funding_returned. use_flags.
    rewrite Hts. by destruct at_.
  - apply (PhaseRefundIdle f i _ fd td); auto. intros ->. apply Hfund; [done|]. flags Hfl. unfold funding_returned. use_flags. by rewrite Hts.
  - apply (PhaseRefund f i _ fd td c at_); auto. intros -> Hat. apply Hfund; [done|]. flags Hfl. unfold funding_returned. use_flags.
    rewrite Hts. by destruct at_.
Qed.

Lemma step_inv f i q dm dt q' :
  phase f i q -> session_step q dm dt q' ->
  (exists f' i', phase f' i' q') /\ funding_total q' = madd (funding_total q) dm /\ token_total q' = token_total q + dt.
Proof.
  intros Hp Hs.
  assert (Hkeep : forall A (m : GM request A), wp m q (fun _ q' => keeps q q') ->
    (exists f' i', phase f' i' (snd (m q))) /\ funding_total (snd (m q)) = madd (funding_total q) (0, 0) /\
    token_total (snd (m q)) = token_total q + 0).
  { intros A m (Hx & E1 & E2). by rewrite madd_zero, Z.add_0_r. }
  destruct Hs as [a Ha Hr|d Hd Hr| | | |n Hr|w' dm dt Ho E1 E2].
  - apply Hkeep. eapply wp_mono; [by eapply settle_keeps|]. by intros r q' [? _].
  - apply Hkeep. eapply wp_mono; [by eapply progress_keeps|]. by intros r q' [? _].
  - apply Hkeep. by eapply refund_keeps.
  - apply Hkeep. by eapply rollback_keeps.
  - apply Hkeep. by eapply claim_keeps.
  - apply Hkeep. by eapply task_keeps.
  - split; [|done]. exists f, i. by apply others_phase.
Qed.

Lemma steps_inv q dm dt q' :
  session_steps q dm dt q' -> (exists f i, phase f i q) ->
  (exists f i, phase f i q') /\ funding_total q' = madd (funding_total q) dm /\ token_total q' = token_total q + dt.
Proof.
  induction 1 as [q|q1 q2 q3 dm dt dm' dt' Hs IH Hst]; intros Hp.
  - rewrite madd_zero. split_and!; [done | done | lia].
  - destruct (IH Hp) as ((f & i & Hp2) & E1 & E2). destruct (step_inv f i q2 dm' dt' q3 Hp2 Hst) as (Hp3 & E3 & E4).
    split; [done|]. rewrite E3, E1, E4, E2. split; [by rewrite madd_assoc | lia].
Qed.
End Conservation.
