(* ===== verification/BillingOpen.v ===== *)
(** * Opening a session, and the session's theorems

    [preConsume] of [src/service/billing_session.go] reserves on both sides or
    on neither; from there every history of the session conserves money. *)

From stdpp Require Import base numbers list strings pretty gmap.
From Stdlib Require Import ZArith Lia.
From S2P Require Import Prelude GoInt GoMonad GoString WindowBounds SubPlan SubUsage SubStore SubLedger Wallet Funding BillingSession BillingSafety.

#[local] Arguments account : simpl never.
#[local] Arguments reserved : simpl never.
#[local] Arguments funding_ok : simpl never.
#[local] Arguments fresh : simpl never.
#[local] Arguments Source : simpl never.
#[local] Arguments PreConsume : simpl never.

(** Token quota that background rollbacks still have to return. *)
Definition owed (ts : list task) : Z :=
  sum_by (fun t => match t with TTokenRollback _ _ r _ => r | _ => 0 end) ts.

Section Opening.
Context `{Deployment} `{DBClock} `{LocalZone} `{!ClockOk}.

Lemma token_moved_same id d w1 w2 w3 : same_tables w1 w2 -> token_moved id d w2 w3 -> token_moved id d w1 w3.
Proof. by intros [n ->]. Qed.
Lemma same_tables_trans w1 w2 w3 : same_tables w1 w2 -> same_tables w2 w3 -> same_tables w1 w3.
Proof. intros [n ->] [m ->]. by exists m. Qed.

Lemma pre_token_spec i a w :
  ri_IsPlayground i = false -> ri_BillingSource i <> BillingSourceSubscription ->
  batch_ok w -> is_Some (w_tokens w !! ri_TokenId i) -> 0 <= a < quota_bound ->
  Z.abs (pending w BatchUpdateTypeTokenQuota (ri_TokenId i)) < 2 ^ 62 ->
  wp (PreConsumeTokenQuota i a) w (moves_token (ri_TokenId i) (- a) w).
Proof.
  intros Hp Hb Hbt Ht Ha Hr. unfold quota_bound in Ha. unfold PreConsumeTokenQuota. rewrite (proj2 (Z.ltb_ge a 0)) by lia.
  rewrite Hp, (proj2 (String.eqb_neq _ _) Hb). apply wp_bind.
  apply (wp_mono _ _ (fun _ w' => same_tables w w')).
  { unfold GetTokenByKey. apply wp_bind. unfold ask, wp at 1. cbn. set (w1 := set_calls _ w).
    assert (Hs : same_tables w w1) by by eexists. destruct (if RedisEnabled then _ else _); [by apply wp_ret|].
    destruct (re_fault _); [by apply wp_throw|]. apply wp_bind, wp_gets.
    destruct (token_by_key _ _); by (apply wp_ret || apply wp_throw). }
  intros [token|e] w1 Hs; [|done]. goal_if; [by apply wp_throw|]. destruct Hs as [n ->].
  eapply wp_mono; [apply DecreaseTokenQuota_spec; [done | done | i64 | change (pending (set_calls n w)) with (pending w); i64]|].
  intros [r|e] w2; cbn; [done|]. apply same_tables_trans. by exists n.
Qed.

(** Returning the token side, up to three attempts. *)
Lemma token_undo_spec q i a :
  rq_info q = Some i -> ri_IsPlayground i = false -> 0 < a < quota_bound -> batch_ok (rq_world q) ->
  is_Some (w_tokens (rq_world q) !! ri_TokenId i) ->
  Z.abs (pending (rq_world q) BatchUpdateTypeTokenQuota (ri_TokenId i)) < 2 ^ 62 + 2 ^ 61 ->
  wp (rollbackPreConsumedTokenQuota a) q (fun r q' => exists w', q' = put_world w' q /\ moves_token (ri_TokenId i) a (rq_world q) r w').
Proof.
  intros Hi Hp Ha Hb Ht Hr. unfold quota_bound in Ha. unfold rollbackPreConsumedTokenQuota. apply wp_bind, wp_gets. rewrite Hi, Hp.
  rewrite (proj2 (Z.leb_gt a 0)) by lia. cbn [orb]. apply wp_zoom.
  eapply wp_mono; [apply (wp_retry _ _ _ (same_tables (rq_world q)) (fun _ w' => token_moved (ri_TokenId i) a (rq_world q) w'))|].
  - intros w1 [n ->]. eapply wp_mono; [apply IncreaseTokenQuota_spec; [done | done |]|].
    + change (pending (set_calls n (rq_world q))) with (pending (rq_world q)). i64.
    + intros [r|e] w2; cbn; [done|]. apply same_tables_trans. by exists n.
  - apply same_tables_refl.
  - intros [[]|e] w' Hw; exists w'; by split.
Qed.

(** A request about to reserve [a] from a new source [f]. *)
Record ready (f : funding) (i : RelayInfo) (a : Z) (q : request) : Prop := {
  ready_session : rq_session q = new_session f;
  ready_info : rq_info q = Some i;
  ready_tasks : rq_tasks q = [];
  ready_batch : batch_ok (rq_world q);
  ready_row : is_Some (w_tokens (rq_world q) !! ri_TokenId i);
  ready_room : room q;
  ready_amount : 0 <= a < quota_bound;
  ready_source : ri_BillingSource i <> BillingSourceSubscription;
  ready_fresh : fresh f a (rq_world q)
}.

(** The token side of the reservation was made: [t] was taken from the token. *)
Record token_reserved (f : funding) (i : RelayInfo) (a t : Z) (q q1 : request) : Prop := {
  tr_session : rq_session q1 = put_tokenConsumed t (new_session f);
  tr_info : rq_info q1 = Some i;
  tr_tasks : rq_tasks q1 = [];
  tr_moved : token_moved (ri_TokenId i) (- t) (rq_world q) (rq_world q1);
  tr_amount : t = if tokenQuotaRequired q then a else 0
}.

Lemma required_playground q i : rq_info q = Some i -> tokenQuotaRequired q = true -> ri_IsPlayground i = false.
Proof. unfold tokenQuotaRequired. intros ->. by destruct (ri_IsPlayground i). Qed.

Lemma token_reserved_world f i a t q q1 :
  ready f i a q -> token_reserved f i a t q q1 ->
  0 <= t <= a /\ batch_ok (rq_world q1) /\ is_Some (w_tokens (rq_world q1) !! ri_TokenId i) /\
  Z.abs (pending (rq_world q1) BatchUpdateTypeTokenQuota (ri_TokenId i)) < 2 ^ 62 + 2 ^ 61 /\
  fresh f a (rq_world q1) /\ account f (rq_world q1) = account f (rq_world q) /\
  token_balance (rq_world q1) (ri_TokenId i) = token_balance (rq_world q) (ri_TokenId i) - t.
Proof.
  intros [Hs Hi Hts Hb Hrow Hroom Ha Hsrc Hfr] [Es Ei Ets Hm Et]. pose proof (token_moved_frame _ _ _ _ Hm) as Hframe.
  destruct (law_frame f _ _ Hframe) as [Hacc _]. pose proof (law_fresh_frame f a _ _ Hframe Hfr) as Hfr1.
  destruct Hm as (Hbal & _ & [_ Hlen] & Hrows & _ & _ & Hpend). unfold room in Hroom. rewrite Hi in Hroom. unfold quota_bound in Ha.
  assert (0 <= t <= a) by (rewrite Et; destruct (tokenQuotaRequired q); lia).
  split_and!; try lia; try done; [unfold batch_ok; by rewrite Hlen | by apply Hrows].
Qed.

(** Nothing was handed back yet. *)
Definition untouched (s : BillingSession) : Prop :=
  bs_refundStarted s = false /\ bs_rollbackInFlight s = false /\ bs_rollbackFundingDone s = false /\ bs_rollbackTokenDone s = false.

(** Opening failed with [e]: no table of a funding source changed, and the
    token is as before or a goroutine owes the difference.  An error that
    lets the caller try another source leaves no goroutine behind. *)
Record refused (i : RelayInfo) (a : Z) (q : request) (e : NewAPIError) (q' : request) : Prop := {
  rf_info : rq_info q' = rq_info q;
  rf_frame : funding_frame (rq_world q) (rq_world q');
  rf_batch : batch_ok (rq_world q');
  rf_row : is_Some (w_tokens (rq_world q') !! ri_TokenId i);
  rf_pending : Z.abs (pending (rq_world q') BatchUpdateTypeTokenQuota (ri_TokenId i)) <=
               Z.abs (pending (rq_world q) BatchUpdateTypeTokenQuota (ri_TokenId i)) + 2 * a;
  rf_token : token_balance (rq_world q') (ri_TokenId i) + owed (rq_tasks q') = token_balance (rq_world q) (ri_TokenId i);
  rf_tasks : ae_errorCode e = ErrorCodeInsufficientUserQuota -> rq_tasks q' = []
}.

(** What opening achieves. *)
Definition opened (f : funding) (i : RelayInfo) (a : Z) (q : request) (r : result (option NewAPIError)) (q' : request) : Prop :=
  exists res, r = Ok res /\
  match res with
  | None =>
      (exists f' i', phase f' i' q') /\ untouched (rq_session q') /\ reached a q' /\
      funding_total q' = account f (rq_world q) /\ token_total q' = token_balance (rq_world q) (ri_TokenId i) /\
      elsewhere f (rq_world q) (rq_world q') /\
      exists f' i', bs_funding (rq_session q') = Some f' /\ rq_info q' = Some i' /\ ri_TokenId i' = ri_TokenId i /\
        Source f' = Source f /\ forall w, account f' w = account f w
  | Some e => bs_funding (rq_session q') = Some f /\ refused i a q e q'
  end.

(** The funding side failed: the token side is undone, or a goroutine owes it. *)
Lemma undo_spec f i a t q q1 w' e :
  ready f i a q -> token_reserved f i a t q q1 -> same_tables (rq_world q1) w' ->
  wp (undo_token_reservation i e) (put_world w' (put_session (put_funding (Some f) (rq_session q1)) q1)) (opened f i a q).
Proof.
  intros Hrd Htr [n ->]. pose proof (token_reserved_world _ _ _ _ _ _ Hrd Htr) as (Ht & Hb & Hrow & Hp & _ & _ & Hbal).
  pose proof (ready_amount _ _ _ _ Hrd) as Ha. pose proof (ready_info _ _ _ _ Hrd) as Ei0. destruct Htr as [Es Ei Ets Hm0 Et].
  pose proof (token_moved_frame _ _ _ _ Hm0) as Hfr. destruct Hm0 as (_ & _ & _ & _ & _ & _ & Hp0).
  unfold undo_token_reservation. apply wp_bind, wp_gets. cbn [rq_session put_world put_session bs_tokenConsumed put_funding]. rewrite Es.
  change (bs_tokenConsumed (put_tokenConsumed t (new_session f))) with t. set (q2 := put_world _ _).
  destruct (Z.ltb_spec 0 t) as [Hpos|Hzero]; cbn [andb].
  2: { apply wp_ret. eexists. split; [done|]. split; [done|]. split; try done; cbn; try congruence.
       - change (pending (set_calls n (rq_world q1))) with (pending (rq_world q1)). lia.
       - rewrite Ets. cbn. change (token_balance (set_calls n (rq_world q1))) with (token_balance (rq_world q1)). lia. }
  assert (Hpg : ri_IsPlayground i = false).
  { apply (required_playground q i); [done|]. destruct (tokenQuotaRequired q); [done | lia]. }
  rewrite Hpg. cbn [negb]. apply wp_bind, wp_attempting.
  eapply wp_mono; [apply (token_undo_spec q2 i t); try done; lia|].
  intros r q3 (w3 & -> & Hm). cbn in Hm. destruct r as [[]|e'].
  - pose proof (token_moved_frame _ _ _ _ Hm) as Hfr3. destruct Hm as (Hb3 & _ & [_ Hlen] & Hrows & _ & _ & Hp3).
    change (token_balance (set_calls n (rq_world q1))) with (token_balance (rq_world q1)) in Hb3.
    change (pending (set_calls n (rq_world q1))) with (pending (rq_world q1)) in Hp3.
    apply wp_bind, wp_modify, wp_ret. eexists. split; [done|]. split; [done|].
    split; cbn; [congruence | by eapply funding_frame_trans | unfold batch_ok; by rewrite Hlen | by apply Hrows | lia | | done].
    rewrite Ets. cbn. lia.
  - destruct Hm as [m ->]. apply wp_bind, wp_modify, wp_ret. eexists. split; [done|]. split; [done|]. split; cbn; try done; try congruence.
    + change (pending (set_calls m (set_calls n (rq_world q1)))) with (pending (rq_world q1)). lia.
    + rewrite Ets. cbn. change (token_balance (set_calls m (set_calls n (rq_world q1)))) with (token_balance (rq_world q1)). lia.
Qed.

Lemma sync_keys s i : same_keys i (syncRelayInfo s i).
Proof. unfold syncRelayInfo. destruct (bs_funding s) as [[|]|]; by split_and!. Qed.

(** Both sides reserved: the session is open. *)
Lemma open_spec f i a t q q1 f' w' :
  ready f i a q -> token_reserved f i a t q q1 -> token_frame (rq_world q1) w' -> Source f' = Source f ->
  funding_ok f' w' -> fst (reserved f') = a -> madd (account f' w') (reserved f') = account f (rq_world q1) ->
  elsewhere f (rq_world q1) w' -> (forall w, account f' w = account f w) ->
  let s := put_funding (Some f') (rq_session q1) in
  let s := put_quotaStateInitialized true (put_tokenQuota (bs_tokenConsumed s) (put_fundingQuota a (put_preConsumedQuota a s))) in
  opened f i a q (Ok None) (put_info (syncRelayInfo s <$> rq_info q1) (put_world w' (put_session s q1))).
Proof.
  intros Hrd Htr Hfr Hsrc Hok Hres Hcons Hels Hsame s0 s. pose proof (token_reserved_world _ _ _ _ _ _ Hrd Htr) as (Ht & Hb & Hrow & _ & _ & Hacc1 & Hbal).
  pose proof (ready_amount _ _ _ _ Hrd) as Ha. pose proof (ready_session _ _ _ _ Hrd) as Es0. pose proof (ready_info _ _ _ _ Hrd) as Ei0.
  destruct Htr as [Es Ei Ets Hmv Et]. pose proof (token_moved_frame _ _ _ _ Hmv) as Hmf. rewrite Ei. cbn [fmap option_fmap option_map].
  set (i' := syncRelayInfo s i). set (q2 := put_info _ _). destruct (sync_keys s i : same_keys i i') as (Kid & Kkey & Kpg). clearbody i'.
  assert (Hreq : tokenQuotaRequired q2 = tokenQuotaRequired q).
  { apply (required_eq q q2 f f' i i'); try done. by rewrite Es0. }
  assert (Htc : bs_tokenConsumed (rq_session q2) = t) by (cbn; by rewrite Es).
  assert (Hcore : core f' i' q2).
  { split; try done; rewrite ?Htc, ?Hreq.
    - unfold batch_ok. cbn. by rewrite (proj2 Hfr).
    - cbn. by rewrite Kid, (proj1 Hfr).
    - unfold quota_bound in *. lia.
    - intros E. by rewrite Et, E. }
  assert (Hfl : flags_of (rq_session q2) = (false, false, unset, unset)) by (unfold flags_of; cbn; by rewrite Es).
  assert (Hts : rq_tasks q2 = []) by done.
  exists None. split; [done|]. split_and!.
  - exists f', i'. apply PhaseOpen; [|done|done|cbn; by rewrite Es]. split; [done | | done]. cbn. by rewrite Es.
  - unfold untouched. cbn. by rewrite Es.
  - split; [done|]. by rewrite Htc, Hreq.
  - destruct (totals_of f' i' q2 eq_refl eq_refl) as [-> _]. rewrite (proj1 (returned_false q2 _ Hfl Hts)). cbn. congruence.
  - destruct (totals_of f' i' q2 eq_refl eq_refl) as [_ ->]. unfold held_token. rewrite (proj2 (returned_false q2 _ Hfl Hts)), Htc, Kid.
    cbn. rewrite (token_frame_balance _ _ _ Hfr). lia.
  - eapply law_elsewhere; [exact Hmf | exact Hels | apply funding_frame_refl].
  - by exists f', i'.
Qed.

(** The token step of [preConsume]. *)
Lemma token_step_spec f i a q (Q : result (option NewAPIError) -> request -> Prop) :
  ready f i a q ->
  (forall t q1, token_reserved f i a t q q1 -> Q (Ok None) q1) ->
  (forall e q1, opened f i a q (Ok (Some e)) q1 -> Q (Ok (Some e)) q1) ->
  wp (if (0 <? a) && tokenQuotaRequired q then
        r ← attempting (in_world (PreConsumeTokenQuota i a));
        match r with
        | Ok _ => _ ← set_sess (put_tokenConsumed a); mret None
        | Err e => mret (Some (NewErrorWithStatusCode (err_message e) ErrorCodePreConsumeTokenQuotaFailed 403))
        end
      else mret None) q Q.
Proof.
  intros Hrd Hok Herr. pose proof Hrd as [Hs Hi Hts Hb Hrow Hroom Ha Hsrc Hfr]. destruct (_ && _) eqn:E.
  - apply andb_true_iff in E as [E1 E2]. apply Z.ltb_lt in E1. apply wp_bind, wp_attempting, wp_zoom.
    eapply wp_mono; [apply pre_token_spec; try done|].
    + by apply (required_playground q).
    + unfold room in Hroom. by rewrite Hi in Hroom.
    + intros [[]|e] w1 Hm.
      * apply wp_bind, wp_modify, wp_ret. apply (Hok a). split; cbn; try done; [by rewrite Hs | by rewrite E2].
      * apply wp_ret, Herr. eexists. split; [done|]. destruct Hm as [n ->]. split; [cbn; by rewrite Hs|]. split; cbn; try done.
        -- change (pending (set_calls n (rq_world q))) with (pending (rq_world q)). lia.
        -- rewrite Hts. cbn. change (token_balance (set_calls n (rq_world q))) with (token_balance (rq_world q)). lia.
  - apply wp_ret, (Hok 0). split; try done; [apply token_moved_zero |].
    destruct (tokenQuotaRequired q); [|done]. rewrite andb_true_r in E. apply Z.ltb_ge in E. lia.
Qed.

Lemma preConsume_spec c f i quota q :
  ready f i (if shouldTrust c q then 0 else quota) q ->
  wp (preConsume c quota) q (opened f i (if shouldTrust c q then 0 else quota) q).
Proof.
  intros Hrd. unfold preConsume. apply wp_bind, wp_gets. cbn [id]. rewrite (ready_info _ _ _ _ Hrd).
  set (a := if shouldTrust c q then 0 else quota) in *. apply wp_bind, (token_step_spec f i a q _ Hrd).
  - intros t q1 Htr. apply wp_bind, wp_attempting. pose proof (token_reserved_world _ _ _ _ _ _ Hrd Htr) as (_ & _ & _ & _ & Hfr & _ & _).
    eapply (wp_call_funding _ _ f); [by rewrite (tr_session _ _ _ _ _ _ Htr)|].
    eapply wp_mono; [by apply law_reserve|]. intros r [f' w'] (Hframe & Hsrc & Hr). destruct r as [[]|e].
    + destruct Hr as (Hok & Hres & Hcons & Hels & Hsame). apply wp_bind, wp_modify, wp_bind, wp_gets, wp_bind, wp_modify, wp_ret.
      by apply (open_spec f i a t q q1 f' w').
    + destruct Hr as [-> Hs]. by eapply undo_spec.
  - intros e q1 Ho. by apply wp_ret.
Qed.
End Opening.

(** ** What the phases say *)

Section Phases.
Context `{Deployment} `{DBClock} `{LocalZone} `{!ClockOk}.

Lemma phase_core f i q : phase f i q -> core f i q.
Proof. by destruct 1 as [[? _ _] _ _ _| | | |]. Qed.

Lemma settled_flags f i q :
  phase f i q -> bs_settled (rq_session q) = true ->
  bs_refundStarted (rq_session q) = false /\ (rq_tasks q = [] -> bs_rollbackInFlight (rq_session q) = false).
Proof.
  intros Hp Hs. destruct Hp as [_ Hfl Hts _|fd td Hc _ _ _ Hfl Hts|fd td c at_ e Hc _ _ _ Hfl _ Hts|fd td Hc Htd _ Hfl Hts|fd td c at_ Hc _ _ Hfl _ Hts];
    unfold flags_of, unset in Hfl; injection Hfl as F1 F2 F3 F4 F5 F6 F7 F8 F9 F10; try congruence; split; congruence.
Qed.

(** A session that has handed nothing back holds what it reached. *)
Lemma held_untouched f i q a :
  phase f i q -> untouched (rq_session q) -> reached a q ->
  fst (held_funding q) = a /\ held_token q = if tokenQuotaRequired q then a else 0.
Proof.
  intros Hp (U1 & U2 & U3 & U4) [E1 E2].
  assert (Hr : funding_returned q = false /\ token_returned q = false /\ core f i q).
  { unfold funding_returned, token_returned.
    destruct Hp as [[Hc _ _] Hfl Hts _|fd td Hc _ _ _ Hfl Hts|fd td c at_ e Hc _ _ _ Hfl _ Hts|fd td Hc _ _ Hfl Hts|fd td c at_ Hc _ _ Hfl _ Hts];
      unfold flags_of, unset in Hfl; injection Hfl as F1 F2 F3 F4 F5 F6 F7 F8 F9 F10; try congruence;
      rewrite U3, U4, F5, Hts; done. }
  destruct Hr as (R1 & R2 & [Hf _ _ _ _ Hres _ _ _]). unfold held_funding, held_token. rewrite R1, R2, Hf, E2. split; [congruence | done].
Qed.

Lemma refunded_holds_nothing f i q : phase f i q -> bs_refunded (rq_session q) = true -> held_funding q = (0, 0) /\ held_token q = 0.
Proof.
  intros Hp Hr. unfold held_funding, held_token, funding_returned, token_returned.
  destruct Hp as [_ Hfl Hts _|fd td Hc _ _ _ Hfl Hts|fd td c at_ e Hc _ _ _ Hfl _ Hts|fd td Hc Htd _ Hfl Hts|fd td c at_ Hc _ _ Hfl _ Hts];
    unfold flags_of, unset in Hfl; injection Hfl as F1 F2 F3 F4 F5 F6 F7 F8 F9 F10; try congruence.
  - rewrite Hr in F2. symmetry in F2. apply andb_true_iff in F2 as [-> ->]. by rewrite F9, F10, F5.
  - rewrite Hr in F2. symmetry in F2. apply andb_true_iff in F2 as [-> ->]. rewrite F5, F10, Hts. cbn. by rewrite Htd.
Qed.
End Phases.

(** ** A refund completes when the database answers *)

Section Completion.
Context `{Deployment} `{DBClock} `{LocalZone} `{!ClockOk}.
Hypothesis no_fault : forall n, re_fault (reply_at n) = None.

(** [n] moves of the first goroutine. *)
Fixpoint runs (n : nat) (q : request) : request :=
  match n with O => q | S n => runs n (snd (run_task 0 q)) end.

Lemma runs_idle n q : rq_tasks q = [] -> runs n q = q.
Proof. intros Hts. induction n as [|n IH]; [done|]. cbn. unfold run_task, mbind, GM_bind, gets. by rewrite Hts. Qed.

Lemma db_call_ok {A} (f : reply -> GM world A) w :
  db_call f w = f (reply_at (w_calls w)) (set_calls (S (w_calls w)) w).
Proof. unfold db_call, mbind, GM_bind, ask. by rewrite no_fault. Qed.

Lemma token_credit_ok id key n w : 0 <= n -> exists w', IncreaseTokenQuota id key n w = (Ok tt, w').
Proof.
  intros Hn. unfold IncreaseTokenQuota. rewrite (proj2 (Z.ltb_ge n 0)) by lia. goal_if; [by eexists|].
  unfold increaseTokenQuota. rewrite db_call_ok. by eexists.
Qed.

Lemma wallet_refund_ok x w : wallet_funding_ok x w -> exists w', @Refund _ any_source (FWallet x, w) = (Ok tt, (FWallet x, w')).
Proof.
  intros (_ & Hc & Hr & Hp & Hm). cbn. unfold WalletFunding_Refund, mbind, GM_bind, this, gets. cbn.
  destruct (Z.leb_spec (wf_consumed x) 0); [by eexists|]. unfold on_world, zoom, IncreaseUserQuotaByBreakdown. cbn.
  rewrite (proj2 (Z.ltb_ge _ 0)), (proj2 (Z.ltb_ge (wf_rewardConsumed x) 0)), (proj2 (Z.ltb_ge (wf_consumed x) _)),
    (proj2 (Z.eqb_neq (wf_consumed x) 0)) by lia. cbn [orb]. rewrite db_call_ok. by eexists.
Qed.

(** Where the goroutine stands on its successful path. *)
Definition on_path (c : captured) (at_ : stage) (q : request) : Prop :=
  rq_tasks q = [TRefund c at_] /\ 0 <= ca_tokenAmount c /\
  let s := rq_session q in
  match at_ with
  | StFunding => (bs_refundFundingDone s = true /\ ca_fundingDone c = true \/
                  exists x, bs_funding s = Some (FWallet x) /\ wallet_funding_ok x (rq_world q) /\ ca_fundingDone c = false) /\
                 (bs_refundTokenDone s = true \/ token_due c = true)
  | StFundingDone => bs_refundTokenDone s = true \/ token_due c = true
  | StToken => bs_refundFundingDone s = true /\ (bs_refundTokenDone s = true \/ token_due c = true)
  | StTokenDone => bs_refundFundingDone s = true
  | StFinal => bs_refundFundingDone s = true /\ bs_refundTokenDone s = true
  end.

Lemma move_path c at_ q next q' :
  rq_tasks q = [TRefund c at_] -> refund_move c at_ q = (Ok next, q') -> rq_tasks q' = rq_tasks q ->
  snd (run_task 0 q) = put_tasks (match next with Some a => [TRefund c a] | None => [] end) q'.
Proof.
  intros Hts Hm Ht. unfold run_task, mbind, GM_bind, gets. rewrite Hts. cbn [lookup list_lookup task_move].
  unfold mbind, GM_bind. rewrite Hm. cbn. rewrite Ht, Hts. by destruct next.
Qed.

Definition finished (q : request) : Prop := rq_tasks q = [] /\ bs_refunded (rq_session q) = true.

Lemma runs_more n m q : finished (runs n q) -> finished (runs (n + m) q).
Proof.
  revert q. induction n as [|n IH]; intros q Hq; cbn in *; [|by apply IH]. rewrite runs_idle; [done | apply Hq].
Qed.

Lemma path_final c q : on_path c StFinal q -> finished (runs 1 q).
Proof.
  intros (Hts & _ & E1 & E2). cbn [runs]. erewrite move_path; [|done|reflexivity|done]. split; [done|]. cbn. by rewrite E1, E2.
Qed.

Lemma path_token_done c q : on_path c StTokenDone q -> finished (runs 2 q).
Proof.
  intros (Hts & Hn & E1). change (runs 2 q) with (runs 1 (snd (run_task 0 q))). apply (path_final c).
  erewrite move_path; [|done|reflexivity|done]. done.
Qed.

Lemma path_token c q : on_path c StToken q -> finished (runs 3 q).
Proof.
  intros (Hts & Hn & E1 & E2). change (runs 3 q) with (runs 2 (snd (run_task 0 q))). destruct (token_due c) eqn:Ed.
  - destruct (token_credit_ok (ca_tokenId c) (ca_tokenKey c) (ca_tokenAmount c) (rq_world q) Hn) as [w' Ew].
    apply (path_token_done c).
    rewrite (move_path c StToken q (Some StTokenDone) (put_world w' q) Hts); [done| |done]. cbn [refund_move]. fold (token_due c).
    rewrite Ed. unfold mbind, GM_bind, attempting, in_world, zoom. by rewrite Ew.
  - destruct E2 as [E2|?]; [|done].
    assert (Em : snd (run_task 0 q) = put_tasks [TRefund c StFinal] q).
    { rewrite (move_path c StToken q (Some StFinal) q Hts); [done| |done]. cbn [refund_move]. fold (token_due c). by rewrite Ed. }
    rewrite Em. apply (runs_more 1 1), (path_final c). done.
Qed.

Lemma path_funding_done c q : on_path c StFundingDone q -> finished (runs 4 q).
Proof.
  intros (Hts & Hn & E2). change (runs 4 q) with (runs 3 (snd (run_task 0 q))). apply (path_token c).
  erewrite move_path; [|done|reflexivity|done]. done.
Qed.

Lemma path_funding c q : on_path c StFunding q -> finished (runs 5 q).
Proof.
  intros (Hts & Hn & E1 & E2). change (runs 5 q) with (runs 4 (snd (run_task 0 q))).
  destruct E1 as [[E1 Ec]|(x & Ef & Hok & Ec)].
  - assert (Em : snd (run_task 0 q) = put_tasks [TRefund c StToken] q).
    { apply (move_path c StFunding q (Some StToken) q Hts); [|done]. cbn [refund_move]. unfold mbind, GM_bind, sess, gets. by rewrite Ec. }
    rewrite Em. apply (runs_more 3 1), (path_token c). done.
  - destruct (wallet_refund_ok x (rq_world q) Hok) as [w' Ew]. apply (path_funding_done c).
    set (q' := put_world w' (put_session (put_funding (Some (FWallet x)) (rq_session q)) q)).
    rewrite (move_path c StFunding q (Some StFundingDone) q' Hts); [done| |done]. cbn [refund_move].
    unfold mbind, GM_bind, sess, gets, attempting, call_funding. rewrite Ef, Ec. rewrite bool_decide_eq_false_2 by done. cbn [negb andb].
    rewrite Ef, Ew. done.
Qed.

(** The state a started refund is in. *)
Lemma refund_started f i q x :
  phase f i q -> bs_funding (rq_session q) = Some (FWallet x) -> bs_refundInFlight (rq_session q) = false ->
  needsRefundLocked (rq_session q) = true ->
  exists c, on_path c StFunding (snd (BillingSession_Refund q)).
Proof.
  intros Hp Hx Hif Hneed.
  assert (Hns : bs_settled (rq_session q) = false /\ bs_refunded (rq_session q) = false).
  { unfold needsRefundLocked in Hneed. by destruct (bs_settled _), (bs_refunded _). }
  assert (Hst : core f i q /\ rq_tasks q = [] /\ (bs_refundFundingDone (rq_session q) = false -> funding_ok f (rq_world q))).
  { destruct Hp as [[Hc _ Hok] Hfl Hts _|fd td Hc _ _ _ Hfl Hts|fd td c at_ e Hc _ _ _ Hfl _ Hts|fd td Hc Htd Hok Hfl Hts|fd td c at_ Hc _ _ Hfl _ Hts];
      unfold flags_of, unset in Hfl; injection Hfl as F1 F2 F3 F4 F5 F6 F7 F8 F9 F10; destruct Hns; try congruence; split_and!; try done.
    by rewrite F5. }
  destruct Hst as (Hc & Hts & Hok). destruct Hns as [Hs Hr]. pose proof Hc as [Hf Hi _ _ Hin _ _ Htc _].
  rewrite Hf in Hx. injection Hx as ->. unfold BillingSession_Refund, mbind, GM_bind, gets, id. rewrite Hs, Hr, Hif, Hneed.
  cbn [orb negb]. unfold set_sess, go, modify. rewrite (initialized_id _ Hin). cbn [snd rq_session put_session put_tasks]. rewrite Hi.
  cbn [bs_funding put_refundInFlight put_refundStarted]. rewrite Hf.
  change (bs_tokenConsumed (put_refundInFlight true (put_refundStarted true (rq_session q)))) with (bs_tokenConsumed (rq_session q)).
  destruct (ri_IsPlayground i || (bs_tokenConsumed (rq_session q) <=? 0)) eqn:E; (eexists; unfold on_path; cbn; rewrite Hts; split; [done|]);
    (split; [apply Htc|]); split.
  1, 3: destruct (bs_refundFundingDone (rq_session q)) eqn:Ed; [by left | right; exists x; split_and!; try done; by apply Hok].
  - by left.
  - apply orb_false_iff in E as [Ep El]. destruct (bs_refundTokenDone (rq_session q)) eqn:Et; [by left|]. right.
    unfold token_due. cbn. rewrite Ep. apply Z.leb_gt in El. rewrite (proj2 (Z.ltb_lt 0 _)) by lia. done.
Qed.
End Completion.

(** ** Theorems *)

Section Theorems.
Context `{Deployment} `{DBClock} `{LocalZone} `{!ClockOk}.

(** C7. Opening a session reserves on both sides or on neither.  When
    [preConsume] succeeds, the funding account and the token (unless the
    request is free of token quota) each lost exactly the effective amount,
    and the session holds it.  When it fails, the funding account is as
    before, and the token is as before or a background rollback of exactly
    the missing amount has been started. *)
Theorem reservation_is_all_or_nothing c f i quota q :
  let a := if shouldTrust c q then 0 else quota in
  ready f i a q ->
  match preConsume c quota q with
  | (Ok None, q') =>
      fst (held_funding q') = a /\ held_token q' = (if tokenQuotaRequired q' then a else 0) /\
      funding_total q' = account f (rq_world q) /\ token_total q' = token_balance (rq_world q) (ri_TokenId i)
  | (Ok (Some _), q') =>
      (exists f', bs_funding (rq_session q') = Some f' /\ account f' (rq_world q') = account f (rq_world q)) /\
      token_balance (rq_world q') (ri_TokenId i) + owed (rq_tasks q') = token_balance (rq_world q) (ri_TokenId i)
  | (Err _, _) => False
  end.
Proof.
  intros a Hrd. pose proof (preConsume_spec c f i quota q Hrd) as Hs. unfold wp in Hs.
  destruct (preConsume c quota q) as [r q'] eqn:E. cbn [fst snd] in Hs. destruct Hs as (res & -> & Ho). destruct res as [e|].
  { destruct Ho as [Ef [_ Hfr _ _ _ Ht _]]. split; [|done]. exists f. split; [done|]. apply (law_frame f _ _ Hfr). }
  destruct Ho as ((f' & i' & Hp) & Hu & Hre & Hf & Ht & _). destruct (held_untouched f' i' q' a Hp Hu Hre) as [-> ->]. done.
Qed.

(** A session opened on [f] and everything that can happen to it. *)
Definition reachable (c : ginContext) (f : funding) (i : RelayInfo) (quota : Z) (q : request) (dm : money) (dt : Z) (q' : request) : Prop :=
  ready f i (if shouldTrust c q then 0 else quota) q /\
  exists q1, preConsume c quota q = (Ok None, q1) /\ session_steps q1 dm dt q'.

Lemma reachable_inv c f i quota q dm dt q' :
  reachable c f i quota q dm dt q' ->
  (exists f' i', phase f' i' q') /\ funding_total q' = madd (account f (rq_world q)) dm /\
  token_total q' = token_balance (rq_world q) (ri_TokenId i) + dt.
Proof.
  intros (Hrd & q1 & E & Hst). pose proof (preConsume_spec c f i quota q Hrd) as Hs. unfold wp in Hs. rewrite E in Hs. cbn [fst snd] in Hs.
  destruct Hs as (res & [= <-] & Hp & _ & _ & Hf & Ht & _). destruct (steps_inv _ _ _ _ Hst Hp) as (Hp' & -> & ->). by rewrite Hf, Ht.
Qed.

(** C2. No interleaving loses or creates money.  Whatever sequence of
    settlements, progress settlements, refunds, rollbacks, goroutine moves,
    database failures and other requests follows the opening of a session,
    what is left on the funding account plus what the session holds is what
    the account had before plus what others moved; likewise for the token. *)
Theorem session_conserves_money c f i quota q dm dt q' :
  reachable c f i quota q dm dt q' ->
  exists f' i', bs_funding (rq_session q') = Some f' /\ rq_info q' = Some i' /\
    madd (account f' (rq_world q')) (held_funding q') = madd (account f (rq_world q)) dm /\
    token_balance (rq_world q') (ri_TokenId i') + held_token q' = token_balance (rq_world q) (ri_TokenId i) + dt.
Proof.
  intros Hr. destruct (reachable_inv _ _ _ _ _ _ _ _ Hr) as ((f' & i' & Hp) & Hf & Ht). exists f', i'.
  pose proof (phase_core _ _ _ Hp) as [Ef Ei _ _ _ _ _ _ _]. unfold funding_total, token_total in *. rewrite Ef, Ei in *. done.
Qed.

(** C6. A refunded session keeps nothing: once the session reports a
    completed refund (or rollback), the funding account, its reward part and
    the token are exactly what they would be had the request not been made. *)
Theorem refund_returns_everything c f i quota q dm dt q' :
  reachable c f i quota q dm dt q' -> bs_refunded (rq_session q') = true ->
  exists f' i', bs_funding (rq_session q') = Some f' /\ rq_info q' = Some i' /\
    account f' (rq_world q') = madd (account f (rq_world q)) dm /\
    token_balance (rq_world q') (ri_TokenId i') = token_balance (rq_world q) (ri_TokenId i) + dt.
Proof.
  intros Hr Hd. destruct (reachable_inv _ _ _ _ _ _ _ _ Hr) as ((f' & i' & Hp) & Hf & Ht). exists f', i'.
  pose proof (phase_core _ _ _ Hp) as [Ef Ei _ _ _ _ _ _ _]. destruct (refunded_holds_nothing _ _ _ Hp Hd) as [E1 E2].
  unfold funding_total, token_total in *. rewrite Ef, Ei, E1, E2 in *. rewrite madd_zero in Hf. split_and!; try done. lia.
Qed.

(** C5. A settlement charges the real cost.  If Settle succeeds with a cost that
    is not negative and below the bound of one request, on a session that was
    opened, is neither settled nor refunded and whose token's pending batch sum
    is not near the machine range, then, whatever partial failures, retries and
    progress came before, the funding account is down by exactly that cost; the
    token is down by exactly the cost too when the request consumes token quota,
    and is where it was when it does not (apart from what other requests moved). *)
Theorem settlement_charges_exact_cost c f i quota q dm dt q1 a q2 :
  reachable c f i quota q dm dt q1 -> room q1 -> 0 <= a < quota_bound ->
  bs_settled (rq_session q1) = false -> bs_refunded (rq_session q1) = false ->
  BillingSession_Settle a q1 = (Ok tt, q2) ->
  exists f' i', bs_funding (rq_session q2) = Some f' /\ rq_info q2 = Some i' /\
    fst (account f' (rq_world q2)) = fst (account f (rq_world q)) + fst dm - a /\
    token_balance (rq_world q2) (ri_TokenId i') =
      token_balance (rq_world q) (ri_TokenId i) + dt - (if tokenQuotaRequired q2 then a else 0).
Proof.
  intros Hr Hroom Ha Hns Hnr E. destruct (reachable_inv _ _ _ _ _ _ _ _ Hr) as ((f1 & i1 & Hp1) & Hf & Ht).
  pose proof (wp_elim _ _ _ _ _ (settle_keeps f1 i1 q1 a Hp1 Hroom Ha) E) as [[(f' & i' & Hp) [Cf Ct]] Hre].
  destruct (Hre eq_refl Hns Hnr) as (Hset & U3 & U4 & Hts & Hreached). exists f', i'.
  pose proof (phase_core _ _ _ Hp) as [Ef Ei _ _ _ _ _ _ _].
  destruct (held_untouched f' i' q2 a Hp) as [E1 E2]; [|done|].
  { destruct (settled_flags _ _ _ Hp Hset) as [U1 U2]. split_and!; try done. by apply U2. }
  rewrite Hf in Cf. rewrite Ht in Ct. unfold funding_total, token_total in *. rewrite Ef, Ei in *. split_and!; try done.
  - apply (f_equal fst) in Cf. unfold madd in Cf. cbn in Cf. lia.
  - lia.
Qed.

(** Retrying a failed progress settlement charges it once.  When
    [SettleProgress d] fails (for example after the funding side committed
    and the token side did not), repeating it until it succeeds brings both
    sides to the old amount plus [d], not plus twice [d]. *)
Theorem progress_retry_charges_once f i q d e q1 q2 :
  phase f i q -> room q -> room q1 -> bs_settled (rq_session q) = false -> bs_refundStarted (rq_session q) = false ->
  bs_progressPending (rq_session q) = false -> is_i64 d -> 0 <= bs_fundingQuota (rq_session q) + d < quota_bound ->
  SettleProgress d q = (Err e, q1) -> SettleProgress d q1 = (Ok tt, q2) ->
  reached (bs_fundingQuota (rq_session q) + d) q2 /\ conserves q q2.
Proof.
  intros Hp Hroom Hroom1 Hns Hnf Hnp Hd Hb E1 E2. set (t := bs_fundingQuota (rq_session q) + d) in *.
  assert (Ht : progress_target (rq_session q) d = t).
  { unfold progress_target. rewrite Hnp, i64_add_id by (unfold quota_bound in *; i64). goal_if; lia. }
  pose proof (wp_elim _ _ _ _ _ (progress_keeps f i q d Hp Hroom ltac:(rewrite Ht; lia)) E1) as [[(f1 & i1 & Hp1) [Cf Ct]] H1'].
  destruct (H1' Hns Hnf) as (Hpp & Hpd & Hpt & Hns1 & Hnf1). rewrite Ht in Hpt.
  assert (Ht1 : progress_target (rq_session q1) d = t).
  { unfold progress_target. rewrite Hpp, Hpd, Hpt, Z.eqb_refl. goal_if; lia. }
  pose proof (wp_elim _ _ _ _ _ (progress_keeps f1 i1 q1 d Hp1 Hroom1 ltac:(rewrite Ht1; lia)) E2) as [[_ [Cf2 Ct2]] H2'].
  destruct (H2' Hns1 Hnf1) as [Hre _]. rewrite Ht1 in Hre. split; [done|]. split; congruence.
Qed.

(** C9. Settling and refunding exclude each other.  In every reachable
    state a session is not both settled and being refunded; once a refund has
    started, [Settle] and [SettleProgress] fail and change nothing; once the
    session is settled, [Refund] changes nothing. *)
Theorem settle_and_refund_exclude c f i quota q dm dt q' :
  reachable c f i quota q dm dt q' ->
  (bs_settled (rq_session q') = true -> bs_refundStarted (rq_session q') = false) /\
  (bs_refundStarted (rq_session q') = true -> forall a,
     is_ok (fst (BillingSession_Settle a q')) = false /\ snd (BillingSession_Settle a q') = q' /\
     is_ok (fst (SettleProgress a q')) = false /\ snd (SettleProgress a q') = q') /\
  (bs_settled (rq_session q') = true -> BillingSession_Refund q' = (Ok tt, q')).
Proof.
  intros Hr. destruct (reachable_inv _ _ _ _ _ _ _ _ Hr) as ((f' & i' & Hp) & _). split_and!.
  - intros Hs. by apply (settled_flags _ _ _ Hp Hs).
  - intros Hs a. unfold BillingSession_Settle, SettleProgress, mbind, GM_bind, gets. rewrite Hs. done.
  - intros Hs. unfold BillingSession_Refund, mbind, GM_bind, gets, id. by rewrite Hs.
Qed.

(** A refund completes.  While the database answers, a wallet-funded
    session that needs a refund and has none in flight is fully refunded
    after the call of [Refund] and at most five moves of its goroutine. *)
Theorem refund_completes f i q x :
  (forall n, re_fault (reply_at n) = None) -> phase f i q -> bs_funding (rq_session q) = Some (FWallet x) ->
  bs_refundInFlight (rq_session q) = false -> needsRefundLocked (rq_session q) = true ->
  let q' := runs 5 (snd (BillingSession_Refund q)) in
  bs_refunded (rq_session q') = true /\ rq_tasks q' = [].
Proof.
  intros Hnf Hp Hx Hif Hneed. destruct (refund_started f i q x Hp Hx Hif Hneed) as [c Hc].
  by destruct (path_funding Hnf c _ Hc) as [? ?].
Qed.
End Theorems.

(** ** A concrete session *)

Definition demo_info : RelayInfo :=
  mkRI 1 7 "sk" false false false false "req-1" "gpt" 0 0 "" "" "wallet_only" 0 0 "" 0 0 0 0 0 0 "" 0 0.
Definition demo_context : ginContext := mkContext 500 0 0 "" "" 0 0 0.
Definition demo_start : request :=
  mkRequest (new_session (FWallet (mkWF 1 0 0 0))) (Some demo_info) (one_user 1000 300 500 no_batch) [].

Definition demo_process (n m : nat) : Deployment := local_process false n m.
#[export] Instance demo_clock n m : @ClockOk (demo_process n m).
Proof. apply local_clock. Defined.
Definition demo_zone : LocalZone := 0.
Definition demo_dbclock : DBClock := 0.
#[local] Existing Instance demo_zone.
#[local] Existing Instance demo_dbclock.

Section Steady.
(** No call fails. *)
#[local] Instance steady : Deployment := demo_process 0 0.
#[local] Instance steady_clock : ClockOk := demo_clock 0 0.

Lemma demo_ready : ready (FWallet (mkWF 1 0 0 0)) demo_info (if shouldTrust demo_context demo_start then 0 else 400) demo_start.
Proof. by split. Defined.

Definition demo_opened : request := snd (preConsume demo_context 400 demo_start).

Lemma reservation_is_all_or_nothing_witness :
  fst (preConsume demo_context 400 demo_start) = Ok None /\ token_balance (rq_world demo_opened) 7 + held_token demo_opened = 500.
Proof.
  pose proof (reservation_is_all_or_nothing demo_context _ _ 400 demo_start demo_ready) as Ht.
  split; [vm_compute; reflexivity|]. vm_compute in Ht. destruct Ht as (_ & _ & _ & Ht). exact Ht.
Defined.

Lemma demo_reachable q :
  session_steps demo_opened (0, 0) 0 q -> reachable demo_context (FWallet (mkWF 1 0 0 0)) demo_info 400 demo_start (0, 0) 0 q.
Proof. intros Hs. split; [apply demo_ready|]. exists demo_opened. split; [vm_compute; reflexivity | exact Hs]. Defined.

(** Settled to 650: 250 more from the wallet and the token. *)
Definition demo_settled : request := snd (BillingSession_Settle 650 demo_opened).

Lemma demo_settled_steps : session_steps demo_opened (0, 0) 0 demo_settled.
Proof.
  unfold demo_settled. apply (session_more _ demo_opened _ (0, 0) 0 (0, 0) 0); [apply session_refl|].
  apply (step_settle demo_opened 650); [unfold quota_bound; lia | vm_compute; reflexivity].
Defined.

Lemma session_conserves_money_witness :
  exists f' i', bs_funding (rq_session demo_settled) = Some f' /\ rq_info demo_settled = Some i' /\
    madd (account f' (rq_world demo_settled)) (held_funding demo_settled) = (1000, 300) /\
    token_balance (rq_world demo_settled) (ri_TokenId i') + held_token demo_settled = 500.
Proof.
  exact (session_conserves_money demo_context (FWallet (mkWF 1 0 0 0)) demo_info 400 demo_start (0, 0) 0 demo_settled
           (demo_reachable _ demo_settled_steps)).
Defined.

(** Refunded: the call, then the five moves of its goroutine. *)
Definition demo_refunding (n : nat) : request := runs n (snd (BillingSession_Refund demo_opened)).

Lemma demo_refunding_S n : demo_refunding (S n) = snd (run_task 0 (demo_refunding n)).
Proof. unfold demo_refunding. generalize (snd (BillingSession_Refund demo_opened)). induction n as [|n IH]; intros q; [done|]. apply IH. Qed.

Lemma demo_refund_steps : session_steps demo_opened (0, 0) 0 (demo_refunding 5).
Proof.
  assert (H0 : session_steps demo_opened (0, 0) 0 (demo_refunding 0)).
  { apply (session_more _ demo_opened _ (0, 0) 0 (0, 0) 0); [apply session_refl | apply step_refund]. }
  assert (HS : forall n, room (demo_refunding n) -> session_steps demo_opened (0, 0) 0 (demo_refunding n) -> session_steps demo_opened (0, 0) 0 (demo_refunding (S n))).
  { intros n Hr Hn. rewrite demo_refunding_S. apply (session_more _ (demo_refunding n) _ (0, 0) 0 (0, 0) 0); [done | by apply step_task]. }
  do 5 (apply HS; [vm_compute; reflexivity|]). exact H0.
Qed.


Lemma refund_returns_everything_witness :
  exists f' i', bs_funding (rq_session (demo_refunding 5)) = Some f' /\ rq_info (demo_refunding 5) = Some i' /\
    account f' (rq_world (demo_refunding 5)) = (1000, 300) /\ token_balance (rq_world (demo_refunding 5)) (ri_TokenId i') = 500.
Proof.
  apply (refund_returns_everything demo_context (FWallet (mkWF 1 0 0 0)) demo_info 400 demo_start (0, 0) 0 (demo_refunding 5)).
  - exact (demo_reachable _ demo_refund_steps).
  - vm_compute. reflexivity.
Defined.

Lemma settlement_charges_exact_cost_witness :
  exists f' i', bs_funding (rq_session demo_settled) = Some f' /\ rq_info demo_settled = Some i' /\
    fst (account f' (rq_world demo_settled)) = 1000 + 0 - 650 /\
    token_balance (rq_world demo_settled) (ri_TokenId i') = 500 + 0 - 650.
Proof.
  apply (settlement_charges_exact_cost demo_context (FWallet (mkWF 1 0 0 0)) demo_info 400 demo_start (0, 0) 0 demo_opened 650 demo_settled).
  - apply demo_reachable, session_refl.
  - vm_compute. reflexivity.
  - unfold quota_bound. lia.
  - vm_compute. reflexivity.
  - vm_compute. reflexivity.
  - vm_compute. reflexivity.
Defined.

Lemma settle_and_refund_exclude_witness : BillingSession_Refund demo_settled = (Ok tt, demo_settled).
Proof.
  apply (settle_and_refund_exclude demo_context (FWallet (mkWF 1 0 0 0)) demo_info 400 demo_start (0, 0) 0 demo_settled).
  - exact (demo_reachable _ demo_settled_steps).
  - vm_compute. reflexivity.
Defined.

Lemma demo_phase : exists f i, phase f i demo_opened.
Proof. destruct (reachable_inv _ _ _ _ _ _ _ _ (demo_reachable _ (session_refl demo_opened))) as [Hp _]. exact Hp. Qed.

Lemma refund_completes_witness : bs_refunded (rq_session (demo_refunding 5)) = true.
Proof.
  destruct demo_phase as (f & i & Hp).
  apply (refund_completes f i demo_opened (mkWF 1 400 300 100)); [reflexivity | exact Hp | vm_compute; reflexivity..].
Defined.
End Steady.

Section Flaky.
(** Call 4 fails: the token side of the first progress settlement. *)
#[local] Instance flaky : Deployment := demo_process 4 5.
#[local] Instance flaky_clock : ClockOk := demo_clock 4 5.

Definition flaky_opened : request := snd (preConsume demo_context 400 demo_start).
Definition flaky_failed : request := snd (SettleProgress 50 flaky_opened).
Definition flaky_retried : request := snd (SettleProgress 50 flaky_failed).

Lemma flaky_phase : exists f i, phase f i flaky_opened.
Proof.
  assert (Hr : ready (FWallet (mkWF 1 0 0 0)) demo_info (if shouldTrust demo_context demo_start then 0 else 400) demo_start) by by split.
  destruct (reachable_inv demo_context (FWallet (mkWF 1 0 0 0)) demo_info 400 demo_start (0, 0) 0 flaky_opened) as [Hp _]; [|exact Hp].
  split; [exact Hr|]. exists flaky_opened. split; [vm_compute; reflexivity | apply session_refl].
Qed.

Lemma progress_retry_charges_once_witness :
  is_ok (fst (SettleProgress 50 flaky_opened)) = false /\ reached 450 flaky_retried /\ conserves flaky_opened flaky_retried.
Proof.
  split; [vm_compute; reflexivity|]. destruct flaky_phase as (f & i & Hp).
  apply (progress_retry_charges_once f i flaky_opened 50 (ErrMsg "database is locked") flaky_failed flaky_retried);
    [exact Hp | vm_compute; reflexivity .. | unfold is_i64, min_i64, max_i64; lia | vm_compute; split; discriminate || reflexivity | vm_compute; reflexivity | vm_compute; reflexivity].
Defined.
End Flaky.
