(* ===== verification/BillingChoice.v ===== *)
(** * Choosing who pays

    [NewBillingSession] of [src/service/billing_session.go] tries the wallet,
    the subscription, or one after the other, as the user's billing preference
    says.  The theorems show that a request that is refused costs nothing,
    whichever sources were tried, and that a request that is accepted is
    charged to exactly one source, for exactly the reserved amount. *)

From stdpp Require Import base numbers list strings pretty gmap.
From Stdlib Require Import ZArith Lia.
From S2P Require Import Prelude GoInt GoMonad GoString QuotaPolicy WindowBounds SubPlan SubUsage SubStore SubSafety SubLedger Wallet Funding BillingSession BillingSafety BillingOpen.

#[local] Arguments PreConsume : simpl never.
#[local] Arguments preConsume : simpl never.

(** ** What each attempt starts from *)

(** The sources [NewBillingSession] builds. *)
Definition wallet_of (i : RelayInfo) : funding := FWallet (mkWF (ri_UserId i) 0 0 0).
Definition sub_amount (quota : Z) : Z := if quota <=? 0 then 1 else quota.
Definition subscription_of (c : ginContext) (i : RelayInfo) (quota : Z) : funding :=
  FSubscription (mkSF (ri_RequestId i) (ri_UserId i)
    (if String.eqb (cx_ProviderPublicModel c) "" then ri_OriginModelName i else cx_ProviderPublicModel c)
    (sub_amount quota) 0 0 0 false 0 0 0 "").

(** A request of [i] for [quota] with a new request id and room for [k]
    attempts.  Attempts change the user quota noted on the relay info only. *)
Record billable (i : RelayInfo) (quota k : Z) (q : request) : Prop := {
  bl_info : exists v, rq_info q = Some (assign_UserQuota v i);
  bl_tasks : rq_tasks q = [];
  bl_batch : batch_ok (rq_world q);
  bl_token : is_Some (w_tokens (rq_world q) !! ri_TokenId i);
  bl_user : is_Some (w_users (rq_world q) !! ri_UserId i);
  bl_room : Z.abs (pending (rq_world q) BatchUpdateTypeTokenQuota (ri_TokenId i)) + 2 * (quota + 1) * k < 2 ^ 62;
  bl_amount : 0 <= quota < quota_bound - 1;
  bl_source : ri_BillingSource i <> BillingSourceSubscription;
  bl_request : TrimSpace (ri_RequestId i) <> "";
  bl_records : unique_records (w_subdb (rq_world q)) /\ ids_below (w_subdb (rq_world q));
  bl_new : find_record (w_subdb (rq_world q)) (ri_RequestId i) = None
}.

Section Choice.
Context `{Deployment} `{DBClock} `{LocalZone} `{!ClockOk}.

(** [f] is charged [a], nothing else is. *)
Record charged_to (f : funding) (a : Z) (i : RelayInfo) (w : world) (q' : request) : Prop := {
  ct_phase : exists f' i', phase f' i' q';
  ct_source : exists f', bs_funding (rq_session q') = Some f' /\ Source f' = Source f;
  ct_funding : fst (held_funding q') = a;
  ct_tokens : held_token q' = if tokenQuotaRequired q' then a else 0;
  ct_account : madd (account f (rq_world q')) (held_funding q') = account f w;
  ct_token : token_balance (rq_world q') (ri_TokenId i) + held_token q' = token_balance w (ri_TokenId i);
  ct_elsewhere : elsewhere f w (rq_world q')
}.

(** Nobody was charged. *)
Definition free_of_charge (i : RelayInfo) (w : world) (q' : request) : Prop :=
  funding_frame w (rq_world q') /\ token_balance (rq_world q') (ri_TokenId i) + owed (rq_tasks q') = token_balance w (ri_TokenId i).

(** The source and the amount that may pay for [i]. *)
Definition payer (c : ginContext) (i : RelayInfo) (quota : Z) (f : funding) (a : Z) : Prop :=
  (f = wallet_of i /\ (a = quota \/ a = 0)) \/ (f = subscription_of c i quota /\ a = sub_amount quota).

(** The outcome of an attempt from [q]; [k] attempts are left. *)
Definition attempted (c : ginContext) (i : RelayInfo) (quota k : Z) (w : world) (r : result (option NewAPIError)) (q' : request) : Prop :=
  exists res, r = Ok res /\
  match res with
  | None => exists f a, payer c i quota f a /\ charged_to f a i w q'
  | Some e => free_of_charge i w q' /\ (insufficient (Some e) = true -> billable i quota k q')
  end.

Lemma insufficient_code e : insufficient (Some e) = true -> ae_errorCode e = ErrorCodeInsufficientUserQuota.
Proof. cbn. apply String.eqb_eq. Qed.

Lemma billable_calls i quota k n q w : billable i quota k q -> rq_world q = w -> billable i quota k (put_world (set_calls n w) q).
Proof. intros [? ? ? ? ? ? ? ? ? ? ?] <-. by split. Qed.
Lemma billable_fewer i quota k q : billable i quota k q -> billable i quota (k - 1) q.
Proof. intros [? ? ? ? ? ? ? ? ? ? ?]. split; try done. nia. Qed.
Lemma free_self i q : rq_tasks q = [] -> free_of_charge i (rq_world q) q.
Proof. intros E. split; [apply funding_frame_refl|]. rewrite E. cbn. lia. Qed.

Lemma same_tables_self w : same_tables w w.
Proof. exists (w_calls w). by destruct w. Qed.

(** An attempt that stops before it changes anything. *)
Lemma attempted_early c i quota k q n e :
  billable i quota k q -> attempted c i quota (k - 1) (rq_world q) (Ok (Some e)) (put_world (set_calls n (rq_world q)) q).
Proof.
  intros Hb. eexists. split; [done|]. split.
  - destruct (free_self i q (bl_tasks _ _ _ _ Hb)). by split.
  - intros _. by apply billable_fewer, billable_calls.
Qed.

(** What [opened] says, seen from the caller's world. *)
Lemma opened_charged f i i0 a q q' w :
  opened f i a q (Ok None) q' -> same_tables w (rq_world q) -> ri_TokenId i = ri_TokenId i0 -> charged_to f a i0 w q'.
Proof.
  intros (res & [= <-] & (f' & i' & Hp) & Hu & Hre & Hf & Ht & Hels & f2 & i2 & Ef & Ei & Hid & Hsrc & Hsame) Hs E0.
  pose proof (same_tables_frame _ _ Hs) as Hw. destruct Hs as [n Hs].
  destruct (held_untouched f' i' q' a Hp Hu Hre) as [Hh1 Hh2]. pose proof (phase_core _ _ _ Hp) as [Ef' Ei' _ _ _ _ _ _ _].
  rewrite Ef' in Ef. rewrite Ei' in Ei. simplify_eq. unfold funding_total in Hf. unfold token_total in Ht. rewrite Ef' in Hf. rewrite Ei' in Ht.
  split; try done.
  - by exists f2, i2.
  - by exists f2.
  - rewrite <- Hsame, Hf. apply (law_frame f _ _ Hw).
  - rewrite <- E0, <- Hid, Ht, Hs, Hid. done.
  - eapply law_elsewhere; [exact Hw | exact Hels | apply funding_frame_refl].
Qed.

(** A refusal leaves the request billable by another source. *)
Lemma refused_free i v quota k a q q0 q' e :
  billable i quota k q0 -> rq_info q = Some (assign_UserQuota v i) -> same_tables (rq_world q0) (rq_world q) -> 0 <= a <= quota + 1 ->
  refused (assign_UserQuota v i) a q e q' ->
  free_of_charge i (rq_world q0) q' /\ (insufficient (Some e) = true -> billable i quota (k - 1) q').
Proof.
  intros [B1 B2 B3 B4 B5 B6 B7 B8 B9 [B10 B11] B12] Hi [n Hs] Ha [R1 R2 R3 R4 R5 R6 R7].
  pose proof R2 as (Eu & Es & _). rewrite Hs in *. split.
  - split; [exact R2 | exact R6].
  - intros He. split; try done; try (by rewrite ?Eu, ?Es).
    + exists v. congruence.
    + by apply R7, insufficient_code.
    + cbn in R5. change (pending (set_calls n (rq_world q0))) with (pending (rq_world q0)) in R5. lia.
Qed.

Lemma tryWallet_spec c i quota k q :
  billable i quota k q -> 1 <= k -> wp (tryWallet c i quota) q (attempted c i quota (k - 1) (rq_world q)).
Proof.
  intros Hb Hk. pose proof Hb as [[v B1] B2 B3 B4 B5 B6 B7 B8 B9 B10 B11]. unfold tryWallet. apply wp_bind, wp_attempting, wp_zoom.
  apply (wp_mono _ _ (fun _ w' => exists n, w' = set_calls n (rq_world q))).
  { unfold GetUserQuota. apply wp_bind. unfold ask, wp at 1. cbn. destruct (if RedisEnabled then _ else _); [apply wp_ret; by eexists|].
    destruct (re_fault _); [apply wp_throw | apply wp_gets]; by eexists. }
  intros [uq|e] w1 [n ->]; [|by apply wp_ret, attempted_early].
  goal_if; [by apply wp_ret, attempted_early|]. goal_if; [by apply wp_ret, attempted_early|].
  apply wp_bind, wp_modify, wp_bind, wp_modify.
  set (q2 := put_session _ _). set (i2 := assign_UserQuota uq i).
  assert (Ei : rq_info q2 = Some i2) by (cbn; by rewrite B1).
  set (a := if shouldTrust c q2 then 0 else quota). assert (Ha : 0 <= a <= quota) by (subst a; destruct (shouldTrust c q2); lia).
  assert (Hr : ready (wallet_of i) i2 a q2).
  { split; try done; [| unfold quota_bound in *; lia |].
    - unfold room. rewrite Ei. cbn. change (pending (set_calls n (rq_world q))) with (pending (rq_world q)). nia.
    - split_and!; try done; unfold quota_bound, max_i64 in *; lia. }
  eapply wp_mono; [apply (preConsume_spec c (wallet_of i) i2 quota q2); exact Hr|].
  intros r q' Ho. fold a in Ho. pose proof Ho as (res & -> & Hres). exists res. split; [done|]. destruct res as [e|].
  - destruct Hres as [_ Hf]. eapply (refused_free i uq quota k a q2 q); [done | done | by exists n | lia | exact Hf].
  - exists (wallet_of i), a. split; [left; split; [done|]; subst a; destruct (shouldTrust c q2); auto|].
    eapply opened_charged; [exact Ho | by exists n | done].
Qed.

Lemma trySubscription_spec c i quota k q :
  billable i quota k q -> 1 <= k -> wp (trySubscription c i quota) q (attempted c i quota (k - 1) (rq_world q)).
Proof.
  intros Hb Hk. pose proof Hb as [[v B1] B2 B3 B4 B5 B6 B7 B8 B9 [B10 B10'] B11]. unfold trySubscription. cbn zeta. apply wp_bind, wp_modify.
  fold (sub_amount quota). set (q2 := put_session _ _).
  assert (Ht : shouldTrust c q2 = false).
  { unfold shouldTrust. cbn. rewrite B1. cbn. goal_if; [done|]. goal_if; [done|]. by goal_if. }
  assert (Ha : 0 < sub_amount quota <= quota + 1) by (unfold sub_amount; goal_if; lia).
  assert (Hr : ready (subscription_of c i quota) (assign_UserQuota v i) (if shouldTrust c q2 then 0 else sub_amount quota) q2).
  { rewrite Ht. split; try done; [| unfold quota_bound in *; lia |].
    - unfold room. cbn. rewrite B1. cbn. nia.
    - split_and!; try done; unfold quota_bound, max_i64 in *; lia. }
  eapply wp_mono; [apply (preConsume_spec c _ _ (sub_amount quota) q2 Hr)|]. rewrite Ht.
  intros r q' Ho. pose proof Ho as (res & -> & Hres). exists res. split; [done|]. destruct res as [e|].
  - destruct Hres as [_ Hf]. eapply (refused_free i v quota k (sub_amount quota) q2 q); [done | done | apply same_tables_self | lia | exact Hf].
  - exists (subscription_of c i quota), (sub_amount quota). split; [by right|].
    eapply opened_charged; [exact Ho | apply same_tables_self | done].
Qed.

(** ** The choice *)

(** What the caller of [NewBillingSession] sees. *)
Definition outcome (c : ginContext) (i : RelayInfo) (quota : Z) (w : world) (r : result (option NewAPIError)) (q' : request) : Prop :=
  exists res, r = Ok res /\
  match res with
  | None => exists f a, payer c i quota f a /\ charged_to f a i w q'
  | Some _ => free_of_charge i w q'
  end.

Lemma attempted_outcome c i quota k w r q' : attempted c i quota k w r q' -> outcome c i quota w r q'.
Proof. intros ([e|] & -> & Hr); eexists; (split; [done|]); [apply Hr | done]. Qed.

(** Rewording an error changes nothing. *)
Lemma outcome_reword c i quota w res q' e :
  outcome c i quota w (Ok res) q' -> outcome c i quota w (Ok (if insufficient res then Some e else res)) q'.
Proof.
  intros (? & [= <-] & Hr). destruct res as [e0|]; [|by eexists]. destruct (insufficient (Some e0)); by eexists.
Qed.

(** A second attempt after one that cost nothing. *)
Lemma outcome_after c i quota w q1 r q' :
  free_of_charge i w q1 -> rq_tasks q1 = [] -> outcome c i quota (rq_world q1) r q' -> outcome c i quota w r q'.
Proof.
  intros [Hf Ht] Etask (res & -> & Hres). rewrite Etask in Ht. cbn in Ht. exists res. split; [done|]. destruct res as [e|].
  - destruct Hres as [Hf2 Ht2]. split; [by eapply funding_frame_trans | lia].
  - destruct Hres as (f & a & Hp & [C1 C2 C3 C4 C5 C6 C7]). exists f, a. split; [done|]. split; try done.
    + rewrite C5. apply (law_frame f _ _ Hf).
    + lia.
    + eapply law_elsewhere; [exact Hf | exact C7 | apply funding_frame_refl].
Qed.

Lemma wp_reword m (g : option NewAPIError -> NewAPIError) c i quota q w :
  wp m q (outcome c i quota w) ->
  wp (e ← m; mret (if insufficient e then Some (g e) else e)) q (outcome c i quota w).
Proof.
  intros Hm. apply wp_bind. eapply wp_mono; [exact Hm|]. intros [res|e] q' Ho; [apply wp_ret; by apply outcome_reword | exact Ho].
Qed.

Lemma wp_fallback m1 m2 g c i quota k q :
  wp m1 q (attempted c i quota k (rq_world q)) ->
  (forall q1, billable i quota k q1 -> wp m2 q1 (attempted c i quota (k - 1) (rq_world q1))) ->
  wp (e1 ← m1; if insufficient e1 then (e2 ← m2; mret (if insufficient e2 then Some (g e1 e2) else e2)) else mret e1)
     q (outcome c i quota (rq_world q)).
Proof.
  intros Hm1 Hm2. apply wp_bind. eapply wp_mono; [exact Hm1|]. intros [e1|e] q1 Ha; [|by destruct Ha as (? & ? & _)].
  destruct (insufficient e1) eqn:Ei; [|by eapply wp_ret, attempted_outcome]. destruct e1 as [e1|]; [|done].
  destruct Ha as (? & [= <-] & Hfree & Hb). specialize (Hb Ei).
  apply (wp_reword m2 (g (Some e1))). eapply wp_mono; [by apply Hm2|]. intros r q2 Ho.
  eapply outcome_after; [exact Hfree | apply Hb | by eapply attempted_outcome].
Qed.

Lemma NewBillingSession_spec c i quota q :
  rq_info q = Some i -> billable i quota 2 q -> wp (NewBillingSession c quota) q (outcome c i quota (rq_world q)).
Proof.
  intros Hi Hb. unfold NewBillingSession. apply wp_bind, wp_gets. rewrite Hi. cbn zeta.
  pose proof (fun q k Hq Hk => tryWallet_spec c i quota k q Hq Hk) as HW. pose proof (fun q k Hq Hk => trySubscription_spec c i quota k q Hq Hk) as HS.
  goal_if; [eapply wp_mono; [by apply (HS q 2) | intros ??; apply attempted_outcome]|].
  goal_if; [eapply wp_mono; [by apply (HW q 2) | intros ??; apply attempted_outcome]|].
  goal_if; [apply (wp_fallback _ _ (fun e1 e2 => _) c i quota 1 q); [by apply (HW q 2) | intros q1 ?; by apply (HS q1 1)]|].
  apply wp_bind, wp_attempting, wp_zoom, wp_sub_call.
  - intros e w' [n ->]. apply wp_ret. eexists. split; [done|]. destruct (free_self i q (bl_tasks _ _ _ _ Hb)). by split.
  - intros now txnow w' _ [n ->]. cbn [fst snd]. set (q1 := put_world _ q). assert (Hb1 : billable i quota 2 q1).
    { destruct Hb. by split. }
    assert (Hq : forall r q', outcome c i quota (rq_world q1) r q' -> outcome c i quota (rq_world q) r q').
    { intros r q'. apply outcome_after; [|apply Hb]. destruct (free_self i q (bl_tasks _ _ _ _ Hb)). by split. }
    destruct (HasActiveUserSubscription _ _ _ _) as [[]|e].
    + eapply wp_mono; [apply (wp_fallback _ _ (fun e1 e2 => _) c i quota 1 q1); [by apply (HS q1 2) | intros q2 ?; by apply (HW q2 1)] | exact Hq].
    + eapply wp_mono; [apply (wp_reword _ (fun e => _) c i quota q1); eapply wp_mono; [by apply (HW q1 2) | intros ??; apply attempted_outcome] | exact Hq].
    + apply wp_ret, Hq. eexists. split; [done|]. apply free_self, Hb1.
Qed.
End Choice.

(** ** Theorem *)

Section Claim.
Context `{Deployment} `{DBClock} `{LocalZone} `{!ClockOk}.

(** Exactly one source pays, or nobody does.  Whatever the billing
    preference and whichever sources are tried in turn, a request that is
    accepted is charged to one source for exactly the reserved amount (the
    wallet: nothing for a trusted user), the token for the same amount, and
    the other source's tables are as before.  A request that is refused
    leaves users, subscriptions and unwritten user increments as they were,
    and the token too, up to a rollback already started.  [NewBillingSession]
    never ends in another way. *)
Theorem one_source_pays_or_none c i quota q :
  rq_info q = Some i -> billable i quota 2 q ->
  match NewBillingSession c quota q with
  | (Ok None, q') => exists f a, payer c i quota f a /\ charged_to f a i (rq_world q) q'
  | (Ok (Some _), q') => free_of_charge i (rq_world q) q'
  | (Err _, _) => False
  end.
Proof.
  intros Hi Hb. pose proof (NewBillingSession_spec c i quota q Hi Hb) as Hs. unfold wp in Hs.
  destruct (NewBillingSession c quota q) as [r q']. cbn [fst snd] in Hs. by destruct Hs as ([e|] & -> & Hr).
Qed.
End Claim.

(** *** A wallet too small, then a subscription *)

Section Fallback.
#[local] Existing Instance demo_zone.
#[local] Existing Instance demo_dbclock.
#[local] Instance fallback_process : Deployment := demo_process 0 0.
#[local] Instance fallback_clock : ClockOk := demo_clock 0 0.

Definition fallback_sub : UserSubscription := Eval vm_compute in
  match @issued_subscription 0 1 1 0 900 normalized_daily_plan with Ok s => s | Err _ => versioned_sub end.
Definition fallback_info : RelayInfo :=
  mkRI 1 7 "sk" false false false false "req-1" "gpt" 0 0 "" "" "wallet_first" 0 0 "" 0 0 0 0 0 0 "" 0 0.
Definition fallback_world : world :=
  mkWorld {[1 := mkUser 10 0 0 0 0]} {[7 := mkToken 7 0 1 "sk" 1 0 (-1) 500 false 0 0]} ∅ (mkDB ∅ {[1 := fallback_sub]} [] ∅ 1) no_batch 0.
Definition fallback_start : request := mkRequest (new_session (wallet_of fallback_info)) (Some fallback_info) fallback_world [].
Definition fallback_end : request := snd (NewBillingSession demo_context 40 fallback_start).

Lemma fallback_billable : billable fallback_info 40 2 fallback_start.
Proof.
  split; try done; try (vm_compute; split; congruence).
  - by exists 0.
  - split; [split|]; vm_compute; constructor.
Qed.

Lemma one_source_pays_or_none_witness :
  fst (NewBillingSession demo_context 40 fallback_start) = Ok None /\
  exists f a, payer demo_context fallback_info 40 f a /\ charged_to f a fallback_info fallback_world fallback_end.
Proof.
  pose proof (one_source_pays_or_none demo_context fallback_info 40 fallback_start eq_refl fallback_billable) as Hp.
  assert (E : fst (NewBillingSession demo_context 40 fallback_start) = Ok None) by (vm_compute; reflexivity).
  split; [exact E|]. unfold fallback_end. destruct (NewBillingSession demo_context 40 fallback_start) as [r q']. cbn in E. subst r. exact Hp.
Defined.
End Fallback.
