(* ===== verification/Billing.v ===== *)
(** * Settling a relayed request

    [src/service/billing.go] ([SettleBilling] and what it derives from a
    settlement), the legacy path of [src/service/quota.go] and
    [src/service/pre_consume_quota.go].

    Rebates and provider profits are applied by [Commission], and notifying
    the user belongs to another component: here they are [effect]s, emitted
    with the arguments the code passes. *)

From stdpp Require Import base numbers list strings pretty gmap.
From Stdlib Require Import ZArith Lia.
From S2P Require Import Prelude GoInt GoMonad GoString WindowBounds SubPlan SubUsage SubStore SubSafety SubLedger Commission Wallet Funding BillingSession BillingSafety BillingOpen.

(** ** Data *)

(** Calls into the component of rebates and profits ([Commission]), and notifications. *)
Inductive effect :=
  | InviteConsumeRebate (userId : Z) (requestId : string) (paidQuota : Z) (ctx : option ConsumeRebateContext)
  | ProviderProfitOf (record : ProviderProfit)
  | CheckAndSendSubscriptionQuotaNotify
  | CheckAndSendQuotaNotify (quota preConsumedQuota : Z).

Definition bill : Type := request * list effect.
Definition on_request {A} (m : GM request A) : GM bill A := zoom fst (fun q b => (q, snd b)) m.
Definition emit (e : effect) : GM bill unit := modify (fun b => (fst b, snd b ++ [e])).
Definition when (b : bool) (m : GM bill unit) : GM bill unit := if b then m else mret tt.

(** ** Pure parts *)

Definition consumeRebateContextFromRelay (ctx : option ginContext) (relayInfo : RelayInfo) : option ConsumeRebateContext :=
  let '(providerId, providerPricingId, publicModel, baseModel) :=
    match ctx with
    | None => (ri_ProviderId relayInfo, ri_ProviderPricingId relayInfo, ri_ProviderPublicModel relayInfo, ri_ProviderBaseModel relayInfo)
    | Some c => (cx_ProviderId c, cx_ProviderPricingId c, cx_ProviderPublicModel c, cx_ProviderBaseModel c)
    end in
  if providerId <=? 0 then
    let publicModel := if String.eqb publicModel "" then ri_OriginModelName relayInfo else publicModel in
    let baseModel := if String.eqb baseModel "" then publicModel else baseModel in
    Some (mkRebateContext 0 0 publicModel baseModel)
  else if String.eqb publicModel "" then None
  else
    let baseModel := if String.eqb baseModel "" then ri_OriginModelName relayInfo else baseModel in
    Some (mkRebateContext providerId providerPricingId publicModel baseModel).

Section ProviderSplit.
(** [decimal(amount) * (decimal(paid) / decimal(charge))], its integer part:
    the arithmetic of github.com/shopspring/decimal. *)
Variable scaled : Z -> Z -> Z -> Z.

(** Covered cost, owner cost and profit of a charge of which [paidQuota] was paid balance. *)
Definition provider_split (baseCost providerCharge paidQuota : Z) : Z * Z * Z :=
  let '(coveredCost, profitQuota) :=
    if (0 <? providerCharge) && (0 <? paidQuota) then
      let coverableCost := if providerCharge <? baseCost then providerCharge else baseCost in
      let grossProfit := i64_sub providerCharge baseCost in
      (scaled coverableCost paidQuota providerCharge,
       if 0 <? grossProfit then scaled grossProfit paidQuota providerCharge else 0)
    else (0, 0) in
  let coveredCost := if baseCost <? coveredCost then baseCost else coveredCost in
  let ownerCost := i64_sub baseCost coveredCost in
  (coveredCost, if ownerCost <? 0 then 0 else ownerCost, profitQuota).

(** The paid part is clamped to the charge first. *)
Definition clamp_paid (providerCharge paidQuota : Z) : Z :=
  let paidQuota := if paidQuota <? 0 then 0 else paidQuota in
  if (0 <? providerCharge) && (providerCharge <? paidQuota) then providerCharge else paidQuota.

Definition applyProviderProfitForRelay (c : ginContext) (relayInfo : RelayInfo) (paidQuota : Z) : option ProviderProfit :=
  let providerId := cx_ProviderId c in
  let ownerUserId := cx_ProviderOwnerUserId c in
  if (providerId <=? 0) || (ownerUserId <=? 0) || (ri_UserId relayInfo <=? 0) then None
  else
    let baseCost := cx_ProviderBaseQuota c in
    if baseCost <=? 0 then None
    else
      let providerCharge := if cx_ProviderUserQuota c <? 0 then 0 else cx_ProviderUserQuota c in
      let paidQuota := clamp_paid providerCharge paidQuota in
      let '(coveredCost, ownerCost, profitQuota) := provider_split baseCost providerCharge paidQuota in
      Some (mkProfit 0 providerId ownerUserId (ri_UserId relayInfo) (ri_RequestId relayInfo) (cx_ProviderPublicModel c)
              (if String.eqb (cx_ProviderBaseModel c) "" then ri_OriginModelName relayInfo else cx_ProviderBaseModel c)
              providerCharge baseCost paidQuota coveredCost ownerCost profitQuota 0 0 false false 0).
End ProviderSplit.

Section Billing.
Context `{Deployment} `{DBClock} `{LocalZone}.
Variable scaled : Z -> Z -> Z -> Z.

(** ** PostConsumeQuota: billing without a session *)

(** The absolute amount a delta asks for: increments accumulate, a final delta is relative to the reservation. *)
Definition absolute_target (relayInfo : RelayInfo) (quota preConsumedQuota : Z) : Z :=
  let actual := i64_add (ri_SubscriptionPreConsumed relayInfo) quota in
  let actual := if preConsumedQuota =? 0 then i64_add actual (ri_SubscriptionPostDelta relayInfo) else actual in
  if actual <? 0 then 0 else actual.

(** The subscription side of [PostConsumeQuota]. *)
Definition post_consume_subscription (relayInfo : RelayInfo) (quota preConsumedQuota : Z) : GM request unit :=
  if ri_SubscriptionId relayInfo =? 0 then throw (ErrMsg "subscription id is missing")
  else if quota =? 0 then mret tt
  else
    let requestAware := negb (String.eqb (TrimSpace (ri_RequestId relayInfo)) "") && (0 <? ri_SubscriptionPreConsumed relayInfo) in
    let incremental := preConsumedQuota =? 0 in
    let actual := absolute_target relayInfo quota preConsumedQuota in
    _ ← in_world (if requestAware
                  then sub_call (fun db now txnow => SettleSubscriptionPreConsume db now txnow (ri_RequestId relayInfo) actual)
                  else sub_call (fun db _ _ => PostConsumeUserSubscriptionDelta db (ri_SubscriptionId relayInfo) quota));
    if requestAware && incremental
    then set_info (assign_SubscriptionPostDelta (i64_sub actual (ri_SubscriptionPreConsumed relayInfo)))
    else if requestAware then set_info (assign_SubscriptionPostDelta quota)
    else mret tt.

(** The wallet side; [random] is [common.GetRandomString(8)]. *)
Definition post_consume_wallet (relayInfo : RelayInfo) (quota : Z) (random : string) : GM bill unit :=
  if 0 <? quota then
    breakdown ← on_request (in_world (DecreaseUserQuotaPreferReward (ri_UserId relayInfo) quota));
    _ ← on_request (set_info (fun i => assign_WalletPaidConsumed (bd_PaidUsed breakdown)
                                         (assign_WalletRewardConsumed (bd_RewardUsed breakdown) i)));
    when ((0 <? bd_PaidUsed breakdown) && (ri_ProviderId relayInfo <=? 0) && negb (ri_ForcePreConsume relayInfo) &&
          negb (ri_DisableConsumeRebate relayInfo))
      (emit (InviteConsumeRebate (ri_UserId relayInfo) (ri_RequestId relayInfo ++ ":post:" ++ random)
               (bd_PaidUsed breakdown) (consumeRebateContextFromRelay None relayInfo)))
  else on_request (in_world (IncreaseUserQuota (ri_UserId relayInfo) (i64_neg quota) false)).

Definition PostConsumeQuota (quota preConsumedQuota : Z) (sendEmail : bool) (random : string) : GM bill unit :=
  info ← gets (fun b => rq_info (fst b));
  match info with
  | None => throw (ErrMsg "nil relay info")
  | Some relayInfo =>
      let subscription := String.eqb (ri_BillingSource relayInfo) BillingSourceSubscription in
      _ ← (if subscription then on_request (post_consume_subscription relayInfo quota preConsumedQuota)
           else post_consume_wallet relayInfo quota random);
      _ ← (if negb (ri_IsPlayground relayInfo) && negb subscription then
             on_request (in_world (if 0 <? quota then DecreaseTokenQuota (ri_TokenId relayInfo) (ri_TokenKey relayInfo) quota
                                   else IncreaseTokenQuota (ri_TokenId relayInfo) (ri_TokenKey relayInfo) (i64_neg quota)))
           else mret tt);
      when (sendEmail && negb (i64_add quota preConsumedQuota =? 0)) (emit (CheckAndSendQuotaNotify quota preConsumedQuota))
  end.

(** [ReturnPreConsumedQuota]: its goroutine works on a copy of the relay info. *)
Definition ReturnPreConsumedQuota (random : string) : GM bill unit :=
  info ← gets (fun b => rq_info (fst b));
  match info with
  | None => throw (ErrMsg "nil relay info")
  | Some relayInfo =>
      if ri_FinalPreConsumedQuota relayInfo =? 0 then mret tt
      else
        _ ← attempting (PostConsumeQuota (i64_neg (ri_FinalPreConsumedQuota relayInfo)) 0 false random);
        on_request (modify (put_info (Some relayInfo)))
  end.

(** [PreConsumeQuota]: the legacy reservation. *)
Definition PreConsumeQuota (c : ginContext) (preConsumedQuota : Z) : GM request (option NewAPIError) :=
  info ← gets rq_info;
  match info with
  | None => throw (ErrMsg "nil relay info")
  | Some relayInfo =>
      r ← attempting (in_world (GetUserQuota (ri_UserId relayInfo) false));
      match r with
      | Err e => mret (Some (NewError (err_message e) ErrorCodeQueryDataError))
      | Ok userQuota =>
          if userQuota <=? 0
          then mret (Some (NewErrorWithStatusCode ("用户额度不足, 剩余额度: " ++ FormatQuota userQuota)
                             ErrorCodeInsufficientUserQuota 403))
          else if i64_sub userQuota preConsumedQuota <? 0
          then mret (Some (NewErrorWithStatusCode ("预扣费额度失败, 用户剩余额度: " ++ FormatQuota userQuota ++
                             ", 需要预扣费额度: " ++ FormatQuota preConsumedQuota) ErrorCodeInsufficientUserQuota 403))
          else
            let trusted := (GetTrustQuota <? userQuota) && (ri_TokenUnlimited relayInfo || (GetTrustQuota <? cx_token_quota c)) in
            let preConsumedQuota := if trusted then 0 else preConsumedQuota in
            _ ← set_info (assign_UserQuota userQuota);
            err ← (if 0 <? preConsumedQuota then
                     r ← attempting (in_world (PreConsumeTokenQuota relayInfo preConsumedQuota));
                     match r with
                     | Err e => mret (Some (NewErrorWithStatusCode (err_message e) ErrorCodePreConsumeTokenQuotaFailed 403))
                     | Ok _ =>
                         r ← attempting (in_world (DecreaseUserQuota (ri_UserId relayInfo) preConsumedQuota false));
                         match r with
                         | Err e => mret (Some (NewError (err_message e) ErrorCodeUpdateDataError))
                         | Ok _ => mret None
                         end
                     end
                   else mret None);
            match err with
            | Some e => mret (Some e)
            | None => _ ← set_info (assign_FinalPreConsumedQuota preConsumedQuota); mret None
            end
      end
  end.

(** ** SettleBilling *)

(** The protection of subscriptions: a successful relay that reports no
    usage is charged what was reserved. *)
Definition protected_quota (relayInfo : RelayInfo) (preConsumed actualQuota : Z) : Z :=
  if String.eqb (ri_BillingSource relayInfo) BillingSourceSubscription && (0 <? preConsumed) && (actualQuota =? 0)
  then preConsumed else actualQuota.

(** What follows a successful settlement: the snapshot of the wallet split,
    the rebate, the provider's profit, the notification. *)
Definition after_settlement (c : ginContext) (relayInfo : RelayInfo) (preConsumed actualQuota : Z) (claimed : Z * Z) : GM bill unit :=
  let '(rewardQuota, paidQuota) := claimed in
  _ ← on_request (set_info (fun i => assign_WalletPaidConsumed paidQuota (assign_WalletRewardConsumed rewardQuota i)));
  _ ← when ((0 <? paidQuota) && (cx_ProviderId c <=? 0) && negb (ri_ForcePreConsume relayInfo) &&
            negb (ri_DisableConsumeRebate relayInfo))
        (emit (InviteConsumeRebate (ri_UserId relayInfo) (ri_RequestId relayInfo) paidQuota
                 (consumeRebateContextFromRelay (Some c) relayInfo)));
  _ ← (if ri_ForcePreConsume relayInfo then mret tt
       else match applyProviderProfitForRelay scaled c relayInfo paidQuota with
       | Some record => emit (ProviderProfitOf record)
       | None => mret tt
       end);
  if actualQuota =? 0 then mret tt
  else if String.eqb (ri_BillingSource relayInfo) BillingSourceSubscription then emit CheckAndSendSubscriptionQuotaNotify
  else emit (CheckAndSendQuotaNotify (i64_sub actualQuota preConsumed) preConsumed).

(** [hasSession]: [relayInfo.Billing != nil].  [random] is used by the legacy path only. *)
Definition SettleBilling (c : ginContext) (hasSession : bool) (actualQuota : Z) (random : string) : GM bill unit :=
  info ← gets (fun b => rq_info (fst b));
  match info with
  | None => throw (ErrMsg "nil relay info")
  | Some relayInfo =>
      if hasSession then
        preConsumed ← on_request (sess bs_preConsumedQuota);
        let actualQuota := protected_quota relayInfo preConsumed actualQuota in
        _ ← on_request (BillingSession_Settle actualQuota);
        claimed ← on_request ClaimWalletConsumedForRebate;
        after_settlement c relayInfo preConsumed actualQuota claimed
      else
        let quotaDelta := i64_sub actualQuota (ri_FinalPreConsumedQuota relayInfo) in
        if quotaDelta =? 0 then mret tt
        else PostConsumeQuota quotaDelta (ri_FinalPreConsumedQuota relayInfo) true random
  end.

(** The session is kept on the relay info only when its reservation
    succeeded: the boolean is [relayInfo.Billing != nil] afterwards. *)
Definition PreConsumeBilling (c : ginContext) (preConsumedQuota : Z) : GM request (option NewAPIError * bool) :=
  apiErr ← NewBillingSession c preConsumedQuota;
  mret (apiErr, match apiErr with Some _ => false | None => true end).

(** [BillingSession] implements [BillingRollbacker], so the type assertion of the source succeeds. *)
Definition RollbackSettledBilling (hasSession : bool) : GM request unit :=
  if hasSession then RollbackSettlement else mret tt.
End Billing.

(** ** The rebate is claimed once *)

Section RebateFrame.
Context `{Deployment} `{DBClock} `{LocalZone}.

(** Computations that leave the rebate mark alone. *)
Definition unmarked {A} (m : GM request A) : Prop :=
  forall q, bs_rebateApplied (rq_session (snd (m q))) = bs_rebateApplied (rq_session q).

Lemma unmarked_ret {A} (a : A) : unmarked (mret a).
Proof. done. Qed.
Lemma unmarked_throw {A} e : unmarked (throw e : GM request A).
Proof. done. Qed.
Lemma unmarked_gets {A} (f : request -> A) : unmarked (gets f).
Proof. done. Qed.
Lemma unmarked_bind {A B} (m : GM request A) (f : A -> GM request B) : unmarked m -> (forall a, unmarked (f a)) -> unmarked (m ≫= f).
Proof.
  intros Hm Hf q. unfold mbind, GM_bind. specialize (Hm q). destruct (m q) as [[a|e] q']; [|done]. by rewrite (Hf a q').
Qed.
Lemma unmarked_attempting {A} (m : GM request A) : unmarked m -> unmarked (attempting m).
Proof. intros Hm q. unfold attempting. specialize (Hm q). by destruct (m q). Qed.
Lemma unmarked_world {A} (m : GM world A) : unmarked (in_world m).
Proof. intros q. unfold in_world, zoom. by destruct (m (rq_world q)). Qed.
Lemma unmarked_funding {A} (m : GM (funding * world) A) : unmarked (call_funding m).
Proof. intros q. unfold call_funding. destruct (bs_funding _); [|done]. by destruct (m _) as [? [? ?]]. Qed.
Lemma unmarked_session f : (forall s, bs_rebateApplied (f s) = bs_rebateApplied s) -> unmarked (set_sess f).
Proof. intros Hf q. apply Hf. Qed.
Lemma unmarked_info f : unmarked (set_info f).
Proof. done. Qed.
Lemma unmarked_tasks f : unmarked (modify (fun q => put_tasks (f q) q)).
Proof. done. Qed.

Lemma initialize_unmarked s : bs_rebateApplied (initializeQuotaStateLocked s) = bs_rebateApplied s.
Proof. unfold initializeQuotaStateLocked. by destruct (bs_quotaStateInitialized s). Qed.

Ltac unmark :=
  repeat first
    [ apply unmarked_ret | apply unmarked_throw | apply unmarked_gets | apply unmarked_info | apply unmarked_tasks
    | apply unmarked_world | apply unmarked_funding | apply unmarked_attempting
    | apply unmarked_bind; [|intros ?] | apply unmarked_session; intros ?
    | progress cbn [bs_rebateApplied] | apply initialize_unmarked | done | case_match ].

Lemma apply_unmarked t : unmarked (applyTargetLocked t).
Proof. unfold applyTargetLocked, adjustTokenQuotaLocked, sess. unmark. Qed.

Lemma settle_unmarked a : unmarked (BillingSession_Settle a).
Proof. unfold BillingSession_Settle. pose proof (apply_unmarked a). unmark. Qed.

Lemma progress_unmarked d : unmarked (SettleProgress d).
Proof. unfold SettleProgress. pose proof apply_unmarked as Ha. unmark. Qed.

Lemma refund_unmarked : unmarked BillingSession_Refund.
Proof.
  unfold BillingSession_Refund, go. unmark; cbn zeta; cbn in *; rewrite ?initialize_unmarked; try done.
Qed.

Lemma rollback_unmarked : unmarked RollbackSettlement.
Proof. unfold RollbackSettlement, go. pose proof refund_unmarked. unmark. Qed.

Lemma task_unmarked n : unmarked (run_task n).
Proof. unfold run_task, task_move, refund_move, rollback_move, token_rollback_move, sess. unmark. Qed.
End RebateFrame.

(** ** Theorems *)

Section Theorems.
Context `{Deployment} `{DBClock} `{LocalZone} `{!ClockOk}.

Lemma step_marked q dm dt q' : session_step q dm dt q' -> bs_rebateApplied (rq_session q) = true -> bs_rebateApplied (rq_session q') = true.
Proof.
  intros Hs Hm. destruct Hs as [a _ _|d _ _| | | |n _|w' dm dt _ _ _].
  - by rewrite settle_unmarked.
  - by rewrite progress_unmarked.
  - by rewrite refund_unmarked.
  - by rewrite rollback_unmarked.
  - unfold ClaimWalletConsumedForRebate, mbind, GM_bind, gets. by rewrite Hm.
  - by rewrite task_unmarked.
  - done.
Qed.

Lemma steps_marked q dm dt q' : session_steps q dm dt q' -> bs_rebateApplied (rq_session q) = true -> bs_rebateApplied (rq_session q') = true.
Proof. induction 1; eauto using step_marked. Qed.

(** The rebate is claimed once and for the real charge.  The first
    claim on a settled, unrefunded wallet session reports the reward and paid
    parts, which add up to the settled cost; after it, whatever happens to
    the session, every further claim reports nothing. *)
Theorem rebate_claimed_once f i q x q1 reward paid :
  phase f i q -> untouched (rq_session q) -> bs_settled (rq_session q) = true -> bs_rebateApplied (rq_session q) = false ->
  bs_funding (rq_session q) = Some (FWallet x) ->
  ClaimWalletConsumedForRebate q = (Ok (reward, paid), q1) ->
  reward + paid = bs_fundingQuota (rq_session q) /\ 0 <= reward /\ 0 <= paid /\
  forall dm dt q2, session_steps q1 dm dt q2 -> fst (ClaimWalletConsumedForRebate q2) = Ok (0, 0).
Proof.
  intros Hp (_ & U2 & U3 & _) Hs Hr Hf E. pose proof (phase_core _ _ _ Hp) as [Ef _ _ _ _ Hres _ _ _].
  rewrite Hf in Ef. injection Ef as <-. unfold ClaimWalletConsumedForRebate, mbind, GM_bind, gets in E. rewrite Hr, Hs, Hf in E.
  cbn in E. injection E as <- <- <-.
  assert (Hok : wallet_funding_ok x (rq_world q)).
  { destruct Hp as [[_ _ Hok] Hfl _ _|fd td _ _ _ Hok Hfl _|fd td c at_ e _ _ _ Hok Hfl _ _|fd td _ _ _ Hfl _|fd td c at_ _ _ _ Hfl _ _];
      unfold flags_of, unset in Hfl; injection Hfl as F1 F2 F3 F4 F5 F6 F7 F8 F9 F10; try congruence; try done.
    by apply Hok; rewrite <- F9. }
  destruct Hok as (_ & Hc & ? & ? & _). unfold RewardConsumed, PaidConsumed. cbn in Hres. split_and!; try lia.
  intros dm dt q2 Hst. assert (Hm : bs_rebateApplied (rq_session q2) = true) by (by eapply steps_marked).
  unfold ClaimWalletConsumedForRebate, mbind, GM_bind, gets. by rewrite Hm.
Qed.

(** A claim only sets the mark. *)
Lemma claim_effect q :
  (rq_session (snd (ClaimWalletConsumedForRebate q)) = rq_session q \/
   rq_session (snd (ClaimWalletConsumedForRebate q)) = put_rebateApplied true (rq_session q)) /\
  rq_tasks (snd (ClaimWalletConsumedForRebate q)) = rq_tasks q.
Proof.
  unfold ClaimWalletConsumedForRebate, mbind, GM_bind, gets. destruct (_ || _); [split; [by left | done]|].
  destruct (bs_funding (rq_session q)) as [[?|?]|]; (split; [|done]); [by right | by left | by left].
Qed.

(** Computations that leave the session and its goroutines alone. *)
Definition quiet (m : GM bill unit) : Prop := forall b,
  rq_session (fst (snd (m b))) = rq_session (fst b) /\ rq_tasks (fst (snd (m b))) = rq_tasks (fst b).

Lemma quiet_ret : quiet (mret tt).
Proof. done. Qed.
Lemma quiet_emit e : quiet (emit e).
Proof. done. Qed.
Lemma quiet_info f : quiet (on_request (set_info f)).
Proof. done. Qed.
Lemma quiet_bind m k : quiet m -> quiet k -> quiet (_ ← m; k).
Proof.
  intros Hm Hk b. unfold mbind, GM_bind. specialize (Hm b). destruct (m b) as [[a|e] b']; [|done]. cbn in Hm.
  destruct (Hk b') as [E1 E2]. rewrite E1, E2. done.
Qed.
Lemma quiet_when b m : quiet m -> quiet (when b m).
Proof. by destruct b. Qed.

Lemma after_settlement_quiet scaled c i pre a claimed : quiet (after_settlement scaled c i pre a claimed).
Proof.
  destruct claimed as [rw pd]. unfold after_settlement.
  repeat first [apply quiet_bind | apply quiet_when | apply quiet_info | apply quiet_emit | apply quiet_ret | case_match].
Qed.

Lemma zoom_run {A} (m : GM request A) b : on_request m b = (fst (m (fst b)), (snd (m (fst b)), snd b)).
Proof. unfold on_request, zoom. by destruct (m (fst b)). Qed.

(** A subscription request is never free.  When the relay of a
    subscription-funded request succeeded but reported no usage,
    [SettleBilling] settles it at the reserved amount: the session is settled
    and still holds exactly what it reserved. *)
Theorem zero_usage_keeps_reservation scaled c random f i q q2 effs :
  phase f i q -> room q -> bs_settled (rq_session q) = false -> bs_refunded (rq_session q) = false ->
  ri_BillingSource i = BillingSourceSubscription -> 0 < bs_preConsumedQuota (rq_session q) < quota_bound ->
  SettleBilling scaled c true 0 random (q, []) = (Ok tt, (q2, effs)) ->
  bs_settled (rq_session q2) = true /\ fst (held_funding q2) = bs_preConsumedQuota (rq_session q).
Proof.
  intros Hp Hroom Hns Hnr Hsrc Hpre E. pose proof (phase_core _ _ _ Hp) as [_ Hi _ _ _ _ _ _ _].
  unfold SettleBilling, mbind, GM_bind, gets in E. cbn [fst] in E. rewrite Hi in E. rewrite zoom_run in E. cbn [fst snd sess gets] in E.
  unfold protected_quota in E. rewrite Hsrc in E. rewrite (proj2 (Z.ltb_lt _ _) (proj1 Hpre)) in E. cbn [String.eqb] in E.
  rewrite String.eqb_refl in E. cbn [andb Z.eqb] in E. rewrite zoom_run in E. cbn [fst snd] in E.
  set (pre := bs_preConsumedQuota (rq_session q)) in *.
  pose proof (settle_keeps f i q pre Hp Hroom ltac:(lia)) as Hk. unfold wp in Hk.
  destruct (BillingSession_Settle pre q) as [[[]|e] q1] eqn:Es; cbn [fst snd] in Hk, E; [|done].
  destruct Hk as [[(f1 & i1 & Hp1) _] Hk]. destruct (Hk eq_refl Hns Hnr) as (Hset & R3 & R4 & Hts & Hre).
  destruct (settled_flags _ _ _ Hp1 Hset) as [U1 U2].
  destruct (held_untouched f1 i1 q1 pre Hp1) as [Hh _]; [split_and!; try done; by apply U2 | done |].
  assert (Hrest : forall q', rq_session q' = rq_session (snd (ClaimWalletConsumedForRebate q1)) -> rq_tasks q' = rq_tasks q1 ->
    bs_settled (rq_session q') = true /\ fst (held_funding q') = pre).
  { intros q' Eq Et. rewrite <- Hh. unfold held_funding, funding_returned. rewrite Eq, Et.
    destruct (proj1 (claim_effect q1)) as [->| ->]; done. }
  rewrite zoom_run in E. cbn [fst snd] in E.
  assert (Htk : rq_tasks (snd (ClaimWalletConsumedForRebate q1)) = rq_tasks q1) by apply claim_effect.
  destruct (ClaimWalletConsumedForRebate q1) as [[[rw pd]|] q3]; [|done]. cbn [fst snd] in *.
  pose proof (after_settlement_quiet scaled c i pre pre (rw, pd) (q3, [])) as [Q1 Q2]. rewrite E in Q1, Q2. cbn in Q1, Q2.
  apply Hrest; congruence.
Qed.

(** ** The legacy path *)

(** A request of the legacy path that is funded by a subscription. *)
Record legacy_subscription (i : RelayInfo) (q : request) : Prop := {
  ls_info : rq_info q = Some i;
  ls_source : ri_BillingSource i = BillingSourceSubscription;
  ls_id : ri_SubscriptionId i <> 0;
  ls_request : TrimSpace (ri_RequestId i) <> "";
  ls_pre : 0 < ri_SubscriptionPreConsumed i < quota_bound;
  ls_unique : unique_records (w_subdb (rq_world q))
}.

(** The request's record is charged [a]. *)
Definition charged (q : request) (rid : string) (a : Z) : Prop :=
  exists r, find_record (w_subdb (rq_world q)) rid = Some r /\ eff r = a.

Lemma legacy_settle rid a q q' :
  unique_records (w_subdb (rq_world q)) -> TrimSpace rid <> "" -> 0 <= a ->
  in_world (sub_call (fun db now txnow => SettleSubscriptionPreConsume db now txnow rid a)) q = (Ok tt, q') ->
  charged q' rid a /\ unique_records (w_subdb (rq_world q')) /\ rq_info q' = rq_info q.
Proof.
  intros Hu Hr Ha E. refine (wp_elim _ _ (fun r q' => r = Ok tt ->
    charged q' rid a /\ unique_records (w_subdb (rq_world q')) /\ rq_info q' = rq_info q) _ _ _ E eq_refl).
  apply wp_zoom, wp_sub_call; [done|]. intros now txnow w' Hn Hs.
  unfold SettleSubscriptionPreConsume. rewrite (proj2 (String.eqb_neq _ _) Hr), (proj2 (Z.ltb_ge a 0)) by lia. unfold transaction.
  destruct (settle_tx rid a now txnow (w_subdb (rq_world q))) as [[[] db]|e] eqn:Es; cbn; [|done].
  destruct (settled_record _ _ _ _ _ _ Hu Hn Ha Es) as (r & Hf & He & _ & _ & _ & Hu'). intros _. split_and!; try done. by exists r.
Qed.

Lemma absolute_target_nonneg i d pre : 0 <= absolute_target i d pre.
Proof. unfold absolute_target. cbn zeta. match goal with |- context [?x <? 0] => destruct (Z.ltb_spec x 0) end; lia. Qed.

(** [PostConsumeQuota] on such a request: one settlement to an absolute amount. *)
Lemma post_consume_charged i q d pre email random q' effs effs' :
  legacy_subscription i q -> d <> 0 -> PostConsumeQuota d pre email random (q, effs) = (Ok tt, (q', effs')) ->
  let actual := absolute_target i d pre in
  charged q' (ri_RequestId i) actual /\ unique_records (w_subdb (rq_world q')) /\
  rq_info q' = Some (assign_SubscriptionPostDelta (if pre =? 0 then i64_sub actual (ri_SubscriptionPreConsumed i) else d) i).
Proof.
  intros [Hi Hsrc Hid Hrid Hpre Hu] Hn E actual.
  assert (Ha : 0 <= actual) by apply absolute_target_nonneg.
  unfold PostConsumeQuota in E. unfold mbind at 1, GM_bind at 1, gets in E. cbn [fst] in E. rewrite Hi, Hsrc, String.eqb_refl in E.
  unfold mbind at 1, GM_bind at 1 in E. rewrite zoom_run in E. cbn [fst snd] in E.
  destruct (post_consume_subscription i d pre q) as [[[]|e] q1] eqn:Ep; cbn [fst snd] in E; [|done].
  rewrite andb_false_r in E. unfold mbind, GM_bind in E. cbn [mret GM_ret] in E.
  assert (q' = q1) as -> by (unfold when, emit, modify, mret, GM_ret in E; destruct (email && _) in E; by injection E). clear E.
  unfold post_consume_subscription in Ep. rewrite (proj2 (Z.eqb_neq _ _) Hid), (proj2 (Z.eqb_neq _ _) Hn) in Ep.
  rewrite (proj2 (String.eqb_neq _ _) Hrid), (proj2 (Z.ltb_lt _ _) (proj1 Hpre)) in Ep. cbn [negb andb] in Ep.
  fold actual in Ep. unfold mbind, GM_bind in Ep.
  destruct (in_world _ q) as [[[]|e] q2] eqn:Es in Ep; [|done].
  destruct (legacy_settle _ _ _ _ Hu Hrid Ha Es) as (Hc & Hu' & Hi').
  destruct (pre =? 0); injection Ep as <-; (split; [exact Hc|]); (split; [exact Hu'|]); cbn; by rewrite Hi', Hi.
Qed.

(** Increments of the legacy path accumulate.  Two successful
    incremental charges [d1] and [d2] of a subscription request leave its
    record charged the reservation plus both, not plus the second only. *)
Theorem legacy_increments_accumulate i q d1 d2 email random q1 q2 effs effs1 effs2 :
  legacy_subscription i q -> ri_SubscriptionPostDelta i = 0 ->
  0 < d1 < quota_bound -> 0 < d2 < quota_bound ->
  PostConsumeQuota d1 0 email random (q, effs) = (Ok tt, (q1, effs1)) ->
  PostConsumeQuota d2 0 email random (q1, effs1) = (Ok tt, (q2, effs2)) ->
  charged q1 (ri_RequestId i) (ri_SubscriptionPreConsumed i + d1) /\
  charged q2 (ri_RequestId i) (ri_SubscriptionPreConsumed i + d1 + d2).
Proof.
  intros Hl Hz Hd1 Hd2 E1 E2. assert (N1 : d1 <> 0) by lia. assert (N2 : d2 <> 0) by lia.
  destruct (post_consume_charged _ _ _ _ _ _ _ _ _ Hl N1 E1) as (Hc1 & Hu1 & Hi1).
  pose proof Hl as [_ Hsrc Hid Hrid Hpre _]. unfold quota_bound in *.
  assert (Ea : absolute_target i d1 0 = ri_SubscriptionPreConsumed i + d1).
  { unfold absolute_target. rewrite Hz, Z.eqb_refl, (i64_add_id _ d1), i64_add_id by i64. goal_if; lia. }
  rewrite Ea in *. rewrite Z.eqb_refl, i64_sub_id in Hi1 by i64.
  set (i1 := assign_SubscriptionPostDelta _ i) in Hi1.
  assert (Hl1 : legacy_subscription i1 q1) by (split; done).
  destruct (post_consume_charged _ _ _ _ _ _ _ _ _ Hl1 N2 E2) as (Hc2 & _ & _). split; [done|].
  assert (Eb : absolute_target i1 d2 0 = ri_SubscriptionPreConsumed i + d1 + d2).
  { unfold absolute_target. cbn. rewrite (i64_add_id _ d2), i64_add_id by i64. goal_if; lia. }
  by rewrite Eb in Hc2.
Qed.

(** The final settlement of the legacy path is absolute.  Whatever
    increments were charged before, settling to a cost different from the
    reservation leaves the request's record charged exactly that cost. *)
Theorem legacy_final_settlement_is_absolute scaled c i q a random q' effs effs' :
  legacy_subscription i q -> ri_FinalPreConsumedQuota i = ri_SubscriptionPreConsumed i ->
  0 <= a < quota_bound -> a <> ri_SubscriptionPreConsumed i ->
  SettleBilling scaled c false a random (q, effs) = (Ok tt, (q', effs')) ->
  charged q' (ri_RequestId i) a.
Proof.
  intros Hl Hf Ha Hne E. pose proof Hl as [Hi _ _ _ Hpre _]. unfold quota_bound in *.
  unfold SettleBilling in E. unfold mbind at 1, GM_bind at 1, gets in E. cbn [fst] in E. rewrite Hi, Hf in E.
  rewrite i64_sub_id, (proj2 (Z.eqb_neq _ _)) in E by i64.
  assert (Hn : a - ri_SubscriptionPreConsumed i <> 0) by lia.
  destruct (post_consume_charged _ _ _ _ _ _ _ _ _ Hl Hn E) as (Hc & _ & _).
  replace a with (absolute_target i (a - ri_SubscriptionPreConsumed i) (ri_SubscriptionPreConsumed i)); [done|].
  unfold absolute_target. rewrite (proj2 (Z.eqb_neq (ri_SubscriptionPreConsumed i) 0)) by lia. rewrite i64_add_id by i64. goal_if; lia.
Qed.
End Theorems.

(** ** Provider split *)

(** A provider's charge is split without loss.  Given that scaling by
    the paid ratio stays within the scaled amount, the covered cost and the
    owner's cost add up to the base cost, neither is negative, the profit is
    within the margin, and what the provider is credited never exceeds what it
    charged. *)
Theorem provider_split_is_exact (scaled : Z -> Z -> Z -> Z) base charge paid :
  (forall a p c, 0 <= a -> 0 < p <= c -> 0 <= scaled a p c <= a) ->
  0 < base < quota_bound -> 0 <= charge < quota_bound ->
  let '(covered, owner, profit) := provider_split scaled base charge (clamp_paid charge paid) in
  covered + owner = base /\ 0 <= covered <= Z.min base charge /\ 0 <= owner /\
  0 <= profit <= Z.max 0 (charge - base) /\ covered + profit <= charge.
Proof.
  intros Hs Hb Hc. unfold quota_bound in *.
  assert (Hp : 0 <= clamp_paid charge paid /\ (0 < charge -> clamp_paid charge paid <= charge)).
  { unfold clamp_paid. destruct (Z.ltb_spec paid 0), (Z.ltb_spec 0 charge); cbn [andb];
      try match goal with |- context [?x <? ?y] => destruct (Z.ltb_spec x y) end; lia. }
  generalize dependent (clamp_paid charge paid). intros p Hp. unfold provider_split. rewrite (i64_sub_id charge) by i64.
  destruct (Z.ltb_spec 0 charge) as [H1|H1]; cbn [andb].
  2: { rewrite (proj2 (Z.ltb_ge base 0)), i64_sub_id, (proj2 (Z.ltb_ge _ 0)) by i64. lia. }
  destruct (Z.ltb_spec 0 p) as [H2|H2].
  2: { rewrite (proj2 (Z.ltb_ge base 0)), i64_sub_id, (proj2 (Z.ltb_ge _ 0)) by i64. lia. }
  assert (Hcov : (if charge <? base then charge else base) = Z.min base charge) by (destruct (Z.ltb_spec charge base); lia).
  rewrite Hcov. pose proof (Hs (Z.min base charge) p charge ltac:(lia) ltac:(lia)) as Hcv.
  rewrite (proj2 (Z.ltb_ge base _)) by lia. rewrite (i64_sub_id base), (proj2 (Z.ltb_ge _ 0)) by i64.
  destruct (Z.ltb_spec 0 (charge - base)); [pose proof (Hs (charge - base) p charge ltac:(lia) ltac:(lia))|]; lia.
Qed.

(** ** Concrete requests *)

Lemma provider_split_is_exact_witness :
  provider_split (fun a p c => a * p / c) 80 100 (clamp_paid 100 75) = (60, 20, 15) /\ 60 + 20 = 80.
Proof.
  split; [reflexivity|].
  pose proof (provider_split_is_exact (fun a p c => a * p / c) 80 100 75) as Ht. cbn in Ht. apply Ht; [|unfold quota_bound; lia..].
  intros a p c Ha Hp. split; [apply Z.div_pos; nia | apply Z.div_le_upper_bound; nia].
Defined.

#[local] Existing Instance demo_zone.
#[local] Existing Instance demo_dbclock.

Section WalletDemo.
#[local] Existing Instance steady.
#[local] Existing Instance steady_clock.

Lemma rebate_claimed_once_witness :
  fst (ClaimWalletConsumedForRebate demo_settled) = Ok (300, 350) /\ 300 + 350 = bs_fundingQuota (rq_session demo_settled) /\
  fst (ClaimWalletConsumedForRebate (snd (ClaimWalletConsumedForRebate demo_settled))) = Ok (0, 0).
Proof.
  destruct (reachable_inv _ _ _ _ _ _ _ _ (demo_reachable _ demo_settled_steps)) as [(f & i & Hp) _].
  destruct (rebate_claimed_once f i demo_settled (mkWF 1 650 300 350) (snd (ClaimWalletConsumedForRebate demo_settled)) 300 350 Hp)
    as (E1 & _ & _ & E2).
  - vm_compute. auto.
  - vm_compute. reflexivity.
  - vm_compute. reflexivity.
  - vm_compute. reflexivity.
  - vm_compute. reflexivity.
  - split; [vm_compute; reflexivity|]. split; [exact E1|]. exact (E2 _ _ _ (session_refl _)).
Defined.
End WalletDemo.

Section SubscriptionDemo.
#[local] Instance sub_process : Deployment :=
  {| RedisEnabled := false; BatchUpdateEnabled := false; GetTrustQuota := 5000000; FormatQuota := pretty;
     reply_at := fun _ => mkReply None 1700000100 1700000100 1700000100 None None None |}.
#[local] Instance sub_process_clock : ClockOk.
Proof. done. Defined.

Definition sub_info : RelayInfo :=
  mkRI 7 7 "sk" false false false false "req-9" "gpt" 0 0 "" "" "subscription_only" 0 0 "" 0 0 0 0 0 0 "" 0 0.
Definition sub_world : world :=
  mkWorld {[7 := mkUser 0 0 0 0 0]} {[7 := mkToken 7 0 7 "sk" 1 0 (-1) 0 false 0 0]} ∅ daily_db no_batch 0.
Definition sub_source : funding := FSubscription (mkSF "req-9" 7 "gpt" 40 0 0 0 false 0 0 0 "").
Definition sub_start : request := mkRequest (new_session sub_source) (Some sub_info) sub_world [].
Definition sub_opened : request := snd (preConsume demo_context 40 sub_start).

Lemma sub_ready : ready sub_source sub_info (if shouldTrust demo_context sub_start then 0 else 40) sub_start.
Proof.
  split; try done. vm_compute. split_and!; try done; constructor.
Qed.

Lemma sub_phase : exists f i, phase f i sub_opened.
Proof.
  destruct (reachable_inv demo_context sub_source sub_info 40 sub_start (0, 0) 0 sub_opened) as [Hp _]; [|exact Hp].
  split; [exact sub_ready|]. exists sub_opened. split; [vm_compute; reflexivity | apply session_refl].
Qed.

Definition demo_scaled (a p c : Z) : Z := a * p / c.
Definition sub_settled : bill := snd (SettleBilling demo_scaled demo_context true 0 "" (sub_opened, [])).

Lemma zero_usage_keeps_reservation_witness :
  bs_settled (rq_session (fst sub_settled)) = true /\ fst (held_funding (fst sub_settled)) = 40.
Proof.
  destruct sub_phase as (f & i & Hp). pose proof (core_info _ _ _ (phase_core _ _ _ Hp)) as Hi.
  apply (zero_usage_keeps_reservation demo_scaled demo_context "" f i sub_opened (fst sub_settled) (snd sub_settled) Hp).
  - vm_compute. reflexivity.
  - vm_compute. reflexivity.
  - vm_compute. reflexivity.
  - vm_compute in Hi. injection Hi as <-. reflexivity.
  - vm_compute. split; reflexivity.
  - vm_compute. reflexivity.
Defined.

(** The same request, billed through the legacy path. *)
Definition legacy_info : RelayInfo := default sub_info (rq_info sub_opened).

Lemma legacy_ready : legacy_subscription legacy_info sub_opened.
Proof.
  split; try (vm_compute; reflexivity).
  - vm_compute. discriminate.
  - vm_compute. discriminate.
  - vm_compute. split; reflexivity.
  - split; vm_compute; apply NoDup_singleton.
Qed.

Definition legacy_first : bill := snd (PostConsumeQuota 5 0 false "" (sub_opened, [])).
Definition legacy_second : bill := snd (PostConsumeQuota 7 0 false "" legacy_first).

Lemma legacy_increments_accumulate_witness :
  charged (fst legacy_first) "req-9" (40 + 5) /\ charged (fst legacy_second) "req-9" (40 + 5 + 7).
Proof.
  apply (legacy_increments_accumulate legacy_info sub_opened 5 7 false "" (fst legacy_first) (fst legacy_second) [] (snd legacy_first) (snd legacy_second) legacy_ready).
  - vm_compute. reflexivity.
  - unfold quota_bound. lia.
  - unfold quota_bound. lia.
  - vm_compute. reflexivity.
  - vm_compute. reflexivity.
Defined.

Definition legacy_final : bill := snd (SettleBilling demo_scaled demo_context false 52 "" (sub_opened, [])).

Lemma legacy_final_settlement_is_absolute_witness : charged (fst legacy_final) "req-9" 52.
Proof.
  apply (legacy_final_settlement_is_absolute demo_scaled demo_context legacy_info sub_opened 52 "" (fst legacy_final) [] (snd legacy_final) legacy_ready).
  - vm_compute. reflexivity.
  - unfold quota_bound. lia.
  - vm_compute. discriminate.
  - vm_compute. reflexivity.
Defined.
End SubscriptionDemo.
