(* ===== verification/TaskBilling.v ===== *)
(** * Billing of asynchronous tasks

    [src/service/task_billing.go].  A task is charged when it is submitted and
    settled, or refunded, when a poll finds it finished.  The funding side and
    the token side commit separately; a checkpoint in the task row
    ([BillingSettlement*]) records how far each of them got.

    The state is one task: the object a worker holds ([ts_task]), the columns
    [quota] and [private_data] of its row ([ts_row]) and the [world].
    [ts_log] records what the theorems speak about: checkpoints that could not
    be written, token adjustments skipped for want of a key, and the calls to
    the component of rebates and profits ([Commission]).  Log lines are left
    out. *)

From stdpp Require Import base numbers list strings pretty gmap.
From Stdlib Require Import ZArith Lia.
From S2P Require Import Prelude GoInt GoMonad GoString GoTime WindowBounds SubPlan SubUsage SubStore SubSafety Commission Wallet Funding.

(** ** Data *)

Record TaskBillingContext := mkTaskContext {
  bc_OriginModelName : string; bc_ProviderId : Z; bc_ProviderPricingId : Z; bc_ProviderPublicModel : string; bc_ProviderBaseModel : string;
  bc_PerCallBilling : bool; bc_ProviderBaseQuota : Z; bc_ProviderUserQuota : Z; bc_ProviderOwnerUserId : Z
}.

(** The billing columns of [TaskPrivateData]. *)
Record TaskPrivateData := mkPrivate {
  pd_BillingSource : string; pd_TokenUsageSettled : bool; pd_SubscriptionId : Z; pd_SubscriptionRequestId : string;
  pd_SubscriptionPreConsumed : Z; pd_TokenId : Z; pd_BillingContext : option TaskBillingContext;
  pd_WalletQuotaBreakdownRecorded : bool; pd_WalletRewardUsed : Z; pd_WalletPaidUsed : Z;
  pd_ConsumeRebateSettled : bool; pd_ProviderProfitSettled : bool;
  pd_Pending : bool; pd_Target : Z; pd_FundingAmount : Z; pd_TokenAmount : Z; pd_FundingDone : bool; pd_TokenDone : bool;
  pd_BillingRefunded : bool
}.

Inductive TaskStatus :=
  | TaskStatusNotStart | TaskStatusDispatching | TaskStatusSubmitted | TaskStatusQueued | TaskStatusInProgress
  | TaskStatusFailure | TaskStatusSuccess | TaskStatusUnknown.

Record Task := mkTask {
  k_ID : Z; k_TaskID : string; k_UserId : Z; k_ChannelId : Z; k_Status : TaskStatus; k_OriginModelName : string;
  k_Quota : Z; k_PrivateData : TaskPrivateData
}.

Definition set_settlement (pending : bool) (target funding token : Z) (fdone tdone : bool) (p : TaskPrivateData) : TaskPrivateData :=
  mkPrivate (pd_BillingSource p) (pd_TokenUsageSettled p) (pd_SubscriptionId p) (pd_SubscriptionRequestId p)
    (pd_SubscriptionPreConsumed p) (pd_TokenId p) (pd_BillingContext p) (pd_WalletQuotaBreakdownRecorded p) (pd_WalletRewardUsed p)
    (pd_WalletPaidUsed p) (pd_ConsumeRebateSettled p) (pd_ProviderProfitSettled p) pending target funding token fdone tdone (pd_BillingRefunded p).
Definition set_used (reward paid : Z) (p : TaskPrivateData) : TaskPrivateData :=
  mkPrivate (pd_BillingSource p) (pd_TokenUsageSettled p) (pd_SubscriptionId p) (pd_SubscriptionRequestId p)
    (pd_SubscriptionPreConsumed p) (pd_TokenId p) (pd_BillingContext p) (pd_WalletQuotaBreakdownRecorded p) reward paid
    (pd_ConsumeRebateSettled p) (pd_ProviderProfitSettled p) (pd_Pending p) (pd_Target p) (pd_FundingAmount p) (pd_TokenAmount p)
    (pd_FundingDone p) (pd_TokenDone p) (pd_BillingRefunded p).
Definition set_flags (usage rebate profit refunded : bool) (p : TaskPrivateData) : TaskPrivateData :=
  mkPrivate (pd_BillingSource p) usage (pd_SubscriptionId p) (pd_SubscriptionRequestId p)
    (pd_SubscriptionPreConsumed p) (pd_TokenId p) (pd_BillingContext p) (pd_WalletQuotaBreakdownRecorded p) (pd_WalletRewardUsed p)
    (pd_WalletPaidUsed p) rebate profit (pd_Pending p) (pd_Target p) (pd_FundingAmount p) (pd_TokenAmount p) (pd_FundingDone p)
    (pd_TokenDone p) refunded.
Definition set_billing (quota : Z) (p : TaskPrivateData) (t : Task) : Task :=
  mkTask (k_ID t) (k_TaskID t) (k_UserId t) (k_ChannelId t) (k_Status t) (k_OriginModelName t) quota p.

Inductive task_event :=
  | CheckpointFailed
  | TokenSkipped
  | RebateApplied (userId : Z) (requestId : string) (paidQuota : Z) (ctx : option ConsumeRebateContext)
  | ProfitApplied (record : ProviderProfit).

Record tstate := mkTS { ts_task : Task; ts_row : Z * TaskPrivateData; ts_world : world; ts_log : list task_event }.
Definition ts_priv (s : tstate) : TaskPrivateData := k_PrivateData (ts_task s).
Definition put_task (t : Task) (s : tstate) : tstate := mkTS t (ts_row s) (ts_world s) (ts_log s).
Definition put_row (s : tstate) : tstate := mkTS (ts_task s) (k_Quota (ts_task s), ts_priv s) (ts_world s) (ts_log s).
Definition put_tworld (w : world) (s : tstate) : tstate := mkTS (ts_task s) (ts_row s) w (ts_log s).
Definition put_event (e : task_event) (s : tstate) : tstate := mkTS (ts_task s) (ts_row s) (ts_world s) (ts_log s ++ [e]).

Definition in_tworld {A} (m : GM world A) : GM tstate A := zoom ts_world put_tworld m.
Definition set_private (f : TaskPrivateData -> TaskPrivateData) : GM tstate unit :=
  modify (fun s => put_task (set_billing (k_Quota (ts_task s)) (f (ts_priv s)) (ts_task s)) s).
Definition set_quota (q : Z) : GM tstate unit := modify (fun s => put_task (set_billing q (ts_priv s) (ts_task s)) s).
Definition note (e : task_event) : GM tstate unit := modify (put_event e).
(** [if err := m(); err != nil { log; return }; k()] *)
Definition unless_fails {A} (m : GM tstate A) (k : GM tstate unit) : GM tstate unit :=
  r ← attempting m; match r with Ok _ => k | Err _ => mret tt end.

(** ** Pure parts *)

Definition taskIsSubscription (t : Task) : bool :=
  String.eqb (pd_BillingSource (k_PrivateData t)) BillingSourceSubscription && (0 <? pd_SubscriptionId (k_PrivateData t)).

Definition taskTokenQuotaRequired (t : Task) : bool :=
  negb (String.eqb (pd_BillingSource (k_PrivateData t)) BillingSourceSubscription) && (0 <? pd_TokenId (k_PrivateData t)).

Definition taskRefundQuota (t : Task) : Z :=
  if 0 <? k_Quota t then k_Quota t
  else if negb (taskIsSubscription t) || (pd_SubscriptionPreConsumed (k_PrivateData t) <=? 0) then 0
  else if max_i64 <? pd_SubscriptionPreConsumed (k_PrivateData t) then max_i64
  else pd_SubscriptionPreConsumed (k_PrivateData t).

Definition consumeRebateContextFromTask (t : Task) : option ConsumeRebateContext :=
  match pd_BillingContext (k_PrivateData t) with
  | None => Some (mkRebateContext 0 0 (k_OriginModelName t) (k_OriginModelName t))
  | Some bc =>
      if bc_ProviderId bc <=? 0 then
        let modelName := if String.eqb (bc_OriginModelName bc) "" then k_OriginModelName t else bc_OriginModelName bc in
        Some (mkRebateContext 0 0 modelName modelName)
      else if String.eqb (bc_ProviderPublicModel bc) "" then None
      else Some (mkRebateContext (bc_ProviderId bc) (bc_ProviderPricingId bc) (bc_ProviderPublicModel bc) (bc_ProviderBaseModel bc))
  end.

Section Operations.
Context `{Deployment} `{DBClock} `{LocalZone}.
(** The hexadecimal SHA-256 digest. *)
Variable sha256_hex : string -> string.
(** [decimal(amount) * (decimal(paid) / decimal(charge))], its integer part. *)
Variable scaled : Z -> Z -> Z -> Z.

Definition stableConsumeRebateRequestId (scope id : string) : string := sha256_hex (scope +:+ ":" +:+ id).

(** ** The two sides *)

Definition persistTaskBillingState : GM tstate unit :=
  task ← gets ts_task;
  if k_ID task <=? 0 then mret tt
  else
    r ← attempting (in_tworld (db_call (fun _ => mret tt)));
    match r with
    | Ok _ => modify put_row
    | Err e => _ ← note CheckpointFailed; throw e
    end.

Definition GetTokenById (id : Z) : GM world Token :=
  if id =? 0 then throw (ErrMsg "id 为空！")
  else db_call (fun _ =>
    tokens ← gets w_tokens;
    match tokens !! id with Some token => mret token | None => throw ErrRecordNotFound end).

(** The empty string when the token cannot be read. *)
Definition resolveTokenKey (tokenId : Z) : GM tstate string :=
  r ← attempting (in_tworld (GetTokenById tokenId));
  match r with Ok token => mret (t_Key token) | Err _ => mret "" end.

Definition taskAdjustFunding (delta : Z) : GM tstate unit :=
  task ← gets ts_task;
  let p := k_PrivateData task in
  if taskIsSubscription task then
    let requestID := TrimSpace (pd_SubscriptionRequestId p) in
    if negb (String.eqb requestID "")
    then in_tworld (sub_call (fun db now txnow => AdjustSubscriptionPreConsume db now txnow requestID delta))
    else in_tworld (sub_call (fun db _ _ => PostConsumeUserSubscriptionDelta db (pd_SubscriptionId p) delta))
  else if 0 <? delta then
    breakdown ← in_tworld (DecreaseUserQuotaPreferReward (k_UserId task) delta);
    if pd_WalletQuotaBreakdownRecorded p
    then set_private (set_used (i64_add (pd_WalletRewardUsed p) (bd_RewardUsed breakdown)) (i64_add (pd_WalletPaidUsed p) (bd_PaidUsed breakdown)))
    else mret tt
  else if delta =? 0 then mret tt
  else
    let refundTotal := i64_neg delta in
    if negb (pd_WalletQuotaBreakdownRecorded p) then in_tworld (IncreaseUserQuota (k_UserId task) refundTotal false)
    else
      let consumedTotal := i64_add (pd_WalletRewardUsed p) (pd_WalletPaidUsed p) in
      if consumedTotal <? refundTotal then throw (ErrMsg "task wallet refund exceeds consumed quota")
      else
        let paidRefund := if pd_WalletPaidUsed p <? refundTotal then pd_WalletPaidUsed p else refundTotal in
        let rewardRefund := i64_sub refundTotal paidRefund in
        if pd_WalletRewardUsed p <? rewardRefund then throw (ErrMsg "task reward refund exceeds consumed reward quota")
        else
          _ ← in_tworld (IncreaseUserQuotaByBreakdown (k_UserId task) refundTotal rewardRefund);
          set_private (set_used (i64_sub (pd_WalletRewardUsed p) rewardRefund) (i64_sub (pd_WalletPaidUsed p) paidRefund)).

Definition taskAdjustTokenQuota (delta : Z) : GM tstate unit :=
  task ← gets ts_task;
  if negb (taskTokenQuotaRequired task) || (delta =? 0) then mret tt
  else
    let tokenId := pd_TokenId (k_PrivateData task) in
    tokenKey ← resolveTokenKey tokenId;
    if String.eqb tokenKey "" then note TokenSkipped
    else in_tworld (if 0 <? delta then DecreaseTokenQuota tokenId tokenKey delta else IncreaseTokenQuota tokenId tokenKey (i64_neg delta)).

(** ** The settlement state machine *)

Definition initializeTaskBillingSettlementAt (current target : Z) : GM tstate unit :=
  task ← gets ts_task;
  if pd_Pending (k_PrivateData task) then mret tt
  else
    _ ← set_private (set_settlement true target current current (current =? target) ((current =? target) || negb (taskTokenQuotaRequired task)));
    persistTaskBillingState.

Definition initializeTaskBillingSettlement (target : Z) : GM tstate unit :=
  task ← gets ts_task; initializeTaskBillingSettlementAt (k_Quota task) target.

Definition clearTaskBillingSettlement : GM tstate unit := set_private (set_settlement false 0 0 0 false false).

(** Aims a pending settlement at another target. *)
Definition retarget (target : Z) : GM tstate unit :=
  task ← gets ts_task;
  let p := k_PrivateData task in
  _ ← set_private (set_settlement (pd_Pending p) target (pd_FundingAmount p) (pd_TokenAmount p) (pd_FundingAmount p =? target)
                     ((pd_TokenAmount p =? target) || negb (taskTokenQuotaRequired task)));
  persistTaskBillingState.

Definition settle_funding_side (target : Z) : GM tstate unit :=
  p ← gets ts_priv;
  if pd_FundingDone p then mret tt
  else
    _ ← taskAdjustFunding (i64_sub target (pd_FundingAmount p));
    _ ← set_private (fun p => set_settlement (pd_Pending p) (pd_Target p) target (pd_TokenAmount p) true (pd_TokenDone p) p);
    persistTaskBillingState.

Definition settle_token_side (target : Z) : GM tstate unit :=
  p ← gets ts_priv;
  if pd_TokenDone p then mret tt
  else
    _ ← taskAdjustTokenQuota (i64_sub target (pd_TokenAmount p));
    _ ← set_private (fun p => set_settlement (pd_Pending p) (pd_Target p) (pd_FundingAmount p) target (pd_FundingDone p) true p);
    persistTaskBillingState.

Definition settleTaskBillingTarget (target : Z) : GM tstate unit :=
  if target <? 0 then throw (ErrMsg "actual quota must be >= 0")
  else
    p ← gets ts_priv;
    _ ← (if pd_Pending p then if negb (pd_Target p =? target) then retarget target else mret tt
         else initializeTaskBillingSettlement target);
    _ ← settle_funding_side target;
    settle_token_side target.

(** ** Terminal operations *)

Definition RefundTaskQuota : GM tstate unit :=
  task ← gets ts_task;
  let p := k_PrivateData task in
  if pd_BillingRefunded p then mret tt
  else
    let quota := taskRefundQuota task in
    let quota := if pd_Pending p then Z.max (Z.max quota (pd_FundingAmount p)) (pd_TokenAmount p) else quota in
    if quota <=? 0 then mret tt
    else
      unless_fails
        (if pd_Pending p then retarget 0
         else initializeTaskBillingSettlementAt (if 0 <? k_Quota task then k_Quota task else quota) 0)
        (unless_fails (settleTaskBillingTarget 0)
           (_ ← clearTaskBillingSettlement;
            _ ← set_private (fun p => set_flags (pd_TokenUsageSettled p) (pd_ConsumeRebateSettled p) (pd_ProviderProfitSettled p) true p);
            unless_fails persistTaskBillingState
              (p ← gets ts_priv;
               if pd_WalletQuotaBreakdownRecorded p then
                 _ ← set_private (fun p => set_flags (pd_TokenUsageSettled p) true (pd_ProviderProfitSettled p) (pd_BillingRefunded p) p);
                 unless_fails persistTaskBillingState (mret tt)
               else mret tt))).

(** The counters of a task that turned out dearer than its reservation. *)
Definition count_extra_usage (quotaDelta : Z) : GM tstate unit :=
  task ← gets ts_task;
  if 0 <? quotaDelta then
    _ ← in_tworld (if taskIsSubscription task then UpdateUserRequestCount (k_UserId task) 1
                   else UpdateUserUsedQuotaAndRequestCount (k_UserId task) quotaDelta);
    in_tworld (UpdateChannelUsedQuota (k_ChannelId task) quotaDelta)
  else mret tt.

Definition RecalculateTaskQuota (actualQuota : Z) : GM tstate unit :=
  if actualQuota <=? 0 then mret tt
  else
    task ← gets ts_task;
    let preConsumedQuota := if (k_Quota task <=? 0) && taskIsSubscription task then taskRefundQuota task else k_Quota task in
    let quotaDelta := i64_sub actualQuota preConsumedQuota in
    if quotaDelta =? 0 then
      if negb (k_Quota task =? actualQuota) then
        _ ← set_quota actualQuota; unless_fails persistTaskBillingState (mret tt)
      else mret tt
    else
      let p := k_PrivateData task in
      let settlementCurrent := if pd_Pending p then pd_FundingAmount p else preConsumedQuota in
      unless_fails (initializeTaskBillingSettlementAt settlementCurrent actualQuota)
        (unless_fails (settleTaskBillingTarget actualQuota)
           (_ ← clearTaskBillingSettlement;
            _ ← set_quota actualQuota;
            _ ← attempting persistTaskBillingState;
            count_extra_usage quotaDelta)).

(** [Update] writes the whole row. *)
Definition RecordTaskTotalTokenUsage (totalTokens : Z) : GM tstate unit :=
  task ← gets ts_task;
  if (totalTokens <=? 0) || pd_TokenUsageSettled (k_PrivateData task) then mret tt
  else
    _ ← in_tworld (UpdateUserAndTokenTotalTokenUsed (k_UserId task) (pd_TokenId (k_PrivateData task)) totalTokens);
    _ ← set_private (fun p => set_flags true (pd_ConsumeRebateSettled p) (pd_ProviderProfitSettled p) (pd_BillingRefunded p) p);
    unless_fails persistTaskBillingState (mret tt).

(** A call of the component of rebates and profits. *)
Definition commission_call (e : task_event) : GM tstate unit :=
  _ ← in_tworld (db_call (fun _ => mret tt)); note e.

Definition FinalizeTaskConsumeRebate : GM tstate unit :=
  task ← gets ts_task;
  let p := k_PrivateData task in
  if negb (String.eqb (pd_BillingSource p) BillingSourceWallet) || negb (pd_WalletQuotaBreakdownRecorded p) || pd_ConsumeRebateSettled p
  then mret tt
  else if pd_Pending p then mret tt
  else if match pd_BillingContext p with Some bc => 0 <? bc_ProviderId bc | None => false end then mret tt
  else
    unless_fails
      (if 0 <? pd_WalletPaidUsed p
       then commission_call (RebateApplied (k_UserId task) (stableConsumeRebateRequestId "task-final" (k_TaskID task)) (pd_WalletPaidUsed p)
                               (consumeRebateContextFromTask task))
       else mret tt)
      (_ ← set_private (fun p => set_flags (pd_TokenUsageSettled p) true (pd_ProviderProfitSettled p) (pd_BillingRefunded p) p);
       unless_fails persistTaskBillingState (mret tt)).

(** The profit record of a finished task. *)
Definition task_profit (task : Task) (bc : TaskBillingContext) : ProviderProfit :=
  let providerCharge := if bc_ProviderUserQuota bc <? 0 then 0 else bc_ProviderUserQuota bc in
  let paidQuota := if pd_WalletPaidUsed (k_PrivateData task) <? 0 then 0 else pd_WalletPaidUsed (k_PrivateData task) in
  let paidQuota := if (0 <? providerCharge) && (providerCharge <? paidQuota) then providerCharge else paidQuota in
  let '(coveredCost, profitQuota) :=
    if (0 <? providerCharge) && (0 <? paidQuota) then
      let coverableCost := if providerCharge <? bc_ProviderBaseQuota bc then providerCharge else bc_ProviderBaseQuota bc in
      let grossProfit := i64_sub providerCharge (bc_ProviderBaseQuota bc) in
      (scaled coverableCost paidQuota providerCharge, if 0 <? grossProfit then scaled grossProfit paidQuota providerCharge else 0)
    else (0, 0) in
  let ownerCost := i64_sub (bc_ProviderBaseQuota bc) coveredCost in
  mkProfit 0 (bc_ProviderId bc) (bc_ProviderOwnerUserId bc) (k_UserId task) (stableConsumeRebateRequestId "task-provider-profit" (k_TaskID task))
    (bc_ProviderPublicModel bc) (bc_ProviderBaseModel bc) providerCharge (bc_ProviderBaseQuota bc) paidQuota coveredCost
    (if ownerCost <? 0 then 0 else ownerCost) profitQuota 0 0 false false 0.

Definition FinalizeTaskProviderProfit : GM tstate unit :=
  task ← gets ts_task;
  let p := k_PrivateData task in
  if pd_ProviderProfitSettled p then mret tt
  else if pd_Pending p then mret tt
  else
    match pd_BillingContext p with
    | None => mret tt
    | Some bc =>
        if (bc_ProviderId bc <=? 0) || (bc_ProviderOwnerUserId bc <=? 0) || (bc_ProviderBaseQuota bc <=? 0) then mret tt
        else
          unless_fails (commission_call (ProfitApplied (task_profit task bc)))
            (_ ← set_private (fun p => set_flags (pd_TokenUsageSettled p) (pd_ConsumeRebateSettled p) true (pd_BillingRefunded p) p);
             unless_fails persistTaskBillingState (mret tt))
    end.

(** A successful poll.  [adjusted] is what the adaptor's
    [AdjustBillingOnComplete] answers, [priced] the amount
    [RecalculateTaskQuotaByTokens] computes, [None] where it returns early. *)
Definition settleTaskBillingOnComplete (totalTokens adjusted : Z) (priced : option Z) : GM tstate unit :=
  _ ← RecordTaskTotalTokenUsage totalTokens;
  task ← gets ts_task;
  _ ← (if match pd_BillingContext (k_PrivateData task) with Some bc => bc_PerCallBilling bc | None => false end then mret tt
       else if 0 <? adjusted then RecalculateTaskQuota adjusted
       else if 0 <? totalTokens then match priced with Some a => RecalculateTaskQuota a | None => mret tt end
       else mret tt);
  _ ← FinalizeTaskProviderProfit;
  FinalizeTaskConsumeRebate.

(** What [RetryPendingTaskBilling] does with one task it loaded. *)
Definition retry_task : GM tstate unit :=
  _ ← modify (fun s => put_task (set_billing (fst (ts_row s)) (snd (ts_row s)) (ts_task s)) s);
  task ← gets ts_task;
  if negb (pd_Pending (k_PrivateData task)) then mret tt
  else
    match k_Status task with
    | TaskStatusFailure => RefundTaskQuota
    | TaskStatusSuccess =>
        let target := pd_Target (k_PrivateData task) in
        let finalize :=
          p ← gets ts_priv;
          if negb (pd_Pending p) then _ ← FinalizeTaskConsumeRebate; FinalizeTaskProviderProfit else mret tt in
        if target <? 0 then mret tt
        else if target =? 0 then
          unless_fails (settleTaskBillingTarget 0)
            (_ ← clearTaskBillingSettlement; _ ← set_quota 0; unless_fails persistTaskBillingState finalize)
        else _ ← RecalculateTaskQuota target; finalize
    | _ => mret tt
    end.
End Operations.
