(* ===== verification/TaskSafety.v ===== *)
(** * What every history of an asynchronous task guarantees

    Wallet-funded tasks with a recorded breakdown.  The invariant [task_ok]
    says that the task knows what it was charged; [advances] says that an
    operation only moved money between the user's wallet, the token and the
    task, that the row follows the object unless a checkpoint could not be
    written, and that the token side is exact unless it was skipped. *)

From stdpp Require Import base numbers list strings pretty gmap.
From Stdlib Require Import ZArith Lia.
From S2P Require Import Prelude GoInt GoMonad GoString GoTime WindowBounds SubPlan SubUsage SubStore SubSafety Commission Wallet Funding BillingSafety TaskBilling.

(** ** What a task holds *)

Definition task_charged (t : Task) : Z :=
  let p := k_PrivateData t in if pd_Pending p then pd_FundingAmount p else if pd_BillingRefunded p then 0 else k_Quota t.
Definition token_charged (t : Task) : Z :=
  let p := k_PrivateData t in if pd_Pending p then pd_TokenAmount p else if pd_BillingRefunded p then 0 else k_Quota t.

(** The task's funding as the wallet source of a session would hold it. *)
Definition task_wallet (t : Task) : WalletFunding :=
  let p := k_PrivateData t in
  mkWF (k_UserId t) (pd_WalletRewardUsed p + pd_WalletPaidUsed p) (pd_WalletRewardUsed p) (pd_WalletPaidUsed p).
Definition task_money (s : tstate) : money := madd (wallet_account (task_wallet (ts_task s)) (ts_world s)) (wallet_reserved (task_wallet (ts_task s))).
Definition task_token (s : tstate) : Z := token_balance (ts_world s) (pd_TokenId (ts_priv s)) + token_charged (ts_task s).
Definition synced (s : tstate) : Prop := ts_row s = (k_Quota (ts_task s), ts_priv s).






(** ** Progress *)

Record advances_by (l : list task_event) (s s' : tstate) : Prop := {
  ad_user : k_UserId (ts_task s') = k_UserId (ts_task s);
  ad_tid : pd_TokenId (ts_priv s') = pd_TokenId (ts_priv s);
  ad_log : ts_log s' = ts_log s ++ l;
  ad_money : task_money s' = task_money s;
  ad_token : TokenSkipped ∈ l \/ task_token s' = task_token s;
  ad_sync : CheckpointFailed ∈ l \/ (synced s -> synced s')
}.
Definition advances (s s' : tstate) : Prop := exists l, advances_by l s s'.

#[export] Instance advances_preorder : PreOrder advances.
Proof.
  split.
  - intros s. exists []. split; try done; [by rewrite app_nil_r | by right | by right].
  - intros s1 s2 s3 [l1 [A1 A2 A3 A4 A5 A6]] [l2 [B1 B2 B3 B4 B5 B6]]. exists (l1 ++ l2). split; [congruence | congruence | | congruence | |].
    + by rewrite B3, A3, app_assoc.
    + rewrite elem_of_app. destruct A5; [by auto|]. destruct B5; [by auto|]. right. congruence.
    + rewrite elem_of_app. destruct A6; [by auto|]. destruct B6; [by auto|]. auto.
Qed.


Section Safety.
Context `{Deployment} `{DBClock} `{LocalZone}.

(** *** Writing the row *)




(** *** Checkpoints *)













(** *** The funding side *)



(** *** The token side *)




(** *** Settlement *)


(** *** Counters *)

(** Balances are as before. *)
Record counters_only (w w' : world) : Prop := {
  co_users id : (fun u => (u_Quota u, u_RewardQuota u)) <$> w_users w' !! id = (fun u => (u_Quota u, u_RewardQuota u)) <$> w_users w !! id;
  co_tokens id : t_RemainQuota <$> w_tokens w' !! id = t_RemainQuota <$> w_tokens w !! id;
  co_pending ty id : (ty <= 1)%nat -> pending w' ty id = pending w ty id;
  co_length : length (w_batch w') = length (w_batch w)
}.

#[local] Instance counters_only_preorder : PreOrder counters_only.
Proof.
  split; [by split|]. intros w1 w2 w3 [A1 A2 A3 A4] [B1 B2 B3 B4]. split; [| | |congruence].
  - intros id. by rewrite B1.
  - intros id. by rewrite B2.
  - intros ty id Hty. by rewrite B3, A3.
Qed.












(** *** Terminal operations *)












Variable sha256_hex : string -> string.
Variable scaled : Z -> Z -> Z -> Z.






(** ** Histories *)






(** ** Claims *)

End Safety.

(** ** Concrete tasks *)

Definition plain_digest (x : string) : string := x.
Definition plain_scaled (a p c : Z) : Z := a * p / c.
Definition task_private : TaskPrivateData := mkPrivate "wallet" false 0 "" 0 7 None true 40 60 false false false 0 0 0 false false false.
Definition demo_task : Task := mkTask 1 "task-1" 1 3 TaskStatusSuccess "gpt" 100 task_private.
Definition task_start : tstate := mkTS demo_task (100, task_private) (one_user 1000 300 500 no_batch) [].
#[local] Instance task_zone : LocalZone := 0.
#[local] Instance task_dbclock : DBClock := 0.


(** The token write fails once, the recovery pass completes the settlement. *)
Section Recovery.
#[local] Instance flaky_token : Deployment := local_process false 4 5.


End Recovery.

(** A checkpoint that cannot be written loses the charge it records: the
    wallet is charged for the settlement, the write of the row fails, and the
    recovery pass, which works on the row, charges the wallet again.  The task
    of 100 settled at 150 costs the user 200. *)
Theorem lost_checkpoint_charges_twice :
  let D := local_process false 2 3 in
  let s1 := snd (@RecalculateTaskQuota D _ _ 150 task_start) in
  let s2 := snd (@retry_task D _ _ plain_digest plain_scaled s1) in
  ts_log s1 = [CheckpointFailed] /\ user_balance (ts_world s1) 1 = 950 /\
  user_balance (ts_world s2) 1 = 900 /\ task_charged (ts_task s2) = 150 /\ pd_Pending (ts_priv s2) = false.
Proof. vm_compute. by repeat split. Qed.

(** A database error while the token is looked up is taken for a deleted
    token: the settlement completes without charging the token, and no retry
    follows. *)
Theorem failed_lookup_skips_token :
  let D := local_process false 3 4 in
  let s1 := snd (@RecalculateTaskQuota D _ _ 150 task_start) in
  ts_log s1 = [TokenSkipped] /\ token_balance (ts_world s1) 7 = 500 /\ user_balance (ts_world s1) 1 = 950 /\
  token_charged (ts_task s1) = 150 /\ pd_Pending (ts_priv s1) = false.
Proof. vm_compute. by repeat split. Qed.
