(* ===== verification/ChannelTable.v ===== *)
(** * Channels and abilities

    The tables [channels] and [abilities] (src/model/channel.go,
    src/model/ability.go) and every operation that writes them.  A channel
    lists its groups and models as comma-separated strings; the table of
    abilities holds one row for each group, model and channel, and is what
    channel selection queries when the memory cache is off.

    A [Store] also holds the memory cache of src/model/channel_cache.go, which
    [ChannelCache] fills.  The rows of a table are listed in the order the
    database returns them, which the code does not control.  Each statement
    consumes a reply: [false] makes it fail.  [Create] fills zero fields that
    have a default, [Updates] writes the non-zero fields of a struct, as
    documented for gorm.  Columns that neither selection nor these operations
    read (base url, mappings, balances, reasons of a disabled key) are left
    out. *)

From stdpp Require Import base gmap list strings sorting.
From Stdlib Require Import ZArith Lia Ascii.
From S2P Require Import Prelude GoInt GoString GoMonad.
Open Scope Z_scope.

Definition ChannelStatusEnabled : Z := 1.
Definition ChannelStatusManuallyDisabled : Z := 2.
Definition ChannelStatusAutoDisabled : Z := 3.

(** A nil [MultiKeyStatusList] is the empty map. *)
Record ChannelInfo := mkChannelInfo {
  ci_IsMultiKey : bool;
  ci_MultiKeySize : Z;
  ci_MultiKeyStatusList : gmap Z Z;
  ci_MultiKeyPollingIndex : Z;
  ci_MultiKeyMode : string
}.

Definition no_info : ChannelInfo := mkChannelInfo false 0 ∅ 0 "".
#[export] Instance ChannelInfo_eq_dec : EqDecision ChannelInfo.
Proof. solve_decision. Defined.

(** [c_Keys] is not a column: the cache keeps the parsed keys there. *)
Record Channel := mkChannel {
  c_Id : Z;
  c_Type : Z;
  c_Key : string;
  c_Status : Z;
  c_Weight : option Z;
  c_Models : string;
  c_Group : string;
  c_Priority : option Z;
  c_Tag : option string;
  c_ChannelInfo : ChannelInfo;
  c_Keys : list string
}.
#[export] Instance Channel_eq_dec : EqDecision Channel.
Proof. solve_decision. Defined.

Record Ability := mkAbility {
  a_Group : string;
  a_Model : string;
  a_ChannelId : Z;
  a_Enabled : bool;
  a_Priority : option Z;
  a_Weight : Z;
  a_Tag : option string
}.

Definition GetPriority (c : Channel) : Z := default 0 (c_Priority c).
(** The conversion of a 64-bit unsigned weight to [int]. *)
Definition GetWeight (c : Channel) : Z :=
  match c_Weight c with None => 0 | Some w => wrap64 w end.
Definition to_uint (z : Z) : Z := z mod 2 ^ 64.

Definition set_status (v : Z) (c : Channel) : Channel :=
  mkChannel (c_Id c) (c_Type c) (c_Key c) v (c_Weight c) (c_Models c) (c_Group c)
    (c_Priority c) (c_Tag c) (c_ChannelInfo c) (c_Keys c).
Definition set_channel_info (i : ChannelInfo) (c : Channel) : Channel :=
  mkChannel (c_Id c) (c_Type c) (c_Key c) (c_Status c) (c_Weight c) (c_Models c) (c_Group c)
    (c_Priority c) (c_Tag c) i (c_Keys c).
Definition set_keys (k : list string) (c : Channel) : Channel :=
  mkChannel (c_Id c) (c_Type c) (c_Key c) (c_Status c) (c_Weight c) (c_Models c) (c_Group c)
    (c_Priority c) (c_Tag c) (c_ChannelInfo c) k.
Definition set_enabled (b : bool) (a : Ability) : Ability :=
  mkAbility (a_Group a) (a_Model a) (a_ChannelId a) b (a_Priority a) (a_Weight a) (a_Tag a).

Definition is_enabled (c : Channel) : bool := bool_decide (c_Status c = ChannelStatusEnabled).

(** ** State and statements *)

(** [map[string]map[string][]int]: ids by group and model. *)
Notation Index := (gmap string (gmap string (list Z))).
Definition map_lists (f : list Z -> list Z) (g : Index) : Index := (fun m : gmap string (list Z) => f <$> m) <$> g.

Record Store := mkStore {
  st_channels : list Channel;
  st_abilities : list Ability;
  st_nextId : Z;
  st_replies : list bool;
  group2model2channels : Index;
  channelsIDM : gmap Z Channel
}.

Definition with_channels (l : list Channel) (s : Store) : Store :=
  mkStore l (st_abilities s) (st_nextId s) (st_replies s) (group2model2channels s) (channelsIDM s).
Definition with_abilities (l : list Ability) (s : Store) : Store :=
  mkStore (st_channels s) l (st_nextId s) (st_replies s) (group2model2channels s) (channelsIDM s).
Definition with_cache (g : Index) (m : gmap Z Channel) (s : Store) : Store :=
  mkStore (st_channels s) (st_abilities s) (st_nextId s) (st_replies s) g m.
Definition with_replies (r : list bool) (s : Store) : Store :=
  mkStore (st_channels s) (st_abilities s) (st_nextId s) r (group2model2channels s) (channelsIDM s).

Notation CM := (GM Store).

(** The outcome of the next statement; a database that runs out of replies answers. *)
Definition db_reply : CM unit := fun s =>
  match st_replies s with
  | [] => (Ok tt, s)
  | b :: r => (if b then Ok tt else fail_with "database error", with_replies r s)
  end.

Definition exec (f : Store -> Store) : CM unit := db_reply ;; modify f.
Definition update_channels (f : list Channel -> list Channel) : CM unit :=
  exec (fun s => with_channels (f (st_channels s)) s).
Definition update_abilities (f : list Ability -> list Ability) : CM unit :=
  exec (fun s => with_abilities (f (st_abilities s)) s).
Definition query {A} (f : Store -> A) : CM A := db_reply ;; gets f.

(** [DB.Begin], the body, [Commit]; an error rolls both tables back. *)
Definition Transaction {A} (m : CM A) : CM A := fun s =>
  match (db_reply ;; a ← m; db_reply ;; mret a) s with
  | (Ok a, s') => (Ok a, s')
  | (Err e, s') => (Err e, with_abilities (st_abilities s) (with_channels (st_channels s) s'))
  end.

(** [InvalidateModelListCache]: the list cache itself is not modelled, its error is. *)
Definition InvalidateModelListCache : CM unit := db_reply.
Definition invalidateModelListCacheAfter (m : CM unit) : CM unit := m ;; InvalidateModelListCache.

(** What the code uses of [github.com/samber/lo]. *)
Class Lo := {
  Chunk : forall A : Type, list A -> nat -> list (list A);
  Chunk_concat : forall (A : Type) (l : list A) (n : nat), n <> 0%nat -> concat (Chunk A l n) = l
}.
Arguments Chunk {_ A} l n.
Arguments Chunk_concat {_ A} l n.

(** One implementation. *)
Fixpoint chunks_of {A} (fuel n : nat) (l : list A) : list (list A) :=
  match fuel, l with
  | S k, _ :: _ => take n l :: chunks_of k n (drop n l)
  | _, _ => []
  end.
Lemma chunks_of_concat {A} fuel n : forall l : list A,
  n <> 0%nat -> (length l <= fuel)%nat -> concat (chunks_of fuel n l) = l.
Proof.
  induction fuel as [|k IH]; intros [|x l] Hn Hl; cbn [chunks_of concat length] in *; try done; [lia|].
  rewrite IH, take_drop; [done | done |]. rewrite length_drop. cbn. lia.
Qed.
Definition plain_lo : Lo := {|
  Chunk := fun A l n => chunks_of (length l) n l;
  Chunk_concat := fun A l n Hn => chunks_of_concat (length l) n l Hn (le_n _)
|}.

(** [json.Unmarshal] of a string into a list of raw messages; [None] is an error. *)
Class RawJSON := raw_array : string -> option (list string).

Fixpoint for_each {A} (f : A -> CM unit) (l : list A) : CM unit :=
  match l with [] => mret tt | x :: l' => f x ;; for_each f l' end.

Section Operations.
Context {LO : Lo} {JS : RawJSON}.

(** ** Keys *)

Definition newline : ascii := "010"%char.
(** [strings.Trim(s, "\n")] *)
Definition TrimNewlines (s : string) : string :=
  let cut := [String newline EmptyString] in
  let l := trim_with cut (String.length s) s in
  str_rev (trim_with cut (String.length l) (str_rev l)).

Definition split_lines (s : string) : list string := Split (TrimNewlines s) newline.

Definition GetKeys (c : Channel) : list string :=
  if String.eqb (c_Key c) "" then []
  else match c_Keys c with
  | _ :: _ => c_Keys c
  | [] =>
      let trimmed := TrimSpace (c_Key c) in
      match (if HasPrefix trimmed "[" then raw_array trimmed else None) with
      | Some arr => arr
      | None => split_lines (c_Key c)
      end
  end.

(** ** Abilities of a channel *)

Definition comma : ascii := ","%char.

(** The row one pass of the inner loop creates. *)
Definition ability_of (c : Channel) (model group : string) : Ability :=
  mkAbility group model (c_Id c) (is_enabled c) (c_Priority c) (to_uint (GetWeight c)) (c_Tag c).

(** The nested loop over models and groups, with its set of keys. *)
Fixpoint collect_abilities (c : Channel) (seen : list string) (pairs : list (string * string)) : list Ability :=
  match pairs with
  | [] => []
  | (model, group) :: r =>
      let key := group +:+ "|" +:+ model in
      if str_in key seen then collect_abilities c seen r
      else ability_of c model group :: collect_abilities c (key :: seen) r
  end.

Definition channel_abilities (c : Channel) : list Ability :=
  collect_abilities c [] (list_prod (Split (c_Models c) comma) (Split (c_Group c) comma)).

Definition same_key (a b : Ability) : bool :=
  String.eqb (a_Group a) (a_Group b) && String.eqb (a_Model a) (a_Model b) && (a_ChannelId a =? a_ChannelId b).

(** [clause.OnConflict{DoNothing: true}]; the default of [priority] is 0. *)
Definition insert_ability (rows : list Ability) (a : Ability) : list Ability :=
  if existsb (same_key a) rows then rows
  else rows ++ [mkAbility (a_Group a) (a_Model a) (a_ChannelId a) (a_Enabled a)
                  (Some (default 0 (a_Priority a))) (a_Weight a) (a_Tag a)].
Definition create_abilities (chunk : list Ability) : CM unit :=
  update_abilities (fun rows => foldl insert_ability rows chunk).

Definition insert_rows (c : Channel) : CM unit := for_each create_abilities (Chunk (channel_abilities c) 50).

(** [tx] is true inside the caller's transaction. *)
Definition AddAbilities (tx : bool) (c : Channel) : CM unit :=
  if (length (channel_abilities c) =? 0)%nat then mret tt
  else insert_rows c ;; (if tx then mret tt else InvalidateModelListCache).

Definition drop_channel (ids : list Z) (rows : list Ability) : list Ability :=
  List.filter (fun a => negb (existsb (Z.eqb (a_ChannelId a)) ids)) rows.
Definition DeleteAbilities (c : Channel) : CM unit :=
  invalidateModelListCacheAfter (update_abilities (drop_channel [c_Id c])).

(** [channel.UpdateAbilities(nil)], the only way it is called. *)
Definition UpdateAbilities (c : Channel) : CM unit :=
  Transaction (update_abilities (drop_channel [c_Id c]) ;; insert_rows c) ;;
  InvalidateModelListCache.

Definition has_tag (tag : string) (t : option string) : bool := bool_decide (t = Some tag).
Definition on_rows {A} (p : A -> bool) (f : A -> A) : list A -> list A := map (fun a => if p a then f a else a).

Definition UpdateAbilityStatus (channelId : Z) (status : bool) : CM unit :=
  invalidateModelListCacheAfter
    (update_abilities (on_rows (fun a => a_ChannelId a =? channelId) (set_enabled status))).
Definition UpdateAbilityStatusByTag (tag : string) (status : bool) : CM unit :=
  invalidateModelListCacheAfter
    (update_abilities (on_rows (fun a => has_tag tag (a_Tag a)) (set_enabled status))).

(** [Updates(ability)] skips the zero fields of the struct: no pointer, weight 0. *)
Definition patch_ability (newTag : option string) (priority weight : option Z) (a : Ability) : Ability :=
  mkAbility (a_Group a) (a_Model a) (a_ChannelId a) (a_Enabled a)
    (match priority with Some p => Some p | None => a_Priority a end)
    (match weight with Some w => if w =? 0 then a_Weight a else w | None => a_Weight a end)
    (match newTag with Some t => Some t | None => a_Tag a end).
Definition UpdateAbilityByTag (tag : string) (newTag : option string) (priority weight : option Z) : CM unit :=
  invalidateModelListCacheAfter
    (update_abilities (on_rows (fun a => has_tag tag (a_Tag a)) (patch_ability newTag priority weight))).

(** ** Channels *)

Definition or_str (v d : string) : string := if String.eqb v "" then d else v.
Definition or_Z (v d : Z) : Z := if v =? 0 then d else v.
Definition or_ptr {A} (v d : option A) : option A := match v with Some _ => v | None => d end.

(** The zero fields [Create] replaces by the defaults of their columns. *)
Definition with_defaults (id : Z) (c : Channel) : Channel :=
  mkChannel id (c_Type c) (c_Key c) (or_Z (c_Status c) 1) (or_ptr (c_Weight c) (Some 0)) (c_Models c)
    (or_str (c_Group c) "default") (or_ptr (c_Priority c) (Some 0)) (c_Tag c) (c_ChannelInfo c) (c_Keys c).

(** [DB.Create(channel)]: the row as stored, with its id. *)
Definition create_channel (c : Channel) : CM Channel :=
  db_reply ;;
  s ← gets id;
  let id := if c_Id c =? 0 then st_nextId s else c_Id c in
  if existsb (fun r => c_Id r =? id) (st_channels s) then throw (ErrMsg "duplicate key")
  else let row := with_defaults id c in
       modify (fun s => mkStore (st_channels s ++ [set_keys [] row]) (st_abilities s)
                 (Z.max (st_nextId s) (id + 1)) (st_replies s) (group2model2channels s) (channelsIDM s)) ;;
       mret row.

Definition Insert (c : Channel) : CM unit := row ← create_channel c; AddAbilities false row.

Definition find_channel (id : Z) (l : list Channel) : option Channel :=
  List.find (fun c => c_Id c =? id) l.

Definition GetChannelById (id : Z) : CM Channel :=
  r ← query (fun s => find_channel id (st_channels s));
  match r with Some c => mret c | None => throw ErrRecordNotFound end.

(** The key list [Update] counts. *)
Definition parse_keys (keyStr : string) : list string :=
  if String.eqb keyStr "" then []
  else
    let trimmed := TrimSpace keyStr in
    match (if HasPrefix trimmed "[" then default [] (raw_array trimmed) else []) with
    | [] => split_lines keyStr
    | keys => keys
    end.

(** [Updates(channel)]: the non-zero fields of [p] over the row. *)
Definition patch_channel (p row : Channel) : Channel :=
  mkChannel (c_Id row) (or_Z (c_Type p) (c_Type row)) (or_str (c_Key p) (c_Key row))
    (or_Z (c_Status p) (c_Status row)) (or_ptr (c_Weight p) (c_Weight row))
    (or_str (c_Models p) (c_Models row)) (or_str (c_Group p) (c_Group row))
    (or_ptr (c_Priority p) (c_Priority row)) (or_ptr (c_Tag p) (c_Tag row))
    (if decide (c_ChannelInfo p = no_info) then c_ChannelInfo row else c_ChannelInfo p) [].

Definition resize_keys (keyStr : string) (c : Channel) : Channel :=
  let size := Z.of_nat (length (parse_keys keyStr)) in
  let i := c_ChannelInfo c in
  set_channel_info (mkChannelInfo (ci_IsMultiKey i) size
    (filter (fun kv => fst kv < size) (ci_MultiKeyStatusList i)) (ci_MultiKeyPollingIndex i) (ci_MultiKeyMode i)) c.

Definition Update (p : Channel) : CM unit :=
  p ← (if ci_IsMultiKey (c_ChannelInfo p) then
         keyStr ← (if String.eqb (c_Key p) "" then
                     r ← attempting (GetChannelById (c_Id p));
                     mret (match r with Ok existing => c_Key existing | Err _ => "" end)
                   else mret (c_Key p));
         mret (resize_keys keyStr p)
       else mret p);
  update_channels (on_rows (fun r => c_Id r =? c_Id p) (patch_channel p)) ;;
  r ← attempting (GetChannelById (c_Id p));
  UpdateAbilities (match r with Ok row => row | Err _ => p end).

Definition delete_channels (ids : list Z) (l : list Channel) : list Channel :=
  List.filter (fun c => negb (existsb (Z.eqb (c_Id c)) ids)) l.

Definition Delete (c : Channel) : CM unit :=
  update_channels (delete_channels [c_Id c]) ;; DeleteAbilities c.

Fixpoint create_all (l : list Channel) : CM (list Channel) :=
  match l with
  | [] => mret []
  | c :: l' => row ← create_channel c; rows ← create_all l'; mret (row :: rows)
  end.

Definition BatchInsertChannels (channels : list Channel) : CM unit :=
  if (length channels =? 0)%nat then mret tt
  else
    Transaction (for_each (fun chunk => rows ← create_all chunk; for_each (AddAbilities true) rows)
                   (Chunk channels 50)) ;;
    InvalidateModelListCache.

Definition BatchDeleteChannels (ids : list Z) : CM unit :=
  if (length ids =? 0)%nat then mret tt
  else
    Transaction (for_each (fun chunk => update_channels (delete_channels chunk) ;;
                                        update_abilities (drop_channel chunk)) (Chunk ids 200)) ;;
    InvalidateModelListCache.

Definition channel_tagged (tag : string) (c : Channel) : bool := has_tag tag (c_Tag c).

Definition EnableChannelByTag (tag : string) : CM unit :=
  update_channels (on_rows (channel_tagged tag) (set_status ChannelStatusEnabled)) ;;
  UpdateAbilityStatusByTag tag true.
Definition DisableChannelByTag (tag : string) : CM unit :=
  update_channels (on_rows (channel_tagged tag) (set_status ChannelStatusManuallyDisabled)) ;;
  UpdateAbilityStatusByTag tag false.

Definition given (s : option string) : option string :=
  match s with Some v => if String.eqb v "" then None else Some v | None => None end.

Definition EditChannelByTag (tag : string) (newTag models group : option string) (priority weight : option Z) : CM unit :=
  let retagged := match newTag with Some t => negb (String.eqb t tag) | None => false end in
  let updatedTag := if retagged then default tag newTag else tag in
  let patch := mkChannel 0 0 "" 0 weight (default "" (given models)) (default "" (given group)) priority
                 (if retagged then newTag else None) no_info [] in
  let shouldReCreateAbilities := match given models, given group with None, None => false | _, _ => true end in
  update_channels (on_rows (channel_tagged tag) (patch_channel patch)) ;;
  if shouldReCreateAbilities then
    r ← attempting (query (fun s => List.filter (channel_tagged updatedTag) (st_channels s)));
    match r with
    | Ok channels => for_each (fun c => attempting (UpdateAbilities c) ;; mret tt) channels
    | Err _ => mret tt
    end
  else UpdateAbilityByTag tag newTag priority weight.

Definition DeleteDisabledChannel : CM unit :=
  update_channels (List.filter (fun c => negb ((c_Status c =? ChannelStatusAutoDisabled)
                                             || (c_Status c =? ChannelStatusManuallyDisabled)))) ;;
  InvalidateModelListCache.
Definition DeleteChannelByStatus (status : Z) : CM unit :=
  update_channels (List.filter (fun c => negb (c_Status c =? status))) ;; InvalidateModelListCache.

(** The counts of one chunk of [FixAbility]: repaired and failed channels. *)
Fixpoint fix_channels (l : list Channel) : CM (Z * Z) :=
  match l with
  | [] => mret (0, 0)
  | c :: l' =>
      r ← attempting (AddAbilities false c);
      n ← fix_channels l';
      mret (if is_ok r then (fst n + 1, snd n) else (fst n, snd n + 1))
  end.
Fixpoint fix_chunks (l : list (list Channel)) : CM (Z * Z) :=
  match l with
  | [] => mret (0, 0)
  | chunk :: l' =>
      r ← attempting (update_abilities (drop_channel (map c_Id chunk)));
      n ← (if is_ok r then fix_channels chunk else mret (0, Z.of_nat (length chunk)));
      m ← fix_chunks l';
      mret (fst n + fst m, snd n + snd m)
  end.
End Operations.
