(* ===== verification/ChannelCache.v ===== *)
(** * Choosing a channel

    src/model/channel_cache.go: the memory cache of enabled channels by group
    and model, and the weighted choice among those of one priority.
    src/model/ability.go: the same choice from the database.
    src/model/channel.go: status changes, and the keys of a channel with
    several keys.

    The functions that Go returns with a pointer and an error give a [choice]:
    both parts are there, since some callers ignore the error.  [rnd n] stands
    for [rand.Intn(n)].  A panic is an error that starts with [panic]. *)

From stdpp Require Import base gmap list strings sorting.
From Stdlib Require Import ZArith Lia Ascii.
From S2P Require Import Prelude GoInt GoString GoMonad ChannelTable.
Open Scope Z_scope.

(** [common.MemoryCacheEnabled] *)
Class ChannelConfig := { MemoryCacheEnabled : bool }.

(** [sort.Slice(l, less)] with [less] comparing [key] in descending order: some
    sorted permutation, equal elements in any order. *)
Class SliceSort := {
  sort_desc : (Z -> Z) -> list Z -> list Z;
  sort_desc_perm : forall key l, sort_desc key l ≡ₚ l;
  sort_desc_sorted : forall key l, StronglySorted (fun x y => key y <= key x) (sort_desc key l)
}.

(** One implementation. *)
Section SortInstance.
Context (key : Z -> Z).
Definition key_desc (x y : Z) : Prop := key y <= key x.
#[local] Instance key_desc_dec x y : Decision (key_desc x y).
Proof. unfold key_desc. apply _. Defined.
#[local] Instance key_desc_total : Total key_desc.
Proof. intros x y. unfold key_desc. lia. Qed.
#[local] Instance key_desc_trans : Transitive key_desc.
Proof. intros x y z. unfold key_desc. lia. Qed.
Definition merge_desc (l : list Z) : list Z := merge_sort key_desc l.
Lemma merge_desc_sorted l : StronglySorted key_desc (merge_desc l).
Proof. apply (StronglySorted_merge_sort key_desc). Qed.
End SortInstance.
Definition plain_sort : SliceSort := {|
  sort_desc := merge_desc;
  sort_desc_perm := fun key l => merge_sort_Permutation (key_desc key) l;
  sort_desc_sorted := merge_desc_sorted
|}.

Definition choice : Type := option Channel * option error.

(** ** Model names *)

Definition handleThinkingBudgetModel (name prefix wildcard : string) : string :=
  if HasPrefix name prefix && Contains name "-thinking-" then wildcard else name.

Definition FormatMatchingModelName (name : string) : string :=
  let name :=
    if HasPrefix name "gemini-2.5-flash-lite" then
      handleThinkingBudgetModel name "gemini-2.5-flash-lite" "gemini-2.5-flash-lite-thinking-*"
    else if HasPrefix name "gemini-2.5-flash" then
      handleThinkingBudgetModel name "gemini-2.5-flash" "gemini-2.5-flash-thinking-*"
    else if HasPrefix name "gemini-2.5-pro" then
      handleThinkingBudgetModel name "gemini-2.5-pro" "gemini-2.5-pro-thinking-*"
    else name in
  let name := if HasPrefix name "gpt-4-gizmo" then "gpt-4-gizmo-*" else name in
  if HasPrefix name "gpt-4o-gizmo" then "gpt-4o-gizmo-*" else name.

(** ** Weighted choice *)

(** [rand.Intn(n)] *)
Definition Intn (rnd : Z -> Z) (n : Z) : result Z :=
  if n <=? 0 then fail_with "panic: invalid argument to Intn" else Ok (rnd n).

Definition desc (x y : Z) : Prop := y <= x.
#[export] Instance desc_dec x y : Decision (desc x y).
Proof. unfold desc. apply _. Defined.

(** The keys of [uniquePriorities], in descending order. *)
Definition unique_desc (l : list Z) : list Z := merge_sort desc (remove_dups l).

(** The priority of one retry: the last one when there are fewer. *)
Definition target_priority (sorted : list Z) (retry : Z) : result Z :=
  let n := Z.of_nat (length sorted) in
  let retry := if n <=? retry then n - 1 else retry in
  if retry <? 0 then fail_with "panic: index out of range"
  else match sorted !! Z.to_nat retry with
       | Some p => Ok p
       | None => fail_with "panic: index out of range"
       end.

Definition total_of (weights : list Z) : Z := foldl i64_add 0 weights.

(** Smoothing factor, smoothing adjustment and total weight of the candidates. *)
Definition smoothing (targets : list Channel) : Z * Z * Z :=
  let n := Z.of_nat (length targets) in
  let sumWeight := total_of (map GetWeight targets) in
  if sumWeight =? 0 then (1, 100, i64_mul n 100)
  else if i64_div sumWeight n <? 10 then (100, 0, i64_mul sumWeight 100)
  else (1, 0, sumWeight).

(** The final loop of [GetRandomSatisfiedChannel]. *)
Fixpoint draw_channel (factor adjustment r : Z) (targets : list Channel) : option Channel :=
  match targets with
  | [] => None
  | c :: l =>
      let r := i64_sub r (i64_add (i64_mul (GetWeight c) factor) adjustment) in
      if r <? 0 then Some c else draw_channel factor adjustment r l
  end.

Definition choose_weighted (rnd : Z -> Z) (targets : list Channel) : choice :=
  let '(factor, adjustment, total) := smoothing targets in
  match Intn rnd total with
  | Err e => (None, Some e)
  | Ok r => match draw_channel factor adjustment r targets with
            | Some c => (Some c, None)
            | None => (None, Some (ErrMsg "channel not found"))
            end
  end.

Definition missing : error := ErrMsg "channel does not exist".

(** The cached objects of a list of ids; one that is missing is an error. *)
Fixpoint resolve (idm : gmap Z Channel) (ids : list Z) : option (list Channel) :=
  match ids with
  | [] => Some []
  | i :: r => match idm !! i, resolve idm r with Some c, Some l => Some (c :: l) | _, _ => None end
  end.

Definition choose_among (rnd : Z -> Z) (retry : Z) (cs : list Channel) : choice :=
  match target_priority (unique_desc (map GetPriority cs)) retry with
  | Err e => (None, Some e)
  | Ok p =>
      match List.filter (fun c => GetPriority c =? p) cs with
      | [] => (None, Some (ErrMsg "no channel found"))
      | targets => choose_weighted rnd targets
      end
  end.

Definition entry (g2m : Index) (group model : string) : list Z :=
  default [] (g2m !! group ≫= fun m => m !! model).

Definition candidates (g2m : Index) (group model : string) : list Z :=
  match entry g2m group model with
  | [] => entry g2m group (FormatMatchingModelName model)
  | l => l
  end.

(** [GetRandomSatisfiedChannel] with the memory cache. *)
Definition cached_choice (rnd : Z -> Z) (group model : string) (retry : Z) (s : Store) : choice :=
  match candidates (group2model2channels s) group model with
  | [] => (None, None)
  | [i] => match channelsIDM s !! i with Some c => (Some c, None) | None => (None, Some missing) end
  | ids =>
      match resolve (channelsIDM s) ids with
      | None => (None, Some missing)
      | Some cs => choose_among rnd retry cs
      end
  end.

(** ** The choice from the database *)

Definition serves (group model : string) (a : Ability) : bool :=
  String.eqb (a_Group a) group && String.eqb (a_Model a) model && a_Enabled a.
Definition ability_priority (a : Ability) : Z := default 0 (a_Priority a).

Definition heavier (a b : Ability) : Prop := a_Weight b <= a_Weight a.
#[export] Instance heavier_dec a b : Decision (heavier a b).
Proof. unfold heavier. apply _. Defined.

Definition getPriority (group model : string) (retry : Z) : CM Z :=
  rows ← query (fun s => List.filter (serves group model) (st_abilities s));
  match unique_desc (map ability_priority rows) with
  | [] => throw (ErrMsg "database consistency broken")
  | priorities => lift (target_priority priorities retry)
  end.

(** The rows of the query of [getChannelQuery]: those of the highest priority
    for retry 0, of the given one otherwise. *)
Definition channel_query (group model : string) (retry : Z) : CM (Store -> list Ability) :=
  if retry =? 0 then
    mret (fun s =>
      let rows := List.filter (serves group model) (st_abilities s) in
      match unique_desc (map ability_priority rows) with
      | [] => []
      | top :: _ => List.filter (fun a => ability_priority a =? top) rows
      end)
  else
    p ← getPriority group model retry;
    mret (fun s => List.filter (fun a => serves group model a && (ability_priority a =? p)) (st_abilities s)).

(** The loop over the rows; [None] leaves the id 0. *)
Fixpoint draw_ability (weight : Z) (rows : list Ability) : option Z :=
  match rows with
  | [] => None
  | a :: l =>
      let weight := i64_sub weight (i64_add (wrap64 (a_Weight a)) 10) in
      if weight <=? 0 then Some (a_ChannelId a) else draw_ability weight l
  end.

Definition blank_channel (id : Z) : Channel := mkChannel id 0 "" 0 None "" "" None None no_info [].

(** [DB.First(&channel, "id = ?", id)] and [return &channel, err] *)
Definition first_channel (id : Z) : CM choice :=
  r ← attempting (GetChannelById id);
  mret (match r with Ok c => (Some c, None) | Err e => (Some (blank_channel id), Some e) end).

Definition GetChannel (rnd : Z -> Z) (group model : string) (retry : Z) : CM choice := fun s0 =>
  match (rows ← channel_query group model retry; query rows) s0 with
  | (Err e, s) => (Ok (None, Some e), s)
  | (Ok [], s) => (Ok (None, None), s)
  | (Ok rows, s) =>
      let sorted := merge_sort heavier rows in
      let weightSum := wrap64 (foldl (fun t a => to_uint (t + to_uint (a_Weight a + 10))) 0 sorted) in
      match Intn rnd weightSum with
      | Err e => (Ok (None, Some e), s)
      | Ok r => first_channel (default 0 (draw_ability r sorted)) s
      end
  end.

Definition GetChannelByTypes (rnd : Z -> Z) (group model : string) (retry : Z) (types : list Z) : CM choice := fun s0 =>
  match types with
  | [] => GetChannel rnd group model retry s0
  | _ =>
      let typed s a := existsb (fun c => (c_Id c =? a_ChannelId a) && existsb (Z.eqb (c_Type c)) types) (st_channels s) in
      match query (fun s => List.filter (fun a => serves group model a && typed s a) (st_abilities s)) s0 with
      | (Err e, s) => (Ok (None, Some e), s)
      | (Ok [], s) => (Ok (None, None), s)
      | (Ok rows, s) =>
          match target_priority (unique_desc (map ability_priority rows)) retry with
          | Err e => (Ok (None, Some e), s)
          | Ok p =>
              match List.filter (fun a => ability_priority a =? p) rows with
              | [] => (Ok (None, None), s)
              | (t :: _) as targets =>
                  let weightSum := total_of (map (fun a => i64_add (wrap64 (a_Weight a)) 10) targets) in
                  match Intn rnd weightSum with
                  | Err e => (Ok (None, Some e), s)
                  | Ok r =>
                      let last_id := a_ChannelId (List.last targets t) in
                      let id := default last_id (draw_ability r targets) in
                      match GetChannelById id s with
                      | (Ok c, s) => (Ok (Some c, None), s)
                      | (Err e, s) => (Ok (None, Some e), s)
                      end
                  end
              end
          end
      end
  end.

Section Cache.
Context {CF : ChannelConfig} {LO : Lo} {JS : RawJSON} {SS : SliceSort}.

Definition GetRandomSatisfiedChannel (rnd : Z -> Z) (group model : string) (retry : Z) : CM choice :=
  if MemoryCacheEnabled then gets (cached_choice rnd group model retry)
  else GetChannel rnd group model retry.

(** ** Filling the cache *)

(** One pass of the innermost loop; writing to the map of an unknown group panics. *)
Definition add_entry (id : Z) (group : string) (g2m : option Index) (model : string) : option Index :=
  g2m ← g2m;
  m ← g2m !! group;
  Some (<[group := <[model := default [] (m !! model) ++ [id]]> m]> g2m).

Definition index_channel (g2m : option Index) (c : Channel) : option Index :=
  if is_enabled c then
    foldl (fun g2m group => foldl (add_entry (c_Id c) group) g2m (Split (c_Models c) comma))
      g2m (Split (c_Group c) comma)
  else g2m.

Definition empty_groups (abilities : list Ability) : Index :=
  foldl (fun m a => <[a_Group a := ∅]> m) ∅ abilities.

Definition by_id (channels : list Channel) : gmap Z Channel :=
  foldl (fun m c => <[c_Id c := c]> m) ∅ channels.

Definition priority_in (idm : gmap Z Channel) (i : Z) : Z :=
  match idm !! i with Some c => GetPriority c | None => 0 end.

Definition polling (c : Channel) : bool :=
  ci_IsMultiKey (c_ChannelInfo c) && String.eqb (ci_MultiKeyMode (c_ChannelInfo c)) "polling".

Definition set_polling_index (i : Z) (c : Channel) : Channel :=
  let f := c_ChannelInfo c in
  set_channel_info (mkChannelInfo (ci_IsMultiKey f) (ci_MultiKeySize f) (ci_MultiKeyStatusList f) i (ci_MultiKeyMode f)) c.

(** The parsed keys, and the polling index of the object cached before. *)
Definition carry_over (old : gmap Z Channel) (i : Z) (c : Channel) : Channel :=
  if ci_IsMultiKey (c_ChannelInfo c) then
    let c := set_keys (GetKeys c) c in
    match old !! i with
    | Some o => if polling c && polling o then set_polling_index (ci_MultiKeyPollingIndex (c_ChannelInfo o)) c else c
    | None => c
    end
  else c.

Definition nil_map : error := ErrMsg "panic: assignment to entry in nil map".

(** [DB.Find(&l)] whose error is ignored leaves the slice empty. *)
Definition find_all {A} (f : Store -> list A) : CM (list A) :=
  r ← attempting (query f);
  mret (match r with Ok l => l | Err _ => [] end).

Definition build_cache (channels : list Channel) (abilities : list Ability) : option Index :=
  map_lists (sort_desc (priority_in (by_id channels))) <$>
    foldl index_channel (Some (empty_groups abilities)) channels.

Definition InitChannelCache : CM unit :=
  if MemoryCacheEnabled then
    channels ← find_all st_channels;
    abilities ← find_all st_abilities;
    match build_cache channels abilities with
    | None => throw nil_map
    | Some g2m => modify (fun s => with_cache g2m (map_imap (fun i c => Some (carry_over (channelsIDM s) i c)) (by_id channels)) s)
    end
  else mret tt.

Definition FixAbility (free : bool) : CM (Z * Z) :=
  if negb free then throw (ErrMsg "a repair is running")
  else
    update_abilities (fun _ => []) ;;
    channels ← query st_channels;
    if (length channels =? 0)%nat then mret (0, 0)
    else
      n ← fix_chunks (Chunk channels 50);
      InitChannelCache ;;
      InvalidateModelListCache ;;
      mret n.

(** ** Changing the status of a channel *)

Definition CacheGetChannel (id : Z) : CM Channel :=
  if MemoryCacheEnabled then
    r ← gets (fun s => channelsIDM s !! id);
    match r with Some c => mret c | None => throw missing end
  else GetChannelById id.

Fixpoint remove_first (id : Z) (l : list Z) : list Z :=
  match l with [] => [] | x :: r => if x =? id then r else x :: remove_first id r end.

Definition CacheUpdateChannelStatus (id status : Z) : CM unit :=
  if MemoryCacheEnabled then
    modify (fun s =>
      let idm := match channelsIDM s !! id with
                 | Some c => <[id := set_status status c]> (channelsIDM s)
                 | None => channelsIDM s
                 end in
      let g2m := if status =? ChannelStatusEnabled then group2model2channels s
                 else map_lists (remove_first id) (group2model2channels s) in
      with_cache g2m idm s)
  else mret tt.

Definition CacheUpdateChannel (channel : option Channel) : CM unit :=
  if MemoryCacheEnabled then
    match channel with
    | None => mret tt
    | Some c => modify (fun s => with_cache (group2model2channels s) (<[c_Id c := c]> (channelsIDM s)) s)
    end
  else mret tt.

Definition key_status (l : gmap Z Z) (i : Z) : Z := default ChannelStatusEnabled (l !! i).
Definition key_enabled (l : gmap Z Z) (i : Z) : bool := key_status l i =? ChannelStatusEnabled.
Definition indexes {A} (keys : list A) : list Z := seqZ 0 (Z.of_nat (length keys)).

Definition hasEnabledMultiKey (keys : list string) (statusList : gmap Z Z) : bool :=
  existsb (key_enabled statusList) (indexes keys).

Fixpoint key_index (usingKey : string) (i : Z) (keys : list string) : option Z :=
  match keys with [] => None | k :: r => if String.eqb k usingKey then Some i else key_index usingKey (i + 1) r end.

Definition set_key_status (l : gmap Z Z) (c : Channel) : Channel :=
  let f := c_ChannelInfo c in
  set_channel_info (mkChannelInfo (ci_IsMultiKey f) (ci_MultiKeySize f) l (ci_MultiKeyPollingIndex f) (ci_MultiKeyMode f)) c.

Definition handlerMultiKeyUpdate (c : Channel) (usingKey : string) (status : Z) : Channel :=
  match GetKeys c with
  | [] => set_status status c
  | keys =>
      match key_index usingKey 0 keys with
      | None => if String.eqb usingKey "" then set_status status c else c
      | Some i =>
          let old := ci_MultiKeyStatusList (c_ChannelInfo c) in
          let l := if status =? ChannelStatusEnabled then delete i old else <[i := status]> old in
          let c := set_key_status l c in
          if negb (hasEnabledMultiKey keys l) then set_status ChannelStatusAutoDisabled c
          else if status =? ChannelStatusEnabled then set_status ChannelStatusEnabled c else c
      end
  end.

(** [DB.Omit("key").Save(channel)] *)
Definition SaveWithoutKey (c : Channel) : CM unit :=
  if c_Id c =? 0 then throw (ErrMsg "channel ID is 0")
  else update_channels (on_rows (fun r => c_Id r =? c_Id c)
         (fun r => mkChannel (c_Id r) (c_Type c) (c_Key r) (c_Status c) (c_Weight c) (c_Models c) (c_Group c)
                     (c_Priority c) (c_Tag c) (c_ChannelInfo c) [])).

(** The deferred update of the abilities, whose error is only logged. *)
Definition deferred_abilities (should : bool) (id status : Z) : CM unit :=
  if should then attempting (UpdateAbilityStatus id (status =? ChannelStatusEnabled)) ;; mret tt else mret tt.

(** The part of [UpdateChannelStatus] that writes the database. *)
Definition store_status (id : Z) (usingKey : string) (status : Z) : CM bool :=
  r ← attempting (GetChannelById id);
  match r with
  | Err _ => mret false
  | Ok c =>
      if c_Status c =? status then mret false
      else
        let '(c', should) :=
          if ci_IsMultiKey (c_ChannelInfo c) then
            let c' := handlerMultiKeyUpdate c usingKey status in (c', negb (c_Status c =? c_Status c'))
          else (set_status status c, true) in
        saved ← attempting (SaveWithoutKey c');
        deferred_abilities should id status ;;
        mret (is_ok saved)
  end.

(** The part that updates the cache; [true] when the function returns [false] there. *)
Definition cache_status (id : Z) (usingKey : string) (status : Z) : CM bool :=
  r ← gets (fun s => channelsIDM s !! id);
  match r with
  | None => mret true
  | Some c =>
      if ci_IsMultiKey (c_ChannelInfo c) then
        let c' := handlerMultiKeyUpdate c usingKey status in
        modify (fun s => with_cache (group2model2channels s) (<[id := c']> (channelsIDM s)) s) ;;
        (if c_Status c =? c_Status c' then mret tt else CacheUpdateChannelStatus id (c_Status c')) ;;
        mret false
      else if c_Status c =? status then mret true
      else CacheUpdateChannelStatus id status ;; mret false
  end.

Definition UpdateChannelStatus (id : Z) (usingKey : string) (status : Z) : CM bool :=
  stop ← (if MemoryCacheEnabled then cache_status id usingKey status else mret false : CM bool);
  if (stop : bool) then mret false else store_status id usingKey status.

(** ** The keys of a channel *)

(** The polling loop from [start]: at most one round. *)
Fixpoint next_enabled (l : gmap Z Z) (n : Z) (steps : nat) (i : Z) : option Z :=
  match steps with
  | O => None
  | S k => if key_enabled l (i mod n) then Some (i mod n) else next_enabled l n k (i + 1)
  end.

Definition no_key : error := ErrMsg "no enabled keys".

(** [channel.GetNextEnabledKey()]: key, index and the channel object after the
    call; [cached] is what [CacheGetChannelInfo] returns. *)
Definition GetNextEnabledKey (rnd : Z -> Z) (cached : result ChannelInfo) (c : Channel) : result (string * Z) * Channel :=
  let f := c_ChannelInfo c in
  if negb (ci_IsMultiKey f) then (Ok (c_Key c, 0), c)
  else
    let keys := GetKeys c in
    let key_at i := default EmptyString (keys !! Z.to_nat i) in
    match List.filter (key_enabled (ci_MultiKeyStatusList f)) (indexes keys) with
    | [] => (Err no_key, c)
    | (i0 :: _) as enabledIdx =>
        if String.eqb (ci_MultiKeyMode f) "random" then
          (r ← Intn rnd (Z.of_nat (length enabledIdx));
           match enabledIdx !! Z.to_nat r with
           | Some i => Ok (key_at i, i)
           | None => fail_with "panic: index out of range"
           end, c)
        else if String.eqb (ci_MultiKeyMode f) "polling" then
          match cached with
          | Err e => (Err e, c)
          | Ok info =>
              let n := Z.of_nat (length keys) in
              let start := ci_MultiKeyPollingIndex info in
              let start := if (start <? 0) || (n <=? start) then 0 else start in
              match next_enabled (ci_MultiKeyStatusList f) n (length keys) start with
              | Some i => (Ok (key_at i, i), set_polling_index ((i + 1) mod n) c)
              | None => (Ok (key_at i0, i0), c)
              end
          end
        else (Ok (key_at i0, i0), c)
    end.

(** The call on the cached object, which is also the one [CacheGetChannelInfo] reads. *)
Definition next_key_cached (rnd : Z -> Z) (id : Z) : CM (string * Z) := fun s =>
  match channelsIDM s !! id with
  | None => (Err missing, s)
  | Some c =>
      let '(r, c') := GetNextEnabledKey rnd (Ok (c_ChannelInfo c)) c in
      (r, with_cache (group2model2channels s) (<[id := c']> (channelsIDM s)) s)
  end.

(** ** Membership *)

Definition isChannelIDInList (l : list Z) (id : Z) : bool := existsb (fun x => x =? id) l.

Definition ability_counted (group model : string) (id : Z) (s : Store) : bool :=
  existsb (fun a => serves group model a && (a_ChannelId a =? id)) (st_abilities s).

Definition isChannelEnabledForGroupModelDB (group model : string) (id : Z) : CM bool :=
  r ← attempting (query (ability_counted group model id));
  match r with
  | Ok true => mret true
  | _ =>
      let normalized := FormatMatchingModelName model in
      if String.eqb normalized "" || String.eqb normalized model then mret false
      else r ← attempting (query (ability_counted group normalized id));
           mret (match r with Ok b => b | Err _ => false end)
  end.

Definition IsChannelEnabledForGroupModel (group model : string) (id : Z) : CM bool :=
  if String.eqb group "" || String.eqb model "" || (id <=? 0) then mret false
  else if MemoryCacheEnabled then
    gets (fun s =>
      if isChannelIDInList (entry (group2model2channels s) group model) id then true
      else
        let normalized := FormatMatchingModelName model in
        if negb (String.eqb normalized "") && negb (String.eqb normalized model)
        then isChannelIDInList (entry (group2model2channels s) group normalized) id
        else false)
  else isChannelEnabledForGroupModelDB group model id.

End Cache.
