(* ===== verification/ChannelChoice.v ===== *)
(** * The weighted choice is exact

    Counting the outcomes of [rand.Intn]: with the memory cache each channel
    of the level chosen by a retry gets its weight's share of the draws, not
    one draw more or less; the choice from the database gives the first row
    one draw too many. *)

From stdpp Require Import base gmap list strings sorting.
From Stdlib Require Import ZArith Lia Ascii.
From S2P Require Import Prelude GoInt GoString GoMonad ChannelTable ChannelCache.
Open Scope Z_scope.

(** ** Specification *)

(** [p] is the priority a retry uses: [retry] distinct priorities are higher,
    or all the others when there are not that many. *)
Definition retry_level (priorities : list Z) (retry p : Z) : Prop :=
  let levels := remove_dups priorities in
  p ∈ levels /\
  Z.of_nat (length (List.filter (fun q => p <? q) levels)) = Z.min retry (Z.of_nat (length levels) - 1).

Definition count {A} (p : A -> bool) (l : list A) : Z := Z.of_nat (length (List.filter p l)).

(** Weights a 64-bit total can hold after smoothing. *)
Definition weights_fit (cs : list Channel) : Prop :=
  (forall c, c ∈ cs -> 0 <= GetWeight c) /\
  sum_by GetWeight cs * 100 <= max_i64 /\ Z.of_nat (length cs) * 100 <= max_i64.

(** ** Levels *)

#[local] Instance desc_total : Total desc.
Proof. intros x y. unfold desc. lia. Qed.
#[local] Instance desc_trans : Transitive desc.
Proof. intros x y z. unfold desc. lia. Qed.

Lemma unique_desc_perm l : unique_desc l ≡ₚ remove_dups l.
Proof. apply merge_sort_Permutation. Qed.

Lemma unique_desc_sorted l : StronglySorted (fun x y => y < x) (unique_desc l).
Proof.
  assert (HN : NoDup (unique_desc l)) by (rewrite unique_desc_perm; apply NoDup_remove_dups).
  assert (HS : StronglySorted desc (unique_desc l)) by apply (StronglySorted_merge_sort desc).
  induction HS as [|x k HS IH Hx]; [constructor|].
  apply NoDup_cons in HN as [Hn HN]. constructor; [by apply IH|].
  rewrite Forall_forall in Hx |- *. intros y Hy. specialize (Hx y Hy). unfold desc in Hx.
  assert (x <> y) by (intros ->; done). lia.
Qed.

Lemma filter_perm {A} (p : A -> bool) l k : l ≡ₚ k -> List.filter p l ≡ₚ List.filter p k.
Proof. induction 1; cbn; repeat case_match; eauto using perm_skip, perm_swap, perm_trans. Qed.

Lemma sorted_above l n p :
  StronglySorted (fun x y => y < x) l -> l !! n = Some p -> List.filter (fun q => p <? q) l = take n l.
Proof.
  intros HS. revert n. induction HS as [|x l HS IH Hx]; intros n Hn; [done|].
  destruct n as [|n]; cbn in *.
  - injection Hn as ->. rewrite Z.ltb_irrefl. clear -Hx. induction Hx as [|y l Hy Hx IH]; [done|]. cbn.
    destruct (Z.ltb_spec p y); [lia | done].
  - rewrite Forall_forall in Hx. specialize (Hx p (list_elem_of_lookup_2 _ _ _ Hn)).
    destruct (Z.ltb_spec p x); [|lia]. f_equal. by apply IH.
Qed.

Lemma target_priority_level l retry :
  l <> [] -> 0 <= retry -> exists p, target_priority (unique_desc l) retry = Ok p /\ retry_level l retry p.
Proof.
  intros Hl Hr. set (u := unique_desc l).
  assert (Hu : length u = length (remove_dups l)) by (unfold u; by rewrite unique_desc_perm).
  assert (0 < length u)%nat.
  { destruct l as [|x l]; [done|]. destruct u eqn:E; [exfalso | cbn; lia].
    assert (Hx : x ∈ remove_dups (x :: l)) by (apply elem_of_remove_dups; left).
    rewrite (nil_length_inv _ (eq_sym Hu)) in Hx. set_solver. }
  unfold target_priority. set (n := Z.of_nat (length u)).
  set (k := if n <=? retry then n - 1 else retry).
  assert (Hk : 0 <= k < n /\ k = Z.min retry (n - 1)) by (subst k; destruct (Z.leb_spec n retry); lia).
  destruct (Z.ltb_spec k 0); [lia|].
  destruct (lookup_lt_is_Some_2 u (Z.to_nat k)) as [p Hp]; [lia|].
  exists p. rewrite Hp. split; [done|]. unfold retry_level. split.
  - rewrite <- unique_desc_perm. by eapply list_elem_of_lookup_2.
  - rewrite <- (filter_perm _ _ _ (unique_desc_perm l)), (sorted_above _ _ _ (unique_desc_sorted l) Hp).
    rewrite length_take. fold u. lia.
Qed.

(** ** Counting draws *)

Lemma count_app {A} (p : A -> bool) l k : count p (l ++ k) = count p l + count p k.
Proof. unfold count. rewrite List.filter_app, length_app. lia. Qed.

Lemma count_all {A} (p : A -> bool) l : (forall x, x ∈ l -> p x = true) -> count p l = Z.of_nat (length l).
Proof. intros H. unfold count. f_equal. induction l; cbn; [done|]. rewrite H by set_solver. cbn. f_equal. set_solver. Qed.

Lemma count_none {A} (p : A -> bool) l : (forall x, x ∈ l -> p x = false) -> count p l = 0.
Proof. intros H. unfold count. induction l; cbn; [done|]. rewrite H by set_solver. apply IHl. set_solver. Qed.

Lemma count_ext {A} (p q : A -> bool) l : (forall x, x ∈ l -> p x = q x) -> count p l = count q l.
Proof.
  intros H. unfold count. do 2 f_equal. induction l; cbn; [done|]. rewrite H by set_solver. rewrite IHl by set_solver. done.
Qed.

(** Draws that fall behind the first [e] are draws of the rest. *)
Lemma count_shift (p q : Z -> bool) e n :
  0 <= e -> 0 <= n -> (forall r, e <= r < e + n -> p r = q (r - e)) ->
  count p (seqZ 0 (e + n)) = count p (seqZ 0 e) + count q (seqZ 0 n).
Proof.
  intros He Hn H. replace (seqZ 0 (e + n)) with (seqZ 0 e ++ seqZ e n) by (rewrite <- seqZ_app by lia; f_equal; lia).
  rewrite count_app. f_equal.
  replace (seqZ e n) with (Z.add e <$> seqZ 0 n) by (rewrite fmap_add_seqZ; f_equal; lia).
  unfold count. f_equal.
  assert (HS : forall r, r ∈ seqZ 0 n -> p (e + r) = q r).
  { intros r Hr. apply elem_of_seqZ in Hr. rewrite H by lia. f_equal. lia. }
  revert HS. generalize (seqZ 0 n). induction l as [|x l IH]; intros HS; cbn; [done|].
  rewrite HS by set_solver. specialize (IH ltac:(set_solver)). destruct (q x); cbn; lia.
Qed.

(** The loop without wrap-around. *)
Fixpoint draw_by (eff : Channel -> Z) (r : Z) (l : list Channel) : option Channel :=
  match l with
  | [] => None
  | c :: l' => if r <? eff c then Some c else draw_by eff (r - eff c) l'
  end.

Lemma draw_by_count eff l c :
  (forall x, x ∈ l -> 0 <= eff x) ->
  count (fun r => bool_decide (draw_by eff r l = Some c)) (seqZ 0 (sum_by eff l))
  = sum_by (fun x => if decide (x = c) then eff x else 0) l.
Proof.
  induction l as [|x l IH]; intros He; [done|]. cbn [sum_by].
  assert (0 <= eff x) by (apply He; set_solver).
  assert (0 <= sum_by eff l) by (apply sum_by_nonneg; set_solver).
  rewrite (count_shift _ (fun r => bool_decide (draw_by eff r l = Some c))) by
    first [lia | intros r Hr; cbn; by destruct (Z.ltb_spec r (eff x)); [lia|]].
  rewrite IH by set_solver. f_equal. case_decide as Hx.
  - rewrite count_all, length_seqZ; [lia|]. intros r Hr. apply elem_of_seqZ in Hr. cbn.
    destruct (Z.ltb_spec r (eff x)); [|lia]. apply bool_decide_eq_true. by subst.
  - apply count_none. intros r Hr. apply elem_of_seqZ in Hr. cbn.
    destruct (Z.ltb_spec r (eff x)); [|lia]. apply bool_decide_eq_false. congruence.
Qed.

Lemma draw_by_total eff l r :
  0 <= r < sum_by eff l -> exists c, draw_by eff r l = Some c /\ c ∈ l.
Proof.
  revert r. induction l as [|x l IH]; intros r Hr; cbn in *; [lia|].
  destruct (Z.ltb_spec r (eff x)); [exists x; set_solver|].
  destruct (IH (r - eff x)) as (c & ? & ?); [lia|]. exists c. set_solver.
Qed.

(** ** No wrap-around *)

Lemma foldl_total l : forall t,
  (forall w, w ∈ l -> 0 <= w) -> 0 <= t -> t + sum_by (fun w => w) l <= max_i64 -> foldl i64_add t l = t + sum_by (fun w => w) l.
Proof.
  induction l as [|w l IH]; intros t Hw Ht Hb; cbn in *; [lia|].
  assert (0 <= w) by set_solver.
  assert (0 <= sum_by (fun w => w) l) by (apply sum_by_nonneg; set_solver).
  rewrite i64_add_id by (red; unfold min_i64; lia). rewrite IH by (try lia; set_solver). lia.
Qed.

Lemma sum_by_weights {A} (f : A -> Z) l : sum_by (fun w => w) (map f l) = sum_by f l.
Proof. induction l; cbn; congruence. Qed.

Lemma sum_by_const {A} k (l : list A) : sum_by (fun _ => k) l = Z.of_nat (length l) * k.
Proof. induction l; cbn [sum_by length]; lia. Qed.

Lemma sum_by_scale {A} (f : A -> Z) k l : sum_by (fun x => f x * k) l = sum_by f l * k.
Proof. induction l; cbn; lia. Qed.

Definition effective (factor adjustment : Z) (c : Channel) : Z := GetWeight c * factor + adjustment.

Lemma smoothing_fits cs : weights_fit cs -> cs <> [] -> exists factor adjustment,
  let eff := effective factor adjustment in
  smoothing cs = (factor, adjustment, sum_by eff cs) /\ 0 < sum_by eff cs <= max_i64 /\
  (forall c, c ∈ cs -> 0 <= eff c /\ is_i64 (GetWeight c * factor)) /\
  if sum_by GetWeight cs =? 0 then forall c, c ∈ cs -> eff c = 100 else 0 < factor /\ adjustment = 0.
Proof.
  intros (Hw & Hs & Hn) Hne. unfold smoothing, effective.
  assert (0 <= sum_by GetWeight cs) by (by apply sum_by_nonneg).
  assert (HT : total_of (map GetWeight cs) = sum_by GetWeight cs).
  { unfold total_of. rewrite foldl_total; rewrite ?sum_by_weights; try lia.
    intros w (c & -> & Hc)%list_elem_of_fmap. by apply Hw. }
  assert (Hle : forall c, c ∈ cs -> GetWeight c <= sum_by GetWeight cs).
  { clear -Hw. induction cs as [|x cs IH]; intros c Hc; [set_solver|]. cbn.
    assert (0 <= sum_by GetWeight cs) by (apply sum_by_nonneg; set_solver).
    assert (0 <= GetWeight x) by set_solver.
    apply elem_of_cons in Hc as [->|Hc]; [lia|]. specialize (IH ltac:(set_solver) c Hc). lia. }
  assert (0 < Z.of_nat (length cs)) by (destruct cs; [done | cbn; lia]).
  rewrite HT. destruct (Z.eqb_spec (sum_by GetWeight cs) 0) as [E|E].
  - assert (HZ : forall c, c ∈ cs -> GetWeight c = 0).
    { intros c Hc. specialize (Hw c Hc). specialize (Hle c Hc). lia. }
    assert (Hsum : sum_by (fun c => GetWeight c * 1 + 100) cs = Z.of_nat (length cs) * 100).
    { rewrite <- sum_by_const. apply sum_by_ext. intros c Hc. rewrite (HZ c Hc). done. }
    exists 1, 100. rewrite Hsum. unfold i64_mul. rewrite wrap64_id by (red; unfold min_i64; lia).
    split_and!; [done | lia | lia | |]; intros c Hc; rewrite (HZ c Hc); unfold is_i64, min_i64, max_i64; lia.
  - assert (Hsum : forall k, sum_by (fun c => GetWeight c * k + 0) cs = sum_by GetWeight cs * k).
    { intros k. rewrite <- sum_by_scale. apply sum_by_ext. intros; lia. }
    destruct (Z.ltb_spec (i64_div (sum_by GetWeight cs) (Z.of_nat (length cs))) 10).
    + exists 100, 0. rewrite Hsum. unfold i64_mul. rewrite wrap64_id by (red; unfold min_i64; lia).
      split_and!; try lia; [done|]. intros c Hc. specialize (Hw c Hc). specialize (Hle c Hc). unfold is_i64, min_i64. lia.
    + exists 1, 0. rewrite Hsum. replace (sum_by GetWeight cs * 1) with (sum_by GetWeight cs) by lia.
      split_and!; try lia; [done|]. intros c Hc. specialize (Hw c Hc). specialize (Hle c Hc). unfold is_i64, min_i64. lia.
Qed.

Lemma draw_channel_by factor adjustment l : forall r,
  (forall c, c ∈ l -> 0 <= effective factor adjustment c /\ is_i64 (GetWeight c * factor)) ->
  0 <= r -> r <= max_i64 -> sum_by (effective factor adjustment) l <= max_i64 ->
  draw_channel factor adjustment r l = draw_by (effective factor adjustment) r l.
Proof.
  induction l as [|c l IH]; intros r He Hr Hm Hs; [done|]. cbn in *.
  destruct (He c ltac:(set_solver)) as [H1 H2].
  assert (0 <= sum_by (effective factor adjustment) l) by (apply sum_by_nonneg; set_solver).
  unfold i64_mul. rewrite (wrap64_id _ H2). unfold effective, max_i64 in *.
  rewrite i64_add_id, i64_sub_id by (unfold is_i64, min_i64, max_i64; lia).
  destruct (Z.ltb_spec (r - (GetWeight c * factor + adjustment)) 0), (Z.ltb_spec r (GetWeight c * factor + adjustment)); try lia; [done|].
  apply IH; try lia. intros x Hx. apply He. by right.
Qed.

Lemma choose_weighted_by cs : weights_fit cs -> cs <> [] -> exists factor adjustment,
  let eff := effective factor adjustment in
  0 < sum_by eff cs /\ (forall c, c ∈ cs -> 0 <= eff c) /\
  (forall rnd, let r := rnd (sum_by eff cs) in 0 <= r < sum_by eff cs ->
     choose_weighted rnd cs =
       match draw_by eff r cs with Some c => (Some c, None) | None => (None, Some (ErrMsg "channel not found")) end) /\
  if sum_by GetWeight cs =? 0 then forall c, c ∈ cs -> eff c = 100 else 0 < factor /\ adjustment = 0.
Proof.
  intros Hf Hne. destruct (smoothing_fits cs Hf Hne) as (f & a & HS & HT & He & Hc).
  exists f, a. cbn. split_and!; [lia | apply He | | done].
  intros rnd Hr. unfold choose_weighted. rewrite HS. unfold Intn.
  destruct (Z.leb_spec (sum_by (effective f a) cs) 0); [lia|]. rewrite draw_channel_by; [done | done | lia..].
Qed.

(** ** The theorem *)

Lemma resolve_length idm ids cs : resolve idm ids = Some cs -> length cs = length ids.
Proof.
  revert cs. induction ids as [|i ids IH]; intros cs H; cbn in *; [by injection H as <-|].
  destruct (idm !! i); [|done]. destruct (resolve idm ids); [|done]. injection H as <-. cbn. by rewrite IH.
Qed.

Lemma weights_fit_filter p cs : weights_fit cs -> weights_fit (List.filter p cs).
Proof.
  intros (Hw & Hs & Hn).
  assert (H : sum_by GetWeight (List.filter p cs) <= sum_by GetWeight cs /\ (length (List.filter p cs) <= length cs)%nat).
  { clear Hs Hn. induction cs as [|c cs IH]; [done|]. specialize (IH ltac:(set_solver)). cbn.
    assert (0 <= GetWeight c) by set_solver. destruct (p c); cbn; lia. }
  split_and!; [| lia | lia]. intros c Hc. apply Hw. rewrite list_elem_of_In, filter_In in Hc. apply list_elem_of_In. tauto.
Qed.

Lemma cached_choice_among rnd group model retry s ids cs :
  candidates (group2model2channels s) group model = ids -> (2 <= length ids)%nat ->
  resolve (channelsIDM s) ids = Some cs ->
  cached_choice rnd group model retry s = choose_among rnd retry cs.
Proof.
  intros Hc Hn Hr. unfold cached_choice. rewrite Hc. destruct ids as [|i [|j ids]]; cbn in Hn; try lia.
  by rewrite Hr.
Qed.

(** The shares of the channels of one level, in draws out of the total. *)
Lemma level_shares eff cs c :
  (forall x, x ∈ cs -> 0 <= eff x) ->
  let wins := sum_by (fun x => if decide (x = c) then eff x else 0) cs in
  ((forall x, x ∈ cs -> eff x = 100) ->
     wins * Z.of_nat (length cs) = count (fun x => bool_decide (x = c)) cs * sum_by eff cs) /\
  (forall factor, (forall x, x ∈ cs -> eff x = GetWeight x * factor) ->
     wins * sum_by GetWeight cs = sum_by (fun x => if decide (x = c) then GetWeight x else 0) cs * sum_by eff cs).
Proof.
  intros He. cbn. split.
  - intros H. assert (E : sum_by eff cs = Z.of_nat (length cs) * 100) by (rewrite <- sum_by_const; by apply sum_by_ext).
    rewrite E. assert (E' : sum_by (fun x => if decide (x = c) then eff x else 0) cs = count (fun x => bool_decide (x = c)) cs * 100); [|lia].
    clear -H. unfold count. induction cs as [|x cs IH]; [done|]. specialize (IH ltac:(set_solver)). cbn.
    rewrite IH. case_decide; [rewrite bool_decide_eq_true_2 by done; rewrite H by set_solver | rewrite bool_decide_eq_false_2 by done]; cbn [length]; lia.
  - intros f H. assert (E : sum_by eff cs = sum_by GetWeight cs * f) by (rewrite <- sum_by_scale; by apply sum_by_ext).
    rewrite E. assert (E' : sum_by (fun x => if decide (x = c) then eff x else 0) cs
      = sum_by (fun x => if decide (x = c) then GetWeight x else 0) cs * f); [|rewrite E'; ring].
    rewrite <- sum_by_scale. apply sum_by_ext. intros x Hx. case_decide; [by apply H | done].
Qed.

(** C22. The memory cache chooses among the channels of the level a retry
    designates (one priority lower per retry, the lowest when there are no
    more), every draw designates one of them, and each wins exactly its
    weight's share of the draws: equal shares when all weights are 0.  Shares
    are compared by cross-multiplication. *)
Theorem weighted_choice_is_exact s group model retry ids cs :
  candidates (group2model2channels s) group model = ids -> (2 <= length ids)%nat ->
  resolve (channelsIDM s) ids = Some cs -> weights_fit cs -> 0 <= retry ->
  exists p total, 0 < total /\ retry_level (map GetPriority cs) retry p /\
    (forall rnd, 0 <= rnd total < total ->
       exists c, cached_choice rnd group model retry s = (Some c, None) /\ c ∈ cs /\ GetPriority c = p) /\
    let level := List.filter (fun c => GetPriority c =? p) cs in
    forall c, let wins := count (fun r => bool_decide (cached_choice (fun _ => r) group model retry s = (Some c, None)))
                            (seqZ 0 total) in
      if sum_by GetWeight level =? 0
      then wins * Z.of_nat (length level) = count (fun x => bool_decide (x = c)) level * total
      else wins * sum_by GetWeight level = sum_by (fun x => if decide (x = c) then GetWeight x else 0) level * total.
Proof.
  intros Hc Hn Hr Hf Hretry.
  assert (Hcs : map GetPriority cs <> []).
  { pose proof (resolve_length _ _ _ Hr). destruct cs; cbn in *; [lia | done]. }
  destruct (target_priority_level _ retry Hcs Hretry) as (p & Hp & Hlev).
  set (level := List.filter (fun c => GetPriority c =? p) cs).
  assert (Hin : forall c, c ∈ level <-> c ∈ cs /\ GetPriority c = p).
  { intros c. unfold level. by rewrite !list_elem_of_In, filter_In, Z.eqb_eq. }
  assert (Hne : level <> []).
  { destruct Hlev as [Hp' _]. apply elem_of_remove_dups, list_elem_of_fmap in Hp' as (c & -> & Hc').
    intros E. assert (c ∈ level) as Hl by (by apply Hin). rewrite E in Hl. set_solver. }
  destruct (choose_weighted_by level (weights_fit_filter _ _ Hf) Hne) as (f & a & Hpos & He & Hch & Hcase).
  assert (HC : forall rnd, cached_choice rnd group model retry s = choose_weighted rnd level).
  { intros rnd. rewrite (cached_choice_among _ _ _ _ _ _ _ Hc Hn Hr). unfold choose_among. rewrite Hp.
    fold level. by destruct level. }
  exists p, (sum_by (effective f a) level). split_and!; [done | done | |].
  - intros rnd Hrnd. rewrite HC, Hch by done.
    destruct (draw_by_total _ _ _ Hrnd) as (c & -> & Hl). exists c. split; [done | by apply Hin].
  - intros level' c wins.
    assert (HW : wins = sum_by (fun x => if decide (x = c) then effective f a x else 0) level).
    { rewrite <- draw_by_count by done. apply count_ext. intros r Hr'. apply elem_of_seqZ in Hr'.
      rewrite HC, Hch by lia. apply bool_decide_ext. destruct (draw_by _ r level); naive_solver. }
    rewrite HW. destruct (level_shares (effective f a) level c He) as [H1 H2].
    change level' with level. destruct (sum_by GetWeight level =? 0); [by apply H1|].
    apply (H2 f). intros x _. unfold effective. lia.
Qed.

(** Three channels of one group and model on two levels. *)
Definition sample_channel (id weight priority : Z) : Channel :=
  mkChannel id 1 "k" 1 (Some weight) "m" "g" (Some priority) None no_info [].
Definition sample_channels : list Channel := [sample_channel 1 30 5; sample_channel 2 10 5; sample_channel 3 0 0].
Definition sample_store : Store :=
  mkStore sample_channels [] 4 [] {["g" := {["m" := [1; 2; 3]]}]} (list_to_map (map (fun c => (c_Id c, c)) sample_channels)).

Lemma weighted_choice_is_exact_witness :
  weights_fit sample_channels /\
  exists p total, 0 < total /\ retry_level (map GetPriority sample_channels) 0 p /\
    forall rnd, 0 <= rnd total < total ->
      exists c, cached_choice rnd "g" "m" 0 sample_store = (Some c, None) /\ c ∈ sample_channels /\ GetPriority c = p.
Proof.
  assert (Hf : weights_fit sample_channels).
  { split_and!; [| by vm_compute..]. unfold sample_channels. intros c Hc.
    repeat (apply elem_of_cons in Hc as [->|Hc]; [by vm_compute|]). by apply elem_of_nil in Hc. }
  split; [done|].
  destruct (weighted_choice_is_exact sample_store "g" "m" 0 [1; 2; 3] sample_channels
              ltac:(vm_compute; reflexivity) ltac:(cbn; lia) ltac:(vm_compute; reflexivity) Hf ltac:(lia))
    as (p & total & H1 & H2 & H3 & _).
  exists p, total. split_and!; assumption.
Defined.

(** The shares of that store: 30, 10 and 0 of 40 draws. *)
Example sample_shares :
  map (fun c => count (fun r => bool_decide (cached_choice (fun _ => r) "g" "m" 0 sample_store = (Some c, None))) (seqZ 0 40))
    sample_channels = [30; 10; 0].
Proof. by vm_compute. Qed.

(** The choice from the database stops at [weight <= 0] instead of
    [weight < 0]: of two equal rows the first wins 11 of 20 draws. *)
Lemma database_choice_favours_first :
  let row i := mkAbility "g" "m" i true (Some 0) 0 None in
  let s := mkStore [sample_channel 1 0 0; sample_channel 2 0 0] [row 1; row 2] 3 [] ∅ ∅ in
  let wins i := count (fun r => match fst (GetChannel (fun _ => r) "g" "m" 0 s) with
                                | Ok (Some c, None) => c_Id c =? i | _ => false end) (seqZ 0 20) in
  wins 1 = 11 /\ wins 2 = 9.
Proof. by vm_compute. Qed.
