(* ===== verification/ChannelKeys.v ===== *)
(** * The keys of a channel

    A channel may hold several keys, some of them disabled.  In polling mode
    [GetNextEnabledKey] walks round the enabled ones: any number of calls as
    large as their number uses each exactly once, and no call uses a disabled
    key. *)

From stdpp Require Import base gmap list strings sorting.
From Stdlib Require Import ZArith Lia Ascii.
From S2P Require Import Prelude GoInt GoString GoMonad ChannelTable ChannelCache.
Open Scope Z_scope.

Section Keys.
Context {JS : RawJSON}.

(** [k] calls in a row on the cached object. *)
Fixpoint next_keys (rnd : Z -> Z) (id : Z) (k : nat) (s : Store) : list (result (string * Z)) * Store :=
  match k with
  | O => ([], s)
  | S k' =>
      let '(r, s1) := next_key_cached rnd id s in
      let '(l, s2) := next_keys rnd id k' s1 in (r :: l, s2)
  end.

Definition enabled_indexes (c : Channel) : list Z :=
  List.filter (key_enabled (ci_MultiKeyStatusList (c_ChannelInfo c))) (indexes (GetKeys c)).

Definition key_of (c : Channel) (i : Z) : string := default EmptyString (GetKeys c !! Z.to_nat i).

(** ** One round from a starting point *)

Lemma seqZ_split m a b k n : 0 <= a -> 0 <= b -> k = m + a -> n = a + b -> seqZ m a ++ seqZ k b = seqZ m n.
Proof. intros Ha Hb -> ->. by rewrite seqZ_app by lia. Qed.

Definition round (l : gmap Z Z) (n s : Z) : list Z :=
  List.filter (key_enabled l) (map (fun i => i mod n) (seqZ s n)).

Lemma next_enabled_head l n k : forall i,
  next_enabled l n k i = head (List.filter (key_enabled l) (map (fun j => j mod n) (seqZ i (Z.of_nat k)))).
Proof.
  induction k as [|k IH]; intros i; [done|].
  rewrite seqZ_cons by lia. cbn [next_enabled map List.filter].
  destruct (key_enabled l (i mod n)); [done|]. rewrite IH. do 4 f_equal; lia.
Qed.

Lemma round_mod l n s : 0 < n -> round l n (s mod n) = round l n s.
Proof.
  intros Hn. unfold round. f_equal. rewrite (Z_div_mod_eq_full s n) at 2.
  replace (seqZ (n * (s / n) + s mod n) n) with (Z.add (n * (s / n)) <$> seqZ (s mod n) n) by (by rewrite fmap_add_seqZ).
  rewrite <- list_fmap_compose. apply list_fmap_ext. intros _ i _. cbn.
  rewrite Z.add_comm, Z.mul_comm. by rewrite Z_mod_plus_full.
Qed.

(** After the first enabled index, the next round lists it last. *)
Lemma round_next l n s x r : 0 < n -> round l n s = x :: r -> round l n ((x + 1) mod n) = r ++ [x].
Proof.
  intros Hn. rewrite round_mod by done. unfold round.
  assert (HS : forall k s, List.filter (key_enabled l) (map (fun i => i mod n) (seqZ s (Z.of_nat k))) = x :: r ->
    exists y, s <= y < s + Z.of_nat k /\ x = y mod n /\
      List.filter (key_enabled l) (map (fun i => i mod n) (seqZ s (y + 1 - s))) = [x] /\
      List.filter (key_enabled l) (map (fun i => i mod n) (seqZ (y + 1) (s + Z.of_nat k - y - 1))) = r).
  { clear s. induction k as [|k IH]; intros s H; [done|].
    rewrite seqZ_cons in H by lia. cbn [map List.filter] in H.
    replace (Z.pred (Z.of_nat (S k))) with (Z.of_nat k) in H by lia.
    destruct (key_enabled l (s mod n)) eqn:E.
    - injection H as <- <-. exists s. split_and!; [lia | lia | done | |].
      + replace (s + 1 - s) with 1 by lia. rewrite seqZ_cons by lia. cbn [map List.filter]. by rewrite E.
      + unfold Z.succ. do 3 f_equal; lia.
    - destruct (IH _ H) as (y & Hy & Hx & H1 & H2). exists y. split_and!; [lia | lia | done | |].
      + rewrite seqZ_cons by lia. cbn [map List.filter]. rewrite E. rewrite <- H1. do 3 f_equal; lia.
      + rewrite <- H2. do 3 f_equal; lia. }
  intros H. specialize (HS (Z.to_nat n) s). rewrite Z2Nat.id in HS by lia.
  destruct (HS H) as (y & Hy & -> & H1 & H2).
  assert (HM : forall s', round l n ((s' mod n) + 1) = round l n (s' + 1)).
  { intros s'. rewrite <- (round_mod _ _ (_ mod _ + 1)), <- (round_mod _ _ (s' + 1)) by done.
    f_equal. by rewrite Zplus_mod_idemp_l. }
  specialize (HM y). unfold round in HM. rewrite HM.
  replace (seqZ (y + 1) n) with (seqZ (y + 1) (s + n - y - 1) ++ seqZ (s + n) (y + 1 - s))
    by (apply seqZ_split; lia).
  rewrite map_app, List.filter_app, H2. f_equal. rewrite <- H1. f_equal.
  replace (seqZ (s + n) (y + 1 - s)) with (Z.add n <$> seqZ s (y + 1 - s)) by (rewrite fmap_add_seqZ; f_equal; lia).
  rewrite <- list_fmap_compose. apply list_fmap_ext. intros _ i _. cbn.
  rewrite Z.add_comm. replace (i + n) with (i + 1 * n) by lia. apply Z_mod_plus_full.
Qed.

(** ** Calls on the cached object *)

Definition start_of (c : Channel) : Z :=
  let n := Z.of_nat (length (GetKeys c)) in
  let start := ci_MultiKeyPollingIndex (c_ChannelInfo c) in
  if (start <? 0) || (n <=? start) then 0 else start.

(** The indexes a round from the saved index visits. *)
Definition round_of (c : Channel) : list Z :=
  round (ci_MultiKeyStatusList (c_ChannelInfo c)) (Z.of_nat (length (GetKeys c))) (start_of c).

Lemma filter_nil {A} (p : A -> bool) l : List.filter p l = [] -> forall x, x ∈ l -> p x = false.
Proof. induction l as [|y l IH]; intros H x Hx; [set_solver|]. cbn in H. destruct (p y) eqn:E; [done|]. set_solver. Qed.

Lemma seqZ_mod n s : 0 < n -> 0 <= s < n -> map (fun i => i mod n) (seqZ s n) = seqZ s (n - s) ++ seqZ 0 s.
Proof.
  intros Hn Hs. replace (seqZ s n) with (seqZ s (n - s) ++ seqZ n s)
    by (apply seqZ_split; lia).
  rewrite map_app. f_equal.
  - rewrite <- (list_fmap_id (seqZ s (n - s))) at 2. apply list_fmap_ext. intros k i Hi. cbn.
    apply Z.mod_small. apply list_elem_of_lookup_2, elem_of_seqZ in Hi. lia.
  - replace (seqZ n s) with (Z.add n <$> seqZ 0 s) by (rewrite fmap_add_seqZ; f_equal; lia).
    rewrite <- list_fmap_compose. rewrite <- (list_fmap_id (seqZ 0 s)) at 2. apply list_fmap_ext. intros k i Hi. cbn.
    apply list_elem_of_lookup_2, elem_of_seqZ in Hi. replace (n + i) with (i + 1 * n) by lia.
    rewrite Z_mod_plus_full. apply Z.mod_small. lia.
Qed.

Lemma round_perm c : GetKeys c <> [] -> round_of c ≡ₚ enabled_indexes c.
Proof.
  intros Hk. unfold round_of, round, enabled_indexes, indexes. set (n := Z.of_nat (length (GetKeys c))).
  assert (0 < n) by (subst n; destruct (GetKeys c); [done | cbn; lia]).
  assert (Hs : 0 <= start_of c < n).
  { unfold start_of. fold n. destruct (Z.ltb_spec (ci_MultiKeyPollingIndex (c_ChannelInfo c)) 0),
      (Z.leb_spec n (ci_MultiKeyPollingIndex (c_ChannelInfo c))); cbn; lia. }
  rewrite seqZ_mod by done. rewrite List.filter_app, Permutation_app_comm, <- List.filter_app.
  rewrite (seqZ_split 0 _ _ _ n) by lia. done.
Qed.

Lemma poll_call rnd id s c x r :
  channelsIDM s !! id = Some c -> polling c = true -> GetKeys c <> [] -> round_of c = x :: r ->
  exists s' c', next_key_cached rnd id s = (Ok (key_of c x, x), s') /\ channelsIDM s' !! id = Some c' /\
    polling c' = true /\ GetKeys c' = GetKeys c /\ round_of c' = r ++ [x].
Proof.
  intros Hc Hp Hk HR. set (n := Z.of_nat (length (GetKeys c))).
  assert (0 < n) by (subst n; destruct (GetKeys c); [done | cbn; lia]).
  set (c' := set_polling_index ((x + 1) mod n) c).
  eexists (with_cache (group2model2channels s) (<[id := c']> (channelsIDM s)) s), c'.
  pose proof (round_perm c Hk) as HP. rewrite HR in HP.
  assert (Hm : 0 <= (x + 1) mod n < n) by (apply Z.mod_pos_bound; lia).
  split_and!; [| by apply lookup_insert_eq | done | done |].
  - unfold next_key_cached, GetNextEnabledKey. rewrite Hc. unfold polling in Hp.
    apply andb_true_iff in Hp as [-> Hmode]. apply String.eqb_eq in Hmode. rewrite Hmode. cbn [negb].
    fold (enabled_indexes c). destruct (enabled_indexes c) as [|i0 e]; [by apply Permutation_nil_r in HP|].
    change (String.eqb "polling" "random") with false. change (String.eqb "polling" "polling") with true. cbn iota.
    fold n. fold (start_of c). rewrite next_enabled_head. fold n.
    change (List.filter _ _) with (round_of c). rewrite HR. done.
  - unfold round_of. change (GetKeys c') with (GetKeys c). fold n.
    change (ci_MultiKeyStatusList (c_ChannelInfo c')) with (ci_MultiKeyStatusList (c_ChannelInfo c)).
    assert (HS : start_of c' = (x + 1) mod n).
    { unfold start_of. change (GetKeys c') with (GetKeys c). fold n. cbn [c' set_polling_index set_channel_info c_ChannelInfo ci_MultiKeyPollingIndex].
      destruct (Z.ltb_spec ((x + 1) mod n) 0), (Z.leb_spec n ((x + 1) mod n)); cbn; lia. }
    rewrite HS. eapply round_next; [done | exact HR].
Qed.

Lemma poll_calls rnd id done : forall s c todo,
  channelsIDM s !! id = Some c -> polling c = true -> GetKeys c <> [] -> round_of c = done ++ todo ->
  exists s' c', next_keys rnd id (length done) s = (map (fun i => Ok (key_of c i, i)) done, s') /\
    channelsIDM s' !! id = Some c' /\ polling c' = true /\ GetKeys c' = GetKeys c /\ round_of c' = todo ++ done.
Proof.
  induction done as [|x l IH]; intros s c todo Hc Hp Hk HR.
  { exists s, c. by rewrite app_nil_r. }
  destruct (poll_call rnd id s c x (l ++ todo) Hc Hp Hk HR) as (s1 & c1 & E1 & Hc1 & Hp1 & Hk1 & HR1).
  destruct (IH s1 c1 (todo ++ [x]) Hc1 Hp1) as (s2 & c2 & E2 & Hc2 & Hp2 & Hk2 & HR2); [congruence | by rewrite HR1, app_assoc|].
  exists s2, c2. cbn [next_keys length]. rewrite E1, E2. split_and!; [| done | done | congruence | by rewrite HR2, <- app_assoc].
  unfold key_of. by rewrite Hk1.
Qed.

Lemma next_keys_app rnd id k m s :
  next_keys rnd id (k + m) s =
    let '(l1, s1) := next_keys rnd id k s in let '(l2, s2) := next_keys rnd id m s1 in (l1 ++ l2, s2).
Proof.
  revert s. induction k as [|k IH]; intros s; cbn; [by destruct (next_keys rnd id m s)|].
  destruct (next_key_cached rnd id s) as [r s1]. rewrite IH.
  destruct (next_keys rnd id k s1) as [l1 s2]. by destruct (next_keys rnd id m s2).
Qed.

(** A channel in polling mode serves its keys round-robin: there is one
    order of its enabled keys that consecutive calls repeat for ever, so every
    enabled key is used equally often and a disabled one never.  When no key
    is enabled every call reports it. *)
Theorem polling_is_round_robin rnd id s c rounds :
  channelsIDM s !! id = Some c -> polling c = true ->
  exists order, order ≡ₚ enabled_indexes c /\
    match order with
    | [] => fst (next_key_cached rnd id s) = Err no_key
    | _ => fst (next_keys rnd id (rounds * length order) s)
           = concat (replicate rounds (map (fun i => Ok (key_of c i, i)) order))
    end.
Proof.
  intros Hc Hp. destruct (decide (enabled_indexes c = [])) as [E|E].
  { exists []. rewrite E. split; [done|]. unfold next_key_cached, GetNextEnabledKey. rewrite Hc.
    unfold polling in Hp. apply andb_true_iff in Hp as [-> _]. cbn [negb]. fold (enabled_indexes c). by rewrite E. }
  assert (Hk : GetKeys c <> []) by (intros H; apply E; unfold enabled_indexes; by rewrite H).
  exists (round_of c). split; [by apply round_perm|].
  destruct (round_of c) as [|x l] eqn:HR.
  { pose proof (round_perm c Hk) as HP. rewrite HR in HP. by apply Permutation_nil in HP. }
  rewrite <- HR. clear x l E HR. revert s c Hc Hp Hk. induction rounds as [|m IH]; intros s c Hc Hp Hk; [done|].
  destruct (poll_calls rnd id (round_of c) s c [] Hc Hp Hk) as (s' & c' & E & Hc' & Hp' & Hk' & HR'); [by rewrite app_nil_r|].
  change (S m * length (round_of c))%nat with (length (round_of c) + m * length (round_of c))%nat.
  rewrite next_keys_app, E. cbn [replicate concat].
  specialize (IH s' c' Hc' Hp' ltac:(congruence)). rewrite HR' in IH. cbn [app] in IH.
  destruct (next_keys rnd id (m * length (round_of c)) s') as [l2 s2]. cbn [fst] in *. rewrite IH.
  unfold key_of. by rewrite Hk'.
Qed.
End Keys.

(** Five keys, the second and fourth disabled, polling from the third. *)
Definition sample_keys : Channel :=
  mkChannel 7 1 "ignored" 1 None "m" "g" None None
    (mkChannelInfo true 5 {[1 := 3; 3 := 2]} 2 "polling") ["a"; "b"; "c"; "d"; "e"].
Definition sample_keys_store : Store := mkStore [] [] 1 [] ∅ {[7 := sample_keys]}.

Lemma polling_is_round_robin_witness :
  exists order, order ≡ₚ [0; 2; 4] /\
    match order with
    | [] => False
    | _ => fst (next_keys (JS := fun _ => None) (fun _ => 0) 7 (2 * length order) sample_keys_store)
           = concat (replicate 2 (map (fun i => Ok (key_of (JS := fun _ => None) sample_keys i, i)) order))
    end.
Proof.
  destruct (polling_is_round_robin (JS := fun _ => None) (fun _ => 0) 7 sample_keys_store sample_keys 2
              ltac:(vm_compute; reflexivity) ltac:(vm_compute; reflexivity)) as (order & HP & H).
  exists order. split; [exact HP|]. destruct order; [|exact H].
  apply Permutation_nil_l in HP. vm_compute in HP. discriminate HP.
Defined.
