(* ===== verification/AbilitySync.v ===== *)
(** * Abilities follow channels

    The table of abilities repeats what the channels say.  [tables_synced] states
    that it holds exactly the rows of the channels, with their status,
    priority, weight and tag; every operation of [ChannelTable] and
    [ChannelCache] that succeeds preserves it, up to the exceptions proved at
    the end. *)

From stdpp Require Import base gmap list strings sorting.
From Stdlib Require Import ZArith Lia Ascii.
From S2P Require Import Prelude GoInt GoString GoMonad ChannelTable ChannelCache.
Open Scope Z_scope.

(** ** Specification *)

(** A group name with a bar could collide with another key of [abilitySet]. *)
Definition plain (group : string) : bool := negb (Contains group "|").

Definition listed (c : Channel) (g m : string) : Prop :=
  g ∈ Split (c_Group c) comma /\ m ∈ Split (c_Models c) comma.

(** The row of a channel for one model and group. *)
Definition row_of (c : Channel) (m g : string) : Ability :=
  mkAbility g m (c_Id c) (is_enabled c) (Some (GetPriority c)) (to_uint (GetWeight c)) (c_Tag c).

Definition in_sync (chs : list Channel) (abs : list Ability) : Prop :=
  forall a, a ∈ abs <-> exists c m g, c ∈ chs /\ listed c g m /\ a = row_of c m g.

Definition ids_ok (chs : list Channel) : Prop :=
  NoDup (map c_Id chs) /\ (forall c, c ∈ chs -> c_Id c <> 0) /\ forall c, c ∈ chs -> plain (c_Group c) = true.

(** A database that answers, with tables that agree. *)
Definition tables_synced (s : Store) : Prop :=
  st_replies s = [] /\ 0 < st_nextId s /\ ids_ok (st_channels s) /\ in_sync (st_channels s) (st_abilities s).

(** ** The rows of one channel *)

Lemma Contains_app_r a s sub : Contains s sub = true -> Contains (String a s) sub = true.
Proof. intros H. cbn. destruct (strip sub (String a s)); done. Qed.

Lemma bar_free s a : Contains (String a s) "|" = false -> a <> "|"%char /\ Contains s "|" = false.
Proof.
  intros H. destruct (Contains s "|") eqn:E; [by rewrite (Contains_app_r a s) in H|]. split; [|done].
  intros ->. done.
Qed.

Lemma Contains_app s t sub : Contains s sub = true -> Contains (s +:+ t) sub = true.
Proof.
  induction s as [|a s IH]; intros H.
  - destruct sub as [|b sub]; [|done]. by destruct t.
  - cbn [Contains] in H. change (String a s +:+ t) with (String a (s +:+ t)). cbn [Contains].
    destruct (strip sub (String a s)) as [r|] eqn:E.
    + apply strip_Some in E. destruct (strip sub (String a (s +:+ t))) eqn:E2; [done|].
      exfalso. assert (strip sub (String a (s +:+ t)) = Some (r +:+ t)) as E3; [|congruence].
      apply strip_Some. change (String a (s +:+ t)) with (String a s +:+ t). rewrite E. by rewrite str_app_assoc.
    + rewrite IH by done. by destruct (strip sub (String a (s +:+ t))).
Qed.

(** The pieces of a string without bars have none. *)
Lemma Split_plain s sep x : Contains s "|" = false -> x ∈ Split s sep -> Contains x "|" = false.
Proof.
  revert x. induction s as [|a s IH]; intros x Hs Hx.
  - apply list_elem_of_singleton in Hx as ->. done.
  - apply bar_free in Hs as [Ha Hs]. cbn in Hx. pose proof (Split_nonempty s sep).
    destruct (Ascii.eqb a sep); [apply elem_of_cons in Hx as [->|Hx]; [done | by apply IH]|].
    destruct (Split s sep) as [|y r] eqn:E; [done|]. apply elem_of_cons in Hx as [->|Hx]; [|apply IH; set_solver].
    assert (Hy : Contains y "|" = false) by (apply IH; set_solver). cbn [Contains strip].
    destruct (Ascii.eqb_spec "|"%char a); [congruence | exact Hy].
Qed.

(** A key of [abilitySet] determines group and model. *)
Lemma key_inj g1 m1 g2 m2 :
  Contains g1 "|" = false -> Contains g2 "|" = false ->
  g1 +:+ "|" +:+ m1 = g2 +:+ "|" +:+ m2 -> g1 = g2 /\ m1 = m2.
Proof.
  revert g2. induction g1 as [|a g1 IH]; intros [|b g2] H1 H2 E.
  - split; [done|]. cbn in E. by injection E.
  - apply bar_free in H2 as [H2 _]. change ("|" +:+ m1) with (String "|" m1) in E. injection E as <- _. done.
  - apply bar_free in H1 as [H1 _]. injection E as -> _. done.
  - apply bar_free in H1 as [_ H1], H2 as [_ H2]. injection E as -> E. destruct (IH g2 H1 H2 E) as [-> ->]. done.
Qed.

Definition key_string (mg : string * string) : string := snd mg +:+ "|" +:+ fst mg.

(** The loop keeps the first occurrence of each key. *)
Lemma collect_spec c pairs : forall seen,
  (forall p q, p ∈ pairs -> q ∈ pairs -> key_string p = key_string q -> p = q) ->
  (forall a, a ∈ collect_abilities c seen pairs <->
     exists m g, (m, g) ∈ pairs /\ key_string (m, g) ∉ seen /\ a = ability_of c m g) /\
  NoDup (map (fun a => (a_Model a, a_Group a)) (collect_abilities c seen pairs)).
Proof.
  induction pairs as [|[m g] r IH]; intros seen Hinj; cbn [collect_abilities].
  { split; [|constructor]. intros a. split; [intros H; set_solver | intros (?&?&H&_); set_solver]. }
  assert (Hr : forall p q, p ∈ r -> q ∈ r -> key_string p = key_string q -> p = q) by (intros; apply Hinj; set_solver).
  change (g +:+ "|" +:+ m) with (key_string (m, g)). destruct (str_in _ seen) eqn:E.
  - apply str_in_spec in E. destruct (IH seen Hr) as [HA HN]. split; [|done]. intros a. rewrite HA. split.
    + intros (m' & g' & H1 & H2). exists m', g'. split; [set_solver | done].
    + intros (m' & g' & [H1|H1]%elem_of_cons & H2 & H3); [injection H1 as -> ->; done|]. by exists m', g'.
  - assert (E' : key_string (m, g) ∉ seen) by (intros H; apply str_in_spec in H; by rewrite H in E).
    destruct (IH (key_string (m, g) :: seen) Hr) as [HA HN]. split.
    + intros a. rewrite elem_of_cons, HA. split.
      * intros [->|(m' & g' & H1 & H2 & H3)]; [exists m, g; set_solver|]. exists m', g'. set_solver.
      * intros (m' & g' & H1 & H2 & ->). destruct (decide (key_string (m', g') = key_string (m, g))) as [K|K].
        { left. assert ((m', g') = (m, g)) as [= -> ->]; [|done]. apply Hinj; set_solver. }
        right. exists m', g'. split_and!; [|set_solver|done]. apply elem_of_cons in H1 as [[= -> ->]|H1]; done.
    + cbn. constructor; [|done]. intros (a & Ha & (m' & g' & H1 & H2 & ->)%HA)%list_elem_of_fmap.
      injection Ha as <- <-. set_solver.
Qed.

Lemma channel_abilities_spec c : plain (c_Group c) = true ->
  (forall a, a ∈ channel_abilities c <-> exists m g, listed c g m /\ a = ability_of c m g) /\
  NoDup (map (fun a => (a_Model a, a_Group a)) (channel_abilities c)).
Proof.
  intros Hp. apply negb_true_iff in Hp.
  assert (HP : forall m g, (m, g) ∈ list_prod (Split (c_Models c) comma) (Split (c_Group c) comma) <-> listed c g m).
  { intros m g. rewrite list_elem_of_In, in_prod_iff, <- !list_elem_of_In. unfold listed. tauto. }
  destruct (collect_spec c (list_prod (Split (c_Models c) comma) (Split (c_Group c) comma)) []) as [HA HN].
  - intros [m1 g1] [m2 g2] H1 H2 E. apply HP in H1 as [H1 _], H2 as [H2 _].
    destruct (key_inj g1 m1 g2 m2) as [-> ->]; eauto using Split_plain.
  - split; [|done]. intros a. unfold channel_abilities. rewrite HA. setoid_rewrite HP.
    split; intros (m & g & H); exists m, g; [tauto|]. split_and!; [tauto | set_solver | tauto].
Qed.

(** ** Changing the tables *)

Definition filled (a : Ability) : Ability :=
  mkAbility (a_Group a) (a_Model a) (a_ChannelId a) (a_Enabled a) (Some (default 0 (a_Priority a))) (a_Weight a) (a_Tag a).

Lemma same_key_spec a b :
  same_key a b = true <-> a_Group a = a_Group b /\ a_Model a = a_Model b /\ a_ChannelId a = a_ChannelId b.
Proof. unfold same_key. rewrite !andb_true_iff, !String.eqb_eq, Z.eqb_eq. tauto. Qed.

Lemma insert_all_spec l : forall abs,
  (forall a b, a ∈ l -> b ∈ abs -> same_key a b = false) ->
  NoDup (map (fun a => (a_Model a, a_Group a)) l) ->
  forall x, x ∈ foldl insert_ability abs l <-> x ∈ abs \/ exists a, a ∈ l /\ x = filled a.
Proof.
  induction l as [|a l IH]; intros abs Hk HN x; cbn [foldl].
  { split; [by left | intros [H|(a & H & _)]; [done | set_solver]]. }
  cbn in HN. apply NoDup_cons in HN as [Ha HN].
  assert (E : insert_ability abs a = abs ++ [filled a]).
  { unfold insert_ability. destruct (existsb (same_key a) abs) eqn:E; [|done].
    apply existsb_exists in E as (b & Hb & E). rewrite Hk in E; [done | set_solver | by apply list_elem_of_In]. }
  rewrite E, IH; [| |done].
  - rewrite elem_of_app. set_solver.
  - intros a' b Ha' [Hb|Hb]%elem_of_app; [apply Hk; set_solver|].
    apply list_elem_of_singleton in Hb as ->. destruct (same_key a' (filled a)) eqn:E'; [|done].
    apply same_key_spec in E' as (E1 & E2 & _). cbn in *. exfalso. apply Ha. apply list_elem_of_fmap.
    exists a'. split; [congruence | done].
Qed.

(** Adding the rows of a channel that has none yet. *)
Lemma sync_add chs abs c c' :
  in_sync chs abs -> plain (c_Group c) = true -> c_Id c ∉ map c_Id chs ->
  (forall m g, listed c' g m <-> listed c g m) -> (forall m g, row_of c' m g = row_of c m g) ->
  in_sync (chs ++ [c']) (foldl insert_ability abs (channel_abilities c)).
Proof.
  intros Hs Hp Hid Hl Hrow. destruct (channel_abilities_spec c Hp) as [HA HN].
  assert (HF : forall m g, filled (ability_of c m g) = row_of c m g) by done.
  intros x. rewrite insert_all_spec; [| |done].
  - rewrite (Hs x). split.
    + intros [(d & m & g & H)|(a & (m & g & H & ->)%HA & ->)]; [exists d, m, g; set_solver|].
      exists c', m, g. rewrite Hl, Hrow. set_solver.
    + intros (d & m & g & [Hd|Hd]%elem_of_app & H1 & ->); [left; by exists d, m, g|].
      apply list_elem_of_singleton in Hd as ->. rewrite Hl in H1. rewrite Hrow. right.
      exists (ability_of c m g). split; [apply HA; by exists m, g | done].
  - intros a b (m & g & _ & ->)%HA (d & m' & g' & Hd & _ & ->)%Hs.
    destruct (same_key _ _) eqn:E; [|done]. apply same_key_spec in E as (_ & _ & E). cbn in E.
    exfalso. apply Hid. rewrite E. apply list_elem_of_fmap. by exists d.
Qed.

Lemma elem_of_bfilter {A} (p : A -> bool) l x : x ∈ List.filter p l <-> x ∈ l /\ p x = true.
Proof. by rewrite !list_elem_of_In, filter_In. Qed.

Lemma not_existsb_ids i ids : negb (existsb (Z.eqb i) ids) = true <-> i ∉ ids.
Proof.
  rewrite negb_true_iff, <- not_true_iff_false, existsb_exists. split; intros H Hi; apply H.
  - exists i. by rewrite <- list_elem_of_In, Z.eqb_refl.
  - destruct Hi as (j & Hj & ->%Z.eqb_eq). by apply list_elem_of_In.
Qed.

Lemma elem_of_delete ids chs c : c ∈ delete_channels ids chs <-> c ∈ chs /\ c_Id c ∉ ids.
Proof. unfold delete_channels. by rewrite elem_of_bfilter, not_existsb_ids. Qed.

Lemma elem_of_drop ids abs a : a ∈ drop_channel ids abs <-> a ∈ abs /\ a_ChannelId a ∉ ids.
Proof. unfold drop_channel. by rewrite elem_of_bfilter, not_existsb_ids. Qed.

Lemma sync_drop ids chs abs : in_sync chs abs -> in_sync (delete_channels ids chs) (drop_channel ids abs).
Proof.
  intros Hs a. rewrite elem_of_drop, (Hs a). setoid_rewrite elem_of_delete. split.
  - intros [(c & m & g & Hc & Hl & ->) Hi]. by exists c, m, g.
  - intros (c & m & g & (Hc & Hi) & Hl & ->). split; [by exists c, m, g | done].
Qed.

Lemma ids_ok_filter p chs : ids_ok chs -> ids_ok (List.filter p chs).
Proof.
  intros (HN & H0 & Hp). split_and!; [| intros c Hc%elem_of_bfilter; naive_solver..].
  clear -HN. induction chs as [|c chs IH]; [constructor|]. cbn in *. apply NoDup_cons in HN as [Hc HN].
  destruct (p c); [|by apply IH]. cbn. constructor; [|by apply IH].
  intros (d & E & Hd%elem_of_bfilter)%list_elem_of_fmap. apply Hc, list_elem_of_fmap. exists d. naive_solver.
Qed.

(** A statement on some channels, mirrored on their rows. *)
Lemma sync_on_rows (p : Channel -> bool) (f : Channel -> Channel) (q : Ability -> bool) h chs abs :
  in_sync chs abs ->
  (forall c m g, c ∈ chs -> q (row_of c m g) = p c) ->
  (forall c m g, c ∈ chs -> p c = true -> row_of (f c) m g = h (row_of c m g) /\ (listed (f c) g m <-> listed c g m)) ->
  in_sync (on_rows p f chs) (on_rows q h abs).
Proof.
  intros Hs Hq Hf a. unfold on_rows. rewrite list_elem_of_fmap. split.
  - intros (b & -> & (c & m & g & Hc & Hl & ->)%Hs). rewrite Hq by done.
    exists (if p c then f c else c), m, g. split; [apply list_elem_of_fmap; by exists c|].
    destruct (p c) eqn:E; [|done]. destruct (Hf c m g Hc E) as [-> ->]. done.
  - intros (d & m & g & (c & -> & Hc)%list_elem_of_fmap & Hl & ->). exists (row_of c m g).
    rewrite Hq by done. destruct (p c) eqn:E.
    + destruct (Hf c m g Hc E) as [E1 E2]. split; [by rewrite E1|]. apply Hs. exists c, m, g. by rewrite <- E2.
    + split; [done|]. apply Hs. by exists c, m, g.
Qed.

Lemma ids_ok_on_rows p f chs :
  ids_ok chs -> (forall c, c ∈ chs -> c_Id (f c) = c_Id c) ->
  (forall c, c ∈ chs -> p c = true -> plain (c_Group (f c)) = true) -> ids_ok (on_rows p f chs).
Proof.
  intros (HN & H0 & Hp) Hi Hg.
  assert (E : map c_Id (on_rows p f chs) = map c_Id chs).
  { clear HN H0 Hp Hg. induction chs as [|c chs IH]; [done|]. cbn. rewrite IH by set_solver.
    destruct (p c); [by rewrite Hi by set_solver | done]. }
  split_and!; [by rewrite E| |]; intros d (c & -> & Hc)%list_elem_of_fmap; destruct (p c) eqn:Ep; auto.
  rewrite Hi by done. auto.
Qed.

(** Agreement outside the rows of some channels. *)
Definition in_sync_off (ids : list Z) (chs : list Channel) (abs : list Ability) : Prop :=
  forall a, a_ChannelId a ∉ ids -> (a ∈ abs <-> exists c m g, c ∈ chs /\ listed c g m /\ a = row_of c m g).

Lemma same_channel chs c d : ids_ok chs -> c ∈ chs -> d ∈ chs -> c_Id c = c_Id d -> c = d.
Proof.
  intros (HN & _) [i Hi]%list_elem_of_lookup [j Hj]%list_elem_of_lookup E.
  assert (i = j) as ->; [|congruence].
  eapply (NoDup_lookup _ _ _ _ HN); [by rewrite list_lookup_fmap, Hi | rewrite list_lookup_fmap, Hj; cbn; congruence].
Qed.

(** Rebuilding the rows of one channel of the table. *)
Lemma sync_rebuild ids chs abs c :
  ids_ok chs -> c ∈ chs -> in_sync_off (c_Id c :: ids) chs abs ->
  in_sync_off ids chs (foldl insert_ability (drop_channel [c_Id c] abs) (channel_abilities c)).
Proof.
  intros Hids Hc Hs a Ha. pose proof Hids as (_ & _ & Hp).
  destruct (channel_abilities_spec c (Hp c Hc)) as [HA HN].
  assert (HF : forall m g, filled (ability_of c m g) = row_of c m g) by done.
  rewrite insert_all_spec; [| |done].
  - rewrite elem_of_drop. destruct (decide (a_ChannelId a = c_Id c)) as [E|E].
    + split.
      * intros [[_ H]|(b & (m & g & Hl & ->)%HA & ->)]; [set_solver|]. exists c, m, g. by rewrite HF.
      * intros (d & m & g & Hd & Hl & ->). right.
        assert (d = c) as -> by (by apply (same_channel chs)). exists (ability_of c m g). split; [apply HA; by exists m, g | done].
    + rewrite (Hs a) by set_solver. split; [|intros H; left; split; [done | set_solver]].
      intros [[H _]|(b & (m & g & _ & ->)%HA & ->)]; [done|]. by destruct E.
  - intros x y (m & g & _ & ->)%HA (_ & Hy)%elem_of_drop. destruct (same_key _ _) eqn:E; [|done].
    apply same_key_spec in E as (_ & _ & E). cbn in E. set_solver.
Qed.

(** ** Statements of a database that answers *)

Definition answering (s : Store) : Prop := st_replies s = [].

Lemma run_bind {A B} (m : CM A) (f : A -> CM B) s a s1 : m s = (Ok a, s1) -> (m ≫= f) s = f a s1.
Proof. intros E. unfold mbind, GM_bind. by rewrite E. Qed.
Lemma run_attempting {A} (m : CM A) s r s1 : m s = (r, s1) -> attempting m s = (Ok r, s1).
Proof. intros E. unfold attempting. by rewrite E. Qed.
Lemma run_db_reply s : answering s -> db_reply s = (Ok tt, s).
Proof. intros H. unfold db_reply. by rewrite H. Qed.
Lemma run_exec f s : answering s -> exec f s = (Ok tt, f s).
Proof. intros H. unfold exec. by rewrite (run_bind _ _ _ _ _ (run_db_reply s H)). Qed.
Lemma run_query {A} (f : Store -> A) s : answering s -> query f s = (Ok (f s), s).
Proof. intros H. unfold query. by rewrite (run_bind _ _ _ _ _ (run_db_reply s H)). Qed.
Lemma run_update_abilities f s : answering s -> update_abilities f s = (Ok tt, with_abilities (f (st_abilities s)) s).
Proof. intros H. unfold update_abilities. by rewrite run_exec. Qed.
Lemma run_update_channels f s : answering s -> update_channels f s = (Ok tt, with_channels (f (st_channels s)) s).
Proof. intros H. unfold update_channels. by rewrite run_exec. Qed.
Lemma run_invalidate s : answering s -> InvalidateModelListCache s = (Ok tt, s).
Proof. apply run_db_reply. Qed.
Lemma run_after m s s1 : m s = (Ok tt, s1) -> answering s1 -> invalidateModelListCacheAfter m s = (Ok tt, s1).
Proof. intros E H. unfold invalidateModelListCacheAfter. rewrite (run_bind _ _ _ _ _ E). by apply run_invalidate. Qed.

Lemma run_transaction {A} (m : CM A) s r s1 : answering s -> m s = (r, s1) -> answering s1 ->
  Transaction m s = (r, match r with Ok _ => s1 | Err _ => with_abilities (st_abilities s) (with_channels (st_channels s) s1) end).
Proof.
  intros H E H1. unfold Transaction. rewrite (run_bind _ _ _ _ _ (run_db_reply s H)).
  unfold mbind at 1, GM_bind at 1. rewrite E. destruct r as [a|e]; [|done].
  by rewrite (run_bind _ _ _ _ _ (run_db_reply s1 H1)).
Qed.

Lemma run_create_abilities (chunks : list (list Ability)) : forall s, answering s ->
  for_each create_abilities chunks s = (Ok tt, with_abilities (foldl insert_ability (st_abilities s) (concat chunks)) s).
Proof.
  induction chunks as [|l chunks IH]; intros s H; cbn [for_each concat].
  { by destruct s. }
  change (create_abilities l) with (update_abilities (fun rows => foldl insert_ability rows l)).
  rewrite (run_bind _ _ _ _ _ (run_update_abilities _ _ H)).
  rewrite IH by done. by rewrite foldl_app.
Qed.

Ltac run lem := rewrite (run_bind _ _ _ _ _ lem).

Section Runs.
Context {CF : ChannelConfig} {LO : Lo} {JS : RawJSON} {SS : SliceSort}.

Lemma run_insert_rows c s : answering s ->
  insert_rows c s = (Ok tt, with_abilities (foldl insert_ability (st_abilities s) (channel_abilities c)) s).
Proof. intros H. unfold insert_rows. rewrite run_create_abilities by done. by rewrite Chunk_concat. Qed.

Lemma run_AddAbilities tx c s : answering s ->
  AddAbilities tx c s = (Ok tt, with_abilities (foldl insert_ability (st_abilities s) (channel_abilities c)) s).
Proof.
  intros H. unfold AddAbilities. destruct (channel_abilities c) as [|a l] eqn:E; cbn [length Nat.eqb]; [by destruct s|].
  rewrite <- E. run (run_insert_rows c s H). destruct tx; [done | by apply run_invalidate].
Qed.

Lemma run_UpdateAbilities c s : answering s ->
  UpdateAbilities c s = (Ok tt, with_abilities (foldl insert_ability (drop_channel [c_Id c] (st_abilities s)) (channel_abilities c)) s).
Proof.
  intros H. unfold UpdateAbilities.
  set (s1 := with_abilities (drop_channel [c_Id c] (st_abilities s)) s).
  assert (E : (update_abilities (drop_channel [c_Id c]) ;; insert_rows c) s
    = (Ok tt, with_abilities (foldl insert_ability (drop_channel [c_Id c] (st_abilities s)) (channel_abilities c)) s)).
  { run (run_update_abilities (drop_channel [c_Id c]) s H). by rewrite run_insert_rows. }
  run (run_transaction _ _ _ _ H E ltac:(done)). by apply run_invalidate.
Qed.

Lemma run_GetChannelById id s : answering s ->
  GetChannelById id s = (match find_channel id (st_channels s) with Some c => Ok c | None => Err ErrRecordNotFound end, s).
Proof. intros H. unfold GetChannelById. run (run_query (fun s => find_channel id (st_channels s)) s H). by destruct (find_channel _ _). Qed.

Lemma find_channel_some id chs c : find_channel id chs = Some c -> c ∈ chs /\ c_Id c = id.
Proof. intros H. apply find_some in H as [H1 H2]. split; [by apply list_elem_of_In | lia]. Qed.

Lemma find_channel_of c chs : ids_ok chs -> c ∈ chs -> find_channel (c_Id c) chs = Some c.
Proof.
  intros (HN & _) Hc. induction chs as [|d chs IH]; [set_solver|]. cbn in *. apply NoDup_cons in HN as [Hd HN].
  destruct (Z.eqb_spec (c_Id d) (c_Id c)) as [E|E].
  - apply elem_of_cons in Hc as [->|Hc]; [done|]. exfalso. apply Hd. rewrite E. apply list_elem_of_fmap. by exists c.
  - apply IH; set_solver.
Qed.

(** ** Operations preserve the agreement *)

Lemma synced_tables s chs abs : tables_synced s -> ids_ok chs -> in_sync chs abs -> tables_synced (with_abilities abs (with_channels chs s)).
Proof. intros (H1 & H2 & _) H3 H4. by split_and!. Qed.

Lemma run_create_channel c s : answering s -> 0 < st_nextId s ->
  (exists e, create_channel c s = (Err e, s)) \/
  exists row s1, create_channel c s = (Ok row, s1) /\ c_Id row ∉ map c_Id (st_channels s) /\ c_Id row <> 0 /\
    c_Group row = or_str (c_Group c) "default" /\
    s1 = mkStore (st_channels s ++ [set_keys [] row]) (st_abilities s) (st_nextId s1) [] (group2model2channels s) (channelsIDM s) /\
    0 < st_nextId s1.
Proof.
  intros H Hn. unfold create_channel. run (run_db_reply s H). run (eq_refl (gets id s)).
  set (i := if c_Id c =? 0 then st_nextId s else c_Id c).
  destruct (existsb _ _) eqn:E; [left; by eexists|]. right. eexists _, _. split; [reflexivity|]. cbn.
  split_and!; [| | done | by rewrite <- H | lia].
  - intros (d & Ed & Hd)%list_elem_of_fmap. apply not_true_iff_false in E. apply E, existsb_exists.
    exists d. split; [by apply list_elem_of_In | rewrite <- Ed; apply Z.eqb_refl].
  - subst i. destruct (Z.eqb_spec (c_Id c) 0); lia.
Qed.

Lemma ids_ok_add chs c : ids_ok chs -> c_Id c ∉ map c_Id chs -> c_Id c <> 0 -> plain (c_Group c) = true -> ids_ok (chs ++ [c]).
Proof.
  intros (HN & H0 & Hp) Hi Hz Hg. split_and!.
  - rewrite map_app. apply NoDup_app. split_and!; [done | | apply NoDup_singleton]. set_solver.
  - intros d [Hd|Hd]%elem_of_app; [auto|]. by apply list_elem_of_singleton in Hd as ->.
  - intros d [Hd|Hd]%elem_of_app; [auto|]. by apply list_elem_of_singleton in Hd as ->.
Qed.

Lemma plain_default g : plain g = true -> plain (or_str g "default") = true.
Proof. intros H. unfold or_str. by destruct (String.eqb g ""). Qed.

Lemma Insert_synced c s : tables_synced s -> plain (c_Group c) = true -> tables_synced (snd (Insert c s)).
Proof.
  intros HS Hp. destruct HS as (HL & Hn & Hids & Hsync).
  unfold Insert. destruct (run_create_channel c s HL Hn) as [[e E]|(row & s1 & E & Hi & Hz & Hg & E1 & Hn1)].
  { unfold mbind, GM_bind. by rewrite E. }
  assert (HP : plain (c_Group row) = true) by (rewrite Hg; by apply plain_default).
  run E. assert (HL1 : answering s1) by (by rewrite E1). rewrite run_AddAbilities by done. cbn [snd].
  rewrite E1 in *. cbn in *. split_and!; [done | done | by apply ids_ok_add |]. by apply sync_add.
Qed.

Lemma Delete_synced c s : tables_synced s -> tables_synced (snd (Delete c s)).
Proof.
  intros HS. pose proof HS as (HL & _ & Hids & Hsync). unfold Delete, DeleteAbilities.
  run (run_update_channels (delete_channels [c_Id c]) s HL).
  erewrite run_after; [| by apply run_update_abilities | done].
  apply (synced_tables s); [done | by apply ids_ok_filter | by apply sync_drop].
Qed.

(** ** Batches *)

Definition keeps_sync {A} (m : CM A) : Prop := forall s, tables_synced s -> tables_synced (snd (m s)).
(** A body of a transaction: what it leaves behind matters only when it succeeds. *)
Definition keeps_ok {A} (m : CM A) : Prop := forall s, tables_synced s ->
  answering (snd (m s)) /\ 0 < st_nextId (snd (m s)) /\ forall a, fst (m s) = Ok a -> tables_synced (snd (m s)).

Lemma keeps_transaction {A} (m : CM A) : keeps_ok m -> keeps_sync (Transaction m).
Proof.
  intros H s HS. destruct (H s HS) as (H1 & H2 & H3). destruct (m s) as [r s1] eqn:E. cbn in *.
  rewrite (run_transaction m s r s1); [| apply HS | done | done]. cbn. destruct r as [a|e]; [by eapply H3|].
  destruct HS as (_ & _ & Hi & Hs). by split_and!.
Qed.

Lemma keeps_invalidate {A} (m : CM A) : keeps_sync m -> keeps_sync (m ;; InvalidateModelListCache).
Proof.
  intros H s HS. specialize (H s HS). unfold mbind, GM_bind. destruct (m s) as [[a|e] s1]; [|done].
  cbn in *. by rewrite run_invalidate by apply H.
Qed.

Lemma keeps_ok_for_each {A} (f : A -> CM unit) l : (forall x, x ∈ l -> keeps_ok (f x)) -> keeps_ok (for_each f l).
Proof.
  induction l as [|x l IH]; intros Hf s HS; cbn [for_each].
  { split_and!; [apply HS | apply HS | done]. }
  destruct (Hf x ltac:(set_solver) s HS) as (H1 & H2 & H3). unfold mbind, GM_bind.
  destruct (f x s) as [[[]|e] s1]; cbn in *; [|by split_and!]. apply IH; [set_solver | by apply (H3 tt)].
Qed.

Lemma BatchDelete_synced ids : keeps_sync (BatchDeleteChannels ids).
Proof.
  unfold BatchDeleteChannels. destruct (_ =? _)%nat; [by intros s|]. apply keeps_invalidate, keeps_transaction, keeps_ok_for_each.
  intros chunk _ s HS. pose proof HS as (HL & Hn & Hids & Hsync).
  run (run_update_channels (delete_channels chunk) s HL). rewrite run_update_abilities by done.
  split_and!; [done | done |]. intros _ _.
  apply (synced_tables s); [done | by apply ids_ok_filter | by apply sync_drop].
Qed.

(** Between creating channels and adding their abilities, the abilities agree
    with the channels [done] so far. *)
Definition partial (chs : list Channel) (s : Store) : Prop :=
  answering s /\ 0 < st_nextId s /\ ids_ok (st_channels s) /\ in_sync chs (st_abilities s).

Lemma run_create_all l : forall s,
  (forall c, c ∈ l -> plain (c_Group c) = true) -> answering s -> 0 < st_nextId s -> ids_ok (st_channels s) ->
  let '(r, s1) := create_all l s in
  answering s1 /\ 0 < st_nextId s1 /\ st_abilities s1 = st_abilities s /\
  match r with
  | Ok rows => st_channels s1 = st_channels s ++ map (set_keys []) rows /\ ids_ok (st_channels s1)
  | Err _ => True
  end.
Proof.
  induction l as [|c l IH]; intros s Hp HL Hn Hids; cbn [create_all].
  { cbn. by rewrite app_nil_r. }
  destruct (run_create_channel c s HL Hn) as [[e E]|(row & s1 & E & Hi & Hz & Hg & E1 & Hn1)].
  { unfold mbind, GM_bind. by rewrite E. }
  run E. assert (HP : plain (c_Group row) = true) by (rewrite Hg; apply plain_default, Hp; set_solver).
  specialize (IH s1 ltac:(set_solver)). rewrite E1 in IH at 1 2 3. cbn in IH.
  specialize (IH eq_refl Hn1 ltac:(by apply ids_ok_add)).
  unfold mbind, GM_bind. destruct (create_all l s1) as [[rows|e] s2]; destruct IH as (H1 & H2 & H3 & H4).
  - cbn. split_and!; [done | done | rewrite H3; by rewrite E1 | | apply H4].
    destruct H4 as [-> _]. rewrite E1. cbn. by rewrite <- app_assoc.
  - cbn. split_and!; [done | done | rewrite H3; by rewrite E1 | done].
Qed.

Lemma run_add_all rows : forall s chs,
  partial chs s -> st_channels s = chs ++ map (set_keys []) rows ->
  exists s1, for_each (AddAbilities true) rows s = (Ok tt, s1) /\ tables_synced s1.
Proof.
  induction rows as [|row rows IH]; intros s chs (HL & Hn & Hids & Hs) Hc; cbn [for_each].
  { exists s. rewrite app_nil_r in Hc. by rewrite <- Hc in Hs. }
  run (run_AddAbilities true row s HL). rewrite Hc in Hids. destruct Hids as (HN & H0 & Hp).
  apply (IH _ (chs ++ [set_keys [] row])); [| cbn; by rewrite Hc, <- app_assoc].
  split_and!; [done | done | cbn; by rewrite Hc |]. cbn. apply sync_add; [done | | | done | done].
  - apply (Hp (set_keys [] row)). cbn. set_solver.
  - rewrite map_app in HN. cbn in HN. apply NoDup_app in HN as (_ & HN & _). intros H. apply (HN _ H). set_solver.
Qed.

Lemma BatchInsert_synced cs : (forall c, c ∈ cs -> plain (c_Group c) = true) -> keeps_sync (BatchInsertChannels cs).
Proof.
  intros Hp. unfold BatchInsertChannels. destruct (_ =? _)%nat; [by intros s|].
  apply keeps_invalidate, keeps_transaction, keeps_ok_for_each. intros chunk Hchunk s (HL & Hn & Hids & Hsync).
  assert (Hpc : forall c, c ∈ chunk -> plain (c_Group c) = true).
  { intros c Hc. apply Hp. rewrite <- (Chunk_concat cs 50) by done. apply list_elem_of_In, in_concat.
    exists chunk. split; by apply list_elem_of_In. }
  pose proof (run_create_all chunk s Hpc HL Hn Hids) as H. unfold mbind, GM_bind.
  destruct (create_all chunk s) as [[rows|e] s1]; destruct H as (H1 & H2 & H3 & H4); [|by split_and!].
  destruct H4 as [Hc Hids1].
  destruct (run_add_all rows s1 (st_channels s)) as (s2 & -> & HS2); [unfold partial; by rewrite H3 | done |].
  split_and!; [apply HS2 | apply HS2 | done].
Qed.

(** ** Tags *)

Lemma has_tag_spec t o : has_tag t o = true <-> o = Some t.
Proof. unfold has_tag. apply bool_decide_eq_true. Qed.

Lemma tag_status_synced tag status : forall s, tables_synced s ->
  tables_synced (snd ((update_channels (on_rows (channel_tagged tag) (set_status status)) ;;
                UpdateAbilityStatusByTag tag (status =? ChannelStatusEnabled)) s)).
Proof.
  intros s HS. pose proof HS as (HL & _ & Hids & Hsync).
  run (run_update_channels (on_rows (channel_tagged tag) (set_status status)) s HL).
  unfold UpdateAbilityStatusByTag. erewrite run_after; [| by apply run_update_abilities | done].
  apply (synced_tables s); [done | |].
  - apply ids_ok_on_rows; [done | done |]. intros c Hc _. destruct Hids as (_ & _ & Hp). by apply (Hp c).
  - apply sync_on_rows; [done | done |]. intros c m g _ _. split; [|done]. unfold row_of, set_enabled, is_enabled. cbn.
    f_equal. by destruct (Z.eqb_spec status ChannelStatusEnabled); [apply bool_decide_eq_true | apply bool_decide_eq_false].
Qed.

Lemma EnableByTag_synced tag : keeps_sync (EnableChannelByTag tag).
Proof. intros s HS. apply (tag_status_synced tag ChannelStatusEnabled s HS). Qed.
Lemma DisableByTag_synced tag : keeps_sync (DisableChannelByTag tag).
Proof. intros s HS. apply (tag_status_synced tag ChannelStatusManuallyDisabled s HS). Qed.
End Runs.
