(* ===== verification/ChannelSync.v ===== *)
(** * Histories of the channel tables

    Continues [AbilitySync] with the operations that rewrite rows, and shows
    over all histories that the memory cache and the database agree on which
    channels serve a group and a model. *)

From stdpp Require Import base gmap list strings sorting.
From Stdlib Require Import ZArith Lia Ascii.
From S2P Require Import Prelude GoInt GoString GoMonad ChannelTable ChannelCache AbilitySync.
Open Scope Z_scope.

Section Sync.
Context {CF : ChannelConfig} {LO : Lo} {JS : RawJSON} {SS : SliceSort}.

(** ** Rewriting rows *)

Lemma in_sync_off_nil chs abs : in_sync_off [] chs abs <-> in_sync chs abs.
Proof. split; intros H a; [apply H; set_solver | intros _; apply H]. Qed.

(** Changing channels leaves the rows of the others in agreement. *)
Lemma sync_off_on_rows p f chs abs ids :
  in_sync chs abs -> (forall c, c ∈ chs -> p c = true -> c_Id (f c) = c_Id c /\ c_Id c ∈ ids) ->
  in_sync_off ids (on_rows p f chs) abs.
Proof.
  intros Hs Hp a Ha. rewrite (Hs a). split.
  - intros (c & m & g & Hc & Hl & ->). exists c, m, g. split; [|done]. apply list_elem_of_fmap. exists c.
    split; [|done]. destruct (p c) eqn:E; [|done]. destruct (Hp c Hc E). done.
  - intros (d & m & g & (c & -> & Hc)%list_elem_of_fmap & Hl & ->). destruct (p c) eqn:E.
    + destruct (Hp c Hc E) as [E1 E2]. cbn in Ha. by rewrite E1 in Ha.
    + by exists c, m, g.
Qed.

Lemma run_rebuild_all todo : forall s,
  answering s -> ids_ok (st_channels s) -> (forall c, c ∈ todo -> c ∈ st_channels s) ->
  in_sync_off (map c_Id todo) (st_channels s) (st_abilities s) ->
  exists abs, for_each (fun c => attempting (UpdateAbilities c) ;; mret tt) todo s = (Ok tt, with_abilities abs s) /\
    in_sync (st_channels s) abs.
Proof.
  induction todo as [|c todo IH]; intros s HL Hids Hin Hs; cbn [for_each].
  { exists (st_abilities s). split; [by destruct s | by apply in_sync_off_nil]. }
  set (abs := foldl insert_ability (drop_channel [c_Id c] (st_abilities s)) (channel_abilities c)).
  assert (E : (attempting (UpdateAbilities c) ;; (mret tt : CM unit)) s = (Ok tt, with_abilities abs s)).
  { by rewrite (run_bind _ _ _ _ _ (run_attempting _ _ _ _ (run_UpdateAbilities c s HL))). }
  run E. destruct (IH (with_abilities abs s)) as (abs' & E' & H'); [done | done | set_solver | |].
  { apply sync_rebuild; [done | set_solver | done]. }
  exists abs'. by rewrite E'.
Qed.

Lemma to_uint_wrap w : 0 <= w < 2 ^ 64 -> to_uint (wrap64 w) = w.
Proof.
  intros H. unfold to_uint, wrap64. rewrite Zminus_mod_idemp_l. replace (w + 2 ^ 63 - 2 ^ 63) with w by lia.
  by apply Z.mod_small.
Qed.

(** A weight the table of abilities can take over: [Updates] skips 0. *)
Definition weight_given (weight : option Z) : bool :=
  match weight with Some w => (0 <? w) && (w <? 2 ^ 64) | None => true end.

Lemma patch_row tag newTag priority weight c m g :
  weight_given weight = true -> c_Tag c = Some tag ->
  let retagged := match newTag with Some t => negb (String.eqb t tag) | None => false end in
  let patch := mkChannel 0 0 "" 0 weight "" "" priority (if retagged then newTag else None) no_info [] in
  row_of (patch_channel patch c) m g = patch_ability newTag priority weight (row_of c m g).
Proof.
  intros Hw Ht. unfold row_of, patch_ability, patch_channel, is_enabled, GetPriority, GetWeight, or_ptr. cbn.
  f_equal.
  - by destruct priority.
  - destruct weight as [w|]; [|done]. cbn in Hw. rewrite to_uint_wrap by lia. destruct (Z.eqb_spec w 0); [lia | done].
  - rewrite Ht. destruct newTag as [t|]; [|done]. by destruct (String.eqb_spec t tag) as [->|].
Qed.

Lemma or_str_same s : or_str s s = s.
Proof. unfold or_str. by destruct (String.eqb s ""). Qed.

Definition plain_opt (g : option string) : bool := match g with Some s => plain s | None => true end.

Lemma EditByTag_synced tag newTag models group priority weight :
  plain_opt group = true -> (given models = None -> given group = None -> weight_given weight = true) ->
  keeps_sync (EditChannelByTag tag newTag models group priority weight).
Proof.
  intros Hg Hw s HS. pose proof HS as (HL & Hn & Hids & Hsync). unfold EditChannelByTag.
  set (retagged := match newTag with Some t => negb (String.eqb t tag) | None => false end).
  set (updatedTag := if retagged then default tag newTag else tag).
  set (patch := mkChannel 0 0 "" 0 weight (default "" (given models)) (default "" (given group)) priority
                 (if retagged then newTag else None) no_info []).
  run (run_update_channels (on_rows (channel_tagged tag) (patch_channel patch)) s HL).
  set (s1 := with_channels _ s). set (chs1 := on_rows (channel_tagged tag) (patch_channel patch) (st_channels s)).
  assert (Hpl : forall c, c ∈ st_channels s -> plain (c_Group (patch_channel patch c)) = true).
  { intros c Hc. destruct Hids as (_ & _ & Hp). cbn. unfold or_str. destruct (String.eqb _ "") eqn:E; [by apply Hp|].
    destruct group as [g|]; cbn in *; [|done]. by destruct (String.eqb g ""). }
  assert (Hids1 : ids_ok chs1) by (apply ids_ok_on_rows; auto).
  destruct (match given models, given group with None, None => false | _, _ => true end) eqn:Er.
  - run (run_attempting _ _ _ _ (run_query (fun s => List.filter (channel_tagged updatedTag) (st_channels s)) s1 HL)).
    destruct (run_rebuild_all (List.filter (channel_tagged updatedTag) chs1) s1) as (abs & E & Ha); [done | done | | |].
    + intros c Hc%elem_of_bfilter. apply Hc.
    + apply sync_off_on_rows; [done|]. intros c Hc Ht. split; [done|].
      apply list_elem_of_fmap. exists (patch_channel patch c). split; [done|]. apply elem_of_bfilter. split.
      * apply list_elem_of_fmap. exists c. by rewrite Ht.
      * apply has_tag_spec. apply has_tag_spec in Ht. cbn. unfold updatedTag, retagged.
        destruct newTag as [t|]; [|done]. by destruct (String.eqb_spec t tag); cbn.
    + cbn beta iota. change (st_channels s1) with chs1. rewrite E. cbn. by split_and!.
  - assert (given models = None /\ given group = None) as [E1 E2] by (by destruct (given models), (given group)).
    unfold UpdateAbilityByTag. erewrite run_after; [| by apply run_update_abilities | done].
    apply (synced_tables s); [done | done |]. subst patch. rewrite E1, E2. cbn [default].
    apply sync_on_rows; [done | done |]. intros c m g Hc Ht. apply has_tag_spec in Ht. split; [|done].
    by apply patch_row; [apply Hw|].
Qed.

Lemma Update_synced p :
  plain (c_Group p) = true -> forall s, tables_synced s -> c_Id p ∈ map c_Id (st_channels s) -> tables_synced (snd (Update p s)).
Proof.
  intros Hg s HS Hin. pose proof HS as (HL & Hn & Hids & Hsync). unfold Update.
  assert (E : exists p', c_Id p' = c_Id p /\ c_Group p' = c_Group p /\
    (if ci_IsMultiKey (c_ChannelInfo p) then
       keyStr ← (if String.eqb (c_Key p) "" then
                   r ← attempting (GetChannelById (c_Id p));
                   mret (match r with Ok existing => c_Key existing | Err _ => "" end)
                 else mret (c_Key p));
       mret (resize_keys keyStr p)
     else mret p : CM Channel) s = (Ok p', s)).
  { destruct (ci_IsMultiKey (c_ChannelInfo p)); [|by exists p].
    destruct (String.eqb (c_Key p) ""); [|by exists (resize_keys (c_Key p) p)].
    unfold mbind, GM_bind, attempting. rewrite run_GetChannelById by done.
    eexists (resize_keys _ p). split_and!; [done | done | reflexivity]. }
  destruct E as (p' & Ei & Eg & E). run E.
  set (chs1 := on_rows (fun r => c_Id r =? c_Id p') (patch_channel p') (st_channels s)).
  run (run_update_channels (on_rows (fun r => c_Id r =? c_Id p') (patch_channel p')) s HL).
  assert (Hids1 : ids_ok chs1).
  { apply ids_ok_on_rows; [done | done |]. intros c Hc _. cbn. unfold or_str. destruct Hids as (_ & _ & Hp).
    destruct (String.eqb (c_Group p') ""); [by apply Hp | congruence]. }
  apply list_elem_of_fmap in Hin as (c & Ec & Hc). rewrite <- Ei in Ec.
  assert (Hc1 : patch_channel p' c ∈ chs1).
  { apply list_elem_of_fmap. exists c. by rewrite Ec, Z.eqb_refl. }
  assert (EG : GetChannelById (c_Id p') (with_channels chs1 s) = (Ok (patch_channel p' c), with_channels chs1 s)).
  { rewrite run_GetChannelById by done. change (st_channels (with_channels chs1 s)) with chs1.
    pose proof (find_channel_of _ _ Hids1 Hc1) as F. change (c_Id (patch_channel p' c)) with (c_Id c) in F.
    rewrite Ec. by rewrite F. }
  run (run_attempting _ _ _ _ EG). rewrite run_UpdateAbilities by done. cbn [snd].
  split_and!; [done | done | done |]. apply in_sync_off_nil, sync_rebuild; [done | done |].
  apply sync_off_on_rows; [done|]. intros d Hd Hp%Z.eqb_eq. split; [done|]. apply elem_of_cons. left. cbn. congruence.
Qed.

(** ** Status changes *)

Lemma seqZ_index i n : i ∈ seqZ 0 n <-> 0 <= i < n.
Proof. rewrite elem_of_seqZ. lia. Qed.

Lemma key_index_range k keys : forall i j, key_index k i keys = Some j -> i <= j < i + Z.of_nat (length keys).
Proof.
  induction keys as [|x keys IH]; intros i j H; cbn in *; [done|].
  destruct (String.eqb x k); [injection H as <-; lia|]. apply IH in H. lia.
Qed.

(** A key update changes the status of the channel only towards the requested one. *)
Lemma handler_status c usingKey status :
  let c' := handlerMultiKeyUpdate c usingKey status in
  c_Status c' <> c_Status c -> is_enabled c' = (status =? ChannelStatusEnabled).
Proof.
  cbn. unfold handlerMultiKeyUpdate, is_enabled. intros H.
  assert (HE : forall z, bool_decide (z = ChannelStatusEnabled) = (z =? ChannelStatusEnabled)).
  { intros z. destruct (Z.eqb_spec z ChannelStatusEnabled); [by apply bool_decide_eq_true | by apply bool_decide_eq_false]. }
  destruct (GetKeys c) as [|k0 keys0] eqn:Ek; [by rewrite HE|]. rewrite <- Ek in *.
  destruct (key_index usingKey 0 (GetKeys c)) as [i|] eqn:Ei; [|by destruct (String.eqb usingKey ""); [rewrite HE|]].
  destruct (Z.eqb_spec status ChannelStatusEnabled) as [->|Hs].
  - assert (Hen : hasEnabledMultiKey (GetKeys c) (delete i (ci_MultiKeyStatusList (c_ChannelInfo c))) = true).
    { unfold hasEnabledMultiKey. apply existsb_exists. exists i. split.
      - apply list_elem_of_In, seqZ_index. apply key_index_range in Ei. lia.
      - unfold key_enabled, key_status. by rewrite lookup_delete_eq. }
    rewrite Hen. cbn. by apply bool_decide_eq_true.
  - destruct (negb _); cbn in *; [by apply bool_decide_eq_false | done].
Qed.

Lemma handler_row c usingKey status : let c' := handlerMultiKeyUpdate c usingKey status in
  c_Id c' = c_Id c /\ c_Group c' = c_Group c /\ c_Models c' = c_Models c /\
  c_Weight c' = c_Weight c /\ c_Priority c' = c_Priority c /\ c_Tag c' = c_Tag c.
Proof. cbn. unfold handlerMultiKeyUpdate. repeat case_match; done. Qed.

Lemma on_rows_id {A} (p : A -> bool) l : on_rows p (fun a => a) l = l.
Proof. unfold on_rows. induction l as [|a l IH]; [done|]. cbn. rewrite IH. by destruct (p a). Qed.

(** The row a status change of channel [c] leads to. *)
Lemma store_status_synced id usingKey status : keeps_sync (store_status id usingKey status).
Proof.
  intros s HS. pose proof HS as (HL & Hn & Hids & Hsync). unfold store_status.
  run (run_attempting _ _ _ _ (run_GetChannelById id s HL)).
  destruct (find_channel id (st_channels s)) as [c|] eqn:Ef; [|done].
  apply find_channel_some in Ef as [Hc <-]. destruct (Z.eqb_spec (c_Status c) status) as [|Hne]; [done|].
  set (cs := if ci_IsMultiKey (c_ChannelInfo c) then _ else _).
  assert (Hcs : c_Id (fst cs) = c_Id c /\ c_Group (fst cs) = c_Group c /\ c_Models (fst cs) = c_Models c /\
    c_Weight (fst cs) = c_Weight c /\ c_Priority (fst cs) = c_Priority c /\ c_Tag (fst cs) = c_Tag c /\
    is_enabled (fst cs) = if snd cs then status =? ChannelStatusEnabled else is_enabled c).
  { subst cs. destruct (ci_IsMultiKey (c_ChannelInfo c)); cbn [fst snd].
    - pose proof (handler_row c usingKey status) as (H1 & H2 & H3 & H4 & H5 & H6). split_and!; try done.
      destruct (Z.eqb_spec (c_Status c) (c_Status (handlerMultiKeyUpdate c usingKey status))) as [E|E]; cbn [negb].
      + unfold is_enabled. by rewrite <- E.
      + by apply handler_status.
    - split_and!; try done. unfold is_enabled. cbn.
      by destruct (Z.eqb_spec status ChannelStatusEnabled); [apply bool_decide_eq_true | apply bool_decide_eq_false]. }
  destruct cs as [c' should]. cbn [fst snd] in Hcs. destruct Hcs as (E1 & E2 & E3 & E4 & E5 & E6 & E7).
  set (save := fun r : Channel => mkChannel (c_Id r) (c_Type c') (c_Key r) (c_Status c') (c_Weight c') (c_Models c')
                 (c_Group c') (c_Priority c') (c_Tag c') (c_ChannelInfo c') []).
  assert (ES : SaveWithoutKey c' s = (Ok tt, with_channels (on_rows (fun r => c_Id r =? c_Id c') save (st_channels s)) s)).
  { unfold SaveWithoutKey. destruct (Z.eqb_spec (c_Id c') 0) as [E|E]; [|by apply run_update_channels].
    exfalso. destruct Hids as (_ & H0 & _). apply (H0 c Hc). congruence. }
  run (run_attempting _ _ _ _ ES). rewrite E1 in *.
  set (chs1 := on_rows (fun r => c_Id r =? c_Id c) save (st_channels s)).
  set (en := status =? ChannelStatusEnabled).
  assert (ED : deferred_abilities should (c_Id c) status (with_channels chs1 s)
    = (Ok tt, with_abilities (if should then on_rows (fun a => a_ChannelId a =? c_Id c) (set_enabled en) (st_abilities s)
                              else st_abilities s) (with_channels chs1 s))).
  { unfold deferred_abilities. destruct should; [|by destruct s].
    unfold UpdateAbilityStatus. erewrite run_bind; [reflexivity|]. apply run_attempting.
    eapply run_after; [by rewrite run_update_abilities | done]. }
  run ED. cbn [mret GM_ret snd]. apply synced_tables; [done | |].
  - apply ids_ok_on_rows; [done | done |]. intros d Hd _. cbn. rewrite E2. destruct Hids as (_ & _ & Hp). by apply Hp.
  - assert (Hrow : forall d m g, d ∈ st_channels s -> (c_Id d =? c_Id c) = true ->
      row_of (save d) m g = mkAbility g m (c_Id d) (if should then en else is_enabled d) (Some (GetPriority d)) (to_uint (GetWeight d)) (c_Tag d)
      /\ (listed (save d) g m <-> listed d g m)).
    { intros d m g Hd Ed%Z.eqb_eq. assert (d = c) as -> by (by apply (same_channel (st_channels s))).
      split; [|unfold listed; cbn; by rewrite E2, E3].
      unfold row_of, GetPriority, GetWeight. change (is_enabled (save c)) with (is_enabled c'). rewrite E7. cbn.
      by rewrite E4, E5, E6. }
    destruct should.
    + apply sync_on_rows; [done | done |]. intros d m g Hd Ed. by apply Hrow.
    + rewrite <- (on_rows_id (fun a => a_ChannelId a =? c_Id c) (st_abilities s)).
      apply sync_on_rows; [done | done |]. intros d m g Hd Ed. by apply Hrow.
Qed.

(** Operations on the cache leave the tables alone. *)
Definition keeps_tables {A} (m : CM A) : Prop := forall s, let s' := snd (m s) in
  st_channels s' = st_channels s /\ st_abilities s' = st_abilities s /\ st_nextId s' = st_nextId s /\
  (st_replies s = [] -> st_replies s' = []).

Lemma keeps_tables_synced {A} (m : CM A) : keeps_tables m -> keeps_sync m.
Proof. intros H s (H1 & H2 & H3 & H4). destruct (H s) as (E1 & E2 & E3 & E4). unfold tables_synced. rewrite E1, E2, E3. auto. Qed.

Lemma keeps_tables_bind {A B} (m : CM A) (f : A -> CM B) :
  keeps_tables m -> (forall a, keeps_tables (f a)) -> keeps_tables (m ≫= f).
Proof.
  intros Hm Hf s. specialize (Hm s). unfold mbind, GM_bind. destruct (m s) as [[a|e] s1]; [|done]. cbn in *.
  destruct (Hf a s1) as (E1 & E2 & E3 & E4). destruct Hm as (F1 & F2 & F3 & F4). split_and!; [congruence.. | auto].
Qed.

Lemma keeps_tables_reply : keeps_tables db_reply.
Proof. intros s. unfold db_reply. destruct (st_replies s) as [|[] r] eqn:E; cbn; done. Qed.
Lemma keeps_tables_cache f g : keeps_tables (modify (fun s => with_cache (f s) (g s) s)).
Proof. by intros s. Qed.
Lemma keeps_tables_pure {A} (m : CM A) : (forall s, snd (m s) = s) -> keeps_tables m.
Proof. intros H s. rewrite H. done. Qed.
Lemma keeps_tables_attempting {A} (m : CM A) : keeps_tables m -> keeps_tables (attempting m).
Proof. intros H s. specialize (H s). unfold attempting. by destruct (m s). Qed.
Lemma keeps_tables_find {A} (f : Store -> list A) : keeps_tables (find_all f).
Proof.
  apply keeps_tables_bind; [|intros; by apply keeps_tables_pure].
  apply keeps_tables_attempting, keeps_tables_bind; [apply keeps_tables_reply | intros; by apply keeps_tables_pure].
Qed.

Lemma keeps_tables_Init : keeps_tables InitChannelCache.
Proof.
  unfold InitChannelCache. destruct MemoryCacheEnabled; [|by apply keeps_tables_pure].
  apply keeps_tables_bind; [apply keeps_tables_find|]. intros chs.
  apply keeps_tables_bind; [apply keeps_tables_find|]. intros abs.
  destruct (build_cache chs abs); [apply keeps_tables_cache | by apply keeps_tables_pure].
Qed.

Lemma keeps_tables_status id status : keeps_tables (CacheUpdateChannelStatus id status).
Proof. unfold CacheUpdateChannelStatus. destruct MemoryCacheEnabled; [apply keeps_tables_cache | by apply keeps_tables_pure]. Qed.

Lemma keeps_tables_cache_status id usingKey status : keeps_tables (cache_status id usingKey status).
Proof.
  unfold cache_status. apply keeps_tables_bind; [by apply keeps_tables_pure|]. intros [c|]; [|by apply keeps_tables_pure].
  destruct (ci_IsMultiKey (c_ChannelInfo c)).
  - apply keeps_tables_bind; [apply keeps_tables_cache|]. intros _. apply keeps_tables_bind; [|intros; by apply keeps_tables_pure].
    destruct (_ =? _); [by apply keeps_tables_pure | apply keeps_tables_status].
  - destruct (_ =? _); [by apply keeps_tables_pure|].
    apply keeps_tables_bind; [apply keeps_tables_status | intros; by apply keeps_tables_pure].
Qed.

Lemma UpdateStatus_synced id usingKey status : keeps_sync (UpdateChannelStatus id usingKey status).
Proof.
  intros s HS. unfold UpdateChannelStatus. unfold mbind, GM_bind.
  set (m := if MemoryCacheEnabled then cache_status id usingKey status else mret false).
  assert (Hm : keeps_tables m).
  { subst m. destruct MemoryCacheEnabled; [apply keeps_tables_cache_status | by apply keeps_tables_pure]. }
  pose proof (keeps_tables_synced m Hm s HS) as H. destruct (m s) as [[b|e] s1]; [|done]. cbn in H.
  destruct b; [done | by apply store_status_synced].
Qed.

(** ** Repair *)

Lemma run_fix_channels l : forall s chs,
  answering s -> in_sync chs (st_abilities s) -> ids_ok (chs ++ l) ->
  exists n abs, fix_channels l s = (Ok n, with_abilities abs s) /\ in_sync (chs ++ l) abs.
Proof.
  induction l as [|c l IH]; intros s chs HL Hs Hids; cbn [fix_channels].
  { exists (0, 0), (st_abilities s). rewrite app_nil_r. by destruct s. }
  run (run_attempting _ _ _ _ (run_AddAbilities false c s HL)).
  set (abs := foldl insert_ability (st_abilities s) (channel_abilities c)).
  destruct (IH (with_abilities abs s) (chs ++ [c])) as (n & abs' & E & H); [done | | by rewrite <- app_assoc |].
  - destruct Hids as (HN & _ & Hp). apply sync_add; [done | apply Hp; set_solver | | done | done].
    rewrite map_app in HN. cbn in HN. apply NoDup_app in HN as (_ & HN & _). intros H. apply (HN _ H). set_solver.
  - rewrite <- app_assoc in H. eexists _, abs'. split; [|exact H]. by run E.
Qed.

Lemma run_fix_chunks chunks : forall s chs,
  answering s -> in_sync chs (st_abilities s) -> ids_ok (chs ++ concat chunks) ->
  exists n abs, fix_chunks chunks s = (Ok n, with_abilities abs s) /\ in_sync (chs ++ concat chunks) abs.
Proof.
  induction chunks as [|l chunks IH]; intros s chs HL Hs Hids; cbn [fix_chunks concat].
  { exists (0, 0), (st_abilities s). rewrite app_nil_r. by destruct s. }
  cbn [concat] in Hids. rewrite app_assoc in Hids |- *.
  run (run_attempting _ _ _ _ (run_update_abilities (drop_channel (map c_Id l)) s HL)).
  set (abs := drop_channel (map c_Id l) (st_abilities s)). cbn [is_ok].
  assert (Hids1 : ids_ok (chs ++ l)).
  { destruct Hids as (HN & H0 & Hp). split_and!; [| set_solver..].
    rewrite map_app in HN. by apply NoDup_app in HN as (HN & _). }
  assert (Ha : in_sync chs abs).
  { intros a. unfold abs. rewrite elem_of_drop, (Hs a). split; [by intros [H _]|]. intros H. split; [done|].
    destruct H as (c & m & g & Hc & _ & ->). cbn. destruct Hids1 as (HN & _). rewrite map_app in HN.
    apply NoDup_app in HN as (_ & HN & _). apply HN, list_elem_of_fmap. by exists c. }
  destruct (run_fix_channels l (with_abilities abs s) chs) as (n & abs1 & E1 & H1); [done | done | done |].
  run E1. destruct (IH (with_abilities abs1 s) (chs ++ l)) as (n2 & abs2 & E2 & H2); [done | done | done |].
  eexists _, abs2. split; [|exact H2]. by run E2.
Qed.

(** Whatever the table of abilities holds, a repair makes it agree again. *)
Lemma FixAbility_repairs s : answering s -> 0 < st_nextId s -> ids_ok (st_channels s) -> tables_synced (snd (FixAbility true s)).
Proof.
  intros HL Hn Hids. unfold FixAbility. cbn [negb].
  run (run_update_abilities (fun _ => []) s HL). set (s1 := with_abilities [] s).
  run (run_query st_channels s1 HL). change (st_channels s1) with (st_channels s).
  assert (H0 : in_sync [] (st_abilities s1)) by (intros a; split; [set_solver | intros (c & _ & _ & H & _); set_solver]).
  destruct (Nat.eqb_spec (length (st_channels s)) 0) as [E|E].
  { apply nil_length_inv in E. cbn. split_and!; [done | done | done |]. cbn. by rewrite E. }
  destruct (run_fix_chunks (Chunk (st_channels s) 50) s1 []) as (n & abs & E1 & H1);
    [done | done | by rewrite Chunk_concat |].
  rewrite Chunk_concat in H1 by done. run E1.
  apply keeps_tables_synced; [|by split_and!].
  apply keeps_tables_bind; [apply keeps_tables_Init|]. intros _.
  apply keeps_tables_bind; [apply keeps_tables_reply|]. intros _. by apply keeps_tables_pure.
Qed.

(** ** Filling the cache *)

(** What the loops append to the list of [g] and [m] for one group of a channel. *)
Definition group_hits (id : Z) (models : list string) (g m group : string) : list Z :=
  if String.eqb group g then map (fun _ => id) (List.filter (String.eqb m) models) else [].
Definition served (c : Channel) (g m : string) : list Z :=
  if is_enabled c then concat (map (group_hits (c_Id c) (Split (c_Models c) comma) g m) (Split (c_Group c) comma)) else [].

Definition extends (g2m g2m' : Index) (f : string -> string -> list Z) : Prop :=
  (forall g m, entry g2m' g m = entry g2m g m ++ f g m) /\ (forall g, is_Some (g2m' !! g) <-> is_Some (g2m !! g)).

Lemma index_models id group models : forall g2m : Index, is_Some (g2m !! group) ->
  exists g2m', foldl (add_entry id group) (Some g2m) models = Some g2m' /\
    extends g2m g2m' (fun g m => group_hits id models g m group).
Proof.
  induction models as [|x models IH]; intros g2m [mm Hg]; cbn [foldl].
  { exists g2m. split; [done|]. split; [|done]. intros g m. unfold group_hits. by destruct (String.eqb group g); rewrite app_nil_r. }
  set (g2m1 := <[group := <[x := default [] (mm !! x) ++ [id]]> mm]> g2m : Index).
  assert (E : add_entry id group (Some g2m) x = Some g2m1) by (unfold add_entry; cbn; by rewrite Hg).
  rewrite E. destruct (IH g2m1) as (g2m' & E' & H1 & H2); [by eexists; apply lookup_insert_eq|].
  exists g2m'. split; [done|]. split.
  - intros g m. rewrite H1. unfold group_hits, entry, g2m1. destruct (String.eqb_spec group g) as [->|Hne].
    + rewrite lookup_insert_eq, Hg. cbn. destruct (String.eqb_spec m x) as [->|Hm].
      * rewrite lookup_insert_eq. cbn. by rewrite <- app_assoc.
      * by rewrite lookup_insert_ne by done.
    + by rewrite lookup_insert_ne by done.
  - intros g. rewrite H2. unfold g2m1. destruct (decide (group = g)) as [->|Hne].
    + rewrite lookup_insert_eq, Hg. split; intros _; by eexists.
    + by rewrite lookup_insert_ne by done.
Qed.

Lemma index_groups id models groups : forall g2m : Index, (forall g, g ∈ groups -> is_Some (g2m !! g)) ->
  exists g2m', foldl (fun g2m group => foldl (add_entry id group) g2m models) (Some g2m) groups = Some g2m' /\
    extends g2m g2m' (fun g m => concat (map (group_hits id models g m) groups)).
Proof.
  induction groups as [|x groups IH]; intros g2m Hg; cbn [foldl map concat].
  { exists g2m. split; [done|]. split; [|done]. intros g m. by rewrite app_nil_r. }
  destruct (index_models id x models g2m) as (g1 & E1 & H1 & H2); [apply Hg; set_solver|]. rewrite E1.
  destruct (IH g1) as (g2 & E2 & H3 & H4); [intros g Hin; apply H2, Hg; set_solver|].
  exists g2. split; [done|]. split; [|intros g; by rewrite H4].
  intros g m. by rewrite H3, H1, <- app_assoc.
Qed.

Lemma index_all chs : forall g2m : Index,
  (forall c g, c ∈ chs -> is_enabled c = true -> g ∈ Split (c_Group c) comma -> is_Some (g2m !! g)) ->
  exists g2m', foldl index_channel (Some g2m) chs = Some g2m' /\
    extends g2m g2m' (fun g m => concat (map (fun c => served c g m) chs)).
Proof.
  induction chs as [|c chs IH]; intros g2m Hg; cbn [foldl map concat].
  { exists g2m. split; [done|]. split; [|done]. intros g m. by rewrite app_nil_r. }
  assert (E : exists g1, index_channel (Some g2m) c = Some g1 /\ extends g2m g1 (served c)).
  { unfold index_channel, served, extends. destruct (is_enabled c) eqn:Ec.
    - apply index_groups. intros g Hin. apply (Hg c); set_solver.
    - exists g2m. split; [done|]. split; [|done]. intros g m. by rewrite app_nil_r. }
  destruct E as (g1 & E1 & H1 & H2). rewrite E1.
  destruct (IH g1) as (g2 & E2 & H3 & H4); [intros d g Hd He Hin; apply H2, (Hg d); set_solver|].
  exists g2. split; [done|]. split; [|intros g; by rewrite H4]. intros g m. by rewrite H3, H1, <- app_assoc.
Qed.

Lemma empty_groups_lookup abs g :
  empty_groups abs !! g = if existsb (fun a => String.eqb (a_Group a) g) abs then Some ∅ else None.
Proof.
  unfold empty_groups. assert (H : forall (m0 : Index), (forall x, m0 !! g = Some x -> x = ∅) ->
    foldl (fun m a => <[a_Group a := ∅]> m) m0 abs !! g =
      if existsb (fun a => String.eqb (a_Group a) g) abs then Some ∅ else m0 !! g).
  { induction abs as [|a abs IH]; intros m0 H0; cbn [foldl existsb]; [done|]. rewrite IH.
    - destruct (String.eqb_spec (a_Group a) g) as [->|Hne]; cbn [orb].
      + rewrite lookup_insert_eq. by destruct (existsb _ _).
      + by rewrite lookup_insert_ne by done.
    - intros x. destruct (decide (a_Group a = g)) as [->|Hne];
        [rewrite lookup_insert_eq; congruence | rewrite lookup_insert_ne by done; apply H0]. }
  rewrite H; [done|]. intros x Hx. by rewrite lookup_empty in Hx.
Qed.

Lemma entry_map_lists f (g2m : Index) g m : f [] = [] -> entry (map_lists f g2m) g m = f (entry g2m g m).
Proof.
  intros Hf. unfold entry, map_lists. rewrite lookup_fmap. destruct (g2m !! g) as [mm|]; cbn; [|by rewrite Hf].
  rewrite lookup_fmap. by destruct (mm !! m); cbn.
Qed.

Lemma sort_desc_nil key : sort_desc key [] = [].
Proof. by apply Permutation_nil_r, sort_desc_perm. Qed.

(** The cache built from the tables, when every group of an enabled channel has an ability. *)
Lemma build_cache_spec chs abs :
  (forall c g, c ∈ chs -> is_enabled c = true -> g ∈ Split (c_Group c) comma -> exists a, a ∈ abs /\ a_Group a = g) ->
  exists g2m, build_cache chs abs = Some g2m /\
    forall g m, entry g2m g m = sort_desc (priority_in (by_id chs)) (concat (map (fun c => served c g m) chs)).
Proof.
  intros H. destruct (index_all chs (empty_groups abs)) as (g2m & E & H1 & _).
  { intros c g Hc He Hg. destruct (H c g Hc He Hg) as (a & Ha & <-). rewrite empty_groups_lookup.
    replace (existsb _ abs) with true; [by eexists|]. symmetry. apply existsb_exists. exists a.
    split; [by apply list_elem_of_In | apply String.eqb_refl]. }
  exists (map_lists (sort_desc (priority_in (by_id chs))) g2m). split; [unfold build_cache; by rewrite E|].
  intros g m. rewrite entry_map_lists by apply sort_desc_nil. rewrite H1. f_equal.
  unfold entry. rewrite empty_groups_lookup. by destruct (existsb _ abs).
Qed.

Lemma elem_of_served c g m i : i ∈ served c g m <-> is_enabled c = true /\ listed c g m /\ i = c_Id c.
Proof.
  unfold served, listed. destruct (is_enabled c); [|set_solver].
  rewrite list_elem_of_In, in_concat. split.
  - intros (l & (grp & <- & Hg)%in_map_iff & Hi). unfold group_hits in Hi. destruct (String.eqb_spec grp g) as [->|]; [|done].
    apply in_map_iff in Hi as (x & <- & (Hx & ->%String.eqb_eq)%filter_In). by rewrite !list_elem_of_In.
  - intros (_ & (Hg & Hm) & ->). exists (group_hits (c_Id c) (Split (c_Models c) comma) g m g). split.
    + apply in_map_iff. exists g. split; [done | by apply list_elem_of_In].
    + unfold group_hits. rewrite String.eqb_refl. apply in_map_iff. exists m. split; [done|].
      apply filter_In. split; [by apply list_elem_of_In | apply String.eqb_refl].
Qed.

Lemma by_id_lookup chs i : ids_ok chs -> by_id chs !! i = find_channel i chs.
Proof.
  intros (HN & _). unfold by_id.
  assert (H : forall m0 : gmap Z Channel, foldl (fun m c => <[c_Id c := c]> m) m0 chs !! i =
    match find_channel i chs with Some c => Some c | None => m0 !! i end).
  { induction chs as [|c chs IH]; intros m0; [done|]. cbn in *. apply NoDup_cons in HN as [Hc HN].
    rewrite IH by done. destruct (Z.eqb_spec (c_Id c) i) as [<-|Hne].
    - destruct (find_channel (c_Id c) chs) as [d|] eqn:E; [|by rewrite lookup_insert_eq].
      apply find_channel_some in E as [Hd E]. exfalso. apply Hc. rewrite <- E. apply list_elem_of_fmap. by exists d.
    - by rewrite lookup_insert_ne by done. }
  rewrite H. by destruct (find_channel i chs).
Qed.

(** A group without any ability makes the loops write to a nil map. *)
Lemma index_models_None id group models : foldl (add_entry id group) None models = None.
Proof. by induction models. Qed.
Lemma index_groups_None id models groups :
  foldl (fun g2m group => foldl (add_entry id group) g2m models) None groups = None.
Proof. induction groups; [done|]. cbn. by rewrite index_models_None. Qed.
Lemma index_all_None chs : foldl index_channel None chs = None.
Proof. induction chs as [|c chs IH]; [done|]. cbn. unfold index_channel at 2. destruct (is_enabled c); [rewrite index_groups_None|]; done. Qed.

Lemma index_groups_missing id models groups g : forall g2m : Index, models <> [] ->
  g ∈ groups -> g2m !! g = None ->
  foldl (fun g2m group => foldl (add_entry id group) g2m models) (Some g2m) groups = None.
Proof.
  intros g2m Hm. revert g2m. induction groups as [|x groups IH]; intros g2m Hg Hn; [set_solver|]. cbn [foldl].
  destruct (g2m !! x) as [mm|] eqn:E.
  - destruct (index_models id x models g2m) as (g1 & E1 & _ & H2); [by eexists|]. rewrite E1.
    apply IH; [|by apply eq_None_not_Some; rewrite H2, Hn; intros [? ?]]. apply elem_of_cons in Hg as [->|Hg]; [congruence | done].
  - assert (H : foldl (add_entry id x) (Some g2m) models = None).
    { destruct models as [|y models]; [done|]. cbn [foldl]. unfold add_entry at 2. cbn. rewrite E. apply index_models_None. }
    rewrite H. apply index_groups_None.
Qed.

Lemma index_all_missing chs c g : forall g2m : Index,
  c ∈ chs -> is_enabled c = true -> g ∈ Split (c_Group c) comma -> g2m !! g = None ->
  foldl index_channel (Some g2m) chs = None.
Proof.
  induction chs as [|d chs IH]; intros g2m Hc He Hg Hn; [set_solver|]. cbn [foldl].
  destruct (index_channel (Some g2m) d) as [g1|] eqn:E; [|apply index_all_None].
  unfold index_channel in E. apply elem_of_cons in Hc as [->|Hc].
  - rewrite He, (index_groups_missing _ _ _ g) in E; [done | apply Split_nonempty | done | done].
  - apply IH; try done. destruct (is_enabled d); [|by injection E as <-].
    destruct (decide (Forall (fun x => is_Some (g2m !! x)) (Split (c_Group d) comma))) as [H|H]; rewrite Forall_forall in H.
    + destruct (index_groups (c_Id d) (Split (c_Models d) comma) _ g2m H) as (g2 & E2 & _ & H2).
      rewrite E in E2. injection E2 as <-. apply eq_None_not_Some. rewrite H2, Hn. intros [? ?]; done.
    + exfalso. apply H. intros x Hx. destruct (g2m !! x) eqn:Ex; [by eexists|].
      rewrite (index_groups_missing _ _ _ x) in E; [done | apply Split_nonempty | done | done].
Qed.

(** What a cache that could be built holds, whatever the tables. *)
Lemma build_cache_inv chs abs g2m : build_cache chs abs = Some g2m ->
  forall g m, entry g2m g m = sort_desc (priority_in (by_id chs)) (concat (map (fun c => served c g m) chs)).
Proof.
  intros E. destruct (build_cache_spec chs abs) as (g2m' & E' & H); [|rewrite E in E'; injection E' as ->; exact H].
  intros c g Hc He Hg. unfold build_cache in E.
  destruct (existsb (fun a => String.eqb (a_Group a) g) abs) eqn:Ex.
  - apply existsb_exists in Ex as (a & Ha & Hg'%String.eqb_eq). exists a. split; [by apply list_elem_of_In | done].
  - rewrite (index_all_missing _ c g) in E; [done | done | done | done |]. by rewrite empty_groups_lookup, Ex.
Qed.
End Sync.
