(* ===== verification/ChannelHistory.v ===== *)
(** * What histories of the channel tables guarantee

    After any history of inserts, updates, deletions, status changes, edits by
    tag and repairs on a database that answers, the memory cache can be filled
    and sees exactly the candidates the database would offer.  The cache
    itself, whatever happens to the tables and whichever reads fail, never
    offers a channel it has been told is disabled.  The last section records
    where the code falls short of that. *)

From stdpp Require Import base gmap list strings sorting.
From Stdlib Require Import ZArith Lia Ascii.
From S2P Require Import Prelude GoInt GoString GoMonad ChannelTable ChannelCache AbilitySync ChannelSync.
Open Scope Z_scope.

Section History.
Context {CF : ChannelConfig} {LO : Lo} {JS : RawJSON} {SS : SliceSort}.

(** ** Histories *)

Inductive table_op :=
  | OpInsert (c : Channel)
  | OpUpdate (c : Channel)
  | OpDelete (c : Channel)
  | OpBatchInsert (cs : list Channel)
  | OpBatchDelete (ids : list Z)
  | OpEnableTag (tag : string)
  | OpDisableTag (tag : string)
  | OpEditTag (tag : string) (newTag models group : option string) (priority weight : option Z)
  | OpStatus (id : Z) (usingKey : string) (status : Z)
  | OpFix
  | OpInit
  (** The database returns rows in another order from now on. *)
  | OpReorder (chs : list Channel) (abs : list Ability).

Definition run_op (op : table_op) (s : Store) : Store :=
  match op with
  | OpInsert c => snd (Insert c s)
  | OpUpdate c => snd (Update c s)
  | OpDelete c => snd (Delete c s)
  | OpBatchInsert cs => snd (BatchInsertChannels cs s)
  | OpBatchDelete ids => snd (BatchDeleteChannels ids s)
  | OpEnableTag tag => snd (EnableChannelByTag tag s)
  | OpDisableTag tag => snd (DisableChannelByTag tag s)
  | OpEditTag tag newTag models group priority weight => snd (EditChannelByTag tag newTag models group priority weight s)
  | OpStatus id usingKey status => snd (UpdateChannelStatus id usingKey status s)
  | OpFix => snd (FixAbility true s)
  | OpInit => snd (InitChannelCache s)
  | OpReorder chs abs => with_abilities abs (with_channels chs s)
  end.

(** Group names without a bar, updates of channels that exist, and no edit of
    the weight of a tag to 0 unless the abilities are recreated. *)
Definition admissible (op : table_op) (s : Store) : Prop :=
  match op with
  | OpInsert c => plain (c_Group c) = true
  | OpUpdate c => plain (c_Group c) = true /\ c_Id c ∈ map c_Id (st_channels s)
  | OpBatchInsert cs => forall c, c ∈ cs -> plain (c_Group c) = true
  | OpEditTag _ _ models group _ weight =>
      plain_opt group = true /\ (given models = None -> given group = None -> weight_given weight = true)
  | OpReorder chs abs => chs ≡ₚ st_channels s /\ abs ≡ₚ st_abilities s
  | _ => True
  end.

Definition fresh_store : Store := mkStore [] [] 1 [] ∅ ∅.

Inductive table_history : Store -> Prop :=
  | history_new : table_history fresh_store
  | history_step op s : table_history s -> admissible op s -> table_history (run_op op s).

Lemma reorder_synced s chs abs : tables_synced s -> chs ≡ₚ st_channels s -> abs ≡ₚ st_abilities s ->
  tables_synced (with_abilities abs (with_channels chs s)).
Proof.
  intros HS H1 H2. pose proof HS as (_ & _ & (HN & H0 & Hp) & Hs). apply synced_tables; [done | |].
  - split_and!; [by rewrite H1 | intros c Hc; apply H0; by rewrite <- H1 | intros c Hc; apply Hp; by rewrite <- H1].
  - intros a. rewrite H2, (Hs a). by setoid_rewrite H1.
Qed.

Lemma history_synced s : table_history s -> tables_synced s.
Proof.
  induction 1 as [|op s Hs IH Ha].
  - split_and!; [done | cbn; lia | |].
    + split_and!; [constructor | set_solver | set_solver].
    + intros a. split; [set_solver | intros (c & _ & _ & H & _); set_solver].
  - destruct op; cbn in *.
    + by apply Insert_synced.
    + destruct Ha. by apply Update_synced.
    + by apply Delete_synced.
    + by apply BatchInsert_synced.
    + by apply BatchDelete_synced.
    + by apply EnableByTag_synced.
    + by apply DisableByTag_synced.
    + destruct Ha. by apply EditByTag_synced.
    + by apply UpdateStatus_synced.
    + apply FixAbility_repairs; apply IH.
    + apply keeps_tables_synced; [apply keeps_tables_Init | done].
    + destruct Ha. by apply reorder_synced.
Qed.

(** ** The cache and the database agree *)

Lemma carry_over_same old i c : let c' := carry_over old i c in
  c_Id c' = c_Id c /\ c_Status c' = c_Status c /\ GetPriority c' = GetPriority c /\ GetWeight c' = GetWeight c.
Proof. cbn. unfold carry_over. repeat case_match; done. Qed.

Lemma run_find {A} (f : Store -> list A) s : answering s -> find_all f s = (Ok (f s), s).
Proof. intros H. unfold find_all. by run (run_attempting _ _ _ _ (run_query f s H)). Qed.

Lemma run_Init s : MemoryCacheEnabled = true -> tables_synced s ->
  exists g2m, InitChannelCache s =
    (Ok tt, with_cache g2m (map_imap (fun i c => Some (carry_over (channelsIDM s) i c)) (by_id (st_channels s))) s) /\
  forall g m, entry g2m g m =
    sort_desc (priority_in (by_id (st_channels s))) (concat (map (fun c => served c g m) (st_channels s))).
Proof.
  intros HM (HL & _ & _ & Hs). destruct (build_cache_spec (st_channels s) (st_abilities s)) as (g2m & E & H).
  { intros c g Hc He Hg. destruct (Split (c_Models c) comma) as [|m ms] eqn:Em; [by apply Split_nonempty in Em|].
    exists (row_of c m g). split; [|done]. apply Hs. exists c, m, g. split_and!; [done | | done].
    split; [done|]. rewrite Em. left. }
  exists g2m. split; [|done]. unfold InitChannelCache. rewrite HM.
  run (run_find st_channels s HL). run (run_find st_abilities s HL). by rewrite E.
Qed.

Lemma cached_channel s i : tables_synced s ->
  map_imap (fun i c => Some (carry_over (channelsIDM s) i c)) (by_id (st_channels s)) !! i
  = carry_over (channelsIDM s) i <$> find_channel i (st_channels s).
Proof.
  intros (_ & _ & Hids & _). rewrite map_lookup_imap, by_id_lookup by done. by destruct (find_channel _ _).
Qed.

Lemma elem_of_index s g m i (key : Z -> Z) :
  i ∈ sort_desc key (concat (map (fun c => served c g m) (st_channels s))) <->
  exists c, c ∈ st_channels s /\ is_enabled c = true /\ listed c g m /\ i = c_Id c.
Proof.
  rewrite sort_desc_perm, list_elem_of_In, in_concat. split.
  - intros (l & (c & <- & Hc)%in_map_iff & Hi). apply list_elem_of_In, elem_of_served in Hi.
    exists c. split; [by apply list_elem_of_In | done].
  - intros (c & Hc & H). exists (served c g m). split; [apply in_map_iff; exists c; split; [done | by apply list_elem_of_In]|].
    by apply list_elem_of_In, elem_of_served.
Qed.

Lemma counted_spec s g m i : tables_synced s ->
  ability_counted g m i s = true <-> exists c, c ∈ st_channels s /\ is_enabled c = true /\ listed c g m /\ i = c_Id c.
Proof.
  intros (_ & _ & _ & Hs). unfold ability_counted. rewrite existsb_exists. split.
  - intros (a & (c & m' & g' & Hc & Hl & ->)%list_elem_of_In%Hs & H). unfold serves in H. cbn in H.
    split_bool. apply Z.eqb_eq in H0. subst. by exists c.
  - intros (c & Hc & He & Hl & ->). exists (row_of c m g). split; [apply list_elem_of_In, Hs; by exists c, m, g|].
    unfold serves. cbn. by rewrite !String.eqb_refl, He, Z.eqb_refl.
Qed.

(** C20. With the memory cache on and a database that answers, take any history,
    from empty tables, of inserts and batch inserts, updates of channels that
    exist, deletions by id, status changes, enabling, disabling and editing by
    tag, repairs and fillings of the cache, in which no group is named with a
    bar and no edit by tag sets the weight to 0 without recreating the
    abilities.  Then the cache can be filled without a panic and offers, for
    every group and model, exactly the channels, priorities and weights of the
    enabled abilities, and the test whether a channel serves a group and model
    (names that are not empty, a positive id) gives the same answer from the
    cache as from the database.  What is left out breaks it:
    [orphan_ability_revived] (the deletion of all disabled channels),
    [zero_weight_skips_abilities], [failed_read_breaks_cache]. *)
Theorem cache_agrees_with_abilities s :
  table_history s -> MemoryCacheEnabled = true ->
  exists s', InitChannelCache s = (Ok tt, s') /\
    (forall g m i p w,
       (i ∈ entry (group2model2channels s') g m /\
        exists c, channelsIDM s' !! i = Some c /\ GetPriority c = p /\ to_uint (GetWeight c) = w) <->
       (exists a, a ∈ st_abilities s /\ serves g m a = true /\ a_ChannelId a = i /\ ability_priority a = p /\ a_Weight a = w)) /\
    (forall g m i, g <> "" -> m <> "" -> 0 < i ->
       fst (IsChannelEnabledForGroupModel g m i s') = fst (isChannelEnabledForGroupModelDB g m i s')).
Proof.
  intros HH HM. pose proof (history_synced s HH) as HS. destruct (run_Init s HM HS) as (g2m & E & HE).
  eexists. split; [exact E|]. cbn [group2model2channels channelsIDM with_cache].
  pose proof HS as (HL & _ & Hids & Hsync). split.
  - intros g m i p w. rewrite HE, elem_of_index, cached_channel by done. split.
    + intros [(c & Hc & He & Hl & ->) (d & Hd & <- & <-)]. rewrite (find_channel_of c) in Hd by done. injection Hd as <-.
      destruct (carry_over_same (channelsIDM s) (c_Id c) c) as (_ & _ & -> & ->).
      exists (row_of c m g). split_and!; try done; [apply Hsync; by exists c, m, g|].
      unfold serves. cbn. by rewrite !String.eqb_refl, He.
    + intros (a & (c & m' & g' & Hc & Hl & ->)%Hsync & H & <- & <- & <-). unfold serves in H. cbn in H. split_bool. subst.
      split; [by exists c|]. exists (carry_over (channelsIDM s) (c_Id c) c). cbn. rewrite (find_channel_of c) by done.
      split; [done|]. destruct (carry_over_same (channelsIDM s) (c_Id c) c) as (_ & _ & -> & ->). done.
  - intros g m i Hg Hm Hi. unfold IsChannelEnabledForGroupModel. rewrite HM.
    replace (String.eqb g "") with false by (symmetry; by apply String.eqb_neq).
    replace (String.eqb m "") with false by (symmetry; by apply String.eqb_neq).
    replace (i <=? 0) with false by lia. cbn [orb]. unfold gets. cbn [fst group2model2channels with_cache].
    set (s' := with_cache _ _ _).
    assert (HIn : forall m', isChannelIDInList (entry g2m g m') i = ability_counted g m' i s').
    { intros m'. apply eq_iff_eq_true. unfold isChannelIDInList.
      change (ability_counted g m' i s') with (ability_counted g m' i s). rewrite counted_spec, <- (elem_of_index s g m' i (priority_in (by_id (st_channels s)))) by done.
      rewrite <- HE, existsb_exists. split; [intros (x & Hx & ->%Z.eqb_eq); by apply list_elem_of_In|].
      intros H. exists i. split; [by apply list_elem_of_In | apply Z.eqb_refl]. }
    unfold isChannelEnabledForGroupModelDB.
    run (run_attempting _ _ _ _ (run_query (ability_counted g m i) s' HL)). cbn beta iota. rewrite !HIn.
    destruct (ability_counted g m i s'); [done|].
    destruct (String.eqb (FormatMatchingModelName m) ""), (String.eqb (FormatMatchingModelName m) m); cbn [orb negb andb]; try done.
    by run (run_attempting _ _ _ _ (run_query (ability_counted g (FormatMatchingModelName m) i) s' HL)).
Qed.

(** ** A disabled channel is never offered *)

(** A channel that lists each group and each model once. *)
Definition tidy (c : Channel) : Prop := NoDup (Split (c_Group c) comma) /\ NoDup (Split (c_Models c) comma).
Definition tidy_table (s : Store) : Prop := NoDup (map c_Id (st_channels s)) /\ forall c, c ∈ st_channels s -> tidy c.

(** The cache of one process: it is filled again, statuses change, keys are
    drawn, and other processes change the tables; any database call may fail. *)
Inductive cache_history : Store -> Prop :=
  | cache_new s : group2model2channels s = ∅ -> cache_history s
  | cache_init s : cache_history s -> tidy_table s -> cache_history (snd (InitChannelCache s))
  | cache_update s id usingKey status :
      cache_history s -> cache_history (snd (UpdateChannelStatus id usingKey status s))
  | cache_direct s id status : cache_history s -> cache_history (snd (CacheUpdateChannelStatus id status s))
  | cache_key s rnd id : cache_history s -> cache_history (snd (next_key_cached rnd id s))
  | cache_tables s chs abs next replies : cache_history s ->
      cache_history (mkStore chs abs next replies (group2model2channels s) (channelsIDM s)).

Definition cache_ok (s : Store) : Prop := forall g m,
  NoDup (entry (group2model2channels s) g m) /\
  forall i, i ∈ entry (group2model2channels s) g m -> exists c, channelsIDM s !! i = Some c /\ is_enabled c = true.

Lemma filter_once m (l : list string) : NoDup l -> (length (List.filter (String.eqb m) l) <= 1)%nat.
Proof.
  induction 1 as [|x l Hx HN IH]; cbn; [lia|]. destruct (String.eqb_spec m x) as [->|]; [|done].
  cbn. replace (List.filter (String.eqb x) l) with (@nil string); [cbn; lia|]. symmetry.
  clear -Hx. induction l as [|y l IH]; [done|]. cbn. destruct (String.eqb_spec x y); [set_solver|]. apply IH. set_solver.
Qed.

Lemma hits_once id models groups g m : NoDup models -> NoDup groups ->
  (length (concat (map (group_hits id models g m) groups)) <= 1)%nat.
Proof.
  intros Hm. assert (H0 : forall l, g ∉ l -> concat (map (group_hits id models g m) l) = []).
  { induction l as [|x l IH]; intros Hl; [done|]. cbn. rewrite IH by set_solver. unfold group_hits.
    destruct (String.eqb_spec x g); [set_solver | done]. }
  induction 1 as [|x l Hx HN IH]; cbn; [lia|]. unfold group_hits at 1. destruct (String.eqb_spec x g) as [->|]; [|done].
  rewrite H0, app_nil_r, length_map by done. by apply filter_once.
Qed.

Lemma NoDup_small {A} (l : list A) : (length l <= 1)%nat -> NoDup l.
Proof. destruct l as [|x [|y l]]; intros; cbn in *; [constructor | apply NoDup_singleton | lia]. Qed.

Lemma served_NoDup chs g m : NoDup (map c_Id chs) -> (forall c, c ∈ chs -> tidy c) ->
  NoDup (concat (map (fun c => served c g m) chs)).
Proof.
  induction chs as [|c chs IH]; intros HN Ht; cbn in *; [constructor|]. apply NoDup_cons in HN as [Hc HN].
  apply NoDup_app. split_and!; [| | apply IH; set_solver].
  - apply NoDup_small. unfold served. destruct (is_enabled c); [|cbn; lia].
    destruct (Ht c ltac:(set_solver)). by apply hits_once.
  - intros i (_ & _ & ->)%elem_of_served (l & (d & <- & Hd)%in_map_iff & Hi)%list_elem_of_In%in_concat.
    apply list_elem_of_In, elem_of_served in Hi as (_ & _ & Hi). apply Hc. rewrite Hi. apply list_elem_of_fmap.
    exists d. split; [done | by apply list_elem_of_In].
Qed.

(** The cache of [s'] when the tables are read as [chs]. *)
Lemma filled_cache_ok chs abs g2m old s' :
  NoDup (map c_Id chs) -> (forall c, c ∈ chs -> tidy c) -> build_cache chs abs = Some g2m ->
  group2model2channels s' = g2m -> channelsIDM s' = map_imap (fun i c => Some (carry_over old i c)) (by_id chs) ->
  cache_ok s'.
Proof.
  intros HN Ht E EG EI g m. rewrite EG, (build_cache_inv _ _ _ E). split.
  - rewrite sort_desc_perm. by apply served_NoDup.
  - intros i Hi. rewrite sort_desc_perm in Hi.
    apply list_elem_of_In, in_concat in Hi as (l & (c & <- & Hc)%in_map_iff & Hi).
    apply list_elem_of_In, elem_of_served in Hi as (He & _ & ->). rewrite EI, map_lookup_imap.
    assert (by_id chs !! c_Id c = Some c) as ->.
    { clear -HN Hc. unfold by_id. assert (H : forall m0 : gmap Z Channel, foldl (fun m c => <[c_Id c := c]> m) m0 chs !! c_Id c = Some c).
      { induction chs as [|d chs IH]; intros m0; [done|]. cbn in *. apply NoDup_cons in HN as [Hd HN].
        destruct Hc as [->|Hc]; [|by apply IH]. clear IH.
        assert (HK : forall m1 : gmap Z Channel, m1 !! c_Id c = Some c ->
          foldl (fun m c => <[c_Id c := c]> m) m1 chs !! c_Id c = Some c); [|apply HK, lookup_insert_eq].
        clear HN. induction chs as [|x chs IH]; intros m1 H1; [done|]. cbn in *. apply IH; [set_solver|].
        rewrite lookup_insert_ne; [done|]. intros E. apply Hd. rewrite <- E. left. }
      apply H. }
    exists (carry_over old (c_Id c) c). split; [done|]. unfold is_enabled in *.
    by destruct (carry_over_same old (c_Id c) c) as (_ & -> & _).
Qed.

Lemma Init_cache_ok s : tidy_table s -> cache_ok s -> cache_ok (snd (InitChannelCache s)).
Proof.
  intros (HN & Ht) Hok. unfold InitChannelCache. destruct MemoryCacheEnabled; [|done].
  assert (HF : forall A (f : Store -> list A) t, (forall r, f (with_replies r t) = f t) ->
     exists l r, find_all f t = (Ok l, with_replies r t) /\ (l = [] \/ l = f t)).
  { intros A f t Hf. unfold find_all, query, attempting, db_reply, mbind, GM_bind.
    destruct t as [c1 a1 n1 rp g1 i1]. cbn in *. destruct rp as [|[] r]; cbn.
    - exists (f (mkStore c1 a1 n1 [] g1 i1)), []. auto.
    - eexists _, r. split; [reflexivity|]. right. apply (Hf r).
    - exists [], r. auto. }
  destruct (HF _ st_channels s ltac:(done)) as (chs & r1 & E1 & H1). run E1.
  destruct (HF _ st_abilities (with_replies r1 s) ltac:(done)) as (abs & r2 & E2 & _). run E2.
  destruct (build_cache chs abs) as [g2m|] eqn:E; [|exact Hok].
  eapply (filled_cache_ok chs abs g2m (channelsIDM s)); [| | done | done | done];
    destruct H1 as [->| ->]; cbn; [constructor | done | set_solver | done].
Qed.

Lemma remove_first_NoDup i l : NoDup l -> NoDup (remove_first i l) /\ forall x, x ∈ remove_first i l <-> x ∈ l /\ x <> i.
Proof.
  induction 1 as [|y l Hy HN [IH1 IH2]]; cbn; [split; [constructor | set_solver]|].
  destruct (Z.eqb_spec y i) as [->|Hne].
  - split; [done|]. intros x. split; [intros Hx; split; [set_solver | intros ->; done] | set_solver].
  - split; [constructor; [rewrite IH2; set_solver | done] | set_solver].
Qed.

(** Writing an object that is as enabled as the one before. *)
Lemma cache_ok_object s i c c' : cache_ok s -> channelsIDM s !! i = Some c -> (is_enabled c = true -> is_enabled c' = true) ->
  cache_ok (with_cache (group2model2channels s) (<[i := c']> (channelsIDM s)) s).
Proof.
  intros Hok Hc He g m. destruct (Hok g m) as [H1 H2]. cbn. split; [done|]. intros j Hj.
  destruct (H2 j Hj) as (d & Hd & Hde). destruct (decide (i = j)) as [->|Hne].
  - rewrite lookup_insert_eq. exists c'. split; [done|]. apply He. congruence.
  - rewrite lookup_insert_ne by done. by exists d.
Qed.

(** Taking the channel out of every list makes room for any object. *)
Lemma CacheUpdate_ok s i status : MemoryCacheEnabled = true ->
  (forall g m, NoDup (entry (group2model2channels s) g m) /\
     forall j, j ∈ entry (group2model2channels s) g m -> j <> i \/ status = ChannelStatusEnabled ->
       exists c, channelsIDM s !! j = Some c /\ (j <> i -> is_enabled c = true)) ->
  cache_ok (snd (CacheUpdateChannelStatus i status s)).
Proof.
  intros HM Hok. unfold CacheUpdateChannelStatus. rewrite HM. cbn. intros g m. destruct (Hok g m) as [HN Hin]. cbn.
  set (idm := match channelsIDM s !! i with Some c => _ | None => _ end).
  assert (Hl : forall j c, channelsIDM s !! j = Some c -> j <> i -> idm !! j = Some c).
  { intros j c Hj Hne. unfold idm. destruct (channelsIDM s !! i); [by rewrite lookup_insert_ne|done]. }
  destruct (Z.eqb_spec status ChannelStatusEnabled) as [->|Hs].
  - split; [done|]. intros j Hj. destruct (Hin j Hj) as (c & Hc & He); [by right|].
    destruct (decide (j = i)) as [->|Hne]; [|exists c; auto].
    exists (set_status ChannelStatusEnabled c). unfold idm. rewrite Hc, lookup_insert_eq. split; [done|].
    by apply bool_decide_eq_true.
  - rewrite entry_map_lists by done. destruct (remove_first_NoDup i _ HN) as [H1 H2]. split; [done|].
    intros j [Hj Hne]%H2. destruct (Hin j Hj) as (c & Hc & He); [by left|]. exists c. auto.
Qed.

Lemma cache_ok_weaken s i status : cache_ok s ->
  forall g m, NoDup (entry (group2model2channels s) g m) /\
     forall j, j ∈ entry (group2model2channels s) g m -> j <> i \/ status = ChannelStatusEnabled ->
       exists c, channelsIDM s !! j = Some c /\ (j <> i -> is_enabled c = true).
Proof. intros H g m. destruct (H g m) as [H1 H2]. split; [done|]. intros j Hj _. destruct (H2 j Hj) as (c & Hc & He). eauto. Qed.

Lemma cache_status_ok s i usingKey status : MemoryCacheEnabled = true -> cache_ok s ->
  cache_ok (snd (cache_status i usingKey status s)).
Proof.
  intros HM Hok. unfold cache_status. unfold mbind at 1, GM_bind at 1. cbn.
  destruct (channelsIDM s !! i) as [c|] eqn:Hc; [|done]. destruct (ci_IsMultiKey (c_ChannelInfo c)).
  - set (c' := handlerMultiKeyUpdate c usingKey status). unfold mbind, GM_bind, modify.
    set (s1 := with_cache _ _ s). destruct (Z.eqb_spec (c_Status c) (c_Status c')) as [E|E].
    + apply (cache_ok_object s i c); [done | done |]. unfold is_enabled. by rewrite E.
    + assert (HO : cache_ok (snd (CacheUpdateChannelStatus i (c_Status c') s1))).
      { apply CacheUpdate_ok; [done|]. intros g m. destruct (Hok g m) as [H1 H2]. split; [done|]. intros j Hj Hor.
        destruct (H2 j Hj) as (d & Hd & Hde). cbn. destruct (decide (i = j)) as [->|Hne].
        - rewrite lookup_insert_eq. by exists c'.
        - rewrite lookup_insert_ne by done. by exists d. }
      destruct (CacheUpdateChannelStatus i (c_Status c') s1) as [[[]|e] s2]; done.
  - destruct (_ =? _); [done|]. unfold mbind, GM_bind.
    pose proof (CacheUpdate_ok s i status HM (cache_ok_weaken s i status Hok)) as HO.
    destruct (CacheUpdateChannelStatus i status s) as [[[]|e] s2]; done.
Qed.

(** Statements on the tables leave the cache alone. *)
Definition keeps_cache {A} (m : CM A) : Prop := forall s, let s' := snd (m s) in
  group2model2channels s' = group2model2channels s /\ channelsIDM s' = channelsIDM s.

Lemma keeps_cache_bind {A B} (m : CM A) (f : A -> CM B) :
  keeps_cache m -> (forall a, keeps_cache (f a)) -> keeps_cache (m ≫= f).
Proof.
  intros Hm Hf s. specialize (Hm s). unfold mbind, GM_bind. destruct (m s) as [[a|e] s1]; [|done]. cbn in *.
  destruct (Hf a s1), Hm. split; congruence.
Qed.
Lemma keeps_cache_pure {A} (m : CM A) : (forall s, snd (m s) = s) -> keeps_cache m.
Proof. intros H s. by rewrite H. Qed.
Lemma keeps_cache_attempting {A} (m : CM A) : keeps_cache m -> keeps_cache (attempting m).
Proof. intros H s. specialize (H s). unfold attempting. by destruct (m s). Qed.
Lemma keeps_cache_reply : keeps_cache db_reply.
Proof. intros s. unfold db_reply. by destruct (st_replies s). Qed.
Lemma keeps_cache_exec f : (forall s, group2model2channels (f s) = group2model2channels s /\ channelsIDM (f s) = channelsIDM s) ->
  keeps_cache (exec f).
Proof. intros H. apply keeps_cache_bind; [apply keeps_cache_reply|]. intros _ s. apply H. Qed.

Lemma store_status_keeps_cache id usingKey status : keeps_cache (store_status id usingKey status).
Proof.
  apply keeps_cache_bind.
  { apply keeps_cache_attempting, keeps_cache_bind.
    - apply keeps_cache_bind; [apply keeps_cache_reply | intros; by apply keeps_cache_pure].
    - intros [c|]; by apply keeps_cache_pure. }
  intros [c|e]; [|by apply keeps_cache_pure]. destruct (c_Status c =? status); [by apply keeps_cache_pure|].
  destruct (if ci_IsMultiKey (c_ChannelInfo c) then _ else _) as [c' should].
  apply keeps_cache_bind.
  { apply keeps_cache_attempting. unfold SaveWithoutKey. destruct (c_Id c' =? 0); [by apply keeps_cache_pure | by apply keeps_cache_exec]. }
  intros saved. apply keeps_cache_bind; [|intros; by apply keeps_cache_pure].
  unfold deferred_abilities. destruct should; [|by apply keeps_cache_pure].
  apply keeps_cache_bind; [|intros; by apply keeps_cache_pure]. apply keeps_cache_attempting, keeps_cache_bind.
  - by apply keeps_cache_exec.
  - intros _. apply keeps_cache_reply.
Qed.

Lemma cache_ok_same s s' : cache_ok s -> group2model2channels s' = group2model2channels s -> channelsIDM s' = channelsIDM s -> cache_ok s'.
Proof. intros H E1 E2 g m. rewrite E1, E2. apply H. Qed.

Lemma next_key_status rnd info c : c_Status (snd (GetNextEnabledKey rnd info c)) = c_Status c.
Proof. unfold GetNextEnabledKey. repeat case_match; done. Qed.

Lemma cache_history_ok s : cache_history s -> cache_ok s.
Proof.
  induction 1 as [s E|s _ IH Ht|s id usingKey status _ IH|s id status _ IH|s rnd id _ IH|s chs abs n r _ IH].
  - intros g m. unfold entry. rewrite E, lookup_empty. cbn. split; [constructor | set_solver].
  - by apply Init_cache_ok.
  - unfold UpdateChannelStatus, mbind, GM_bind. destruct MemoryCacheEnabled eqn:HM; cbn [mret GM_ret].
    + pose proof (cache_status_ok s id usingKey status HM IH) as H.
      destruct (cache_status id usingKey status s) as [[[]|e] s1]; [done | | done].
      destruct (store_status_keeps_cache id usingKey status s1). by eapply cache_ok_same.
    + destruct (store_status_keeps_cache id usingKey status s). by eapply cache_ok_same.
  - destruct MemoryCacheEnabled eqn:HM.
    + apply CacheUpdate_ok; [done | by apply cache_ok_weaken].
    + unfold CacheUpdateChannelStatus. by rewrite HM.
  - unfold next_key_cached. destruct (channelsIDM s !! id) as [c|] eqn:Hc; [|done].
    pose proof (next_key_status rnd (Ok (c_ChannelInfo c)) c) as HS.
    destruct (GetNextEnabledKey rnd (Ok (c_ChannelInfo c)) c) as [res c']. cbn in *.
    apply (cache_ok_object s id c); [done | done |]. unfold is_enabled. by rewrite HS.
  - by eapply cache_ok_same.
Qed.

Lemma draw_channel_in f a l : forall r c, draw_channel f a r l = Some c -> c ∈ l.
Proof.
  induction l as [|d l IH]; intros r c H; cbn in H; [done|].
  destruct (_ <? 0); [injection H as <-; set_solver|]. apply IH in H. set_solver.
Qed.

Lemma choose_among_in rnd retry cs :
  match choose_among rnd retry cs with
  | (Some c, e) => c ∈ cs /\ e = None
  | (None, e) => exists err, e = Some err /\ err <> missing
  end.
Proof.
  unfold choose_among. assert (HP : forall e, target_priority (unique_desc (map GetPriority cs)) retry = Err e -> e <> missing).
  { unfold target_priority. intros e. repeat case_match; intros [= <-]; done. }
  destruct (target_priority _ retry) as [p|e]; [|by exists e; auto].
  destruct (List.filter _ cs) as [|x l] eqn:E; [by eexists|]. rewrite <- E.
  unfold choose_weighted. destruct (smoothing _) as [[f a] total]. unfold Intn. destruct (total <=? 0); [by eexists|].
  destruct (draw_channel _ _ _ _) as [c|] eqn:Ed; [|by eexists]. split; [|done].
  apply draw_channel_in, elem_of_bfilter in Ed. apply Ed.
Qed.

Lemma resolve_ok s ids : (forall i, i ∈ ids -> exists c, channelsIDM s !! i = Some c /\ is_enabled c = true) ->
  exists cs, resolve (channelsIDM s) ids = Some cs /\ forall c, c ∈ cs -> is_enabled c = true.
Proof.
  induction ids as [|i ids IH]; intros H; cbn; [exists []; set_solver|].
  destruct (H i ltac:(set_solver)) as (c & -> & Hc). destruct IH as (cs & -> & Hcs); [set_solver|].
  exists (c :: cs). split; [done|]. intros d [->|Hd]%elem_of_cons; auto.
Qed.

(** C21. Take a cache that was only ever filled from tables with unique ids in
    which every channel lists each group and each model once (otherwise
    [duplicate_model_survives_disable]).  Whatever database calls fail, whatever
    statuses change, keys are drawn, and whatever other processes do to the
    tables between two fillings, a choice from the memory cache never returns a
    channel the cache knows to be disabled, never reports an inconsistent cache,
    and returns nothing without an error only when no channel is listed. *)
Theorem disabled_never_chosen s rnd group model retry :
  cache_history s ->
  match cached_choice rnd group model retry s with
  | (Some c, e) => is_enabled c = true /\ e = None
  | (None, Some e) => e <> missing
  | (None, None) => candidates (group2model2channels s) group model = []
  end.
Proof.
  intros HH. pose proof (cache_history_ok s HH) as Hok.
  assert (Hc : forall i, i ∈ candidates (group2model2channels s) group model ->
    exists c, channelsIDM s !! i = Some c /\ is_enabled c = true).
  { intros i Hi. unfold candidates in Hi. destruct (entry _ group model) as [|x l] eqn:E; [by eapply Hok|].
    rewrite <- E in Hi. by eapply Hok. }
  unfold cached_choice. destruct (candidates _ _ _) as [|i [|j ids]]; [done | |].
  - destruct (Hc i ltac:(set_solver)) as (c & -> & He). done.
  - destruct (resolve_ok s (i :: j :: ids) Hc) as (cs & -> & Hcs).
    pose proof (choose_among_in rnd retry cs) as H. destruct (choose_among rnd retry cs) as [[c|] e].
    + destruct H. auto.
    + by destruct H as (err & -> & H).
Qed.
End History.

(** ** Concrete histories *)

Section Samples.
#[local] Existing Instance plain_lo.
#[local] Existing Instance plain_sort.
#[local] Instance cache_on : ChannelConfig := {| MemoryCacheEnabled := true |}.
#[local] Instance no_json : RawJSON := fun _ => None.

Definition sample_row (id : Z) (models group : string) (tag : option string) : Channel :=
  mkChannel id 1 "k" 1 (Some 5) models group (Some 0) tag no_info [].

(** Two channels are inserted, one is disabled and its group moved by tag. *)
Definition sample_ops : list table_op :=
  [OpBatchInsert [sample_row 0 "m1,m2" "a,b" (Some "t"); sample_row 0 "m1" "a" None]; OpInit;
   OpStatus 2 "" ChannelStatusAutoDisabled; OpEditTag "t" None None (Some "b,c") (Some 9) None; OpInit].
Definition sample_history : Store := foldl (fun s op => run_op op s) fresh_store sample_ops.

Lemma sample_history_ok : table_history sample_history.
Proof.
  unfold sample_history, sample_ops. cbn [foldl].
  repeat (apply history_step; [|first [exact I | done | split; [done | by intros] |
    intros c Hc; repeat (apply elem_of_cons in Hc as [->|Hc]; [by vm_compute|]); by apply elem_of_nil in Hc]]).
  apply history_new.
Qed.

Lemma cache_agrees_with_abilities_witness :
  MemoryCacheEnabled = true /\
  exists s', InitChannelCache sample_history = (Ok tt, s') /\
    forall g m i p w,
      (i ∈ entry (group2model2channels s') g m /\
       exists c, channelsIDM s' !! i = Some c /\ GetPriority c = p /\ to_uint (GetWeight c) = w) <->
      (exists a, a ∈ st_abilities sample_history /\ serves g m a = true /\ a_ChannelId a = i /\ ability_priority a = p /\ a_Weight a = w).
Proof.
  split; [reflexivity|].
  destruct (cache_agrees_with_abilities sample_history sample_history_ok eq_refl) as (s' & H1 & H2 & _).
  exists s'. split; assumption.
Defined.

(** The candidates of that history: channel 1 moved to [b] and [c], channel 2 is out. *)
Example sample_candidates :
  map (fun gm => entry (group2model2channels sample_history) (fst gm) (snd gm)) [("a", "m1"); ("b", "m1"); ("c", "m2")]%string
  = [[]; [1]; [1]].
Proof. by vm_compute. Qed.

Definition sample_cache : Store :=
  snd (UpdateChannelStatus 1 "" ChannelStatusManuallyDisabled
    (snd (InitChannelCache (mkStore [sample_row 1 "m1" "a" None; sample_row 2 "m1" "a" None]
       [mkAbility "a" "m1" 1 true (Some 0) 5 None] 3 [] ∅ ∅)))).

Lemma disabled_never_chosen_witness :
  cache_history sample_cache /\
  match cached_choice (fun _ => 0) "a" "m1" 0 sample_cache with
  | (Some c, e) => is_enabled c = true /\ e = None
  | (None, Some e) => e <> missing
  | (None, None) => candidates (group2model2channels sample_cache) "a" "m1" = []
  end.
Proof.
  assert (H : cache_history sample_cache).
  { unfold sample_cache. apply cache_update, cache_init; [by apply cache_new|]. split.
    - apply (bool_decide_unpack _). by vm_compute.
    - intros c Hc. apply elem_of_cons in Hc as [->|Hc]; [|apply elem_of_cons in Hc as [->|Hc]; [|by apply elem_of_nil in Hc]];
        split; apply (bool_decide_unpack _); by vm_compute. }
  split; [exact H|]. apply (disabled_never_chosen sample_cache (fun _ => 0) "a" "m1" 0 H).
Defined.

(** ** Where the guarantee ends *)

(** [CacheUpdateChannelStatus] removes one occurrence from each list: a channel
    that names a model twice is still offered after it was disabled. *)
Lemma duplicate_model_survives_disable :
  let s := snd (UpdateChannelStatus 1 "" ChannelStatusManuallyDisabled
             (run_op OpInit (run_op (OpInsert (sample_row 0 "m1,m1" "a" None)) fresh_store))) in
  match cached_choice (fun _ => 0) "a" "m1" 0 s with
  | (Some c, None) => c_Id c = 1 /\ c_Status c = ChannelStatusManuallyDisabled
  | _ => False
  end.
Proof. by vm_compute. Qed.

(** A read that fails while the cache is filled is ignored: when the channels
    cannot be read the cache becomes empty, when the abilities cannot be read
    the loop writes to a nil map and panics. *)
Lemma failed_read_breaks_cache :
  let s := run_op OpInit (run_op (OpInsert (sample_row 0 "m1" "a" None)) fresh_store) in
  entry (group2model2channels s) "a" "m1" = [1] /\
  entry (group2model2channels (snd (InitChannelCache (with_replies [false] s)))) "a" "m1" = [] /\
  fst (InitChannelCache (with_replies [true; false] s)) = Err nil_map.
Proof. by vm_compute. Qed.

(** [DeleteDisabledChannel] leaves the abilities of the channels it deletes;
    enabling their tag revives them, and the choice from the database then
    returns an empty channel with an error. *)
Lemma orphan_ability_revived :
  let s := run_op (OpInsert (sample_row 0 "m1" "a" (Some "t"))) fresh_store in
  let s := snd (DisableChannelByTag "t" s) in
  let s := snd (DeleteDisabledChannel s) in
  let s := snd (EnableChannelByTag "t" s) in
  st_channels s = [] /\
  fst (GetChannel (fun _ => 0) "a" "m1" 0 s) = Ok (Some (blank_channel 1), Some ErrRecordNotFound).
Proof. by vm_compute. Qed.

(** Setting the weight of a tag to 0 reaches the channels but not the abilities. *)
Lemma zero_weight_skips_abilities :
  let s := run_op (OpInsert (sample_row 0 "m1" "a" (Some "t"))) fresh_store in
  let s := snd (EditChannelByTag "t" None None None None (Some 0) s) in
  map GetWeight (st_channels s) = [0] /\ map a_Weight (st_abilities s) = [5].
Proof. by vm_compute. Qed.

(** Without the cache the normalised name is not tried: a model the cache serves is not found. *)
Lemma wildcard_needs_cache :
  let s := run_op OpInit (run_op (OpInsert (sample_row 0 "gpt-4-gizmo-*" "a" None)) fresh_store) in
  fst (cached_choice (fun _ => 0) "a" "gpt-4-gizmo-x" 0 s) = channelsIDM s !! 1 /\
  is_Some (channelsIDM s !! 1) /\
  fst (GetChannel (fun _ => 0) "a" "gpt-4-gizmo-x" 0 s) = Ok (None, None).
Proof. vm_compute. by eauto. Qed.
End Samples.
