(* ===== verification/ChannelSelect.v ===== *)
(** * Retrying a request on another channel

    src/service/channel_select.go: the group a request is sent to, with the
    automatic groups, and the state of its retries.  src/controller/relay.go:
    the loop of [Relay] that tries channels until one answers.

    The selection and the upstream calls are functions of an environment [E]
    that they may change, so that the theorems hold however the cache and the
    upstreams behave; [getRandomSatisfiedChannel] is the selection of the
    program. *)

From stdpp Require Import base gmap list strings.
From Stdlib Require Import ZArith Lia Ascii.
From S2P Require Import Prelude GoInt GoString GoText GoMonad ChannelTable ChannelCache.
Open Scope Z_scope.

(** ** The selection of the program *)

Definition ChannelTypeOpenAI : Z := 1.
Definition ChannelTypeSora : Z := 55.
Definition ChannelTypeAutodl : Z := 59.

Definition IsMiniMaxH3Model (modelName : string) : bool := str_in modelName ["MiniMax-H3"; "MiniMax-H3-Ref2va"].

Definition IsChannelTypeCompatibleWithModel (modelName : string) (channelType : Z) : bool :=
  if negb (IsMiniMaxH3Model modelName) then true
  else (channelType =? ChannelTypeSora) || (channelType =? ChannelTypeOpenAI) || (channelType =? ChannelTypeAutodl).

Definition getRandomSatisfiedChannel `{ChannelConfig} (rnd : Z -> Z) (group modelName : string) (retry : Z) : CM choice :=
  if IsMiniMaxH3Model modelName then
    GetChannelByTypes rnd group modelName retry [ChannelTypeSora; ChannelTypeOpenAI; ChannelTypeAutodl]
  else GetRandomSatisfiedChannel rnd group modelName retry.

(** ** The groups of a user *)

(** The special settings of a group, in the order the map is iterated. *)
Fixpoint apply_special (special : list (string * string)) (groups : gmap string string) : gmap string string :=
  match special with
  | [] => groups
  | (g, desc) :: r =>
      apply_special r
        (if HasPrefix g "-:" then delete (TrimPrefix g "-:") groups
         else if HasPrefix g "+:" then <[TrimPrefix g "+:" := desc]> groups
         else <[g := desc]> groups)
  end.

Record GroupSettings := mkGroupSettings {
  gs_usable : gmap string string;
  gs_special : string -> option (list (string * string));
  gs_auto : list string
}.

Definition GetUserUsableGroups (st : GroupSettings) (userGroup : string) : gmap string string :=
  if String.eqb userGroup "" then gs_usable st
  else
    let groups := match gs_special st userGroup with
                  | Some special => apply_special special (gs_usable st)
                  | None => gs_usable st
                  end in
    match groups !! userGroup with
    | Some _ => groups
    | None => <[userGroup := "user group"]> groups
    end.

Definition GroupInUserUsableGroups (st : GroupSettings) (userGroup groupName : string) : bool :=
  match GetUserUsableGroups st userGroup !! groupName with Some _ => true | None => false end.

Definition GetUserAutoGroup (st : GroupSettings) (userGroup : string) : list string :=
  List.filter (GroupInUserUsableGroups st userGroup) (gs_auto st).

(** ** Retry state *)

Record RetryParam := mkRetryParam { rp_TokenGroup : string; rp_Retry : option Z; rp_resetNextTry : bool }.

Definition GetRetry (p : RetryParam) : Z := default 0 (rp_Retry p).
Definition SetRetry (retry : Z) (p : RetryParam) : RetryParam :=
  mkRetryParam (rp_TokenGroup p) (Some retry) (rp_resetNextTry p).
Definition IncreaseRetry (p : RetryParam) : RetryParam :=
  if rp_resetNextTry p then mkRetryParam (rp_TokenGroup p) (rp_Retry p) false
  else mkRetryParam (rp_TokenGroup p) (Some (i64_add (GetRetry p) 1)) false.
Definition ResetRetryNextTry (p : RetryParam) : RetryParam := mkRetryParam (rp_TokenGroup p) (rp_Retry p) true.

(** The keys of the request context that selection writes. *)
Record SelContext := mkSelContext {
  ContextKeyAutoGroupIndex : option Z;
  ContextKeyAutoGroupRetryIndex : option Z;
  ContextKeyAutoGroup : option string
}.

(** What a request is configured with. *)
Record RelayConfig := mkRelayConfig {
  rc_RetryTimes : Z;
  rc_groups : GroupSettings;
  rc_userGroup : string;
  rc_crossGroupRetry : bool;
  rc_specific : bool;
  rc_retryRanges : list (Z * Z)
}.

(** ** Errors of an attempt *)

(** What the loop asks about an error: its status and code, whether it is a
    channel error, whether it forbids retries, whether the upstream account
    has no balance left, and whether the channel was bound by affinity. *)
Record APIError := mkAPIError {
  e_StatusCode : Z;
  e_ErrorCode : string;
  e_channel : bool;
  e_skipRetry : bool;
  e_balance : bool;
  e_affinity : bool
}.

Fixpoint match_ranges (ranges : list (Z * Z)) (code : Z) : bool :=
  match ranges with
  | [] => false
  | (lo, hi) :: r => if code <? lo then false else if code <=? hi then true else match_ranges r code
  end.
Definition shouldMatchStatusCodeRanges (ranges : list (Z * Z)) (code : Z) : bool :=
  if (code <? 100) || (599 <? code) then false else match_ranges ranges code.
Definition IsAlwaysSkipRetryStatusCode (code : Z) : bool := (code =? 504) || (code =? 524).
Definition IsAlwaysSkipRetryCode (errorCode : string) : bool := String.eqb errorCode "bad_response_body".
Definition ShouldRetryByStatusCode (ranges : list (Z * Z)) (code : Z) : bool :=
  if IsAlwaysSkipRetryStatusCode code then false else shouldMatchStatusCodeRanges ranges code.

Definition shouldRetry (cf : RelayConfig) (e : APIError) (retryTimes : Z) : bool :=
  if negb (e_balance e) && e_affinity e then false
  else if e_channel e then true
  else if e_skipRetry e then false
  else if retryTimes <=? 0 then false
  else if rc_specific cf then false
  else if e_balance e then true
  else
    let code := e_StatusCode e in
    if (200 <=? code) && (code <? 300) then false
    else if (code <? 100) || (599 <? code) then true
    else if IsAlwaysSkipRetryCode (e_ErrorCode e) then false
    else ShouldRetryByStatusCode (rc_retryRanges cf) code.

(** ** Selection *)

Section Select.
Context {E : Type}.
(** The channel of a group at a retry. *)
Context (select : string -> Z -> E -> choice * E).
Context (cf : RelayConfig).

(** The loop over the automatic groups from the current one on. *)
Fixpoint auto_loop (start i : Z) (groups : list string) (p : RetryParam) (ctx : SelContext) (env : E)
    : option Channel * string * RetryParam * SelContext * E :=
  match groups with
  | [] => (None, rp_TokenGroup p, p, ctx, env)
  | g :: rest =>
      let priorityRetry := if start <? i then 0 else GetRetry p in
      let '((channel, _), env) := select g priorityRetry env in
      match channel with
      | None =>
          auto_loop start (i + 1) rest (SetRetry 0 p) (mkSelContext (Some (i + 1)) (Some 0) (ContextKeyAutoGroup ctx)) env
      | Some c =>
          if rc_crossGroupRetry cf && (rc_RetryTimes cf <=? priorityRetry) then
            (Some c, g, ResetRetryNextTry (SetRetry 0 p),
             mkSelContext (Some (i + 1)) (ContextKeyAutoGroupRetryIndex ctx) (Some g), env)
          else (Some c, g, p, mkSelContext (Some i) (ContextKeyAutoGroupRetryIndex ctx) (Some g), env)
      end
  end.

(** Channel, group and error, with the retry state, context and environment after the call. *)
Definition CacheGetRandomSatisfiedChannel (p : RetryParam) (ctx : SelContext) (env : E)
    : option Channel * string * option error * RetryParam * SelContext * E :=
  if String.eqb (rp_TokenGroup p) "auto" then
    if (length (gs_auto (rc_groups cf)) =? 0)%nat then
      (None, rp_TokenGroup p, Some (ErrMsg "auto groups is not enabled"), p, ctx, env)
    else
      let autoGroups := GetUserAutoGroup (rc_groups cf) (rc_userGroup cf) in
      let start := default 0 (ContextKeyAutoGroupIndex ctx) in
      let '(c, g, p, ctx, env) := auto_loop start start (drop (Z.to_nat start) autoGroups) p ctx env in
      (c, g, None, p, ctx, env)
  else
    let '((c, e), env) := select (rp_TokenGroup p) (GetRetry p) env in
    match e with
    | Some err => (None, rp_TokenGroup p, Some err, p, ctx, env)
    | None => (c, rp_TokenGroup p, None, p, ctx, env)
    end.

(** ** The relay loop *)

(** One attempt on a channel. *)
Inductive attempt_result :=
  | AttemptOk
  | AttemptBodyError
  | AttemptError (e : APIError).

Inductive relay_result :=
  | Relayed
  | NoChannel
  | SetupFailed
  | BodyFailed
  | Failed (e : APIError)
  (** The condition of the loop ended it. *)
  | Exhausted.

(** Whether a channel was used before ([info.ChannelMeta]), the channel the
    middleware chose, [SetupContextForSelectedChannel], and the handler. *)
Context (has_meta : E -> bool) (ctx_channel : Channel) (setup : Channel -> E -> bool * E)
        (attempt : Channel -> E -> attempt_result * E).

(** [getChannel]: a channel, or the error that ends the loop. *)
Definition getChannel (p : RetryParam) (ctx : SelContext) (env : E) : (Channel + relay_result) * RetryParam * SelContext * E :=
  if negb (has_meta env) then (inl ctx_channel, p, ctx, env)
  else
    let '(c, _, e, p, ctx, env) := CacheGetRandomSatisfiedChannel p ctx env in
    match e, c with
    | Some _, _ => (inr NoChannel, p, ctx, env)
    | None, None => (inr NoChannel, p, ctx, env)
    | None, Some c =>
        let '(ok, env) := setup c env in
        if (ok : bool) then (inl c, p, ctx, env) else (inr SetupFailed, p, ctx, env)
    end.

(** The loop; [None] when the fuel does not suffice.  [used] lists the channels tried. *)
Fixpoint relay_loop (fuel : nat) (p : RetryParam) (ctx : SelContext) (env : E) (used : list Z)
    : option (relay_result * list Z * E) :=
  match fuel with
  | O => None
  | S k =>
      if rc_RetryTimes cf <? GetRetry p then Some (Exhausted, used, env)
      else
        let '(r, p, ctx, env) := getChannel p ctx env in
        match r with
        | inr stop => Some (stop, used, env)
        | inl c =>
            let used := used ++ [c_Id c] in
            let '(a, env) := attempt c env in
            match a with
            | AttemptOk => Some (Relayed, used, env)
            | AttemptBodyError => Some (BodyFailed, used, env)
            | AttemptError e =>
                if shouldRetry cf e (i64_sub (rc_RetryTimes cf) (GetRetry p))
                then relay_loop k (IncreaseRetry p) ctx env used
                else Some (Failed e, used, env)
            end
        end
  end.

(** [Relay] starts the loop with [Retry: 0]. *)
Definition relay_retries (fuel : nat) (tokenGroup : string) (ctx : SelContext) (env : E) :=
  relay_loop fuel (mkRetryParam tokenGroup (Some 0) false) ctx env [].
End Select.
