(* ===== verification/StatusCodes.v ===== *)
(** * Status-code rules

    [src/setting/operation_setting/status_code_ranges.go]: the administrator
    writes the HTTP status codes on which a channel is retried or disabled as
    text ("401,429,500-503"); the text is parsed into sorted, merged ranges
    that the retry loop ([ChannelSelect]) matches codes against with an early
    exit, and is printed back for the settings page.  The theorems: an
    accepted rule matches exactly the codes its tokens name, printing a rule
    and parsing it again changes nothing, and a rejected rule leaves the
    setting as it was. *)

From stdpp Require Import base numbers list strings pretty sorting sets.
From Stdlib Require Import ZArith Lia Ascii.
From S2P Require Import Prelude GoInt GoString GoText ChannelSelect.

(** [StatusCodeRange{Start, End}] *)
Definition StatusCodeRange : Type := Z * Z.
Implicit Types (r last : StatusCodeRange) (rs : list StatusCodeRange).

Definition AutomaticDisableStatusCodeRanges_default : list StatusCodeRange := [(401, 401)].
Definition AutomaticRetryStatusCodeRanges_default : list StatusCodeRange :=
  [(100, 199); (300, 399); (401, 407); (409, 499); (500, 503); (505, 523); (525, 599)].

(** ** Printing *)

Definition range_to_string (r : StatusCodeRange) : string :=
  if fst r =? snd r then Itoa (fst r) else Itoa (fst r) +:+ "-" +:+ Itoa (snd r).

Definition statusCodeRangesToString (ranges : list StatusCodeRange) : string :=
  match ranges with [] => "" | _ => Join (map range_to_string ranges) "," end.

(** ** Parsing *)

Definition parseHTTPStatusCodeToken (token0 : string) : result StatusCodeRange :=
  let token := drop_char " " (TrimSpace token0) in
  if String.eqb token "" then fail_with "empty token"
  else if Contains token "-" then
    match Split token "-" with
    | [p0; p1] =>
        if String.eqb p0 "" || String.eqb p1 "" then fail_with ("invalid range token: " +:+ token)
        else
          match Atoi p0 with
          | None => fail_with ("invalid range start: " +:+ token)
          | Some start =>
              match Atoi p1 with
              | None => fail_with ("invalid range end: " +:+ token)
              | Some end_ =>
                  if end_ <? start then fail_with ("range start > end: " +:+ token)
                  else if (start <? 100) || (599 <? end_) then fail_with ("range out of bounds: " +:+ token)
                  else Ok (start, end_)
              end
          end
    | _ => fail_with ("invalid range token: " +:+ token)
    end
  else
    match Atoi token with
    | None => fail_with ("invalid status code: " +:+ token)
    | Some code =>
        if (code <? 100) || (599 <? code) then fail_with ("status code out of bounds: " +:+ token)
        else Ok (code, code)
    end.

(** [strings.NewReplacer] from the full-width comma (EF BC 8C) to the ASCII one. *)
Fixpoint replace_wide_comma (s : string) : string :=
  match s with
  | EmptyString => EmptyString
  | String "239" (String "188" (String "140" s')) => String "," (replace_wide_comma s')
  | String a s' => String a (replace_wide_comma s')
  end%char.

(** The loop over the segments: the ranges read and the segments refused. *)
Fixpoint parse_segments (segments : list string) : list StatusCodeRange * list string :=
  match segments with
  | [] => ([], [])
  | seg0 :: rest =>
      let '(ranges, invalid) := parse_segments rest in
      let seg := TrimSpace seg0 in
      if String.eqb seg "" then (ranges, invalid)
      else match parseHTTPStatusCodeToken seg with
           | Err _ => (ranges, seg :: invalid)
           | Ok r => (r :: ranges, invalid)
           end
  end.

(** The comparison given to [sort.Slice], as the non-strict order it induces. *)
Definition range_le (r1 r2 : StatusCodeRange) : Prop :=
  if fst r1 =? fst r2 then snd r1 <= snd r2 else fst r1 < fst r2.
#[export] Instance range_le_dec r1 r2 : Decision (range_le r1 r2).
Proof. unfold range_le. destruct (_ =? _); apply _. Defined.

(** The merging loop, with [last] the end of [merged]. *)
Fixpoint merge_ranges (last : StatusCodeRange) (ranges : list StatusCodeRange) : list StatusCodeRange :=
  match ranges with
  | [] => [last]
  | r :: rest =>
      if fst r <=? snd last + 1
      then merge_ranges (fst last, if snd last <? snd r then snd r else snd last) rest
      else last :: merge_ranges r rest
  end.

(** The segments of the trimmed input. *)
Definition rule_segments (input : string) : list string := Split (replace_wide_comma input) ",".

Definition ParseHTTPStatusCodeRanges (input0 : string) : result (list StatusCodeRange) :=
  let input := TrimSpace input0 in
  if String.eqb input "" then Ok []
  else
    let '(ranges, invalid) := parse_segments (rule_segments input) in
    match invalid with
    | _ :: _ => fail_with ("invalid http status code rules: " +:+ Join invalid ", ")
    | [] =>
        match merge_sort range_le ranges with
        | [] => Ok []
        | r :: rest => Ok (merge_ranges r rest)
        end
    end.

(** ** The settings *)

Record StatusCodeSettings := mkStatusCodeSettings {
  AutomaticDisableStatusCodeRanges : list StatusCodeRange;
  AutomaticRetryStatusCodeRanges : list StatusCodeRange
}.

Definition AutomaticDisableStatusCodesFromString (s : string) (st : StatusCodeSettings) : StatusCodeSettings * option error :=
  match ParseHTTPStatusCodeRanges s with
  | Err e => (st, Some e)
  | Ok ranges => (mkStatusCodeSettings ranges (AutomaticRetryStatusCodeRanges st), None)
  end.

Definition AutomaticRetryStatusCodesFromString (s : string) (st : StatusCodeSettings) : StatusCodeSettings * option error :=
  match ParseHTTPStatusCodeRanges s with
  | Err e => (st, Some e)
  | Ok ranges => (mkStatusCodeSettings (AutomaticDisableStatusCodeRanges st) ranges, None)
  end.

Definition AutomaticDisableStatusCodesToString (st : StatusCodeSettings) : string :=
  statusCodeRangesToString (AutomaticDisableStatusCodeRanges st).
Definition AutomaticRetryStatusCodesToString (st : StatusCodeSettings) : string :=
  statusCodeRangesToString (AutomaticRetryStatusCodeRanges st).

Definition ShouldDisableByStatusCode (st : StatusCodeSettings) (code : Z) : bool :=
  shouldMatchStatusCodeRanges (AutomaticDisableStatusCodeRanges st) code.

(** ** The order of ranges *)

#[export] Instance range_le_total : Total range_le.
Proof.
  intros [a b] [c d]. unfold range_le; cbn. rewrite (Z.eqb_sym c a).
  destruct (Z.eqb_spec a c); lia.
Qed.

#[export] Instance range_le_trans : Transitive range_le.
Proof.
  intros [a b] [c d] [e f]. unfold range_le; cbn.
  destruct (Z.eqb_spec a c), (Z.eqb_spec c e), (Z.eqb_spec a e); lia.
Qed.

#[export] Instance range_le_antisym : AntiSymm (=) range_le.
Proof.
  intros [a b] [c d]. unfold range_le; cbn. rewrite (Z.eqb_sym c a).
  destruct (Z.eqb_spec a c); intros; f_equal; lia.
Qed.

Lemma range_le_start r1 r2 : range_le r1 r2 -> fst r1 <= fst r2.
Proof. unfold range_le. destruct (Z.eqb_spec (fst r1) (fst r2)); lia. Qed.

(** ** Valid ranges and their codes *)

Definition valid_range (r : StatusCodeRange) : Prop := 100 <= fst r /\ fst r <= snd r /\ snd r <= 599.

(** The code is one of the range's. *)
Definition in_range (code : Z) (r : StatusCodeRange) : bool := (fst r <=? code) && (code <=? snd r).
Definition in_some (code : Z) (rs : list StatusCodeRange) : bool := existsb (in_range code) rs.

(** What the parser returns: ascending ranges that neither overlap nor touch. *)
Fixpoint normal (rs : list StatusCodeRange) : Prop :=
  match rs with
  | [] => True
  | r :: rest => valid_range r /\ normal rest /\ match rest with [] => True | r' :: _ => snd r + 1 < fst r' end
  end.

Lemma in_some_cons code r rs : in_some code (r :: rs) = in_range code r || in_some code rs.
Proof. done. Qed.

Lemma in_range_spec code r : in_range code r = true <-> fst r <= code <= snd r.
Proof. unfold in_range. rewrite andb_true_iff, !Z.leb_le. lia. Qed.

Lemma in_range_out code r : ~ (fst r <= code <= snd r) -> in_range code r = false.
Proof. rewrite <- in_range_spec. by destruct (in_range code r). Qed.

(** No range of ascending ones holds a code below the first. *)
Lemma in_some_below code rs :
  normal rs -> match rs with [] => True | r :: _ => code < fst r end -> in_some code rs = false.
Proof.
  induction rs as [|r rs IH]; [done|]. intros ((? & ? & ?) & Hn & Hgap) Hlt.
  rewrite in_some_cons, in_range_out by lia. apply IH; [done|]. destruct rs; [done|lia].
Qed.

(** The early exit of the matcher is sound on ranges in ascending order. *)
Lemma match_normal rs code : normal rs -> match_ranges rs code = in_some code rs.
Proof.
  induction rs as [|[lo hi] rs IH]; [done|]. intros (Hv & Hn & Hgap). unfold valid_range in Hv.
  cbn [match_ranges fst snd] in *. rewrite IH, in_some_cons by done.
  unfold in_range; cbn [fst snd].
  destruct (Z.ltb_spec code lo), (Z.leb_spec lo code); try lia; cbn.
  - symmetry. apply in_some_below; [done|]. destruct rs; [done|lia].
  - by destruct (code <=? hi).
Qed.

Lemma in_some_codes code rs : normal rs -> in_some code rs = true -> 100 <= code <= 599.
Proof.
  intros Hn (r & Hr & Hc%in_range_spec)%existsb_exists. revert Hr.
  induction rs as [|r' rs IH]; [done|]. destruct Hn as ((? & ? & ?) & Hn & _).
  intros [->|Hr]; [lia | by apply IH].
Qed.

Lemma match_codes rs code : normal rs -> shouldMatchStatusCodeRanges rs code = in_some code rs.
Proof.
  intros Hn. unfold shouldMatchStatusCodeRanges. rewrite match_normal by done.
  pose proof (in_some_codes code rs Hn). destruct (in_some code rs).
  - destruct (Z.ltb_spec code 100), (Z.ltb_spec 599 code); try done; lia.
  - by destruct (_ || _).
Qed.

(** ** Merging *)

Lemma merge_normal last rs :
  valid_range last -> Forall valid_range rs -> StronglySorted range_le (last :: rs) ->
  normal (merge_ranges last rs) /\ exists r' rest, merge_ranges last rs = r' :: rest /\ fst r' = fst last.
Proof.
  revert last. induction rs as [|r rs IH]; intros last Hv Hrs Hs; cbn [merge_ranges].
  { split; [done|]. by eexists _, _. }
  apply Forall_cons in Hrs as [Hr Hrs]. apply StronglySorted_inv in Hs as [Hs Hle].
  apply Forall_cons in Hle as [Hle1 Hle]. apply range_le_start in Hle1.
  destruct (Z.leb_spec (fst r) (snd last + 1)).
  - set (m := (fst last, if snd last <? snd r then snd r else snd last)).
    assert (valid_range m /\ fst m = fst last) as [Hm E].
    { unfold m, valid_range in *; cbn. destruct (Z.ltb_spec (snd last) (snd r)); lia. }
    apply (IH m Hm Hrs). apply StronglySorted_inv in Hs as [Hs Hs'].
    constructor; [done|]. apply Forall_forall. intros x Hx.
    rewrite Forall_forall in Hs', Hle. specialize (Hs' x Hx). specialize (Hle x Hx).
    unfold range_le, valid_range in *. cbn.
    destruct (Z.ltb_spec (snd last) (snd r)), (Z.eqb_spec (fst last) (fst x)), (Z.eqb_spec (fst r) (fst x)); lia.
  - destruct (IH r Hr Hrs Hs) as (Hn & r' & rest & E & E'). rewrite E in *.
    split; [|by eexists _, _]. cbn [normal]. split; [done|]. split; [done|lia].
Qed.

Lemma sorted_starts rs : StronglySorted range_le rs -> StronglySorted (fun a b : StatusCodeRange => fst a <= fst b) rs.
Proof. induction 1 as [|r rs _ IH Hle]; constructor; [done|]. eapply Forall_impl; [done|]. intros x. apply range_le_start. Qed.

Lemma merge_step_codes code last r :
  fst last <= fst r -> fst r <= snd last + 1 ->
  in_range code (fst last, if snd last <? snd r then snd r else snd last) = in_range code last || in_range code r.
Proof.
  intros. unfold in_range; cbn [fst snd]. destruct (Z.ltb_spec (snd last) (snd r));
    destruct (Z.leb_spec (fst last) code), (Z.leb_spec code (snd r)), (Z.leb_spec code (snd last)), (Z.leb_spec (fst r) code); (done || lia).
Qed.

Lemma merge_codes code last rs :
  StronglySorted (fun a b : StatusCodeRange => fst a <= fst b) (last :: rs) ->
  in_some code (merge_ranges last rs) = in_some code (last :: rs).
Proof.
  revert last. induction rs as [|r rs IH]; intros last Hs; cbn [merge_ranges]; [done|].
  apply StronglySorted_inv in Hs as [Hs Hle]. apply Forall_cons in Hle as [Hle1 Hle].
  destruct (Z.leb_spec (fst r) (snd last + 1)).
  - rewrite IH.
    + by rewrite !in_some_cons, merge_step_codes, orb_assoc by done.
    + apply StronglySorted_inv in Hs as [Hs _]. by constructor.
  - rewrite in_some_cons, IH by done. done.
Qed.

(** Merging leaves normal ranges alone. *)
Lemma merge_id last rs : normal (last :: rs) -> merge_ranges last rs = last :: rs.
Proof.
  revert last. induction rs as [|r rs IH]; intros last; [done|]. intros (Hv & Hn & Hgap). cbn [merge_ranges].
  destruct (Z.leb_spec (fst r) (snd last + 1)); [lia|]. by rewrite IH.
Qed.

Lemma normal_sorted rs : normal rs -> Sorted range_le rs.
Proof.
  induction rs as [|r rs IH]; [constructor|]. intros (Hv & Hn & Hgap). constructor; [by apply IH|].
  destruct rs as [|r' rs]; constructor. unfold range_le, valid_range in *.
  destruct (Z.eqb_spec (fst r) (fst r')); lia.
Qed.

Lemma sort_normal rs : normal rs -> merge_sort range_le rs = rs.
Proof.
  intros Hn. apply (Sorted_unique range_le); [apply Sorted_merge_sort, _ | by apply normal_sorted | apply merge_sort_Permutation].
Qed.

Lemma in_some_perm code rs rs' : rs ≡ₚ rs' -> in_some code rs = in_some code rs'.
Proof.
  intros HP. unfold in_some. apply eq_true_iff_eq. rewrite !existsb_exists.
  split; intros (r & Hr & Hc); exists r; (split; [|done]); apply list_elem_of_In; apply list_elem_of_In in Hr; by rewrite HP || rewrite <- HP.
Qed.

(** ** The segments of a rule *)

Definition blank (seg : string) : bool := String.eqb (TrimSpace seg) "".
(** The segment names the codes of [r]. *)
Definition names (seg : string) (r : StatusCodeRange) : Prop := parseHTTPStatusCodeToken (TrimSpace seg) = Ok r.
Definition refused_segment (seg : string) : Prop :=
  blank seg = false /\ is_ok (parseHTTPStatusCodeToken (TrimSpace seg)) = false.

Lemma token_valid token r : parseHTTPStatusCodeToken token = Ok r -> valid_range r.
Proof.
  unfold parseHTTPStatusCodeToken, valid_range. set (t := drop_char _ _). clearbody t. intros H.
  cases_in H.
Qed.

Lemma blank_names_nothing seg r : blank seg = true -> ~ names seg r.
Proof. unfold blank, names. intros ->%String.eqb_eq. done. Qed.

(** A segment added in front. *)
Lemma exists_cons (P : string -> Prop) seg segs :
  (exists x, x ∈ seg :: segs /\ P x) <-> P seg \/ exists x, x ∈ segs /\ P x.
Proof.
  setoid_rewrite elem_of_cons. split; [intros (x & [->|Hx] & HP); eauto|].
  intros [HP|(x & Hx & HP)]; [exists seg | exists x]; auto.
Qed.

Lemma segments_ranges segs ranges invalid r :
  parse_segments segs = (ranges, invalid) -> r ∈ ranges <-> exists seg, seg ∈ segs /\ names seg r.
Proof.
  revert ranges invalid. induction segs as [|seg segs IH]; intros ranges invalid; cbn [parse_segments].
  { intros [= <- <-]. split; [by intros ?%elem_of_nil | by intros (? & ?%elem_of_nil & _)]. }
  destruct (parse_segments segs) as [ranges' invalid'] eqn:E. rewrite exists_cons, <- (IH _ _ eq_refl).
  pose proof (blank_names_nothing seg r) as Hb. unfold blank, names in *.
  destruct (String.eqb (TrimSpace seg) ""); [intros [= <- <-]; tauto|].
  destruct (parseHTTPStatusCodeToken (TrimSpace seg)) as [r'|e] eqn:Et; intros [= <- <-]; [|intuition discriminate].
  rewrite elem_of_cons. intuition congruence.
Qed.

Lemma segments_refused segs ranges invalid :
  parse_segments segs = (ranges, invalid) -> invalid <> [] <-> exists seg, seg ∈ segs /\ refused_segment seg.
Proof.
  revert ranges invalid. induction segs as [|seg segs IH]; intros ranges invalid; cbn [parse_segments].
  { intros [= <- <-]. split; [done | by intros (? & ?%elem_of_nil & _)]. }
  destruct (parse_segments segs) as [ranges' invalid'] eqn:E. rewrite exists_cons, <- (IH _ _ eq_refl).
  unfold refused_segment, blank.
  destruct (String.eqb (TrimSpace seg) ""); [intros [= <- <-]; intuition discriminate|].
  destruct (parseHTTPStatusCodeToken (TrimSpace seg)); intros [= <- <-]; cbn; intuition discriminate.
Qed.

Lemma segments_valid segs ranges invalid : parse_segments segs = (ranges, invalid) -> Forall valid_range ranges.
Proof.
  intros H. apply Forall_forall. intros r (seg & _ & Hr)%(segments_ranges _ _ _ _ H).
  by eapply token_valid.
Qed.

(** A rule of blanks only is the empty rule. *)
Lemma ParseHTTPStatusCodeRanges_unfold s :
  ParseHTTPStatusCodeRanges s =
    let '(ranges, invalid) := parse_segments (rule_segments (TrimSpace s)) in
    match invalid with
    | _ :: _ => fail_with ("invalid http status code rules: " +:+ Join invalid ", ")
    | [] => match merge_sort range_le ranges with [] => Ok [] | r :: rest => Ok (merge_ranges r rest) end
    end.
Proof.
  unfold ParseHTTPStatusCodeRanges. destruct (String.eqb (TrimSpace s) "") eqn:E; [|done].
  apply String.eqb_eq in E as ->. done.
Qed.

Lemma parse_accepts s rs :
  ParseHTTPStatusCodeRanges s = Ok rs ->
  normal rs /\ (~ exists seg, seg ∈ rule_segments (TrimSpace s) /\ refused_segment seg) /\
  forall code, in_some code rs = true <->
    exists seg r, seg ∈ rule_segments (TrimSpace s) /\ names seg r /\ fst r <= code <= snd r.
Proof.
  rewrite ParseHTTPStatusCodeRanges_unfold.
  destruct (parse_segments _) as [ranges invalid] eqn:E. destruct invalid; [|done].
  assert (Hr : ~ exists seg, seg ∈ rule_segments (TrimSpace s) /\ refused_segment seg) by (rewrite <- (segments_refused _ _ _ E); naive_solver).
  pose proof (segments_valid _ _ _ E) as Hv.
  assert (Hc : forall code, in_some code ranges = true <->
    exists seg r, seg ∈ rule_segments (TrimSpace s) /\ names seg r /\ fst r <= code <= snd r).
  { intros code. unfold in_some. rewrite existsb_exists. setoid_rewrite <- list_elem_of_In.
    setoid_rewrite in_range_spec. setoid_rewrite (segments_ranges _ _ _ _ E). naive_solver. }
  pose proof (merge_sort_Permutation range_le ranges) as HP.
  pose proof (StronglySorted_merge_sort range_le ranges) as HS.
  destruct (merge_sort range_le ranges) as [|r rest]; intros [= <-].
  { apply Permutation_nil_l in HP. subst ranges. split; [exact I|]. by split. }
  rewrite <- HP in Hv. apply Forall_cons in Hv as [Hv1 Hv]. split; [by apply merge_normal|]. split; [done|].
  intros code. rewrite merge_codes, (in_some_perm _ _ _ HP); [apply Hc|].
  by apply sorted_starts.
Qed.

Lemma parse_rejects s e :
  ParseHTTPStatusCodeRanges s = Err e -> exists seg, seg ∈ rule_segments (TrimSpace s) /\ refused_segment seg.
Proof.
  rewrite ParseHTTPStatusCodeRanges_unfold.
  destruct (parse_segments _) as [ranges invalid] eqn:E. intros H. apply (segments_refused _ _ _ E).
  destruct invalid; [|done]. by destruct (merge_sort _ _).
Qed.

(** ** Printed rules *)

Definition prints_back (n : Z) : bool :=
  bool_decide (Atoi (Itoa n) = Some n) && all_chars digit_char (Itoa n) && negb (String.eqb (Itoa n) "").

(** Every status code is printed as digits that read back. *)
Lemma Itoa_code n : 100 <= n <= 599 -> Atoi (Itoa n) = Some n /\ all_chars digit_char (Itoa n) = true /\ Itoa n <> "".
Proof.
  intros Hn. assert (H : forallb prints_back (seqZ 100 500) = true) by (vm_compute; done).
  rewrite forallb_forall in H. specialize (H n). unfold prints_back in H.
  assert (In n (seqZ 100 500)) as Hin by (apply list_elem_of_In, elem_of_seqZ; lia).
  specialize (H Hin). split_bool. done.
Qed.

Lemma digit_char_cases a :
  digit_char a = true -> plain_char a = true /\ not_char "-" a = true /\ not_char " " a = true /\ not_char "," a = true.
Proof. destruct a as [[] [] [] [] [] [] [] []]; vm_compute; done. Qed.

Lemma digits_plain s : all_chars digit_char s = true ->
  all_chars plain_char s = true /\ all_chars (not_char "-") s = true /\
  all_chars (not_char " ") s = true /\ all_chars (not_char ",") s = true.
Proof. intros H. split_and!; (eapply all_chars_impl; [|exact H]); intros a Ha; apply digit_char_cases in Ha; tauto. Qed.

Lemma range_text r : valid_range r ->
  all_chars plain_char (range_to_string r) = true /\ all_chars (not_char " ") (range_to_string r) = true /\
  all_chars (not_char ",") (range_to_string r) = true /\ range_to_string r <> "".
Proof.
  intros (H1 & H2 & H3). unfold range_to_string.
  destruct (Itoa_code (fst r) ltac:(lia)) as (_ & (? & ? & ? & ?)%digits_plain & ?).
  destruct (Itoa_code (snd r) ltac:(lia)) as (_ & (? & ? & ? & ?)%digits_plain & ?).
  destruct (fst r =? snd r); [done|]. rewrite !all_chars_app.
  split_and!; try (by apply andb_true_iff; split; [|apply andb_true_iff]).
  by destruct (Itoa (fst r)).
Qed.

(** A printed range is read back as itself. *)
Lemma token_reads_back r : valid_range r -> parseHTTPStatusCodeToken (range_to_string r) = Ok r.
Proof.
  intros Hv. destruct (range_text r Hv) as (Hp & Hb & _ & Hne).
  unfold parseHTTPStatusCodeToken. rewrite TrimSpace_plain, drop_char_id by done.
  apply String.eqb_neq in Hne as ->. destruct Hv as (H1 & H2 & H3).
  destruct (Itoa_code (fst r) ltac:(lia)) as (A1 & (? & D1 & ? & ?)%digits_plain & N1%String.eqb_neq).
  destruct (Itoa_code (snd r) ltac:(lia)) as (A2 & (? & D2 & ? & ?)%digits_plain & N2%String.eqb_neq).
  unfold range_to_string in *. rewrite (Contains_char _ "-"). destruct (Z.eqb_spec (fst r) (snd r)) as [E|E].
  - rewrite D1, A1. cbn [negb]. destruct (Z.ltb_spec (fst r) 100), (Z.ltb_spec 599 (fst r)); try lia.
    cbn. rewrite E at 2. by destruct r.
  - rewrite !all_chars_app, D1, D2. cbn [negb andb all_chars not_char].
    change (Split _ _) with (Split (Itoa (fst r) +:+ String "-" (Itoa (snd r))) "-").
    rewrite Split_app, Split_single, N1, N2, A1, A2 by done. cbn [orb].
    destruct (Z.ltb_spec (snd r) (fst r)), (Z.ltb_spec (fst r) 100), (Z.ltb_spec 599 (snd r)); try lia. by destruct r.
Qed.

Lemma wide_comma_plain s : all_chars plain_char s = true -> replace_wide_comma s = s.
Proof.
  induction s as [|a s IH]; [done|]. cbn [all_chars]. intros [Ha Hs]%andb_true_iff.
  unfold plain_char in Ha. apply existsb_exists in Ha as (b & Hb & ->%Ascii.eqb_eq).
  cbn in Hb. repeat (destruct Hb as [<-|Hb]; [cbn [replace_wide_comma]; by rewrite IH|]). done.
Qed.

Lemma segments_read_back rs : Forall valid_range rs -> parse_segments (map range_to_string rs) = (rs, []).
Proof.
  induction 1 as [|r rs Hv Hrs IH]; [done|]. cbn [map parse_segments]. rewrite IH.
  destruct (range_text r Hv) as (Hp & _ & _ & Hne%String.eqb_neq).
  by rewrite TrimSpace_plain, Hne, token_reads_back.
Qed.

Lemma normal_valid rs : normal rs -> Forall valid_range rs.
Proof. induction rs; [constructor|]. intros (? & ? & _). constructor; auto. Qed.

Lemma forallb_map {A} (p : string -> bool) (f : A -> string) l :
  Forall (fun x => p (f x) = true) l -> forallb p (map f l) = true.
Proof. induction 1; cbn; [done|]. by apply andb_true_iff. Qed.

Lemma normal_reads_back rs : normal rs -> ParseHTTPStatusCodeRanges (statusCodeRangesToString rs) = Ok rs.
Proof.
  intros Hn. destruct rs as [|r0 rest0] eqn:Ers; [done|]. rewrite <- Ers in *.
  pose proof (normal_valid rs Hn) as Hv.
  assert (Hp : all_chars plain_char (Join (map range_to_string rs) ",") = true).
  { apply all_chars_Join; [|done]. apply forallb_map. eapply Forall_impl; [done|]. apply range_text. }
  replace (statusCodeRangesToString rs) with (Join (map range_to_string rs) ",") by (by subst rs).
  rewrite ParseHTTPStatusCodeRanges_unfold, TrimSpace_plain by done.
  unfold rule_segments. rewrite wide_comma_plain by done. rewrite (Split_Join _ ",").
  - rewrite segments_read_back, sort_normal by done. subst rs. by rewrite merge_id.
  - by subst rs.
  - apply forallb_map. eapply Forall_impl; [done|]. apply range_text.
Qed.

(** C36. A status-code rule that was accepted is printed, for the settings page
    and for the option table, as text that is accepted again and yields the
    same ranges: saving a rule unchanged changes nothing. *)
Theorem printed_rule_reads_back s rs :
  ParseHTTPStatusCodeRanges s = Ok rs ->
  ParseHTTPStatusCodeRanges (statusCodeRangesToString rs) = Ok rs.
Proof. intros (Hn & _)%parse_accepts. by apply normal_reads_back. Qed.

Lemma printed_rule_reads_back_witness :
  ParseHTTPStatusCodeRanges (statusCodeRangesToString [(401, 403); (429, 429); (500, 599)]) =
    Ok [(401, 403); (429, 429); (500, 599)].
Proof. apply (printed_rule_reads_back " 500-599 , 402 - 403,401，429,510"). vm_compute. reflexivity. Defined.

(** Saving a retry rule either replaces the rule or changes nothing.  It
    replaces it exactly when every non-blank segment is a token, and then a
    status code is retried exactly when some segment names it and it is
    neither 504 nor 524, although the matcher stops at the first range above
    the code; it changes nothing when some segment is refused. *)
Theorem retry_rule_means_its_tokens s st :
  match AutomaticRetryStatusCodesFromString s st with
  | (st', None) =>
      (forall seg, seg ∈ rule_segments (TrimSpace s) -> ~ refused_segment seg) /\
      AutomaticDisableStatusCodeRanges st' = AutomaticDisableStatusCodeRanges st /\
      forall code, ShouldRetryByStatusCode (AutomaticRetryStatusCodeRanges st') code = true <->
        code <> 504 /\ code <> 524 /\
        exists seg r, seg ∈ rule_segments (TrimSpace s) /\ names seg r /\ fst r <= code <= snd r
  | (st', Some _) => st' = st /\ exists seg, seg ∈ rule_segments (TrimSpace s) /\ refused_segment seg
  end.
Proof.
  unfold AutomaticRetryStatusCodesFromString.
  destruct (ParseHTTPStatusCodeRanges s) as [rs|e] eqn:E; [|split; [done | by eapply parse_rejects]].
  apply parse_accepts in E as (Hn & Hr & Hc). split_and!; [naive_solver|done|].
  intros code. cbn. unfold ShouldRetryByStatusCode, IsAlwaysSkipRetryStatusCode.
  rewrite match_codes by done. rewrite <- Hc.
  destruct (Z.eqb_spec code 504), (Z.eqb_spec code 524); cbn; intuition congruence.
Qed.
