(* ===== verification/NetAddr.v ===== *)
(** * Network addresses

    What [src/common/ssrf_protection.go] and [src/common/ip.go] use of Go's
    [net], [net/netip] and [net/url]: addresses and masks as byte slices,
    membership of a network ([IPNet.Contains] with its 4-in-6 conversions),
    the classification predicates, the textual forms ([ParseIP],
    [ParseCIDR]) and the splitting of a host from its port.  The lemmas give
    membership its meaning on the number an address stands for. *)

From stdpp Require Import base numbers list strings.
From Stdlib Require Import ZArith Lia Ascii.
From S2P Require Import Prelude GoInt GoString GoText.

(** [net.IP]: 4 or 16 bytes; [nil] is the empty slice. *)
Definition IP : Type := list Z.

Definition v4InV6Prefix : IP := [0; 0; 0; 0; 0; 0; 0; 0; 0; 0; 255; 255].
Definition IPv4 (a b c d : Z) : IP := v4InV6Prefix ++ [a; b; c; d].

(** [IP.To4]: [nil] when the address is not an IPv4 one. *)
Definition To4 (ip : IP) : option IP :=
  if (length ip =? 4)%nat then Some ip
  else if (length ip =? 16)%nat && bool_decide (take 12 ip = v4InV6Prefix) then Some (drop 12 ip)
  else None.

(** [IP.Equal]: an IPv4 address equals its IPv6 form. *)
Definition IP_Equal (ip x : IP) : bool :=
  if (length ip =? length x)%nat then bool_decide (ip = x)
  else if (length ip =? 4)%nat && (length x =? 16)%nat
  then bool_decide (take 12 x = v4InV6Prefix) && bool_decide (ip = drop 12 x)
  else if (length ip =? 16)%nat && (length x =? 4)%nat
  then bool_decide (take 12 ip = v4InV6Prefix) && bool_decide (drop 12 ip = x)
  else false.

Definition byte_at (ip : IP) (i : nat) : Z := nth i ip 0.
Definition zeros (n : nat) : IP := replicate n 0.

(** [net.CIDRMask(ones, bits)] for [len] bytes. *)
Fixpoint CIDRMask (ones : Z) (len : nat) : list Z :=
  match len with
  | O => []
  | S n => if 8 <=? ones then 255 :: CIDRMask (ones - 8) n
           else (255 - Z.shiftr 255 ones) :: CIDRMask 0 n
  end.

Record IPNet := mkIPNet { net_IP : IP; net_Mask : list Z }.

(** [networkNumberAndMask]; both are [nil] when the network is malformed. *)
Definition networkNumberAndMask (n : IPNet) : IP * list Z :=
  let ip := match To4 (net_IP n) with
            | Some v4 => v4
            | None => if (length (net_IP n) =? 16)%nat then net_IP n else []
            end in
  let m := net_Mask n in
  if (length ip =? 0)%nat then ([], [])
  else if (length m =? 4)%nat then if (length ip =? 4)%nat then (ip, m) else ([], [])
  else if (length m =? 16)%nat then if (length ip =? 4)%nat then (ip, drop 12 m) else (ip, m)
  else ([], []).

(** The loop of [IPNet.Contains]. *)
Fixpoint masked_eq (nn ip m : list Z) : bool :=
  match nn, ip, m with
  | a :: nn', b :: ip', k :: m' => (Z.land a k =? Z.land b k) && masked_eq nn' ip' m'
  | _, _, _ => true
  end.

Definition Contains_ip (n : IPNet) (ip0 : IP) : bool :=
  let '(nn, m) := networkNumberAndMask n in
  let ip := match To4 ip0 with Some x => x | None => ip0 end in
  if (length ip =? length nn)%nat then masked_eq nn ip m else false.

(** ** Classification *)

Definition IsUnspecified (ip : IP) : bool := IP_Equal ip (IPv4 0 0 0 0) || IP_Equal ip (zeros 16).

Definition IsLoopback (ip : IP) : bool :=
  match To4 ip with
  | Some v4 => byte_at v4 0 =? 127
  | None => IP_Equal ip (zeros 15 ++ [1])
  end.

Definition is_v6 (ip : IP) : bool := (length ip =? 16)%nat.

Definition IsLinkLocalUnicast (ip : IP) : bool :=
  match To4 ip with
  | Some v4 => (byte_at v4 0 =? 169) && (byte_at v4 1 =? 254)
  | None => is_v6 ip && (byte_at ip 0 =? 254) && (Z.land (byte_at ip 1) 192 =? 128)
  end.

Definition IsLinkLocalMulticast (ip : IP) : bool :=
  match To4 ip with
  | Some v4 => (byte_at v4 0 =? 224) && (byte_at v4 1 =? 0) && (byte_at v4 2 =? 0)
  | None => is_v6 ip && (byte_at ip 0 =? 255) && (Z.land (byte_at ip 1) 15 =? 2)
  end.

Definition IsInterfaceLocalMulticast (ip : IP) : bool :=
  is_v6 ip && (byte_at ip 0 =? 255) && (Z.land (byte_at ip 1) 15 =? 1).

Definition IsPrivate (ip : IP) : bool :=
  match To4 ip with
  | Some v4 =>
      (byte_at v4 0 =? 10) || ((byte_at v4 0 =? 172) && (Z.land (byte_at v4 1) 240 =? 16)) ||
      ((byte_at v4 0 =? 192) && (byte_at v4 1 =? 168))
  | None => is_v6 ip && (Z.land (byte_at ip 0) 254 =? 252)
  end.

(** ** Textual addresses (net/netip) *)

(** One octet: one to three digits, no leading zero, at most 255. *)
Definition read_octet (s : string) : option Z :=
  match s with
  | String "0"%char (String _ _) => None
  | _ => match read_number s with Some z => if z <=? 255 then Some z else None | None => None end
  end.

Definition parseIPv4Fields (s : string) : option (list Z) :=
  match Split s "." with
  | [a; b; c; d] =>
      match read_octet a, read_octet b, read_octet c, read_octet d with
      | Some a, Some b, Some c, Some d => Some [a; b; c; d]
      | _, _, _, _ => None
      end
  | _ => None
  end.

Definition hex_value (a : ascii) : option Z :=
  let n := Z.of_nat (nat_of_ascii a) in
  if (48 <=? n) && (n <=? 57) then Some (n - 48)
  else if (97 <=? n) && (n <=? 102) then Some (n - 87)
  else if (65 <=? n) && (n <=? 70) then Some (n - 55)
  else None.

(** The hexadecimal digits in front: their number, their value, the rest. *)
Fixpoint read_hex (acc : Z) (s : string) : nat * Z * string :=
  match s with
  | EmptyString => (O, acc, s)
  | String a s' =>
      match hex_value a with
      | Some d => let '(n, v, r) := read_hex (16 * acc + d) s' in (S n, v, r)
      | None => (O, acc, s)
      end
  end.

(** The loop of [parseIPv6]: the bytes read so far, where the ellipsis is,
    what is left.  At most eight groups are read. *)
Fixpoint parse_groups (fuel : nat) (ip : IP) (ellipsis : option nat) (s : string) : option (IP * option nat * string) :=
  match fuel with
  | O => Some (ip, ellipsis, s)
  | S fuel' =>
      let '(off, acc, rest) := read_hex 0 s in
      if (4 <? off)%nat || (off =? 0)%nat then None
      else
        match rest with
        | String "."%char _ =>
            if match ellipsis with None => negb (length ip =? 12)%nat | Some _ => false end then None
            else if (16 <? length ip + 4)%nat then None
            else match parseIPv4Fields s with Some v4 => Some (ip ++ v4, ellipsis, "") | None => None end
        | _ =>
            let ip' := ip ++ [acc / 256; acc mod 256] in
            match rest with
            | EmptyString => Some (ip', ellipsis, "")
            | String ":"%char EmptyString => None
            | String ":"%char (String ":"%char s2) =>
                match ellipsis with
                | Some _ => None
                | None =>
                    match s2 with
                    | EmptyString => Some (ip', Some (length ip'), "")
                    | _ => parse_groups fuel' ip' (Some (length ip')) s2
                    end
                end
            | String ":"%char s1 => parse_groups fuel' ip' ellipsis s1
            | _ => None
            end
        end
  end.

(** [netip.parseIPv6] of text without a zone. *)
Definition parseIPv6 (s0 : string) : option IP :=
  let '(start, s) := match strip "::" s0 with Some r => (Some O, r) | None => (None, s0) end in
  match start, s with
  | Some _, EmptyString => Some (zeros 16)
  | _, _ =>
      match parse_groups 8 [] start s with
      | Some (ip, ellipsis, "") =>
          if (length ip <? 16)%nat then
            match ellipsis with
            | None => None
            | Some e => Some (take e ip ++ zeros (16 - length ip) ++ drop e ip)
            end
          else match ellipsis with Some _ => None | None => Some ip end
      | _ => None
      end
  end.

(** The first of the characters that decide the form: dot, colon, percent. *)
Fixpoint address_form (s : string) : option ascii :=
  match s with
  | EmptyString => None
  | String a s' => if Ascii.eqb a "." || Ascii.eqb a ":" || Ascii.eqb a "%" then Some a else address_form s'
  end%char.

(** [netip.ParseAddr] restricted to addresses without a zone, which is what
    [net.ParseIP] and [net.ParseCIDR] accept: 4 bytes or 16. *)
Definition ParseAddr (s : string) : option IP :=
  match address_form s with
  | Some "." => parseIPv4Fields s
  | Some ":" => if Contains s "%" then None else parseIPv6 s
  | _ => None
  end%char.

Definition As16 (ip : IP) : IP := if (length ip =? 4)%nat then v4InV6Prefix ++ ip else ip.

(** [net.ParseIP] always gives the 16-byte form; [None] is its [nil]. *)
Definition ParseIP (s : string) : option IP := As16 <$> ParseAddr s.

(** [IP.Mask] for an address in 16-byte form. *)
Definition IP_Mask (ip0 : IP) (mask : list Z) : IP :=
  let ip := if (length mask =? 4)%nat && (length ip0 =? 16)%nat && bool_decide (take 12 ip0 = v4InV6Prefix)
            then drop 12 ip0 else ip0 in
  if (length ip =? length mask)%nat then zip_with Z.land ip mask else [].

(** [net.ParseCIDR]; the prefix length is digits only, below 2^24 ([dtoi]). *)
Definition ParseCIDR (s : string) : option IPNet :=
  match cut_at "/" s with
  | None => None
  | Some (addr, mask) =>
      match ParseAddr addr, read_number mask with
      | Some ip, Some n =>
          if n <=? 8 * Z.of_nat (length ip)
          then let m := CIDRMask n (length ip) in Some (mkIPNet (IP_Mask (As16 ip) m) m)
          else None
      | _, _ => None
      end
  end.

(** ** Host and port *)

(** The text before and after the last [c]. *)
Definition cut_at_last (c : ascii) (s : string) : option (string * string) :=
  match cut_at c (str_rev s) with Some (y, x) => Some (str_rev x, str_rev y) | None => None end.

(** [net.SplitHostPort]; its errors are not told apart by the code. *)
Definition SplitHostPort (hostport : string) : option (string * string) :=
  match cut_at_last ":" hostport with
  | None => None
  | Some (before, port) =>
      match hostport with
      | String "[" inside =>
          match cut_at "]" inside with
          | Some (host, after) =>
              if String.eqb after (String ":" port) && negb (Contains host "[" || Contains after "[" || Contains after "]")
              then Some (host, port) else None
          | None => None
          end
      | _ => if Contains before ":" || Contains hostport "[" || Contains hostport "]" then None else Some (before, port)
      end%char
  end.

(** [URL.Hostname]: the host without a numeric port and without brackets. *)
Definition Hostname (host0 : string) : string :=
  let host := match cut_at_last ":" host0 with
              | Some (before, port) => if all_chars digit_char port then before else host0
              | None => host0
              end in
  if HasPrefix host "[" && HasSuffix host "]"
  then match host with String _ r => match str_rev r with String _ r' => str_rev r' | EmptyString => "" end | EmptyString => "" end
  else host.

(** ** Addresses as numbers *)

Definition is_byte (b : Z) : Prop := 0 <= b < 256.
#[export] Instance is_byte_dec b : Decision (is_byte b).
Proof. unfold is_byte. apply _. Defined.

(** A well-formed address. *)
Definition ip_ok (ip : IP) : Prop := (length ip = 4%nat \/ length ip = 16%nat) /\ Forall is_byte ip.
#[export] Instance ip_ok_dec ip : Decision (ip_ok ip).
Proof. unfold ip_ok. apply _. Defined.

(** The number of a big-endian byte string. *)
Fixpoint be_value (l : list Z) : Z :=
  match l with [] => 0 | b :: l' => b * 256 ^ Z.of_nat (length l') + be_value l' end.

Lemma be_value_bound l : Forall is_byte l -> 0 <= be_value l < 256 ^ Z.of_nat (length l).
Proof.
  induction 1 as [|b l Hb Hl IH]; cbn [be_value length]; [lia|].
  rewrite Nat2Z.inj_succ, Z.pow_succ_r by lia. unfold is_byte in Hb. nia.
Qed.

(** What the last byte of a mask keeps of a byte. *)
Definition mask_keeps (b n : Z) : bool := Z.land b (255 - Z.shiftr 255 n) =? (b / 2 ^ (8 - n)) * 2 ^ (8 - n).

Lemma byte_mask b n : is_byte b -> 0 <= n < 8 -> Z.land b (255 - Z.shiftr 255 n) = (b / 2 ^ (8 - n)) * 2 ^ (8 - n).
Proof.
  intros Hb Hn.
  assert (H : forallb (fun b => forallb (mask_keeps b) (seqZ 0 8)) (seqZ 0 256) = true) by (vm_compute; done).
  rewrite forallb_forall in H. specialize (H b). rewrite forallb_forall in H.
  apply Z.eqb_eq, H; apply list_elem_of_In, elem_of_seqZ; unfold is_byte in *; lia.
Qed.

Lemma byte_mask_eq a b n : is_byte a -> is_byte b -> 0 <= n < 8 ->
  Z.land a (255 - Z.shiftr 255 n) = Z.land b (255 - Z.shiftr 255 n) <-> a / 2 ^ (8 - n) = b / 2 ^ (8 - n).
Proof.
  intros Ha Hb Hn. rewrite !byte_mask by done. pose proof (Z.pow_pos_nonneg 2 (8 - n)). split; [nia | by intros ->].
Qed.

Lemma masked_eq_zero nn ip len : masked_eq nn ip (CIDRMask 0 len) = true.
Proof.
  revert nn ip. induction len as [|len IH]; intros [|a nn] [|b ip]; try done. cbn. by rewrite !Z.land_0_r, IH.
Qed.

Lemma pow256 n : 256 ^ Z.of_nat n = 2 ^ (8 * Z.of_nat n).
Proof. rewrite Z.pow_mul_r by lia. done. Qed.

(** A prefix shorter than a byte is decided by the first byte. *)
Lemma value_short b l ones : is_byte b -> Forall is_byte l -> 0 <= ones < 8 ->
  be_value (b :: l) / 2 ^ (8 * Z.of_nat (S (length l)) - ones) = b / 2 ^ (8 - ones).
Proof.
  intros Hb Hl Ho. cbn [be_value]. pose proof (be_value_bound l Hl).
  replace (8 * Z.of_nat (S (length l)) - ones) with (8 * Z.of_nat (length l) + (8 - ones)) by lia.
  assert (0 < 256 ^ Z.of_nat (length l)) by (apply Z.pow_pos_nonneg; lia).
  assert (0 < 2 ^ (8 - ones)) by (apply Z.pow_pos_nonneg; lia).
  rewrite Z.pow_add_r, <- pow256, <- Z.div_div by lia. f_equal. rewrite Z.div_add_l by lia.
  rewrite (Z.div_small (be_value l)) by done. lia.
Qed.

(** A longer one by the first byte and by the rest. *)
Lemma value_long b l ones : 8 <= ones <= 8 * Z.of_nat (S (length l)) ->
  be_value (b :: l) / 2 ^ (8 * Z.of_nat (S (length l)) - ones) =
  b * 2 ^ (ones - 8) + be_value l / 2 ^ (8 * Z.of_nat (length l) - (ones - 8)).
Proof.
  intros Ho. cbn [be_value]. set (k := 8 * Z.of_nat (length l) - (ones - 8)).
  replace (8 * Z.of_nat (S (length l)) - ones) with k by lia.
  rewrite pow256. replace (8 * Z.of_nat (length l)) with ((ones - 8) + k) by lia.
  rewrite Z.pow_add_r, Z.mul_assoc by lia. by rewrite Z.div_add_l by (apply Z.pow_nonzero; lia).
Qed.

Lemma digits_unique m a b x y : 0 <= x < m -> 0 <= y < m -> a * m + x = b * m + y -> a = b /\ x = y.
Proof. intros. assert (a = b) by nia. subst. lia. Qed.

Lemma masked_eq_spec nn ip ones :
  length nn = length ip -> Forall is_byte nn -> Forall is_byte ip -> 0 <= ones <= 8 * Z.of_nat (length nn) ->
  masked_eq nn ip (CIDRMask ones (length nn)) = true <->
  be_value nn / 2 ^ (8 * Z.of_nat (length nn) - ones) = be_value ip / 2 ^ (8 * Z.of_nat (length nn) - ones).
Proof.
  revert ip ones. induction nn as [|a nn IH]; intros [|b ip] ones Hl Ha Hb Ho; try done.
  apply Forall_cons in Ha as [Ha Hnn]. apply Forall_cons in Hb as [Hb Hip]. injection Hl as Hl.
  cbn [length CIDRMask]. destruct (Z.leb_spec 8 ones); cbn [masked_eq].
  - rewrite andb_true_iff, Z.eqb_eq, IH by (done || (cbn in Ho; lia)).
    rewrite !value_long by (cbn [length] in *; lia). rewrite Hl, value_long by (cbn [length] in *; lia).
    change 255 with (Z.ones 8). rewrite !Z.land_ones by lia. unfold is_byte in *.
    rewrite !(Z.mod_small _ (2 ^ 8)) by lia.
    assert (Hbound : forall l, Forall is_byte l -> length l = length ip ->
      0 <= be_value l / 2 ^ (8 * Z.of_nat (length ip) - (ones - 8)) < 2 ^ (ones - 8)).
    { intros l Hl' El. pose proof (be_value_bound l Hl') as Hv. rewrite El, pow256 in Hv.
      cbn [length] in Ho. split; [apply Z.div_pos; [lia | apply Z.pow_pos_nonneg; lia]|].
      apply Z.div_lt_upper_bound; [apply Z.pow_pos_nonneg; lia|]. rewrite <- Z.pow_add_r by lia.
      replace (_ + _) with (8 * Z.of_nat (length ip)) by lia. lia. }
    split; [by intros [-> ->]|]. apply digits_unique; auto.
  - rewrite masked_eq_zero, andb_true_r, Z.eqb_eq.
    rewrite value_short by (done || lia). rewrite Hl, value_short by (done || lia).
    apply byte_mask_eq; (done || lia).
Qed.

(** A block of addresses: the first one and the length of the common prefix. *)
Definition in_block (v : Z) (bits : Z) (block : Z * Z) : bool :=
  (fst block <=? v) && (v <? fst block + 2 ^ (bits - snd block)).

Lemma masked_in_block nn ip ones :
  length nn = length ip -> Forall is_byte nn -> Forall is_byte ip -> 0 <= ones <= 8 * Z.of_nat (length nn) ->
  be_value nn mod 2 ^ (8 * Z.of_nat (length nn) - ones) = 0 ->
  masked_eq nn ip (CIDRMask ones (length nn)) = in_block (be_value ip) (8 * Z.of_nat (length nn)) (be_value nn, ones).
Proof.
  intros Hl Ha Hb Ho Hal. apply eq_true_iff_eq. rewrite masked_eq_spec by done.
  unfold in_block; cbn [fst snd]. rewrite andb_true_iff, Z.leb_le, Z.ltb_lt.
  set (k := 2 ^ _) in *. assert (0 < k) by (apply Z.pow_pos_nonneg; lia).
  pose proof (Z.div_mod (be_value nn) k ltac:(lia)). pose proof (Z.div_mod (be_value ip) k ltac:(lia)).
  pose proof (Z.mod_pos_bound (be_value ip) k ltac:(lia)).
  split; [intros E; rewrite <- E in *; lia|]. nia.
Qed.

(** ** Parsed addresses are well formed *)

Lemma read_digits_bound acc s z : 0 <= acc -> read_digits acc s = Some z -> 0 <= z.
Proof.
  revert acc. induction s as [|a s IH]; cbn; intros acc Ha; [by intros [= <-]|].
  unfold digit_value. set (n := Z.of_nat _). destruct (Z.leb_spec 48 n), (n <=? 57); cbn; try done.
  apply IH. lia.
Qed.

Lemma read_octet_byte s z : read_octet s = Some z -> is_byte z.
Proof.
  assert (H : match read_number s with Some z => if z <=? 255 then Some z else None | None => None end = Some z -> is_byte z).
  { destruct (read_number s) as [x|] eqn:E; [|done]. destruct (Z.leb_spec x 255); [|done]. intros [= <-].
    unfold read_number in E. destruct s; [done|]. apply read_digits_bound in E; [unfold is_byte; lia | lia]. }
  unfold read_octet. cases; auto.
Qed.

Lemma parseIPv4Fields_ok s ip : parseIPv4Fields s = Some ip -> length ip = 4%nat /\ Forall is_byte ip.
Proof.
  unfold parseIPv4Fields. intros H. cases_in H.
  repeat match goal with E : read_octet _ = Some _ |- _ => apply read_octet_byte in E end.
  split; [done|]. auto.
Qed.

Lemma hex_value_range a d : hex_value a = Some d -> 0 <= d < 16.
Proof.
  unfold hex_value. set (n := Z.of_nat _). intros H.
  repeat match type of H with
  | (if (?x <=? ?y) && (?z <=? ?w) then _ else _) = _ => destruct (Z.leb_spec x y), (Z.leb_spec z w); cbn in H
  end; try done; injection H; lia.
Qed.

Lemma read_hex_range acc s n v r : 0 <= acc -> read_hex acc s = (n, v, r) -> 0 <= v < (acc + 1) * 16 ^ Z.of_nat n.
Proof.
  revert acc n. induction s as [|a s IH]; intros acc n Ha; cbn [read_hex].
  { intros [= <- <- <-]. cbn. lia. }
  destruct (hex_value a) as [d|] eqn:E; [|intros [= <- <- <-]; cbn; lia].
  apply hex_value_range in E. destruct (read_hex (16 * acc + d) s) as [[n' v'] r'] eqn:E'.
  intros [= <- <- <-]. apply IH in E'; [|lia]. rewrite Nat2Z.inj_succ, Z.pow_succ_r by lia.
  assert (0 < 16 ^ Z.of_nat n') by (apply Z.pow_pos_nonneg; lia). nia.
Qed.

(** A group of at most four hexadecimal digits is two bytes. *)
Lemma group_bytes s n v r : read_hex 0 s = (n, v, r) -> (n <= 4)%nat -> Forall is_byte [v / 256; v mod 256].
Proof.
  intros H Hn. apply read_hex_range in H; [|lia].
  assert (16 ^ Z.of_nat n <= 16 ^ 4) by (apply Z.pow_le_mono_r; lia).
  pose proof (Z.mod_pos_bound v 256). pose proof (Z.div_mod v 256).
  apply Forall_cons. split; [unfold is_byte|apply Forall_cons; split; [unfold is_byte; lia | done]].
  split; [apply Z.div_pos; lia | apply Z.div_lt_upper_bound; lia].
Qed.

Definition groups_ok (ip : IP) (e : option nat) : Prop :=
  (length ip <= 16)%nat /\ Forall is_byte ip /\ match e with Some k => (k <= length ip)%nat | None => True end.

Lemma groups_ok_step ip e s n v r :
  groups_ok ip e -> (length ip + 2 <= 16)%nat -> read_hex 0 s = (n, v, r) -> (n <= 4)%nat ->
  groups_ok (ip ++ [v / 256; v mod 256]) e.
Proof.
  intros (Hl & Hb & He) Hl2 Hr Hn. unfold groups_ok. rewrite length_app. cbn.
  split; [lia|]. split; [apply Forall_app; split; [done | by eapply group_bytes]|].
  destruct e; [lia|done].
Qed.

Lemma parse_groups_ok fuel ip e s ip' e' s' :
  groups_ok ip e -> (length ip + 2 * fuel <= 16)%nat ->
  parse_groups fuel ip e s = Some (ip', e', s') -> groups_ok ip' e'.
Proof.
  revert ip e s. induction fuel as [|fuel IH]; intros ip e s Hok Hf; cbn [parse_groups].
  { by intros [= <- <- <-]. }
  destruct (read_hex 0 s) as [[n v] r] eqn:Er.
  destruct (Nat.ltb_spec 4 n); [done|]. cbn [orb]. destruct (n =? 0)%nat; [done|].
  pose proof (groups_ok_step ip e s n v r Hok ltac:(lia) Er ltac:(lia)) as Hstep.
  set (ip1 := ip ++ _) in *. assert (length ip1 + 2 * fuel <= 16)%nat by (unfold ip1; rewrite length_app; cbn; lia).
  assert (Hstep2 : groups_ok ip1 (Some (length ip1))) by (unfold groups_ok in *; intuition lia).
  assert (Hv4 : (16 <? length ip + 4)%nat = false -> forall v4, parseIPv4Fields s = Some v4 -> groups_ok (ip ++ v4) e).
  { intros H16%Nat.ltb_ge v4 (L4 & B4)%parseIPv4Fields_ok. destruct Hok as (_ & Hb & He). unfold groups_ok.
    rewrite length_app, L4. split; [lia|]. split; [by apply Forall_app|]. destruct e; [lia|done]. }
  intros H1. cases_in H1; (by eapply IH; [|done|exact H1]) || (by eapply Hv4) || done.
Qed.

Lemma zeros_bytes n : Forall is_byte (zeros n).
Proof. apply Forall_replicate. unfold is_byte. lia. Qed.

Lemma parseIPv6_ok s ip : parseIPv6 s = Some ip -> length ip = 16%nat /\ Forall is_byte ip.
Proof.
  unfold parseIPv6. set (p := match strip "::" s with Some r => (Some 0%nat, r) | None => (None, s) end).
  assert (Hp : groups_ok [] (fst p)) by (unfold p, groups_ok; destruct (strip "::" s); cbn; auto with lia).
  destruct p as [start r]. cbn [fst] in Hp.
  assert (Hz : length (zeros 16) = 16%nat /\ Forall is_byte (zeros 16)) by (split; [done | apply zeros_bytes]).
  intros H. destruct (decide (start <> None /\ r = "")) as [[Hs ->]|Hn].
  { destruct start; [|done]. by simplify_eq. }
  replace (match start, r with Some _, "" => Some (zeros 16) | _, _ => _ end) with
    (match parse_groups 8 [] start r with
     | Some (ip, ellipsis, "") =>
         if (length ip <? 16)%nat then match ellipsis with None => None | Some e => Some (take e ip ++ zeros (16 - length ip) ++ drop e ip) end
         else match ellipsis with Some _ => None | None => Some ip end
     | _ => None end) in H by (destruct start, r; naive_solver).
  destruct (parse_groups 8 [] start r) as [[[ip1 e] s1]|] eqn:E; [|done]. destruct s1; [|done].
  apply parse_groups_ok in E as (Hl & Hb & He); [|done|cbn; lia].
  destruct (Nat.ltb_spec (length ip1) 16); destruct e as [e|]; simplify_eq.
  - rewrite !length_app, length_take, length_drop. unfold zeros. rewrite length_replicate. split; [lia|].
    rewrite !Forall_app. split_and!; [by apply Forall_take | apply zeros_bytes | by apply Forall_drop].
  - split; [lia|done].
Qed.

Lemma ParseIP_ok s ip : ParseIP s = Some ip -> ip_ok ip.
Proof.
  unfold ParseIP. intros (a & Ha & ->)%fmap_Some. unfold ip_ok, As16.
  assert (Hok : (length a = 4%nat \/ length a = 16%nat) /\ Forall is_byte a).
  { unfold ParseAddr in Ha. cases_in Ha;
      (apply parseIPv4Fields_ok in Ha || apply parseIPv6_ok in Ha); tauto. }
  destruct Hok as [Hl Hb]. destruct Hl as [Hl|Hl]; rewrite Hl; cbn; [|auto].
  split; [right; cbn; lia|]. rewrite !Forall_cons. unfold is_byte. split_and!; (lia || done).
Qed.
