(* ===== verification/SSRF.v ===== *)
(** * Outbound request filter

    [src/common/ssrf_protection.go] and [IsIpInCIDRList] of
    [src/common/ip.go]: before the server fetches a URL that a user supplied
    (images, webhooks, workers), the URL's scheme, port, host and addresses
    are checked against the fetch settings.

    The text of the URL is split by [url.Parse] and names are resolved by the
    DNS; both are parameters, [url_Parse] giving the scheme and the authority
    of a URL and [LookupIP] the addresses of a name, and the theorems hold of
    all of them (of the resolver only that an address is 4 or 16 bytes).
    Messages leave out the text of [strconv]'s own errors.  Names are
    compared in lower case as [GoString] has it: ASCII, as host names are.

    The theorems: the byte-mask test for reserved addresses is exactly
    membership of the special-purpose blocks as ranges of numbers, where an
    address of the listed block of mapped addresses counts as the IPv4 address
    it carries; and which URLs are accepted, for all settings. *)

From stdpp Require Import base numbers list strings.
From Stdlib Require Import ZArith Lia Ascii.
From S2P Require Import Prelude GoInt GoString GoText NetAddr.

Record SSRFProtection := mkSSRFProtection {
  AllowPrivateIp : bool;
  DomainFilterMode : bool;
  DomainList : list string;
  IpFilterMode : bool;
  IpList : list string;
  AllowedPorts : list Z;
  ApplyIPFilterForDomain : bool
}.

(** ** Reserved addresses *)

Definition v4net (a b c d ones : Z) : IPNet := mkIPNet (IPv4 a b c d) (CIDRMask ones 4).

Definition privateIPv4Nets : list IPNet :=
  [v4net 0 0 0 0 8; v4net 10 0 0 0 8; v4net 100 64 0 0 10; v4net 127 0 0 0 8; v4net 169 254 0 0 16;
   v4net 172 16 0 0 12; v4net 192 0 0 0 24; v4net 192 0 2 0 24; v4net 192 168 0 0 16; v4net 198 18 0 0 15;
   v4net 198 51 100 0 24; v4net 203 0 113 0 24; v4net 224 0 0 0 4; v4net 240 0 0 0 4; v4net 255 255 255 255 32].

Definition privateIPv6Nets : list IPNet :=
  omap ParseCIDR ["::/128"; "::1/128"; "::ffff:0:0/96"; "64:ff9b::/96"; "100::/64"; "2001::/23";
                  "2001:db8::/32"; "fc00::/7"; "fe80::/10"; "ff00::/8"].

Definition isPrivateIP (ip : IP) : bool :=
  if (length ip =? 0)%nat then true
  else if IsUnspecified ip then true
  else if IsLoopback ip || IsLinkLocalUnicast ip || IsLinkLocalMulticast ip then true
  else if IsInterfaceLocalMulticast ip then true
  else
    match To4 ip with
    | Some v4 => existsb (fun n => Contains_ip n v4) privateIPv4Nets
    | None =>
        if existsb (fun n => Contains_ip n ip) privateIPv6Nets then true
        else IsPrivate ip
    end.

(** ** Ports *)

(** The text of an error ([%v]). *)
Definition error_text (e : error) : string :=
  match e with ErrRecordNotFound => "record not found" | ErrMsg m => m end.

Fixpoint ports_from (n : nat) (port : Z) : list Z :=
  match n with O => [] | S n' => port :: ports_from n' (port + 1) end.

(** [for port := startPort; port <= endPort; port++] *)
Definition port_range (startPort endPort : Z) : list Z := ports_from (Z.to_nat (endPort - startPort + 1)) startPort.

Definition bad_port (port : Z) : bool := (port <? 1) || (65535 <? port).

Definition parse_port_config (config : string) : result (list Z) :=
  if Contains config "-" then
    match Split config "-" with
    | [p0; p1] =>
        match Atoi (TrimSpace p0) with
        | None => fail_with ("invalid start port in range " +:+ config)
        | Some startPort =>
            match Atoi (TrimSpace p1) with
            | None => fail_with ("invalid end port in range " +:+ config)
            | Some endPort =>
                if endPort <? startPort then
                  fail_with ("invalid port range " +:+ config +:+ ": start port cannot be greater than end port")
                else if bad_port startPort || bad_port endPort then
                  fail_with ("port range " +:+ config +:+ " contains invalid port numbers (must be 1-65535)")
                else Ok (port_range startPort endPort)
            end
        end
    | _ => fail_with ("invalid port range format: " +:+ config)
    end
  else
    match Atoi config with
    | None => fail_with ("invalid port number: " +:+ config)
    | Some port =>
        if bad_port port then fail_with ("invalid port number " +:+ Itoa port +:+ " (must be 1-65535)")
        else Ok [port]
    end.

Fixpoint parsePortRanges (portConfigs : list string) : result (list Z) :=
  match portConfigs with
  | [] => Ok []
  | config0 :: rest =>
      let config := TrimSpace config0 in
      if String.eqb config "" then parsePortRanges rest
      else
        ports ← parse_port_config config;
        others ← parsePortRanges rest;
        Ok (ports ++ others)
  end.

Definition isAllowedPort (p : SSRFProtection) (port : Z) : bool :=
  match AllowedPorts p with [] => true | _ => existsb (fun a => port =? a) (AllowedPorts p) end.

(** ** Names *)

Definition domain_matches (domain item0 : string) : bool :=
  let item := ToLower (TrimSpace item0) in
  if String.eqb item "" then false
  else if String.eqb domain item then true
  else if HasPrefix item "*." then
    let suffix := TrimPrefix item "*." in
    HasSuffix domain ("." +:+ suffix) || String.eqb domain suffix
  else false.

Definition isDomainListed (domain : string) (list : list string) : bool :=
  match list with [] => false | _ => existsb (domain_matches (ToLower domain)) list end.

Definition isDomainAllowed (p : SSRFProtection) (domain : string) : bool :=
  let listed := isDomainListed domain (DomainList p) in
  if DomainFilterMode p then listed else negb listed.

(** ** Addresses *)

Definition cidr_matches (ip : IP) (cidr : string) : bool :=
  match ParseCIDR cidr with
  | None => match ParseIP cidr with Some whitelistIP => IP_Equal ip whitelistIP | None => false end
  | Some network => Contains_ip network ip
  end.

Definition IsIpInCIDRList (ip : IP) (cidrList : list string) : bool := existsb (cidr_matches ip) cidrList.

Definition isIPListed (ip : IP) (list : list string) : bool :=
  match list with [] => false | _ => IsIpInCIDRList ip list end.

Definition IsIPAccessAllowed (p : SSRFProtection) (ip : IP) : bool :=
  if isPrivateIP ip && negb (AllowPrivateIp p) then false
  else
    let listed := isIPListed ip (IpList p) in
    if IpFilterMode p then listed else negb listed.

(** ** URLs *)

(** The parts of [url.URL] that are read. *)
Record URL := mkURL { u_Scheme : string; u_Host : string }.

Section Validate.
Context (url_Parse : string -> result URL).
Context (LookupIP : string -> result (list IP)).
(** [ip.String()], which only messages use. *)
Context (ip_String : IP -> string).

(** The host and the port text of a URL. *)
Definition url_target (u : URL) : string * string :=
  match SplitHostPort (u_Host u) with
  | Some hp => hp
  | None => (Hostname (u_Host u), if String.eqb (u_Scheme u) "https" then "443" else "80")
  end.

Definition address_error (p : SSRFProtection) (ip : IP) : option error :=
  if IsIPAccessAllowed p ip then None
  else if isPrivateIP ip then Some (ErrMsg ("private IP address not allowed: " +:+ ip_String ip))
  else if IpFilterMode p then Some (ErrMsg ("ip not in whitelist: " +:+ ip_String ip))
  else Some (ErrMsg ("ip in blacklist: " +:+ ip_String ip)).

(** The loop over the resolved addresses: the first one refused. *)
Fixpoint resolved_error (p : SSRFProtection) (host : string) (ips : list IP) : option error :=
  match ips with
  | [] => None
  | ip :: rest =>
      if IsIPAccessAllowed p ip then resolved_error p host rest
      else if isPrivateIP ip && negb (AllowPrivateIp p)
      then Some (ErrMsg ("private IP address not allowed: " +:+ host +:+ " resolves to " +:+ ip_String ip))
      else if IpFilterMode p then Some (ErrMsg ("ip not in whitelist: " +:+ host +:+ " resolves to " +:+ ip_String ip))
      else Some (ErrMsg ("ip in blacklist: " +:+ host +:+ " resolves to " +:+ ip_String ip))
  end.

(** The checks of the host: an address is checked itself, a name by the
    lists and, when the setting asks for it, by its addresses. *)
Definition host_error (p : SSRFProtection) (host : string) : option error :=
  match ParseIP host with
  | Some ip => address_error p ip
  | None =>
      if negb (isDomainAllowed p host) then
        if DomainFilterMode p then Some (ErrMsg ("domain not in whitelist: " +:+ host))
        else Some (ErrMsg ("domain in blacklist: " +:+ host))
      else if negb (ApplyIPFilterForDomain p) then None
      else
        match LookupIP host with
        | Err e => Some (ErrMsg ("DNS resolution failed for " +:+ host +:+ ": " +:+ error_text e))
        | Ok ips => resolved_error p host ips
        end
  end.

(** [ValidateURL] returns an error or [nil]. *)
Definition ValidateURL (p : SSRFProtection) (urlStr : string) : option error :=
  match url_Parse urlStr with
  | Err e => Some (ErrMsg ("invalid URL format: " +:+ error_text e))
  | Ok u =>
      if negb (String.eqb (u_Scheme u) "http") && negb (String.eqb (u_Scheme u) "https")
      then Some (ErrMsg ("unsupported protocol: " +:+ u_Scheme u +:+ " (only http/https allowed)"))
      else
        let '(host, portStr) := url_target u in
        match Atoi portStr with
        | None => Some (ErrMsg ("invalid port: " +:+ portStr))
        | Some port =>
            if negb (isAllowedPort p port) then Some (ErrMsg ("port " +:+ Itoa port +:+ " is not allowed"))
            else host_error p host
        end
  end.

Definition ValidateURLWithFetchSetting (urlStr : string) (enableSSRFProtection allowPrivateIp domainFilterMode ipFilterMode : bool)
    (domainList ipList allowedPorts : list string) (applyIPFilterForDomain : bool) : option error :=
  if negb enableSSRFProtection then None
  else
    match parsePortRanges allowedPorts with
    | Err e => Some (ErrMsg ("request reject - invalid port configuration: " +:+ error_text e))
    | Ok allowedPortInts =>
        ValidateURL (mkSSRFProtection allowPrivateIp domainFilterMode domainList ipFilterMode ipList
                       allowedPortInts applyIPFilterForDomain) urlStr
    end.
End Validate.

(** ** Reserved blocks as numbers *)

(** The special-purpose blocks of the IANA registries the source cites: the
    number of the first address and the length of the prefix. *)
Definition dotted (a b c d : Z) : Z := 2 ^ 24 * a + 2 ^ 16 * b + 2 ^ 8 * c + d.

Definition v4_blocks : list (Z * Z) :=
  [(dotted 0 0 0 0, 8); (dotted 10 0 0 0, 8); (dotted 100 64 0 0, 10); (dotted 127 0 0 0, 8); (dotted 169 254 0 0, 16);
   (dotted 172 16 0 0, 12); (dotted 192 0 0 0, 24); (dotted 192 0 2 0, 24); (dotted 192 168 0 0, 16);
   (dotted 198 18 0 0, 15); (dotted 198 51 100 0, 24); (dotted 203 0 113 0, 24); (dotted 224 0 0 0, 4);
   (dotted 240 0 0 0, 4); (dotted 255 255 255 255, 32)].

(** [::ffff:0:0/96], the addresses that carry an IPv4 address in their last 32 bits. *)
Definition mapped_block : Z * Z := (0xffff * 2 ^ 32, 96).

Definition v6_blocks : list (Z * Z) :=
  [(0, 128); (1, 128); mapped_block; (0x64ff9b * 2 ^ 96, 96); (0x100 * 2 ^ 112, 64); (0x2001 * 2 ^ 112, 23);
   (0x20010db8 * 2 ^ 96, 32); (0xfc * 2 ^ 120, 7); (0xfe8 * 2 ^ 116, 10); (0xff * 2 ^ 120, 8)].

(** The address, a number of 32 or 128 bits, lies in a reserved block.  A
    mapped address is taken for the IPv4 address it carries, although its
    block is listed. *)
Definition reserved (ip : IP) : bool :=
  let n := be_value ip in
  if (length ip =? 4)%nat then existsb (in_block n 32) v4_blocks
  else if in_block n 128 mapped_block then existsb (in_block (n - fst mapped_block) 32) v4_blocks
  else existsb (in_block n 128) v6_blocks.

(** The same by the form of the address. *)
Definition unmapped_blocks : list (Z * Z) := take 2 v6_blocks ++ drop 3 v6_blocks.
Definition reserved_form (ip : IP) : bool :=
  match To4 ip with
  | Some v4 => existsb (in_block (be_value v4) 32) v4_blocks
  | None => existsb (in_block (be_value ip) 128) unmapped_blocks
  end.

Lemma be_value_app l1 l2 : be_value (l1 ++ l2) = be_value l1 * 256 ^ Z.of_nat (length l2) + be_value l2.
Proof.
  induction l1 as [|b l1 IH]; cbn [app be_value]; [lia|]. rewrite IH, length_app, Nat2Z.inj_add, Z.pow_add_r by lia. lia.
Qed.

Lemma be_value_inj l1 : forall l2, length l1 = length l2 -> Forall is_byte l1 -> Forall is_byte l2 -> be_value l1 = be_value l2 -> l1 = l2.
Proof.
  induction l1 as [|a l1 IH]; intros [|b l2] Hl H1 H2 E; try done. injection Hl as Hl.
  apply Forall_cons in H1 as [Ha H1], H2 as [Hb H2]. pose proof (be_value_bound l1 H1) as B1. pose proof (be_value_bound l2 H2) as B2.
  cbn [be_value] in E. rewrite Hl in E, B1. set (p := 256 ^ Z.of_nat (length l2)) in *.
  assert (a = b) as -> by nia. f_equal. apply IH; try done. lia.
Qed.

(** The forms that carry an IPv4 address are those whose number is in the block. *)
Lemma mapped_form ip : length ip = 16%nat -> Forall is_byte ip ->
  match To4 ip with
  | Some v4 => in_block (be_value ip) 128 mapped_block = true /\ be_value v4 = be_value ip - fst mapped_block
  | None => in_block (be_value ip) 128 mapped_block = false
  end.
Proof.
  intros Hl Hb. rewrite <- (take_drop 12 ip) in Hb. apply Forall_app in Hb as [Hp Hd].
  assert (be_value ip = be_value (take 12 ip) * 2 ^ 32 + be_value (drop 12 ip)) as Hv.
  { rewrite <- (take_drop 12 ip) at 1. rewrite be_value_app, length_drop, Hl. done. }
  pose proof (be_value_bound _ Hd) as Bd. rewrite length_drop, Hl in Bd. change (256 ^ Z.of_nat (16 - 12)) with (2 ^ 32) in Bd.
  unfold To4. rewrite Hl. cbn [Nat.eqb andb]. unfold in_block, mapped_block. cbn [fst snd].
  case_bool_decide as E; rewrite Hv.
  - rewrite E. change (be_value v4InV6Prefix) with 0xffff. change (128 - 96) with 32. split; lia.
  - change (128 - 96) with 32. apply andb_false_iff. rewrite Z.leb_gt, Z.ltb_ge.
    assert (be_value (take 12 ip) <> 0xffff); [|lia]. intros E'. apply E, be_value_inj; [|done| |by rewrite E'].
    + by rewrite length_take, Hl.
    + apply (bool_decide_unpack _). vm_compute. exact I.
Qed.

Lemma reserved_by_form ip : ip_ok ip -> reserved ip = reserved_form ip.
Proof.
  intros [[Hl|Hl] Hb]; unfold reserved, reserved_form; rewrite Hl; cbn [Nat.eqb].
  - unfold To4. by rewrite Hl.
  - pose proof (mapped_form ip Hl Hb) as Hm. destruct (To4 ip) as [v4|]; [destruct Hm as [-> ->]; done|]. rewrite Hm.
    change v6_blocks with (take 2 unmapped_blocks ++ mapped_block :: drop 2 unmapped_blocks).
    rewrite <- (take_drop 2 unmapped_blocks) at 3. rewrite !existsb_app. cbn [existsb]. by rewrite Hm.
Qed.

(** ** The byte masks decide the blocks *)

(** The network of a block, after the 4-in-6 conversion. *)
Definition net_is (len : nat) (n : IPNet) (block : Z * Z) : bool :=
  let '(nn, m) := networkNumberAndMask n in
  bool_decide (m = CIDRMask (snd block) len) && (length nn =? len)%nat && bool_decide (Forall is_byte nn) &&
  (be_value nn =? fst block) && (fst block mod 2 ^ (8 * Z.of_nat len - snd block) =? 0) &&
  bool_decide (0 <= snd block <= 8 * Z.of_nat len).

(** The form in which an address is compared. *)
Definition canonical_ip (ip : IP) : Prop := match To4 ip with Some x => x = ip | None => True end.

Lemma contains_block len n block ip :
  net_is len n block = true -> canonical_ip ip -> length ip = len -> Forall is_byte ip ->
  Contains_ip n ip = in_block (be_value ip) (8 * Z.of_nat len) block.
Proof.
  unfold net_is, Contains_ip, canonical_ip. destruct (networkNumberAndMask n) as [nn m]. destruct block as [first ones].
  cbn [fst snd]. intros Hn Hc Hl Hb. split_bool.
  repeat match goal with H : (_ =? _)%nat = true |- _ => apply Nat.eqb_eq in H | H : (_ =? _) = true |- _ => apply Z.eqb_eq in H end.
  replace (match To4 ip with Some x => x | None => ip end) with ip by (by destruct (To4 ip)).
  assert (E : length nn = length ip) by congruence. rewrite E, Nat.eqb_refl. subst first m. subst len.
  rewrite <- E in *. by apply masked_in_block.
Qed.

Lemma contains_blocks len nets blocks ip :
  Forall2 (fun n b => net_is len n b = true) nets blocks -> canonical_ip ip -> length ip = len -> Forall is_byte ip ->
  existsb (fun n => Contains_ip n ip) nets = existsb (in_block (be_value ip) (8 * Z.of_nat len)) blocks.
Proof.
  intros HF Hc Hl Hb. induction HF as [|n b nets blocks Hn _ IH]; [done|]. cbn [existsb].
  by rewrite IH, (contains_block len n b ip).
Qed.

Lemma v4_nets : Forall2 (fun n b => net_is 4 n b = true) privateIPv4Nets v4_blocks.
Proof. repeat (apply Forall2_cons_2; [vm_compute; reflexivity|]). apply Forall2_nil_2. Qed.

(** The third network, of mapped addresses, is one of IPv4 to [Contains_ip]. *)
Lemma v6_nets : Forall2 (fun n b => net_is 16 n b = true) (take 2 privateIPv6Nets ++ drop 3 privateIPv6Nets) unmapped_blocks.
Proof.
  replace (take 2 privateIPv6Nets ++ drop 3 privateIPv6Nets) with
    (omap ParseCIDR ["::/128"; "::1/128"; "64:ff9b::/96"; "100::/64"; "2001::/23"; "2001:db8::/32"; "fc00::/7"; "fe80::/10"; "ff00::/8"])
    by (vm_compute; reflexivity).
  cbn [omap list_omap]. repeat (apply Forall2_cons_2; [vm_compute; reflexivity|]). apply Forall2_nil_2.
Qed.

Lemma mapped_net_is : exists n,
  privateIPv6Nets = take 2 privateIPv6Nets ++ n :: drop 3 privateIPv6Nets /\ length (fst (networkNumberAndMask n)) = 4%nat.
Proof. eexists. split; [vm_compute; reflexivity | reflexivity]. Qed.

Lemma v6_nets_contain ip : To4 ip = None -> length ip = 16%nat -> Forall is_byte ip ->
  existsb (fun n => Contains_ip n ip) privateIPv6Nets = existsb (in_block (be_value ip) 128) unmapped_blocks.
Proof.
  intros H4 Hl Hb. change 128 with (8 * Z.of_nat 16). rewrite <- (contains_blocks 16 _ unmapped_blocks ip v6_nets) by (done || (unfold canonical_ip; by rewrite H4)).
  destruct mapped_net_is as (n & E & Hn). rewrite E at 1. rewrite !existsb_app. cbn [existsb].
  assert (Contains_ip n ip = false) as ->; [|done].
  unfold Contains_ip. destruct (networkNumberAndMask n) as [nn m]. cbn in Hn. by rewrite H4, Hl, Hn.
Qed.

(** ** The shortcuts are covered by the blocks *)

Lemma in_blocks block v bits blocks : bool_decide (block ∈ blocks) = true -> fst block <= v < fst block + 2 ^ (bits - snd block) ->
  existsb (in_block v bits) blocks = true.
Proof.
  intros Hin%bool_decide_eq_true_1 Hv. apply existsb_exists. exists block. split; [by apply list_elem_of_In|].
  unfold in_block. rewrite andb_true_iff, Z.leb_le, Z.ltb_lt. lia.
Qed.

Lemma be_value_2 a b l : length l = 14%nat -> Forall is_byte l ->
  exists w, be_value (a :: b :: l) = a * 2 ^ 120 + b * 2 ^ 112 + w /\ 0 <= w < 2 ^ 112.
Proof.
  intros Hl Hb. exists (be_value l). pose proof (be_value_bound l Hb) as Hv. rewrite Hl in Hv.
  cbn [be_value length]. rewrite Hl. change (256 ^ Z.of_nat 15) with (2 ^ 120). change (256 ^ Z.of_nat 14) with (2 ^ 112) in *. lia.
Qed.

(** The bits of a byte that the classification predicates test. *)
Definition byte_tests (b : Z) : bool :=
  implb (Z.land b 192 =? 128) ((128 <=? b) && (b <? 192)) && implb (Z.land b 254 =? 252) ((252 <=? b) && (b <? 254)).

Lemma byte_tests_hold b : is_byte b ->
  (Z.land b 192 = 128 -> 128 <= b < 192) /\ (Z.land b 254 = 252 -> 252 <= b < 254).
Proof.
  intros Hb. assert (H : forallb byte_tests (seqZ 0 256) = true) by (vm_compute; done).
  rewrite forallb_forall in H. specialize (H b). unfold byte_tests in H.
  assert (In b (seqZ 0 256)) as Hin by (apply list_elem_of_In, elem_of_seqZ; unfold is_byte in *; lia).
  specialize (H Hin). split_bool. split; intros E; rewrite E in *; cbn in *; lia.
Qed.

(** What the standard library's predicates recognise. *)
Definition shortcut (ip : IP) : bool :=
  IsUnspecified ip || (IsLoopback ip || IsLinkLocalUnicast ip || IsLinkLocalMulticast ip) || IsInterfaceLocalMulticast ip.

Lemma To4_mapped ip v4 : To4 ip = Some v4 -> length ip = 4%nat /\ v4 = ip \/ length ip = 16%nat /\ ip = v4InV6Prefix ++ v4.
Proof.
  unfold To4. destruct (Nat.eqb_spec (length ip) 4); [intros [= <-]; auto|].
  destruct (Nat.eqb_spec (length ip) 16); [|done]. cbn [andb]. case_bool_decide as E; [|done]. intros [= <-].
  right. split; [done|]. by rewrite <- E, take_drop.
Qed.

Lemma To4_bytes ip v4 : ip_ok ip -> To4 ip = Some v4 -> exists a b c d, v4 = [a; b; c; d] /\ Forall is_byte v4.
Proof.
  intros [_ Hb] [(Hl & ->)|(Hl & ->)]%To4_mapped.
  - destruct ip as [|a [|b [|c [|d [|]]]]]; try done. by eexists _, _, _, _.
  - apply Forall_app in Hb as [_ Hb]. destruct v4 as [|a [|b [|c [|d [|]]]]]; try done. by eexists _, _, _, _.
Qed.

Lemma IP_Equal_v4 ip v4 w : To4 ip = Some v4 -> length w = 4%nat -> IP_Equal ip (v4InV6Prefix ++ w) = true -> v4 = w.
Proof.
  intros [(Hl & ->)|(Hl & ->)]%To4_mapped Hw; unfold IP_Equal; rewrite Hl, !length_app, Hw; cbn; intros H; split_bool.
  - done.
  - by simplify_eq.
Qed.

Lemma shortcut_v4 ip v4 : ip_ok ip -> To4 ip = Some v4 -> shortcut ip = true -> reserved_form ip = true.
Proof.
  intros Hok H4 Hs. destruct (To4_bytes ip v4 Hok H4) as (a & b & c & d & -> & Hb).
  rewrite !Forall_cons in Hb. destruct Hb as (Ha & Hb & Hc & Hd & _). unfold is_byte in *.
  assert (Hv : be_value [a; b; c; d] = dotted a b c d) by (unfold dotted; cbn; lia).
  assert (Hnot : IsInterfaceLocalMulticast ip = false).
  { unfold IsInterfaceLocalMulticast, is_v6. apply To4_mapped in H4 as [(-> & _)|(-> & ->)]; done. }
  assert (Hun : IsUnspecified ip = true -> a = 0).
  { unfold IsUnspecified. rewrite orb_true_iff. intros [H|H].
    - apply (IP_Equal_v4 _ _ [0; 0; 0; 0] H4) in H; [congruence | done].
    - apply To4_mapped in H4 as [(Hl & <-)|(Hl & ->)]; [|done]. revert H. unfold IP_Equal; cbn. intros; split_bool. done. }
  assert (Hcase : a = 0 \/ a = 127 \/ (a = 169 /\ b = 254) \/ a = 224).
  { revert Hs. unfold shortcut, IsLoopback, IsLinkLocalUnicast, IsLinkLocalMulticast. rewrite H4, Hnot.
    unfold byte_at. cbn [nth]. rewrite !orb_true_iff, !andb_true_iff, !Z.eqb_eq. intuition discriminate. }
  unfold reserved_form. rewrite H4, Hv. unfold dotted in *.
  destruct Hcase as [-> | [-> | [[-> ->] | ->]]];
    [apply (in_blocks (dotted 0 0 0 0, 8)); [by vm_compute|]
    | apply (in_blocks (dotted 127 0 0 0, 8)); [by vm_compute|]
    | apply (in_blocks (dotted 169 254 0 0, 16)); [by vm_compute|]
    | apply (in_blocks (dotted 224 0 0 0, 4)); [by vm_compute|]]; unfold dotted; cbn [fst snd]; lia.
Qed.

Lemma shortcut_v6 ip : ip_ok ip -> To4 ip = None -> shortcut ip || IsPrivate ip = true -> reserved_form ip = true.
Proof.
  intros [Hl Hb] H4 Hs. assert (length ip = 16%nat) as Hl16.
  { destruct Hl as [Hl|]; [|done]. unfold To4 in H4. by rewrite Hl in H4. }
  unfold reserved_form. rewrite H4.
  destruct ip as [|a [|b l]]; [done..|]. rewrite !Forall_cons in Hb. destruct Hb as (Ha & Hb & Hbl).
  destruct (be_value_2 a b l ltac:(cbn in Hl16; lia) Hbl) as (w & Hv & Hw).
  destruct (byte_tests_hold b Hb) as [Hb1 _]. destruct (byte_tests_hold a Ha) as [_ Ha2]. unfold is_byte in *.
  assert (Heq : forall x, length x = 16%nat -> IP_Equal (a :: b :: l) x = true -> a :: b :: l = x).
  { intros x Hx. unfold IP_Equal. rewrite Hl16, Hx. cbn [Nat.eqb]. apply bool_decide_eq_true_1. }
  assert (Hcase : a :: b :: l = zeros 16 \/ a :: b :: l = zeros 15 ++ [1] \/ (a = 254 /\ 128 <= b < 192) \/ a = 255 \/ 252 <= a < 254).
  { revert Hs. unfold shortcut, IsUnspecified, IsLoopback, IsLinkLocalUnicast, IsLinkLocalMulticast, IsInterfaceLocalMulticast, IsPrivate, is_v6, byte_at.
    rewrite H4, Hl16. cbn [nth Nat.eqb andb]. rewrite !orb_true_iff, !andb_true_iff, !Z.eqb_eq.
    intros H. assert (IP_Equal (a :: b :: l) (IPv4 0 0 0 0) = false) as Hn.
    { destruct (IP_Equal _ _) eqn:E; [|done]. apply Heq in E; [|done]. rewrite E in H4. done. }
    rewrite Hn in H. intuition (try discriminate); auto. }
  destruct Hcase as [E | [E | [[-> ?] | [-> | ?]]]]; rewrite ?E, ?Hv.
  - by vm_compute.
  - by vm_compute.
  - apply (in_blocks (0xfe8 * 2 ^ 116, 10)); [by vm_compute | cbn [fst snd]; lia].
  - apply (in_blocks (0xff * 2 ^ 120, 8)); [by vm_compute | cbn [fst snd]; lia].
  - apply (in_blocks (0xfc * 2 ^ 120, 7)); [by vm_compute | cbn [fst snd]; lia].
Qed.

Lemma isPrivateIP_shortcut ip : length ip <> 0%nat ->
  isPrivateIP ip =
    (shortcut ip || match To4 ip with
                    | Some v4 => existsb (fun n => Contains_ip n v4) privateIPv4Nets
                    | None => existsb (fun n => Contains_ip n ip) privateIPv6Nets || IsPrivate ip
                    end).
Proof.
  intros Hl%Nat.eqb_neq. unfold isPrivateIP, shortcut. rewrite Hl.
  destruct (IsUnspecified ip); [done|]. cbn [orb]. destruct (IsLoopback ip || IsLinkLocalUnicast ip || IsLinkLocalMulticast ip); [done|].
  cbn [orb]. destruct (IsInterfaceLocalMulticast ip); [done|]. cbn [orb].
  destruct (To4 ip); [done|]. by destruct (existsb _ _).
Qed.

Lemma private_blocks ip : ip_ok ip -> isPrivateIP ip = reserved ip.
Proof.
  intros Hok. rewrite reserved_by_form by done. assert (Hl : length ip <> 0%nat) by (destruct Hok; lia). rewrite isPrivateIP_shortcut by done.
  destruct (To4 ip) as [v4|] eqn:H4.
  - destruct (To4_bytes ip v4 Hok H4) as (a & b & c & d & E & Hb).
    rewrite (contains_blocks 4 _ v4_blocks v4 v4_nets) by (subst; done).
    pose proof (shortcut_v4 ip v4 Hok H4) as Hs. unfold reserved_form in *. rewrite H4 in *.
    change (8 * Z.of_nat 4) with 32. destruct (shortcut ip); [by rewrite Hs | done].
  - pose proof (shortcut_v6 ip Hok H4) as Hs. destruct Hok as [Hlen Hb].
    rewrite v6_nets_contain; [|done| |done].
    2: { destruct Hlen as [Hlen|]; [|done]. unfold To4 in H4. by rewrite Hlen in H4. }
    unfold reserved_form in *. rewrite H4 in *.
    destruct (shortcut ip), (IsPrivate ip); cbn [orb] in *; rewrite ?Hs, ?orb_true_r, ?orb_false_r by done; done.
Qed.

(** C33. The reserved-address test, which masks bytes, converts between the 4-
    and 16-byte forms and first asks the standard library's predicates, is
    membership of the address, read as a number, in the listed special-purpose
    blocks, but for the listed block of mapped addresses: a 4-byte address is
    reported exactly when it is in one of the fifteen IPv4 blocks, a 16-byte
    one of [::ffff:0:0/96] exactly when the IPv4 address it carries is in one
    of those, and any other 16-byte one exactly when it is in one of the ten
    listed IPv6 blocks.  So a public address in mapped form, such as
    ::ffff:8.8.8.8, is not reported although its block is listed. *)
Theorem private_is_reserved ip : ip_ok ip ->
  let n := be_value ip in
  isPrivateIP ip =
    (if (length ip =? 4)%nat then existsb (in_block n 32) v4_blocks
     else if in_block n 128 mapped_block then existsb (in_block (n - fst mapped_block) 32) v4_blocks
     else existsb (in_block n 128) v6_blocks).
Proof. apply private_blocks. Qed.

Lemma private_is_reserved_witness :
  isPrivateIP [172; 31; 255; 255] = true /\ isPrivateIP [172; 32; 0; 0] = false /\
  isPrivateIP (IPv4 10 0 0 1) = true /\ isPrivateIP (IPv4 8 8 8 8) = false /\
  in_block (be_value (IPv4 8 8 8 8)) 128 mapped_block = true.
Proof.
  pose proof (private_is_reserved [172; 31; 255; 255] ltac:(apply (bool_decide_unpack _); vm_compute; exact I)) as H1.
  pose proof (private_is_reserved [172; 32; 0; 0] ltac:(apply (bool_decide_unpack _); vm_compute; exact I)) as H2.
  pose proof (private_is_reserved (IPv4 10 0 0 1) ltac:(apply (bool_decide_unpack _); vm_compute; exact I)) as H3.
  pose proof (private_is_reserved (IPv4 8 8 8 8) ltac:(apply (bool_decide_unpack _); vm_compute; exact I)) as H4.
  rewrite H1, H2, H3, H4. repeat split; vm_compute; reflexivity.
Defined.

(** ** Ports *)

Lemma ports_from_elem n lo port : port ∈ ports_from n lo <-> lo <= port < lo + Z.of_nat n.
Proof.
  revert lo. induction n as [|n IH]; intros lo; cbn [ports_from].
  - rewrite elem_of_nil. lia.
  - rewrite elem_of_cons, IH. lia.
Qed.

Lemma port_range_elem lo hi port : port ∈ port_range lo hi <-> lo <= port <= hi.
Proof. unfold port_range. rewrite ports_from_elem. destruct (Z.leb_spec lo hi); lia. Qed.

(** A setting names the ports from [lo] to [hi]. *)
Definition names_ports (config : string) (lo hi : Z) : Prop :=
  TrimSpace config <> "" /\ 1 <= lo /\ lo <= hi /\ hi <= 65535 /\
  exists ps, parse_port_config (TrimSpace config) = Ok ps /\ forall port, port ∈ ps <-> lo <= port <= hi.

Lemma parse_port_config_range config ps :
  parse_port_config config = Ok ps ->
  exists lo hi, 1 <= lo /\ lo <= hi /\ hi <= 65535 /\ forall port, port ∈ ps <-> lo <= port <= hi.
Proof.
  unfold parse_port_config, bad_port. intros H. cases_in H.
  - eexists _, _. split_and!; [..|intros; apply port_range_elem]; lia.
  - eexists _, _. split_and!; [..|intros; rewrite list_elem_of_singleton; split; [intros ->; split; reflexivity|lia]]; lia.
Qed.

(** The ports that the settings admit: all of them when nothing is named. *)
Definition port_admitted (configs : list string) (port : Z) : Prop :=
  (forall config, config ∈ configs -> TrimSpace config = "") \/
  exists config lo hi, config ∈ configs /\ names_ports config lo hi /\ lo <= port <= hi.

Lemma parsePortRanges_elem configs ports port :
  parsePortRanges configs = Ok ports ->
  port ∈ ports <-> exists config lo hi, config ∈ configs /\ names_ports config lo hi /\ lo <= port <= hi.
Proof.
  revert ports. induction configs as [|config configs IH]; intros ports; cbn [parsePortRanges].
  { intros [= <-]. split; [by intros ?%elem_of_nil | by intros (? & ? & ? & ?%elem_of_nil & _)]. }
  destruct (String.eqb_spec (TrimSpace config) "") as [E|E].
  - intros H. rewrite (IH _ H). setoid_rewrite elem_of_cons. split; [naive_solver|].
    intros (c & lo & hi & [->|Hc] & Hn & Hp); [by destruct Hn | eauto 10].
  - intros H. inv_ok. subst ports. rewrite elem_of_app, (IH _ H1). setoid_rewrite elem_of_cons.
    split.
    + intros [Hp|Hp]; [|naive_solver].
      destruct (parse_port_config_range _ _ H0) as (lo & hi & ? & ? & ? & Hlh). exists config, lo, hi.
      split_and!; [by left | | |]; [|by apply Hlh..]. unfold names_ports. eauto 10.
    + intros (c & lo & hi & [->|Hc] & Hn & Hp); [left | right; eauto 10].
      destruct Hn as (_ & _ & _ & _ & ps & Hps & Hlh). rewrite H0 in Hps. injection Hps as <-. by apply Hlh.
Qed.

Lemma parsePortRanges_nil configs ports :
  parsePortRanges configs = Ok ports -> ports = [] <-> forall config, config ∈ configs -> TrimSpace config = "".
Proof.
  revert ports. induction configs as [|config configs IH]; intros ports; cbn [parsePortRanges].
  { intros [= <-]. split; [by intros _ ? ?%elem_of_nil | done]. }
  setoid_rewrite elem_of_cons. destruct (String.eqb_spec (TrimSpace config) "") as [E|E].
  - intros H. rewrite (IH _ H). naive_solver.
  - intros H. inv_ok. subst ports. split; [|intros Hb; by destruct E; apply Hb; left].
    destruct (parse_port_config_range _ _ H0) as (lo & hi & ? & ? & ? & Hlh).
    intros Hnil. apply app_eq_nil in Hnil as [-> _]. exfalso.
    assert (lo ∈ ([] : list Z)) as ?%elem_of_nil by (apply Hlh; lia). done.
Qed.

Lemma isAllowedPort_spec p configs port :
  parsePortRanges configs = Ok (AllowedPorts p) -> isAllowedPort p port = true <-> port_admitted configs port.
Proof.
  intros H. unfold isAllowedPort, port_admitted. rewrite <- (parsePortRanges_nil _ _ H), <- (parsePortRanges_elem _ _ port H).
  destruct (AllowedPorts p) as [|a l] eqn:E; [tauto|]. rewrite existsb_exists. setoid_rewrite Z.eqb_eq.
  setoid_rewrite <- list_elem_of_In. naive_solver.
Qed.

(** ** Accepted URLs *)

(** The addresses that are checked for a host: itself, or what the resolver
    answers for a name, or none when names are not checked by their addresses. *)
Definition checked_addresses (LookupIP : string -> result (list IP)) (byAddress : bool) (host : string) : result (list IP) :=
  match ParseIP host with Some ip => Ok [ip] | None => if byAddress then LookupIP host else Ok [] end.

Lemma isIPListed_list ip l : isIPListed ip l = IsIpInCIDRList ip l.
Proof. by destruct l. Qed.

Lemma access_spec p ip : ip_ok ip ->
  IsIPAccessAllowed p ip = true <-> (AllowPrivateIp p = false -> reserved ip = false) /\ IsIpInCIDRList ip (IpList p) = IpFilterMode p.
Proof.
  intros Hok. unfold IsIPAccessAllowed. rewrite private_blocks, isIPListed_list by done.
  destruct (AllowPrivateIp p), (reserved ip), (IpFilterMode p), (IsIpInCIDRList ip (IpList p)); cbn; intuition congruence.
Qed.

Lemma domain_spec p host : isDomainAllowed p host = true <-> isDomainListed host (DomainList p) = DomainFilterMode p.
Proof. unfold isDomainAllowed. destruct (DomainFilterMode p), (isDomainListed host _); cbn; intuition congruence. Qed.

Lemma address_error_None ip_String p ip : address_error ip_String p ip = None <-> IsIPAccessAllowed p ip = true.
Proof. unfold address_error. destruct (IsIPAccessAllowed p ip), (isPrivateIP ip), (IpFilterMode p); done. Qed.

Lemma resolved_error_None ip_String p host ips :
  resolved_error ip_String p host ips = None <-> forall ip, ip ∈ ips -> IsIPAccessAllowed p ip = true.
Proof.
  induction ips as [|ip ips IH]; cbn [resolved_error].
  - split; [by intros _ ? ?%elem_of_nil | done].
  - setoid_rewrite elem_of_cons. destruct (IsIPAccessAllowed p ip) eqn:E; [rewrite IH; naive_solver|].
    split; [by destruct (_ && _), (IpFilterMode p)|]. intros H. specialize (H ip (or_introl eq_refl)). congruence.
Qed.

Lemma host_error_None LookupIP ip_String p host :
  host_error LookupIP ip_String p host = None <->
  (ParseIP host = None -> isDomainAllowed p host = true) /\
  exists ips, checked_addresses LookupIP (ApplyIPFilterForDomain p) host = Ok ips /\ forall ip, ip ∈ ips -> IsIPAccessAllowed p ip = true.
Proof.
  unfold host_error, checked_addresses. destruct (ParseIP host) as [ip|].
  - rewrite address_error_None. split; [|intros (_ & ips & [= <-] & H); apply H; by left].
    intros H. split; [done|]. exists [ip]. split; [done|]. by intros ? ->%list_elem_of_singleton.
  - destruct (isDomainAllowed p host); cbn [negb].
    + destruct (ApplyIPFilterForDomain p); cbn [negb]; [|split; [intros _; split; [done|]; exists []; split; [done|]; by intros ? ?%elem_of_nil | done]].
      destruct (LookupIP host) as [ips|e]; [|split; [done | by intros (_ & ? & ? & _)]].
      rewrite resolved_error_None. split; [intros; split; [done|]; by exists ips|]. by intros (_ & ? & [= <-] & H).
    + split; [by destruct (DomainFilterMode p)|]. intros [H _]. by specialize (H eq_refl).
Qed.

(** Acceptance, with the port list already parsed. *)
Lemma ValidateURL_None url_Parse LookupIP ip_String p urlStr :
  ValidateURL url_Parse LookupIP ip_String p urlStr = None <->
  exists u host portStr port,
    url_Parse urlStr = Ok u /\ u_Scheme u ∈ ["http"; "https"] /\
    url_target u = (host, portStr) /\ Atoi portStr = Some port /\ isAllowedPort p port = true /\
    host_error LookupIP ip_String p host = None.
Proof.
  assert (Hs : forall u, u_Scheme u ∈ ["http"; "https"] <->
    negb (String.eqb (u_Scheme u) "http") && negb (String.eqb (u_Scheme u) "https") = false).
  { intros u. rewrite <- str_in_spec. unfold str_in; cbn [existsb].
    destruct (String.eqb (u_Scheme u) "http"), (String.eqb (u_Scheme u) "https"); done. }
  setoid_rewrite Hs. unfold ValidateURL. split.
  - intros H. destruct (url_Parse urlStr) as [u|e]; [|done].
    destruct (negb _ && _) eqn:E1; [done|]. destruct (url_target u) as [host portStr] eqn:E2.
    destruct (Atoi portStr) as [port|] eqn:E3; [|done]. destruct (isAllowedPort p port) eqn:E4; [|done].
    by exists u, host, portStr, port.
  - intros (u & host & portStr & port & -> & -> & -> & -> & -> & H). done.
Qed.

(** C32. Which URLs are accepted, for all settings, every URL parser and every
    resolver that answers addresses of 4 or 16 bytes.  Without the filter, all
    are.  With it, a URL is accepted exactly when the port settings are well
    formed, it is an http or https URL on a port the settings name (or they
    name none), its host, when it is a name, is on the right side of the
    domain list, and each of its addresses that is checked is on the right
    side of the address list and, unless private addresses are allowed,
    outside the reserved blocks.  The address of a literal host is checked;
    those of a name only when the settings ask for it, and then the name must
    resolve. *)
Theorem accepted_url_is_public url_Parse LookupIP ip_String
    (Hdns : forall host ips, LookupIP host = Ok ips -> Forall ip_ok ips)
    urlStr enabled allowPrivateIp domainFilterMode ipFilterMode domainList ipList allowedPorts byAddress :
  ValidateURLWithFetchSetting url_Parse LookupIP ip_String urlStr enabled allowPrivateIp domainFilterMode ipFilterMode
    domainList ipList allowedPorts byAddress = None <->
  enabled = false \/
  is_ok (parsePortRanges allowedPorts) = true /\
  exists u host portStr port ips,
    url_Parse urlStr = Ok u /\ u_Scheme u ∈ ["http"; "https"] /\
    url_target u = (host, portStr) /\ Atoi portStr = Some port /\ port_admitted allowedPorts port /\
    (ParseIP host = None -> isDomainListed host domainList = domainFilterMode) /\
    checked_addresses LookupIP byAddress host = Ok ips /\
    forall ip, ip ∈ ips -> (allowPrivateIp = false -> reserved ip = false) /\ IsIpInCIDRList ip ipList = ipFilterMode.
Proof.
  unfold ValidateURLWithFetchSetting. destruct enabled; cbn [negb]; [|split; [by left | done]].
  destruct (parsePortRanges allowedPorts) as [ports|e] eqn:Ep; [|split; [done | by intros [?|[? _]]]].
  set (p := mkSSRFProtection _ _ _ _ _ _ _). rewrite ValidateURL_None.
  setoid_rewrite (host_error_None LookupIP ip_String p _).
  setoid_rewrite (isAllowedPort_spec p allowedPorts _ Ep). setoid_rewrite (domain_spec p).
  assert (Hips : forall host ips, checked_addresses LookupIP byAddress host = Ok ips ->
    (forall ip, ip ∈ ips -> IsIPAccessAllowed p ip = true) <->
    (forall ip, ip ∈ ips -> (allowPrivateIp = false -> reserved ip = false) /\ IsIpInCIDRList ip ipList = ipFilterMode)).
  { intros host ips Ha. assert (Hok : Forall ip_ok ips).
    { unfold checked_addresses in Ha. destruct (ParseIP host) as [ip|] eqn:E.
      - simplify_eq. apply Forall_singleton. by eapply ParseIP_ok.
      - destruct byAddress; [by eapply Hdns|]. simplify_eq. constructor. }
    rewrite Forall_forall in Hok.
    split; intros H ip Hip; apply (access_spec p ip (Hok ip Hip)), H, Hip. }
  split.
  - intros (u & host & ps & port & H1 & H2 & H3 & H4 & H5 & H6 & ips & H7 & H8). right. split; [done|].
    exists u, host, ps, port, ips. split_and!; try done. by apply (Hips host ips H7).
  - intros [?|(_ & u & host & ps & port & ips & H1 & H2 & H3 & H4 & H5 & H6 & H7 & H8)]; [done|].
    exists u, host, ps, port. split_and!; try done. exists ips. split; [done|]. by apply (Hips host ips H7).
Qed.

Definition demo_parse (s : string) : result URL :=
  if String.eqb s "https://api.example.com:8443/v1" then Ok (mkURL "https" "api.example.com:8443") else fail_with "unknown".
Definition demo_lookup (host : string) : result (list IP) :=
  if String.eqb host "api.example.com" then Ok [[93; 184; 216; 34]; IPv4 1 1 1 1] else fail_with "no such host".

Lemma demo_lookup_ok host ips : demo_lookup host = Ok ips -> Forall ip_ok ips.
Proof. unfold demo_lookup. destruct (String.eqb _ _); intros H; inv_ok. subst. apply (bool_decide_unpack _). vm_compute. exact I. Qed.

Lemma accepted_url_is_public_witness :
  ValidateURLWithFetchSetting demo_parse demo_lookup (fun _ => "ip") "https://api.example.com:8443/v1" true false true false
    ["*.Example.com"] ["8.8.0.0/16"] ["443"; " 8000 - 9000 "] true = None /\
  exists ips, checked_addresses demo_lookup true "api.example.com" = Ok ips /\
    forall ip, ip ∈ ips -> reserved ip = false /\ IsIpInCIDRList ip ["8.8.0.0/16"] = false.
Proof.
  assert (H : ValidateURLWithFetchSetting demo_parse demo_lookup (fun _ => "ip") "https://api.example.com:8443/v1" true false
    true false ["*.Example.com"] ["8.8.0.0/16"] ["443"; " 8000 - 9000 "] true = None) by (vm_compute; reflexivity).
  split; [exact H|].
  destruct (proj1 (accepted_url_is_public demo_parse demo_lookup (fun _ => "ip") demo_lookup_ok _ _ _ _ _ _ _ _ _) H)
    as [Hoff|(_ & u & host & ps & port & ips & H1 & _ & H3 & _ & _ & _ & H7 & H8)]; [discriminate Hoff|].
  exists ips. split.
  - rewrite <- H7. f_equal. injection H1 as <-. vm_compute in H3. by injection H3.
  - intros ip Hip. destruct (H8 ip Hip) as [Hr Hl]. split; [exact (Hr eq_refl) | exact Hl].
Defined.

(** A blacklisted name written with its final dot is the same name to the
    resolver and another one to the list. *)
Example trailing_dot_is_not_listed :
  isDomainListed "metadata.internal" ["*.internal"] = true /\ isDomainListed "metadata.internal." ["*.internal"] = false.
Proof. split; vm_compute; reflexivity. Qed.
