(* ===== verification/TokenAuth.v ===== *)
(** * API tokens and the admission of requests

    [src/model/token.go] (the token rows, their creation and deletion, their
    validation) and [TokenAuth] of [src/middleware/auth.go], through which
    every relay request passes: the key is taken from the headers, the token
    is read from the cache or the database and validated, then the client
    address, the owner and the group are checked and the request's context is
    filled.

    The table is a map from ids to rows, soft-deleted rows included.  What the
    process learns from outside during one call (a cache hit, a failing query,
    the two readings of the clock) is the record [AuthReplies].  The
    subscription test is [HasActiveUserSubscription] of [SubStore], the groups
    are those of [ChannelSelect], the address lists those of [SSRF]. *)

From stdpp Require Import base numbers list strings gmap.
From Stdlib Require Import ZArith Lia Ascii.
From S2P Require Import Prelude GoInt GoString GoText SubStore ChannelSelect NetAddr SSRF.

(** ** Rows *)

Record AccessToken := mkAccessToken {
  ak_Id : Z; ak_ProviderId : Z; ak_UserId : Z; ak_Key : string; ak_Status : Z; ak_Name : string;
  ak_AccessedTime : Z; ak_ExpiredTime : Z; ak_RemainQuota : Z; ak_UnlimitedQuota : bool;
  ak_ModelLimitsEnabled : bool; ak_ModelLimits : string; ak_AllowIps : option string;
  ak_Group : string; ak_CrossGroupRetry : bool; ak_Deleted : bool
}.

Notation tokenDB := (gmap Z AccessToken).

Definition TokenStatusEnabled : Z := 1.
Definition TokenStatusDisabled : Z := 2.
Definition TokenStatusExpired : Z := 3.
Definition TokenStatusExhausted : Z := 4.
Definition UserStatusEnabled : Z := 1.
Definition RoleAdminUser : Z := 10.

Definition with_status (status : Z) (t : AccessToken) : AccessToken :=
  mkAccessToken (ak_Id t) (ak_ProviderId t) (ak_UserId t) (ak_Key t) status (ak_Name t) (ak_AccessedTime t) (ak_ExpiredTime t)
    (ak_RemainQuota t) (ak_UnlimitedQuota t) (ak_ModelLimitsEnabled t) (ak_ModelLimits t) (ak_AllowIps t)
    (ak_Group t) (ak_CrossGroupRetry t) (ak_Deleted t).

(** The rows a query sees: not soft-deleted. *)
Definition live_rows (db : tokenDB) : list AccessToken := List.filter (fun t => negb (ak_Deleted t)) (map snd (map_to_list db)).

(** [First]: the matching row with the lowest id. *)
Definition lower_id (t : AccessToken) (best : option AccessToken) : option AccessToken :=
  match best with
  | None => Some t
  | Some b => if ak_Id t <? ak_Id b then Some t else Some b
  end.
Definition first_row (p : AccessToken -> bool) (db : tokenDB) : option AccessToken :=
  foldr lower_id None (List.filter p (live_rows db)).

(** ** Restrictions of a token *)

(** The [strings.ReplaceAll] and [TrimSpace] of one line. *)
Definition clean_ip_line (ip : string) : string := drop_char "," (TrimSpace ip).

Definition GetIpLimits (t : AccessToken) : list string :=
  match ak_AllowIps t with
  | None => []
  | Some ips =>
      let cleanIps := drop_char " " ips in
      if String.eqb cleanIps "" then []
      else List.filter (fun ip => negb (String.eqb ip "")) (map clean_ip_line (Split cleanIps (ascii_of_nat 10)))
  end.

Definition GetModelLimits (t : AccessToken) : list string :=
  if String.eqb (ak_ModelLimits t) "" then [] else Split (ak_ModelLimits t) ",".

(** ** Validation *)

Inductive auth_error :=
  | ErrTokenNotProvided
  | ErrTokenInvalid
  | ErrDatabase (e : error).

Record AuthReplies := mkAuthReplies {
  ar_hit : option AccessToken;     (* the token is in the cache *)
  ar_readFault : option error;     (* the token query fails *)
  ar_subFault : option error;      (* the subscription query fails *)
  ar_subNow : Z;                   (* the clock of that query *)
  ar_now1 : Z;                     (* the clock at the subscription test *)
  ar_now2 : Z;                     (* the clock at the expiry check *)
  ar_writeFault : bool;            (* the status update fails *)
  ar_roleFault : bool              (* the role query fails *)
}.

Record UserBase := mkUserBase { ub_Status : Z; ub_Group : string }.

(** The process and what it serves from. *)
Record AuthEnv := mkAuthEnv {
  ae_RedisEnabled : bool;
  ae_subs : subDB;
  ae_groups : GroupSettings;
  ae_groupRatio : list string;             (* names with a group ratio *)
  ae_users : Z -> result UserBase;         (* GetUserCache *)
  ae_roles : gmap Z Z                      (* users.role *)
}.

Section Auth.
Context (env : AuthEnv).

(** [cacheSetToken] strips the key, [cacheGetTokenByKey] puts it back. *)
Definition with_key (key : string) (t : AccessToken) : AccessToken :=
  mkAccessToken (ak_Id t) (ak_ProviderId t) (ak_UserId t) key (ak_Status t) (ak_Name t) (ak_AccessedTime t) (ak_ExpiredTime t)
    (ak_RemainQuota t) (ak_UnlimitedQuota t) (ak_ModelLimitsEnabled t) (ak_ModelLimits t) (ak_AllowIps t)
    (ak_Group t) (ak_CrossGroupRetry t) (ak_Deleted t).

Definition auth_GetTokenByKey (re : AuthReplies) (key : string) (db : tokenDB) : result AccessToken :=
  let from_db :=
    match ar_readFault re with
    | Some e => Err e
    | None => match first_row (fun t => String.eqb (ak_Key t) key) db with
              | Some t => Ok t
              | None => Err ErrRecordNotFound
              end
    end in
  if ae_RedisEnabled env then
    match ar_hit re with Some t => Ok (with_key key t) | None => from_db end
  else from_db.

Definition GetTokenByIds (re : AuthReplies) (id userId : Z) (db : tokenDB) : result AccessToken :=
  if (id =? 0) || (userId =? 0) then fail_with "id 或 userId 为空！"
  else match ar_readFault re with
       | Some e => Err e
       | None => match first_row (fun t => (ak_Id t =? id) && (ak_UserId t =? userId)) db with
                 | Some t => Ok t
                 | None => Err ErrRecordNotFound
                 end
       end.

(** [SelectUpdate]: the row of that id gets the token's access time and status. *)
Definition SelectUpdate (re : AuthReplies) (t : AccessToken) (db : tokenDB) : tokenDB :=
  if ar_writeFault re then db
  else match db !! ak_Id t with
       | Some row =>
           if ak_Deleted row then db
           else <[ak_Id t := mkAccessToken (ak_Id row) (ak_ProviderId row) (ak_UserId row) (ak_Key row) (ak_Status t) (ak_Name row)
                               (ak_AccessedTime t) (ak_ExpiredTime row) (ak_RemainQuota row) (ak_UnlimitedQuota row)
                               (ak_ModelLimitsEnabled row) (ak_ModelLimits row) (ak_AllowIps row)
                               (ak_Group row) (ak_CrossGroupRetry row) (ak_Deleted row)]> db
       | None => db
       end.

Definition auth_verdict : Type := option AccessToken * option auth_error * tokenDB.

(** The status is written back only without Redis. *)
Definition mark (re : AuthReplies) (status : Z) (t : AccessToken) (db : tokenDB) : auth_verdict :=
  if ae_RedisEnabled env then (Some t, Some ErrTokenInvalid, db)
  else let t' := with_status status t in (Some t', Some ErrTokenInvalid, SelectUpdate re t' db).

Definition validateUserTokenRecordWithQuota (re : AuthReplies) (t : AccessToken) (providerId : Z) (allowZeroQuota : bool)
    (db : tokenDB) : auth_verdict :=
  if negb (ak_ProviderId t =? providerId) then (Some t, Some ErrTokenInvalid, db)
  else if (ak_Status t =? TokenStatusExpired) ||
          (negb (ak_Status t =? TokenStatusEnabled) && negb (allowZeroQuota && (ak_Status t =? TokenStatusExhausted)))
  then (Some t, Some ErrTokenInvalid, db)
  else if negb (ak_ExpiredTime t =? -1) && (ak_ExpiredTime t <? ar_now2 re) then mark re TokenStatusExpired t db
  else if negb (ak_UnlimitedQuota t) && ((ak_RemainQuota t <? 0) || ((ak_RemainQuota t =? 0) && negb allowZeroQuota))
  then mark re TokenStatusExhausted t db
  else (Some t, None, db).

(** The tokens for which a subscription may stand in for the balance. *)
Definition subscription_eligible (now : Z) (t : AccessToken) : bool :=
  negb (ak_UnlimitedQuota t) && (ak_RemainQuota t =? 0) &&
  ((ak_Status t =? TokenStatusEnabled) || (ak_Status t =? TokenStatusExhausted)) &&
  ((ak_ExpiredTime t =? -1) || (now <=? ak_ExpiredTime t)).

Definition has_subscription (re : AuthReplies) (userId providerId : Z) : result bool :=
  match ar_subFault re with
  | Some e => Err e
  | None => HasActiveUserSubscription (ae_subs env) (ar_subNow re) userId [providerId]
  end.

(** The subscription test and then the checks of the record. *)
Definition validate_funded (re : AuthReplies) (bypass : bool) (t : AccessToken) (providerId : Z) (db : tokenDB) : auth_verdict :=
  if bypass && subscription_eligible (ar_now1 re) t then
    match has_subscription re (ak_UserId t) providerId with
    | Err e => (None, Some (ErrDatabase e), db)
    | Ok b => validateUserTokenRecordWithQuota re t providerId b db
    end
  else validateUserTokenRecordWithQuota re t providerId false db.

Definition validateUserTokenInProvider (re : AuthReplies) (key : string) (providerId : Z) (bypass : bool) (db : tokenDB) : auth_verdict :=
  if String.eqb key "" then (None, Some ErrTokenNotProvided, db)
  else match auth_GetTokenByKey re key db with
       | Ok t => validate_funded re bypass t providerId db
       | Err ErrRecordNotFound => (None, Some ErrTokenInvalid, db)
       | Err e => (None, Some (ErrDatabase e), db)
       end.

Definition ValidateUserTokenInProvider re key providerId db := validateUserTokenInProvider re key providerId false db.
Definition ValidateUserTokenInProviderForSubscription re key providerId db := validateUserTokenInProvider re key providerId true db.

(** [re1] serves the lookup by ids, [re2] the validation that follows. *)
Definition ValidateUserTokenByIds (re1 re2 : AuthReplies) (id userId : Z) (db : tokenDB) : auth_verdict :=
  match GetTokenByIds re1 id userId db with
  | Err ErrRecordNotFound => (None, Some ErrTokenInvalid, db)
  | Err e => (None, Some (ErrDatabase e), db)
  | Ok t =>
      if ae_RedisEnabled env then
        match ValidateUserTokenInProviderForSubscription re2 (ak_Key t) (ak_ProviderId t) db with
        | (validated, Some err, db') => (validated, Some err, db')
        | (None, None, db') => (None, Some ErrTokenInvalid, db')
        | (Some v, None, db') =>
            if negb (ak_Id v =? id) || negb (ak_UserId v =? userId) then (Some v, Some ErrTokenInvalid, db')
            else (Some v, None, db')
        end
      else validate_funded re2 true t (ak_ProviderId t) db
  end.

Definition IsAdmin (re : AuthReplies) (userId : Z) : bool :=
  if userId =? 0 then false
  else if ar_roleFault re then false
  else RoleAdminUser <=? default 0 (ae_roles env !! userId).

(** ** The middleware *)

Record AuthRequest := mkAuthRequest {
  rq_wsProtocol : string;      (* Sec-WebSocket-Protocol *)
  rq_path : string;
  rq_xApiKey : string;         (* x-api-key *)
  rq_queryKey : string;        (* ?key= *)
  rq_xGoogApiKey : string;     (* x-goog-api-key *)
  rq_authorization : string;   (* Authorization *)
  rq_mjApiSecret : string;     (* mj-api-secret *)
  rq_clientIP : string;
  rq_providerId : Z;           (* the tenant resolved from the host name *)
  rq_id : Z                    (* the id already in the context, 0 if none *)
}.

(** The key among the WebSocket protocols, or the whole header. *)
Fixpoint ws_key (header : string) (parts : list string) : string :=
  match parts with
  | [] => header
  | part0 :: rest =>
      let part := TrimSpace part0 in
      if HasPrefix part "openai-insecure-api-key" then TrimPrefix part "openai-insecure-api-key."
      else ws_key header rest
  end.

(** The Authorization header after the other sources have overwritten it. *)
Definition auth_header (rq : AuthRequest) : string :=
  let h0 := rq_authorization rq in
  let h1 := if String.eqb (rq_wsProtocol rq) "" then h0
            else "Bearer " +:+ ws_key (rq_wsProtocol rq) (Split (rq_wsProtocol rq) ",") in
  let h2 := if (Contains (rq_path rq) "/v1/messages" || Contains (rq_path rq) "/v1/models") && negb (String.eqb (rq_xApiKey rq) "")
            then "Bearer " +:+ rq_xApiKey rq else h1 in
  if HasPrefix (rq_path rq) "/v1beta/models" || HasPrefix (rq_path rq) "/v1beta/openai/models" || HasPrefix (rq_path rq) "/v1/models/"
  then
    let h3 := if String.eqb (rq_queryKey rq) "" then h2 else "Bearer " +:+ rq_queryKey rq in
    if String.eqb (rq_xGoogApiKey rq) "" then h3 else "Bearer " +:+ rq_xGoogApiKey rq
  else h2.

Definition strip_bearer (key : string) : string :=
  if HasPrefix key "Bearer " || HasPrefix key "bearer " then TrimSpace (String.substring 7 (String.length key - 7) key) else key.

(** The key and the parts after it, which may pin a channel. *)
Definition key_parts (rq : AuthRequest) : list string :=
  let key := strip_bearer (auth_header rq) in
  let key := if String.eqb key "" || String.eqb key "midjourney-proxy" then strip_bearer (rq_mjApiSecret rq) else key in
  Split (TrimPrefix key "sk-") "-".

Definition request_key (rq : AuthRequest) : string := hd "" (key_parts rq).

Record AuthContext := mkAuthContext {
  cx_id : Z; cx_provider_id : Z; cx_token_id : Z; cx_token_key : string; cx_token_name : string;
  cx_unlimited : bool; cx_token_quota : option Z; cx_model_limit : option (list string);
  cx_token_group : string; cx_cross_group_retry : bool; cx_using_group : string; cx_specific_channel : option string
}.

Inductive auth_outcome :=
  | Abort (ctxId status : Z) (message : string)
  | Next (ctx : AuthContext).

Definition SetupContextForToken (re : AuthReplies) (t : AccessToken) (parts : list string) (usingGroup : string) : auth_outcome :=
  let ctx channel :=
    mkAuthContext (ak_UserId t) (ak_ProviderId t) (ak_Id t) (ak_Key t) (ak_Name t) (ak_UnlimitedQuota t)
      (if ak_UnlimitedQuota t then None else Some (ak_RemainQuota t))
      (if ak_ModelLimitsEnabled t then Some (GetModelLimits t) else None)
      (ak_Group t) (ak_CrossGroupRetry t) usingGroup channel in
  match parts with
  | _ :: channel :: _ =>
      if IsAdmin re (ak_UserId t) then Next (ctx (Some channel))
      else Abort (ak_UserId t) 403 "普通用户不支持指定渠道"
  | _ => Next (ctx None)
  end.

(** The group the request runs in: the token's, when it may use it. *)
Definition choose_group (userGroup tokenGroup : string) : result string :=
  if String.eqb tokenGroup "" then Ok userGroup
  else if negb (GroupInUserUsableGroups (ae_groups env) userGroup tokenGroup) then fail_with ("无权访问 " +:+ tokenGroup +:+ " 分组")
  else if negb (str_in tokenGroup (ae_groupRatio env)) && negb (String.eqb tokenGroup "auto")
  then fail_with ("分组 " +:+ tokenGroup +:+ " 已被弃用")
  else Ok tokenGroup.

(** The address check, when the token is restricted. *)
Definition ip_refusal (t : AccessToken) (clientIP : string) : option string :=
  match GetIpLimits t with
  | [] => None
  | allowIps =>
      match ParseIP clientIP with
      | None => Some "无法解析客户端 IP 地址"
      | Some ip => if IsIpInCIDRList ip allowIps then None else Some "您的 IP 不在令牌允许访问的列表中"
      end
  end.

(** A validation without an error always gives a token, so the fourth case
    below does not occur. *)
Definition TokenAuth (re : AuthReplies) (rq : AuthRequest) (db : tokenDB) : auth_outcome * tokenDB :=
  let '(token, err, db') := ValidateUserTokenInProviderForSubscription re (request_key rq) (rq_providerId rq) db in
  let id := match token with Some t => if rq_id rq =? 0 then ak_UserId t else rq_id rq | None => rq_id rq end in
  let abort status message := (Abort id status message, db') in
  match token, err with
  | _, Some (ErrDatabase _) => abort 500 "common.database_error"
  | _, Some _ => abort 401 "token.invalid"
  | None, None => abort 401 "token.invalid"
  | Some t, None =>
      match ip_refusal t (rq_clientIP rq) with
      | Some message => abort 403 message
      | None =>
          match ae_users env (ak_UserId t) with
          | Err _ => abort 500 "common.database_error"
          | Ok user =>
              if negb (ub_Status user =? UserStatusEnabled) then abort 403 "auth.user_banned"
              else match choose_group (ub_Group user) (ak_Group t) with
                   | Err e => abort 403 (error_text e)
                   | Ok usingGroup => (SetupContextForToken re t (key_parts rq) usingGroup, db')
                   end
          end
      end
  end.

(** [TokenAuthReadOnly], for the endpoints that only report usage: its
    outcome carries the user, the token and the key. *)
Definition TokenAuthReadOnly (re : AuthReplies) (rq : AuthRequest) (db : tokenDB) : (Z * string) + (Z * Z * string) :=
  if String.eqb (rq_authorization rq) "" then inl (401, "token.not_provided")
  else
    let key := hd "" (Split (TrimPrefix (strip_bearer (rq_authorization rq)) "sk-") "-") in
    match auth_GetTokenByKey re key db with
    | Err ErrRecordNotFound => inl (401, "token.invalid")
    | Err _ => inl (500, "common.database_error")
    | Ok t =>
        if negb (ak_ProviderId t =? rq_providerId rq) then inl (401, "token.invalid")
        else if ak_Status t =? TokenStatusDisabled then inl (401, "token.status_unavailable")
        else match ae_users env (ak_UserId t) with
             | Err _ => inl (500, "common.database_error")
             | Ok user =>
                 if negb (ub_Status user =? UserStatusEnabled) then inl (403, "auth.user_banned")
                 else inr (ak_UserId t, ak_Id t, ak_Key t)
             end
    end.

(** ** What an admitted request satisfies *)

(** The token can pay: from its own balance while it is enabled, or, with an
    empty balance, through a subscription of its owner in the tenant. *)
Definition can_pay (re : AuthReplies) (t : AccessToken) (providerId : Z) : Prop :=
  (ak_Status t = TokenStatusEnabled /\ (ak_UnlimitedQuota t = true \/ 0 < ak_RemainQuota t)) \/
  (ak_UnlimitedQuota t = false /\ ak_RemainQuota t = 0 /\
   (ak_Status t = TokenStatusEnabled \/ ak_Status t = TokenStatusExhausted) /\
   has_subscription re (ak_UserId t) providerId = Ok true).

Definition unexpired (now : Z) (t : AccessToken) : Prop := ak_ExpiredTime t = -1 \/ now <= ak_ExpiredTime t.

Definition valid_token (re : AuthReplies) (key : string) (providerId : Z) (db : tokenDB) (t : AccessToken) : Prop :=
  key <> "" /\ auth_GetTokenByKey re key db = Ok t /\ ak_ProviderId t = providerId /\
  unexpired (ar_now2 re) t /\ can_pay re t providerId.

Definition address_admitted (t : AccessToken) (clientIP : string) : Prop :=
  GetIpLimits t = [] \/ exists ip, ParseIP clientIP = Some ip /\ IsIpInCIDRList ip (GetIpLimits t) = true.

Definition group_admitted (t : AccessToken) (group : string) : Prop :=
  exists user, ae_users env (ak_UserId t) = Ok user /\ ub_Status user = UserStatusEnabled /\
    ((ak_Group t = "" /\ group = ub_Group user) \/
     (ak_Group t <> "" /\ group = ak_Group t /\ GroupInUserUsableGroups (ae_groups env) (ub_Group user) group = true /\
      (group ∈ ae_groupRatio env \/ group = "auto"))).

(** The channel named after the key. *)
Definition pinned_channel (rq : AuthRequest) : option string :=
  match key_parts rq with _ :: channel :: _ => Some channel | _ => None end.

Definition token_context (t : AccessToken) (group : string) (channel : option string) : AuthContext :=
  mkAuthContext (ak_UserId t) (ak_ProviderId t) (ak_Id t) (ak_Key t) (ak_Name t) (ak_UnlimitedQuota t)
    (if ak_UnlimitedQuota t then None else Some (ak_RemainQuota t))
    (if ak_ModelLimitsEnabled t then Some (GetModelLimits t) else None)
    (ak_Group t) (ak_CrossGroupRetry t) group channel.

Definition authorised (re : AuthReplies) (rq : AuthRequest) (db : tokenDB) (t : AccessToken) (group : string) : Prop :=
  valid_token re (request_key rq) (rq_providerId rq) db t /\ address_admitted t (rq_clientIP rq) /\
  group_admitted t group /\ (pinned_channel rq = None \/ IsAdmin re (ak_UserId t) = true).

(** ** Validation, branch by branch *)

Lemma mark_error re status t db : exists t' db', mark re status t db = (Some t', Some ErrTokenInvalid, db').
Proof. unfold mark. destruct (ae_RedisEnabled env); eauto. Qed.

Lemma record_valid re t providerId zero db t' db' :
  validateUserTokenRecordWithQuota re t providerId zero db = (Some t', None, db') <->
  t' = t /\ db' = db /\ ak_ProviderId t = providerId /\ unexpired (ar_now2 re) t /\
  (ak_Status t = TokenStatusEnabled \/ zero = true /\ ak_Status t = TokenStatusExhausted) /\
  (ak_UnlimitedQuota t = true \/ 0 < ak_RemainQuota t \/ ak_RemainQuota t = 0 /\ zero = true).
Proof.
  unfold validateUserTokenRecordWithQuota, unexpired, TokenStatusEnabled, TokenStatusExpired, TokenStatusExhausted.
  destruct (mark_error re 3 t db) as (t3 & d3 & ->). destruct (mark_error re 4 t db) as (t4 & d4 & ->).
  destruct (Z.eqb_spec (ak_ProviderId t) providerId), (Z.eqb_spec (ak_Status t) 3), (Z.eqb_spec (ak_Status t) 1),
    (Z.eqb_spec (ak_Status t) 4), zero; cbn [negb orb andb]; try (split; [congruence | intuition congruence]);
  destruct (Z.eqb_spec (ak_ExpiredTime t) (-1)), (Z.ltb_spec (ak_ExpiredTime t) (ar_now2 re)); cbn [negb andb];
    try (split; [congruence | intuition lia]);
  destruct (ak_UnlimitedQuota t), (Z.ltb_spec (ak_RemainQuota t) 0), (Z.eqb_spec (ak_RemainQuota t) 0); cbn [negb andb orb];
    (split; [intros [= <- <-]; intuition lia | intuition (congruence || lia)]).
Qed.

Lemma eligible_spec now t :
  subscription_eligible now t = true <->
  ak_UnlimitedQuota t = false /\ ak_RemainQuota t = 0 /\
  (ak_Status t = TokenStatusEnabled \/ ak_Status t = TokenStatusExhausted) /\ unexpired now t.
Proof.
  unfold subscription_eligible, unexpired. rewrite !andb_true_iff, !orb_true_iff, negb_true_iff, !Z.eqb_eq, Z.leb_le. tauto.
Qed.

Lemma unexpired_earlier now1 now2 t : now1 <= now2 -> unexpired now2 t -> unexpired now1 t.
Proof. unfold unexpired. lia. Qed.

Lemma funded_valid re t providerId db t' db' :
  ar_now1 re <= ar_now2 re ->
  validate_funded re true t providerId db = (Some t', None, db') <->
  t' = t /\ db' = db /\ ak_ProviderId t = providerId /\ unexpired (ar_now2 re) t /\ can_pay re t providerId.
Proof.
  intros Hclock. unfold validate_funded, can_pay. cbn [andb].
  pose proof (eligible_spec (ar_now1 re) t) as He. pose proof (unexpired_earlier _ _ t Hclock) as Hu.
  destruct (subscription_eligible (ar_now1 re) t).
  - destruct (proj1 He eq_refl) as (Hun & Hre & Hst & _).
    destruct (has_subscription re (ak_UserId t) providerId) as [b|e]; [|split; [done|]; rewrite Hun, Hre; intuition (congruence || lia)].
    rewrite record_valid, Hun, Hre. destruct b; intuition (congruence || lia).
  - rewrite record_valid. assert (~ (ak_UnlimitedQuota t = false /\ ak_RemainQuota t = 0 /\
      (ak_Status t = TokenStatusEnabled \/ ak_Status t = TokenStatusExhausted) /\ unexpired (ar_now1 re) t)) as Hne by (rewrite <- He; done).
    clear He. intuition (congruence || lia).
Qed.

Lemma record_error_token re t providerId zero db db' :
  validateUserTokenRecordWithQuota re t providerId zero db <> (None, None, db').
Proof.
  unfold validateUserTokenRecordWithQuota. destruct (mark_error re TokenStatusExpired t db) as (? & ? & ->).
  destruct (mark_error re TokenStatusExhausted t db) as (? & ? & ->).
  repeat (goal_if; [done|]). done.
Qed.

Lemma subscription_valid re key providerId db t db' :
  ar_now1 re <= ar_now2 re ->
  ValidateUserTokenInProviderForSubscription re key providerId db = (Some t, None, db') <->
  db' = db /\ valid_token re key providerId db t.
Proof.
  intros Hclock. unfold ValidateUserTokenInProviderForSubscription, validateUserTokenInProvider, valid_token.
  destruct (String.eqb_spec key "") as [->|Hk]; [split; [done | by intros (_ & [])]|].
  destruct (auth_GetTokenByKey re key db) as [t0|e].
  - rewrite funded_valid by done. split.
    + intros (-> & -> & H). tauto.
    + intros (-> & _ & [= ->] & H). tauto.
  - destruct e; (split; [done | by intros (_ & _ & ? & _)]).
Qed.

Lemma choose_group_spec t user group :
  choose_group (ub_Group user) (ak_Group t) = Ok group <->
  (ak_Group t = "" /\ group = ub_Group user) \/
  (ak_Group t <> "" /\ group = ak_Group t /\ GroupInUserUsableGroups (ae_groups env) (ub_Group user) group = true /\
   (group ∈ ae_groupRatio env \/ group = "auto")).
Proof.
  unfold choose_group. rewrite <- str_in_spec.
  destruct (String.eqb_spec (ak_Group t) ""); [split; [intros [= <-]; auto | intuition congruence]|].
  destruct (GroupInUserUsableGroups _ _ (ak_Group t)) eqn:Eu; cbn [negb]; [|split; [done | intuition congruence]].
  destruct (str_in (ak_Group t) (ae_groupRatio env)) eqn:Er, (String.eqb_spec (ak_Group t) "auto"); cbn [negb andb];
    (split; [intros [= <-]; intuition congruence | intuition congruence]).
Qed.

Lemma ip_refusal_None t clientIP : ip_refusal t clientIP = None <-> address_admitted t clientIP.
Proof.
  unfold ip_refusal, address_admitted. destruct (GetIpLimits t) as [|x l]; [tauto|].
  destruct (ParseIP clientIP) as [ip|]; [|split; [done | by intros [|(? & ? & _)]]].
  destruct (IsIpInCIDRList ip (x :: l)) eqn:E.
  - split; [intros _; right; eauto | done].
  - split; [done|]. intros [|(? & [= <-] & ?)]; congruence.
Qed.

Lemma setup_spec re rq t group ctx :
  SetupContextForToken re t (key_parts rq) group = Next ctx <->
  ctx = token_context t group (pinned_channel rq) /\ (pinned_channel rq = None \/ IsAdmin re (ak_UserId t) = true).
Proof.
  unfold SetupContextForToken, pinned_channel, token_context.
  destruct (key_parts rq) as [|x [|y l]]; [| |destruct (IsAdmin re (ak_UserId t))];
    (split; [intros [= <-]; auto | intros [-> [|]]; done]).
Qed.

Lemma TokenAuth_Next re rq db ctx db' :
  ar_now1 re <= ar_now2 re ->
  TokenAuth re rq db = (Next ctx, db') <->
  db' = db /\ exists t group, authorised re rq db t group /\ ctx = token_context t group (pinned_channel rq).
Proof.
  intros Hclock. unfold TokenAuth, authorised, group_admitted. split.
  - destruct (ValidateUserTokenInProviderForSubscription re (request_key rq) (rq_providerId rq) db) as [[token err] d] eqn:Ev.
    destruct token as [t|], err as [[]|]; try (by intros [= ?]).
    apply subscription_valid in Ev as [-> Hv]; [|done].
    destruct (ip_refusal t (rq_clientIP rq)) eqn:Eip; [by intros [= ?]|]. apply ip_refusal_None in Eip.
    destruct (ae_users env (ak_UserId t)) as [user|] eqn:Eu; [|by intros [= ?]].
    destruct (Z.eqb_spec (ub_Status user) UserStatusEnabled); [|by intros [= ?]]. cbn [negb].
    destruct (choose_group (ub_Group user) (ak_Group t)) as [group|] eqn:Eg; [|by intros [= ?]].
    apply choose_group_spec in Eg. intros [= Hs <-]. apply setup_spec in Hs as [-> Hp]. split; [done|].
    exists t, group. split; [|done]. split_and!; [done|done| |done]. by exists user.
  - intros (-> & t & group & (Hv & Hip & (user & Eu & Es & Hg) & Hp) & ->).
    rewrite (proj2 (subscription_valid re _ _ db t db Hclock) (conj eq_refl Hv)).
    rewrite (proj2 (ip_refusal_None _ _) Hip), Eu, Es, (proj2 (choose_group_spec t user group) Hg). cbn.
    f_equal. by apply setup_spec.
Qed.

(** C31. A relay request is let through exactly when it is authorised: its key
    is that of a token of the tenant that is not expired and can pay (from
    its own balance while enabled, or at balance zero through an active
    subscription of its owner in that tenant), the client's address is in
    the token's list if it has one, the owner is enabled, the token's group
    is one its owner may use, and a channel is pinned only by an
    administrator.  The context then carries the identity, the limits and
    the group of that token, and the token table is unchanged. *)
Theorem admission_is_exact re rq db ctx db' :
  ar_now1 re <= ar_now2 re ->
  TokenAuth re rq db = (Next ctx, db') <->
  db' = db /\ exists t group, authorised re rq db t group /\ ctx = token_context t group (pinned_channel rq).
Proof. apply TokenAuth_Next. Qed.
End Auth.

(** ** A concrete deployment *)

Definition demo_auth_env : AuthEnv :=
  mkAuthEnv false (mkDB ∅ ∅ [] ∅ 1) (mkGroupSettings {["default" := "d"; "vip" := "v"]} (fun _ => None) []) ["default"; "vip"]
    (fun userId => if userId =? 7 then Ok (mkUserBase 1 "default") else Err ErrRecordNotFound) {[7 := 10]}.
Definition demo_token : AccessToken :=
  mkAccessToken 3 2 7 "abc" 1 "key" 0 5000 40 false false "" (Some (String.concat (String (ascii_of_nat 10) "") ["10.0.0.0/8"; " 8.8.8.8"])) "vip" false false.
Definition demo_replies : AuthReplies := mkAuthReplies None None None 0 4000 4001 false false.
Definition demo_request : AuthRequest := mkAuthRequest "" "/v1/chat/completions" "" "" "" "Bearer sk-abc-12" "" "10.2.3.4" 2 0.

Lemma admission_is_exact_witness :
  exists t group, authorised demo_auth_env demo_replies demo_request {[3 := demo_token]} t group /\ cx_specific_channel (token_context t group (pinned_channel demo_request)) = Some "12".
Proof.
  assert (H : TokenAuth demo_auth_env demo_replies demo_request {[3 := demo_token]} =
    (Next (token_context demo_token "vip" (Some "12")), {[3 := demo_token]})) by (vm_compute; reflexivity).
  apply admission_is_exact in H as (_ & t & group & H & E); [|vm_compute; discriminate].
  exists t, group. split; [exact H|]. rewrite <- E. reflexivity.
Defined.

(** The comment of [TokenAuthReadOnly] says that a disabled token is let
    through; it is refused, an expired one is let through. *)
Example readonly_refuses_disabled :
  TokenAuthReadOnly demo_auth_env demo_replies demo_request {[3 := with_status TokenStatusDisabled demo_token]} =
    inl (401, "token.status_unavailable") /\
  TokenAuthReadOnly demo_auth_env demo_replies demo_request {[3 := with_status TokenStatusExpired demo_token]} = inr (7, 3, "abc").
Proof. split; vm_compute; reflexivity. Qed.
