(* ===== verification/TokenSafety.v ===== *)
(** * Tokens stay in one tenant

    The writers of the token table ([Insert], [Update], [SelectUpdate], the
    deletions and the quota updates of [src/model/token.go]) as calls, the
    histories of such calls, and the invariant [Insert] states in its
    comments: the live tokens of a user belong to one provider.  With
    [TokenAuth] it follows that a user's requests are served in one tenant. *)

From stdpp Require Import base numbers list strings gmap.
From Stdlib Require Import ZArith Lia Ascii.
From S2P Require Import Prelude GoInt GoString GoText SubStore ChannelSelect NetAddr SSRF TokenAuth.

(** ** Writers *)

(** The columns [Update] writes. *)
Definition update_columns (t row : AccessToken) : AccessToken :=
  mkAccessToken (ak_Id row) (ak_ProviderId row) (ak_UserId row) (ak_Key row) (ak_Status t) (ak_Name t)
    (ak_AccessedTime row) (ak_ExpiredTime t) (ak_RemainQuota t) (ak_UnlimitedQuota t)
    (ak_ModelLimitsEnabled t) (ak_ModelLimits t) (ak_AllowIps t) (ak_Group t) (ak_CrossGroupRetry t) (ak_Deleted row).

Definition soft_delete (t : AccessToken) : AccessToken :=
  mkAccessToken (ak_Id t) (ak_ProviderId t) (ak_UserId t) (ak_Key t) (ak_Status t) (ak_Name t) (ak_AccessedTime t)
    (ak_ExpiredTime t) (ak_RemainQuota t) (ak_UnlimitedQuota t) (ak_ModelLimitsEnabled t) (ak_ModelLimits t)
    (ak_AllowIps t) (ak_Group t) (ak_CrossGroupRetry t) true.

Definition token_add_quota (clock d : Z) (t : AccessToken) : AccessToken :=
  mkAccessToken (ak_Id t) (ak_ProviderId t) (ak_UserId t) (ak_Key t) (ak_Status t) (ak_Name t) clock
    (ak_ExpiredTime t) (ak_RemainQuota t + d) (ak_UnlimitedQuota t) (ak_ModelLimitsEnabled t) (ak_ModelLimits t)
    (ak_AllowIps t) (ak_Group t) (ak_CrossGroupRetry t) (ak_Deleted t).

(** The row a new token gets: its id is the database's, and the columns with
    a default take it when the field is zero. *)
Definition new_row (id : Z) (t : AccessToken) : AccessToken :=
  mkAccessToken id (ak_ProviderId t) (ak_UserId t) (ak_Key t)
    (if ak_Status t =? 0 then TokenStatusEnabled else ak_Status t) (ak_Name t) (ak_AccessedTime t)
    (if ak_ExpiredTime t =? 0 then -1 else ak_ExpiredTime t) (ak_RemainQuota t) (ak_UnlimitedQuota t)
    (ak_ModelLimitsEnabled t) (ak_ModelLimits t) (Some (default "" (ak_AllowIps t)))
    (ak_Group t) (ak_CrossGroupRetry t) false.

(** An [UPDATE] of the live row with that id. *)
Definition update_live (f : AccessToken -> AccessToken) (id : Z) (db : tokenDB) : tokenDB :=
  match db !! id with
  | Some row => if ak_Deleted row then db else <[id := f row]> db
  | None => db
  end.

(** [tx.Create]: the unique index on the key covers deleted rows too. *)
Definition create_token (id : Z) (t : AccessToken) (db : tokenDB) : result tokenDB :=
  match db !! id with
  | Some _ => fail_with "duplicate primary key"
  | None =>
      if existsb (fun r => String.eqb (ak_Key r) (ak_Key t)) (map snd (map_to_list db)) then fail_with "duplicate key"
      else Ok (<[id := new_row id t]> db)
  end.

(** [Insert], one at a time under [tokenInsertMu] and the lock on the owner's
    row; [owner] tells whether that row exists. *)
Definition Token_Insert (owner : bool) (id : Z) (t : AccessToken) (db : tokenDB) : result tokenDB :=
  if ak_UserId t <=? 0 then fail_with "user id is required"
  else if negb owner then Err ErrRecordNotFound
  else match first_row (fun r => (ak_UserId r =? ak_UserId t) && negb (ak_ProviderId r =? ak_ProviderId t)) db with
       | Some _ => fail_with "user token provider conflict"
       | None => create_token id t db
       end.

Definition Token_Update (t : AccessToken) (db : tokenDB) : tokenDB := update_live (update_columns t) (ak_Id t) db.

(** [DB.Where(token)] with a struct leaves out the columns that are zero. *)
Definition delete_matches (id userId providerId : Z) (r : AccessToken) : bool :=
  (ak_Id r =? id) && (ak_UserId r =? userId) && ((providerId =? 0) || (ak_ProviderId r =? providerId)).

Definition DeleteTokenByIdInProvider (id userId providerId : Z) (db : tokenDB) : result tokenDB :=
  if (id =? 0) || (userId =? 0) then fail_with "id 或 userId 为空！"
  else match first_row (delete_matches id userId providerId) db with
       | None => Err ErrRecordNotFound
       | Some t => Ok (update_live soft_delete (ak_Id t) db)
       end.

(** [BatchDeleteTokensInProvider]: the rows deleted, in one statement. *)
Definition batch_matches (ids : list Z) (userId providerId : Z) (r : AccessToken) : bool :=
  (ak_UserId r =? userId) && (ak_ProviderId r =? providerId) && existsb (Z.eqb (ak_Id r)) ids.

Definition BatchDeleteTokensInProvider (ids : list Z) (userId providerId : Z) (db : tokenDB) : result (Z * tokenDB) :=
  match ids with
  | [] => fail_with "ids 不能为空！"
  | _ => Ok (Z.of_nat (length (List.filter (batch_matches ids userId providerId) (live_rows db))),
             (fun r => if negb (ak_Deleted r) && batch_matches ids userId providerId r then soft_delete r else r) <$> db)
  end.

(** [increaseTokenQuota] and, with a negative amount, [decreaseTokenQuota]. *)
Definition change_token_quota (clock id d : Z) (db : tokenDB) : tokenDB := update_live (token_add_quota clock d) id db.

(** [DisableModelLimits] *)
Definition DisableModelLimits (re : AuthReplies) (tokenId : Z) (db : tokenDB) : tokenDB :=
  if tokenId =? 0 then db
  else match ar_readFault re, first_row (fun t => ak_Id t =? tokenId) db with
       | None, Some t =>
           Token_Update (mkAccessToken (ak_Id t) (ak_ProviderId t) (ak_UserId t) (ak_Key t) (ak_Status t) (ak_Name t) (ak_AccessedTime t)
                     (ak_ExpiredTime t) (ak_RemainQuota t) (ak_UnlimitedQuota t) false ""
                     (ak_AllowIps t) (ak_Group t) (ak_CrossGroupRetry t) (ak_Deleted t)) db
       | _, _ => db
       end.

(** ** Histories *)

Inductive token_call :=
  | CallInsert (owner : bool) (id : Z) (t : AccessToken)
  | CallUpdate (t : AccessToken)
  | CallDelete (id userId providerId : Z)
  | CallBatchDelete (ids : list Z) (userId providerId : Z)
  | CallQuota (clock id d : Z)
  | CallDisableLimits (re : AuthReplies) (id : Z)
  | CallAuth (re : AuthReplies) (rq : AuthRequest)
  | CallByIds (re1 re2 : AuthReplies) (id userId : Z).

Definition or_same (r : result tokenDB) (db : tokenDB) : tokenDB := match r with Ok db' => db' | Err _ => db end.

Definition run_token_call (env : AuthEnv) (c : token_call) (db : tokenDB) : tokenDB :=
  match c with
  | CallInsert owner id t => or_same (Token_Insert owner id t db) db
  | CallUpdate t => Token_Update t db
  | CallDelete id userId providerId => or_same (DeleteTokenByIdInProvider id userId providerId db) db
  | CallBatchDelete ids userId providerId =>
      match BatchDeleteTokensInProvider ids userId providerId db with Ok (_, db') => db' | Err _ => db end
  | CallQuota clock id d => change_token_quota clock id d db
  | CallDisableLimits re id => DisableModelLimits re id db
  | CallAuth re rq => snd (TokenAuth env re rq db)
  | CallByIds re1 re2 id userId => snd (ValidateUserTokenByIds env re1 re2 id userId db)
  end.

Definition run_token_calls (env : AuthEnv) (cs : list token_call) (db : tokenDB) : tokenDB :=
  foldl (fun db c => run_token_call env c db) db cs.

(** ** First *)

Lemma live_rows_elem t db : t ∈ live_rows db <-> ak_Deleted t = false /\ exists id, db !! id = Some t.
Proof.
  unfold live_rows. rewrite list_elem_of_In, filter_In, <- list_elem_of_In, list_elem_of_fmap, negb_true_iff.
  split.
  - intros [([id x] & -> & Hx%elem_of_map_to_list) ?]. eauto.
  - intros (? & id & Hid). split; [|done]. exists (id, t). split; [done|]. by apply elem_of_map_to_list.
Qed.

Lemma lower_id_elem l t : foldr lower_id None l = Some t -> t ∈ l.
Proof.
  revert t. induction l as [|x l IH]; intros t; cbn; [done|]. destruct (foldr lower_id None l) as [b|]; cbn.
  - destruct (_ <? _); intros [= <-]; [left | right; by apply IH].
  - intros [= <-]. left.
Qed.

Lemma lower_id_None l : foldr lower_id None l = None -> l = [].
Proof. destruct l as [|x l]; [done|]. cbn. destruct (foldr _ _ _) as [b|]; cbn; [destruct (_ <? _)|]; done. Qed.

Lemma first_row_Some p db t : first_row p db = Some t -> p t = true /\ ak_Deleted t = false /\ exists id, db !! id = Some t.
Proof.
  unfold first_row. intros H%lower_id_elem%list_elem_of_In%filter_In. destruct H as [H ?].
  split; [done|]. by apply live_rows_elem, list_elem_of_In.
Qed.

Lemma first_row_None p db id t : first_row p db = None -> db !! id = Some t -> ak_Deleted t = false -> p t = false.
Proof.
  unfold first_row. intros H%lower_id_None Hid Hl. destruct (p t) eqn:E; [|done].
  assert (In t (List.filter p (live_rows db))) as Hin.
  { apply filter_In. split; [|done]. apply list_elem_of_In, live_rows_elem. eauto. }
  by rewrite H in Hin.
Qed.

(** ** The invariant *)

Record tokens_ok (db : tokenDB) : Prop := {
  tok_keyed : forall id t, db !! id = Some t -> ak_Id t = id;
  tok_unique : forall id1 id2 t1 t2, db !! id1 = Some t1 -> db !! id2 = Some t2 -> ak_Key t1 = ak_Key t2 -> id1 = id2;
  tok_tenant : forall id1 id2 t1 t2, db !! id1 = Some t1 -> db !! id2 = Some t2 ->
    ak_Deleted t1 = false -> ak_Deleted t2 = false -> ak_UserId t1 = ak_UserId t2 -> ak_ProviderId t1 = ak_ProviderId t2
}.

(** The identity of a row; a deleted row stays deleted. *)
Definition same_token (t t' : AccessToken) : Prop :=
  ak_Id t' = ak_Id t /\ ak_ProviderId t' = ak_ProviderId t /\ ak_UserId t' = ak_UserId t /\ ak_Key t' = ak_Key t /\
  (ak_Deleted t' = false -> ak_Deleted t = false).

Definition kept (db db' : tokenDB) : Prop := forall id t', db' !! id = Some t' -> exists t, db !! id = Some t /\ same_token t t'.

Lemma same_token_refl t : same_token t t.
Proof. by unfold same_token. Qed.

Lemma kept_refl db : kept db db.
Proof. intros id t Ht. exists t. split; [done | apply same_token_refl]. Qed.

Lemma kept_update_live f id db : (forall t, ak_Deleted t = false -> same_token t (f t)) -> kept db (update_live f id db).
Proof.
  intros Hf. unfold update_live. destruct (db !! id) as [row|] eqn:E; [|apply kept_refl].
  destruct (ak_Deleted row) eqn:Ed; [apply kept_refl|]. intros id' t'.
  destruct (decide (id' = id)) as [->|].
  - rewrite lookup_insert_eq. intros [= <-]. eauto.
  - rewrite lookup_insert_ne by done. apply kept_refl.
Qed.

Lemma kept_ok db db' : tokens_ok db -> kept db db' -> tokens_ok db'.
Proof.
  intros [Hk Hu Ht] Hkept. split.
  - intros id t' (t & Hid & Hs)%Hkept. destruct Hs as (-> & _). by apply Hk.
  - intros id1 id2 t1' t2' (t1 & H1 & S1)%Hkept (t2 & H2 & S2)%Hkept E.
    destruct S1 as (_ & _ & _ & K1 & _), S2 as (_ & _ & _ & K2 & _). apply (Hu id1 id2 t1 t2); [done|done|congruence].
  - intros id1 id2 t1' t2' (t1 & H1 & S1)%Hkept (t2 & H2 & S2)%Hkept D1 D2 E.
    destruct S1 as (_ & -> & U1 & _ & L1), S2 as (_ & -> & U2 & _ & L2).
    apply (Ht id1 id2 t1 t2); auto. congruence.
Qed.

Lemma insert_ok owner id t db db' : tokens_ok db -> Token_Insert owner id t db = Ok db' -> tokens_ok db'.
Proof.
  intros [Hk Hu Ht]. unfold Token_Insert, create_token. destruct (_ <=? _); [done|]. destruct owner; [|done]. cbn [negb].
  destruct (first_row _ db) eqn:Ef; [done|]. destruct (db !! id) eqn:Eid; [done|].
  destruct (existsb _ _) eqn:Ee; [done|]. intros [= <-].
  assert (Hkey : forall id' r, db !! id' = Some r -> ak_Key r <> ak_Key t).
  { intros id' r Hr E. apply not_true_iff_false in Ee. apply Ee, existsb_exists. exists r.
    split; [|by apply String.eqb_eq]. apply list_elem_of_In, list_elem_of_fmap. exists (id', r).
    split; [done|]. by apply elem_of_map_to_list. }
  assert (Hten : forall id' r, db !! id' = Some r -> ak_Deleted r = false -> ak_UserId r = ak_UserId t -> ak_ProviderId r = ak_ProviderId t).
  { intros id' r Hr Hd E. pose proof (first_row_None _ _ _ _ Ef Hr Hd) as Hp. cbn in Hp.
    apply Z.eqb_eq in E. rewrite E in Hp. cbn in Hp. by apply negb_false_iff, Z.eqb_eq in Hp. }
  split.
  - intros id' r. rewrite lookup_insert_Some. intros [[<- <-]|[_ Hr]]; [done | by apply Hk].
  - intros id1 id2 r1 r2. rewrite !lookup_insert_Some. intros [[<- <-]|[? H1]] [[<- <-]|[? H2]]; cbn; try done.
    + intros E. by destruct (Hkey id2 r2 H2).
    + intros E. by destruct (Hkey id1 r1 H1).
    + by apply (Hu id1 id2 r1 r2).
  - intros id1 id2 r1 r2. rewrite !lookup_insert_Some. intros [[<- <-]|[? H1]] [[<- <-]|[? H2]]; cbn; try done.
    + intros _ D E. symmetry. by apply (Hten id2).
    + intros D _ E. by apply (Hten id1).
    + by apply (Ht id1 id2 r1 r2).
Qed.

(** ** Validation only writes a status *)

Lemma SelectUpdate_live re t db : kept db (SelectUpdate re t db).
Proof.
  unfold SelectUpdate. destruct (ar_writeFault re); [apply kept_refl|].
  apply (kept_update_live (fun row => mkAccessToken (ak_Id row) (ak_ProviderId row) (ak_UserId row) (ak_Key row) (ak_Status t) (ak_Name row)
                               (ak_AccessedTime t) (ak_ExpiredTime row) (ak_RemainQuota row) (ak_UnlimitedQuota row)
                               (ak_ModelLimitsEnabled row) (ak_ModelLimits row) (ak_AllowIps row)
                               (ak_Group row) (ak_CrossGroupRetry row) (ak_Deleted row))).
  intros r _. by unfold same_token.
Qed.

Lemma record_kept env re t p z db : kept db (snd (validateUserTokenRecordWithQuota env re t p z db)).
Proof.
  unfold validateUserTokenRecordWithQuota, mark. repeat goal_if; cbn; (apply kept_refl || apply SelectUpdate_live).
Qed.

Lemma funded_kept env re b t p db : kept db (snd (validate_funded env re b t p db)).
Proof.
  unfold validate_funded. goal_if; [|apply record_kept]. destruct (has_subscription _ _ _ _); [apply record_kept | apply kept_refl].
Qed.

Lemma validate_kept env re key p b db : kept db (snd (validateUserTokenInProvider env re key p b db)).
Proof.
  unfold validateUserTokenInProvider. goal_if; [apply kept_refl|].
  destruct (auth_GetTokenByKey _ _ _ _) as [t|[]]; [apply funded_kept | apply kept_refl..].
Qed.

Lemma TokenAuth_kept env re rq db : kept db (snd (TokenAuth env re rq db)).
Proof.
  unfold TokenAuth, ValidateUserTokenInProviderForSubscription.
  pose proof (validate_kept env re (request_key rq) (rq_providerId rq) true db) as H.
  destruct (validateUserTokenInProvider _ _ _ _ _ _) as [[token err] d]. cbn in H.
  destruct token as [t|], err as [[]|]; cbn; try done.
  destruct (ip_refusal _ _); [done|]. destruct (ae_users _ _); [|done]. goal_if; [done|]. by destruct (choose_group _ _ _).
Qed.

Lemma ByIds_kept env re1 re2 id userId db : kept db (snd (ValidateUserTokenByIds env re1 re2 id userId db)).
Proof.
  unfold ValidateUserTokenByIds, ValidateUserTokenInProviderForSubscription.
  destruct (GetTokenByIds _ _ _ _) as [t|[]]; [|apply kept_refl..]. goal_if; [|apply funded_kept].
  pose proof (validate_kept env re2 (ak_Key t) (ak_ProviderId t) true db) as H.
  destruct (validateUserTokenInProvider _ _ _ _ _ _) as [[[v|] [e|]] d]; cbn in *; try done. by destruct (_ || _).
Qed.

Lemma token_call_ok env c db : tokens_ok db -> tokens_ok (run_token_call env c db).
Proof.
  intros Hok. destruct c; cbn [run_token_call].
  - unfold or_same. destruct (Token_Insert owner id t db) eqn:E; [by eapply insert_ok | done].
  - eapply kept_ok; [done|]. apply kept_update_live. intros r ?. by unfold same_token.
  - unfold DeleteTokenByIdInProvider. goal_if; [done|]. destruct (first_row _ _); [|done].
    eapply kept_ok; [done|]. apply kept_update_live. intros r ?. by unfold same_token.
  - unfold BatchDeleteTokensInProvider. destruct ids; [done|]. eapply kept_ok; [done|].
    intros id' t' H. rewrite lookup_fmap in H. apply fmap_Some in H as (r & Hr & ->). exists r. split; [done|].
    destruct (ak_Deleted r) eqn:Ed; cbn; [by unfold same_token|]. goal_if; by unfold same_token.
  - eapply kept_ok; [done|]. apply kept_update_live. intros r ?. by unfold same_token.
  - unfold DisableModelLimits. goal_if; [done|]. destruct (ar_readFault re); [done|]. destruct (first_row _ _); [|done].
    eapply kept_ok; [done|]. apply kept_update_live. intros r ?. by unfold same_token.
  - eapply kept_ok; [done | apply TokenAuth_kept].
  - eapply kept_ok; [done | apply ByIds_kept].
Qed.

Lemma token_calls_ok env cs : tokens_ok (run_token_calls env cs ∅).
Proof.
  unfold run_token_calls. assert (H : tokens_ok ∅) by (split; intros *; rewrite ?lookup_empty; done).
  revert H. generalize (∅ : tokenDB). induction cs as [|c cs IH]; intros db H; cbn; [done|]. by apply IH, token_call_ok.
Qed.

(** ** Requests of a user *)

(** Without the cache, an admitted token is a live row with the request's key. *)
Lemma admitted_row env re rq db t group :
  ae_RedisEnabled env = false -> authorised env re rq db t group ->
  ak_Key t = request_key rq /\ ak_Deleted t = false /\ exists id, db !! id = Some t.
Proof.
  intros Hr ((_ & Hread & _) & _). unfold auth_GetTokenByKey in Hread. rewrite Hr in Hread.
  destruct (ar_readFault re); [done|]. destruct (first_row _ db) as [x|] eqn:E; [|done]. injection Hread as ->.
  apply first_row_Some in E as (Hk%String.eqb_eq & Hl & Hid). done.
Qed.

(** C34. Without the Redis cache of tokens, take the token table after any
    history of token creations, edits, deletions, quota updates and validations.
    Two requests judged on that table, each with its clock readings in order,
    that are let through for the same user run in the same tenant, and two that
    are let through with the same key are the same token of the same user:
    creation refuses a token in a second tenant, nothing else moves a token, and
    deleted tokens are never read.  It is a statement about one state of the
    table: a user all of whose tokens were deleted may get one in another
    tenant. *)
Theorem user_stays_in_one_tenant env cs re1 re2 rq1 rq2 ctx1 ctx2 db1 db2 :
  let db := run_token_calls env cs ∅ in
  ae_RedisEnabled env = false -> ar_now1 re1 <= ar_now2 re1 -> ar_now1 re2 <= ar_now2 re2 ->
  TokenAuth env re1 rq1 db = (Next ctx1, db1) -> TokenAuth env re2 rq2 db = (Next ctx2, db2) ->
  (cx_id ctx1 = cx_id ctx2 -> cx_provider_id ctx1 = cx_provider_id ctx2) /\
  (request_key rq1 = request_key rq2 -> cx_token_id ctx1 = cx_token_id ctx2 /\ cx_id ctx1 = cx_id ctx2).
Proof.
  intros db Hr Hc1 Hc2 H1 H2. pose proof (token_calls_ok env cs) as Hok. fold db in Hok.
  apply TokenAuth_Next in H1 as (_ & t1 & g1 & A1 & ->); [|done].
  apply TokenAuth_Next in H2 as (_ & t2 & g2 & A2 & ->); [|done].
  destruct (admitted_row _ _ _ _ _ _ Hr A1) as (K1 & L1 & id1 & R1).
  destruct (admitted_row _ _ _ _ _ _ Hr A2) as (K2 & L2 & id2 & R2). cbn. split.
  - by apply (tok_tenant db Hok id1 id2).
  - intros E. assert (id1 = id2) as -> by (apply (tok_unique db Hok id1 id2 t1 t2); congruence).
    assert (t1 = t2) as -> by congruence. done.
Qed.

Definition demo_token_calls : list token_call :=
  [CallInsert true 3 demo_token; CallInsert true 4 (with_key "def" (with_status 0 demo_token)); CallQuota 10 4 (-5)].

Lemma user_stays_in_one_tenant_witness :
  let db := run_token_calls demo_auth_env demo_token_calls ∅ in
  let rq := mkAuthRequest "" "/v1/messages" "sk-def" "" "" "" "" "8.8.8.8" 2 0 in
  exists ctx1 ctx2, TokenAuth demo_auth_env demo_replies demo_request db = (Next ctx1, db) /\
    TokenAuth demo_auth_env demo_replies rq db = (Next ctx2, db) /\ cx_provider_id ctx1 = cx_provider_id ctx2.
Proof.
  intros db rq. eexists _, _. split; [vm_compute; reflexivity|]. split; [vm_compute; reflexivity|].
  apply (user_stays_in_one_tenant demo_auth_env demo_token_calls demo_replies demo_replies demo_request rq _ _ db db);
    vm_compute; (reflexivity || discriminate).
Defined.

(** A deletion in the main site (provider 0) matches a token of any tenant,
    because the zero column is left out of the condition. *)
Example delete_ignores_main_site :
  DeleteTokenByIdInProvider 3 7 0 {[3 := demo_token]} = Ok {[3 := soft_delete demo_token]} /\
  DeleteTokenByIdInProvider 3 7 5 {[3 := demo_token]} = Err ErrRecordNotFound.
Proof. split; vm_compute; reflexivity. Qed.
