(* ===== verification/TextPrice.v ===== *)
(** * The price of a text request

    [src/service/text_quota.go] ([calculateTextQuotaSummary] and the provider
    pricing), the tool prices of [src/setting/operation_setting/tools.go] and
    [PriceData] of [src/types/price_data.go]: from the usage an upstream
    reports to the quota that is settled.

    Prices are computed in github.com/shopspring/decimal, whose sums and
    products are exact; a decimal is a rational here, and division rounds to
    16 places as the library does.  A configured [float64] enters only through
    [decimal.NewFromFloat] and is its decimal; [float64] comparisons with 0 and
    1 agree with it.  [openrouter_tokens] stands for
    [CalcOpenRouterCacheCreateTokens], a [float64] estimate of tokens that
    OpenRouter does not report; requests with a tiered-billing snapshot are
    priced elsewhere.  Log lines and display ratios are left out. *)

From stdpp Require Import base numbers list strings gmap sorting.
From Stdlib Require Import ZArith QArith Qround Lia Lqa Ascii.
From S2P Require Import Prelude GoInt GoString GoText Redemption.
Open Scope Z_scope.

(** ** Decimals *)

Definition dec (n : Z) : Q := inject_Z n.
(** [Div]: sixteen places, halves away from zero. *)
Definition dec_div (a b : Q) : Q := (round_half_away (a / b * inject_Z (10 ^ 16)) # 10000000000000000)%Q.
Definition dec_zero (v : Q) : bool := Qeq_bool v 0.
Definition dec_lt (a b : Q) : bool := negb (Qle_bool b a).

(** ** Tool prices *)

(** [toolPriceIndex]: default prices, and per tool the prefixes, longest first. *)
Record toolPriceIndex := mkToolPriceIndex {
  ti_defaults : gmap string Q;
  ti_prefixes : gmap string (list (string * Q))
}.

Definition TrimSuffix_star (s : string) : string :=
  match str_rev s with String "*"%char r => str_rev r | _ => s end.

Definition longer_prefix (a b : string * Q) : Prop := (String.length (fst b) <= String.length (fst a))%nat.
#[export] Instance longer_prefix_dec a b : Decision (longer_prefix a b).
Proof. unfold longer_prefix. apply _. Defined.

(** One key of the merged prices. *)
Definition index_price (e : string * Q) (idx : toolPriceIndex) : toolPriceIndex :=
  match cut_at ":" (fst e) with
  | None => mkToolPriceIndex (<[fst e := snd e]> (ti_defaults idx)) (ti_prefixes idx)
  | Some (toolName, modelPart) =>
      mkToolPriceIndex (ti_defaults idx)
        (<[toolName := default [] (ti_prefixes idx !! toolName) ++ [(TrimSuffix_star modelPart, snd e)]]> (ti_prefixes idx))
  end.

(** [RebuildToolPriceIndex], on the merged prices in the order in which the
    map is iterated. *)
Definition RebuildToolPriceIndex (merged : list (string * Q)) : toolPriceIndex :=
  let idx := foldl (fun i e => index_price e i) (mkToolPriceIndex ∅ ∅) merged in
  mkToolPriceIndex (ti_defaults idx) (merge_sort longer_prefix <$> ti_prefixes idx).

Definition GetToolPriceForModel (idx : toolPriceIndex) (toolName modelName : string) : Q :=
  let fallback := default 0%Q (ti_defaults idx !! toolName) in
  match ti_prefixes idx !! toolName with
  | Some entries =>
      if String.eqb modelName "" then fallback
      else match List.find (fun e => HasPrefix modelName (fst e)) entries with Some e => snd e | None => fallback end
  | None => fallback
  end.

Definition GetWebSearchPricePerThousand (idx : toolPriceIndex) (modelName : string) : Q := GetToolPriceForModel idx "web_search_preview" modelName.
Definition GetClaudeWebSearchPricePerThousand (idx : toolPriceIndex) : Q := GetToolPriceForModel idx "web_search" "".
Definition GetFileSearchPricePerThousand (idx : toolPriceIndex) : Q := GetToolPriceForModel idx "file_search" "".

Definition GetGPTImage1PriceOnceCall (quality size : string) : Q :=
  let high := 167 # 1000 in
  let pick small large :=
    if String.eqb size "1024x1024" then small
    else if String.eqb size "1024x1536" || String.eqb size "1536x1024" then large else high in
  if String.eqb quality "low" then pick (11 # 1000) (16 # 1000)
  else if String.eqb quality "medium" then pick (42 # 1000) (63 # 1000)
  else if String.eqb quality "high" then pick high (25 # 100)
  else high.

Definition GetGeminiInputAudioPricePerMillionTokens (modelName : string) : Q :=
  if HasPrefix modelName "gemini-2.5-flash-preview-native-audio" then 3%Q
  else if HasPrefix modelName "gemini-2.5-flash-preview-lite" then 1 # 2
  else if HasPrefix modelName "gemini-2.5-flash-preview" then 1%Q
  else if HasPrefix modelName "gemini-2.5-flash" then 1%Q
  else if HasPrefix modelName "gemini-2.0-flash" then 7 # 10
  else if HasPrefix modelName "gemini-robotics-er-1.5" then 1%Q
  else 0%Q.

(** ** Prices and usage *)

Record PriceData := mkPriceData {
  px_ModelPrice : Q; px_ModelRatio : Q; px_CompletionRatio : Q; px_CacheRatio : Q; px_CacheCreationRatio : Q;
  px_CacheCreation5mRatio : Q; px_CacheCreation1hRatio : Q; px_ImageRatio : Q;
  px_OtherRatios : list Q;     (* the values of the map *)
  px_UsePrice : bool; px_UserDiscount : Q; px_GroupRatio : Q
}.

Definition EffectiveUserDiscount (p : PriceData) : Q :=
  if Qle_bool (px_UserDiscount p) 0 || dec_lt 1 (px_UserDiscount p) then 1%Q else px_UserDiscount p.

Definition ApplyOtherRatiosToDecimal (p : PriceData) (value : Q) : Q := foldl Qmult value (px_OtherRatios p).

Record Usage := mkUsage {
  us_PromptTokens : Z; us_CompletionTokens : Z; us_CachedTokens : Z; us_CachedCreationTokens : Z;
  us_ImageTokens : Z; us_AudioTokens : Z; us_Claude5mTokens : Z; us_Claude1hTokens : Z;
  us_UsageSemantic : string; us_UsageSource : string;
  us_CostIsIntZero : bool      (* usage.Cost holds the int 0 *)
}.

(** What the computation reads of the request and its context. *)
Record TextRequest := mkTextRequest {
  tr_ModelName : string;
  tr_PriceData : PriceData;
  tr_claudeFormat : bool;                 (* GetFinalRequestRelayFormat() is Claude *)
  tr_openRouter : bool;                   (* ChannelMeta of type OpenRouter *)
  tr_subscription : bool;                 (* BillingSource is the subscription *)
  tr_ProviderId : Z;
  tr_estimate : Z;                        (* GetEstimatePromptTokens() *)
  tr_responses : option (option Z * option Z);  (* ResponsesUsageInfo: call counts of web and file search *)
  tr_claudeSearches : Z;                  (* claude_web_search_requests *)
  tr_imageCall : option (string * string) (* image_generation_call: quality, size *)
}.

Record textQuotaSummary := mkTextQuotaSummary {
  sm_PromptTokens : Z; sm_CompletionTokens : Z; sm_TotalTokens : Z; sm_NonCacheTokens : Z;
  sm_Quota : Z; sm_ToolCallSurchargeQuota : Q; sm_CacheQuotaComponent : Q;
  sm_DiscountableQuotaComponent : Q; sm_DiscountableTokens : Z
}.

Section Price.
Context (QuotaPerUnit : Q) (idx : toolPriceIndex).
Context (defaultModelRatio : string -> option Q).
Context (openrouter_tokens : Usage -> PriceData -> Z).

Definition hasCustomModelRatio (modelName : string) (currentRatio : Q) : bool :=
  match defaultModelRatio modelName with None => true | Some d => negb (Qeq_bool currentRatio d) end.

Definition effectiveUserDiscount (rq : TextRequest) : Q :=
  if tr_subscription rq then 1%Q else EffectiveUserDiscount (tr_PriceData rq).

Definition usageSemanticFromUsage (rq : TextRequest) (usage : option Usage) : string :=
  match usage with
  | Some u => if negb (String.eqb (us_UsageSemantic u) "") then us_UsageSemantic u
              else if tr_claudeFormat rq then "anthropic" else "openai"
  | None => if tr_claudeFormat rq then "anthropic" else "openai"
  end.

Definition isLegacyClaudeDerivedOpenAIUsage (rq : TextRequest) (u : Usage) : bool :=
  if tr_claudeFormat rq then false
  else if negb (String.eqb (us_UsageSource u) "") || negb (String.eqb (us_UsageSemantic u) "") then false
  else (0 <? us_Claude5mTokens u) || (0 <? us_Claude1hTokens u).

(** Upstreams that report no usage are charged for the estimated prompt. *)
Definition usage_or_estimate (rq : TextRequest) (usage : option Usage) : Usage :=
  match usage with Some u => u | None => mkUsage (tr_estimate rq) 0 0 0 0 0 0 0 "" "" false end.

(** The prompt and cache-write tokens after the OpenRouter correction. *)
Definition openrouter_adjust (rq : TextRequest) (claude : bool) (u : Usage) : Z * Z :=
  let p := tr_PriceData rq in
  if tr_openRouter rq && claude then
    let prompt := i64_sub (us_PromptTokens u) (us_CachedTokens u) in
    let custom := px_UsePrice p || hasCustomModelRatio (tr_ModelName rq) (px_ModelRatio p) in
    let creation :=
      if (us_CachedCreationTokens u =? 0) && negb (Qeq_bool (px_CacheCreationRatio p) 1) && negb (us_CostIsIntZero u) && negb custom
      then let maybe := openrouter_tokens u p in
           if (0 <=? maybe) && (maybe <=? prompt) then maybe else us_CachedCreationTokens u
      else us_CachedCreationTokens u in
    (i64_sub prompt creation, creation)
  else (us_PromptTokens u, us_CachedCreationTokens u).

(** Per-call charges, at [dGroupRatio]. *)
Definition per_thousand (price : Q) (calls : Z) (group : Q) : Q := (dec_div (price * dec calls) 1000 * group * QuotaPerUnit)%Q.

Definition web_search_quota (rq : TextRequest) : Q :=
  let price := GetWebSearchPricePerThousand idx (tr_ModelName rq) in
  let group := px_GroupRatio (tr_PriceData rq) in
  match tr_responses rq with
  | Some (Some calls, _) => if 0 <? calls then per_thousand price calls group else 0%Q
  | Some (None, _) => 0%Q
  | None => if HasSuffix (tr_ModelName rq) "search-preview" then (dec_div price 1000 * group * QuotaPerUnit)%Q else 0%Q
  end.

Definition claude_search_quota (rq : TextRequest) : Q :=
  if 0 <? tr_claudeSearches rq
  then (dec_div (GetClaudeWebSearchPricePerThousand idx) 1000 * px_GroupRatio (tr_PriceData rq) * QuotaPerUnit * dec (tr_claudeSearches rq))%Q
  else 0%Q.

Definition file_search_quota (rq : TextRequest) : Q :=
  match tr_responses rq with
  | Some (_, Some calls) => if 0 <? calls then per_thousand (GetFileSearchPricePerThousand idx) calls (px_GroupRatio (tr_PriceData rq)) else 0%Q
  | _ => 0%Q
  end.

Definition image_call_quota (rq : TextRequest) : Q :=
  match tr_imageCall rq with
  | Some (quality, size) => (GetGPTImage1PriceOnceCall quality size * px_GroupRatio (tr_PriceData rq) * QuotaPerUnit)%Q
  | None => 0%Q
  end.

Definition tool_surcharge (rq : TextRequest) : Q :=
  (web_search_quota rq + claude_search_quota rq + file_search_quota rq + image_call_quota rq)%Q.

(** The parts of the prompt: what is charged at the base price, cache reads,
    cache writes and images at their ratios, and audio by its own price. *)
Record prompt_parts := mkPromptParts { pp_base : Q; pp_cached : Q; pp_creation : Q; pp_image : Q; pp_audio : Q }.

Definition split_prompt (rq : TextRequest) (separate : bool) (prompt creation : Z) (u : Usage) : prompt_parts :=
  let p := tr_PriceData rq in
  let audioPrice := GetGeminiInputAudioPricePerMillionTokens (tr_ModelName rq) in
  let base0 := dec prompt in
  let base1 := if us_CachedTokens u =? 0 then base0 else if separate then base0 else (base0 - dec (us_CachedTokens u))%Q in
  let cached := if us_CachedTokens u =? 0 then 0%Q else (dec (us_CachedTokens u) * px_CacheRatio p)%Q in
  let has_creation := negb (creation =? 0) || (0 <? us_Claude5mTokens u) || (0 <? us_Claude1hTokens u) in
  let base2 := if has_creation && negb separate then (base1 - dec creation)%Q else base1 in
  let remaining := Z.max 0 (i64_sub (i64_sub creation (us_Claude5mTokens u)) (us_Claude1hTokens u)) in
  let written :=
    if has_creation then
      if separate then
        (dec remaining * px_CacheCreationRatio p + dec (us_Claude5mTokens u) * px_CacheCreation5mRatio p
          + dec (us_Claude1hTokens u) * px_CacheCreation1hRatio p)%Q
      else (dec creation * px_CacheCreationRatio p)%Q
    else 0%Q in
  let base3 := if us_ImageTokens u =? 0 then base2 else (base2 - dec (us_ImageTokens u))%Q in
  let image := if us_ImageTokens u =? 0 then 0%Q else (dec (us_ImageTokens u) * px_ImageRatio p)%Q in
  let has_audio := negb (us_AudioTokens u =? 0) && dec_lt 0 audioPrice in
  let base4 := if has_audio then (base3 - dec (us_AudioTokens u))%Q else base3 in
  let audio := if has_audio then (dec_div audioPrice 1000000 * dec (us_AudioTokens u) * px_GroupRatio p * QuotaPerUnit)%Q else 0%Q in
  mkPromptParts base4 cached written image audio.

(** The discount that the main site gives; a provider's is applied later. *)
Definition own_discount (rq : TextRequest) : Q := if 0 <? tr_ProviderId rq then 1%Q else effectiveUserDiscount rq.

(** The price of a request billed by tokens, before rounding. *)
Definition ratio_total (rq : TextRequest) (parts : prompt_parts) (completion : Z) : Q :=
  let p := tr_PriceData rq in
  let ratio := (px_ModelRatio p * px_GroupRatio p)%Q in
  let userDiscount := own_discount rq in
  let completionQuota := (dec completion * px_CompletionRatio p)%Q in
  let base := if dec_lt userDiscount 1 then (pp_base parts * userDiscount)%Q else pp_base parts in
  let completionQuota := if dec_lt userDiscount 1 then (completionQuota * userDiscount)%Q else completionQuota in
  let promptQuota := (base + pp_cached parts + pp_image parts + pp_creation parts)%Q in
  let total := ((promptQuota + completionQuota) * ratio + web_search_quota rq + claude_search_quota rq + file_search_quota rq
                + pp_audio parts + image_call_quota rq)%Q in
  ApplyOtherRatiosToDecimal p total.

Definition fixed_total (rq : TextRequest) : Q :=
  let p := tr_PriceData rq in
  ApplyOtherRatiosToDecimal p
    (px_ModelPrice p * QuotaPerUnit * px_GroupRatio p + web_search_quota rq + claude_search_quota rq + file_search_quota rq + 0 + image_call_quota rq)%Q.

(** A charged request costs at least one unit. *)
Definition at_least_one (ratio total : Q) : Q := if negb (dec_zero ratio) && Qle_bool total 0 then 1%Q else total.

Definition calculateTextQuotaSummary (rq : TextRequest) (usage0 : option Usage) : textQuotaSummary :=
  let p := tr_PriceData rq in
  let claude := String.eqb (usageSemanticFromUsage rq usage0) "anthropic" in
  let u := usage_or_estimate rq usage0 in
  let total_tokens := i64_add (us_PromptTokens u) (us_CompletionTokens u) in
  let non_cache := Z.max 0 (i64_sub (i64_sub total_tokens (us_CachedTokens u)) (us_CachedCreationTokens u)) in
  let legacy := isLegacyClaudeDerivedOpenAIUsage rq u in
  let '(prompt, creation) := openrouter_adjust rq claude u in
  let ratio := (px_ModelRatio p * px_GroupRatio p)%Q in
  let parts := split_prompt rq (claude || legacy) prompt creation u in
  let quota0 :=
    if px_UsePrice p then QuotaFromDecimal (fixed_total rq)
    else QuotaFromDecimal (at_least_one ratio (ratio_total rq parts (us_CompletionTokens u))) in
  let quota := if total_tokens =? 0 then 0 else if negb (dec_zero ratio) && (quota0 =? 0) then 1 else quota0 in
  mkTextQuotaSummary prompt (us_CompletionTokens u) total_tokens non_cache quota (tool_surcharge rq)
    (if px_UsePrice p then 0%Q
     else ApplyOtherRatiosToDecimal p ((pp_cached parts + pp_creation parts) * ratio)%Q)
    (if px_UsePrice p then 0%Q
     else ApplyOtherRatiosToDecimal p ((pp_base parts + dec (us_CompletionTokens u) * px_CompletionRatio p) * ratio)%Q)
    (if px_UsePrice p then 0 else i64_add (Qfloor (pp_base parts)) (us_CompletionTokens u)).

(** ** Provider prices *)

(** What the context holds about the provider's offer of the model. *)
Record ProviderOffer := mkProviderOffer {
  po_ProviderId : Z; po_PublicModel : string;
  po_ImportPriceRatio : Q; po_ImportCachePriceRatio : Q;
  po_delta : bool;                  (* the pricing type is delta *)
  po_DeltaPrice : Q; po_DeltaRatio : Q; po_PricingRatio : Q
}.

Definition import_ratio (o : ProviderOffer) : Q := if Qle_bool (po_ImportPriceRatio o) 0 then 1%Q else po_ImportPriceRatio o.
Definition providerEffectiveCacheImportRatio (o : ProviderOffer) : Q :=
  if Qle_bool (po_ImportCachePriceRatio o) 0 then 1%Q else po_ImportCachePriceRatio o.
Definition markup (o : ProviderOffer) : Q := if dec_zero (po_PricingRatio o) then 1%Q else po_PricingRatio o.

Definition offers (o : ProviderOffer) : bool := (0 <? po_ProviderId o) && negb (String.eqb (po_PublicModel o) "").

(** [(providerQuota, importCostQuota, applied)] *)
Definition applyProviderPricingQuota (o : ProviderOffer) (baseQuota : Z) (cacheQuota0 : Q) (usePrice : bool) (groupRatio : Q)
    (unitCount nonCacheUnitCount0 : Q) (multiplyFixedPriceByUnits : bool) : Z * Z * bool :=
  if negb (offers o) then (baseQuota, baseQuota, false)
  else
    let cacheQuota := if dec_lt cacheQuota0 0 || dec_lt (dec baseQuota) cacheQuota0 then 0%Q else cacheQuota0 in
    let nonCacheQuota := (dec baseQuota - cacheQuota)%Q in
    let cacheCostQuota := (cacheQuota * providerEffectiveCacheImportRatio o)%Q in
    let importCost0 := QuotaFromDecimal (nonCacheQuota * import_ratio o + cacheCostQuota)%Q in
    let importCostQuota := if (0 <? baseQuota) && (importCost0 =? 0) then 1 else importCost0 in
    let nonCacheUnitCount := if dec_lt nonCacheUnitCount0 0 || dec_lt unitCount nonCacheUnitCount0 then unitCount else nonCacheUnitCount0 in
    let providerQuota :=
      if po_delta o then
        let delta :=
          if usePrice then
            let d := (po_DeltaPrice o * QuotaPerUnit * groupRatio)%Q in
            if multiplyFixedPriceByUnits then (d * unitCount)%Q else d
          else (po_DeltaRatio o * nonCacheUnitCount * groupRatio)%Q in
        QuotaFromDecimal (nonCacheQuota * import_ratio o + cacheCostQuota + delta)%Q
      else QuotaFromDecimal (nonCacheQuota * import_ratio o * markup o + cacheCostQuota)%Q in
    (if providerQuota <? 0 then 0 else providerQuota, importCostQuota, true).

Definition ApplyProviderPricingQuota (o : ProviderOffer) (baseQuota : Z) (cacheQuota : Q) (usePrice : bool) (groupRatio : Q)
    (unitCount nonCacheUnitCount : Z) : Z * Z * bool :=
  applyProviderPricingQuota o baseQuota cacheQuota usePrice groupRatio (dec unitCount) (dec nonCacheUnitCount) false.

Definition providerDiscountableUserQuota (o : ProviderOffer) (baseDiscountable : Q) (usePrice : bool) (groupRatio nonCacheUnitCount : Q) : Q :=
  if dec_lt baseDiscountable 0 then 0%Q
  else
    let result := (baseDiscountable * import_ratio o)%Q in
    let result :=
      if po_delta o then
        if usePrice then (result + po_DeltaPrice o * QuotaPerUnit * groupRatio)%Q
        else (result + po_DeltaRatio o * nonCacheUnitCount * groupRatio)%Q
      else (result * markup o)%Q in
    if dec_lt result 0 then 0%Q else result.

Definition applyProviderUserDiscount (o : ProviderOffer) (rq : TextRequest) (providerQuota : Z) (baseDiscountable : Q) (usePrice : bool)
    (groupRatio : Q) (nonCacheUnitCount : Z) : Z :=
  let discount := effectiveUserDiscount rq in
  if Qle_bool 1 discount || (providerQuota <=? 0) then providerQuota
  else
    let discountable0 := providerDiscountableUserQuota o baseDiscountable usePrice groupRatio (dec nonCacheUnitCount) in
    let total := dec providerQuota in
    let discountable := if dec_lt total discountable0 then total else discountable0 in
    QuotaFromDecimal (total - discountable + discountable * discount)%Q.

(** What is settled for a request without a tiered snapshot: the quota the
    user pays, the quota of the channel and the cost to the provider. *)
Definition text_settlement (o : ProviderOffer) (rq : TextRequest) (usage : option Usage) : Z * Z * option Z :=
  let s := calculateTextQuotaSummary rq usage in
  let base := sm_Quota s in
  if offers o then
    let p := tr_PriceData rq in
    let '(providerQuota, importCostQuota, _) :=
      ApplyProviderPricingQuota o base (sm_CacheQuotaComponent s) (px_UsePrice p) (px_GroupRatio p) (sm_TotalTokens s) (sm_NonCacheTokens s) in
    let tokens := if sm_DiscountableTokens s <=? 0 then sm_NonCacheTokens s else sm_DiscountableTokens s in
    let quota := applyProviderUserDiscount o rq providerQuota (sm_DiscountableQuotaComponent s) (px_UsePrice p) (px_GroupRatio p) tokens in
    (if quota <? 0 then 0 else quota, base, Some importCostQuota)
  else (base, base, None).
End Price.
