(* ===== verification/PriceSafety.v ===== *)
(** * What a text request costs

    Theorems on [TextPrice]: the quota of a request is the rounded total of an
    invoice on which every token appears once, a charged request costs
    between one unit and the largest quota, more output never costs less, and
    a provider whose markup is no discount is not charged more than its user,
    up to one unit. *)

From stdpp Require Import base numbers list strings gmap sorting.
From Stdlib Require Import ZArith QArith Qround Lia Lqa Ascii.
From S2P Require Import Prelude GoInt GoString GoText Redemption TextPrice.
Open Scope Z_scope.

(** ** Rounding *)

Lemma round_nonneg v : (0 <= v)%Q -> round_half_away v = Qfloor (v + (1 # 2)).
Proof.
  destruct v as [n d]. unfold Qle; cbn. rewrite Z.mul_1_r. intros Hn.
  change (Qfloor ((n # d) + (1 # 2))) with ((n * 2 + 1 * Z.pos d) / Z.pos (d * 2)).
  change (round_half_away (n # d)) with (Z.sgn n * ((2 * Z.abs n + Z.pos d) / (2 * Z.pos d))).
  replace (n * 2 + 1 * Z.pos d) with (2 * Z.abs n + Z.pos d) by lia. replace (Z.pos (d * 2)) with (2 * Z.pos d) by lia.
  destruct (decide (n = 0)) as [->|]; [cbn [Z.abs Z.sgn]; rewrite Z.div_small by lia; done|].
  rewrite Z.sgn_pos by lia. lia.
Qed.

Lemma round_neg v : (v < 0)%Q -> round_half_away v = - Qfloor (- v + (1 # 2)).
Proof.
  intros Hv. rewrite <- (round_nonneg (- v)) by lra. destruct v as [n d]. unfold Qlt, round_half_away in *; cbn in *.
  rewrite Z.abs_opp, Z.sgn_opp. lia.
Qed.

Lemma round_mono v w : (v <= w)%Q -> round_half_away v <= round_half_away w.
Proof.
  intros H. destruct (Qlt_le_dec v 0) as [Hv|Hv], (Qlt_le_dec w 0) as [Hw|Hw].
  - rewrite !round_neg by done. assert (Qfloor (- w + (1 # 2)) <= Qfloor (- v + (1 # 2))); [|lia].
    apply Qfloor_resp_le. lra.
  - rewrite round_neg, round_nonneg by done.
    assert (0 <= Qfloor (- v + (1 # 2))) by (change 0 with (Qfloor 0); apply Qfloor_resp_le; lra).
    assert (0 <= Qfloor (w + (1 # 2))) by (change 0 with (Qfloor 0); apply Qfloor_resp_le; lra). lia.
  - lra.
  - rewrite !round_nonneg by done. apply Qfloor_resp_le. lra.
Qed.

Lemma Qle_bool_false a b : Qle_bool a b = false <-> (b < a)%Q.
Proof.
  rewrite <- not_true_iff_false, Qle_bool_iff. split; [apply Qnot_le_lt | apply Qlt_not_le].
Qed.

Lemma dec_lt_spec a b : dec_lt a b = true <-> (a < b)%Q.
Proof. unfold dec_lt. by rewrite negb_true_iff, Qle_bool_false. Qed.

Lemma dec_lt_false a b : dec_lt a b = false <-> (b <= a)%Q.
Proof. unfold dec_lt. by rewrite negb_false_iff, Qle_bool_iff. Qed.

Lemma round_dec n : round_half_away (inject_Z n) = n.
Proof.
  unfold round_half_away; cbn. rewrite Z.mul_1_r. replace (2 * Z.abs n + 1) with (1 + Z.abs n * 2) by lia.
  rewrite Z.div_add by lia. change (1 / 2) with 0. destruct n; cbn; lia.
Qed.

Lemma QuotaFromDecimal_mono v w : (v <= w)%Q -> QuotaFromDecimal v <= QuotaFromDecimal w.
Proof.
  intros H. unfold QuotaFromDecimal.
  destruct (Qle_bool (inject_Z MaxQuota) v) eqn:E1, (Qle_bool (inject_Z MaxQuota) w) eqn:E2;
    rewrite ?Qle_bool_iff, ?Qle_bool_false in *; try lia; try lra.
  - destruct (Qle_bool v (inject_Z MinQuota)); [done|].
    rewrite <- (round_dec MaxQuota). apply round_mono. lra.
  - destruct (Qle_bool v (inject_Z MinQuota)) eqn:E3, (Qle_bool w (inject_Z MinQuota)) eqn:E4;
      rewrite ?Qle_bool_iff, ?Qle_bool_false in *; try lia; try lra.
    + rewrite <- (round_dec MinQuota). apply round_mono. lra.
    + by apply round_mono.
Qed.

#[export] Instance QuotaFromDecimal_proper : Proper (Qeq ==> eq) QuotaFromDecimal.
Proof. intros v w H. apply Z.le_antisymm; apply QuotaFromDecimal_mono; lra. Qed.

#[export] Instance at_least_one_proper : Proper (Qeq ==> Qeq ==> Qeq) at_least_one.
Proof. intros r r' Hr v w H. unfold at_least_one, dec_zero. rewrite Hr, H. by destruct (_ && _). Qed.

Lemma QuotaFromDecimal_dec n : MinQuota <= n <= MaxQuota -> QuotaFromDecimal (dec n) = n.
Proof.
  intros Hn. unfold QuotaFromDecimal, dec.
  destruct (Qle_bool (inject_Z MaxQuota) (inject_Z n)) eqn:E1; [apply Qle_bool_iff in E1; rewrite <- Zle_Qle in E1; lia|].
  destruct (Qle_bool (inject_Z n) (inject_Z MinQuota)) eqn:E2; [apply Qle_bool_iff in E2; rewrite <- Zle_Qle in E2; lia|].
  apply round_dec.
Qed.

(** ** The invoice *)

Definition other_product (p : PriceData) : Q := foldl Qmult 1%Q (px_OtherRatios p).

Lemma foldl_Qmult l v w : (foldl Qmult (v * w) l == v * foldl Qmult w l)%Q.
Proof.
  revert w. induction l as [|x l IH]; intros w; cbn; [reflexivity|].
  rewrite <- IH. clear IH. revert w. generalize v. clear v.
  assert (P : forall a b, (a == b)%Q -> (foldl Qmult a l == foldl Qmult b l)%Q).
  { induction l as [|y l IHl]; intros a b H; cbn; [done|]. apply IHl. by rewrite H. }
  intros v w. apply P. ring.
Qed.

Lemma ApplyOtherRatios_product p v : (ApplyOtherRatiosToDecimal p v == v * other_product p)%Q.
Proof.
  unfold ApplyOtherRatiosToDecimal, other_product. rewrite <- (foldl_Qmult _ v 1).
  assert (P : forall l a b, (a == b)%Q -> (foldl Qmult a l == foldl Qmult b l)%Q).
  { induction l as [|y l IHl]; intros a b H; cbn; [done|]. apply IHl. by rewrite H. }
  apply P. ring.
Qed.

(** A line: a number of tokens and the price of one. *)
Definition line : Type := Z * Q.
Definition lines_total (l : list line) : Q := foldr (fun e t => dec (fst e) * snd e + t)%Q 0%Q l.
Definition lines_tokens (l : list line) : Z := sum_by fst l.

Section Invoice.
Context (QuotaPerUnit : Q) (idx : toolPriceIndex) (defaultModelRatio : string -> option Q) (openrouter_tokens : Usage -> PriceData -> Z).
Notation summary := (calculateTextQuotaSummary QuotaPerUnit idx defaultModelRatio openrouter_tokens).

(** Cache tokens are reported apart from the prompt (Claude) or within it. *)
Definition separate_cache (rq : TextRequest) (usage : option Usage) : bool :=
  String.eqb (usageSemanticFromUsage rq usage) "anthropic" || isLegacyClaudeDerivedOpenAIUsage rq (usage_or_estimate rq usage).

(** The prompt and cache-write tokens that are billed. *)
Definition billed_tokens (rq : TextRequest) (usage : option Usage) : Z * Z :=
  openrouter_adjust defaultModelRatio openrouter_tokens rq (String.eqb (usageSemanticFromUsage rq usage) "anthropic") (usage_or_estimate rq usage).

Definition base_ratio (rq : TextRequest) : Q := (px_ModelRatio (tr_PriceData rq) * px_GroupRatio (tr_PriceData rq))%Q.

(** Audio tokens with a price of their own. *)
Definition priced_audio (rq : TextRequest) (u : Usage) : Z :=
  if dec_lt 0 (GetGeminiInputAudioPricePerMillionTokens (tr_ModelName rq)) then us_AudioTokens u else 0.

(** Cache writes without a lifetime of their own. *)
Definition plain_writes (creation : Z) (u : Usage) : Z := Z.max 0 (i64_sub (i64_sub creation (us_Claude5mTokens u)) (us_Claude1hTokens u)).

(** The prompt tokens without a price of their own. *)
Definition plain_prompt (rq : TextRequest) (apart : bool) (prompt creation : Z) (u : Usage) : Z :=
  prompt - us_ImageTokens u - priced_audio rq u - (if apart then 0 else us_CachedTokens u + creation).

(** The tokens of a request, each on one line with its price. *)
Definition invoice (rq : TextRequest) (usage : option Usage) : list line :=
  let p := tr_PriceData rq in
  let u := usage_or_estimate rq usage in
  let '(prompt, creation) := billed_tokens rq usage in
  let ratio := base_ratio rq in
  let discount := own_discount rq in
  let audio := priced_audio rq u in
  let apart := separate_cache rq usage in
  [(plain_prompt rq apart prompt creation u, ratio * discount);
   (us_CompletionTokens u, px_CompletionRatio p * ratio * discount);
   (us_CachedTokens u, px_CacheRatio p * ratio);
   (us_ImageTokens u, px_ImageRatio p * ratio);
   (audio, dec_div (GetGeminiInputAudioPricePerMillionTokens (tr_ModelName rq)) 1000000 * px_GroupRatio p * QuotaPerUnit)]%Q ++
  (if apart
   then [(plain_writes creation u, px_CacheCreationRatio p * ratio); (us_Claude5mTokens u, px_CacheCreation5mRatio p * ratio);
         (us_Claude1hTokens u, px_CacheCreation1hRatio p * ratio)]
   else [(creation, px_CacheCreationRatio p * ratio)])%Q.

Lemma dec_sub a b : (dec (a - b) == dec a - dec b)%Q.
Proof. unfold dec. rewrite <- Z.add_opp_r, inject_Z_plus, inject_Z_opp. reflexivity. Qed.
Lemma dec_add a b : (dec (a + b) == dec a + dec b)%Q.
Proof. unfold dec. rewrite inject_Z_plus. reflexivity. Qed.

Lemma own_discount_le rq : (own_discount rq <= 1)%Q.
Proof.
  unfold own_discount, effectiveUserDiscount, EffectiveUserDiscount.
  destruct (0 <? tr_ProviderId rq); [lra|]. destruct (tr_subscription rq); [lra|].
  destruct (Qle_bool _ 0); cbn [orb]; [lra|]. destruct (dec_lt 1 _) eqn:E; [lra|]. by apply dec_lt_false in E.
Qed.

(** The discount test only skips a multiplication by one. *)
Lemma discounted_if rq v : ((if dec_lt (own_discount rq) 1 then v * own_discount rq else v) == v * own_discount rq)%Q.
Proof.
  destruct (dec_lt (own_discount rq) 1) eqn:E; [reflexivity|]. apply dec_lt_false in E.
  pose proof (own_discount_le rq). assert (own_discount rq == 1)%Q as -> by lra. ring.
Qed.

Lemma if_zero (n : Z) (v : Q) : ((if n =? 0 then 0 else dec n * v) == dec n * v)%Q.
Proof. destruct (Z.eqb_spec n 0) as [->|]; [unfold dec; ring | reflexivity]. Qed.
Lemma if_zero_sub (n : Z) (v : Q) : ((if n =? 0 then v else v - dec n) == v - dec n)%Q.
Proof. destruct (Z.eqb_spec n 0) as [->|]; [unfold dec; ring | reflexivity]. Qed.

Definition writes_total (p : PriceData) (apart : bool) (creation : Z) (u : Usage) : Q :=
  (if apart then dec (plain_writes creation u) * px_CacheCreationRatio p + dec (us_Claude5mTokens u) * px_CacheCreation5mRatio p
                 + dec (us_Claude1hTokens u) * px_CacheCreation1hRatio p
   else dec creation * px_CacheCreationRatio p)%Q.

(** The parts of the prompt are the lines of the invoice. *)
Lemma split_prompt_lines rq apart prompt creation u :
  0 <= us_Claude5mTokens u -> 0 <= us_Claude1hTokens u ->
  let p := tr_PriceData rq in
  let parts := split_prompt QuotaPerUnit rq apart prompt creation u in
  (pp_base parts == dec (plain_prompt rq apart prompt creation u))%Q /\
  (pp_cached parts == dec (us_CachedTokens u) * px_CacheRatio p)%Q /\
  (pp_creation parts == writes_total p apart creation u)%Q /\
  (pp_image parts == dec (us_ImageTokens u) * px_ImageRatio p)%Q /\
  (pp_audio parts == dec (priced_audio rq u) *
     (dec_div (GetGeminiInputAudioPricePerMillionTokens (tr_ModelName rq)) 1000000 * px_GroupRatio p * QuotaPerUnit))%Q.
Proof.
  intros H5 H1 p parts. unfold parts, split_prompt. cbn [pp_base pp_cached pp_creation pp_image pp_audio].
  set (has := negb (creation =? 0) || (0 <? us_Claude5mTokens u) || (0 <? us_Claude1hTokens u)).
  assert (Hno : has = false -> creation = 0 /\ us_Claude5mTokens u = 0 /\ us_Claude1hTokens u = 0).
  { unfold has. intros [[?%negb_false_iff%Z.eqb_eq ?%Z.ltb_ge]%orb_false_iff ?%Z.ltb_ge]%orb_false_iff. lia. }
  fold p. split_and!.
  - unfold plain_prompt, priced_audio. destruct (dec_lt 0 _); rewrite ?andb_true_r, ?andb_false_r.
    + destruct (Z.eqb_spec (us_AudioTokens u) 0) as [->|]; cbn [negb]; rewrite if_zero_sub;
      destruct (Z.eqb_spec (us_CachedTokens u) 0) as [->|], apart, has eqn:Eh; cbn [negb andb];
        try destruct (Hno eq_refl) as (-> & _); rewrite ?dec_sub, ?dec_add; unfold dec; ring.
    + rewrite if_zero_sub;
      destruct (Z.eqb_spec (us_CachedTokens u) 0) as [->|], apart, has eqn:Eh; cbn [negb andb];
        try destruct (Hno eq_refl) as (-> & _); rewrite ?dec_sub, ?dec_add; unfold dec; ring.
  - apply if_zero.
  - unfold writes_total, plain_writes. destruct has eqn:Eh; [by destruct apart|].
    destruct (Hno eq_refl) as (-> & -> & ->). change (0 `max` i64_sub (i64_sub 0 0) 0) with 0.
    destruct apart; unfold dec; ring.
  - apply if_zero.
  - unfold priced_audio. destruct (dec_lt 0 _); rewrite ?andb_true_r, ?andb_false_r; [|unfold dec; ring].
    destruct (Z.eqb_spec (us_AudioTokens u) 0) as [->|]; cbn [negb]; unfold dec; ring.
Qed.

Lemma ratio_total_invoice rq usage :
  0 <= us_Claude5mTokens (usage_or_estimate rq usage) -> 0 <= us_Claude1hTokens (usage_or_estimate rq usage) ->
  (ratio_total QuotaPerUnit idx rq
     (split_prompt QuotaPerUnit rq (separate_cache rq usage) (fst (billed_tokens rq usage)) (snd (billed_tokens rq usage)) (usage_or_estimate rq usage))
     (us_CompletionTokens (usage_or_estimate rq usage))
   == (lines_total (invoice rq usage) + tool_surcharge QuotaPerUnit idx rq) * other_product (tr_PriceData rq))%Q.
Proof.
  intros H5 H1. unfold ratio_total. rewrite ApplyOtherRatios_product.
  unfold invoice. destruct (billed_tokens rq usage) as [prompt creation]. cbn [fst snd].
  destruct (split_prompt_lines rq (separate_cache rq usage) prompt creation _ H5 H1) as (E1 & E2 & E3 & E4 & E5).
  rewrite !discounted_if, E1, E2, E3, E4, E5. unfold writes_total, base_ratio, tool_surcharge, lines_total.
  destruct (separate_cache rq usage); cbn [app foldr fst snd]; ring.
Qed.

(** The two minimum rules together: a charged request costs at least one unit. *)
Lemma minimum_charge ratio total :
  (let q := QuotaFromDecimal (at_least_one ratio total) in if negb (dec_zero ratio) && (q =? 0) then 1 else q) =
  (if dec_zero ratio then QuotaFromDecimal total else Z.max 1 (QuotaFromDecimal total)).
Proof.
  unfold at_least_one. destruct (dec_zero ratio); cbn [negb andb]; [done|].
  assert (H0 : QuotaFromDecimal 0 = 0) by done.
  destruct (Qle_bool total 0) eqn:E.
  - apply Qle_bool_iff in E. pose proof (QuotaFromDecimal_mono _ _ E). change (QuotaFromDecimal 1) with 1. cbn. lia.
  - apply Qle_bool_false in E. pose proof (QuotaFromDecimal_mono 0 total ltac:(lra)).
    destruct (Z.eqb_spec (QuotaFromDecimal total) 0); lia.
Qed.

(** The price of a request billed by tokens. *)
Definition invoice_due (rq : TextRequest) (usage : option Usage) : Q :=
  ((lines_total (invoice rq usage) + tool_surcharge QuotaPerUnit idx rq) * other_product (tr_PriceData rq))%Q.

Lemma summary_quota rq usage :
  px_UsePrice (tr_PriceData rq) = false ->
  0 <= us_Claude5mTokens (usage_or_estimate rq usage) -> 0 <= us_Claude1hTokens (usage_or_estimate rq usage) ->
  sm_Quota (summary rq usage) =
    if sm_TotalTokens (summary rq usage) =? 0 then 0
    else if dec_zero (base_ratio rq) then QuotaFromDecimal (invoice_due rq usage)
    else Z.max 1 (QuotaFromDecimal (invoice_due rq usage)).
Proof.
  intros Hp H5 H1. pose proof (ratio_total_invoice rq usage H5 H1) as E.
  unfold calculateTextQuotaSummary. fold (separate_cache rq usage). fold (billed_tokens rq usage).
  destruct (billed_tokens rq usage) as [prompt creation]. cbn [fst snd] in E.
  fold (base_ratio rq). rewrite Hp. cbn [sm_Quota sm_TotalTokens].
  destruct (_ =? 0); [done|].
  etransitivity; [apply minimum_charge|]. unfold invoice_due.
  by rewrite (QuotaFromDecimal_proper _ _ E).
Qed.

Lemma total_tokens_summary rq usage :
  sm_TotalTokens (summary rq usage) =
    i64_add (us_PromptTokens (usage_or_estimate rq usage)) (us_CompletionTokens (usage_or_estimate rq usage)).
Proof. unfold calculateTextQuotaSummary. by destruct (openrouter_adjust _ _ _ _ _). Qed.

Lemma invoice_tokens rq usage :
  let u := usage_or_estimate rq usage in
  lines_tokens (invoice rq usage) =
    fst (billed_tokens rq usage) + us_CompletionTokens u +
    (if separate_cache rq usage
     then us_CachedTokens u + plain_writes (snd (billed_tokens rq usage)) u + us_Claude5mTokens u + us_Claude1hTokens u
     else 0).
Proof.
  unfold invoice, lines_tokens, plain_prompt. destruct (billed_tokens rq usage) as [prompt creation].
  destruct (separate_cache rq usage); cbn; lia.
Qed.

(** C13. What a request billed by tokens costs: the total of an invoice on
    which every prompt and completion token stands on exactly one line with
    its price (cache reads, cache writes by lifetime, images and audio at
    their own, the rest and the output at the discounted base price), plus
    the tool calls, times the other ratios, rounded and saturated; at least
    one unit unless the model is free, and nothing when no token was used. *)
Theorem every_token_is_priced_once rq usage :
  px_UsePrice (tr_PriceData rq) = false ->
  0 <= us_Claude5mTokens (usage_or_estimate rq usage) -> 0 <= us_Claude1hTokens (usage_or_estimate rq usage) ->
  let u := usage_or_estimate rq usage in
  let s := summary rq usage in
  sm_Quota s =
    (if sm_TotalTokens s =? 0 then 0
     else if dec_zero (base_ratio rq) then QuotaFromDecimal (invoice_due rq usage)
     else Z.max 1 (QuotaFromDecimal (invoice_due rq usage))) /\
  lines_tokens (invoice rq usage) =
    fst (billed_tokens rq usage) + us_CompletionTokens u +
    (if separate_cache rq usage
     then us_CachedTokens u + plain_writes (snd (billed_tokens rq usage)) u + us_Claude5mTokens u + us_Claude1hTokens u
     else 0).
Proof. intros Hp H5 H1 u s. split; [by apply summary_quota | apply invoice_tokens]. Qed.

(** ** Monotone in the output *)

Definition with_completion (n : Z) (u : Usage) : Usage :=
  mkUsage (us_PromptTokens u) n (us_CachedTokens u) (us_CachedCreationTokens u) (us_ImageTokens u) (us_AudioTokens u)
    (us_Claude5mTokens u) (us_Claude1hTokens u) (us_UsageSemantic u) (us_UsageSource u) (us_CostIsIntZero u).

(** No price is negative. *)
Definition prices_ok (p : PriceData) : Prop :=
  (0 <= px_ModelRatio p * px_GroupRatio p)%Q /\ (0 <= px_CompletionRatio p)%Q /\ Forall (fun r => 0 <= r)%Q (px_OtherRatios p).

Lemma other_product_nonneg p : prices_ok p -> (0 <= other_product p)%Q.
Proof.
  intros (_ & _ & Hr). unfold other_product. revert Hr. generalize (px_OtherRatios p). intros l Hr.
  assert (H : forall a, (0 <= a)%Q -> (0 <= foldl Qmult a l)%Q).
  { induction Hr as [|x l Hx Hl IH]; intros a Ha; cbn; [done|]. apply IH. by apply Qmult_le_0_compat. }
  apply H. lra.
Qed.

Lemma own_discount_nonneg rq : (0 <= own_discount rq)%Q.
Proof.
  unfold own_discount, effectiveUserDiscount, EffectiveUserDiscount.
  destruct (0 <? tr_ProviderId rq); [lra|]. destruct (tr_subscription rq); [lra|].
  destruct (Qle_bool _ 0) eqn:E; cbn [orb]; [lra|]. apply Qle_bool_false in E. destruct (dec_lt 1 _); lra.
Qed.

Lemma invoice_due_mono rq u n m :
  prices_ok (tr_PriceData rq) -> tr_openRouter rq = false -> n <= m ->
  (invoice_due rq (Some (with_completion n u)) <= invoice_due rq (Some (with_completion m u)))%Q.
Proof.
  intros Hp Ho Hnm. unfold invoice_due. apply Qmult_le_compat_r; [|by apply other_product_nonneg].
  apply Qplus_le_compat; [|apply Qle_refl].
  unfold invoice, billed_tokens, openrouter_adjust. rewrite Ho. cbn [andb usage_or_estimate with_completion].
  change (separate_cache rq (Some (with_completion m u))) with (separate_cache rq (Some (with_completion n u))).
  generalize (separate_cache rq (Some (with_completion n u))). intros apart.
  unfold plain_prompt, priced_audio, plain_writes, with_completion.
  cbn [us_PromptTokens us_CompletionTokens us_CachedTokens us_CachedCreationTokens us_ImageTokens us_AudioTokens us_Claude5mTokens us_Claude1hTokens].
  set (rest := if apart then [_; _; _] else _). unfold lines_total. cbn [app foldr fst snd].
  assert (dec n <= dec m)%Q as Hd by (unfold dec; by rewrite <- Zle_Qle).
  destruct Hp as (Hr & Hc & _). fold (base_ratio rq) in Hr. pose proof (own_discount_nonneg rq) as Hdisc.
  assert (0 <= px_CompletionRatio (tr_PriceData rq) * base_ratio rq * own_discount rq)%Q as Hpos
    by (apply Qmult_le_0_compat; [by apply Qmult_le_0_compat | done]).
  pose proof (Qmult_le_compat_r _ _ _ Hd Hpos). lra.
Qed.

(** With prices that are not negative, a longer answer never costs less:
    rounding, saturation and the minimum charge keep the order. *)
Theorem more_output_never_costs_less rq u n m :
  px_UsePrice (tr_PriceData rq) = false -> tr_openRouter rq = false -> prices_ok (tr_PriceData rq) ->
  0 <= us_Claude5mTokens u -> 0 <= us_Claude1hTokens u -> 0 < us_PromptTokens u -> 0 <= n -> n <= m ->
  us_PromptTokens u + m <= max_i64 ->
  sm_Quota (summary rq (Some (with_completion n u))) <= sm_Quota (summary rq (Some (with_completion m u))).
Proof.
  intros Hp Ho Hok H5 H1 Hpr Hn Hnm Hmax. 
  rewrite (summary_quota rq (Some (with_completion n u)) Hp H5 H1), (summary_quota rq (Some (with_completion m u)) Hp H5 H1).
  rewrite !total_tokens_summary. cbn [usage_or_estimate with_completion us_PromptTokens us_CompletionTokens].
  rewrite !i64_add_id by (unfold is_i64, min_i64; lia).
  destruct (Z.eqb_spec (us_PromptTokens u + n) 0), (Z.eqb_spec (us_PromptTokens u + m) 0); try lia.
  pose proof (QuotaFromDecimal_mono _ _ (invoice_due_mono rq u n m Hok Ho Hnm)). destruct (dec_zero _); lia.
Qed.
End Invoice.

(** ** Provider prices *)

Lemma dec_nonneg n : 0 <= n -> (0 <= dec n)%Q.
Proof. intros H. unfold dec. change 0%Q with (inject_Z 0). by rewrite <- Zle_Qle. Qed.

Lemma Qmult_le_l_nonneg x y z : (0 <= z)%Q -> (x <= y)%Q -> (z * x <= z * y)%Q.
Proof. intros Hz H. rewrite (Qmult_comm z x), (Qmult_comm z y). by apply Qmult_le_compat_r. Qed.

Lemma import_ratio_pos o : (0 < import_ratio o)%Q.
Proof. unfold import_ratio. destruct (Qle_bool _ _) eqn:E; [lra | by apply Qle_bool_false in E]. Qed.
Lemma cache_ratio_pos o : (0 < providerEffectiveCacheImportRatio o)%Q.
Proof. unfold providerEffectiveCacheImportRatio. destruct (Qle_bool _ _) eqn:E; [lra | by apply Qle_bool_false in E]. Qed.

(** A provider that does not sell below its purchase price. *)
Definition no_loss_offer (o : ProviderOffer) : Prop :=
  if po_delta o then (0 <= po_DeltaPrice o)%Q /\ (0 <= po_DeltaRatio o)%Q else (1 <= markup o)%Q.

(** The cache part that is split off lies within the quota. *)
Lemma cache_clamp base cache : 0 <= base ->
  let c := if dec_lt cache 0 || dec_lt (dec base) cache then 0%Q else cache in (0 <= c)%Q /\ (c <= dec base)%Q.
Proof.
  intros Hb. pose proof (dec_nonneg _ Hb).
  destruct (dec_lt cache 0) eqn:E1; cbn [orb]; [split; [lra|done]|].
  destruct (dec_lt (dec base) cache) eqn:E2; [split; [lra|done]|]. apply dec_lt_false in E1, E2. done.
Qed.

Lemma QuotaFromDecimal_nonneg v : (0 <= v)%Q -> 0 <= QuotaFromDecimal v.
Proof. intros H%QuotaFromDecimal_mono. exact H. Qed.

Lemma QuotaFromDecimal_max v : QuotaFromDecimal v <= MaxQuota.
Proof.
  destruct (Qlt_le_dec (dec MaxQuota) v) as [H|H]; [|apply QuotaFromDecimal_mono in H; exact H].
  unfold QuotaFromDecimal. assert (Qle_bool (inject_Z MaxQuota) v = true) as ->; [|done].
  apply Qle_bool_iff. unfold dec in H. lra.
Qed.

Section Margin.
Context (QuotaPerUnit : Q) (Hunit : (0 <= QuotaPerUnit)%Q).

Lemma pricing_margin o base cache usePrice group units plain multiply q cost :
  offers o = true -> no_loss_offer o -> 0 <= base -> (0 <= group)%Q -> (0 <= units)%Q ->
  applyProviderPricingQuota QuotaPerUnit o base cache usePrice group units plain multiply = (q, cost, true) ->
  0 <= q <= MaxQuota /\ (cost <= q \/ cost = 1 /\ q = 0).
Proof.
  intros Ho Hloss Hb Hg Hu. unfold applyProviderPricingQuota. rewrite Ho. cbn [negb].
  destruct (cache_clamp base cache Hb) as [Hc0 Hc1]. set (c := if dec_lt cache 0 || dec_lt (dec base) cache then 0%Q else cache) in *.
  set (plain' := if dec_lt plain 0 || dec_lt units plain then units else plain).
  assert (0 <= plain')%Q as Hp.
  { unfold plain'. destruct (dec_lt plain 0) eqn:E1; cbn [orb]; [done|]. apply dec_lt_false in E1. by destruct (dec_lt units plain). }
  pose proof (import_ratio_pos o) as Hi. pose proof (cache_ratio_pos o) as Hcr.
  set (cost0 := ((dec base - c) * import_ratio o + c * providerEffectiveCacheImportRatio o)%Q).
  assert (0 <= (dec base - c) * import_ratio o)%Q as Hn by (apply Qmult_le_0_compat; lra).
  assert (0 <= c * providerEffectiveCacheImportRatio o)%Q as Hcc by (apply Qmult_le_0_compat; lra).
  match goal with |- (if ?p <? 0 then 0 else ?p, _, _) = _ -> _ => set (pq := p) end.
  assert (QuotaFromDecimal cost0 <= pq) as Hle.
  { unfold pq, no_loss_offer in *. destruct (po_delta o).
    - destruct Hloss as [Hd1 Hd2]. apply QuotaFromDecimal_mono. fold cost0.
      match goal with |- (_ <= _ + ?d)%Q => assert (0 <= d)%Q; [|lra] end.
      destruct usePrice; [destruct multiply|]; repeat apply Qmult_le_0_compat; done.
    - apply QuotaFromDecimal_mono. unfold cost0.
      pose proof (Qmult_le_compat_r _ _ _ Hloss Hn). lra. }
  assert (pq <= MaxQuota) as Hmax by (unfold pq; destruct (po_delta o); apply QuotaFromDecimal_max).
  pose proof (QuotaFromDecimal_nonneg cost0 ltac:(unfold cost0; lra)).
  intros [= <- <-]. destruct (Z.ltb_spec pq 0), (Z.ltb_spec 0 base), (Z.eqb_spec (QuotaFromDecimal cost0) 0); cbn [andb]; lia.
Qed.

Lemma discount_unit rq : (0 < effectiveUserDiscount rq <= 1)%Q.
Proof.
  unfold effectiveUserDiscount, EffectiveUserDiscount. destruct (tr_subscription rq); [lra|].
  destruct (Qle_bool _ 0) eqn:E; cbn [orb]; [lra|]. apply Qle_bool_false in E.
  destruct (dec_lt 1 _) eqn:E1; [lra|]. apply dec_lt_false in E1. lra.
Qed.

(** The user discount takes off at most its share of the whole price. *)
Lemma user_discount_range o rq price discountable usePrice group tokens :
  0 <= price <= MaxQuota ->
  let paid := applyProviderUserDiscount QuotaPerUnit o rq price discountable usePrice group tokens in
  QuotaFromDecimal (dec price * effectiveUserDiscount rq) <= paid <= price.
Proof.
  intros Hpr. unfold applyProviderUserDiscount. destruct (discount_unit rq) as [Hf0 Hf1].
  pose proof (dec_nonneg price ltac:(lia)) as Hp0.
  assert (Hdec : QuotaFromDecimal (dec price) = price) by (apply QuotaFromDecimal_dec; unfold MinQuota; lia).
  destruct (Qle_bool 1 _ || (price <=? 0)) eqn:E.
  { split; [|lia]. rewrite <- Hdec at 2. apply QuotaFromDecimal_mono.
    rewrite <- (Qmult_1_r (dec price)) at 2. apply Qmult_le_l_nonneg; lra. }
  set (d0 := providerDiscountableUserQuota _ _ _ _ _ _).
  assert (0 <= d0)%Q as Hd0.
  { unfold d0, providerDiscountableUserQuota. destruct (dec_lt discountable 0); [lra|]. 
    match goal with |- context [dec_lt ?r 0] => destruct (dec_lt r 0) eqn:Er; [lra | by apply dec_lt_false in Er] end. }
  set (d := if dec_lt (dec price) d0 then dec price else d0).
  assert (0 <= d /\ d <= dec price)%Q as [Hd1 Hd2].
  { unfold d. destruct (dec_lt (dec price) d0) eqn:El; [split; lra|]. by apply dec_lt_false in El. }
  set (f := effectiveUserDiscount rq) in *.
  assert (d * f <= d)%Q by (rewrite <- (Qmult_1_r d) at 2; apply Qmult_le_l_nonneg; lra).
  assert ((dec price - d) * f <= dec price - d)%Q.
  { rewrite <- (Qmult_1_r (dec price - d)) at 2. apply Qmult_le_l_nonneg; lra. }
  assert (QuotaFromDecimal (dec price - d + d * f) <= QuotaFromDecimal (dec price)) by (apply QuotaFromDecimal_mono; lra).
  split; [apply QuotaFromDecimal_mono; lra | lia].
Qed.

Context (idx : toolPriceIndex) (defaultModelRatio : string -> option Q) (openrouter_tokens : Usage -> PriceData -> Z).
Notation settlement := (text_settlement QuotaPerUnit idx defaultModelRatio openrouter_tokens).

(** C37. On a provider's site, for an offer that does not sell below the purchase
    price: there is a list price that covers what the platform charges the
    provider for the request (when that charge is the minimum of one unit,
    the list price may be zero), and the user pays the list price less at
    most the user's own discount on it. *)
Theorem provider_price_covers_cost o rq usage paid base cost :
  no_loss_offer o -> (0 <= px_GroupRatio (tr_PriceData rq))%Q ->
  settlement o rq usage = (paid, base, Some cost) ->
  0 <= base -> 0 <= sm_TotalTokens (calculateTextQuotaSummary QuotaPerUnit idx defaultModelRatio openrouter_tokens rq usage) ->
  exists price, 0 <= price <= MaxQuota /\ (cost <= price \/ cost = 1 /\ price = 0) /\
    QuotaFromDecimal (dec price * effectiveUserDiscount rq) <= paid <= price.
Proof.
  intros Hloss Hg Hs Hb Ht. unfold text_settlement in Hs. destruct (offers o) eqn:Ho; [|done].
  set (s := calculateTextQuotaSummary _ _ _ _ rq usage) in *. unfold ApplyProviderPricingQuota in Hs.
  destruct (applyProviderPricingQuota _ _ _ _ _ _ _ _ _) as [[price c] applied] eqn:Ep.
  assert (applied = true) as -> by (unfold applyProviderPricingQuota in Ep; rewrite Ho in Ep; by injection Ep).
  injection Hs as Hpaid Hbase ->. rewrite <- Hbase in Hb.
  pose proof (dec_nonneg _ Ht) as Hu. apply pricing_margin in Ep as [Hprice Hcost]; try done.
  exists price. split; [done|]. split; [done|].
  match type of Hpaid with (if ?q <? 0 then _ else _) = _ => assert (QuotaFromDecimal (dec price * effectiveUserDiscount rq) <= q <= price) as Hr by (by apply user_discount_range); set (final := q) in * end.
  assert (0 <= QuotaFromDecimal (dec price * effectiveUserDiscount rq)).
  { apply QuotaFromDecimal_nonneg. destruct (discount_unit rq). apply Qmult_le_0_compat; [apply dec_nonneg; lia | lra]. }
  destruct (Z.ltb_spec final 0); lia.
Qed.
End Margin.

(** ** Concrete requests *)

Definition demo_index : toolPriceIndex :=
  RebuildToolPriceIndex [("web_search", 10%Q); ("web_search_preview", 10%Q); ("web_search_preview:gpt-4o*", 25%Q); ("file_search", 5 # 2)].
Definition demo_price : PriceData :=
  mkPriceData 0 (5 # 4) 4 (1 # 10) (5 # 4) (5 # 4) 2 2 [] false (9 # 10) 1.
Definition demo_text (openRouter : bool) (providerId : Z) : TextRequest :=
  mkTextRequest "gpt-4o" demo_price false openRouter false providerId 0 (Some (Some 2, None)) 0 None.
Definition demo_usage : Usage := mkUsage 1000 500 200 100 50 0 0 0 "" "openai" false.
Definition demo_ratio (name : string) : option Q := if String.eqb name "gpt-4o" then Some (5 # 4) else None.
Definition demo_estimate (u : Usage) (p : PriceData) : Z := 0.

Lemma every_token_is_priced_once_witness :
  sm_Quota (calculateTextQuotaSummary 500000 demo_index demo_ratio demo_estimate (demo_text false 0) (Some demo_usage)) = 28288 /\
  lines_tokens (invoice 500000 demo_ratio demo_estimate (demo_text false 0) (Some demo_usage)) = 1500.
Proof.
  destruct (every_token_is_priced_once 500000 demo_index demo_ratio demo_estimate (demo_text false 0) (Some demo_usage)
    eq_refl ltac:(vm_compute; discriminate) ltac:(vm_compute; discriminate)) as [H1 H2].
  split; [rewrite H1 | rewrite H2]; vm_compute; reflexivity.
Defined.

Lemma more_output_never_costs_less_witness :
  sm_Quota (calculateTextQuotaSummary 500000 demo_index demo_ratio demo_estimate (demo_text false 0) (Some (with_completion 10 demo_usage))) <=
  sm_Quota (calculateTextQuotaSummary 500000 demo_index demo_ratio demo_estimate (demo_text false 0) (Some (with_completion 11 demo_usage))).
Proof.
  apply (more_output_never_costs_less 500000 demo_index demo_ratio demo_estimate (demo_text false 0) demo_usage 10 11);
    try reflexivity; try (vm_compute; discriminate).
  split; [vm_compute; discriminate|]. split; [vm_compute; discriminate | constructor].
Defined.

Definition demo_offer (importRatio : Q) : ProviderOffer := mkProviderOffer 3 "my-gpt" importRatio 0 false 0 0 (6 # 5).

Lemma provider_price_covers_cost_witness :
  exists paid base cost price,
    text_settlement 500000 demo_index demo_ratio demo_estimate (demo_offer (1 # 2)) (demo_text false 3) (Some demo_usage) = (paid, base, Some cost) /\
    cost <= price /\ paid <= price /\ cost <> 0.
Proof.
  assert (E : exists paid base cost,
    text_settlement 500000 demo_index demo_ratio demo_estimate (demo_offer (1 # 2)) (demo_text false 3) (Some demo_usage) = (paid, base, Some cost) /\
    0 <= base /\ 1 < cost) by (eexists _, _, _; vm_compute; split; [reflexivity | split; [discriminate | reflexivity]]).
  destruct E as (paid & base & cost & E & Hb & Hc).
  destruct (provider_price_covers_cost 500000 ltac:(vm_compute; discriminate) demo_index demo_ratio demo_estimate (demo_offer (1 # 2))
    (demo_text false 3) (Some demo_usage) paid base cost ltac:(vm_compute; discriminate) ltac:(vm_compute; discriminate) E Hb
    ltac:(vm_compute; discriminate)) as (price & Hp & Hcost & Hpaid).
  exists paid, base, cost, price. split; [exact E|]. lia.
Defined.

(** The platform's charge has a minimum of one unit, the provider's price has
    none: a small request is free to the user and charged to the provider. *)
Example small_request_costs_provider :
  applyProviderPricingQuota 500000 (demo_offer (1 # 10)) 1 0 false 1 10 10 false = (0, 1, true).
Proof. vm_compute. reflexivity. Qed.

(** Two keys with the same prefix: the price depends on the order in which the
    map is iterated. *)
Example ambiguous_tool_price :
  GetToolPriceForModel (RebuildToolPriceIndex [("web_search_preview:gpt-4o*", 25%Q); ("web_search_preview:gpt-4o", 10%Q)]) "web_search_preview" "gpt-4o" = 25%Q /\
  GetToolPriceForModel (RebuildToolPriceIndex [("web_search_preview:gpt-4o", 10%Q); ("web_search_preview:gpt-4o*", 25%Q)]) "web_search_preview" "gpt-4o" = 10%Q.
Proof. split; vm_compute; reflexivity. Qed.
