(* ===== verification/ClaudeStream.v ===== *)
(** * Streams of chat completions as Claude events

    An upstream that speaks the OpenAI protocol answers a streaming request
    with chunks; a client that speaks the Anthropic protocol expects events.
    This file holds the chunks (src/dto/openai_response.go), the events
    (src/dto/claude.go), the maps of finish reasons (src/relay/reasonmap) and
    the converter [StreamResponseOpenAI2Claude] of src/service/convert.go, whose
    closures append to one slice: they are functions on a state that holds it. *)

From stdpp Require Import base numbers list strings option.
From Stdlib Require Import ZArith Lia.
From S2P Require Import Prelude GoInt GoString TextPrice.

Local Open Scope string_scope.
Local Open Scope list_scope.
Local Open Scope Z_scope.

(** ** JSON values, what an [any] of Go holds after decoding *)

Inductive Json :=
  | JNull
  | JBool (b : bool)
  | JNumber (text : string)
  | JString (s : string)
  | JArray (items : list Json)
  | JObject (fields : list (string * Json)).

(** ** Chunks *)

(** [dto.Usage]: what the invoice reads, and the fields other
    code reads. *)
Record WireUsage := mkWireUsage {
  wu_usage : Usage;
  wu_TotalTokens : Z;
  wu_PromptCacheHitTokens : Z;
  wu_InputTokensDetails : option Z      (* CachedTokens of the details, when present *)
}.

Record FunctionResponse := mkFunctionResponse { fr_Name : string; fr_Arguments : string }.

Record ToolCallResponse := mkToolCallResponse {
  tc_Index : option Z; tc_ID : string; tc_Function : FunctionResponse
}.

Record StreamDelta := mkStreamDelta {
  dl_Content : option string; dl_ReasoningContent : option string; dl_Reasoning : option string;
  dl_ToolCalls : option (list ToolCallResponse)   (* a nil slice is not an empty one *)
}.

Definition tool_calls (d : StreamDelta) : list ToolCallResponse := default [] (dl_ToolCalls d).

Record StreamChoice := mkStreamChoice { ch_Delta : StreamDelta; ch_FinishReason : option string; ch_Index : Z }.

Record ChatCompletionsStreamResponse := mkChunk {
  sr_Id : string; sr_Created : Z; sr_Model : string; sr_SystemFingerprint : option string;
  sr_Choices : list StreamChoice; sr_Usage : option WireUsage
}.

Definition GetContentString (d : StreamDelta) : string := default "" (dl_Content d).

Definition GetReasoningContent (d : StreamDelta) : string :=
  match dl_ReasoningContent d, dl_Reasoning d with
  | None, None => ""
  | Some s, _ => s
  | None, Some s => s
  end.

Definition GetSystemFingerprint (c : ChatCompletionsStreamResponse) : string := default "" (sr_SystemFingerprint c).

(** ** Events *)

Record ClaudeCacheCreationUsage := mkCacheCreation { cc_Ephemeral5m : Z; cc_Ephemeral1h : Z }.

Record ClaudeUsage := mkClaudeUsage {
  cu_InputTokens : Z; cu_OutputTokens : Z; cu_CacheCreationInputTokens : Z; cu_CacheReadInputTokens : Z;
  cu_CacheCreation : option ClaudeCacheCreationUsage
}.

Record ClaudeMessageSource := mkSource { so_Type : string; so_MediaType : string; so_Data : Json; so_Url : string }.

Record ClaudeMediaMessage := mkMedia {
  mm_Type : string; mm_Text : option string; mm_Model : string; mm_Usage : option ClaudeUsage;
  mm_StopReason : option string; mm_PartialJson : option string; mm_Role : string; mm_Thinking : option string;
  mm_Id : string; mm_Name : string; mm_Input : option Json; mm_Content : option Json;
  mm_Source : option ClaudeMessageSource; mm_CacheControl : option string; mm_ToolUseId : string
}.

Record ClaudeResponse := mkClaudeResponse {
  cr_Type : string; cr_Index : option Z; cr_ContentBlock : option ClaudeMediaMessage;
  cr_Delta : option ClaudeMediaMessage; cr_Message : option ClaudeMediaMessage; cr_Usage : option ClaudeUsage;
  cr_Id : string; cr_Role : string; cr_Model : string; cr_StopReason : string; cr_Content : list ClaudeMediaMessage
}.

(** An event of a stream: the fields of a whole message are not set. *)
Definition stream_event (ty : string) (index : option Z) (block delta message : option ClaudeMediaMessage) (usage : option ClaudeUsage) : ClaudeResponse :=
  mkClaudeResponse ty index block delta message usage "" "" "" "" [].

Definition text_media (ty text : string) : ClaudeMediaMessage := mkMedia ty (Some text) "" None None None "" None "" "" None None None None "".
Definition thinking_media (ty text : string) : ClaudeMediaMessage := mkMedia ty None "" None None None "" (Some text) "" "" None None None None "".
Definition json_media (text : string) : ClaudeMediaMessage :=
  mkMedia "input_json_delta" None "" None None (Some text) "" None "" "" None None None None "".
Definition tool_media (id name : string) (input : Json) : ClaudeMediaMessage :=
  mkMedia "tool_use" None "" None None None "" None id name (Some input) None None None "".
Definition stop_media (reason : string) : ClaudeMediaMessage := mkMedia "" None "" None (Some reason) None "" None "" "" None None None None "".

Definition block_start (index : Z) (m : ClaudeMediaMessage) : ClaudeResponse :=
  stream_event "content_block_start" (Some index) (Some m) None None None.
Definition block_delta (index : Z) (m : ClaudeMediaMessage) : ClaudeResponse :=
  stream_event "content_block_delta" (Some index) None (Some m) None None.
Definition generateStopBlock (index : Z) : ClaudeResponse :=
  stream_event "content_block_stop" (Some index) None None None None.
Definition message_stop : ClaudeResponse := stream_event "message_stop" None None None None None.

(** ** Finish reasons (src/relay/reasonmap) *)

Definition FinishReasonContentFilter := "content_filter".

Definition ClaudeStopReasonToOpenAIFinishReason (stopReason : string) : string :=
  let r := ToLower stopReason in
  if String.eqb r "stop_sequence" then "stop"
  else if String.eqb r "end_turn" then "stop"
  else if String.eqb r "max_tokens" then "length"
  else if String.eqb r "tool_use" then "tool_calls"
  else if String.eqb r "refusal" then FinishReasonContentFilter
  else stopReason.

Definition OpenAIFinishReasonToClaudeStopReason (finishReason : string) : string :=
  let r := ToLower finishReason in
  if String.eqb r "stop" then "end_turn"
  else if String.eqb r "stop_sequence" then "stop_sequence"
  else if str_in r ["length"; "max_tokens"] then "max_tokens"
  else if String.eqb r FinishReasonContentFilter then "refusal"
  else if String.eqb r "tool_calls" then "tool_use"
  else finishReason.

Definition stopReasonOpenAI2Claude (reason : string) : string := OpenAIFinishReasonToClaudeStopReason reason.

(** ** Usage *)

Definition NormalizeCacheCreationSplit (totalTokens tokens5m tokens1h : Z) : Z * Z :=
  let remainder := Z.max (i64_sub (i64_sub totalTokens tokens5m) tokens1h) 0 in
  (i64_add tokens5m remainder, tokens1h).

Definition buildClaudeUsageFromOpenAIUsage (oaiUsage : option WireUsage) : option ClaudeUsage :=
  match oaiUsage with
  | None => None
  | Some w =>
      let u := wu_usage w in
      let '(cacheCreation5m, cacheCreation1h) :=
        NormalizeCacheCreationSplit (us_CachedCreationTokens u) (us_Claude5mTokens u) (us_Claude1hTokens u) in
      Some (mkClaudeUsage (us_PromptTokens u) (us_CompletionTokens u) (us_CachedCreationTokens u) (us_CachedTokens u)
              (if (0 <? cacheCreation5m) || (0 <? cacheCreation1h)
               then Some (mkCacheCreation cacheCreation5m cacheCreation1h) else None))
  end.

(** ** The converter's state *)

(** [LastMessagesType]: unset is the empty string of a zero value. *)
Inductive LastMessageType := LastUnset | LastMessageTypeNone | LastMessageTypeText | LastMessageTypeTools | LastMessageTypeThinking.

#[export] Instance LastMessageType_eq_dec : EqDecision LastMessageType.
Proof. solve_decision. Defined.

Record ClaudeConvertInfo := mkConvertInfo {
  ci_LastMessagesType : LastMessageType; ci_Index : Z; ci_MessageStarted : bool; ci_Usage : option WireUsage;
  ci_Done : bool; ci_ToolCallBaseIndex : Z; ci_ToolCallMaxIndexOffset : Z
}.

(** What the converter reads and writes of [RelayInfo]. *)
Record StreamInfo := mkStreamInfo {
  si_convert : ClaudeConvertInfo;
  si_FinishReason : string;
  si_estimate : Z                       (* GetEstimatePromptTokens() *)
}.

(** [GenRelayInfoClaude] *)
Definition new_stream_info (estimate : Z) : StreamInfo :=
  mkStreamInfo (mkConvertInfo LastMessageTypeNone 0 false None false 0 0) "" estimate.

(** The state shared by the closures: the info and [claudeResponses]. *)
Record Conv := mkConv { cv_info : StreamInfo; cv_out : list ClaudeResponse }.

Definition with_type (t : LastMessageType) (c : ClaudeConvertInfo) : ClaudeConvertInfo :=
  mkConvertInfo t (ci_Index c) (ci_MessageStarted c) (ci_Usage c) (ci_Done c) (ci_ToolCallBaseIndex c) (ci_ToolCallMaxIndexOffset c).
Definition with_index (i : Z) (c : ClaudeConvertInfo) : ClaudeConvertInfo :=
  mkConvertInfo (ci_LastMessagesType c) i (ci_MessageStarted c) (ci_Usage c) (ci_Done c) (ci_ToolCallBaseIndex c) (ci_ToolCallMaxIndexOffset c).
Definition with_tools (base maxOffset : Z) (c : ClaudeConvertInfo) : ClaudeConvertInfo :=
  mkConvertInfo (ci_LastMessagesType c) (ci_Index c) (ci_MessageStarted c) (ci_Usage c) (ci_Done c) base maxOffset.
Definition with_started (c : ClaudeConvertInfo) : ClaudeConvertInfo :=
  mkConvertInfo (ci_LastMessagesType c) (ci_Index c) true (ci_Usage c) (ci_Done c) (ci_ToolCallBaseIndex c) (ci_ToolCallMaxIndexOffset c).
Definition with_usage (u : option WireUsage) (c : ClaudeConvertInfo) : ClaudeConvertInfo :=
  mkConvertInfo (ci_LastMessagesType c) (ci_Index c) (ci_MessageStarted c) u (ci_Done c) (ci_ToolCallBaseIndex c) (ci_ToolCallMaxIndexOffset c).
Definition with_done (c : ClaudeConvertInfo) : ClaudeConvertInfo :=
  mkConvertInfo (ci_LastMessagesType c) (ci_Index c) (ci_MessageStarted c) (ci_Usage c) true (ci_ToolCallBaseIndex c) (ci_ToolCallMaxIndexOffset c).

Definition on_convert (f : ClaudeConvertInfo -> ClaudeConvertInfo) (i : StreamInfo) : StreamInfo :=
  mkStreamInfo (f (si_convert i)) (si_FinishReason i) (si_estimate i).
Definition with_finish_reason (r : string) (i : StreamInfo) : StreamInfo := mkStreamInfo (si_convert i) r (si_estimate i).

Definition update (f : ClaudeConvertInfo -> ClaudeConvertInfo) (s : Conv) : Conv := mkConv (on_convert f (cv_info s)) (cv_out s).
Definition append_events (l : list ClaudeResponse) (s : Conv) : Conv := mkConv (cv_info s) (cv_out s ++ l).
Definition conv (s : Conv) : ClaudeConvertInfo := si_convert (cv_info s).

(** ** The closures *)

Definition open_stops (c : ClaudeConvertInfo) : list ClaudeResponse :=
  match ci_LastMessagesType c with
  | LastMessageTypeText | LastMessageTypeThinking => [generateStopBlock (ci_Index c)]
  | LastMessageTypeTools =>
      map (fun offset => generateStopBlock (i64_add (ci_ToolCallBaseIndex c) offset)) (seqZ 0 (ci_ToolCallMaxIndexOffset c + 1))
  | _ => []
  end.

Definition stopOpenBlocks (s : Conv) : Conv := append_events (open_stops (conv s)) s.

Definition after_stop (c : ClaudeConvertInfo) : ClaudeConvertInfo :=
  with_type LastMessageTypeNone
    match ci_LastMessagesType c with
    | LastMessageTypeTools =>
        with_tools 0 0 (with_index (i64_add (i64_add (ci_ToolCallBaseIndex c) (ci_ToolCallMaxIndexOffset c)) 1) c)
    | _ => with_index (i64_add (ci_Index c) 1) c
    end.

Definition stopOpenBlocksAndAdvance (s : Conv) : Conv :=
  if bool_decide (ci_LastMessagesType (conv s) = LastMessageTypeNone) then s
  else update after_stop (stopOpenBlocks s).

(** The part of [emitChoice] for reasoning and for text: open a block when the
    last one has another type, then emit the delta. *)
Definition emit_block (ty : LastMessageType) (start delta : ClaudeMediaMessage) (s : Conv) : Conv :=
  let s1 :=
    if bool_decide (ci_LastMessagesType (conv s) <> ty) then
      let s' := stopOpenBlocksAndAdvance s in append_events [block_start (ci_Index (conv s')) start] s'
    else s in
  let s2 := update (with_type ty) s1 in
  append_events [block_delta (ci_Index (conv s2)) delta] s2.

Definition tool_offset (i : Z) (toolCall : ToolCallResponse) : Z :=
  let offset := default i (tc_Index toolCall) in
  if offset <? 0 then i else offset.

(** The events of one tool call of a delta. *)
Definition tool_events (base offset : Z) (toolCall : ToolCallResponse) : list ClaudeResponse :=
  let idx := i64_add base offset in
  let f := tc_Function toolCall in
  (if String.eqb (fr_Name f) "" then [] else [block_start idx (tool_media (tc_ID toolCall) (fr_Name f) (JObject []))])
  ++ (if String.eqb (fr_Arguments f) "" then [] else [block_delta idx (json_media (fr_Arguments f))]).

(** [for i, toolCall := range choice.Delta.ToolCalls] *)
Fixpoint emit_tools (base i maxOffset : Z) (calls : list ToolCallResponse) : Z * list ClaudeResponse :=
  match calls with
  | [] => (maxOffset, [])
  | toolCall :: calls' =>
      let offset := tool_offset i toolCall in
      let '(m, out) := emit_tools base (i + 1) (if maxOffset <? offset then offset else maxOffset) calls' in
      (m, tool_events base offset toolCall ++ out)
  end.

Definition emit_tool_calls (calls : list ToolCallResponse) (s : Conv) : Conv :=
  match calls with
  | [] => s
  | _ =>
      let s1 :=
        if bool_decide (ci_LastMessagesType (conv s) <> LastMessageTypeTools) then
          let s' := stopOpenBlocksAndAdvance s in update (with_tools (ci_Index (conv s')) 0) s'
        else s in
      let s2 := update (with_type LastMessageTypeTools) s1 in
      let base := ci_ToolCallBaseIndex (conv s2) in
      let '(maxOffset, out) := emit_tools base 0 (ci_ToolCallMaxIndexOffset (conv s2)) calls in
      update (fun c => with_index (i64_add base maxOffset) (with_tools base maxOffset c)) (append_events out s2)
  end.

Definition emit_reasoning (reasoning : string) (s : Conv) : Conv :=
  if String.eqb reasoning "" then s
  else emit_block LastMessageTypeThinking (thinking_media "thinking" "") (thinking_media "thinking_delta" reasoning) s.

Definition emit_text (textContent : string) (s : Conv) : Conv :=
  if String.eqb textContent "" then s
  else emit_block LastMessageTypeText (text_media "text" "") (text_media "text_delta" textContent) s.

Definition emitChoice (choice : StreamChoice) (s : Conv) : Conv :=
  let d := ch_Delta choice in
  emit_tool_calls (tool_calls d) (emit_text (GetContentString d) (emit_reasoning (GetReasoningContent d) s)).

Definition finishMessage (reason : string) (usage : option WireUsage) (s : Conv) : Conv :=
  let s1 := if String.eqb reason "" then s else mkConv (with_finish_reason reason (cv_info s)) (cv_out s) in
  let s2 := stopOpenBlocks s1 in
  let s3 :=
    match usage with
    | None => s2
    | Some _ =>
        let stopReason := stopReasonOpenAI2Claude (si_FinishReason (cv_info s2)) in
        let stopReason := if String.eqb stopReason "" then "end_turn" else stopReason in
        append_events [stream_event "message_delta" None None (Some (stop_media stopReason)) None
                (buildClaudeUsageFromOpenAIUsage usage)] s2
    end in
  update with_done (append_events [message_stop] s3).

Definition message_start (id model : string) (estimate : Z) : ClaudeResponse :=
  stream_event "message_start" None None None
    (Some (mkMedia "message" None model (Some (mkClaudeUsage estimate 0 0 0 None)) None None "assistant" None id "" None
             (Some (JArray [])) None None "")) None.

Definition emit_message_start (c : ChatCompletionsStreamResponse) (s : Conv) : Conv :=
  if ci_MessageStarted (conv s) then s
  else update with_started (append_events [message_start (sr_Id c) (sr_Model c) (si_estimate (cv_info s))] s).

(** [usage := openAIResponse.Usage], or that of the conversion *)
Definition known_usage (c : ChatCompletionsStreamResponse) (s : Conv) : option WireUsage :=
  match sr_Usage c with Some u => Some u | None => ci_Usage (conv s) end.

Definition finish_if (reason : string) (usage : option WireUsage) (s : Conv) : Conv :=
  match usage with Some _ => finishMessage reason usage s | None => s end.

Definition finish_reason (choice : StreamChoice) : option string :=
  match ch_FinishReason choice with
  | Some r => if String.eqb r "" then None else Some r
  | None => None
  end.

Definition convert_body (c : ChatCompletionsStreamResponse) (s : Conv) : Conv :=
  match sr_Choices c with
  | [] => finish_if "" (known_usage c s) s
  | choice :: _ =>
      let s1 := emitChoice choice s in
      match finish_reason choice with
      | Some r =>
          let s2 := mkConv (with_finish_reason r (cv_info s1)) (cv_out s1) in
          finish_if r (known_usage c s2) s2
      | None => s1
      end
  end.

(** The converter returns what it appended and leaves its state in [info]. *)
Definition StreamResponseOpenAI2Claude (c : ChatCompletionsStreamResponse) (info : StreamInfo) : StreamInfo * list ClaudeResponse :=
  if ci_Done (si_convert info) then (info, [])
  else
    let info := if bool_decide (ci_LastMessagesType (si_convert info) = LastUnset)
                then on_convert (with_type LastMessageTypeNone) info else info in
    let s := convert_body c (emit_message_start c (mkConv info [])) in
    (cv_info s, cv_out s).
