(* ===== verification/GeminiStream.v ===== *)
(** * Chat completions as Gemini responses

    The conversions of src/service/convert.go for clients that speak the
    Gemini protocol: complete answers ([ResponseOpenAI2Gemini]) and chunks
    ([StreamResponseOpenAI2Gemini]), with the messages of
    src/dto/openai_request.go they read.  [json.Unmarshal] into a map is the
    parameter [parse_map]. *)

From stdpp Require Import base numbers list strings option.
From Stdlib Require Import ZArith Lia.
From S2P Require Import Prelude GoInt GoString TextPrice ClaudeStream.

Local Open Scope string_scope.
Local Open Scope list_scope.
Local Open Scope Z_scope.

(** ** Messages of a chat completion *)

Record FunctionRequest := mkFunctionRequest {
  fq_Description : string; fq_Name : string; fq_Parameters : option Json; fq_Arguments : string
}.

Record ToolCallRequest := mkToolCallRequest { tq_ID : string; tq_Type : string; tq_Function : FunctionRequest }.

Record MessageImageUrl := mkImageUrl { iu_Url : string; iu_Detail : string; iu_MimeType : string }.

Record MediaContent := mkMediaContent {
  mc_Type : string; mc_Text : string; mc_ImageUrl : option MessageImageUrl; mc_CacheControl : option string
}.

(** [Message.Content]: what a decoded body holds, or the slice a conversion sets. *)
Inductive Content :=
  | ContentNil
  | ContentJson (j : Json)              (* JString and JArray are Go's string and []any *)
  | ContentMedia (l : list MediaContent).

Record ChatMessage := mkChatMessage {
  ms_Role : string; ms_Content : Content; ms_Name : option string;
  ms_ReasoningContent : option string; ms_Reasoning : option string;
  ms_ToolCalls : list ToolCallRequest;  (* ParseToolCalls of the raw message *)
  ms_ToolCallId : string
}.

Definition json_field (name : string) (fields : list (string * Json)) : option Json :=
  match List.find (fun f => String.eqb f.1 name) fields with Some f => Some f.2 | None => None end.

(** The text of an item of a content array. *)
Definition item_text (item : Json) : string :=
  match item with
  | JObject fields =>
      match json_field "type" fields, json_field "text" fields with
      | Some (JString "text"), Some (JString s) => s
      | _, _ => ""
      end
  | _ => ""
  end.

Definition json_text (j : Json) : string :=
  match j with
  | JString s => s
  | JArray items => foldr (fun item acc => item_text item +:+ acc) "" items
  | _ => ""
  end.

Definition StringContent (m : ChatMessage) : string :=
  match ms_Content m with ContentJson j => json_text j | _ => "" end.

Definition message_reasoning (m : ChatMessage) : string :=
  match ms_ReasoningContent m, ms_Reasoning m with
  | None, None => ""
  | Some s, _ => s
  | None, Some s => s
  end.

Record OpenAITextResponseChoice := mkTextChoice { tx_Index : Z; tx_Message : ChatMessage; tx_FinishReason : string }.

Record OpenAITextResponse := mkTextResponse {
  tr_Id : string; tr_Model : string; tr_Choices : list OpenAITextResponseChoice; tr_Usage : WireUsage
}.

(** ** Gemini responses *)

Record GeminiInlineData := mkInlineData { in_MimeType : string; in_Data : string }.
Record GeminiFileData := mkFileData { fd_MimeType : string; fd_FileUri : string }.
Record GeminiFunctionCall := mkFunctionCall { fc_FunctionName : string; fc_Arguments : Json }.
Record GeminiFunctionResponse := mkFunctionResult { fx_Name : string; fx_Response : Json }.

Record GeminiPart := mkPart {
  gp_Text : string; gp_InlineData : option GeminiInlineData; gp_FileData : option GeminiFileData;
  gp_FunctionCall : option GeminiFunctionCall; gp_FunctionResponse : option GeminiFunctionResponse
}.

Definition text_part (s : string) : GeminiPart := mkPart s None None None None.
Definition call_part (name : string) (args : Json) : GeminiPart := mkPart "" None None (Some (mkFunctionCall name args)) None.

Record GeminiChatContent := mkGeminiContent { gc_Role : string; gc_Parts : list GeminiPart }.

Record GeminiChatCandidate := mkCandidate {
  gd_Content : GeminiChatContent; gd_FinishReason : option string; gd_Index : Z
}.

Record GeminiUsageMetadata := mkGeminiUsage { gu_PromptTokenCount : Z; gu_CandidatesTokenCount : Z; gu_TotalTokenCount : Z }.

Record GeminiChatResponse := mkGeminiResponse { gr_Candidates : list GeminiChatCandidate; gr_UsageMetadata : GeminiUsageMetadata }.

(** The [switch] on the finish reason, the same in both conversions. *)
Definition gemini_finish_reason (reason : string) : string :=
  if String.eqb reason "stop" then "STOP"
  else if String.eqb reason "length" then "MAX_TOKENS"
  else if String.eqb reason "content_filter" then "SAFETY"
  else if String.eqb reason "tool_calls" then "STOP"
  else "STOP".

Section WithJson.
Context (parse_map : string -> option Json).

Definition call_args (arguments : string) : Json :=
  if String.eqb arguments "" then JObject []
  else match parse_map arguments with
       | Some args => args
       | None => JObject [("arguments", JString arguments)]
       end.

Definition ResponseOpenAI2Gemini (r : OpenAITextResponse) : GeminiChatResponse :=
  let u := wu_usage (tr_Usage r) in
  mkGeminiResponse
    (map (fun choice =>
       let toolCalls := ms_ToolCalls (tx_Message choice) in
       let textContent := StringContent (tx_Message choice) in
       let parts :=
         match toolCalls with
         | _ :: _ => map (fun t => call_part (fq_Name (tq_Function t)) (call_args (fq_Arguments (tq_Function t)))) toolCalls
         | [] => if String.eqb textContent "" then [] else [text_part textContent]
         end in
       mkCandidate (mkGeminiContent "model" parts) (Some (gemini_finish_reason (tx_FinishReason choice))) (tx_Index choice))
     (tr_Choices r))
    (mkGeminiUsage (us_PromptTokens u) (us_CompletionTokens u) (i64_add (us_PromptTokens u) (us_CompletionTokens u))).

Definition has_content (choice : StreamChoice) : bool :=
  negb (String.eqb (GetContentString (ch_Delta choice)) "") || match tool_calls (ch_Delta choice) with [] => false | _ => true end.

Definition stream_candidate (choice : StreamChoice) : GeminiChatCandidate :=
  let d := ch_Delta choice in
  let parts :=
    match dl_ToolCalls d with
    | Some calls => map (fun t => call_part (fr_Name (tc_Function t)) (call_args (fr_Arguments (tc_Function t)))) calls
    | None => let textContent := GetContentString d in if String.eqb textContent "" then [] else [text_part textContent]
    end in
  mkCandidate (mkGeminiContent "model" parts) (gemini_finish_reason <$> ch_FinishReason choice) (ch_Index choice).

Definition StreamResponseOpenAI2Gemini (c : ChatCompletionsStreamResponse) (estimate : Z) : option GeminiChatResponse :=
  let hasContent := existsb has_content (sr_Choices c) in
  let hasFinishReason := existsb (fun choice => if ch_FinishReason choice then true else false) (sr_Choices c) in
  if negb hasContent && negb hasFinishReason then None
  else
    let usage := match sr_Usage c with
                 | Some w => mkGeminiUsage (us_PromptTokens (wu_usage w)) (us_CompletionTokens (wu_usage w)) (wu_TotalTokens w)
                 | None => mkGeminiUsage estimate 0 estimate
                 end in
    Some (mkGeminiResponse (map stream_candidate (sr_Choices c)) usage).

End WithJson.
