(* ===== verification/ClaudeProtocol.v ===== *)
(** * The event protocol and the converter

    What a client of the Anthropic protocol may rely on, as an automaton over
    the events it receives, and the simulation that shows that
    [StreamResponseOpenAI2Claude] respects it: every chunk moves the automaton
    from a state that the converter's state describes to another one.  The
    upstream's part is [tool_order]: it numbers the tool calls of a run of
    tool calls from 0 and names each in its first fragment only. *)

From stdpp Require Import base numbers list strings option.
From Stdlib Require Import ZArith Lia.
From S2P Require Import Prelude GoInt GoString TextPrice ClaudeStream.

Local Open Scope string_scope.
Local Open Scope list_scope.
Local Open Scope Z_scope.

(** ** The automaton *)

(** Open blocks are kept with their types, in the order they were opened;
    [next] is the index the next block has to carry. *)
Inductive Client :=
  | Waiting
  | Receiving (open : list (Z * string)) (next : Z)
  | Closing
  | Complete.

(** Blocks of text and of thinking are received one at a time; only tool calls
    may be open together. *)
Definition may_open (open : list (Z * string)) (ty : string) : bool :=
  match open with
  | [] => str_in ty ["text"; "thinking"; "tool_use"]
  | _ => String.eqb ty "tool_use" && forallb (fun b => String.eqb b.2 "tool_use") open
  end.

Definition delta_of (ty : string) : string :=
  if String.eqb ty "text" then "text_delta"
  else if String.eqb ty "thinking" then "thinking_delta" else "input_json_delta".

Definition receive (c : Client) (e : ClaudeResponse) : option Client :=
  match c, cr_Type e, cr_Index e, cr_ContentBlock e, cr_Delta e with
  | Waiting, "message_start", None, None, None => if cr_Message e then Some (Receiving [] 0) else None
  | Receiving open next, "content_block_start", Some i, Some b, None =>
      if (i =? next) && may_open open (mm_Type b) then Some (Receiving (open ++ [(i, mm_Type b)]) (next + 1)) else None
  | Receiving open next, "content_block_delta", Some i, None, Some d =>
      if existsb (fun b => (b.1 =? i) && String.eqb (delta_of b.2) (mm_Type d)) open then Some c else None
  | Receiving open next, "content_block_stop", Some i, None, None =>
      if existsb (fun b => b.1 =? i) open then Some (Receiving (List.filter (fun b => negb (b.1 =? i)) open) next) else None
  | Receiving open next, "message_delta", None, None, Some d =>
      match open, mm_StopReason d, cr_Usage e with [], Some _, Some _ => Some Closing | _, _, _ => None end
  | Closing, "message_stop", None, None, None => Some Complete
  | _, _, _, _, _ => None
  end.

Definition receive_all (c : Client) (l : list ClaudeResponse) : option Client :=
  foldl (fun c e => c ≫= fun c => receive c e) (Some c) l.

(** ** What the upstream has to respect *)

(** [opened] tool calls of the current run have been named so far. *)
Fixpoint call_order (opened i : Z) (calls : list ToolCallResponse) : option Z :=
  match calls with
  | [] => Some opened
  | tc :: calls' =>
      let offset := tool_offset i tc in
      let named := negb (String.eqb (fr_Name (tc_Function tc)) "") in
      if named && (offset =? opened) then call_order (opened + 1) (i + 1) calls'
      else if negb named && (offset <? opened) then call_order opened (i + 1) calls'
      else None
  end.

(** Visible text or reasoning ends the run of tool calls. *)
Definition delta_order (opened : Z) (d : StreamDelta) : option Z :=
  call_order (if String.eqb (GetReasoningContent d) "" && String.eqb (GetContentString d) "" then opened else 0) 0 (tool_calls d).

Definition tool_order (opened : Z) (c : ChatCompletionsStreamResponse) : option Z :=
  match sr_Choices c with [] => Some opened | ch :: _ => delta_order opened (ch_Delta ch) end.

(** How many indices a chunk can use up. *)
Definition index_cost (c : ChatCompletionsStreamResponse) : Z :=
  match sr_Choices c with [] => 0 | ch :: _ => 2 + Z.of_nat (length (tool_calls (ch_Delta ch))) end.

(** ** Receiving *)

Lemma receive_all_app c l1 l2 : receive_all c (l1 ++ l2) = receive_all c l1 ≫= fun c => receive_all c l2.
Proof.
  unfold receive_all. rewrite foldl_app. destruct (foldl _ (Some c) l1) as [c'|]; [done|].
  cbn. induction l2; done.
Qed.

Lemma receive_all_nil c : receive_all c [] = Some c.
Proof. done. Qed.

Lemma receive_all_cons c e l : receive_all c (e :: l) = receive c e ≫= fun c => receive_all c l.
Proof. change (e :: l) with ([e] ++ l). rewrite receive_all_app. reflexivity. Qed.

Lemma receive_start open next ty b :
  mm_Type b = ty -> may_open open ty = true ->
  receive (Receiving open next) (block_start next b) = Some (Receiving (open ++ [(next, ty)]) (next + 1)).
Proof. intros <- Hm. cbn. by rewrite Z.eqb_refl, Hm. Qed.

Lemma receive_delta open next i ty d :
  (i, ty) ∈ open -> mm_Type d = delta_of ty ->
  receive (Receiving open next) (block_delta i d) = Some (Receiving open next).
Proof.
  intros Hin Hd. cbn. replace (existsb _ open) with true; [done|]. symmetry. apply existsb_exists.
  exists (i, ty). split; [by apply list_elem_of_In|]. cbn. by rewrite Z.eqb_refl, Hd, String.eqb_refl.
Qed.

(** The tool blocks of a run that starts at [base]. *)
Definition run_blocks (base n : Z) : list (Z * string) := map (fun i => (i, "tool_use")) (seqZ base n).

Lemma run_blocks_snoc base n : 0 <= n -> run_blocks base (n + 1) = run_blocks base n ++ [(base + n, "tool_use")].
Proof. intros Hn. unfold run_blocks. rewrite seqZ_app by lia. by rewrite map_app. Qed.

Lemma run_blocks_cons base n : 0 < n -> run_blocks base n = (base, "tool_use") :: run_blocks (base + 1) (n - 1).
Proof. intros Hn. unfold run_blocks. rewrite seqZ_cons by lia. by rewrite <- Z.sub_1_r, <- Z.add_1_r. Qed.

Lemma run_blocks_may_open base n : may_open (run_blocks base n) "tool_use" = true.
Proof.
  unfold may_open, run_blocks. destruct (seqZ base n) as [|z l]; [done|]. cbn.
  apply forallb_forall. intros [i ty] (x & [= <- <-] & _)%in_map_iff. done.
Qed.

Lemma run_blocks_elem base n i : 0 <= i < n -> (base + i, "tool_use") ∈ run_blocks base n.
Proof. intros Hi. apply list_elem_of_fmap. exists (base + i). split; [done|]. apply elem_of_seqZ. lia. Qed.

Lemma filter_other j base n : j < base -> List.filter (fun b : Z * string => negb (b.1 =? j)) (run_blocks base n) = run_blocks base n.
Proof.
  intros Hj. rewrite (List.filter_ext_in _ (fun _ => true)); [by rewrite filter_true|].
  intros [i ty] (x & [= <- <-] & Hx)%in_map_iff. apply list_elem_of_In, elem_of_seqZ in Hx. cbn.
  apply negb_true_iff, Z.eqb_neq. lia.
Qed.

(** The stop events of a run close exactly its blocks. *)
Lemma receive_run_stops n : forall base next, 0 <= n ->
  receive_all (Receiving (run_blocks base n) next) (map generateStopBlock (seqZ base n)) = Some (Receiving [] next).
Proof.
  intros base next Hn. revert base. pattern n. apply natlike_ind; [done| |done]. clear n Hn. intros n Hn IH base.
  rewrite seqZ_cons, run_blocks_cons by lia. cbn [map]. rewrite receive_all_cons. cbn [receive generateStopBlock stream_event cr_Type cr_Index cr_ContentBlock cr_Delta existsb fst].
  rewrite Z.eqb_refl. cbn [orb List.filter fst]. rewrite Z.eqb_refl. cbn [negb mbind option_bind].
  rewrite filter_other by lia.
  replace (Z.succ n - 1) with n by lia. rewrite Z.pred_succ. replace (Z.succ base) with (base + 1) by lia. apply IH.
Qed.

(** ** The client the converter's state describes *)

Definition client_of (c : ClaudeConvertInfo) : Client :=
  if ci_Done c then Complete
  else if negb (ci_MessageStarted c) then Waiting
  else match ci_LastMessagesType c with
       | LastMessageTypeText => Receiving [(ci_Index c, "text")] (ci_Index c + 1)
       | LastMessageTypeThinking => Receiving [(ci_Index c, "thinking")] (ci_Index c + 1)
       | LastMessageTypeTools =>
           Receiving (run_blocks (ci_ToolCallBaseIndex c) (ci_ToolCallMaxIndexOffset c + 1))
             (ci_ToolCallBaseIndex c + (ci_ToolCallMaxIndexOffset c + 1))
       | _ => Receiving [] (ci_Index c)
       end.

(** The state between [message_start] and [message_stop]. *)
Record receiving (opened bound : Z) (c : ClaudeConvertInfo) : Prop := {
  live_started : ci_MessageStarted c = true;
  live_open : ci_Done c = false;
  live_set : ci_LastMessagesType c <> LastUnset;
  live_index : 0 <= ci_Index c <= bound;
  live_tools : ci_LastMessagesType c = LastMessageTypeTools ->
    0 <= ci_ToolCallBaseIndex c /\ 0 <= ci_ToolCallMaxIndexOffset c
    /\ ci_Index c = ci_ToolCallBaseIndex c + ci_ToolCallMaxIndexOffset c /\ opened = ci_ToolCallMaxIndexOffset c + 1;
  live_other : ci_LastMessagesType c <> LastMessageTypeTools -> opened = 0
}.

(** [s'] follows [s]: the events appended take the client along. *)
Definition follows (s s' : Conv) : Prop :=
  exists l, cv_out s' = cv_out s ++ l /\ receive_all (client_of (conv s)) l = Some (client_of (conv s')).

Lemma follows_refl s : follows s s.
Proof. exists []. by rewrite app_nil_r. Qed.

Lemma follows_trans s1 s2 s3 : follows s1 s2 -> follows s2 s3 -> follows s1 s3.
Proof.
  intros (l1 & E1 & R1) (l2 & E2 & R2). exists (l1 ++ l2). split; [by rewrite E2, E1, app_assoc|].
  rewrite receive_all_app, R1. done.
Qed.

Lemma follows_info s s' : cv_out s' = cv_out s -> client_of (conv s) = client_of (conv s') -> follows s s'.
Proof. intros E1 E2. exists []. split; [by rewrite app_nil_r|]. cbn. by rewrite E2. Qed.

#[export] Hint Resolve follows_refl : router.

Lemma seqZ_shift base n : map (fun k => base + k) (seqZ 0 n) = seqZ base n.
Proof. pose proof (fmap_add_seqZ base 0 n) as E. by rewrite Z.add_0_r in E. Qed.

Ltac in_range := rewrite ?i64_add_id; unfold is_i64, min_i64, max_i64 in *; lia.

(** The stop events close what is open; the next block has the next index. *)
Lemma receive_open_stops opened bound c :
  receiving opened bound c -> bound + 1 <= max_i64 -> ci_LastMessagesType c <> LastMessageTypeNone ->
  receive_all (client_of c) (open_stops c) = Some (Receiving [] (ci_Index (after_stop c)))
  /\ ci_Index (after_stop c) = ci_Index c + 1.
Proof.
  intros [Hs Ho Hu Hi Ht Hn] Hb Hl. unfold client_of, open_stops, after_stop. rewrite Hs, Ho. cbn [negb].
  destruct (ci_LastMessagesType c) eqn:El; try done; cbn [with_type with_index with_tools ci_Index].
  1, 3: rewrite i64_add_id by in_range; cbn; by rewrite Z.eqb_refl.
  destruct (Ht eq_refl) as (Hb0 & Hm0 & HI & _). rewrite !i64_add_id by in_range. split; [|lia].
  rewrite (map_ext_in _ (fun k => generateStopBlock (ci_ToolCallBaseIndex c + k))).
  - rewrite <- (map_map (fun k => ci_ToolCallBaseIndex c + k) generateStopBlock), seqZ_shift, receive_run_stops by lia. do 2 f_equal. lia.
  - intros k Hk%list_elem_of_In%elem_of_seqZ. by rewrite i64_add_id by in_range.
Qed.

Lemma live_advance opened bound c :
  receiving opened bound c -> ci_Index (after_stop c) <= bound + 1 -> 0 <= ci_Index (after_stop c) ->
  receiving 0 (bound + 1) (after_stop c) /\ client_of (after_stop c) = Receiving [] (ci_Index (after_stop c)).
Proof.
  intros [Hs Ho Hu Hi Ht Hn] Hb H0. split.
  - unfold after_stop in *. split; destruct (ci_LastMessagesType c); cbn in *; try done; lia.
  - unfold client_of, after_stop. destruct (ci_LastMessagesType c); cbn; by rewrite Hs, Ho.
Qed.

Lemma live_weaken opened b1 b2 c : receiving opened b1 c -> b1 <= b2 -> receiving opened b2 c.
Proof. intros [] ?. split; try done; lia. Qed.

(** [stopOpenBlocksAndAdvance] *)
Lemma stop_and_advance opened bound s :
  receiving opened bound (conv s) -> bound + 1 <= max_i64 ->
  follows s (stopOpenBlocksAndAdvance s) /\ receiving 0 (bound + 1) (conv (stopOpenBlocksAndAdvance s))
  /\ ci_LastMessagesType (conv (stopOpenBlocksAndAdvance s)) = LastMessageTypeNone.
Proof.
  intros Hl Hb. unfold stopOpenBlocksAndAdvance. case_bool_decide as En.
  - split_and!; [apply follows_refl | | done]. eapply live_weaken; [|by apply Z.le_succ_diag_r].
    destruct Hl as [? ? ? ? ? Hn]. rewrite En in *. split; try congruence; done.
  - destruct (receive_open_stops _ _ _ Hl Hb En) as [Hr Hi].
    destruct (live_advance _ _ _ Hl) as [Hl' Hc]; [destruct Hl; lia..|].
    split_and!; [|exact Hl'|done]. exists (open_stops (conv s)). split; [done|].
    change (conv (update after_stop (stopOpenBlocks s))) with (after_stop (conv s)). by rewrite Hc.
Qed.

Lemma follows_emit s e c' :
  receive (client_of (conv s)) e = Some c' -> client_of (conv s) = c' -> follows s (append_events [e] s).
Proof. intros Hr Hc. exists [e]. split; [done|]. rewrite receive_all_cons, Hr. cbn. by rewrite <- Hc. Qed.

(** Text and reasoning: [ty] is the type of the block, [kind] its name. *)
Definition one_block (ty : LastMessageType) (kind : string) : Prop :=
  ty = LastMessageTypeText /\ kind = "text" \/ ty = LastMessageTypeThinking /\ kind = "thinking".

Lemma client_one_block ty kind c :
  one_block ty kind -> ci_MessageStarted c = true -> ci_Done c = false -> ci_LastMessagesType c = ty ->
  client_of c = Receiving [(ci_Index c, kind)] (ci_Index c + 1).
Proof. intros [[-> ->]|[-> ->]] Hs Hd Hl; unfold client_of; by rewrite Hs, Hd, Hl. Qed.

Lemma client_between opened bound c :
  receiving opened bound c -> ci_LastMessagesType c = LastMessageTypeNone -> client_of c = Receiving [] (ci_Index c).
Proof. intros [Hs Hd _ _ _ _] Hl. unfold client_of. by rewrite Hs, Hd, Hl. Qed.

Lemma follows_open s ty kind start opened bound :
  one_block ty kind -> mm_Type start = kind -> receiving opened bound (conv s) ->
  ci_LastMessagesType (conv s) = LastMessageTypeNone ->
  follows s (update (with_type ty) (append_events [block_start (ci_Index (conv s)) start] s)).
Proof.
  intros Ho Hk Hl Hn. exists [block_start (ci_Index (conv s)) start]. split; [done|].
  rewrite (client_between _ _ _ Hl Hn), receive_all_cons.
  rewrite (receive_start _ _ kind) by (done || by destruct Ho as [[_ ->]|[_ ->]]). cbn [mbind option_bind app receive_all foldl].
  destruct Hl. by rewrite (client_one_block ty kind).
Qed.

Lemma emit_block_follows ty kind start delta opened bound s :
  one_block ty kind -> mm_Type start = kind -> mm_Type delta = delta_of kind ->
  receiving opened bound (conv s) -> bound + 1 <= max_i64 ->
  follows s (emit_block ty start delta s) /\ receiving 0 (bound + 1) (conv (emit_block ty start delta s)).
Proof.
  intros Ho Hs Hd Hl Hb.
  assert (exists s1, follows s s1 /\ receiving 0 (bound + 1) (conv s1) /\ ci_LastMessagesType (conv s1) = ty
            /\ emit_block ty start delta s = append_events [block_delta (ci_Index (conv s1)) delta] s1) as (s1 & F1 & L1 & T1 & E1).
  { unfold emit_block. case_bool_decide as Et.
    - destruct (stop_and_advance _ _ _ Hl Hb) as (F & L & T). eexists. split_and!; [|..|reflexivity].
      + eapply follows_trans; [exact F|]. by eapply follows_open.
      + destruct L. split; cbn; try done; by destruct Ho as [[-> _]|[-> _]].
      + done.
    - exists s. split_and!; [apply follows_refl| |done|].
      + destruct Hl as [? ? ? ? ? Hn]. split; try done; [lia|]. rewrite Et. by destruct Ho as [[-> _]|[-> _]].
      + f_equal. unfold update, on_convert. destruct s as [[[] ? ?] ?]. cbn in *. by subst. }
  rewrite E1. split; [|done]. eapply follows_trans; [exact F1|]. destruct L1.
  eapply follows_emit; [|reflexivity]. rewrite (client_one_block ty kind) by done. apply (receive_delta _ _ _ kind); [by apply list_elem_of_singleton|done].
Qed.

(** ** Tool calls *)

Lemma tool_offset_nonneg i tc : 0 <= i -> 0 <= tool_offset i tc.
Proof. intros Hi. unfold tool_offset. destruct (Z.ltb_spec (default i (tc_Index tc)) 0); lia. Qed.

(** What one call of an ordered delta sends. *)
Lemma receive_tool base opened offset tc :
  0 <= base -> base + opened <= max_i64 -> 0 <= offset ->
  (fr_Name (tc_Function tc) <> "" /\ offset = opened \/ fr_Name (tc_Function tc) = "" /\ offset < opened) ->
  receive_all (Receiving (run_blocks base opened) (base + opened)) (tool_events base offset tc)
  = Some (Receiving (run_blocks base (Z.max opened (offset + 1))) (base + Z.max opened (offset + 1))).
Proof.
  intros Hb Hm Ho Hc. unfold tool_events. rewrite i64_add_id by in_range. rewrite receive_all_app.
  set (opened' := Z.max opened (offset + 1)).
  assert (receive_all (Receiving (run_blocks base opened) (base + opened))
            (if String.eqb (fr_Name (tc_Function tc)) "" then []
             else [block_start (base + offset) (tool_media (tc_ID tc) (fr_Name (tc_Function tc)) (JObject []))])
          = Some (Receiving (run_blocks base opened') (base + opened'))) as ->.
  { destruct Hc as [[Hn ->]|[-> Hlt]].
    - apply String.eqb_neq in Hn as ->. rewrite receive_all_cons.
      rewrite (receive_start _ _ "tool_use") by (done || apply run_blocks_may_open). cbn [mbind option_bind receive_all foldl].
      rewrite <- run_blocks_snoc by lia. unfold opened'. rewrite Z.max_r by lia. by rewrite Z.add_assoc.
    - cbn [String.eqb receive_all foldl]. unfold opened'. by rewrite Z.max_l by lia. }
  cbn [mbind option_bind]. destruct (String.eqb (fr_Arguments _) ""); [done|].
  rewrite receive_all_cons, (receive_delta _ _ _ "tool_use"); [done| |done]. apply run_blocks_elem. lia.
Qed.

Lemma emit_tools_follows base : forall calls opened opened' i,
  call_order opened i calls = Some opened' -> 0 <= i -> 0 <= opened -> 0 <= base ->
  base + opened + Z.of_nat (length calls) <= max_i64 ->
  let '(m, out) := emit_tools base i (Z.max 0 (opened - 1)) calls in
  m = Z.max 0 (opened' - 1) /\ opened <= opened' <= opened + Z.of_nat (length calls)
  /\ (calls <> [] -> 0 < opened')
  /\ receive_all (Receiving (run_blocks base opened) (base + opened)) out
     = Some (Receiving (run_blocks base opened') (base + opened')).
Proof.
  induction calls as [|tc calls IH]; intros opened opened' i Hc Hi Ho Hb Hm; cbn [emit_tools call_order length] in *.
  { simplify_eq. split_and!; try done; lia. }
  pose proof (tool_offset_nonneg i tc Hi) as Hof. set (offset := tool_offset i tc) in *.
  assert ((fr_Name (tc_Function tc) <> "" /\ offset = opened \/ fr_Name (tc_Function tc) = "" /\ offset < opened)
          /\ call_order (Z.max opened (offset + 1)) (i + 1) calls = Some opened') as [Hcase Hrest].
  { destruct (String.eqb_spec (fr_Name (tc_Function tc)) "") as [En|En]; cbn [negb andb] in Hc.
    - destruct (Z.ltb_spec offset opened); [|done]. split; [by right|]. by rewrite Z.max_l by lia.
    - destruct (Z.eqb_spec offset opened) as [Eo|]; [|done]. split; [by left|]. by rewrite Eo, Z.max_r by lia. }
  specialize (IH _ _ _ Hrest ltac:(lia) ltac:(lia) Hb ltac:(lia)).
  replace (if Z.max 0 (opened - 1) <? offset then offset else Z.max 0 (opened - 1))
    with (Z.max 0 (Z.max opened (offset + 1) - 1)) by (destruct (Z.ltb_spec (Z.max 0 (opened - 1)) offset); lia).
  destruct (emit_tools base (i + 1) _ calls) as [m out] eqn:Ee. destruct IH as (Em & Hle & _ & Hr).
  split_and!; [done|lia|lia|lia|]. rewrite receive_all_app, receive_tool by (done || lia). exact Hr.
Qed.

Lemma client_tools c :
  ci_MessageStarted c = true -> ci_Done c = false -> ci_LastMessagesType c = LastMessageTypeTools ->
  client_of c = Receiving (run_blocks (ci_ToolCallBaseIndex c) (ci_ToolCallMaxIndexOffset c + 1))
                  (ci_ToolCallBaseIndex c + (ci_ToolCallMaxIndexOffset c + 1)).
Proof. intros Hs Hd Hl. unfold client_of. by rewrite Hs, Hd, Hl. Qed.

(** The calls of a delta, from a state whose run is about to continue: [opened]
    blocks from [base] on, none when the run begins. *)
Lemma tool_run_follows s base opened opened' bound calls :
  ci_MessageStarted (conv s) = true -> ci_Done (conv s) = false ->
  client_of (conv s) = Receiving (run_blocks base opened) (base + opened) ->
  0 <= base -> 0 <= opened -> base + opened <= bound + 1 -> bound + 1 + Z.of_nat (length calls) <= max_i64 ->
  call_order opened 0 calls = Some opened' -> calls <> [] ->
  let '(m, out) := emit_tools base 0 (Z.max 0 (opened - 1)) calls in
  let s' := update (fun c => with_type LastMessageTypeTools (with_index (i64_add base m) (with_tools base m c))) (append_events out s) in
  follows s s' /\ receiving opened' (bound + Z.of_nat (length calls)) (conv s').
Proof.
  intros Hs Hd Hc Hb Ho Hle Hmax Hord Hne. pose proof (emit_tools_follows base calls opened opened' 0 Hord) as H.
  destruct (emit_tools base 0 (Z.max 0 (opened - 1)) calls) as [m out]. destruct H as (Em & Hr & Hpos & Hrec); [lia..|].
  specialize (Hpos Hne). rewrite Z.max_r in Em by lia.
  rewrite i64_add_id by in_range. cbn zeta. split.
  - exists out. split; [done|]. rewrite Hc, Hrec. rewrite client_tools by done. cbn. do 2 f_equal; [f_equal|]; lia.
  - split; cbn; try done; lia.
Qed.

Lemma emit_tool_calls_follows calls opened opened' bound s :
  receiving opened bound (conv s) -> call_order opened 0 calls = Some opened' ->
  bound + 1 + Z.of_nat (length calls) <= max_i64 ->
  follows s (emit_tool_calls calls s) /\ receiving opened' (bound + Z.of_nat (length calls)) (conv (emit_tool_calls calls s)).
Proof.
  intros Hl Hord Hmax. destruct (decide (calls = [])) as [->|Hne].
  { cbn in *. simplify_eq. split; [apply follows_refl|]. by rewrite Z.add_0_r. }
  assert (exists s1 base, follows s s1 /\ ci_MessageStarted (conv s1) = true /\ ci_Done (conv s1) = false
            /\ client_of (conv s1) = Receiving (run_blocks base opened) (base + opened) /\ 0 <= base
            /\ base + opened <= bound + 1
            /\ emit_tool_calls calls s =
               (let '(m, out) := emit_tools base 0 (Z.max 0 (opened - 1)) calls in
                update (fun c => with_type LastMessageTypeTools (with_index (i64_add base m) (with_tools base m c))) (append_events out s1)))
    as (s1 & base & F & Hs & Hd & Hc & Hb & Hle & E).
  { unfold emit_tool_calls. destruct calls as [|tc calls]; [done|]. case_bool_decide as Et.
    - destruct (stop_and_advance _ _ _ Hl) as (F & L & T); [cbn in *; lia|]. destruct Hl as [_ _ _ _ _ Hn]. rewrite (Hn Et).
      exists (stopOpenBlocksAndAdvance s), (ci_Index (conv (stopOpenBlocksAndAdvance s))).
      pose proof (client_between _ _ _ L T) as Hcl. destruct L. split_and!; try done; try lia.
      rewrite Hcl. unfold run_blocks. cbn. by rewrite Z.add_0_r.
    - destruct Hl as [Hs Hd _ Hi Ht _]. destruct (Ht Et) as (Hb & Hm & HI & ->).
      exists s, (ci_ToolCallBaseIndex (conv s)). split_and!; try done; try lia; [apply follows_refl | by rewrite client_tools |].
      rewrite Z.add_simpl_r, Z.max_r by done. cbn zeta.
      change (emit_tools (ci_ToolCallBaseIndex (conv (update _ s))) 0 _ (tc :: calls))
        with (emit_tools (ci_ToolCallBaseIndex (conv s)) 0 (ci_ToolCallMaxIndexOffset (conv s)) (tc :: calls)).
      by destruct (emit_tools _ 0 _ (tc :: calls)). }
  rewrite E. assert (0 <= opened) as Ho. { destruct Hl as [_ _ _ _ Ht Hn].
    destruct (decide (ci_LastMessagesType (conv s) = LastMessageTypeTools)) as [e|e]; [destruct (Ht e) as (?&?&?&?); lia | rewrite (Hn e); done]. }
  pose proof (tool_run_follows s1 base opened opened' bound calls Hs Hd Hc Hb Ho Hle Hmax Hord Hne) as H.
  destruct (emit_tools base 0 _ calls) as [m out]. destruct H as [F' L']. split; [by eapply follows_trans | done].
Qed.

(** ** A choice, and the end of the message *)

Lemma emit_opt_follows ty kind (mk : string -> string -> ClaudeMediaMessage) text opened bound s :
  one_block ty kind -> (forall t x, mm_Type (mk t x) = t) ->
  receiving opened bound (conv s) -> bound + 1 <= max_i64 ->
  let s' := if String.eqb text "" then s else emit_block ty (mk kind "") (mk (delta_of kind) text) s in
  follows s s' /\ receiving (if String.eqb text "" then opened else 0) (bound + 1) (conv s').
Proof.
  intros Ho Hmk Hl Hb. cbn zeta. destruct (String.eqb text "").
  - split; [apply follows_refl|]. eapply live_weaken; [exact Hl|lia].
  - by apply (emit_block_follows ty kind _ _ opened).
Qed.

Lemma emitChoice_follows choice opened opened' bound s :
  receiving opened bound (conv s) -> delta_order opened (ch_Delta choice) = Some opened' ->
  bound + 3 + Z.of_nat (length (tool_calls (ch_Delta choice))) <= max_i64 ->
  follows s (emitChoice choice s)
  /\ receiving opened' (bound + 2 + Z.of_nat (length (tool_calls (ch_Delta choice)))) (conv (emitChoice choice s)).
Proof.
  intros Hl Hord Hmax. unfold emitChoice, delta_order in *. set (d := ch_Delta choice) in *.
  destruct (emit_opt_follows LastMessageTypeThinking "thinking" thinking_media (GetReasoningContent d) opened bound s)
    as [F1 L1]; [by right | done | done | lia |].
  change (if String.eqb (GetReasoningContent d) "" then s else _) with (emit_reasoning (GetReasoningContent d) s) in F1, L1.
  destruct (emit_opt_follows LastMessageTypeText "text" text_media (GetContentString d) _ (bound + 1) _ ltac:(by left) ltac:(done) L1)
    as [F2 L2]; [lia|].
  change (if String.eqb (GetContentString d) "" then _ else emit_block _ _ _ _)
    with (emit_text (GetContentString d) (emit_reasoning (GetReasoningContent d) s)) in F2, L2.
  destruct (emit_tool_calls_follows (tool_calls d) (if String.eqb (GetContentString d) "" then
       if String.eqb (GetReasoningContent d) "" then opened else 0 else 0) opened' (bound + 1 + 1) _ L2) as [F3 L3]; [|lia|].
  { rewrite <- Hord. by destruct (String.eqb (GetReasoningContent d) ""), (String.eqb (GetContentString d) ""). }
  split; [|eapply live_weaken; [exact L3|lia]]. eapply follows_trans; [exact F1|]. by eapply follows_trans.
Qed.

Lemma stop_blocks_received opened bound c :
  receiving opened bound c -> bound + 1 <= max_i64 -> exists next, receive_all (client_of c) (open_stops c) = Some (Receiving [] next).
Proof.
  intros Hl Hb. destruct (decide (ci_LastMessagesType c = LastMessageTypeNone)) as [En|En].
  - exists (ci_Index c). rewrite (client_between _ _ _ Hl En). unfold open_stops. by rewrite En.
  - destruct (receive_open_stops _ _ _ Hl Hb En) as [-> _]. eauto.
Qed.

Lemma finish_follows reason usage opened bound s :
  receiving opened bound (conv s) -> bound + 1 <= max_i64 ->
  follows s (finishMessage reason (Some usage) s) /\ ci_Done (conv (finishMessage reason (Some usage) s)) = true.
Proof.
  intros Hl Hb. destruct (stop_blocks_received _ _ _ Hl Hb) as [next Hr]. split; [|done].
  unfold finishMessage. set (s1 := if String.eqb reason "" then s else _).
  assert (conv s1 = conv s /\ cv_out s1 = cv_out s) as [Ec Eo] by (unfold s1; by destruct (String.eqb reason "")).
  eexists. split; [cbn; rewrite Eo, Ec, <- !app_assoc; reflexivity|].
  rewrite receive_all_app, Hr. reflexivity.
Qed.

(** ** One call of the converter *)

Definition fresh_convert (c : ClaudeConvertInfo) : Prop :=
  ci_MessageStarted c = false /\ ci_Done c = false /\ ci_Index c = 0
  /\ (ci_LastMessagesType c = LastMessageTypeNone \/ ci_LastMessagesType c = LastUnset).

(** The converter's invariant. *)
Definition convert_ok (opened bound : Z) (c : ClaudeConvertInfo) : Prop :=
  ci_Done c = true \/ receiving opened bound c \/ (fresh_convert c /\ opened = 0 /\ 0 <= bound).

(** The chunk that lets the message end. *)
Definition closes (c : ChatCompletionsStreamResponse) : bool :=
  match sr_Choices c with [] => true | ch :: _ => if finish_reason ch then true else false end.

Definition typed_info (info : StreamInfo) : StreamInfo :=
  if bool_decide (ci_LastMessagesType (si_convert info) = LastUnset) then on_convert (with_type LastMessageTypeNone) info else info.

Lemma started_follows c opened bound info :
  ci_Done (si_convert info) = false -> convert_ok opened bound (si_convert info) ->
  let s := emit_message_start c (mkConv (typed_info info) []) in
  receive_all (client_of (si_convert info)) (cv_out s) = Some (client_of (conv s)) /\ receiving opened bound (conv s)
  /\ ci_Usage (conv s) = ci_Usage (si_convert info).
Proof.
  intros Hd [Hd'|[Hl|((Hs & _ & Hi & Ht) & -> & Hb)]]; [congruence| |]; cbn zeta.
  - assert (typed_info info = info) as -> by (unfold typed_info; rewrite bool_decide_false by apply Hl; done).
    unfold emit_message_start, conv. cbn. rewrite (live_started _ _ _ Hl). cbn. done.
  - assert (exists b, typed_info info = on_convert (fun c => if b : bool then with_type LastMessageTypeNone c else c) info
            /\ ci_LastMessagesType (si_convert (typed_info info)) = LastMessageTypeNone) as (b & E & Hn).
    { unfold typed_info. case_bool_decide as Eu; [exists true | exists false]; split; try done.
      - by destruct info. - by destruct Ht. }
    rewrite E in *. unfold emit_message_start, conv, client_of. rewrite Hd, Hs.
    destruct info as [[] ? ?], b; cbn in *; subst; (split_and!; [done| |done]; split; cbn; try done; lia).
Qed.

Lemma finish_if_follows c reason opened bound s :
  receiving opened bound (conv s) -> bound + 1 <= max_i64 ->
  let s' := finish_if reason (known_usage c s) s in
  follows s s' /\ convert_ok opened bound (conv s') /\ ci_Usage (conv s') = ci_Usage (conv s)
  /\ ci_Done (conv s') = (if known_usage c s then true else false).
Proof.
  intros Hl Hb. cbn zeta. unfold finish_if. destruct (known_usage c s) as [u|].
  - destruct (finish_follows reason u _ _ _ Hl Hb) as [F D]. split_and!; [done | by left | | done].
    unfold finishMessage. by destruct (String.eqb reason "").
  - split_and!; [apply follows_refl | by right; left | done | apply Hl].
Qed.

(** What no choice changes. *)
Section Frame.
Context {A : Type} (P : ClaudeConvertInfo -> A).
Hypotheses (P_type : forall t c, P (with_type t c) = P c) (P_index : forall i c, P (with_index i c) = P c)
  (P_tools : forall b m c, P (with_tools b m c) = P c).

Lemma stop_frame s : P (conv (stopOpenBlocksAndAdvance s)) = P (conv s).
Proof.
  unfold stopOpenBlocksAndAdvance. case_bool_decide; [done|]. change (P (after_stop (conv s)) = P (conv s)).
  unfold after_stop. rewrite P_type. destruct (ci_LastMessagesType (conv s)); by rewrite ?P_tools, ?P_index.
Qed.

Lemma emit_block_frame ty st d s : P (conv (emit_block ty st d s)) = P (conv s).
Proof.
  unfold emit_block. case_bool_decide.
  - change (P (with_type ty (conv (stopOpenBlocksAndAdvance s))) = P (conv s)). by rewrite P_type, stop_frame.
  - change (P (with_type ty (conv s)) = P (conv s)). apply P_type.
Qed.

Lemma emit_tool_calls_frame calls s : P (conv (emit_tool_calls calls s)) = P (conv s).
Proof.
  unfold emit_tool_calls. destruct calls as [|tc l]; [done|]. case_bool_decide; cbn zeta; destruct (emit_tools _ _ _ _).
  - match goal with |- P (conv (update ?f _)) = _ =>
      change (P (f (with_type LastMessageTypeTools (with_tools (ci_Index (conv (stopOpenBlocksAndAdvance s))) 0
                 (conv (stopOpenBlocksAndAdvance s))))) = P (conv s)) end.
    cbv beta. by rewrite P_index, P_tools, P_type, P_tools, stop_frame.
  - match goal with |- P (conv (update ?f _)) = _ => change (P (f (with_type LastMessageTypeTools (conv s))) = P (conv s)) end.
    cbv beta. by rewrite P_index, P_tools, P_type.
Qed.

Lemma emitChoice_frame choice s : P (conv (emitChoice choice s)) = P (conv s).
Proof.
  unfold emitChoice, emit_text, emit_reasoning. rewrite emit_tool_calls_frame.
  destruct (String.eqb (GetContentString _) ""), (String.eqb (GetReasoningContent _) ""); by rewrite ?emit_block_frame.
Qed.
End Frame.

Lemma emitChoice_usage choice s : ci_Usage (conv (emitChoice choice s)) = ci_Usage (conv s).
Proof. by apply (emitChoice_frame ci_Usage). Qed.

(** The events of a chunk are accepted, the invariant is kept, and the message
    ends exactly when the chunk closes it and a usage is known. *)
Lemma convert_step c opened opened' bound info :
  convert_ok opened bound (si_convert info) -> tool_order opened c = Some opened' -> bound + index_cost c + 1 <= max_i64 ->
  let '(info', out) := StreamResponseOpenAI2Claude c info in
  receive_all (client_of (si_convert info)) out = Some (client_of (si_convert info'))
  /\ convert_ok opened' (bound + index_cost c) (si_convert info')
  /\ ci_Usage (si_convert info') = ci_Usage (si_convert info)
  /\ ci_Done (si_convert info') =
       ci_Done (si_convert info) || (closes c && (if sr_Usage c then true else if ci_Usage (si_convert info) then true else false)).
Proof.
  intros Hok Hord Hb. unfold StreamResponseOpenAI2Claude. destruct (ci_Done (si_convert info)) eqn:Ed.
  { split_and!; [done | by left | done | done]. }
  fold (typed_info info). destruct (started_follows c opened bound info Ed Hok) as (R & L & U).
  set (s := emit_message_start c (mkConv (typed_info info) [])) in *. unfold convert_body, tool_order, index_cost, closes in *.
  assert (forall s', follows s s' -> receive_all (client_of (si_convert info)) (cv_out s') = Some (client_of (si_convert (cv_info s')))) as Hrun.
  { intros s' (l & -> & Hl). by rewrite receive_all_app, R. }
  assert (known_usage c s = match sr_Usage c with Some u => Some u | None => ci_Usage (si_convert info) end) as Hk
    by (unfold known_usage; by rewrite U).
  destruct (sr_Choices c) as [|ch chs].
  - simplify_eq. rewrite Z.add_0_r in *. destruct (finish_if_follows c "" _ _ _ L Hb) as (F & K & U' & D).
    split_and!; [by apply Hrun | done | unfold conv in *; congruence |]. unfold conv in D. rewrite D, Hk. by destruct (sr_Usage c), (ci_Usage _).
  - destruct (emitChoice_follows ch _ _ _ _ L Hord) as [F1 L1]; [lia|]. pose proof (emitChoice_usage ch s) as U1.
    rewrite Z.add_assoc. set (s1 := emitChoice ch s) in *. destruct (finish_reason ch) as [r|].
    + set (s2 := mkConv (with_finish_reason r (cv_info s1)) (cv_out s1)).
      destruct (finish_if_follows c r _ _ s2 L1) as (F & K & U' & D); [lia|].
      assert (follows s s2) as F2 by (eapply follows_trans; [exact F1 | by apply follows_info]).
      split_and!; [apply Hrun; by eapply follows_trans | done | unfold conv in *; cbn in *; congruence |].
      unfold conv in D. rewrite D. unfold known_usage, conv in *. cbn in *. rewrite U1, U. by destruct (sr_Usage c), (ci_Usage (si_convert info)).
    + split_and!; [by apply Hrun | by right; left | unfold conv in *; congruence | apply L1].
Qed.
