(* ===== verification/StreamRelay.v ===== *)
(** * Relaying a stream of chat completions

    [OaiStreamHandler] of src/relay/channel/openai/relay-openai.go: the lines of
    the upstream's body become items (src/relay/helper/stream_scanner.go), an
    item is passed on when the next one arrives, and the last one is handled
    together with the usage the request is billed for
    (src/relay/channel/openai/helper.go).  Items are decoded by the parameters
    of class [Decoders]; the estimate of tokens of a text is a parameter too. *)

From stdpp Require Import base numbers list strings option.
From Stdlib Require Import ZArith Lia.
From S2P Require Import Prelude GoInt GoString TextPrice ClaudeStream GeminiStream.

Local Open Scope string_scope.
Local Open Scope list_scope.
Local Open Scope Z_scope.

(** ** The scanner *)

Inductive Scanned := LineSkipped | LineData (data : string) | LineDone.

Definition scan_line (line : string) : Scanned :=
  if (String.length line <? 6)%nat then LineSkipped
  else if negb (HasPrefix line "data:") && negb (HasPrefix line "[DONE]") then LineSkipped
  else
    let data := TrimSpace (String.substring 5 (String.length line - 5) line) in
    if String.eqb data "" then LineSkipped
    else if negb (HasPrefix data "[DONE]") then LineData data
    else LineDone.

(** The items of a body, in order, up to the end marker. *)
Fixpoint scan_body (lines : list string) : list string :=
  match lines with
  | [] => []
  | line :: lines' =>
      match scan_line line with
      | LineSkipped => scan_body lines'
      | LineData data => data :: scan_body lines'
      | LineDone => []
      end
  end.

(** ** What is sent to the client *)

Inductive RelayFormat := RelayFormatOpenAI | RelayFormatClaude | RelayFormatGemini.

#[export] Instance RelayFormat_eq_dec : EqDecision RelayFormat.
Proof. solve_decision. Defined.

Inductive RelayMode := RelayModeChatCompletions | RelayModeCompletions | RelayModeOther.

#[export] Instance RelayMode_eq_dec : EqDecision RelayMode.
Proof. solve_decision. Defined.

Inductive Sent :=
  | SentData (data : string)                          (* StringData *)
  | SentObject (c : ChatCompletionsStreamResponse)    (* ObjectData *)
  | SentClaude (e : ClaudeResponse)                   (* ClaudeData *)
  | SentGemini (g : GeminiChatResponse)
  | SentDone.                                         (* Done *)

(** [ThinkingContentInfo] *)
Record ThinkingContentInfo := mkThinking {
  tk_IsFirstThinkingContent : bool; tk_SendLastThinkingContent : bool; tk_HasSentThinkingContent : bool
}.

(** What a request says, fixed while it is answered. *)
Record StreamConfig := mkStreamConfig {
  rc_RelayFormat : RelayFormat;
  rc_RelayMode : RelayMode;
  rc_finalOpenAI : bool;            (* GetFinalRequestRelayFormat() is OpenAI *)
  rc_ChannelType : Z;
  rc_model : string;                (* UpstreamModelName *)
  rc_ForceFormat : bool;
  rc_ThinkingToContent : bool;
  rc_ShouldIncludeUsage : bool
}.

(** The part of [RelayInfo] a stream changes. *)
Record StreamState := mkStreamState { st_info : StreamInfo; st_thinking : ThinkingContentInfo; st_SendResponseCount : Z }.

(** What JSON decoding gives: a chunk, the [usage] of a chunk alone, a list of
    chunks, a list of completions as the texts of their choices, the map of a
    tool call's arguments, the cached tokens of the three places they are
    looked for; and the estimate of the tokens of a text. *)
Class Decoders := {
  decode : string -> option ChatCompletionsStreamResponse;
  decode_usage : string -> option (option WireUsage);
  decode_chunks : string -> option (list ChatCompletionsStreamResponse);
  decode_completions : string -> option (list (list string));
  decode_completion : string -> option (list string);
  parse_map : string -> option Json;
  cached_of_body : string -> option (option Z * option Z * option Z);
  moonshot_cached : string -> option (list (option Z));
  llama_cached : string -> option (option Z);
  EstimateTokenByModel : string -> string -> Z
}.

Section Relay.
Context `{Decoders} (cfg : StreamConfig).

(** ** Sending in the format of the client *)

Definition set_content (s : string) (ch : StreamChoice) : StreamChoice :=
  mkStreamChoice (mkStreamDelta (Some s) None None (dl_ToolCalls (ch_Delta ch))) (ch_FinishReason ch) (ch_Index ch).
Definition clear_reasoning (ch : StreamChoice) : StreamChoice :=
  mkStreamChoice (mkStreamDelta (dl_Content (ch_Delta ch)) None None (dl_ToolCalls (ch_Delta ch))) (ch_FinishReason ch) (ch_Index ch).
Definition with_choices (l : list StreamChoice) (c : ChatCompletionsStreamResponse) : ChatCompletionsStreamResponse :=
  mkChunk (sr_Id c) (sr_Created c) (sr_Model c) (sr_SystemFingerprint c) l (sr_Usage c).

Definition has_text (ch : StreamChoice) : bool := negb (String.eqb (GetContentString (ch_Delta ch)) "").
Definition has_reasoning (ch : StreamChoice) : bool := negb (String.eqb (GetReasoningContent (ch_Delta ch)) "").

(** The newlines of the tags. *)
Definition line_feed : string := bytes [10%nat].
Definition think_open : string := "<think>" +:+ line_feed.
Definition think_close : string := line_feed +:+ "</think>" +:+ line_feed.

(** The loop over the choices rewrites each; the first iteration sends the
    closing tag when it is due. *)
Definition flatten_choice (hasThinking hasContent : bool) (ch : StreamChoice) : StreamChoice :=
  if has_reasoning ch then set_content (GetReasoningContent (ch_Delta ch)) ch
  else if negb hasThinking && negb hasContent then clear_reasoning ch
  else ch.

Definition think_to_content (c : ChatCompletionsStreamResponse) (t : ThinkingContentInfo) : ThinkingContentInfo * list Sent :=
  let hasThinkingContent := existsb has_reasoning (sr_Choices c) in
  let hasContent := existsb has_text (sr_Choices c) in
  let thinkingContent := foldr (fun ch acc => GetReasoningContent (ch_Delta ch) +:+ acc) "" (sr_Choices c) in
  if tk_IsFirstThinkingContent t && hasThinkingContent then
    (mkThinking false (tk_SendLastThinkingContent t) true,
     [SentObject (with_choices (map (set_content (think_open +:+ thinkingContent)) (sr_Choices c)) c)])
  else match sr_Choices c with
       | [] => (t, [SentObject c])
       | _ =>
           let flat := SentObject (with_choices (map (flatten_choice hasThinkingContent hasContent) (sr_Choices c)) c) in
           if hasContent && negb (tk_SendLastThinkingContent t) && tk_HasSentThinkingContent t then
             (mkThinking (tk_IsFirstThinkingContent t) true (tk_HasSentThinkingContent t),
              [SentObject (with_choices (map (set_content think_close) (sr_Choices c)) c); flat])
           else (t, [flat])
       end.

Definition sendStreamData (data : string) (t : ThinkingContentInfo) : result (ThinkingContentInfo * list Sent) :=
  if String.eqb data "" then Ok (t, [])
  else if negb (rc_ForceFormat cfg) && negb (rc_ThinkingToContent cfg) then Ok (t, [SentData data])
  else match decode data with
       | None => fail_with "unmarshal"
       | Some c => if negb (rc_ThinkingToContent cfg) then Ok (t, [SentObject c]) else Ok (think_to_content c t)
       end.

Definition record_usage (u : option WireUsage) (i : StreamInfo) : StreamInfo :=
  match u with Some _ => on_convert (with_usage u) i | None => i end.

Definition handleClaudeFormat (data : string) (i : StreamInfo) : result (StreamInfo * list Sent) :=
  match decode data with
  | None => fail_with "unmarshal"
  | Some c =>
      let '(i', out) := StreamResponseOpenAI2Claude c (record_usage (sr_Usage c) i) in
      Ok (i', map SentClaude out)
  end.

Definition handleGeminiFormat (data : string) (i : StreamInfo) : result (list Sent) :=
  match decode data with
  | None => fail_with "unmarshal"
  | Some c => Ok match StreamResponseOpenAI2Gemini parse_map c (si_estimate i) with Some g => [SentGemini g] | None => [] end
  end.

Definition HandleStreamFormat (data : string) (s : StreamState) : result unit * StreamState * list Sent :=
  let s := mkStreamState (st_info s) (st_thinking s) (i64_add (st_SendResponseCount s) 1) in
  match rc_RelayFormat cfg with
  | RelayFormatOpenAI =>
      match sendStreamData data (st_thinking s) with
      | Ok (t, out) => (Ok tt, mkStreamState (st_info s) t (st_SendResponseCount s), out)
      | Err e => (Err e, s, [])
      end
  | RelayFormatClaude =>
      match handleClaudeFormat data (st_info s) with
      | Ok (i, out) => (Ok tt, mkStreamState i (st_thinking s) (st_SendResponseCount s), out)
      | Err e => (Err e, s, [])
      end
  | RelayFormatGemini =>
      match handleGeminiFormat data (st_info s) with
      | Ok out => (Ok tt, s, out)
      | Err e => (Err e, s, [])
      end
  end.

(** ** The loop over the items *)

Record LoopState := mkLoop {
  lp_state : StreamState; lp_last : string; lp_secondLast : string; lp_items : list string;
  lp_errors : nat; lp_sent : list Sent
}.

Definition start_loop (s : StreamState) : LoopState := mkLoop s "" "" [] 0 [].

Definition isAudioModel : bool := Contains (ToLower (rc_model cfg)) "audio".

Definition on_item (l : LoopState) (data : string) : LoopState :=
  let l1 :=
    if String.eqb (lp_last l) "" then l
    else let '(r, s, out) := HandleStreamFormat (lp_last l) (lp_state l) in
         mkLoop s (lp_last l) (lp_secondLast l) (lp_items l)
           (match r with Ok _ => lp_errors l | Err _ => S (lp_errors l) end) (lp_sent l ++ out) in
  if String.eqb data "" then l1
  else mkLoop (lp_state l1) data
         (if isAudioModel && negb (String.eqb (lp_last l1) "") then lp_last l1 else lp_secondLast l1)
         (lp_items l1 ++ [data]) (lp_errors l1) (lp_sent l1).

Definition run_items (s : StreamState) (items : list string) : LoopState := foldl on_item (start_loop s) items.

(** ** The usage *)

Definition ValidUsage (u : option WireUsage) : bool :=
  match u with
  | Some w => negb (us_PromptTokens (wu_usage w) =? 0) || negb (us_CompletionTokens (wu_usage w) =? 0)
  | None => false
  end.

Definition plain_usage (prompt completion total : Z) : WireUsage :=
  mkWireUsage (mkUsage prompt completion 0 0 0 0 0 0 "" "" false) total 0 None.

Definition ResponseText2Usage (responseText modelName : string) (promptTokens : Z) : WireUsage :=
  let completion := EstimateTokenByModel modelName responseText in
  plain_usage promptTokens completion (i64_add promptTokens completion).

Definition with_cached (n : Z) (w : WireUsage) : WireUsage :=
  let u := wu_usage w in
  mkWireUsage (mkUsage (us_PromptTokens u) (us_CompletionTokens u) n (us_CachedCreationTokens u) (us_ImageTokens u)
                 (us_AudioTokens u) (us_Claude5mTokens u) (us_Claude1hTokens u) (us_UsageSemantic u) (us_UsageSource u) (us_CostIsIntZero u))
    (wu_TotalTokens w) (wu_PromptCacheHitTokens w) (wu_InputTokensDetails w).

Definition with_completion_tokens (n : Z) (w : WireUsage) : WireUsage :=
  let u := wu_usage w in
  mkWireUsage (mkUsage (us_PromptTokens u) n (us_CachedTokens u) (us_CachedCreationTokens u) (us_ImageTokens u)
                 (us_AudioTokens u) (us_Claude5mTokens u) (us_Claude1hTokens u) (us_UsageSemantic u) (us_UsageSource u) (us_CostIsIntZero u))
    (wu_TotalTokens w) (wu_PromptCacheHitTokens w) (wu_InputTokensDetails w).

Definition TypeOpenAI : Z := 1.
Definition TypeOpenRouter : Z := 20.
Definition TypeMoonshot : Z := 25.
Definition TypeZhipu_v4 : Z := 26.
Definition TypeDeepSeek : Z := 43.

Definition extractCachedTokensFromBody (body : string) : option Z :=
  if String.eqb body "" then None
  else match cached_of_body body with
       | None => None
       | Some (Some n, _, _) => Some n
       | Some (None, Some n, _) => Some n
       | Some (None, None, Some n) => Some n
       | Some (None, None, None) => None
       end.

Definition extractMoonshotCachedTokensFromBody (body : string) : option Z :=
  if String.eqb body "" then None
  else match moonshot_cached body with
       | None => None
       | Some choices => foldr (fun o r => match o with Some n => if 0 <? n then Some n else r | None => r end) None choices
       end.

Definition extractLlamaCachedTokensFromBody (body : string) : option Z :=
  if String.eqb body "" then None else match llama_cached body with Some r => r | None => None end.

(** The positive entry of [usage.InputTokensDetails], when there is one. *)
Definition details_cached (w : WireUsage) : option Z :=
  match wu_InputTokensDetails w with Some n => if 0 <? n then Some n else None | None => None end.

Definition applyUsagePostProcessing (w : WireUsage) (responseBody : string) : WireUsage :=
  let hit := wu_PromptCacheHitTokens w in
  let from_hit := if 0 <? hit then with_cached hit w else w in
  let none_cached := us_CachedTokens (wu_usage w) =? 0 in
  let first_of (places : list (option Z)) (otherwise : WireUsage) :=
    foldr (fun place r => match place with Some n => with_cached n w | None => r end) otherwise places in
  if rc_ChannelType cfg =? TypeDeepSeek then
    if none_cached && negb (hit =? 0) then with_cached hit w else w
  else if rc_ChannelType cfg =? TypeZhipu_v4 then
    if none_cached then first_of [details_cached w; extractCachedTokensFromBody responseBody] from_hit else w
  else if rc_ChannelType cfg =? TypeMoonshot then
    if none_cached then
      first_of [details_cached w; extractMoonshotCachedTokensFromBody responseBody; extractCachedTokensFromBody responseBody] from_hit
    else w
  else if rc_ChannelType cfg =? TypeOpenAI then
    if none_cached then first_of [extractLlamaCachedTokensFromBody responseBody] w else w
  else w.

(** ** Counting the tokens of the items *)

(** The builders of response and reasoning text, and the highest number of tool
    calls of a delta. *)
Record Counted := mkCounted { ct_response : string; ct_reasoning : string; ct_toolCount : Z }.

Definition count_choice (ct : Counted) (ch : StreamChoice) : Counted :=
  let d := ch_Delta ch in
  let calls := tool_calls d in
  mkCounted
    (foldl (fun acc t => acc +:+ fr_Name (tc_Function t) +:+ fr_Arguments (tc_Function t)) (ct_response ct +:+ GetContentString d) calls)
    (ct_reasoning ct +:+ GetReasoningContent d)
    (if ct_toolCount ct <? Z.of_nat (length calls) then Z.of_nat (length calls) else ct_toolCount ct).

Definition ProcessStreamResponseParts (c : ChatCompletionsStreamResponse) (ct : Counted) : Counted :=
  foldl count_choice ct (sr_Choices c).

(** [ProcessStreamResponse] writes the reasoning of the chunk after its text. *)
Definition ProcessStreamResponse (c : ChatCompletionsStreamResponse) (responseText : string) (toolCount : Z) : string * Z :=
  let ct := ProcessStreamResponseParts c (mkCounted responseText "" toolCount) in
  (ct_response ct +:+ ct_reasoning ct, ct_toolCount ct).

(** Item by item, up to the first that cannot be decoded. *)
Fixpoint process_each (items : list string) (ct : Counted) : Counted :=
  match items with
  | [] => ct
  | item :: items' =>
      match decode item with None => ct | Some c => process_each items' (ProcessStreamResponseParts c ct) end
  end.

Definition processChatCompletions (streamResp : string) (streamItems : list string) (ct : Counted) : Counted :=
  match decode_chunks streamResp with
  | None => process_each streamItems ct
  | Some cs => foldl (fun ct c => ProcessStreamResponseParts c ct) ct cs
  end.

Definition add_texts (texts : list string) (ct : Counted) : Counted :=
  mkCounted (foldl (fun acc t => acc +:+ t) (ct_response ct) texts) (ct_reasoning ct) (ct_toolCount ct).

Definition processCompletions (streamResp : string) (streamItems : list string) (ct : Counted) : Counted :=
  match decode_completions streamResp with
  | None => foldl (fun ct item => match decode_completion item with Some texts => add_texts texts ct | None => ct end) ct streamItems
  | Some l => foldl (fun ct texts => add_texts texts ct) ct l
  end.

Definition processTokens (streamItems : list string) (ct : Counted) : Counted :=
  let streamResp := "[" +:+ Join streamItems "," +:+ "]" in
  match rc_RelayMode cfg with
  | RelayModeChatCompletions => processChatCompletions streamResp streamItems ct
  | RelayModeCompletions => processCompletions streamResp streamItems ct
  | RelayModeOther => if rc_finalOpenAI cfg then processChatCompletions streamResp streamItems ct else ct
  end.

(** ** The end of the stream *)

(** What the handler knows of the last item: the usage, whether it came with the
    stream, and the fields of the last chunk. *)
Record Ending := mkEnding {
  en_usage : WireUsage; en_containStreamUsage : bool; en_shouldSendLast : bool;
  en_responseId : string; en_createAt : Z; en_fingerprint : string; en_model : string
}.

Definition handleLastResponse (lastStreamData : string) (e : Ending) : Ending :=
  match decode lastStreamData with
  | None => e
  | Some c =>
      let contains := ValidUsage (sr_Usage c) in
      mkEnding (if contains then default (en_usage e) (sr_Usage c) else en_usage e)
        (contains || en_containStreamUsage e)
        (if contains && negb (rc_ShouldIncludeUsage cfg) then existsb (fun ch => has_text ch || has_reasoning ch) (sr_Choices c)
         else en_shouldSendLast e)
        (sr_Id c) (sr_Created c) (GetSystemFingerprint c) (sr_Model c)
  end.

Definition HandleFinalResponse (lastStreamData : string) (e : Ending) (s : StreamState) : StreamState * list Sent :=
  match rc_RelayFormat cfg with
  | RelayFormatOpenAI =>
      (s, (if rc_ShouldIncludeUsage cfg && negb (en_containStreamUsage e)
           then [SentObject (mkChunk (en_responseId e) (en_createAt e) (en_model e) (Some (en_fingerprint e)) [] (Some (en_usage e)))]
           else []) ++ [SentDone])
  | RelayFormatClaude =>
      match decode lastStreamData with
      | None => (s, [])
      | Some c =>
          let '(i, out) := StreamResponseOpenAI2Claude c (on_convert (with_usage (Some (en_usage e))) (st_info s)) in
          (mkStreamState (on_convert with_done i) (st_thinking s) (st_SendResponseCount s), map SentClaude out)
      end
  | RelayFormatGemini =>
      match decode lastStreamData with
      | None => (s, [])
      | Some c =>
          (s, match StreamResponseOpenAI2Gemini parse_map c (si_estimate (st_info s)) with Some g => [SentGemini g] | None => [] end)
      end
  end.

(** The usage an audio model reports in the item before the last. *)
Definition audio_usage (l : LoopState) (e : Ending) : Ending :=
  if isAudioModel && negb (String.eqb (lp_secondLast l) "") then
    match decode_usage (lp_secondLast l) with
    | Some (Some w) =>
        if ValidUsage (Some w) then
          mkEnding w true (en_shouldSendLast e) (en_responseId e) (en_createAt e) (en_fingerprint e) (en_model e)
        else e
    | _ => e
    end
  else e.

Definition finish_usage (l : LoopState) (e : Ending) : Ending :=
  let ct := processTokens (lp_items l) (mkCounted "" "" 0) in
  let u :=
    if en_containStreamUsage e then en_usage e
    else
      let u := ResponseText2Usage (ct_response ct +:+ ct_reasoning ct) (rc_model cfg) (si_estimate (st_info (lp_state l))) in
      with_completion_tokens (i64_add (us_CompletionTokens (wu_usage u)) (i64_mul (ct_toolCount ct) 7)) u in
  mkEnding (applyUsagePostProcessing u (lp_last l)) (en_containStreamUsage e) (en_shouldSendLast e)
    (en_responseId e) (en_createAt e) (en_fingerprint e) (en_model e).

(** [OaiStreamHandler] on the items of a body: the usage it returns, the state it
    leaves, and everything the client receives. *)
Definition OaiStreamHandler (s : StreamState) (items : list string) : WireUsage * StreamState * list Sent :=
  let l := run_items s items in
  let e0 := mkEnding (plain_usage 0 0 0) false true "" 0 "" (rc_model cfg) in
  let e1 := handleLastResponse (lp_last l) (audio_usage l e0) in
  let '(thinking, last_sent) :=
    match rc_RelayFormat cfg with
    | RelayFormatOpenAI =>
        if en_shouldSendLast e1 then
          match sendStreamData (lp_last l) (st_thinking (lp_state l)) with
          | Ok r => r
          | Err _ => (st_thinking (lp_state l), [])
          end
        else (st_thinking (lp_state l), [])
    | _ => (st_thinking (lp_state l), [])
    end in
  let e2 := finish_usage l e1 in
  let s2 := mkStreamState (st_info (lp_state l)) thinking (st_SendResponseCount (lp_state l)) in
  let '(s3, out) := HandleFinalResponse (lp_last l) e2 s2 in
  (en_usage e2, s3, lp_sent l ++ last_sent ++ out).

End Relay.
