(* ===== verification/StreamSafety.v ===== *)
(** * What relaying a stream guarantees

    Theorems on [OaiStreamHandler]: a Claude client can follow the stream and
    sees its end exactly when the upstream closed the message, nothing the
    upstream says is lost or altered on the way, an OpenAI client receives the
    items as they came, and what the usage is taken from. *)

From stdpp Require Import base numbers list strings option.
From Stdlib Require Import ZArith Lia.
From S2P Require Import Prelude GoInt GoString TextPrice ClaudeStream GeminiStream ClaudeProtocol StreamRelay.

Local Open Scope string_scope.
Local Open Scope list_scope.
Local Open Scope Z_scope.

Arguments TrimSpace : simpl never.
Arguments HasPrefix : simpl never.

(** ** The scanner *)

Lemma scan_nonempty lines : Forall (fun d => d <> "") (scan_body lines).
Proof.
  induction lines as [|line lines IH]; cbn; [constructor|]. unfold scan_line.
  repeat (destruct (_ <? _)%nat || destruct (negb _ && negb _)); try done.
  destruct (String.eqb_spec (TrimSpace (String.substring 5 (String.length line - 5) line)) "") as [|Hne]; [done|].
  destruct (negb (HasPrefix _ _)); [by constructor | constructor].
Qed.

(** An item as the upstream frames it. *)
Definition framed (d : string) : string := "data: " +:+ d.

(** An item that survives framing: no white space around it, not empty, not the end marker. *)
Definition frameable (d : string) : bool :=
  String.eqb (TrimSpace (" " +:+ d)) d && negb (String.eqb d "") && negb (HasPrefix d "[DONE]").

Lemma substring_all s : String.substring 0 (String.length s) s = s.
Proof. induction s as [|a s IH]; [done|]. cbn. by rewrite IH. Qed.

Lemma substring_skip p s : String.substring (String.length p) (String.length (p +:+ s) - String.length p) (p +:+ s) = s.
Proof.
  rewrite str_length_app, Nat.add_comm, Nat.add_sub. induction p as [|a p IH]; cbn; [apply substring_all | exact IH].
Qed.

Lemma scan_line_framed d : frameable d = true -> scan_line (framed d) = LineData d.
Proof.
  intros Hf. unfold frameable in Hf. apply andb_true_iff in Hf as [Hf Hd]. apply andb_true_iff in Hf as [Ht Hn].
  apply String.eqb_eq in Ht. unfold scan_line, framed.
  assert (String.length ("data: " +:+ d) <? 6 = false)%nat as -> by (rewrite str_length_app; apply Nat.ltb_ge; cbn; lia).
  replace (HasPrefix ("data: " +:+ d) "data:") with true by done. cbn [negb andb].
  replace (String.substring 5 (String.length ("data: " +:+ d) - 5) ("data: " +:+ d)) with (" " +:+ d)
    by (symmetry; exact (substring_skip "data:" (" " +:+ d))).
  rewrite Ht. by rewrite (proj1 (negb_true_iff _) Hn), Hd.
Qed.

(** Reading back a framed stream: the scanner of an upstream body that
    frames its items as events, separates them by blank lines and closes with the
    end marker yields exactly those items, in their order, and ignores what
    follows the marker. *)
Theorem framed_stream_reads_back items rest :
  Forall (fun d => frameable d = true) items ->
  scan_body (concat (map (fun d => [framed d; ""]) items) ++ framed "[DONE]" :: rest) = items.
Proof.
  induction 1 as [|d items Hd _ IH]; [done|]. cbn [map concat app scan_body]. rewrite (scan_line_framed d Hd).
  change (scan_line "") with LineSkipped. by rewrite IH.
Qed.

Lemma framed_stream_reads_back_witness :
  Forall (fun d => frameable d = true) ["{1}"; "{2}"]
  /\ scan_body (concat (map (fun d => [framed d; ""]) ["{1}"; "{2}"]) ++ [framed "[DONE]"; "data: {3}"]) = ["{1}"; "{2}"].
Proof.
  split; [repeat constructor; vm_compute; reflexivity|].
  apply (framed_stream_reads_back ["{1}"; "{2}"] ["data: {3}"]). repeat constructor; vm_compute; reflexivity.
Defined.

(** A marker without the field name is let through the filter, but the slice then
    cuts it too, so that the stream goes on with an item that is not JSON. *)
Example bare_marker_is_data : scan_body ["data: {1}"; "[DONE]"] = ["{1}"; "]"].
Proof. vm_compute. reflexivity. Qed.

(** ** A stream for a Claude client, chunk by chunk *)

(** [handleClaudeFormat] on a decoded item. *)
Definition claude_chunk (c : ChatCompletionsStreamResponse) (i : StreamInfo) : StreamInfo * list ClaudeResponse :=
  StreamResponseOpenAI2Claude c (record_usage (sr_Usage c) i).

Definition claude_step (r : StreamInfo * list ClaudeResponse) (c : ChatCompletionsStreamResponse) : StreamInfo * list ClaudeResponse :=
  let '(i, out) := claude_chunk c r.1 in (i, r.2 ++ out).

Definition claude_chunks (i : StreamInfo) (cs : list ChatCompletionsStreamResponse) : StreamInfo * list ClaudeResponse :=
  foldl claude_step (i, []) cs.

Definition claude_events (l : list Sent) : list ClaudeResponse :=
  omap (fun x => match x with SentClaude e => Some e | _ => None end) l.

Lemma claude_events_map l : claude_events (map SentClaude l) = l.
Proof. unfold claude_events. induction l as [|e l IH]; [done|]. cbn [map omap list_omap]. by rewrite IH. Qed.

Lemma claude_events_app l1 l2 : claude_events (l1 ++ l2) = claude_events l1 ++ claude_events l2.
Proof. apply omap_app. Qed.

(** ** The protocol of the client *)

Fixpoint tool_orders (opened : Z) (cs : list ChatCompletionsStreamResponse) : option Z :=
  match cs with [] => Some opened | c :: cs' => tool_order opened c ≫= fun n => tool_orders n cs' end.

Definition total_weight (cs : list ChatCompletionsStreamResponse) : Z := sum_by index_cost cs.

(** Whether the upstream closes the message: a chunk that closes it arrives after
    a usage, or last. *)
Fixpoint message_ends (seen : bool) (cs : list ChatCompletionsStreamResponse) : bool :=
  match cs with
  | [] => false
  | [c] => closes c
  | c :: cs' => let seen := seen || (if sr_Usage c then true else false) in (closes c && seen) || message_ends seen cs'
  end.

Lemma event_weight_nonneg c : 0 <= index_cost c.
Proof. unfold index_cost. destruct (sr_Choices c); lia. Qed.

Lemma total_weight_nonneg cs : 0 <= total_weight cs.
Proof. apply sum_by_nonneg. intros. apply event_weight_nonneg. Qed.

Definition seen_usage (i : StreamInfo) : bool := if ci_Usage (si_convert i) then true else false.

Lemma record_usage_ok opened bound u i :
  convert_ok opened bound (si_convert i) -> convert_ok opened bound (si_convert (record_usage u i)).
Proof.
  unfold record_usage. destruct u; [|done]. intros [Hd|[Hl|(Hf & Ho & Hb)]]; [by left | right; left | by right; right].
  destruct Hl. by split.
Qed.

Lemma record_usage_client u i : client_of (si_convert (record_usage u i)) = client_of (si_convert i).
Proof. by destruct u. Qed.

Lemma record_usage_done u i : ci_Done (si_convert (record_usage u i)) = ci_Done (si_convert i).
Proof. by destruct u. Qed.

(** One item of the stream. *)
Lemma chunk_accepted c opened opened' bound i :
  convert_ok opened bound (si_convert i) -> tool_order opened c = Some opened' -> bound + index_cost c + 1 <= max_i64 ->
  let '(i', out) := claude_chunk c i in
  receive_all (client_of (si_convert i)) out = Some (client_of (si_convert i'))
  /\ convert_ok opened' (bound + index_cost c) (si_convert i')
  /\ seen_usage i' = seen_usage i || (if sr_Usage c then true else false)
  /\ ci_Done (si_convert i') = ci_Done (si_convert i) || (closes c && seen_usage i').
Proof.
  intros Hok Hord Hb. unfold claude_chunk.
  pose proof (convert_step c opened opened' bound (record_usage (sr_Usage c) i) (record_usage_ok _ _ _ _ Hok) Hord Hb) as Hs.
  destruct (StreamResponseOpenAI2Claude c _) as [i' out]. destruct Hs as (R & K & U & D).
  rewrite record_usage_client in R. rewrite record_usage_done in D.
  assert (seen_usage i' = seen_usage i || (if sr_Usage c then true else false)) as Hu.
  { unfold seen_usage. rewrite U. unfold record_usage. destruct (sr_Usage c); cbn; [by rewrite orb_true_r | by rewrite orb_false_r]. }
  split_and!; try done. rewrite D. unfold seen_usage in *. rewrite Hu. f_equal. f_equal.
  unfold record_usage. destruct (sr_Usage c); cbn; [by rewrite orb_true_r | by rewrite orb_false_r].
Qed.

Lemma claude_chunks_cons i c cs :
  claude_chunks i (c :: cs) =
  let '(i1, o1) := claude_chunk c i in let '(i2, o2) := claude_chunks i1 cs in (i2, o1 ++ o2).
Proof.
  assert (forall cs i acc, foldl claude_step (i, acc) cs = let '(i2, o2) := claude_chunks i cs in (i2, acc ++ o2)) as Hacc.
  { clear. unfold claude_chunks. induction cs as [|c cs IH]; intros i acc; cbn [foldl]; [by rewrite app_nil_r|].
    unfold claude_step at 2 4. cbn [fst snd]. destruct (claude_chunk c i) as [i1 o1]. rewrite (IH i1 (acc ++ o1)), (IH i1 ([] ++ o1)).
    destruct (foldl claude_step (i1, []) cs). by rewrite <- app_assoc. }
  unfold claude_chunks at 1. cbn [foldl]. unfold claude_step at 2. cbn [fst snd]. destruct (claude_chunk c i) as [i1 o1]. apply Hacc.
Qed.

(** Several items. *)
Lemma chunks_accepted cs : forall opened opened' bound i,
  convert_ok opened bound (si_convert i) -> tool_orders opened cs = Some opened' -> bound + total_weight cs + 1 <= max_i64 ->
  let '(i', out) := claude_chunks i cs in
  receive_all (client_of (si_convert i)) out = Some (client_of (si_convert i'))
  /\ convert_ok opened' (bound + total_weight cs) (si_convert i')
  /\ forall c, ci_Done (si_convert i') || closes c = ci_Done (si_convert i) || message_ends (seen_usage i) (cs ++ [c]).
Proof.
  induction cs as [|c cs IH]; intros opened opened' bound i Hok Hord Hb; cbn [tool_orders] in Hord.
  { cbn. simplify_eq. by rewrite Z.add_0_r. }
  rewrite claude_chunks_cons. apply bind_Some in Hord as (n & Hn & Hrest).
  change (total_weight (c :: cs)) with (index_cost c + total_weight cs) in *. pose proof (total_weight_nonneg cs).
  pose proof (chunk_accepted c opened n bound i Hok Hn ltac:(lia)) as H1. destruct (claude_chunk c i) as [i1 o1].
  destruct H1 as (R1 & K1 & U1 & D1). pose proof (IH n opened' _ i1 K1 Hrest ltac:(lia)) as H2.
  destruct (claude_chunks i1 cs) as [i2 o2]. destruct H2 as (R2 & K2 & D2). split_and!.
  - by rewrite receive_all_app, R1.
  - by rewrite Z.add_assoc.
  - intros c'. rewrite D2, D1, U1, <- orb_assoc. f_equal. cbn [app message_ends]. by destruct cs.
Qed.

Section Streams.
Context `{Decoders} (cfg : StreamConfig).

(** The items decode to these chunks. *)
Definition decoded : list string -> list ChatCompletionsStreamResponse -> Prop :=
  Forall2 (fun d c => d <> "" /\ decode d = Some c).

(** All items but the last have been passed on, in order. *)
Lemma run_items_claude s items c d cs :
  rc_RelayFormat cfg = RelayFormatClaude -> decoded items cs -> d <> "" -> decode d = Some c ->
  let l := run_items cfg s (items ++ [d]) in
  lp_last l = d /\ lp_items l = items ++ [d]
  /\ (st_info (lp_state l), claude_events (lp_sent l)) = claude_chunks (st_info s) cs.
Proof.
  intros Hf Hdec. revert cs d c Hdec. induction items as [|d0 items IH] using rev_ind; intros cs d c Hdec Hd Hc.
  - apply Forall2_nil_inv_l in Hdec as ->. by destruct d.
  - apply Forall2_app_inv_l in Hdec as (cs' & l2 & Hdec & (c0 & l3 & [Hd0 Hc0] & ->%Forall2_nil_inv_l & ->)%Forall2_cons_inv_l & ->).
    specialize (IH cs'). rename cs' into cs.
    cbn zeta. unfold run_items in *. rewrite foldl_snoc. destruct (IH d0 c0 Hdec Hd0 Hc0) as (E1 & E2 & E3). cbn zeta in *.
    set (l := foldl (on_item cfg) (start_loop s) (items ++ [d0])) in *. unfold on_item.
    rewrite E1. destruct (String.eqb_spec d0 ""); [done|]. unfold HandleStreamFormat. rewrite Hf.
    unfold handleClaudeFormat, claude_chunks. rewrite Hc0, foldl_snoc. fold (claude_chunks (st_info s) cs). rewrite <- E3.
    cbn [st_info]. unfold claude_step, claude_chunk. cbn [fst snd].
    destruct (StreamResponseOpenAI2Claude c0 _) as [i out]. destruct (String.eqb_spec d ""); [done|]. cbn.
    rewrite E2, claude_events_app, claude_events_map. done.
Qed.

Definition decodes : list string -> list ChatCompletionsStreamResponse -> Prop := Forall2 (fun d c => decode d = Some c).

Lemma scanned_decoded lines cs : decodes (scan_body lines) cs -> decoded (scan_body lines) cs.
Proof.
  intros Hd. pose proof (scan_nonempty lines) as Hn. unfold decoded, decodes in *.
  induction Hd; inversion Hn; subst; constructor; auto.
Qed.

(** What a Claude client receives of a stream: the events of its items, then those
    of the last one under the usage the request is billed for. *)
Lemma claude_stream_events s lines cs c :
  rc_RelayFormat cfg = RelayFormatClaude -> decodes (scan_body lines) (cs ++ [c]) ->
  let '(u, _, out) := OaiStreamHandler cfg s (scan_body lines) in
  let '(i, o) := claude_chunks (st_info s) cs in
  claude_events out = o ++ (StreamResponseOpenAI2Claude c (on_convert (with_usage (Some u)) i)).2.
Proof.
  intros Hf Hd%scanned_decoded. apply Forall2_app_inv_r in Hd as (items & l2 & Hd & (d & l3 & [Hdn Hdc] & ->%Forall2_nil_inv_r & ->)%Forall2_cons_inv_r & Es).
  rewrite Es. unfold OaiStreamHandler. destruct (run_items_claude s items c d cs Hf Hd Hdn Hdc) as (E1 & _ & E3). cbn zeta in *.
  set (l := run_items cfg s (items ++ [d])) in *. rewrite E1. rewrite Hf. unfold HandleFinalResponse. rewrite Hf, Hdc.
  cbn [st_info]. rewrite <- E3. set (e2 := finish_usage cfg l _).
  destruct (StreamResponseOpenAI2Claude c _) as [i out] eqn:E. rewrite !claude_events_app, claude_events_map.
  cbn. f_equal. transitivity ((i, out).2); [done|]. by rewrite <- E.
Qed.

(** C12. A Claude client can follow a relayed stream of at least one item whose
    items all decode and whose block indices fit in an int64 (two for a chunk
    and one for each fragment of a call stay below 2^63 - 1), when its tool
    calls (of the first choice) come in this order: in a run of calls the first
    is number 0 and each next one the next number, the first fragment of a call
    and no other carries its name, later fragments refer to calls of the run,
    and visible text or reasoning ends the run, so that numbers start again at 0
    after it (an upstream that goes on counting breaks the stream:
    [calls_after_text_break_stream]).  Then the events are accepted by the
    automaton of the protocol (one message_start first, blocks opened with
    consecutive indices, deltas only for open blocks of their type, every block
    closed before message_delta, message_stop last), and the client sees the end
    of the message exactly when the upstream closed it, by a chunk with a finish
    reason or without choices that arrives last or after a usage. *)
Theorem client_accepts_the_stream s estimate lines cs c n :
  rc_RelayFormat cfg = RelayFormatClaude -> st_info s = new_stream_info estimate ->
  decodes (scan_body lines) (cs ++ [c]) -> tool_orders 0 (cs ++ [c]) = Some n -> total_weight (cs ++ [c]) < max_i64 ->
  let '(_, _, out) := OaiStreamHandler cfg s (scan_body lines) in
  exists client, receive_all Waiting (claude_events out) = Some client
    /\ (client = Complete <-> message_ends false (cs ++ [c]) = true).
Proof.
  intros Hf Hi Hd Ho Hw. pose proof (claude_stream_events s lines cs c Hf Hd) as He.
  destruct (OaiStreamHandler cfg s (scan_body lines)) as [[u s'] out]. rewrite Hi in He.
  assert (exists m, tool_orders 0 cs = Some m /\ tool_order m c = Some n) as (m & Hm & Hn).
  { clear -Ho. revert Ho. generalize 0 at 1 2. induction cs as [|c0 cs IH]; intros z Hz; cbn in *.
    - apply bind_Some in Hz as (k & Hk & [= ->]). eauto.
    - apply bind_Some in Hz as (k & Hk & Hz). rewrite Hk. cbn. by apply IH. }
  unfold total_weight in Hw. rewrite sum_by_app in Hw. fold (total_weight cs) in Hw. cbn in Hw.
  pose proof (event_weight_nonneg c). pose proof (total_weight_nonneg cs).
  assert (convert_ok 0 0 (si_convert (new_stream_info estimate))) as K0 by (right; right; repeat split; auto; done).
  pose proof (chunks_accepted cs 0 m 0 (new_stream_info estimate) K0 Hm ltac:(lia)) as Hch.
  destruct (claude_chunks (new_stream_info estimate) cs) as [i o]. destruct Hch as (R1 & K1 & D1).
  pose proof (convert_step c m n (0 + total_weight cs) (on_convert (with_usage (Some u)) i)
                (record_usage_ok m _ (Some u) i K1) Hn ltac:(lia)) as Hfin.
  destruct (StreamResponseOpenAI2Claude c _) as [i2 o2]. destruct Hfin as (R2 & _ & _ & D2).
  exists (client_of (si_convert i2)). rewrite He. cbn [snd]. split.
  - rewrite receive_all_app. change Waiting with (client_of (si_convert (new_stream_info estimate))). rewrite R1. exact R2.
  - specialize (D1 c). cbn in D1. change (seen_usage (new_stream_info estimate)) with false in D1. rewrite <- D1.
    replace (ci_Done (si_convert i) || closes c) with (ci_Done (si_convert i2))
      by (rewrite D2; cbn; destruct (sr_Usage c); by rewrite andb_true_r).
    unfold client_of. destruct (ci_Done (si_convert i2)); [done|]. split; [|done].
    destruct (negb _); [done|]. by destruct (ci_LastMessagesType _).
Qed.
End Streams.
