(* ===== verification/StreamContent.v ===== *)
(** * What clients receive of a stream

    The text, the reasoning and the arguments of tool calls that the events of
    a relayed stream carry are those of the chunks, in their order, up to the
    chunk that ends the message.  No assumption on the chunks is needed.  Then
    what an OpenAI client receives, how the tokens of a stream without usage are
    counted, the tags of [ThinkingToContent], concrete streams, and streams on
    which a guarantee does not hold because an assumption on the upstream fails. *)

From stdpp Require Import base numbers list strings option.
From Stdlib Require Import ZArith Lia.
From S2P Require Import Prelude GoInt GoString TextPrice ClaudeStream GeminiStream ClaudeProtocol StreamRelay StreamSafety.

Local Open Scope string_scope.
Local Open Scope list_scope.
Local Open Scope Z_scope.

(** ** What events and chunks say *)

(** A reading takes what one delta says. *)
Definition delta_said (g : ClaudeMediaMessage -> string) (e : ClaudeResponse) : string :=
  match cr_Delta e with Some d => g d | None => "" end.

Definition said (g : ClaudeMediaMessage -> string) (l : list ClaudeResponse) : string :=
  foldr (fun e acc => delta_said g e +:+ acc) "" l.
Arguments said g !l.

Definition visible_text (d : ClaudeMediaMessage) : string := default "" (mm_Text d).
Definition thinking_text (d : ClaudeMediaMessage) : string := default "" (mm_Thinking d).
Definition argument_text (d : ClaudeMediaMessage) : string := default "" (mm_PartialJson d).

Definition of_choice (f : StreamDelta -> string) (c : ChatCompletionsStreamResponse) : string :=
  match sr_Choices c with [] => "" | ch :: _ => f (ch_Delta ch) end.

Definition arguments_of (d : StreamDelta) : string :=
  foldr (fun t acc => fr_Arguments (tc_Function t) +:+ acc) "" (tool_calls d).

Definition concat_text (f : ChatCompletionsStreamResponse -> string) (cs : list ChatCompletionsStreamResponse) : string :=
  foldr (fun c acc => f c +:+ acc) "" cs.

(** The chunks up to the one that ends the message. *)
Fixpoint heard (seen : bool) (cs : list ChatCompletionsStreamResponse) : list ChatCompletionsStreamResponse :=
  match cs with
  | [] => []
  | c :: cs' =>
      let seen := seen || (if sr_Usage c then true else false) in
      if closes c && seen then [c] else c :: heard seen cs'
  end.

Lemma said_app g l1 l2 : said g (l1 ++ l2) = said g l1 +:+ said g l2.
Proof. induction l1 as [|e l1 IH]; [done|]. cbn [app said foldr]. fold (said g (l1 ++ l2)). by rewrite IH, str_app_assoc. Qed.

(** ** The converter *)

Section Reading.
Context (g : ClaudeMediaMessage -> string).

Lemma said_stops c : said g (open_stops c) = "".
Proof.
  unfold open_stops. destruct (ci_LastMessagesType c); try done.
  induction (seqZ 0 (ci_ToolCallMaxIndexOffset c + 1)) as [|z l IH]; [done | exact IH].
Qed.

Lemma said_stop_and_advance s : said g (cv_out (stopOpenBlocksAndAdvance s)) = said g (cv_out s).
Proof.
  unfold stopOpenBlocksAndAdvance. case_bool_decide; [done|]. cbn. by rewrite said_app, said_stops, str_app_nil_r.
Qed.

Lemma said_emit_block ty start delta s : said g (cv_out (emit_block ty start delta s)) = said g (cv_out s) +:+ g delta.
Proof.
  unfold emit_block. case_bool_decide; cbn; rewrite !said_app.
  - rewrite said_stop_and_advance. cbn. by rewrite !str_app_nil_r.
  - cbn. by rewrite str_app_nil_r.
Qed.

(** What the calls of a delta say. *)
Definition said_calls (calls : list ToolCallResponse) : string :=
  foldr (fun t acc => (if String.eqb (fr_Arguments (tc_Function t)) "" then "" else g (json_media (fr_Arguments (tc_Function t)))) +:+ acc) "" calls.

Lemma said_tools base : forall calls i m, said g (emit_tools base i m calls).2 = said_calls calls.
Proof.
  induction calls as [|tc calls IH]; intros i m; [done|]. cbn [emit_tools].
  specialize (IH (i + 1) (if m <? tool_offset i tc then tool_offset i tc else m)).
  destruct (emit_tools base (i + 1) _ calls) as [m' out]. cbn [snd said_calls foldr] in *. rewrite said_app, IH. f_equal.
  unfold tool_events. rewrite said_app.
  destruct (String.eqb (fr_Name _) ""), (String.eqb (fr_Arguments _) ""); cbn; by rewrite ?str_app_nil_r.
Qed.

Lemma said_tool_calls calls s : said g (cv_out (emit_tool_calls calls s)) = said g (cv_out s) +:+ said_calls calls.
Proof.
  unfold emit_tool_calls. destruct calls as [|tc calls]; [cbn; by rewrite str_app_nil_r|].
  case_bool_decide; cbn zeta; match goal with |- context [emit_tools ?b ?i ?m (tc :: calls)] =>
    pose proof (said_tools b (tc :: calls) i m) as Hs; destruct (emit_tools b i m (tc :: calls)) as [m' out] end;
    cbn [snd] in Hs; cbn [update append_events cv_out]; rewrite said_app, Hs; [by rewrite said_stop_and_advance | done].
Qed.

Definition said_choice (d : StreamDelta) : string :=
  (if String.eqb (GetReasoningContent d) "" then "" else g (thinking_media "thinking_delta" (GetReasoningContent d)))
  +:+ (if String.eqb (GetContentString d) "" then "" else g (text_media "text_delta" (GetContentString d)))
  +:+ said_calls (tool_calls d).

Lemma said_emitChoice choice s : said g (cv_out (emitChoice choice s)) = said g (cv_out s) +:+ said_choice (ch_Delta choice).
Proof.
  unfold emitChoice, said_choice. rewrite said_tool_calls, <- !str_app_assoc. f_equal.
  unfold emit_text, emit_reasoning. destruct (String.eqb (GetContentString _) ""), (String.eqb (GetReasoningContent _) "");
    rewrite ?said_emit_block, ?str_app_nil_r; done.
Qed.

(** The delta of message_delta says nothing. *)
Context (g_stop : forall r, g (stop_media r) = "").

Lemma said_finish reason usage s : said g (cv_out (finish_if reason usage s)) = said g (cv_out s).
Proof.
  unfold finish_if. destruct usage as [u|]; [|done]. unfold finishMessage. set (s1 := if String.eqb reason "" then s else _).
  assert (cv_out s1 = cv_out s) as Eo by (unfold s1; by destruct (String.eqb reason "")).
  cbn. rewrite !said_app, said_stops, Eo. cbn. rewrite ?g_stop, !str_app_nil_r. done.
Qed.

Lemma said_convert c info :
  ci_Done (si_convert info) = false -> said g (StreamResponseOpenAI2Claude c info).2 = of_choice said_choice c.
Proof.
  intros Hd. unfold StreamResponseOpenAI2Claude. rewrite Hd. fold (typed_info info).
  set (s := emit_message_start c (mkConv (typed_info info) [])).
  assert (said g (cv_out s) = "") as Es by (unfold s, emit_message_start; by destruct (ci_MessageStarted _)).
  cbn [snd]. unfold convert_body, of_choice. destruct (sr_Choices c) as [|ch chs]; [by rewrite said_finish|].
  destruct (finish_reason ch); [rewrite said_finish; cbn [cv_out]|]; by rewrite said_emitChoice, Es.
Qed.
End Reading.

(** When the message ends. *)
Lemma convert_done c info :
  ci_Usage (si_convert (StreamResponseOpenAI2Claude c info).1) = ci_Usage (si_convert info)
  /\ ci_Done (si_convert (StreamResponseOpenAI2Claude c info).1) =
       ci_Done (si_convert info) || (closes c && (if sr_Usage c then true else if ci_Usage (si_convert info) then true else false)).
Proof.
  unfold StreamResponseOpenAI2Claude. destruct (ci_Done (si_convert info)) eqn:Ed; [done|]. fold (typed_info info).
  set (s := emit_message_start c (mkConv (typed_info info) [])).
  assert (ci_Usage (conv s) = ci_Usage (si_convert info) /\ ci_Done (conv s) = false) as [Eu Edn].
  { unfold s, emit_message_start, typed_info, conv. destruct info as [[] ? ?]. cbn in *.
    case_bool_decide; cbn; destruct ci_MessageStarted; done. }
  assert (forall reason s', ci_Usage (conv s') = ci_Usage (si_convert info) -> ci_Done (conv s') = false ->
            ci_Usage (conv (finish_if reason (known_usage c s') s')) = ci_Usage (si_convert info)
            /\ ci_Done (conv (finish_if reason (known_usage c s') s'))
               = (if sr_Usage c then true else if ci_Usage (si_convert info) then true else false)) as Hfin.
  { intros reason s' Hu Hdn. unfold known_usage. rewrite Hu. destruct (sr_Usage c), (ci_Usage (si_convert info)); cbn; try done;
      unfold finishMessage; by destruct (String.eqb reason ""). }
  cbn [fst]. unfold convert_body, closes. destruct (sr_Choices c) as [|ch chs].
  - exact (Hfin "" s Eu Edn).
  - assert (ci_Usage (conv (emitChoice ch s)) = ci_Usage (si_convert info)) as Eu1 by (by rewrite emitChoice_usage).
    assert (ci_Done (conv (emitChoice ch s)) = false) as Ed1 by (rewrite (emitChoice_frame ci_Done); done).
    destruct (finish_reason ch) as [r|]; [|done].
    exact (Hfin r (mkConv (with_finish_reason r (cv_info (emitChoice ch s))) (cv_out (emitChoice ch s))) Eu1 Ed1).
Qed.

(** ** The stream *)

Lemma concat_text_ext f1 f2 cs : (forall c, f1 c = f2 c) -> concat_text f1 cs = concat_text f2 cs.
Proof. intros Hf. unfold concat_text. induction cs as [|c cs IH]; [done|]. cbn. by rewrite Hf, IH. Qed.

(** The items, and the last one under the usage of the request. *)
Lemma stream_said g c u : (forall r, g (stop_media r) = "") -> forall cs i,
  let '(i', o) := claude_chunks i cs in
  said g (o ++ (StreamResponseOpenAI2Claude c (on_convert (with_usage u) i')).2)
  = if ci_Done (si_convert i) then "" else concat_text (of_choice (said_choice g)) (heard (seen_usage i) (cs ++ [c])).
Proof.
  intros Hg. induction cs as [|c0 cs IH]; intros i.
  - cbn [claude_chunks foldl app]. destruct (ci_Done (si_convert i)) eqn:Ed.
    + unfold StreamResponseOpenAI2Claude.
      change (ci_Done (si_convert (on_convert (with_usage u) i))) with (ci_Done (si_convert i)). by rewrite Ed.
    + change ((i, []).2) with (@nil ClaudeResponse). cbn [app]. rewrite said_convert by done. cbn.
      by destruct (closes c && _); cbn; rewrite str_app_nil_r.
  - rewrite claude_chunks_cons. unfold claude_chunk.
    destruct (convert_done c0 (record_usage (sr_Usage c0) i)) as [Hu Hd]. rewrite record_usage_done in Hd.
    pose proof (said_convert g Hg c0 (record_usage (sr_Usage c0) i)) as Hs. rewrite record_usage_done in Hs.
    destruct (StreamResponseOpenAI2Claude c0 (record_usage (sr_Usage c0) i)) as [i1 o1] eqn:E1. cbn [fst snd] in *.
    specialize (IH i1). destruct (claude_chunks i1 cs) as [i2 o2]. rewrite <- app_assoc, said_app, IH, Hd.
    assert (seen_usage i1 = seen_usage i || (if sr_Usage c0 then true else false)) as Hseen.
    { unfold seen_usage. rewrite Hu. unfold record_usage. destruct (sr_Usage c0); cbn; by destruct (ci_Usage (si_convert i)). }
    destruct (ci_Done (si_convert i)) eqn:Ed.
    { unfold StreamResponseOpenAI2Claude in E1. rewrite record_usage_done, Ed in E1. by simplify_eq. }
    rewrite Hs by done. cbn [app heard orb]. rewrite <- Hseen. unfold seen_usage at 2 in Hseen.
    replace (if sr_Usage c0 then true else if ci_Usage (si_convert (record_usage (sr_Usage c0) i)) then true else false)
      with (seen_usage i1) by (rewrite Hseen; unfold record_usage; destruct (sr_Usage c0); cbn; by destruct (ci_Usage (si_convert i))).
    by destruct (closes c0 && seen_usage i1).
Qed.

Lemma reading_choice d :
  said_choice visible_text d = GetContentString d /\ said_choice thinking_text d = GetReasoningContent d
  /\ said_choice argument_text d = arguments_of d.
Proof.
  unfold said_choice. assert (forall g calls, (forall x, g (json_media x) = "") -> said_calls g calls = "") as H0.
  { intros g calls Hg. unfold said_calls. induction calls as [|t calls IH]; [done|]. cbn. rewrite Hg, IH. by destruct (String.eqb (fr_Arguments _) ""). }
  rewrite !H0 by done. cbn [visible_text thinking_text argument_text thinking_media text_media mm_Text mm_Thinking mm_PartialJson default].
  split_and!.
  - destruct (String.eqb_spec (GetContentString d) "") as [->|]; destruct (String.eqb _ ""); cbn; by rewrite ?str_app_nil_r.
  - destruct (String.eqb_spec (GetReasoningContent d) "") as [->|]; destruct (String.eqb _ ""); cbn; by rewrite ?str_app_nil_r.
  - replace (said_calls argument_text (tool_calls d)) with (arguments_of d).
    + by destruct (String.eqb (GetReasoningContent d) ""), (String.eqb (GetContentString d) "").
    + unfold arguments_of, said_calls. induction (tool_calls d) as [|t calls IH]; [done|]. cbn [foldr]. rewrite IH.
      by destruct (String.eqb_spec (fr_Arguments (tc_Function t)) "") as [->|].
Qed.

Lemma reading_chunk c :
  of_choice (said_choice visible_text) c = of_choice GetContentString c
  /\ of_choice (said_choice thinking_text) c = of_choice GetReasoningContent c
  /\ of_choice (said_choice argument_text) c = of_choice arguments_of c.
Proof. unfold of_choice. destruct (sr_Choices c); [done | apply reading_choice]. Qed.

Section Content.
Context `{Decoders} (cfg : StreamConfig).

(** C27. Nothing the upstream says is lost, repeated or reordered on its way
    to a Claude client, for a stream of at least one item whose items all
    decode: the visible text, the reasoning and the tool arguments carried by
    the events of a relayed stream are the concatenation of those of the
    chunks, from the first to the one that ends the message, whether an item is
    passed on in the loop or held back and handled at the end. *)
Theorem nothing_is_lost s estimate lines cs c :
  rc_RelayFormat cfg = RelayFormatClaude -> st_info s = new_stream_info estimate -> decodes (scan_body lines) (cs ++ [c]) ->
  let events := claude_events (OaiStreamHandler cfg s (scan_body lines)).2 in
  let chunks := heard false (cs ++ [c]) in
  said visible_text events = concat_text (of_choice GetContentString) chunks
  /\ said thinking_text events = concat_text (of_choice GetReasoningContent) chunks
  /\ said argument_text events = concat_text (of_choice arguments_of) chunks.
Proof.
  intros Hf Hi Hd. pose proof (claude_stream_events cfg s lines cs c Hf Hd) as He. cbn zeta.
  destruct (OaiStreamHandler cfg s (scan_body lines)) as [[u s'] out]. cbn [snd]. rewrite Hi in He.
  pose proof (fun g Hg => stream_said g c (Some u) Hg cs (new_stream_info estimate)) as Hs.
  destruct (claude_chunks (new_stream_info estimate) cs) as [i o]. rewrite He. cbn [new_stream_info si_convert ci_Done] in Hs.
  change (seen_usage _) with false in Hs. rewrite !Hs by done. split_and!; apply concat_text_ext; intros c'; apply reading_chunk.
Qed.
End Content.

Section Plain.
Context `{Decoders} (cfg : StreamConfig).

(** ** An OpenAI client *)






(** ** Counting *)

(** The two ways of counting agree: when the items of a stream decode, the
    builders hold the same text, reasoning and number of tool calls whether the
    items are decoded together as one array or one by one. *)
Theorem counting_together_or_apart streamResp items cs ct :
  decodes items cs -> decode_chunks streamResp = Some cs ->
  processChatCompletions streamResp items ct = process_each items ct.
Proof.
  intros Hd Hj. unfold processChatCompletions. rewrite Hj. clear Hj. revert ct.
  induction Hd as [|d c items cs Hc _ IH]; intros ct; [done|]. cbn. rewrite Hc. apply IH.
Qed.
End Plain.

(** ** The tags of [ThinkingToContent] *)

Fixpoint think_run (t : ThinkingContentInfo) (cs : list ChatCompletionsStreamResponse) : ThinkingContentInfo * list (list Sent) :=
  match cs with
  | [] => (t, [])
  | c :: cs' => let '(t1, o) := think_to_content c t in let '(t2, os) := think_run t1 cs' in (t2, o :: os)
  end.

(** The output with a closing tag is the one of two objects. *)
Definition closes_thinking (o : list Sent) : bool := match o with [_; _] => true | _ => false end.

Definition count_if {A} (f : A -> bool) (l : list A) : nat := length (List.filter f l).

(** The closing tag is sent as long as it is due, and once. *)
Lemma think_closes_once cs : forall t,
  let '(t', os) := think_run t cs in
  (count_if closes_thinking os <= (if tk_SendLastThinkingContent t then 0 else 1))%nat
  /\ (tk_HasSentThinkingContent t' = false -> count_if closes_thinking os = 0%nat /\ tk_HasSentThinkingContent t = false)
  /\ (tk_SendLastThinkingContent t = true -> tk_SendLastThinkingContent t' = true).
Proof.
  induction cs as [|c cs IH]; intros t; cbn [think_run].
  { cbn. split_and!; try done. lia. }
  destruct (think_to_content c t) as [t1 o] eqn:E. specialize (IH t1). destruct (think_run t1 cs) as [t2 os]. destruct IH as (I1 & I2 & I3).
  unfold think_to_content in E. unfold count_if in *. cbn [List.filter].
  destruct (tk_IsFirstThinkingContent t && existsb has_reasoning (sr_Choices c)).
  { simplify_eq. cbn in *. split_and!; try done. intros Hh. by destruct (I2 Hh). }
  destruct (sr_Choices c) as [|ch chs]; [by simplify_eq|].
  destruct (existsb has_text (ch :: chs) && negb (tk_SendLastThinkingContent t) && tk_HasSentThinkingContent t) eqn:Ec; simplify_eq; [|done].
  apply andb_true_iff in Ec as [[_ Hsl%negb_true_iff]%andb_true_iff Hs]. rewrite Hsl, Hs in *. cbn in *. split_and!; try done; [lia|].
  intros Hh. by destruct (I2 Hh).
Qed.

(** ** Concrete streams *)

(** Decoding by a table; a body decodes to nothing as a whole. *)
Definition table_decoders (table : list (string * ChatCompletionsStreamResponse)) : Decoders := {|
  decode d := match List.find (fun p => String.eqb p.1 d) table with Some p => Some p.2 | None => None end;
  decode_usage d := None; decode_chunks d := None; decode_completions d := None; decode_completion d := None;
  parse_map d := None; cached_of_body d := None; moonshot_cached d := None; llama_cached d := None;
  EstimateTokenByModel _ text := Z.of_nat (String.length text)
|}.

Lemma decodes_map `{Decoders} items cs : map decode items = map Some cs -> decodes items cs.
Proof.
  revert cs. induction items as [|d items IH]; intros [|c cs] E; try done; [constructor|].
  injection E as E1 E2. constructor; [done | by apply IH].
Qed.

Definition chunk_of (d : StreamDelta) (reason : option string) (u : option WireUsage) : ChatCompletionsStreamResponse :=
  mkChunk "id" 1 "m" None [mkStreamChoice d reason 0] u.
Definition says (t : string) : ChatCompletionsStreamResponse := chunk_of (mkStreamDelta (Some t) None None None) None None.
Definition thinks (t : string) : ChatCompletionsStreamResponse := chunk_of (mkStreamDelta None (Some t) None None) None None.
Definition calls_tool (i : Z) (name args : string) : ChatCompletionsStreamResponse :=
  chunk_of (mkStreamDelta None None None (Some [mkToolCallResponse (Some i) "call" (mkFunctionResponse name args)])) None None.
Definition stops (reason : string) (u : option WireUsage) : ChatCompletionsStreamResponse :=
  chunk_of (mkStreamDelta None None None None) (Some reason) u.
Definition reports (u : WireUsage) : ChatCompletionsStreamResponse := mkChunk "id" 1 "m" None [] (Some u).

Definition config_of (f : RelayFormat) : StreamConfig := mkStreamConfig f RelayModeChatCompletions true 1 "m" false false true.
Definition fresh_stream (estimate : Z) : StreamState := mkStreamState (new_stream_info estimate) (mkThinking true false false) 0.

(** Reasoning, text and two parallel calls, the reason, then the usage. *)
Definition agent_stream : list ChatCompletionsStreamResponse :=
  [thinks "hm"; says "a"; says "b"; calls_tool 0 "ls" ""; calls_tool 0 "" "{}"; calls_tool 1 "cat" "{"; calls_tool 1 "" "}"; stops "tool_calls" None].
Definition agent_usage : WireUsage := plain_usage 7 5 12.

Definition items_of (n : nat) : list string := map (fun k => String (Ascii.ascii_of_nat (97 + k)) "") (seq 0 n).
Definition table_of (cs : list ChatCompletionsStreamResponse) : list (string * ChatCompletionsStreamResponse) :=
  combine (items_of (length cs)) cs.
Definition body_of (cs : list ChatCompletionsStreamResponse) : list string := map framed (items_of (length cs)).

Lemma client_accepts_the_stream_witness :
  let cs := agent_stream ++ [reports agent_usage] in
  let '(_, _, out) := @OaiStreamHandler (table_decoders (table_of cs)) (config_of RelayFormatClaude) (fresh_stream 3) (scan_body (body_of cs)) in
  exists client, receive_all Waiting (claude_events out) = Some client
    /\ (client = Complete <-> message_ends false cs = true).
Proof.
  apply (@client_accepts_the_stream (table_decoders (table_of (agent_stream ++ [reports agent_usage]))) (config_of RelayFormatClaude)
           (fresh_stream 3) 3 (body_of (agent_stream ++ [reports agent_usage])) agent_stream (reports agent_usage) 2).
  - reflexivity.
  - reflexivity.
  - apply decodes_map. vm_compute. reflexivity.
  - vm_compute. reflexivity.
  - vm_compute. reflexivity.
Defined.

Lemma nothing_is_lost_witness :
  let cs := agent_stream ++ [reports agent_usage] in
  let events := claude_events (@OaiStreamHandler (table_decoders (table_of cs)) (config_of RelayFormatClaude) (fresh_stream 3) (scan_body (body_of cs))).2 in
  said visible_text events = "ab" /\ said thinking_text events = "hm" /\ said argument_text events = "{}{}".
Proof.
  apply (@nothing_is_lost (table_decoders (table_of (agent_stream ++ [reports agent_usage]))) (config_of RelayFormatClaude)
           (fresh_stream 3) 3 (body_of (agent_stream ++ [reports agent_usage])) agent_stream (reports agent_usage)).
  - reflexivity.
  - reflexivity.
  - apply decodes_map. vm_compute. reflexivity.
Defined.


Lemma counting_together_or_apart_witness :
  let D := {| decode := @decode (table_decoders (table_of [says "a"; says "b"])); decode_usage d := None;
              decode_chunks d := Some [says "a"; says "b"]; decode_completions d := None; decode_completion d := None;
              parse_map d := None; cached_of_body d := None; moonshot_cached d := None; llama_cached d := None;
              EstimateTokenByModel _ _ := 0 |} in
  @processChatCompletions D "[a,b]" ["a"; "b"] (mkCounted "" "" 0) = @process_each D ["a"; "b"] (mkCounted "" "" 0).
Proof.
  intros D. apply (@counting_together_or_apart D "[a,b]" ["a"; "b"] [says "a"; says "b"]).
  - apply decodes_map. vm_compute. reflexivity.
  - reflexivity.
Defined.

(** ** Where the guarantees end *)

(** The events a Claude client receives of these chunks. *)
Definition events_of (cs : list ChatCompletionsStreamResponse) : list ClaudeResponse :=
  claude_events (@OaiStreamHandler (table_decoders (table_of cs)) (config_of RelayFormatClaude) (fresh_stream 3) (scan_body (body_of cs))).2.
Definition billed_of (cs : list ChatCompletionsStreamResponse) : WireUsage :=
  (@OaiStreamHandler (table_decoders (table_of cs)) (config_of RelayFormatClaude) (fresh_stream 3) (scan_body (body_of cs))).1.1.

(** The finish reason comes with the usage, as some upstreams send it, and the
    client did not ask for usage: it never sees why the answer ended. *)
Example final_reason_is_dropped :
  let cs := [calls_tool 0 "ls" "{}"; stops "tool_calls" (Some agent_usage)] in
  (@OaiStreamHandler (table_decoders (table_of cs)) (mkStreamConfig RelayFormatOpenAI RelayModeChatCompletions true 1 "m" false false false)
     (fresh_stream 3) (scan_body (body_of cs))).2 = [SentData "a"; SentDone].
Proof. vm_compute. reflexivity. Qed.

(** An upstream that breaks off: the final pass does not close the message, so that
    the client is left with an open block. *)
Example cut_stream_is_not_closed : receive_all Waiting (events_of [says "a"; says "b"]) = Some (Receiving [(0, "text")] 1).
Proof. vm_compute. reflexivity. Qed.

(** Tool calls numbered through the message, as OpenAI does: after some text the
    second run starts at number 1, and a block that was never opened is closed. *)
Example calls_after_text_break_stream :
  receive_all Waiting (events_of [calls_tool 0 "ls" "{}"; says "x"; calls_tool 1 "cat" "{}"; stops "tool_calls" None; reports agent_usage]) = None.
Proof. vm_compute. reflexivity. Qed.

(** An upstream that reports usage from the start and sends a chunk without choices
    in between: the message ends there and the rest is dropped. *)
Example keepalive_ends_message :
  said visible_text (events_of [chunk_of (mkStreamDelta (Some "a") None None None) None (Some agent_usage); mkChunk "id" 1 "m" None [] None;
                                says "b"; stops "stop" None]) = "a".
Proof. vm_compute. reflexivity. Qed.

(** A usage that is not in the last item: the client is told 7 and 5, the request is
    billed for the estimate. *)
Example usage_before_last_is_ignored :
  let cs := [says "a"; stops "stop" (Some agent_usage); says ""] in
  omap cr_Usage (events_of cs) = [mkClaudeUsage 7 5 0 0 None] /\ wu_usage (billed_of cs) = wu_usage (plain_usage 3 1 4).
Proof. vm_compute. done. Qed.

(** One number chosen by the upstream decides how many events are sent. *)
Lemma events_follow_the_number n u e :
  0 <= n -> n < max_i64 ->
  let i := (StreamResponseOpenAI2Claude (calls_tool n "ls" "{}") (new_stream_info e)).1 in
  length (StreamResponseOpenAI2Claude (reports u) i).2 = Z.to_nat (n + 3).
Proof.
  intros Hn Hm.
  assert ((StreamResponseOpenAI2Claude (calls_tool n "ls" "{}") (new_stream_info e)).1
          = mkStreamInfo (mkConvertInfo LastMessageTypeTools (i64_add 0 n) true None false 0 n) "" e) as E.
  { cbv -[i64_add Z.ltb].
    destruct (Z.ltb_spec n 0); [lia|]. destruct (Z.ltb_spec 0 n); [done|]. by replace n with 0 by lia. }
  rewrite E. cbn zeta. clear E. cbv -[i64_add i64_sub Z.ltb seqZ Z.add Z.to_nat length app map].
  rewrite !length_app, length_map, length_seqZ. cbn [length]. lia.
Qed.

(** A Gemini client: the fragments of one call become several calls. *)
Example streamed_call_is_split :
  map (fun c => gd_Content <$> (gr_Candidates <$> StreamResponseOpenAI2Gemini (fun _ => None) c 3) ≫= head)
    [calls_tool 0 "ls" "{"; calls_tool 0 "" "}"]
  = [Some (mkGeminiContent "model" [call_part "ls" (JObject [("arguments", JString "{")])]);
     Some (mkGeminiContent "model" [call_part "" (JObject [("arguments", JString "}")])])].
Proof. vm_compute. reflexivity. Qed.

(** An empty list of calls hides the text of its delta. *)
Example empty_calls_hide_text :
  gr_Candidates <$> StreamResponseOpenAI2Gemini (fun _ => None) (chunk_of (mkStreamDelta (Some "hi") None None (Some [])) None None) 3
  = Some [mkCandidate (mkGeminiContent "model" []) None 0].
Proof. vm_compute. reflexivity. Qed.
