(* ===== verification/ChatConvert.v ===== *)
(** * Requests and answers between the three protocols

    src/service/convert.go: a Claude request as a chat completion
    ([ClaudeToOpenAIRequest]), a Gemini request as one
    ([GeminiToOpenAIRequest]), and a complete chat completion as a Claude message
    ([ResponseOpenAI2Claude]).  Encoding and decoding JSON, with [Any2Type], is the
    class [JsonOps].  A conversion returns a value, an error, or panics. *)

From stdpp Require Import base numbers list strings option.
From Stdlib Require Import ZArith QArith Qround Lia.
From S2P Require Import Prelude GoInt GoString GoText TextPrice ClaudeStream GeminiStream StreamRelay.

Local Open Scope string_scope.
Local Open Scope list_scope.
Local Open Scope Z_scope.

(** ** Outcomes *)

Inductive converted (A : Type) := Value (a : A) | Failed (e : string) | Panics.
Arguments Value {A} a.
Arguments Failed {A} e.
Arguments Panics {A}.

#[export] Instance converted_bind : MBind converted := fun A B f m =>
  match m with Value a => f a | Failed e => Failed e | Panics => Panics end.

(** ** Requests *)

Record ClaudeTool := mkClaudeTool { ct_Name : string; ct_Description : string; ct_InputSchema : Json }.

Record ClaudeToolChoice := mkClaudeToolChoice { cc_Type : string; cc_Name : string; cc_DisableParallelToolUse : bool }.

Record ClaudeThinking := mkClaudeThinking { th_Type : string; th_BudgetTokens : option Z }.

Record ClaudeMessage := mkClaudeMessage { cm_Role : string; cm_Content : Json }.  (* JNull is nil *)

Record ClaudeRequest := mkClaudeRequest {
  cq_Model : string; cq_System : Json; cq_Messages : list ClaudeMessage; cq_MaxTokens : option Z;
  cq_StopSequences : list string; cq_Temperature : option Q; cq_TopP : option Q; cq_TopK : option Z; cq_Stream : option bool;
  cq_Tools : Json; cq_OutputConfig : string; cq_ToolChoice : Json; cq_Thinking : option ClaudeThinking
}.

Inductive StopSetting := StopUnset | StopOne (s : string) | StopMany (l : list string).
Inductive ToolChoiceSetting := ChoiceUnset | ChoiceWord (s : string) | ChoiceFunction (name : string).

Record GeneralOpenAIRequest := mkOpenAIRequest {
  oq_Model : string; oq_Messages : list ChatMessage; oq_Stream : option bool; oq_MaxTokens : option Z;
  oq_Temperature : option Q; oq_TopP : option Q; oq_TopK : option Z; oq_N : option Z; oq_Stop : StopSetting;
  oq_Tools : list ToolCallRequest; oq_ToolChoice : ToolChoiceSetting; oq_ParallelTooCalls : option bool;
  oq_Verbosity : option string; oq_Reasoning : option string
}.

(** What the conversion reads of [RelayInfo]. *)
Record ConvertInfo := mkConvertContext {
  cx_ChannelType : Z; cx_OriginModelName : string; cx_UpstreamModelName : string; cx_IsStream : bool
}.

Record GeminiRequest := mkGeminiRequest {
  gq_Contents : list GeminiChatContent; gq_Temperature : option Q; gq_TopP : option Q; gq_TopK : option Q;
  gq_MaxOutputTokens : option Z; gq_CandidateCount : option Z;
  gq_StopSequences : list string; gq_StopCapacity : nat;     (* the slice and cap(StopSequences) *)
  gq_Tools : list (option Json);                             (* GetTools(): FunctionDeclarations of each *)
  gq_SystemInstructions : option GeminiChatContent
}.

(** [encoding/json] and [fmt]: [as_*] decode a value into a type, [None] is an error. *)
Class JsonOps := {
  as_media : Json -> option (list ClaudeMediaMessage);
  as_tools : Json -> option (list ClaudeTool);
  as_tool_choice : Json -> option ClaudeToolChoice;
  as_functions : Json -> option (list FunctionRequest);
  as_map : string -> option Json;
  marshal : Json -> string;
  remarshal_media : Json -> string;                          (* ParseMediaContent, then Marshal *)
  marshal_reasoning : bool -> Z -> string;
  effort_of : string -> option string;                       (* the effort of output_config *)
  sprint : Json -> string                                    (* fmt's %s *)
}.

(** A string decodes into a string, null into the empty one. *)
Definition as_string (j : Json) : option string :=
  match j with JString s => Some s | JNull => Some "" | _ => None end.

Definition chat_message (role : string) (c : Content) : ChatMessage := mkChatMessage role c None None None [] "".

(** [len(m.ParseContent()) > 0] for the contents the conversions set: none, a
    string, or a slice of media. *)
Definition has_parsed (c : Content) : bool :=
  match c with
  | ContentNil => false
  | ContentJson (JString _) => true
  | ContentJson _ => false
  | ContentMedia l => match l with [] => false | _ => true end
  end.

Section Convert.
Context `{JsonOps}.

(** ** Claude requests *)

Definition parseClaudeToolChoice (value : Json) : converted ClaudeToolChoice :=
  let object := as_tool_choice value in
  let by_type := match object with Some c => negb (String.eqb (cc_Type c) "") | None => false end in
  match by_type, object with
  | true, Some c => Value c
  | _, _ =>
      let fallback := match object with Some c => Value c | None => Failed "tool_choice" end in
      match as_string value with
      | Some shorthand =>
          if str_in shorthand ["auto"; "any"; "none"] then Value (mkClaudeToolChoice shorthand "" false)
          else if String.eqb shorthand "required" then Value (mkClaudeToolChoice "any" "" false)
          else fallback
      | None => fallback
      end
  end.

Definition tool_choice_setting (c : ClaudeToolChoice) : ToolChoiceSetting :=
  if String.eqb (cc_Type c) "auto" then ChoiceWord "auto"
  else if String.eqb (cc_Type c) "any" then ChoiceWord "required"
  else if String.eqb (cc_Type c) "none" then ChoiceWord "none"
  else if String.eqb (cc_Type c) "tool" then ChoiceFunction (cc_Name c)
  else ChoiceUnset.

Definition convert_tool_choice (value : Json) : converted (ToolChoiceSetting * option bool) :=
  match value with
  | JNull => Value (ChoiceUnset, None)
  | _ =>
      c ← parseClaudeToolChoice value;
      Value (tool_choice_setting c,
             if negb (String.eqb (cc_Type c) "") && negb (String.eqb (cc_Type c) "none")
             then Some (negb (cc_DisableParallelToolUse c)) else None)
  end.

Definition convert_tools (tools : Json) : list ToolCallRequest :=
  map (fun t => mkToolCallRequest "" "function" (mkFunctionRequest (ct_Description t) (ct_Name t) (Some (ct_InputSchema t)) ""))
    (default [] (as_tools tools)).

Definition convert_stop (l : list string) : StopSetting :=
  match l with [] => StopUnset | [s] => StopOne s | _ => StopMany l end.

Definition SearchToolNameByToolCallId (messages : list ClaudeMessage) (id : string) : string :=
  match List.find (fun p => String.eqb (mm_Id p) id) (concat (map (fun m => default [] (as_media (cm_Content m))) messages)) with
  | Some p => mm_Name p
  | None => ""
  end.

Definition media_text (p : ClaudeMediaMessage) : string := default "" (mm_Text p).

Definition text_content (p : ClaudeMediaMessage) : MediaContent := mkMediaContent "text" (media_text p) None (mm_CacheControl p).

Definition convert_system (isOpenRouter : bool) (upstream : string) (system : Json) : list ChatMessage :=
  let parsed :=
    match default [] (as_media system) with
    | [] => []
    | systems =>
        if isOpenRouter && HasPrefix upstream "anthropic/claude" then
          [chat_message "system" (ContentMedia (map text_content systems))]
        else [chat_message "system" (ContentJson (JString (foldl (fun acc p => acc +:+ media_text p) "" systems)))]
    end in
  match system with
  | JNull => []
  | JString s => if negb (String.eqb s "") then [chat_message "system" (ContentJson (JString s))] else parsed
  | _ => parsed
  end.

(** What a message collects while its parts are read: the messages already
    appended, its calls, its media and its reasoning. *)
Record Parts := mkParts {
  pr_messages : list ChatMessage; pr_calls : list ToolCallRequest; pr_media : list MediaContent; pr_reasoning : string
}.

Definition tool_result_message (messages : list ClaudeMessage) (p : ClaudeMediaMessage) : ChatMessage :=
  let toolName := if String.eqb (mm_Name p) "" then SearchToolNameByToolCallId messages (mm_ToolUseId p) else mm_Name p in
  let text := match mm_Content p with
              | Some (JString s) => s
              | c => remarshal_media (default JNull c)
              end in
  mkChatMessage "tool" (ContentJson (JString text)) (Some toolName) None None [] (mm_ToolUseId p).

Definition tool_use_call (p : ClaudeMediaMessage) : ToolCallRequest :=
  mkToolCallRequest (mm_Id p) "function" (mkFunctionRequest "" (mm_Name p) None (marshal (default JNull (mm_Input p)))).

Definition convert_part (messages : list ClaudeMessage) (acc : Parts) (p : ClaudeMediaMessage) : converted Parts :=
  if str_in (mm_Type p) ["text"; "input_text"] then
    Value (mkParts (pr_messages acc) (pr_calls acc) (pr_media acc ++ [text_content p]) (pr_reasoning acc))
  else if String.eqb (mm_Type p) "image" then
    match mm_Source p with
    | None => Panics
    | Some src =>
        let imageData := "data:" +:+ so_MediaType src +:+ ";base64," +:+ sprint (so_Data src) in
        Value (mkParts (pr_messages acc) (pr_calls acc)
                 (pr_media acc ++ [mkMediaContent "image_url" "" (Some (mkImageUrl imageData "" "")) None]) (pr_reasoning acc))
    end
  else if String.eqb (mm_Type p) "tool_use" then
    Value (mkParts (pr_messages acc) (pr_calls acc ++ [tool_use_call p]) (pr_media acc) (pr_reasoning acc))
  else if String.eqb (mm_Type p) "thinking" then
    Value (mkParts (pr_messages acc) (pr_calls acc) (pr_media acc) (pr_reasoning acc +:+ default "" (mm_Thinking p)))
  else if String.eqb (mm_Type p) "tool_result" then
    Value (mkParts (pr_messages acc ++ [tool_result_message messages p]) (pr_calls acc) (pr_media acc) (pr_reasoning acc))
  else Value acc.

Fixpoint convert_parts (messages : list ClaudeMessage) (acc : Parts) (parts : list ClaudeMediaMessage) : converted Parts :=
  match parts with
  | [] => Value acc
  | p :: parts' => acc' ← convert_part messages acc p; convert_parts messages acc' parts'
  end.

(** A message is kept when it has content, calls or reasoning. *)
Definition keep_message (m : ChatMessage) : list ChatMessage :=
  if has_parsed (ms_Content m) || negb (bool_decide (length (ms_ToolCalls m) = 0%nat)) || negb (String.eqb (message_reasoning m) "")
  then [m] else [].

Definition convert_message (messages : list ClaudeMessage) (out : list ChatMessage) (m : ClaudeMessage) : converted (list ChatMessage) :=
  match cm_Content m with
  | JString s => Value (out ++ keep_message (chat_message (cm_Role m) (ContentJson (JString s))))
  | content =>
      match as_media content with
      | None => Failed "content"
      | Some parts =>
          acc ← convert_parts messages (mkParts out [] [] "") parts;
          let body := mkChatMessage (cm_Role m) (match pr_media acc with [] => ContentNil | l => ContentMedia l end) None
                        (if String.eqb (pr_reasoning acc) "" then None else Some (pr_reasoning acc)) None (pr_calls acc) "" in
          Value (pr_messages acc ++ keep_message body)
      end
  end.

Fixpoint convert_messages (messages : list ClaudeMessage) (out : list ChatMessage) (l : list ClaudeMessage) : converted (list ChatMessage) :=
  match l with
  | [] => Value out
  | m :: l' => out' ← convert_message messages out m; convert_messages messages out' l'
  end.

Definition thinkingSuffix := "-thinking".

Definition convert_model (isOpenRouter : bool) (info : ConvertInfo) (model : string) : string :=
  if negb isOpenRouter && HasSuffix (cx_OriginModelName info) thinkingSuffix && negb (HasSuffix model thinkingSuffix)
  then model +:+ thinkingSuffix else model.

Definition convert_reasoning (t : ClaudeThinking) : string :=
  if String.eqb (th_Type t) "enabled" then marshal_reasoning true (default 0 (th_BudgetTokens t))
  else if String.eqb (th_Type t) "adaptive" then marshal_reasoning true 0
  else marshal_reasoning false 0.

Definition convert_effort (c : ClaudeRequest) : option string :=
  let effort := default "" (effort_of (cq_OutputConfig c)) in
  if String.eqb effort "" then None else Some (marshal (JString effort)).

Definition ClaudeToOpenAIRequest (c : ClaudeRequest) (info : ConvertInfo) : converted GeneralOpenAIRequest :=
  let isOpenRouter := cx_ChannelType info =? TypeOpenRouter in
  choice ← convert_tool_choice (cq_ToolChoice c);
  messages ← convert_messages (cq_Messages c) (convert_system isOpenRouter (cx_UpstreamModelName info) (cq_System c)) (cq_Messages c);
  Value (mkOpenAIRequest (convert_model isOpenRouter info (cq_Model c)) messages (cq_Stream c) (cq_MaxTokens c) (cq_Temperature c)
           (cq_TopP c) (cq_TopK c) None (convert_stop (cq_StopSequences c)) (convert_tools (cq_Tools c)) choice.1 choice.2
           (if isOpenRouter then convert_effort c else None)
           (if isOpenRouter then convert_reasoning <$> cq_Thinking c else None)).

(** ** Answers for Claude *)

Definition answer_call (t : ToolCallRequest) : ClaudeMediaMessage :=
  let arguments := fq_Arguments (tq_Function t) in
  tool_media (tq_ID t) (fq_Name (tq_Function t)) (match as_map arguments with Some m => m | None => JString arguments end).

Definition answer_choice (choice : OpenAITextResponseChoice) : list ClaudeMediaMessage :=
  let m := tx_Message choice in
  let reasoning := message_reasoning m in
  let textContent := StringContent m in
  (if String.eqb reasoning "" then [] else [thinking_media "thinking" reasoning])
  ++ (if String.eqb textContent "" then [] else [text_media "text" textContent])
  ++ (if String.eqb (tx_FinishReason choice) "tool_calls" then map answer_call (ms_ToolCalls m)
      else if String.eqb textContent "" && String.eqb reasoning "" then [text_media "text" ""] else []).

Definition ResponseOpenAI2Claude (r : OpenAITextResponse) : ClaudeResponse :=
  let contents := concat (map answer_choice (tr_Choices r)) in
  let stopReason := foldl (fun _ choice => stopReasonOpenAI2Claude (tx_FinishReason choice)) "" (tr_Choices r) in
  mkClaudeResponse "message" None None None None (buildClaudeUsageFromOpenAIUsage (Some (tr_Usage r)))
    (tr_Id r) "assistant" (tr_Model r) stopReason contents.

(** ** Gemini requests *)

Definition convertGeminiRoleToOpenAI (geminiRole : string) : string :=
  if String.eqb geminiRole "user" then "user"
  else if String.eqb geminiRole "model" then "assistant"
  else if String.eqb geminiRole "function" then "function"
  else "user".

Definition extractTextFromGeminiParts (parts : list GeminiPart) : string :=
  Join (List.filter (fun s => negb (String.eqb s "")) (map gp_Text parts)) (bytes [10%nat]).

Definition call_id (n : nat) : string := "call_" +:+ Itoa (Z.of_nat n).

Definition gemini_image (url mime : string) : MediaContent := mkMediaContent "image_url" "" (Some (mkImageUrl url "auto" mime)) None.

(** The first of the fields of a part that is set decides. *)
Definition gemini_part (acc : Parts) (p : GeminiPart) : Parts :=
  let add_media c := mkParts (pr_messages acc) (pr_calls acc) (pr_media acc ++ [c]) (pr_reasoning acc) in
  if negb (String.eqb (gp_Text p) "") then add_media (mkMediaContent "text" (gp_Text p) None None)
  else match gp_InlineData p, gp_FileData p, gp_FunctionCall p, gp_FunctionResponse p with
       | Some d, _, _, _ => add_media (gemini_image ("data:" +:+ in_MimeType d +:+ ";base64," +:+ in_Data d) (in_MimeType d))
       | None, Some f, _, _ => add_media (gemini_image (fd_FileUri f) (fd_MimeType f))
       | None, None, Some c, _ =>
           let call := mkToolCallRequest (call_id (length (pr_calls acc) + 1)) "function"
                         (mkFunctionRequest "" (fc_FunctionName c) None (marshal (fc_Arguments c))) in
           mkParts (pr_messages acc) (pr_calls acc ++ [call]) (pr_media acc) (pr_reasoning acc)
       | None, None, None, Some r =>
           let m := mkChatMessage "tool" (ContentJson (JString (marshal (fx_Response r)))) None None None []
                      (call_id (length (pr_calls acc))) in
           mkParts (pr_messages acc ++ [m]) (pr_calls acc) (pr_media acc) (pr_reasoning acc)
       | None, None, None, None => acc
       end.

Definition gemini_content (out : list ChatMessage) (c : GeminiChatContent) : list ChatMessage :=
  let acc := foldl gemini_part (mkParts out [] [] "") (gc_Parts c) in
  let role := convertGeminiRoleToOpenAI (gc_Role c) in
  let body :=
    match pr_calls acc, pr_media acc with
    | _ :: _, _ => mkChatMessage role ContentNil None None None (pr_calls acc) ""
    | [], [m] => if String.eqb (mc_Type m) "text" then chat_message role (ContentJson (JString (mc_Text m)))
                 else chat_message role (ContentMedia [m])
    | [], [] => chat_message role ContentNil
    | [], l => chat_message role (ContentMedia l)
    end in
  pr_messages acc ++
  (if has_parsed (ms_Content body) || negb (bool_decide (length (ms_ToolCalls body) = 0%nat)) then [body] else []).

(** [StopSequences[:4]] of a non-empty slice: legal up to the capacity, the
    elements beyond the length are zero values. *)
Definition first_four (l : list string) (capacity : nat) : converted StopSetting :=
  match l with
  | [] => Value StopUnset
  | _ => if (capacity <? 4)%nat then Panics else Value (StopMany (firstn 4 (l ++ repeat "" 4)))
  end.

Definition positive_Q (q : option Q) : option Q :=
  match q with Some x => if Qle_bool x 0 then None else Some x | None => None end.
Definition positive_Z (z : option Z) : option Z :=
  match z with Some x => if 0 <? x then Some x else None | None => None end.

Definition gemini_tools (tools : list (option Json)) : list ToolCallRequest :=
  concat (map (fun declarations =>
    match declarations with
    | Some j =>
        map (fun f => mkToolCallRequest "" "function" (mkFunctionRequest (fq_Description f) (fq_Name f) (fq_Parameters f) ""))
          (default [] (as_functions j))
    | None => []
    end) tools).

Definition GeminiToOpenAIRequest (g : GeminiRequest) (info : ConvertInfo) : converted GeneralOpenAIRequest :=
  let messages := foldl gemini_content [] (gq_Contents g) in
  stop ← first_four (gq_StopSequences g) (gq_StopCapacity g);
  let system := match gq_SystemInstructions g with
                | Some s => [chat_message "system" (ContentJson (JString (extractTextFromGeminiParts (gc_Parts s))))]
                | None => []
                end in
  Value (mkOpenAIRequest (cx_UpstreamModelName info) (system ++ messages) (Some (cx_IsStream info)) (positive_Z (gq_MaxOutputTokens g))
           (gq_Temperature g) (positive_Q (gq_TopP g)) (Qfloor <$> positive_Q (gq_TopK g)) (positive_Z (gq_CandidateCount g)) stop
           (gemini_tools (gq_Tools g)) ChoiceUnset None None None).

End Convert.
