(* ===== verification/ConvertSafety.v ===== *)
(** * What the conversions of requests and answers guarantee

    The loop over the parts of a Claude message against a description of what
    it keeps; tool results follow the calls they answer; what the Gemini
    conversion does with tool results and stop sequences. *)

From stdpp Require Import base numbers list strings option pretty.
From Stdlib Require Import ZArith QArith Qround Lia.
From S2P Require Import Prelude GoInt GoString GoText TextPrice ClaudeStream GeminiStream StreamRelay ChatConvert.

Local Open Scope string_scope.
Local Open Scope list_scope.
Local Open Scope Z_scope.

Section Claude.
Context `{JsonOps}.

(** ** What a message is made of *)

(** [IsStringContent] *)
Definition string_content (m : ClaudeMessage) : bool := match cm_Content m with JString _ => true | _ => false end.

Definition of_type (ty : string) (p : ClaudeMediaMessage) : bool := String.eqb (mm_Type p) ty.
Definition is_text (p : ClaudeMediaMessage) : bool := str_in (mm_Type p) ["text"; "input_text"].

Definition image_content (src : ClaudeMessageSource) : MediaContent :=
  mkMediaContent "image_url" "" (Some (mkImageUrl ("data:" +:+ so_MediaType src +:+ ";base64," +:+ sprint (so_Data src)) "" "")) None.

Definition part_media (p : ClaudeMediaMessage) : option MediaContent :=
  if is_text p then Some (text_content p)
  else if of_type "image" p then image_content <$> mm_Source p else None.

Definition lacks_source (p : ClaudeMediaMessage) : bool :=
  of_type "image" p && match mm_Source p with None => true | Some _ => false end.

Definition results_of (messages : list ClaudeMessage) (parts : list ClaudeMediaMessage) : list ChatMessage :=
  map (tool_result_message messages) (List.filter (of_type "tool_result") parts).
Definition calls_of (parts : list ClaudeMediaMessage) : list ToolCallRequest := map tool_use_call (List.filter (of_type "tool_use") parts).
Definition reasoning_of (parts : list ClaudeMediaMessage) : string :=
  foldr (fun p acc => (if of_type "thinking" p then default "" (mm_Thinking p) else "") +:+ acc) "" parts.

Definition body_of_parts (role : string) (parts : list ClaudeMediaMessage) : ChatMessage :=
  mkChatMessage role (match omap part_media parts with [] => ContentNil | l => ContentMedia l end) None
    (if String.eqb (reasoning_of parts) "" then None else Some (reasoning_of parts)) None (calls_of parts) "".

(** One part: every type goes to one place. *)
Lemma convert_part_spec messages acc p :
  convert_part messages acc p =
  if lacks_source p then Panics
  else Value (mkParts (pr_messages acc ++ results_of messages [p]) (pr_calls acc ++ calls_of [p])
                (pr_media acc ++ omap part_media [p]) (pr_reasoning acc +:+ reasoning_of [p])).
Proof.
  unfold convert_part, lacks_source, results_of, calls_of, part_media, is_text, reasoning_of, of_type, str_in.
  destruct acc as [ms cl md rs], p as [ty ? ? ? ? ? ? th ? ? ? ? src ? ?]. cbn [pr_messages pr_calls pr_media pr_reasoning mm_Type mm_Source mm_Thinking].
  destruct (decide (ty ∈ ["text"; "input_text"; "image"; "tool_use"; "thinking"; "tool_result"])) as [Hin|Hout].
  - rewrite !elem_of_cons, elem_of_nil in Hin.
    destruct Hin as [->|[->|[->|[->|[->|[->|[]]]]]]]; try destruct src; cbn; rewrite ?app_nil_r, ?str_app_nil_r; done.
  - assert (forall t, t ∈ ["text"; "input_text"; "image"; "tool_use"; "thinking"; "tool_result"] -> String.eqb ty t = false) as Hne.
    { intros t Ht. apply String.eqb_neq. by intros ->. }
    cbn [existsb List.filter omap list_omap foldr map mm_Type mm_Source mm_Thinking].
    rewrite !Hne by (rewrite !elem_of_cons; tauto). cbn. by rewrite !app_nil_r, !str_app_nil_r.
Qed.

Lemma convert_parts_spec messages parts : forall acc,
  convert_parts messages acc parts =
  if existsb lacks_source parts then Panics
  else Value (mkParts (pr_messages acc ++ results_of messages parts) (pr_calls acc ++ calls_of parts)
                (pr_media acc ++ omap part_media parts) (pr_reasoning acc +:+ reasoning_of parts)).
Proof.
  induction parts as [|p parts IH]; intros acc; cbn [convert_parts existsb].
  { destruct acc. cbn. by rewrite !app_nil_r, str_app_nil_r. }
  rewrite convert_part_spec. destruct (lacks_source p); [done|]. cbn [orb mbind converted_bind]. rewrite IH.
  destruct (existsb lacks_source parts); [done|]. cbn [pr_messages pr_calls pr_media pr_reasoning].
  rewrite <- !app_assoc, str_app_assoc. f_equal. f_equal.
  - unfold results_of. cbn [List.filter]. by destruct (of_type "tool_result" p).
  - unfold calls_of. cbn [List.filter]. by destruct (of_type "tool_use" p).
  - cbn. by destruct (part_media p).
  - cbn. by rewrite str_app_nil_r.
Qed.

(** The loop over the parts of a Claude message keeps everything it can
    express: tool results become tool messages of their own, before the message,
    and the message carries its texts and images, its tool calls and its whole
    reasoning, each in the order of the parts; it is left out only when it has
    none of these.  An image without a source is not rejected: the conversion
    panics. *)
Theorem claude_parts_are_kept messages out m parts :
  string_content m = false -> as_media (cm_Content m) = Some parts ->
  convert_message messages out m =
  if existsb lacks_source parts then Panics
  else Value (out ++ results_of messages parts ++ keep_message (body_of_parts (cm_Role m) parts)).
Proof.
  intros Hs Hp. unfold convert_message, string_content in *. destruct (cm_Content m); try done.
  all: rewrite Hp, convert_parts_spec; destruct (existsb lacks_source parts); [done|]; cbn; by rewrite <- app_assoc.
Qed.

(** ** Calls and results *)

(** Every tool message answers a call of an earlier message. *)
Fixpoint answered (ids : list string) (l : list ChatMessage) : bool :=
  match l with
  | [] => true
  | m :: l' => (negb (String.eqb (ms_Role m) "tool") || str_in (ms_ToolCallId m) ids) && answered (ids ++ map tq_ID (ms_ToolCalls m)) l'
  end.

Definition parts_of (m : ClaudeMessage) : list ClaudeMediaMessage :=
  match cm_Content m with JString _ => [] | c => default [] (as_media c) end.

Definition use_ids (parts : list ClaudeMediaMessage) : list string := map mm_Id (List.filter (of_type "tool_use") parts).

(** Every tool result of a Claude conversation answers a call of an earlier message. *)
Fixpoint claude_answered (ids : list string) (l : list ClaudeMessage) : bool :=
  match l with
  | [] => true
  | m :: l' =>
      forallb (fun p => str_in (mm_ToolUseId p) ids) (List.filter (of_type "tool_result") (parts_of m))
      && claude_answered (ids ++ use_ids (parts_of m)) l'
  end.

(** The messages come from users and assistants. *)
Definition no_tool_role (l : list ClaudeMessage) : bool := forallb (fun m => negb (String.eqb (cm_Role m) "tool")) l.

(** The parts of a type, in the order of the conversation. *)
Definition parts_typed (ty : string) (l : list ClaudeMessage) : list ClaudeMediaMessage :=
  concat (map (fun m => List.filter (of_type ty) (parts_of m)) l).

(** A call: its id, the tool and its arguments. *)
Definition called (p : ClaudeMediaMessage) : string * string * string := (mm_Id p, mm_Name p, marshal (default JNull (mm_Input p))).
Definition calls_made (l : list ChatMessage) : list (string * string * string) :=
  concat (map (fun m => map (fun t => (tq_ID t, fq_Name (tq_Function t), fq_Arguments (tq_Function t))) (ms_ToolCalls m)) l).

(** A result: the id of its call, the name it gives or else that of the part
    with that id, and its text, or its parts as JSON. *)
Definition result_given (messages : list ClaudeMessage) (p : ClaudeMediaMessage) : string * option string * Content :=
  (mm_ToolUseId p,
   Some (if String.eqb (mm_Name p) "" then SearchToolNameByToolCallId messages (mm_ToolUseId p) else mm_Name p),
   ContentJson (JString (match mm_Content p with Some (JString s) => s | c => remarshal_media (default JNull c) end))).
Definition is_tool_message (m : ChatMessage) : bool := String.eqb (ms_Role m) "tool".
Definition results_shown (l : list ChatMessage) : list (string * option string * Content) :=
  map (fun m => (ms_ToolCallId m, ms_Name m, ms_Content m)) (List.filter is_tool_message l).

Lemma calls_made_app l1 l2 : calls_made (l1 ++ l2) = calls_made l1 ++ calls_made l2.
Proof. unfold calls_made. by rewrite map_app, concat_app. Qed.

Lemma results_shown_app l1 l2 : results_shown (l1 ++ l2) = results_shown l1 ++ results_shown l2.
Proof. unfold results_shown. by rewrite List.filter_app, map_app. Qed.

Lemma results_shown_of messages parts :
  results_shown (results_of messages parts) = map (result_given messages) (List.filter (of_type "tool_result") parts)
  /\ calls_made (results_of messages parts) = [].
Proof.
  unfold results_of. induction (List.filter (of_type "tool_result") parts) as [|p l [IH1 IH2]]; [done|].
  change (results_shown (map (tool_result_message messages) (p :: l))) with
    (result_given messages p :: results_shown (map (tool_result_message messages) l)). by rewrite IH1.
Qed.

Lemma calls_made_keep m : calls_made (keep_message m) = calls_made [m].
Proof.
  unfold keep_message. destruct (ms_ToolCalls m) as [|t l] eqn:E.
  - unfold calls_made. destruct (has_parsed _ || _ || _); cbn; by rewrite ?E.
  - rewrite bool_decide_false by done. by rewrite orb_true_r.
Qed.

Lemma results_shown_keep m : ms_Role m <> "tool" -> results_shown (keep_message m) = [].
Proof.
  intros Hr%String.eqb_neq. unfold keep_message, results_shown. destruct (has_parsed _ || _ || _); [|done].
  cbn. unfold is_tool_message. by rewrite Hr.
Qed.

Lemma calls_made_of parts : map (fun t => (tq_ID t, fq_Name (tq_Function t), fq_Arguments (tq_Function t))) (calls_of parts)
  = map called (List.filter (of_type "tool_use") parts).
Proof. unfold calls_of. by rewrite map_map. Qed.

Definition call_ids (l : list ChatMessage) : list string := concat (map (fun m => map tq_ID (ms_ToolCalls m)) l).

Lemma answered_app l1 : forall ids l2, answered ids (l1 ++ l2) = answered ids l1 && answered (ids ++ call_ids l1) l2.
Proof.
  induction l1 as [|m l1 IH]; intros ids l2; cbn [app answered call_ids map concat]; [by rewrite app_nil_r|].
  rewrite IH, <- app_assoc, andb_assoc. done.
Qed.

Lemma call_ids_app l1 l2 : call_ids (l1 ++ l2) = call_ids l1 ++ call_ids l2.
Proof. unfold call_ids. by rewrite map_app, concat_app. Qed.

Lemma keep_message_ids m : call_ids (keep_message m) = map tq_ID (ms_ToolCalls m).
Proof.
  unfold keep_message. destruct (ms_ToolCalls m) as [|t l] eqn:E.
  - destruct (has_parsed _ || _ || _); cbn; by rewrite ?E.
  - rewrite bool_decide_false by done. rewrite orb_true_r. cbn. by rewrite E, app_nil_r.
Qed.

Lemma answered_keep ids m : ms_Role m <> "tool" -> answered ids (keep_message m) = true.
Proof. intros Hr%String.eqb_neq. unfold keep_message. destruct (has_parsed _ || _ || _); [|done]. cbn. by rewrite Hr. Qed.

Lemma results_answered messages parts ids :
  answered ids (results_of messages parts) = forallb (fun p => str_in (mm_ToolUseId p) ids) (List.filter (of_type "tool_result") parts)
  /\ call_ids (results_of messages parts) = [].
Proof.
  unfold results_of. induction (List.filter (of_type "tool_result") parts) as [|p l [IH1 IH2]]; [done|]. cbn. by rewrite app_nil_r, IH1.
Qed.

Lemma use_ids_calls parts : map tq_ID (calls_of parts) = use_ids parts.
Proof. unfold calls_of, use_ids. by rewrite map_map. Qed.

(** What the conversion of some messages adds. *)
Record converts (messages l : list ClaudeMessage) (new : list ChatMessage) : Prop := {
  cv_calls : calls_made new = map called (parts_typed "tool_use" l);
  cv_results : no_tool_role l = true -> results_shown new = map (result_given messages) (parts_typed "tool_result" l);
  cv_ids : call_ids new = concat (map (fun m => use_ids (parts_of m)) l);
  cv_answered : forall ids, no_tool_role l = true -> claude_answered ids l = true -> answered ids new = true
}.

Lemma convert_message_answers messages out out' m :
  convert_message messages out m = Value out' -> exists new, out' = out ++ new /\ converts messages [m] new.
Proof.
  destruct (string_content m) eqn:Es.
  - unfold string_content, convert_message in *. destruct (cm_Content m) as [|s| | | |] eqn:Ec; try done. intros [= <-].
    assert (parts_of m = []) as Ep by (unfold parts_of; by rewrite Ec). eexists. split; [done|].
    split; unfold parts_typed, no_tool_role; cbn [map concat forallb claude_answered]; rewrite Ep; cbn [List.filter map app].
    + by rewrite calls_made_keep.
    + intros [Hr%negb_true_iff%String.eqb_neq _]%andb_true_iff. by apply results_shown_keep.
    + by rewrite keep_message_ids.
    + intros ids [Hr%negb_true_iff%String.eqb_neq _]%andb_true_iff _. by apply answered_keep.
  - assert (parts_of m = default [] (as_media (cm_Content m))) as Ep by (unfold parts_of, string_content in *; by destruct (cm_Content m)).
    destruct (as_media (cm_Content m)) as [parts|] eqn:Ea.
    + rewrite (claude_parts_are_kept messages out m parts Es Ea). destruct (existsb lacks_source parts); [done|]. intros [= <-].
      destruct (results_answered messages parts []) as [_ Hc]. destruct (results_shown_of messages parts) as [Hs Hm]. eexists. split; [done|].
      split; unfold parts_typed, no_tool_role; cbn [map concat forallb claude_answered]; rewrite Ep; cbn [default]; rewrite ?app_nil_r, ?andb_true_r.
      * rewrite calls_made_app, Hm, calls_made_keep, <- calls_made_of. unfold calls_made. cbn. by rewrite app_nil_r.
      * intros Hr%negb_true_iff%String.eqb_neq. rewrite results_shown_app, Hs, results_shown_keep by done. by rewrite app_nil_r.
      * by rewrite call_ids_app, Hc, keep_message_ids; cbn; rewrite use_ids_calls.
      * intros ids Hr%negb_true_iff%String.eqb_neq Ha. rewrite answered_app, answered_keep, andb_true_r by done.
        rewrite (proj1 (results_answered messages parts ids)). by rewrite andb_true_r in Ha.
    + unfold convert_message, string_content in *. destruct (cm_Content m); try done; by rewrite Ea.
Qed.

Lemma converts_cons messages m l n1 n2 : converts messages [m] n1 -> converts messages l n2 -> converts messages (m :: l) (n1 ++ n2).
Proof.
  intros [C1 R1 I1 A1] [C2 R2 I2 A2]. unfold parts_typed, no_tool_role in *. cbn [map concat forallb claude_answered] in *.
  rewrite app_nil_r in C1, I1. split.
  - rewrite calls_made_app, C1, C2. symmetry. apply map_app.
  - intros [Hr Hl]%andb_true_iff. rewrite results_shown_app, R1, R2, app_nil_r by (done || by rewrite Hr). symmetry. apply map_app.
  - by rewrite call_ids_app, I1, I2.
  - intros ids [Hr Hl]%andb_true_iff [Hp Ha]%andb_true_iff. rewrite answered_app, I1.
    rewrite A1, A2 by (done || (by rewrite Hr) || by rewrite Hp). done.
Qed.

Lemma convert_messages_answers messages : forall l out out',
  convert_messages messages out l = Value out' -> exists new, out' = out ++ new /\ converts messages l new.
Proof.
  induction l as [|m l IH]; intros out out' Hc; cbn [convert_messages] in Hc.
  { injection Hc as <-. exists []. rewrite app_nil_r. done. }
  destruct (convert_message messages out m) as [out1| |] eqn:E1; try done. cbn [mbind converted_bind] in Hc.
  destruct (convert_message_answers _ _ _ _ E1) as (n1 & -> & V1). destruct (IH _ _ Hc) as (n2 & -> & V2).
  exists (n1 ++ n2). rewrite app_assoc. split; [done|]. by apply converts_cons.
Qed.

Lemma convert_system_quiet router upstream system :
  Forall (fun m => ms_Role m = "system" /\ ms_ToolCalls m = []) (convert_system router upstream system).
Proof.
  unfold convert_system. set (parsed := match default [] (as_media system) with [] => [] | _ => _ end).
  assert (Forall (fun m => ms_Role m = "system" /\ ms_ToolCalls m = []) parsed) as Hp.
  { unfold parsed. destruct (default [] (as_media system)); [constructor|]. destruct (router && _); by repeat constructor. }
  destruct system; try done. destruct (negb _); [by repeat constructor | done].
Qed.

Lemma quiet_answered l : Forall (fun m => ms_Role m = "system" /\ ms_ToolCalls m = []) l ->
  call_ids l = [] /\ calls_made l = [] /\ results_shown l = [] /\ forall ids, answered ids l = true.
Proof.
  induction 1 as [|m l [Hr Hc] _ (I & C & R & A)]; [done|]. unfold call_ids, calls_made, results_shown in *. cbn [map concat List.filter answered].
  unfold is_tool_message at 1. rewrite Hc, Hr. cbn. split_and!; [done | done | done|]. intros ids. by rewrite app_nil_r.
Qed.

(** C38. Calls and results stay paired.  A converted Claude conversation makes
    the tool calls of the original, in their order, each with its id, its tool
    and its arguments.  When no message of the original has the role [tool],
    its tool messages are the tool results of the original, in their order,
    each with the id of its call, the name of the tool and the content; and
    when moreover every tool result answers a call of an earlier message,
    every tool message comes after the message with the call it names. *)
Theorem results_follow_their_calls c info r :
  ClaudeToOpenAIRequest c info = Value r ->
  calls_made (oq_Messages r) = map called (parts_typed "tool_use" (cq_Messages c)) /\
  (no_tool_role (cq_Messages c) = true ->
   results_shown (oq_Messages r) = map (result_given (cq_Messages c)) (parts_typed "tool_result" (cq_Messages c)) /\
   (claude_answered [] (cq_Messages c) = true -> answered [] (oq_Messages r) = true)).
Proof.
  unfold ClaudeToOpenAIRequest. destruct (convert_tool_choice _) as [ch| |]; try done. cbn [mbind converted_bind].
  set (sys := convert_system _ _ _). destruct (convert_messages _ sys _) as [ms| |] eqn:E; try done. intros [= <-]. cbn [oq_Messages].
  destruct (convert_messages_answers _ _ _ _ E) as (new & -> & [C R I A]).
  destruct (quiet_answered sys) as (Is & Cs & Rs & As); [apply convert_system_quiet|].
  rewrite calls_made_app, results_shown_app, Cs, Rs. split; [done|]. intros Hr. split; [by apply R|].
  intros Ha. rewrite answered_app, As, Is. by apply A.
Qed.
End Claude.

(** ** Tool choices *)

(** Decoding a choice from a string fails, from an object it reads the type. *)
Class ChoiceDecoding `{JsonOps} : Prop := {
  string_is_no_choice s : as_tool_choice (JString s) = None;
  object_has_type t : as_tool_choice (JObject [("type", JString t)]) = Some (mkClaudeToolChoice t "" false)
}.

(** Both forms of a choice are understood alike, a word of neither protocol is an error. *)
Lemma tool_choice_forms `{ChoiceDecoding} t :
  (t ∈ ["auto"; "any"; "none"] -> convert_tool_choice (JString t) = convert_tool_choice (JObject [("type", JString t)]))
  /\ convert_tool_choice (JString "required") = convert_tool_choice (JString "any")
  /\ (t ∉ ["auto"; "any"; "none"; "required"] -> convert_tool_choice (JString t) = Failed "tool_choice").
Proof.
  unfold convert_tool_choice, parseClaudeToolChoice. rewrite !string_is_no_choice, object_has_type. split_and!; [|done|].
  - intros Hin. rewrite !elem_of_cons, elem_of_nil in Hin. by destruct Hin as [->|[->|[->|[]]]].
  - intros Hout. cbn [as_string]. destruct (str_in t ["auto"; "any"; "none"]) eqn:E.
    + apply str_in_spec in E. exfalso. apply Hout. rewrite !elem_of_cons in *. tauto.
    + destruct (String.eqb_spec t "required") as [->|]; [|done]. exfalso. apply Hout. rewrite !elem_of_cons. tauto.
Qed.

(** ** Gemini *)

Section Gemini.
Context `{JsonOps}.

(** [StopSequences[:4]]: with fewer than four the slice bounds are exceeded, or
    the request stops at the empty string. *)
Lemma few_stop_sequences_break l capacity :
  l <> [] -> (length l < 4)%nat ->
  first_four l capacity = Panics \/ exists stops, first_four l capacity = Value (StopMany stops) /\ "" ∈ stops.
Proof.
  intros Hne Hlt. unfold first_four. destruct l as [|a l]; [done|]. destruct (capacity <? 4)%nat; [by left|]. right. eexists. split; [done|].
  destruct l as [|b [|c [|d l]]]; cbn in *; try lia; rewrite !elem_of_cons; tauto.
Qed.

Lemma call_id_inj m n : call_id m = call_id n -> m = n.
Proof.
  unfold call_id. intros E. apply (inj (String.append "call_")) in E. unfold Itoa in E. apply (inj pretty) in E. lia.
Qed.

(** The calls of a content are numbered from 1. *)
Lemma gemini_calls_numbered parts : forall acc,
  Forall (fun t => exists k, tq_ID t = call_id (S k)) (pr_calls acc) ->
  Forall (fun t => exists k, tq_ID t = call_id (S k)) (pr_calls (foldl gemini_part acc parts)).
Proof.
  induction parts as [|p parts IH]; intros acc Ha; [done|]. cbn [foldl]. apply IH. unfold gemini_part.
  destruct (negb _); [done|]. destruct (gp_InlineData p), (gp_FileData p), (gp_FunctionCall p), (gp_FunctionResponse p); try done;
    cbn; apply Forall_app; (split; [done|]); constructor; [|constructor | |constructor]; eexists; cbn; by rewrite Nat.add_1_r.
Qed.

Definition no_call (p : GeminiPart) : bool := match gp_FunctionCall p with None => true | Some _ => false end.

(** Without a call in its content a result is numbered 0. *)
Lemma gemini_results_zero parts : forall acc,
  forallb no_call parts = true -> pr_calls acc = [] ->
  exists new, pr_messages (foldl gemini_part acc parts) = pr_messages acc ++ new /\ pr_calls (foldl gemini_part acc parts) = []
    /\ Forall (fun m => ms_Role m = "tool" /\ ms_ToolCallId m = call_id 0 /\ ms_ToolCalls m = []) new.
Proof.
  induction parts as [|p parts IH]; intros acc Hn Hc; [exists []; by rewrite app_nil_r|].
  cbn [forallb] in Hn. apply andb_true_iff in Hn as [Hp Hn]. cbn [foldl].
  assert (exists n, pr_messages (gemini_part acc p) = pr_messages acc ++ n /\ pr_calls (gemini_part acc p) = []
            /\ Forall (fun m => ms_Role m = "tool" /\ ms_ToolCallId m = call_id 0 /\ ms_ToolCalls m = []) n) as (n1 & E1 & C1 & F1).
  { unfold gemini_part, no_call in *. destruct (negb _); [exists []; by rewrite app_nil_r|].
    destruct (gp_InlineData p), (gp_FileData p), (gp_FunctionCall p), (gp_FunctionResponse p); try done; try (exists []; by rewrite app_nil_r).
    eexists. split; [done|]. split; [done|]. rewrite Hc. by repeat constructor. }
  destruct (IH (gemini_part acc p) Hn C1) as (n2 & E2 & C2 & F2). exists (n1 ++ n2). rewrite E2, E1, app_assoc. split_and!; [done..|].
  by apply Forall_app.
Qed.

Definition no_result (p : GeminiPart) : bool := match gp_FunctionResponse p with None => true | Some _ => false end.

Lemma gemini_no_results parts : forall acc,
  forallb no_result parts = true -> pr_messages (foldl gemini_part acc parts) = pr_messages acc.
Proof.
  induction parts as [|p parts IH]; intros acc Hn; [done|]. cbn [forallb] in Hn. apply andb_true_iff in Hn as [Hp Hn].
  cbn [foldl]. rewrite IH by done. unfold gemini_part, no_result in *. destruct (negb _); [done|].
  by destruct (gp_InlineData p), (gp_FileData p), (gp_FunctionCall p), (gp_FunctionResponse p).
Qed.

(** Calls are numbered from 1, results are numbered 0. *)
Definition misnumbered (m : ChatMessage) : Prop :=
  Forall (fun t => exists k, tq_ID t = call_id (S k)) (ms_ToolCalls m) /\ (ms_Role m = "tool" -> ms_ToolCallId m = call_id 0).

Lemma gemini_content_misnumbers out c :
  forallb no_call (gc_Parts c) = true \/ forallb no_result (gc_Parts c) = true ->
  Forall misnumbered out -> Forall misnumbered (gemini_content out c).
Proof.
  intros Hsep Hout. unfold gemini_content. set (acc := foldl gemini_part (mkParts out [] [] "") (gc_Parts c)).
  assert (Forall misnumbered (pr_messages acc)) as Hm.
  { destruct Hsep as [Hc|Hr].
    - destruct (gemini_results_zero (gc_Parts c) (mkParts out [] [] "") Hc eq_refl) as (new & E & _ & F). unfold acc. rewrite E.
      apply Forall_app. split; [done|]. eapply Forall_impl; [exact F|]. intros m (_ & Hi & Ht). unfold misnumbered. by rewrite Ht.
    - unfold acc. by rewrite gemini_no_results. }
  apply Forall_app. split; [done|]. destruct (_ || _); [|constructor]. constructor; [|constructor].
  assert (Forall (fun t => exists k, tq_ID t = call_id (S k)) (pr_calls acc)) as Hcalls by (apply gemini_calls_numbered; constructor).
  assert (convertGeminiRoleToOpenAI (gc_Role c) <> "tool") as Hrole.
  { unfold convertGeminiRoleToOpenAI. by repeat destruct (String.eqb _ _). }
  unfold misnumbered. destruct (pr_calls acc) as [|t l], (pr_media acc) as [|m [|m' ms]]; try destruct (String.eqb (mc_Type m) "text"); cbn; done.
Qed.

(** A conversation whose function responses come in contents of their own, as
    Gemini clients send them: no result names a call. *)
Lemma gemini_results_match_no_call contents :
  Forall (fun c => forallb no_call (gc_Parts c) = true \/ forallb no_result (gc_Parts c) = true) contents ->
  Forall (fun m => ms_Role m = "tool" -> ms_ToolCallId m ∉ call_ids (foldl gemini_content [] contents)) (foldl gemini_content [] contents).
Proof.
  intros Hsep. assert (Forall misnumbered (foldl gemini_content [] contents)) as Hm.
  { assert (forall out, Forall misnumbered out -> Forall misnumbered (foldl gemini_content out contents)) as Hgen; [|by apply Hgen].
    induction Hsep as [|c contents Hc _ IH]; intros out Ho; [done|]. cbn [foldl]. apply IH. by apply gemini_content_misnumbers. }
  eapply Forall_impl; [exact Hm|]. intros m [_ Hi] Hr. rewrite (Hi Hr). unfold call_ids.
  intros (l & (m' & <- & Hm'%list_elem_of_In)%in_map_iff & (t & Et & Ht%list_elem_of_In)%in_map_iff)%list_elem_of_In%in_concat. rewrite Forall_forall in Hm. destruct (Hm m' Hm') as [Hn _].
  rewrite Forall_forall in Hn. destruct (Hn t Ht) as [k Ek]. rewrite Ek in Et. by apply call_id_inj in Et.
Qed.
End Gemini.

(** ** Concrete conversions *)

(** Contents decode to these parts, numbers are not decoded. *)
Definition plain_json (parts : list ClaudeMediaMessage) : JsonOps := {|
  as_media j := match j with JNull => Some [] | JArray [] => Some parts | _ => None end;
  as_tools j := None; as_functions j := None; as_map s := None;
  as_tool_choice j := match j with JObject [(_, JString t)] => Some (mkClaudeToolChoice t "" false) | _ => None end;
  marshal j := "{}"; remarshal_media j := "[]"; marshal_reasoning b n := ""; effort_of s := None;
  sprint j := match j with JString s => s | _ => "%!s(<nil>)" end
|}.

#[export] Instance plain_json_choices parts : @ChoiceDecoding (plain_json parts).
Proof. split; done. Qed.

Definition call_part_of (id name : string) : ClaudeMediaMessage := tool_media id name (JObject []).
Definition result_part_of (id : string) : ClaudeMediaMessage :=
  mkMedia "tool_result" None "" None None None "" None "" "" None (Some (JString "ok")) None None id.
Definition image_part (src : option ClaudeMessageSource) : ClaudeMediaMessage :=
  mkMedia "image" None "" None None None "" None "" "" None None src None "".

Definition convert_context : ConvertInfo := mkConvertContext 1 "m" "m" true.
Definition claude_request (messages : list ClaudeMessage) : ClaudeRequest :=
  mkClaudeRequest "m" JNull messages None [] None None None None JNull "" JNull None.

Lemma claude_parts_are_kept_witness :
  let parts := [thinking_media "thinking" "plan"; text_media "text" "hi"; call_part_of "c1" "ls"; result_part_of "c0"] in
  @convert_message (plain_json parts) [] [] (mkClaudeMessage "assistant" (JArray []))
  = Value (@results_of (plain_json parts) [] parts ++ keep_message (@body_of_parts (plain_json parts) "assistant" parts)).
Proof.
  intros parts. apply (@claude_parts_are_kept (plain_json parts) [] [] (mkClaudeMessage "assistant" (JArray [])) parts); reflexivity.
Defined.

(** An empty array decodes to a call, an array of one number to its result. *)
Definition agent_json : JsonOps := {|
  as_media j := match j with
                | JNull => Some [] | JArray [] => Some [text_media "text" "look"; call_part_of "c1" "ls"]
                | JArray [_] => Some [result_part_of "c1"] | _ => None
                end;
  as_tools j := None; as_functions j := None; as_map s := None; as_tool_choice j := None;
  marshal j := "{}"; remarshal_media j := "[]"; marshal_reasoning b n := ""; effort_of s := None; sprint j := ""
|}.
Definition agent_conversation : ClaudeRequest :=
  claude_request [mkClaudeMessage "user" (JString "go"); mkClaudeMessage "assistant" (JArray []); mkClaudeMessage "user" (JArray [JNull])].

Lemma results_follow_their_calls_witness :
  exists r, @ClaudeToOpenAIRequest agent_json agent_conversation convert_context = Value r
    /\ calls_made (oq_Messages r) = [("c1", "ls", "{}")]
    /\ results_shown (oq_Messages r) = [("c1", Some "ls", ContentJson (JString "ok"))]
    /\ answered [] (oq_Messages r) = true.
Proof.
  eexists. split; [reflexivity|].
  destruct (@results_follow_their_calls agent_json agent_conversation convert_context _ eq_refl) as [Hc Hr].
  destruct (Hr eq_refl) as [Hs Ha]. split; [exact Hc|]. split; [exact Hs | exact (Ha eq_refl)].
Defined.

(** An image by address, or without a source. *)
Example image_url_is_lost :
  let src := mkSource "url" "" JNull "https://x/a.png" in
  @part_media (plain_json []) (image_part (Some src))
  = Some (mkMediaContent "image_url" "" (Some (mkImageUrl "data:;base64,%!s(<nil>)" "" "")) None).
Proof. reflexivity. Qed.

Example image_without_source_panics :
  @convert_message (plain_json [image_part None]) [] [] (mkClaudeMessage "user" (JArray [])) = Panics.
Proof. reflexivity. Qed.

(** A complete answer that calls a tool under another finish reason. *)
Example calls_need_their_reason :
  let m := mkChatMessage "assistant" ContentNil None None None
             [mkToolCallRequest "c1" "function" (mkFunctionRequest "" "ls" None "{}")] "" in
  cr_Content (@ResponseOpenAI2Claude (plain_json []) (mkTextResponse "id" "m" [mkTextChoice 0 m "stop"] (plain_usage 1 1 2)))
  = [text_media "text" ""].
Proof. reflexivity. Qed.

(** The finish reasons both protocols name survive a round trip. *)
Example reasons_round_trip :
  map (fun r => ClaudeStopReasonToOpenAIFinishReason (OpenAIFinishReasonToClaudeStopReason r)) ["stop"; "length"; "tool_calls"; "content_filter"]
  = ["stop"; "length"; "tool_calls"; "content_filter"].
Proof. reflexivity. Qed.
