(* ===== verification/TieredPrice.v ===== *)
(** * Prices written as expressions

    The expression cache and the settlement of src/pkg/billingexpr, and the
    token counts an expression is evaluated on (src/service/tiered_settle.go).
    An administrator writes the price of a model as an expression over token
    counts; [p] and [c] stand for the tokens that the expression does not price
    by a variable of their own.

    The language of the expressions is github.com/expr-lang/expr: compiling,
    listing identifiers and running a program are the parameters of class
    [ExprEngine].  [float64] is the parameter [F] of class [Float64], whose laws
    state what IEEE 754 says of whole numbers below 2^53. *)

From stdpp Require Import base numbers list strings gmap.
From Stdlib Require Import ZArith Lia.
From S2P Require Import Prelude GoInt GoString Redemption TextPrice ClaudeStream.

Local Open Scope string_scope.
Local Open Scope list_scope.
Local Open Scope Z_scope.

(** ** Floating-point numbers *)

Class Float64 := {
  F : Type;
  f_int : Z -> F;                  (* float64(n) *)
  f_add : F -> F -> F; f_sub : F -> F -> F; f_mul : F -> F -> F; f_div : F -> F -> F;
  f_lt : F -> F -> bool;
  f_le : F -> F -> bool;
  f_nan : F -> bool;
  f_round : F -> F;                (* math.Round *)
  f_trunc : F -> Z                 (* int(x), for x in the range of int *)
}.

Definition whole : Z := 2 ^ 53.

(** Whole numbers up to 2^53 are exact. *)
Class Float64Laws `{Float64} : Prop := {
  f_add_exact a b : Z.abs a <= whole -> Z.abs b <= whole -> Z.abs (a + b) <= whole -> f_add (f_int a) (f_int b) = f_int (a + b);
  f_sub_exact a b : Z.abs a <= whole -> Z.abs b <= whole -> Z.abs (a - b) <= whole -> f_sub (f_int a) (f_int b) = f_int (a - b);
  f_lt_exact a b : Z.abs a <= whole -> Z.abs b <= whole -> f_lt (f_int a) (f_int b) = (a <? b);
  f_trunc_exact a : Z.abs a <= whole -> f_trunc (f_int a) = a;
  f_mul_one x : f_mul x (f_int 1) = x
}.

Section Params.
Context `{Float64}.

(** ** Token counts *)

Record TokenParams := mkTokenParams {
  tp_P : F; tp_C : F; tp_Len : F; tp_CR : F; tp_CC : F; tp_CC1h : F; tp_Img : F; tp_ImgO : F; tp_AI : F; tp_AO : F;
  tp_DiscountableP : F; tp_DiscountableC : F; tp_CacheFallbackP : F; tp_HasBreakdown : bool;
  tp_BillingP : F; tp_BillingC : F; tp_UseBillingPC : bool
}.

(** [TokenParams{}] with some fields set. *)
Definition no_tokens : TokenParams :=
  let z := f_int 0 in mkTokenParams z z z z z z z z z z z z z false z z false.

(** The usage with the details of the output. *)
Record TieredUsage := mkTieredUsage { td_usage : Usage; td_outImage : Z; td_outAudio : Z }.

(** [usedVars[name]]; a nil map has no names. *)
Definition uses (vars : list string) (name : string) : bool := str_in name vars.

Definition sub_if (b : bool) (x y : F) : F := if b then f_sub x y else x.
Definition add_if (b : bool) (x y : F) : F := if b then f_add x y else x.
(** [if x < 0 { x = 0 }] *)
Definition floor_zero (x : F) : F := if f_lt x (f_int 0) then f_int 0 else x.
(** [if x > bound { x = bound }] *)
Definition cap_at (bound x : F) : F := if f_lt bound x then bound else x.

Definition BuildTieredTokenParams (usage : option TieredUsage) (isClaude : bool) (vars : list string) : TokenParams :=
  match usage with
  | None => no_tokens
  | Some d =>
      let u := td_usage d in
      let p := f_int (us_PromptTokens u) in
      let c := f_int (us_CompletionTokens u) in
      let cr := f_int (us_CachedTokens u) in
      let '(cc5mTokens, cc1hTokens) :=
        NormalizeCacheCreationSplit (us_CachedCreationTokens u) (us_Claude5mTokens u) (us_Claude1hTokens u) in
      let cc5m := f_int cc5mTokens in
      let cc1h := f_int cc1hTokens in
      let img := f_int (us_ImageTokens u) in
      let ai := f_int (us_AudioTokens u) in
      let imgO := f_int (td_outImage d) in
      let ao := f_int (td_outAudio d) in
      let inputLen := if isClaude then f_add (f_add (f_add p cr) cc5m) cc1h else p in
      let sub name x y := sub_if (negb isClaude && uses vars name) x y in
      let p := floor_zero (sub "ai" (sub "img" (sub "cc1h" (sub "cc" (sub "cr" p cr) cc5m) cc1h) img) ai) in
      let c := floor_zero (sub "ao" (sub "img_o" c imgO) ao) in
      if isClaude
      then mkTokenParams p c inputLen cr cc5m cc1h img imgO ai ao p c (f_int 0) true (f_int 0) (f_int 0) false
      else
        let rest name x y := add_if (negb (uses vars name)) x y in
        let cacheFallbackP := rest "cc1h" (rest "cc" (rest "cr" (f_int 0) cr) cc5m) cc1h in
        let nonDiscountableP := rest "ai" (rest "img" cacheFallbackP img) ai in
        let nonDiscountableC := rest "ao" (rest "img_o" (f_int 0) imgO) ao in
        mkTokenParams p c inputLen cr cc5m cc1h img imgO ai ao
          (f_sub p (cap_at p nonDiscountableP)) (f_sub c (cap_at c nonDiscountableC)) (cap_at p cacheFallbackP) true
          (f_int 0) (f_int 0) false
  end.

Record RealtimeUsage := mkRealtimeUsage {
  rt_TotalTokens : Z; rt_InputTokens : Z; rt_OutputTokens : Z; rt_CachedTokens : Z; rt_InputAudio : Z; rt_OutputAudio : Z
}.

Definition BuildTieredRealtimeTokenParams (usage : option RealtimeUsage) (vars : list string) : TokenParams :=
  match usage with
  | None => no_tokens
  | Some u =>
      let cr := f_int (rt_CachedTokens u) in
      let ai := f_int (rt_InputAudio u) in
      let ao := f_int (rt_OutputAudio u) in
      let p := floor_zero (sub_if (uses vars "ai") (sub_if (uses vars "cr") (f_int (rt_InputTokens u)) cr) ai) in
      let c := floor_zero (sub_if (uses vars "ao") (f_int (rt_OutputTokens u)) ao) in
      let cacheFallbackP := if uses vars "cr" then f_int 0 else cr in
      let nonDiscountableP := add_if (negb (uses vars "ai")) (add_if (negb (uses vars "cr")) (f_int 0) cr) ai in
      let nonDiscountableC := if uses vars "ao" then f_int 0 else ao in
      mkTokenParams p c (f_int (rt_InputTokens u)) cr (f_int 0) (f_int 0) (f_int 0) (f_int 0) ai ao
        (f_sub p (cap_at p nonDiscountableP)) (f_sub c (cap_at c nonDiscountableC)) (cap_at p cacheFallbackP) true (f_int 0) (f_int 0) false
  end.

Definition tieredNonCacheTokenCount (totalTokens : Z) (t : TokenParams) : Z :=
  let cacheTokens := f_trunc (f_add (f_add (tp_CR t) (tp_CC t)) (tp_CC1h t)) in
  let cacheTokens := if cacheTokens <? 0 then 0 else cacheTokens in
  let cacheTokens := if totalTokens <? cacheTokens then totalTokens else cacheTokens in
  i64_sub totalTokens cacheTokens.

(** ** Rounding to quota *)

Record QuotaClamp := mkClamp { ql_Kind : string; ql_Original : F; ql_Clamped : Z }.

Definition saturateQuota (value : F) : Z * option QuotaClamp :=
  if f_nan value then (0, Some (mkClamp "nan" value 0))
  else if f_le (f_int MaxQuota) value then (MaxQuota, Some (mkClamp "overflow" value MaxQuota))
  else if f_le value (f_int MinQuota) then (MinQuota, Some (mkClamp "underflow" value MinQuota))
  else (f_trunc value, None).

Definition QuotaRoundChecked (value : F) : Z * option QuotaClamp :=
  if f_nan value then saturateQuota value else saturateQuota (f_round value).

(** [billingexpr.QuotaRound] rounds before [common.QuotaRound] does. *)
Definition QuotaRound (value : F) : Z := (QuotaRoundChecked (f_round value)).1.
End Params.

(** ** Expressions *)

Record TraceResult `{Float64} := mkTrace { tc_MatchedTier : string; tc_Cost : F }.

(** github.com/expr-lang/expr with the environment of version 1 and the patcher
    that renames [p] and [c] in the price argument of [tier]. *)
Class ExprEngine `{Float64} := {
  Program : Type;
  RequestInput : Type;
  expr_compile : string -> result Program;
  expr_identifiers : Program -> list string;
  (** on an environment of numbers, a request and a time *)
  expr_run : Program -> (string -> F) -> RequestInput -> Z -> result (F * TraceResult);
  no_request : RequestInput
}.

Section Expressions.
Context `{ExprEngine}.
(** The hexadecimal SHA-256 digest. *)
Variable ExprHashString : string -> string.

Definition DefaultExprVersion : Z := 1.

Definition ParseExprVersion (exprStr : string) : Z * string :=
  if HasPrefix exprStr "v1:" then (1, String.substring 3 (String.length exprStr - 3) exprStr) else (DefaultExprVersion, exprStr).

Record cachedEntry := mkCached { ce_prog : Program; ce_usedVars : list string; ce_version : Z }.
Definition maxCacheSize : nat := 256.

(** A program that was patched names [billing_p] where the text names [p]. *)
Definition extractUsedVars (prog : Program) : list string :=
  flat_map (fun id => id :: (if String.eqb id "billing_p" then ["p"] else []) ++ (if String.eqb id "billing_c" then ["c"] else []))
    (expr_identifiers prog).

Definition compileFromCacheByHash (exprStr hash : string) (cache : gmap string cachedEntry) : result Program * gmap string cachedEntry :=
  match cache !! hash with
  | Some entry => (Ok (ce_prog entry), cache)
  | None =>
      let '(version, body) := ParseExprVersion exprStr in
      match expr_compile body with
      | Err e => (Err e, cache)
      | Ok prog =>
          let cache := if (maxCacheSize <=? size cache)%nat then ∅ else cache in
          (Ok prog, <[hash := mkCached prog (extractUsedVars prog) version]> cache)
      end
  end.

Definition CompileFromCache (exprStr : string) (cache : gmap string cachedEntry) : result Program * gmap string cachedEntry :=
  compileFromCacheByHash exprStr (ExprHashString exprStr) cache.

Definition ExprVersion (exprStr : string) (cache : gmap string cachedEntry) : Z :=
  if String.eqb exprStr "" then DefaultExprVersion
  else match cache !! ExprHashString exprStr with Some entry => ce_version entry | None => (ParseExprVersion exprStr).1 end.

(** [others] is what other goroutines do to the cache between the compilation
    and the second look; no names stand for nil. *)
Definition UsedVars (exprStr : string) (others : gmap string cachedEntry -> gmap string cachedEntry) (cache : gmap string cachedEntry) : list string * gmap string cachedEntry :=
  if String.eqb exprStr "" then ([], cache)
  else
    let hash := ExprHashString exprStr in
    match cache !! hash with
    | Some entry => (ce_usedVars entry, cache)
    | None =>
        match compileFromCacheByHash exprStr hash cache with
        | (Err _, cache) => ([], cache)
        | (Ok _, cache) =>
            let cache := others cache in
            match cache !! hash with Some entry => (ce_usedVars entry, cache) | None => ([], cache) end
        end
    end.

Definition InvalidateCache (cache : gmap string cachedEntry) : gmap string cachedEntry := ∅.

(** ** Evaluation *)

(** The numbers of the environment. *)
Definition environment (t : TokenParams) (name : string) : F :=
  let billingP := if tp_UseBillingPC t then tp_BillingP t else tp_P t in
  let billingC := if tp_UseBillingPC t then tp_BillingC t else tp_C t in
  match List.find (fun e => String.eqb e.1 name)
    [("p", tp_P t); ("c", tp_C t); ("billing_p", billingP); ("billing_c", billingC); ("len", tp_Len t); ("cr", tp_CR t); ("cc", tp_CC t);
     ("cc1h", tp_CC1h t); ("img", tp_Img t); ("img_o", tp_ImgO t); ("ai", tp_AI t); ("ao", tp_AO t)] with
  | Some e => e.2
  | None => f_int 0
  end.

Definition runProgram (prog : Program) (t : TokenParams) (request : RequestInput) (now : Z) : result (F * TraceResult) :=
  expr_run prog (environment t) request now.

Definition RunExprByHashWithRequest (exprStr hash : string) (t : TokenParams) (request : RequestInput) (now : Z) (cache : gmap string cachedEntry)
  : result (F * TraceResult) * gmap string cachedEntry :=
  let '(r, cache) := compileFromCacheByHash exprStr hash cache in
  (prog ← r; runProgram prog t request now, cache).

Record BillingSnapshot := mkSnapshot {
  sn_BillingMode : string; sn_ExprString : string; sn_ExprHash : string; sn_GroupRatio : F; sn_EstimatedQuotaAfterGroup : Z;
  sn_EstimatedTier : string; sn_QuotaPerUnit : F; sn_ExprVersion : Z; sn_UserDiscount : F
}.

Record TieredResult := mkTiered {
  rs_OriginalQuotaBeforeGroup : F; rs_ActualQuotaBeforeGroup : F; rs_ActualQuotaAfterGroup : Z; rs_CacheQuotaBeforeGroup : F;
  rs_DiscountableQuotaBeforeGroup : F; rs_DiscountableTokens : F; rs_DiscountAmountBeforeGroup : F; rs_AppliedUserDiscount : F;
  rs_MatchedTier : string; rs_CrossedTier : bool; rs_Clamp : option QuotaClamp
}.

Definition quotaConversion (exprOutput : F) (snap : BillingSnapshot) : F := f_mul (f_div exprOutput (f_int 1000000)) (sn_QuotaPerUnit snap).

(** Token counts with other prices inside [tier] and other cache counts. *)
Definition with_billing_pc (p c : F) (t : TokenParams) : TokenParams :=
  mkTokenParams (tp_P t) (tp_C t) (tp_Len t) (tp_CR t) (tp_CC t) (tp_CC1h t) (tp_Img t) (tp_ImgO t) (tp_AI t) (tp_AO t)
    (tp_DiscountableP t) (tp_DiscountableC t) (tp_CacheFallbackP t) (tp_HasBreakdown t) p c true.
Definition without_cache (t : TokenParams) : TokenParams :=
  mkTokenParams (tp_P t) (tp_C t) (tp_Len t) (f_int 0) (f_int 0) (f_int 0) (tp_Img t) (tp_ImgO t) (tp_AI t) (tp_AO t)
    (tp_DiscountableP t) (tp_DiscountableC t) (tp_CacheFallbackP t) (tp_HasBreakdown t) (tp_BillingP t) (tp_BillingC t) (tp_UseBillingPC t).

(** [if x < 0 || x > bound { x = other }] *)
Definition within_or (bound other x : F) : F := if f_lt x (f_int 0) || f_lt bound x then other else x.

(** [now] gives the time of each of the four evaluations. *)
Definition ComputeTieredQuotaWithRequest (snap : BillingSnapshot) (t : TokenParams) (request : RequestInput) (now : nat -> Z) (cache : gmap string cachedEntry)
  : result TieredResult * gmap string cachedEntry :=
  let run t i cache := RunExprByHashWithRequest (sn_ExprString snap) (sn_ExprHash snap) t request (now i) cache in
  match run t 0%nat cache with
  | (Err e, cache) => (Err e, cache)
  | (Ok (originalCost, _), cache) =>
      let discount := if f_le (sn_UserDiscount snap) (f_int 0) || f_lt (f_int 1) (sn_UserDiscount snap) then f_int 1 else sn_UserDiscount snap in
      let discountableP := within_or (tp_P t) (tp_P t) (if tp_HasBreakdown t then tp_DiscountableP t else tp_P t) in
      let discountableC := within_or (tp_C t) (tp_C t) (if tp_HasBreakdown t then tp_DiscountableC t else tp_C t) in
      let restP := f_sub (tp_P t) discountableP in
      let restC := f_sub (tp_C t) discountableC in
      match run (with_billing_pc (f_add (f_mul discountableP discount) restP) (f_add (f_mul discountableC discount) restC) t) 1%nat cache with
      | (Err e, cache) => (Err e, cache)
      | (Ok (cost, trace), cache) =>
          match run (without_cache (with_billing_pc (floor_zero (f_sub (tp_P t) (tp_CacheFallbackP t))) (tp_C t) t)) 2%nat cache with
          | (Err e, cache) => (Err e, cache)
          | (Ok (noCacheCost, _), cache) =>
              let cacheCost := within_or originalCost (f_int 0) (f_sub originalCost noCacheCost) in
              match run (with_billing_pc restP restC t) 3%nat cache with
              | (Err e, cache) => (Err e, cache)
              | (Ok (noDiscountableCost, _), cache) =>
                  let discountableCost := within_or originalCost (f_int 0) (f_sub originalCost noDiscountableCost) in
                  let quotaBeforeGroup := quotaConversion cost snap in
                  let originalQuotaBeforeGroup := quotaConversion originalCost snap in
                  let '(afterGroup, clamp) := QuotaRoundChecked (f_mul quotaBeforeGroup (sn_GroupRatio snap)) in
                  (Ok (mkTiered originalQuotaBeforeGroup quotaBeforeGroup afterGroup (quotaConversion cacheCost snap)
                         (quotaConversion discountableCost snap) (f_add discountableP discountableC)
                         (f_sub originalQuotaBeforeGroup quotaBeforeGroup) discount (tc_MatchedTier trace)
                         (negb (String.eqb (tc_MatchedTier trace) (sn_EstimatedTier snap))) clamp), cache)
              end
          end
      end
  end.

(** ** Settlement *)

(** What settlement reads of the relay info; [ti_discount] is its
    [effectiveUserDiscount]. *)
Record TieredInfo := mkTieredInfo {
  ti_snapshot : option BillingSnapshot; ti_request : option RequestInput; ti_discount : F; ti_ProviderId : Z; ti_FinalPreConsumedQuota : Z
}.

Definition tieredSettlementFallbackQuota (info : TieredInfo) (snap : BillingSnapshot) : Z :=
  if (ti_ProviderId info <=? 0) && (0 <? ti_FinalPreConsumedQuota info) then ti_FinalPreConsumedQuota info else sn_EstimatedQuotaAfterGroup snap.

Definition with_user_discount (d : F) (s : BillingSnapshot) : BillingSnapshot :=
  mkSnapshot (sn_BillingMode s) (sn_ExprString s) (sn_ExprHash s) (sn_GroupRatio s) (sn_EstimatedQuotaAfterGroup s) (sn_EstimatedTier s)
    (sn_QuotaPerUnit s) (sn_ExprVersion s) d.

(** [None] when tiered billing does not apply. *)
Definition TryTieredSettle (info : TieredInfo) (t : TokenParams) (now : nat -> Z) (cache : gmap string cachedEntry)
  : option (Z * option TieredResult) * gmap string cachedEntry :=
  match ti_snapshot info with
  | None => (None, cache)
  | Some snap =>
      if negb (String.eqb (sn_BillingMode snap) "tiered_expr") then (None, cache)
      else
        let settlement := with_user_discount (if 0 <? ti_ProviderId info then f_int 1 else ti_discount info) snap in
        match ComputeTieredQuotaWithRequest settlement t (default no_request (ti_request info)) now cache with
        | (Err _, cache) => (Some (tieredSettlementFallbackQuota info snap, None), cache)
        | (Ok tr, cache) => (Some (rs_ActualQuotaAfterGroup tr, Some tr), cache)
        end
  end.
End Expressions.
