(* ===== verification/TieredSafety.v ===== *)
(** * What tiered prices guarantee

    The counts an expression is evaluated on, the cache of compiled
    expressions, and a settlement without discount. *)

From stdpp Require Import base numbers list strings gmap.
From Stdlib Require Import ZArith QArith Lia.
From S2P Require Import Prelude GoInt GoString Redemption TextPrice ClaudeStream TieredPrice.

Local Open Scope string_scope.
Local Open Scope list_scope.
Local Open Scope Z_scope.

(** ** Counts *)

Section Counts.
Context `{Float64Laws}.

Definition part (b : bool) (n : Z) : Z := if b then n else 0.

Lemma sub_if_exact b a x : 0 <= x <= whole -> a <= whole -> - whole <= a - x -> sub_if b (f_int a) (f_int x) = f_int (a - part b x).
Proof. intros Hx Ha Hl. unfold sub_if, part. destruct b; [|by rewrite Z.sub_0_r]. apply f_sub_exact; lia. Qed.

Lemma add_if_exact b a x : 0 <= a -> 0 <= x -> a + x <= whole -> add_if b (f_int a) (f_int x) = f_int (a + part b x).
Proof. intros Ha Hx Hl. unfold add_if, part. destruct b; [|by rewrite Z.add_0_r]. apply f_add_exact; lia. Qed.

Lemma floor_zero_exact a : Z.abs a <= whole -> floor_zero (f_int a) = f_int (Z.max 0 a).
Proof.
  intros Ha. unfold floor_zero. rewrite f_lt_exact by lia.
  destruct (Z.ltb_spec a 0); f_equal; lia.
Qed.

Lemma cap_at_exact a b : 0 <= a <= whole -> 0 <= b <= whole -> cap_at (f_int a) (f_int b) = f_int (Z.min a b).
Proof. intros Ha Hb. unfold cap_at. rewrite f_lt_exact by lia. destruct (Z.ltb_spec a b); f_equal; lia. Qed.

Lemma sub_cap_exact a b : 0 <= a <= whole -> 0 <= b <= whole -> f_sub (f_int a) (cap_at (f_int a) (f_int b)) = f_int (Z.max 0 (a - b)).
Proof. intros Ha Hb. rewrite cap_at_exact by done. rewrite f_sub_exact by lia. f_equal. lia. Qed.

(** The parts a usage reports, none negative, all of them countable. *)
Record countable_usage (d : TieredUsage) : Prop := {
  cu_parts : Forall (fun n => 0 <= n) [us_PromptTokens (td_usage d); us_CompletionTokens (td_usage d); us_CachedTokens (td_usage d);
    us_CachedCreationTokens (td_usage d); us_Claude5mTokens (td_usage d); us_Claude1hTokens (td_usage d); us_ImageTokens (td_usage d);
    us_AudioTokens (td_usage d); td_outImage d; td_outAudio d];
  cu_sum : us_PromptTokens (td_usage d) + us_CachedTokens (td_usage d) + us_CachedCreationTokens (td_usage d) + us_Claude5mTokens (td_usage d) +
    us_Claude1hTokens (td_usage d) + us_ImageTokens (td_usage d) + us_AudioTokens (td_usage d) <= whole;
  cu_out : us_CompletionTokens (td_usage d) + td_outImage d + td_outAudio d <= whole
}.

(** Cache writes with a lifetime of five minutes: what is not written for an hour. *)
Definition writes5m (u : Usage) : Z := us_Claude5mTokens u + Z.max 0 (us_CachedCreationTokens u - us_Claude5mTokens u - us_Claude1hTokens u).

Lemma split_exact u :
  0 <= us_CachedCreationTokens u <= whole -> 0 <= us_Claude5mTokens u <= whole -> 0 <= us_Claude1hTokens u <= whole ->
  NormalizeCacheCreationSplit (us_CachedCreationTokens u) (us_Claude5mTokens u) (us_Claude1hTokens u) = (writes5m u, us_Claude1hTokens u).
Proof.
  intros Ha Hb Hc. unfold NormalizeCacheCreationSplit, writes5m. unfold whole in *.
  rewrite !i64_sub_id, i64_add_id by (rewrite ?i64_sub_id by i64; i64). by rewrite Z.max_comm.
Qed.

(** What the expression prices by variables of their own, and what is left to [p]. *)
Definition priced_apart (vars : list string) (u : Usage) : Z :=
  part (uses vars "cr") (us_CachedTokens u) + part (uses vars "cc") (writes5m u) + part (uses vars "cc1h") (us_Claude1hTokens u) +
  part (uses vars "img") (us_ImageTokens u) + part (uses vars "ai") (us_AudioTokens u).
Definition cache_in_p (vars : list string) (u : Usage) : Z :=
  part (negb (uses vars "cr")) (us_CachedTokens u) + part (negb (uses vars "cc")) (writes5m u) + part (negb (uses vars "cc1h")) (us_Claude1hTokens u).
Definition all_parts (u : Usage) : Z :=
  us_CachedTokens u + writes5m u + us_Claude1hTokens u + us_ImageTokens u + us_AudioTokens u.
Definition out_apart (vars : list string) (d : TieredUsage) : Z :=
  part (uses vars "img_o") (td_outImage d) + part (uses vars "ao") (td_outAudio d).

Lemma part_bounds b n : 0 <= n -> 0 <= part b n <= n.
Proof. destruct b; cbn; lia. Qed.

Lemma part_split b n : part b n + part (negb b) n = n.
Proof. destruct b; cbn; lia. Qed.

(** Totals that include their parts. *)
Lemma inclusive_counts d vars :
  countable_usage d ->
  let u := td_usage d in
  let t := BuildTieredTokenParams (Some d) false vars in
  tp_P t = f_int (Z.max 0 (us_PromptTokens u - priced_apart vars u)) /\
  tp_C t = f_int (Z.max 0 (us_CompletionTokens u - out_apart vars d)) /\
  tp_Len t = f_int (us_PromptTokens u) /\
  tp_DiscountableP t = f_int (Z.max 0 (us_PromptTokens u - all_parts u)) /\
  tp_DiscountableC t = f_int (Z.max 0 (us_CompletionTokens u - td_outImage d - td_outAudio d)) /\
  tp_CacheFallbackP t = f_int (Z.min (Z.max 0 (us_PromptTokens u - priced_apart vars u)) (cache_in_p vars u)).
Proof.
  intros [Hparts Hsum Hout]. rewrite !Forall_cons in Hparts. destruct Hparts as (? & ? & ? & ? & ? & ? & ? & ? & ? & ? & _).
  cbv zeta. unfold BuildTieredTokenParams. rewrite split_exact by lia. set (u := td_usage d) in *. cbn [negb andb].
  assert (Hw : 0 <= writes5m u <= us_CachedCreationTokens u + us_Claude5mTokens u) by (unfold writes5m; lia).
  pose proof (fun b => part_bounds b (us_CachedTokens u)) as B1. pose proof (fun b => part_bounds b (writes5m u)) as B2.
  pose proof (fun b => part_bounds b (us_Claude1hTokens u)) as B3. pose proof (fun b => part_bounds b (us_ImageTokens u)) as B4.
  pose proof (fun b => part_bounds b (us_AudioTokens u)) as B5. pose proof (fun b => part_bounds b (td_outImage d)) as B6.
  pose proof (fun b => part_bounds b (td_outAudio d)) as B7.
  unfold priced_apart, cache_in_p, all_parts, out_apart.
  pose proof (part_split (uses vars "cr") (us_CachedTokens u)). pose proof (part_split (uses vars "cc") (writes5m u)).
  pose proof (part_split (uses vars "cc1h") (us_Claude1hTokens u)). pose proof (part_split (uses vars "img") (us_ImageTokens u)).
  pose proof (part_split (uses vars "ai") (us_AudioTokens u)). pose proof (part_split (uses vars "img_o") (td_outImage d)).
  pose proof (part_split (uses vars "ao") (td_outAudio d)).
  pose proof (B1 (uses vars "cr")). pose proof (B2 (uses vars "cc")). pose proof (B3 (uses vars "cc1h")). pose proof (B4 (uses vars "img")).
  pose proof (B5 (uses vars "ai")). pose proof (B6 (uses vars "img_o")). pose proof (B7 (uses vars "ao")). clear B1 B2 B3 B4 B5 B6 B7.
  rewrite !sub_if_exact by lia. rewrite !floor_zero_exact by lia. rewrite !add_if_exact by lia.
  cbn [tp_P tp_C tp_Len tp_DiscountableP tp_DiscountableC tp_CacheFallbackP].
  rewrite !sub_cap_exact, cap_at_exact by lia.
  repeat split; f_equal; lia.
Qed.

(** Totals that leave the cache out. *)
Lemma claude_counts d vars :
  countable_usage d ->
  let u := td_usage d in
  let t := BuildTieredTokenParams (Some d) true vars in
  (tp_CR t = f_int (us_CachedTokens u) /\ tp_CC t = f_int (writes5m u) /\ tp_CC1h t = f_int (us_Claude1hTokens u) /\
   tp_Img t = f_int (us_ImageTokens u) /\ tp_AI t = f_int (us_AudioTokens u) /\
   tp_ImgO t = f_int (td_outImage d) /\ tp_AO t = f_int (td_outAudio d)) /\
  tp_P t = f_int (us_PromptTokens u) /\ tp_C t = f_int (us_CompletionTokens u) /\
  tp_Len t = f_int (us_PromptTokens u + us_CachedTokens u + writes5m u + us_Claude1hTokens u) /\
  tp_DiscountableP t = tp_P t /\ tp_DiscountableC t = tp_C t /\ tp_CacheFallbackP t = f_int 0.
Proof.
  intros [Hparts Hsum Hout]. rewrite !Forall_cons in Hparts. destruct Hparts as (? & ? & ? & ? & ? & ? & ? & ? & ? & ? & _).
  cbv zeta. unfold BuildTieredTokenParams. rewrite split_exact by lia. set (u := td_usage d) in *. cbn [negb andb].
  assert (Hw : 0 <= writes5m u <= us_CachedCreationTokens u + us_Claude5mTokens u) by (unfold writes5m; lia).
  rewrite !f_add_exact by lia. unfold sub_if. rewrite !floor_zero_exact by lia.
  cbn [tp_P tp_C tp_Len tp_CR tp_CC tp_CC1h tp_Img tp_ImgO tp_AI tp_AO tp_DiscountableP tp_DiscountableC tp_CacheFallbackP].
  rewrite !Z.max_r by lia. done.
Qed.

(** C14. What an expression is evaluated on, for any set of variables it is
    known to use and counts that are not negative and sum to at most 2^53.
    Every part of the usage has its own variable, whose value is the reported
    count.  For an upstream whose totals include their parts, p is the prompt
    less the parts with a variable in the set, c likewise, and len the whole
    prompt, so that when the parts fit in their totals every token is in p or c
    or in exactly one other variable of the set; the part of p and c that a
    discount applies to is the plain text, whichever variables there are; the
    cache tokens left in p are reported as such; and parts that exceed their
    total leave no negative count.  For an upstream that counts as Claude does,
    p and c are the reported counts as they are and open to the discount, no
    part is taken out of or left in them, and len adds the cache tokens to p:
    cache tokens without a variable in the set are then in no variable
    ([cache_without_variable_is_free]). *)
Theorem tokens_are_priced_once d isClaude vars :
  countable_usage d ->
  let u := td_usage d in
  let t := BuildTieredTokenParams (Some d) isClaude vars in
  (tp_CR t = f_int (us_CachedTokens u) /\ tp_CC t = f_int (writes5m u) /\ tp_CC1h t = f_int (us_Claude1hTokens u) /\
   tp_Img t = f_int (us_ImageTokens u) /\ tp_AI t = f_int (us_AudioTokens u) /\
   tp_ImgO t = f_int (td_outImage d) /\ tp_AO t = f_int (td_outAudio d)) /\
  if isClaude then
    tp_P t = f_int (us_PromptTokens u) /\ tp_C t = f_int (us_CompletionTokens u) /\
    tp_Len t = f_int (us_PromptTokens u + us_CachedTokens u + writes5m u + us_Claude1hTokens u) /\
    tp_DiscountableP t = tp_P t /\ tp_DiscountableC t = tp_C t /\ tp_CacheFallbackP t = f_int 0
  else
    tp_P t = f_int (Z.max 0 (us_PromptTokens u - priced_apart vars u)) /\
    tp_C t = f_int (Z.max 0 (us_CompletionTokens u - out_apart vars d)) /\
    tp_Len t = f_int (us_PromptTokens u) /\
    tp_DiscountableP t = f_int (Z.max 0 (us_PromptTokens u - all_parts u)) /\
    tp_DiscountableC t = f_int (Z.max 0 (us_CompletionTokens u - td_outImage d - td_outAudio d)) /\
    tp_CacheFallbackP t = f_int (Z.min (Z.max 0 (us_PromptTokens u - priced_apart vars u)) (cache_in_p vars u)).
Proof.
  intros Hd. cbv zeta. destruct isClaude; [by apply claude_counts|]. split; [|by apply inclusive_counts].
  destruct Hd as [Hparts Hsum Hout]. rewrite !Forall_cons in Hparts. destruct Hparts as (? & ? & ? & ? & ? & ? & ? & ? & ? & ? & _).
  unfold BuildTieredTokenParams. rewrite split_exact by lia. done.
Qed.
End Counts.

(** ** The cache of compiled expressions *)

Section Cache.
Context `{ExprEngine}.
Variable digest : string -> string.
(** No two expressions in use have the same digest. *)
Hypothesis digest_inj : forall a b, digest a = digest b -> a = b.

Inductive cache_op :=
  | OpCompile (exprStr : string)
  | OpUsedVars (exprStr : string)
  | OpInvalidate.

Definition cache_step (cache : gmap string cachedEntry) (o : cache_op) : gmap string cachedEntry :=
  match o with
  | OpCompile e => (CompileFromCache digest e cache).2
  | OpUsedVars e => (UsedVars digest e id cache).2
  | OpInvalidate => InvalidateCache cache
  end.

(** What an expression compiles to, without a cache. *)
Definition compiled (exprStr : string) : result Program := expr_compile (ParseExprVersion exprStr).2.

Definition entries_ok (cache : gmap string cachedEntry) : Prop :=
  (size cache <= maxCacheSize)%nat /\
  forall h entry, cache !! h = Some entry -> exists e, h = digest e /\ compiled e = Ok (ce_prog entry) /\
    ce_usedVars entry = extractUsedVars (ce_prog entry) /\ ce_version entry = (ParseExprVersion e).1.

Lemma compile_ok e cache :
  entries_ok cache ->
  (compileFromCacheByHash e (digest e) cache).1 = compiled e /\ entries_ok (compileFromCacheByHash e (digest e) cache).2 /\
  (forall prog, compiled e = Ok prog -> exists entry, (compileFromCacheByHash e (digest e) cache).2 !! digest e = Some entry /\ ce_prog entry = prog).
Proof.
  intros [Hsize Hc]. unfold compileFromCacheByHash, compiled in *. destruct (cache !! digest e) as [entry|] eqn:E.
  - destruct (Hc _ _ E) as (e' & <-%digest_inj & Hp & Hv). cbn [fst snd]. split; [done|]. split; [done|].
    intros prog Hp'. exists entry. split; [done|]. congruence.
  - destruct (ParseExprVersion e) as [version body] eqn:Ev. cbn [snd]. destruct (expr_compile body) as [prog|err] eqn:Ec; cbn [fst snd]; [|done].
    split; [done|]. split.
    + set (base := if (maxCacheSize <=? size cache)%nat then ∅ else cache).
      assert (Hb : (size base < maxCacheSize)%nat /\ forall h x, base !! h = Some x -> cache !! h = Some x).
      { unfold base. destruct (Nat.leb_spec maxCacheSize (size cache)); [|done]. split; [rewrite map_size_empty; unfold maxCacheSize; lia|].
        intros h x Hx. by rewrite lookup_empty in Hx. }
      destruct Hb as [Hb1 Hb2]. split.
      * rewrite map_size_insert. destruct (base !! digest e); cbn; lia.
      * intros h x Hx. apply lookup_insert_Some in Hx as [[<- <-]|[_ Hx]]; [|by apply Hc, Hb2].
        exists e. unfold compiled. rewrite Ev. by repeat split.
    + intros prog' [= <-]. eexists. rewrite lookup_insert_eq. by split.
Qed.

Lemma used_vars_ok e cache :
  entries_ok cache -> e <> "" ->
  (UsedVars digest e id cache).1 = match compiled e with Ok prog => extractUsedVars prog | Err _ => [] end /\ entries_ok (UsedVars digest e id cache).2.
Proof.
  intros Hok He. unfold UsedVars. rewrite (proj2 (String.eqb_neq _ _) He). destruct (cache !! digest e) as [entry|] eqn:E.
  - destruct (proj2 Hok _ _ E) as (e' & <-%digest_inj & Hp & Hv & _). cbn [fst snd]. by rewrite Hp.
  - destruct (compile_ok e cache Hok) as (Hr & Hok' & Hin). destruct (compileFromCacheByHash e (digest e) cache) as [[prog|err] cache'] eqn:Ec;
      cbn [fst snd id] in *; rewrite <- Hr; [|done].
    destruct (Hin prog (eq_sym Hr)) as (entry & Hentry & Hprog). rewrite Hentry. cbn [fst snd].
    destruct (proj2 Hok' _ _ Hentry) as (_ & _ & _ & Hv & _). by rewrite Hv, Hprog.
Qed.

Lemma cache_step_ok cache o : entries_ok cache -> entries_ok (cache_step cache o).
Proof.
  intros Hok. destruct o as [e|e|]; cbn [cache_step].
  - by apply compile_ok.
  - destruct (String.eqb_spec e "") as [->|He]; [done|]. by apply used_vars_ok.
  - split; [unfold InvalidateCache; rewrite map_size_empty; lia|]. intros h x Hx. unfold InvalidateCache in Hx. by rewrite lookup_empty in Hx.
Qed.

(** The cache of compiled expressions does not show.  After any sequence of
    compilations, look-ups and invalidations, an expression runs as the program
    it compiles to, it is said to use the variables of that program, its version
    is the one of its text, and the cache stays within its bound. *)
Theorem cache_is_transparent ops e :
  e <> "" ->
  let cache := foldl cache_step ∅ ops in
  (CompileFromCache digest e cache).1 = compiled e /\
  (UsedVars digest e id cache).1 = match compiled e with Ok prog => extractUsedVars prog | Err _ => [] end /\
  ExprVersion digest e cache = (ParseExprVersion e).1 /\ (size cache <= maxCacheSize)%nat.
Proof.
  intros He cache. assert (Hok : entries_ok cache).
  { unfold cache. assert (H0ok : entries_ok ∅) by (split; [rewrite map_size_empty; lia|]; intros h x Hx; by rewrite lookup_empty in Hx).
    revert H0ok. generalize (∅ : gmap string cachedEntry). induction ops as [|o ops IH]; intros c Hc; [done|]. cbn. by apply IH, cache_step_ok. }
  split; [by apply compile_ok|]. split; [by apply used_vars_ok|]. split; [|apply Hok].
  unfold ExprVersion. rewrite (proj2 (String.eqb_neq _ _) He). destruct (cache !! digest e) as [entry|] eqn:E; [|done].
  by destruct (proj2 Hok _ _ E) as (e' & <-%digest_inj & _ & _ & Hv).
Qed.

(** ** A settlement without discount *)

Lemma run_same_program e t request now cache :
  entries_ok cache ->
  (RunExprByHashWithRequest e (digest e) t request now cache).1 = (prog ← compiled e; runProgram prog t request now) /\
  entries_ok (RunExprByHashWithRequest e (digest e) t request now cache).2.
Proof.
  intros Hok. unfold RunExprByHashWithRequest. destruct (compile_ok e cache Hok) as (Hr & Hok' & _).
  destruct (compileFromCacheByHash e (digest e) cache) as [r c]. cbn [fst snd] in *. by rewrite Hr.
Qed.

Lemma same_environment t : tp_UseBillingPC t = false -> environment (with_billing_pc (tp_P t) (tp_C t) t) = environment t.
Proof. intros Hu. unfold environment. cbn. by rewrite Hu. Qed.

Context {laws : Float64Laws}.

Lemma within_exact a b other : 0 <= b <= a -> a <= whole -> within_or (f_int a) other (f_int b) = f_int b.
Proof.
  intros Hb Ha. unfold within_or. rewrite !f_lt_exact by lia. rewrite (proj2 (Z.ltb_ge b 0)), (proj2 (Z.ltb_ge a b)) by lia. done.
Qed.

Lemma undiscounted_exact a b : 0 <= b <= a -> a <= whole -> f_add (f_mul (f_int b) (f_int 1)) (f_sub (f_int a) (f_int b)) = f_int a.
Proof. intros Hb Ha. rewrite f_mul_one, f_sub_exact, f_add_exact by lia. f_equal. lia. Qed.

(** Without a discount a settlement charges the price of the expression: what
    is billed is what the plain run costs, and the discount is the difference
    of a number with itself. *)
Theorem undiscounted_price_is_original snap t request now cache tr cache' a b c d :
  entries_ok cache -> sn_ExprHash snap = digest (sn_ExprString snap) ->
  f_le (sn_UserDiscount snap) (f_int 0) || f_lt (f_int 1) (sn_UserDiscount snap) = true \/ sn_UserDiscount snap = f_int 1 ->
  tp_P t = f_int a -> tp_DiscountableP t = f_int b -> 0 <= b <= a -> a <= whole ->
  tp_C t = f_int c -> tp_DiscountableC t = f_int d -> 0 <= d <= c -> c <= whole ->
  tp_HasBreakdown t = true -> tp_UseBillingPC t = false -> now 1%nat = now 0%nat ->
  ComputeTieredQuotaWithRequest snap t request now cache = (Ok tr, cache') ->
  rs_ActualQuotaBeforeGroup tr = rs_OriginalQuotaBeforeGroup tr /\ rs_AppliedUserDiscount tr = f_int 1 /\
  rs_ActualQuotaAfterGroup tr = (QuotaRoundChecked (f_mul (rs_OriginalQuotaBeforeGroup tr) (sn_GroupRatio snap))).1.
Proof.
  intros Hok Hhash Hdisc Hp Hdp Hb Ha Hc Hdc Hd Hcw Hbr Hu Hnow. unfold ComputeTieredQuotaWithRequest. rewrite Hhash.
  set (e := sn_ExprString snap). destruct (run_same_program e t request (now 0%nat) cache Hok) as [Hr0 Hok0].
  destruct (RunExprByHashWithRequest e (digest e) t request (now 0%nat) cache) as [[[cost0 tr0]|] c0]; [|done]. cbn [fst snd] in Hr0, Hok0.
  assert (Hone : (if f_le (sn_UserDiscount snap) (f_int 0) || f_lt (f_int 1) (sn_UserDiscount snap) then f_int 1 else sn_UserDiscount snap) = f_int 1).
  { destruct Hdisc as [-> | ->]; [done|]. by destruct (_ || _). }
  rewrite Hone, Hbr. rewrite Hp, Hdp, Hc, Hdc, !within_exact, !undiscounted_exact by lia. rewrite <- Hp, <- Hc.
  match goal with |- context [RunExprByHashWithRequest e (digest e) (with_billing_pc (tp_P t) (tp_C t) t) ?q ?n ?k] =>
    destruct (run_same_program e (with_billing_pc (tp_P t) (tp_C t) t) q n k Hok0) as [Hr1 Hok1];
    destruct (RunExprByHashWithRequest e (digest e) (with_billing_pc (tp_P t) (tp_C t) t) q n k) as [[[cost1 tr1]|] c1] end; [|done].
  cbn [fst snd] in Hr1, Hok1. unfold runProgram in *. rewrite (same_environment t Hu), Hnow in Hr1. rewrite <- Hr0 in Hr1. simplify_eq.
  repeat match goal with |- context [RunExprByHashWithRequest ?a ?b ?c ?d ?e ?f] => destruct (RunExprByHashWithRequest a b c d e f) as [[[? ?]|] ?]; [|done] end.
  destruct (QuotaRoundChecked _) as [after clamp] eqn:Eq. intros [= <- <-]. cbn. by rewrite Eq.
Qed.
End Cache.

(** ** Concrete prices *)

(** Exact arithmetic satisfies the laws. *)
#[local] Instance exact_floats : Float64 :=
  {| F := Q; f_int := inject_Z; f_add := Qplus; f_sub := Qminus; f_mul := Qmult; f_div := Qdiv; f_lt := dec_lt; f_le := Qle_bool;
     f_nan := fun _ => false; f_round := fun x => inject_Z (round_half_away x); f_trunc := fun x => Z.quot (Qnum x) (Zpos (Qden x)) |}.

#[local] Instance exact_laws : Float64Laws.
Proof.
  split; cbn [f_add f_sub f_mul f_lt f_trunc f_int exact_floats F].
  - intros a b _ _ _. unfold Qplus, inject_Z. cbn. by rewrite !Z.mul_1_r.
  - intros a b _ _ _. unfold Qminus, Qplus, Qopp, inject_Z. cbn. by rewrite !Z.mul_1_r.
  - intros a b _ _. unfold dec_lt, Qle_bool, inject_Z. cbn. rewrite !Z.mul_1_r. by rewrite Z.ltb_antisym.
  - intros a _. cbn. apply Z.quot_1_r.
  - intros [n d]. unfold Qmult, inject_Z. cbn. by rewrite Z.mul_1_r, Pos.mul_1_r.
Qed.

(** One expression: [tier("base", p * 3 + c * 15 + cr * 0.3)]. *)
Definition flat_price (env : string -> Q) : Q := (env "billing_p" * 3 + env "billing_c" * 15 + env "cr" * (3 # 10))%Q.
#[local] Instance flat_engine : ExprEngine :=
  {| Program := string; RequestInput := unit; expr_compile := fun s => if String.eqb s "" then fail_with "empty" else Ok s;
     expr_identifiers := fun _ => ["tier"; "billing_p"; "billing_c"; "cr"];
     expr_run := fun _ env _ _ => Ok (flat_price env, mkTrace _ "base" (flat_price env)); no_request := tt |}.

(** A prompt of 1000 tokens, 200 of them read from a cache and 100 of an image. *)
Definition mixed_usage : TieredUsage := mkTieredUsage (mkUsage 1000 500 200 0 100 0 0 0 "" "" false) 0 0.

Lemma tokens_are_priced_once_witness :
  (let t := BuildTieredTokenParams (Some mixed_usage) false ["p"; "c"; "cr"] in
   tp_P t = inject_Z 800 /\ tp_DiscountableP t = inject_Z 700 /\ tp_Len t = inject_Z 1000 /\ tp_CR t = inject_Z 200) /\
  (let t := BuildTieredTokenParams (Some mixed_usage) true ["p"; "c"; "cr"] in
   tp_P t = inject_Z 1000 /\ tp_Len t = inject_Z 1200 /\ tp_CR t = inject_Z 200).
Proof.
  assert (Hd : countable_usage mixed_usage)
    by (split; [repeat constructor; vm_compute; congruence|vm_compute; congruence|vm_compute; congruence]).
  destruct (tokens_are_priced_once mixed_usage false ["p"; "c"; "cr"] Hd) as [(Hc & _) (Hp & _ & Hl & Hdp & _)].
  destruct (tokens_are_priced_once mixed_usage true ["p"; "c"; "cr"] Hd) as [(Hc' & _) (Hp' & _ & Hl' & _)].
  cbv zeta. rewrite Hp, Hl, Hdp, Hc, Hp', Hl', Hc'. repeat split; reflexivity.
Defined.

Lemma cache_is_transparent_witness :
  (CompileFromCache id "v1:p * 3" (foldl (cache_step id) ∅ [OpCompile "p * 2"; OpUsedVars "v1:p * 3"; OpInvalidate])).1 = Ok "p * 3".
Proof. destruct (cache_is_transparent id ltac:(intros a b E; exact E) [OpCompile "p * 2"; OpUsedVars "v1:p * 3"; OpInvalidate] "v1:p * 3") as [Hc _]; [discriminate|]. exact Hc. Defined.

(** When another request empties the cache between compilation and the second
    look, no variables are known to be used: the 200 cached tokens stay in [p]
    and are charged by [cr] as well. *)
Example flushed_cache_charges_twice :
  let vars := (UsedVars id "e" id ∅).1 in
  let lost := (UsedVars id "e" (fun _ => ∅) ∅).1 in
  let cost vars := flat_price (environment (BuildTieredTokenParams (Some mixed_usage) false vars)) in
  lost = [] /\ Qeq_bool (cost vars) (800 * 3 + 500 * 15 + 60) = true /\ Qeq_bool (cost lost) (1000 * 3 + 500 * 15 + 60) = true.
Proof. vm_compute. by repeat split. Qed.

(** A provider whose prompt count leaves cache tokens out: with an expression
    that has no variable for them, they are in no variable and cost nothing. *)
Example cache_without_variable_is_free :
  let t := BuildTieredTokenParams (Some mixed_usage) true ["p"; "c"] in
  Qeq_bool (tp_Len t) 1200 = true /\ tp_P t = inject_Z 1000 /\ tp_CacheFallbackP t = inject_Z 0.
Proof. vm_compute. by repeat split. Qed.
