(* ===== verification/Threads.v ===== *)
(** * Threads over a shared store

    A goroutine that works on shared tables is a thread of moves, one per
    database call: a move sees the tables as the other threads left them.
    Which thread moves next is arbitrary.  The rules below verify a thread on
    its own: it may rely on what the others guarantee, and a row that only it
    may change is in the set of rows it owns. *)

From stdpp Require Import base list sets gmap.
From Stdlib Require Import ZArith Lia.
From S2P Require Import Prelude.

Inductive thread (S : Type) :=
  | Finished
  | Panicked
  | Move (next : S -> thread S * S).
Arguments Finished {S}.
Arguments Panicked {S}.
Arguments Move {S} next.

(** Thread [i] makes its next move; a thread that has ended makes none. *)
Definition run_thread {S} (i : nat) (sys : list (thread S) * S) : list (thread S) * S :=
  match sys.1 !! i with
  | Some (Move next) => let '(p, s) := next sys.2 in (<[i := p]> sys.1, s)
  | _ => sys
  end.

(** A thread that runs alone, for at most [fuel] moves. *)
Fixpoint run_alone {S} (fuel : nat) (p : thread S) (s : S) : thread S * S :=
  match fuel, p with
  | Datatypes.S fuel, Move next => let '(p, s) := next s in run_alone fuel p s
  | _, _ => (p, s)
  end.

(** What threads promise each other.  [rely O] is what the owner of the rows
    [O] may assume of the moves of others; [guar O O'] is what it promises of a
    move that makes it the owner of [O']. *)
Class Protocol (S : Type) := {
  sound : S -> Prop;
  owned : gset Z -> S -> Prop;
  rely : gset Z -> S -> S -> Prop;
  guar : gset Z -> gset Z -> S -> S -> Prop;
  rely_refl O s : rely O s s;
  rely_trans O s1 s2 s3 : rely O s1 s2 -> rely O s2 s3 -> rely O s1 s3;
  rely_owned O s s' : owned O s -> rely O s s' -> owned O s';
  guar_owned O O' s s' : owned O s -> guar O O' s s' -> owned O' s';
  (** a move is allowed by every other thread *)
  guar_rely O O' P s s' : guar O O' s s' -> owned O s -> owned P s -> O ## P -> rely P s s';
  (** a row gets one owner *)
  guar_fresh O O' P s s' : guar O O' s s' -> owned P s -> O ## P -> O' ## P
}.

Section Rules.
Context {S : Type} `{Protocol S}.

(** [p] keeps its promises from [s] on, whatever the others do. *)
Fixpoint promises (O : gset Z) (p : thread S) (s : S) : Prop :=
  match p with
  | Finished | Panicked => True
  | Move next => forall s', rely O s s' -> sound s' -> owned O s' ->
      let '(p', s'') := next s' in sound s'' /\ exists O', guar O O' s' s'' /\ promises O' p' s''
  end.

Lemma promises_rely O p s s' : promises O p s -> rely O s s' -> promises O p s'.
Proof. destruct p as [| |next]; [done|done|]. intros Hk Hr s2 Hr2. apply Hk. by eapply rely_trans. Qed.

(** The invariant of a system: some assignment of rows to threads. *)
Definition system_ok (ps : list (thread S)) (s : S) : Prop :=
  sound s /\ exists Os : list (gset Z), Forall2 (fun p O => promises O p s /\ owned O s) ps Os /\
    forall i j A B, i <> j -> Os !! i = Some A -> Os !! j = Some B -> A ## B.

Lemma system_run ps s i next p' s' :
  system_ok ps s -> ps !! i = Some (Move next) -> next s = (p', s') ->
  system_ok (<[i := p']> ps) s' /\ exists O O', owned O s /\ guar O O' s s'.
Proof.
  intros [Hs (Os & Hf & Hd)] Hi En. destruct (Forall2_lookup_l _ _ _ _ _ Hf Hi) as (O & Ho & Hk & Hw).
  cbn [promises] in Hk. specialize (Hk s (rely_refl _ _) Hs Hw). rewrite En in Hk. destruct Hk as (Hs' & O' & Hg & Hk).
  split; [|by exists O, O']. split; [done|]. exists (<[i := O']> Os).
  assert (Hl : (i < length Os)%nat) by (by eapply lookup_lt_Some).
  split.
  - apply Forall2_same_length_lookup_2; [by rewrite !length_insert, (Forall2_length _ _ _ Hf)|].
    intros j p P Hp HP. destruct (decide (j = i)) as [->|Hne].
    + rewrite list_lookup_insert_eq in Hp by (by eapply lookup_lt_Some). rewrite list_lookup_insert_eq in HP by done. simplify_eq. split; [done|]. by eapply guar_owned.
    + rewrite list_lookup_insert_ne in Hp by done. rewrite list_lookup_insert_ne in HP by done. destruct (Forall2_lookup_lr _ _ _ _ _ _ Hf Hp HP) as [Hkp Hwp].
      assert (Hr : rely P s s') by (eapply guar_rely; [done..|]; by eapply (Hd i j)).
      split; [by eapply promises_rely|by eapply rely_owned].
  - assert (Hx : forall j P, j <> i -> Os !! j = Some P -> O' ## P).
    { intros j P Hne HP. destruct (Forall2_lookup_r _ _ _ _ _ Hf HP) as (p & _ & _ & Hwp).
      eapply guar_fresh; [done..|]. by eapply (Hd i j). }
    intros j k A B Hjk HA HB. destruct (decide (j = i)) as [->|Hj], (decide (k = i)) as [->|Hk']; [done|..].
    + rewrite list_lookup_insert_eq in HA by done. rewrite list_lookup_insert_ne in HB by done. simplify_eq. by eapply Hx.
    + rewrite list_lookup_insert_eq in HB by done. rewrite list_lookup_insert_ne in HA by done. simplify_eq. symmetry. by eapply Hx.
    + rewrite list_lookup_insert_ne in HA by done. rewrite list_lookup_insert_ne in HB by done. by eapply (Hd j k).
Qed.

Lemma system_spawn ps s p : system_ok ps s -> promises ∅ p s -> owned ∅ s -> system_ok (ps ++ [p]) s.
Proof.
  intros [Hs (Os & Hf & Hd)] Hk Hw. split; [done|]. exists (Os ++ [∅]). split; [apply Forall2_app; [done|by repeat constructor]|].
  intros i j A B Hij [HA|[_ HA]]%lookup_app_Some [HB|[_ HB]]%lookup_app_Some; [by eapply (Hd i j)|..];
    apply list_lookup_singleton_Some in HA as [_ <-] || apply list_lookup_singleton_Some in HB as [_ <-]; set_solver.
Qed.

(** A change from outside that every thread may rely on. *)
Lemma system_interfere ps s s' : system_ok ps s -> sound s' -> (forall O, owned O s -> rely O s s') -> system_ok ps s'.
Proof.
  intros [Hs (Os & Hf & Hd)] Hs' Hr. split; [done|]. exists Os. split; [|done].
  eapply Forall2_impl; [done|]. intros p O [Hk Hw]. split; [eapply promises_rely; eauto|eapply rely_owned; eauto].
Qed.

Lemma system_start s : sound s -> system_ok [] s.
Proof. intros Hs. split; [done|]. exists []. by split; [constructor|]. Qed.
End Rules.
