(* ===== verification/Midjourney.v ===== *)
(** * Midjourney tasks

    The table of Midjourney tasks and its writers ([src/model/midjourney.go]),
    the billing columns of a task and their refund ([src/service/task_billing.go]),
    the poller ([UpdateMidjourneyTaskBulk] of src/controller/midjourney.go) and
    the callback of an upstream ([RelayMidjourneyNotify] of
    src/relay/mjproxy_handler.go).

    A task is charged when it is submitted; the charge is recorded in the
    billing columns of its row.  The poller is a [thread] that makes one
    database call at a time: it reads the unfinished tasks, asks their channels,
    writes back each task on condition that its status is the one it read, and
    refunds the task when it failed.  The answers of the channels and the order in
    which a round visits them are arguments.  [model.DB] is not nil. *)

From stdpp Require Import base numbers list strings pretty sets sorting gmap.
From Stdlib Require Import ZArith Lia.
From S2P Require Import Prelude GoInt GoMonad GoString GoTime WindowBounds SubPlan SubStore Commission Wallet Funding BillingSession TaskBilling ClaudeStream Threads.

Local Open Scope string_scope.
Local Open Scope list_scope.
Local Open Scope Z_scope.

(** ** Rows *)

(** The billing columns. *)
Record MjBilling := mkMjBilling {
  mb_BillingSource : string; mb_BillingPreConsumed : Z; mb_SubscriptionId : Z; mb_SubscriptionRequestId : string;
  mb_SubscriptionPreConsumed : Z; mb_TokenId : Z; mb_BillingRefunded : Z; mb_FundingDone : Z; mb_TokenDone : Z;
  mb_WalletRewardUsed : Z; mb_WalletPaidUsed : Z; mb_BreakdownRecorded : Z; mb_ConsumeRebateSettled : Z
}.

(** The columns that follow the upstream. *)
Record MjView := mkMjView {
  mv_Code : Z; mv_PromptEn : string; mv_State : string; mv_SubmitTime : Z; mv_StartTime : Z; mv_FinishTime : Z;
  mv_ImageUrl : string; mv_VideoUrl : string; mv_VideoUrls : string; mv_Status : string; mv_Progress : string;
  mv_FailReason : string; mv_Buttons : string; mv_Properties : string
}.

Record Midjourney := mkMidjourney {
  mj_Id : Z; mj_UserId : Z; mj_Action : string; mj_MjId : string; mj_Prompt : string; mj_Description : string;
  mj_ChannelId : Z; mj_Quota : Z; mj_view : MjView; mj_billing : MjBilling
}.

Definition with_view (v : MjView) (t : Midjourney) : Midjourney :=
  mkMidjourney (mj_Id t) (mj_UserId t) (mj_Action t) (mj_MjId t) (mj_Prompt t) (mj_Description t) (mj_ChannelId t) (mj_Quota t) v (mj_billing t).
Definition with_billing (b : MjBilling) (t : Midjourney) : Midjourney :=
  mkMidjourney (mj_Id t) (mj_UserId t) (mj_Action t) (mj_MjId t) (mj_Prompt t) (mj_Description t) (mj_ChannelId t) (mj_Quota t) (mj_view t) b.
Definition with_id (id : Z) (t : Midjourney) : Midjourney :=
  mkMidjourney id (mj_UserId t) (mj_Action t) (mj_MjId t) (mj_Prompt t) (mj_Description t) (mj_ChannelId t) (mj_Quota t) (mj_view t) (mj_billing t).
Definition set_report_status (status progress fail : string) (v : MjView) : MjView :=
  mkMjView (mv_Code v) (mv_PromptEn v) (mv_State v) (mv_SubmitTime v) (mv_StartTime v) (mv_FinishTime v) (mv_ImageUrl v) (mv_VideoUrl v)
    (mv_VideoUrls v) status progress fail (mv_Buttons v) (mv_Properties v).
Definition set_used_split (reward paid recorded : Z) (b : MjBilling) : MjBilling :=
  mkMjBilling (mb_BillingSource b) (mb_BillingPreConsumed b) (mb_SubscriptionId b) (mb_SubscriptionRequestId b)
    (mb_SubscriptionPreConsumed b) (mb_TokenId b) (mb_BillingRefunded b) (mb_FundingDone b) (mb_TokenDone b) reward paid recorded
    (mb_ConsumeRebateSettled b).
Definition set_refund_marks (refunded funding token : Z) (b : MjBilling) : MjBilling :=
  mkMjBilling (mb_BillingSource b) (mb_BillingPreConsumed b) (mb_SubscriptionId b) (mb_SubscriptionRequestId b)
    (mb_SubscriptionPreConsumed b) (mb_TokenId b) refunded funding token (mb_WalletRewardUsed b) (mb_WalletPaidUsed b)
    (mb_BreakdownRecorded b) (mb_ConsumeRebateSettled b).
Definition set_rebate_settled (b : MjBilling) : MjBilling :=
  mkMjBilling (mb_BillingSource b) (mb_BillingPreConsumed b) (mb_SubscriptionId b) (mb_SubscriptionRequestId b)
    (mb_SubscriptionPreConsumed b) (mb_TokenId b) (mb_BillingRefunded b) (mb_FundingDone b) (mb_TokenDone b) (mb_WalletRewardUsed b)
    (mb_WalletPaidUsed b) (mb_BreakdownRecorded b) 1.

Definition mj_Status (t : Midjourney) : string := mv_Status (mj_view t).
Definition mj_Progress (t : Midjourney) : string := mv_Progress (mj_view t).

(** ** The table *)

Record mjdb := mkMjdb {
  md_rows : gmap Z Midjourney;
  md_next : Z;                                   (* the next primary key *)
  md_world : world;
  md_rebates : list (Z * string * Z * option ConsumeRebateContext)   (* calls of ApplyInviteConsumeRebate that succeeded *)
}.

Definition put_rows (rows : gmap Z Midjourney) (s : mjdb) : mjdb := mkMjdb rows (md_next s) (md_world s) (md_rebates s).
Definition put_mjworld (w : world) (s : mjdb) : mjdb := mkMjdb (md_rows s) (md_next s) w (md_rebates s).
Definition put_rebate (r : Z * string * Z * option ConsumeRebateContext) (s : mjdb) : mjdb :=
  mkMjdb (md_rows s) (md_next s) (md_world s) (md_rebates s ++ [r]).

(** What the upstream reports of a task ([dto.MidjourneyDto]). *)
Record MidjourneyDto := mkMjDto {
  dt_MjId : string; dt_PromptEn : string; dt_State : string; dt_SubmitTime : Z; dt_StartTime : Z; dt_FinishTime : Z;
  dt_ImageUrl : string; dt_VideoUrl : string; dt_VideoUrls : option (list string); dt_Status : string; dt_Progress : string;
  dt_FailReason : string; dt_Buttons : option Json; dt_Properties : option (string * string)
}.

Definition report_failure (reason : string) (d : MidjourneyDto) : MidjourneyDto :=
  mkMjDto (dt_MjId d) (dt_PromptEn d) (dt_State d) (dt_SubmitTime d) (dt_StartTime d) (dt_FinishTime d) (dt_ImageUrl d) (dt_VideoUrl d)
    (dt_VideoUrls d) "FAILURE" (dt_Progress d) reason (dt_Buttons d) (dt_Properties d).

(** [json.Marshal] on the values in use. *)
Class MjJson := {
  marshal_urls : option (list string) -> string;
  marshal_buttons : Json -> string;
  marshal_properties : string * string -> string
}.

Section Operations.
Context `{Deployment} `{DBClock} `{LocalZone} `{MjJson}.
Variable sha256_hex : string -> string.

(** One database call on the table: an error and no change, or its effect. *)
Definition mj_call {A} (f : reply -> GM mjdb A) : GM mjdb A :=
  r ← zoom md_world put_mjworld ask; match re_fault r with Some e => throw e | None => f r end.

(** ** The writers of the table *)

(** [DB.Create] *)
Definition Midjourney_Insert (t : Midjourney) : GM mjdb Midjourney :=
  mj_call (fun _ s =>
    let t := with_id (md_next s) t in
    (Ok t, mkMjdb (<[md_next s := t]> (md_rows s)) (md_next s + 1) (md_world s) (md_rebates s))).

(** [DB.Save]: the whole row. *)
Definition Midjourney_Update (t : Midjourney) : GM mjdb unit :=
  mj_call (fun _ => modify (fun s => put_rows (<[mj_Id t := t]> (md_rows s)) s)).

(** Every column, where the status is still [fromStatus]. *)
Definition UpdateWithStatus (t : Midjourney) (fromStatus : string) : GM mjdb bool :=
  mj_call (fun _ s =>
    match md_rows s !! mj_Id t with
    | Some row =>
        if String.eqb (mj_Status row) fromStatus then (Ok true, put_rows (<[mj_Id t := t]> (md_rows s)) s) else (Ok false, s)
    | None => (Ok false, s)
    end).

Definition UpdateProgress (id : Z) (progress : string) : GM mjdb unit :=
  mj_call (fun _ => modify (fun s =>
    put_rows (alter (fun t => with_view (set_report_status (mj_Status t) progress (mv_FailReason (mj_view t)) (mj_view t)) t) id (md_rows s)) s)).

(** [status = FAILURE], [progress = 100%] and, when given, [fail_reason]. *)
Definition fail_row (reason : option string) (t : Midjourney) : Midjourney :=
  with_view (set_report_status "FAILURE" "100%" (default (mv_FailReason (mj_view t)) reason) (mj_view t)) t.

Definition MjBulkUpdateByTaskIds (ids : list Z) (reason : option string) : GM mjdb unit :=
  mj_call (fun _ => modify (fun s =>
    put_rows ((fun t => if bool_decide (mj_Id t ∈ ids) then fail_row reason t else t) <$> md_rows s) s)).

Definition MjBulkUpdate (mjIds : list string) (reason : option string) : GM mjdb unit :=
  mj_call (fun _ => modify (fun s =>
    put_rows ((fun t => if bool_decide (mj_MjId t ∈ mjIds) then fail_row reason t else t) <$> md_rows s) s)).

(** The table in the order of the primary key. *)
Definition mj_le (a b : Midjourney) : Prop := mj_Id a <= mj_Id b.
#[local] Instance mj_le_dec : RelDecision mj_le := fun a b => decide (mj_Id a <= mj_Id b).
Definition rows_in_order (s : mjdb) : list Midjourney := merge_sort mj_le (map snd (map_to_list (md_rows s))).

(** No rows when the query fails. *)
Definition GetAllUnFinishTasks : GM mjdb (list Midjourney) :=
  r ← attempting (mj_call (fun _ => gets (fun s => List.filter (fun t => negb (String.eqb (mj_Progress t) "100%")) (rows_in_order s))));
  match r with Ok tasks => mret tasks | Err _ => mret [] end.

Definition GetByOnlyMJId (mjId : string) : GM mjdb (option Midjourney) :=
  r ← attempting (mj_call (fun _ => gets (fun s => List.find (fun t => String.eqb (mj_MjId t) mjId) (rows_in_order s))));
  match r with Ok t => mret t | Err _ => mret None end.

(** ** The billing columns *)

Definition persistMidjourneyBillingState (t : Midjourney) : GM mjdb unit :=
  if mj_Id t <=? 0 then mret tt
  else mj_call (fun _ => modify (fun s => put_rows (alter (with_billing (mj_billing t)) (mj_Id t) (md_rows s)) s)).

(** The object as the request handler holds it afterwards. *)
Definition recorded_billing (info : RelayInfo) (t : Midjourney) : Midjourney :=
  let b := mj_billing t in
  let sub := String.eqb (ri_BillingSource info) BillingSourceSubscription in
  with_billing (mkMjBilling (ri_BillingSource info) (ri_FinalPreConsumedQuota info) (ri_SubscriptionId info)
    (if sub then TrimSpace (ri_RequestId info) else "") (if sub then ri_SubscriptionPreConsumed info else 0) (ri_TokenId info)
    (mb_BillingRefunded b) (mb_FundingDone b) (mb_TokenDone b) (mb_WalletRewardUsed b) (mb_WalletPaidUsed b) (mb_BreakdownRecorded b)
    (mb_ConsumeRebateSettled b)) t.

Definition RecordMidjourneyBilling (info : RelayInfo) (t : Midjourney) : GM mjdb unit :=
  persistMidjourneyBillingState (recorded_billing info t).

Definition recorded_funding (rewardUsed paidUsed : Z) (t : Midjourney) : Midjourney :=
  with_billing (set_used_split rewardUsed paidUsed 1 (mj_billing t)) t.

Definition RecordMidjourneyWalletFunding (rewardUsed paidUsed : Z) (t : Midjourney) : GM mjdb unit :=
  persistMidjourneyBillingState (recorded_funding rewardUsed paidUsed t).

Definition CovertMjpActionToModelName (action : string) : string :=
  if String.eqb action "SWAP_FACE" then "swap_face" else "mj_" +:+ ToLower action.

(** ** Refunds *)

(** What a row says was taken. *)
Definition refund_amount (t : Midjourney) : Z :=
  let amount := mb_BillingPreConsumed (mj_billing t) in
  let amount := if amount <=? 0 then mb_SubscriptionPreConsumed (mj_billing t) else amount in
  if (amount <=? 0) && (0 <? mj_Quota t) then mj_Quota t else amount.

Definition billing_source (t : Midjourney) : string := TrimSpace (mb_BillingSource (mj_billing t)).

(** What a row says was taken from the token. *)
Definition token_refund_amount (t : Midjourney) : Z :=
  if String.eqb (billing_source t) "subscription" then 0
  else
    let amount := mb_BillingPreConsumed (mj_billing t) in
    if (amount <=? 0) && String.eqb (billing_source t) "" then mj_Quota t else amount.

(** The reward part of what was taken. *)
Definition refund_reward (t : Midjourney) (total : Z) : result Z :=
  let b := mj_billing t in
  if mb_BreakdownRecorded b =? 1 then
    if negb (i64_add (mb_WalletRewardUsed b) (mb_WalletPaidUsed b) =? total) then fail_with "Midjourney wallet snapshot mismatch"
    else if (mb_WalletRewardUsed b <? 0) || (total <? mb_WalletRewardUsed b) then fail_with "invalid Midjourney wallet reward snapshot"
    else Ok (mb_WalletRewardUsed b)
  else Ok 0.

Definition refund_wallet (t : Midjourney) (amount : Z) (w : world) : result world :=
  if negb (String.eqb (billing_source t) "subscription") && (0 <? amount) then
    reward ← refund_reward t amount;
    match w_users w !! mj_UserId t with
    | None => Err ErrRecordNotFound
    | Some _ => Ok (update_user (mj_UserId t) (credit amount reward) w)
    end
  else Ok w.

Definition refund_subscription (t : Midjourney) (now : Z) (w : world) : result world :=
  let b := mj_billing t in
  if String.eqb (billing_source t) "subscription" then
    let requestID := TrimSpace (mb_SubscriptionRequestId b) in
    if negb (String.eqb requestID "") then
      '(_, db) ← refundSubscriptionPreConsumeTx requestID now now (w_subdb w); Ok (set_subdb db w)
    else if (0 <? mb_SubscriptionId b) && (0 <? mb_SubscriptionPreConsumed b)
    then fail_with "Midjourney subscription refund request id is missing"
    else Ok w
  else Ok w.

Definition refund_mj_token (t : Midjourney) (clock : Z) (w : world) : result world :=
  let amount := token_refund_amount t in
  let tokenId := mb_TokenId (mj_billing t) in
  if (0 <? amount) && (0 <? tokenId) then
    if max_i64 <? amount then fail_with "midjourney token refund amount overflows int"
    else match w_tokens w !! tokenId with
         | None => Err ErrRecordNotFound
         | Some _ => Ok (update_token tokenId (credit_token clock amount) w)
         end
  else Ok w.

Definition mark_refunded (t : Midjourney) : Midjourney :=
  with_billing (set_rebate_settled (set_used_split 0 0 0 (set_refund_marks 1 1 1 (mj_billing t)))) t.

(** The transaction: the row afterwards and the tables. *)
Definition refund_midjourney_tx (id clock now : Z) (s : mjdb) : result (Midjourney * mjdb) :=
  match md_rows s !! id with
  | None => Err ErrRecordNotFound
  | Some current =>
      if mb_BillingRefunded (mj_billing current) =? 1 then Ok (current, s)
      else
        let amount := refund_amount current in
        let source := billing_source current in
        _ ← reject_if (amount <? 0) "midjourney refund amount must be >= 0";
        _ ← reject_if (max_i64 <? amount) "midjourney refund amount overflows int";
        _ ← reject_if (negb (str_in source [""; "wallet"; "subscription"])) "invalid Midjourney billing source";
        w ← refund_wallet current amount (md_world s);
        w ← refund_subscription current now w;
        w ← refund_mj_token current clock w;
        _ ← reject_if (negb (mb_BillingRefunded (mj_billing current) =? 0)) "midjourney refund marker was not persisted";
        Ok (mark_refunded current, put_rows (<[id := mark_refunded current]> (md_rows s)) (put_mjworld w s))
  end.

(** The object is replaced by the row when the transaction commits. *)
Definition RefundMidjourneyBilling (t : Midjourney) : GM mjdb Midjourney :=
  if mj_Id t <=? 0 then throw (ErrMsg "midjourney task is not persisted")
  else mj_call (fun r s =>
    match refund_midjourney_tx (mj_Id t) (re_clock r) (re_txnow r) s with Ok (row, s') => (Ok row, s') | Err e => (Err e, s) end).

(** A task that has no row: the two sides are marked on the object, 0 pending,
    1 completed, 2 claimed.  The writes to the row in these functions are not
    reached, since a task with a row is refunded in one transaction. *)
Definition object : Type := Midjourney * mjdb.
Definition put_obj_world (w : world) (s : object) : object := (s.1, put_mjworld w s.2).
Definition on_mjworld {A} (m : GM world A) : GM object A := zoom (fun s : object => md_world s.2) put_obj_world m.
Definition set_marks (f : MjBilling -> MjBilling) : GM object unit := modify (fun s => (with_billing (f (mj_billing s.1)) s.1, s.2)).

Definition mark_funding (v : Z) (b : MjBilling) : MjBilling := set_refund_marks (mb_BillingRefunded b) v (mb_TokenDone b) b.
Definition mark_token (v : Z) (b : MjBilling) : MjBilling := set_refund_marks (mb_BillingRefunded b) (mb_FundingDone b) v b.

Definition claimMidjourneyRefundSide (state : MjBilling -> Z) (mark : Z -> MjBilling -> MjBilling) : GM object bool :=
  b ← gets (fun s : object => mj_billing s.1);
  if (state b =? 1) || (mb_BillingRefunded b =? 1) || negb (state b =? 0) then mret false
  else _ ← set_marks (mark 2); mret true.

(** [finishMidjourneyRefundSide] after [m], and its error. *)
Definition finish_side (mark : Z -> MjBilling -> MjBilling) (m : GM object unit) : GM object unit :=
  r ← attempting m;
  match r with
  | Ok _ => set_marks (mark 1)
  | Err e => _ ← set_marks (mark 0); throw e
  end.

Definition refund_unsaved_funding : GM object unit :=
  t ← gets fst;
  let b := mj_billing t in
  if String.eqb (mb_BillingSource b) BillingSourceSubscription then
    let requestID := TrimSpace (mb_SubscriptionRequestId b) in
    if negb (String.eqb requestID "") then on_mjworld (sub_call (fun db now txnow => RefundSubscriptionPreConsume db now txnow requestID))
    else if (0 <? mb_SubscriptionId b) && (0 <? mb_SubscriptionPreConsumed b)
    then throw (ErrMsg "Midjourney subscription refund request id is missing")
    else mret tt
  else
    let refundTotal := if (0 <? mb_BillingPreConsumed b) && (mj_Quota t <=? 0) then mb_BillingPreConsumed b else mj_Quota t in
    if refundTotal <=? 0 then mret tt
    else if mb_BreakdownRecorded b =? 1 then
      let consumedTotal := i64_add (mb_WalletRewardUsed b) (mb_WalletPaidUsed b) in
      if negb (consumedTotal =? refundTotal) then throw (ErrMsg "Midjourney wallet snapshot mismatch")
      else on_mjworld (IncreaseUserQuotaByBreakdown (mj_UserId t) consumedTotal (mb_WalletRewardUsed b))
    else on_mjworld (IncreaseUserQuota (mj_UserId t) refundTotal false).

Definition refund_unsaved_token : GM object unit :=
  t ← gets fst;
  let b := mj_billing t in
  if String.eqb (mb_BillingSource b) BillingSourceSubscription then mret tt
  else
    let refundQuota := if mb_BillingPreConsumed b <=? 0 then mj_Quota t else mb_BillingPreConsumed b in
    if (0 <? refundQuota) && (0 <? mb_TokenId b) then
      token ← on_mjworld (GetTokenById (mb_TokenId b));
      on_mjworld (IncreaseTokenQuota (mb_TokenId b) (t_Key token) refundQuota)
    else mret tt.

Definition finalizeMidjourneyRefund : GM object unit :=
  b ← gets (fun s : object => mj_billing s.1);
  if negb (mb_FundingDone b =? 1) || negb (mb_TokenDone b =? 1) then mret tt
  else set_marks (fun b => set_rebate_settled (set_used_split 0 0 0 (set_refund_marks 1 (mb_FundingDone b) (mb_TokenDone b) b))).

(** A task with a row is refunded in one transaction. *)
Definition RefundMidjourneyQuota : GM object unit :=
  t ← gets fst;
  if 0 <? mj_Id t then
    row ← zoom snd (fun s (o : object) => (o.1, s)) (RefundMidjourneyBilling t);
    modify (fun s : object => (row, s.2))
  else if mb_BillingRefunded (mj_billing t) =? 1 then mret tt
  else
    fundingClaimed ← claimMidjourneyRefundSide mb_FundingDone mark_funding;
    _ ← (if fundingClaimed : bool then finish_side mark_funding refund_unsaved_funding else mret tt);
    tokenClaimed ← claimMidjourneyRefundSide mb_TokenDone mark_token;
    _ ← (if tokenClaimed : bool then finish_side mark_token refund_unsaved_token else mret tt);
    finalizeMidjourneyRefund.

(** ** The poller *)

Definition checkMjTaskNeedUpdate (old : Midjourney) (new : MidjourneyDto) : bool :=
  let v := mj_view old in
  negb (mv_Code v =? 1)
  || negb (String.eqb (mv_Progress v) (dt_Progress new)) || negb (String.eqb (mv_PromptEn v) (dt_PromptEn new))
  || negb (String.eqb (mv_State v) (dt_State new)) || negb (mv_SubmitTime v =? dt_SubmitTime new)
  || negb (mv_StartTime v =? dt_StartTime new) || negb (mv_FinishTime v =? dt_FinishTime new)
  || negb (String.eqb (mv_ImageUrl v) (dt_ImageUrl new)) || negb (String.eqb (mv_Status v) (dt_Status new))
  || negb (String.eqb (mv_FailReason v) (dt_FailReason new))
  || (negb (String.eqb (mv_Progress v) "100%") && negb (String.eqb (dt_FailReason new) ""))
  || negb (String.eqb (mv_VideoUrl v) (dt_VideoUrl new))
  || match dt_VideoUrls new with
     | Some (u :: us) => negb (String.eqb (mv_VideoUrls v) (marshal_urls (Some (u :: us))))
     | _ => negb (String.eqb (mv_VideoUrls v) "")
     end.

(** The columns a report changes. *)
Definition reported_view (item : MidjourneyDto) (v : MjView) : MjView :=
  mkMjView 1 (dt_PromptEn item) (dt_State item) (dt_SubmitTime item) (dt_StartTime item) (dt_FinishTime item) (dt_ImageUrl item)
    (dt_VideoUrl item) (match dt_VideoUrls item with Some (u :: us) => marshal_urls (Some (u :: us)) | _ => "" end)
    (dt_Status item) (dt_Progress item) (dt_FailReason item)
    (match dt_Buttons item with Some b => marshal_buttons b | None => mv_Buttons v end)
    (match dt_Properties item with Some p => marshal_properties p | None => mv_Properties v end).

(** The object after a report at time [now] (milliseconds), and whether it is to
    be refunded; [None] when there is nothing to write. *)
Definition apply_report (now : Z) (item : MidjourneyDto) (task : Midjourney) : option (Midjourney * bool) :=
  let useTime := i64_sub now (mv_SubmitTime (mj_view task)) in
  let item := if (3600000 <? useTime) && negb (String.eqb (mj_Progress task) "100%")
              then report_failure "上游任务超时（超过1小时）" item else item in
  if negb (checkMjTaskNeedUpdate task item) then None
  else
    let task := with_view (reported_view item (mj_view task)) task in
    if (negb (String.eqb (mj_Progress task) "100%") && negb (String.eqb (dt_FailReason item) ""))
       || (String.eqb (mj_Progress task) "100%" && String.eqb (mj_Status task) "FAILURE")
    then Some (with_view (set_report_status (mj_Status task) "100%" (mv_FailReason (mj_view task)) (mj_view task)) task, negb (mj_Quota task =? 0))
    else Some (task, false).

(** [model.ApplyInviteConsumeRebate] for a finished task. *)
Definition midjourney_rebate (t : Midjourney) : Z * string * Z * option ConsumeRebateContext :=
  let modelName := CovertMjpActionToModelName (mj_Action t) in
  (mj_UserId t, stableConsumeRebateRequestId sha256_hex "midjourney-final" (mj_MjId t), mb_WalletPaidUsed (mj_billing t),
   Some (mkRebateContext 0 0 modelName modelName)).

Definition mjthread : Type := thread mjdb.
(** A database call, then the rest of the thread. *)
Definition step_call {A} (m : GM mjdb A) (k : result A -> mjthread) : mjthread := Move (fun s => let '(r, s') := m s in (k r, s')).

(** [k] gets the object as it is afterwards. *)
Definition FinalizeMidjourneyConsumeRebate (task : Midjourney) (k : Midjourney -> mjthread) : mjthread :=
  let b := mj_billing task in
  if negb (mb_BreakdownRecorded b =? 1) || (mb_ConsumeRebateSettled b =? 1) then k task
  else
    let settled := with_billing (set_rebate_settled b) task in
    let persist := step_call (persistMidjourneyBillingState settled) (fun _ => k settled) in
    if 0 <? mb_WalletPaidUsed b then
      step_call (mj_call (fun _ => modify (put_rebate (midjourney_rebate task)))) (fun r =>
        match r with Ok _ => persist | Err _ => k task end)
    else persist.

(** What follows the update of a task. *)
Definition after_update (task : Midjourney) (shouldReturnQuota : bool) (won : result bool) (k : Midjourney -> mjthread) : mjthread :=
  match won with
  | Ok true =>
      if shouldReturnQuota then
        Move (fun s => let '(_, (task', s')) := RefundMidjourneyQuota (task, s) in (k task', s'))
      else if String.eqb (mj_Status task) "SUCCESS" then FinalizeMidjourneyConsumeRebate task k
      else k task
  | _ => k task
  end.

(** The items of one answer, each with the time it is handled.  An item that was
    not asked for finds a nil task.  [taskM] has the objects by upstream id. *)
Fixpoint poll_items (items : list (Z * MidjourneyDto)) (taskM : gmap string Midjourney) (k : gmap string Midjourney -> mjthread) : mjthread :=
  match items with
  | [] => k taskM
  | (now, item) :: items =>
      match taskM !! dt_MjId item with
      | None => Panicked
      | Some task =>
          match apply_report now item task with
          | None => poll_items items taskM k
          | Some (task', shouldReturnQuota) =>
              step_call (UpdateWithStatus task' (mj_Status task)) (fun won =>
                after_update task' shouldReturnQuota won (fun task'' => poll_items items (<[dt_MjId item := task'']> taskM) k))
          end
      end
  end.

Inductive channel_answer :=
  | ChannelMissing                                   (* CacheGetChannel fails *)
  | RequestFailed
  | Answered (items : list (Z * MidjourneyDto)).

(** What a round meets: the channels in the order in which it visits them (those
    not listed come last), and their answers. *)
Record round_env := mkRound { ro_order : list Z; ro_answer : Z -> channel_answer }.

Definition channel_missing_reason (channelId : Z) : string := "获取渠道信息失败，请联系管理员，渠道ID：" +:+ pretty channelId.

Fixpoint poll_channels (env : round_env) (taskIds : Z -> list string) (channels : list Z) (taskM : gmap string Midjourney) : mjthread :=
  match channels with
  | [] => Finished
  | channelId :: channels =>
      match ro_answer env channelId with
      | ChannelMissing =>
          step_call (MjBulkUpdate (taskIds channelId) (Some (channel_missing_reason channelId))) (fun _ => poll_channels env taskIds channels taskM)
      | RequestFailed => poll_channels env taskIds channels taskM
      | Answered items => poll_items items taskM (poll_channels env taskIds channels)
      end
  end.

Definition has_mjid (t : Midjourney) : bool := negb (String.eqb (mj_MjId t) "").

(** The later of two tasks with one id wins. *)
Definition task_map (tasks : list Midjourney) : gmap string Midjourney :=
  foldl (fun m t => <[mj_MjId t := t]> m) ∅ (List.filter has_mjid tasks).

Definition channel_keys (env : round_env) (tasks : list Midjourney) : list Z :=
  let keys := remove_dups (map mj_ChannelId (List.filter has_mjid tasks)) in
  List.filter (fun c => bool_decide (c ∈ keys)) (remove_dups (ro_order env))
  ++ List.filter (fun c => bool_decide (c ∉ ro_order env)) keys.

Definition channel_tasks (tasks : list Midjourney) (channelId : Z) : list string :=
  map mj_MjId (List.filter (fun t => has_mjid t && (mj_ChannelId t =? channelId)) tasks).

(** One iteration of the loop. *)
Definition UpdateMidjourneyTaskBulk (env : round_env) : mjthread :=
  step_call GetAllUnFinishTasks (fun r =>
    let tasks := match r with Ok tasks => tasks | Err _ => [] end in
    let rest := poll_channels env (channel_tasks tasks) (channel_keys env tasks) (task_map tasks) in
    let nullTaskIds := map mj_Id (List.filter (fun t => negb (has_mjid t)) tasks) in
    match nullTaskIds with
    | [] => rest
    | _ => step_call (MjBulkUpdateByTaskIds nullTaskIds None) (fun _ => rest)
    end).

(** ** The callback *)

Definition notified_view (d : MidjourneyDto) (v : MjView) : MjView :=
  mkMjView (mv_Code v) (dt_PromptEn d) (dt_State d) (dt_SubmitTime d) (dt_StartTime d) (dt_FinishTime d) (dt_ImageUrl d) (dt_VideoUrl d)
    (marshal_urls (dt_VideoUrls d)) (dt_Status d) (dt_Progress d) (dt_FailReason d) (mv_Buttons v) (mv_Properties v).

(** The row is read, then saved. *)
Definition RelayMidjourneyNotify (d : MidjourneyDto) : mjthread :=
  step_call (GetByOnlyMJId (dt_MjId d)) (fun r =>
    match r with
    | Ok (Some t) => step_call (Midjourney_Update (with_view (notified_view d (mj_view t)) t)) (fun _ => Finished)
    | _ => Finished
    end).

(** ** Submission *)

Record MidjourneyResponse := mkMjResponse { mr_Code : Z; mr_Description : string; mr_Properties : Json; mr_Result : string }.

Definition accepted_code (code : Z) : bool := (code =? 1) || (code =? 21) || (code =? 22).

(** Whether a submission is charged: [consumeQuota] is false for the actions that
    only open a dialog. *)
Definition mj_billable (action : string) (freeModel : bool) (statusCode : Z) (resp : MidjourneyResponse) : bool :=
  let consumeQuota := negb (str_in action ["INPAINT"; "CUSTOM_ZOOM"]) && accepted_code (mr_Code resp) in
  consumeQuota && negb freeModel && (statusCode =? 200) && accepted_code (mr_Code resp).

(** [properties[key].(string)] *)
Definition string_property (key : string) (j : Json) : option string :=
  match j with
  | JObject fields => match List.find (fun f => String.eqb f.1 key) fields with Some (_, JString s) => Some s | _ => None end
  | _ => None
  end.

Definition no_billing : MjBilling := mkMjBilling "" 0 0 "" 0 0 0 0 0 0 0 0 0.

(** The row of a submission at time [now]; [finishedAt] is a later reading of the clock
    (milliseconds). *)
Definition submitted_task (userId : Z) (action prompt : string) (channelId quota now finishedAt : Z) (billable : bool) (resp : MidjourneyResponse) : Midjourney :=
  let code := mr_Code resp in
  let status := if code =? 21 then string_property "status" (mr_Properties resp) else None in
  let existing := bool_decide (status = Some "SUCCESS") in
  let uploaded := (code =? 1) && String.eqb action "UPLOAD" in
  let finished := if existing then finishedAt else 0 in
  mkMidjourney 0 userId action (mr_Result resp) prompt (mr_Description resp) channelId (if billable then quota else 0)
    (mkMjView code "" "" now finished finished
       (if code =? 21 then default "" (string_property "imageUrl" (mr_Properties resp)) else "") "" ""
       (if uploaded then "SUCCESS" else default "" status) (if existing || uploaded then "100%" else "0%")
       (if negb billable && negb (code =? 1) then mr_Description resp else "") "" "")
    no_billing.

(** What [RelayMidjourneySubmit] does with the row of a charged task: [info] is
    the relay info of the reservation, [settled] what [SettleBilling] makes of it,
    and [session] says that a session paid.  Where the handler gives up it releases
    the session ([BillingSession]). *)
Definition record_submission (t : Midjourney) (info : RelayInfo) (settled : result RelayInfo) (session : bool) : mjthread :=
  step_call (Midjourney_Insert t) (fun r =>
    match r with
    | Err _ => Finished
    | Ok t =>
        step_call (RecordMidjourneyBilling info t) (fun r =>
          match r, settled with
          | Ok _, Ok info' =>
              let t := recorded_billing info t in
              let record t := step_call (RecordMidjourneyBilling info' t) (fun _ =>
                let t := recorded_billing info' t in
                if String.eqb (mj_Status t) "SUCCESS" then FinalizeMidjourneyConsumeRebate t (fun _ => Finished) else Finished) in
              if String.eqb (ri_BillingSource info') BillingSourceWallet && session then
                let reward := ri_WalletRewardConsumed info' in
                let paid := ri_WalletPaidConsumed info' in
                step_call (RecordMidjourneyWalletFunding reward paid t) (fun _ => record (recorded_funding reward paid t))
              else record t
          | _, _ => Finished
          end)
    end).
End Operations.
