(* ===== verification/MjSafety.v ===== *)
(** * Refunds of Midjourney tasks under any number of pollers

    Rounds of the poller run at the same time, each with the rows it read, while
    new tasks arrive.  [asset] names a balance; the [stake] of a row in it is
    what a refund of the row would add to it.  Balance and stakes together move
    only when tasks arrive. *)

From stdpp Require Import base numbers list strings pretty sets sorting gmap.
From Stdlib Require Import ZArith Lia.
From S2P Require Import Prelude GoInt GoMonad GoString GoTime WindowBounds SubPlan SubStore Commission Wallet Funding BillingSession TaskBilling ClaudeStream Threads Midjourney.

Local Open Scope string_scope.
Local Open Scope list_scope.
Local Open Scope Z_scope.

(** ** Balances and stakes *)

Inductive asset :=
  | UserQuota (id : Z) | RewardQuota (id : Z)
  | TokenRemain (id : Z) | TokenUsed (id : Z).

Definition asset_value (a : asset) (w : world) : Z :=
  match a with
  | UserQuota u => default 0 (u_Quota <$> w_users w !! u)
  | RewardQuota u => default 0 (u_RewardQuota <$> w_users w !! u)
  | TokenRemain k => default 0 (t_RemainQuota <$> w_tokens w !! k)
  | TokenUsed k => default 0 (t_UsedQuota <$> w_tokens w !! k)
  end.

(** What a refund of the row adds to an asset, were it to succeed. *)
Definition wallet_stake (t : Midjourney) : Z :=
  if String.eqb (billing_source t) "subscription" then 0 else if 0 <? refund_amount t then refund_amount t else 0.
Definition reward_stake (t : Midjourney) : Z :=
  if (wallet_stake t =? 0) || negb (mb_BreakdownRecorded (mj_billing t) =? 1) then 0 else mb_WalletRewardUsed (mj_billing t).
Definition token_stake (t : Midjourney) : Z :=
  if (0 <? token_refund_amount t) && (0 <? mb_TokenId (mj_billing t)) then token_refund_amount t else 0.

Definition refund_pays (a : asset) (t : Midjourney) : Z :=
  match a with
  | UserQuota u => if mj_UserId t =? u then wallet_stake t else 0
  | RewardQuota u => if mj_UserId t =? u then reward_stake t else 0
  | TokenRemain k => if mb_TokenId (mj_billing t) =? k then token_stake t else 0
  | TokenUsed k => if mb_TokenId (mj_billing t) =? k then - token_stake t else 0
  end.

Definition stake (a : asset) (t : Midjourney) : Z := if mb_BillingRefunded (mj_billing t) =? 1 then 0 else refund_pays a t.

Definition estate (a : asset) (s : mjdb) : Z := asset_value a (md_world s) + table_sum (stake a) (md_rows s).

(** ** One refund *)

Section Refund.
Context `{LocalZone}.

Lemma refund_wallet_effect t w w' :
  refund_wallet t (refund_amount t) w = Ok w' ->
  w_tokens w' = w_tokens w /\
  (forall u, asset_value (UserQuota u) w' = asset_value (UserQuota u) w + refund_pays (UserQuota u) t) /\
  (forall u, asset_value (RewardQuota u) w' = asset_value (RewardQuota u) w + refund_pays (RewardQuota u) t).
Proof.
  unfold refund_wallet. cbn [refund_pays]. unfold reward_stake, wallet_stake.
  destruct (String.eqb (billing_source t) "subscription"); cbn [negb andb].
  { intros [= <-]. repeat split; intros; cases. }
  destruct (Z.ltb_spec 0 (refund_amount t)) as [Ha|Ha]; [|intros [= <-]; repeat split; intros; cases].
  intros Hok. inv_ok. destruct (w_users w !! mj_UserId t) as [user|] eqn:Eu; [|done]. inv_ok. subst w'.
  assert (Hr : a = if (refund_amount t =? 0) || negb (mb_BreakdownRecorded (mj_billing t) =? 1) then 0 else mb_WalletRewardUsed (mj_billing t)).
  { unfold refund_reward in Hok0. rewrite (proj2 (Z.eqb_neq _ _)) by lia. cases_in Hok0; cbn; done. }
  split; [done|]. cbn [asset_value update_user set_users w_users]. rewrite <- Hr.
  split; intros u; destruct (Z.eqb_spec (mj_UserId t) u) as [<-|Hne];
    rewrite ?lookup_alter_eq, ?lookup_alter_ne, ?Eu by done; cbn; lia.
Qed.

Lemma refund_subscription_effect t now w w' : refund_subscription t now w = Ok w' -> w_users w' = w_users w /\ w_tokens w' = w_tokens w.
Proof.
  unfold refund_subscription. repeat goal_if; try (intros [= <-]; done); try done.
  intros Hok. inv_ok. destruct a as [[] db]. inv_ok. by subst.
Qed.

Lemma refund_mj_token_effect t clock w w' :
  refund_mj_token t clock w = Ok w' ->
  w_users w' = w_users w /\
  (forall k, asset_value (TokenRemain k) w' = asset_value (TokenRemain k) w + refund_pays (TokenRemain k) t) /\
  (forall k, asset_value (TokenUsed k) w' = asset_value (TokenUsed k) w + refund_pays (TokenUsed k) t).
Proof.
  unfold refund_mj_token. cbn [refund_pays]. unfold token_stake.
  destruct ((0 <? token_refund_amount t) && (0 <? mb_TokenId (mj_billing t))); [|intros [= <-]; repeat split; intros; cases].
  destruct (max_i64 <? _); [done|]. destruct (w_tokens w !! mb_TokenId (mj_billing t)) as [token|] eqn:Et; [|done]. intros [= <-].
  split; [done|]. cbn [asset_value update_token set_tokens w_tokens].
  split; intros u; destruct (Z.eqb_spec (mb_TokenId (mj_billing t)) u) as [<-|Hne];
    rewrite ?lookup_alter_eq, ?lookup_alter_ne, ?Et by done; cbn; lia.
Qed.

(** A committed refund: nothing for a row that is refunded already, otherwise
    every asset gets what the row pays, and the row is marked. *)
Lemma refund_tx_effect id clock now s row s' :
  refund_midjourney_tx id clock now s = Ok (row, s') ->
  exists cur, md_rows s !! id = Some cur /\
    ((mb_BillingRefunded (mj_billing cur) = 1 /\ row = cur /\ s' = s) \/
     (mb_BillingRefunded (mj_billing cur) = 0 /\ row = mark_refunded cur /\ md_rows s' = <[id := row]> (md_rows s) /\ md_next s' = md_next s /\
      forall a, asset_value a (md_world s') = asset_value a (md_world s) + refund_pays a cur)).
Proof.
  unfold refund_midjourney_tx. destruct (md_rows s !! id) as [cur|]; [|done]. intros Hok. exists cur. split; [done|].
  destruct (Z.eqb_spec (mb_BillingRefunded (mj_billing cur)) 1) as [E1|E1]; [inv_ok; by left|]. right. inv_ok. split_bool.
  apply refund_wallet_effect in Hok3 as (Ht1 & Hq & Hr). apply refund_subscription_effect in Hok4 as [Hu2 Ht2].
  apply refund_mj_token_effect in Hok5 as (Hu3 & Hk & Hv). simplify_eq. repeat split; [lia|].
  cbn [md_world put_rows put_mjworld]. intros [u|u|k|k]; cbn [asset_value] in *; rewrite ?Hu3, ?Hu2, ?Hk, ?Hv, ?Ht2, ?Ht1; auto.
Qed.
End Refund.

(** ** What the threads promise *)

Definition final (t : Midjourney) : bool := str_in (mj_Status t) ["SUCCESS"; "FAILURE"].
Definition failed (t : Midjourney) : bool := String.eqb (mj_Status t) "FAILURE".
Definition identity (t : Midjourney) : Z * Z * Z * string := (mj_Id t, mj_UserId t, mj_Quota t, mj_MjId t).

(** A row under the moves of others: a task that has ended stays ended, and
    billing columns change only when it has. *)
Record evolved (r r' : Midjourney) : Prop := {
  ev_identity : identity r' = identity r;
  ev_final : final r = true -> final r' = true;
  ev_failed : failed r = true -> failed r' = true;
  ev_refunded : mb_BillingRefunded (mj_billing r) = 1 -> mb_BillingRefunded (mj_billing r') = 1;
  ev_billing : final r' = false -> mj_billing r' = mj_billing r
}.

Definition table_evolved (s s' : mjdb) : Prop :=
  forall id r, md_rows s !! id = Some r -> exists r', md_rows s' !! id = Some r' /\ evolved r r'.

Record mj_row_ok (s : mjdb) (id : Z) (t : Midjourney) : Prop := {
  ro_id : mj_Id t = id;
  ro_range : 0 < id < md_next s;
  ro_progress : final t = true -> mj_Progress t = "100%";
  ro_refunded : mb_BillingRefunded (mj_billing t) = 1 -> failed t = true
}.

Definition mj_sound (s : mjdb) : Prop := 0 < md_next s /\ forall id t, md_rows s !! id = Some t -> mj_row_ok s id t.
Definition mj_owned (O : gset Z) (s : mjdb) : Prop := forall id, id ∈ O -> exists t, md_rows s !! id = Some t /\ final t = true.

Definition mj_rely (O : gset Z) (s s' : mjdb) : Prop :=
  table_evolved s s' /\
  forall id r r', id ∈ O -> md_rows s !! id = Some r -> md_rows s' !! id = Some r' -> mj_billing r' = mj_billing r.

(** A move: only rows of the thread get other billing columns, it becomes the
    owner of tasks it ends, and no money appears or vanishes. *)
Record mj_guar (O O' : gset Z) (s s' : mjdb) : Prop := {
  gu_evolved : table_evolved s s';
  gu_billing : forall id r r', id ∉ O -> md_rows s !! id = Some r -> md_rows s' !! id = Some r' -> mj_billing r' = mj_billing r;
  gu_keeps : O ⊆ O';
  gu_gains : forall id, id ∈ O' -> id ∉ O -> (exists r, md_rows s !! id = Some r /\ final r = false) /\ exists r', md_rows s' !! id = Some r' /\ final r' = true;
  gu_estate : forall a, estate a s' = estate a s
}.

Lemma evolved_refl r : evolved r r.
Proof. by split. Qed.

Lemma evolved_trans r1 r2 r3 : evolved r1 r2 -> evolved r2 r3 -> evolved r1 r3.
Proof.
  intros [I1 F1 G1 R1 B1] [I2 F2 G2 R2 B2]. split; [congruence|auto|auto|auto|]. intros H3. rewrite B2 by done. apply B1.
  destruct (final r2); [|done]. by rewrite F2 in H3.
Qed.

Lemma table_evolved_refl s : table_evolved s s.
Proof. intros id r Hr. exists r. split; [done|apply evolved_refl]. Qed.

Lemma table_evolved_trans s1 s2 s3 : table_evolved s1 s2 -> table_evolved s2 s3 -> table_evolved s1 s3.
Proof.
  intros H1 H2 id r Hr. destruct (H1 _ _ Hr) as (r2 & Hr2 & E1). destruct (H2 _ _ Hr2) as (r3 & Hr3 & E2).
  exists r3. split; [done|]. by eapply evolved_trans.
Qed.

#[export, program] Instance mj_protocol : Protocol mjdb :=
  {| sound := mj_sound; owned := mj_owned; rely := mj_rely; guar := mj_guar |}.
Next Obligation. intros O s. split; [|intros; by simplify_eq]. intros id r Hr. exists r. split; [done|apply evolved_refl]. Qed.
Next Obligation.
  intros O s1 s2 s3 [H1 B1] [H2 B2]. split; [by eapply table_evolved_trans|]. intros id r r3 Hid Hr Hr3.
  destruct (H1 _ _ Hr) as (r2 & Hr2 & _). rewrite (B2 _ _ _ Hid Hr2 Hr3). by eapply B1.
Qed.
Next Obligation.
  intros O s s' Ho [He _] id Hid. destruct (Ho _ Hid) as (t & Ht & Hf). destruct (He _ _ Ht) as (t' & Ht' & E). exists t'. split; [done|]. by apply E.
Qed.
Next Obligation.
  intros O O' s s' Ho Hg id Hid. destruct (decide (id ∈ O)) as [HO|HO]; [|by destruct (gu_gains _ _ _ _ Hg id)].
  destruct (Ho _ HO) as (t & Ht & Hf). destruct (gu_evolved _ _ _ _ Hg _ _ Ht) as (t' & Ht' & E). exists t'. split; [done|]. by apply E.
Qed.
Next Obligation.
  intros O O' P s s' Hg HO HP Hd. split; [apply Hg|]. intros id r r' Hid Hr Hr'. eapply gu_billing; [done| |done..]. set_solver.
Qed.
Next Obligation.
  intros O O' P s s' Hg HP Hd id Hid Hp. destruct (decide (id ∈ O)) as [HO|HO]; [set_solver|].
  destruct (gu_gains _ _ _ _ Hg id Hid HO) as [(r & Hr & Hf) _]. destruct (HP _ Hp) as (t & Ht & Hft). simplify_eq. congruence.
Qed.

(** ** Moves *)

(** A state that differs only in what no row or balance depends on. *)
Definition same_money (s s' : mjdb) : Prop :=
  md_rows s' = md_rows s /\ md_next s' = md_next s /\ w_users (md_world s') = w_users (md_world s) /\ w_tokens (md_world s') = w_tokens (md_world s).

Lemma same_balance a w w' : w_users w' = w_users w -> w_tokens w' = w_tokens w -> asset_value a w' = asset_value a w.
Proof. intros Hu Ht. destruct a; cbn; by rewrite ?Hu, ?Ht. Qed.

Lemma same_sound s s' : same_money s s' -> mj_sound s -> mj_sound s'.
Proof. intros (Hr & Hn & _) [H1 H2]. split; [by rewrite Hn|]. rewrite Hr. intros id t Ht. destruct (H2 _ _ Ht). split; by rewrite ?Hn. Qed.

Lemma same_guar O s s' : same_money s s' -> mj_guar O O s s'.
Proof.
  intros (Hr & Hn & Hu & Ht). split; [|intros; rewrite Hr in *; by simplify_eq|done|done|].
  - intros id r Hid. exists r. rewrite Hr. split; [done|apply evolved_refl].
  - intros a. unfold estate. by rewrite Hr, (same_balance a _ _ Hu Ht).
Qed.

Lemma same_guar_trans O O' s s1 s' : same_money s s1 -> mj_guar O O' s1 s' -> mj_guar O O' s s'.
Proof.
  intros (Hr & Hn & Hu & Ht) [He Hb Hk Hg Hw]. split; unfold table_evolved; rewrite <- ?Hr; [done..|].
  intros a. rewrite Hw. unfold estate. by rewrite Hr, (same_balance a _ _ Hu Ht).
Qed.

Section Moves.
Context `{Deployment} `{DBClock} `{LocalZone} `{MjJson}.
Variable sha256_hex : string -> string.

Lemma wp_mj_call {A} (f : reply -> GM mjdb A) s (Q : result A -> mjdb -> Prop) :
  (forall s1, same_money s s1 -> (forall e, Q (Err e) s1) /\ forall r, wp (f r) s1 Q) -> wp (mj_call f) s Q.
Proof.
  intros HQ. unfold mj_call. apply wp_bind, wp_zoom. unfold ask, wp at 1. cbn.
  destruct (HQ (put_mjworld (set_calls (Datatypes.S (w_calls (md_world s))) (md_world s)) s) ltac:(done)) as [He Hr].
  destruct (re_fault _) as [e|]; [apply He|apply Hr].
Qed.

(** A move is verified from the state it finds. *)
Lemma promises_step {A} O (m : GM mjdb A) k s :
  (forall s1, rely O s s1 -> sound s1 -> owned O s1 ->
     wp m s1 (fun r s2 => sound s2 /\ exists O', guar O O' s1 s2 /\ promises O' (k r) s2)) -> promises O (step_call m k) s.
Proof. intros Hm s1 Hr Hs Ho. specialize (Hm s1 Hr Hs Ho). unfold wp in Hm. by destruct (m s1). Qed.

(** A database call verified from the state in which the database runs it. *)
Lemma promises_call {A} O (f : reply -> GM mjdb A) k s :
  (forall s1 r, rely O s s1 -> sound s1 -> owned O s1 ->
     wp (f r) s1 (fun r s2 => sound s2 /\ exists O', guar O O' s1 s2 /\ promises O' (k r) s2)) ->
  (forall e s1, rely O s s1 -> promises O (k (Err e)) s1) -> promises O (step_call (mj_call f) k) s.
Proof.
  intros Hm He. apply promises_step. intros s1 Hr Hs Ho. apply wp_mj_call. intros s2 Hsame.
  pose proof (same_guar O _ _ Hsame) as Hg. assert (Hr2 : rely O s s2).
  { eapply rely_trans; [done|]. split; [apply Hg|]. destruct Hsame as [Hrows _]. intros. rewrite Hrows in *. by simplify_eq. }
  split.
  - intros e. split; [by eapply same_sound|]. exists O. split; [done|]. by apply He.
  - intros r. eapply wp_mono; [apply Hm; [done|by eapply same_sound|by eapply guar_owned]|].
    intros x s3 (Hs3 & O' & Hg3 & Hk). split; [done|]. exists O'. split; [|done]. by eapply same_guar_trans.
Qed.

(** *** Bulk updates *)

Lemma fail_row_evolved reason t : evolved t (fail_row reason t).
Proof. by split. Qed.

Lemma stake_fail_row a reason t : stake a (fail_row reason t) = stake a t.
Proof. done. Qed.

Lemma table_sum_fmap (f : Midjourney -> Z) (g : Midjourney -> Midjourney) (m : gmap Z Midjourney) :
  (forall t, f (g t) = f t) -> table_sum f (g <$> m) = table_sum f m.
Proof. intros E. unfold table_sum. rewrite map_to_list_fmap, map_map. rewrite <- map_map. 
  induction (map_to_list m) as [|[k x] l IH]; [done|]. cbn. rewrite E. lia. Qed.

Lemma bulk_guar O (p : Midjourney -> bool) reason s :
  mj_sound s -> let s' := put_rows ((fun t => if p t then fail_row reason t else t) <$> md_rows s) s in mj_sound s' /\ mj_guar O O s s'.
Proof.
  intros [Hn Hs] s'. split; [split; [done|]|split].
  - intros id t' Ht'. apply lookup_fmap_Some in Ht' as (t & <- & Ht). destruct (Hs _ _ Ht) as [I R P F]. by destruct (p t); split.
  - intros id r Hr. exists (if p r then fail_row reason r else r). split; [cbn; by rewrite lookup_fmap, Hr|].
    destruct (p r); [apply fail_row_evolved|apply evolved_refl].
  - intros id r r' _ Hr Hr'. apply lookup_fmap_Some in Hr' as (r0 & <- & Hr0). simplify_eq. by destruct (p r).
  - done.
  - done.
  - intros a. unfold estate. cbn [md_world put_rows md_rows s']. f_equal. apply table_sum_fmap. intros t. by destruct (p t).
Qed.

(** *** The conditional write of a report *)

(** What a round knows of an object it read. *)
Record tracks (s : mjdb) (o : Midjourney) : Prop := {
  fo_open : final o = false;
  fo_row : exists r, md_rows s !! mj_Id o = Some r /\ identity r = identity o /\ (final r = false -> mj_billing r = mj_billing o)
}.

Lemma follows_evolved s s' o : tracks s o -> table_evolved s s' -> tracks s' o.
Proof.
  intros [Ho (r & Hr & Hi & Hb)] He. destruct (He _ _ Hr) as (r' & Hr' & [I F G _ B]). split; [done|]. exists r'.
  split; [done|]. split; [congruence|]. intros Hf. rewrite (B Hf). apply Hb. destruct (final r); [|done]. by rewrite F in Hf.
Qed.

Lemma cas_guar O o t s :
  mj_sound s -> mj_owned O s -> tracks s o -> identity t = identity o -> mj_billing t = mj_billing o -> (final t = true -> mj_Progress t = "100%") ->
  forall row, md_rows s !! mj_Id t = Some row -> mj_Status row = mj_Status o ->
  let s' := put_rows (<[mj_Id t := t]> (md_rows s)) s in
  mj_sound s' /\ exists O', O' = (if final t then {[mj_Id t]} ∪ O else O) /\ mj_guar O O' s s'.
Proof.
  intros [Hn Hs] HO [Ho (r & Hr & Hi & Hb)] Hid Hbill Hp row Hrow Hst. cbv zeta.
  assert (Eid : mj_Id t = mj_Id o) by (unfold identity in *; by simplify_eq). rewrite Eid in *. assert (r = row) as -> by congruence.
  assert (Hf : final row = false) by (unfold final in *; by rewrite Hst). specialize (Hb Hf).
  destruct (Hs _ _ Hrow) as [RI RR RP RF].
  assert (Hev : evolved row t).
  { split; [congruence|by rewrite Hf| |congruence|congruence]. unfold failed. intros Hfail. unfold final, str_in in Hf. cbn in Hf. apply String.eqb_eq in Hfail.
    rewrite Hfail in Hf. done. }
  assert (Hnot : mj_Id o ∉ O). { intros Hin. destruct (HO _ Hin) as (x & Hx & Hfx). simplify_eq. congruence. }
  split.
  { split; [done|]. intros id x Hx. cbn [md_rows put_rows] in Hx. apply lookup_insert_Some in Hx as [[<- <-]|[_ Hx]]; [|by destruct (Hs _ _ Hx); split].
    split; [done|done|done|]. rewrite Hbill, <- Hb. intros Hr1%RF. unfold failed, final, str_in in *. apply String.eqb_eq in Hr1. by rewrite Hr1 in Hf. }
  exists (if final t then {[mj_Id o]} ∪ O else O). split; [done|]. split.
  - intros id x Hx. destruct (decide (id = mj_Id o)) as [->|Hne]; cbn [md_rows put_rows].
    + simplify_eq. exists t. split; [apply lookup_insert_eq|done].
    + exists x. rewrite lookup_insert_ne by done. split; [done|apply evolved_refl].
  - intros id x x' _ Hx Hx'. cbn [md_rows put_rows] in Hx'. apply lookup_insert_Some in Hx' as [[<- <-]|[_ Hx']]; simplify_eq; congruence.
  - destruct (final t); set_solver.
  - intros id Hin Hnin. destruct (final t) eqn:Eft; [|set_solver]. assert (id = mj_Id o) as -> by set_solver.
    split; [by exists row|]. exists t. split; [apply lookup_insert_eq|done].
  - intros a. unfold estate. cbn [md_world put_rows md_rows]. rewrite (table_sum_insert _ _ _ _ _ Hrow).
    assert (Es : stake a t = stake a row); [|lia].
    unfold stake, refund_pays, wallet_stake, reward_stake, token_stake, wallet_stake, refund_amount, token_refund_amount, billing_source.
    unfold identity in *. simplify_eq. by repeat match goal with E : _ = _ |- _ => rewrite E end.
Qed.

(** *** Writes to a row the thread owns *)

Lemma own_guar O id r b s s' :
  mj_sound s -> id ∈ O -> md_rows s !! id = Some r -> final r = true -> (mb_BillingRefunded b = 1 -> failed r = true) ->
  (mb_BillingRefunded (mj_billing r) = 1 -> mb_BillingRefunded b = 1) -> md_rows s' = <[id := with_billing b r]> (md_rows s) -> md_next s' = md_next s ->
  (forall a, asset_value a (md_world s') + stake a (with_billing b r) = asset_value a (md_world s) + stake a r) -> mj_sound s' /\ mj_guar O O s s'.
Proof.
  intros [Hn Hs] Hin Hr Hf Href Hkeep Hrows Hnext Hest. split; [split; [by rewrite Hnext|]|split; [|..|done|done|]]; rewrite ?Hrows.
  - intros id' x Hx. apply lookup_insert_Some in Hx as [[<- <-]|[_ Hx]].
    + destruct (Hs _ _ Hr) as [RI RR RP RF]. by split; rewrite ?Hnext.
    + by destruct (Hs _ _ Hx); split; rewrite ?Hnext.
  - intros id' x Hx. rewrite Hrows. destruct (decide (id' = id)) as [->|Hne].
    + assert (x = r) as -> by congruence. exists (with_billing b r). split; [apply lookup_insert_eq|]. split; [done|done|done|done|].
      intros Hx'. change (final (with_billing b r)) with (final r) in Hx'. congruence.
    + exists x. rewrite lookup_insert_ne by done. split; [done|apply evolved_refl].
  - intros id' x x' Hnin Hx Hx'. apply lookup_insert_Some in Hx' as [[<- <-]|[_ Hx']]; [done|by simplify_eq].
  - intros a. unfold estate. rewrite Hrows, (table_sum_insert _ _ _ _ _ Hr). specialize (Hest a). lia.
Qed.

Lemma mark_refunded_stake a r : stake a (mark_refunded r) = 0.
Proof. done. Qed.

Definition refund_task_move (t : Midjourney) (k : Midjourney -> mjthread) : mjthread :=
  Move (fun s => let '(_, (task', s')) := RefundMidjourneyQuota (t, s) in (k task', s')).

Lemma promises_refund O t s k :
  mj_Id t ∈ O -> 0 < mj_Id t -> (exists r, md_rows s !! mj_Id t = Some r /\ failed r = true) ->
  (forall t' s', table_evolved s s' -> promises O (k t') s') -> promises O (refund_task_move t k) s.
Proof.
  intros Hin Hpos (r0 & Hr0 & Hf0) Hk s1 [He Hrb] Hs Ho.
  set (Q := fun (_ : result unit) (o : object) => sound o.2 /\ exists O', guar O O' s1 o.2 /\ promises O' (k o.1) o.2).
  assert (HQ : wp RefundMidjourneyQuota (t, s1) Q); [|unfold wp, Q in HQ; by destruct (RefundMidjourneyQuota (t, s1)) as [x [y z]]].
  unfold RefundMidjourneyQuota. apply wp_bind, wp_gets. cbn [fst]. rewrite (proj2 (Z.ltb_lt _ _) Hpos).
  apply wp_bind, wp_zoom. unfold RefundMidjourneyBilling. rewrite (proj2 (Z.leb_gt _ _) Hpos). cbn [snd].
  apply wp_mj_call. intros s2 Hsame. pose proof (same_guar O _ _ Hsame) as Hg2. pose proof (same_sound _ _ Hsame Hs) as Hs2.
  assert (Hskip : forall x s3, mj_guar O O s1 s3 -> mj_sound s3 -> Q x (t, s3)).
  { intros x s3 Hg Hs3. split; [done|]. exists O. split; [done|]. apply Hk. eapply table_evolved_trans; [done|apply Hg]. }
  split; [intros e; by apply Hskip|]. intros r. unfold wp at 1.
  destruct (refund_midjourney_tx _ _ _ s2) as [[row s3]|e] eqn:E; cbn [fst snd]; [|by apply Hskip].
  apply wp_modify. cbn [snd]. unfold Q. cbn [fst snd].
  apply refund_tx_effect in E as (cur & Hcur & [(_ & -> & ->)|(H0r & -> & Hrows & Hnext & Hbal)]).
  { split; [done|]. exists O. split; [done|]. apply Hk. eapply table_evolved_trans; [done|apply Hg2]. }
  assert (Hfc : failed cur = true).
  { destruct Hsame as [Hrows2 _]. rewrite Hrows2 in Hcur. destruct (He _ _ Hr0) as (r1 & Hr1 & E1). simplify_eq. by apply E1. }
  destruct (own_guar O (mj_Id t) cur (mj_billing (mark_refunded cur)) s2 s3 Hs2 Hin Hcur) as [Hs3 Hg3]; [|done..| |].
  - unfold final, failed, str_in in *. apply String.eqb_eq in Hfc. by rewrite Hfc.
  - intros a. rewrite Hbal. change (with_billing _ cur) with (mark_refunded cur). rewrite mark_refunded_stake. unfold stake. rewrite H0r. cbn. lia.
  - assert (Hg : mj_guar O O s1 s3) by (by eapply same_guar_trans).
    split; [done|]. exists O. split; [done|]. apply Hk. eapply table_evolved_trans; [done|apply Hg].
Qed.

Lemma promises_rebate O t s k :
  mj_Id t ∈ O -> (exists r, md_rows s !! mj_Id t = Some r /\ mj_billing r = mj_billing t) ->
  (forall t' s', table_evolved s s' -> promises O (k t') s') -> promises O (FinalizeMidjourneyConsumeRebate sha256_hex t k) s.
Proof.
  intros Hin (r0 & Hr0 & Hb0) Hk. unfold FinalizeMidjourneyConsumeRebate. goal_if; [apply Hk; apply table_evolved_refl|].
  assert (Hpersist : forall s0, table_evolved s s0 -> (exists r, md_rows s0 !! mj_Id t = Some r /\ mj_billing r = mj_billing t) ->
    promises O (step_call (persistMidjourneyBillingState (with_billing (set_rebate_settled (mj_billing t)) t)) (fun _ => k (with_billing (set_rebate_settled (mj_billing t)) t))) s0).
  { intros s0 He0 (r1 & Hr1 & Hb1). unfold persistMidjourneyBillingState. cbn [mj_Id with_billing].
    assert (Hstable : forall s1, rely O s0 s1 -> table_evolved s s1 /\ exists r, md_rows s1 !! mj_Id t = Some r /\ mj_billing r = mj_billing t).
    { intros s1 [He Hb]. split; [by eapply table_evolved_trans|]. destruct (He _ _ Hr1) as (r2 & Hr2 & _). exists r2. split; [done|].
      by rewrite (Hb _ _ _ Hin Hr1 Hr2). }
    goal_if.
    - apply promises_step. intros s1 Hrel Hs1 Ho1. apply wp_ret. split; [done|]. exists O. split; [by apply same_guar|]. by apply Hk, Hstable.
    - apply promises_call; [|intros e s1 Hrel; by apply Hk, Hstable]. intros s1 _ Hrel Hs1 Ho1. apply wp_modify.
      destruct (Hstable s1 Hrel) as (He1 & r2 & Hr2 & Hb2). destruct (Ho1 _ Hin) as (r3 & Hr3 & Hf3). assert (r3 = r2) as -> by congruence.
      set (s2 := put_rows _ s1).
      destruct (own_guar O (mj_Id t) r2 (set_rebate_settled (mj_billing t)) s1 s2 Hs1 Hin Hr2 Hf3) as [Hs2 Hg2]; [| | |done| |].
      + cbn. rewrite <- Hb2. destruct (proj2 Hs1 _ _ Hr2); auto.
      + cbn. by rewrite <- Hb2.
      + by apply alter_alt_Some.
      + intros a. f_equal. unfold stake, refund_pays, wallet_stake, reward_stake, token_stake, wallet_stake, refund_amount, token_refund_amount, billing_source.
        cbn. by rewrite <- Hb2.
      + split; [done|]. exists O. split; [done|]. apply Hk. eapply table_evolved_trans; [done|apply Hg2]. }
  goal_if.
  - apply promises_call.
    + intros s1 _ [He Hb] Hs1 Ho1. apply wp_modify. split; [by apply (same_sound s1)|]. exists O. split; [by apply same_guar|].
      apply Hpersist; [done|]. destruct (He _ _ Hr0) as (r2 & Hr2 & _). exists r2. split; [done|]. by rewrite (Hb _ _ _ Hin Hr0 Hr2).
    + intros e s1 [He _]. by apply Hk.
  - apply Hpersist; [apply table_evolved_refl|eauto].
Qed.

(** ** Rounds *)

(** A report that can be trusted: a reason to fail comes with the status FAILURE
    or at the end, and a final status comes at the end or with a reason. *)
Definition honest_item (d : MidjourneyDto) : bool :=
  (String.eqb (dt_FailReason d) "" || String.eqb (dt_Progress d) "100%" || String.eqb (dt_Status d) "FAILURE") &&
  (negb (str_in (dt_Status d) ["SUCCESS"; "FAILURE"]) || String.eqb (dt_Progress d) "100%" || negb (String.eqb (dt_FailReason d) "")).

Definition answer_items (a : channel_answer) : list (Z * MidjourneyDto) := match a with Answered items => items | _ => [] end.
Definition item_ids (items : list (Z * MidjourneyDto)) : list string := map (fun i : Z * MidjourneyDto => dt_MjId i.2) items.

(** The answers of a round name each task once. *)
Record honest_round (env : round_env) : Prop := {
  hr_items : forall c, Forall (fun i : Z * MidjourneyDto => honest_item i.2 = true) (answer_items (ro_answer env c));
  hr_once : forall c, NoDup (item_ids (answer_items (ro_answer env c)));
  hr_apart : forall c c' x, x ∈ item_ids (answer_items (ro_answer env c)) -> x ∈ item_ids (answer_items (ro_answer env c')) -> c = c'
}.

Lemma report_failure_honest reason d : reason <> "" -> honest_item (report_failure reason d) = true.
Proof.
  intros Hr. unfold honest_item. cbn [dt_FailReason dt_Progress dt_Status report_failure]. rewrite (proj2 (String.eqb_neq _ _) Hr).
  cbn. by rewrite !orb_true_r.
Qed.

Lemma apply_report_spec now item t t' refund :
  honest_item item = true -> apply_report now item t = Some (t', refund) ->
  identity t' = identity t /\ mj_billing t' = mj_billing t /\ (final t' = true -> mj_Progress t' = "100%") /\ (refund = true -> failed t' = true).
Proof.
  intros Hh. unfold apply_report. 
  match goal with |- context [if ?b then report_failure ?reason item else item] => set (item' := if b then report_failure reason item else item) end.
  assert (Hh' : honest_item item' = true) by (unfold item'; goal_if; [by apply report_failure_honest|done]).
  clearbody item'. clear Hh item. unfold honest_item in Hh'. apply andb_true_iff in Hh' as [Ha Hb].
  goal_if; [done|]. cbn [mj_view with_view mj_Progress mj_Status mv_Progress mv_Status mv_FailReason reported_view set_report_status mj_Quota].
  goal_if; intros [= <- <-]; (split; [done|]; split; [done|]); unfold final, failed, mj_Status, mj_Progress; cbn.
  - split; [done|]. intros _. apply orb_true_iff in E0 as [E0|E0]; split_bool; [|by apply String.eqb_eq].
    apply String.eqb_eq. repeat match goal with E : _ <> _ |- _ => apply String.eqb_neq in E; rewrite E in Ha end. by apply String.eqb_eq.
  - split; [|done]. intros Hf. unfold mj_Progress, mj_Status in E0. cbn in E0. apply orb_false_iff in E0 as [E1 E2].
    change (str_in (dt_Status item') ["SUCCESS"; "FAILURE"] = true) in Hf. rewrite Hf in Hb. cbn in Hb.
    destruct (String.eqb_spec (dt_Progress item') "100%") as [Hp|Hp]; [done|]. cbn in *. congruence.
Qed.

Lemma poll_items_ok (items : list (Z * MidjourneyDto)) : forall O taskM k s,
  Forall (fun i : Z * MidjourneyDto => honest_item i.2 = true) items -> NoDup (item_ids items) ->
  (forall x o, x ∈ item_ids items -> taskM !! x = Some o -> tracks s o) ->
  (forall O' taskM' s', table_evolved s s' -> (forall x, x ∉ item_ids items -> taskM' !! x = taskM !! x) -> promises O' (k taskM') s') ->
  promises O (poll_items sha256_hex items taskM k) s.
Proof.
  induction items as [|[now item] items IH]; intros O taskM k s Hh Hnd Hfo Hk; cbn [poll_items].
  { apply Hk; [apply table_evolved_refl|done]. }
  apply Forall_cons in Hh as [Hi Hh]. cbn [item_ids map] in *. apply NoDup_cons in Hnd as [Hnew Hnd].
  destruct (taskM !! dt_MjId item) as [task|] eqn:Et; [|done].
  pose proof (Hfo _ _ ltac:(left) Et) as Hf.
  destruct (apply_report now item task) as [[task' refund]|] eqn:Ea.
  2: { apply IH; [done|done| |]. { intros x o Hx. apply Hfo. by right. }
       intros O' taskM' s' He Hsame. apply Hk; [done|]. intros x Hx. apply Hsame. intros Hin. apply Hx. by right. }
  destruct (apply_report_spec _ _ _ _ _ Hi Ea) as (Hid & Hb & Hprog & Href).
  assert (Hnext : forall O' t'' s', table_evolved s s' ->
    promises O' (poll_items sha256_hex items (<[dt_MjId item := t'']> taskM) k) s').
  { intros O' t'' s' He. apply IH; [done|done| |].
    - intros x o Hx Ho. rewrite lookup_insert_ne in Ho by (by intros <-). eapply follows_evolved; [|done]. eapply Hfo; [by right|done].
    - intros O2 taskM' s2 He2 Hsame. apply Hk; [by eapply table_evolved_trans|]. intros x Hx. rewrite Hsame.
      + apply lookup_insert_ne. intros <-. apply Hx. left.
      + intros Hin. apply Hx. by right. }
  apply promises_call; [|intros e s1 [He _]; by apply Hnext].
  intros s1 _ Hrel Hs1 Ho1. pose proof (follows_evolved _ _ _ Hf (proj1 Hrel)) as Hf1.
  assert (Hlost : sound s1 /\ exists O', guar O O' s1 s1 /\ promises O' (poll_items sha256_hex items (<[dt_MjId item := task']> taskM) k) s1).
  { split; [done|]. exists O. split; [by apply same_guar|]. by apply Hnext, Hrel. }
  unfold wp. destruct (md_rows s1 !! mj_Id task') as [row|] eqn:Er; [|exact Hlost].
  destruct (String.eqb_spec (mj_Status row) (mj_Status task)) as [Hst|Hst]; cbn [fst snd]; [|exact Hlost].
  destruct (cas_guar O task task' s1 Hs1 Ho1 Hf1 Hid Hb Hprog row Er Hst) as (Hs2 & O' & HO' & Hg). split; [done|]. exists O'. split; [done|].
  assert (He2 : table_evolved s (put_rows (<[mj_Id task' := task']> (md_rows s1)) s1)) by (eapply table_evolved_trans; [apply Hrel|apply Hg]).
  cbn [after_update]. destruct refund.
  - assert (Hfin : final task' = true) by (specialize (Href eq_refl); unfold final, failed, str_in in *; apply String.eqb_eq in Href; by rewrite Href).
    rewrite Hfin in HO'. apply promises_refund.
    + subst O'. set_solver.
    + destruct (proj2 Hs1 _ _ Er). lia.
    + exists task'. cbn. rewrite lookup_insert_eq. split; [done|]. by apply Href.
    + intros t' s' He. apply Hnext. by eapply table_evolved_trans.
  - destruct (String.eqb_spec (mj_Status task') "SUCCESS") as [Hsu|Hsu].
    + assert (Hfin : final task' = true) by (unfold final, str_in; by rewrite Hsu). rewrite Hfin in HO'. apply promises_rebate.
      * subst O'. set_solver.
      * exists task'. cbn. by rewrite lookup_insert_eq.
      * intros t' s' He. apply Hnext. by eapply table_evolved_trans.
    + by apply Hnext.
Qed.

Lemma poll_channels_ok env taskIds channels : honest_round env -> NoDup channels -> forall O taskM s,
  (forall c x o, c ∈ channels -> x ∈ item_ids (answer_items (ro_answer env c)) -> taskM !! x = Some o -> tracks s o) ->
  promises O (poll_channels sha256_hex env taskIds channels taskM) s.
Proof.
  intros [Hit Hon Hap]. induction channels as [|c channels IH]; intros Hnd O taskM s Hfo; cbn [poll_channels]; [done|].
  apply NoDup_cons in Hnd as [Hnew Hnd].
  assert (Hnext : forall O' taskM' s', table_evolved s s' -> (forall x, x ∉ item_ids (answer_items (ro_answer env c)) -> taskM' !! x = taskM !! x) ->
    promises O' (poll_channels sha256_hex env taskIds channels taskM') s').
  { intros O' taskM' s' He Hsame. apply IH; [done|]. intros c' x o Hc' Hx Ho. eapply follows_evolved; [|done].
    eapply (Hfo c'); [by right|done|]. rewrite <- Hsame; [done|]. intros Hin. by rewrite (Hap _ _ _ Hin Hx) in Hnew. }
  destruct (ro_answer env c) as [| |items] eqn:Ec.
  - apply promises_call; [|intros e s1 [He _]; by apply Hnext]. intros s1 _ Hrel Hs1 Ho1. apply wp_modify.
    destruct (bulk_guar O (fun t => bool_decide (mj_MjId t ∈ taskIds c)) (Some (channel_missing_reason c)) s1 Hs1) as [Hs2 Hg].
    split; [done|]. exists O. split; [done|]. apply Hnext; [|done]. eapply table_evolved_trans; [apply Hrel|apply Hg].
  - apply Hnext; [apply table_evolved_refl|done].
  - apply poll_items_ok.
    + specialize (Hit c). by rewrite Ec in Hit.
    + specialize (Hon c). by rewrite Ec in Hon.
    + intros x o Hx. apply (Hfo c); [left|]. by rewrite Ec.
    + intros O' taskM' s' He Hsame. by apply Hnext.
Qed.
End Moves.
