(* ===== verification/MjHistory.v ===== *)
(** * Histories of Midjourney tasks

    Any number of rounds of the poller run at the same time; tasks arrive with
    their billing columns recorded.  [pollers_conserve] says what every history
    guarantees; the examples after it say what happens when a row is read
    before it is recorded, when a report leaves the status as it was, when
    a token is gone, and when the callback ends a task. *)

From stdpp Require Import base numbers list strings pretty sets sorting gmap.
From Stdlib Require Import ZArith Lia.
From S2P Require Import Prelude GoInt GoMonad GoString GoTime WindowBounds SubPlan SubStore Commission Wallet Funding BillingSession TaskBilling ClaudeStream TaskSafety Threads Midjourney MjSafety.

Local Open Scope string_scope.
Local Open Scope list_scope.
Local Open Scope Z_scope.

Section Histories.
Context `{Deployment} `{DBClock} `{LocalZone} `{MjJson}.
Variable sha256_hex : string -> string.

(** ** A round *)

Lemma unfinished_follow s t :
  mj_sound s -> t ∈ List.filter (fun t => negb (String.eqb (mj_Progress t) "100%")) (rows_in_order s) -> tracks s t.
Proof.
  intros [_ Hs] Ht. apply list_elem_of_In, filter_In in Ht as [Ht Hp]. apply list_elem_of_In in Ht. unfold rows_in_order in Ht.
  rewrite merge_sort_Permutation in Ht. apply list_elem_of_fmap in Ht as ([id r] & -> & Hr). cbn [snd] in *.
  apply elem_of_map_to_list in Hr. destruct (Hs _ _ Hr) as [RI RR RP RF]. split.
  - destruct (final r); [|done]. rewrite RP in Hp by done. done.
  - exists r. by rewrite RI.
Qed.

Lemma task_map_elem tasks x o : task_map tasks !! x = Some o -> o ∈ tasks.
Proof.
  unfold task_map. assert (Hg : forall l (m : gmap string Midjourney), foldl (fun m t => <[mj_MjId t := t]> m) m l !! x = Some o -> m !! x = Some o \/ o ∈ l).
  { induction l as [|t l IH]; cbn; intros m Hl; [by left|]. destruct (IH _ Hl) as [Hm|Hin]; [|right; by right].
    apply lookup_insert_Some in Hm as [[_ <-]|[_ Hm]]; [right; left|by left]. }
  intros Ho. destruct (Hg _ _ Ho) as [Hn|Hin]; [done|]. apply list_elem_of_In, filter_In in Hin as [Hin _]. by apply list_elem_of_In.
Qed.

Lemma NoDup_filter_bool {A} (p : A -> bool) l : NoDup l -> NoDup (List.filter p l).
Proof. rewrite !NoDup_ListNoDup. apply List.NoDup_filter. Qed.

Lemma channel_keys_once env tasks : NoDup (channel_keys env tasks).
Proof.
  unfold channel_keys. apply NoDup_app. split; [apply NoDup_filter_bool, NoDup_remove_dups|].
  split; [|apply NoDup_filter_bool, NoDup_remove_dups].
  intros c Hc Hc'. apply list_elem_of_In, filter_In in Hc as [Hc _]. apply list_elem_of_In, filter_In in Hc' as [_ Hc'].
  apply bool_decide_eq_true in Hc'. apply Hc'. by apply elem_of_remove_dups, list_elem_of_In.
Qed.

Lemma round_ok env s : honest_round env -> promises ∅ (UpdateMidjourneyTaskBulk sha256_hex env) s.
Proof.
  intros Hh. apply promises_step. intros s1 _ Hs1 Ho1. unfold GetAllUnFinishTasks. apply wp_bind, wp_attempting, wp_mj_call.
  intros s2 Hsame. pose proof (same_sound _ _ Hsame Hs1) as Hs2.
  assert (Hrest : forall tasks s3 taskIds, (forall t, t ∈ tasks -> tracks s3 t) ->
    promises ∅ (poll_channels sha256_hex env taskIds (channel_keys env tasks) (task_map tasks)) s3).
  { intros tasks s3 taskIds Ht. apply poll_channels_ok; [done|apply channel_keys_once|]. intros c x o _ _ Ho. by apply Ht, (task_map_elem _ x). }
  assert (Hround : forall tasks, (forall t, t ∈ tasks -> tracks s2 t) ->
    promises ∅ (let rest := poll_channels sha256_hex env (channel_tasks tasks) (channel_keys env tasks) (task_map tasks) in
                let nullTaskIds := map mj_Id (List.filter (fun t => negb (has_mjid t)) tasks) in
                match nullTaskIds with [] => rest | _ => step_call (MjBulkUpdateByTaskIds nullTaskIds None) (fun _ => rest) end) s2).
  { intros tasks Ht. cbv zeta. set (nullIds := map mj_Id _). destruct nullIds as [|id ids] eqn:E; [by apply Hrest|].
    apply promises_call.
    - intros s3 _ Hrel Hs3 Ho3. apply wp_modify.
      destruct (bulk_guar ∅ (fun t => bool_decide (mj_Id t ∈ id :: ids)) None s3 Hs3) as [Hs4 Hg]. split; [done|]. exists ∅. split; [done|].
      apply Hrest. intros t Hin. eapply follows_evolved; [by apply Ht|]. eapply table_evolved_trans; [apply Hrel|apply Hg].
    - intros e s3 [He _]. apply Hrest. intros t Hin. eapply follows_evolved; [by apply Ht|done]. }
  split.
  - intros e. apply wp_ret. split; [done|]. exists ∅. split; [by apply same_guar|]. apply (Hround []). intros t Hin. by apply not_elem_of_nil in Hin.
  - intros r. apply wp_gets, wp_ret. split; [done|]. exists ∅. split; [by apply same_guar|].
    eapply Hround. intros t Hin. by apply unfinished_follow.
Qed.

(** ** Histories *)

Inductive mj_event :=
  | Spawn (env : round_env)     (* a process starts a round *)
  | Run (i : nat)               (* thread [i] makes a move *)
  | Arrive (t : Midjourney).    (* a submission, recorded *)

Definition arrive_task (t : Midjourney) (s : mjdb) : mjdb :=
  mkMjdb (<[md_next s := with_id (md_next s) t]> (md_rows s)) (md_next s + 1) (md_world s) (md_rebates s).

Definition mj_step (sys : list mjthread * mjdb) (e : mj_event) : list mjthread * mjdb :=
  match e with
  | Spawn env => (sys.1 ++ [UpdateMidjourneyTaskBulk sha256_hex env], sys.2)
  | Run i => run_thread i sys
  | Arrive t => (sys.1, arrive_task t sys.2)
  end.

Definition mj_run (es : list mj_event) (s : mjdb) : list mjthread * mjdb := foldl mj_step ([], s) es.

Definition honest_event (e : mj_event) : Prop :=
  match e with
  | Spawn env => honest_round env
  | Run _ => True
  | Arrive t => (final t = true -> mj_Progress t = "100%") /\ mb_BillingRefunded (mj_billing t) = 0
  end.

Definition arrivals (es : list mj_event) : list Midjourney := omap (fun e => match e with Arrive t => Some t | _ => None end) es.

Lemma fresh_row s : mj_sound s -> md_rows s !! md_next s = None.
Proof. intros [_ Hs]. destruct (md_rows s !! md_next s) as [t|] eqn:E; [|done]. destruct (Hs _ _ E). lia. Qed.

Lemma arrive_sound t s :
  mj_sound s -> honest_event (Arrive t) ->
  mj_sound (arrive_task t s) /\ (forall O, rely O s (arrive_task t s)) /\ forall a, estate a (arrive_task t s) = estate a s + stake a t.
Proof.
  intros Hs [Hp Hr]. pose proof (fresh_row s Hs) as Hf. destruct Hs as [Hn Hs]. split; [|split].
  - split; [cbn; lia|]. intros id x Hx. cbn [md_rows arrive_task] in Hx. apply lookup_insert_Some in Hx as [[<- <-]|[_ Hx]].
    + split; [done|cbn; lia|done|]. cbn. lia.
    + destruct (Hs _ _ Hx) as [I R P F]. split; [done|cbn; lia|done|done].
  - intros O. split.
    + intros id r Hid. exists r. cbn [md_rows arrive_task]. rewrite lookup_insert_ne by congruence. split; [done|apply evolved_refl].
    + intros id r r' _ Hid Hid'. cbn [md_rows arrive_task] in Hid'. rewrite lookup_insert_ne in Hid' by congruence. congruence.
  - intros a. unfold estate. cbn [md_world md_rows arrive_task]. rewrite table_sum_insert_new by done. change (stake a (with_id _ t)) with (stake a t). lia.
Qed.

Lemma mj_step_ok sys e :
  system_ok sys.1 sys.2 -> honest_event e ->
  system_ok (mj_step sys e).1 (mj_step sys e).2 /\ table_evolved sys.2 (mj_step sys e).2 /\
  forall a, estate a (mj_step sys e).2 = estate a sys.2 + match e with Arrive t => stake a t | _ => 0 end.
Proof.
  destruct sys as [ps s]. cbn [fst snd]. intros Hok He. destruct e as [env|i|t]; cbn [mj_step fst snd].
  - split; [|split; [apply table_evolved_refl|intros; lia]]. apply system_spawn; [done|by apply round_ok|]. intros id Hid. by apply elem_of_empty in Hid.
  - unfold run_thread. cbn [fst snd]. destruct (ps !! i) as [[| |next]|] eqn:Ei;
      cbn [fst snd]; try (split; [done|split; [apply table_evolved_refl|intros; lia]]).
    destruct (next s) as [p' s'] eqn:En. destruct (system_run ps s i next p' s' Hok Ei En) as [Hok' (O & O' & _ & Hg)].
    split; [done|]. split; [apply Hg|]. intros a. rewrite (gu_estate _ _ _ _ Hg). cbn. lia.
  - destruct (arrive_sound t s (proj1 Hok) He) as (Hs' & Hr & Hest). split; [|split; [apply (Hr ∅)|apply Hest]].
    by eapply system_interfere.
Qed.

Lemma mj_run_from es : forall sys, system_ok sys.1 sys.2 -> Forall honest_event es ->
  system_ok (foldl mj_step sys es).1 (foldl mj_step sys es).2 /\ table_evolved sys.2 (foldl mj_step sys es).2 /\
  forall a, estate a (foldl mj_step sys es).2 = estate a sys.2 + sum_by (stake a) (arrivals es).
Proof.
  induction es as [|e es IH]; intros sys Hok Hes; cbn [foldl].
  { split; [done|]. split; [apply table_evolved_refl|]. intros a. change (sum_by _ (arrivals [])) with 0. by rewrite Z.add_0_r. }
  apply Forall_cons in Hes as [He Hes]. destruct (mj_step_ok sys e Hok He) as (Hok1 & Hev1 & Hest1).
  destruct (IH _ Hok1 Hes) as (Hok2 & Hev2 & Hest2). split; [done|]. split; [by eapply table_evolved_trans|]. intros a. rewrite Hest2, Hest1.
  destruct e; cbn [arrivals omap list_omap sum_by]; unfold arrivals; lia.
Qed.

(** C11. A task is refunded once, whatever the pollers do.  Any number of rounds
    run at the same time, each move seeing what the others left, with failing
    database calls anywhere; new tasks arrive meanwhile.  Provided that reports
    are consistent and name a task once, each balance of a user or of a token,
    together with what the tasks that are not refunded still hold of it, moves
    only by what arriving tasks hold; a refunded task has failed; and
    a task that was refunded or failed stays so. *)
Theorem pollers_conserve es s :
  mj_sound s -> Forall honest_event es ->
  let s' := (mj_run es s).2 in
  (forall a, estate a s' = estate a s + sum_by (stake a) (arrivals es)) /\
  (forall id t, md_rows s' !! id = Some t -> mb_BillingRefunded (mj_billing t) = 1 -> mj_Status t = "FAILURE" /\ mj_Progress t = "100%") /\
  (forall id t, md_rows s !! id = Some t -> exists t', md_rows s' !! id = Some t' /\ mj_UserId t' = mj_UserId t /\ mj_Quota t' = mj_Quota t /\
     (mj_Status t = "FAILURE" -> mj_Status t' = "FAILURE") /\
     (mb_BillingRefunded (mj_billing t) = 1 -> mb_BillingRefunded (mj_billing t') = 1)).
Proof.
  intros Hs Hes. destruct (mj_run_from es ([], s) (system_start (H:=mj_protocol) s Hs) Hes) as ([Hsound _] & Hev & Hest). unfold mj_run.
  set (s' := (foldl mj_step ([], s) es).2) in *. destruct (Hsound : mj_sound s') as [_ Hs']. split; [done|]. split.
  - intros id t Ht Hr. destruct (Hs' _ _ Ht) as [_ _ RP RF]. specialize (RF Hr). apply String.eqb_eq in RF. split; [done|]. apply RP.
    unfold final, str_in. by rewrite RF.
  - intros id t Ht. destruct (Hev _ _ Ht) as (t' & Ht' & [EI _ EF ER _]). exists t'. unfold identity in EI. simplify_eq. repeat split; try done.
    intros Hf. apply String.eqb_eq, EF. unfold failed. by rewrite Hf.
Qed.
End Histories.

(** ** A failed task gets its money back *)

(** A row whose refund can be carried out: paid by the wallet, with a consistent
    split, a user and a token that exist. *)
Record refundable (t : Midjourney) (w : world) : Prop := {
  rf_open : mb_BillingRefunded (mj_billing t) = 0;
  rf_source : billing_source t = "wallet" \/ billing_source t = "";
  rf_amount : 0 <= refund_amount t <= max_i64;
  rf_split : is_ok (refund_reward t (refund_amount t)) = true;
  rf_user : is_Some (w_users w !! mj_UserId t);
  rf_tokens : token_refund_amount t <= max_i64;
  rf_token : 0 < mb_TokenId (mj_billing t) -> is_Some (w_tokens w !! mb_TokenId (mj_billing t))
}.

Lemma refund_commits `{LocalZone} id clock now s t :
  md_rows s !! id = Some t -> refundable t (md_world s) -> exists s', refund_midjourney_tx id clock now s = Ok (mark_refunded t, s').
Proof.
  intros Hr [Ho Hsrc Ham Hsp [user Hu] Htk Ht]. unfold refund_midjourney_tx. rewrite Hr, Ho. cbn [Z.eqb].
  assert (Hns : String.eqb (billing_source t) "subscription" = false) by (by destruct Hsrc as [-> | ->]).
  assert (Hin : str_in (billing_source t) [""; "wallet"; "subscription"] = true) by (by destruct Hsrc as [-> | ->]).
  unfold reject_if. rewrite (proj2 (Z.ltb_ge (refund_amount t) 0)), (proj2 (Z.ltb_ge max_i64 (refund_amount t))), Hin by lia. cbn [negb mbind result_bind].
  assert (Hw : exists w1, refund_wallet t (refund_amount t) (md_world s) = Ok w1 /\ w_tokens w1 = w_tokens (md_world s)).
  { unfold refund_wallet. rewrite Hns. cbn [negb andb]. destruct (0 <? refund_amount t); [|by eexists].
    destruct (refund_reward t (refund_amount t)); [|done]. cbn [mbind result_bind]. rewrite Hu. by eexists. }
  destruct Hw as (w1 & -> & Hw1). cbn [mbind result_bind]. unfold refund_subscription. rewrite Hns. cbn [mbind result_bind].
  assert (Hk : exists w2, refund_mj_token t clock w1 = Ok w2).
  { unfold refund_mj_token. destruct (0 <? token_refund_amount t); [|by eexists]. cbn [andb].
    destruct (Z.ltb_spec 0 (mb_TokenId (mj_billing t))) as [Hp|]; [|by eexists].
    rewrite (proj2 (Z.ltb_ge max_i64 (token_refund_amount t))) by lia. rewrite Hw1. destruct (Ht Hp) as [token ->]. by eexists. }
  destruct Hk as (w2 & ->). cbn. by eexists.
Qed.

Section Alone.
Context `{Deployment} `{DBClock} `{LocalZone} `{MjJson}.
Variable sha256_hex : string -> string.
Hypothesis no_fault : forall n, re_fault (reply_at n) = None.

Lemma mj_call_runs {A} (f : reply -> GM mjdb A) s : exists r s1, mj_call f s = f r s1 /\ same_money s s1.
Proof.
  unfold mj_call, ask, zoom, mbind, GM_bind. cbn. rewrite no_fault.
  exists (reply_at (w_calls (md_world s))), (put_mjworld (set_calls (Datatypes.S (w_calls (md_world s))) (md_world s)) s). by split.
Qed.

(** C8. A failed task gets its money back.  When a report says that a task with
    a charge has failed and the poller's copy is up to date, then two database
    calls later the row is marked as refunded, the user's balance and reward
    balance are up by the amounts recorded, and so is the token; nothing else is
    paid. *)
Theorem failed_task_is_refunded now item task refunded s k :
  md_rows s !! mj_Id task = Some task -> 0 < mj_Id task -> refundable task (md_world s) -> apply_report now item task = Some (refunded, true) ->
  exists s', run_alone 2 (poll_items sha256_hex [(now, item)] {[dt_MjId item := task]} k) s = (k {[dt_MjId item := mark_refunded refunded]}, s') /\
    md_rows s' !! mj_Id task = Some (mark_refunded refunded) /\ mj_Progress refunded = "100%" /\
    forall a, asset_value a (md_world s') = asset_value a (md_world s) + refund_pays a task.
Proof.
  intros Hr Hpos Hrf Ha.
  assert (Hrep : mj_Id refunded = mj_Id task /\ mj_billing refunded = mj_billing task /\ mj_UserId refunded = mj_UserId task /\
                 mj_Quota refunded = mj_Quota task /\ mj_Progress refunded = "100%").
  { unfold apply_report in Ha. cases_in Ha; done. }
  destruct Hrep as (Eid & Eb & Eu & Eq & Ep).
  assert (Epay : forall a, refund_pays a refunded = refund_pays a task).
  { intros a. unfold refund_pays, reward_stake, wallet_stake, token_stake, refund_amount, token_refund_amount, billing_source. by rewrite Eb, Eu, Eq. }
  assert (Hrf' : forall w, w_users w = w_users (md_world s) -> w_tokens w = w_tokens (md_world s) -> refundable refunded w).
  { intros w Hwu Hwt. destruct Hrf as [R1 R2 R3 R4 R5 R6 R7].
    split; unfold refund_reward, refund_amount, token_refund_amount, billing_source in *; rewrite ?Eb, ?Eu, ?Eq, ?Hwu, ?Hwt; done. }
  cbn [poll_items]. rewrite lookup_singleton_eq, Ha. cbn [run_alone step_call].
  unfold UpdateWithStatus. match goal with |- context [mj_call ?f ?x] => destruct (mj_call_runs f x) as (r1 & s1 & Hc1 & (Hrows1 & Hn1 & Hu1 & Ht1)) end.
  rewrite Hc1, Hrows1, Eid, Hr, String.eqb_refl. cbn [after_update run_alone].
  set (s2 := put_rows (<[mj_Id task := refunded]> (md_rows s)) s1).
  unfold RefundMidjourneyQuota, gets, mbind, GM_bind, zoom. cbn [fst snd]. rewrite Eid, (proj2 (Z.ltb_lt _ _) Hpos).
  unfold RefundMidjourneyBilling. rewrite Eid, (proj2 (Z.leb_gt _ _) Hpos).
  match goal with |- context [mj_call ?f ?x] => destruct (mj_call_runs f x) as (r2 & s3 & Hc2 & (Hrows3 & Hn3 & Hu3 & Ht3)) end.
  rewrite Hc2. assert (Hrow3 : md_rows s3 !! mj_Id task = Some refunded) by (rewrite Hrows3; apply lookup_insert_eq).
  destruct (refund_commits (mj_Id task) (re_clock r2) (re_txnow r2) s3 refunded Hrow3) as (s4 & Htx); [apply Hrf'; [by rewrite Hu3|by rewrite Ht3]|].
  rewrite Htx. unfold modify. cbn [fst snd]. exists s4. apply refund_tx_effect in Htx as (cur & Hcur & Heff). simplify_eq.
  destruct Heff as [(H1r & _)|(_ & _ & Hrows4 & _ & Hbal)].
  { rewrite Eb in H1r. destruct Hrf as [R1 _ _ _ _ _ _]. congruence. }
  split; [by rewrite insert_singleton_eq|]. split; [rewrite Hrows4; apply lookup_insert_eq|]. split; [done|].
  intros a. rewrite Hbal, Epay. f_equal. apply same_balance; [by rewrite Hu3|by rewrite Ht3].
Qed.
End Alone.

(** ** Concrete histories *)

#[local] Instance mj_zone : LocalZone := 0.
#[local] Instance mj_dbclock : DBClock := 0.
#[local] Instance mj_json : MjJson :=
  {| marshal_urls := fun us => match us with Some us => "[" +:+ String.concat "," us +:+ "]" | None => "null" end;
     marshal_buttons := fun _ => "[]"; marshal_properties := fun p => p.1 |}.
#[local] Instance steady_db : Deployment := local_process false 0 0.

(** A task of 100 that took 40 of the reward balance, on channel 3 and token 7. *)
Definition painted_view (status progress : string) : MjView := mkMjView 1 "" "" 0 0 0 "" "" "" status progress "" "" "".
Definition painted (status progress : string) : Midjourney :=
  mkMidjourney 0 1 "IMAGINE" "mj-1" "a cat" "" 3 100 (painted_view status progress) (mkMjBilling "wallet" 100 0 "" 0 7 0 0 0 40 60 1 0).
Definition gallery : mjdb := mkMjdb ∅ 1 (one_user 1000 300 500 no_batch) [].

Definition report (status progress reason : string) : MidjourneyDto := mkMjDto "mj-1" "" "" 0 0 0 "" "" None status progress reason None None.
(** A round in which channel 3 reports on the task. *)
Definition round_with (d : MidjourneyDto) : round_env := mkRound [] (fun c => if c =? 3 then Answered [(0, d)] else RequestFailed).

Lemma honest_round_with d : honest_item d = true -> honest_round (round_with d).
Proof.
  intros Hd. split; cbn [ro_answer round_with].
  - intros c. destruct (c =? 3); cbn; by repeat constructor.
  - intros c. destruct (c =? 3); cbn; [apply NoDup_singleton|apply NoDup_nil_2].
  - intros c c' x. destruct (Z.eqb_spec c 3), (Z.eqb_spec c' 3); cbn; try (intros Hx; by apply not_elem_of_nil in Hx);
      try (intros _ Hx; by apply not_elem_of_nil in Hx). congruence.
Qed.

Definition quota_left (u : Z) (s : mjdb) : Z := asset_value (UserQuota u) (md_world s).

(** Two processes poll a failed task at the same time, move by move. *)
Definition twin_poll : list mj_event :=
  [Arrive (painted "IN_PROGRESS" "50%"); Spawn (round_with (report "FAILURE" "100%" "banned")); Spawn (round_with (report "FAILURE" "100%" "banned"));
   Run 0; Run 1; Run 0; Run 1; Run 1; Run 0].

Lemma pollers_conserve_witness :
  let s' := (mj_run plain_digest twin_poll gallery).2 in
  quota_left 1 s' = 1100 /\ asset_value (RewardQuota 1) (md_world s') = 340 /\ asset_value (TokenRemain 7) (md_world s') = 600 /\
  estate (UserQuota 1) s' = estate (UserQuota 1) gallery + 100.
Proof.
  split; [vm_compute; reflexivity|]. split; [vm_compute; reflexivity|]. split; [vm_compute; reflexivity|].
  assert (Hs : mj_sound gallery) by (split; [done|]; intros id t Ht; discriminate Ht).
  assert (He : Forall honest_event twin_poll).
  { repeat constructor; try (apply honest_round_with; reflexivity); try done. }
  destruct (pollers_conserve plain_digest twin_poll gallery Hs He) as [Hest _].
  rewrite (Hest (UserQuota 1)). reflexivity.
Defined.

Lemma failed_task_is_refunded_witness :
  let task := with_id 1 (painted "IN_PROGRESS" "50%") in
  let s := arrive_task (painted "IN_PROGRESS" "50%") gallery in
  exists s', (run_alone 2 (poll_items plain_digest [(0, report "FAILURE" "70%" "banned")] {["mj-1" := task]} (fun _ => Finished)) s).2 = s' /\
    quota_left 1 s' = 1100 /\ asset_value (RewardQuota 1) (md_world s') = 340 /\ asset_value (TokenUsed 7) (md_world s') = -100.
Proof.
  destruct (failed_task_is_refunded plain_digest ltac:(intros n; destruct n; reflexivity) 0 (report "FAILURE" "70%" "banned") (with_id 1 (painted "IN_PROGRESS" "50%"))
              (with_view (mkMjView 1 "" "" 0 0 0 "" "" "" "FAILURE" "100%" "banned" "" "") (with_id 1 (painted "IN_PROGRESS" "50%")))
              (arrive_task (painted "IN_PROGRESS" "50%") gallery) (fun _ => Finished)) as (s' & Hrun & _ & _ & Hbal).
  - reflexivity.
  - reflexivity.
  - split; try reflexivity; try (left; reflexivity); try (vm_compute; split; congruence); try (vm_compute; congruence); try (intros _); vm_compute; eexists; reflexivity.
  - reflexivity.
  - exists s'. split; [exact (f_equal snd Hrun)|]. unfold quota_left. rewrite !Hbal. vm_compute. repeat split.
Defined.

(** A report that ends a task and leaves its status as it was: the second
    process wins the conditional write as well, which takes the mark of the refund
    back, and the task of 100 is refunded twice. *)
Example same_status_refunds_twice :
  let d := report "IN_PROGRESS" "50%" "banned" in
  let s' := (mj_run plain_digest [Arrive (painted "IN_PROGRESS" "50%"); Spawn (round_with d); Spawn (round_with d); Run 0; Run 1; Run 0; Run 0; Run 1; Run 1] gallery).2 in
  honest_item d = false /\ quota_left 1 s' = 1200.
Proof. vm_compute. by split. Qed.

(** A task paid by a subscription.  The poller reads the row after it was
    inserted and before the charge is recorded; its write takes the recorded
    columns back, and when the task fails the wallet is paid instead. *)
Definition painted_info : RelayInfo := mkRI 1 7 "sk" false false true false "req-9" "mj" 0 0 "" "" "subscription_only" 0 100 "subscription" 4 100 0 0 0 0 "" 0 0.
Definition fresh_task : Midjourney := submitted_task 1 "IMAGINE" "a cat" 3 100 0 0 true (mkMjResponse 1 "" JNull "mj-1").

Example early_read_pays_wallet :
  let submission := record_submission plain_digest fresh_task painted_info (Ok painted_info) true in
  let first := UpdateMidjourneyTaskBulk plain_digest (round_with (report "IN_PROGRESS" "10%" "")) in
  let second := UpdateMidjourneyTaskBulk plain_digest (round_with (report "FAILURE" "100%" "banned")) in
  let sys := foldl (fun sys i => run_thread i sys) ([submission; first; second], gallery) in
  let recorded := (sys [0; 1; 0; 0]%nat).2 in
  let after := (sys [0; 1; 0; 0; 1; 2; 2; 2]%nat).2 in
  option_map (fun t => mb_BillingSource (mj_billing t)) (md_rows recorded !! 1) = Some "subscription" /\
  option_map (fun t => mb_BillingSource (mj_billing t)) (md_rows after !! 1) = Some "" /\
  quota_left 1 recorded = 1000 /\ quota_left 1 after = 1100.
Proof. vm_compute. by repeat split. Qed.

(** A callback that reports the failure ends the task, and no poll refunds it. *)
Example callback_failure_is_not_refunded :
  let s := arrive_task (painted "IN_PROGRESS" "50%") gallery in
  let notify := RelayMidjourneyNotify (report "FAILURE" "100%" "banned") in
  let round := UpdateMidjourneyTaskBulk plain_digest (round_with (report "FAILURE" "100%" "banned")) in
  let s1 := (run_alone 10 notify s).2 in
  let '(p, s2) := run_alone 10 round s1 in
  p = Finished /\ quota_left 1 s2 = 1000 /\ option_map (fun t => (mj_Status t, mb_BillingRefunded (mj_billing t))) (md_rows s2 !! 1) = Some ("FAILURE", 0).
Proof. vm_compute. by repeat split. Qed.

(** The token was deleted: the whole refund is rolled back, and since the row
    says 100% no later round tries again. *)
Example deleted_token_blocks_refund :
  let s := arrive_task (painted "IN_PROGRESS" "50%") (put_mjworld (set_tokens ∅ (md_world gallery)) gallery) in
  let round := UpdateMidjourneyTaskBulk plain_digest (round_with (report "FAILURE" "100%" "banned")) in
  let s1 := (run_alone 10 round s).2 in
  let '(p, s2) := run_alone 10 round s1 in
  p = Finished /\ quota_left 1 s2 = 1000 /\ option_map (fun t => (mj_Status t, mb_BillingRefunded (mj_billing t))) (md_rows s2 !! 1) = Some ("FAILURE", 0).
Proof. vm_compute. by repeat split. Qed.

(** An answer about a task that was not asked for ends the poller. *)
Example unknown_task_stops_poller :
  let d := mkMjDto "mj-2" "" "" 0 0 0 "" "" None "SUCCESS" "100%" "" None None in
  (run_alone 10 (UpdateMidjourneyTaskBulk plain_digest (round_with d)) (arrive_task (painted "IN_PROGRESS" "50%") gallery)).1 = Panicked.
Proof. vm_compute. reflexivity. Qed.
