(* ===== verification/PaymentBill.v ===== *)
(** * Payment bills and their reconciliation

    The bills of the payment channels ([payment_bill_record],
    src/model/payment_bill_record.go), the results of comparing them with the
    local orders ([payment_bill_reconcile], src/model/payment_bill_reconcile.go),
    and the three services that compare: WeChat, Alipay and Stripe
    (src/service/wechat_trade_bill_reconcile.go,
    src/service/alipay_trade_bill_reconcile.go,
    src/service/stripe_trade_bill_reconcile.go).

    The services share one loop; what differs is a [BillChannel].  The records
    of a run are pointers reached from a slice and from an index by trade
    number: here the slice is the store, and the index holds positions in it. *)

From stdpp Require Import base numbers list strings gmap pretty sorting.
From Stdlib Require Import ZArith Lia Ascii SpecFloat.
From S2P Require Import Prelude GoInt GoString GoText GoTime GoFloat QuotaWindow QuotaPolicy WindowBounds GoDate SubPlan SubStock SubOrder Redemption.

(** ** Data *)

Definition PaymentChannelTypeWechat : string := "wxpay".
Definition PaymentChannelTypeStripe : string := "stripe".
Definition PaymentChannelTypeCrypto : string := "crypto".
Definition PaymentChannelTypeAlipay : string := "alipay".

Definition StatusMatched : string := "matched".
Definition StatusAbnormal : string := "abnormal".
Definition ReasonMatched : string := "matched".
Definition ReasonChannelNotFound : string := "channel_not_found".
Definition ReasonLocalNotFound : string := "local_not_found".
Definition ReasonDuplicateLocal : string := "duplicate_local".
Definition ReasonAmountMismatch : string := "amount_mismatch".
Definition ReasonCurrencyMismatch : string := "currency_mismatch".
Definition ReasonStatusMismatch : string := "status_mismatch".
Definition ReasonUnsupportedBillRow : string := "unsupported_bill_row".

(** A row of a channel's bill, as far as it is read. *)
Record PaymentBillRecord := mkBill {
  pb_Id : Z; pb_ChannelType : string; pb_BillDate : string; pb_RowIndex : Z; pb_RowHash : string;
  pb_TradeTime : string; pb_ChannelTradeNo : string; pb_MerchantTradeNo : string;
  pb_TradeType : string; pb_TradeStatus : string; pb_RefundStatus : string; pb_Currency : string;
  pb_TotalAmount : string; pb_OrderAmount : string; pb_RefundAmount : string; pb_ApplyRefundAmount : string;
  pb_CreatedAt : Z
}.

(** A result of a reconciliation: the columns filled from the bill, the columns
    filled from the local order, and the verdict.  [Remark] is for the reader. *)
Record channel_side := mkChannelSide {
  cs_BillRecordId : Z; cs_TradeTime : string; cs_ChannelTradeNo : string; cs_MerchantTradeNo : string; cs_TradeType : string;
  cs_Status : string; cs_RefundStatus : string; cs_Amount : string; cs_RefundAmount : string; cs_Currency : string
}.
Record local_side := mkLocalSide {
  ls_Type : string; ls_Id : Z; ls_TradeNo : string; ls_PaymentMethod : string; ls_Status : string; ls_Amount : float64;
  ls_CreateTime : Z; ls_CompleteTime : Z; ls_Currency : string
}.
Record PaymentBillReconcile := mkReconcile {
  rc_ChannelType : string; rc_ReconcileKey : string; rc_RecordSource : string; rc_BillDate : string;
  rc_channel : channel_side; rc_local : local_side;
  rc_Status : string; rc_Reason : string; rc_CreatedAt : Z; rc_UpdatedAt : Z
}.

(** The tables the bill code touches.  The unique index of the results is their
    key; orders, top-ups and bill rows are in the order the database lists them. *)
Record billDB := mkBillDB {
  bl_topups : list TopUpRow; bl_orders : list SubscriptionOrder;
  bl_records : list PaymentBillRecord; bl_nextRecord : Z;
  bl_reconciles : gmap (string * string) PaymentBillReconcile
}.
Definition with_bill_rows (x : list PaymentBillRecord) (next : Z) (db : billDB) : billDB :=
  mkBillDB (bl_topups db) (bl_orders db) x next (bl_reconciles db).
Definition with_reconciles (x : gmap (string * string) PaymentBillReconcile) (db : billDB) : billDB :=
  mkBillDB (bl_topups db) (bl_orders db) (bl_records db) (bl_nextRecord db) x.

(** ** src/model/payment_bill_record.go *)

(** The columns that are trimmed before a row is stored. *)
Definition trim_bill (now : Z) (r : PaymentBillRecord) : PaymentBillRecord :=
  mkBill (pb_Id r) (TrimSpace (pb_ChannelType r)) (TrimSpace (pb_BillDate r)) (pb_RowIndex r) (TrimSpace (pb_RowHash r))
    (pb_TradeTime r) (pb_ChannelTradeNo r) (pb_MerchantTradeNo r) (pb_TradeType r) (pb_TradeStatus r) (pb_RefundStatus r) (pb_Currency r)
    (pb_TotalAmount r) (pb_OrderAmount r) (pb_RefundAmount r) (pb_ApplyRefundAmount r)
    (if pb_CreatedAt r =? 0 then now else pb_CreatedAt r).
Definition with_bill_id (id : Z) (r : PaymentBillRecord) : PaymentBillRecord :=
  mkBill id (pb_ChannelType r) (pb_BillDate r) (pb_RowIndex r) (pb_RowHash r)
    (pb_TradeTime r) (pb_ChannelTradeNo r) (pb_MerchantTradeNo r) (pb_TradeType r) (pb_TradeStatus r) (pb_RefundStatus r) (pb_Currency r)
    (pb_TotalAmount r) (pb_OrderAmount r) (pb_RefundAmount r) (pb_ApplyRefundAmount r) (pb_CreatedAt r).

(** The unique index [channel_type, row_hash]. *)
Definition same_row (a b : PaymentBillRecord) : bool :=
  String.eqb (pb_ChannelType a) (pb_ChannelType b) && String.eqb (pb_RowHash a) (pb_RowHash b).

(** One row of an insert that does nothing on a conflict. *)
Definition insert_bill (st : Z * billDB) (row : PaymentBillRecord) : Z * billDB :=
  let '(n, db) := st in
  if existsb (same_row row) (bl_records db) then st
  else (n + 1, with_bill_rows (bl_records db ++ [with_bill_id (bl_nextRecord db) row]) (bl_nextRecord db + 1) db).

(** [ok] is whether the database takes the batch. *)
Definition BatchInsertPaymentBillRecords (ok : bool) (now : Z) (rows : list PaymentBillRecord) (db : billDB) : result Z * billDB :=
  let batch := filter (fun r => pb_ChannelType r <> "" /\ pb_RowHash r <> "") (map (trim_bill now) rows) in
  if bool_decide (batch = []) then (Ok 0, db)
  else if negb ok then (fail_with "database error", db)
  else let '(n, db') := foldl insert_bill (0, db) batch in (Ok n, db').

(** [ORDER BY bill_date, row_index]: some sorted permutation. *)
Definition row_le (a b : PaymentBillRecord) : Prop :=
  pb_BillDate a <> pb_BillDate b /\ String.le (pb_BillDate a) (pb_BillDate b) \/
  pb_BillDate a = pb_BillDate b /\ pb_RowIndex a <= pb_RowIndex b.
Class RowOrder := {
  order_rows : list PaymentBillRecord -> list PaymentBillRecord;
  order_rows_perm : forall l, order_rows l ≡ₚ l;
  order_rows_sorted : forall l, StronglySorted row_le (order_rows l)
}.

Section Bills.
Context `{RowOrder}.

(** [GetPaymentBillRecordsByChannelAndBillDateRange]; an empty bound is no bound. *)
Definition bill_in_range (channelType from to : string) (r : PaymentBillRecord) : bool :=
  String.eqb (pb_ChannelType r) (TrimSpace channelType) &&
  (String.eqb (TrimSpace from) "" || String.leb (TrimSpace from) (pb_BillDate r)) &&
  (String.eqb (TrimSpace to) "" || String.leb (pb_BillDate r) (TrimSpace to)).
Definition GetPaymentBillRecordsByChannelAndBillDateRange (channelType from to : string) (db : billDB) : list PaymentBillRecord :=
  order_rows (List.filter (bill_in_range channelType from to) (bl_records db)).

Definition DeletePaymentBillRecordsByChannelAndBillDate (channelType billDate : string) (db : billDB) : billDB :=
  with_bill_rows (List.filter (fun r => negb (String.eqb (pb_ChannelType r) channelType && String.eqb (pb_BillDate r) billDate)) (bl_records db))
    (bl_nextRecord db) db.

(** ** src/model/payment_bill_reconcile.go *)

Definition DeletePaymentBillReconcilesByChannelAndBillDate (channelType billDate : string) (db : billDB) : billDB :=
  with_reconciles (filter (fun kv => ~ (rc_ChannelType kv.2 = channelType /\ rc_BillDate kv.2 = billDate)) (bl_reconciles db)) db.

Definition trim_channel (c : channel_side) : channel_side :=
  mkChannelSide (cs_BillRecordId c) (TrimSpace (cs_TradeTime c)) (TrimSpace (cs_ChannelTradeNo c)) (TrimSpace (cs_MerchantTradeNo c))
    (cs_TradeType c) (cs_Status c) (cs_RefundStatus c) (cs_Amount c) (cs_RefundAmount c) (cs_Currency c).
Definition trim_local (l : local_side) : local_side :=
  mkLocalSide (TrimSpace (ls_Type l)) (ls_Id l) (TrimSpace (ls_TradeNo l)) (ls_PaymentMethod l) (ls_Status l) (ls_Amount l)
    (ls_CreateTime l) (ls_CompleteTime l) (ls_Currency l).

(** The hook [BeforeCreate]; the timestamps are set by then. *)
Definition BeforeCreate (r : PaymentBillReconcile) : PaymentBillReconcile :=
  mkReconcile (TrimSpace (rc_ChannelType r)) (TrimSpace (rc_ReconcileKey r)) (TrimSpace (rc_RecordSource r)) (TrimSpace (rc_BillDate r))
    (trim_channel (rc_channel r)) (trim_local (rc_local r)) (TrimSpace (rc_Status r)) (TrimSpace (rc_Reason r)) (rc_CreatedAt r) (rc_UpdatedAt r).
Definition stamp (now : Z) (r : PaymentBillReconcile) : PaymentBillReconcile :=
  mkReconcile (rc_ChannelType r) (rc_ReconcileKey r) (rc_RecordSource r) (rc_BillDate r) (rc_channel r) (rc_local r)
    (rc_Status r) (rc_Reason r) (if rc_CreatedAt r =? 0 then now else rc_CreatedAt r) now.

(** The columns a conflicting insert assigns: all but the creation time and the
    two currencies. *)
Definition assign_columns (old new : PaymentBillReconcile) : PaymentBillReconcile :=
  let c := rc_channel new in let l := rc_local new in
  mkReconcile (rc_ChannelType old) (rc_ReconcileKey old) (rc_RecordSource new) (rc_BillDate new)
    (mkChannelSide (cs_BillRecordId c) (cs_TradeTime c) (cs_ChannelTradeNo c) (cs_MerchantTradeNo c) (cs_TradeType c)
       (cs_Status c) (cs_RefundStatus c) (cs_Amount c) (cs_RefundAmount c) (cs_Currency (rc_channel old)))
    (mkLocalSide (ls_Type l) (ls_Id l) (ls_TradeNo l) (ls_PaymentMethod l) (ls_Status l) (ls_Amount l)
       (ls_CreateTime l) (ls_CompleteTime l) (ls_Currency (rc_local old)))
    (rc_Status new) (rc_Reason new) (rc_CreatedAt old) (rc_UpdatedAt new).

Definition upsert_reconcile (t : gmap (string * string) PaymentBillReconcile) (r : PaymentBillReconcile) :
    gmap (string * string) PaymentBillReconcile :=
  let k := (rc_ChannelType r, rc_ReconcileKey r) in
  <[k := match t !! k with Some old => assign_columns old r | None => r end]> t.

Definition storable (r : PaymentBillReconcile) : Prop := TrimSpace (rc_ChannelType r) <> "" /\ TrimSpace (rc_ReconcileKey r) <> "".
#[export] Instance storable_dec r : Decision (storable r).
Proof. unfold storable. apply _. Defined.

(** [UpsertPaymentBillReconciles]; the rows it counts are not read. *)
Definition UpsertPaymentBillReconciles (ok : bool) (now : Z) (rows : list PaymentBillReconcile) (db : billDB) : result unit * billDB :=
  let batch := map (fun r => BeforeCreate (stamp now r)) (filter storable rows) in
  if bool_decide (batch = []) then (Ok tt, db)
  else if negb ok then (fail_with "database error", db)
  else (Ok tt, with_reconciles (foldl upsert_reconcile (bl_reconciles db) batch) db).

(** ** What the services share (src/service/wechat_trade_bill_reconcile.go) *)

(** The first of the texts that is a number, and the number. *)
Fixpoint first_amount (candidates : list string) : string * float64 :=
  match candidates with
  | [] => ("", float_zero)
  | c :: rest =>
      if String.eqb c "" then first_amount rest
      else match ParseFloat c with Some v => (c, v) | None => first_amount rest end
  end.

(** 0.000001 *)
Definition tolerance : float64 := S754_finite false 4722366482869645 (-72).
Definition amountsEqual (a b : float64) : bool :=
  let diff := SFsub 53 1024 a b in
  let diff := if SFltb diff float_zero then SFopp diff else diff in
  SFleb diff tolerance.

Definition normalizeLocalStatus (status : string) : string := ToLower (TrimSpace status).

Definition reconcileKeyForLocalRecord (billDate localType : string) (localID : Z) : string :=
  "local:" +:+ TrimSpace billDate +:+ ":" +:+ TrimSpace localType +:+ ":" +:+ Itoa localID.
Definition reconcileKeyForChannelRecord (billDate : string) (billRecordID : Z) : string :=
  "channel:" +:+ TrimSpace billDate +:+ ":" +:+ Itoa billRecordID.

Definition getDayTimeRange (loc : Z) (billDate : string) : result (Z * Z) :=
  match parse_date (TrimSpace billDate) loc with
  | None => fail_with "parsing time"
  | Some startTime => Ok (i_unix startTime, i_unix (AddDate startTime 0 0 1))
  end.

(** The replies of the database on one day of a run, and the clock. *)
Record day_calls := mkCalls { dc_topups : bool; dc_orders : bool; dc_rows : bool; dc_write : bool; dc_now : Z }.

Definition no_channel (merchantTradeNo : string) : channel_side := mkChannelSide 0 "" "" merchantTradeNo "" "" "" "" "" "".

(** The record of a local order before any bill row is seen. *)
Definition local_record (channelType billDate : string) (l : local_side) : PaymentBillReconcile :=
  mkReconcile channelType (reconcileKeyForLocalRecord billDate (ls_Type l) (ls_Id l)) "local" billDate
    (no_channel (ls_TradeNo l)) l StatusAbnormal ReasonChannelNotFound 0 0.
Definition topup_side (currency : string) (t : TopUpRow) : local_side :=
  let u := w_TopUp t in
  mkLocalSide "topup" (w_Id t) (tu_TradeNo u) (tu_PaymentMethod u) (tu_Status u) (tu_OriginalMoney u) (tu_CreateTime u) (tu_CompleteTime u) currency.
Definition order_side (currency : string) (o : SubscriptionOrder) : local_side :=
  mkLocalSide "subscription" (o_Id o) (o_TradeNo o) (o_PaymentMethod o) (o_Status o) (o_OriginalMoney o) (o_CreateTime o) (o_CompleteTime o) currency.

(** The conditions of the two queries. *)
Definition paid_topup (method : string) (startTS endTS : Z) (t : TopUpRow) : bool :=
  let u := w_TopUp t in
  String.eqb (tu_PaymentMethod u) method && String.eqb (tu_Status u) TopUpStatusSuccess && String.eqb (tu_BizType u) TopUpBizTypePayment &&
  (startTS <=? tu_CompleteTime u) && (tu_CompleteTime u <? endTS).
Definition paid_order (method : string) (startTS endTS : Z) (o : SubscriptionOrder) : bool :=
  String.eqb (o_PaymentMethod o) method && String.eqb (o_Status o) TopUpStatusSuccess &&
  (startTS <=? o_CompleteTime o) && (o_CompleteTime o <? endTS).

(** The two queries and the records made of their rows; [tcur] and [ocur] are
    the currencies recorded. *)
Definition load_between (method billDate : string) (tcur : TopUp -> string) (ocur : SubscriptionOrder -> string)
    (calls : day_calls) (startTS endTS : Z) (db : billDB) : result (list PaymentBillReconcile) :=
  if negb (dc_topups calls) then fail_with "database error"
  else if negb (dc_orders calls) then fail_with "database error"
  else Ok (map (fun t => local_record method billDate (topup_side (tcur (w_TopUp t)) t)) (List.filter (paid_topup method startTS endTS) (bl_topups db)) ++
           map (fun o => local_record method billDate (order_side (ocur o) o)) (List.filter (paid_order method startTS endTS) (bl_orders db))).

(** A record after a bill row was matched with it. *)
Definition judged (source : string) (billDate : string) (c : channel_side) (v : string * string) (r : PaymentBillReconcile) : PaymentBillReconcile :=
  mkReconcile (rc_ChannelType r) (rc_ReconcileKey r) source billDate c (rc_local r) v.1 v.2 (rc_CreatedAt r) (rc_UpdatedAt r).
Definition abnormal (reason : string) : string * string := (StatusAbnormal, reason).
Definition matched : string * string := (StatusMatched, ReasonMatched).

(** What a payment channel does its own way: the zone of its days, the local
    orders of a day, the numbers by which a bill row names an order, and the
    three ways a row ends up in a record. *)
Record BillChannel := mkBillChannel {
  bc_type : string;
  bc_zone : Z;
  bc_load : day_calls -> string -> instant -> billDB -> result (list PaymentBillReconcile);
  bc_numbers : PaymentBillRecord -> list string;
  bc_apply : PaymentBillRecord -> PaymentBillReconcile -> PaymentBillReconcile;
  bc_only : PaymentBillRecord -> PaymentBillReconcile;
  bc_duplicate : PaymentBillRecord -> PaymentBillReconcile -> PaymentBillReconcile
}.

(** The merchant's number first, then the channel's when it is another one. *)
Definition both_numbers (row : PaymentBillRecord) : list string :=
  let merchant := TrimSpace (pb_MerchantTradeNo row) in
  let channel := TrimSpace (pb_ChannelTradeNo row) in
  (if String.eqb merchant "" then [] else [merchant]) ++
  (if String.eqb channel "" || String.eqb channel merchant then [] else [channel]).

(** *** WeChat *)

Definition parseWechatAmount (row : PaymentBillRecord) : string * float64 :=
  first_amount [TrimSpace (pb_OrderAmount row); TrimSpace (pb_TotalAmount row);
                TrimSpace (pb_ApplyRefundAmount row); TrimSpace (pb_RefundAmount row)].

Definition normalizeWechatTradeStatus (row : PaymentBillRecord) : string :=
  if negb (String.eqb (TrimSpace (pb_RefundStatus row)) "") then ToLower (TrimSpace (pb_RefundStatus row))
  else let status := ToUpper (TrimSpace (pb_TradeStatus row)) in
       if String.eqb status "SUCCESS" then "success"
       else if String.eqb status "REFUND" then "refund"
       else if str_in status ["CLOSED"; "REVOKED"; "PAYERROR"] then "failed"
       else if str_in status ["USERPAYING"; "NOTPAY"] then "pending"
       else ToLower (TrimSpace (pb_TradeStatus row)).

Definition wechat_side (row : PaymentBillRecord) : channel_side :=
  mkChannelSide (pb_Id row) (pb_TradeTime row) (pb_ChannelTradeNo row) (pb_MerchantTradeNo row) (pb_TradeType row) (pb_TradeStatus row)
    (pb_RefundStatus row) (parseWechatAmount row).1 (pb_RefundAmount row) "CNY".
Definition wechat_unsupported (row : PaymentBillRecord) : bool :=
  String.eqb (TrimSpace (pb_TradeStatus row)) "" && String.eqb (TrimSpace (pb_RefundStatus row)) "".

Definition wechat_applyChannelMatch (row : PaymentBillRecord) (r : PaymentBillReconcile) : PaymentBillReconcile :=
  judged "local" (pb_BillDate row) (wechat_side row)
    (if wechat_unsupported row then abnormal ReasonUnsupportedBillRow
     else if negb (amountsEqual (parseWechatAmount row).2 (ls_Amount (rc_local r))) then abnormal ReasonAmountMismatch
     else if negb (String.eqb (normalizeWechatTradeStatus row) (normalizeLocalStatus (ls_Status (rc_local r)))) then abnormal ReasonStatusMismatch
     else matched) r.

Definition no_local (method : string) : local_side := mkLocalSide "" 0 "" method "" float_zero 0 0 "".

Definition wechat_buildChannelOnlyRecord (row : PaymentBillRecord) : PaymentBillReconcile :=
  mkReconcile PaymentChannelTypeWechat (reconcileKeyForChannelRecord (pb_BillDate row) (pb_Id row)) "channel" (pb_BillDate row)
    (wechat_side row) (no_local PaymentChannelTypeWechat)
    StatusAbnormal (if wechat_unsupported row then ReasonUnsupportedBillRow else ReasonLocalNotFound) 0 0.

(** Several local orders carry the number: each is marked; its bill date stays. *)
Definition wechat_mark_duplicate (row : PaymentBillRecord) (r : PaymentBillReconcile) : PaymentBillReconcile :=
  judged (rc_RecordSource r) (rc_BillDate r) (wechat_side row) (abnormal ReasonDuplicateLocal) r.

Definition wechat_loadLocalSuccessRecords (loc : Z) (calls : day_calls) (billDate : string) (current : instant) (db : billDB) :
    result (list PaymentBillReconcile) :=
  '(startTS, endTS) ← getDayTimeRange loc billDate;
  load_between PaymentChannelTypeWechat billDate (fun _ => "¥") (fun _ => "¥") calls startTS endTS db.

Definition WechatBills (loc : Z) : BillChannel :=
  mkBillChannel PaymentChannelTypeWechat loc (wechat_loadLocalSuccessRecords loc) both_numbers
    wechat_applyChannelMatch wechat_buildChannelOnlyRecord wechat_mark_duplicate.

(** *** Alipay (src/service/alipay_trade_bill_reconcile.go, src/service/alipay_trade_bill.go) *)

Definition parseAlipayAmount (row : PaymentBillRecord) : string * float64 :=
  first_amount [TrimSpace (pb_OrderAmount row); TrimSpace (pb_TotalAmount row)].

Definition deriveAlipayTradeStatus (bizType : string) : string :=
  let bizType := TrimSpace bizType in
  if Contains bizType "退款" then "refund" else if Contains bizType "交易" then "success" else bizType.
Definition deriveAlipayTradeTypeFromMerchantOrderNo (merchantTradeNo : string) : string :=
  if HasPrefix (ToUpper (TrimSpace merchantTradeNo)) "SUB" then TopUpBizTypeSubscription else TopUpBizTypePayment.
Definition normalizeAlipayTradeStatus (row : PaymentBillRecord) : string :=
  let status := ToLower (TrimSpace (pb_TradeStatus row)) in
  if negb (String.eqb status "") then status else deriveAlipayTradeStatus (pb_TradeType row).

(** The refund columns are not filled: they stay as the record has them. *)
Definition alipay_side (row : PaymentBillRecord) (c : channel_side) : channel_side :=
  mkChannelSide (pb_Id row) (pb_TradeTime row) (pb_ChannelTradeNo row) (pb_MerchantTradeNo row)
    (deriveAlipayTradeTypeFromMerchantOrderNo (pb_MerchantTradeNo row)) (pb_TradeStatus row)
    (cs_RefundStatus c) (parseAlipayAmount row).1 (cs_RefundAmount c) "CNY".

Definition alipay_applyChannelMatch (row : PaymentBillRecord) (r : PaymentBillReconcile) : PaymentBillReconcile :=
  judged "local" (pb_BillDate row) (alipay_side row (rc_channel r))
    (if String.eqb (TrimSpace (pb_TradeStatus row)) "" then abnormal ReasonUnsupportedBillRow
     else if negb (amountsEqual (parseAlipayAmount row).2 (ls_Amount (rc_local r))) then abnormal ReasonAmountMismatch
     else if negb (String.eqb (normalizeAlipayTradeStatus row) (normalizeLocalStatus (ls_Status (rc_local r)))) then abnormal ReasonStatusMismatch
     else matched) r.

Definition alipay_buildChannelOnlyRecord (row : PaymentBillRecord) : PaymentBillReconcile :=
  mkReconcile PaymentChannelTypeAlipay (reconcileKeyForChannelRecord (pb_BillDate row) (pb_Id row)) "channel" (pb_BillDate row)
    (alipay_side row (no_channel "")) (no_local PaymentChannelTypeAlipay)
    StatusAbnormal (if String.eqb (TrimSpace (pb_TradeStatus row)) "" then ReasonUnsupportedBillRow else ReasonLocalNotFound) 0 0.

Definition alipay_mark_duplicate (row : PaymentBillRecord) (r : PaymentBillReconcile) : PaymentBillReconcile :=
  judged (rc_RecordSource r) (rc_BillDate r) (alipay_side row (rc_channel r)) (abnormal ReasonDuplicateLocal) r.

Definition alipay_loadLocalSuccessRecords (loc : Z) (calls : day_calls) (billDate : string) (current : instant) (db : billDB) :
    result (list PaymentBillReconcile) :=
  '(startTS, endTS) ← getDayTimeRange loc billDate;
  load_between PaymentChannelTypeAlipay billDate (fun _ => "¥") (fun _ => "¥") calls startTS endTS db.

Definition AlipayBills (loc : Z) : BillChannel :=
  mkBillChannel PaymentChannelTypeAlipay loc (alipay_loadLocalSuccessRecords loc) both_numbers
    alipay_applyChannelMatch alipay_buildChannelOnlyRecord alipay_mark_duplicate.

(** *** Stripe (src/service/stripe_trade_bill_reconcile.go) *)

Definition parseStripeAmount (row : PaymentBillRecord) : string * float64 :=
  first_amount [TrimSpace (pb_OrderAmount row); TrimSpace (pb_TotalAmount row)].

Definition currency_codes : list (list string * string) :=
  [(["$"], "USD"); (["¥"; "￥"], "CNY"); (["€"], "EUR"); (["£"], "GBP"); (["₩"], "KRW"); (["₹"], "INR");
   (["usd"; "USD"], "USD"); (["cny"; "CNY"; "rmb"; "RMB"], "CNY"); (["eur"; "EUR"], "EUR"); (["gbp"; "GBP"], "GBP");
   (["jpy"; "JPY"], "JPY"); (["krw"; "KRW"], "KRW"); (["inr"; "INR"], "INR"); (["cad"; "CAD"], "CAD"); (["aud"; "AUD"], "AUD");
   (["hkd"; "HKD"], "HKD"); (["sgd"; "SGD"], "SGD"); (["chf"; "CHF"], "CHF"); (["sek"; "SEK"], "SEK"); (["nok"; "NOK"], "NOK");
   (["dkk"; "DKK"], "DKK"); (["nzd"; "NZD"], "NZD"); (["mxn"; "MXN"], "MXN"); (["brl"; "BRL"], "BRL")].
Definition normalizeStripeCurrency (currency : string) : string :=
  let s := TrimSpace currency in
  match List.find (fun c => str_in s c.1) currency_codes with Some c => c.2 | None => ToUpper s end.

Definition normalizeStripeTradeStatus (status : string) : string :=
  let s := ToLower (TrimSpace status) in
  if String.eqb s "complete" then "success" else if String.eqb s "expired" then "failed"
  else if String.eqb s "open" then "pending" else s.

Definition stripe_side (row : PaymentBillRecord) (c : channel_side) : channel_side :=
  mkChannelSide (pb_Id row) (pb_TradeTime row) (pb_ChannelTradeNo row) (pb_MerchantTradeNo row) (pb_TradeType row) (pb_TradeStatus row)
    (cs_RefundStatus c) (parseStripeAmount row).1 (cs_RefundAmount c) (pb_Currency row).

Definition stripe_applyChannelMatch (row : PaymentBillRecord) (r : PaymentBillReconcile) : PaymentBillReconcile :=
  judged "local" (pb_BillDate row) (stripe_side row (rc_channel r))
    (if String.eqb (TrimSpace (pb_TradeStatus row)) "" then abnormal ReasonUnsupportedBillRow
     else if negb (String.eqb (normalizeStripeCurrency (pb_Currency row)) (normalizeStripeCurrency (ls_Currency (rc_local r)))) then abnormal ReasonCurrencyMismatch
     else if negb (amountsEqual (parseStripeAmount row).2 (ls_Amount (rc_local r))) then abnormal ReasonAmountMismatch
     else if negb (String.eqb (normalizeStripeTradeStatus (pb_TradeStatus row)) (normalizeLocalStatus (ls_Status (rc_local r)))) then abnormal ReasonStatusMismatch
     else matched) r.

Definition stripe_buildChannelOnlyRecord (row : PaymentBillRecord) : PaymentBillReconcile :=
  mkReconcile PaymentChannelTypeStripe (reconcileKeyForChannelRecord (pb_BillDate row) (pb_Id row)) "channel" (pb_BillDate row)
    (stripe_side row (no_channel "")) (no_local PaymentChannelTypeStripe)
    StatusAbnormal (if String.eqb (TrimSpace (pb_TradeStatus row)) "" then ReasonUnsupportedBillRow else ReasonLocalNotFound) 0 0.

Definition stripe_mark_duplicate (row : PaymentBillRecord) (r : PaymentBillReconcile) : PaymentBillReconcile :=
  judged (rc_RecordSource r) (rc_BillDate r) (stripe_side row (rc_channel r)) (abnormal ReasonDuplicateLocal) r.

(** The day is the one of the loop, in UTC. *)
Definition loadLocalStripeSuccessRecords (calls : day_calls) (billDate : string) (current : instant) (db : billDB) :
    result (list PaymentBillReconcile) :=
  load_between PaymentChannelTypeStripe billDate tu_Currency o_Currency calls (i_unix current) (i_unix (AddDate current 0 0 1)) db.

Definition stripe_numbers (row : PaymentBillRecord) : list string :=
  let merchant := TrimSpace (pb_MerchantTradeNo row) in if String.eqb merchant "" then [] else [merchant].

Definition StripeBills : BillChannel :=
  mkBillChannel PaymentChannelTypeStripe 0 loadLocalStripeSuccessRecords stripe_numbers
    stripe_applyChannelMatch stripe_buildChannelOnlyRecord stripe_mark_duplicate.

(** ** The loop *)

(** [indexLocalRecordsByTradeNo]: positions in the slice, by trade number. *)
Fixpoint index_from (i : nat) (records : list PaymentBillReconcile) (index : gmap string (list nat)) : gmap string (list nat) :=
  match records with
  | [] => index
  | r :: rest =>
      let tradeNo := TrimSpace (ls_TradeNo (rc_local r)) in
      index_from (S i) rest
        (if String.eqb tradeNo "" then index else <[tradeNo := default [] (index !! tradeNo) ++ [i]]> index)
  end.
Definition indexLocalRecordsByTradeNo (records : list PaymentBillReconcile) : gmap string (list nat) := index_from 0 records ∅.

(** Each key once. *)
Fixpoint unique_candidates (records : list PaymentBillReconcile) (seen : gset string) (candidates : list nat) : list nat :=
  match candidates with
  | [] => []
  | i :: rest =>
      match records !! i with
      | None => unique_candidates records seen rest
      | Some r => if decide (rc_ReconcileKey r ∈ seen) then unique_candidates records seen rest
                  else i :: unique_candidates records ({[rc_ReconcileKey r]} ∪ seen) rest
      end
  end.

Definition candidates_of (ch : BillChannel) (index : gmap string (list nat)) (records : list PaymentBillReconcile) (row : PaymentBillRecord) : list nat :=
  unique_candidates records ∅ (concat (map (fun no => default [] (index !! no)) (bc_numbers ch row))).

(** One bill row: no order, one, or several. *)
Definition match_row (ch : BillChannel) (index : gmap string (list nat))
    (st : list PaymentBillReconcile * list PaymentBillReconcile) (row : PaymentBillRecord) : list PaymentBillReconcile * list PaymentBillReconcile :=
  let '(records, only) := st in
  match candidates_of ch index records row with
  | [] => (records, only ++ [bc_only ch row])
  | [i] => (alter (bc_apply ch row) i records, only)
  | several => (foldl (fun l i => alter (bc_duplicate ch row) i l) records several, only)
  end.

Definition match_rows (ch : BillChannel) (records : list PaymentBillReconcile) (rows : list PaymentBillRecord) : list PaymentBillReconcile :=
  let '(records', only) := foldl (match_row ch (indexLocalRecordsByTradeNo records)) (records, []) rows in records' ++ only.

Record summary := mkSummary { su_Total : Z; su_Matched : Z; su_Abnormal : Z }.
Definition count_record (s : summary) (r : PaymentBillReconcile) : summary :=
  if String.eqb (rc_Status r) StatusMatched then mkSummary (su_Total s + 1) (su_Matched s + 1) (su_Abnormal s)
  else mkSummary (su_Total s + 1) (su_Matched s) (su_Abnormal s + 1).

(** The body of the loop: what is written and what is counted. *)
Definition reconcile_day (ch : BillChannel) (calls : day_calls) (current : instant) (db : billDB) : result (list PaymentBillReconcile) * billDB :=
  let billDate := format_date current in
  match bc_load ch calls billDate current db with
  | Err e => (Err e, db)
  | Ok localRecords =>
      if negb (dc_rows calls) then (fail_with "database error", db)
      else
        let rows := GetPaymentBillRecordsByChannelAndBillDateRange (bc_type ch) billDate billDate db in
        let results := match_rows ch localRecords rows in
        match UpsertPaymentBillReconciles (dc_write calls) (dc_now calls) results db with
        | (Err e, db') => (Err e, db')
        | (Ok _, db') => (Ok results, db')
        end
  end.

(** Day by day to the last; an error keeps what earlier days wrote. *)
Fixpoint reconcile_days (fuel : nat) (ch : BillChannel) (calls : string -> day_calls) (current toTime : instant) (s : summary) (db : billDB) :
    result summary * billDB :=
  match fuel with
  | O => (fail_with "out of fuel", db)
  | S n =>
      if i_unix toTime <? i_unix current then (Ok s, db)
      else match reconcile_day ch (calls (format_date current)) current db with
           | (Err e, db') => (Err e, db')
           | (Ok results, db') => reconcile_days n ch calls (AddDate current 0 0 1) toTime (foldl count_record s results) db'
           end
  end.

Definition ReconcileByBillDateRange (ch : BillChannel) (calls : string -> day_calls) (billDateFrom billDateTo : string) (db : billDB) :
    result summary * billDB :=
  match parse_date (TrimSpace billDateFrom) (bc_zone ch), parse_date (TrimSpace billDateTo) (bc_zone ch) with
  | Some fromTime, Some toTime =>
      if i_unix toTime <? i_unix fromTime then (fail_with "bill date range is invalid", db)
      else reconcile_days (Z.to_nat ((i_unix toTime - i_unix fromTime) / secs_per_day + 2)) ch calls fromTime toTime (mkSummary 0 0 0) db
  | _, _ => (fail_with "parsing time", db)
  end.

Definition ReconcileWechatTradeBillsByBillDateRange (loc : Z) := ReconcileByBillDateRange (WechatBills loc).
Definition ReconcileAlipayTradeBillsByBillDateRange (loc : Z) := ReconcileByBillDateRange (AlipayBills loc).
Definition ReconcileStripeTradeBillsByBillDateRange := ReconcileByBillDateRange StripeBills.

(** ** The workflows around it *)

(** What a channel answers when asked for the bill of a day, parsed. *)
Inductive statement := NoStatement | Statement (rows : list PaymentBillRecord) | StatementError (e : error).

(** [RunWechatTradeBillWorkflow]: a day without a bill is not reconciled. *)
Definition RunWechatTradeBillWorkflow (loc : Z) (insert_ok : bool) (calls : string -> day_calls) (billDate : string) (reply : statement) (db : billDB) :
    result summary * billDB :=
  let billDate := TrimSpace billDate in
  if String.eqb billDate "" then (fail_with "bill date is empty", db)
  else match reply with
       | StatementError e => (Err e, db)
       | NoStatement => (Ok (mkSummary 0 0 0), db)
       | Statement rows =>
           match BatchInsertPaymentBillRecords insert_ok (dc_now (calls billDate)) rows db with
           | (Err e, db') => (Err e, db')
           | (Ok _, db') => ReconcileWechatTradeBillsByBillDateRange loc calls billDate billDate db'
           end
       end.

(** [RunAlipayBillWorkflow]: the day is cleared before it is imported again.
    [deletes] are the replies to the two deletions. *)
Definition RunAlipayBillWorkflow (loc : Z) (deletes : bool * bool) (insert_ok : bool) (calls : string -> day_calls) (billDate : string) (reply : statement)
    (db : billDB) : result summary * billDB :=
  let billDate := TrimSpace billDate in
  if String.eqb billDate "" then (fail_with "bill date is empty", db)
  else match parse_date billDate 0 with
  | None => (fail_with "日期格式错误", db)
  | Some _ =>
      match reply with
      | StatementError e => (Err e, db)
      | NoStatement => (Ok (mkSummary 0 0 0), db)
      | Statement rows =>
          if negb deletes.1 then (fail_with "database error", db)
          else
            let db := DeletePaymentBillRecordsByChannelAndBillDate PaymentChannelTypeAlipay billDate db in
            if negb deletes.2 then (fail_with "database error", db)
            else
              let db := DeletePaymentBillReconcilesByChannelAndBillDate PaymentChannelTypeAlipay billDate db in
              match BatchInsertPaymentBillRecords insert_ok (dc_now (calls billDate)) rows db with
              | (Err e, db') => (Err e, db')
              | (Ok _, db') => ReconcileAlipayTradeBillsByBillDateRange loc calls billDate billDate db'
              end
      end
  end.
End Bills.
