(* ===== verification/BillMatch.v ===== *)
(** * Matching a bill with the local orders

    The loop over the rows of a bill, with its index and its slice of shared
    records, computes what a definition per order says: an order's record is
    changed by the rows that name it, one after the other, and a row that
    names no order becomes a record of its own. *)

From stdpp Require Import base numbers list strings gmap pretty sorting.
From Stdlib Require Import ZArith Lia Ascii SpecFloat.
From S2P Require Import Prelude GoInt GoString GoText GoTime GoFloat QuotaWindow QuotaPolicy WindowBounds GoDate SubPlan SubStock SubOrder Redemption PaymentBill.

(** ** The reference *)

Definition trade_no (r : PaymentBillReconcile) : string := TrimSpace (ls_TradeNo (rc_local r)).
Definition verdict_of (r : PaymentBillReconcile) : string * string := (rc_Status r, rc_Reason r).

(** The row carries the order's number. *)
Definition row_names (ch : BillChannel) (row : PaymentBillRecord) (r : PaymentBillReconcile) : Prop :=
  trade_no r <> "" /\ trade_no r ∈ bc_numbers ch row.
#[export] Instance names_dec ch row r : Decision (row_names ch row r).
Proof. unfold row_names. apply _. Defined.

Definition named (ch : BillChannel) (records : list PaymentBillReconcile) (row : PaymentBillRecord) : list PaymentBillReconcile :=
  filter (row_names ch row) records.

(** What one row does to the record of one order. *)
Definition apply_row (ch : BillChannel) (records : list PaymentBillReconcile) (r : PaymentBillReconcile) (row : PaymentBillRecord) : PaymentBillReconcile :=
  if decide (row_names ch row r) then
    match named ch records row with [_] => bc_apply ch row r | _ => bc_duplicate ch row r end
  else r.

Definition reference_results (ch : BillChannel) (records : list PaymentBillReconcile) (rows : list PaymentBillRecord) : list PaymentBillReconcile :=
  map (fun r => foldl (apply_row ch records) r rows) records ++
  map (bc_only ch) (filter (fun row => named ch records row = []) rows).

(** ** What every channel keeps *)

Definition frame (r r' : PaymentBillReconcile) : Prop :=
  rc_local r' = rc_local r /\ rc_ReconcileKey r' = rc_ReconcileKey r /\ rc_ChannelType r' = rc_ChannelType r /\
  rc_CreatedAt r' = rc_CreatedAt r /\ rc_UpdatedAt r' = rc_UpdatedAt r.

#[export] Instance frame_preorder : PreOrder frame.
Proof. split; [by intros r | intros a b c (?&?&?&?&?) (?&?&?&?&?)]. unfold frame. split_and!; congruence. Qed.

Class BillLaws (ch : BillChannel) : Prop := {
  numbers_NoDup : forall row, NoDup (bc_numbers ch row);
  numbers_nonempty : forall row, "" ∉ bc_numbers ch row;
  apply_frame : forall row r, frame r (bc_apply ch row r);
  duplicate_frame : forall row r, frame r (bc_duplicate ch row r);
  apply_verdict : forall row r r', rc_local r = rc_local r' -> verdict_of (bc_apply ch row r) = verdict_of (bc_apply ch row r');
  duplicate_verdict : forall row r, verdict_of (bc_duplicate ch row r) = abnormal ReasonDuplicateLocal;
  only_record : forall row, rc_Status (bc_only ch row) = StatusAbnormal /\ rc_ChannelType (bc_only ch row) = bc_type ch /\
    rc_ReconcileKey (bc_only ch row) = reconcileKeyForChannelRecord (pb_BillDate row) (pb_Id row) /\
    rc_CreatedAt (bc_only ch row) = 0
}.

Lemma both_numbers_ok row : NoDup (both_numbers row) /\ "" ∉ both_numbers row.
Proof.
  unfold both_numbers. set (m := TrimSpace (pb_MerchantTradeNo row)). set (c := TrimSpace (pb_ChannelTradeNo row)).
  destruct (String.eqb_spec m ""), (String.eqb_spec c ""), (String.eqb_spec c m); cbn;
    (split; [repeat constructor; set_solver | set_solver]).
Qed.
Lemma stripe_numbers_ok row : NoDup (stripe_numbers row) /\ "" ∉ stripe_numbers row.
Proof.
  unfold stripe_numbers. set (m := TrimSpace (pb_MerchantTradeNo row)).
  destruct (String.eqb_spec m ""); cbn; (split; [repeat constructor; set_solver | set_solver]).
Qed.

#[export] Instance wechat_laws loc : BillLaws (WechatBills loc).
Proof.
  split; try apply both_numbers_ok; try done.
  intros row r r' E. unfold verdict_of. cbn. by rewrite E.
Qed.
#[export] Instance alipay_laws loc : BillLaws (AlipayBills loc).
Proof.
  split; try apply both_numbers_ok; try done.
  intros row r r' E. unfold verdict_of. cbn. by rewrite E.
Qed.
#[export] Instance stripe_laws : BillLaws StripeBills.
Proof.
  split; try apply stripe_numbers_ok; try done.
  intros row r r' E. unfold verdict_of. cbn. by rewrite E.
Qed.

(** ** The index *)

(** The positions of the records with a property. *)
Definition positions (P : PaymentBillReconcile -> Prop) `{forall r, Decision (P r)} (i : nat) (records : list PaymentBillReconcile) : list nat :=
  concat (imap (fun k r => if decide (P r) then [(i + k)%nat] else []) records).

Section Positions.
Context (P : PaymentBillReconcile -> Prop) `{forall r, Decision (P r)}.

Lemma positions_cons i r records :
  positions P i (r :: records) = (if decide (P r) then [i] else []) ++ positions P (S i) records.
Proof.
  unfold positions. cbn. rewrite Nat.add_0_r. f_equal. f_equal. apply imap_ext. intros k x _. cbn. by rewrite Nat.add_succ_r.
Qed.

Lemma positions_spec i records k : k ∈ positions P i records <-> exists r, (i <= k)%nat /\ records !! (k - i)%nat = Some r /\ P r.
Proof.
  revert i. induction records as [|r records IH]; intros i.
  - split; [intros Hk; by apply not_elem_of_nil in Hk | intros (r & _ & Hr & _); by rewrite lookup_nil in Hr].
  - rewrite positions_cons, elem_of_app, IH. split.
    + intros [Hr|(x & Hk & Hx & Hn)].
      * destruct (decide _) as [E|]; [|by apply not_elem_of_nil in Hr]. apply list_elem_of_singleton in Hr as ->.
        exists r. by rewrite Nat.sub_diag.
      * exists x. split_and!; [lia | | done]. by replace (k - i)%nat with (S (k - S i)) by lia.
    + intros (x & Hk & Hx & Hn). destruct (decide (k = i)) as [->|Hne].
      * left. rewrite Nat.sub_diag in Hx. injection Hx as ->. rewrite decide_True by done. by apply list_elem_of_singleton.
      * right. exists x. split_and!; [lia | | done]. by replace (k - i)%nat with (S (k - S i)) in Hx by lia.
Qed.

Lemma positions_NoDup i records : NoDup (positions P i records).
Proof.
  revert i. induction records as [|r records IH]; intros i; [constructor|]. rewrite positions_cons.
  destruct (decide _); [|apply IH]. constructor; [|apply IH]. rewrite positions_spec. intros (x & Hk & _). lia.
Qed.

Lemma positions_length i records : length (positions P i records) = length (filter P records).
Proof.
  revert i. induction records as [|r records IH]; intros i; [done|]. rewrite positions_cons, length_app, IH, filter_cons.
  by destruct (decide _).
Qed.
End Positions.

Lemma index_from_spec i records index no : no <> "" ->
  default [] (index_from i records index !! no) = default [] (index !! no) ++ positions (fun r => trade_no r = no) i records.
Proof.
  intros Hno. revert i index. induction records as [|r records IH]; intros i index; cbn [index_from].
  - cbn. by rewrite app_nil_r.
  - rewrite IH, positions_cons. fold (trade_no r). destruct (String.eqb_spec (trade_no r) "") as [E|E].
    + rewrite decide_False by congruence. done.
    + destruct (decide (trade_no r = no)) as [->|Hne].
      * rewrite lookup_insert_eq. cbn. by rewrite <- app_assoc.
      * by rewrite lookup_insert_ne.
Qed.

(** ** The candidates of a row *)

Definition keys_distinct (records : list PaymentBillReconcile) : Prop :=
  forall i j r r', records !! i = Some r -> records !! j = Some r' -> rc_ReconcileKey r = rc_ReconcileKey r' -> i = j.

Lemma unique_candidates_id records seen l : keys_distinct records -> NoDup l ->
  (forall i, i ∈ l -> exists r, records !! i = Some r /\ rc_ReconcileKey r ∉ seen) ->
  unique_candidates records seen l = l.
Proof.
  intros Hk. revert seen. induction l as [|i l IH]; intros seen Hn Hl; [done|]. apply NoDup_cons in Hn as [Hi Hn]. cbn.
  destruct (Hl i) as (r & Hr & Hs); [set_solver|]. rewrite Hr, decide_False by done. f_equal.
  apply IH; [done|]. intros j Hj. destruct (Hl j) as (r' & Hr' & Hs'); [set_solver|]. exists r'. split; [done|].
  intros [E|?]%elem_of_union; [|done]. apply elem_of_singleton in E. by rewrite (Hk j i r' r Hr' Hr E) in Hj.
Qed.

Definition raw_candidates (ch : BillChannel) (records : list PaymentBillReconcile) (row : PaymentBillRecord) : list nat :=
  concat (map (fun no => positions (fun r => trade_no r = no) 0 records) (bc_numbers ch row)).

Lemma raw_candidates_spec ch records row : BillLaws ch ->
  NoDup (raw_candidates ch records row) /\
  forall k, k ∈ raw_candidates ch records row <-> exists r, records !! k = Some r /\ row_names ch row r.
Proof.
  intros Hl. pose proof (numbers_nonempty row) as Hne. unfold raw_candidates, row_names.
  pose proof (numbers_NoDup row) as Hnd. induction (bc_numbers ch row) as [|no nos IH]; cbn.
  - split; [constructor|]. intros k. split; [intros Hk; by apply not_elem_of_nil in Hk | intros (r & _ & _ & Hr); by apply not_elem_of_nil in Hr].
  - apply NoDup_cons in Hnd as [Hno Hnd]. destruct IH as [IH1 IH2]; [set_solver | done|]. split.
    + apply NoDup_app. split_and!; [apply positions_NoDup | | done].
      intros k Hk Hk2. apply positions_spec in Hk as (r & _ & Hr & E). rewrite Nat.sub_0_r in Hr.
      apply IH2 in Hk2 as (r' & Hr' & _ & Hin). rewrite Hr in Hr'. injection Hr' as <-. by rewrite E in Hin.
    + intros k. rewrite elem_of_app, IH2, positions_spec. split.
      * intros [(r & _ & Hr & E)|(r & Hr & Hn & Hin)]; exists r; [rewrite Nat.sub_0_r in Hr; rewrite E|]; set_solver.
      * intros (r & Hr & Hn & [E|Hin]%elem_of_cons).
        -- left. exists r. rewrite Nat.sub_0_r. split_and!; [lia | done | done].
        -- right. by exists r.
Qed.

Lemma raw_candidates_length ch records row : BillLaws ch -> length (raw_candidates ch records row) = length (named ch records row).
Proof.
  intros Hl. unfold named. rewrite <- (positions_length (row_names ch row) 0). apply Permutation_length, NoDup_Permutation.
  - by apply raw_candidates_spec.
  - apply positions_NoDup.
  - intros k. rewrite (proj2 (raw_candidates_spec ch records row Hl)), positions_spec.
    setoid_rewrite Nat.sub_0_r. split; [intros (r & Hr & Hn) | intros (r & _ & Hr & Hn)]; exists r; naive_solver lia.
Qed.

(** ** The loop is pointwise *)

Lemma foldl_alter_lookup {A} (f : A -> A) ps (l : list A) k : NoDup ps ->
  foldl (fun l i => alter f i l) l ps !! k = if decide (k ∈ ps) then f <$> l !! k else l !! k.
Proof.
  revert l. induction ps as [|i ps IH]; intros l Hn; [by rewrite decide_False by set_solver|].
  apply NoDup_cons in Hn as [Hi Hn]. cbn. rewrite IH by done. destruct (decide (k = i)) as [->|Hne].
  - rewrite (decide_False (P := i ∈ ps)), (decide_True (P := i ∈ i :: ps)) by set_solver. by rewrite list_lookup_alter_eq.
  - rewrite list_lookup_alter_ne by done. destruct (decide (k ∈ ps)).
    + by rewrite decide_True by set_solver.
    + by rewrite decide_False by set_solver.
Qed.

Lemma frame_names ch row r r' : frame r r' -> row_names ch row r' <-> row_names ch row r.
Proof. intros (E & _). unfold row_names, trade_no. by rewrite E. Qed.

Lemma keys_distinct_frame records l : Forall2 frame records l -> keys_distinct records -> keys_distinct l.
Proof.
  intros Hf Hk i j x y Hx Hy E.
  destruct (Forall2_lookup_r _ _ _ _ _ Hf Hx) as (r & Hr & _ & Ex & _). destruct (Forall2_lookup_r _ _ _ _ _ Hf Hy) as (r' & Hr' & _ & Ey & _).
  apply (Hk i j r r' Hr Hr'). congruence.
Qed.

Section Pointwise.
Context (ch : BillChannel) `{!BillLaws ch} (records : list PaymentBillReconcile) (Hkeys : keys_distinct records).
Notation index := (indexLocalRecordsByTradeNo records).

Lemma candidates_of_raw l row : Forall2 frame records l -> candidates_of ch index l row = raw_candidates ch records row.
Proof.
  intros Hf. unfold candidates_of.
  assert (concat (map (fun no => default [] (index !! no)) (bc_numbers ch row)) = raw_candidates ch records row) as ->.
  { unfold raw_candidates. f_equal. apply map_ext_in. intros no Hno%list_elem_of_In. unfold indexLocalRecordsByTradeNo.
    rewrite index_from_spec; [by rewrite lookup_empty|]. intros ->. by apply (numbers_nonempty row). }
  destruct (raw_candidates_spec ch records row _) as [Hn Hm]. apply unique_candidates_id; [by eapply keys_distinct_frame | done|].
  intros i (r & Hr & _)%Hm. destruct (Forall2_lookup_l _ _ _ _ _ Hf Hr) as (r' & Hr' & _). exists r'. split; [done | set_solver].
Qed.

Lemma candidate_in l row k r : Forall2 frame records l -> l !! k = Some r -> k ∈ raw_candidates ch records row <-> row_names ch row r.
Proof.
  intros Hf Hr. rewrite (proj2 (raw_candidates_spec ch records row _)).
  destruct (Forall2_lookup_r _ _ _ _ _ Hf Hr) as (x & Hx & Hfr). rewrite (frame_names _ _ _ _ Hfr).
  split; [intros (y & Hy & Hn); congruence | by exists x].
Qed.

Lemma apply_row_frame r row : frame r (apply_row ch records r row).
Proof. unfold apply_row. repeat case_match; first [done | apply apply_frame | apply duplicate_frame]. Qed.

Lemma match_row_pointwise l only row : Forall2 frame records l ->
  match_row ch index (l, only) row =
    (map (fun r => apply_row ch records r row) l, only ++ map (bc_only ch) (filter (fun row => named ch records row = []) [row])).
Proof.
  intros Hf. unfold match_row. rewrite candidates_of_raw by done.
  pose proof (raw_candidates_length ch records row _) as Hlen. destruct (raw_candidates_spec ch records row _) as [Hn _].
  pose proof (fun k r => candidate_in l row k r Hf) as Hin. cbn [filter].
  assert (Hnone : forall k, k ∉ raw_candidates ch records row -> (fun r => apply_row ch records r row) <$> l !! k = l !! k).
  { intros k Hk. destruct (l !! k) as [r|] eqn:E; [|done]. cbn. f_equal. unfold apply_row. rewrite decide_False; [done|]. by rewrite <- (Hin k r). }
  assert (Hsome : forall k, k ∈ raw_candidates ch records row -> (fun r => apply_row ch records r row) <$> l !! k =
    (match named ch records row with [_] => bc_apply ch row | _ => bc_duplicate ch row end) <$> l !! k).
  { intros k Hk. destruct (l !! k) as [r|] eqn:E; [|done]. cbn. f_equal. unfold apply_row. rewrite decide_True; [by repeat case_match|]. by rewrite <- (Hin k r). }
  destruct (raw_candidates ch records row) as [|i [|j rest]] eqn:Hraw; destruct (named ch records row) as [|x [|y more]] eqn:Hnamed; try discriminate Hlen.
  - rewrite filter_cons_True by done. f_equal. apply list_eq. intros k. rewrite list_lookup_fmap, Hnone by set_solver. done.
  - rewrite filter_cons_False by (rewrite Hnamed; done). cbn. rewrite app_nil_r. f_equal. apply list_eq. intros k. rewrite list_lookup_fmap.
    destruct (decide (k = i)) as [->|Hne]; [rewrite list_lookup_alter_eq, Hsome by set_solver | rewrite list_lookup_alter_ne, Hnone by set_solver]; done.
  - rewrite filter_cons_False by (rewrite Hnamed; done). rewrite app_nil_r. f_equal. apply list_eq. intros k. rewrite list_lookup_fmap, foldl_alter_lookup by done.
    destruct (decide (k ∈ i :: j :: rest)); [by rewrite Hsome | by rewrite Hnone].
Qed.

Lemma settled_frame r rows : frame r (foldl (apply_row ch records) r rows).
Proof.
  revert r. induction rows as [|row rows IH]; intros r; [done|]. cbn. etransitivity; [apply apply_row_frame | apply IH].
Qed.

Lemma match_rows_fold rows l only : Forall2 frame records l ->
  foldl (match_row ch index) (l, only) rows =
    (map (fun r => foldl (apply_row ch records) r rows) l, only ++ map (bc_only ch) (filter (fun row => named ch records row = []) rows)).
Proof.
  revert l only. induction rows as [|row rows IH]; intros l only Hf; [cbn; rewrite app_nil_r; f_equal; symmetry; apply map_id|].
  cbn [foldl]. rewrite match_row_pointwise by done. rewrite IH.
  - rewrite map_map. f_equal. rewrite <- app_assoc, <- map_app, <- filter_app. done.
  - apply Forall2_fmap_r. eapply Forall2_impl; [exact Hf|]. intros x y Hxy. change (frame x (apply_row ch records y row)). by transitivity y; [|apply apply_row_frame].
Qed.

Lemma match_rows_reference rows : match_rows ch records rows = reference_results ch records rows.
Proof.
  unfold match_rows. rewrite match_rows_fold; [done|]. by apply Forall_Forall2_diag, Forall_true.
Qed.

(** The verdict on an order is the one of the last row that names it. *)
Definition final_verdict (r : PaymentBillReconcile) (rows : list PaymentBillRecord) : string * string :=
  match last (filter (fun row => row_names ch row r) rows) with
  | None => verdict_of r
  | Some row => match named ch records row with [_] => verdict_of (bc_apply ch row r) | _ => abnormal ReasonDuplicateLocal end
  end.

Lemma settled_verdict r rows : verdict_of (foldl (apply_row ch records) r rows) = final_verdict r rows.
Proof.
  unfold final_verdict. induction rows as [|row rows IH] using rev_ind; [done|].
  rewrite foldl_snoc, filter_app, filter_cons. pose proof (settled_frame r rows) as Hf. unfold apply_row at 1.
  destruct (decide (row_names ch row r)) as [Hn|Hn].
  - rewrite decide_True by (by rewrite (frame_names _ _ _ _ Hf)). rewrite filter_nil, last_snoc.
    destruct Hf as (E & _). repeat case_match; first [apply duplicate_verdict | by apply apply_verdict].
  - rewrite decide_False by (by rewrite (frame_names _ _ _ _ Hf)). rewrite filter_nil, app_nil_r. done.
Qed.
End Pointwise.
