(* ===== verification/BillRun.v ===== *)
(** * A run over the days of a bill

    What one run of a reconciliation writes: the keys of its records never
    collide, so a run is one batch of upserts of the results of all its days. *)

From stdpp Require Import base numbers list strings gmap pretty sorting.
From Stdlib Require Import ZArith Lia Ascii SpecFloat.
From S2P Require Import Prelude GoInt GoString GoText GoTime GoFloat QuotaWindow QuotaPolicy WindowBounds GoDate SubPlan SubStock SubOrder Redemption PaymentBill BillMatch.

#[local] Arguments String.append : simpl nomatch.
#[local] Arguments reconcileKeyForLocalRecord : simpl never.
#[local] Arguments reconcileKeyForChannelRecord : simpl never.
#[local] Arguments TrimSpace : simpl never.
#[local] Arguments format_date : simpl never.

(** ** Keys *)

(** The fields of a key. *)
Lemma local_key_fields t kind id : kind ∈ ["topup"; "subscription"] ->
  Split (reconcileKeyForLocalRecord (format_date t) kind id) ":" = ["local"; format_date t; kind; Itoa id].
Proof.
  intros Hk. unfold reconcileKeyForLocalRecord. rewrite format_date_trim.
  change ("local:" +:+ ?x) with ("local" +:+ String ":" x). rewrite Split_app by done.
  change (":" +:+ ?x) with (String ":" x). rewrite Split_app by apply number_char_colon, format_date_chars.
  assert (TrimSpace kind = kind /\ all_chars (not_char ":") kind = true) as [-> Hc] by (repeat (apply elem_of_cons in Hk as [->|Hk]; [by vm_compute|]); by apply not_elem_of_nil in Hk).
  change (":" +:+ ?x) with (String ":" x). rewrite Split_app by done. rewrite Split_single by apply number_char_colon, Itoa_chars. done.
Qed.

Lemma channel_key_fields t id : Split (reconcileKeyForChannelRecord (format_date t) id) ":" = ["channel"; format_date t; Itoa id].
Proof.
  unfold reconcileKeyForChannelRecord. rewrite format_date_trim.
  change ("channel:" +:+ ?x) with ("channel" +:+ String ":" x). rewrite Split_app by done.
  change (":" +:+ ?x) with (String ":" x). rewrite Split_app by apply number_char_colon, format_date_chars.
  rewrite Split_single by apply number_char_colon, Itoa_chars. done.
Qed.

Lemma local_key_trim t kind id : kind ∈ ["topup"; "subscription"] ->
  TrimSpace (reconcileKeyForLocalRecord (format_date t) kind id) = reconcileKeyForLocalRecord (format_date t) kind id.
Proof.
  intros Hk. apply TrimSpace_graphic. unfold reconcileKeyForLocalRecord. rewrite format_date_trim, !all_chars_app.
  rewrite (number_char_graphic _ (format_date_chars t)), (number_char_graphic _ (Itoa_chars id)).
  repeat (apply elem_of_cons in Hk as [->|Hk]; [by vm_compute|]). by apply not_elem_of_nil in Hk.
Qed.
Lemma channel_key_trim t id :
  TrimSpace (reconcileKeyForChannelRecord (format_date t) id) = reconcileKeyForChannelRecord (format_date t) id.
Proof.
  apply TrimSpace_graphic. unfold reconcileKeyForChannelRecord. rewrite format_date_trim, !all_chars_app.
  by rewrite (number_char_graphic _ (format_date_chars t)), (number_char_graphic _ (Itoa_chars id)).
Qed.

(** ** What a channel loads *)

Definition day_start (ch : BillChannel) (day : Z) : instant := midnight_at day (bc_zone ch).
Definition day_text (ch : BillChannel) (day : Z) : string := format_date (day_start ch day).

Definition known_verdicts : list (string * string) :=
  matched :: map abnormal [ReasonChannelNotFound; ReasonLocalNotFound; ReasonDuplicateLocal; ReasonAmountMismatch;
                           ReasonCurrencyMismatch; ReasonStatusMismatch; ReasonUnsupportedBillRow].

(** The records of the paid orders of a day. *)
Definition paid_records (ch : BillChannel) (tcur : TopUp -> string) (ocur : SubscriptionOrder -> string) (day : Z) (db : billDB) : list PaymentBillReconcile :=
  let from := i_unix (midnight_at day (bc_zone ch)) in
  let to := i_unix (midnight_at (day + 1) (bc_zone ch)) in
  map (fun t => local_record (bc_type ch) (day_text ch day) (topup_side (tcur (w_TopUp t)) t)) (List.filter (paid_topup (bc_type ch) from to) (bl_topups db)) ++
  map (fun o => local_record (bc_type ch) (day_text ch day) (order_side (ocur o) o)) (List.filter (paid_order (bc_type ch) from to) (bl_orders db)).

Definition calls_load (calls : day_calls) : bool := dc_topups calls && dc_orders calls.

Class RunLaws (ch : BillChannel) : Prop := {
  run_bills :: BillLaws ch;
  run_zone : zone_ok (bc_zone ch);
  run_type : TrimSpace (bc_type ch) = bc_type ch /\ bc_type ch <> "";
  apply_known : forall row r, verdict_of (bc_apply ch row r) ∈ known_verdicts;
  only_known : forall row, verdict_of (bc_only ch row) ∈ known_verdicts;
  load_day : exists tcur ocur, forall calls day db, printable_day day ->
    bc_load ch calls (day_text ch day) (day_start ch day) db =
      if calls_load calls then Ok (paid_records ch tcur ocur day db) else fail_with "database error"
}.

Lemma getDayTimeRange_day day loc : printable_day day -> zone_ok loc ->
  getDayTimeRange loc (format_date (midnight_at day loc)) = Ok (i_unix (midnight_at day loc), i_unix (midnight_at (day + 1) loc)).
Proof.
  intros Hd Hz. unfold getDayTimeRange. rewrite format_date_trim, parse_format by done. unfold midnight_at.
  rewrite AddDate_days by (apply printable_range; [done | done | lia]). done.
Qed.

Lemma load_between_calls method d tcur ocur calls from to db :
  load_between method d tcur ocur calls from to db =
    if calls_load calls then
      Ok (map (fun t => local_record method d (topup_side (tcur (w_TopUp t)) t)) (List.filter (paid_topup method from to) (bl_topups db)) ++
          map (fun o => local_record method d (order_side (ocur o) o)) (List.filter (paid_order method from to) (bl_orders db)))
    else fail_with "database error".
Proof. unfold load_between, calls_load. by destruct (dc_topups calls), (dc_orders calls). Qed.

Ltac known := unfold verdict_of; cbn; repeat case_match; unfold known_verdicts; set_solver.

#[export] Instance wechat_run loc : zone_ok loc -> RunLaws (WechatBills loc).
Proof.
  intros Hz. split; try apply _; try done; try (intros; known).
  exists (fun _ => "¥"), (fun _ => "¥"). intros calls day db Hd. cbn. unfold wechat_loadLocalSuccessRecords, day_text, day_start.
  rewrite getDayTimeRange_day by done. cbn -[midnight_at]. by rewrite load_between_calls.
Qed.
#[export] Instance alipay_run loc : zone_ok loc -> RunLaws (AlipayBills loc).
Proof.
  intros Hz. split; try apply _; try done; try (intros; known).
  exists (fun _ => "¥"), (fun _ => "¥"). intros calls day db Hd. cbn. unfold alipay_loadLocalSuccessRecords, day_text, day_start.
  rewrite getDayTimeRange_day by done. cbn -[midnight_at]. by rewrite load_between_calls.
Qed.
#[export] Instance stripe_run : RunLaws StripeBills.
Proof.
  split; try apply _; try done; try (intros; known).
  exists tu_Currency, o_Currency. intros calls day db Hd. cbn. unfold loadLocalStripeSuccessRecords, day_text, day_start. cbn [bc_zone StripeBills].
  rewrite load_between_calls. unfold paid_records, midnight_at. cbn [bc_zone StripeBills].
  rewrite AddDate_days by (apply printable_range; [done | unfold zone_ok; lia | lia]). done.
Qed.

(** ** Batches of upserts *)

Definition row_key (r : PaymentBillReconcile) : string * string := (rc_ChannelType r, rc_ReconcileKey r).
Notation table := (gmap (string * string) PaymentBillReconcile).

(** The row an upsert leaves. *)
Definition merged (t : table) (r : PaymentBillReconcile) : PaymentBillReconcile :=
  match t !! row_key r with Some old => assign_columns old r | None => r end.

Lemma upsert_all_out (t : table) batch k : k ∉ map row_key batch -> foldl upsert_reconcile t batch !! k = t !! k.
Proof.
  revert t. induction batch as [|x batch IH]; intros t Hk; [done|]. cbn in *. apply not_elem_of_cons in Hk as [Hne Hk].
  rewrite IH by done. unfold upsert_reconcile. by rewrite lookup_insert_ne by (unfold row_key in Hne; congruence).
Qed.

Lemma upsert_all_in (t : table) batch r : NoDup (map row_key batch) -> r ∈ batch ->
  foldl upsert_reconcile t batch !! row_key r = Some (merged t r).
Proof.
  revert t. induction batch as [|x batch IH]; intros t Hn Hr; [by apply not_elem_of_nil in Hr|]. cbn in *.
  apply NoDup_cons in Hn as [Hx Hn]. apply elem_of_cons in Hr as [->|Hr].
  - rewrite upsert_all_out by done. unfold upsert_reconcile, merged, row_key. by rewrite lookup_insert_eq.
  - rewrite IH by done. assert (row_key x <> row_key r) as Hne.
    { intros E. apply Hx. rewrite E. by apply (list_elem_of_fmap_2 row_key). }
    unfold merged at 1, upsert_reconcile. fold (row_key x). by rewrite lookup_insert_ne.
Qed.

Lemma NoDup_map_inj {A B C} (f : A -> B) (g : A -> C) l : (forall x y, x ∈ l -> y ∈ l -> g x = g y -> f x = f y) ->
  NoDup (map f l) -> NoDup (map g l).
Proof.
  induction l as [|x l IH]; intros Hg; cbn; [constructor|]. intros [Hx Hn]%NoDup_cons. apply NoDup_cons. split; [|apply IH; set_solver].
  intros (y & E & Hy)%list_elem_of_fmap. apply Hx, list_elem_of_fmap. exists y. split; [apply Hg; set_solver | done].
Qed.

Lemma NoDup_map_keep {A B} (f : A -> B) (p : A -> bool) l : NoDup (map f l) -> NoDup (map f (List.filter p l)).
Proof.
  induction l as [|x l IH]; cbn; [done|]. intros [Hx Hn]%NoDup_cons. specialize (IH Hn). destruct (p x); [|done]. cbn. apply NoDup_cons.
  split; [|done]. intros (y & E & Hy)%list_elem_of_fmap. apply Hx, list_elem_of_fmap. exists y. split; [done|].
  apply list_elem_of_In in Hy. apply filter_In in Hy as [Hy _]. by apply list_elem_of_In.
Qed.

Lemma NoDup_map_kept {A B} (f : A -> B) (P : A -> Prop) `{forall x, Decision (P x)} l : NoDup (map f l) -> NoDup (map f (filter P l)).
Proof.
  induction l as [|x l IH]; [done|]. rewrite filter_cons. cbn [map]. intros [Hx Hn]%NoDup_cons. specialize (IH Hn). destruct (decide _); [|done]. cbn [map].
  apply NoDup_cons. split; [|done]. intros (y & E & [_ Hy]%list_elem_of_filter)%list_elem_of_fmap. apply Hx, list_elem_of_fmap. by exists y.
Qed.

Lemma filter_Forall_id {A} (P : A -> Prop) `{forall x, Decision (P x)} l : Forall P l -> filter P l = l.
Proof. induction 1 as [|x l Hx _ IH]; [done|]. by rewrite filter_cons_True, IH. Qed.

Lemma elem_of_concat_map {A B} (f : A -> list B) l b : b ∈ concat (map f l) <-> exists x, x ∈ l /\ b ∈ f x.
Proof.
  induction l as [|x l IH]; cbn.
  - split; [intros Hb; by apply not_elem_of_nil in Hb | intros (x & Hx & _); by apply not_elem_of_nil in Hx].
  - rewrite elem_of_app, IH. set_solver.
Qed.

Lemma NoDup_concat_map {A B} (f : A -> list B) l : NoDup l -> (forall x, x ∈ l -> NoDup (f x)) ->
  (forall x y b, x ∈ l -> y ∈ l -> b ∈ f x -> b ∈ f y -> x = y) -> NoDup (concat (map f l)).
Proof.
  induction l as [|x l IH]; intros Hn Hf Hd; [constructor|]. apply NoDup_cons in Hn as [Hx Hn]. cbn. apply NoDup_app.
  split_and!; [apply Hf; set_solver | | apply IH; set_solver].
  intros b Hb Hb'. apply elem_of_concat_map in Hb' as (y & Hy & Hb').
  assert (x = y) as -> by (apply (Hd x y b); set_solver). done.
Qed.

Lemma local_key_inj t t' kind kind' id id' : kind ∈ ["topup"; "subscription"] -> kind' ∈ ["topup"; "subscription"] ->
  reconcileKeyForLocalRecord (format_date t) kind id = reconcileKeyForLocalRecord (format_date t') kind' id' ->
  format_date t = format_date t' /\ kind = kind' /\ id = id'.
Proof.
  intros Hk Hk' E. apply (f_equal (fun s => Split s ":")) in E. rewrite !local_key_fields in E by done.
  injection E as E1 E2 E3. apply Itoa_inj in E3. done.
Qed.
Lemma channel_key_inj t t' id id' : reconcileKeyForChannelRecord (format_date t) id = reconcileKeyForChannelRecord (format_date t') id' ->
  format_date t = format_date t' /\ id = id'.
Proof.
  intros E. apply (f_equal (fun s => Split s ":")) in E. rewrite !channel_key_fields in E. injection E as E1 E2. by apply Itoa_inj in E2.
Qed.
Lemma keys_apart t t' kind id id' : kind ∈ ["topup"; "subscription"] ->
  reconcileKeyForLocalRecord (format_date t) kind id <> reconcileKeyForChannelRecord (format_date t') id'.
Proof.
  intros Hk E. apply (f_equal (fun s => Split s ":")) in E. rewrite local_key_fields, channel_key_fields in E by done. discriminate E.
Qed.

(** ** The results of a day *)

Section Day.
Context `{RowOrder} (ch : BillChannel) `{!RunLaws ch}.

Definition working : day_calls := mkCalls true true true true 0.
Definition day_orders (day : Z) (db : billDB) : list PaymentBillReconcile :=
  match bc_load ch working (day_text ch day) (day_start ch day) db with Ok l => l | Err _ => [] end.
Definition day_rows (day : Z) (db : billDB) : list PaymentBillRecord :=
  GetPaymentBillRecordsByChannelAndBillDateRange (bc_type ch) (day_text ch day) (day_text ch day) db.
Definition day_results (day : Z) (db : billDB) : list PaymentBillReconcile := match_rows ch (day_orders day db) (day_rows day db).

Definition primary_keys (db : billDB) : Prop :=
  NoDup (map w_Id (bl_topups db)) /\ NoDup (map o_Id (bl_orders db)) /\ NoDup (map pb_Id (bl_records db)).

Lemma load_succeeds calls day db : printable_day day ->
  bc_load ch calls (day_text ch day) (day_start ch day) db =
    if calls_load calls then Ok (day_orders day db) else fail_with "database error".
Proof. intros Hd. destruct load_day as (tcur & ocur & Hl). unfold day_orders. by rewrite !Hl. Qed.

(** Every record stands for a paid order and is keyed by it. *)
Lemma day_orders_shape day db r : printable_day day -> r ∈ day_orders day db ->
  exists side, r = local_record (bc_type ch) (day_text ch day) side /\ ls_Type side ∈ ["topup"; "subscription"].
Proof.
  intros Hd. destruct load_day as (tcur & ocur & Hl). unfold day_orders. rewrite Hl by done. cbn [calls_load working dc_topups dc_orders andb].
  unfold paid_records. intros [Hr|Hr]%elem_of_app; apply list_elem_of_fmap in Hr as (x & -> & _); eexists; (split; [done|]); set_solver.
Qed.

Lemma day_orders_NoDup day db : printable_day day -> primary_keys db -> NoDup (map rc_ReconcileKey (day_orders day db)).
Proof.
  intros Hd (Ht & Ho & _). destruct load_day as (tcur & ocur & Hl). unfold day_orders. rewrite Hl by done.
  cbn [calls_load working dc_topups dc_orders andb]. unfold paid_records. rewrite map_app, !map_map. cbn. unfold day_text.
  apply NoDup_app. split_and!.
  - eapply (NoDup_map_inj w_Id); [|by apply NoDup_map_keep]. intros x y _ _ E%local_key_inj; [by destruct E as (_ & _ & E) | set_solver..].
  - intros k (x & -> & _)%list_elem_of_fmap (y & E & _)%list_elem_of_fmap. apply local_key_inj in E as (_ & E & _); [done | set_solver..].
  - eapply (NoDup_map_inj o_Id); [|by apply NoDup_map_keep]. intros x y _ _ E%local_key_inj; [by destruct E as (_ & _ & E) | set_solver..].
Qed.

Lemma NoDup_keys_distinct records : NoDup (map rc_ReconcileKey records) -> keys_distinct records.
Proof.
  intros Hn i j r r' Hr Hr' E. eapply (NoDup_lookup _ _ _ (rc_ReconcileKey r) Hn); rewrite list_lookup_fmap; [by rewrite Hr | by rewrite Hr', E].
Qed.

Lemma day_text_nonempty day : day_text ch day <> "".
Proof. unfold day_text, format_date, appendInt. destruct (Year (day_start ch day) <? 0); [done|]. destruct (zero_text _), (Itoa _); done. Qed.

(** The rows of a day are of that day, each once. *)
Lemma day_rows_spec day db row : row ∈ day_rows day db <->
  row ∈ bl_records db /\ pb_ChannelType row = bc_type ch /\ pb_BillDate row = day_text ch day.
Proof.
  unfold day_rows, GetPaymentBillRecordsByChannelAndBillDateRange. rewrite order_rows_perm, list_elem_of_In, filter_In, <- list_elem_of_In.
  unfold bill_in_range. rewrite (proj1 run_type). unfold day_text at 1 2 3 4. rewrite format_date_trim. fold (day_text ch day).
  rewrite (proj2 (String.eqb_neq _ _) (day_text_nonempty day)). cbn [orb].
  rewrite !andb_true_iff, String.eqb_eq. split; [intros (? & (? & ?) & ?) | intros (? & ? & ->)]; split_and!; try done.
  - by apply String.leb_antisym.
  - destruct (String.leb_total (day_text ch day) (day_text ch day)); done.
  - destruct (String.leb_total (day_text ch day) (day_text ch day)); done.
Qed.

Lemma day_rows_NoDup day db : primary_keys db -> NoDup (map pb_Id (day_rows day db)).
Proof.
  intros (_ & _ & Hn). unfold day_rows, GetPaymentBillRecordsByChannelAndBillDateRange. rewrite order_rows_perm.
  by apply NoDup_map_keep.
Qed.

(** The results are those of the reference; their keys carry the day. *)
Lemma day_results_reference day db : printable_day day -> primary_keys db ->
  day_results day db = reference_results ch (day_orders day db) (day_rows day db).
Proof. intros Hd Hk. apply match_rows_reference; [apply _|]. by apply NoDup_keys_distinct, day_orders_NoDup. Qed.

Definition dated (day : Z) (r : PaymentBillReconcile) : Prop :=
  rc_ChannelType r = bc_type ch /\ TrimSpace (rc_ReconcileKey r) = rc_ReconcileKey r /\ rc_ReconcileKey r <> "" /\
  (exists kind rest, Split (rc_ReconcileKey r) ":" = kind :: day_text ch day :: rest) /\
  verdict_of r ∈ known_verdicts /\ rc_CreatedAt r = 0.

Lemma frame_dated day r r' : frame r r' -> verdict_of r' ∈ known_verdicts -> dated day r -> dated day r'.
Proof. intros (E1 & E2 & E3 & E4 & E5) Hv (? & ? & ? & ? & ? & ?). unfold dated. rewrite E2, E3, E4. done. Qed.

Lemma final_verdict_known records r rows : verdict_of r ∈ known_verdicts -> final_verdict ch records r rows ∈ known_verdicts.
Proof. intros Hr. unfold final_verdict. repeat case_match; try done; try apply apply_known; unfold known_verdicts; set_solver. Qed.

Lemma day_orders_dated day db r : printable_day day -> r ∈ day_orders day db -> dated day r.
Proof.
  intros Hd (side & -> & Hs)%day_orders_shape; [|done]. unfold dated, day_text. cbn. rewrite local_key_trim, local_key_fields by done.
  split_and!; try done; [by eexists _, _ | unfold verdict_of, known_verdicts; set_solver].
Qed.

Lemma day_results_dated day db r : printable_day day -> primary_keys db -> r ∈ day_results day db -> dated day r.
Proof.
  intros Hd Hk. rewrite day_results_reference by done. unfold reference_results. intros [Hr|Hr]%elem_of_app; apply list_elem_of_fmap in Hr as (x & -> & Hx).
  - pose proof (day_orders_dated day db x Hd Hx) as Hdx. eapply frame_dated; [apply settled_frame; apply _ | | done].
    rewrite settled_verdict by apply _. apply final_verdict_known. apply Hdx.
  - apply list_elem_of_filter in Hx as [_ Hx]. apply day_rows_spec in Hx as (_ & _ & Ed). destruct (only_record (ch:=ch) x) as (_ & Et & Ek & Ec).
    unfold dated. rewrite Et, Ek, Ec, Ed. unfold day_text. rewrite channel_key_trim, channel_key_fields. split_and!; try done; [by eexists _, _ | apply only_known].
Qed.

Lemma day_results_NoDup day db : printable_day day -> primary_keys db -> NoDup (map rc_ReconcileKey (day_results day db)).
Proof.
  intros Hd Hk. rewrite day_results_reference by done. unfold reference_results. rewrite map_app, !map_map.
  assert (map (fun r => rc_ReconcileKey (foldl (apply_row ch (day_orders day db)) r (day_rows day db))) (day_orders day db) = map rc_ReconcileKey (day_orders day db)) as ->.
  { apply map_ext. intros r. by destruct (settled_frame ch (day_orders day db) r (day_rows day db)) as (_ & E & _). }
  apply NoDup_app. split_and!; [by apply day_orders_NoDup | |].
  - intros k (r & -> & Hr)%list_elem_of_fmap (row & E & Hrow)%list_elem_of_fmap. apply list_elem_of_filter in Hrow as [_ Hrow].
    apply day_rows_spec in Hrow as (_ & _ & Ed). destruct (day_orders_shape day db r Hd Hr) as (side & -> & Hs).
    destruct (only_record (ch:=ch) row) as (_ & _ & Ek & _). rewrite Ek, Ed in E. by apply keys_apart in E.
  - pose proof (day_rows_NoDup day db Hk) as Hn. eapply (NoDup_map_inj pb_Id).
    + intros x y [_ Hx]%list_elem_of_filter [_ Hy]%list_elem_of_filter E. apply day_rows_spec in Hx as (_ & _ & Ex), Hy as (_ & _ & Ey).
      destruct (only_record (ch:=ch) x) as (_ & _ & Kx & _), (only_record (ch:=ch) y) as (_ & _ & Ky & _). rewrite Kx, Ky, Ex, Ey in E. by apply channel_key_inj in E as [_ E].
    + by apply NoDup_map_kept.
Qed.

(** ** A run is one batch *)

Definition stored_result (now : Z) (r : PaymentBillReconcile) : PaymentBillReconcile := BeforeCreate (stamp now r).
Definition with_batch (batch : list PaymentBillReconcile) (db : billDB) : billDB :=
  with_reconciles (foldl upsert_reconcile (bl_reconciles db) batch) db.

Lemma dated_storable day r : dated day r -> storable r.
Proof. intros (Et & Ek & Hne & _). unfold storable. rewrite Et, Ek, (proj1 run_type). split; [apply run_type | done]. Qed.

Lemma upsert_results ok now day db : printable_day day -> primary_keys db ->
  UpsertPaymentBillReconciles ok now (day_results day db) db =
    if ok || bool_decide (day_results day db = []) then (Ok tt, with_batch (map (stored_result now) (day_results day db)) db)
    else (fail_with "database error", db).
Proof.
  intros Hd Hk. unfold UpsertPaymentBillReconciles. rewrite filter_Forall_id; last first.
  { apply Forall_forall. intros r Hr. by eapply dated_storable, day_results_dated. }
  destruct (day_results day db) as [|r l] eqn:E; cbn.
  - rewrite orb_true_r. unfold with_batch. cbn. by destruct db.
  - rewrite orb_false_r. by destruct ok.
Qed.

Definition calls_work (calls : day_calls) : bool := calls_load calls && dc_rows calls && dc_write calls.

Lemma reconcile_day_works calls day db : printable_day day -> primary_keys db -> calls_work calls = true ->
  reconcile_day ch calls (day_start ch day) db = (Ok (day_results day db), with_batch (map (stored_result (dc_now calls)) (day_results day db)) db).
Proof.
  intros Hd Hk Hc. unfold calls_work in Hc. split_bool. unfold reconcile_day. fold (day_text ch day).
  rewrite load_succeeds by done. rewrite H0, H1. cbn [negb]. fold (day_rows day db). fold (day_results day db). rewrite upsert_results by done.
  by rewrite H2.
Qed.

Lemma reconcile_day_Ok calls day db results db' : printable_day day -> primary_keys db ->
  reconcile_day ch calls (day_start ch day) db = (Ok results, db') ->
  results = day_results day db /\ db' = with_batch (map (stored_result (dc_now calls)) (day_results day db)) db.
Proof.
  intros Hd Hk. unfold reconcile_day. fold (day_text ch day). rewrite load_succeeds by done. destruct (calls_load calls); [|done].
  destruct (dc_rows calls); [|done]. cbn [negb]. fold (day_rows day db). fold (day_results day db). rewrite upsert_results by done.
  destruct (dc_write calls || _); [by intros [= <- <-] | done].
Qed.

(** Writing results does not change what later days compute. *)
Lemma day_results_with t day db : printable_day day -> day_results day (with_reconciles t db) = day_results day db.
Proof.
  intros Hd. unfold day_results. f_equal. unfold day_orders. destruct load_day as (tcur & ocur & Hl). by rewrite !Hl.
Qed.

Lemma primary_keys_with t db : primary_keys db -> primary_keys (with_reconciles t db).
Proof. done. Qed.

Lemma stored_key now day r : dated day r -> row_key (stored_result now r) = (bc_type ch, rc_ReconcileKey r).
Proof. intros (Et & Ek & _). unfold row_key. cbn. by rewrite Et, Ek, (proj1 run_type). Qed.

(** The results of the days from [day] on, and what a run stores of them. *)
Definition run_results (day n : Z) (db : billDB) : list PaymentBillReconcile := concat (map (fun d => day_results d db) (seqZ day n)).
Definition run_batch (calls : string -> day_calls) (day n : Z) (db : billDB) : list PaymentBillReconcile :=
  concat (map (fun d => map (stored_result (dc_now (calls (day_text ch d)))) (day_results d db)) (seqZ day n)).

Lemma concat_days_ext {A} (f g : Z -> list A) day n : (forall d, day <= d < day + n -> f d = g d) ->
  concat (map f (seqZ day n)) = concat (map g (seqZ day n)).
Proof. intros Hfg. f_equal. apply map_ext_in. intros d Hd%list_elem_of_In. apply elem_of_seqZ in Hd. by apply Hfg. Qed.

Lemma next_day day : printable_day day -> AddDate (day_start ch day) 0 0 1 = day_start ch (day + 1).
Proof. intros Hd. unfold day_start, midnight_at. apply AddDate_days, printable_range; [done | apply run_zone | lia]. Qed.

Lemma day_start_lt d e : (i_unix (day_start ch e) <? i_unix (day_start ch d)) = (e <? d).
Proof.
  unfold day_start, midnight_at, midnight_of, secs_per_day. cbn [i_unix].
  destruct (Z.ltb_spec e d); [apply Z.ltb_lt | apply Z.ltb_ge]; nia.
Qed.

Definition days_printable (day n : Z) : Prop := forall d, day <= d < day + n -> printable_day d.

Lemma with_batch_app b b' db : with_batch b' (with_batch b db) = with_batch (b ++ b') db.
Proof. unfold with_batch. cbn. by rewrite foldl_app. Qed.

Lemma run_step calls day n db : 0 <= n -> days_printable day (Z.succ n) ->
  run_batch calls day (Z.succ n) db = map (stored_result (dc_now (calls (day_text ch day)))) (day_results day db) ++ run_batch calls (day + 1) n db /\
  run_results day (Z.succ n) db = day_results day db ++ run_results (day + 1) n db /\
  forall b, run_batch calls (day + 1) n (with_batch b db) = run_batch calls (day + 1) n db /\
            run_results (day + 1) n (with_batch b db) = run_results (day + 1) n db.
Proof.
  intros Hn Hp. unfold run_batch, run_results. rewrite seqZ_cons by lia. rewrite Z.pred_succ. cbn [map concat]. split_and!; [done | done|].
  intros b. unfold with_batch. split; apply concat_days_ext; intros d Hd; by rewrite day_results_with by (apply Hp; lia).
Qed.

Lemma run_Ok calls n : 0 <= n -> forall day fuel s db s' db', primary_keys db -> days_printable day n ->
  reconcile_days fuel ch calls (day_start ch day) (day_start ch (day + n - 1)) s db = (Ok s', db') ->
  s' = foldl count_record s (run_results day n db) /\ db' = with_batch (run_batch calls day n db) db.
Proof.
  intros Hn. pattern n. apply natlike_ind; [| |done]; clear n Hn.
  - intros day [|fuel] s db s' db' Hk Hp; [done|]. cbn [reconcile_days]. rewrite day_start_lt, (proj2 (Z.ltb_lt _ _)) by lia.
    intros [= <- <-]. unfold with_batch. cbn. by destruct db.
  - intros n Hn IH day [|fuel] s db s' db' Hk Hp; [done|]. cbn [reconcile_days]. rewrite day_start_lt, (proj2 (Z.ltb_ge _ _)) by lia.
    fold (day_text ch day). destruct (reconcile_day ch _ _ db) as [[results|e] db1] eqn:E; [|done].
    apply reconcile_day_Ok in E as [-> ->]; [|apply Hp; lia | done]. rewrite next_day by (apply Hp; lia).
    replace (day + Z.succ n - 1) with (day + 1 + n - 1) by lia. intros Hr.
    apply IH in Hr as [-> ->]; [|done | intros d Hd; apply Hp; lia].
    destruct (run_step calls day n db Hn Hp) as (-> & -> & Hw). rewrite (proj1 (Hw _)), (proj2 (Hw _)).
    rewrite foldl_app. split; [done|]. apply with_batch_app.
Qed.

Lemma run_works calls n : 0 <= n -> forall day fuel s db, primary_keys db -> days_printable day n -> (Z.to_nat n < fuel)%nat ->
  (forall d, day <= d < day + n -> calls_work (calls (day_text ch d)) = true) ->
  reconcile_days fuel ch calls (day_start ch day) (day_start ch (day + n - 1)) s db =
    (Ok (foldl count_record s (run_results day n db)), with_batch (run_batch calls day n db) db).
Proof.
  intros Hn. pattern n. apply natlike_ind; [| |done]; clear n Hn.
  - intros day [|fuel] s db Hk Hp Hf Hc; [lia|]. cbn [reconcile_days]. rewrite day_start_lt, (proj2 (Z.ltb_lt _ _)) by lia.
    unfold with_batch. cbn. by destruct db.
  - intros n Hn IH day [|fuel] s db Hk Hp Hf Hc; [lia|]. cbn [reconcile_days]. rewrite day_start_lt, (proj2 (Z.ltb_ge _ _)) by lia.
    fold (day_text ch day). rewrite reconcile_day_works by (first [done | apply Hp; lia | apply Hc; lia]). rewrite next_day by (apply Hp; lia).
    replace (day + Z.succ n - 1) with (day + 1 + n - 1) by lia.
    rewrite IH; [|done | intros d Hd; apply Hp; lia | lia | intros d Hd; apply Hc; lia].
    destruct (run_step calls day n db Hn Hp) as (-> & -> & Hw). rewrite (proj1 (Hw _)), (proj2 (Hw _)).
    rewrite foldl_app. f_equal. apply with_batch_app.
Qed.

(** No two rows of a run share a key. *)
Lemma run_batch_NoDup calls day n db : primary_keys db -> days_printable day n -> NoDup (map row_key (run_batch calls day n db)).
Proof.
  intros Hk Hp. unfold run_batch. rewrite concat_map, map_map.
  assert (forall d, d ∈ seqZ day n -> printable_day d) as Hpd by (intros d Hd%elem_of_seqZ; by apply Hp).
  assert (Hmap : forall d, d ∈ seqZ day n -> map row_key (map (stored_result (dc_now (calls (day_text ch d)))) (day_results d db)) =
    map (fun r => (bc_type ch, rc_ReconcileKey r)) (day_results d db)).
  { intros d Hd. rewrite map_map. apply map_ext_in. intros r Hr%list_elem_of_In. eapply stored_key, day_results_dated; [by apply Hpd | done | done]. }
  apply NoDup_concat_map; [apply NoDup_seqZ | |].
  - intros d Hd. rewrite Hmap by done. rewrite <- (map_map rc_ReconcileKey (fun k => (bc_type ch, k))).
    apply NoDup_fmap_2; [congruence | by apply day_results_NoDup; [apply Hpd|]].
  - intros d e b Hd He Hbd Hbe. rewrite Hmap in Hbd, Hbe by done. apply list_elem_of_fmap in Hbd as (r & -> & Hr), Hbe as (r' & E & Hr').
    injection E as E. apply day_results_dated in Hr as (_ & _ & _ & (k & rest & Hs) & _), Hr' as (_ & _ & _ & (k' & rest' & Hs') & _); try by first [apply Hpd | done].
    rewrite E, Hs' in Hs. injection Hs as _ Ht _. eapply format_date_inj; [by apply Hpd | by apply Hpd | apply run_zone | by symmetry].
Qed.

(** What a run leaves of a result. *)
Lemma run_stores calls day n db d r : primary_keys db -> days_printable day n -> day <= d < day + n -> r ∈ day_results d db ->
  bl_reconciles (with_batch (run_batch calls day n db) db) !! (bc_type ch, rc_ReconcileKey r) =
    Some (merged (bl_reconciles db) (stored_result (dc_now (calls (day_text ch d))) r)).
Proof.
  intros Hk Hp Hd Hr. pose proof (day_results_dated d db r (Hp d Hd) Hk Hr) as Hdr.
  rewrite <- (stored_key (dc_now (calls (day_text ch d))) d r Hdr). apply upsert_all_in; [by apply run_batch_NoDup|].
  apply elem_of_concat_map. exists d. split; [by apply elem_of_seqZ | by apply (list_elem_of_fmap_2 (stored_result _))].
Qed.

Lemma known_trim v : v ∈ known_verdicts -> (TrimSpace v.1, TrimSpace v.2) = v.
Proof. intros Hv. repeat (apply elem_of_cons in Hv as [->|Hv]; [by vm_compute|]). by apply not_elem_of_nil in Hv. Qed.

Lemma merged_verdict t now day r : dated day r -> verdict_of (merged t (stored_result now r)) = verdict_of r.
Proof.
  intros (_ & _ & _ & _ & Hv & _). apply known_trim in Hv. unfold merged. by case_match.
Qed.
End Day.
