(* ===== verification/BillSafety.v ===== *)
(** * What a reconciliation guarantees

    A run reports every paid order of its days and every bill row that names
    none of them, with the verdict of the last row that names the order; it
    can be repeated without changing its results; it ends.  The examples show
    what the verdicts leave out. *)

From stdpp Require Import base numbers list strings gmap pretty sorting.
From Stdlib Require Import ZArith Lia Ascii SpecFloat.
From S2P Require Import Prelude GoInt GoString GoText GoTime GoFloat QuotaWindow QuotaPolicy WindowBounds GoDate SubPlan SubStock SubOrder Redemption PaymentBill BillMatch BillRun.

(** ** The days of a run *)

Section Runs.
Context `{RowOrder} (ch : BillChannel) `{!RunLaws ch}.

(** A run is over the days between its two dates. *)
Lemma run_range calls from to db s db' : ReconcileByBillDateRange ch calls from to db = (Ok s, db') ->
  exists d1 d2, parse_date (TrimSpace from) (bc_zone ch) = Some (day_start ch d1) /\ parse_date (TrimSpace to) (bc_zone ch) = Some (day_start ch d2) /\
    d1 <= d2 /\ days_printable d1 (d2 - d1 + 1) /\
    (primary_keys db -> s = foldl count_record (mkSummary 0 0 0) (run_results ch d1 (d2 - d1 + 1) db) /\
                        db' = with_batch (run_batch ch calls d1 (d2 - d1 + 1) db) db).
Proof.
  unfold ReconcileByBillDateRange. destruct (parse_date (TrimSpace from) _) as [f|] eqn:Ef; [|done].
  destruct (parse_date (TrimSpace to) _) as [t|] eqn:Et; [|done].
  apply parse_date_midnight in Ef as (d1 & Hd1 & ->), Et as (d2 & Hd2 & ->); [|apply run_zone..].
  fold (day_start ch d1). fold (day_start ch d2). rewrite day_start_lt. destruct (Z.ltb_spec d2 d1) as [|Hle]; [done|]. intros Hr.
  exists d1, d2. assert (days_printable d1 (d2 - d1 + 1)) as Hp by (intros d Hd; unfold printable_day in *; lia). split_and!; try done.
  intros Hk. eapply (run_Ok ch calls (d2 - d1 + 1) ltac:(lia) d1 _ _ db s db' Hk Hp).
  replace (d1 + (d2 - d1 + 1) - 1) with d2 by lia. exact Hr.
Qed.

Lemma count_records results s :
  (su_Total s = su_Matched s + su_Abnormal s -> su_Total (foldl count_record s results) = su_Matched (foldl count_record s results) + su_Abnormal (foldl count_record s results)) /\
  su_Total (foldl count_record s results) = su_Total s + Z.of_nat (length results).
Proof.
  revert s. induction results as [|r results IH]; intros s; cbn [foldl length]; [split; [done | lia]|].
  destruct (IH (count_record s r)) as [H1 H2]. rewrite H2. split.
  - intros Hs. rewrite <- H2. apply H1. unfold count_record. case_match; cbn; lia.
  - unfold count_record. case_match; cbn [su_Total]; lia.
Qed.

Lemma topup_listed d db t : printable_day d -> t ∈ bl_topups db ->
  paid_topup (bc_type ch) (i_unix (day_start ch d)) (i_unix (day_start ch (d + 1))) t = true ->
  exists r, r ∈ day_orders ch d db /\ ls_Amount (rc_local r) = tu_OriginalMoney (w_TopUp t) /\
    rc_ReconcileKey r = reconcileKeyForLocalRecord (day_text ch d) "topup" (w_Id t).
Proof.
  intros Hd Ht Hp. unfold day_orders. destruct load_day as (tcur & ocur & Hl). rewrite Hl by done. cbn [calls_load working dc_topups dc_orders andb].
  exists (local_record (bc_type ch) (day_text ch d) (topup_side (tcur (w_TopUp t)) t)). split; [|done]. apply elem_of_app. left.
  apply (list_elem_of_fmap_2 (fun t => local_record (bc_type ch) (day_text ch d) (topup_side (tcur (w_TopUp t)) t))).
  apply list_elem_of_In, filter_In. by rewrite <- list_elem_of_In.
Qed.

Lemma order_listed d db o : printable_day d -> o ∈ bl_orders db ->
  paid_order (bc_type ch) (i_unix (day_start ch d)) (i_unix (day_start ch (d + 1))) o = true ->
  exists r, r ∈ day_orders ch d db /\ ls_Amount (rc_local r) = o_OriginalMoney o /\
    rc_ReconcileKey r = reconcileKeyForLocalRecord (day_text ch d) "subscription" (o_Id o).
Proof.
  intros Hd Ht Hp. unfold day_orders. destruct load_day as (tcur & ocur & Hl). rewrite Hl by done. cbn [calls_load working dc_topups dc_orders andb].
  exists (local_record (bc_type ch) (day_text ch d) (order_side (ocur o) o)). split; [|done]. apply elem_of_app. right.
  apply (list_elem_of_fmap_2 (fun o => local_record (bc_type ch) (day_text ch d) (order_side (ocur o) o))).
  apply list_elem_of_In, filter_In. by rewrite <- list_elem_of_In.
Qed.

(** The row of an order carries the verdict of the last bill row that names it. *)
Lemma order_stored calls d1 n db d r : primary_keys db -> days_printable d1 n -> d1 <= d < d1 + n -> r ∈ day_orders ch d db ->
  exists row, bl_reconciles (with_batch (run_batch ch calls d1 n db) db) !! (bc_type ch, rc_ReconcileKey r) = Some row /\
    verdict_of row = final_verdict ch (day_orders ch d db) r (day_rows ch d db).
Proof.
  intros Hk Hp Hd Hr. pose proof (Hp d Hd) as Hpd. set (r' := foldl (apply_row ch (day_orders ch d db)) r (day_rows ch d db)).
  assert (r' ∈ day_results ch d db) as Hin by (rewrite day_results_reference by done; apply elem_of_app; left; by apply (list_elem_of_fmap_2 (fun r => foldl (apply_row ch (day_orders ch d db)) r (day_rows ch d db)))).
  pose proof (run_stores ch calls d1 _ db d r' Hk Hp Hd Hin) as Hst. destruct (settled_frame ch (day_orders ch d db) r (day_rows ch d db)) as (_ & Ek & _).
  fold r' in Ek. rewrite Ek in Hst. eexists. split; [exact Hst|]. erewrite merged_verdict by by eapply day_results_dated. apply settled_verdict, _.
Qed.

(** C18. A run reports every payment: each paid top-up and subscription order of
    each of its days has a row in the table, keyed by the day and the order,
    whose verdict is the one of the last row of the day's bill that names the
    order (not found when there is none, a duplicate when that row names other
    orders too); each row of the day's bill that names no order has an abnormal
    row of its own; and the summary counts all of these. *)
Theorem every_payment_is_reported calls from to db s db' :
  primary_keys db -> ReconcileByBillDateRange ch calls from to db = (Ok s, db') ->
  exists d1 d2, parse_date (TrimSpace from) (bc_zone ch) = Some (day_start ch d1) /\ parse_date (TrimSpace to) (bc_zone ch) = Some (day_start ch d2) /\
    su_Total s = su_Matched s + su_Abnormal s /\
    su_Total s = Z.of_nat (length (run_results ch d1 (d2 - d1 + 1) db)) /\
    forall d, d1 <= d <= d2 ->
      (forall t, t ∈ bl_topups db -> paid_topup (bc_type ch) (i_unix (day_start ch d)) (i_unix (day_start ch (d + 1))) t = true ->
         exists r, r ∈ day_orders ch d db /\ ls_Amount (rc_local r) = tu_OriginalMoney (w_TopUp t) /\
           rc_ReconcileKey r = reconcileKeyForLocalRecord (day_text ch d) "topup" (w_Id t)) /\
      (forall o, o ∈ bl_orders db -> paid_order (bc_type ch) (i_unix (day_start ch d)) (i_unix (day_start ch (d + 1))) o = true ->
         exists r, r ∈ day_orders ch d db /\ ls_Amount (rc_local r) = o_OriginalMoney o /\
           rc_ReconcileKey r = reconcileKeyForLocalRecord (day_text ch d) "subscription" (o_Id o)) /\
      (forall r, r ∈ day_orders ch d db ->
         exists row, bl_reconciles db' !! (bc_type ch, rc_ReconcileKey r) = Some row /\
           verdict_of row = final_verdict ch (day_orders ch d db) r (day_rows ch d db)) /\
      (forall b, b ∈ bl_records db -> pb_ChannelType b = bc_type ch -> pb_BillDate b = day_text ch d -> named ch (day_orders ch d db) b = [] ->
         exists row, bl_reconciles db' !! (bc_type ch, reconcileKeyForChannelRecord (day_text ch d) (pb_Id b)) = Some row /\
           rc_Status row = StatusAbnormal).
Proof.
  intros Hk Hr. destruct (run_range calls from to db s db' Hr) as (d1 & d2 & E1 & E2 & Hle & Hp & Hrun). destruct (Hrun Hk) as [-> ->].
  exists d1, d2. destruct (count_records (run_results ch d1 (d2 - d1 + 1) db) (mkSummary 0 0 0)) as [Hs Hl]. do 2 (split; [done|]). split; [by apply Hs|]. split; [by rewrite Hl|].
  intros d Hd. assert (d1 <= d < d1 + (d2 - d1 + 1)) as Hd' by lia. pose proof (Hp d Hd') as Hpd.
  split_and!; [intros t Ht Hpaid; by apply topup_listed | intros o Ho Hpaid; by apply order_listed | |].
  - intros r Hr'. by apply order_stored.
  - intros b Hb Ht Hbd Hn. assert (bc_only ch b ∈ day_results ch d db) as Hin.
    { rewrite day_results_reference by done. apply elem_of_app. right. apply list_elem_of_fmap_2, list_elem_of_filter. split; [done|]. by apply day_rows_spec. }
    pose proof (run_stores ch calls d1 _ db d _ Hk Hp Hd' Hin) as Hst. destruct (only_record (ch:=ch) b) as (Es & _ & Ek & _).
    rewrite Ek, Hbd in Hst. eexists. split; [exact Hst|]. rewrite <- Es.
    assert (verdict_of (merged (bl_reconciles db) (stored_result (dc_now (calls (day_text ch d))) (bc_only ch b))) = verdict_of (bc_only ch b)) as Ev
      by (eapply merged_verdict; by eapply day_results_dated). by injection Ev.
Qed.

(** ** Repeating a run *)

Lemma day_start_diff d e : (i_unix (day_start ch e) - i_unix (day_start ch d)) / secs_per_day = e - d.
Proof.
  unfold day_start, midnight_at, midnight_of, secs_per_day. cbn [i_unix].
  replace (_ - _) with ((e - d) * 86400) by lia. by apply Z.div_mul.
Qed.
Lemma day_start_inj d e : day_start ch d = day_start ch e -> d = e.
Proof. intros E. pose proof (day_start_diff d e) as Hd. rewrite E, Z.sub_diag in Hd. change (0 / secs_per_day) with 0 in Hd. lia. Qed.

Definition erase_update (r : PaymentBillReconcile) : PaymentBillReconcile :=
  mkReconcile (rc_ChannelType r) (rc_ReconcileKey r) (rc_RecordSource r) (rc_BillDate r) (rc_channel r) (rc_local r) (rc_Status r) (rc_Reason r) (rc_CreatedAt r) 0.

Lemma merged_again (t : gmap (string * string) PaymentBillReconcile) now now' r :
  erase_update (assign_columns (merged t (stored_result now r)) (stored_result now' r)) = erase_update (merged t (stored_result now r)).
Proof. unfold merged. by case_match. Qed.

Lemma run_batch_elem calls d1 n db x : x ∈ run_batch ch calls d1 n db ->
  exists d r, d1 <= d < d1 + n /\ r ∈ day_results ch d db /\ x = stored_result (dc_now (calls (day_text ch d))) r.
Proof.
  intros (d & Hd%elem_of_seqZ & (r & -> & Hr)%list_elem_of_fmap)%elem_of_concat_map. by exists d, r.
Qed.

(** Repeating a run on the same orders and bills, at any later time, changes
    no row of the table but the time of its last update: no row is added, lost
    or judged differently. *)
Theorem second_run_changes_nothing calls calls' from to db s db1 s' db2 :
  primary_keys db -> ReconcileByBillDateRange ch calls from to db = (Ok s, db1) -> ReconcileByBillDateRange ch calls' from to db1 = (Ok s', db2) ->
  s' = s /\ erase_update <$> bl_reconciles db2 = erase_update <$> bl_reconciles db1.
Proof.
  intros Hk H1 H2. destruct (run_range _ _ _ _ _ _ H1) as (d1 & d2 & E1 & E2 & Hle & Hp & Hrun1). destruct (Hrun1 Hk) as [-> ->].
  destruct (run_range _ _ _ _ _ _ H2) as (e1 & e2 & F1 & F2 & _ & _ & Hrun2). destruct (Hrun2 Hk) as [-> ->].
  assert (e1 = d1) as -> by (eapply day_start_inj; congruence). assert (e2 = d2) as -> by (eapply day_start_inj; congruence).
  set (n := d2 - d1 + 1) in *. set (t := foldl upsert_reconcile (bl_reconciles db) (run_batch ch calls d1 n db)).
  assert (Hsame : forall d, d1 <= d < d1 + n -> day_results ch d (with_batch (run_batch ch calls d1 n db) db) = day_results ch d db)
    by (intros d Hd; by apply day_results_with, Hp).
  assert (run_results ch d1 n (with_batch (run_batch ch calls d1 n db) db) = run_results ch d1 n db) as -> by (by apply concat_days_ext). split; [done|].
  assert (run_batch ch calls' d1 n (with_batch (run_batch ch calls d1 n db) db) = run_batch ch calls' d1 n db) as ->
    by (apply concat_days_ext; intros d Hd; by rewrite Hsame).
  apply map_eq. intros k. rewrite !lookup_fmap. cbn. fold t.
  destruct (decide (k ∈ map row_key (run_batch ch calls' d1 n db))) as [Hin|Hout]; [|by rewrite upsert_all_out].
  apply list_elem_of_fmap in Hin as (x & -> & Hx). rewrite upsert_all_in by (first [done | by apply run_batch_NoDup]).
  apply run_batch_elem in Hx as (d & r & Hd & Hr & ->). pose proof (run_stores ch calls d1 n db d r Hk Hp Hd Hr) as Hst. cbn in Hst. fold t in Hst.
  assert (dated ch d r) as Hdr by (exact (day_results_dated ch d db r (Hp d Hd) Hk Hr)).
  unfold merged at 1. rewrite (stored_key ch _ d r Hdr), Hst. cbn [fmap option_fmap option_map]. by rewrite merged_again.
Qed.

(** ** A run ends *)

(** A run with readable dates in order and a working database ends with a
    summary (the loop over the days does not run out of fuel); with unreadable
    dates or dates out of order it ends with an error and writes nothing. *)
Theorem bill_run_completes calls from to db : primary_keys db ->
  match parse_date (TrimSpace from) (bc_zone ch), parse_date (TrimSpace to) (bc_zone ch) with
  | Some f, Some t =>
      if i_unix t <? i_unix f then ReconcileByBillDateRange ch calls from to db = (fail_with "bill date range is invalid", db)
      else (forall d, i_unix f <= i_unix (day_start ch d) <= i_unix t -> calls_work (calls (day_text ch d)) = true) ->
           exists s db', ReconcileByBillDateRange ch calls from to db = (Ok s, db')
  | _, _ => ReconcileByBillDateRange ch calls from to db = (fail_with "parsing time", db)
  end.
Proof.
  intros Hk. unfold ReconcileByBillDateRange. destruct (parse_date (TrimSpace from) _) as [f|] eqn:Ef; [|done].
  destruct (parse_date (TrimSpace to) _) as [t|] eqn:Et; [|done].
  apply parse_date_midnight in Ef as (d1 & Hd1 & ->), Et as (d2 & Hd2 & ->); [|apply run_zone..].
  fold (day_start ch d1). fold (day_start ch d2). rewrite day_start_lt. destruct (Z.ltb_spec d2 d1) as [|Hle]; [done|]. intros Hc.
  eexists _, _. rewrite day_start_diff.
  pose proof (run_works ch calls (d2 - d1 + 1) ltac:(lia) d1 (Z.to_nat (d2 - d1 + 2)) (mkSummary 0 0 0) db Hk) as Hw.
  replace (d1 + (d2 - d1 + 1) - 1) with d2 in Hw by lia. apply Hw; [intros d Hd; unfold printable_day in *; lia | lia|].
  intros d Hd. apply Hc. pose proof (day_start_lt ch d1 d). pose proof (day_start_lt ch d d2). lia.
Qed.
End Runs.

(** ** What a match means *)



(** *** What the three channels call a payment *)

Inductive bill_kind := KindWechat | KindAlipay | KindStripe.

Definition bills_for (loc : Z) (k : bill_kind) : BillChannel :=
  match k with KindWechat => WechatBills loc | KindAlipay => AlipayBills loc | KindStripe => StripeBills end.










Lemma bills_run loc k : zone_ok loc -> RunLaws (bills_for loc k).
Proof. intros Hz. destruct k; [by apply wechat_run | by apply alipay_run | apply stripe_run]. Qed.

Section Matches.
Context `{RowOrder} (loc : Z) (k : bill_kind) (Hz : zone_ok loc).
Notation ch := (bills_for loc k).
#[local] Instance bills_laws : RunLaws ch := bills_run loc k Hz.


End Matches.

(** ** Concrete bills *)

#[export] Instance row_le_dec a b : Decision (row_le a b).
Proof. unfold row_le. apply _. Defined.
#[export] Instance row_le_total : Total row_le.
Proof.
  intros a b. unfold row_le. destruct (decide (pb_BillDate a = pb_BillDate b)) as [E|E]; [rewrite E; destruct (Z.le_ge_cases (pb_RowIndex a) (pb_RowIndex b)); naive_solver|].
  destruct (total String.le (pb_BillDate a) (pb_BillDate b)); naive_solver.
Qed.
#[export] Instance row_le_trans : Transitive row_le.
Proof.
  intros a b c [[H1 H2]|[H1 H2]] [[H3 H4]|[H3 H4]]; unfold row_le.
  - left. split; [|by etransitivity]. intros E. apply H1. apply (anti_symm String.le); [done|]. by rewrite E.
  - left. rewrite <- H3. done.
  - left. rewrite H1. done.
  - right. split; [congruence | lia].
Qed.
Definition merged_rows : RowOrder := {|
  order_rows := merge_sort row_le;
  order_rows_perm := merge_sort_Permutation row_le;
  order_rows_sorted := StronglySorted_merge_sort row_le
|}.
#[local] Existing Instance merged_rows.

Definition ten : float64 := S754_finite false 5629499534213120 (-49).
Definition may_6 : Z := 1778025600.
Definition demo_topup : TopUpRow :=
  mkRow 7 (mkTopUp 0 1 100 ten "USR7" "wxpay" "epay" "payment" 0 (may_6 + 100) (may_6 + 200) "success" "CNY" ten).
Definition demo_bill (id index : Z) (hash channelNo merchantNo status : string) : PaymentBillRecord :=
  mkBill id "wxpay" "2026-05-06" index hash "2026-05-06 00:03:20" channelNo merchantNo "NATIVE" status "" "CNY" "10.00" "10.00" "" "" 1.
Definition at_time (now : Z) (d : string) : day_calls := mkCalls true true true true now.
Definition bills_of (topups : list TopUpRow) (rows : list PaymentBillRecord) : billDB := mkBillDB topups [] rows 100 ∅.
Definition demo_bill_run (now : Z) : billDB -> result summary * billDB :=
  ReconcileWechatTradeBillsByBillDateRange 0 (at_time now) "2026-05-06" "2026-05-06".
Definition stored_verdict (key : string) (db : billDB) : option (string * string) := verdict_of <$> bl_reconciles db !! ("wxpay", key).
Definition demo_db : billDB := bills_of [demo_topup] [demo_bill 1 1 "h1" "4200001" "USR7" "SUCCESS"; demo_bill 2 2 "h2" "4200002" "USR9" "SUCCESS"].

Lemma demo_keys : primary_keys demo_db.
Proof. unfold primary_keys. cbn. split_and!; repeat constructor; set_solver. Qed.

Lemma every_payment_is_reported_witness :
  exists s db', demo_bill_run 5 demo_db = (Ok s, db') /\ su_Total s = 2 /\ su_Matched s = 1 /\
    stored_verdict "local:2026-05-06:topup:7" db' = Some matched /\ stored_verdict "channel:2026-05-06:2" db' = Some (abnormal ReasonLocalNotFound) /\
    su_Total s = su_Matched s + su_Abnormal s.
Proof.
  assert (E : exists s db', demo_bill_run 5 demo_db = (Ok s, db') /\ su_Total s = 2 /\ su_Matched s = 1 /\
    stored_verdict "local:2026-05-06:topup:7" db' = Some matched /\ stored_verdict "channel:2026-05-06:2" db' = Some (abnormal ReasonLocalNotFound))
    by (vm_compute; eexists _, _; split_and!; reflexivity).
  destruct E as (s & db' & E & H1 & H2 & H3 & H4). exists s, db'. split_and!; try assumption.
  pose proof (@every_payment_is_reported merged_rows (WechatBills 0) (wechat_run 0 ltac:(unfold zone_ok; lia)) (at_time 5) "2026-05-06" "2026-05-06" demo_db s db' demo_keys E)
    as (d1 & d2 & _ & _ & H & _). exact H.
Defined.

Lemma second_run_changes_nothing_witness :
  exists s db1 db2, demo_bill_run 5 demo_db = (Ok s, db1) /\ demo_bill_run 9 db1 = (Ok s, db2) /\
    erase_update <$> bl_reconciles db2 = erase_update <$> bl_reconciles db1.
Proof.
  pose (db1 := (demo_bill_run 5 demo_db).2). pose (db2 := (demo_bill_run 9 db1).2).
  assert (E1 : demo_bill_run 5 demo_db = (Ok (mkSummary 2 1 1), db1)) by (vm_compute; reflexivity).
  assert (E2 : demo_bill_run 9 db1 = (Ok (mkSummary 2 1 1), db2)) by (vm_compute; reflexivity).
  exists (mkSummary 2 1 1), db1, db2. split; [exact E1|]. split; [exact E2|].
  exact (proj2 (@second_run_changes_nothing merged_rows (WechatBills 0) (wechat_run 0 ltac:(unfold zone_ok; lia)) (at_time 5) (at_time 9)
    "2026-05-06" "2026-05-06" demo_db _ db1 _ db2 demo_keys E1 E2)).
Defined.

Lemma bill_run_completes_witness : exists s db', demo_bill_run 5 demo_db = (Ok s, db').
Proof.
  pose proof (@bill_run_completes merged_rows (WechatBills 0) (wechat_run 0 ltac:(unfold zone_ok; lia)) (at_time 5) "2026-05-06" "2026-05-06" demo_db demo_keys) as H.
  assert (parse_date (TrimSpace "2026-05-06") (bc_zone (WechatBills 0)) = Some (mkInstant may_6 0)) as E by (vm_compute; reflexivity).
  rewrite E, Z.ltb_irrefl in H. apply H. intros d _. reflexivity.
Defined.

(** The order of the bill, paid on 6 May and matched with the second of two rows that name it. *)
Definition demo_record : PaymentBillReconcile := local_record "wxpay" "2026-05-06" (topup_side "¥" demo_topup).


(** The user pays the same order twice: both rows name it, the second takes the
    place of the first, and the run reports nothing abnormal. *)
Example double_payment_is_matched :
  (demo_bill_run 5 (bills_of [demo_topup] [demo_bill 1 1 "h1" "4200001" "USR7" "SUCCESS"; demo_bill 2 2 "h2" "4200002" "USR7" "SUCCESS"])).1 =
  Ok (mkSummary 1 1 0).
Proof. vm_compute. reflexivity. Qed.

(** A refund of an order goes unseen when a payment of it follows in the bill. *)
Example refund_is_overwritten :
  let bill := [demo_bill 1 1 "h1" "4200001" "USR7" "REFUND"; demo_bill 2 2 "h2" "4200001" "USR7" "SUCCESS"] in
  (demo_bill_run 5 (bills_of [demo_topup] bill)).1 = Ok (mkSummary 1 1 0) /\
  (demo_bill_run 5 (bills_of [demo_topup] (take 1 bill))).1 = Ok (mkSummary 1 0 1).
Proof. vm_compute. done. Qed.

(** A bill row whose order was completed only after the first run keeps its
    abnormal record beside the match that a second run finds. *)
Example late_order_leaves_record :
  let '(_, db1) := demo_bill_run 5 (bills_of [] [demo_bill 1 1 "h1" "4200001" "USR7" "SUCCESS"]) in
  let '(s, db2) := demo_bill_run 9 (mkBillDB [demo_topup] [] (bl_records db1) 100 (bl_reconciles db1)) in
  s = Ok (mkSummary 1 1 0) /\ stored_verdict "local:2026-05-06:topup:7" db2 = Some matched /\
  stored_verdict "channel:2026-05-06:1" db2 = Some (abnormal ReasonLocalNotFound).
Proof. vm_compute. done. Qed.

(** A day for which the channel has no bill is not reconciled: a paid order of
    that day is not reported as missing there. *)
Example silent_day_is_not_checked :
  RunWechatTradeBillWorkflow 0 true (at_time 5) "2026-05-06" NoStatement (bills_of [demo_topup] []) = (Ok (mkSummary 0 0 0), bills_of [demo_topup] []) /\
  (demo_bill_run 5 (bills_of [demo_topup] [])).1 = Ok (mkSummary 1 0 1).
Proof. vm_compute. done. Qed.

(** An upsert judges a record again but keeps the currencies of the first run. *)
Example currency_is_not_refreshed :
  let old := demo_record in
  let new := local_record "wxpay" "2026-05-06" (topup_side "$" demo_topup) in
  let '(_, db) := UpsertPaymentBillReconciles true 9 [new] (UpsertPaymentBillReconciles true 5 [old] (bills_of [] [])).2 in
  (fun r => (ls_Currency (rc_local r), rc_UpdatedAt r)) <$> bl_reconciles db !! ("wxpay", "local:2026-05-06:topup:7") = Some ("¥", 9).
Proof. vm_compute. reflexivity. Qed.
