(* ===== verification/CryptoBill.v ===== *)
(** * Reconciliation of on-chain payments

    src/service/crypto_trade_bill_reconcile.go: each successful crypto
    transaction of a day is looked up on its chain, becomes a bill row when the
    receipt bears it out, and is compared with that row.  The replies of the
    chain nodes and of the table of chains come with each transaction; decimal
    parsing and the digest are code outside the repository.  A printed token
    amount reads back as the nearest float, and a matched transaction has a
    confirmed transfer on its chain that pays the order. *)

From stdpp Require Import base numbers list strings gmap pretty sorting.
From Stdlib Require Import ZArith QArith Qround Qpower Lia Ascii SpecFloat.
From S2P Require Import Prelude GoInt GoString GoText GoTime GoFloat QuotaWindow QuotaPolicy WindowBounds GoDate SubPlan SubStock SubOrder Redemption PaymentBill.

#[local] Open Scope Z_scope.

(** ** Data *)

Record CryptoChainConfig := mkChain {
  cx_Network : string; cx_TokenSymbol : string; cx_TokenDecimals : Z; cx_TokenContract : string; cx_RPCURL : string; cx_MinConfirmations : Z
}.
Record cryptoBillRPCLog := mkLog { lg_Address : string; lg_Topics : list string; lg_Data : string }.
Record cryptoBillRPCReceipt := mkReceipt { rp_TransactionHash : string; rp_Status : string; rp_To : string; rp_BlockNumber : string; rp_Logs : list cryptoBillRPCLog }.
Record chainTransferEvent := mkEvent { ev_TxHash : string; ev_BlockNumber : Z; ev_From : string; ev_To : string; ev_Value : Z; ev_BlockTime : Z }.
Record cryptoBillChainRuntime := mkRuntime { rt_Config : CryptoChainConfig; rt_CurrentBlock : Z }.

(** What is answered while one transaction is checked: the row of its chain, the
    number of the last block, the receipt, the timestamp of its block. *)
Record replies := mkReplies {
  rs_chain : result CryptoChainConfig; rs_blockNumber : result string; rs_receipt : result cryptoBillRPCReceipt; rs_timestamp : result string
}.

(** A row of [crypto_transactions] with its primary key. *)
Record CryptoRow := mkCryptoRow { cw_Id : Z; cw_Tx : CryptoTransaction }.

Class CryptoBills := {
  NewFromString : string -> option Q;
  sha256_hex : string -> string
}.

Definition cryptoTransferTopic : string := "0xddf252ad1be2c89b69c2b068fc378daa952ba7f163c4a11628f55a4df523b3ef".
Definition err_text (e : error) : string := match e with ErrRecordNotFound => "record not found" | ErrMsg s => s end.

(** ** Text of addresses, hashes and numbers *)

Definition normalizeCryptoBillAddressText (address : string) : string := ToLower (TrimSpace address).
Definition normalizeCryptoBillHash (hash : string) : string := ToLower (TrimSpace hash).

Fixpoint drop_bytes (n : nat) (s : string) : string :=
  match n, s with S n', String _ s' => drop_bytes n' s' | _, _ => s end.

Definition cryptoBillTopicToAddress (topic : string) : string :=
  let value := TrimPrefix (ToLower (TrimSpace topic)) "0x" in
  if (String.length value <? 40)%nat then "" else "0x" +:+ drop_bytes (String.length value - 40) value.

Fixpoint read_hex_digits (acc : Z) (s : string) : option Z :=
  match s with
  | EmptyString => Some acc
  | String a s' => match hex_digit a with Some d => read_hex_digits (16 * acc + d) s' | None => None end
  end.
Definition max_u64 : Z := 2 ^ 64 - 1.

(** [strconv.ParseUint(value, 16, 64)] on what follows the prefix. *)
Definition parseCryptoBillHexUint64 (value : string) : result Z :=
  let value := TrimPrefix (ToLower (TrimSpace value)) "0x" in
  if String.eqb value "" then fail_with "empty hex value"
  else match read_hex_digits 0 value with
       | Some n => if n <=? max_u64 then Ok n else fail_with "value out of range"
       | None => fail_with "invalid syntax"
       end.

(** [SetString(value, 16)] of a [big.Int] reads a sign. *)
Definition parseCryptoBillHexBigInt (value : string) : option Z :=
  let value := TrimPrefix (ToLower (TrimSpace value)) "0x" in
  if String.eqb value "" then Some 0
  else let '(neg, digits) := take_sign value in
       if String.eqb digits "" then None
       else n ← read_hex_digits 0 digits; Some (if neg then - n else n).

(** [fmt.Sprintf("%s.%0*s", q, decimals, r)] pads the remainder with zeros. *)
Definition formatTokenAmount (value decimals : Z) : string :=
  if decimals <=? 0 then Itoa value
  else
    let divisor := 10 ^ decimals in
    let remainder := Itoa (value mod divisor) in
    Itoa (value / divisor) +:+ "." +:+ zero_text (Z.to_nat decimals - String.length remainder) +:+ remainder.

(** ** Checking one transaction *)

Record caches := mkCaches { ca_runtimes : gmap string cryptoBillChainRuntime; ca_times : gmap string Z }.

Definition getCryptoBillChainRuntime (tx : CryptoTransaction) (rs : replies) (cache : gmap string cryptoBillChainRuntime) :
    result cryptoBillChainRuntime * gmap string cryptoBillChainRuntime :=
  let key := Itoa (ct_ChainId tx) +:+ ":" +:+ ToLower (TrimSpace (ct_TokenSymbol tx)) in
  match cache !! key with
  | Some runtime => (Ok runtime, cache)
  | None =>
      match rs_chain rs with
      | Err e => (fail_with ("load chain config failed: " +:+ err_text e), cache)
      | Ok cfg =>
          if String.eqb (TrimSpace (cx_RPCURL cfg)) "" then (fail_with ("chain " +:+ cx_Network cfg +:+ " has empty RPCURL"), cache)
          else match (hex ← rs_blockNumber rs; parseCryptoBillHexUint64 hex) with
               | Err e => (Err e, cache)
               | Ok currentBlock => let runtime := mkRuntime cfg currentBlock in (Ok runtime, <[key := runtime]> cache)
               end
      end
  end.

Definition getCryptoBillCachedBlockTimestamp (rpcURL : string) (blockNumber : Z) (rs : replies) (cache : gmap string Z) : result Z * gmap string Z :=
  let key := rpcURL +:+ ":" +:+ Itoa blockNumber in
  match cache !! key with
  | Some value => (Ok value, cache)
  | None => match (hex ← rs_timestamp rs; parseCryptoBillHexUint64 hex) with
            | Err e => (Err e, cache)
            | Ok ts => (Ok (wrap64 ts), <[key := wrap64 ts]> cache)
            end
  end.

Definition parseCryptoBillTransferLog (tokenContract : string) (logItem : cryptoBillRPCLog) : option (string * string * Z) :=
  if negb (EqualFold (lg_Address logItem) tokenContract) then None
  else match lg_Topics logItem with
       | topic :: from :: to :: _ =>
           if negb (EqualFold topic cryptoTransferTopic) then None
           else
             let from := cryptoBillTopicToAddress from in
             let to := cryptoBillTopicToAddress to in
             if String.eqb from "" || String.eqb to "" then None
             else value ← parseCryptoBillHexBigInt (lg_Data logItem); Some (from, to, value)
       | _ => None
       end.

(** The first transfer to the receiver decides. *)
Fixpoint find_transfer (tokenContract receiver : string) (required : Z) (logs : list cryptoBillRPCLog) : result (string * string * Z) :=
  match logs with
  | [] => fail_with "未找到匹配的代币转账事件"
  | logItem :: rest =>
      match parseCryptoBillTransferLog tokenContract logItem with
      | None => find_transfer tokenContract receiver required rest
      | Some (from, to, value) =>
          if negb (EqualFold to receiver) then find_transfer tokenContract receiver required rest
          else if value <? required then fail_with "链上转账金额不足"
          else Ok (from, to, value)
      end
  end.

Section CryptoRun.
Context `{CryptoBills}.

(** [requiredAmount.Mul(decimal.New(1, decimals)).BigInt()]: a positive amount in base units, truncated. *)
Definition base_units (amount : Q) (decimals : Z) : Z := Qfloor (amount * Qpower 10 decimals).

Definition verifyCryptoBillTransaction (runtime : cryptoBillChainRuntime) (tx : CryptoTransaction) (hash : string) (rs : replies) (times : gmap string Z) :
    result chainTransferEvent * gmap string Z :=
  let cfg := rt_Config runtime in
  let txHash := normalizeCryptoBillHash hash in
  match rs_receipt rs with
  | Err e => (Err e, times)
  | Ok receipt =>
      if String.eqb (TrimSpace (rp_TransactionHash receipt)) "" then (fail_with "链上交易不存在", times)
      else if negb (EqualFold (rp_Status receipt) "0x1") then (fail_with "链上交易未成功", times)
      else if negb (EqualFold (rp_To receipt) (ct_TokenContract tx)) && negb (EqualFold (rp_To receipt) (cx_TokenContract cfg))
      then (fail_with "链上交易目标不是代币合约", times)
      else match parseCryptoBillHexUint64 (rp_BlockNumber receipt) with
      | Err _ => (fail_with "链上交易区块号无效", times)
      | Ok blockNumber =>
          if blockNumber =? 0 then (fail_with "链上交易区块号无效", times)
          else
            let confirmations := if blockNumber <=? rt_CurrentBlock runtime then wrap64 (rt_CurrentBlock runtime - blockNumber + 1) else 0 in
            if confirmations <? cx_MinConfirmations cfg
            then (fail_with ("链上确认数不足，当前 " +:+ Itoa confirmations +:+ "，需要 " +:+ Itoa (cx_MinConfirmations cfg)), times)
            else match getCryptoBillCachedBlockTimestamp (cx_RPCURL cfg) blockNumber rs times with
            | (Err e, times) => (Err e, times)
            | (Ok blockTime, times) =>
                match NewFromString (ct_UsdtAmount tx) with
                | None => (fail_with "本地 crypto 支付金额无效", times)
                | Some amount =>
                    if Qle_bool amount 0 then (fail_with "本地 crypto 支付金额无效", times)
                    else
                      match find_transfer (cx_TokenContract cfg) (normalizeCryptoBillAddressText (ct_ReceiverAddress tx))
                              (base_units amount (cx_TokenDecimals cfg)) (rp_Logs receipt) with
                      | Err e => (Err e, times)
                      | Ok (from, to, value) => (Ok (mkEvent txHash blockNumber from to value blockTime), times)
                      end
                end
            end
      end
  end.

Definition cryptoBillReconcileReasonFromError (e : error) : string :=
  let message := ToLower (err_text e) in
  if Contains message "金额" then ReasonAmountMismatch
  else if Contains message "未成功" || Contains message "确认数" then ReasonStatusMismatch
  else ReasonChannelNotFound.

(** The order behind a transaction: a subscription, a top-up, or none. *)
Definition crypto_local (row : CryptoRow) : string * Z :=
  let tx := cw_Tx row in
  if 0 <? ct_SubscriptionOrderId tx then ("subscription", ct_SubscriptionOrderId tx)
  else if 0 <? ct_TopUpId tx then ("topup", ct_TopUpId tx) else ("crypto", cw_Id row).

Definition buildCryptoLocalReconcile (billDate : string) (row : CryptoRow) : PaymentBillReconcile :=
  let tx := cw_Tx row in
  let '(localType, localID) := crypto_local row in
  mkReconcile PaymentChannelTypeCrypto (reconcileKeyForLocalRecord billDate localType localID) "local" billDate
    (mkChannelSide 0 "" (match ct_TxHash tx with Some h => normalizeCryptoBillHash h | None => "" end) (ct_TradeNo tx) "" "" "" "" "" "")
    (mkLocalSide localType localID (ct_TradeNo tx) PaymentChannelTypeCrypto (ct_Status tx) (ParseFloat_value (TrimSpace (ct_UsdtAmount tx)))
       (ct_CreateTime tx) (ct_CompleteTime tx) (ct_TokenSymbol tx))
    StatusAbnormal ReasonChannelNotFound 0 0.

(** [Format("2006-01-02 15:04:05")] eight hours east of Greenwich. *)
Definition format_cst (unix : Z) : string :=
  let t := time_Unix unix 28800 in
  format_date t +:+ " " +:+ appendInt (Clock t / 3600) 2 +:+ ":" +:+ appendInt (Clock t / 60 mod 60) 2 +:+ ":" +:+ appendInt (Clock t mod 60) 2.

Definition buildCryptoBillRecordFromChain (now : Z) (billDate : string) (rowIndex : Z) (chain : CryptoChainConfig) (ev : chainTransferEvent) (merchantTradeNo : string) :
    PaymentBillRecord :=
  let valueStr := formatTokenAmount (ev_Value ev) (cx_TokenDecimals chain) in
  let rowHashRaw := "crypto|" +:+ cx_Network chain +:+ "|" +:+ cx_TokenSymbol chain +:+ "|" +:+ ev_TxHash ev +:+ "|" +:+ ev_To ev +:+ "|" +:+ Itoa (ev_Value ev) in
  mkBill 0 PaymentChannelTypeCrypto billDate rowIndex (sha256_hex rowHashRaw) (format_cst (ev_BlockTime ev)) (normalizeCryptoBillHash (ev_TxHash ev))
    (TrimSpace merchantTradeNo) (cx_Network chain) "success" "" (cx_TokenSymbol chain) valueStr valueStr "" "" now.

Definition parseCryptoBillAmount (row : PaymentBillRecord) : string * float64 :=
  first_amount [TrimSpace (pb_OrderAmount row); TrimSpace (pb_TotalAmount row)].

Definition applyCryptoChannelMatch (r : PaymentBillReconcile) (row : PaymentBillRecord) : PaymentBillReconcile :=
  let c := rc_channel r in
  judged (rc_RecordSource r) (pb_BillDate row)
    (mkChannelSide (cs_BillRecordId c) (pb_TradeTime row) (pb_ChannelTradeNo row) (pb_MerchantTradeNo row) (pb_TradeType row) (pb_TradeStatus row)
       (cs_RefundStatus c) (parseCryptoBillAmount row).1 (cs_RefundAmount c) (pb_Currency row))
    (if negb (amountsEqual (parseCryptoBillAmount row).2 (ls_Amount (rc_local r))) then abnormal ReasonAmountMismatch
     else if negb (String.eqb (normalizeLocalStatus (ls_Status (rc_local r))) "success") || negb (String.eqb (normalizeLocalStatus (pb_TradeStatus row)) "success")
     then abnormal ReasonStatusMismatch
     else matched) r.

Definition with_reason (reason : string) (r : PaymentBillReconcile) : PaymentBillReconcile :=
  mkReconcile (rc_ChannelType r) (rc_ReconcileKey r) (rc_RecordSource r) (rc_BillDate r) (rc_channel r) (rc_local r) (rc_Status r) reason (rc_CreatedAt r) (rc_UpdatedAt r).

(** The body of the loop of [buildCryptoBillFromLocalTransactions]: the record of
    the transaction, and its bill row when the chain bears it out. *)
Definition reconcile_tx (now : Z) (billDate : string) (rowIndex : Z) (row : CryptoRow) (rs : replies) (ca : caches) :
    PaymentBillReconcile * option PaymentBillRecord * caches :=
  let tx := cw_Tx row in
  let reconcile := buildCryptoLocalReconcile billDate row in
  match ct_TxHash tx with
  | None => (with_reason ReasonChannelNotFound reconcile, None, ca)
  | Some hash =>
      if String.eqb (TrimSpace hash) "" then (with_reason ReasonChannelNotFound reconcile, None, ca)
      else
        let '(runtime, runtimes) := getCryptoBillChainRuntime tx rs (ca_runtimes ca) in
        match runtime with
        | Err e => (with_reason ReasonUnsupportedBillRow reconcile, None, mkCaches runtimes (ca_times ca))
        | Ok runtime =>
            let '(event, times) := verifyCryptoBillTransaction runtime tx hash rs (ca_times ca) in
            match event with
            | Err e => (with_reason (cryptoBillReconcileReasonFromError e) reconcile, None, mkCaches runtimes times)
            | Ok event =>
                let record := buildCryptoBillRecordFromChain now billDate rowIndex (rt_Config runtime) event (ct_TradeNo tx) in
                (applyCryptoChannelMatch reconcile record, Some record, mkCaches runtimes times)
            end
        end
  end.

Fixpoint reconcile_txs (now : Z) (billDate : string) (txs : list (CryptoRow * replies)) (records : list PaymentBillRecord) (reconciles : list PaymentBillReconcile)
    (ca : caches) : list PaymentBillRecord * list PaymentBillReconcile :=
  match txs with
  | [] => (records, reconciles)
  | (row, rs) :: rest =>
      let '(reconcile, record, ca') := reconcile_tx now billDate (Z.of_nat (length records) + 1) row rs ca in
      reconcile_txs now billDate rest (records ++ option_list record) (reconciles ++ [reconcile]) ca'
  end.

Definition successful_between (startTime endTime : Z) (row : CryptoRow) : bool :=
  let tx := cw_Tx row in
  String.eqb (ct_Status tx) "success" && (startTime <=? ct_CompleteTime tx) && (ct_CompleteTime tx <? endTime).

(** [txs] are the rows of the table by completion time and id, each with the
    replies it meets; [read_ok] is whether the table can be read. *)
Definition buildCryptoBillFromLocalTransactions (read_ok : bool) (now : Z) (billDate : string) (startTime endTime : Z) (txs : list (CryptoRow * replies)) :
    result (list PaymentBillRecord * list PaymentBillReconcile) :=
  if negb read_ok then fail_with "database error"
  else Ok (reconcile_txs now billDate (List.filter (fun x => successful_between startTime endTime x.1) txs) [] [] (mkCaches ∅ ∅)).

Definition with_bill_record (id : Z) (r : PaymentBillReconcile) : PaymentBillReconcile :=
  let c := rc_channel r in
  mkReconcile (rc_ChannelType r) (rc_ReconcileKey r) (rc_RecordSource r) (rc_BillDate r)
    (mkChannelSide id (cs_TradeTime c) (cs_ChannelTradeNo c) (cs_MerchantTradeNo c) (cs_TradeType c) (cs_Status c) (cs_RefundStatus c) (cs_Amount c) (cs_RefundAmount c) (cs_Currency c))
    (rc_local r) (rc_Status r) (rc_Reason r) (rc_CreatedAt r) (rc_UpdatedAt r).

(** The bill rows by transaction hash; a later row takes the place of an earlier one. *)
Definition rows_by_hash (rows : list PaymentBillRecord) : gmap string Z :=
  foldl (fun m row => if String.eqb (TrimSpace (pb_ChannelTradeNo row)) "" then m else <[normalizeCryptoBillHash (pb_ChannelTradeNo row) := pb_Id row]> m) ∅ rows.
Definition fill_record_id (m : gmap string Z) (r : PaymentBillReconcile) : PaymentBillReconcile :=
  let no := cs_ChannelTradeNo (rc_channel r) in
  if String.eqb (TrimSpace no) "" then r
  else match m !! normalizeCryptoBillHash no with Some id => with_bill_record id r | None => r end.

Definition RunCryptoBillWorkflow `{RowOrder} (calls : day_calls) (insert_ok : bool) (billDate : string) (txs : list (CryptoRow * replies)) (db : billDB) :
    result summary * billDB :=
  match parse_date (TrimSpace billDate) 0 with
  | None => (fail_with "日期格式错误", db)
  | Some date =>
      match buildCryptoBillFromLocalTransactions (dc_topups calls) (dc_now calls) billDate (i_unix date) (i_unix (AddDate date 0 0 1)) txs with
      | Err e => (Err e, db)
      | Ok (records, reconciles) =>
          match BatchInsertPaymentBillRecords insert_ok (dc_now calls) records db with
          | (Err e, db) => (Err e, db)
          | (Ok _, db) =>
              if negb (dc_rows calls) then (fail_with "database error", db)
              else
                let m := rows_by_hash (GetPaymentBillRecordsByChannelAndBillDateRange PaymentChannelTypeCrypto billDate billDate db) in
                let reconciles := map (fill_record_id m) reconciles in
                match UpsertPaymentBillReconciles (dc_write calls) (dc_now calls) reconciles db with
                | (Err e, db) => (Err e, db)
                | (Ok _, db) => (Ok (foldl count_record (mkSummary 0 0 0) reconciles), db)
                end
          end
      end
  end.
End CryptoRun.

#[local] Arguments String.append : simpl nomatch.

(** ** Printed amounts read back *)

Lemma digit_value_range a d : digit_value a = Some d -> 0 <= d <= 9.
Proof. unfold digit_value. case_match; [|done]. intros [= <-]. split_bool. lia. Qed.

Lemma pretty_go_length k x s : (x < 10 ^ N.of_nat k)%N -> (String.length (pretty_N_go x s) <= k + String.length s)%nat.
Proof.
  revert x s. induction k as [|k IH]; intros x s Hx.
  - assert (x = 0)%N as -> by (cbn in Hx; lia). by rewrite pretty_N_go_0.
  - destruct (decide (x = 0)%N) as [->|Hne]; [rewrite pretty_N_go_0; lia|]. rewrite pretty_N_go_step by lia.
    assert (x / 10 < 10 ^ N.of_nat k)%N as Hk.
    { apply N.Div0.div_lt_upper_bound. rewrite Nat2N.inj_succ, N.pow_succ_r' in Hx. lia. }
    specialize (IH (x / 10)%N (String (pretty_N_char (x mod 10)) s) Hk). cbn [String.length] in IH. lia.
Qed.

Lemma Itoa_length n d : 0 < d -> 0 <= n < 10 ^ d -> (String.length (Itoa n) <= Z.to_nat d)%nat.
Proof.
  intros Hd Hn. destruct n as [|p|p]; [cbn; lia | | lia]. unfold Itoa, pretty, pretty_Z, pretty_positive, pretty, pretty_N.
  rewrite decide_False by lia. pose proof (pretty_go_length (Z.to_nat d) (N.pos p) "") as H. cbn [String.length] in H. rewrite Nat.add_0_r in H. apply H.
  apply N2Z.inj_lt. rewrite N2Z.inj_pow. replace (Z.of_N (N.of_nat (Z.to_nat d))) with d by lia. apply Hn.
Qed.

Lemma read_digits_shift s a b v : read_digits b s = Some v -> read_digits (a + b) s = Some (a * 10 ^ Z.of_nat (String.length s) + v).
Proof.
  revert a b. induction s as [|c s IH]; intros a b; cbn [read_digits String.length].
  - intros [= <-]. f_equal. change (Z.of_nat 0) with 0. lia.
  - destruct (digit_value c) as [d|]; [|done]. intros Hv. replace (10 * (a + b) + d) with (10 * a + (10 * b + d)) by lia.
    rewrite (IH (10 * a) _ Hv), Nat2Z.inj_succ, Z.pow_succ_r by lia. f_equal. lia.
Qed.

Lemma read_digits_zeros k s : read_digits 0 (zero_text k +:+ s) = read_digits 0 s.
Proof. induction k as [|k IH]; [done | exact IH]. Qed.

Lemma zeros_length k : String.length (zero_text k) = k.
Proof. induction k as [|k IH]; cbn; lia. Qed.

(** Digits move the mantissa as they move a number. *)
Lemma read_mantissa_digits ds rest m e dot dig u v : read_digits m ds = Some v ->
  read_mantissa false (mkScan m e dot dig u) (ds +:+ rest) =
  read_mantissa false (mkScan v (if dot then e + Z.of_nat (String.length ds) else e) dot (dig || negb (String.eqb ds "")) u) rest.
Proof.
  revert m e dig. induction ds as [|c ds IH]; intros m e dig; cbn [read_digits].
  - intros [= <-]. cbn. rewrite orb_false_r. f_equal. f_equal. destruct dot; lia.
  - destruct (digit_value c) as [d|] eqn:E; [|done]. intros Hv. change (String c ds +:+ rest) with (String c (ds +:+ rest)). cbn [read_mantissa sc_mant sc_exp sc_dot sc_digits sc_under].
    destruct (Ascii.eqb_spec c "_") as [->|_]; [discriminate E|]. destruct (Ascii.eqb_spec c ".") as [->|_]; [discriminate E|].
    unfold mantissa_digit. rewrite E. rewrite (IH _ _ _ Hv). cbn [String.length]. rewrite orb_true_r. cbn [orb]. do 2 f_equal. destruct dot; lia.
Qed.

Lemma read_mantissa_dot hex m e dig u s : read_mantissa hex (mkScan m e false dig u) (String "." s) = read_mantissa hex (mkScan m e true dig u) s.
Proof. reflexivity. Qed.

Lemma digit_head a s : digit_value a = Some s -> lower_ascii a = a /\ a <> "+"%char /\ a <> "-"%char /\ (lower_byte a =? 120) = false /\ a <> "i"%char /\ a <> "n"%char.
Proof. destruct a as [[] [] [] [] [] [] [] []]; intros H; try discriminate H; vm_compute; split_and!; congruence. Qed.

Lemma take_sign_digit a d s : digit_value a = Some d -> take_sign (String a s) = (false, String a s).
Proof. destruct a as [[] [] [] [] [] [] [] []]; intros H; try discriminate H; reflexivity. Qed.

Lemma special_digit a d s : digit_value a = Some d -> special_number (String a s) = None.
Proof.
  intros E. unfold special_number. rewrite (take_sign_digit a d) by done. cbn [lower_text]. destruct (digit_head a d E) as (-> & _ & _ & _ & Hi & Hn).
  unfold str_in. cbn [existsb]. cbn [String.eqb]. destruct (Ascii.eqb_spec a "i"); [done|]. destruct (Ascii.eqb_spec a "n"); done.
Qed.

(** A number written with a point is the decimal it shows. *)
Lemma ParseFloat_point ds es q v : ds <> "" -> read_digits 0 ds = Some q -> read_digits q es = Some v ->
  ParseFloat (ds +:+ "." +:+ es) =
  match of_decimal false v (- Z.of_nat (String.length es)) with S754_infinity _ => None | x => Some x end.
Proof.
  intros Hne Hq Hv. destruct ds as [|a ds]; [done|]. destruct (digit_value a) as [d|] eqn:Ea; [|cbn in Hq; by rewrite Ea in Hq].
  unfold ParseFloat. change (String a ds +:+ ?x) with (String a (ds +:+ x)). rewrite (special_digit a d) by done. unfold parse_number.
  rewrite (take_sign_digit a d) by done.
  assert (hex_prefix (String a (ds +:+ "." +:+ es)) = None) as ->.
  { destruct ds as [|b ds]; cbn [hex_prefix]; [by destruct a as [[] [] [] [] [] [] [] []]|].
    change (String b ds +:+ ?x) with (String b (ds +:+ x)). cbn [read_digits] in Hq. rewrite Ea in Hq.
    destruct (digit_value b) as [k|] eqn:Eb; [|done]. destruct (digit_head b k Eb) as (_ & _ & _ & Hb & _).
    unfold hex_prefix. rewrite Hb. by destruct a as [[] [] [] [] [] [] [] []]. }
  change (String a (ds +:+ ?x)) with (String a ds +:+ x). rewrite (read_mantissa_digits _ _ _ _ _ _ _ _ Hq).
  change ("." +:+ es) with (String "." es). rewrite read_mantissa_dot. rewrite <- (str_app_nil_r es) at 1. rewrite (read_mantissa_digits _ _ _ _ _ _ _ _ Hv).
  cbn [read_mantissa sc_digits sc_mant sc_exp sc_under negb orb andb String.eqb]. rewrite Z.sub_0_l, Z.add_0_l. done.
Qed.

Lemma Itoa_nonempty n : 0 <= n -> Itoa n <> "".
Proof. intros Hn E. pose proof (read_Itoa n Hn) as Hr. rewrite E in Hr. injection Hr as <-. discriminate E. Qed.

(** A token amount reads back: what the bill prints of a transfer of [value]
    base units of a token with [decimals] decimals is read as the float next
    to value / 10^decimals. *)
Theorem token_amount_reads_back value decimals : 0 <= value -> 0 < decimals ->
  ParseFloat (formatTokenAmount value decimals) =
  match of_decimal false value (- decimals) with S754_infinity _ => None | x => Some x end.
Proof.
  intros Hv Hd. unfold formatTokenAmount. rewrite (proj2 (Z.leb_gt _ _)) by lia.
  set (q := value / 10 ^ decimals). set (r := value mod 10 ^ decimals).
  assert (0 < 10 ^ decimals) as Hp by (apply Z.pow_pos_nonneg; lia). pose proof (Z.mod_pos_bound value _ Hp) as Hr. fold r in Hr.
  assert (0 <= q) as Hq by (by apply Z.div_pos). pose proof (Itoa_length r decimals Hd Hr) as Hl.
  set (es := zero_text _ +:+ Itoa r). assert (String.length es = Z.to_nat decimals) as Hlen by (unfold es; rewrite str_length_app, zeros_length; lia).
  assert (read_digits 0 es = Some r) as He by (unfold es; rewrite read_digits_zeros; apply read_Itoa; lia).
  pose proof (read_digits_shift es q 0 r He) as Hs. rewrite Z.add_0_r, Hlen, Z2Nat.id in Hs by lia.
  rewrite (ParseFloat_point (Itoa q) es q _ (Itoa_nonempty q Hq) (read_Itoa q Hq) Hs), Hlen, Z2Nat.id by lia.
  replace (q * 10 ^ decimals + r) with value; [done|]. unfold q, r. pose proof (Z.div_mod value (10 ^ decimals)). lia.
Qed.

(** ** A match is borne out by the chain *)

Lemma find_transfer_Ok contract receiver required logs from to value : find_transfer contract receiver required logs = Ok (from, to, value) ->
  exists log, log ∈ logs /\ parseCryptoBillTransferLog contract log = Some (from, to, value) /\ EqualFold to receiver = true /\ required <= value.
Proof.
  induction logs as [|log logs IH]; cbn [find_transfer]; [done|].
  destruct (parseCryptoBillTransferLog contract log) as [[[f t] v]|] eqn:E; [|intros Hf; destruct (IH Hf) as (x & Hx & ?); exists x; set_solver].
  destruct (EqualFold t receiver) eqn:Et; cbn [negb]; [|intros Hf; destruct (IH Hf) as (x & Hx & ?); exists x; set_solver].
  destruct (Z.ltb_spec v required); [done|]. intros [= <- <- <-]. exists log. split_and!; [set_solver | done..].
Qed.

Section Matched.
Context `{CryptoBills}.

Lemma base_units_nonneg amount decimals : (0 <= amount)%Q -> 0 <= base_units amount decimals.
Proof.
  intros Ha. unfold base_units. change 0 with (Qfloor 0) at 1. apply Qfloor_resp_le. apply Qmult_le_0_compat; [done|].
  apply Qlt_le_weak, Qpower_0_lt. reflexivity.
Qed.

(** Enough blocks lie on top of the transfer's. *)
Definition confirmed (runtime : cryptoBillChainRuntime) (block : Z) : Prop :=
  block <> 0 /\ cx_MinConfirmations (rt_Config runtime) <= (if block <=? rt_CurrentBlock runtime then wrap64 (rt_CurrentBlock runtime - block + 1) else 0).

(** The receipt shows a transfer that pays the transaction. *)
Definition pays (runtime : cryptoBillChainRuntime) (tx : CryptoTransaction) (receipt : cryptoBillRPCReceipt) (value : Z) : Prop :=
  EqualFold (rp_Status receipt) "0x1" = true /\
  (EqualFold (rp_To receipt) (ct_TokenContract tx) = true \/ EqualFold (rp_To receipt) (cx_TokenContract (rt_Config runtime)) = true) /\
  (exists block, parseCryptoBillHexUint64 (rp_BlockNumber receipt) = Ok block /\ confirmed runtime block) /\
  exists amount log from to, NewFromString (ct_UsdtAmount tx) = Some amount /\ (0 < amount)%Q /\ log ∈ rp_Logs receipt /\
    parseCryptoBillTransferLog (cx_TokenContract (rt_Config runtime)) log = Some (from, to, value) /\
    EqualFold to (normalizeCryptoBillAddressText (ct_ReceiverAddress tx)) = true /\ base_units amount (cx_TokenDecimals (rt_Config runtime)) <= value.

Lemma verify_Ok runtime tx hash rs times ev times' : verifyCryptoBillTransaction runtime tx hash rs times = (Ok ev, times') ->
  exists receipt, rs_receipt rs = Ok receipt /\ pays runtime tx receipt (ev_Value ev).
Proof.
  unfold verifyCryptoBillTransaction. destruct (rs_receipt rs) as [receipt|]; [|done].
  destruct (String.eqb (TrimSpace (rp_TransactionHash receipt)) ""); [done|].
  destruct (EqualFold (rp_Status receipt) "0x1") eqn:Es; [|done]. cbn [negb].
  destruct (negb (EqualFold (rp_To receipt) (ct_TokenContract tx)) && _) eqn:Et; [done|].
  destruct (parseCryptoBillHexUint64 (rp_BlockNumber receipt)) as [block|] eqn:Eb; [|done].
  destruct (Z.eqb_spec block 0) as [|Hb]; [done|]. match goal with |- context [?x <? cx_MinConfirmations ?c] => destruct (Z.ltb_spec x (cx_MinConfirmations c)) as [|Hc]; [done|] end.
  destruct (getCryptoBillCachedBlockTimestamp _ _ _ _) as [[bt|] t1]; [|done]. destruct (NewFromString (ct_UsdtAmount tx)) as [amount|] eqn:Ea; [|done].
  destruct (Qle_bool amount 0) eqn:Eq; [done|]. destruct (find_transfer _ _ _ _) as [[[from to] value]|] eqn:Ef; [|done]. intros [= <- <-].
  exists receipt. split; [done|]. unfold pays. cbn [ev_Value]. split; [done|]. split.
  { apply andb_false_iff in Et as [Et|Et]; apply negb_false_iff in Et; auto. }
  split; [by exists block|]. apply find_transfer_Ok in Ef as (log & Hl & Hp & Hr & Hv). exists amount, log, from, to. split_and!; try done.
  apply Qnot_le_lt. intros Hle. apply Qle_bool_iff in Hle. congruence.
Qed.

Lemma format_trim value decimals : 0 <= value -> TrimSpace (formatTokenAmount value decimals) = formatTokenAmount value decimals.
Proof.
  intros Hv. apply TrimSpace_graphic. unfold formatTokenAmount. case_match; [apply number_char_graphic, Itoa_chars|].
  rewrite !all_chars_app. rewrite !(number_char_graphic _ (Itoa_chars _)). cbn [all_chars andb]. rewrite andb_true_r.
  induction (_ - _)%nat as [|n IH]; [done | exact IH].
Qed.

Lemma format_nonempty value decimals : formatTokenAmount value decimals <> "".
Proof.
  unfold formatTokenAmount. case_match; [|by destruct (Itoa _)]. destruct value as [|p|p]; [done | |done].
  apply Itoa_nonempty. lia.
Qed.

(** C30. A transaction is reported as matched only when its chain bears it out: it
    has a hash, its receipt is a successful one with enough confirmations, a
    log of the token's contract transfers to the order's receiver at least the
    order's amount in base units, the amount the log shows is the amount of the
    order up to a millionth, and the transaction is recorded as successful. *)
Theorem matched_transfer_is_on_chain now billDate rowIndex row rs ca r record ca' :
  reconcile_tx now billDate rowIndex row rs ca = (r, record, ca') -> rc_Status r = StatusMatched ->
  exists hash runtime receipt value, ct_TxHash (cw_Tx row) = Some hash /\ TrimSpace hash <> "" /\
    (getCryptoBillChainRuntime (cw_Tx row) rs (ca_runtimes ca)).1 = Ok runtime /\ rs_receipt rs = Ok receipt /\
    pays runtime (cw_Tx row) receipt value /\ normalizeLocalStatus (ct_Status (cw_Tx row)) = "success" /\
    amountsEqual (default float_zero (ParseFloat (formatTokenAmount value (cx_TokenDecimals (rt_Config runtime)))))
      (ParseFloat_value (TrimSpace (ct_UsdtAmount (cw_Tx row)))) = true.
Proof.
  assert (Hbuild : rc_Status (buildCryptoLocalReconcile billDate row) = StatusAbnormal /\
    ls_Amount (rc_local (buildCryptoLocalReconcile billDate row)) = ParseFloat_value (TrimSpace (ct_UsdtAmount (cw_Tx row))) /\
    ls_Status (rc_local (buildCryptoLocalReconcile billDate row)) = ct_Status (cw_Tx row))
    by (unfold buildCryptoLocalReconcile; by destruct (crypto_local row)).
  destruct Hbuild as (Hst & Ham & Hls). unfold reconcile_tx. destruct (ct_TxHash (cw_Tx row)) as [hash|]; [|intros [= <- <- <-]; cbn [with_reason rc_Status]; rewrite Hst; discriminate].
  destruct (String.eqb_spec (TrimSpace hash) "") as [|Hh]; [intros [= <- <- <-]; cbn [with_reason rc_Status]; rewrite Hst; discriminate|].
  destruct (getCryptoBillChainRuntime _ _ _) as [[runtime|] runtimes]; [|intros [= <- <- <-]; cbn [with_reason rc_Status]; rewrite Hst; discriminate].
  destruct (verifyCryptoBillTransaction _ _ _ _ _) as [[ev|] times] eqn:Ev; [|intros [= <- <- <-]; cbn [with_reason rc_Status]; rewrite Hst; discriminate].
  apply verify_Ok in Ev as (receipt & Er & Hp). intros [= <- <- <-]. unfold applyCryptoChannelMatch. cbn [judged rc_Status]. rewrite Ham, Hls.
  set (value := ev_Value ev) in *. assert (0 <= value) as Hv.
  { destruct Hp as (_ & _ & _ & amount & log & from & to & _ & Ha & _ & _ & _ & Hb). etransitivity; [|exact Hb]. apply base_units_nonneg. by apply Qlt_le_weak. }
  set (record := buildCryptoBillRecordFromChain _ _ _ _ _ _).
  assert ((parseCryptoBillAmount record).2 = default float_zero (ParseFloat (formatTokenAmount value (cx_TokenDecimals (rt_Config runtime))))) as ->.
  { unfold parseCryptoBillAmount, record. cbn [pb_OrderAmount pb_TotalAmount buildCryptoBillRecordFromChain]. fold value.
    rewrite format_trim by done. cbn [first_amount]. rewrite (proj2 (String.eqb_neq _ _) (format_nonempty _ _)). by destruct (ParseFloat _). }
  destruct (amountsEqual _ _) eqn:Ea; [|done]. cbn [negb]. destruct (String.eqb_spec (normalizeLocalStatus (ct_Status (cw_Tx row))) "success"); [|done].
  intros _. exists hash, runtime, receipt, value. split_and!; try done.
Qed.
End Matched.

(** ** A concrete transfer *)

Lemma token_amount_reads_back_witness : ParseFloat (formatTokenAmount 12340000 6) = ParseFloat "12.34".
Proof. rewrite (token_amount_reads_back 12340000 6 ltac:(lia) ltac:(lia)). vm_compute. reflexivity. Defined.

#[local] Instance demo_decimals : CryptoBills := {|
  NewFromString := fun s => if String.eqb s "12.34" then Some (1234 # 100)%Q else None;
  sha256_hex := fun s => s
|}.

Definition demo_chain (decimals : Z) : CryptoChainConfig := mkChain "BSC" "USDT" decimals "0xToken" "https://node" 3.
Definition demo_tx : CryptoRow :=
  mkCryptoRow 5 (mkCrypto 7 0 1 "USR7" (Some "0xabc") 56 "USDT" "0xtoken" 6 "0x1111111111111111111111111111111111111111" "" "12.34" 0 0 "success" 10 20).
Definition demo_log : cryptoBillRPCLog :=
  mkLog "0xTOKEN" [cryptoTransferTopic; "0x0000000000000000000000002222222222222222222222222222222222222222";
                   "0x0000000000000000000000001111111111111111111111111111111111111111"] "0xbc4b20".
Definition demo_chain_replies (decimals : Z) : replies :=
  mkReplies (Ok (demo_chain decimals)) (Ok "0x64") (Ok (mkReceipt "0xabc" "0x1" "0xTOKEN" "0x60" [demo_log])) (Ok "0x69fa8400").
Definition demo_check (decimals : Z) : PaymentBillReconcile :=
  (reconcile_tx 5 "2026-05-06" 1 demo_tx (demo_chain_replies decimals) (mkCaches ∅ ∅)).1.1.

Lemma matched_transfer_is_on_chain_witness :
  rc_Status (demo_check 6) = StatusMatched /\ exists runtime receipt value, pays runtime (cw_Tx demo_tx) receipt value.
Proof.
  assert (E : rc_Status (demo_check 6) = StatusMatched) by (vm_compute; reflexivity). split; [exact E|].
  destruct (reconcile_tx 5 "2026-05-06" 1 demo_tx (demo_chain_replies 6) (mkCaches ∅ ∅)) as [[r record] ca'] eqn:Er.
  assert (demo_check 6 = r) as Hr by (unfold demo_check; rewrite Er; reflexivity). rewrite Hr in E.
  destruct (matched_transfer_is_on_chain 5 "2026-05-06" 1 demo_tx (demo_chain_replies 6) (mkCaches ∅ ∅) r record ca' Er E)
    as (hash & runtime & receipt & value & _ & _ & _ & _ & Hp & _). exists runtime, receipt, value. exact Hp.
Defined.

(** The order was settled under six decimals, which it recorded; once the chain
    is set to eighteen, the same transfer is reported as too small. *)
Example changed_decimals_break_match :
  ct_TokenDecimals (cw_Tx demo_tx) = 6 /\ rc_Status (demo_check 6) = StatusMatched /\
  (rc_Status (demo_check 18), rc_Reason (demo_check 18)) = abnormal ReasonAmountMismatch.
Proof. vm_compute. done. Qed.
