(* ===== verification/RetrySafety.v ===== *)
(** * The retry loop ends, and walks the groups in order

    However selection and upstreams behave, a request tries a bounded number
    of channels.  When everything fails with retryable errors and retries may
    cross groups, each automatic group is tried in turn, once per retry. *)

From stdpp Require Import base gmap list strings.
From Stdlib Require Import ZArith Lia Ascii.
From S2P Require Import Prelude GoInt GoString GoMonad ChannelTable ChannelCache ChannelSelect.
Open Scope Z_scope.

Section Bound.
Context {E : Type} (select : string -> Z -> E -> choice * E) (cf : RelayConfig).
Context (has_meta : E -> bool) (ctx_channel : Channel) (setup : Channel -> E -> bool * E)
        (attempt : Channel -> E -> attempt_result * E).

Notation R := (rc_RetryTimes cf).
Definition group_count : Z := Z.of_nat (length (GetUserAutoGroup (rc_groups cf) (rc_userGroup cf))).
Definition group_index (ctx : SelContext) : Z := default 0 (ContextKeyAutoGroupIndex ctx).

(** Where a successful pass over the groups leaves the retry state. *)
Lemma auto_loop_moves start groups : forall i p ctx env c g p' ctx' env',
  start <= i -> (start < i -> GetRetry p = 0) -> rp_resetNextTry p = false ->
  auto_loop select cf start i groups p ctx env = (Some c, g, p', ctx', env') ->
  rp_TokenGroup p' = rp_TokenGroup p /\
  exists i', i <= i' < i + Z.of_nat (length groups) /\
    let pr := if start <? i' then 0 else GetRetry p in
    if rp_resetNextTry p'
    then R <= pr /\ GetRetry p' = 0 /\ group_index ctx' = i' + 1
    else GetRetry p' = pr /\ group_index ctx' = i'.
Proof.
  induction groups as [|x groups IH]; intros i p ctx env c g p' ctx' env' Hi Hp Hr H; cbn in H; [done|].
  destruct (select x _ env) as [[[d|] e] env1].
  - assert (Hpr : (if start <? i then 0 else GetRetry p) = GetRetry p).
    { destruct (Z.ltb_spec start i); [by rewrite Hp | done]. }
    destruct (rc_crossGroupRetry cf && _) eqn:Ec; injection H as <- <- <- <- <-; (split; [done|]); exists i; cbn [length rp_resetNextTry ResetRetryNextTry].
    + apply andb_true_iff in Ec as [_ Ec]. split; [lia|]. split_and!; [lia | done | done].
    + rewrite Hr, Hpr. split; [lia|]. done.
  - apply IH in H as (HT & i' & Hi' & H); [| lia | done | done]. split; [done|]. exists i'. cbn [length]. split; [lia|].
    destruct (Z.ltb_spec start i'); [|lia]. done.
Qed.

(** The attempts left from a retry state. *)
Definition attempts_left (tokenGroup : string) (ctx : SelContext) (p : RetryParam) : Z :=
  (if String.eqb tokenGroup "auto" then Z.max 0 (group_count - group_index ctx) * (R + 1) else 0)
  + Z.max 0 (R + 1 - GetRetry p).

Lemma attempt_progress p ctx env c p' ctx' env' :
  0 <= R < 2 ^ 62 -> 0 <= GetRetry p <= R -> 0 <= group_index ctx -> rp_resetNextTry p = false ->
  getChannel select cf has_meta ctx_channel setup p ctx env = (inl c, p', ctx', env') ->
  let p'' := IncreaseRetry p' in
  rp_TokenGroup p'' = rp_TokenGroup p /\ 0 <= GetRetry p'' /\ 0 <= group_index ctx' /\ rp_resetNextTry p'' = false /\
  attempts_left (rp_TokenGroup p) ctx' p'' < attempts_left (rp_TokenGroup p) ctx p.
Proof.
  intros HR Hp Hi Hr H. cbn. unfold getChannel in H.
  assert (HI : forall q, rp_resetNextTry q = false -> 0 <= GetRetry q <= R -> GetRetry (IncreaseRetry q) = GetRetry q + 1).
  { intros q Hq Hq'. unfold IncreaseRetry. rewrite Hq. cbn. apply i64_add_id. unfold is_i64, min_i64, max_i64. lia. }
  assert (HI2 : forall q, rp_resetNextTry (IncreaseRetry q) = false).
  { intros q. unfold IncreaseRetry. by destruct (rp_resetNextTry q). }
  assert (HI3 : forall q, rp_TokenGroup (IncreaseRetry q) = rp_TokenGroup q).
  { intros q. unfold IncreaseRetry. by destruct (rp_resetNextTry q). }
  assert (Hstay : p' = p /\ ctx' = ctx -> rp_TokenGroup (IncreaseRetry p') = rp_TokenGroup p /\ 0 <= GetRetry (IncreaseRetry p') /\
    0 <= group_index ctx' /\ rp_resetNextTry (IncreaseRetry p') = false /\
    attempts_left (rp_TokenGroup p) ctx' (IncreaseRetry p') < attempts_left (rp_TokenGroup p) ctx p).
  { intros [-> ->]. rewrite HI3, HI2. unfold attempts_left. rewrite HI by (done || lia). split_and!; try done; lia. }
  destruct (negb (has_meta env)); [injection H as <- <- <- <-; by apply Hstay|].
  unfold CacheGetRandomSatisfiedChannel in H. destruct (String.eqb (rp_TokenGroup p) "auto") eqn:Ea.
  - destruct (_ =? _)%nat; [done|].
    destruct (auto_loop _ _ _ _ _ _ _ _) as [[[[[d|] g] p1] ctx1] env1] eqn:EL; [|done].
    destruct (setup d env1) as [[] env2]; [|done]. injection H as <- <- <- <-.
    apply auto_loop_moves in EL as (HT & i' & Hi' & HM); [| lia | lia | done].
    fold (group_index ctx) in *. rewrite length_drop in Hi'.
    assert (Hlt : i' < group_count) by (unfold group_count; lia).
    rewrite HI3, HI2, HT. unfold attempts_left. rewrite Ea.
    destruct (rp_resetNextTry p1) eqn:Er1.
    + destruct HM as (H1 & H2 & H3). unfold IncreaseRetry. rewrite Er1. unfold GetRetry in *. cbn [rp_Retry]. rewrite H2, H3.
      split_and!; try done; try lia. destruct (Z.ltb_spec (group_index ctx) i'); nia.
    + destruct HM as (H1 & H2). rewrite HI; [|done | destruct (_ <? _); lia]. rewrite H1, H2.
      split_and!; try done; [destruct (_ <? _); lia | lia |]. destruct (Z.ltb_spec (group_index ctx) i'); nia.
  - destruct (select _ _ env) as [[d [e|]] env1]; [done|]. destruct d as [d|]; [|done].
    destruct (setup d env1) as [[] env2]; [|done]. injection H as <- <- <- <-. by apply Hstay.
Qed.

Lemma relay_loop_bound fuel : forall p ctx env used,
  0 <= R < 2 ^ 62 -> 0 <= GetRetry p -> 0 <= group_index ctx -> rp_resetNextTry p = false ->
  attempts_left (rp_TokenGroup p) ctx p < Z.of_nat fuel ->
  exists r used' env', relay_loop select cf has_meta ctx_channel setup attempt fuel p ctx env used = Some (r, used', env') /\
    Z.of_nat (length used') <= Z.of_nat (length used) + attempts_left (rp_TokenGroup p) ctx p.
Proof.
  induction fuel as [|k IH]; intros p ctx env used HR Hp Hi Hr Hf.
  { exfalso. unfold attempts_left in Hf. destruct (String.eqb _ _); nia. }
  assert (Hpos : 0 <= attempts_left (rp_TokenGroup p) ctx p) by (unfold attempts_left; destruct (String.eqb _ _); nia).
  cbn [relay_loop]. destruct (Z.ltb_spec R (GetRetry p)); [eexists _, _, _; split; [done | lia]|].
  destruct (getChannel _ _ _ _ _ p ctx env) as [[[[c|stop] p1] ctx1] env1] eqn:EG; [|eexists _, _, _; split; [done | lia]].
  destruct (attempt_progress p ctx env c p1 ctx1 env1) as (H1 & H2 & H3 & H4 & H5); [done | lia | done | done | done |].
  assert (Hpos1 : 0 <= attempts_left (rp_TokenGroup p) ctx1 (IncreaseRetry p1)) by (unfold attempts_left; destruct (String.eqb _ _); nia).
  destruct (attempt c env1) as [[| |e] env2]; try (eexists _, _, _; split; [done | rewrite length_app; cbn; lia]).
  destruct (shouldRetry _ _ _); [|eexists _, _, _; split; [done | rewrite length_app; cbn; lia]].
  destruct (IH (IncreaseRetry p1) ctx1 env2 (used ++ [c_Id c])) as (r & used' & env' & E1 & E2); [done | done | done | done | rewrite H1; lia |].
  exists r, used', env'. split; [done|]. rewrite H1, length_app in E2. cbn in E2. lia.
Qed.

(** C23. However channels are selected and however they answer, the retry
    loop of a request ends: a request for a fixed group tries at most
    [RetryTimes + 1] channels, one for the automatic groups at most that many
    per group and once more. *)
Theorem retry_loop_is_bounded tokenGroup ctx env :
  0 <= R < 2 ^ 62 -> 0 <= group_index ctx ->
  let bound := (R + 1) * (if String.eqb tokenGroup "auto" then Z.max 0 (group_count - group_index ctx) + 1 else 1) in
  exists r used env',
    relay_retries select cf has_meta ctx_channel setup attempt (S (Z.to_nat bound)) tokenGroup ctx env = Some (r, used, env') /\
    Z.of_nat (length used) <= bound.
Proof.
  intros HR Hi bound. set (p := mkRetryParam tokenGroup (Some 0) false).
  assert (EB : attempts_left tokenGroup ctx p = bound).
  { unfold attempts_left, bound. change (GetRetry p) with 0. destruct (String.eqb tokenGroup "auto"); lia. }
  destruct (relay_loop_bound (S (Z.to_nat bound)) p ctx env []) as (r & used & env' & H1 & H2); [done | done | done | done | |].
  - cbn [rp_TokenGroup p]. rewrite EB. assert (0 <= bound) by (unfold bound; destruct (String.eqb _ _); nia). lia.
  - exists r, used, env'. split; [exact H1|]. cbn [rp_TokenGroup p length] in H2. lia.
Qed.
End Bound.

Lemma retry_loop_is_bounded_witness :
  let groups := mkGroupSettings {["a" := "A"; "b" := "B"]} (fun _ => None) ["a"; "b"] in
  let cf := mkRelayConfig 2 groups "u" true false [(500, 599)] in
  let down := mkAPIError 503 "" false false false false in
  exists r used env',
    relay_retries (fun _ _ n => ((Some (blank_channel 1), None), n)) cf (fun _ => true) (blank_channel 0) (fun _ n => (true, n))
      (fun _ (n : nat) => (AttemptError down, S n)) (S (Z.to_nat 9)) "auto" (mkSelContext None None None) O = Some (r, used, env') /\
    Z.of_nat (length used) <= 9.
Proof.
  intros groups cf down.
  exact (retry_loop_is_bounded (fun _ _ n => ((Some (blank_channel 1), None), n)) cf (fun _ => true) (blank_channel 0)
    (fun _ n => (true, n)) (fun _ (n : nat) => (AttemptError down, S n)) "auto" (mkSelContext None None None) O
    ltac:(cbn; lia) ltac:(cbn; lia)).
Defined.

(** ** Crossing groups *)

Section Walk.
Context (cf : RelayConfig) (c : Channel) (e : APIError).
Notation R := (rc_RetryTimes cf).
Notation G := (GetUserAutoGroup (rc_groups cf) (rc_userGroup cf)).

(** Every group has a channel and every attempt fails; the environment logs the
    selections and knows whether an attempt was made. *)
Definition log_env : Type := list (string * Z) * bool.
Definition log_select (g : string) (retry : Z) (env : log_env) : choice * log_env :=
  ((Some c, None), (fst env ++ [(g, retry)], snd env)).
Definition log_attempt (_ : Channel) (env : log_env) : attempt_result * log_env := (AttemptError e, (fst env, true)).
Definition log_setup (_ : Channel) (env : log_env) : bool * log_env := (true, env).

Notation loop := (relay_loop log_select cf snd c log_setup log_attempt).

Context (Hcross : rc_crossGroupRetry cf = true) (HR : 1 <= R < 2 ^ 62) (Hauto : gs_auto (rc_groups cf) <> [])
        (Hretry : forall k, 0 < k -> shouldRetry cf e k = true).

(** The selections still to come from retry [r] in the first of [groups]. *)
Definition walk (groups : list string) (r : Z) : list (string * Z) :=
  match groups with
  | [] => []
  | g :: rest => map (pair g) (seqZ r (R + 1 - r)) ++ list_prod rest (seqZ 0 (R + 1))
  end.

Lemma auto_enabled : (length (gs_auto (rc_groups cf)) =? 0)%nat = false.
Proof. by destruct (gs_auto (rc_groups cf)). Qed.

Lemma walk_step g rest r : 0 <= r <= R ->
  walk (g :: rest) r = (g, r) :: if R <=? r then walk rest 0 else walk (g :: rest) (r + 1).
Proof.
  intros Hr. cbn [walk]. rewrite seqZ_cons by lia. cbn [map app]. f_equal. destruct (Z.leb_spec R r).
  - replace (Z.pred (R + 1 - r)) with 0 by lia. cbn. destruct rest as [|x rest]; [done|]. cbn [walk list_prod].
    by replace (R + 1 - 0) with (R + 1) by lia.
  - do 3 f_equal; lia.
Qed.

Lemma loop_step k i r ri gi log used : 0 <= i -> 0 <= r <= R ->
  match drop (Z.to_nat i) G with
  | [] => loop (S k) (mkRetryParam "auto" (Some r) false) (mkSelContext (Some i) ri gi) (log, true) used
          = Some (NoChannel, used, (log, true))
  | g :: _ => exists ri' gi',
      loop (S k) (mkRetryParam "auto" (Some r) false) (mkSelContext (Some i) ri gi) (log, true) used
      = loop k (mkRetryParam "auto" (Some (if R <=? r then 0 else r + 1)) false)
          (mkSelContext (Some (if R <=? r then i + 1 else i)) ri' gi') (log ++ [(g, r)], true) (used ++ [c_Id c])
  end.
Proof.
  intros Hi Hr. cbn [relay_loop]. change (GetRetry (mkRetryParam "auto" (Some r) false)) with r.
  destruct (Z.ltb_spec R r); [lia|]. unfold getChannel. cbn [snd negb]. unfold CacheGetRandomSatisfiedChannel.
  cbn [rp_TokenGroup]. change (String.eqb "auto" "auto") with true. cbn iota. rewrite auto_enabled.
  change (default 0 (ContextKeyAutoGroupIndex (mkSelContext (Some i) ri gi))) with i. cbv zeta.
  destruct (drop (Z.to_nat i) G) as [|g rest]; [done|]. cbn [auto_loop].
  change (GetRetry (mkRetryParam "auto" (Some r) false)) with r. rewrite Z.ltb_irrefl. unfold log_select. cbn [fst snd].
  rewrite Hcross. cbn [andb]. destruct (Z.leb_spec R r); cbn [log_setup log_attempt fst snd].
  - eexists _, _. change (GetRetry (ResetRetryNextTry (SetRetry 0 (mkRetryParam "auto" (Some r) false)))) with 0.
    rewrite Hretry by (rewrite i64_sub_id; unfold is_i64, min_i64, max_i64; lia). reflexivity.
  - eexists _, _. change (GetRetry (mkRetryParam "auto" (Some r) false)) with r.
    rewrite Hretry by (rewrite i64_sub_id; unfold is_i64, min_i64, max_i64; lia).
    unfold IncreaseRetry. cbn [rp_resetNextTry rp_TokenGroup]. change (GetRetry (mkRetryParam "auto" (Some r) false)) with r.
    rewrite i64_add_id by (unfold is_i64, min_i64, max_i64; lia). reflexivity.
Qed.

Lemma loop_walks fuel : forall i r ri gi log used,
  0 <= i -> 0 <= r <= R -> (length (walk (drop (Z.to_nat i) G) r) < fuel)%nat ->
  loop fuel (mkRetryParam "auto" (Some r) false) (mkSelContext (Some i) ri gi) (log, true) used
  = Some (NoChannel, used ++ replicate (length (walk (drop (Z.to_nat i) G) r)) (c_Id c),
          (log ++ walk (drop (Z.to_nat i) G) r, true)).
Proof.
  induction fuel as [|k IH]; intros i r ri gi log used Hi Hr Hf; [lia|].
  pose proof (loop_step k i r ri gi log used Hi Hr) as HS.
  destruct (drop (Z.to_nat i) G) as [|g rest] eqn:ED; [cbn [walk length replicate]; by rewrite !app_nil_r|].
  destruct HS as (ri' & gi' & ->). rewrite walk_step in Hf |- * by done. cbn [length replicate] in *.
  assert (ED' : drop (Z.to_nat (if R <=? r then i + 1 else i)) G = if R <=? r then rest else g :: rest).
  { destruct (R <=? r); [|done]. replace (Z.to_nat (i + 1)) with (Z.to_nat i + 1)%nat by lia.
    by rewrite <- drop_drop, ED. }
  assert (EW : (if R <=? r then walk rest 0 else walk (g :: rest) (r + 1))
    = walk (drop (Z.to_nat (if R <=? r then i + 1 else i)) G) (if R <=? r then 0 else r + 1)) by (rewrite ED'; by destruct (R <=? r)).
  rewrite EW in *. rewrite IH; [by rewrite <- !app_assoc | destruct (R <=? r); lia | destruct (Z.leb_spec R r); lia | lia].
Qed.

(** A request for the automatic groups whose retries may cross groups
    and whose every attempt fails with a retryable error: the middleware and
    the retry loop together select in each group of the user, in the order of
    the settings, once for each retry from 0 to [RetryTimes], try that many
    channels, and then report that no channel is left. *)
Theorem groups_tried_in_order :
  let p0 := mkRetryParam "auto" (Some 0) false in
  let '(_, _, _, _, ctx, env) := CacheGetRandomSatisfiedChannel log_select cf p0 (mkSelContext None None None) ([], false) in
  let plan := list_prod G (seqZ 0 (R + 1)) in
  G <> [] ->
  relay_retries log_select cf snd c log_setup log_attempt (S (S (length plan))) "auto" ctx env
  = Some (NoChannel, replicate (length plan) (c_Id c), (plan, true)).
Proof.
  unfold CacheGetRandomSatisfiedChannel. cbn [rp_TokenGroup].
  change (String.eqb "auto" "auto") with true. cbn iota. rewrite auto_enabled.
  change (default 0 (ContextKeyAutoGroupIndex (mkSelContext None None None))) with 0. cbv zeta.
  change (Z.to_nat 0) with O. rewrite drop_0.
  destruct G as [|g rest] eqn:EG; [by intros []|]. cbn [auto_loop]. unfold log_select at 1. cbn [fst snd app].
  change (GetRetry (mkRetryParam "auto" (Some 0) false)) with 0. rewrite Z.ltb_irrefl, Hcross. cbn [andb].
  destruct (Z.leb_spec R 0); [lia|]. intros _. unfold relay_retries.
  remember (S (length (list_prod (g :: rest) (seqZ 0 (R + 1))))) as k eqn:Ek. cbn [relay_loop].
  change (GetRetry (mkRetryParam "auto" (Some 0) false)) with 0. destruct (Z.ltb_spec R 0); [lia|].
  unfold getChannel. cbn [snd negb log_attempt fst app].
  change (GetRetry (mkRetryParam "auto" (Some 0) false)) with 0.
  rewrite Hretry by (rewrite i64_sub_id; unfold is_i64, min_i64, max_i64; lia).
  assert (EP : list_prod (g :: rest) (seqZ 0 (R + 1)) = (g, 0) :: walk (g :: rest) 1).
  { pose proof (walk_step g rest 0 ltac:(lia)) as HW. destruct (Z.leb_spec R 0); [lia|]. change (0 + 1) with 1 in HW.
    rewrite <- HW. cbn [walk list_prod]. do 3 f_equal; lia. }
  rewrite EP in *. cbn [length] in *. subst k.
  pose proof (loop_walks (S (S (length (walk (g :: rest) 1)))) 0 1 None (Some g) [(g, 0)] [c_Id c]) as HL.
  change (Z.to_nat 0) with O in HL. rewrite drop_0, EG in HL.
  change (IncreaseRetry (mkRetryParam "auto" (Some 0) false)) with (mkRetryParam "auto" (Some 1) false).
  apply HL; lia.
Qed.
End Walk.

(** Two groups and three retries, as in the comment of
    [CacheGetRandomSatisfiedChannel]. *)
Definition two_groups : RelayConfig :=
  mkRelayConfig 3 (mkGroupSettings {["a" := "A"; "b" := "B"]} (fun _ => None) ["a"; "b"]) "u" true false [(500, 599)].
Definition unavailable : APIError := mkAPIError 503 "" false false false false.

Lemma two_groups_retry k : 0 < k -> shouldRetry two_groups unavailable k = true.
Proof. intros Hk. unfold shouldRetry. cbn. destruct (Z.leb_spec k 0); [lia | done]. Qed.

Lemma groups_tried_in_order_witness :
  (forall k, 0 < k -> shouldRetry two_groups unavailable k = true) /\
  let p0 := mkRetryParam "auto" (Some 0) false in
  let '(_, _, _, _, ctx, env) :=
    CacheGetRandomSatisfiedChannel (log_select (blank_channel 1)) two_groups p0 (mkSelContext None None None) ([], false) in
  relay_retries (log_select (blank_channel 1)) two_groups snd (blank_channel 1) log_setup (log_attempt unavailable) 10 "auto" ctx env
  = Some (NoChannel, replicate 8 1, (list_prod ["a"; "b"]%string (seqZ 0 4), true)).
Proof.
  split; [exact two_groups_retry|].
  exact (groups_tried_in_order two_groups (blank_channel 1) unavailable eq_refl
           ltac:(cbn; lia) ltac:(discriminate) two_groups_retry ltac:(discriminate)).
Defined.

(** The comment says that retry 2 leaves the first group once its two
    priorities are used up; the code stays for all of [RetryTimes + 1]
    selections and repeats the lowest priority. *)
Lemma documented_switch_does_not_happen :
  let s := mkStore [] [] 1 [] {["a" := {["m" := [1; 2]]}]}
             {[1 := mkChannel 1 1 "" 1 None "m" "a" (Some 9) None no_info []; 2 := mkChannel 2 1 "" 1 None "m" "a" (Some 0) None no_info []]} in
  let select g retry s := (cached_choice (fun _ => 0) g "m" retry s, s) in
  let at_retry r :=
    let '(c, g, _, _, _, _) := CacheGetRandomSatisfiedChannel select two_groups (mkRetryParam "auto" (Some r) false)
                                 (mkSelContext (Some 0) None None) s in (option_map c_Id c, g) in
  map at_retry [0; 1; 2; 3] = [(Some 1, "a"); (Some 2, "a"); (Some 2, "a"); (Some 2, "a")]%string.
Proof. by vm_compute. Qed.
