(* ===== verification/HybridCache.v ===== *)
(** * Caches with name spaces

    src/pkg/cachex: a cache of values under namespaced keys, kept in Redis when
    it is enabled and in the memory of the process otherwise.

    The Redis client and the memory cache (github.com/samber/hot) are
    parameters, with a state of their own; classes [RedisLaws] and [HotLaws]
    state what their documentation promises.  A cache may lose an entry at any
    time (a lifetime that ends, an eviction); it never makes one up.  That
    contract is class [CacheContract], and [hybrid_contract] proves it of
    the code of [HybridCache]. *)

From stdpp Require Import base numbers list strings pretty gmap.
From Stdlib Require Import ZArith Lia Ascii.
From S2P Require Import Prelude GoInt GoString GoText GoDate GoMonad.

Local Open Scope string_scope.
Local Open Scope list_scope.
Local Open Scope Z_scope.

(** ** Name spaces *)

(** [strings.TrimLeft(s, c)] and [strings.TrimRight(s, c)] for a one-byte set. *)
Fixpoint TrimLeft (s : string) (c : ascii) : string :=
  match s with
  | EmptyString => EmptyString
  | String a s' => if Ascii.eqb a c then TrimLeft s' c else s
  end.
Definition TrimRight (s : string) (c : ascii) : string := str_rev (TrimLeft (str_rev s) c).

Definition colon : ascii := ":".

(** [Namespace.prefix] *)
Definition ns_prefix (n : string) : string :=
  let ns := TrimRight (TrimSpace n) colon in
  if String.eqb ns "" then "" else (ns +:+ ":")%string.

Definition FullKey (n key : string) : string :=
  let key := TrimSpace key in
  if String.eqb key "" then ""
  else
    let p := ns_prefix n in
    if String.eqb p "" then TrimLeft key colon
    else if HasPrefix key p then key
    else (p +:+ TrimLeft key colon)%string.

Definition MatchPattern (n : string) : string :=
  let p := ns_prefix n in
  if String.eqb p "" then "*" else (p +:+ "*")%string.

(** ** Values in Redis *)

(** Interface [ValueCodec]. *)
Class ValueCodec (V : Type) := {
  Encode : V -> result string;
  Decode : string -> result V
}.

(** [IntCodec] *)
Definition IntCodec : ValueCodec Z := {|
  Encode v := Ok (Itoa v);
  Decode s :=
    let s := TrimSpace s in
    if String.eqb s "" then fail_with "empty int value"
    else match Atoi s with Some z => Ok z | None => fail_with "invalid syntax" end
|}.
#[export] Existing Instance IntCodec.

(** ** The two stores *)

Class RedisClient := {
  rdb : Type;
  Redis_Get : string -> GM rdb (option string);          (* [None] is [redis.Nil] *)
  Redis_Set : string -> string -> Z -> GM rdb unit;      (* lifetime in seconds *)
  Redis_Scan : Z -> string -> GM rdb (list string * Z);  (* keys and the next cursor *)
  Redis_Unlink : list string -> GM rdb (list Z);         (* a pipeline, one number per key *)
  scan_budget : nat                                      (* replies within [defaultRedisScanTimeout] *)
}.

Class HotCache (V : Type) := {
  hot : Type;
  hot_Get : string -> hot -> option V * hot;
  hot_SetWithTTL : string -> V -> Z -> hot -> hot;
  hot_Keys : hot -> list string;
  hot_DeleteMany : list string -> hot -> gmap string bool * hot;
  hot_Purge : hot -> hot;
  hot_Capacity : hot -> Z * Z;
  hot_Algorithm : hot -> string * string
}.

Section HybridCache.
Context {V : Type} {RC : RedisClient} {HC : HotCache V} {VC : ValueCodec V}.

(** The name space, whether a client was given, and [RedisEnabled]. *)
Record HybridCacheConfig := mkHybridCacheConfig {
  hc_ns : string;
  hc_client : bool;
  hc_redisEnabled : option bool
}.

Record HybridCache := mkHybridCache { h_redis : rdb; h_mem : hot }.

Context (cfg : HybridCacheConfig).
Notation HM := (GM HybridCache).

Definition redisOn : bool :=
  if negb (hc_client cfg) then false else default true (hc_redisEnabled cfg).

Definition on_redis {A} (m : GM rdb A) : HM A := zoom h_redis (fun r s => mkHybridCache r (h_mem s)) m.
Definition on_mem {A} (f : hot -> A * hot) : HM A := fun s =>
  let '(a, m) := f (h_mem s) in (Ok a, mkHybridCache (h_redis s) m).

Definition Get (key : string) : HM (option V) :=
  let full := FullKey (hc_ns cfg) key in
  if String.eqb full "" then mret None
  else if redisOn then
    r ← on_redis (Redis_Get full);
    match r with
    | Some raw => v ← lift (Decode raw); mret (Some v)
    | None => mret None
    end
  else on_mem (hot_Get full).

Definition SetWithTTL (key : string) (v : V) (ttl : Z) : HM unit :=
  let full := FullKey (hc_ns cfg) key in
  if String.eqb full "" then mret tt
  else if redisOn then
    raw ← lift (Encode v);
    on_redis (Redis_Set full raw ttl)
  else on_mem (fun m => (tt, hot_SetWithTTL full v ttl m)).

(** The loop over the cursor of SCAN; the time limit of its context ends it. *)
Fixpoint scan_loop (budget : nat) (cursor : Z) (pattern : string) (keys : list string) : GM rdb (list string) :=
  match budget with
  | O => throw (ErrMsg "context deadline exceeded")
  | S budget =>
      r ← Redis_Scan cursor pattern;
      let keys := keys ++ fst r in
      if snd r =? 0 then mret keys else scan_loop budget (snd r) pattern keys
  end.
Definition scanKeys (pattern : string) : GM rdb (list string) := scan_loop scan_budget 0 pattern [].

Definition Keys : HM (list string) :=
  if redisOn then on_redis (scanKeys (MatchPattern (hc_ns cfg)))
  else on_mem (fun m => (hot_Keys m, m)).

(** Which of the keys were there, by full key. *)
Definition DeleteMany (keys : list string) : HM (gmap string bool) :=
  let fullKeys := List.filter (fun k => negb (String.eqb k "")) (map (FullKey (hc_ns cfg)) keys) in
  match fullKeys with
  | [] => mret ∅
  | _ =>
      if redisOn then
        counts ← on_redis (Redis_Unlink fullKeys);
        mret (foldl (fun m '(k, n) => <[k := 0 <? n]> m) ∅ (zip fullKeys counts))
      else on_mem (hot_DeleteMany fullKeys)
  end.

Definition count_true (m : gmap string bool) : Z :=
  Z.of_nat (length (List.filter snd (map_to_list m))).

Definition Purge : HM unit :=
  if redisOn then
    keys ← on_redis (scanKeys (MatchPattern (hc_ns cfg)));
    match keys with [] => mret tt | _ => DeleteMany keys ;; mret tt end
  else on_mem (fun m => (tt, hot_Purge m)).

Definition DeleteByPrefix (prefix : string) : HM Z :=
  let full := FullKey (hc_ns cfg) prefix in
  if String.eqb full "" then mret 0
  else
    let full := if HasSuffix full ":" then full else (full +:+ ":")%string in
    keys ← (if redisOn then on_redis (scanKeys (full +:+ "*")%string)
            else on_mem (fun m => (List.filter (fun k => HasPrefix k full) (hot_Keys m), m)));
    match keys with
    | [] => mret 0
    | _ => m ← DeleteMany keys; mret (count_true m)
    end.

Definition Capacity : HM (Z * Z) :=
  if redisOn then mret (0, 0) else on_mem (fun m => (hot_Capacity m, m)).
Definition Algorithm : HM (string * string) :=
  if redisOn then mret ("redis", "") else on_mem (fun m => (hot_Algorithm m, m)).
End HybridCache.
#[global] Arguments HybridCache V {RC HC}.
#[global] Arguments mkHybridCache {V RC HC}.

(** ** What the stores promise *)

(** Text without the special characters of a pattern. *)
Definition literal (p : string) : bool :=
  all_chars (fun a => negb (existsb (Ascii.eqb a) ["*"; "?"; "["; "\"]%char)) p.

(** [rdb_holds r k v]: the key has the value now. *)
Class RedisLaws `{RedisClient} := {
  rdb_holds : rdb -> string -> string -> Prop;
  (** A read finds what is there; entries may expire meanwhile, none appears. *)
  redis_get_ok k r :
    match Redis_Get k r with
    | (Ok (Some v), _) => rdb_holds r k v
    | (Ok None, _) => forall v, ~ rdb_holds r k v
    | (Err _, _) => True
    end;
  redis_get_drops k r k' v : rdb_holds (snd (Redis_Get k r)) k' v -> rdb_holds r k' v;
  (** A write that failed may have been carried out. *)
  redis_set_only k v ttl r k' w : rdb_holds (snd (Redis_Set k v ttl r)) k' w -> k' = k /\ w = v \/ rdb_holds r k' w;
  redis_set_ok k v ttl r : fst (Redis_Set k v ttl r) = Ok tt -> 0 < ttl ->
    forall w, rdb_holds (snd (Redis_Set k v ttl r)) k w <-> w = v;
  redis_scan_drops c p r k v : rdb_holds (snd (Redis_Scan c p r)) k v -> rdb_holds r k v;
  redis_unlink_drops ks r k v : rdb_holds (snd (Redis_Unlink ks r)) k v -> rdb_holds r k v;
  redis_unlink_ok ks r k v : is_ok (fst (Redis_Unlink ks r)) = true -> k ∈ ks -> ~ rdb_holds (snd (Redis_Unlink ks r)) k v;
  (** A full iteration of SCAN returns every key that is there throughout and
      matches; a pattern without special characters matches its prefix. *)
  redis_scan_complete p r keys r' k v :
    literal p = true ->
    scanKeys (p +:+ "*") r = (Ok keys, r') -> rdb_holds r' k v -> HasPrefix k p = true -> k ∈ keys
}.

Class HotLaws (V : Type) `{HotCache V} := {
  hot_holds : hot -> string -> V -> Prop;
  hot_get_ok k m :
    match hot_Get k m with
    | (Some v, _) => hot_holds m k v
    | (None, _) => forall v, ~ hot_holds m k v
    end;
  hot_get_drops k m k' v : hot_holds (snd (hot_Get k m)) k' v -> hot_holds m k' v;
  hot_set_only k v ttl m k' w : hot_holds (hot_SetWithTTL k v ttl m) k' w -> k' = k /\ w = v \/ hot_holds m k' w;
  hot_set_ok k v ttl m : 0 < ttl -> forall w, hot_holds (hot_SetWithTTL k v ttl m) k w <-> w = v;
  hot_keys_ok m k v : hot_holds m k v -> k ∈ hot_Keys m;
  hot_delete_drops ks m k v : hot_holds (snd (hot_DeleteMany ks m)) k v -> hot_holds m k v;
  hot_delete_ok ks m k v : k ∈ ks -> ~ hot_holds (snd (hot_DeleteMany ks m)) k v;
  hot_purge_ok m k v : ~ hot_holds (hot_Purge m) k v
}.

(** A codec reads back the values of [ok]. *)
Class CodecLaws (V : Type) `{ValueCodec V} (ok : V -> Prop) : Prop := {
  decode_encode v : ok v -> exists raw, Encode v = Ok raw /\ Decode raw = Ok v
}.

(** ** What a cache promises *)

(** [holds s k v]: the cache would answer [v] for the full key [k] now. *)
Class CacheContract (V S : Type) (full : string -> string) (get : string -> GM S (option V))
    (set : string -> V -> Z -> GM S unit) (ok : V -> Prop) (holds : S -> string -> V -> Prop) : Prop := {
  get_found key s v s' : get key s = (Ok (Some v), s') -> holds s (full key) v /\ full key <> "";
  get_missed key s v s' : get key s = (Ok None, s') -> full key <> "" -> ~ holds s (full key) v;
  get_drops key s k v : holds (snd (get key s)) k v -> holds s k v;
  set_only key v ttl s k w : ok v -> holds (snd (set key v ttl s)) k w ->
    k = full key /\ full key <> "" /\ w = v \/ holds s k w;
  set_stores key v ttl s : ok v -> 0 < ttl -> full key <> "" -> fst (set key v ttl s) = Ok tt ->
    forall w, holds (snd (set key v ttl s)) (full key) w <-> w = v
}.

Section Contract.
Context {V : Type} {RC : RedisClient} {HC : HotCache V} {VC : ValueCodec V} (cfg : HybridCacheConfig).
Context {RL : RedisLaws} {HL : HotLaws V} {ok : V -> Prop} {CL : CodecLaws V ok}.

Definition hybrid_holds (s : HybridCache V) (k : string) (v : V) : Prop :=
  if redisOn cfg then exists raw, rdb_holds (h_redis s) k raw /\ Decode raw = Ok v
  else hot_holds (h_mem s) k v.

(** The code of [HybridCache] keeps the contract on either store. *)
#[export] Instance hybrid_contract :
  CacheContract V (HybridCache V) (FullKey (hc_ns cfg)) (Get cfg) (SetWithTTL cfg) ok hybrid_holds.
Proof.
  split; unfold hybrid_holds, Get, SetWithTTL, on_redis, on_mem, zoom, lift, mbind, GM_bind, mret, GM_ret.
  - intros key s v s'. destruct (String.eqb_spec (FullKey (hc_ns cfg) key) "") as [|Hne]; [done|]. destruct (redisOn cfg).
    + pose proof (redis_get_ok (FullKey (hc_ns cfg) key) (h_redis s)) as H.
      destruct (Redis_Get _ _) as [[[raw|]|] r]; [|done|done].
      destruct (Decode raw) as [w|] eqn:E; [|done]. intros [= <- <-]. eauto.
    + pose proof (hot_get_ok (FullKey (hc_ns cfg) key) (h_mem s)) as H.
      destruct (hot_Get _ _) as [o m]. intros [= -> <-]. eauto.
  - intros key s v s'. destruct (String.eqb_spec (FullKey (hc_ns cfg) key) "") as [|Hne]; [done|]. destruct (redisOn cfg).
    + pose proof (redis_get_ok (FullKey (hc_ns cfg) key) (h_redis s)) as H.
      destruct (Redis_Get _ _) as [[[raw|]|] r]; [|intros _ _ (raw & ? & ?); by eapply H|done].
      by destruct (Decode raw).
    + pose proof (hot_get_ok (FullKey (hc_ns cfg) key) (h_mem s)) as H.
      destruct (hot_Get _ _) as [o m]. intros [= -> <-] _. apply H.
  - intros key s k v. destruct (String.eqb_spec (FullKey (hc_ns cfg) key) "") as [|Hne]; [done|]. destruct (redisOn cfg).
    + pose proof (redis_get_drops (FullKey (hc_ns cfg) key) (h_redis s)) as H.
      destruct (Redis_Get _ _) as [[[raw|]|] r]; try destruct (Decode raw); cbn in *; intros (w & Hw & ?); eauto.
    + pose proof (hot_get_drops (FullKey (hc_ns cfg) key) (h_mem s) k v) as H. by destruct (hot_Get _ _).
  - intros key v ttl s k w Hv. destruct (String.eqb_spec (FullKey (hc_ns cfg) key) "") as [|Hne]; [by right|].
    destruct (redisOn cfg).
    + destruct (decode_encode v Hv) as (raw & -> & Hd).
      pose proof (redis_set_only (FullKey (hc_ns cfg) key) raw ttl (h_redis s)) as H.
      destruct (Redis_Set _ _ _ _) as [res r]. cbn in *. intros (x & Hx & Hw).
      destruct (H _ _ Hx) as [[-> ->]|?]; [left; split_and!; congruence | eauto].
    + cbn. intros [[-> ->]|?]%hot_set_only; auto.
  - intros key v ttl s Hv Ht Hne. rewrite (proj2 (String.eqb_neq _ _) Hne). destruct (redisOn cfg).
    + destruct (decode_encode v Hv) as (raw & -> & Hd).
      pose proof (redis_set_ok (FullKey (hc_ns cfg) key) raw ttl (h_redis s)) as H.
      destruct (Redis_Set _ _ _ _) as [res r]. cbn in *. intros -> w. specialize (H eq_refl Ht). split.
      * intros (x & ->%H & Hw). congruence.
      * intros ->. exists raw. by rewrite H.
    + intros _ w. by apply hot_set_ok.
Qed.

Lemma scan_drops budget c p keys r k v : rdb_holds (snd (scan_loop budget c p keys r)) k v -> rdb_holds r k v.
Proof.
  revert c keys r. induction budget as [|b IH]; intros c keys r; cbn [scan_loop]; [done|]. unfold mbind, GM_bind.
  pose proof (redis_scan_drops c p r k v) as H. destruct (Redis_Scan c p r) as [[[ks n]|e] r1]; cbn in *; [|done].
  destruct (n =? 0); [done|]. eauto.
Qed.

(** Deleting makes no entry, and removes the keys it is given. *)
Lemma DeleteMany_drops keys s k v : hybrid_holds (snd (DeleteMany cfg keys s)) k v -> hybrid_holds s k v.
Proof.
  unfold hybrid_holds, DeleteMany, on_redis, on_mem, zoom, mbind, GM_bind. destruct (List.filter _ _) as [|k0 ks]; [done|].
  destruct (redisOn cfg).
  - pose proof (fun raw => redis_unlink_drops (k0 :: ks) (h_redis s) k raw) as H.
    destruct (Redis_Unlink _ _) as [[counts|e] r]; cbn in *; intros (raw & Hr & ?); eauto.
  - pose proof (hot_delete_drops (k0 :: ks) (h_mem s) k v) as H. by destruct (hot_DeleteMany _ _).
Qed.

Lemma DeleteMany_deletes keys s k v : is_ok (fst (DeleteMany cfg keys s)) = true ->
  k ∈ map (FullKey (hc_ns cfg)) keys -> k <> "" -> ~ hybrid_holds (snd (DeleteMany cfg keys s)) k v.
Proof.
  intros Hok Hk Hne. unfold hybrid_holds, DeleteMany, on_redis, on_mem, zoom, mbind, GM_bind in *.
  assert (Hin : k ∈ List.filter (fun k => negb (String.eqb k "")) (map (FullKey (hc_ns cfg)) keys)).
  { apply list_elem_of_In, List.filter_In. split; [by apply list_elem_of_In|]. by apply negb_true_iff, String.eqb_neq. }
  destruct (List.filter _ _) as [|k0 ks]; [set_solver|]. destruct (redisOn cfg).
  - pose proof (fun raw => redis_unlink_ok (k0 :: ks) (h_redis s) k raw) as H.
    destruct (Redis_Unlink _ _) as [[counts|e] r]; cbn in *; [|done]. intros (raw & Hr & _). by eapply H.
  - pose proof (hot_delete_ok (k0 :: ks) (h_mem s) k v Hin) as H. by destruct (hot_DeleteMany _ _).
Qed.
End Contract.

(** ** Keys *)

#[local] Arguments String.append : simpl nomatch.

Lemma str_app_split a c b p q : a +:+ String c b = p +:+ q ->
  (exists x, a = p +:+ x) \/ (exists x, p = a +:+ String c x).
Proof.
  revert p. induction a as [|x a IH]; intros [|y p]; cbn; intros E.
  - left. by exists "".
  - injection E as -> E. right. by exists p.
  - left. by exists (String x a).
  - injection E as -> E. destruct (IH _ E) as [[z ->]|[z ->]]; [left | right]; by exists z.
Qed.

(** Text without blanks at its ends. *)
Definition trimmed (s : string) : Prop :=
  strip_any spaces s = None /\ strip_any (map str_rev spaces) (str_rev s) = None.

Lemma trimmed_fix s : trimmed s -> TrimSpace s = s.
Proof.
  intros [Hl Hr]. unfold TrimSpace, trim_left, trim_right. rewrite (trim_with_id spaces) by done.
  rewrite trim_with_id by done. apply str_rev_involutive.
Qed.

Lemma str_rev_length s : String.length (str_rev s) = String.length s.
Proof. induction s; cbn; [done|]. rewrite str_length_app. cbn. lia. Qed.

Lemma trim_right_length s : (String.length (trim_right s) <= String.length s)%nat.
Proof.
  destruct (trim_with_suffix (map str_rev spaces) (String.length s) (str_rev s)) as [q Hq].
  apply (f_equal String.length) in Hq. rewrite str_length_app, str_rev_length in Hq.
  unfold trim_right. rewrite str_rev_length. lia.
Qed.

Lemma TrimSpace_trimmed s : trimmed (TrimSpace s).
Proof.
  destruct spaces_nonempty as [Hs1 Hs2]. pose proof (TrimSpace_idemp s) as H. set (t := TrimSpace s) in *.
  assert (Hl : trim_left t = t).
  { destruct (trim_with_suffix spaces (String.length t) t) as [p Hp]. change (trim_with _ _ t) with (trim_left t) in Hp.
    pose proof (trim_right_length (trim_left t)) as Hle. fold (TrimSpace t) in Hle. rewrite H in Hle.
    pose proof (f_equal String.length Hp) as L. rewrite str_length_app in L. destruct p; [by symmetry|cbn in L; lia]. }
  split.
  - rewrite <- Hl. by apply trim_with_done.
  - unfold TrimSpace in H. rewrite Hl in H. rewrite <- H. unfold trim_right. rewrite str_rev_involutive.
    apply trim_with_done; [done|]. by rewrite str_rev_length.
Qed.

Lemma spaces_plain : forallb (all_chars (not_char colon)) (map str_rev spaces) = true.
Proof. reflexivity. Qed.

(** Text that follows a colon keeps its end. *)
Lemma trimmed_after_colon p v : strip_any spaces (p +:+ String colon v) = None -> trimmed v -> trimmed (p +:+ String colon v).
Proof.
  intros Hl [_ Hr]. split; [done|]. change (String colon v) with (":" +:+ v). rewrite !str_rev_app, str_app_assoc.
  apply strip_any_None. intros x r Hx E. rewrite strip_any_None in Hr.
  destruct (str_app_split _ _ _ _ _ E) as [[y Hy]|[y ->]]; [by eapply Hr|].
  pose proof spaces_plain as Hp. rewrite forallb_forall in Hp. apply list_elem_of_In, Hp in Hx.
  rewrite all_chars_app in Hx. cbn in Hx. by rewrite andb_false_r in Hx.
Qed.

Lemma HasPrefix_app p s : HasPrefix (p +:+ s) p = true.
Proof. unfold HasPrefix. destruct (strip p (p +:+ s)) eqn:E; [done|]. by rewrite (proj2 (strip_Some p _ s)) in E. Qed.
Lemma HasPrefix_elim s p : HasPrefix s p = true -> exists r, s = p +:+ r.
Proof. unfold HasPrefix. destruct (strip p s) eqn:E; [|done]. intros _. eexists. by apply strip_Some. Qed.

Lemma str_app_inj p a b : p +:+ a = p +:+ b -> a = b.
Proof. induction p as [|c p IH]; cbn; [done|]. intros [= E]. auto. Qed.

(** A name space whose prefix [p] ends in a colon and starts with a character that is no blank. *)
Definition good_prefix (n p : string) : Prop :=
  ns_prefix n = p /\ exists a q, p = String a (q +:+ ":") /\ graphic_char a = true.

Lemma good_prefix_trimmed n p v : good_prefix n p -> trimmed v -> trimmed (p +:+ v).
Proof.
  intros (_ & a & q & -> & Ha) Hv. change (String a (q +:+ ":")) with (String a q +:+ ":").
  rewrite str_app_assoc. apply trimmed_after_colon; [|done]. by apply strip_graphic.
Qed.

(** A key that is written with its name space is kept as it is. *)
Lemma FullKey_written n p key : good_prefix n p -> trimmed key -> FullKey n (p +:+ key) = (p +:+ key)%string.
Proof.
  intros Hp Hk. unfold FullKey. rewrite (trimmed_fix (p +:+ key)) by by eapply good_prefix_trimmed.
  destruct Hp as (-> & a & q & -> & _). by rewrite HasPrefix_app.
Qed.

(** The keys that are read back under the name they were written with. *)
Definition readable (p key : string) : Prop :=
  trimmed key /\ key <> "" /\ HasPrefix key ":" = false /\ HasPrefix key p = false.

Lemma FullKey_read n p key : good_prefix n p -> readable p key -> FullKey n key = (p +:+ key)%string.
Proof.
  intros Hp (Ht & Hne & Hc & Hk). unfold FullKey. rewrite (trimmed_fix key), (proj2 (String.eqb_neq _ _) Hne) by done.
  destruct Hp as (-> & a & q & -> & _). cbn [String.eqb]. rewrite Hk. f_equal.
  destruct key as [|c key]; [done|]. cbn [TrimLeft]. unfold HasPrefix in Hc. cbn [strip] in Hc.
  rewrite Ascii.eqb_sym in Hc. unfold colon. by destruct (Ascii.eqb c ":").
Qed.

(** ** Numbers *)

Lemma read_digits_head a s z : read_digits 0 (String a s) = Some z -> a <> "+"%char /\ a <> "-"%char.
Proof. cbn. destruct (digit_value a) eqn:E; [|done]. intros _. split; intros ->; vm_compute in E; done. Qed.

(** A channel id that is written to Redis is read back. *)
Lemma Atoi_Itoa z : 0 < z -> is_i64 z -> Atoi (Itoa z) = Some z /\ Itoa z <> "".
Proof.
  intros Hz Hi. destruct z as [|p|p]; [lia| |lia].
  pose proof (read_Itoa (Zpos p) ltac:(lia)) as Hr.
  destruct (Itoa (Zpos p)) as [|a s] eqn:E; [done|]. split; [|done].
  destruct (read_digits_head a s _ Hr) as [H1 H2]. unfold Atoi.
  assert (read_number (String a s) = Some (Zpos p)) as Hn by exact Hr.
  assert ((match String a s with
    | String "+" r => read_number r
    | String "-" r => Z.opp <$> read_number r
    | _ => read_number (String a s) end%char) = Some (Zpos p)) as ->.
  { rewrite Hn. destruct a as [[] [] [] [] [] [] [] []]; done. }
  by rewrite decide_True.
Qed.

#[export] Instance int_codec_ok : CodecLaws Z (fun z => 0 < z /\ is_i64 z).
Proof.
  split. intros z [Hz Hi]. destruct (Atoi_Itoa z Hz Hi) as [Ha Hne]. exists (Itoa z). split; [done|]. cbn.
  rewrite (TrimSpace_graphic (Itoa z)) by apply number_char_graphic, Itoa_chars.
  by rewrite (proj2 (String.eqb_neq _ _) Hne), Ha.
Qed.
