(* ===== verification/Affinity.v ===== *)
(** * Channel affinity

    src/service/channel_affinity.go: the requests of one session are sent to
    the channel that served the session before.  A rule says which requests
    have a session and which value names it; the channel is remembered under a
    key made of the rule, model and group names the rule includes and of that
    value.

    Regular expressions, gjson queries and SHA-1 are parameters.  The context
    of a request is a record of the keys this code reads and writes; it is
    never nil in the middleware that calls it. *)

From stdpp Require Import base numbers list strings pretty gmap.
From Stdlib Require Import ZArith Lia Ascii.
From S2P Require Import Prelude GoInt GoString GoText GoMonad HybridCache.

Local Open Scope string_scope.
Local Open Scope list_scope.
Local Open Scope Z_scope.

(** ** Libraries *)

Class Regexps := {
  Regexp : Type;
  Compile : string -> option Regexp;         (* [regexp.Compile] *)
  MatchString : Regexp -> string -> bool
}.

Inductive GjsonType := GjNull | GjFalse | GjNumber | GjString | GjTrue | GjJSON.
Record GjsonResult := mkGjsonResult { gj_Exists : bool; gj_Type : GjsonType; gj_String : string; gj_Raw : string }.

Class Digests := {
  gjson_GetBytes : string -> string -> GjsonResult;
  Sha1 : string -> string                    (* in hexadecimal *)
}.

(** ** Settings *)

(** A value of a parameter template: [[]interface{}], [[]map[string]interface{}] or another. *)
Inductive param (J : Type) :=
  | Items (l : list J)
  | Maps (l : list J)
  | Other (j : J).
Arguments Items {J} l.
Arguments Maps {J} l.
Arguments Other {J} j.

Section Affinity.
Context {J : Type} {RE : Regexps} {DG : Digests} {RC : RedisClient} {HC : HotCache Z}.

Record ChannelAffinityKeySource := mkKeySource { ks_Type : string; ks_Key : string; ks_Path : string }.

Record ChannelAffinityRule := mkRule {
  ru_Name : string;
  ru_ModelRegex : list string;
  ru_PathRegex : list string;
  ru_UserAgentInclude : list string;
  ru_KeySources : list ChannelAffinityKeySource;
  ru_ValueRegex : string;
  ru_TTLSeconds : Z;
  ru_ParamOverrideTemplate : gmap string (param J);
  ru_SkipRetryOnFailure : bool;
  ru_IncludeUsingGroup : bool;
  ru_IncludeModelName : bool;
  ru_IncludeRuleName : bool
}.

Record ChannelAffinitySetting := mkSetting {
  se_Enabled : bool;
  se_SwitchOnSuccess : bool;
  se_MaxEntries : Z;
  se_DefaultTTLSeconds : Z;
  se_Rules : list ChannelAffinityRule
}.

(** ** Requests and their context *)

Record GinRequest := mkRequest {
  rq_Path : string;
  rq_UserAgent : string;
  rq_Header : string -> string;
  rq_Int : string -> Z;            (* [c.GetInt] *)
  rq_String : string -> string;    (* [c.GetString] *)
  rq_Body : result string
}.

Record channelAffinityMeta := mkMeta {
  me_CacheKey : string;
  me_TTLSeconds : Z;
  me_RuleName : string;
  me_SkipRetry : bool;
  me_ParamTemplate : gmap string (param J);
  me_KeySourceType : string;
  me_KeySourceKey : string;
  me_KeySourcePath : string;
  me_KeyHint : string;
  me_KeyFingerprint : string;
  me_UsingGroup : string;
  me_ModelName : string;
  me_RequestPath : string
}.

(** The map under [ginKeyChannelAffinityLogInfo]: what it takes from the
    rule, the group and channel of a use, and the template that was applied. *)
Record LogInfo := mkLogInfo {
  li_meta : channelAffinityMeta;
  li_selected : option (string * Z);
  li_template : option (string * Z)
}.

Record AffinityContext := mkContext {
  cx_CacheKey : option string;
  cx_TTLSeconds : option Z;
  cx_Meta : option channelAffinityMeta;
  cx_LogInfo : option LogInfo;
  cx_SkipRetry : option bool;
  cx_ChannelId : Z                 (* [c.GetInt("channel_id")] *)
}.

Definition new_context : AffinityContext := mkContext None None None None None 0.

(** ** Matching *)

(** [channelAffinityRegexCache] *)
Notation RegexCache := (gmap string Regexp).

Fixpoint match_patterns (patterns : list string) (s : string) (cache : RegexCache) : bool * RegexCache :=
  match patterns with
  | [] => (false, cache)
  | pattern :: rest =>
      if String.eqb pattern "" then match_patterns rest s cache
      else
        match cache !! pattern with
        | Some re => if MatchString re s then (true, cache) else match_patterns rest s cache
        | None =>
            match Compile pattern with
            | None => match_patterns rest s cache
            | Some re =>
                let cache := <[pattern := re]> cache in
                if MatchString re s then (true, cache) else match_patterns rest s cache
            end
        end
  end.

Definition matchAnyRegexCached (patterns : list string) (s : string) (cache : RegexCache) : bool * RegexCache :=
  if (length patterns =? 0)%nat || String.eqb s "" then (false, cache) else match_patterns patterns s cache.

Definition matchAnyIncludeFold (patterns : list string) (s : string) : bool :=
  if (length patterns =? 0)%nat || String.eqb s "" then false
  else
    let sLower := ToLower s in
    existsb (fun p => let p := TrimSpace p in negb (String.eqb p "") && Contains sLower (ToLower p)) patterns.

Definition extractChannelAffinityValue (c : GinRequest) (src : ChannelAffinityKeySource) : string :=
  if String.eqb (ks_Type src) "context_int" then
    if String.eqb (ks_Key src) "" then ""
    else let v := rq_Int c (ks_Key src) in if v <=? 0 then "" else Itoa v
  else if String.eqb (ks_Type src) "context_string" then
    if String.eqb (ks_Key src) "" then "" else TrimSpace (rq_String c (ks_Key src))
  else if String.eqb (ks_Type src) "request_header" then
    if String.eqb (ks_Key src) "" then "" else TrimSpace (rq_Header c (ks_Key src))
  else if String.eqb (ks_Type src) "gjson" then
    if String.eqb (ks_Path src) "" then ""
    else
      match rq_Body c with
      | Err _ => ""
      | Ok body =>
          if String.eqb body "" then ""
          else
            let res := gjson_GetBytes body (ks_Path src) in
            if negb (gj_Exists res) then ""
            else
              match gj_Type res with
              | GjString | GjNumber | GjTrue | GjFalse => TrimSpace (gj_String res)
              | _ => TrimSpace (gj_Raw res)
              end
      end
  else "".

(** The first source that gives a value. *)
Fixpoint first_value (c : GinRequest) (sources : list ChannelAffinityKeySource) : option (string * ChannelAffinityKeySource) :=
  match sources with
  | [] => None
  | src :: rest =>
      let v := extractChannelAffinityValue c src in
      if String.eqb v "" then first_value c rest else Some (v, src)
  end.

(** ** Keys *)

Definition channelAffinityCacheNamespace : string := "new-api:channel_affinity:v1".

Definition session_parts (rule : ChannelAffinityRule) (modelName usingGroup affinityValue : string) : list string :=
  (if ru_IncludeRuleName rule && negb (String.eqb (ru_Name rule) "") then [ru_Name rule] else [])
  ++ (if ru_IncludeModelName rule && negb (String.eqb modelName "") then [modelName] else [])
  ++ (if ru_IncludeUsingGroup rule && negb (String.eqb usingGroup "") then [usingGroup] else [])
  ++ [affinityValue].

Definition buildChannelAffinityCacheKeySuffix (rule : ChannelAffinityRule) (modelName usingGroup affinityValue : string) : string :=
  Join (session_parts rule modelName usingGroup affinityValue) ":".

Definition affinityFingerprint (s : string) : string :=
  if String.eqb s "" then ""
  else let hex := Sha1 s in if (8 <=? String.length hex)%nat then String.substring 0 8 hex else hex.

(** [strings.ReplaceAll(s, c, d)] for bytes. *)
Fixpoint replace_char (c d : ascii) (s : string) : string :=
  match s with
  | EmptyString => EmptyString
  | String a s' => String (if Ascii.eqb a c then d else a) (replace_char c d s')
  end.

Definition buildChannelAffinityKeyHint (s : string) : string :=
  let s := TrimSpace s in
  if String.eqb s "" then ""
  else
    let s := replace_char "013" " " (replace_char "010" " " s) in
    let n := String.length s in
    if (n <=? 12)%nat then s else (String.substring 0 4 s +:+ "..." +:+ String.substring (n - 4) 4 s)%string.

(** ** The context of a request *)

Definition setChannelAffinityContext (meta : channelAffinityMeta) (c : AffinityContext) : AffinityContext :=
  mkContext (Some (me_CacheKey meta)) (Some (me_TTLSeconds meta)) (Some meta) (cx_LogInfo c) (cx_SkipRetry c) (cx_ChannelId c).

Definition getChannelAffinityContext (c : AffinityContext) : option (string * Z) :=
  match cx_CacheKey c with
  | None => None
  | Some key => if String.eqb key "" then None else Some (key, default 0 (cx_TTLSeconds c))
  end.

Definition ShouldSkipRetryAfterChannelAffinityFailure (c : AffinityContext) : bool :=
  match cx_SkipRetry c with
  | Some b => b
  | None => match cx_Meta c with Some meta => me_SkipRetry meta | None => false end
  end.

Definition MarkChannelAffinityUsed (selectedGroup : string) (channelID : Z) (c : AffinityContext) : AffinityContext :=
  if channelID <=? 0 then c
  else
    match cx_Meta c with
    | None => c
    | Some meta =>
        mkContext (cx_CacheKey c) (cx_TTLSeconds c) (cx_Meta c)
          (Some (mkLogInfo meta (Some (selectedGroup, channelID)) None)) (Some (me_SkipRetry meta)) (cx_ChannelId c)
    end.

(** ** Looking a session up *)

(** What the requests of a process share, and the context of one of them. *)
Record Affinity := mkAffinity {
  af_regex : RegexCache;
  af_cache : HybridCache Z;
  af_ctx : AffinityContext
}.

Context (cfg : HybridCacheConfig) (setting : ChannelAffinitySetting).

(** The request goes to the first rule that matches it and finds a value. *)
Definition rule_matches (rule : ChannelAffinityRule) (c : GinRequest) (modelName : string) (rx : RegexCache)
    : option (string * ChannelAffinityKeySource) * RegexCache :=
  let '(b, rx) := matchAnyRegexCached (ru_ModelRegex rule) modelName rx in
  if negb b then (None, rx)
  else
    let '(b, rx) := if (0 <? length (ru_PathRegex rule))%nat then matchAnyRegexCached (ru_PathRegex rule) (rq_Path c) rx
                    else (true, rx) in
    if negb b then (None, rx)
    else if (0 <? length (ru_UserAgentInclude rule))%nat && negb (matchAnyIncludeFold (ru_UserAgentInclude rule) (rq_UserAgent c))
    then (None, rx)
    else
      match first_value c (ru_KeySources rule) with
      | None => (None, rx)
      | Some (v, src) =>
          if negb (String.eqb (ru_ValueRegex rule) "") then
            let '(b, rx) := matchAnyRegexCached [ru_ValueRegex rule] v rx in
            if b then (Some (v, src), rx) else (None, rx)
          else (Some (v, src), rx)
      end.

Definition meta_of (rule : ChannelAffinityRule) (c : GinRequest) (modelName usingGroup v : string)
    (src : ChannelAffinityKeySource) : channelAffinityMeta :=
  let ttl := if ru_TTLSeconds rule <=? 0 then se_DefaultTTLSeconds setting else ru_TTLSeconds rule in
  let suffix := buildChannelAffinityCacheKeySuffix rule modelName usingGroup v in
  mkMeta (channelAffinityCacheNamespace +:+ ":" +:+ suffix)%string ttl (ru_Name rule) (ru_SkipRetryOnFailure rule)
    (ru_ParamOverrideTemplate rule) (TrimSpace (ks_Type src)) (TrimSpace (ks_Key src)) (TrimSpace (ks_Path src))
    (buildChannelAffinityKeyHint v) (affinityFingerprint v) usingGroup modelName (rq_Path c).

Fixpoint preferred_by (rules : list ChannelAffinityRule) (c : GinRequest) (modelName usingGroup : string) (w : Affinity)
    : option Z * Affinity :=
  match rules with
  | [] => (None, w)
  | rule :: rest =>
      let '(m, rx) := rule_matches rule c modelName (af_regex w) in
      match m with
      | None => preferred_by rest c modelName usingGroup (mkAffinity rx (af_cache w) (af_ctx w))
      | Some (v, src) =>
          let ctx := setChannelAffinityContext (meta_of rule c modelName usingGroup v src) (af_ctx w) in
          let '(r, cache) := Get cfg (buildChannelAffinityCacheKeySuffix rule modelName usingGroup v) (af_cache w) in
          (match r with Ok found => found | Err _ => None end, mkAffinity rx cache ctx)
      end
  end.

Definition GetPreferredChannelByAffinity (c : GinRequest) (modelName usingGroup : string) (w : Affinity) : option Z * Affinity :=
  if negb (se_Enabled setting) then (None, w) else preferred_by (se_Rules setting) c modelName usingGroup w.

(** ** Remembering *)

Definition RecordChannelAffinity (channelID : Z) (w : Affinity) : Affinity :=
  if channelID <=? 0 then w
  else if negb (se_Enabled setting) then w
  else
    let channelID := if se_SwitchOnSuccess setting && (0 <? cx_ChannelId (af_ctx w)) then cx_ChannelId (af_ctx w) else channelID in
    match getChannelAffinityContext (af_ctx w) with
    | None => w
    | Some (key, ttl) =>
        let ttl := if ttl <=? 0 then se_DefaultTTLSeconds setting else ttl in
        let ttl := if ttl <=? 0 then 3600 else ttl in
        let '(_, cache) := SetWithTTL cfg key channelID ttl (af_cache w) in
        mkAffinity (af_regex w) cache (af_ctx w)
    end.

(** ** Forgetting *)

Definition ClearChannelAffinityCacheAll (cache : HybridCache Z) : Z * HybridCache Z :=
  let '(r, cache) := Keys cfg cache in
  let keys := match r with Ok keys => keys | Err _ => [] end in
  let cache := match keys with [] => cache | _ => snd (DeleteMany cfg keys cache) end in
  (Z.of_nat (length keys), cache).

Definition ClearChannelAffinityCacheByRuleName (ruleName : string) : GM (HybridCache Z) Z :=
  let ruleName := TrimSpace ruleName in
  if String.eqb ruleName "" then throw (ErrMsg "rule_name is required")
  else
    match List.find (fun r => String.eqb (TrimSpace (ru_Name r)) ruleName) (se_Rules setting) with
    | None => throw (ErrMsg "unknown rule name")
    | Some rule =>
        if negb (ru_IncludeRuleName rule) then throw (ErrMsg "the rule does not include its name")
        else DeleteByPrefix cfg ruleName
    end.

(** ** Parameters of the channel *)

Definition extractParamOperations (value : option (param J)) : option (list J) :=
  match value with
  | Some (Items l) | Some (Maps l) => Some l
  | _ => None
  end.

Definition merge_entry (out : gmap string (param J)) (kv : string * param J) : gmap string (param J) :=
  let '(k, v) := kv in
  let keep := match out !! k with Some _ => out | None => <[k := v]> out end in
  if EqualFold (TrimSpace k) "operations" then
    match extractParamOperations (Some v), extractParamOperations (out !! k) with
    | Some tplOps, Some baseOps => <[k := Items (tplOps ++ baseOps)]> out
    | Some tplOps, None => <[k := Items tplOps]> out
    | None, _ => keep
    end
  else keep.

(** [entries] lists the template in the order its map is iterated. *)
Definition mergeChannelOverride (base : gmap string (param J)) (entries : list (string * param J)) : gmap string (param J) :=
  foldl merge_entry base entries.

Definition appendChannelAffinityTemplateAdminInfo (meta : channelAffinityMeta) (c : AffinityContext) : AffinityContext :=
  if bool_decide (me_ParamTemplate meta = ∅) then c
  else
    let info := Some (me_RuleName meta, Z.of_nat (size (me_ParamTemplate meta))) in
    let log := match cx_LogInfo c with
               | Some l => mkLogInfo (li_meta l) (li_selected l) info
               | None => mkLogInfo meta None info
               end in
    mkContext (cx_CacheKey c) (cx_TTLSeconds c) (cx_Meta c) (Some log) (cx_SkipRetry c) (cx_ChannelId c).

Definition ApplyChannelAffinityOverrideTemplate (order : gmap string (param J) -> list (string * param J))
    (paramOverride : gmap string (param J)) (c : AffinityContext) : gmap string (param J) * bool * AffinityContext :=
  match cx_Meta c with
  | None => (paramOverride, false, c)
  | Some meta =>
      if bool_decide (me_ParamTemplate meta = ∅) then (paramOverride, false, c)
      else (mergeChannelOverride paramOverride (order (me_ParamTemplate meta)), true,
            appendChannelAffinityTemplateAdminInfo meta c)
  end.
End Affinity.
#[global] Arguments ChannelAffinityRule J : clear implicits.
#[global] Arguments ChannelAffinitySetting J : clear implicits.
#[global] Arguments AffinityContext J : clear implicits.
#[global] Arguments channelAffinityMeta J : clear implicits.
#[global] Arguments Affinity J {RE RC HC}.
#[global] Arguments new_context {J}.

(** ** Counters of prompt-cache hits

    For each session, how
    many of its requests were answered from the prompt cache of the upstream
    and how many tokens that saved.  The counters of a session are one value of
    a cache; a lock of the process makes the read and the write of an
    observation one step.  The JSON codec of that cache is a parameter. *)

(** What is read of [dto.Usage]; [InputTokensDetails] may be nil. *)
Record StatUsage := mkStatUsage {
  su_PromptTokens : Z;
  su_CompletionTokens : Z;
  su_TotalTokens : Z;
  su_InputTokens : Z;
  su_OutputTokens : Z;
  su_PromptCacheHitTokens : Z;
  su_PromptCachedTokens : Z;
  su_InputCachedTokens : option Z
}.

Record ChannelAffinityUsageCacheCounters := mkCounters {
  co_CachedTokenRateMode : string;
  co_Hit : Z;
  co_Total : Z;
  co_WindowSeconds : Z;
  co_PromptTokens : Z;
  co_CompletionTokens : Z;
  co_TotalTokens : Z;
  co_CachedTokens : Z;
  co_PromptCacheHitTokens : Z;
  co_LastSeenAt : Z
}.
Definition no_counters : ChannelAffinityUsageCacheCounters := mkCounters "" 0 0 0 0 0 0 0 0 0.

(** ** Tokens of a usage *)

Definition usageCacheSignals (usage : option StatUsage) : bool * Z * Z :=
  match usage with
  | None => (false, 0, 0)
  | Some u =>
      let cached := if 0 <? su_PromptCachedTokens u then su_PromptCachedTokens u
                    else match su_InputCachedTokens u with
                         | Some n => if 0 <? n then n else 0
                         | None => 0
                         end in
      let pcht := if 0 <? su_PromptCacheHitTokens u then su_PromptCacheHitTokens u else 0 in
      ((0 <? cached) || (0 <? pcht), cached, pcht)
  end.

Definition usagePromptTokens (usage : option StatUsage) : Z :=
  match usage with
  | None => 0
  | Some u => if 0 <? su_PromptTokens u then su_PromptTokens u else su_InputTokens u
  end.
Definition usageCompletionTokens (usage : option StatUsage) : Z :=
  match usage with
  | None => 0
  | Some u => if 0 <? su_CompletionTokens u then su_CompletionTokens u else su_OutputTokens u
  end.
Definition usageTotalTokens (usage : option StatUsage) : Z :=
  match usage with
  | None => 0
  | Some u =>
      if 0 <? su_TotalTokens u then su_TotalTokens u
      else
        let pt := usagePromptTokens usage in
        let ct := usageCompletionTokens usage in
        if (0 <? pt) || (0 <? ct) then i64_add pt ct else 0
  end.

(** ** How rates are to be read *)

Definition cacheTokenRateModeCachedOverPrompt : string := "cached_over_prompt".
Definition cacheTokenRateModeCachedOverPromptPlusCached : string := "cached_over_prompt_plus_cached".
Definition cacheTokenRateModeMixed : string := "mixed".

Definition normalizeCachedTokenRateMode (mode : string) : string :=
  if str_in mode [cacheTokenRateModeCachedOverPrompt; cacheTokenRateModeCachedOverPromptPlusCached; cacheTokenRateModeMixed]
  then mode else "".

Definition cachedTokenRateModeByRelayFormat (relayFormat : string) : string :=
  if str_in relayFormat ["openai"; "openai_responses"; "openai_responses_compaction"] then cacheTokenRateModeCachedOverPrompt
  else if String.eqb relayFormat "claude" then cacheTokenRateModeCachedOverPromptPlusCached
  else "".

Definition next_mode (old mode : string) : string :=
  let currentMode := normalizeCachedTokenRateMode mode in
  if String.eqb currentMode "" then old
  else if String.eqb old "" then currentMode
  else if negb (String.eqb old currentMode) && negb (String.eqb old cacheTokenRateModeMixed) then cacheTokenRateModeMixed
  else old.

(** One observation at [now]. *)
Definition add_observation (windowSeconds now : Z) (usage : option StatUsage) (mode : string)
    (c : ChannelAffinityUsageCacheCounters) : ChannelAffinityUsageCacheCounters :=
  let '(hit, cached, pcht) := usageCacheSignals usage in
  mkCounters (next_mode (co_CachedTokenRateMode c) mode)
    (if (hit : bool) then i64_add (co_Hit c) 1 else co_Hit c)
    (i64_add (co_Total c) 1)
    windowSeconds
    (i64_add (co_PromptTokens c) (usagePromptTokens usage))
    (i64_add (co_CompletionTokens c) (usageCompletionTokens usage))
    (i64_add (co_TotalTokens c) (usageTotalTokens usage))
    (i64_add (co_CachedTokens c) cached)
    (i64_add (co_PromptCacheHitTokens c) pcht)
    now.

(** ** The counters of a session *)

Definition channelAffinityUsageCacheEntryKey (ruleName usingGroup keyFp : string) : string :=
  let ruleName := TrimSpace ruleName in
  let usingGroup := TrimSpace usingGroup in
  let keyFp := TrimSpace keyFp in
  if String.eqb ruleName "" || String.eqb keyFp "" then ""
  else (ruleName +:+ String "010" EmptyString +:+ usingGroup +:+ String "010" EmptyString +:+ keyFp)%string.

Record ChannelAffinityStatsContext := mkStatsContext {
  sc_RuleName : string;
  sc_UsingGroup : string;
  sc_KeyFingerprint : string;
  sc_TTLSeconds : Z
}.

Definition GetChannelAffinityStatsContext {J} (c : AffinityContext J) : option ChannelAffinityStatsContext :=
  match cx_Meta c with
  | None => None
  | Some meta =>
      let ruleName := TrimSpace (me_RuleName meta) in
      let keyFp := TrimSpace (me_KeyFingerprint meta) in
      let usingGroup := TrimSpace (me_UsingGroup meta) in
      if String.eqb ruleName "" || String.eqb keyFp "" then None
      else if me_TTLSeconds meta <=? 0 then None
      else Some (mkStatsContext ruleName usingGroup keyFp (me_TTLSeconds meta))
  end.

Section Stats.
Context {RC : RedisClient} {HC : HotCache ChannelAffinityUsageCacheCounters} {VC : ValueCodec ChannelAffinityUsageCacheCounters}.
Context (cfg : HybridCacheConfig).
Notation Counters := (HybridCache ChannelAffinityUsageCacheCounters).

Definition observeChannelAffinityUsageCache (statsCtx : ChannelAffinityStatsContext) (usage : option StatUsage) (mode : string)
    (now : Z) (s : Counters) : Counters :=
  let entryKey := channelAffinityUsageCacheEntryKey (sc_RuleName statsCtx) (sc_UsingGroup statsCtx) (sc_KeyFingerprint statsCtx) in
  if String.eqb entryKey "" then s
  else
    let windowSeconds := sc_TTLSeconds statsCtx in
    if windowSeconds <=? 0 then s
    else
      match Get cfg entryKey s with
      | (Err _, s) => s
      | (Ok prev, s) => snd (SetWithTTL cfg entryKey (add_observation windowSeconds now usage mode (default no_counters prev)) windowSeconds s)
      end.

Definition ObserveChannelAffinityUsageCacheByRelayFormat {J} (c : AffinityContext J) (usage : option StatUsage) (relayFormat : string)
    (now : Z) (s : Counters) : Counters :=
  match GetChannelAffinityStatsContext c with
  | None => s
  | Some statsCtx => observeChannelAffinityUsageCache statsCtx usage (cachedTokenRateModeByRelayFormat relayFormat) now s
  end.

(** The counters of a session, or none. *)
Definition GetChannelAffinityUsageCacheStats (ruleName usingGroup keyFp : string) (s : Counters)
    : option ChannelAffinityUsageCacheCounters * Counters :=
  let entryKey := channelAffinityUsageCacheEntryKey ruleName usingGroup keyFp in
  if String.eqb entryKey "" then (None, s)
  else match Get cfg entryKey s with
       | (Ok v, s) => (v, s)
       | (Err _, s) => (None, s)
       end.
End Stats.

(** ** The counters add up *)

Definition observe_all (windowSeconds : Z) (l : list (Z * option StatUsage * string)) (c : ChannelAffinityUsageCacheCounters) :=
  foldl (fun c '(now, usage, mode) => add_observation windowSeconds now usage mode c) c l.

Definition usage_of (x : Z * option StatUsage * string) : option StatUsage := snd (fst x).
Definition is_hit (u : option StatUsage) : bool := fst (fst (usageCacheSignals u)).
Definition cached_of (u : option StatUsage) : Z := snd (fst (usageCacheSignals u)).

(** Each counter as a sum, before wrap-around. *)
Record tally := mkTally { ta_hits : Z; ta_total : Z; ta_prompt : Z; ta_completion : Z; ta_cached : Z }.
Definition tally_of (l : list (Z * option StatUsage * string)) : tally :=
  mkTally (sum_by (fun x => if is_hit (usage_of x) then 1 else 0) l) (Z.of_nat (length l))
    (sum_by (fun x => usagePromptTokens (usage_of x)) l) (sum_by (fun x => usageCompletionTokens (usage_of x)) l)
    (sum_by (fun x => cached_of (usage_of x)) l).

Lemma wrap64_add a b : wrap64 (wrap64 a + b) = wrap64 (a + b).
Proof.
  unfold wrap64. f_equal. replace ((a + 2 ^ 63) mod 2 ^ 64 - 2 ^ 63 + b + 2 ^ 63) with ((a + 2 ^ 63) mod 2 ^ 64 + b) by lia.
  rewrite Zplus_mod_idemp_l. f_equal. lia.
Qed.

Lemma add_observation_fields w now u mode c :
  let c' := add_observation w now u mode c in
  co_Hit c' = (if is_hit u then i64_add (co_Hit c) 1 else co_Hit c) /\ co_Total c' = i64_add (co_Total c) 1 /\
  co_PromptTokens c' = i64_add (co_PromptTokens c) (usagePromptTokens u) /\
  co_CompletionTokens c' = i64_add (co_CompletionTokens c) (usageCompletionTokens u) /\
  co_CachedTokens c' = i64_add (co_CachedTokens c) (cached_of u).
Proof. unfold add_observation, is_hit, cached_of. destruct (usageCacheSignals u) as [[hit cached] pcht]. cbn. auto. Qed.

(** Whatever is observed, in whatever order, the counters are the sums of what
    was observed, modulo 2^64. *)
Theorem observations_add_up w l :
  let c := observe_all w l no_counters in let t := tally_of l in
  co_Hit c = wrap64 (ta_hits t) /\ co_Total c = wrap64 (ta_total t) /\ co_PromptTokens c = wrap64 (ta_prompt t) /\
  co_CompletionTokens c = wrap64 (ta_completion t) /\ co_CachedTokens c = wrap64 (ta_cached t) /\
  0 <= ta_hits t <= ta_total t.
Proof.
  induction l as [|[[now u] mode] l IH] using rev_ind; [by vm_compute|]. cbn zeta in *. unfold observe_all in *. rewrite foldl_app. cbn [foldl].
  destruct IH as (H1 & H2 & H3 & H4 & H5 & H6).
  destruct (add_observation_fields w now u mode (foldl (fun c '(now, usage, mode) => add_observation w now usage mode c) no_counters l))
    as (-> & -> & -> & -> & ->). rewrite H1, H2, H3, H4, H5.
  unfold tally_of in *. cbn [ta_hits ta_total ta_prompt ta_completion ta_cached] in *. rewrite !sum_by_app, length_app. cbn [sum_by length usage_of fst snd].
  rewrite Nat2Z.inj_add. unfold i64_add. rewrite !wrap64_add, !Z.add_0_r.
  split_and!; try done; destruct (is_hit u); rewrite ?Z.add_0_r, ?wrap64_add; try done; lia.
Qed.

(** Once the observations of a session disagree on how to read its rate, the mode stays mixed. *)
Theorem mixed_is_final w l c :
  co_CachedTokenRateMode c = cacheTokenRateModeMixed -> co_CachedTokenRateMode (observe_all w l c) = cacheTokenRateModeMixed.
Proof.
  revert c. induction l as [|[[now u] mode] l IH]; intros c Hc; [done|]. cbn. apply IH. unfold add_observation.
  destruct (usageCacheSignals u) as [[hit cached] pcht]. cbn. rewrite Hc. unfold next_mode. destruct (String.eqb _ ""); [done|].
  cbn. by rewrite andb_false_r.
Qed.

Example two_formats_are_mixed :
  let u := Some (mkStatUsage 100 20 0 0 0 0 30 None) in
  let c := observe_all 3600 [(1, u, "cached_over_prompt"); (2, None, ""); (3, u, "cached_over_prompt_plus_cached"); (4, u, "cached_over_prompt")] no_counters in
  (co_CachedTokenRateMode c, co_Hit c, co_Total c, co_CachedTokens c, co_TotalTokens c) = ("mixed", 3, 4, 90, 360).
Proof. vm_compute. reflexivity. Qed.
