(* ===== verification/AffinitySafety.v ===== *)
(** * What the cache of sessions remembers

    A lookup finds a channel that was recorded under the key of the session
    that asks, and no recording under that key that succeeded came after it; a
    recording that succeeded is found again.  A session is the list of the
    parts its key is joined from: rule, model, group and value; sessions
    without a colon in their parts have a key of their own. *)

From stdpp Require Import base numbers list strings pretty gmap.
From Stdlib Require Import ZArith Lia Ascii.
From S2P Require Import Prelude GoInt GoString GoText GoDate GoMonad HybridCache Affinity.

Local Open Scope string_scope.
Local Open Scope list_scope.
Local Open Scope Z_scope.

Section Matching.
Context {J : Type} {RE : Regexps} {DG : Digests} {RC : RedisClient} {HC : HotCache Z}.

(** ** Matching without the cache of expressions *)

Definition matches_pattern (s pattern : string) : bool :=
  negb (String.eqb pattern "") && match Compile pattern with Some re => MatchString re s | None => false end.
Definition matches_any (patterns : list string) (s : string) : bool :=
  negb (String.eqb s "") && existsb (matches_pattern s) patterns.

(** The cache holds compiled patterns. *)
Definition regex_ok (cache : gmap string Regexp) : Prop := forall p re, cache !! p = Some re -> Compile p = Some re.

Lemma match_patterns_ok patterns s : forall cache, regex_ok cache ->
  fst (match_patterns patterns s cache) = existsb (matches_pattern s) patterns /\ regex_ok (snd (match_patterns patterns s cache)).
Proof.
  induction patterns as [|p ps IH]; intros cache Hok; [done|]. cbn [match_patterns existsb]. unfold matches_pattern at 1.
  destruct (String.eqb p ""); cbn; [by apply IH|]. destruct (cache !! p) as [re|] eqn:E.
  - rewrite (Hok _ _ E). destruct (MatchString re s); [done | by apply IH].
  - destruct (Compile p) as [re|] eqn:Ec; [|by apply IH].
    assert (regex_ok (<[p := re]> cache)) by (intros q re'; rewrite lookup_insert_Some; naive_solver).
    destruct (MatchString re s); [done | by apply IH].
Qed.

Lemma matchAny_ok patterns s cache : regex_ok cache ->
  fst (matchAnyRegexCached patterns s cache) = matches_any patterns s /\ regex_ok (snd (matchAnyRegexCached patterns s cache)).
Proof.
  intros Hok. unfold matchAnyRegexCached, matches_any. destruct (String.eqb s ""); [by rewrite orb_true_r|].
  destruct patterns; [done|]. by apply match_patterns_ok.
Qed.

(** What a rule takes from a request. *)
Definition rule_value (rule : ChannelAffinityRule J) (c : GinRequest) (modelName : string) : option (string * ChannelAffinityKeySource) :=
  if matches_any (ru_ModelRegex rule) modelName
     && ((length (ru_PathRegex rule) =? 0)%nat || matches_any (ru_PathRegex rule) (rq_Path c))
     && ((length (ru_UserAgentInclude rule) =? 0)%nat || matchAnyIncludeFold (ru_UserAgentInclude rule) (rq_UserAgent c))
  then
    match first_value c (ru_KeySources rule) with
    | Some (v, src) => if String.eqb (ru_ValueRegex rule) "" || matches_any [ru_ValueRegex rule] v then Some (v, src) else None
    | None => None
    end
  else None.

Lemma rule_matches_ok rule c m rx : regex_ok rx ->
  fst (rule_matches rule c m rx) = rule_value rule c m /\ regex_ok (snd (rule_matches rule c m rx)).
Proof.
  intros Hok. unfold rule_matches, rule_value.
  destruct (matchAny_ok (ru_ModelRegex rule) m rx Hok) as [E1 Hok1].
  destruct (matchAnyRegexCached (ru_ModelRegex rule) m rx) as [b1 rx1]. cbn in E1, Hok1. subst b1.
  destruct (matches_any (ru_ModelRegex rule) m); cbn [negb andb]; [|done].
  assert (H2 : exists rx2, (if (0 <? length (ru_PathRegex rule))%nat then matchAnyRegexCached (ru_PathRegex rule) (rq_Path c) rx1 else (true, rx1))
      = ((length (ru_PathRegex rule) =? 0)%nat || matches_any (ru_PathRegex rule) (rq_Path c), rx2) /\ regex_ok rx2).
  { destruct (matchAny_ok (ru_PathRegex rule) (rq_Path c) rx1 Hok1) as [E2 Hok2].
    destruct (length (ru_PathRegex rule)); cbn; [eauto|]. rewrite <- E2. destruct (matchAnyRegexCached _ _ rx1). eauto. }
  destruct H2 as (rx2 & -> & Hok2). destruct (_ || matches_any _ _); cbn [negb andb]; [|done].
  destruct (length (ru_UserAgentInclude rule)); cbn.
  2: destruct (matchAnyIncludeFold _ _); cbn; [|done].
  all: destruct (first_value c (ru_KeySources rule)) as [[v src]|]; [|done].
  all: destruct (String.eqb (ru_ValueRegex rule) ""); cbn; [done|].
  all: destruct (matchAny_ok [ru_ValueRegex rule] v rx2 Hok2) as [E3 Hok3].
  all: destruct (matchAnyRegexCached [ru_ValueRegex rule] v rx2) as [b3 rx3]; cbn in E3, Hok3; subst b3.
  all: by destruct (matches_any [ru_ValueRegex rule] v).
Qed.

(** The rule a request falls under and the value that names its session. *)
Fixpoint session_by (rules : list (ChannelAffinityRule J)) (c : GinRequest) (m : string)
    : option (ChannelAffinityRule J * string * ChannelAffinityKeySource) :=
  match rules with
  | [] => None
  | rule :: rest => match rule_value rule c m with Some (v, src) => Some (rule, v, src) | None => session_by rest c m end
  end.

Context (cfg : HybridCacheConfig) (setting : ChannelAffinitySetting J).

Definition session_of (c : GinRequest) (m : string) : option (ChannelAffinityRule J * string * ChannelAffinityKeySource) :=
  if se_Enabled setting then session_by (se_Rules setting) c m else None.

(** The context that belongs to a session, and the look at the cache. *)
Lemma lookup_session c m g (w : Affinity J) : regex_ok (af_regex w) ->
  exists rx, regex_ok rx /\
  GetPreferredChannelByAffinity cfg setting c m g w =
  match session_of c m with
  | None => (None, mkAffinity rx (af_cache w) (af_ctx w))
  | Some (rule, v, src) =>
      let '(r, cache) := Get cfg (buildChannelAffinityCacheKeySuffix rule m g v) (af_cache w) in
      (match r with Ok found => found | Err _ => None end,
       mkAffinity rx cache (setChannelAffinityContext (meta_of setting rule c m g v src) (af_ctx w)))
  end.
Proof.
  intros Hok. unfold GetPreferredChannelByAffinity, session_of. destruct (se_Enabled setting); cbn; [|exists (af_regex w); by destruct w].
  generalize (se_Rules setting) as rules. intros rules. destruct w as [rx0 cache ctx]. cbn [af_regex af_cache af_ctx] in *.
  revert rx0 Hok. induction rules as [|rule rules IH]; intros rx0 Hok; cbn [preferred_by session_by]; [by exists rx0|].
  cbn [af_regex]. destruct (rule_matches_ok rule c m rx0 Hok) as [E Hok1].
  destruct (rule_matches rule c m rx0) as [o rx1]. cbn in E, Hok1. subst o.
  destruct (rule_value rule c m) as [[v src]|]; [|by apply IH]. exists rx1. cbn [af_cache af_ctx].
  by destruct (Get _ _ cache).
Qed.

Lemma lookup_keeps_regex c m g (w : Affinity J) : regex_ok (af_regex w) ->
  regex_ok (af_regex (snd (GetPreferredChannelByAffinity cfg setting c m g w))).
Proof.
  intros Hok. destruct (lookup_session c m g w Hok) as (rx & Hrx & ->).
  destruct (session_of c m) as [[[rule v] src]|]; [|done]. by destruct (Get _ _ _).
Qed.
End Matching.

(** ** The names of sessions *)

Section Sessions.
Context {J : Type} {RE : Regexps} {DG : Digests} {RC : RedisClient} {HC : HotCache Z}.

Definition key_prefix : string := "new-api:channel_affinity:v1:".

Lemma key_prefix_good : good_prefix channelAffinityCacheNamespace key_prefix.
Proof. split; [reflexivity|]. exists "n"%char, "ew-api:channel_affinity:v1". done. Qed.

Lemma trimmed_by_fix s : TrimSpace s = s -> trimmed s.
Proof. intros <-. apply TrimSpace_trimmed. Qed.

Lemma extracted_trimmed c src : trimmed (extractChannelAffinityValue c src).
Proof.
  assert (trimmed "") by by split. assert (Hi : forall z, trimmed (Itoa z)).
  { intros z. apply trimmed_by_fix, TrimSpace_graphic, number_char_graphic, Itoa_chars. }
  unfold extractChannelAffinityValue. repeat case_match; auto using TrimSpace_trimmed.
Qed.

Lemma first_value_trimmed c sources v src : first_value c sources = Some (v, src) -> trimmed v /\ v <> "".
Proof.
  induction sources as [|s0 sources IH]; cbn; [done|]. destruct (String.eqb_spec (extractChannelAffinityValue c s0) "") as [|Hne]; [done|].
  intros [= <- <-]. split; [apply extracted_trimmed | done].
Qed.

Lemma session_value setting c m rule v src : session_of (J := J) setting c m = Some (rule, v, src) -> trimmed v /\ v <> "".
Proof.
  unfold session_of. destruct (se_Enabled setting); [|done]. induction (se_Rules setting) as [|r rs IH]; cbn; [done|].
  destruct (rule_value r c m) as [[v0 src0]|] eqn:E; [|done]. intros [= -> -> ->]. unfold rule_value in E.
  destruct (_ && _); [|done]. destruct (first_value c (ru_KeySources rule)) as [[v1 src1]|] eqn:Ef; [|done].
  destruct (_ || _); [|done]. injection E as -> ->. by eapply first_value_trimmed.
Qed.

(** The sessions whose key is read as it was written: no blank and no colon in
    front, and not the name space itself. *)
Definition readable_session (parts : list string) : bool :=
  bool_decide (strip_any spaces (Join parts ":") = None) && negb (HasPrefix (Join parts ":") ":") && negb (HasPrefix (Join parts ":") key_prefix).

(** No part holds a colon. *)
Definition no_colon (parts : list string) : bool := forallb (all_chars (not_char colon)) parts.

(** The parts of a key: no colon, no blank in front, and not the name space itself. *)
Definition well_named (parts : list string) : bool :=
  forallb (all_chars (not_char colon)) parts && bool_decide (strip_any spaces (Join parts ":") = None) &&
  negb (String.eqb (hd "" parts) "new-api").

Lemma hd_no_prefix x l : all_chars (not_char colon) x = true -> forallb (all_chars (not_char colon)) l = true -> x <> "" ->
  x <> "new-api" -> HasPrefix (Join (x :: l) ":") ":" = false /\ HasPrefix (Join (x :: l) ":") key_prefix = false.
Proof.
  intros Hx Hl Hne Hn. split; apply not_true_is_false; intros [r E]%HasPrefix_elim.
  - assert (Split (Join (x :: l) ":") colon = x :: l) as HS by (apply Split_Join; [done|]; cbn; by rewrite Hx).
    rewrite E in HS. cbn in HS. destruct (Split r colon); by injection HS.
  - assert (Split (Join (x :: l) ":") colon = x :: l) as HS by (apply Split_Join; [done|]; cbn; by rewrite Hx).
    rewrite E in HS. change (key_prefix +:+ r) with ("new-api" +:+ String colon ("channel_affinity:v1:" +:+ r)) in HS.
    rewrite Split_app in HS by reflexivity. injection HS as HS _. congruence.
Qed.

Lemma join_last_trimmed l v : trimmed v -> strip_any spaces (Join (l ++ [v]) ":") = None -> trimmed (Join (l ++ [v]) ":").
Proof.
  intros Hv Hl. split; [done|]. induction l as [|x l IH] using rev_ind; [apply Hv|]. clear IH.
  assert (exists y, Join ((l ++ [x]) ++ [v]) ":" = y +:+ String colon v) as [y E].
  { clear. induction l as [|z l [y IH]]; [by exists x|]. exists (z +:+ ":" +:+ y)%string. cbn [app].
    destruct ((l ++ [x]) ++ [v]) as [|a b] eqn:El; [by destruct l|]. rewrite Join_cons, IH. by rewrite !str_app_assoc. }
  rewrite E in *. by apply trimmed_after_colon.
Qed.

(** The parts end in a value, and are not empty. *)
Lemma session_parts_shape rule m g v : exists l, session_parts (J := J) rule m g v = l ++ [v] /\ Forall (fun x => x <> "") l.
Proof.
  unfold session_parts. rewrite !app_assoc. eexists. split; [reflexivity|].
  repeat apply Forall_app_2; (case_match; [|constructor]); split_bool; by repeat constructor.
Qed.

Lemma session_join_nonempty rule m g v : v <> "" -> Join (session_parts (J := J) rule m g v) ":" <> "".
Proof.
  intros Hne. destruct (session_parts_shape rule m g v) as (l & -> & Hl). destruct l as [|x l]; [done|].
  apply Forall_cons in Hl as [Hx _]. cbn [app]. destruct x as [|a x]; [done|]. by destruct (l ++ [v]).
Qed.

Lemma session_key_readable rule m g v : trimmed v -> v <> "" -> readable_session (session_parts (J := J) rule m g v) = true ->
  readable key_prefix (Join (session_parts rule m g v) ":").
Proof.
  intros Hv Hne Hr. pose proof (session_join_nonempty rule m g v Hne) as Hj. unfold readable_session in Hr.
  apply andb_true_iff in Hr as [Hr H3%negb_true_iff]. apply andb_true_iff in Hr as [H1%bool_decide_eq_true_1 H2%negb_true_iff].
  split_and!; try done. destruct (session_parts_shape rule m g v) as (l & E & _). rewrite E in *. by apply join_last_trimmed.
Qed.

Lemma well_named_readable rule m g v : v <> "" -> well_named (session_parts (J := J) rule m g v) = true ->
  readable_session (session_parts rule m g v) = true.
Proof.
  intros Hne Hw. unfold well_named in Hw. split_bool. destruct (session_parts_shape rule m g v) as (l & E & Hl). rewrite E in *.
  assert (Hx : exists x r, l ++ [v] = x :: r /\ x <> "").
  { destruct l as [|x l]; [by exists v, []|]. exists x, (l ++ [v]). split; [done|]. by apply Forall_cons in Hl as [? _]. }
  destruct Hx as (x & r & Ex & Hx). rewrite Ex in *. cbn [forallb hd] in *. split_bool. destruct (hd_no_prefix x r) as [H1' H2']; try done.
  unfold readable_session. rewrite H1', H2', bool_decide_eq_true_2 by done. done.
Qed.

(** Every session is written under its own key, whatever its parts hold. *)
Lemma session_key_trimmed rule m g v : trimmed v -> trimmed (key_prefix +:+ Join (session_parts (J := J) rule m g v) ":")%string.
Proof.
  intros Hv. destruct (session_parts_shape rule m g v) as (l & -> & _).
  assert (exists y, (key_prefix +:+ Join (l ++ [v]) ":")%string = (String "n" y +:+ String colon v)%string) as [y ->].
  { destruct l as [|x l _] using rev_ind; [by exists "ew-api:channel_affinity:v1"|].
    assert (exists z, Join ((l ++ [x]) ++ [v]) ":" = z +:+ String colon v) as [z ->].
    { clear. induction l as [|a l [z IH]]; [by exists x|]. exists (a +:+ ":" +:+ z)%string. cbn [app].
      destruct ((l ++ [x]) ++ [v]) as [|b c] eqn:El; [by destruct l|]. rewrite Join_cons, IH. by rewrite !str_app_assoc. }
    exists ("ew-api:channel_affinity:v1:" +:+ z)%string.
    change (String "n" ("ew-api:channel_affinity:v1:" +:+ z)) with (key_prefix +:+ z)%string. by rewrite str_app_assoc. }
  apply trimmed_after_colon; [|done]. by apply (strip_graphic "n"%char).
Qed.

(** The parts tell the value, and the model and the group the rule includes. *)
Lemma session_parts_tell (rule : ChannelAffinityRule J) m g v m' g' v' : m <> "" -> m' <> "" -> g <> "" -> g' <> "" ->
  session_parts rule m g v = session_parts rule m' g' v' ->
  v = v' /\ (ru_IncludeModelName rule = true -> m = m') /\ (ru_IncludeUsingGroup rule = true -> g = g').
Proof.
  intros Hm Hm' Hg Hg'. unfold session_parts.
  rewrite (proj2 (String.eqb_neq _ _) Hm), (proj2 (String.eqb_neq _ _) Hm'), (proj2 (String.eqb_neq _ _) Hg), (proj2 (String.eqb_neq _ _) Hg').
  cbn [negb]. rewrite !andb_true_r. intros E. apply app_inv_head in E.
  destruct (ru_IncludeModelName rule), (ru_IncludeUsingGroup rule); cbn in E; injection E; intros; subst; done.
Qed.

(** Different sessions without colons have different keys. *)
Lemma join_inj l l' : no_colon l = true -> no_colon l' = true -> Join l' ":" <> "" -> Join l ":" = Join l' ":" -> l = l'.
Proof.
  unfold no_colon. intros Hl Hl' Hn E.
  rewrite <- (Split_Join l colon), <- (Split_Join l' colon) by (try done; intros ->; by rewrite ?E in Hn). unfold colon. by rewrite E.
Qed.
End Sessions.

(** ** Histories of the cache *)

Section History.
Context {J : Type} {RE : Regexps} {DG : Digests} {RC : RedisClient} {HC : HotCache Z} {RL : RedisLaws} {HL : HotLaws Z}.
Context (cfg : HybridCacheConfig) (setting : ChannelAffinitySetting J).
Hypothesis namespace : hc_ns cfg = channelAffinityCacheNamespace.

Notation holds := (hybrid_holds (V := Z) cfg).

(** A recording: the session, the channel, and whether the write succeeded. *)
Record recording := mkRecording { rec_session : list string; rec_channel : Z; rec_ok : bool }.

(** The key of a session. *)
Definition session_key (parts : list string) : string := (key_prefix +:+ Join parts ":")%string.

(** What [RecordChannelAffinity] writes. *)
Definition recorded_channel (channelID : Z) (w : Affinity J) : Z :=
  if se_SwitchOnSuccess setting && (0 <? cx_ChannelId (af_ctx w)) then cx_ChannelId (af_ctx w) else channelID.
Definition recorded_ttl (ttl : Z) : Z :=
  let ttl := if ttl <=? 0 then se_DefaultTTLSeconds setting else ttl in if ttl <=? 0 then 3600 else ttl.

(** The life of the cache, latest recording first: requests are looked up and
    recorded, an administrator clears sessions, and entries are lost. *)
Inductive affinity_history : list recording -> HybridCache Z -> Prop :=
  | affinity_new s : (forall k v, ~ holds s k v) -> affinity_history [] s
  | affinity_lookup log w c m g : affinity_history log (af_cache w) ->
      affinity_history log (af_cache (snd (GetPreferredChannelByAffinity cfg setting c m g w)))
  | affinity_record log w id c m g rule v src ttl : affinity_history log (af_cache w) ->
      session_of setting c m = Some (rule, v, src) ->
      getChannelAffinityContext (af_ctx w) = Some (me_CacheKey (meta_of setting rule c m g v src), ttl) ->
      0 < id -> is_i64 (recorded_channel id w) ->
      affinity_history
        (mkRecording (session_parts rule m g v) (recorded_channel id w)
           (is_ok (fst (SetWithTTL cfg (me_CacheKey (meta_of setting rule c m g v src)) (recorded_channel id w) (recorded_ttl ttl) (af_cache w)))) :: log)
        (af_cache (RecordChannelAffinity cfg setting id w))
  | affinity_clear log s : affinity_history log s -> affinity_history log (snd (ClearChannelAffinityCacheAll cfg s))
  | affinity_clear_rule log s name : affinity_history log s ->
      affinity_history log (snd (ClearChannelAffinityCacheByRuleName cfg setting name s))
  | affinity_expire log s s' : affinity_history log s -> (forall k v, holds s' k v -> holds s k v) -> affinity_history log s'.

(** The channels a session may be remembered with: the one of the last
    recording under its key, and those before it as long as the writes after
    them failed. *)
Fixpoint current (log : list recording) (parts : list string) (id : Z) : Prop :=
  match log with
  | [] => False
  | r :: rest =>
      if bool_decide (Join (rec_session r) ":" = Join parts ":") then rec_channel r = id \/ rec_ok r = false /\ current rest parts id
      else current rest parts id
  end.

Lemma session_written rule m g v c src : trimmed v ->
  FullKey (hc_ns cfg) (me_CacheKey (meta_of setting rule c m g v src)) = session_key (session_parts rule m g v).
Proof.
  intros Hv. rewrite namespace. unfold FullKey. rewrite (trimmed_fix (me_CacheKey _)) by (by apply session_key_trimmed).
  change (me_CacheKey (meta_of setting rule c m g v src)) with (key_prefix +:+ Join (session_parts rule m g v) ":")%string.
  change (ns_prefix channelAffinityCacheNamespace) with key_prefix. cbn [String.eqb]. by rewrite HasPrefix_app.
Qed.

Lemma session_read (rule : ChannelAffinityRule J) m g v : trimmed v -> v <> "" -> readable_session (session_parts rule m g v) = true ->
  FullKey (hc_ns cfg) (buildChannelAffinityCacheKeySuffix rule m g v) = session_key (session_parts rule m g v).
Proof. intros Hv Hne Hw. rewrite namespace. apply FullKey_read; [apply key_prefix_good | by apply session_key_readable]. Qed.

(** What is written. *)
Lemma record_unfold id w key ttl : 0 < id -> se_Enabled setting = true -> getChannelAffinityContext (af_ctx w) = Some (key, ttl) ->
  af_cache (RecordChannelAffinity cfg setting id w) = snd (SetWithTTL cfg key (recorded_channel id w) (recorded_ttl ttl) (af_cache w)).
Proof.
  intros Hid He Hc. unfold RecordChannelAffinity, recorded_channel, recorded_ttl. rewrite (proj2 (Z.leb_gt id 0)), He, Hc by lia. cbn.
  by destruct (SetWithTTL _ _ _ _ _).
Qed.

Lemma recorded_positive id w : 0 < id -> 0 < recorded_channel id w.
Proof. intros. unfold recorded_channel. destruct (_ && _) eqn:E; [|done]. split_bool. lia. Qed.
Lemma recorded_ttl_positive ttl : 0 < recorded_ttl ttl.
Proof. unfold recorded_ttl. repeat case_match; lia. Qed.

Lemma session_enabled c m x : session_of setting c m = Some x -> se_Enabled setting = true.
Proof. unfold session_of. by destruct (se_Enabled setting). Qed.

Lemma clear_drops s k v : holds (snd (ClearChannelAffinityCacheAll cfg s)) k v -> holds s k v.
Proof.
  unfold ClearChannelAffinityCacheAll. assert (HK : forall k v, holds (snd (Keys cfg s)) k v -> holds s k v).
  { intros k0 v0. unfold hybrid_holds, Keys, on_redis, on_mem, zoom. destruct (redisOn cfg); [|done].
    pose proof (fun raw => scan_drops scan_budget 0 (MatchPattern (hc_ns cfg)) [] (h_redis s) k0 raw) as H.
    unfold scanKeys. destruct (scan_loop _ _ _ _ _). cbn in *. intros (raw & ? & ?). eauto. }
  destruct (Keys cfg s) as [r s1]. cbn in *. destruct r as [[|k0 ks]|]; cbn; auto. intros H. apply HK. by eapply DeleteMany_drops.
Qed.

Lemma clear_rule_drops name s k v : holds (snd (ClearChannelAffinityCacheByRuleName cfg setting name s)) k v -> holds s k v.
Proof.
  unfold ClearChannelAffinityCacheByRuleName. destruct (String.eqb _ _); [done|]. destruct (List.find _ _) as [rule|]; [|done].
  destruct (negb _); [done|]. unfold DeleteByPrefix. destruct (String.eqb _ _); [done|]. set (full := if HasSuffix _ _ then _ else _).
  unfold mbind, GM_bind. set (m := if redisOn cfg then _ else _).
  assert (HK : holds (snd (m s)) k v -> holds s k v).
  { unfold m, hybrid_holds, on_redis, on_mem, zoom. destruct (redisOn cfg); [|done].
    pose proof (fun raw => scan_drops scan_budget 0 (full +:+ "*") [] (h_redis s) k raw) as H.
    unfold scanKeys. destruct (scan_loop _ _ _ _ _). cbn in *. intros (raw & ? & ?). eauto. }
  destruct (m s) as [[[|k0 ks]|e] s1]; cbn in *; auto.
  pose proof (DeleteMany_drops cfg (k0 :: ks) s1 k v) as HD. destruct (DeleteMany cfg (k0 :: ks) s1) as [[dm|e] s2]; cbn in *; auto.
Qed.

(** Whatever the cache holds under the key of a session is current. *)
Lemma history_current log s : affinity_history log s -> forall parts id, holds s (session_key parts) id -> current log parts id.
Proof.
  induction 1 as [s Hn|log w c m g _ IH|log w id c m g rule v src ttl _ IH Hs Hc Hid Hi|log s _ IH|log s name _ IH|log s s' _ IH Hd];
    intros parts j Hh.
  - by destruct (Hn _ _ Hh).
  - apply IH. revert Hh. unfold GetPreferredChannelByAffinity. destruct (negb _); [done|].
    generalize (se_Rules setting) as rules. intros rules. revert w IH. induction rules as [|r rs IHr]; intros w IH; [done|]. cbn [preferred_by].
    destruct (rule_matches r c m (af_regex w)) as [[[v src]|] rx]; [|apply (IHr (mkAffinity rx (af_cache w) (af_ctx w)) IH)].
    pose proof (get_drops (CacheContract := hybrid_contract cfg) (buildChannelAffinityCacheKeySuffix r m g v) (af_cache w) (session_key parts) j) as H.
    by destruct (Get _ _ _).
  - destruct (session_value _ _ _ _ _ _ Hs) as [Hv Hv0]. pose proof (session_written rule m g v c src Hv) as HF.
    rewrite (record_unfold id w _ ttl Hid (session_enabled _ _ _ Hs) Hc) in Hh.
    assert (Hok : 0 < recorded_channel id w /\ is_i64 (recorded_channel id w)) by (split; [by apply recorded_positive | done]).
    cbn [current rec_session rec_channel rec_ok]. case_bool_decide as Eq.
    + unfold session_key in Hh. rewrite <- Eq in Hh. set (res := SetWithTTL _ _ _ _ _) in *. destruct (fst res) as [[]|e] eqn:Er; cbn.
      * left. pose proof (set_stores (CacheContract := hybrid_contract cfg) (me_CacheKey (meta_of setting rule c m g v src)) (recorded_channel id w)
          (recorded_ttl ttl) (af_cache w) Hok (recorded_ttl_positive ttl)) as HS. rewrite HF in HS.
        symmetry. apply HS; [discriminate | done | done].
      * destruct (set_only (CacheContract := hybrid_contract cfg) _ _ _ _ _ _ Hok Hh) as [(_ & _ & ->)|Hold]; [by left|]. right. split; [done|]. apply IH. unfold session_key. by rewrite <- Eq.
    + destruct (set_only (CacheContract := hybrid_contract cfg) _ _ _ _ _ _ Hok Hh) as [(E & _ & _)|Hold]; [|auto]. exfalso. apply Eq.
      rewrite HF in E. unfold session_key in E. apply str_app_inj in E. done.
  - apply IH. by apply clear_drops.
  - apply IH. by eapply clear_rule_drops.
  - apply IH. by apply Hd.
Qed.

(** The memory of the process neither refuses a write nor fails a read. *)
Lemma memory_set_ok key v ttl s : redisOn cfg = false -> fst (SetWithTTL (V := Z) cfg key v ttl s) = Ok tt.
Proof. intros E. unfold SetWithTTL. rewrite E. by destruct (String.eqb _ _). Qed.
Lemma memory_get_ok key s : redisOn cfg = false -> is_ok (fst (Get (V := Z) cfg key s)) = true.
Proof. intros E. unfold Get, on_mem. rewrite E. destruct (String.eqb _ _); [done|]. by destruct (hot_Get _ _). Qed.

(** The store answered the write and the read after it. *)
Definition store_answers (key suffix : string) (id ttl : Z) (s : HybridCache Z) : Prop :=
  redisOn cfg = false \/
  fst (SetWithTTL cfg key id ttl s) = Ok tt /\ is_ok (fst (Get cfg suffix (snd (SetWithTTL cfg key id ttl s)))) = true.

(** C35. After any life of the cache (lookups, recordings of any sessions,
    clearings, lost entries), take a request of a session whose key has no
    blank and no colon in front and does not start with the name space of the
    cache.  A lookup finds the channel last recorded under that key (or, where
    writes failed, the last that was written before them); a channel recorded
    for it is found again by the next request of the session, when the store
    answers; where neither it nor a session of the log has a colon in its
    parts, they share a key only if they are the same session; and requests of
    one session have the same value, and the same model and group where the
    rule includes them. *)
Theorem sessions_are_remembered log (w : Affinity J) c m g rule v src :
  affinity_history log (af_cache w) -> regex_ok (af_regex w) ->
  session_of setting c m = Some (rule, v, src) -> readable_session (session_parts rule m g v) = true ->
  (forall id, fst (GetPreferredChannelByAffinity cfg setting c m g w) = Some id -> current log (session_parts rule m g v) id) /\
  (forall id ttl, getChannelAffinityContext (af_ctx w) = Some (me_CacheKey (meta_of setting rule c m g v src), ttl) ->
     0 < id -> is_i64 (recorded_channel id w) ->
     store_answers (me_CacheKey (meta_of setting rule c m g v src)) (buildChannelAffinityCacheKeySuffix rule m g v)
       (recorded_channel id w) (recorded_ttl ttl) (af_cache w) ->
     fst (GetPreferredChannelByAffinity cfg setting c m g (RecordChannelAffinity cfg setting id w)) = Some (recorded_channel id w)) /\
  (forall r, r ∈ log -> no_colon (rec_session r) = true -> no_colon (session_parts rule m g v) = true ->
     Join (rec_session r) ":" = Join (session_parts rule m g v) ":" -> rec_session r = session_parts rule m g v) /\
  (forall m' g' v', m <> "" -> m' <> "" -> g <> "" -> g' <> "" -> session_parts rule m g v = session_parts rule m' g' v' ->
     v = v' /\ (ru_IncludeModelName rule = true -> m = m') /\ (ru_IncludeUsingGroup rule = true -> g = g')).
Proof.
  intros HH Hrx Hs Hw. destruct (session_value _ _ _ _ _ _ Hs) as [Hv Hv0].
  pose proof (session_read rule m g v Hv Hv0 Hw) as HR. pose proof (session_written rule m g v c src Hv) as HF.
  split; [|split; [|split; [intros r _ Hr Hp; apply join_inj; [done | done | by apply session_join_nonempty]|intros *; apply session_parts_tell]]].
  - intros id. destruct (lookup_session cfg setting c m g w Hrx) as (rx & _ & ->). rewrite Hs.
    destruct (Get cfg _ (af_cache w)) as [[[j|]|] s1] eqn:E; cbn; [|done|done]. intros [= <-].
    apply (get_found (CacheContract := hybrid_contract cfg)) in E as [E _]. rewrite HR in E.
    by eapply history_current.
  - intros id ttl Hc Hid Hi Hst. pose proof (record_unfold id w _ ttl Hid (session_enabled _ _ _ Hs) Hc) as HCA.
    assert (Hrx' : regex_ok (af_regex (RecordChannelAffinity cfg setting id w))).
    { unfold RecordChannelAffinity. repeat case_match; done. }
    destruct (lookup_session cfg setting c m g (RecordChannelAffinity cfg setting id w) Hrx') as (rx & _ & ->). rewrite Hs, HCA.
    set (key := me_CacheKey _) in *. set (s1 := snd (SetWithTTL _ _ _ _ _)) in *.
    assert (Hset : fst (SetWithTTL cfg key (recorded_channel id w) (recorded_ttl ttl) (af_cache w)) = Ok tt)
      by (destruct Hst as [|[? _]]; [by apply memory_set_ok | done]).
    assert (Hget : is_ok (fst (Get cfg (buildChannelAffinityCacheKeySuffix rule m g v) s1)) = true)
      by (destruct Hst as [|[_ ?]]; [by apply memory_get_ok | done]).
    assert (Hok : 0 < recorded_channel id w /\ is_i64 (recorded_channel id w)) by (split; [by apply recorded_positive | done]).
    pose proof (set_stores (CacheContract := hybrid_contract cfg) key (recorded_channel id w) (recorded_ttl ttl) (af_cache w) Hok
      (recorded_ttl_positive ttl)) as HS. fold s1 in HS. rewrite HF in HS. specialize (HS ltac:(discriminate) Hset).
    destruct (Get cfg _ s1) as [[[j|]|e] s2] eqn:E; [| |done]; cbn.
    + apply (get_found (CacheContract := hybrid_contract cfg)) in E as [E _]. rewrite HR in E. apply HS in E. by rewrite E.
    + exfalso. eapply (get_missed (CacheContract := hybrid_contract cfg)); [exact E | rewrite HR; discriminate|]. rewrite HR. by apply HS.
Qed.

(** ** Clearing a rule *)

Lemma rule_key_prefix (rule : ChannelAffinityRule J) m g v : ru_IncludeRuleName rule = true -> ru_Name rule <> "" ->
  exists r, session_key (session_parts rule m g v) = (key_prefix +:+ ru_Name rule +:+ ":" +:+ r)%string.
Proof.
  intros Hi Hn. destruct (session_parts_shape rule m g v) as (l & E & _). unfold session_key, session_parts in *.
  rewrite Hi, (proj2 (String.eqb_neq _ _) Hn) in *. cbn [andb negb] in *. cbn [app].
  match goal with |- context [Join (_ :: ?t) ":"] => destruct t as [|x tl] eqn:Et end.
  - exfalso. clear E. destruct (ru_IncludeModelName rule && _), (ru_IncludeUsingGroup rule && _); discriminate.
  - exists (Join (x :: tl) ":"). by rewrite Join_cons.
Qed.

(** The keys of a store with a given prefix, and their deletion. *)
Lemma prefix_deleted full keys s s1 s2 k v dm :
  (forall k v, holds s1 k v -> HasPrefix k full = true -> k ∈ keys) -> FullKey (hc_ns cfg) k = k -> k <> "" -> HasPrefix k full = true ->
  DeleteMany cfg keys s1 = (Ok dm, s2) -> s = s2 -> ~ holds s k v.
Proof.
  intros Hall Hf Hne Hp E -> Hh. assert (Hh1 : holds s1 k v).
  { apply (DeleteMany_drops cfg keys). by rewrite E. }
  apply (DeleteMany_deletes cfg keys s1 k v); rewrite ?E; [done| |done|done]. apply list_elem_of_In, in_map_iff.
  exists k. split; [done|]. apply list_elem_of_In. by eapply Hall.
Qed.

(** An administrator who clears a rule leaves no session of it behind. *)
Theorem cleared_rule_is_forgotten name s n s' (rule : ChannelAffinityRule J) m g v id :
  literal name = true -> TrimSpace name = name -> ru_Name rule = name -> ru_IncludeRuleName rule = true ->
  trimmed v -> v <> "" -> well_named (session_parts rule m g v) = true ->
  ClearChannelAffinityCacheByRuleName cfg setting name s = (Ok n, s') ->
  ~ holds s' (session_key (session_parts rule m g v)) id.
Proof.
  intros Hlit Htrim Hname Hinc Hv Hv0 Hw. unfold ClearChannelAffinityCacheByRuleName. rewrite Htrim.
  destruct (String.eqb_spec name "") as [|Hne]; [done|]. destruct (List.find _ _); [|done]. destruct (negb _); [done|].
  set (k := session_key (session_parts rule m g v)). pose proof (session_key_readable rule m g v Hv Hv0 (well_named_readable rule m g v Hv0 Hw)) as HRd.
  assert (Hk : FullKey (hc_ns cfg) k = k).
  { rewrite namespace. apply (FullKey_written _ key_prefix); [apply key_prefix_good | apply HRd]. }
  destruct (rule_key_prefix rule m g v Hinc ltac:(congruence)) as [r Er]. fold k in Er. rewrite Hname in Er.
  assert (HN : FullKey (hc_ns cfg) name = (key_prefix +:+ name)%string).
  { rewrite namespace. apply FullKey_read; [apply key_prefix_good|]. split; [by apply trimmed_by_fix|]. split; [done|].
    unfold session_parts, well_named in Hw. rewrite Hinc, Hname, (proj2 (String.eqb_neq _ _) Hne) in Hw. cbn [andb negb app forallb hd] in Hw. split_bool.
    destruct (hd_no_prefix name []) as [? ?]; done. }
  unfold DeleteByPrefix. rewrite HN. change (String.eqb (key_prefix +:+ name) "") with false. cbn iota. set (full := if HasSuffix _ _ then _ else _).
  assert (Hfull : HasPrefix k full = true /\ literal full = true).
  { assert (literal (key_prefix +:+ name) = true) as HL' by (unfold literal in *; rewrite all_chars_app, Hlit; reflexivity).
    unfold full. destruct (HasSuffix _ _).
    - split; [|done]. rewrite Er, <- str_app_assoc. apply HasPrefix_app.
    - split; [rewrite Er, <- !str_app_assoc; apply HasPrefix_app|]. unfold literal in *. rewrite all_chars_app, HL'. reflexivity. }
  destruct Hfull as [Hp Hl]. unfold mbind, GM_bind.
  set (list_keys := if redisOn cfg then _ else _).
  assert (Hall : forall keys s1, list_keys s = (Ok keys, s1) -> forall k v, holds s1 k v -> HasPrefix k full = true -> k ∈ keys).
  { unfold list_keys, hybrid_holds, on_redis, on_mem, zoom. intros keys s1 E k0 v0. destruct (redisOn cfg).
    - destruct (scanKeys (full +:+ "*") (h_redis s)) as [res r1] eqn:Es. injection E as -> <-. intros (raw & Hr & _) Hp0.
      by eapply redis_scan_complete.
    - injection E as <- <-. intros Hh Hp0. apply list_elem_of_In, List.filter_In. split; [|done].
      apply list_elem_of_In. by eapply hot_keys_ok. }
  destruct (list_keys s) as [[keys|e] s1]; [|done]. specialize (Hall keys s1 eq_refl). destruct keys as [|k0 keys].
  - intros [= <- <-] Hh. specialize (Hall _ _ Hh Hp). by apply not_elem_of_nil in Hall.
  - destruct (DeleteMany cfg (k0 :: keys) s1) as [[dm|e] s2] eqn:Ed; [|done]. intros [= <- <-].
    eapply prefix_deleted; [exact Hall | exact Hk | rewrite Er; discriminate | exact Hp | exact Ed | done].
Qed.
End History.

(** ** The rule's template and the channel's parameters *)

Section Template.
Context {J : Type}.
Implicit Types (base tpl : gmap string (param J)).

(** Parameter by parameter: the template is put before the operations of the
    channel and fills in what the channel leaves open. *)
Definition merged_param (base tpl : gmap string (param J)) (k : string) : option (param J) :=
  match tpl !! k with
  | None => base !! k
  | Some v =>
      if EqualFold (TrimSpace k) "operations" && bool_decide (is_Some (extractParamOperations (Some v))) then
        Some (Items (default [] (extractParamOperations (Some v)) ++ default [] (extractParamOperations (base !! k))))
      else match base !! k with Some b => Some b | None => Some v end
  end.

Lemma merge_entry_other (out : gmap string (param J)) k v k' : k <> k' -> merge_entry out (k, v) !! k' = out !! k'.
Proof. intros Hne. unfold merge_entry. repeat case_match; by rewrite ?lookup_insert_ne. Qed.

Lemma merge_entry_own (out : gmap string (param J)) k v : merge_entry out (k, v) !! k = merged_param out {[k := v]} k.
Proof.
  unfold merge_entry, merged_param. rewrite lookup_singleton_eq. destruct (EqualFold _ _); cbn [andb].
  - destruct v as [l|l|j]; cbn [extractParamOperations]; [rewrite bool_decide_true by done..|rewrite bool_decide_false by (by intros [? ?])].
    1-2: destruct (out !! k) as [[lb|lb|jb]|] eqn:E; cbn; rewrite lookup_insert_eq; by rewrite ?app_nil_r.
    destruct (out !! k) eqn:E; [done | by rewrite lookup_insert_eq].
  - destruct (out !! k) eqn:E; [done | by rewrite lookup_insert_eq].
Qed.

Lemma merge_entries_other (entries : list (string * param J)) k : forall out, k ∉ map fst entries -> foldl merge_entry out entries !! k = out !! k.
Proof.
  induction entries as [|[k0 v0] entries IH]; intros out Hk; [done|]. cbn in *. rewrite IH by set_solver.
  apply merge_entry_other. set_solver.
Qed.

(** The order in which Go iterates the template does not matter. *)
Theorem template_fills_in base tpl entries k :
  entries ≡ₚ map_to_list tpl -> mergeChannelOverride base entries !! k = merged_param base tpl k.
Proof.
  intros HP. assert (HN : NoDup (map fst entries)) by (rewrite HP; apply NoDup_fst_map_to_list).
  assert (HT : forall v, tpl !! k = Some v <-> (k, v) ∈ entries) by (intros v; by rewrite HP, elem_of_map_to_list).
  unfold mergeChannelOverride. clear HP. destruct (tpl !! k) as [v|] eqn:E.
  - assert (Hin : (k, v) ∈ entries) by by apply HT.
    apply list_elem_of_split in Hin as (l1 & l2 & ->). rewrite map_app in HN. cbn in HN.
    apply NoDup_app in HN as (_ & H1 & H2). apply NoDup_cons in H2 as [H2 _].
    rewrite foldl_app. cbn [foldl]. rewrite merge_entries_other by done. rewrite merge_entry_own. unfold merged_param at 1. rewrite lookup_singleton_eq.
    rewrite merge_entries_other by (intros Hk; by eapply H1; [|left]). unfold merged_param. by rewrite E.
  - rewrite merge_entries_other; [unfold merged_param; by rewrite E|]. intros ([k' v] & -> & Hin)%list_elem_of_fmap.
    apply HT in Hin. done.
Qed.
End Template.

(** ** Concrete caches *)

Section Concrete.
(** A memory cache that evicts nothing. *)
#[local] Instance plain_hot : HotCache Z := {|
  hot := gmap string Z;
  hot_Get k m := (m !! k, m);
  hot_SetWithTTL k v _ m := <[k := v]> m;
  hot_Keys m := map fst (map_to_list m);
  hot_DeleteMany ks m := (list_to_map (map (fun k => (k, bool_decide (is_Some (m !! k)))) ks), foldr delete m ks);
  hot_Purge _ := ∅;
  hot_Capacity _ := (100000, 0);
  hot_Algorithm _ := ("lru", "")
|}.

Lemma foldr_delete_lookup {A} ks (m : gmap string A) k v :
  foldr delete m ks !! k = Some v <-> k ∉ ks /\ m !! k = Some v.
Proof.
  induction ks as [|k0 ks IH]; cbn; [set_solver|]. rewrite lookup_delete_Some, IH. set_solver.
Qed.

#[local] Program Instance plain_hot_laws : HotLaws Z := {| hot_holds m k v := m !! k = Some v |}.
Next Obligation. cbn. intros k m. destruct (m !! k); congruence. Qed.
Next Obligation. done. Qed.
Next Obligation. cbn. intros k v ttl m k' w. rewrite lookup_insert_Some. naive_solver. Qed.
Next Obligation. cbn. intros k v ttl m _ w. rewrite lookup_insert_eq. naive_solver. Qed.
Next Obligation. cbn. intros m k v H. apply list_elem_of_fmap. exists (k, v). split; [done|]. by apply elem_of_map_to_list. Qed.
Next Obligation. cbn. intros ks m k v [_ H]%foldr_delete_lookup. done. Qed.
Next Obligation. cbn. intros ks m k v Hk [H _]%foldr_delete_lookup. done. Qed.
Next Obligation. cbn. intros m k v. by rewrite lookup_empty. Qed.

Definition but_last (s : string) : string := match str_rev s with String _ r => str_rev r | EmptyString => "" end.

(** A Redis that answers; patterns are prefixes. *)
#[local] Instance plain_redis : RedisClient := {|
  rdb := gmap string string;
  Redis_Get k := gets (fun r => r !! k);
  Redis_Set k v _ := modify (fun r => <[k := v]> r);
  Redis_Scan _ p := gets (fun r => (List.filter (fun k => HasPrefix k (but_last p)) (map fst (map_to_list r)), 0));
  Redis_Unlink ks := fun r => (Ok (map (fun k => if r !! k then 1 else 0) ks), foldr delete r ks);
  scan_budget := 1
|}.

#[local] Program Instance plain_redis_laws : RedisLaws := {| rdb_holds r k v := r !! k = Some v |}.
Next Obligation. cbn. intros k r. destruct (r !! k); congruence. Qed.
Next Obligation. done. Qed.
Next Obligation. cbn. intros k v ttl m k' w. rewrite lookup_insert_Some. naive_solver. Qed.
Next Obligation. cbn. intros k v ttl m _ _ w. rewrite lookup_insert_eq. naive_solver. Qed.
Next Obligation. done. Qed.
Next Obligation. cbn. intros ks m k v [_ H]%foldr_delete_lookup. done. Qed.
Next Obligation. cbn. intros ks m k v _ Hk [H _]%foldr_delete_lookup. done. Qed.
Next Obligation.
  cbn. intros p r keys r' k v _ E Hk Hp. injection E as <- <-. apply list_elem_of_In, List.filter_In. split.
  - apply in_map_iff. exists (k, v). split; [done|]. by apply list_elem_of_In, elem_of_map_to_list.
  - enough (but_last (p +:+ "*") = p) as -> by done. unfold but_last. rewrite str_rev_app. apply str_rev_involutive.
Qed.

(** Expressions are prefixes; every body names the session in a field. *)
#[local] Instance prefix_regexps : Regexps := {| Regexp := string; Compile := Some; MatchString := fun re s => HasPrefix s re |}.
#[local] Instance plain_digests : Digests :=
  {| gjson_GetBytes body path := mkGjsonResult true GjString body path; Sha1 := fun s => s |}.

Definition memory_cfg : HybridCacheConfig := mkHybridCacheConfig channelAffinityCacheNamespace false None.
Definition redis_cfg : HybridCacheConfig := mkHybridCacheConfig channelAffinityCacheNamespace true (Some true).

(** A rule for GPT models whose key has the parts that are asked for. *)
Definition sample_rule (name : string) (with_name with_model with_group : bool) : ChannelAffinityRule unit :=
  mkRule name ["gpt-"] ["/v1/responses"] [] [mkKeySource "gjson" "" "prompt_cache_key"] "" 0 ∅ true with_group with_model with_name.
Definition sample_setting (rule : ChannelAffinityRule unit) : ChannelAffinitySetting unit := mkSetting true true 100000 3600 [rule].
Definition sample_request (session : string) : GinRequest :=
  mkRequest "/v1/responses" "codex" (fun _ => "") (fun _ => 0) (fun _ => "") (Ok session).

Definition empty_affinity : Affinity unit := mkAffinity ∅ (mkHybridCache (V := Z) ∅ ∅) new_context.
Definition fresh_ctx (w : Affinity unit) : Affinity unit := mkAffinity (af_regex w) (af_cache w) new_context.

(** A request of a session looks its channel up and is answered by channel [id]. *)
Definition serve (cfg : HybridCacheConfig) (setting : ChannelAffinitySetting unit) (session m g : string) (id : Z) (w : Affinity unit) : Affinity unit :=
  RecordChannelAffinity cfg setting id (snd (GetPreferredChannelByAffinity cfg setting (sample_request session) m g (fresh_ctx w))).
Definition find_session (cfg : HybridCacheConfig) (setting : ChannelAffinitySetting unit) (session m g : string) (w : Affinity unit) : option Z :=
  fst (GetPreferredChannelByAffinity cfg setting (sample_request session) m g (fresh_ctx w)).

Definition cli : ChannelAffinitySetting unit := sample_setting (sample_rule "codex cli trace" true false true).

(** The cache after a session with a colon in its name was recorded with channel 9. *)
Definition colon_life : Affinity unit := RecordChannelAffinity redis_cfg cli 9
  (snd (GetPreferredChannelByAffinity redis_cfg cli (sample_request "a:b") "gpt-5" "vip" empty_affinity)).

Lemma colon_history : exists r, affinity_history redis_cfg cli [r] (af_cache colon_life).
Proof.
  eexists. eapply (affinity_record redis_cfg cli [] (snd (GetPreferredChannelByAffinity redis_cfg cli (sample_request "a:b") "gpt-5" "vip" empty_affinity)) 9
    (sample_request "a:b") "gpt-5" "vip" (sample_rule "codex cli trace" true false true) "a:b" (mkKeySource "gjson" "" "prompt_cache_key") 3600).
  - apply affinity_lookup, affinity_new. intros k v (raw & Hr & _). vm_compute in Hr. discriminate.
  - reflexivity.
  - reflexivity.
  - lia.
  - vm_compute. split; congruence.
Qed.

Lemma sessions_are_remembered_witness :
  let w := snd (GetPreferredChannelByAffinity redis_cfg cli (sample_request "s1") "gpt-5" "vip" (mkAffinity ∅ (af_cache colon_life) (af_ctx empty_affinity))) in
  fst (GetPreferredChannelByAffinity redis_cfg cli (sample_request "s1") "gpt-5" "vip" (RecordChannelAffinity redis_cfg cli 7 w)) = Some 7.
Proof.
  intros w. destruct colon_history as [r Hh].
  destruct (sessions_are_remembered (HL := plain_hot_laws) redis_cfg cli eq_refl [r] w (sample_request "s1") "gpt-5" "vip"
    (sample_rule "codex cli trace" true false true) "s1" (mkKeySource "gjson" "" "prompt_cache_key")) as (_ & H & _).
  - apply affinity_lookup. exact Hh.
  - apply lookup_keeps_regex. intros p re. cbn. by rewrite lookup_empty.
  - reflexivity.
  - reflexivity.
  - apply (H 7 3600); [reflexivity | lia | vm_compute; split; congruence|]. right. split; reflexivity.
Defined.

Lemma template_fills_in_witness :
  mergeChannelOverride {[ "temperature" := Other 7 ]} [("operations", Maps [1; 2]); ("temperature", Other 2)] !! "temperature" = Some (Other 7).
Proof.
  rewrite (template_fills_in {[ "temperature" := Other 7 ]} (list_to_map [("operations", Maps [1; 2]); ("temperature", Other 2)])); [reflexivity|].
  symmetry. apply map_to_list_to_map. repeat (apply NoDup_cons; split; [set_solver|]). apply NoDup_nil_2.
Defined.

Lemma cleared_rule_is_forgotten_witness :
  let s := af_cache (serve redis_cfg cli "s1" "gpt-5" "vip" 7 empty_affinity) in
  ~ hybrid_holds redis_cfg (snd (ClearChannelAffinityCacheByRuleName redis_cfg cli "codex cli trace" s))
      (session_key (session_parts (sample_rule "codex cli trace" true false true) "gpt-5" "vip" "s1")) 7.
Proof.
  intros s. eapply (cleared_rule_is_forgotten (HL := plain_hot_laws) redis_cfg cli eq_refl "codex cli trace" s 1); try reflexivity.
  - by split.
  - discriminate.
Defined.

(** In both stores a session finds its own channel, and only it does. *)
Example sessions_are_apart :
  forallb (fun cfg =>
    let w := serve cfg cli "s2" "gpt-5" "vip" 9 (serve cfg cli "s1" "gpt-5" "vip" 7 empty_affinity) in
    bool_decide (find_session cfg cli "s1" "gpt-5" "vip" w = Some 7 /\ find_session cfg cli "s2" "gpt-5" "vip" w = Some 9 /\
                 find_session cfg cli "s1" "gpt-5" "default" w = None /\ find_session cfg cli "s3" "gpt-5" "vip" w = None)) [memory_cfg; redis_cfg] = true.
Proof. vm_compute. reflexivity. Qed.

(** The key is written with the name space in front and read without it, and
    only then loses a leading colon: a session whose name starts with one is
    never found, and reads the channel of another session. *)
Example leading_colon_reads_another_session :
  let bare := sample_setting (sample_rule "r" false false false) in
  let w := serve memory_cfg bare ":s1" "gpt-5" "vip" 9 empty_affinity in
  find_session memory_cfg bare ":s1" "gpt-5" "vip" w = None /\
  find_session memory_cfg bare ":s1" "gpt-5" "vip" (serve memory_cfg bare "s1" "gpt-5" "vip" 7 w) = Some 7.
Proof. vm_compute. done. Qed.

(** A blank in front of the name of a rule switches the rule off: what it
    records is not found. *)
Example padded_rule_is_never_found :
  let padded := sample_setting (sample_rule " cli" true false true) in
  find_session memory_cfg padded "s1" "gpt-5" "vip" (serve memory_cfg padded "s1" "gpt-5" "vip" 7 empty_affinity) = None.
Proof. vm_compute. done. Qed.

(** A colon in a part makes two sessions one. *)
Example colon_joins_sessions :
  let full := sample_setting (sample_rule "r" true true true) in
  find_session memory_cfg full "c:d" "gpt-5" "b" (serve memory_cfg full "d" "gpt-5" "b:c" 7 empty_affinity) = Some 7.
Proof. vm_compute. done. Qed.
End Concrete.
