(* ===== verification/Distribute.v ===== *)
(** * Sending a request to a channel

    src/middleware/distributor.go: [Distribute] chooses the channel of a
    request: the one its token is bound to, the one that served its session
    before (channel affinity), or a random one among those of its group.  After
    the handler has answered, the channel is remembered for the session.

    The model name read from the request, the group of a playground request
    and the identity of the caller are inputs; the handlers behind the
    middleware are a function [next].

    Whatever the cache of sessions answers, [Distribute] sends a request to a
    channel that is enabled, of a type that knows the model, and offered for
    the model in a group the request may use. *)

From stdpp Require Import base numbers list strings gmap.
From Stdlib Require Import ZArith Lia Ascii.
From S2P Require Import Prelude GoInt GoString GoText GoMonad ChannelTable ChannelCache ChannelHistory ChannelSelect HybridCache Affinity AffinitySafety.

Local Open Scope string_scope.
Local Open Scope list_scope.
Local Open Scope Z_scope.

(** A middleware aborts the request with a status, or goes on. *)
Inductive passage (A : Type) :=
  | Abort (status : Z) (message : string)
  | Go (a : A).
Arguments Abort {A} status message.
Arguments Go {A} a.

(** A channel, and whether it is the object of the memory cache. *)
Record Picked := mkPicked { pk_channel : Channel; pk_shared : bool }.

(** What the middleware is given. *)
Record Incoming := mkIncoming {
  in_SpecificChannelId : option string;          (* ContextKeyTokenSpecificChannelId *)
  in_ModelRequest : result (string * bool);      (* [getModelRequest]: model, shouldSelectChannel *)
  in_ModelLimitEnabled : bool;
  in_ModelLimit : option (gset string);          (* the names of the limit, when the key is set *)
  in_PlaygroundGroup : result string;            (* the group named in the body *)
  in_Request : GinRequest
}.

Section Distribute.
Context {J : Type} {RE : Regexps} {DG : Digests} {RC : RedisClient} {HC : HotCache Z} {CF : ChannelConfig}.
Context {JS : RawJSON}.

Record Web := mkWeb {
  wb_store : Store;
  wb_affinity : Affinity J;
  wb_select : SelContext;
  wb_usingGroup : string;                        (* ContextKeyUsingGroup *)
  wb_key : option string;                        (* ContextKeyChannelKey *)
  wb_override : gmap string (param J)            (* ContextKeyChannelParamOverride *)
}.

Definition with_store (st : Store) (w : Web) : Web :=
  mkWeb st (wb_affinity w) (wb_select w) (wb_usingGroup w) (wb_key w) (wb_override w).
Definition with_affinity (a : Affinity J) (w : Web) : Web :=
  mkWeb (wb_store w) a (wb_select w) (wb_usingGroup w) (wb_key w) (wb_override w).
Definition with_select (c : SelContext) (w : Web) : Web :=
  mkWeb (wb_store w) (wb_affinity w) c (wb_usingGroup w) (wb_key w) (wb_override w).
Definition with_group (g : string) (w : Web) : Web :=
  mkWeb (wb_store w) (wb_affinity w) (wb_select w) g (wb_key w) (wb_override w).

Context (cfg : HybridCacheConfig) (setting : ChannelAffinitySetting J) (cf : RelayConfig).
(** The draws, the parameters of a channel, and the order in which a map is iterated. *)
Context (rnd : Z -> Z) (GetParamOverride : Channel -> gmap string (param J))
        (order : gmap string (param J) -> list (string * param J)).

(** A call on the channel tables. *)
Definition on_store {A} (m : CM A) (w : Web) : result A * Web :=
  let '(r, st) := m (wb_store w) in (r, with_store st w).

Definition mark_used (group : string) (id : Z) (w : Web) : Web :=
  let a := wb_affinity w in
  with_affinity (mkAffinity (af_regex a) (af_cache a) (MarkChannelAffinityUsed group id (af_ctx a))) w.

(** The loop over the automatic groups. *)
Fixpoint first_offering (groups : list string) (modelName : string) (preferred : Channel) (w : Web) : option string * Web :=
  match groups with
  | [] => (None, w)
  | g :: rest =>
      let '(r, w) := on_store (IsChannelEnabledForGroupModel g modelName (c_Id preferred)) w in
      match r with
      | Ok true =>
          let sel := wb_select w in
          let w := with_select (mkSelContext (ContextKeyAutoGroupIndex sel) (ContextKeyAutoGroupRetryIndex sel) (Some g)) w in
          (Some g, mark_used g (c_Id preferred) w)
      | _ => first_offering rest modelName preferred w
      end
  end.

(** The channel that served the session before, when it still may. *)
Definition affinity_choice (d : Incoming) (modelName usingGroup : string) (w : Web)
    : passage (option (Picked * string)) * Web :=
  let '(found, a) := GetPreferredChannelByAffinity cfg setting (in_Request d) modelName usingGroup (wb_affinity w) in
  let w := with_affinity a w in
  match found with
  | None => (Go None, w)
  | Some preferredChannelID =>
      let '(r, w) := on_store (CacheGetChannel preferredChannelID) w in
      match r with
      | Err _ => (Go None, w)
      | Ok preferred =>
          if negb (IsChannelTypeCompatibleWithModel modelName (c_Type preferred)) then (Go None, w)
          else if negb (c_Status preferred =? ChannelStatusEnabled) then
            if ShouldSkipRetryAfterChannelAffinityFailure (af_ctx (wb_affinity w))
            then (Abort 403 "the channel of the session is disabled", w) else (Go None, w)
          else if String.eqb usingGroup "auto" then
            let '(g, w) := first_offering (GetUserAutoGroup (rc_groups cf) (rc_userGroup cf)) modelName preferred w in
            (Go (match g with Some g => Some (mkPicked preferred MemoryCacheEnabled, g) | None => None end), w)
          else
            let '(r, w) := on_store (IsChannelEnabledForGroupModel usingGroup modelName (c_Id preferred)) w in
            match r with
            | Ok true => (Go (Some (mkPicked preferred MemoryCacheEnabled, usingGroup)), mark_used usingGroup (c_Id preferred) w)
            | _ => (Go None, w)
            end
      end
  end.

(** The selection as the function the retry loop is written for. *)
Definition select_channel (modelName : string) (group : string) (retry : Z) (st : Store) : choice * Store :=
  let '(r, st) := getRandomSatisfiedChannel rnd group modelName retry st in
  (match r with Ok c => c | Err e => (None, Some e) end, st).

Definition random_choice (modelName usingGroup : string) (w : Web) : passage (Picked * string) * Web :=
  let '(c, g, e, _, sel, st) :=
    CacheGetRandomSatisfiedChannel (select_channel modelName) cf (mkRetryParam usingGroup (Some 0) false)
      (wb_select w) (wb_store w) in
  let w := with_select sel (with_store st w) in
  match e, c with
  | Some _, _ => (Abort 503 "get channel failed", w)
  | None, None => (Abort 503 "no available channel", w)
  | None, Some c => (Go (mkPicked c (MemoryCacheEnabled && negb (IsMiniMaxH3Model modelName)), g), w)
  end.

(** The group a playground request asks for. *)
Definition playground_group (d : Incoming) (w : Web) : passage string * Web :=
  let usingGroup := wb_usingGroup w in
  if HasPrefix (rq_Path (in_Request d)) "/pg/" then
    match in_PlaygroundGroup d with
    | Err _ => (Abort 400 "invalid playground request", w)
    | Ok g =>
        if String.eqb g "" then (Go usingGroup, w)
        else if negb (GroupInUserUsableGroups (rc_groups cf) usingGroup g) && negb (String.eqb g usingGroup)
        then (Abort 403 "group access denied", w)
        else (Go g, with_group g w)
    end
  else (Go usingGroup, w).

(** The token's list of models. *)
Definition model_allowed (d : Incoming) (modelName : string) : passage unit :=
  if negb (in_ModelLimitEnabled d) then Go tt
  else
    match in_ModelLimit d with
    | None => Abort 403 "no model access"
    | Some names => if bool_decide (FormatMatchingModelName modelName ∈ names) then Go tt else Abort 403 "model forbidden"
    end.

(** The channel a token is bound to. *)
Definition bound_channel (idText : string) (w : Web) : passage (option Picked) * Web :=
  match Atoi idText with
  | None => (Abort 400 "invalid channel id", w)
  | Some id =>
      let '(r, w) := on_store (GetChannelById id) w in
      match r with
      | Err _ => (Abort 400 "invalid channel id", w)
      | Ok c =>
          if negb (c_Status c =? ChannelStatusEnabled) then (Abort 403 "channel disabled", w)
          else (Go (Some (mkPicked c false)), w)
      end
  end.

(** The body of [Distribute] up to the choice, with the model name. *)
Definition route (d : Incoming) (w : Web) : passage (option Picked * string) * Web :=
  match in_ModelRequest d with
  | Err _ => (Abort 400 "invalid request", w)
  | Ok (modelName, shouldSelectChannel) =>
      match in_SpecificChannelId d with
      | Some idText =>
          match bound_channel idText w with
          | (Go p, w) => (Go (p, modelName), w)
          | (Abort st msg, w) => (Abort st msg, w)
          end
      | None =>
          match model_allowed d modelName with
          | Abort st msg => (Abort st msg, w)
          | Go _ =>
              if negb shouldSelectChannel then (Go (None, modelName), w)
              else if String.eqb modelName "" then (Abort 400 "model name required", w)
              else
                match playground_group d w with
                | (Abort st msg, w) => (Abort st msg, w)
                | (Go usingGroup, w) =>
                    match affinity_choice d modelName usingGroup w with
                    | (Abort st msg, w) => (Abort st msg, w)
                    | (Go (Some (p, _)), w) => (Go (Some p, modelName), w)
                    | (Go None, w) =>
                        match random_choice modelName usingGroup w with
                        | (Abort st msg, w) => (Abort st msg, w)
                        | (Go (p, _), w) => (Go (Some p, modelName), w)
                        end
                    end
                end
          end
      end
  end.

(** ** The context of the chosen channel *)

Definition CacheGetChannelInfo (id : Z) : CM ChannelInfo :=
  if MemoryCacheEnabled then
    r ← gets (fun s => channelsIDM s !! id);
    match r with Some c => mret (c_ChannelInfo c) | None => throw missing end
  else c ← GetChannelById id; mret (c_ChannelInfo c).

(** [SaveChannelInfo]: one column of the row. *)
Definition SaveChannelInfo (c : Channel) : CM unit :=
  update_channels (map (fun x => if c_Id x =? c_Id c then set_channel_info (c_ChannelInfo c) x else x)).

(** [channel.GetNextEnabledKey()] on the object that was picked.  The polling
    index moves on in that object; without the memory cache it is saved. *)
Definition next_key (p : Picked) : CM (string * Z) :=
  let c := pk_channel p in
  if pk_shared p then next_key_cached rnd (c_Id c)
  else
    let f := c_ChannelInfo c in
    let enabled := List.filter (key_enabled (ci_MultiKeyStatusList f)) (indexes (GetKeys c)) in
    let polls := ci_IsMultiKey f && negb (length enabled =? 0)%nat && String.eqb (ci_MultiKeyMode f) "polling" in
    if polls then
      info ← attempting (CacheGetChannelInfo (c_Id c));
      let '(r, c') := GetNextEnabledKey rnd info c in
      (if is_ok info && negb MemoryCacheEnabled then attempting (SaveChannelInfo c') ;; mret tt else mret tt) ;;
      lift r
    else lift (fst (GetNextEnabledKey rnd (Err missing) c)).

(** The error as a boolean: [true] when the context is complete.  The other
    keys it sets are copies of fields of the channel. *)
Definition SetupContextForSelectedChannel (p : option Picked) (w : Web) : bool * Web :=
  match p with
  | None => (false, w)
  | Some p =>
      let c := pk_channel p in
      let a := wb_affinity w in
      let x := af_ctx a in
      let x := mkContext (cx_CacheKey x) (cx_TTLSeconds x) (cx_Meta x) (cx_LogInfo x) (cx_SkipRetry x) (c_Id c) in
      let '(override, _, x) := ApplyChannelAffinityOverrideTemplate order (GetParamOverride c) x in
      let w := mkWeb (wb_store w) (mkAffinity (af_regex a) (af_cache a) x) (wb_select w) (wb_usingGroup w) (wb_key w) override in
      let '(r, w) := on_store (next_key p) w in
      match r with
      | Err _ => (false, w)
      | Ok (key, _) => (true, mkWeb (wb_store w) (wb_affinity w) (wb_select w) (wb_usingGroup w) (Some key) (wb_override w))
      end
  end.

(** The handlers behind the middleware: the status they answer with. *)
Context (next : Web -> Z * Web).

Definition Distribute (d : Incoming) (w : Web) : passage unit * Web :=
  match route d w with
  | (Abort st msg, w) => (Abort st msg, w)
  | (Go (p, _), w) =>
      let '(_, w) := SetupContextForSelectedChannel p w in
      let '(status, w) := next w in
      match p with
      | Some p => if status <? 400 then (Go tt, with_affinity (RecordChannelAffinity cfg setting (c_Id (pk_channel p)) (wb_affinity w)) w)
                  else (Go tt, w)
      | None => (Go tt, w)
      end
  end.
End Distribute.
#[global] Arguments Web J {RE RC HC}.

(** ** The objects and lists a choice relies on *)

(** Each object of the memory cache is under its own id. *)
Definition keyed (s : Store) : Prop := forall i c, channelsIDM s !! i = Some c -> c_Id c = i.

(** The memory cache lists the channel for the model, or for its normal form. *)
Definition in_cache (s : Store) (g m : string) (c : Channel) : Prop :=
  channelsIDM s !! c_Id c = Some c /\ is_enabled c = true /\
  (c_Id c ∈ entry (group2model2channels s) g m \/ c_Id c ∈ entry (group2model2channels s) g (FormatMatchingModelName m)).

(** An enabled row of the abilities offers the channel. *)
Definition offered_in_table (s : Store) (g m : string) (c : Channel) : Prop :=
  find_channel (c_Id c) (st_channels s) = Some c /\
  exists a, a ∈ st_abilities s /\ serves g m a = true /\ a_ChannelId a = c_Id c.

(** The models that only some types of channels know are looked up in the database. *)
Definition offered (s : Store) (g m : string) (c : Channel) : Prop :=
  in_cache s g m c \/ IsMiniMaxH3Model m = true /\ offered_in_table s g m c.

(** Only the log of database replies differs. *)
Definition same_but_replies (s s' : Store) : Prop := exists r, s' = with_replies r s.

Lemma same_but_replies_refl s : same_but_replies s s.
Proof. exists (st_replies s). by destruct s. Qed.
Lemma same_but_replies_trans s1 s2 s3 : same_but_replies s1 s2 -> same_but_replies s2 s3 -> same_but_replies s1 s3.
Proof. intros [r ->] [r' ->]. by exists r'. Qed.
#[export] Hint Resolve same_but_replies_refl : router.

Lemma query_same {A} (f : Store -> A) s :
  same_but_replies s (snd (query f s)) /\ forall a, fst (query f s) = Ok a -> exists r, a = f (with_replies r s).
Proof.
  unfold query, db_reply, gets, mbind, GM_bind. destruct s as [chs abs n [|[] r] g idm]; cbn.
  - split; [apply same_but_replies_refl|]. intros a [= <-]. by exists [].
  - split; [by exists r|]. intros a [= <-]. by exists r.
  - split; [by exists r|]. intros a. discriminate.
Qed.

Lemma offered_same s s' g m c : same_but_replies s s' -> offered s' g m c -> offered s g m c.
Proof. intros [r ->]. done. Qed.

Section Safety.
Context {J : Type} {RE : Regexps} {DG : Digests} {RC : RedisClient} {HC : HotCache Z} {CF : ChannelConfig}.
Context {LO : Lo} {JS : RawJSON} {SS : SliceSort}.
Hypothesis memory : MemoryCacheEnabled = true.

(** ** The random choice *)

Lemma resolve_in idm ids : forall cs c, resolve idm ids = Some cs -> c ∈ cs -> exists i, i ∈ ids /\ idm !! i = Some c.
Proof.
  induction ids as [|i ids IH]; cbn; intros cs c E Hc; [injection E as <-; set_solver|].
  destruct (idm !! i) as [d|] eqn:Ed; [|done]. destruct (resolve idm ids) as [ds|]; [|done].
  injection E as <-. apply elem_of_cons in Hc as [->|Hc]; [set_solver|].
  destruct (IH ds c eq_refl Hc) as (j & ? & ?). exists j. set_solver.
Qed.

Lemma cached_choice_listed rnd g m retry s c e : cache_history s -> keyed s ->
  cached_choice rnd g m retry s = (Some c, e) -> in_cache s g m c.
Proof.
  intros HH HK E. pose proof (cache_history_ok s HH) as Hok.
  assert (exists i, i ∈ candidates (group2model2channels s) g m /\ channelsIDM s !! i = Some c) as (i & Hi & Hc).
  { unfold cached_choice in E. destruct (candidates _ _ _) as [|i [|j ids]]; [done| |].
    - destruct (channelsIDM s !! i) eqn:Ei; [|done]. injection E as <- <-. exists i. set_solver.
    - destruct (resolve _ _) as [cs|] eqn:Er; [|done]. pose proof (choose_among_in rnd retry cs) as H.
      rewrite E in H. destruct H as [Hc _]. by eapply resolve_in. }
  pose proof (HK i c Hc) as <-. unfold candidates in Hi.
  assert (Hl : c_Id c ∈ entry (group2model2channels s) g m \/ c_Id c ∈ entry (group2model2channels s) g (FormatMatchingModelName m)).
  { destruct (entry _ g m) as [|x l] eqn:El; [by right | left; exact Hi]. }
  split; [done|]. split; [|done].
  destruct Hl as [Hl|Hl]; apply (Hok g) in Hl as (d & Hd & He); congruence.
Qed.

Lemma draw_ability_in rows : forall r i, draw_ability r rows = Some i -> exists a, a ∈ rows /\ a_ChannelId a = i.
Proof.
  induction rows as [|a rows IH]; cbn; intros r i; [done|]. case_match; [intros [= <-]; set_solver|].
  intros (b & ? & ?)%IH. exists b. set_solver.
Qed.

Lemma last_in {A} (l : list A) d : l <> [] -> List.last l d ∈ l.
Proof. induction l as [|x [|y l] IH]; intros; [done | set_solver|]. specialize (IH ltac:(done)). set_solver. Qed.

Lemma find_channel_id id l c : find_channel id l = Some c -> c ∈ l /\ c_Id c = id.
Proof. unfold find_channel. intros [H E]%List.find_some. split; [by apply list_elem_of_In | by apply Z.eqb_eq]. Qed.

Lemma same_id (l : list Channel) c d : NoDup (map c_Id l) -> c ∈ l -> d ∈ l -> c_Id c = c_Id d -> c = d.
Proof.
  induction l as [|x l IH]; cbn; intros HN Hc Hd E; [set_solver|]. apply NoDup_cons in HN as [Hx HN].
  assert (Hin : forall y, y ∈ l -> c_Id y = c_Id x -> False).
  { intros y Hy Ey. apply Hx. rewrite <- Ey. apply list_elem_of_In, in_map. by apply list_elem_of_In. }
  apply elem_of_cons in Hc as [->|Hc]; apply elem_of_cons in Hd as [->|Hd]; [done| | |auto]; exfalso; by eapply Hin.
Qed.

Lemma GetChannelById_in id s :
  same_but_replies s (snd (GetChannelById id s)) /\
  forall c, fst (GetChannelById id s) = Ok c -> find_channel id (st_channels s) = Some c.
Proof.
  unfold GetChannelById, mbind, GM_bind. destruct (query_same (fun s => find_channel id (st_channels s)) s) as [H1 H2].
  destruct (query _ s) as [[o|e] s1]; cbn [fst snd] in *; [|done]. destruct (H2 o eq_refl) as [r ->]. cbn [with_replies st_channels].
  destruct (find_channel id (st_channels s)); (split; [exact H1|]; intros ? E; by inversion E).
Qed.

Lemma by_types_offered rnd g m retry types s c e : NoDup (map c_Id (st_channels s)) -> types <> [] ->
  fst (GetChannelByTypes rnd g m retry types s) = Ok (Some c, e) ->
  offered_in_table s g m c /\ existsb (Z.eqb (c_Type c)) types = true.
Proof.
  intros HN Ht. unfold GetChannelByTypes. destruct types as [|t0 ts]; [done|]. set (types := t0 :: ts) in *.
  match goal with |- context [query ?f s] => destruct (query_same f s) as [[r0 H1] H2]; destruct (query f s) as [[rows|err] s1] end; [|done].
  cbn in H1, H2. destruct (H2 rows eq_refl) as [r Hr]. subst s1. cbn in Hr.
  assert (Hrow : forall a, a ∈ rows -> a ∈ st_abilities s /\ serves g m a = true /\
     exists d, d ∈ st_channels s /\ c_Id d = a_ChannelId a /\ existsb (Z.eqb (c_Type d)) types = true).
  { intros a Ha. rewrite Hr in Ha. apply list_elem_of_In, List.filter_In in Ha as [Ha Hb]. split_bool. split; [by apply list_elem_of_In|].
    split; [done|]. apply existsb_exists in H0 as (d & Hd & Hd2). split_bool. exists d. split; [by apply list_elem_of_In|].
    split; [by apply Z.eqb_eq | done]. }
  clear H2 Hr. destruct rows as [|a0 rows]; [done|]. destruct (target_priority _ _) as [p|]; [|done].
  destruct (List.filter _ (a0 :: rows)) as [|t targets] eqn:Ef; [done|]. destruct (Intn _ _) as [x|]; [|done].
  set (id := default _ _).
  assert (exists a, a ∈ a0 :: rows /\ a_ChannelId a = id) as (a & Ha & Hid).
  { assert (Hin : forall a, a ∈ t :: targets -> a ∈ a0 :: rows).
    { intros a Ha. rewrite <- Ef in Ha. apply list_elem_of_In, List.filter_In in Ha as [Ha _]. by apply list_elem_of_In. }
    unfold id. destruct (draw_ability x (t :: targets)) as [i|] eqn:Ed; cbn [default].
    - apply draw_ability_in in Ed as (a & ? & <-). eauto.
    - eexists. split; [apply Hin, last_in; discriminate | done]. }
  destruct (GetChannelById_in id (with_replies r0 s)) as [_ HG]. destruct (GetChannelById id _) as [[d|err] s2]; [|done].
  cbn in *. intros [= -> _]. specialize (HG c eq_refl). destruct (find_channel_id _ _ _ HG) as [Hc Hci].
  destruct (Hrow a Ha) as (Hab & Hs & d & Hd & Hdi & Hdt). split.
  - split; [by rewrite Hci|]. exists a. split_and!; congruence.
  - rewrite (same_id (st_channels s) c d); [done|done|done|done|]. congruence.
Qed.

Lemma by_types_same rnd g m retry types s : types <> [] -> same_but_replies s (snd (GetChannelByTypes rnd g m retry types s)).
Proof.
  intros Ht. unfold GetChannelByTypes. destruct types as [|t0 ts]; [done|].
  match goal with |- context [query ?f s] => destruct (query_same f s) as [H1 _]; destruct (query f s) as [[rows|err] s1] end; [|done].
  cbn in H1. destruct rows; [done|]. destruct (target_priority _ _); [|done]. destruct (List.filter _ _); [done|].
  destruct (Intn _ _); [|done]. match goal with |- context [GetChannelById ?i s1] =>
    destruct (GetChannelById_in i s1) as [H2 _]; destruct (GetChannelById i s1) as [[d|e] s2] end; by eapply same_but_replies_trans.
Qed.

(** What the choices rely on. *)
Definition choosable (s : Store) : Prop := cache_history s /\ keyed s /\ NoDup (map c_Id (st_channels s)).

Lemma choosable_same s s' : same_but_replies s s' -> choosable s -> choosable s'.
Proof. intros [r ->] (HH & HK & HN). split_and!; [by apply cache_tables | done | done]. Qed.

(** The channel may serve the model in the group. *)
Definition may_serve (s : Store) (g m : string) (c : Channel) : Prop :=
  offered s g m c /\ IsChannelTypeCompatibleWithModel m (c_Type c) = true.

Lemma may_serve_same s s' g m c : same_but_replies s s' -> may_serve s' g m c -> may_serve s g m c.
Proof. intros Hs [H1 H2]. split; [by eapply offered_same | done]. Qed.

Lemma select_may_serve rnd m g retry s c e s' : choosable s ->
  select_channel rnd m g retry s = ((Some c, e), s') -> may_serve s g m c.
Proof.
  intros (HH & HK & HN). unfold select_channel, getRandomSatisfiedChannel. destruct (IsMiniMaxH3Model m) eqn:Hm.
  - pose proof (by_types_offered rnd g m retry [ChannelTypeSora; ChannelTypeOpenAI; ChannelTypeAutodl] s c e HN ltac:(done)) as H.
    destruct (GetChannelByTypes _ _ _ _ _ s) as [[ch|] s1]; [|done]. cbn in H. intros [= -> ->]. destruct (H eq_refl) as [H1 H2].
    split; [by right|]. unfold IsChannelTypeCompatibleWithModel. rewrite Hm. cbn. rewrite orb_false_r in H2. by rewrite <- orb_assoc.
  - unfold GetRandomSatisfiedChannel. rewrite memory. cbn. intros [= E ->].
    split; [left; by eapply cached_choice_listed|]. unfold IsChannelTypeCompatibleWithModel. by rewrite Hm.
Qed.

Lemma select_same rnd m g retry s : same_but_replies s (snd (select_channel rnd m g retry s)).
Proof.
  unfold select_channel, getRandomSatisfiedChannel. destruct (IsMiniMaxH3Model m).
  - pose proof (by_types_same rnd g m retry [ChannelTypeSora; ChannelTypeOpenAI; ChannelTypeAutodl] s ltac:(done)) as H.
    by destruct (GetChannelByTypes _ _ _ _ _ s).
  - unfold GetRandomSatisfiedChannel. rewrite memory. apply same_but_replies_refl.
Qed.

Lemma auto_loop_may_serve rnd cf m start groups : forall i p ctx s c g p' ctx' s',
  auto_loop (select_channel rnd m) cf start i groups p ctx s = (c, g, p', ctx', s') ->
  same_but_replies s s' /\ forall ch, choosable s -> c = Some ch -> g ∈ groups /\ may_serve s g m ch.
Proof.
  induction groups as [|g0 groups IH]; intros i p ctx s c g p' ctx' s'; cbn [auto_loop].
  { intros [= <- <- <- <- <-]. split; [auto with router | done]. }
  set (retry := if start <? i then 0 else GetRetry p).
  pose proof (select_same rnd m g0 retry s) as Hsame.
  destruct (select_channel rnd m g0 retry s) as [[[ch|] e] s1] eqn:E; cbn in Hsame.
  - intros H. assert (c = Some ch /\ g = g0 /\ s' = s1) as (-> & -> & ->) by (destruct (_ && _); naive_solver).
    split; [done|]. intros ? HR [= <-]. split; [left | by eapply select_may_serve].
  - intros H. apply IH in H as [H1 H2]. split; [by eapply same_but_replies_trans|].
    intros ch HR Hc. destruct (H2 ch (choosable_same _ _ Hsame HR) Hc). split; [by right | by eapply may_serve_same].
Qed.

(** The groups a request may be served in. *)
Definition group_of (cf : RelayConfig) (usingGroup g : string) : Prop :=
  if String.eqb usingGroup "auto" then g ∈ GetUserAutoGroup (rc_groups cf) (rc_userGroup cf) else g = usingGroup.

Lemma select_group_may_serve rnd cf m usingGroup ctx s c g e p' ctx' s' p : rp_TokenGroup p = usingGroup ->
  CacheGetRandomSatisfiedChannel (select_channel rnd m) cf p ctx s = (c, g, e, p', ctx', s') ->
  same_but_replies s s' /\ forall ch, choosable s -> c = Some ch -> group_of cf usingGroup g /\ may_serve s g m ch.
Proof.
  intros <-. unfold CacheGetRandomSatisfiedChannel, group_of. destruct (String.eqb (rp_TokenGroup p) "auto").
  - destruct (_ =? 0)%nat; [intros [= <- <- <- <- <- <-]; split; [auto with router | done]|].
    destruct (auto_loop _ _ _ _ _ _ _ _) as [[[[c1 g1] p1] ctx1] s1] eqn:E. intros [= <- <- <- <- <- <-].
    apply auto_loop_may_serve in E as [H1 H2]. split; [done|]. intros ch HR Hc. destruct (H2 ch HR Hc) as [Hg Hm].
    split; [|done]. apply list_elem_of_In. apply list_elem_of_In in Hg. rewrite <- (take_drop (Z.to_nat (default 0 (ContextKeyAutoGroupIndex ctx))) (GetUserAutoGroup _ _)).
    apply in_app_iff. by right.
  - pose proof (select_same rnd m (rp_TokenGroup p) (GetRetry p) s) as Hsame.
    destruct (select_channel rnd m (rp_TokenGroup p) (GetRetry p) s) as [[ch e1] s1] eqn:E. cbn in Hsame.
    destruct e1; intros [= <- <- <- <- <- <-]; (split; [done|]); [done|].
    intros d HR ->. split; [done|]. by eapply select_may_serve.
Qed.

Context (cfg : HybridCacheConfig) (setting : ChannelAffinitySetting J) (cf : RelayConfig) (rnd : Z -> Z).

Lemma random_choice_may_serve m usingGroup (w w' : Web J) v :
  random_choice cf rnd m usingGroup w = (v, w') ->
  same_but_replies (wb_store w) (wb_store w') /\
  forall p g, choosable (wb_store w) -> v = Go (p, g) -> group_of cf usingGroup g /\ may_serve (wb_store w) g m (pk_channel p).
Proof.
  unfold random_choice.
  destruct (CacheGetRandomSatisfiedChannel _ _ _ _ _) as [[[[[c g] e] p'] ctx'] s'] eqn:E.
  eapply select_group_may_serve in E as [H1 H2]; [|reflexivity].
  destruct e as [err|]; [intros [= <- <-]; done|]. destruct c as [c|]; intros [= <- <-]; (split; [done|]); [|done].
  intros p g0 HR [= <- <-]. by apply H2.
Qed.

(** ** The choice by affinity *)

Lemma enabled_in_cache g m id s :
  IsChannelEnabledForGroupModel g m id s = (Ok (is_ok (fst (IsChannelEnabledForGroupModel g m id s)) &&
    match fst (IsChannelEnabledForGroupModel g m id s) with Ok b => b | Err _ => false end), s).
Proof. unfold IsChannelEnabledForGroupModel. rewrite memory. by destruct (_ || _). Qed.

Lemma enabled_listed g m c s : channelsIDM s !! c_Id c = Some c -> is_enabled c = true ->
  fst (IsChannelEnabledForGroupModel g m (c_Id c) s) = Ok true -> in_cache s g m c.
Proof.
  intros Hc He. unfold IsChannelEnabledForGroupModel. rewrite memory. destruct (_ || _); [done|]. cbn.
  assert (HL : forall l, isChannelIDInList l (c_Id c) = true -> c_Id c ∈ l).
  { intros l. unfold isChannelIDInList. intros (x & Hx & ->%Z.eqb_eq)%existsb_exists. by apply list_elem_of_In. }
  intros [= E]. split; [done|]. split; [done|]. destruct (isChannelIDInList (entry _ g m) _) eqn:E1; [left; auto|].
  destruct (_ && _); [right; auto | done].
Qed.

Lemma first_offering_listed m c : forall groups (w w' : Web J) g,
  first_offering groups m c w = (g, w') ->
  wb_store w' = wb_store w /\ forall h, channelsIDM (wb_store w) !! c_Id c = Some c -> is_enabled c = true ->
    g = Some h -> h ∈ groups /\ in_cache (wb_store w) h m c.
Proof.
  induction groups as [|g0 groups IH]; intros w w' g; cbn [first_offering]; [by intros [= <- <-]|].
  unfold on_store. pose proof (enabled_listed g0 m c (wb_store w)) as HL.
  rewrite enabled_in_cache. destruct (IsChannelEnabledForGroupModel g0 m (c_Id c) (wb_store w)) as [[[]|e] s1]; cbn in *.
  - intros [= <- <-]. split; [done|]. intros h Hc He [= <-]. split; [left | by apply HL].
  - intros E. apply IH in E as [H1 H2]. split; [done|]. intros h Hc He Hh. destruct (H2 h Hc He Hh). split; [by right | done].
  - intros E. apply IH in E as [H1 H2]. split; [done|]. intros h Hc He Hh. destruct (H2 h Hc He Hh). split; [by right | done].
Qed.

Lemma affinity_choice_listed d m usingGroup (w w' : Web J) v :
  affinity_choice cfg setting cf d m usingGroup w = (v, w') ->
  wb_store w' = wb_store w /\
  forall p g, keyed (wb_store w) -> v = Go (Some (p, g)) ->
    group_of cf usingGroup g /\ in_cache (wb_store w) g m (pk_channel p) /\
    IsChannelTypeCompatibleWithModel m (c_Type (pk_channel p)) = true.
Proof.
  unfold affinity_choice, on_store.
  destruct (GetPreferredChannelByAffinity _ _ _ _ _ _) as [[id|] a]; [|by intros [= <- <-]].
  unfold CacheGetChannel. rewrite memory. cbn [wb_store with_affinity]. unfold mbind, GM_bind, gets.
  destruct (channelsIDM (wb_store w) !! id) as [c|] eqn:Hc; [|by intros [= <- <-]]. cbn.
  destruct (IsChannelTypeCompatibleWithModel m (c_Type c)) eqn:Ht; [cbn|by intros [= <- <-]].
  destruct (Z.eqb_spec (c_Status c) ChannelStatusEnabled) as [Es|]; [cbn|destruct (ShouldSkipRetryAfterChannelAffinityFailure _); by intros [= <- <-]].
  assert (He : is_enabled c = true) by by apply bool_decide_eq_true. unfold group_of.
  destruct (String.eqb usingGroup "auto").
  - set (w1 := with_store _ _). destruct (first_offering _ _ _ w1) as [g w2] eqn:E.
    apply first_offering_listed in E as [H1 H2]. intros [= <- <-]. split; [done|].
    intros p h HK Hp. pose proof (HK id c Hc) as <-. destruct g as [g|]; [|done]. injection Hp as <- <-. by destruct (H2 g Hc He eq_refl).
  - pose proof (fun Hc => enabled_listed usingGroup m c (wb_store w) Hc He) as HL. rewrite enabled_in_cache.
    destruct (IsChannelEnabledForGroupModel usingGroup m (c_Id c) (wb_store w)) as [[[]|e] s1]; cbn in *;
      intros [= <- <-]; (split; [done|]); intros p h HK [=]; subst. pose proof (HK id c Hc) as <-. cbn. auto.
Qed.

(** ** The whole choice *)

(** The group in force: the caller's, or one the playground may use. *)
Definition group_in_force (d : Incoming) (own usingGroup : string) : Prop :=
  usingGroup = own \/ GroupInUserUsableGroups (rc_groups cf) own usingGroup = true.

Lemma playground_group_ok d (w w' : Web J) v : playground_group cf d w = (v, w') ->
  wb_store w' = wb_store w /\ wb_affinity w' = wb_affinity w /\
  forall g, v = Go g -> group_in_force d (wb_usingGroup w) g /\ wb_usingGroup w' = g.
Proof.
  unfold playground_group, group_in_force. destruct (HasPrefix _ _); [|intros [= <- <-]; naive_solver].
  destruct (in_PlaygroundGroup d) as [g|]; [|by intros [= <- <-]]. destruct (String.eqb g ""); [intros [= <- <-]; naive_solver|].
  destruct (GroupInUserUsableGroups _ _ g) eqn:E; cbn; [intros [= <- <-]; naive_solver|].
  destruct (String.eqb_spec g (wb_usingGroup w)) as [->|]; cbn; intros [= <- <-]; naive_solver.
Qed.

Lemma route_spec d (w w' : Web J) v :
  route cfg setting cf rnd d w = (v, w') ->
  same_but_replies (wb_store w) (wb_store w') /\
  forall p m, choosable (wb_store w) -> in_SpecificChannelId d = None -> v = Go (Some p, m) ->
    model_allowed d m = Go tt /\ m <> "" /\
    exists usingGroup g, group_in_force d (wb_usingGroup w) usingGroup /\ group_of cf usingGroup g /\
      may_serve (wb_store w) g m (pk_channel p).
Proof.
  unfold route.
  destruct (in_ModelRequest d) as [[m chooses]|]; [|intros [= <- <-]; split; [apply same_but_replies_refl | done]].
  destruct (in_SpecificChannelId d) as [idText|] eqn:Hpin.
  { unfold bound_channel, on_store. destruct (Atoi idText) as [id|]; [|intros [= <- <-]; split; [apply same_but_replies_refl | done]].
    destruct (GetChannelById_in id (wb_store w)) as [Hs _]. destruct (GetChannelById id (wb_store w)) as [[c|e] s1]; cbn in *;
      [destruct (negb _)|]; intros [= <- <-]; done. }
  destruct (model_allowed d m) as [|[]] eqn:Hlim; [intros [= <- <-]; split; [apply same_but_replies_refl | done]|].
  destruct chooses; cbn; [|intros [= <- <-]; split; [apply same_but_replies_refl | done]].
  destruct (String.eqb_spec m "") as [|Hm]; [intros [= <- <-]; split; [apply same_but_replies_refl | done]|].
  destruct (playground_group cf d w) as [vg w1] eqn:Eg. apply playground_group_ok in Eg as (Hs1 & _ & Hg).
  destruct vg as [|usingGroup]; [intros [= <- <-]; rewrite Hs1; split; [apply same_but_replies_refl | done]|].
  destruct (Hg usingGroup eq_refl) as [Hforce _]. clear Hg.
  destruct (affinity_choice cfg setting cf d m usingGroup w1) as [va w2] eqn:Ea.
  apply affinity_choice_listed in Ea as [Hs2 Ha]. rewrite Hs1 in Hs2, Ha.
  destruct va as [|[[p g]|]].
  - intros [= <- <-]. rewrite Hs2. split; [apply same_but_replies_refl | done].
  - intros [= <- <-]. rewrite Hs2. split; [apply same_but_replies_refl|]. intros p0 m0 HR _ [= <- <-].
    destruct (Ha p g ltac:(apply HR) eq_refl) as (? & ? & ?). split_and!; [done | done|]. exists usingGroup, g. split_and!; [done | done|].
    split; [by left | done].
  - destruct (random_choice cf rnd m usingGroup w2) as [vr w3] eqn:Er.
    apply random_choice_may_serve in Er as [Hs3 Hr]. rewrite Hs2 in Hs3, Hr.
    destruct vr as [|[p g]]; intros [= <- <-]; (split; [done|]); [done|]. intros p0 m0 HR _ [= <- <-].
    destruct (Hr p g HR eq_refl) as [? ?]. split_and!; [done | done|]. by exists usingGroup, g.
Qed.


(** ** The life of a process *)

Definition keeps_keyed {A} (m : CM A) : Prop := forall s, keyed s -> keyed (snd (m s)).

Lemma keeps_keyed_bind {A B} (m : CM A) (f : A -> CM B) :
  keeps_keyed m -> (forall a, keeps_keyed (f a)) -> keeps_keyed (m ≫= f).
Proof.
  intros Hm Hf s Hs. specialize (Hm s Hs). unfold mbind, GM_bind. destruct (m s) as [[a|e] s1]; [by apply Hf | done].
Qed.
Lemma keeps_keyed_cache {A} (m : CM A) : keeps_cache m -> keeps_keyed m.
Proof. intros H s Hs i c. destruct (H s) as [_ ->]. apply Hs. Qed.

(** Replacing an object by one with its id. *)
Lemma keyed_insert s g2m i c c' : keyed s -> channelsIDM s !! i = Some c -> c_Id c' = c_Id c ->
  keyed (with_cache g2m (<[i := c']> (channelsIDM s)) s).
Proof.
  intros Hs Hc E j d. cbn. rewrite lookup_insert_Some. intros [[<- <-]|[_ Hj]]; [|by apply Hs]. rewrite E. by apply Hs.
Qed.

Lemma keyed_status id status : keeps_keyed (CacheUpdateChannelStatus id status).
Proof.
  intros s Hs. unfold CacheUpdateChannelStatus. destruct MemoryCacheEnabled; [|done]. cbn.
  destruct (channelsIDM s !! id) as [c|] eqn:E; [by eapply keyed_insert | done].
Qed.

Lemma handler_id c usingKey status : c_Id (handlerMultiKeyUpdate c usingKey status) = c_Id c.
Proof. unfold handlerMultiKeyUpdate. repeat case_match; done. Qed.

Lemma keyed_update id usingKey status : keeps_keyed (UpdateChannelStatus id usingKey status).
Proof.
  apply keeps_keyed_bind.
  - rewrite memory. intros s Hs. unfold cache_status, mbind at 1, GM_bind at 1, gets.
    destruct (channelsIDM s !! id) as [c|] eqn:E; [|done]. destruct (ci_IsMultiKey _).
    + unfold mbind, GM_bind, modify. set (s1 := with_cache _ _ s).
      assert (keyed s1) as Hs1 by (eapply keyed_insert; [done | done | apply handler_id]).
      destruct (_ =? _); [done|]. pose proof (keyed_status id (c_Status (handlerMultiKeyUpdate c usingKey status)) s1 Hs1) as H.
      by destruct (CacheUpdateChannelStatus _ _ s1) as [[[]|] s2].
    + destruct (_ =? _); [done|]. apply keeps_keyed_bind; [apply keyed_status | | done]. by intros [] t Ht.
  - intros []; [by intros s|]. apply keeps_keyed_cache, store_status_keeps_cache.
Qed.

Lemma by_id_keyed chs i c : by_id chs !! i = Some c -> c_Id c = i.
Proof.
  unfold by_id. assert (forall m : gmap Z Channel, (forall j d, m !! j = Some d -> c_Id d = j) ->
    forall j d, foldl (fun m c => <[c_Id c := c]> m) m chs !! j = Some d -> c_Id d = j) as H; [|by apply H].
  induction chs as [|x chs IH]; intros m Hm; [done|]. cbn. apply IH. intros j d. rewrite lookup_insert_Some. naive_solver.
Qed.

Lemma keyed_init : keeps_keyed InitChannelCache.
Proof.
  unfold InitChannelCache. rewrite memory. assert (HF : forall A (f : Store -> list A), keeps_keyed (find_all f)).
  { intros A f. apply keeps_keyed_bind; [|by intros a s]. apply keeps_keyed_cache, keeps_cache_attempting, keeps_cache_bind;
      [apply keeps_cache_reply | intros; by apply keeps_cache_pure]. }
  apply keeps_keyed_bind; [apply HF|]. intros chs. apply keeps_keyed_bind; [apply HF|]. intros abs.
  destruct (build_cache chs abs); [|by intros s]. intros s Hs i c. cbn. rewrite map_lookup_imap.
  destruct (by_id chs !! i) as [d|] eqn:E; [|done]. cbn. intros [= <-].
  destruct (carry_over_same (channelsIDM s) i d) as [-> _]. by eapply by_id_keyed.
Qed.

Lemma next_key_id rnd' info c : c_Id (snd (GetNextEnabledKey rnd' info c)) = c_Id c.
Proof. unfold GetNextEnabledKey. repeat case_match; done. Qed.

Lemma keyed_next_key rnd' id : keeps_keyed (next_key_cached rnd' id).
Proof.
  intros s Hs. unfold next_key_cached. destruct (channelsIDM s !! id) as [c|] eqn:E; [|done].
  pose proof (next_key_id rnd' (Ok (c_ChannelInfo c)) c) as H. destruct (GetNextEnabledKey _ _ c) as [r c']. cbn in *.
  by eapply keyed_insert.
Qed.

Context (GetParamOverride : Channel -> gmap string (param J)) (order : gmap string (param J) -> list (string * param J)).

(** The cache of a process from its start: it is filled from tables whose
    channels list each group and model once, statuses change, other processes
    change the tables, and requests are distributed. *)
Inductive router_history : Store -> Prop :=
  | router_new s : group2model2channels s = ∅ -> channelsIDM s = ∅ -> router_history s
  | router_init s : router_history s -> tidy_table s -> router_history (snd (InitChannelCache s))
  | router_update s id usingKey status : router_history s -> router_history (snd (UpdateChannelStatus id usingKey status s))
  | router_direct s id status : router_history s -> router_history (snd (CacheUpdateChannelStatus id status s))
  | router_tables s chs abs n replies : router_history s ->
      router_history (mkStore chs abs n replies (group2model2channels s) (channelsIDM s))
  | router_choice w d : router_history (wb_store w) -> router_history (wb_store (snd (route cfg setting cf rnd d w)))
  | router_setup w p : router_history (wb_store w) ->
      router_history (wb_store (snd (SetupContextForSelectedChannel rnd GetParamOverride order p w))).

Lemma setup_history (w : Web J) p : cache_history (wb_store w) -> keyed (wb_store w) ->
  let s' := wb_store (snd (SetupContextForSelectedChannel rnd GetParamOverride order p w)) in cache_history s' /\ keyed s'.
Proof.
  intros HH HK. unfold SetupContextForSelectedChannel. destruct p as [p|]; [|done].
  destruct (ApplyChannelAffinityOverrideTemplate _ _ _) as [[over applied] x]. unfold on_store. cbn [wb_store].
  assert (cache_history (snd (next_key rnd p (wb_store w))) /\ keyed (snd (next_key rnd p (wb_store w)))) as [H1 H2].
  { unfold next_key. destruct (pk_shared p); [split; [by apply cache_key | by apply keyed_next_key]|].
    assert (snd (next_key rnd (mkPicked (pk_channel p) false) (wb_store w)) = wb_store w) as E.
    { unfold next_key. cbn [pk_shared pk_channel]. destruct (_ && _ && _); [|done]. unfold CacheGetChannelInfo. rewrite memory.
      unfold attempting, mbind, GM_bind, gets. destruct (channelsIDM (wb_store w) !! _); cbn; destruct (GetNextEnabledKey _ _ _); cbn; done. }
    unfold next_key in E. cbn [pk_shared pk_channel] in E. by rewrite E. }
  destruct (next_key rnd p (wb_store w)) as [[[key i]|e] s1]; done.
Qed.

Lemma router_history_ok s : router_history s -> cache_history s /\ keyed s.
Proof.
  induction 1 as [s Eg Ei|s _ [IH1 IH2] Ht|s id usingKey status _ [IH1 IH2]|s id status _ [IH1 IH2]|s chs abs n replies _ [IH1 IH2]|w d _ [IH1 IH2]|w p _ [IH1 IH2]].
  - split; [by apply cache_new|]. intros i c. by rewrite Ei, lookup_empty.
  - split; [by apply cache_init | by apply keyed_init].
  - split; [by apply cache_update | by apply keyed_update].
  - split; [by apply cache_direct | by apply keyed_status].
  - split; [by apply cache_tables | done].
  - destruct (route cfg setting cf rnd d w) as [v w'] eqn:E. destruct (route_spec d w w' v E) as [[r Er] _]. cbn [snd]. rewrite Er.
    split; [by apply cache_tables | done].
  - by apply setup_history.
Qed.

(** C4. With the memory cache on, take a process whose cache was only ever
    filled from tables with unique ids in which every channel lists each group
    and each model once (otherwise [duplicate_model_survives_disable]), after
    any further status changes, choices, failing database calls and changes of
    the tables by others, and a request that is not bound to a channel, while
    ids are unique in the table.  If the request is sent to a channel, whatever
    the cache of sessions answers, then the token's model list admits the model,
    the channel is of a type that may serve the model, and, in the request's
    group or one of its automatic groups (on the playground, in a group the user
    may choose), the memory cache lists the channel for the model or its normal
    form and holds it as enabled; or, for a MiniMax-H3 model, which is looked up
    in the database, an enabled ability row of the tables offers the channel
    (its status column is not read).  The handler is given the id of that
    channel. *)
Theorem routed_channel_may_serve (w w' : Web J) d p m :
  router_history (wb_store w) -> NoDup (map c_Id (st_channels (wb_store w))) -> in_SpecificChannelId d = None ->
  route cfg setting cf rnd d w = (Go (Some p, m), w') ->
  model_allowed d m = Go tt /\
  (exists usingGroup g, group_in_force d (wb_usingGroup w) usingGroup /\ group_of cf usingGroup g /\
     may_serve (wb_store w) g m (pk_channel p)) /\
  cx_ChannelId (af_ctx (wb_affinity (snd (SetupContextForSelectedChannel rnd GetParamOverride order (Some p) w')))) = c_Id (pk_channel p).
Proof.
  intros HH HN Hpin E. destruct (router_history_ok _ HH) as [H1 H2]. destruct (route_spec d w w' _ E) as [_ H].
  destruct (H p m ltac:(done) Hpin eq_refl) as (? & _ & ?). split_and!; [done | done|].
  unfold SetupContextForSelectedChannel, ApplyChannelAffinityOverrideTemplate, appendChannelAffinityTemplateAdminInfo.
  cbn [cx_Meta cx_LogInfo]. destruct (cx_Meta _) as [meta|]; [destruct (bool_decide _)|]; unfold on_store; cbn [wb_store];
    destruct (next_key rnd p (wb_store w')) as [[[key i]|e] s1]; done.
Qed.
End Safety.

(** ** Concrete requests *)

Section Requests.
#[local] Existing Instance plain_lo.
#[local] Existing Instance plain_sort.
#[local] Existing Instance cache_on.
#[local] Existing Instance no_json.
#[local] Existing Instance plain_hot.
#[local] Existing Instance plain_redis.
#[local] Existing Instance prefix_regexps.
#[local] Existing Instance plain_digests.

(** Two channels offer gpt-5 to the group vip. *)
Definition vip_tables : Store :=
  mkStore [sample_row 1 "gpt-5" "vip" None; sample_row 2 "gpt-5" "vip" None]
    [mkAbility "vip" "gpt-5" 1 true (Some 0) 5 None; mkAbility "vip" "gpt-5" 2 true (Some 0) 5 None] 3 [] ∅ ∅.
Definition vip_store : Store := snd (InitChannelCache vip_tables).

Definition no_groups : GroupSettings := mkGroupSettings {[ "vip" := "vip" ]} (fun _ => None) [].
Definition relay_cf : RelayConfig := mkRelayConfig 3 no_groups "vip" false false [].
Definition no_override (c : Channel) : gmap string (param unit) := ∅.
Definition any_order (m : gmap string (param unit)) : list (string * param unit) := map_to_list m.

Definition incoming (pin : option string) (session : string) : Incoming :=
  mkIncoming pin (Ok ("gpt-5", true)) true (Some {[ "gpt-5" ]}) (Ok "") (sample_request session).
Definition web (st : Store) (a : Affinity unit) : Web unit := mkWeb st (fresh_ctx a) (mkSelContext None None None) "vip" None ∅.

Definition served_by_2 : Affinity unit := serve memory_cfg cli "s1" "gpt-5" "vip" 2 empty_affinity.
(** The draw that picks the first channel, unless affinity picks another. *)
Notation route_of := (route memory_cfg cli relay_cf (fun _ => 0)).

Definition vip_web : Web unit := web vip_store served_by_2.
Definition channel_2 : Picked := mkPicked (sample_row 2 "gpt-5" "vip" None) true.

Lemma vip_history : router_history memory_cfg cli relay_cf (fun _ => 0) no_override any_order vip_store.
Proof.
  unfold vip_store. apply router_init; [by apply router_new|]. split.
  - apply (bool_decide_unpack _). by vm_compute.
  - intros c Hc. apply elem_of_cons in Hc as [->|Hc]; [|apply elem_of_cons in Hc as [->|Hc]; [|by apply elem_of_nil in Hc]];
      split; apply (bool_decide_unpack _); by vm_compute.
Qed.

Lemma routed_channel_may_serve_witness :
  fst (route_of (incoming None "s1") vip_web) = Go (Some channel_2, "gpt-5") /\
  exists usingGroup g, group_in_force relay_cf (incoming None "s1") "vip" usingGroup /\ group_of relay_cf usingGroup g /\
    may_serve vip_store g "gpt-5" (pk_channel channel_2).
Proof.
  assert (E : fst (route_of (incoming None "s1") vip_web) = Go (Some channel_2, "gpt-5")) by (vm_compute; reflexivity).
  split; [exact E|].
  destruct (routed_channel_may_serve (CF := cache_on) eq_refl memory_cfg cli relay_cf (fun _ => 0) no_override any_order vip_web
    (snd (route_of (incoming None "s1") vip_web)) (incoming None "s1") channel_2 "gpt-5" vip_history) as (_ & Hs & _).
  - apply (bool_decide_unpack _). vm_compute. exact I.
  - reflexivity.
  - rewrite <- E. apply surjective_pairing.
  - exact Hs.
Defined.

(** Without a session the draw decides; a session keeps its channel. *)
Example affinity_decides :
  let chosen d w := match fst (route_of d w) with Go (Some p, _) => Some (c_Id (pk_channel p)) | _ => None end in
  chosen (incoming None "s1") (web vip_store served_by_2) = Some 2 /\
  chosen (incoming None "s9") (web vip_store served_by_2) <> Some 2.
Proof. vm_compute. split; [done | discriminate]. Qed.

(** When the channel of a session is disabled, a rule that forbids retries
    refuses the session until its entry expires, although another channel
    could serve it; a new session is served. *)
Example disabled_channel_refuses_session :
  let st := snd (UpdateChannelStatus 2 "" ChannelStatusAutoDisabled vip_store) in
  fst (route_of (incoming None "s1") (web st served_by_2)) = Abort 403 "the channel of the session is disabled" /\
  match fst (route_of (incoming None "s9") (web st served_by_2)) with Go (Some p, _) => c_Id (pk_channel p) = 1 | _ => False end.
Proof. vm_compute. done. Qed.

(** A channel with two keys, taken in turn. *)
Definition two_keys (status : gmap Z Z) (index : Z) : Channel :=
  mkChannel 1 1 "k1" 1 (Some 5) "gpt-5" "vip" (Some 0) None (mkChannelInfo true 2 status index "polling") ["k1"; "k2"].
Definition keys_store (status : gmap Z Z) : Store :=
  mkStore [two_keys status 0] [mkAbility "vip" "gpt-5" 1 true (Some 0) 5 None] 2 []
    {[ "vip" := {[ "gpt-5" := [1] ]} ]} {[ 1 := two_keys status 0 ]}.

(** The keys that the requests of a list are sent with. *)
Fixpoint keys_used (ds : list Incoming) (w : Web unit) : list (option string) :=
  match ds with
  | [] => []
  | d :: ds =>
      match route_of d w with
      | (Go (p, _), w) =>
          let w := snd (SetupContextForSelectedChannel (fun _ => 0) no_override any_order p w) in
          wb_key w :: keys_used ds (web (wb_store w) (wb_affinity w))
      | (Abort _ _, w) => [None]
      end
  end.

(** A token bound to a channel reads its row from the database: the index that
    polling moves on is lost with that object, and every request takes the
    same key.  Requests that choose the channel take the keys in turn. *)
Example pinned_channel_repeats_its_key :
  keys_used [incoming (Some "1") "a"; incoming (Some "1") "b"; incoming (Some "1") "c"] (web (keys_store ∅) empty_affinity)
    = [Some "k1"; Some "k1"; Some "k1"] /\
  keys_used [incoming None "a"; incoming None "b"; incoming None "c"] (web (keys_store ∅) empty_affinity)
    = [Some "k1"; Some "k2"; Some "k1"].
Proof. vm_compute. done. Qed.

(** The error of [SetupContextForSelectedChannel] is dropped: a request for a
    channel none of whose keys is enabled reaches the handler without a key. *)
Example keyless_channel_reaches_handler :
  let w := web (keys_store {[ 0 := 3; 1 := 3 ]}) empty_affinity in
  let next w := (match wb_key w with Some _ => 200 | None => 599 end, w) in
  fst (Distribute memory_cfg cli relay_cf (fun _ => 0) no_override any_order next (incoming None "a") w) = Go tt /\
  keys_used [incoming None "a"] w = [None].
Proof. vm_compute. done. Qed.
End Requests.
